(* ===== verification/_CoqProject ===== *)
-Q . S2P
Prelude.v
StateMonad.v
Multimap.v
Float32.v
Timers.v
EventMap.v
EventProcessor.v
Reputation.v
Items.v
Inventory.v
Storage.v
StoreMany.v
MoveData.v
MoveOps.v
MoveEquip.v
MoveSwap.v
MoveHandlers.v
MoveCalm.v
MoveInvariant.v
MoveSteps.v
GroupData.v
GroupLoot.v
Groups.v
GroupHandlers.v
GroupLocal.v
GroupMembers.v
GroupInvariant.v
GroupRolls.v
GroupTheorems.v
LfgRoles.v
LfgQueue.v
LfgMatch.v
LfgInvariant.v
LfgTheorems.v
LfgData.v
LfgMgr.v
LfgScripts.v
LfgManager.v
LfgOutcomes.v
LfgVotes.v
LfgDemo.v
GuildData.v
GuildLog.v
GuildRing.v
GuildParts.v
Guilds.v
GuildBank.v
GuildHandlers.v
GuildRun.v
GuildOrder.v
GuildInvariant.v
GuildCreation.v
GuildHistories.v
GuildMoney.v
GuildWealth.v
GuildSpending.v
GuildDemo.v
GuildTheorems.v
Float64.v
BgData.v
BgMatchmaking.v
BgSearch.v
BgQuality.v
BgObjects.v
BgQueue.v
BgUpdate.v
BgHandlers.v
BgCapacity.v
BgSchedule.v
BgDemo.v
BgTheorems.v
MoveOffers.v
MoveWear.v
MoveSearch.v
MovePlans.v
MoveKeep.v
MoveRequests.v
MoveTrade.v
MoveAgain.v
MoveTheorems.v
