(* ===== verification/Prelude.v ===== *)
(** * Verification library of the Risen-Gods world server (TrinityCore 3.3.5)

    The repository is a C++ server for an online game: a world server (src/server/game,
    src/server/worldserver) with its scripts, an authentication server, shared database
    and network layers, vendored libraries (dep/) and data tools. This development
    models parts of the world server's own logic and proves what makes them correct.
    All paths below are relative to src/src of the checkout.

    ** The parts, their files and what is shown

    Shared layers.
    - [Prelude]: fixed-width integers as [Z] with [wrap], [outcome] (a value, or one of
      the ways in which C++ goes wrong: a failed assertion, a dangling access, undefined
      behaviour, fuel), the source of random numbers, and the lemmas on lists and maps.
    - [StateMonad]: handlers as state transformers that may fail, with rules to reason
      about what a handler keeps, and about what it answers.
    - [Multimap]: std::multimap and std::multiset as lists sorted by key.
    - [Float32]: IEEE single precision, for the float arithmetic of the sources.

    Clocks and schedulers (common/Utilities).
    - [Timers] is Timer.h. Time differences on a 32-bit clock are exact modulo 2^32 but
      for one millisecond at a wrap; an interval timer driven as in World::Update loses
      no time.
    - [EventMap] is EventMap.{h,cpp}, the event queue of creature scripts: the schedule
      stays sorted and in range in every history, and polling runs every due event of
      the phase once, in order.
    - [EventProcessor] is EventProcessor.{h,cpp}, the queue of a unit with events that
      call back into it: an update returns, never touches a freed event, and leaves no
      due event.

    Reputation (game/Reputation).
    - [Reputation] is ReputationMgr.{h,cpp}: the counters of ranks count, standings stay
      within their bounds, forced peace is respected, and saving and loading restores
      every standing.

    The inventory (game/Entities/Item, game/Entities/Player/Player.cpp).
    - [Items]: templates, items, bags and what the inventory reads of them.
    - [Inventory]: slots, positions, look-ups and counts: a count is the sum over every
      place an item can be, each once.
    - [Storage]: CanStoreItem, CanBankItem, CanTakeMoreSimilarItems and AddItem: the
      proposed positions are distinct, fit, and hold exactly what was asked.
    - [StoreMany]: CanStoreItems, the check of a trade: the bookings can be carried out
      together.

    Moving items (game/Entities/Player/Player.cpp, Entities/Item, Handlers/ItemHandler.cpp).
    What is done with the answers of the searches: items are objects at addresses, in slots
    of the player or of a bag, that point back at their bag and know their slot; deleting
    one removes its entry of the store, and a later use is [BadPtr].
    - [MoveData]: the state, the update queue, durations, enchantments, bags. [MoveOps]:
      _StoreItem, StoreItem, EquipItem, RemoveItem, DestroyItem and their like.
      [MoveEquip]: CanEquipItem and the limits on what is worn. [MoveSwap]: SplitItem,
      SwapItem, the buyback slots. [MoveHandlers]: the packet handlers, and histories of
      requests ([run_all]).
    - [MoveInvariant]: the inventory in order ([in_order]: every item in one place, both
      sides of every link agree, stacks within their size), and the amount of an entry.
      [MoveCalm]: steps that change neither places nor numbers, for which handlers are
      searched by a hint database. [MoveSteps], [MoveOffers]: taking out, putting in and
      recounting, and which places stay open meanwhile. [MoveWear]: what StoreItem,
      EquipItem and RemoveItem come to.
    - [MoveSearch], [MovePlans]: every answer of CanStoreItem, CanBankItem, CanEquipItem
      and of the plans of SwapItem can be followed. [MoveKeep], [MoveRequests], [MoveTrade]:
      every request keeps the order; those that move keep every amount, those that destroy
      or sell leave at most that. [MoveAgain]: HandleAutoEquipItemOpcode passes the places
      of one search that failed on to the next, which finds nothing more, so that nothing
      is stored twice.
    - [MoveTheorems]: the results, and histories in which the code goes wrong.
    - Fuel: [delete_object] and [DestroyItem_at] go down bags in bags; the theorems say that
      it is enough. A position of the update queue has 16 bits: what happens with more than
      2^15 entries is undefined in the code and left open in the theorems ([Undefined]).
    - What the world database must be like is [templates_ok]: templates under their own
      entry, 32-bit stack sizes, bags that do not stack.

    The dungeon finder (game/DungeonFinding). Players answer a role check, the group
    enters the queue of its team, an update of the queue makes a proposal, the players
    accept or decline it, and a group may vote to kick a member.
    - [LfgRoles]: the two searches for an arrangement of roles (LFGQueue::CheckRoles and
      LFGMgr::CheckGroupRoles); each is characterised, and they agree.
    - [LfgQueue] is LFGQueue.{h,cpp}. [LfgMatch] states which premades can play
      together, [LfgInvariant] the invariant of the queue and that every operation keeps
      it, [LfgTheorems] what follows: proposals are playable groups, no group is missed,
      the longest waiting goes first, nothing dangling is touched.
    - [LfgData] is LFGPlayerData and LFGGroupData, [LfgMgr] the handlers of
      LFGMgr.{h,cpp}, [LfgScripts] the hooks of LFGScripts.cpp by which log-ins and
      changes of groups reach it. The manager's handlers run in a state monad over the
      manager (its stores, the queues, the packets sent).
    - [LfgManager]: the histories of the manager and their invariant. [LfgOutcomes]:
      what a role check, an accepted and a failed proposal leave behind, for every
      player and group. [LfgVotes]: a vote to kick refines an abstract ballot.
      [LfgDemo]: concrete managers, on which the theorems are applied.

    Player groups (game/Groups, Handlers/GroupHandler.cpp, parts of Player.cpp). Groups and
    players are objects in a store that point at each other.
    - [GroupData]: the state, the references between players and groups, and GroupMgr.
    - [GroupLoot]: rolls for items, how they are decided, and round robin.
    - [Groups] is the rest of Group.cpp and the part of LFGMgr::MakeNewGroup that forms a
      group; [GroupHandlers] the packet handlers, log-in and log-out, and histories.
    - [GroupLocal], [GroupMembers], [GroupInvariant]: every request keeps every group in
      order. [GroupRolls]: the dice, the votes and the turns. [GroupTheorems]: the results
      (counters and sizes in every history, the winner of a roll, the vote that decides
      it, everybody's turn) and histories in which the code goes wrong.

    Guilds (game/Guilds, Handlers/GuildHandler.cpp, Entities/Player/PlayerCache, the guild
    statements of CharacterDatabase.cpp, scripts/Commands/cs_guild.cpp). A guild is an entry of a
    store under its id; every change is also a statement appended to a transaction, and a
    statement has the meaning of its SQL text on the tables of the model.
    - [GuildData]: the state, the tables and their statements. [GuildLog]: the bounded logs of
      events, and [GuildRing]: they keep the last entries, and a restart restores them. [GuildParts]: ranks, members, tabs, rights and limits. [Guilds] is the rest of
      Guild.cpp and GuildMgr.cpp; [GuildBank] moves items between the slots of a bank
      (SwapItems); [GuildHandlers] the packet handlers, commands, log-in, and histories.
    - [GuildRun]: what the primitive steps answer. [GuildOrder], [GuildInvariant],
      [GuildCreation], [GuildHistories]: every request keeps every guild in order.
      [GuildMoney], [GuildWealth], [GuildSpending]: no history makes money.
      [GuildDemo], [GuildTheorems]: the results, and histories in which the code goes wrong.
    - [erase_all], the loop that empties a guild, takes fuel: the number of members is
      enough, for each turn removes one. Not modelled: items moved between a player and the
      bank, calendar invitations, script hooks.

    Battlegrounds and arenas (game/Battlegrounds, Cfbg/Cfbg.cpp, Handlers/BattleGroundHandler.cpp,
    parts of Player.cpp and Group.cpp). Players queue alone or in groups; an update of a queue
    forms teams and invites them to a battleground; an invitation is accepted, declined or
    withdrawn by an event; what happens inside is not modelled.
    - [Float64]: double precision, by the standard library's specification of IEEE floats.
    - [BgData]: the state and the configuration ([BgEnv]). [BgMatchmaking] is
      Matchmaking.{hpp,cpp} and the search of MatchmakingArena.cpp, with the qualities as
      floats; [BgObjects] the battleground as the queues see it, BattlegroundMgr and the
      queue slots of a player; [BgQueue] is BattlegroundQueue.cpp without its updates, which
      are [BgUpdate] (with the two matchmakings and the events); [BgHandlers] the packet
      handlers, log-out, and histories.
    - [BgSearch], [BgQuality]: what the search answers and when it comes to an end, for any
      quality and for those of the code. [BgCapacity]: battlegrounds are never overfilled.
      [BgSchedule]: waiting times, scheduled updates, the teams of a rated match.
      [BgDemo], [BgTheorems]: the results on a concrete server.
    - Fuel: the search takes a round for every queued group, as each round assigns one
      ([ArenaFindProposal_returns], [FindProposal_returns]; [search_hangs] says when none is
      assigned); [RemovePlayer] one for every queued player ([RemovePlayer_returns]);
      [even_out] one for every group that can still be offered or kicked.

    ** How the code is represented

    A C++ map or unordered map is a [gmap], and an iteration over an ordered one goes
    through [items] (sorted by key); sets are [gset]. An object reached by pointer in
    several places is an entry of a store under its guid or address, read again at every
    access. An operation that throws, asserts or dereferences a dead iterator answers the
    corresponding failure of [outcome], so "it returns" is part of the theorems. Calls
    into code that is not modelled (other components, the database, the client's data
    files, random numbers) are the fields of a class ([RepEnv], [ItemEnv], [LfgEnv],
    [MgrEnv], [GuildEnv], [BgEnv], [Random], ...): what they answer is arbitrary, and the few facts needed of
    them are stated where they are used. Log output is left out; packets are kept where
    a theorem speaks of them.

    ** Fuel

    Recursion that is not structural takes fuel and answers [OutOfFuel] without it.
    EventProcessor.update_loop: the number of queued events and of those that running
    them may add ([Update_safe] gives the bound). LfgRoles.CheckGroupRoles: every call
    strips a role bit, so one more than the number of bits is enough ([CheckGroupRoles_spec] shows that it returns). GroupLoot.EndRoll: one more than the
    number of rolls, as every round erases one. The other loops are structural in the
    data they walk over.

    ** Not modelled, and why

    Vendored code, the databases, the sockets, threads and log files; the client's data
    files; terrain, visibility and movement (floating-point geometry over navmesh data);
    spells, auras and creature scripts (thousands of data-driven effects over the whole
    of Unit). Within the modelled parts: buying from vendors, wrapping, sockets, refunds and
    trade, item persistence; of the stats, auras, quests and achievements that moving items
    changes only that they are told (effects); teleports, rewards, the loading of dungeons and the locked dungeons of the dungeon finder, whose
    effects enter as parameters; the instances groups are bound to, ready checks and the
    loading of groups at the start of the server; the inside of a battleground
    (Battleground::Update, the scripts of the maps), the ratings after an arena, teleports
    and announcements.

    ** Plan

    Next: buying and trading items, the player side of the guild bank, arena teams,
    calendar, channels, pools and auctions. *)
From Stdlib Require Export ZArith Lia Bool.
From stdpp Require Export base tactics list sorting gmap sets strings numbers fin_maps.

#[global] Open Scope Z_scope.

(** ** Fixed-width integers

    A C++ integer of width [w] is a [Z]; a conversion to that width, and
    arithmetic on an unsigned type, is the wrap-around below. *)
Definition wrap (w x : Z) : Z := x `mod` 2 ^ w.
Abbreviation u8 := (wrap 8).
Abbreviation u16 := (wrap 16).
Abbreviation u32 := (wrap 32).
Abbreviation u64 := (wrap 64).

(** Two's complement reading of the low 32 bits ([int32(x)]). *)
Definition s32 (x : Z) : Z := (x + 2 ^ 31) `mod` 2 ^ 32 - 2 ^ 31.

Definition in_u (w x : Z) : Prop := 0 ≤ x < 2 ^ w.
Abbreviation in_u8 := (in_u 8).
Abbreviation in_u16 := (in_u 16).
Abbreviation in_u32 := (in_u 32).
Abbreviation in_u64 := (in_u 64).
Definition in_s32 (x : Z) : Prop := - 2 ^ 31 ≤ x < 2 ^ 31.

(** The C condition [x & m]. *)
Definition tst (x m : Z) : bool := negb (Z.land x m =? 0).

Declare Scope rg_scope.
Delimit Scope rg_scope with rg.
Notation "x .& m" := (tst x m) (at level 40, no associativity) : rg_scope.
#[global] Open Scope rg_scope.

Create HintDb rg discriminated.

(** ** Tactics shared by the components *)

(** Split a boolean test of the goal or of a hypothesis. *)
Ltac case_bool :=
  match goal with
  | |- context [if ?b then _ else _] => let E := fresh "E" in destruct b eqn:E
  | H : context [if ?b then _ else _] |- _ => let E := fresh "E" in destruct b eqn:E
  end.

(** Turn boolean comparisons of the context into propositions. *)
Ltac b2p :=
  repeat match goal with
  | H : (_ <? _) = true |- _ => apply Z.ltb_lt in H
  | H : (_ <? _) = false |- _ => apply Z.ltb_ge in H
  | H : (_ <=? _) = true |- _ => apply Z.leb_le in H
  | H : (_ <=? _) = false |- _ => apply Z.leb_gt in H
  | H : (_ =? _) = true |- _ => apply Z.eqb_eq in H
  | H : (_ =? _) = false |- _ => apply Z.eqb_neq in H
  | H : (_ && _) = true |- _ => apply andb_true_iff in H as [? ?]
  | H : (_ || _) = false |- _ => apply orb_false_iff in H as [? ?]
  | H : negb _ = true |- _ => apply negb_true_iff in H
  | H : negb _ = false |- _ => apply negb_false_iff in H
  end.

(** [lia] after the division equations of the [mod]s and [div]s in sight. *)
Ltac zlia := Z.div_mod_to_equations; lia.

(** ** Integers *)
Lemma wrap_range w x : 0 ≤ w → in_u w (wrap w x).
Proof. intros Hw. unfold in_u, wrap. apply Z.mod_pos_bound. lia. Qed.

Lemma wrap_small w x : in_u w x → wrap w x = x.
Proof. intros H. unfold wrap. by apply Z.mod_small. Qed.

Lemma wrap_add_l w x y : wrap w (wrap w x + y) = wrap w (x + y).
Proof. unfold wrap. apply Zplus_mod_idemp_l. Qed.

Lemma wrap_add_r w x y : wrap w (x + wrap w y) = wrap w (x + y).
Proof. unfold wrap. apply Zplus_mod_idemp_r. Qed.

Lemma wrap_sub_l w x y : wrap w (wrap w x - y) = wrap w (x - y).
Proof. unfold wrap. apply Zminus_mod_idemp_l. Qed.

Lemma s32_range x : in_s32 (s32 x).
Proof. unfold in_s32, s32. zlia. Qed.

Lemma s32_small x : in_s32 x → s32 x = x.
Proof. unfold in_s32, s32. intros. zlia. Qed.

#[export] Hint Resolve wrap_range s32_range : rg.
#[export] Hint Extern 1 (0 ≤ _) => lia : rg.

Lemma land_range w x y : 0 ≤ w → in_u w x → 0 ≤ y → in_u w (Z.land x y).
Proof.
  intros Hw [Hx0 Hx] Hy. unfold in_u. split; [apply Z.land_nonneg; lia|].
  destruct (decide (Z.land x y = 0)) as [->|Hne]; [lia|].
  assert (0 ≤ Z.land x y) by (apply Z.land_nonneg; lia).
  apply Z.log2_lt_pow2; [lia|].
  pose proof (Z.log2_land x y Hx0 Hy).
  destruct (decide (x = 0)) as [->|Hx1]; [by rewrite Z.land_0_l in Hne|].
  assert (Z.log2 x < w) by (apply Z.log2_lt_pow2; lia). lia.
Qed.

(** A fact about bytes, checked on all of them. *)
Lemma u8_all (P : Z → bool) :
  forallb P (seqZ 0 256) = true → ∀ r, in_u8 r → P r = true.
Proof.
  intros H r Hr. rewrite forallb_forall in H. apply H.
  apply list_elem_of_In, elem_of_seqZ. unfold in_u in Hr. lia.
Qed.

Lemma lor_range w x y : 0 ≤ w → in_u w x → in_u w y → in_u w (Z.lor x y).
Proof.
  intros Hw [Hx0 Hx] [Hy0 Hy].
  assert (0 ≤ Z.lor x y) by (apply Z.lor_nonneg; lia).
  split; [done|]. destruct (decide (Z.lor x y = 0)) as [->|Hne]; [lia|].
  apply Z.log2_lt_pow2; [lia|]. rewrite Z.log2_lor by lia.
  destruct (decide (0 < x)), (decide (0 < y)).
  - apply Z.max_lub_lt; apply Z.log2_lt_pow2; lia.
  - replace y with 0 by lia. rewrite Z.max_l by apply Z.log2_nonneg.
    apply Z.log2_lt_pow2; lia.
  - replace x with 0 by lia. rewrite Z.max_r by apply Z.log2_nonneg.
    apply Z.log2_lt_pow2; lia.
  - exfalso. apply Hne. replace x with 0 by lia. replace y with 0 by lia. done.
Qed.

(** Packing: [(a << k) | b] for [b] below [2 ^ k]. *)
Lemma lor_shiftl a b k : 0 ≤ k → 0 ≤ b < 2 ^ k → Z.lor (Z.shiftl a k) b = a * 2 ^ k + b.
Proof.
  intros Hk Hb. rewrite Z.shiftl_mul_pow2 by done.
  assert (Z.land (a * 2 ^ k) b = 0) as Hl.
  { apply Z.bits_inj'. intros n Hn. rewrite Z.land_spec, Z.bits_0.
    destruct (Z.ltb_spec n k); [by rewrite Z.mul_pow2_bits_low by lia|].
    destruct (decide (b = 0)) as [->|]; [by rewrite Z.bits_0, andb_false_r|].
    rewrite (Z.bits_above_log2 b n), andb_false_r; [done|lia|].
    apply Z.lt_le_trans with k; [apply Z.log2_lt_pow2; lia|lia]. }
  rewrite <- Z.lxor_lor by done. by rewrite Z.add_nocarry_lxor.
Qed.

(** ** Lists *)
Section lists.
Context {A B : Type}.

Lemma filter_id (P : A → Prop) `{∀ x, Decision (P x)} (l : list A) :
  Forall P l → filter P l = l.
Proof.
  induction 1 as [|x l Hx Hl IH]; [done|]. by rewrite filter_cons_True, IH.
Qed.

Lemma filter_none (P : A → Prop) `{∀ x, Decision (P x)} (l : list A) :
  Forall (λ x, ¬ P x) l → filter P l = [].
Proof.
  induction 1 as [|x l Hx Hl IH]; [done|]. by rewrite filter_cons_False, IH.
Qed.

Lemma StronglySorted_filter (R : relation A) (P : A → Prop) `{∀ x, Decision (P x)} l :
  StronglySorted R l → StronglySorted R (filter P l).
Proof.
  induction 1 as [|x l Hl IH Hx]; [constructor|].
  rewrite filter_cons. case_decide; [|done].
  constructor; [done|]. rewrite Forall_forall in *. intros y Hy.
  apply list_elem_of_filter in Hy as [_ Hy]. auto.
Qed.
End lists.

(** What every step of a loop preserves. *)
Lemma foldl_inv {A B} (P : A → Prop) (f : A → B → A) l a :
  P a → (∀ a b, P a → P (f a b)) → P (foldl f a l).
Proof. intros Ha Hf. revert a Ha. induction l as [|b l IH]; intros a Ha; simpl; auto. Qed.

(** ** Outcomes of code that can assert, dereference or fail to terminate

    [AssertFail] is a failed [ASSERT], [BadPtr] a dereference of a freed or null
    pointer, [Undefined] other undefined behaviour (a division by zero, a
    [std::set] whose keys were changed in place), [OutOfFuel] the bound given to a
    loop. *)
Inductive outcome (A : Type) : Type :=
| Ok (a : A)
| AssertFail
| BadPtr
| Undefined
| OutOfFuel.
Arguments Ok {A} _.
Arguments AssertFail {A}.
Arguments BadPtr {A}.
Arguments Undefined {A}.
Arguments OutOfFuel {A}.

Definition obind {A B} (m : outcome A) (f : A → outcome B) : outcome B :=
  match m with
  | Ok a => f a
  | AssertFail => AssertFail
  | BadPtr => BadPtr
  | Undefined => Undefined
  | OutOfFuel => OutOfFuel
  end.

Notation "'let!' x ':=' m 'in' k" := (obind m (λ x, k))
  (at level 10, x pattern, m at level 200, k at level 200) : rg_scope.

Definition assert_ (b : bool) {A} (k : outcome A) : outcome A :=
  if b then k else AssertFail.
Definition deref {A B} (o : option A) (k : A → outcome B) : outcome B :=
  match o with Some a => k a | None => BadPtr end.

(** ** Random numbers *)

(** [urand(min, max)] draws from the state of the random number generator. *)
Class Random := {
  rng : Type;
  urand : rng → Z → Z → Z * rng;
  urand_range : ∀ s min max, min ≤ max → min ≤ (urand s min max).1 ≤ max
}.

(** ** [std::map] with integer keys

    A [gmap Z V]; where the code iterates, the entries in increasing key order. *)
Definition by_key {V} (a b : Z * V) : Prop := a.1 ≤ b.1.
#[global] Instance by_key_dec {V} : RelDecision (@by_key V).
Proof. intros a b. unfold by_key. apply _. Defined.
#[global] Instance by_key_total {V} : Total (@by_key V).
Proof. intros a b. unfold by_key. lia. Qed.
#[global] Instance by_key_trans {V} : Transitive (@by_key V).
Proof. intros a b c. unfold by_key. lia. Qed.

Definition items {V} (m : gmap Z V) : list (Z * V) := merge_sort by_key (map_to_list m).

Section items.
Context {V : Type}.
Implicit Types m : gmap Z V.

Lemma items_Permutation m : items m ≡ₚ map_to_list m.
Proof. apply merge_sort_Permutation. Qed.

Lemma items_elem m k v : (k, v) ∈ items m ↔ m !! k = Some v.
Proof. rewrite items_Permutation. apply elem_of_map_to_list. Qed.

Lemma items_NoDup m : NoDup (items m).*1.
Proof. rewrite items_Permutation. apply NoDup_fst_map_to_list. Qed.

Lemma items_sorted m : Sorted by_key (items m).
Proof. apply Sorted_merge_sort, _. Qed.

(** The iteration order: strictly increasing keys. *)
Lemma items_lt m : StronglySorted (λ a b, a.1 < b.1) (items m).
Proof.
  assert (StronglySorted by_key (items m)) as Hs.
  { apply (StronglySorted_merge_sort by_key). }
  pose proof (items_NoDup m) as Hn. induction Hs as [|a l Hl IH Ha]; [constructor|].
  simpl in Hn. apply NoDup_cons in Hn as [Hni Hn]. constructor; [auto|].
  rewrite Forall_forall in *. intros b Hb. specialize (Ha b Hb). unfold by_key in Ha.
  assert (a.1 ≠ b.1); [|lia]. intros E. apply Hni. rewrite E. by apply list_elem_of_fmap_2.
Qed.
End items.

(** [std::map::insert]: an existing entry stays. *)
Definition emplace {V} (k : Z) (v : V) (m : gmap Z V) : gmap Z V :=
  match m !! k with Some _ => m | None => <[k := v]> m end.

(** Counting the entries of a map that satisfy a boolean predicate. *)
Definition count_if {V} (p : V → bool) (m : gmap Z V) : Z :=
  Z.of_nat (size (filter (λ kv : Z * V, p kv.2 = true) m)).

Lemma count_if_nonneg {V} (p : V → bool) (m : gmap Z V) : 0 ≤ count_if p m.
Proof. unfold count_if. lia. Qed.

Lemma count_if_insert_new {V} (p : V → bool) (m : gmap Z V) k x :
  m !! k = None → count_if p (<[k := x]> m) = count_if p m + (if p x then 1 else 0).
Proof.
  intros Hk. unfold count_if. destruct (p x) eqn:E.
  - rewrite map_filter_insert_True by done. rewrite map_size_insert_None; [lia|].
    apply map_lookup_filter_None. by left.
  - rewrite map_filter_insert_not' ; [lia|simpl; congruence|]. intros y Hy. congruence.
Qed.

Lemma count_if_le {V W} (p : V → bool) (q : W → bool) (m : gmap Z V) (m' : gmap Z W) :
  (∀ k v, m !! k = Some v → p v = true → ∃ w, m' !! k = Some w ∧ q w = true) →
  count_if p m ≤ count_if q m'.
Proof.
  intros H. unfold count_if. rewrite <- !size_dom. apply inj_le, subseteq_size.
  intros k Hk. apply elem_of_dom in Hk as [v Hv].
  apply map_lookup_filter_Some in Hv as [Hv Hp]. destruct (H k v Hv Hp) as (w & Hw & Hq).
  apply elem_of_dom. exists w. by apply map_lookup_filter_Some.
Qed.

Lemma count_if_fmap {V W} (f : V → W) (p : W → bool) (m : gmap Z V) :
  count_if p (f <$> m) = count_if (λ v, p (f v)) m.
Proof.
  induction m as [|k v m Hk IH] using map_ind; [done|].
  rewrite fmap_insert, !count_if_insert_new; [by rewrite IH|done|].
  by rewrite lookup_fmap, Hk.
Qed.

Lemma count_if_none {V} (p : V → bool) (m : gmap Z V) :
  (∀ k v, m !! k = Some v → p v = false) → count_if p m = 0.
Proof.
  intros H. apply Z.le_antisymm; [|apply count_if_nonneg].
  change 0 with (count_if (λ _ : V, true) ∅). apply count_if_le.
  intros k v Hk Hp. rewrite (H k v Hk) in Hp. done.
Qed.

Lemma count_if_insert {V} (p : V → bool) (m : gmap Z V) k x x' :
  m !! k = Some x →
  count_if p (<[k := x']> m)
  = count_if p m - (if p x then 1 else 0) + (if p x' then 1 else 0).
Proof.
  intros Hk. rewrite <- (insert_delete_id m k x Hk) at 2.
  rewrite <- (insert_delete_eq m k x').
  rewrite !count_if_insert_new by apply lookup_delete_eq. lia.
Qed.

Lemma count_if_ext {V} (p q : V → bool) (m : gmap Z V) :
  (∀ k v, m !! k = Some v → p v = q v) → count_if p m = count_if q m.
Proof.
  intros H. unfold count_if. do 2 f_equal. apply map_filter_ext.
  intros k v Hk. simpl. by rewrite (H k v Hk).
Qed.
