(* ===== verification/StateMonad.v ===== *)
(** * Handlers as state transformers

    The handlers of the larger components run on a state record and may fail: [ST S A]
    takes the state to an [outcome] with a result and the next state. Two ways to
    reason: [keeps R k], whatever [k] answers is related by [R] to where it began; and
    [triple P k Q], from a state of [P] the handler answers, and its answer is in [Q]. *)
From S2P Require Import Prelude.

Definition ST (S A : Type) : Type := S → outcome (A * S).

#[global] Instance ST_ret {S} : MRet (ST S) := λ A a s, Ok (a, s).
#[global] Instance ST_bind {S} : MBind (ST S) := λ A B f k s, let! (a, s) := k s in f a s.

Definition get {S} : ST S S := λ s, Ok (s, s).
Definition modify {S} (f : S → S) : ST S unit := λ s, Ok (tt, f s).
Definition lift {S A} (o : outcome A) : ST S A := λ s, let! a := o in Ok (a, s).
Definition skip {S} : ST S unit := mret tt.
Definition when {S} (b : bool) (k : ST S unit) : ST S unit := if b then k else skip.

Fixpoint for_each {S A} (l : list A) (f : A → ST S unit) : ST S unit :=
  match l with
  | [] => skip
  | a :: l => _ ← f a; for_each l f
  end.

(** ** What an answer says about the run *)

Section runs.
Context {S : Type}.

Lemma bind_Ok {A B} (k : ST S A) (f : A → ST S B) m b m' :
  (k ≫= f) m = Ok (b, m') → ∃ a m1, k m = Ok (a, m1) ∧ f a m1 = Ok (b, m').
Proof. unfold mbind, ST_bind. destruct (k m) as [[a m1]| | | |]; try done. cbn. eauto. Qed.

Lemma bind_run {A B} (k : ST S A) (f : A → ST S B) m a m1 :
  k m = Ok (a, m1) → (k ≫= f) m = f a m1.
Proof. intros E. unfold mbind, ST_bind. by rewrite E. Qed.

Lemma lift_Ok {A} (o : outcome A) (m : S) a m' : lift o m = Ok (a, m') → o = Ok a ∧ m' = m.
Proof. unfold lift. destruct o; try done. cbn. by intros [= -> ->]. Qed.

Lemma modify_Ok (f : S → S) m a m' : modify f m = Ok (a, m') → a = tt ∧ m' = f m.
Proof. by intros [= <- <-]. Qed.
End runs.

(** The result of a handler, taken apart. *)
Ltac run_inv :=
  repeat match goal with
  | H : (_ ≫= _) _ = Ok _ |- _ =>
    let a := fresh "a" in let m1 := fresh "m" in let E := fresh "E" in
    apply bind_Ok in H as (a & m1 & E & H)
  | H : get _ = Ok _ |- _ => injection H as <- <-
  | H : modify _ _ = Ok _ |- _ => apply modify_Ok in H; cbv beta in H; destruct H as [-> ->]
  | H : mret _ _ = Ok _ |- _ => injection H as <- <-
  | H : skip _ = Ok _ |- _ => injection H as <- <-
  | H : lift _ _ = Ok _ |- _ => apply lift_Ok in H as [? ->]
  end.

(** ** Relations that a handler keeps *)

Definition keeps {S A} (R : S → S → Prop) (k : ST S A) : Prop :=
  ∀ m a m', k m = Ok (a, m') → R m m'.

Section keeps.
Context {S : Type} (R : S → S → Prop) `{!PreOrder R}.

Lemma keeps_ret {A} (a : A) : keeps R (mret a).
Proof. intros m a' m' [= _ <-]. reflexivity. Qed.
Lemma keeps_get : keeps R get.
Proof. intros m a m' [= _ <-]. reflexivity. Qed.
Lemma keeps_lift {A} (o : outcome A) : keeps R (lift o).
Proof. intros m a m' [_ ->]%lift_Ok. reflexivity. Qed.
Lemma keeps_skip : keeps R skip.
Proof. apply keeps_ret. Qed.

Lemma keeps_bind {A B} (k : ST S A) (f : A → ST S B) :
  keeps R k → (∀ a, keeps R (f a)) → keeps R (k ≫= f).
Proof.
  intros Hk Hf m b m' (a & m1 & E1 & E2)%bind_Ok.
  etransitivity; [by eapply Hk|by eapply Hf].
Qed.

Lemma keeps_lift_bind {A B} (o : outcome A) (f : A → ST S B) :
  (∀ a, o = Ok a → keeps R (f a)) → keeps R (lift o ≫= f).
Proof. intros Hf m b m' (a & m1 & [E ->]%lift_Ok & H)%bind_Ok. by eapply Hf. Qed.
Lemma keeps_when b k : keeps R k → keeps R (when b k).
Proof. intros H. destruct b; [done|apply keeps_skip]. Qed.

Lemma keeps_for_each {A} (l : list A) (f : A → ST S unit) :
  (∀ a, a ∈ l → keeps R (f a)) → keeps R (for_each l f).
Proof.
  induction l as [|a l IH]; intros H; [apply keeps_skip|]. cbn. apply keeps_bind.
  - apply H. set_solver.
  - intros _. apply IH. set_solver.
Qed.
End keeps.

(** Through a handler's code, down to the operations that [leaf] knows. *)
Ltac keeps_step leaf :=
  match goal with
  | |- keeps _ (_ ≫= _) => apply keeps_bind; [apply _| |intros ?]
  | |- keeps _ (when _ _) => apply keeps_when; [apply _|]
  | |- keeps _ (for_each _ _) => apply keeps_for_each; [apply _|intros ? ?]
  | |- keeps _ (mret _) => apply keeps_ret, _
  | |- keeps _ skip => apply keeps_skip, _
  | |- keeps _ get => apply keeps_get, _
  | |- keeps _ (lift _) => apply keeps_lift, _
  | |- keeps _ (if ?b then _ else _) => destruct b eqn:?
  | |- keeps _ (match ?x with _ => _ end) => destruct x eqn:?
  | |- keeps _ (let _ := _ in _) => cbv zeta
  | _ => leaf
  end.

(** ** Total correctness *)

Definition triple {S A} (P : S → Prop) (k : ST S A) (Q : A → S → Prop) : Prop :=
  ∀ s, P s → ∃ a s', k s = Ok (a, s') ∧ Q a s'.

Section triple.
Context {S : Type}.

Lemma triple_ret {A} (a : A) (P : S → Prop) (Q : A → S → Prop) : (∀ s, P s → Q a s) → triple P (mret a) Q.
Proof. intros H s Hs. exists a, s. auto. Qed.
Lemma triple_skip (P : S → Prop) (Q : unit → S → Prop) : (∀ s, P s → Q tt s) → triple P skip Q.
Proof. apply triple_ret. Qed.
Lemma triple_get (P : S → Prop) (Q : S → S → Prop) : (∀ s, P s → Q s s) → triple P get Q.
Proof. intros H s Hs. exists s, s. auto. Qed.
Lemma triple_modify f (P : S → Prop) (Q : unit → S → Prop) : (∀ s, P s → Q tt (f s)) → triple P (modify f) Q.
Proof. intros H s Hs. exists tt, (f s). auto. Qed.

Lemma triple_bind {A B} (k : ST S A) (f : A → ST S B) (P : S → Prop) (M : A → S → Prop) (Q : B → S → Prop) :
  triple P k M → (∀ a, triple (M a) (f a) Q) → triple P (k ≫= f) Q.
Proof.
  intros Hk Hf s Hs. destruct (Hk s Hs) as (a & s1 & E & H1). destruct (Hf a s1 H1) as (b & s2 & E2 & H2).
  exists b, s2. split; [|done]. by rewrite (bind_run _ _ _ _ _ E).
Qed.

(** Reading the state: the rest runs from the state that was read. *)
Lemma triple_read {B} (f : S → ST S B) (P : S → Prop) (Q : B → S → Prop) :
  (∀ s, P s → ∃ b s', f s s = Ok (b, s') ∧ Q b s') → triple P (get ≫= f) Q.
Proof. intros H s Hs. destruct (H s Hs) as (b & s' & E & HQ). exists b, s'. by split. Qed.

Lemma triple_weaken {A} (k : ST S A) (P P' : S → Prop) (Q Q' : A → S → Prop) :
  triple P k Q → (∀ s, P' s → P s) → (∀ a s, Q a s → Q' a s) → triple P' k Q'.
Proof. intros H HP HQ s Hs. destruct (H s (HP s Hs)) as (a & s' & E & HQ'). exists a, s'. auto. Qed.

Lemma triple_for_each {A} (l : list A) (f : A → ST S unit) (I : list A → S → Prop) :
  (∀ a rest, triple (I (a :: rest)) (f a) (λ _, I rest)) → triple (I l) (for_each l f) (λ _, I []).
Proof.
  intros Hf. induction l as [|a l IH]; [by apply triple_skip|]. cbn.
  eapply triple_bind; [apply Hf|]. intros ?. apply IH.
Qed.

(** The loop preserves an invariant. *)
Lemma triple_loop {A} (l : list A) (f : A → ST S unit) (I : S → Prop) :
  (∀ a, a ∈ l → triple I (f a) (λ _, I)) → triple I (for_each l f) (λ _, I).
Proof.
  induction l as [|a l IH]; intros Hf; [by apply triple_skip|]. cbn.
  eapply triple_bind; [apply Hf; set_solver|]. intros ?. apply IH. intros b Hb. apply Hf. set_solver.
Qed.
End triple.

(** ** Partial correctness: where a handler answers, its answer is in [Q] *)

Definition partial {S A} (P : S → Prop) (k : ST S A) (Q : A → S → Prop) : Prop :=
  ∀ s a s', k s = Ok (a, s') → P s → Q a s'.
(** [P] is not lost. *)
Definition kept {S} (P : S → Prop) (s s' : S) : Prop := P s → P s'.
#[export] Instance kept_pre {S} (P : S → Prop) : PreOrder (kept P).
Proof. split; unfold kept; [by intros ?|intros ? ? ?; auto]. Qed.

Section partial.
Context {S : Type}.

Lemma partial_bind {A B} (k : ST S A) (f : A → ST S B) (P : S → Prop) (M : A → S → Prop) (Q : B → S → Prop) :
  partial P k M → (∀ a, partial (M a) (f a) Q) → partial P (k ≫= f) Q.
Proof. intros Hk Hf s b s' (a & s1 & E1 & E2)%bind_Ok HP. eapply Hf; [exact E2|]. by eapply Hk. Qed.
Lemma partial_kept {A} (k : ST S A) (P : S → Prop) : keeps (kept P) k → partial P k (λ _, P).
Proof. intros H s a s' E. exact (H s a s' E). Qed.
Lemma partial_step {A B} (k : ST S A) (f : A → ST S B) (P : S → Prop) (Q : B → S → Prop) :
  keeps (kept P) k → (∀ a, partial P (f a) Q) → partial P (k ≫= f) Q.
Proof. intros Hk Hf. eapply partial_bind; [by apply partial_kept|exact Hf]. Qed.
Lemma partial_ret {A} (a : A) (P : S → Prop) (Q : A → S → Prop) : (∀ s, P s → Q a s) → partial P (mret a) Q.
Proof. intros H s a' s' [= <- <-]. apply H. Qed.
Lemma partial_for_each {A} (l : list A) (f : A → ST S unit) (I : list A → S → Prop) :
  (∀ a rest, partial (I (a :: rest)) (f a) (λ _, I rest)) → partial (I l) (for_each l f) (λ _, I []).
Proof.
  intros Hf. induction l as [|a l IH]; [by apply partial_ret|]. cbn.
  eapply partial_bind; [apply Hf|]. intros ?. apply IH.
Qed.
Lemma partial_weaken {A} (k : ST S A) (P P' : S → Prop) (Q Q' : A → S → Prop) :
  partial P k Q → (∀ s, P' s → P s) → (∀ a s, Q a s → Q' a s) → partial P' k Q'.
Proof. intros H HP HQ s a s' E Hs. eapply HQ, H; [exact E|auto]. Qed.
End partial.

(** ** Safety: a handler answers in [Q], or has undefined behaviour; no other failure *)

Definition safe {S A} (P : S → Prop) (k : ST S A) (Q : A → S → Prop) : Prop :=
  ∀ s, P s → match k s with Ok (a, s') => Q a s' | Undefined => True | _ => False end.

Section safe.
Context {S : Type}.

Lemma safe_ret {A} (a : A) (P : S → Prop) (Q : A → S → Prop) : (∀ s, P s → Q a s) → safe P (mret a) Q.
Proof. intros H s Hs. cbn. auto. Qed.
Lemma safe_skip (P : S → Prop) (Q : unit → S → Prop) : (∀ s, P s → Q tt s) → safe P skip Q.
Proof. apply safe_ret. Qed.
Lemma safe_modify f (P : S → Prop) (Q : unit → S → Prop) : (∀ s, P s → Q tt (f s)) → safe P (modify f) Q.
Proof. intros H s Hs. cbn. auto. Qed.
Lemma safe_bind {A B} (k : ST S A) (f : A → ST S B) (P : S → Prop) (M : A → S → Prop) (Q : B → S → Prop) :
  safe P k M → (∀ a, safe (M a) (f a) Q) → safe P (k ≫= f) Q.
Proof.
  intros Hk Hf s Hs. specialize (Hk s Hs). unfold mbind, ST_bind. destruct (k s) as [[a s1]| | | |]; try done.
  exact (Hf a s1 Hk).
Qed.
(** Reading the state. *)
Lemma safe_get {B} (f : S → ST S B) (P : S → Prop) (Q : B → S → Prop) :
  (∀ s0, P s0 → safe (λ s, s = s0) (f s0) Q) → safe P (get ≫= f) Q.
Proof. intros H s Hs. exact (H s Hs s eq_refl). Qed.
Lemma safe_weaken {A} (k : ST S A) (P P' : S → Prop) (Q Q' : A → S → Prop) :
  safe P k Q → (∀ s, P' s → P s) → (∀ a s, Q a s → Q' a s) → safe P' k Q'.
Proof.
  intros H HP HQ s Hs. specialize (H s (HP s Hs)). destruct (k s) as [[a s']| | | |]; try done. auto.
Qed.
Lemma safe_when (b : bool) k (P : S → Prop) (Q : unit → S → Prop) :
  (b = true → safe P k Q) → (b = false → ∀ s, P s → Q tt s) → safe P (when b k) Q.
Proof. intros H1 H2. destruct b; [auto|by apply safe_skip, H2]. Qed.
(** The loop preserves an invariant. *)
Lemma safe_loop {A} (l : list A) (f : A → ST S unit) (I : S → Prop) :
  (∀ a, a ∈ l → safe I (f a) (λ _, I)) → safe I (for_each l f) (λ _, I).
Proof.
  induction l as [|a l IH]; intros Hf; [by apply safe_skip|]. cbn.
  eapply safe_bind; [apply Hf; set_solver|]. intros ?. apply IH. intros b Hb. apply Hf. set_solver.
Qed.
(** What is known of the start may be used. *)
Lemma safe_pure {A} (k : ST S A) (P : S → Prop) (Q : A → S → Prop) :
  (∀ s, P s → safe (λ s', s' = s) k Q) → safe P k Q.
Proof. intros H s Hs. exact (H s Hs s eq_refl). Qed.
End safe.

(** *** The same from one state on *)

Definition wp {S A} (k : ST S A) (Q : A → S → Prop) (s : S) : Prop :=
  match k s with Ok (a, s') => Q a s' | Undefined => True | _ => False end.

Section wp.
Context {S : Type}.

Lemma wp_ret {A} (a : A) (Q : A → S → Prop) s : Q a s → wp (mret a) Q s.
Proof. done. Qed.
Lemma wp_skip (Q : unit → S → Prop) s : Q tt s → wp skip Q s.
Proof. done. Qed.
Lemma wp_modify f (Q : unit → S → Prop) s : Q tt (f s) → wp (modify f) Q s.
Proof. done. Qed.
Lemma wp_undefined {A} (Q : A → S → Prop) s : wp (lift Undefined) Q s.
Proof. done. Qed.
Lemma wp_bind {A B} (k : ST S A) (f : A → ST S B) (Q : B → S → Prop) s :
  wp k (λ a, wp (f a) Q) s → wp (k ≫= f) Q s.
Proof. unfold wp, mbind, ST_bind. by destruct (k s) as [[a s']| | | |]. Qed.
Lemma wp_get {B} (f : S → ST S B) (Q : B → S → Prop) s : wp (f s) Q s → wp (get ≫= f) Q s.
Proof. done. Qed.
Lemma wp_mono {A} (k : ST S A) (Q Q' : A → S → Prop) s : wp k Q s → (∀ a s', Q a s' → Q' a s') → wp k Q' s.
Proof. unfold wp. intros H HQ. destruct (k s) as [[a s']| | | |]; auto. Qed.
Lemma wp_and {A} (k : ST S A) (Q Q' : A → S → Prop) s : wp k Q s → wp k Q' s → wp k (λ a s', Q a s' ∧ Q' a s') s.
Proof. unfold wp. by destruct (k s) as [[a s']| | | |]. Qed.
Lemma wp_use {A B} (k : ST S A) (f : A → ST S B) (Q : A → S → Prop) (Q' : B → S → Prop) s :
  wp k Q s → (∀ a s', Q a s' → wp (f a) Q' s') → wp (k ≫= f) Q' s.
Proof. intros H HQ. apply wp_bind. by eapply wp_mono. Qed.
Lemma wp_when (b : bool) k (Q : unit → S → Prop) s :
  (b = true → wp k Q s) → (b = false → Q tt s) → wp (when b k) Q s.
Proof. destruct b; intros H1 H2; [by apply H1|by apply H2]. Qed.
Lemma wp_run {A} (k : ST S A) (Q : A → S → Prop) s a s' : wp k Q s → k s = Ok (a, s') → Q a s'.
Proof. unfold wp. by intros H E; rewrite E in H. Qed.
Lemma wp_loop {A} (l : list A) (f : A → ST S unit) (I : S → Prop) s :
  (∀ a s, a ∈ l → I s → wp (f a) (λ _, I) s) → I s → wp (for_each l f) (λ _, I) s.
Proof.
  revert s. induction l as [|a l IH]; intros s Hf Hs; [done|]. cbn. eapply wp_use.
  - apply Hf; [set_solver|done].
  - intros ? s' Hs'. apply IH; [|done]. intros b s1 Hb. apply Hf. set_solver.
Qed.
(** The loop uses up its list. *)
Lemma wp_for_each {A} (l : list A) (f : A → ST S unit) (I : list A → S → Prop) s :
  (∀ a rest s, I (a :: rest) s → wp (f a) (λ _, I rest) s) → I l s → wp (for_each l f) (λ _, I []) s.
Proof.
  intros Hf. revert s. induction l as [|a l IH]; intros s Hs; [done|]. cbn. eapply wp_use; [by apply Hf|].
  intros ? s' Hs'. by apply IH.
Qed.
End wp.
