(* ===== verification/Multimap.v ===== *)
(** * Sorted association lists for [std::multimap] and [std::multiset]

    A [std::multimap<K, V>] with integer keys is the list of its entries in
    iteration order: sorted by key, entries of equal key in the order in which
    they were inserted ([insert] places a new entry at the upper bound of its
    key, as C++11 requires). [EventMap], [EventProcessor] and the queue of the
    dungeon finder keep their schedules in this structure. *)
From S2P Require Import Prelude.

Section multimap.
Context {V : Type}.
Implicit Types (l : list (Z * V)) (k : Z) (v : V).

Fixpoint mm_insert k v l : list (Z * V) :=
  match l with
  | [] => [(k, v)]
  | (k', v') :: r => if k' <=? k then (k', v') :: mm_insert k v r else (k, v) :: l
  end.

(** [insert(first, last)]: the entries one after the other. *)
Definition mm_insert_all (new l : list (Z * V)) : list (Z * V) :=
  foldl (λ acc kv, mm_insert kv.1 kv.2 acc) l new.

Definition key_le (a b : Z * V) : Prop := a.1 ≤ b.1.
Definition mm_sorted l : Prop := StronglySorted key_le l.

Lemma mm_insert_Permutation k v l : mm_insert k v l ≡ₚ (k, v) :: l.
Proof.
  induction l as [|[k' v'] l IH]; simpl; [done|].
  case_bool; [|done]. rewrite IH. apply perm_swap.
Qed.

Lemma mm_insert_elem k v l x : x ∈ mm_insert k v l ↔ x = (k, v) ∨ x ∈ l.
Proof. rewrite mm_insert_Permutation. apply elem_of_cons. Qed.

Lemma mm_insert_Forall (P : Z * V → Prop) k v l :
  P (k, v) → Forall P l → Forall P (mm_insert k v l).
Proof. intros. rewrite mm_insert_Permutation. by constructor. Qed.

Lemma mm_insert_sorted k v l : mm_sorted l → mm_sorted (mm_insert k v l).
Proof.
  induction 1 as [|[k' v'] l Hl IH Hx]; simpl; [repeat constructor|].
  case_bool; b2p.
  - constructor; [done|]. apply mm_insert_Forall; [done|].
    eapply Forall_impl; [done|]. done.
  - constructor; [by constructor|]. constructor; [unfold key_le; simpl; lia|].
    eapply Forall_impl; [done|]. unfold key_le; simpl. intros; lia.
Qed.

Lemma mm_insert_all_Permutation new l : mm_insert_all new l ≡ₚ new ++ l.
Proof.
  revert l. induction new as [|[k v] new IH]; intros l; simpl; [done|].
  unfold mm_insert_all in *. simpl. rewrite IH, mm_insert_Permutation.
  symmetry. apply Permutation_middle.
Qed.

Lemma mm_insert_all_sorted new l : mm_sorted l → mm_sorted (mm_insert_all new l).
Proof.
  revert l. induction new as [|[k v] new IH]; intros l Hl; [done|].
  apply (IH (mm_insert k v l)). by apply mm_insert_sorted.
Qed.

Lemma mm_sorted_tail x l : mm_sorted (x :: l) → mm_sorted l.
Proof. by inversion 1. Qed.

Lemma mm_sorted_head x l y : mm_sorted (x :: l) → y ∈ l → x.1 ≤ y.1.
Proof.
  inversion 1 as [|? ? ? Hall]; subst. rewrite Forall_forall in Hall.
  intros Hy. by apply Hall.
Qed.

Lemma mm_sorted_filter (P : Z * V → Prop) `{∀ x, Decision (P x)} l :
  mm_sorted l → mm_sorted (filter P l).
Proof. apply StronglySorted_filter. Qed.

(** An entry inserted before every other key comes first. *)
Lemma mm_insert_head k v l :
  Forall (λ e, k < e.1) l → mm_insert k v l = (k, v) :: l.
Proof.
  intros Hall. destruct l as [|[k' v'] l]; [done|]. simpl.
  inversion Hall as [|? ? Hk]; subst. simpl in Hk.
  destruct (Z.leb_spec k' k); [lia|done].
Qed.
End multimap.

#[export] Hint Resolve mm_insert_sorted mm_insert_all_sorted mm_sorted_filter
  mm_sorted_tail mm_insert_Forall : rg.
