(* ===== verification/Float32.v ===== *)
(** * IEEE-754 single precision ([float] of the code)

    The [float] arithmetic of the sources is the binary32 format with rounding to
    nearest even: the specification floats of the Standard Library with 24 bits of
    precision, which compute. *)
From Stdlib Require Import SpecFloat.
From S2P Require Import Prelude.

Abbreviation f32 := spec_float.

Definition f32_prec : Z := 24.
Definition f32_emax : Z := 128.

Definition f32_add : f32 → f32 → f32 := SFadd f32_prec f32_emax.
Definition f32_sub : f32 → f32 → f32 := SFsub f32_prec f32_emax.
Definition f32_mul : f32 → f32 → f32 := SFmul f32_prec f32_emax.
Definition f32_div : f32 → f32 → f32 := SFdiv f32_prec f32_emax.
Definition f32_ltb : f32 → f32 → bool := SFltb.
Definition f32_leb : f32 → f32 → bool := SFleb.
Definition f32_eqb : f32 → f32 → bool := SFeqb.
Definition f32_neg : f32 → f32 := SFopp.
Definition f32_zero : f32 := S754_zero false.

(** [float(z)] for an integer [z]. *)
Definition f32_of_Z (z : Z) : f32 := binary_normalize f32_prec f32_emax z 0 false.

(** The literal [n / d]: the correctly rounded quotient. *)
Definition f32_lit (n d : Z) : f32 := f32_div (f32_of_Z n) (f32_of_Z d).

Definition is_nan (x : f32) : bool := match x with S754_nan => true | _ => false end.

(** The integer part towards minus infinity and towards zero. *)
Definition floor_Z (x : f32) : Z :=
  match x with
  | S754_finite s m e =>
    let z := if s then Zneg m else Zpos m in
    if 0 <=? e then z * 2 ^ e else z / 2 ^ (- e)
  | _ => 0
  end.
Definition trunc_Z (x : f32) : Z :=
  match x with
  | S754_finite s m e =>
    let z := if s then Zneg m else Zpos m in
    if 0 <=? e then z * 2 ^ e else Z.quot z (2 ^ (- e))
  | _ => 0
  end.

(** [floor(x)]: exact, the result of a non-integral float is below 2^24. *)
Definition f32_floor (x : f32) : f32 :=
  match x with
  | S754_finite s m e => if 0 <=? e then x else f32_of_Z (floor_Z x)
  | _ => x
  end.

(** [int32(x)]: truncation; out of range, infinite and NaN values give the
    "integer indefinite" -2^31 of the x86-64 conversion instruction. *)
Definition f32_to_s32 (x : f32) : Z :=
  match x with
  | S754_zero _ => 0
  | S754_finite _ _ _ =>
    let z := trunc_Z x in
    if (- 2 ^ 31 <=? z) && (z <? 2 ^ 31) then z else - 2 ^ 31
  | _ => - 2 ^ 31
  end.

Lemma f32_to_s32_range x : in_s32 (f32_to_s32 x).
Proof.
  unfold in_s32, f32_to_s32. destruct x; try lia.
  destruct (_ && _) eqn:E; b2p; lia.
Qed.

(** [std::max(a, b)] as the library defines it: [(a < b) ? b : a]. *)
Definition f32_max (a b : f32) : f32 := if f32_ltb a b then b else a.
Definition f32_min (a b : f32) : f32 := if f32_ltb b a then b else a.

(** Adding a zero keeps a non-zero number. *)
Lemma f32_add_zero_r x b :
  match x with S754_zero _ | S754_nan => True | _ => f32_add x (S754_zero b) = x end.
Proof. destruct x; done. Qed.

#[export] Hint Resolve f32_to_s32_range : rg.

Example f32_half : f32_lit 1 2 = S754_finite false 8388608 (-24).
Proof. reflexivity. Qed.
Example f32_three_tenths : f32_to_s32 (f32_mul (f32_of_Z 250) (f32_lit 3 10)) = 75.
Proof. reflexivity. Qed.
