(* ===== verification/Timers.v ===== *)
(** * The timers of [src/common/Utilities/Timer.h]

    Millisecond clocks that wrap at 32 bits, the interval timer of the world
    update loop, the count-down trackers and the periodic timer. [time_t]
    members are unbounded [Z] (64-bit in the code), [int32]/[uint32] members
    carry their wrap-around. *)
From S2P Require Import Prelude.

Module Timer.

(** ** Clock differences *)

Definition getMSTimeDiff (oldMSTime newMSTime : Z) : Z :=
  if newMSTime <? oldMSTime
  then u32 (u32 (0xFFFFFFFF - oldMSTime) + newMSTime)
  else u32 (newMSTime - oldMSTime).

(** The clock itself is a parameter: the milliseconds since start. *)
Definition getMSTime (elapsed_ms : Z) : Z := u32 elapsed_ms.

Definition GetMSTimeDiffToNow (elapsed_ms oldMSTime : Z) : Z :=
  getMSTimeDiff oldMSTime (getMSTime elapsed_ms).

(** ** IntervalTimer *)

Record IntervalTimer := mkInterval { it_interval : Z; it_current : Z }.

Definition it_new : IntervalTimer := mkInterval 0 0.

Definition it_Update (t : IntervalTimer) (diff : Z) : IntervalTimer :=
  let cur := it_current t + diff in
  mkInterval (it_interval t) (if cur <? 0 then 0 else cur).

Definition it_Passed (t : IntervalTimer) : bool := it_interval t <=? it_current t.

(** [_current %= _interval]; [None] is the division by zero of an interval of 0. *)
Definition it_Reset (t : IntervalTimer) : option IntervalTimer :=
  if it_interval t <=? it_current t
  then if it_interval t =? 0 then None
       else Some (mkInterval (it_interval t) (Z.rem (it_current t) (it_interval t)))
  else Some t.

Definition it_SetCurrent (t : IntervalTimer) (current : Z) : IntervalTimer :=
  mkInterval (it_interval t) current.

Definition it_SetInterval (t : IntervalTimer) (interval : Z) : IntervalTimer :=
  mkInterval interval (it_current t).

(** ** TimeTracker and TimeTrackerSmall *)

Record TimeTracker := mkTracker { i_expiryTime : Z }.

Definition tt_Update (t : TimeTracker) (diff : Z) : TimeTracker :=
  mkTracker (i_expiryTime t - diff).
Definition tt_Passed (t : TimeTracker) : bool := i_expiryTime t <=? 0.
Definition tt_Reset (t : TimeTracker) (interval : Z) : TimeTracker := mkTracker interval.

Record TimeTrackerSmall := mkTrackerSmall { s_expiryTime : Z }.

Definition tts_new (expiry : Z) : TimeTrackerSmall := mkTrackerSmall (s32 expiry).
Definition tts_Update (t : TimeTrackerSmall) (diff : Z) : TimeTrackerSmall :=
  mkTrackerSmall (s32 (s_expiryTime t - diff)).
Definition tts_Passed (t : TimeTrackerSmall) : bool := s_expiryTime t <=? 0.
Definition tts_Reset (t : TimeTrackerSmall) (interval : Z) : TimeTrackerSmall :=
  mkTrackerSmall (s32 (u32 interval)).

(** ** PeriodicTimer *)

Record PeriodicTimer := mkPeriodic { i_period : Z; i_expireTime : Z }.

(** [i_expireTime -= diff] and [+=] mix [int32] with [uint32]: the sum is taken
    modulo 2^32 and converted back. *)
Definition pt_Update (t : PeriodicTimer) (diff : Z) : bool * PeriodicTimer :=
  let e := s32 (i_expireTime t - diff) in
  if 0 <? e then (false, mkPeriodic (i_period t) e)
  else
    let add := if s32 diff <? i_period t then u32 (i_period t) else diff in
    (true, mkPeriodic (i_period t) (s32 (e + add))).

Definition pt_SetPeriodic (period start_time : Z) : PeriodicTimer :=
  mkPeriodic period start_time.

Definition pt_TUpdate (t : PeriodicTimer) (diff : Z) : PeriodicTimer :=
  mkPeriodic (i_period t) (s32 (i_expireTime t - diff)).
Definition pt_TPassed (t : PeriodicTimer) : bool := i_expireTime t <=? 0.
Definition pt_TReset (t : PeriodicTimer) (diff period : Z) : PeriodicTimer :=
  mkPeriodic (i_period t)
    (s32 (i_expireTime t + (if diff <? period then period else diff))).

(** A run of the world-update pattern: update, and reset whenever passed. The
    result counts the passes. *)
Fixpoint it_run (t : IntervalTimer) (diffs : list Z) : option (nat * IntervalTimer) :=
  match diffs with
  | [] => Some (0%nat, t)
  | d :: ds =>
    let t1 := it_Update t d in
    if it_Passed t1 then
      match it_Reset t1 with
      | Some t2 =>
        match it_run t2 ds with Some (n, t') => Some (S n, t') | None => None end
      | None => None
      end
    else it_run t1 ds
  end.

(** ** Correctness *)

(** C37: the clock difference is the true difference modulo 2^32, except that it
    is one millisecond short whenever the clock has wrapped in between: the
    formula [(0xFFFFFFFF - old) + new] misses the tick from 0xFFFFFFFF to 0. *)
Theorem getMSTimeDiff_off_by_one old new :
  in_u32 old → in_u32 new →
  getMSTimeDiff old new = u32 (new - old) - (if new <? old then 1 else 0).
Proof.
  unfold in_u, getMSTimeDiff, wrap. intros Ho Hn.
  destruct (Z.ltb_spec new old); zlia.
Qed.

Lemma getMSTimeDiff_off_by_one_witness :
  getMSTimeDiff 0xFFFFFFF0 4 = 19 ∧ u32 (4 - 0xFFFFFFF0) = 20.
Proof.
  rewrite (getMSTimeDiff_off_by_one 0xFFFFFFF0 4); [|split; lia|split; lia].
  split; reflexivity.
Defined.

Definition it_ok (t : IntervalTimer) : Prop :=
  0 < it_interval t ∧ 0 ≤ it_current t < it_interval t.

Lemma it_step_ok t d :
  it_ok t → 0 ≤ d →
  if it_Passed (it_Update t d)
  then ∃ t', it_Reset (it_Update t d) = Some t' ∧ it_ok t' ∧
       it_interval t' = it_interval t ∧
       it_current t' = (it_current t + d) `mod` it_interval t
  else it_ok (it_Update t d) ∧ it_current (it_Update t d) = it_current t + d.
Proof.
  destruct t as [i c]. unfold it_ok, it_Passed, it_Reset, it_Update. simpl.
  intros [Hi Hc] Hd. destruct (Z.ltb_spec (c + d) 0); [lia|]. simpl.
  destruct (Z.leb_spec i (c + d)); simpl; [|lia].
  destruct (Z.eqb_spec i 0); [lia|].
  pose proof (Z.mod_pos_bound (c + d) i).
  eexists. split; [done|]. simpl. rewrite Z.rem_mod_nonneg by lia. lia.
Qed.

(** over any run of non-negative updates an interval timer never divides by
    zero, loses no time (the residue of all elapsed time modulo the interval is
    kept) and is left not passed. *)
Theorem it_run_conserves ds t :
  it_ok t → Forall (λ d, 0 ≤ d) ds →
  ∃ n t', it_run t ds = Some (n, t') ∧ it_ok t' ∧ it_interval t' = it_interval t ∧
    it_current t' = (it_current t + foldr Z.add 0 ds) `mod` it_interval t.
Proof.
  intros Hok Hds. revert t Hok. induction Hds as [|d ds Hd Hds IH]; intros t Hok; simpl.
  - exists 0%nat, t. destruct Hok. rewrite Z.add_0_r, Z.mod_small by lia. done.
  - pose proof (it_step_ok t d Hok Hd) as Hstep.
    destruct (it_Passed (it_Update t d)).
    + destruct Hstep as (t1 & -> & Hok1 & Hi & Hc).
      destruct (IH t1 Hok1) as (n & t' & -> & ? & Hi' & Hc').
      exists (S n), t'. split; [done|]. split; [done|]. split; [congruence|].
      rewrite Hc', Hi, Hc, Zplus_mod_idemp_l. f_equal. lia.
    + destruct Hstep as [Hok1 Hc]. destruct (IH _ Hok1) as (n & t' & -> & ? & Hi' & Hc').
      exists n, t'. split; [done|]. split; [done|]. split; [done|].
      rewrite Hc', Hc. simpl. f_equal. lia.
Qed.

Lemma it_run_conserves_witness :
  ∃ n t', it_run (mkInterval 100 0) [30; 80; 250] = Some (n, t') ∧ it_current t' = 60.
Proof.
  destruct (it_run_conserves [30; 80; 250] (mkInterval 100 0)) as (n & t' & H & _ & _ & Hc).
  - unfold it_ok. simpl. lia.
  - repeat constructor; lia.
  - exists n, t'. split; [exact H | exact Hc].
Defined.

(** a periodic timer that is running (0 < expire) is running after every
    update that stays in the 31-bit range, whether it fired or not; it fires
    exactly when the update covers the remaining time, and then keeps the phase
    ([expire - diff + period]) unless the update is longer than a period. *)
Theorem pt_Update_running t diff :
  0 < i_expireTime t < 2 ^ 31 → 0 < i_period t < 2 ^ 31 → 0 ≤ diff < 2 ^ 31 →
  i_expireTime t + i_period t < 2 ^ 31 →
  pt_Update t diff =
    (i_expireTime t <=? diff,
     mkPeriodic (i_period t)
       (if i_expireTime t <=? diff
        then i_expireTime t - diff + Z.max (i_period t) diff
        else i_expireTime t - diff)) ∧
  0 < i_expireTime (pt_Update t diff).2.
Proof.
  destruct t as [p e]. simpl. intros He Hp Hd Hs.
  assert (Heq : pt_Update (mkPeriodic p e) diff =
    (e <=? diff, mkPeriodic p (if e <=? diff then e - diff + Z.max p diff else e - diff))).
  { unfold pt_Update. simpl. rewrite (s32_small (e - diff)) by (unfold in_s32; lia).
    rewrite (s32_small diff) by (unfold in_s32; lia).
    destruct (Z.ltb_spec 0 (e - diff)), (Z.leb_spec e diff); try lia; [done|].
    f_equal. f_equal. destruct (Z.ltb_spec diff p).
    - rewrite (wrap_small 32 p) by (unfold in_u; lia).
      rewrite s32_small by (unfold in_s32; lia). lia.
    - rewrite s32_small by (unfold in_s32; lia). lia. }
  split; [done|]. rewrite Heq. simpl. destruct (Z.leb_spec e diff); lia.
Qed.

Lemma pt_Update_running_witness :
  pt_Update (mkPeriodic 100 30) 50 = (true, mkPeriodic 100 80).
Proof.
  destruct (pt_Update_running (mkPeriodic 100 30) 50) as [H _]; simpl; [lia..|exact H].
Defined.

End Timer.
