(* ===== verification/EventMap.v ===== *)
(** * The event map of creature scripts ([src/common/Utilities/EventMap.{h,cpp}])

    A stopwatch [_time], a phase mask [_phase] and a multimap from due times to
    event words [0xPPGGEEEE] (phases, groups, event id). Scripts schedule,
    repeat, delay and cancel events and poll [ExecuteEvent] once per update. *)
From S2P Require Import Prelude Multimap.

Module EventMap.

Record t := mk {
  _time : Z;                      (* uint32 *)
  _phase : Z;                     (* uint8 *)
  _eventMap : list (Z * Z);       (* multimap<uint32, uint32> *)
  _lastEvent : Z                  (* uint32 *)
}.

Definition init : t := mk 0 0 [] 0.

Definition set_events (m : t) (evs : list (Z * Z)) : t :=
  mk (_time m) (_phase m) evs (_lastEvent m).

Definition Reset (m : t) : t := mk 0 0 [] (_lastEvent m).

Definition Update (m : t) (time : Z) : t :=
  mk (u32 (_time m + time)) (_phase m) (_eventMap m) (_lastEvent m).

Definition GetTimer (m : t) : Z := _time m.
Definition GetPhaseMask (m : t) : Z := _phase m.
Definition Empty (m : t) : bool := match _eventMap m with [] => true | _ => false end.

Definition with_phase (m : t) (p : Z) : t :=
  mk (_time m) p (_eventMap m) (_lastEvent m).

(** The phase parameters are [uint8]s. *)
Definition SetPhase (m : t) (phase : Z) : t :=
  if phase =? 0 then with_phase m 0
  else if phase <=? 8 then with_phase m (u8 (Z.shiftl 1 (phase - 1)))
  else m.

Definition AddPhase (m : t) (phase : Z) : t :=
  if negb (phase =? 0) && (phase <=? 8)
  then with_phase m (Z.lor (_phase m) (u8 (Z.shiftl 1 (phase - 1)))) else m.

Definition RemovePhase (m : t) (phase : Z) : t :=
  if negb (phase =? 0) && (phase <=? 8)
  then with_phase m (Z.land (_phase m) (u8 (Z.lnot (Z.shiftl 1 (phase - 1))))) else m.

Definition IsInPhase (m : t) (phase : Z) : bool :=
  (phase <=? 8) && ((phase =? 0) || (_phase m .& Z.shiftl 1 (phase - 1))).

(** The event word stored for an id, a group and a phase. *)
Definition event_word (eventId group phase : Z) : Z :=
  let e1 := if negb (group =? 0) && (group <=? 8)
            then Z.lor eventId (Z.shiftl 1 (group + 15)) else eventId in
  if negb (phase =? 0) && (phase <=? 8)
  then Z.lor e1 (u32 (Z.shiftl 1 (phase + 23))) else e1.

Definition ScheduleEvent (m : t) (eventId time group phase : Z) : t :=
  set_events m
    (mm_insert (u32 (_time m + time)) (event_word eventId group phase) (_eventMap m)).

(** [Milliseconds] overload: the count is cut to 32 bits. *)
Definition ScheduleEvent_ms (m : t) (eventId time_ms group phase : Z) : t :=
  ScheduleEvent m eventId (u32 time_ms) group phase.

(** Random overload; [urand] is the generator, and the [uint32] phase argument is
    narrowed to [uint8] by the call. *)
Definition ScheduleEvent_rnd (urand : Z → Z → Z) (m : t) (eventId minTime maxTime group phase : Z) : t :=
  ScheduleEvent m eventId (urand (u32 minTime) (u32 maxTime)) group (u8 phase).

Definition CancelEvent (m : t) (eventId : Z) : t :=
  if Empty m then m
  else set_events m (filter (λ e, eventId ≠ Z.land e.2 0xFFFF) (_eventMap m)).

Definition RescheduleEvent (m : t) (eventId time group phase : Z) : t :=
  ScheduleEvent (CancelEvent m eventId) eventId time group phase.

Definition RescheduleEvent_ms (m : t) (eventId time_ms group phase : Z) : t :=
  RescheduleEvent m eventId (u32 time_ms) group phase.

Definition RescheduleEvent_rnd (urand : Z → Z → Z) (m : t) (eventId minTime maxTime group phase : Z) : t :=
  RescheduleEvent m eventId (urand (u32 minTime) (u32 maxTime)) group (u8 phase).

Definition Repeat (m : t) (time : Z) : t :=
  set_events m (mm_insert (u32 (_time m + time)) (_lastEvent m) (_eventMap m)).

Definition Repeat_ms (m : t) (time_ms : Z) : t := Repeat m (u32 time_ms).

Definition Repeat_rnd (urand : Z → Z → Z) (m : t) (minTime maxTime : Z) : t :=
  Repeat m (urand minTime maxTime).

(** The test of [ExecuteEvent] that drops an event of another phase. *)
Definition other_phase (phase word : Z) : bool :=
  negb (phase =? 0) && (word .& 0xFF000000) && negb (Z.shiftr word 24 .& phase).

(** The loop of [ExecuteEvent] over the entries in time order. *)
Fixpoint execute_loop (time phase last : Z) (evs : list (Z * Z)) : Z * list (Z * Z) * Z :=
  match evs with
  | [] => (0, [], last)
  | (when, word) :: rest =>
    if time <? when then (0, evs, last)
    else if other_phase phase word then execute_loop time phase last rest
    else (Z.land word 0xFFFF, rest, word)
  end.

Definition ExecuteEvent (m : t) : Z * t :=
  let '(id, evs, last) := execute_loop (_time m) (_phase m) (_lastEvent m) (_eventMap m) in
  (id, mk (_time m) (_phase m) evs last).

Definition DelayEvents_all (m : t) (delay : Z) : t :=
  mk (if delay <? _time m then _time m - delay else 0) (_phase m) (_eventMap m) (_lastEvent m).

Definition DelayEvents_all_ms (m : t) (delay_ms : Z) : t := DelayEvents_all m (u32 delay_ms).

Definition in_group (group : Z) (e : Z * Z) : Prop := (e.2 .& Z.shiftl 1 (group + 15)) = true.
#[global] Instance in_group_dec group e : Decision (in_group group e).
Proof. unfold in_group. apply _. Defined.

Definition DelayEvents (m : t) (delay group : Z) : t :=
  if (group =? 0) || (8 <? group) || Empty m then m
  else
    let delayed := foldl (λ acc e, mm_insert (u32 (e.1 + delay)) e.2 acc) []
                         (filter (in_group group) (_eventMap m)) in
    set_events m
      (mm_insert_all delayed (filter (λ e, ¬ in_group group e) (_eventMap m))).

Definition DelayEvents_ms (m : t) (delay_ms group : Z) : t := DelayEvents m (u32 delay_ms) group.

Definition CancelEventGroup (m : t) (group : Z) : t :=
  if (group =? 0) || (8 <? group) || Empty m then m
  else set_events m (filter (λ e, ¬ in_group group e) (_eventMap m)).

Fixpoint find_event (eventId : Z) (evs : list (Z * Z)) : option Z :=
  match evs with
  | [] => None
  | (when, word) :: rest =>
    if eventId =? Z.land word 0xFFFF then Some when else find_event eventId rest
  end.

Definition GetNextEventTime_of (m : t) (eventId : Z) : Z :=
  if Empty m then 0
  else match find_event eventId (_eventMap m) with Some w => w | None => 0 end.

Definition GetNextEventTime (m : t) : Z :=
  match _eventMap m with [] => 0 | (w, _) :: _ => w end.

Definition GetTimeUntilEvent (m : t) (eventId : Z) : Z :=
  match find_event eventId (_eventMap m) with
  | Some w => u32 (w - _time m)
  | None => 2 ^ 32 - 1
  end.

(** ** The state machine of the component *)

Inductive step : t → t → Prop :=
| step_reset m : step m (Reset m)
| step_update m d : in_u32 d → step m (Update m d)
| step_set_phase m p : in_u8 p → step m (SetPhase m p)
| step_add_phase m p : in_u8 p → step m (AddPhase m p)
| step_remove_phase m p : in_u8 p → step m (RemovePhase m p)
| step_schedule m id tm g p : in_u32 id → in_u32 tm → in_u32 g → in_u8 p →
    step m (ScheduleEvent m id tm g p)
| step_reschedule m id tm g p : in_u32 id → in_u32 tm → in_u32 g → in_u8 p →
    step m (RescheduleEvent m id tm g p)
| step_repeat m tm : in_u32 tm → step m (Repeat m tm)
| step_execute m : step m (ExecuteEvent m).2
| step_delay_all m d : in_u32 d → step m (DelayEvents_all m d)
| step_delay m d g : in_u32 d → in_u32 g → step m (DelayEvents m d g)
| step_cancel m id : in_u32 id → step m (CancelEvent m id)
| step_cancel_group m g : in_u32 g → step m (CancelEventGroup m g).

Definition entry_ok (e : Z * Z) : Prop := in_u32 e.1 ∧ in_u32 e.2.

Record wf (m : t) : Prop := {
  wf_time : in_u32 (_time m);
  wf_phase : in_u8 (_phase m);
  wf_last : in_u32 (_lastEvent m);
  wf_sorted : mm_sorted (_eventMap m);
  wf_entries : Forall entry_ok (_eventMap m)
}.

(** ** Lemmas *)

Lemma event_word_range id g p :
  in_u32 id → in_u32 g → in_u8 p → in_u32 (event_word id g p).
Proof.
  intros Hid [Hg _] [Hp _]. unfold event_word.
  assert (in_u32 (if negb (g =? 0) && (g <=? 8) then Z.lor id (Z.shiftl 1 (g + 15)) else id)).
  { case_bool; [|done]. b2p. apply lor_range; [lia|done|].
    rewrite Z.shiftl_1_l. split; [lia|]. apply Z.pow_lt_mono_r; lia. }
  case_bool; [|done]. apply lor_range; [lia|done|apply wrap_range; lia].
Qed.

Lemma execute_loop_suffix time phase last evs :
  let '(_, evs', last') := execute_loop time phase last evs in
  (∃ pre, evs = pre ++ evs') ∧ (last' = last ∨ ∃ w, (w, last') ∈ evs).
Proof.
  induction evs as [|[w word] evs IH]; simpl; [split; [by exists []|by left]|].
  case_bool; [split; [by exists []|by left]|]. case_bool.
  - destruct (execute_loop _ _ _ evs) as [[id evs'] last'].
    destruct IH as [[pre ->] Hl]. split; [by exists ((w, word) :: pre)|].
    destruct Hl as [->|[w' Hw]]; [by left|]. right. exists w'. by right.
  - split; [by exists [(w, word)]|]. right. exists w. by left.
Qed.

Lemma mm_sorted_app_r (l1 l2 : list (Z * Z)) : mm_sorted (l1 ++ l2) → mm_sorted l2.
Proof. induction l1; [done|]. inversion 1; subst. auto. Qed.

Lemma delayed_ok d evs acc :
  in_u32 d → Forall entry_ok evs → Forall entry_ok acc →
  Forall entry_ok (foldl (λ acc e, mm_insert (u32 (e.1 + d)) e.2 acc) acc evs).
Proof.
  intros Hd He. revert acc. induction He as [|e evs [_ He] Hevs IH]; intros acc Hacc; simpl; [done|].
  apply IH. apply mm_insert_Forall; [|done]. split; simpl; [apply wrap_range; lia|done].
Qed.

Lemma delayed_Permutation d evs acc :
  foldl (λ acc e, mm_insert (u32 (e.1 + d)) e.2 acc) acc evs
  ≡ₚ map (λ e : Z * Z, (u32 (e.1 + d), e.2)) evs ++ acc.
Proof.
  revert acc. induction evs as [|e evs IH]; intros acc; simpl; [done|].
  rewrite IH, mm_insert_Permutation. symmetry. apply Permutation_middle.
Qed.

Lemma filter_ok (P : Z * Z → Prop) `{∀ x, Decision (P x)} evs :
  Forall entry_ok evs → Forall entry_ok (filter P evs).
Proof.
  rewrite !Forall_forall. intros HF x Hx. apply list_elem_of_filter in Hx as [_ Hx]. auto.
Qed.

Lemma wf_set_events m evs :
  wf m → mm_sorted evs → Forall entry_ok evs → wf (set_events m evs).
Proof. intros [] ? ?. by constructor. Qed.

Lemma wf_with_phase m p : wf m → in_u8 p → wf (with_phase m p).
Proof. intros [] ?. by constructor. Qed.

#[local] Hint Resolve wf_set_events wf_with_phase filter_ok : rg.

Lemma wf_schedule m id tm g p :
  wf m → in_u32 id → in_u32 g → in_u8 p → wf (ScheduleEvent m id tm g p).
Proof.
  intros Hwf ???. destruct (Hwf) as [????]. apply wf_set_events; auto with rg.
  apply mm_insert_Forall; [|done].
  split; simpl; [apply wrap_range; lia|by apply event_word_range].
Qed.

Lemma wf_cancel m id : wf m → wf (CancelEvent m id).
Proof. intros Hwf. destruct (Hwf). unfold CancelEvent. case_bool; auto with rg. Qed.

Lemma wf_delay m d g : wf m → in_u32 d → wf (DelayEvents m d g).
Proof.
  intros Hwf Hd. destruct (Hwf). unfold DelayEvents. case_bool; [done|].
  apply wf_set_events; [done|auto with rg|].
  rewrite mm_insert_all_Permutation. apply Forall_app. split; [|auto with rg].
  apply delayed_ok; auto with rg.
Qed.

Lemma wf_execute m : wf m → wf (ExecuteEvent m).2.
Proof.
  intros [Ht Hp Hl Hs He]. unfold ExecuteEvent.
  pose proof (execute_loop_suffix (_time m) (_phase m) (_lastEvent m) (_eventMap m)) as Hx.
  destruct (execute_loop _ _ _ _) as [[id evs'] last']. destruct Hx as [[pre Hpre] Hl'].
  rewrite Hpre in *. constructor; simpl; try done.
  - destruct Hl' as [->|[w Hw]]; [done|]. rewrite Forall_forall in He. by destruct (He _ Hw).
  - by eapply mm_sorted_app_r.
  - by apply Forall_app in He as [_ He].
Qed.

Lemma wf_phase_ops m p :
  wf m → in_u8 p → wf (SetPhase m p) ∧ wf (AddPhase m p) ∧ wf (RemovePhase m p).
Proof.
  intros Hwf Hp. destruct (Hwf). unfold SetPhase, AddPhase, RemovePhase.
  assert (∀ x, in_u8 (u8 x)) by (intros; apply wrap_range; lia).
  split_and!; repeat case_bool; try done; apply wf_with_phase; try done; try (unfold in_u; lia).
  - apply lor_range; auto with rg.
  - apply land_range; auto with rg. apply H.
Qed.

(** ** Theorems *)

(** every history of operations from a fresh map keeps the schedule sorted by
    due time, with all times and event words 32-bit and the phase mask 8-bit. *)
Theorem reachable_wf m : rtc step init m → wf m.
Proof.
  intros Hr. assert (wf init) as Hi by (constructor; simpl; try (unfold in_u; lia); constructor).
  revert Hi. induction Hr as [|m1 m2 m3 Hs _ IH]; intros Hwf; [done|]. apply IH.
  destruct Hs; try (by apply wf_phase_ops); auto using wf_schedule, wf_cancel, wf_delay, wf_execute.
  - destruct Hwf. by constructor; simpl; [unfold in_u; lia|unfold in_u; lia| | constructor |].
  - destruct Hwf. constructor; simpl; try done. apply wrap_range; lia.
  - apply wf_schedule; auto using wf_cancel.
  - destruct (Hwf). apply wf_set_events; auto with rg.
    apply mm_insert_Forall; [|done]. split; simpl; [apply wrap_range; lia|done].
  - destruct Hwf as [Ht]. constructor; simpl; try done. unfold in_u in *. case_bool; b2p; lia.
  - destruct (Hwf). unfold CancelEventGroup. case_bool; auto with rg.
Qed.

Lemma reachable_wf_witness :
  wf (ExecuteEvent (Update (ScheduleEvent init 7 100 2 3) 150)).2.
Proof.
  apply reachable_wf.
  eapply rtc_l; [apply (step_schedule init 7 100 2 3); split; lia|].
  eapply rtc_l; [apply (step_update _ 150); split; lia|].
  eapply rtc_l; [apply step_execute|]. apply rtc_refl.
Defined.

(** What [ExecuteEvent] promises: the events that are due are the entries up to
    the first one in the future; of those it drops the leading ones that belong
    to another phase, and takes the next. *)
Definition due (m : t) : list (Z * Z) :=
  filter (λ e, e.1 ≤ _time m) (_eventMap m).
Definition future (m : t) : list (Z * Z) :=
  filter (λ e, ¬ e.1 ≤ _time m) (_eventMap m).
Definition runnable (m : t) (e : Z * Z) : Prop := other_phase (_phase m) e.2 = false.
#[global] Instance runnable_dec m e : Decision (runnable m e).
Proof. unfold runnable. apply _. Defined.

Lemma execute_loop_spec time phase last evs :
  mm_sorted evs →
  let P := λ e : Z * Z, e.1 ≤ time ∧ other_phase phase e.2 = false in
  match filter P evs with
  | [] => execute_loop time phase last evs = (0, filter (λ e, ¬ e.1 ≤ time) evs, last)
  | (w, word) :: more =>
    ∃ rest, execute_loop time phase last evs = (Z.land word 0xFFFF, rest, word) ∧
      filter P rest = more ∧
      filter (λ e, ¬ e.1 ≤ time) rest = filter (λ e, ¬ e.1 ≤ time) evs
  end.
Proof.
  intros Hs P. induction evs as [|[w word] evs IH]; simpl; [done|].
  specialize (IH (mm_sorted_tail _ _ Hs)). destruct (Z.ltb_spec time w).
  - assert (Hfut : Forall (λ e : Z * Z, ¬ e.1 ≤ time) ((w, word) :: evs)).
    { apply Forall_forall. intros e [->|He]%elem_of_cons; simpl; [lia|].
      pose proof (mm_sorted_head _ _ _ Hs He). simpl in *. lia. }
    rewrite (filter_none P), (filter_id _ _ Hfut); [done|].
    eapply Forall_impl; [exact Hfut|]. intros e He [? _]. by apply He.
  - rewrite (filter_cons_False (λ e, ¬ e.1 ≤ time)) by (simpl; lia).
    destruct (other_phase phase word) eqn:Hop.
    + rewrite (filter_cons_False P) by (intros [_ ?]; simpl in *; congruence). exact IH.
    + rewrite (filter_cons_True P) by done. exists evs. done.
Qed.

Lemma runnable_due m :
  filter (runnable m) (due m) =
  filter (λ e, e.1 ≤ _time m ∧ other_phase (_phase m) e.2 = false) (_eventMap m).
Proof. unfold due. rewrite list_filter_filter. apply list_filter_iff. unfold runnable. tauto. Qed.

(** polling the map returns the id of the earliest due event of the current
    phase (0 when there is none), removes it together with only those due events
    that belong to another phase, and leaves every future event in place. *)
Theorem ExecuteEvent_spec m :
  wf m →
  let '(id, m') := ExecuteEvent m in
  _time m' = _time m ∧ _phase m' = _phase m ∧ future m' = future m ∧
  match filter (runnable m) (due m) with
  | [] => id = 0 ∧ _lastEvent m' = _lastEvent m ∧ due m' = []
  | e :: more =>
    id = Z.land e.2 0xFFFF ∧ _lastEvent m' = e.2 ∧ filter (runnable m') (due m') = more
  end.
Proof.
  intros [_ _ _ Hs _]. unfold ExecuteEvent, future. rewrite runnable_due.
  pose proof (execute_loop_spec (_time m) (_phase m) (_lastEvent m) _ Hs) as HX. simpl in HX.
  destruct (filter _ (_eventMap m)) as [|[w word] more].
  - rewrite HX. simpl. split_and!; try done.
    + rewrite list_filter_filter. apply list_filter_iff. tauto.
    + unfold due. simpl. rewrite list_filter_filter. apply filter_none, Forall_forall. tauto.
  - destruct HX as (rest & -> & Hmore & Hfut). simpl. split_and!; try done.
    by rewrite runnable_due.
Qed.

Lemma ExecuteEvent_spec_witness :
  (ExecuteEvent (mk 500 1 [(100, 0x02000007); (200, 0x01000008); (900, 9)] 0)).1 = 8 ∧
  future (ExecuteEvent (mk 500 1 [(100, 0x02000007); (200, 0x01000008); (900, 9)] 0)).2 = [(900, 9)].
Proof.
  pose proof (ExecuteEvent_spec (mk 500 1 [(100, 0x02000007); (200, 0x01000008); (900, 9)] 0)) as H.
  destruct (ExecuteEvent _) as [id m'] eqn:E. simpl.
  destruct H as (_ & _ & Hf & Hid & _).
  - constructor; simpl; try (split; lia).
    + repeat (constructor; try (unfold key_le; simpl; lia)).
    + repeat (constructor; try (split; simpl; split; lia)).
  - rewrite Hf. split; [exact Hid | reflexivity].
Defined.

(** A script polls until it gets 0: the ids it ran and the map it leaves. *)
Fixpoint poll (fuel : nat) (m : t) : option (list Z * t) :=
  match fuel with
  | O => None
  | S n => let '(id, m') := ExecuteEvent m in
           if id =? 0 then Some ([], m') else '(ids, m'') ← poll n m'; Some (id :: ids, m'')
  end.
Definition event_id (e : Z * Z) : Z := Z.land e.2 0xFFFF.
(** The events before the first whose id is 0. *)
Fixpoint before_zero (evs : list (Z * Z)) : list (Z * Z) :=
  match evs with
  | [] => []
  | e :: evs => if event_id e =? 0 then [] else e :: before_zero evs
  end.

(** C14: a script that polls until it gets 0 runs, in order of due time (of insertion among
    equals), the due events of the current phase up to the first whose id is 0 in its low
    16 bits: all of them if there is none, and otherwise that event is lost and the later
    ones wait. It takes one poll more than it runs events, and no event of the future is
    touched. *)
Theorem poll_runs_all_due m fuel :
  wf m →
  let evs := filter (runnable m) (due m) in
  if (length (before_zero evs) <? fuel)%nat then
    ∃ m', poll fuel m = Some (map event_id (before_zero evs), m') ∧ future m' = future m ∧
          filter (runnable m') (due m') = drop (S (length (before_zero evs))) evs
  else poll fuel m = None.
Proof.
  intros Hwf. cbv zeta. remember (filter (runnable m) (due m)) as evs eqn:Eevs. revert evs m Hwf Eevs.
  induction fuel as [|fuel IH]; intros evs m Hwf Eevs; [done|]. cbn [poll].
  pose proof (ExecuteEvent_spec m Hwf) as Hspec. pose proof (wf_execute m Hwf) as Hwf'.
  destruct (ExecuteEvent m) as [id m1]. destruct Hspec as (_ & _ & Hf & Hspec). cbn [snd] in Hwf'. rewrite <- Eevs in Hspec.
  destruct evs as [|e evs]; cbn [before_zero].
  - destruct Hspec as (-> & _ & Hd). exists m1. rewrite Hd. done.
  - destruct Hspec as (-> & _ & Hmore). fold (event_id e). destruct (Z.eqb_spec (event_id e) 0); [by exists m1|].
    specialize (IH evs m1 Hwf' (eq_sym Hmore)). cbn [length].
    change (S (length (before_zero evs)) <? S fuel)%nat with (length (before_zero evs) <? fuel)%nat.
    destruct (length (before_zero evs) <? fuel)%nat; [|by rewrite IH].
    destruct IH as (m' & -> & Hf' & Hd). exists m'. cbn. by rewrite Hf', Hf.
Qed.

(** Two that are due; and one with id 0 between them, which ends the loop. *)
Definition polled (m : t) : list Z := match poll 3 m with Some (ids, _) => ids | None => [] end.
Ltac small_map := constructor; simpl; try (split; lia);
  [repeat (constructor; try (unfold key_le; simpl; lia))|repeat (constructor; try (split; simpl; split; lia))].
Lemma poll_runs_all_due_witness :
  polled (mk 500 1 [(100, 0x02000007); (200, 0x01000008); (300, 9)] 0) = [8; 9] ∧
  polled (mk 500 1 [(200, 0x01000008); (250, 0); (300, 9)] 0) = [8].
Proof.
  unfold polled. split.
  - destruct (poll_runs_all_due (mk 500 1 [(100, 0x02000007); (200, 0x01000008); (300, 9)] 0) 3) as (m' & -> & _); [small_map|reflexivity].
  - destruct (poll_runs_all_due (mk 500 1 [(200, 0x01000008); (250, 0); (300, 9)] 0) 3) as (m' & -> & _); [small_map|reflexivity].
Defined.

Lemma find_event_cancelled id evs :
  find_event id (filter (λ e : Z * Z, id ≠ Z.land e.2 0xFFFF) evs) = None.
Proof.
  induction evs as [|[w word] evs IH]; [done|]. rewrite filter_cons.
  case_decide as Hd; [|done]. simpl in *. destruct (Z.eqb_spec id (Z.land word 0xFFFF)); done.
Qed.

(** Reading back the fields of an event word. *)
Lemma event_word_bits id g p n :
  in_u16 id → 0 ≤ g ≤ 8 → 0 ≤ p ≤ 8 → 0 ≤ n →
  Z.testbit (event_word id g p) n =
    Z.testbit id n || ((g + 15 =? n) && (0 <? g)) || ((p + 23 =? n) && (0 <? p)).
Proof.
  intros Hid Hg Hp Hn. unfold event_word.
  replace (u32 (Z.shiftl 1 (p + 23))) with (Z.shiftl 1 (p + 23)).
  2:{ symmetry. apply wrap_small. rewrite Z.shiftl_1_l. split; [lia|]. apply Z.pow_lt_mono_r; lia. }
  destruct (Z.eqb_spec g 0), (Z.leb_spec g 8), (Z.eqb_spec p 0), (Z.leb_spec p 8); try lia; simpl;
    rewrite ?Z.lor_spec, ?Z.shiftl_1_l, ?Z.pow2_bits_eqb by lia;
    destruct (Z.ltb_spec 0 g), (Z.ltb_spec 0 p); try lia;
    rewrite ?andb_true_r, ?andb_false_r, ?orb_false_r; done.
Qed.

Lemma high_bit_small id n : in_u16 id → 16 ≤ n → Z.testbit id n = false.
Proof.
  intros [H0 H1] Hn. destruct (decide (id = 0)) as [->|]; [apply Z.bits_0|].
  apply Z.bits_above_log2; [lia|]. assert (Z.log2 id < 16) by (apply Z.log2_lt_pow2; lia). lia.
Qed.

(** the event word round-trips: for ids below 2^16 and groups and phases up to
    8 the low half is the id, and the group and phase bits read back as given. *)
Theorem event_word_roundtrip id g p :
  in_u16 id → 0 ≤ g ≤ 8 → 0 ≤ p ≤ 8 →
  Z.land (event_word id g p) 0xFFFF = id ∧
  (∀ k, 1 ≤ k ≤ 8 → Z.testbit (event_word id g p) (k + 15) = (k =? g)) ∧
  (∀ k, 1 ≤ k ≤ 8 → Z.testbit (event_word id g p) (k + 23) = (k =? p)).
Proof.
  intros Hid Hg Hp. split; [|split; intros k Hk; rewrite event_word_bits by (done || lia)].
  - apply Z.bits_inj'. intros n Hn. change 0xFFFF with (Z.ones 16).
    rewrite Z.land_spec, Z.testbit_ones_nonneg, event_word_bits by (done || lia).
    destruct (Z.ltb_spec n 16).
    + destruct (Z.eqb_spec (g + 15) n), (Z.ltb_spec 0 g), (Z.eqb_spec (p + 23) n), (Z.ltb_spec 0 p);
        try lia; by rewrite ?andb_true_r, ?andb_false_r, ?orb_false_r.
    + rewrite andb_false_r. symmetry. by apply high_bit_small.
  - rewrite high_bit_small by (auto; lia).
    destruct (Z.eqb_spec (g + 15) (k + 15)), (Z.eqb_spec (p + 23) (k + 15)), (Z.eqb_spec k g),
      (Z.ltb_spec 0 g), (Z.ltb_spec 0 p); try lia; done.
  - rewrite high_bit_small by (auto; lia).
    destruct (Z.eqb_spec (g + 15) (k + 23)), (Z.eqb_spec (p + 23) (k + 23)), (Z.eqb_spec k p),
      (Z.ltb_spec 0 g), (Z.ltb_spec 0 p); try lia; done.
Qed.

Lemma event_word_roundtrip_witness :
  event_word 42 3 8 = 0x8004002A ∧ Z.land (event_word 42 3 8) 0xFFFF = 42.
Proof.
  split; [reflexivity|]. apply (event_word_roundtrip 42 3 8); [split|..]; lia.
Defined.

(** rescheduling leaves exactly one entry with that id, due [time] ms from now,
    and touches no entry of another id. *)
Theorem RescheduleEvent_unique m id tm g p :
  in_u16 id → 0 ≤ g ≤ 8 → 0 ≤ p ≤ 8 →
  let m' := RescheduleEvent m id tm g p in
  filter (λ e, Z.land e.2 0xFFFF = id) (_eventMap m') = [(u32 (_time m + tm), event_word id g p)] ∧
  filter (λ e, Z.land e.2 0xFFFF ≠ id) (_eventMap m')
    ≡ₚ filter (λ e, Z.land e.2 0xFFFF ≠ id) (_eventMap m).
Proof.
  intros Hid Hg Hp m'.
  assert (Hc : _eventMap (CancelEvent m id) = filter (λ e, id ≠ Z.land e.2 0xFFFF) (_eventMap m)
               ∧ _time (CancelEvent m id) = _time m).
  { unfold CancelEvent, Empty. destruct (_eventMap m) eqn:E; [|done]. by rewrite E. }
  destruct Hc as [Hev Htm].
  assert (Hperm : _eventMap m' ≡ₚ (u32 (_time m + tm), event_word id g p)
            :: filter (λ e, id ≠ Z.land e.2 0xFFFF) (_eventMap m)).
  { unfold m', RescheduleEvent, ScheduleEvent. simpl. by rewrite mm_insert_Permutation, Hev, Htm. }
  destruct (event_word_roundtrip id g p Hid Hg Hp) as [Hlow _].
  split.
  - apply Permutation_singleton_r.
    rewrite Hperm, filter_cons_True by done.
    rewrite list_filter_filter, filter_none; [done|].
    apply Forall_forall. intros e _ [??]. congruence.
  - rewrite Hperm, filter_cons_False by (simpl; congruence).
    rewrite list_filter_filter.
    rewrite (list_filter_iff _ (λ e, Z.land e.2 0xFFFF ≠ id)); [done|].
    intros e. split; [tauto|]. intros; split; congruence.
Qed.

Lemma RescheduleEvent_unique_witness :
  filter (λ e, Z.land e.2 0xFFFF = 7)
    (_eventMap (RescheduleEvent (mk 10 0 [(20, 7); (30, 7); (40, 8)] 0) 7 15 0 0)) = [(25, 7)].
Proof.
  destruct (RescheduleEvent_unique (mk 10 0 [(20, 7); (30, 7); (40, 8)] 0) 7 15 0 0) as [H _];
    [split; lia|lia|lia|exact H].
Defined.

(** delaying a group moves exactly the events of that group by [delay] and keeps
    every other event, whatever the order of the schedule. *)
Theorem DelayEvents_group m d g :
  1 ≤ g ≤ 8 →
  _eventMap (DelayEvents m d g) ≡ₚ
  map (λ e, if decide (in_group g e) then (u32 (e.1 + d), e.2) else e) (_eventMap m).
Proof.
  intros Hg. unfold DelayEvents, Empty. destruct (Z.eqb_spec g 0); [lia|].
  destruct (Z.ltb_spec 8 g); [lia|]. simpl.
  destruct (_eventMap m) as [|e0 evs0] eqn:E; [by rewrite E|]. rewrite <- E. clear E.
  simpl. rewrite mm_insert_all_Permutation, delayed_Permutation, app_nil_r.
  induction (_eventMap m) as [|e evs IH]; [done|]. rewrite !filter_cons. simpl.
  destruct (decide (in_group g e)) as [Hin|Hin].
  - rewrite decide_False by tauto. simpl. by rewrite IH.
  - rewrite decide_True by done. rewrite <- Permutation_middle. by rewrite IH.
Qed.

Lemma DelayEvents_group_witness :
  _eventMap (DelayEvents (mk 0 0 [(10, 0x10001); (20, 2)] 0) 50 1)
  ≡ₚ [(60, 0x10001); (20, 2)].
Proof.
  etransitivity; [apply (DelayEvents_group (mk 0 0 [(10, 0x10001); (20, 2)] 0) 50 1); lia|].
  reflexivity.
Defined.

End EventMap.
