(* ===== verification/EventProcessor.v ===== *)
(** * The per-unit event queue ([src/common/Utilities/EventProcessor.{h,cpp}])

    Heap-allocated [BasicEvent]s are queued by execution time. The virtual
    methods of an event are parameters: running [Execute] or [Abort] changes the
    world outside and makes a list of calls back into the processor (new events,
    re-adding the event itself, scheduling an abort). *)
From S2P Require Import Prelude Multimap.

Module EventProcessor.

Inductive AbortState := STATE_RUNNING | STATE_ABORT_SCHEDULED | STATE_ABORTED.
#[global] Instance AbortState_eq : EqDecision AbortState.
Proof. solve_decision. Defined.

Record BasicEvent := mkEvent {
  m_abortState : AbortState;
  m_addTime : Z;
  m_execTime : Z
}.

Definition new_event : BasicEvent := mkEvent STATE_RUNNING 0 0.

Definition IsRunning (e : BasicEvent) : bool := bool_decide (m_abortState e = STATE_RUNNING).
Definition IsAbortScheduled (e : BasicEvent) : bool :=
  bool_decide (m_abortState e = STATE_ABORT_SCHEDULED).
Definition IsAborted (e : BasicEvent) : bool := bool_decide (m_abortState e = STATE_ABORTED).

Definition set_abortState (e : BasicEvent) (a : AbortState) : BasicEvent :=
  mkEvent a (m_addTime e) (m_execTime e).

Abbreviation ptr := Z (only parsing).

(** Calls an event makes back into the processor while it runs. *)
Inductive call :=
| CNew (p : ptr) (e_time : Z)          (* AddEvent(new Event, e_time) *)
| CReAdd (e_time : Z)                  (* AddEvent(this, e_time) *)
| CAbort (p : ptr).                    (* p->ScheduleAbort() *)

Section processor.
Context {W : Type}.
Variable Execute : ptr → Z → Z → W → W * list call * bool.
Variable Abort : ptr → Z → W → W * list call.
Variable IsDeletable : ptr → W → bool.

Record state := mkState {
  m_time : Z;
  m_events : list (Z * ptr);
  heap : gmap ptr BasicEvent;
  world : W
}.

Definition set_events (s : state) evs := mkState (m_time s) evs (heap s) (world s).
Definition set_heap (s : state) h := mkState (m_time s) (m_events s) h (world s).
Definition set_world (s : state) w := mkState (m_time s) (m_events s) (heap s) w.

Definition CalculateTime (s : state) (t_offset : Z) : Z := u64 (m_time s + t_offset).

Definition AddEvent (s : state) (p : ptr) (e_time : Z) (set_addtime : bool) : outcome state :=
  deref (heap s !! p) (λ e,
    let e' := mkEvent (m_abortState e) (if set_addtime then m_time s else m_addTime e) e_time in
    Ok (mkState (m_time s) (mm_insert e_time p (m_events s)) (<[p := e']> (heap s)) (world s))).

Definition ScheduleAbort (s : state) (p : ptr) : outcome state :=
  deref (heap s !! p) (λ e,
    assert_ (IsRunning e)
      (Ok (set_heap s (<[p := set_abortState e STATE_ABORT_SCHEDULED]> (heap s))))).

Definition SetAborted (s : state) (p : ptr) : outcome state :=
  deref (heap s !! p) (λ e,
    assert_ (negb (IsAborted e))
      (Ok (set_heap s (<[p := set_abortState e STATE_ABORTED]> (heap s))))).

(** [delete event]: the object leaves the heap. *)
Definition free (s : state) (p : ptr) : outcome state :=
  deref (heap s !! p) (λ _, Ok (set_heap s (delete p (heap s)))).

Definition run_call (this : ptr) (s : state) (c : call) : outcome state :=
  match c with
  | CNew p t => AddEvent (set_heap s (<[p := new_event]> (heap s))) p t true
  | CReAdd t => AddEvent s this t true
  | CAbort p => ScheduleAbort s p
  end.

Fixpoint run_calls (this : ptr) (s : state) (cs : list call) : outcome state :=
  match cs with
  | [] => Ok s
  | c :: cs => let! s' := run_call this s c in run_calls this s' cs
  end.

(** The body of the main loop for the event [p] just removed from the queue. *)
Definition process (s : state) (p : ptr) (p_time : Z) : outcome state :=
  deref (heap s !! p) (λ e,
    if IsRunning e then
      let '(w, cs, finished) := Execute p (m_time s) p_time (world s) in
      let! s1 := run_calls p (set_world s w) cs in
      if (finished : bool) then free s1 p else Ok s1
    else
      let! s1 :=
        if IsAbortScheduled e then
          let '(w, cs) := Abort p (m_time s) (world s) in
          let! s' := run_calls p (set_world s w) cs in SetAborted s' p
        else Ok s in
      if IsDeletable p (world s1) then free s1 p
      else AddEvent s1 p (CalculateTime s1 1) false).

Fixpoint update_loop (fuel : nat) (s : state) (p_time : Z) : outcome state :=
  match fuel with
  | O => OutOfFuel
  | S n =>
    match m_events s with
    | (w, p) :: rest =>
      if w <=? m_time s then
        let! s' := process (set_events s rest) p p_time in update_loop n s' p_time
      else Ok s
    | [] => Ok s
    end
  end.

Definition Update (fuel : nat) (s : state) (p_time : Z) : outcome state :=
  update_loop fuel
    (mkState (u64 (m_time s + p_time)) (m_events s) (heap s) (world s)) p_time.

(** [KillAllEvents] walks the container with an iterator that survives
    insertions: [before] are the entries already passed, [rest] starts with the
    entry of the iterator. An entry added meanwhile goes to the side its key
    puts it on. *)
Definition split_events (k : Z) (before rest new : list (Z * ptr)) : list (Z * ptr) * list (Z * ptr) :=
  foldl (λ br kv, if kv.1 <? k then (mm_insert kv.1 kv.2 br.1, br.2)
                  else (br.1, mm_insert kv.1 kv.2 br.2)) (before, rest) new.

Definition added_by (this : ptr) (cs : list call) : list (Z * ptr) :=
  omap (λ c, match c with CNew p t => Some (t, p) | CReAdd t => Some (t, this) | CAbort _ => None end) cs.

Fixpoint kill_loop (fuel : nat) (force : bool) (before : list (Z * ptr)) (s : state) : outcome state :=
  match fuel with
  | O => OutOfFuel
  | S n =>
    match m_events s with
    | [] => Ok (set_events s before)
    | (k, p) :: rest =>
      deref (heap s !! p) (λ e,
        let! (s1, before1, rest1) :=
          if IsAborted e then Ok (s, before, rest)
          else
            let! s0 := SetAborted s p in
            let '(w, cs) := Abort p (m_time s0) (world s0) in
            let! s1 := run_calls p (set_world s0 w) cs in
            let '(b, r) := split_events k before rest (added_by p cs) in
            Ok (s1, b, r) in
        if negb force && negb (IsDeletable p (world s1)) then
          kill_loop n force (before1 ++ [(k, p)]) (set_events s1 rest1)
        else
          let! s2 := free s1 p in
          if force then kill_loop n force (before1 ++ [(k, p)]) (set_events s2 rest1)
          else kill_loop n force before1 (set_events s2 rest1))
    end
  end.

Definition KillAllEvents (fuel : nat) (force : bool) (s : state) : outcome state :=
  let! s' := kill_loop fuel force [] s in
  if force then Ok (set_events s' []) else Ok s'.

(** The destructor. *)
Definition destroy (fuel : nat) (s : state) : outcome state := KillAllEvents fuel true s.

(** ** Safety and termination *)

Definition queued (s : state) : list ptr := map snd (m_events s).
Definition due (s : state) : list (Z * ptr) := filter (λ e, e.1 ≤ m_time s) (m_events s).

(** Every queued pointer is live and queued once; the queue is in time order. *)
Record inv (s : state) : Prop := {
  inv_nodup : NoDup (queued s);
  inv_live : ∀ p, p ∈ queued s → is_Some (heap s !! p);
  inv_sorted : mm_sorted (m_events s)
}.

(** What an event may do while it runs ([fin]: it will be deleted after). *)
Definition call_ok (this : ptr) (fin : bool) (s : state) (c : call) : Prop :=
  match c with
  | CNew p t => heap s !! p = None ∧ m_time s < t
  | CReAdd t => fin = false ∧ this ∉ queued s ∧ m_time s < t
  | CAbort p => ∃ e, heap s !! p = Some e ∧ IsRunning e = true
  end.

Fixpoint calls_ok (this : ptr) (fin : bool) (s : state) (cs : list call) : Prop :=
  match cs with
  | [] => True
  | c :: cs =>
    call_ok this fin s c ∧ ∀ s', run_call this s c = Ok s' → calls_ok this fin s' cs
  end.

(** What running calls preserves about the processor and the running event. *)
Record kept (this : ptr) (fin : bool) (s s' : state) : Prop := {
  kept_inv : inv s';
  kept_time : m_time s' = m_time s;
  kept_due : length (due s') = length (due s);
  kept_this : ∃ e e', heap s !! this = Some e ∧ heap s' !! this = Some e' ∧
    (m_abortState e ≠ STATE_RUNNING → m_abortState e' = m_abortState e);
  kept_gone : fin = true → this ∉ queued s → this ∉ queued s'
}.

Lemma queued_insert s p t h :
  queued (mkState (m_time s) (mm_insert t p (m_events s)) h (world s)) ≡ₚ p :: queued s.
Proof. unfold queued. simpl. by rewrite mm_insert_Permutation. Qed.

Lemma due_insert s p t h :
  m_time s < t →
  length (due (mkState (m_time s) (mm_insert t p (m_events s)) h (world s))) = length (due s).
Proof.
  intros Ht. unfold due. simpl. rewrite mm_insert_Permutation.
  rewrite filter_cons_False by (simpl; lia). done.
Qed.

Lemma inv_insert s p t e :
  inv s → p ∉ queued s →
  inv (mkState (m_time s) (mm_insert t p (m_events s)) (<[p := e]> (heap s)) (world s)).
Proof.
  intros [Hnd Hl Hs] Hp. constructor.
  - rewrite queued_insert. by constructor.
  - intros q. rewrite queued_insert, elem_of_cons. simpl. intros [->|Hq].
    + rewrite lookup_insert_eq. eauto.
    + destruct (decide (p = q)) as [->|]; [rewrite lookup_insert_eq; eauto|].
      rewrite lookup_insert_ne by done. auto.
  - simpl. by apply mm_insert_sorted.
Qed.

Lemma inv_set_heap s p e : inv s → inv (set_heap s (<[p := e]> (heap s))).
Proof.
  intros [Hnd Hl Hs]. constructor; simpl; try done. intros q Hq.
  destruct (decide (p = q)) as [->|]; [rewrite lookup_insert_eq; eauto|].
  rewrite lookup_insert_ne by done. by apply Hl.
Qed.

Lemma run_call_kept this fin s c :
  inv s → is_Some (heap s !! this) → call_ok this fin s c →
  ∃ s', run_call this s c = Ok s' ∧ kept this fin s s'.
Proof.
  intros Hinv [e0 He0] Hok. destruct c as [p t|t|p]; simpl in *.
  - destruct Hok as [Hp Ht]. unfold AddEvent. simpl. rewrite lookup_insert_eq. simpl.
    assert (this ≠ p) by (intros ->; congruence).
    assert (p ∉ queued s) as Hnq.
    { intros Hq. destruct (inv_live _ Hinv _ Hq). congruence. }
    eexists. split; [done|]. rewrite insert_insert_eq. constructor.
    + by apply inv_insert.
    + done.
    + by apply due_insert.
    + exists e0, e0. simpl. rewrite lookup_insert_ne by done. done.
    + intros _ Hq. rewrite queued_insert. by apply not_elem_of_cons.
  - destruct Hok as (-> & Hq & Ht). unfold AddEvent. rewrite He0. simpl.
    eexists. split; [done|]. constructor; [by apply inv_insert|done|by apply due_insert| |done].
    exists e0. simpl. rewrite lookup_insert_eq. eexists; done.
  - destruct Hok as (e & He & Hr). unfold ScheduleAbort. rewrite He. simpl. rewrite Hr. simpl.
    eexists. split; [done|]. constructor; [by apply inv_set_heap|done|done| |done].
    exists e0. simpl. destruct (decide (p = this)) as [->|].
    + rewrite lookup_insert_eq. eexists. split; [done|]. split; [done|].
      assert (e0 = e) as -> by congruence. unfold IsRunning in Hr.
      by apply bool_decide_eq_true in Hr.
    + rewrite lookup_insert_ne by done. eauto.
Qed.

Lemma kept_trans this fin s1 s2 s3 :
  kept this fin s1 s2 → kept this fin s2 s3 → kept this fin s1 s3.
Proof.
  intros [? ? ? (e1 & e2 & H1 & H2 & Ha) ?] [? ? ? (e2' & e3 & H2' & H3 & Hb) ?].
  constructor; [done|congruence|congruence| |tauto].
  exists e1, e3. split; [done|]. split; [done|]. intros Hn.
  assert (e2' = e2) as -> by congruence. rewrite Hb, Ha; [done..|]. by rewrite Ha.
Qed.

Lemma run_calls_kept this fin cs s :
  inv s → is_Some (heap s !! this) → calls_ok this fin s cs →
  ∃ s', run_calls this s cs = Ok s' ∧ kept this fin s s'.
Proof.
  revert s. induction cs as [|c cs IH]; intros s Hinv Hl Hok; simpl.
  - exists s. split; [done|]. destruct Hl as [e He]. constructor; try done. exists e, e. done.
  - destruct Hok as [Hc Hcs]. destruct (run_call_kept this fin s c Hinv Hl Hc) as (s1 & Hr & Hk).
    rewrite Hr. simpl. destruct (IH s1) as (s2 & Hr2 & Hk2).
    + apply Hk.
    + destruct Hk as [_ _ _ (? & ? & _ & ? & _) _]. eauto.
    + by apply Hcs.
    + exists s2. split; [done|]. by eapply kept_trans.
Qed.

Lemma inv_free s p : inv s → p ∉ queued s → inv (set_heap s (delete p (heap s))).
Proof.
  intros [Hnd Hl Hs] Hp. constructor; simpl; try done. intros q Hq.
  rewrite lookup_delete_ne by (intros ->; done). by apply Hl.
Qed.

Section behaved.
(** What the world knows of the objects: which pointers it may abort, which are free for
    new ones. Calls keep it; so do the processor's own steps, that write down a new time
    and delete what was aborted. *)
Variable p_time : Z.
Variable knows : gmap ptr BasicEvent → W → Prop.
Hypothesis knows_time : ∀ h w p e t,
  knows h w → h !! p = Some e → knows (<[p := mkEvent (m_abortState e) (m_addTime e) t]> h) w.
Hypothesis knows_delete : ∀ h w p e,
  knows h w → h !! p = Some e → IsRunning e = false → IsDeletable p w = true → knows (delete p h) w.
(** Events behave: they allocate objects that are not in use, schedule strictly into the
    future, re-add themselves at most once and only if they are not to be deleted, and
    abort only live running events; [Abort] never re-adds. They may add any number of new
    events and abort any number of others. *)
Hypothesis Execute_ok : ∀ s p e w cs fin,
  inv s → knows (heap s) (world s) → p ∉ queued s → heap s !! p = Some e → IsRunning e = true →
  Execute p (m_time s) p_time (world s) = (w, cs, fin) →
  calls_ok p fin (set_world s w) cs ∧
  ∀ s', run_calls p (set_world s w) cs = Ok s' → knows (if (fin : bool) then delete p (heap s') else heap s') (world s').
Hypothesis Abort_ok : ∀ s p e w cs,
  inv s → knows (heap s) (world s) → p ∉ queued s → heap s !! p = Some e → IsAbortScheduled e = true →
  Abort p (m_time s) (world s) = (w, cs) →
  calls_ok p true (set_world s w) cs ∧
  ∀ s' s'', run_calls p (set_world s w) cs = Ok s' → SetAborted s' p = Ok s'' → knows (heap s'') (world s'').

Lemma inv_set_world s w : inv s → inv (set_world s w).
Proof. intros []. by constructor. Qed.

Lemma add_again s p e :
  inv s → knows (heap s) (world s) → p ∉ queued s → heap s !! p = Some e → 0 ≤ m_time s → m_time s + 1 < 2 ^ 64 →
  ∃ s', AddEvent s p (CalculateTime s 1) false = Ok s' ∧ inv s' ∧ knows (heap s') (world s') ∧ m_time s' = m_time s ∧
    length (due s') = length (due s).
Proof.
  intros Hinv Hk Hp He H0 Ht. unfold AddEvent, CalculateTime.
  rewrite He, wrap_small by (unfold in_u; lia). simpl. eexists. split; [done|].
  split; [by apply inv_insert|]. split; [by apply knows_time|]. split; [done|]. apply due_insert. lia.
Qed.

(** An abort that was asked for is carried out. *)
Lemma abort_ok s p e :
  inv s → knows (heap s) (world s) → p ∉ queued s → heap s !! p = Some e → IsRunning e = false →
  ∃ s1 e1, (if IsAbortScheduled e
        then let '(w, cs) := Abort p (m_time s) (world s) in
          let! s' := run_calls p (set_world s w) cs in SetAborted s' p else Ok s) = Ok s1 ∧
    inv s1 ∧ knows (heap s1) (world s1) ∧ m_time s1 = m_time s ∧ length (due s1) = length (due s) ∧
    p ∉ queued s1 ∧ heap s1 !! p = Some e1 ∧ IsRunning e1 = false.
Proof.
  intros Hinv Hk Hp He Hrun. destruct (IsAbortScheduled e) eqn:Hs; [|by exists s, e].
  destruct (Abort p (m_time s) (world s)) as [w cs] eqn:HA.
  destruct (Abort_ok s p e w cs) as [Hc Hk']; try done.
  destruct (run_calls_kept p true cs (set_world s w)) as (s1 & Hr & [Hi1 Ht1 Hd1 Hth Hg]); [by apply inv_set_world|by exists e|done|].
  specialize (Hk' s1). rewrite Hr in *. simpl. destruct Hth as (e' & e1 & He' & He1 & Ha).
  unfold IsAbortScheduled in Hs. apply bool_decide_eq_true in Hs.
  simpl in He'. assert (e' = e) as -> by congruence.
  unfold SetAborted in *. rewrite He1 in *. simpl in *.
  unfold IsAborted in *. rewrite Ha, Hs in * by (rewrite Hs; done). simpl in *.
  eexists _, _. split; [done|]. split; [by apply inv_set_heap|]. split; [by apply Hk'|].
  split; [done|]. split; [done|]. split; [by apply Hg|]. simpl. by rewrite lookup_insert_eq.
Qed.
Lemma process_ok s p :
  inv s → knows (heap s) (world s) → p ∉ queued s → is_Some (heap s !! p) → 0 ≤ m_time s → m_time s + 1 < 2 ^ 64 →
  ∃ s', process s p p_time = Ok s' ∧ inv s' ∧ knows (heap s') (world s') ∧ m_time s' = m_time s ∧
    length (due s') = length (due s).
Proof.
  intros Hinv Hk Hp [e He] H0 Ht. unfold process. rewrite He. simpl.
  destruct (IsRunning e) eqn:Hrun.
  - destruct (Execute p (m_time s) p_time (world s)) as [[w cs] fin] eqn:HE.
    destruct (Execute_ok s p e w cs fin) as [Hc Hk']; try done.
    destruct (run_calls_kept p fin cs (set_world s w)) as (s1 & Hr & [Hi1 Ht1 Hd1 Hth Hg]); [by apply inv_set_world|by exists e|done|].
    specialize (Hk' s1 Hr). rewrite Hr. simpl. destruct fin; [|by exists s1].
    destruct Hth as (_ & e' & _ & He' & _). unfold free. rewrite He'. simpl.
    eexists. split; [done|]. split; [apply inv_free; auto|]. done.
  - destruct (abort_ok s p e) as (s1 & e1 & -> & Hi1 & Hk1 & Ht1 & Hd1 & Hp1 & He1 & Hr1); try done.
    simpl. destruct (IsDeletable p (world s1)) eqn:Hdel.
    + unfold free. rewrite He1. simpl. eexists. split; [done|].
      split; [by apply inv_free|]. split; [by eapply knows_delete|done].
    + destruct (add_again s1 p e1) as (s2 & -> & ? & ? & ? & ?); try done; try lia.
      exists s2. split; [done|]. split; [done|]. split; [done|]. split; congruence.
Qed.

Lemma update_loop_ok fuel s :
  inv s → knows (heap s) (world s) → 0 ≤ m_time s → m_time s + 1 < 2 ^ 64 → (length (due s) < fuel)%nat →
  ∃ s', update_loop fuel s p_time = Ok s' ∧ inv s' ∧ knows (heap s') (world s') ∧ m_time s' = m_time s ∧ due s' = [].
Proof.
  revert s. induction fuel as [|n IH]; intros s Hinv Hk H0 Ht Hd; [lia|]. simpl.
  destruct (m_events s) as [|[k p] rest] eqn:E.
  { exists s. unfold due. by rewrite E. }
  destruct Hinv as [Hnd Hl Hs]. unfold queued in Hnd, Hl. rewrite E in Hnd, Hl, Hs.
  destruct (Z.leb_spec k (m_time s)).
  - apply NoDup_cons in Hnd as [Hp Hnd].
    destruct (process_ok (set_events s rest) p) as (s1 & -> & Hi1 & Hk1 & Ht1 & Hd1); try done.
    + constructor; [done| |by eapply mm_sorted_tail]. intros q Hq. apply Hl. by right.
    + apply Hl. by left.
    + simpl in *. destruct (IH s1) as (s2 & ? & ? & ? & ? & ?); try done; try lia.
      * rewrite Hd1. unfold due in *. rewrite E in Hd. simpl.
        rewrite filter_cons_True in Hd by done. simpl in Hd. lia.
      * exists s2. split; [done|]. split; [done|]. split; [done|]. split; [congruence|done].
  - exists s. split; [done|]. split; [by constructor; unfold queued; rewrite ?E|]. split; [done|]. split; [done|].
    unfold due. rewrite E. apply filter_none, Forall_forall.
    intros x [->|Hx]%elem_of_cons; simpl; [lia|].
    pose proof (mm_sorted_head _ _ _ Hs Hx). simpl in *. lia.
Qed.

(** C20: one tick of the processor comes to an end (fuel above the number of queued events
    is enough) without a failed assertion or an access to a deleted event, leaves no event
    due, and keeps every queued event alive and queued once, when the events behave: while
    they run they may add new events, abort others and add themselves again, but only at
    later times, only objects that are not in use, and only abort what is alive and runs. *)
Theorem Update_safe fuel s :
  inv s → knows (heap s) (world s) → 0 ≤ m_time s → 0 ≤ p_time → m_time s + p_time + 1 < 2 ^ 64 →
  (length (m_events s) < fuel)%nat →
  ∃ s', Update fuel s p_time = Ok s' ∧ inv s' ∧ knows (heap s') (world s') ∧ m_time s' = m_time s + p_time ∧ due s' = [].
Proof.
  intros Hinv Hk H0 Hp Ht Hf. unfold Update. rewrite wrap_small by (unfold in_u; lia).
  set (s0 := mkState (m_time s + p_time) (m_events s) (heap s) (world s)).
  destruct (update_loop_ok fuel s0) as (s' & ? & ? & ? & ? & ?); simpl; try lia; [by destruct Hinv|done| |by exists s'].
  eapply Nat.le_lt_trans; [apply length_filter|done].
Qed.
End behaved.
End processor.

Arguments state : clear implicits.
Arguments mkState {W}.

(** A spawner: every 10 ms it adds a new event to run at once when that is due, and aborts
    the one it added before unless that has run. The world: the next free pointer, and the
    event that was added last while it can be aborted. *)
Definition spawner : ptr := 0.
Definition spawn (p t dt : Z) (w : Z * option ptr) : Z * option ptr * list call * bool :=
  if p =? spawner
  then ((w.1 + 1, Some w.1), (match w.2 with Some q => [CAbort q] | None => [] end) ++ [CNew w.1 (t + 15); CReAdd (t + 10)], false)
  else ((w.1, if bool_decide (w.2 = Some p) then None else w.2), [], true).
Definition no_calls (p t : Z) (w : Z * option ptr) : Z * option ptr * list call := (w, []).
Record spawner_knows (h : gmap ptr BasicEvent) (w : Z * option ptr) : Prop := {
  sk_fresh p : is_Some (h !! p) → p < w.1;
  sk_last q : w.2 = Some q → q ≠ spawner ∧ ∃ e, h !! q = Some e ∧ IsRunning e = true
}.
Lemma spawner_time h w p e t :
  spawner_knows h w → h !! p = Some e → spawner_knows (<[p := mkEvent (m_abortState e) (m_addTime e) t]> h) w.
Proof.
  intros [Hf Hl] He. split.
  - intros q. rewrite lookup_insert_is_Some'. intros [->|Hq]; auto.
  - intros q Hq. destruct (Hl q Hq) as (Hn & e' & He' & Hr). split; [done|]. destruct (decide (p = q)) as [->|].
    + rewrite lookup_insert_eq. eexists. split; [done|]. by simplify_eq.
    + rewrite lookup_insert_ne by done. eauto.
Qed.
Lemma spawner_delete h w p e :
  spawner_knows h w → h !! p = Some e → IsRunning e = false → true = true → spawner_knows (delete p h) w.
Proof.
  intros [Hf Hl] He Hr _. split.
  - intros q [e' [_ He']%lookup_delete_Some]. eauto.
  - intros q Hq. destruct (Hl q Hq) as (Hn & e' & He' & Hr'). split; [done|].
    rewrite lookup_delete_ne by (intros ->; congruence). eauto.
Qed.

(** The event that runs, after the calls for the new one. *)
Lemma spawn_calls (s : state (Z * option ptr)) w t n :
  inv s → spawner_knows (heap s) w → spawner ∉ queued s → is_Some (heap s !! spawner) → n = w.1 → m_time s = t →
  calls_ok spawner false s [CNew n (t + 15); CReAdd (t + 10)] ∧
  ∀ s', run_calls spawner s [CNew n (t + 15); CReAdd (t + 10)] = Ok s' → spawner_knows (heap s') (n + 1, Some n).
Proof.
  intros Hinv [Hf Hl] Hq [e He] -> <-. pose proof (Hf spawner ltac:(eauto)) as H0.
  assert (heap s !! w.1 = None) as Hn. { apply eq_None_not_Some. intros Hs. specialize (Hf _ Hs). lia. }
  assert (spawner ≠ w.1) as Hne by lia.
  split.
  - split; [split; [done|simpl; lia]|]. intros s1 E. cbn in E. unfold AddEvent in E. cbn in E. rewrite lookup_insert_eq in E. cbn in E.
    injection E as <-. split; [|done]. split; [done|]. split; [|simpl; lia]. rewrite queued_insert. by apply not_elem_of_cons.
  - intros s' E. cbn in E. unfold AddEvent in E. cbn in E. rewrite lookup_insert_eq in E. cbn in E.
    rewrite lookup_insert_ne, lookup_insert_ne, He in E by done. cbn in E. injection E as <-. cbn. split; cbn.
    + intros q. rewrite !lookup_insert_is_Some'. intros [<-|[<-|[<-|Hq']]]; [lia..|]. specialize (Hf q Hq'). lia.
    + intros q [= <-]. split; [done|]. rewrite lookup_insert_ne, lookup_insert_eq by done. by eexists.
Qed.
Lemma spawn_ok (s : state (Z * option ptr)) p e w cs fin dt :
  inv s → spawner_knows (heap s) (world s) → p ∉ queued s → heap s !! p = Some e → IsRunning e = true →
  spawn p (m_time s) dt (world s) = (w, cs, fin) →
  calls_ok p fin (set_world s w) cs ∧
  ∀ s', run_calls p (set_world s w) cs = Ok s' → spawner_knows (if fin then delete p (heap s') else heap s') (world s').
Proof.
  intros Hinv Hk Hq He Hr. unfold spawn. destruct (Z.eqb_spec p spawner) as [->|Hp].
  - intros [= <- <- <-]. set (w' := (_, _)). assert (∀ cs (s1 s2 : state (Z * option ptr)), run_calls spawner s1 cs = Ok s2 → world s2 = world s1) as Hw.
    { clear. intros cs. induction cs as [|c cs IH]; cbn; intros s1 s2; [by intros [= ->]|]. destruct (run_call spawner s1 c) as [s3| | | |] eqn:Ec; try done.
      cbn. intros E. rewrite (IH _ _ E). destruct c; cbn in Ec; unfold AddEvent, ScheduleAbort, deref, assert_ in Ec;
        repeat (case_match; try done); by injection Ec as <-. }
    destruct ((world s).2) as [q|] eqn:Eq; cbn [app].
    + destruct (sk_last _ _ Hk q Eq) as (Hnq & eq & Heq & Hrq).
      assert (spawner_knows (<[q := set_abortState eq STATE_ABORT_SCHEDULED]> (heap s)) ((world s).1, None)) as Hk1.
      { split; [|done]. intros x. rewrite lookup_insert_is_Some'. cbn. intros [<-|Hx]; apply (sk_fresh _ _ Hk); eauto. }
      set (s1 := set_heap (set_world s w') (<[q := set_abortState eq STATE_ABORT_SCHEDULED]> (heap s))).
      destruct (spawn_calls s1 ((world s).1, None) (m_time s) (world s).1) as [H1 H2]; [by apply (inv_set_heap (set_world s w')), inv_set_world|exact Hk1|exact Hq| |done|done|].
      { cbn. rewrite lookup_insert_ne by done. eauto. }
      assert (run_call spawner (set_world s w') (CAbort q) = Ok s1) as E1.
      { cbn. unfold ScheduleAbort. cbn. rewrite Heq. cbn. by rewrite Hrq. }
      split.
      * split; [by exists eq|]. intros s' E'. rewrite E1 in E'. injection E' as <-. exact H1.
      * intros s' E'. rewrite (Hw _ _ _ E'). cbn [run_calls] in E'. rewrite E1 in E'. cbn [mbind] in E'. by apply H2.
    + destruct (spawn_calls (set_world s w') (world s) (m_time s) (world s).1) as [H1 H2]; [by apply inv_set_world|exact Hk|exact Hq|by exists e|done|done|].
      split; [done|]. intros s' E'. rewrite (Hw _ _ _ E'). by apply H2.
  - intros [= <- <- <-]. split; [done|]. intros s' [= <-]. cbn. split; cbn.
    + intros q [e' [_ He']%lookup_delete_Some]. apply (sk_fresh _ _ Hk). eauto.
    + intros q Eq. case_bool_decide; [done|]. destruct (sk_last _ _ Hk q Eq) as (Hn & e' & He' & Hr'). split; [done|].
      rewrite lookup_delete_ne by (intros ->; congruence). eauto.
Qed.

(** The spawner and the event it added at 5: in the tick to 20 the spawner adds another and
    aborts that one, which is deleted. *)
Definition spawned : state (Z * option ptr) :=
  mkState 12 [(15, spawner); (20, 1)] {[ spawner := new_event; 1 := new_event ]} (2, Some 1).
Lemma Update_safe_witness :
  ∃ s', Update spawn no_calls (λ _ _, true) 3 spawned 8 = Ok s' ∧ m_time s' = 20 ∧
    m_events s' = [(30, spawner); (35, 2)] ∧ heap s' !! 1 = None ∧ world s' = (3, Some 2).
Proof.
  destruct (Update_safe spawn no_calls (λ _ _, true) 8 spawner_knows) with (fuel := 3%nat) (s := spawned) as (s' & H & _ & _ & Ht & _).
  - intros h w p e t. apply spawner_time.
  - intros h w p e. apply spawner_delete.
  - intros s p e w cs fin. apply spawn_ok.
  - intros s p e w cs Hi Hk Hq He Hs [= <- <-]. split; [done|]. intros s' s'' [= <-] E. unfold SetAborted in E. cbn in E. rewrite He in E. cbn in E.
    destruct (IsAborted e); [done|]. injection E as <-. cbn. destruct Hk as [Hf Hl]. split.
    + intros q. rewrite lookup_insert_is_Some'. intros [<-|Hq']; eauto.
    + intros q Eq. destruct (Hl q Eq) as (Hn & e' & He' & Hr). split; [done|]. exists e'. split; [|done].
      rewrite lookup_insert_ne; [done|]. intros ->. rewrite He in He'. injection He' as <-. unfold IsRunning, IsAbortScheduled in *.
      apply bool_decide_eq_true in Hs, Hr. congruence.
  - constructor; cbn.
    + repeat (constructor; [set_solver|]). constructor.
    + intros p. rewrite !elem_of_cons, elem_of_nil. intros [->|[->|[]]]; by eexists.
    + repeat (constructor; [|repeat constructor; unfold key_le; cbn; lia] || constructor).
  - split; cbn.
    + intros p. rewrite lookup_insert_is_Some'. intros [<-|[? [<- _]%lookup_singleton_Some]]; unfold spawner; lia.
    + intros q [= <-]. split; [done|]. by exists new_event.
  - cbn; lia.
  - lia.
  - cbn; lia.
  - cbn; lia.
  - exists s'. split; [exact H|]. split; [exact Ht|]. vm_compute in H. injection H as <-. repeat split; reflexivity.
Defined.
End EventProcessor.
