(* ===== verification/Reputation.v ===== *)
(** * Reputation ([src/server/game/Reputation/ReputationMgr.{h,cpp}])

    The standing of one player with every faction: ranks, spill-over to related
    factions, the at-war / visible / inactive flags, the counters behind the
    reputation achievements, the packets and the database rows. The faction
    store, the spill-over tables, the player's masks and the reputation rate are
    data files and configuration: fields of [RepEnv]. *)
From S2P Require Import Prelude Float32.

Module Reputation.

(** ** Ranks *)

Definition PointsInRank : list Z := [36000; 3000; 3000; 3000; 6000; 12000; 21000; 1000].
Definition Reputation_Cap : Z := 42999.
Definition Reputation_Bottom : Z := -42000.

Definition REP_HATED := 0.
Definition REP_HOSTILE := 1.
Definition REP_UNFRIENDLY := 2.
Definition REP_NEUTRAL := 3.
Definition REP_FRIENDLY := 4.
Definition REP_HONORED := 5.
Definition REP_REVERED := 6.
Definition REP_EXALTED := 7.

(** The loop of [ReputationToRank], from rank [n - 1] down to 0. *)
Fixpoint rank_loop (n : nat) (limit standing : Z) : Z :=
  match n with
  | O => REP_HATED
  | S i =>
    let limit' := limit - nth i PointsInRank 0 in
    if limit' <=? standing then Z.of_nat i else rank_loop i limit' standing
  end.

Definition ReputationToRank (standing : Z) : Z := rank_loop 8 (Reputation_Cap + 1) standing.

(** ** Data *)

Definition FACTION_FLAG_VISIBLE := 0x01.
Definition FACTION_FLAG_AT_WAR := 0x02.
Definition FACTION_FLAG_HIDDEN := 0x04.
Definition FACTION_FLAG_INVISIBLE_FORCED := 0x08.
Definition FACTION_FLAG_PEACE_FORCED := 0x10.
Definition FACTION_FLAG_INACTIVE := 0x20.
Definition FACTION_FLAG_SPECIAL := 0x80.

Record FactionEntry := mkEntry {
  fe_ID : Z;
  reputationListID : Z;                  (* int32 *)
  BaseRepRaceMask : list Z;              (* four of each *)
  BaseRepClassMask : list Z;
  BaseRepValue : list Z;
  ReputationFlags : list Z;
  fe_team : Z;
  spilloverRateIn : f32;
  spilloverRateOut : f32;
  spilloverMaxRankIn : Z
}.

Definition CanHaveReputation (fe : FactionEntry) : bool := 0 <=? reputationListID fe.

Record FactionState := mkState {
  fs_ID : Z;
  ReputationListID : Z;                  (* uint32 *)
  Standing : Z;                          (* int32 *)
  Flags : Z;                             (* uint8 *)
  needSend : bool;
  needSave : bool
}.

Record RepSpilloverTemplate := mkSpill {
  sp_faction : list Z;
  sp_rate : list f32;
  sp_rank : list Z
}.

Record ReputationMgr := mkMgr {
  _factions : gmap Z FactionState;
  _forcedReactions : gmap Z Z;
  _visibleFactionCount : Z;              (* uint8 : 8 *)
  _honoredFactionCount : Z;
  _reveredFactionCount : Z;
  _exaltedFactionCount : Z;
  _sendFactionIncreased : bool
}.

Definition with_factions (r : ReputationMgr) (f : gmap Z FactionState) : ReputationMgr :=
  mkMgr f (_forcedReactions r) (_visibleFactionCount r) (_honoredFactionCount r)
    (_reveredFactionCount r) (_exaltedFactionCount r) (_sendFactionIncreased r).
Definition with_increased (r : ReputationMgr) (b : bool) : ReputationMgr :=
  mkMgr (_factions r) (_forcedReactions r) (_visibleFactionCount r) (_honoredFactionCount r)
    (_reveredFactionCount r) (_exaltedFactionCount r) b.
Definition with_visible (r : ReputationMgr) (n : Z) : ReputationMgr :=
  mkMgr (_factions r) (_forcedReactions r) n (_honoredFactionCount r)
    (_reveredFactionCount r) (_exaltedFactionCount r) (_sendFactionIncreased r).
Definition with_forced (r : ReputationMgr) (f : gmap Z Z) : ReputationMgr :=
  mkMgr (_factions r) f (_visibleFactionCount r) (_honoredFactionCount r)
    (_reveredFactionCount r) (_exaltedFactionCount r) (_sendFactionIncreased r).

Definition set_standing (s : FactionState) (x : Z) : FactionState :=
  mkState (fs_ID s) (ReputationListID s) x (Flags s) (needSend s) (needSave s).
Definition set_flags (s : FactionState) (f : Z) : FactionState :=
  mkState (fs_ID s) (ReputationListID s) (Standing s) f (needSend s) (needSave s).
Definition set_need (s : FactionState) (send save : bool) : FactionState :=
  mkState (fs_ID s) (ReputationListID s) (Standing s) (Flags s) send save.
Definition dirty (s : FactionState) : FactionState := set_need s true true.

(** What the manager tells the client, the player object and the database. *)
Inductive rep_out :=
| SMSG_SET_FORCED_REACTIONS (count : Z) (entries : list (Z * Z))
| SMSG_SET_FACTION_STANDING (increased : bool) (count : Z) (entries : list (Z * Z))
| SMSG_INITIALIZE_FACTIONS (count : Z) (entries : list (Z * Z))
| SMSG_SET_FACTION_VISIBLE (list_id : Z)
| PLAYER_ReputationChanged (faction : Z)
| PLAYER_UpdateAchievementCriteria (kind : Z) (faction : Z)
| CHAR_DEL_CHAR_REPUTATION_BY_FACTION (guid faction : Z)
| CHAR_INS_CHAR_REPUTATION_BY_FACTION (guid faction standing flags : Z).

(** The five criteria refreshed after a change, numbered as in DBCEnums.h. *)
Definition reputation_criteria : list Z := [89; 46; 47; 87; 88].

Class RepEnv := {
  sFactionStore : gmap Z FactionEntry;           (* LookupEntry *)
  faction_rows : Z;                              (* GetNumRows *)
  rep_spillover : gmap Z RepSpilloverTemplate;   (* GetRepSpilloverTemplate *)
  faction_team_list : gmap Z (list Z);           (* GetFactionTeamList *)
  race_mask : Z;                                 (* getORaceMask *)
  class_mask : Z;                                (* getClassMask *)
  rate_reputation_gain : f32;                    (* RATE_REPUTATION_GAIN *)
  player_loading : bool;                         (* PlayerLoading() *)
  player_guid : Z;
  script_standing : Z → Z → bool → Z             (* OnPlayerReputationChange(int32&) *)
}.

Section env.
Context `{RepEnv}.

(** ** Accessors *)

Definition GetState_id (r : ReputationMgr) (id : Z) : option FactionState := _factions r !! id.

Definition GetState (r : ReputationMgr) (fe : FactionEntry) : option FactionState :=
  if CanHaveReputation fe then GetState_id r (reputationListID fe) else None.

Definition IsAtWar (r : ReputationMgr) (fe : option FactionEntry) : bool :=
  match fe with
  | None => false
  | Some fe =>
    match GetState r fe with
    | Some s => Flags s .& FACTION_FLAG_AT_WAR
    | None => false
    end
  end.

Definition IsAtWar_id (r : ReputationMgr) (faction_id : Z) : bool :=
  match sFactionStore !! faction_id with
  | None => false
  | Some fe => IsAtWar r (Some fe)
  end.

(** The first of the four base rows that fits the player's race and class. *)
Definition base_row_fits (fe : FactionEntry) (i : nat) : bool :=
  let race := nth i (BaseRepRaceMask fe) 0 in
  let cls := nth i (BaseRepClassMask fe) 0 in
  ((race .& race_mask) || ((race =? 0) && negb (cls =? 0)))
  && ((cls .& class_mask) || (cls =? 0)).

Fixpoint first_base_row (fe : FactionEntry) (i n : nat) : option nat :=
  match n with
  | O => None
  | S n' => if base_row_fits fe i then Some i else first_base_row fe (S i) n'
  end.

Definition GetBaseReputation (fe : option FactionEntry) : Z :=
  match fe with
  | None => 0
  | Some fe =>
    match first_base_row fe 0 4 with
    | Some i => nth i (BaseRepValue fe) 0
    | None => 0
    end
  end.

Definition GetReputation (r : ReputationMgr) (fe : option FactionEntry) : Z :=
  match fe with
  | None => 0
  | Some fe =>
    match GetState r fe with
    | Some s => s32 (GetBaseReputation (Some fe) + Standing s)
    | None => 0
    end
  end.

Definition GetReputation_id (r : ReputationMgr) (faction_id : Z) : Z :=
  match sFactionStore !! faction_id with
  | None => 0
  | Some fe => GetReputation r (Some fe)
  end.

Definition GetRank (r : ReputationMgr) (fe : option FactionEntry) : Z :=
  ReputationToRank (GetReputation r fe).

Definition GetBaseRank (fe : option FactionEntry) : Z :=
  ReputationToRank (GetBaseReputation fe).

(** [Player::GetReputationRank]. *)
Definition GetReputationRank (r : ReputationMgr) (faction : Z) : Z :=
  GetRank r (sFactionStore !! faction).

Definition GetForcedRankIfAny (r : ReputationMgr) (template_faction : Z) : option Z :=
  _forcedReactions r !! template_faction.

Definition ApplyForceReaction (r : ReputationMgr) (faction_id rank : Z) (apply : bool) : ReputationMgr :=
  with_forced r (if apply then <[faction_id := rank]> (_forcedReactions r)
                 else delete faction_id (_forcedReactions r)).

Definition GetDefaultStateFlags (fe : option FactionEntry) : Z :=
  match fe with
  | None => 0
  | Some fe =>
    match first_base_row fe 0 4 with
    | Some i => nth i (ReputationFlags fe) 0
    | None => 0
    end
  end.

(** ** Packets *)

Definition SendForceReactions (r : ReputationMgr) : list rep_out :=
  [SMSG_SET_FORCED_REACTIONS (Z.of_nat (size (_forcedReactions r))) (items (_forcedReactions r))].

Definition clear_needSend (s : FactionState) : FactionState := set_need s false (needSave s).

Definition SendState (r : ReputationMgr) (f : FactionState) : ReputationMgr * list rep_out :=
  let others := filter (λ ks, needSend ks.2 = true ∧ ReputationListID ks.2 ≠ ReputationListID f)
                  (items (_factions r)) in
  let entries := (ReputationListID f, u32 (Standing f))
                 :: map (λ ks, (ReputationListID ks.2, u32 (Standing ks.2))) others in
  (with_increased (with_factions r (clear_needSend <$> _factions r)) false,
   [SMSG_SET_FACTION_STANDING (_sendFactionIncreased r) (Z.of_nat (length entries)) entries]).

(** The body of the packet: [a] is the next list id to fill in. *)
Fixpoint init_entries (a : Z) (fs : list (Z * FactionState)) : Z * list (Z * Z) :=
  match fs with
  | [] => (a, [])
  | (k, s) :: fs =>
    let '(a', rest) := init_entries (u32 (k + 1)) fs in
    (a', replicate (Z.to_nat (u32 (k - a))) (0, 0) ++ (Flags s, u32 (Standing s)) :: rest)
  end.

Definition SendInitialReputations (r : ReputationMgr) : ReputationMgr * list rep_out :=
  let count := 128 in
  let '(a, entries) := init_entries 0 (items (_factions r)) in
  (with_factions r (clear_needSend <$> _factions r),
   [SMSG_INITIALIZE_FACTIONS count (entries ++ replicate (Z.to_nat (u32 (count - a))) (0, 0))]).

Fixpoint send_states (r : ReputationMgr) (keys : list Z) : ReputationMgr * list rep_out :=
  match keys with
  | [] => (r, [])
  | k :: keys =>
    match _factions r !! k with
    | Some s =>
      let '(r1, o1) := SendState r s in
      let '(r2, o2) := send_states r1 keys in (r2, o1 ++ o2)
    | None => send_states r keys
    end
  end.

Definition SendStates (r : ReputationMgr) : ReputationMgr * list rep_out :=
  send_states r (items (_factions r)).*1.

Definition SendVisible (f : FactionState) : list rep_out :=
  if player_loading then [] else [SMSG_SET_FACTION_VISIBLE (ReputationListID f)].

(** ** Counters *)

Definition UpdateRankCounters (r : ReputationMgr) (old_rank new_rank : Z) : ReputationMgr :=
  let upd n k := let n1 := if k <=? old_rank then u8 (n - 1) else n in
                 if k <=? new_rank then u8 (n1 + 1) else n1 in
  mkMgr (_factions r) (_forcedReactions r) (_visibleFactionCount r)
    (upd (_honoredFactionCount r) REP_HONORED)
    (upd (_reveredFactionCount r) REP_REVERED)
    (upd (_exaltedFactionCount r) REP_EXALTED)
    (_sendFactionIncreased r).

Definition new_state (fe : FactionEntry) : FactionState :=
  mkState (fe_ID fe) (u32 (reputationListID fe)) 0 (u8 (GetDefaultStateFlags (Some fe))) true true.

Definition init_row (r : ReputationMgr) (i : Z) : ReputationMgr :=
  match sFactionStore !! i with
  | Some fe =>
    if 0 <=? reputationListID fe then
      let s := new_state fe in
      let r1 := if Flags s .& FACTION_FLAG_VISIBLE
                then with_visible r (u8 (_visibleFactionCount r + 1)) else r in
      let r2 := UpdateRankCounters r1 REP_HOSTILE (GetBaseRank (Some fe)) in
      with_factions r2 (<[ReputationListID s := s]> (_factions r2))
    else r
  | None => r
  end.

Definition Initialize (r : ReputationMgr) : ReputationMgr :=
  foldl init_row (mkMgr ∅ (_forcedReactions r) 0 0 0 0 false)
    (seqZ 1 (faction_rows - 1)).

(** ** Flags *)

(** [SetVisible(FactionState* )] on the state stored under [key]. *)
Definition SetVisible_ptr (r : ReputationMgr) (key : Z) : ReputationMgr * list rep_out :=
  match _factions r !! key with
  | None => (r, [])
  | Some f =>
    if (Flags f .& Z.lor FACTION_FLAG_INVISIBLE_FORCED FACTION_FLAG_HIDDEN)
       && negb (Flags f .& FACTION_FLAG_SPECIAL) then (r, [])
    else if Flags f .& FACTION_FLAG_VISIBLE then (r, [])
    else
      let f' := dirty (set_flags f (Z.lor (Flags f) FACTION_FLAG_VISIBLE)) in
      (with_visible (with_factions r (<[key := f']> (_factions r)))
         (u8 (_visibleFactionCount r + 1)), SendVisible f')
  end.

Definition SetVisible (r : ReputationMgr) (fe : FactionEntry) : ReputationMgr * list rep_out :=
  if reputationListID fe <? 0 then (r, [])
  else SetVisible_ptr r (reputationListID fe).

(** By faction template ([template_faction] is its faction id). *)
Definition SetVisible_template (r : ReputationMgr) (template_faction : Z) : ReputationMgr * list rep_out :=
  if template_faction =? 0 then (r, [])
  else match sFactionStore !! template_faction with
  | Some fe =>
    if negb ((nth 1 (BaseRepRaceMask fe) 0 .& race_mask)
             && (nth 1 (BaseRepValue fe) 0 =? Reputation_Bottom))
    then SetVisible r fe else (r, [])
  | None => (r, [])
  end.

(** [SetAtWar(FactionState*, bool)] on the state [f0]; the rank test of the two
    Sholazar factions reads the manager itself. *)
Definition at_war_step (r : ReputationMgr) (f0 : FactionState) (atWar : bool) : FactionState :=
  let f :=
    if atWar && (((fs_ID f0 =? 1104) && (GetReputationRank r 1104 <? REP_UNFRIENDLY))
                 || ((fs_ID f0 =? 1105) && (GetReputationRank r 1105 <? REP_UNFRIENDLY)))
    then set_flags f0 (Z.lor (Flags f0) FACTION_FLAG_AT_WAR) else f0 in
  if atWar && (Flags f .& FACTION_FLAG_PEACE_FORCED) then f
  else if Bool.eqb (Flags f .& FACTION_FLAG_AT_WAR) atWar then f
  else dirty (set_flags f
         (if atWar then Z.lor (Flags f) FACTION_FLAG_AT_WAR
          else Z.land (Flags f) (Z.lnot FACTION_FLAG_AT_WAR))).

Definition SetAtWar_ptr (r : ReputationMgr) (key : Z) (atWar : bool) : ReputationMgr :=
  match _factions r !! key with
  | None => r
  | Some f => with_factions r (<[key := at_war_step r f atWar]> (_factions r))
  end.

Definition SetAtWar (r : ReputationMgr) (repListID : Z) (on : bool) : ReputationMgr :=
  match _factions r !! repListID with
  | None => r
  | Some f =>
    if Flags f .& Z.lor FACTION_FLAG_INVISIBLE_FORCED FACTION_FLAG_HIDDEN then r
    else SetAtWar_ptr r repListID on
  end.

Definition inactive_step (f : FactionState) (inactive : bool) : FactionState :=
  if inactive && ((Flags f .& Z.lor FACTION_FLAG_INVISIBLE_FORCED FACTION_FLAG_HIDDEN)
                  || negb (Flags f .& FACTION_FLAG_VISIBLE)) then f
  else if Bool.eqb (Flags f .& FACTION_FLAG_INACTIVE) inactive then f
  else dirty (set_flags f
         (if inactive then Z.lor (Flags f) FACTION_FLAG_INACTIVE
          else Z.land (Flags f) (Z.lnot FACTION_FLAG_INACTIVE))).

Definition SetInactive_ptr (r : ReputationMgr) (key : Z) (inactive : bool) : ReputationMgr :=
  match _factions r !! key with
  | None => r
  | Some f => with_factions r (<[key := inactive_step f inactive]> (_factions r))
  end.

Definition SetInactive (r : ReputationMgr) (repListID : Z) (on : bool) : ReputationMgr :=
  match _factions r !! repListID with
  | None => r
  | Some _ => SetInactive_ptr r repListID on
  end.

(** ** Changing a standing *)

Definition clamp_standing (standing : Z) : Z :=
  if Reputation_Cap <? standing then Reputation_Cap
  else if standing <? Reputation_Bottom then Reputation_Bottom else standing.

(** The rate of an incremental change: [int32(floor(float(x) * rate + 0.5f))]. *)
Definition rated (standing : Z) : Z :=
  f32_to_s32 (f32_floor (f32_add (f32_mul (f32_of_Z standing) rate_reputation_gain) (f32_lit 1 2))).

Definition SetOneFactionReputation (r : ReputationMgr) (fe : FactionEntry) (standing : Z)
    (incremental : bool) : bool * ReputationMgr * list rep_out :=
  let key := u32 (reputationListID fe) in
  match _factions r !! key with
  | None => (false, r, [])
  | Some f =>
    let BaseRep := GetBaseReputation (Some fe) in
    let standing := clamp_standing
      (if incremental then s32 (rated standing + s32 (Standing f + BaseRep)) else standing) in
    let old_rank := ReputationToRank (s32 (Standing f + BaseRep)) in
    let new_rank := ReputationToRank standing in
    let f' := dirty (set_standing f (s32 (standing - BaseRep))) in
    let r1 := with_factions r (<[key := f']> (_factions r)) in
    let '(r2, o2) := SetVisible_ptr r1 key in
    let r3 := if new_rank <=? REP_HOSTILE then SetAtWar_ptr r2 key true else r2 in
    let r4 := if old_rank <? new_rank then with_increased r3 true else r3 in
    let r5 := UpdateRankCounters r4 old_rank new_rank in
    (true, r5, o2 ++ PLAYER_ReputationChanged (fe_ID fe)
                :: map (λ k, PLAYER_UpdateAchievementCriteria k (fe_ID fe)) reputation_criteria)
  end.

(** Spill-over by database template. *)
Fixpoint spill_template (r : ReputationMgr) (rows : list (Z * f32 * Z)) (standing : Z)
    (incremental : bool) : outcome (ReputationMgr * list rep_out) :=
  match rows with
  | [] => Ok (r, [])
  | (faction, rate, rank) :: rows =>
    if negb (faction =? 0) && (GetReputationRank r faction <=? rank) then
      match sFactionStore !! faction with
      | Some fe =>
        let '(_, r1, o1) := SetOneFactionReputation r fe
          (f32_to_s32 (f32_mul (f32_of_Z standing) rate)) incremental in
        let! (r2, o2) := spill_template r1 rows standing incremental in
        Ok (r2, o1 ++ o2)
      | None => AssertFail                       (* AssertEntry *)
      end
    else spill_template r rows standing incremental
  end.

(** Spill-over to the affiliated factions of a team list. *)
Fixpoint spill_list (r : ReputationMgr) (self : FactionEntry) (flist : list Z) (out_rep : f32)
    (incremental res : bool) : bool * ReputationMgr * list rep_out :=
  match flist with
  | [] => (res, r, [])
  | id :: flist =>
    match sFactionStore !! id with
    | Some fe =>
      if (fe_ID fe =? fe_ID self) || (spilloverMaxRankIn fe <? GetRank r (Some fe))
      then spill_list r self flist out_rep incremental res
      else
        let rep := f32_to_s32 (f32_mul out_rep (spilloverRateIn fe)) in
        if negb (rep =? 0) || negb incremental then
          let '(res1, r1, o1) := SetOneFactionReputation r fe rep incremental in
          let '(res2, r2, o2) := spill_list r1 self flist out_rep incremental res1 in
          (res2, r2, o1 ++ o2)
        else spill_list r self flist out_rep incremental res
    | None => spill_list r self flist out_rep incremental res
    end
  end.

(** The DBC branch of [SetReputation]: which factions receive spill-over. *)
Definition spill_dbc (r : ReputationMgr) (fe : FactionEntry) (standing : Z) (incremental : bool)
    : bool * ReputationMgr * list rep_out :=
  let out0 := f32_of_Z standing in
  let flist0 := faction_team_list !! fe_ID fe in
  let '(out_rep, flist, r1, o1) :=
    match flist0 with
    | None =>
      if negb (fe_team fe =? 0) && negb (f32_eqb (spilloverRateOut fe) f32_zero) then
        let out1 := f32_mul out0 (spilloverRateOut fe) in
        match sFactionStore !! fe_team fe with
        | Some parent =>
          match _factions r !! u32 (reputationListID parent) with
          | Some ps =>
            if Flags ps .& FACTION_FLAG_SPECIAL then
              let '(_, r1, o1) := SetOneFactionReputation r parent (f32_to_s32 out1) incremental in
              (out1, None, r1, o1)
            else (out1, faction_team_list !! fe_team fe, r, [])
          | None => (out1, faction_team_list !! fe_team fe, r, [])
          end
        | None => (out1, None, r, [])
        end
      else (out0, None, r, [])
    | Some l => (out0, Some l, r, [])
    end in
  match flist with
  | Some l =>
    let '(res, r2, o2) := spill_list r1 fe l out_rep incremental false in (res, r2, o1 ++ o2)
  | None => (false, r1, o1)
  end.

Definition SetReputation (r : ReputationMgr) (fe : FactionEntry) (standing : Z)
    (incremental : bool) : outcome (bool * ReputationMgr * list rep_out) :=
  let standing := script_standing (fe_ID fe) standing incremental in
  let! (res, r1, o1) :=
    (match rep_spillover !! fe_ID fe with
     | Some t =>
       let! (r1, o1) := spill_template r
         (zip (zip (sp_faction t) (sp_rate t)) (sp_rank t)) standing incremental in
       Ok (false, r1, o1)
     | None => Ok (spill_dbc r fe standing incremental)
     end) in
  let key := u32 (reputationListID fe) in
  match _factions r1 !! key with
  | Some _ =>
    let '(res2, r2, o2) := SetOneFactionReputation r1 fe standing incremental in
    match _factions r2 !! key with
    | Some f => let '(r3, o3) := SendState r2 f in Ok (res2, r3, o1 ++ o2 ++ o3)
    | None => BadPtr
    end
  | None => Ok (res, r1, o1)
  end.

Definition ModifyReputation (r : ReputationMgr) (fe : FactionEntry) (standing : Z) :=
  SetReputation r fe standing true.

(** ** Database *)

Record db_row := mkRow { row_faction : Z; row_standing : Z; row_flags : Z }.

Definition default_state : FactionState := mkState 0 0 0 0 false false.

Definition load_row (ro : ReputationMgr * list rep_out) (row : db_row) : ReputationMgr * list rep_out :=
  let '(r, o) := ro in
  match sFactionStore !! row_faction row with
  | Some fe =>
    if 0 <=? reputationListID fe then
      let key := u32 (reputationListID fe) in
      let f := default default_state (_factions r !! key) in
      let r1 := with_factions r (<[key := set_standing f (row_standing row)]> (_factions r)) in
      let BaseRep := GetBaseReputation (Some fe) in
      let r2 := UpdateRankCounters r1 (ReputationToRank BaseRep)
                  (ReputationToRank (s32 (BaseRep + row_standing row))) in
      let '(r3, o3) := if row_flags row .& FACTION_FLAG_VISIBLE then SetVisible_ptr r2 key
                       else (r2, []) in
      let r4 := if row_flags row .& FACTION_FLAG_INACTIVE then SetInactive_ptr r3 key true else r3 in
      let visible := match _factions r4 !! key with
                     | Some f => Flags f .& FACTION_FLAG_VISIBLE | None => false end in
      let r5 := if row_flags row .& FACTION_FLAG_AT_WAR then SetAtWar_ptr r4 key true
                else if visible then SetAtWar_ptr r4 key false else r4 in
      let r6 := if GetRank r5 (Some fe) <=? REP_HOSTILE then SetAtWar_ptr r5 key true else r5 in
      let r7 := match _factions r6 !! key with
                | Some f => if Flags f =? row_flags row
                            then with_factions r6 (<[key := set_need f false false]> (_factions r6))
                            else r6
                | None => r6
                end in
      (r7, o ++ o3)
    else (r, o)
  | None => (r, o)
  end.

Definition LoadFromDB (r : ReputationMgr) (result : option (list db_row))
    : ReputationMgr * list rep_out :=
  let r0 := Initialize r in
  match result with
  | Some rows => foldl load_row (r0, []) rows
  | None => (r0, [])
  end.

Definition save_state (s : FactionState) : list rep_out :=
  if needSave s then
    [CHAR_DEL_CHAR_REPUTATION_BY_FACTION player_guid (u16 (fs_ID s));
     CHAR_INS_CHAR_REPUTATION_BY_FACTION player_guid (u16 (fs_ID s)) (Standing s) (Flags s)]
  else [].

Definition SaveToDB (r : ReputationMgr) : ReputationMgr * list rep_out :=
  (with_factions r ((λ s, if needSave s then set_need s (needSend s) false else s) <$> _factions r),
   concat (map (λ ks, save_state ks.2) (items (_factions r)))).

(** ** Facts about ranks and flags *)

Lemma ReputationToRank_cases x :
  (x < -6000 ∧ ReputationToRank x = 0) ∨
  (-6000 ≤ x < -3000 ∧ ReputationToRank x = 1) ∨
  (-3000 ≤ x < 0 ∧ ReputationToRank x = 2) ∨
  (0 ≤ x < 3000 ∧ ReputationToRank x = 3) ∨
  (3000 ≤ x < 9000 ∧ ReputationToRank x = 4) ∨
  (9000 ≤ x < 21000 ∧ ReputationToRank x = 5) ∨
  (21000 ≤ x < 42000 ∧ ReputationToRank x = 6) ∨
  (42000 ≤ x ∧ ReputationToRank x = 7).
Proof.
  unfold ReputationToRank, Reputation_Cap. cbn.
  repeat (case_bool; b2p; [lia|]). unfold REP_HATED. lia.
Qed.

(** the rank table: a standing has a rank exactly in the documented interval, and
    ranks grow with the standing. *)
Theorem ReputationToRank_spec x y :
  (ReputationToRank x = REP_EXALTED ↔ 42000 ≤ x) ∧
  (REP_REVERED ≤ ReputationToRank x ↔ 21000 ≤ x) ∧
  (REP_HONORED ≤ ReputationToRank x ↔ 9000 ≤ x) ∧
  (REP_FRIENDLY ≤ ReputationToRank x ↔ 3000 ≤ x) ∧
  (REP_NEUTRAL ≤ ReputationToRank x ↔ 0 ≤ x) ∧
  (ReputationToRank x ≤ REP_HOSTILE ↔ x < -3000) ∧
  (ReputationToRank x = REP_HATED ↔ x < -6000) ∧
  (ReputationToRank (x `min` y) ≤ ReputationToRank x).
Proof.
  unfold REP_EXALTED, REP_REVERED, REP_HONORED, REP_FRIENDLY, REP_NEUTRAL, REP_HOSTILE, REP_HATED.
  pose proof (ReputationToRank_cases x). pose proof (ReputationToRank_cases y).
  destruct (Z.min_spec x y) as [[? ->]|[? ->]]; lia.
Qed.

Lemma clamp_standing_range x : Reputation_Bottom ≤ clamp_standing x ≤ Reputation_Cap.
Proof.
  unfold clamp_standing, Reputation_Bottom, Reputation_Cap. repeat case_bool; b2p; lia.
Qed.

Lemma s32_back x y : in_s32 y → s32 (x + s32 (y - x)) = y.
Proof. unfold in_s32, s32. intros. zlia. Qed.

Lemma tst_lor f m n : Z.land m n = 0 → tst (Z.lor f m) n = tst f n.
Proof. intros E. unfold tst. by rewrite Z.land_lor_distr_l, E, Z.lor_0_r. Qed.

Lemma tst_lor_same f m : m ≠ 0 → tst (Z.lor f m) m = true.
Proof.
  intros E. unfold tst. rewrite Z.land_lor_distr_l, Z.land_diag.
  apply negb_true_iff, Z.eqb_neq. intros [_ E']%Z.lor_eq_0_iff. done.
Qed.

Lemma tst_clear f m n : Z.land (Z.lnot m) n = n → tst (Z.land f (Z.lnot m)) n = tst f n.
Proof. intros E. unfold tst. by rewrite <- Z.land_assoc, E. Qed.

Lemma tst_clear_same f m : tst (Z.land f (Z.lnot m)) m = false.
Proof.
  unfold tst. apply negb_false_iff, Z.eqb_eq.
  rewrite <- Z.land_assoc, (Z.land_comm _ m), Z.land_lnot_diag. apply Z.land_0_r.
Qed.

(** Every update of one state keeps the keys, the identity of the faction, and only
    [SetOneFactionReputation] and [load_row] change the standing: the updates of
    the flags are all instances of this relation. *)
Record flag_step (m : Z) (s s' : FactionState) : Prop := {
  fst_ID : fs_ID s' = fs_ID s;
  fst_list : ReputationListID s' = ReputationListID s;
  fst_standing : Standing s' = Standing s;
  fst_flags : ∀ n, Z.land m n = 0 → Z.land (Z.lnot m) n = n → tst (Flags s') n = tst (Flags s) n
}.

Lemma flag_step_refl m s : flag_step m s s.
Proof. by split. Qed.

Lemma flag_step_trans m s1 s2 s3 : flag_step m s1 s2 → flag_step m s2 s3 → flag_step m s1 s3.
Proof.
  intros [] []. split; try congruence. intros n ??.
  etrans; [eauto|eauto].
Qed.

Lemma flag_step_dirty m s : flag_step m s (dirty s).
Proof. by split. Qed.

Lemma flag_step_lor m s : flag_step m s (set_flags s (Z.lor (Flags s) m)).
Proof. split; [done..|]. intros n ? _. by apply tst_lor. Qed.

Lemma flag_step_clear m s : flag_step m s (set_flags s (Z.land (Flags s) (Z.lnot m))).
Proof. split; [done..|]. intros n _ ?. by apply tst_clear. Qed.

Hint Resolve flag_step_refl flag_step_dirty flag_step_lor flag_step_clear : rg.

Lemma at_war_step_flags r f w : flag_step FACTION_FLAG_AT_WAR f (at_war_step r f w).
Proof.
  unfold at_war_step. set (f1 := if _ && (_ || _) then _ else f).
  assert (flag_step FACTION_FLAG_AT_WAR f f1) as H1.
  { unfold f1. case_bool; auto with rg. }
  repeat case_bool; try done; (eapply flag_step_trans; [exact H1|]);
    (eapply flag_step_trans; [|apply flag_step_dirty]); auto with rg.
Qed.

Lemma inactive_step_flags f w : flag_step FACTION_FLAG_INACTIVE f (inactive_step f w).
Proof.
  unfold inactive_step. repeat case_bool; auto with rg;
    (eapply flag_step_trans; [|apply flag_step_dirty]); auto with rg.
Qed.

(** ** The counters count

    [counts f h v e n]: the four counters are the numbers of factions of [f] of rank
    Honored, Revered and Exalted or better, and of visible ones, in a byte. *)
Definition state_rank (s : FactionState) : Z :=
  ReputationToRank (s32 (GetBaseReputation (sFactionStore !! fs_ID s) + Standing s)).
Definition rank_ge (k : Z) (s : FactionState) : bool := k <=? state_rank s.
Definition visible (s : FactionState) : bool := Flags s .& FACTION_FLAG_VISIBLE.

Record keys_ok (f : gmap Z FactionState) : Prop := {
  ko_list : ∀ k s, f !! k = Some s → ReputationListID s = k;
  ko_store : ∀ k s, f !! k = Some s →
    ∃ fe, sFactionStore !! fs_ID s = Some fe ∧ u32 (reputationListID fe) = k
          ∧ 0 ≤ reputationListID fe
}.

Record inv (r : ReputationMgr) : Prop := {
  inv_keys : keys_ok (_factions r);
  inv_honored : _honoredFactionCount r = u8 (count_if (rank_ge REP_HONORED) (_factions r));
  inv_revered : _reveredFactionCount r = u8 (count_if (rank_ge REP_REVERED) (_factions r));
  inv_exalted : _exaltedFactionCount r = u8 (count_if (rank_ge REP_EXALTED) (_factions r));
  inv_visible : _visibleFactionCount r = u8 (count_if visible (_factions r))
}.

(** The faction store: entries under their own id within the rows, integers of 32
    bits, list ids distinct among the factions that have one. *)
Record store_ok : Prop := {
  so_id : ∀ id fe, sFactionStore !! id = Some fe → fe_ID fe = id;
  so_rows : ∀ id fe, sFactionStore !! id = Some fe → 1 ≤ id < faction_rows;
  so_list : ∀ id fe, sFactionStore !! id = Some fe → in_s32 (reputationListID fe);
  so_base : ∀ id fe, sFactionStore !! id = Some fe → Forall in_s32 (BaseRepValue fe);
  so_distinct : ∀ id1 id2 fe1 fe2,
    sFactionStore !! id1 = Some fe1 → sFactionStore !! id2 = Some fe2 →
    0 ≤ reputationListID fe1 → reputationListID fe1 = reputationListID fe2 → id1 = id2
}.

Definition b2z (b : bool) : Z := if b then 1 else 0.

Lemma u8_step n d : u8 (u8 n + d) = u8 (n + d).
Proof. apply wrap_add_l. Qed.

Lemma keys_ok_insert f k s s' :
  keys_ok f → f !! k = Some s → fs_ID s' = fs_ID s → ReputationListID s' = ReputationListID s →
  keys_ok (<[k := s']> f).
Proof.
  intros [Hl Hs] Hk E1 E2. split; intros j s1 [[<- <-]|[? Hj]]%lookup_insert_Some;
    rewrite ?E1, ?E2; eauto.
Qed.

(** Updating the flags other than [VISIBLE] of one state keeps the invariant. *)
Lemma inv_flag_step r k s s' m :
  inv r → _factions r !! k = Some s → flag_step m s s' →
  tst (Flags s') FACTION_FLAG_VISIBLE = tst (Flags s) FACTION_FLAG_VISIBLE →
  inv (with_factions r (<[k := s']> (_factions r))).
Proof.
  intros [Hk Hh Hr He Hv] Hs [E1 E2 E3 _] EV.
  assert (∀ n, rank_ge n s' = rank_ge n s) as ER.
  { intros n. unfold rank_ge, state_rank. by rewrite E1, E3. }
  split; simpl; [by eapply keys_ok_insert|..];
    rewrite (count_if_insert _ _ _ _ _ Hs), ?ER; unfold visible; rewrite ?EV;
    by rewrite Z.sub_add.
Qed.

Lemma inv_SetAtWar_ptr r k w : inv r → inv (SetAtWar_ptr r k w).
Proof.
  intros Hr. unfold SetAtWar_ptr. destruct (_factions r !! k) as [s|] eqn:Hs; [|done].
  eapply inv_flag_step; [done..|apply at_war_step_flags|].
  by apply (fst_flags _ _ _ (at_war_step_flags r s w)).
Qed.

Lemma inv_SetInactive_ptr r k w : inv r → inv (SetInactive_ptr r k w).
Proof.
  intros Hr. unfold SetInactive_ptr. destruct (_factions r !! k) as [s|] eqn:Hs; [|done].
  eapply inv_flag_step; [done..|apply inactive_step_flags|].
  by apply (fst_flags _ _ _ (inactive_step_flags s w)).
Qed.

Lemma inv_SetVisible_ptr r k : inv r → inv (SetVisible_ptr r k).1.
Proof.
  intros Hr. unfold SetVisible_ptr. destruct (_factions r !! k) as [s|] eqn:Hs; [|done].
  repeat case_bool; try done. destruct Hr as [Hk Hh Hrv He Hv].
  split; simpl; [by eapply keys_ok_insert|..];
    rewrite (count_if_insert _ _ _ _ _ Hs); rewrite ?Hh, ?Hrv, ?He, ?Hv, ?u8_step;
    f_equal; unfold rank_ge, state_rank, visible; simpl; rewrite ?tst_lor_same, ?E0 by done; lia.
Qed.

(** The frame of the three flag operations: standings and identities stay. *)
Lemma SetVisible_ptr_lookup r k j s :
  _factions (SetVisible_ptr r k).1 !! j = Some s →
  ∃ s0, _factions r !! j = Some s0 ∧ fs_ID s = fs_ID s0 ∧ Standing s = Standing s0
        ∧ ReputationListID s = ReputationListID s0
        ∧ tst (Flags s) FACTION_FLAG_PEACE_FORCED = tst (Flags s0) FACTION_FLAG_PEACE_FORCED
        ∧ tst (Flags s) FACTION_FLAG_AT_WAR = tst (Flags s0) FACTION_FLAG_AT_WAR.
Proof.
  unfold SetVisible_ptr. destruct (_factions r !! k) as [f|] eqn:Hf; simpl.
  - repeat case_bool; simpl; try (intros ?; eexists; split_and!; done).
    intros [[<- <-]|[? Hj]]%lookup_insert_Some; [|eexists; split_and!; done].
    exists f. simpl. split_and!; try done; by apply tst_lor.
  - intros ?; eexists; split_and!; done.
Qed.

Lemma URC_SetVisible r k a b :
  SetVisible_ptr (UpdateRankCounters r a b) k
  = (UpdateRankCounters (SetVisible_ptr r k).1 a b, (SetVisible_ptr r k).2).
Proof.
  unfold SetVisible_ptr. change (_factions (UpdateRankCounters r a b)) with (_factions r).
  destruct (_factions r !! k); [|done]. by repeat case_bool.
Qed.

Lemma URC_SetAtWar r k w a b :
  SetAtWar_ptr (UpdateRankCounters r a b) k w = UpdateRankCounters (SetAtWar_ptr r k w) a b.
Proof.
  unfold SetAtWar_ptr. change (_factions (UpdateRankCounters r a b)) with (_factions r).
  by destruct (_factions r !! k).
Qed.

Lemma URC_increased r x a b :
  with_increased (UpdateRankCounters r a b) x = UpdateRankCounters (with_increased r x) a b.
Proof. done. Qed.

Lemma inv_increased r x : inv r → inv (with_increased r x).
Proof. intros []. by split. Qed.

(** A change of one standing followed by [UpdateRankCounters] of its ranks. *)
Lemma inv_UpdateRankCounters r k s s' :
  inv r → _factions r !! k = Some s → fs_ID s' = fs_ID s →
  ReputationListID s' = ReputationListID s → Flags s' = Flags s →
  inv (UpdateRankCounters (with_factions r (<[k := s']> (_factions r)))
         (state_rank s) (state_rank s')).
Proof.
  intros [Hk Hh Hr He Hv] Hs E1 E2 E3.
  split; simpl; [by eapply keys_ok_insert|..];
    rewrite (count_if_insert _ _ _ _ _ Hs), ?Hh, ?Hr, ?He, ?Hv; unfold rank_ge, visible;
    [..|rewrite E3; by rewrite Z.sub_add];
    repeat case_bool; rewrite ?wrap_sub_l, ?wrap_add_l; f_equal; lia.
Qed.

(** The state a store entry finds under its list id is its own. *)
Lemma own_state f fe s :
  store_ok → keys_ok f → sFactionStore !! fe_ID fe = Some fe →
  f !! u32 (reputationListID fe) = Some s →
  sFactionStore !! fs_ID s = Some fe ∧ fs_ID s = fe_ID fe ∧ 0 ≤ reputationListID fe.
Proof.
  intros [Hid _ Hl _ Hd] [_ Hs] Hfe Hk. destruct (Hs _ _ Hk) as (fe' & Hfe' & E & Hn).
  pose proof (Hl _ _ Hfe) as H1. pose proof (Hl _ _ Hfe') as H2.
  assert (reputationListID fe = reputationListID fe') as EL.
  { unfold in_s32, wrap in *. zlia. }
  assert (fe_ID fe = fs_ID s) as EI.
  { eapply Hd; [exact Hfe|exact Hfe'|lia|done]. }
  split_and!; [congruence|done|lia].
Qed.

Lemma clamp_in_s32 x : in_s32 (clamp_standing x).
Proof.
  pose proof (clamp_standing_range x). unfold in_s32, Reputation_Bottom, Reputation_Cap in *. lia.
Qed.

Lemma inv_SetOneFactionReputation r fe x incr :
  store_ok → inv r → sFactionStore !! fe_ID fe = Some fe →
  inv (SetOneFactionReputation r fe x incr).1.2.
Proof.
  intros Hst Hr Hfe. unfold SetOneFactionReputation.
  destruct (_factions r !! _) as [s|] eqn:Hs; [|done].
  destruct (own_state _ _ _ Hst (inv_keys _ Hr) Hfe Hs) as (Hso & Hid & _).
  set (c := clamp_standing _). set (B := GetBaseReputation (Some fe)).
  set (s' := dirty (set_standing s (s32 (c - B)))).
  assert (ReputationToRank (s32 (Standing s + B)) = state_rank s) as ->.
  { unfold state_rank. by rewrite Hso, Z.add_comm. }
  assert (ReputationToRank c = state_rank s') as ->.
  { unfold state_rank. simpl. rewrite Hso. fold B. by rewrite s32_back by apply clamp_in_s32. }
  pose proof (inv_UpdateRankCounters r _ s s' Hr Hs eq_refl eq_refl eq_refl) as H1.
  set (r1 := with_factions r _) in *.
  destruct (SetVisible_ptr r1 _) as [r2 o2] eqn:E2. simpl.
  assert (inv (UpdateRankCounters r2 (state_rank s) (state_rank s'))) as H2.
  { apply (inv_SetVisible_ptr _ (u32 (reputationListID fe))) in H1.
    by rewrite URC_SetVisible, E2 in H1. }
  repeat case_bool; rewrite <- ?URC_increased, <- ?URC_SetAtWar;
    try apply inv_increased; try apply inv_SetAtWar_ptr; done.
Qed.

(** Updates that touch only [needSend] and [needSave] of every state. *)
Lemma inv_fmap_need r g x :
  inv r → (∀ s, fs_ID (g s) = fs_ID s ∧ ReputationListID (g s) = ReputationListID s
               ∧ Standing (g s) = Standing s ∧ Flags (g s) = Flags s) →
  inv (with_increased (with_factions r (g <$> _factions r)) x).
Proof.
  intros [[Hl Hks] Hh Hr He Hv] Hg.
  assert (∀ p, (∀ s, p (g s) = p s) →
    count_if p (g <$> _factions r) = count_if p (_factions r)) as Hc.
  { intros p Hp. unfold count_if. f_equal.
    rewrite map_filter_fmap, map_size_fmap. f_equal. apply map_filter_ext.
    intros i y _. simpl. by rewrite Hp. }
  split; simpl; [split|..].
  - intros k s. rewrite lookup_fmap. intros [s0 [Hs ->]]%fmap_Some.
    destruct (Hg s0) as (_ & -> & _). eauto.
  - intros k s. rewrite lookup_fmap. intros [s0 [Hs ->]]%fmap_Some.
    destruct (Hg s0) as (-> & _). eauto.
  - rewrite Hc; [done|]. intros s. destruct (Hg s) as (E1 & _ & E3 & E4).
    unfold rank_ge, state_rank. by rewrite E1, E3.
  - rewrite Hc; [done|]. intros s. destruct (Hg s) as (E1 & _ & E3 & E4).
    unfold rank_ge, state_rank. by rewrite E1, E3.
  - rewrite Hc; [done|]. intros s. destruct (Hg s) as (E1 & _ & E3 & E4).
    unfold rank_ge, state_rank. by rewrite E1, E3.
  - rewrite Hc; [done|]. intros s. destruct (Hg s) as (_ & _ & _ & E4).
    unfold visible. by rewrite E4.
Qed.

Lemma inv_SendState r f : inv r → inv (SendState r f).1.
Proof. intros Hr. simpl. apply inv_fmap_need; [done|]. by intros []. Qed.

Lemma inv_send_states ks r : inv r → inv (send_states r ks).1.
Proof.
  revert r. induction ks as [|k ks IH]; intros r Hr; [done|]. simpl.
  destruct (_factions r !! k) as [s|]; [|auto].
  specialize (IH _ (inv_SendState r s Hr)). simpl in *.
  by destruct (send_states _ ks).
Qed.

(** ** What the operations leave alone: identities and standings *)
Definition core (r : ReputationMgr) : gmap Z (Z * Z) :=
  (λ s, (fs_ID s, Standing s)) <$> _factions r.

Lemma core_lookup r k s : _factions r !! k = Some s → core r !! k = Some (fs_ID s, Standing s).
Proof. intros E. unfold core. by rewrite lookup_fmap, E. Qed.

Lemma core_lookup_inv r k x : core r !! k = Some x →
  ∃ s, _factions r !! k = Some s ∧ x = (fs_ID s, Standing s).
Proof. unfold core. rewrite lookup_fmap. by intros [s [Hs ->]]%fmap_Some; eauto. Qed.

Lemma core_insert r k s s' :
  _factions r !! k = Some s → fs_ID s' = fs_ID s → Standing s' = Standing s →
  core (with_factions r (<[k := s']> (_factions r))) = core r.
Proof.
  intros Hs E1 E2. unfold core. simpl. rewrite fmap_insert, E1, E2.
  apply insert_id. by rewrite lookup_fmap, Hs.
Qed.

Lemma core_SetVisible_ptr r k : core (SetVisible_ptr r k).1 = core r.
Proof.
  unfold SetVisible_ptr. destruct (_factions r !! k) as [s|] eqn:Hs; [|done].
  repeat case_bool; try done. by apply (core_insert r k s).
Qed.

Lemma core_SetAtWar_ptr r k w : core (SetAtWar_ptr r k w) = core r.
Proof.
  unfold SetAtWar_ptr. destruct (_factions r !! k) as [s|] eqn:Hs; [|done].
  destruct (at_war_step_flags r s w). by apply (core_insert r k s).
Qed.

Lemma core_SetInactive_ptr r k w : core (SetInactive_ptr r k w) = core r.
Proof.
  unfold SetInactive_ptr. destruct (_factions r !! k) as [s|] eqn:Hs; [|done].
  destruct (inactive_step_flags s w). by apply (core_insert r k s).
Qed.

(** ** Initialize and LoadFromDB *)

Lemma GetBaseReputation_in_s32 id fe :
  store_ok → sFactionStore !! id = Some fe → in_s32 (GetBaseReputation (Some fe)).
Proof.
  intros Hst Hfe. pose proof (so_base Hst _ _ Hfe) as HB. unfold GetBaseReputation.
  destruct (first_base_row fe 0 4) as [i|]; [|unfold in_s32; lia].
  destruct (nth_in_or_default i (BaseRepValue fe) 0) as [Hin| ->]; [|split; lia].
  rewrite Forall_forall in HB. apply HB. by apply list_elem_of_In.
Qed.

(** The states created so far: [n] rows seen. *)
Record init_inv (n : Z) (r : ReputationMgr) : Prop := {
  ii_inv : inv r;
  ii_below : ∀ k s, _factions r !! k = Some s → fs_ID s < n;
  ii_all : ∀ id fe, sFactionStore !! id = Some fe → id < n → 0 ≤ reputationListID fe →
    core r !! u32 (reputationListID fe) = Some (id, 0)
}.

Lemma inv_insert_new r s :
  inv r → _factions r !! ReputationListID s = None →
  (∃ fe, sFactionStore !! fs_ID s = Some fe ∧ u32 (reputationListID fe) = ReputationListID s
         ∧ 0 ≤ reputationListID fe) →
  let r1 := if Flags s .& FACTION_FLAG_VISIBLE
            then with_visible r (u8 (_visibleFactionCount r + 1)) else r in
  let r2 := UpdateRankCounters r1 REP_HOSTILE (state_rank s) in
  inv (with_factions r2 (<[ReputationListID s := s]> (_factions r2))).
Proof.
  intros [[Hl Hks] Hh Hrv He Hv] Hnew Hfe r1 r2.
  assert (_factions r2 = _factions r) as -> by (unfold r2, r1; by case_bool).
  split; [split|..]; simpl.
  - intros k s1 [[<- <-]|[? ?]]%lookup_insert_Some; eauto.
  - intros k s1 [[<- <-]|[? ?]]%lookup_insert_Some; eauto.
  - rewrite count_if_insert_new by done. unfold r1, rank_ge in *. simpl.
    repeat case_bool; simpl; try done; rewrite Hh, ?u8_step; f_equal; lia.
  - rewrite count_if_insert_new by done. unfold r1, rank_ge in *. simpl.
    repeat case_bool; simpl; try done; rewrite Hrv, ?u8_step; f_equal; lia.
  - rewrite count_if_insert_new by done. unfold r1, rank_ge in *. simpl.
    repeat case_bool; simpl; try done; rewrite He, ?u8_step; f_equal; lia.
  - rewrite count_if_insert_new by done. unfold r1, visible in *. simpl.
    repeat case_bool; simpl; try done; rewrite Hv, ?u8_step; f_equal; lia.
Qed.

Lemma init_row_inv n r : store_ok → init_inv n r → init_inv (n + 1) (init_row r n).
Proof.
  intros Hst [Hr Hb Ha]. unfold init_row.
  destruct (sFactionStore !! n) as [fe|] eqn:Hfe.
  2:{ split; [done|intros ?? Hk; specialize (Hb _ _ Hk); lia|].
      intros id fe Hid ??. apply Ha; [done| |done]. assert (id ≠ n) by congruence. lia. }
  destruct (0 <=? reputationListID fe) eqn:El; b2p.
  2:{ split; [done|intros ?? Hk; specialize (Hb _ _ Hk); lia|].
      intros id fe' Hid ??. apply Ha; [done| |done].
      assert (id ≠ n) by (intros ->; simplify_eq; lia). lia. }
  pose proof (so_id Hst _ _ Hfe) as Eid.
  assert (_factions r !! u32 (reputationListID fe) = None) as Hnew.
  { destruct (_factions r !! _) as [s|] eqn:Hs; [|done].
    destruct (own_state _ fe s Hst (inv_keys _ Hr)) as (_ & E & _); [by rewrite Eid|done|].
    specialize (Hb _ _ Hs). lia. }
  set (s := new_state fe). set (r' := with_factions _ _).
  assert (core r' = <[u32 (reputationListID fe) := (n, 0)]> (core r)) as Hcore.
  { unfold r', core. simpl. rewrite fmap_insert. simpl. rewrite Eid. by case_bool. }
  assert (state_rank s = GetBaseRank (Some fe)) as Hrank.
  { unfold state_rank, GetBaseRank. simpl (fs_ID s). rewrite Eid, Hfe, Z.add_0_r, s32_small; [done|].
    by eapply GetBaseReputation_in_s32. }
  split.
  - unfold r'. rewrite <- Hrank. apply inv_insert_new; [done|done|].
    exists fe. simpl. by rewrite Eid.
  - intros k s1. unfold r'. simpl. case_bool; simpl;
      (intros [[<- <-]|[? Hk]]%lookup_insert_Some; [simpl; lia|specialize (Hb _ _ Hk); lia]).
  - intros id fe' Hid ? Hl. rewrite Hcore.
    destruct (decide (id = n)) as [->|Hne].
    + replace fe' with fe by congruence. apply lookup_insert_eq.
    + rewrite lookup_insert_ne; [apply Ha; [done|lia|done]|].
      pose proof (so_list Hst _ _ Hid). pose proof (so_list Hst _ _ Hfe).
      assert (reputationListID fe ≠ reputationListID fe').
      { intros EL. apply Hne. symmetry. eapply (so_distinct Hst); eauto. }
      unfold wrap, in_s32 in *. zlia.
Qed.

Lemma Initialize_inv r : store_ok → init_inv faction_rows (Initialize r).
Proof.
  intros Hst. unfold Initialize. set (r0 := mkMgr _ _ _ _ _ _ _).
  assert (∀ m, init_inv (1 + Z.of_nat m) (foldl init_row r0 (seqZ 1 (Z.of_nat m)))) as Hm.
  { induction m as [|m IH].
    - split; [by repeat split| |].
      + intros k s. simpl. by rewrite lookup_empty.
      + intros id fe Hid ? _. pose proof (so_rows Hst _ _ Hid). lia.
    - rewrite seqZ_S, foldl_app. simpl.
      rewrite Nat2Z.inj_succ. replace (1 + Z.succ (Z.of_nat m)) with (1 + Z.of_nat m + 1) by lia.
      by apply init_row_inv. }
  specialize (Hm (Z.to_nat (faction_rows - 1))).
  destruct (decide (1 ≤ faction_rows)).
  - rewrite Z2Nat.id in Hm by lia. by replace (1 + (faction_rows - 1)) with faction_rows in Hm by lia.
  - rewrite seqZ_nil by lia. destruct Hm as [H1 H2 H3].
    split; [by repeat split|intros k s; simpl; by rewrite lookup_empty|].
    intros id fe Hid. pose proof (so_rows Hst _ _ Hid). lia.
Qed.
(** A pure update of one state's [needSend]/[needSave]. *)
Lemma inv_set_need r k s x y :
  inv r → _factions r !! k = Some s → inv (with_factions r (<[k := set_need s x y]> (_factions r))).
Proof. intros Hr Hs. by apply (inv_flag_step r k s _ 0). Qed.

Lemma load_row_core r o row fe s :
  store_ok → inv r → sFactionStore !! row_faction row = Some fe → 0 ≤ reputationListID fe →
  _factions r !! u32 (reputationListID fe) = Some s → Standing s = 0 →
  inv (load_row (r, o) row).1 ∧
  core (load_row (r, o) row).1
  = <[u32 (reputationListID fe) := (fs_ID s, row_standing row)]> (core r).
Proof.
  intros Hst Hr Hfe Hl Hs H0. unfold load_row. rewrite Hfe.
  destruct (0 <=? reputationListID fe) eqn:E; b2p; [|lia]. clear E.
  assert (sFactionStore !! fe_ID fe = Some fe) as Hfe' by (by rewrite (so_id Hst _ _ Hfe)).
  destruct (own_state _ _ _ Hst (inv_keys _ Hr) Hfe' Hs) as (Hso & _ & _).
  rewrite Hs. simpl default.
  set (k := u32 (reputationListID fe)) in *. set (s' := set_standing s (row_standing row)).
  set (r1 := with_factions r _). set (B := GetBaseReputation (Some fe)).
  assert (ReputationToRank B = state_rank s) as ->.
  { unfold state_rank. rewrite Hso, H0, Z.add_0_r, s32_small; [done|].
    by eapply GetBaseReputation_in_s32. }
  assert (ReputationToRank (s32 (B + row_standing row)) = state_rank s') as ->.
  { unfold state_rank. simpl. by rewrite Hso. }
  set (r2 := UpdateRankCounters _ _ _).
  assert (inv r2) as H2 by (by apply inv_UpdateRankCounters).
  assert (core r2 = <[k := (fs_ID s, row_standing row)]> (core r)) as C2.
  { unfold core. simpl. by rewrite fmap_insert. }
  rewrite <- C2. clearbody r2.
  destruct (if row_flags row .& FACTION_FLAG_VISIBLE then _ else _) as [r3 o3] eqn:E3.
  assert (inv r3 ∧ core r3 = core r2) as [H3 C3].
  { pose proof (inv_SetVisible_ptr r2 k H2). pose proof (core_SetVisible_ptr r2 k).
    case_bool; [rewrite E3 in *|]; by simplify_eq/=. }
  clear E3. rewrite <- C3. set (r4 := if row_flags row .& FACTION_FLAG_INACTIVE then _ else _).
  assert (inv r4 ∧ core r4 = core r3) as [H4 C4].
  { unfold r4. case_bool; [|done]. by split; [apply inv_SetInactive_ptr|apply core_SetInactive_ptr]. }
  rewrite <- C4. clearbody r4. set (v := match _factions r4 !! k with Some _ => _ | None => _ end).
  set (r5 := if row_flags row .& FACTION_FLAG_AT_WAR then _ else _).
  assert (inv r5 ∧ core r5 = core r4) as [H5 C5].
  { unfold r5. clearbody v. destruct (_ .& FACTION_FLAG_AT_WAR), v; try done;
      (split; [by apply inv_SetAtWar_ptr|apply core_SetAtWar_ptr]). }
  rewrite <- C5. clearbody r5. set (r6 := if GetRank _ _ <=? _ then _ else _).
  assert (inv r6 ∧ core r6 = core r5) as [H6 C6].
  { unfold r6. case_bool; [|done]. by split; [apply inv_SetAtWar_ptr|apply core_SetAtWar_ptr]. }
  rewrite <- C6. clearbody r6. simpl.
  destruct (_factions r6 !! k) as [f|] eqn:Hf; [|done]. case_bool; [|done].
  split; [by apply inv_set_need|by apply (core_insert r6 k f)].
Qed.

Definition row_of (id : Z) (rows : list db_row) : option db_row :=
  List.find (λ row, row_faction row =? id) rows.

(** Loading rows of distinct factions: every row's standing ends up in its state. *)
Record load_inv (done_rows : list db_row) (r : ReputationMgr) : Prop := {
  li_inv : inv r;
  li_core : ∀ id fe, sFactionStore !! id = Some fe → 0 ≤ reputationListID fe →
    core r !! u32 (reputationListID fe)
    = Some (id, default 0 (row_standing <$> row_of id done_rows))
}.

Lemma row_of_app_ne l id row :
  row_faction row ≠ id → row_of id (l ++ [row]) = row_of id l.
Proof.
  intros Hne. unfold row_of. induction l as [|x l IH]; simpl.
  - case_bool; b2p; done.
  - by case_bool.
Qed.

Lemma row_of_app_new l row :
  row_faction row ∉ map row_faction l →
  row_of (row_faction row) l = None ∧ row_of (row_faction row) (l ++ [row]) = Some row.
Proof.
  unfold row_of. induction l as [|x l IH]; simpl; [by rewrite Z.eqb_refl|].
  rewrite not_elem_of_cons. intros [Hne Hin]. case_bool; b2p; [congruence|]. auto.
Qed.

Lemma load_rows_inv rows l r o :
  store_ok → load_inv l r → NoDup (map row_faction (l ++ rows)) →
  load_inv (l ++ rows) (foldl load_row (r, o) rows).1.
Proof.
  intros Hst. revert l r o. induction rows as [|row rows IH]; intros l r o Hr Hnd.
  { by rewrite app_nil_r. }
  cbn [foldl]. rewrite (cons_middle row l rows), app_assoc in Hnd |- *.
  destruct (load_row (r, o) row) as [r' o'] eqn:Er. apply IH; [|done].
  assert (row_faction row ∉ map row_faction l) as Hnew.
  { rewrite !map_app in Hnd. apply NoDup_app in Hnd as [(_ & Hd & _)%NoDup_app _].
    intros Hin. apply (Hd _ Hin). simpl. by left. }
  destruct Hr as [Hi Hc].
  destruct (sFactionStore !! row_faction row) as [fe|] eqn:Hfe.
  2:{ unfold load_row in Er. rewrite Hfe in Er. simplify_eq. split; [done|].
      intros id fe Hid Hl. rewrite row_of_app_ne by congruence. auto. }
  destruct (decide (0 ≤ reputationListID fe)) as [Hl|Hl].
  2:{ unfold load_row in Er. rewrite Hfe in Er. case_bool; b2p; [lia|]. simplify_eq.
      split; [done|]. intros id fe' Hid Hl'. rewrite row_of_app_ne; [auto|]. intros <-. by simplify_eq. }
  pose proof (Hc _ _ Hfe Hl) as Hk. destruct (row_of_app_new l row Hnew) as [F1 F2].
  rewrite F1 in Hk. simpl in Hk. destruct (core_lookup_inv _ _ _ Hk) as (s & Hs & Es).
  simplify_eq.
  destruct (load_row_core r o row fe s) as [I C]; [done..|]. rewrite Er in I, C. simpl in *.
  split; [done|]. intros id fe' Hid Hl'. rewrite C.
  destruct (decide (id = row_faction row)) as [->|Hne].
  - replace fe' with fe by congruence. rewrite lookup_insert_eq, F2. simpl. congruence.
  - rewrite (row_of_app_ne _ id), lookup_insert_ne; [auto| |done].
    pose proof (so_list Hst _ _ Hid). pose proof (so_list Hst _ _ Hfe).
    assert (reputationListID fe ≠ reputationListID fe').
    { intros EL. apply Hne. symmetry. eapply (so_distinct Hst); eauto. }
    unfold wrap, in_s32 in *. zlia.
Qed.

(** ** SetReputation and the spill-over *)

(** A property of managers kept by every single-faction change is kept by the
    spill-over walks. *)
Section spill.
Variable P : ReputationMgr → Prop.
Hypothesis P_one : ∀ r fe x incr, sFactionStore !! fe_ID fe = Some fe → P r →
  P (SetOneFactionReputation r fe x incr).1.2.
Hypothesis Hst : store_ok.

Lemma spill_template_ind rows r x incr :
  (∀ row, row ∈ rows → row.1.1 = 0 ∨ is_Some (sFactionStore !! row.1.1)) → P r →
  ∃ r' o, spill_template r rows x incr = Ok (r', o) ∧ P r'.
Proof.
  revert r. induction rows as [|[[f rate] rank] rows IH]; intros r Hrows Hr; [by eauto|].
  assert (∀ row, row ∈ rows → row.1.1 = 0 ∨ is_Some (sFactionStore !! row.1.1)) as Hrows'.
  { intros row Hin. apply Hrows. by right. }
  simpl. case_bool; [|by apply IH]. b2p.
  destruct (Hrows (f, rate, rank)) as [Hf|[fe Hfe]]; [by left|done|]. simpl in Hfe. rewrite Hfe.
  specialize (P_one r fe (f32_to_s32 (f32_mul (f32_of_Z x) rate)) incr).
  rewrite (so_id Hst _ _ Hfe) in P_one. specialize (P_one Hfe Hr).
  destruct (SetOneFactionReputation _ _ _ _) as [[b r1] o1]. simpl in *.
  destruct (IH r1 Hrows' P_one) as (r2 & o2 & -> & Hr2). simpl. eauto.
Qed.

Lemma spill_list_ind l r self out incr res :
  P r → P (spill_list r self l out incr res).1.2.
Proof.
  revert r res. induction l as [|id l IH]; intros r res Hr; [done|]. simpl.
  destruct (sFactionStore !! id) as [fe|] eqn:Hfe; [|auto].
  repeat case_bool; auto.
  specialize (P_one r fe (f32_to_s32 (f32_mul out (spilloverRateIn fe))) incr).
  rewrite (so_id Hst _ _ Hfe) in P_one. specialize (P_one Hfe Hr).
  destruct (SetOneFactionReputation _ _ _ _) as [[b r1] o1]. simpl in *.
  specialize (IH r1 b P_one). by destruct (spill_list r1 _ _ _ _ _) as [[] ?].
Qed.

Lemma spill_dbc_ind r fe x incr : P r → P (spill_dbc r fe x incr).1.2.
Proof.
  intros Hr. unfold spill_dbc.
  assert (∀ out l (o : list rep_out), P
    (match l with
     | Some l => let '(res, r2, o2) := spill_list r fe l out incr false in (res, r2, o ++ o2)
     | None => (false, r, o) end).1.2) as Hl.
  { intros out [l|] o; [|done].
    pose proof (spill_list_ind l r fe out incr false Hr).
    by destruct (spill_list r fe l out incr false) as [[] ?]. }
  destruct (faction_team_list !! fe_ID fe) as [l|]; [apply (Hl _ (Some l) [])|].
  case_bool; [|done].
  destruct (sFactionStore !! fe_team fe) as [par|] eqn:Hp; [|done].
  destruct (_factions r !! _) as [ps|]; [|apply Hl].
  case_bool; [|apply Hl].
  set (out := f32_mul (f32_of_Z x) _).
  specialize (P_one r par (f32_to_s32 out) incr).
  rewrite (so_id Hst _ _ Hp) in P_one. specialize (P_one Hp Hr).
  by destruct (SetOneFactionReputation _ _ _ _) as [[b r1] o1].
Qed.
End spill.

(** The spill-over templates name factions of the store (checked at loading by
    ObjectMgr::LoadReputationSpilloverTemplate). *)
Definition spill_ok : Prop :=
  ∀ id t f, rep_spillover !! id = Some t → f ∈ sp_faction t → f = 0 ∨ is_Some (sFactionStore !! f).

Lemma zip_zip_fst {A B C} (l1 : list A) (l2 : list B) (l3 : list C) x :
  x ∈ zip (zip l1 l2) l3 → x.1.1 ∈ l1.
Proof.
  revert l2 l3. induction l1 as [|a l1 IH]; intros [|b l2] [|c l3]; simpl; try by intros ?%not_elem_of_nil.
  intros [->|Hin]%elem_of_cons; [by left|right; eauto].
Qed.

Lemma SetOne_fst r fe x incr :
  (SetOneFactionReputation r fe x incr).1.1
  = bool_decide (is_Some (_factions r !! u32 (reputationListID fe))).
Proof.
  unfold SetOneFactionReputation. destruct (_factions r !! _) eqn:E; [|done].
  by destruct (SetVisible_ptr _ _).
Qed.

Definition same_dom (r r' : ReputationMgr) : Prop := dom (_factions r') = dom (_factions r).

Lemma dom_of_core r r' : core r = core r' → dom (_factions r) = dom (_factions r').
Proof.
  intros E. rewrite <- (dom_fmap_L (λ s, (fs_ID s, Standing s)) (_factions r)).
  rewrite <- (dom_fmap_L (λ s, (fs_ID s, Standing s)) (_factions r')). by f_equal.
Qed.

Lemma core_URC r a b : core (UpdateRankCounters r a b) = core r.
Proof. done. Qed.

(** The core after a single-faction change. *)
Lemma core_SetOne r fe x incr s :
  _factions r !! u32 (reputationListID fe) = Some s →
  core (SetOneFactionReputation r fe x incr).1.2
  = <[u32 (reputationListID fe) :=
      (fs_ID s,
       s32 (clamp_standing
              (if incr then s32 (rated x + s32 (Standing s + GetBaseReputation (Some fe))) else x)
            - GetBaseReputation (Some fe)))]> (core r).
Proof.
  intros Hs. unfold SetOneFactionReputation. rewrite Hs.
  set (k := u32 _). set (y := s32 (_ - _)).
  set (r1 := with_factions r _).
  assert (core r1 = <[k := (fs_ID s, y)]> (core r)) as <-.
  { unfold core. simpl. by rewrite fmap_insert. }
  rewrite <- (core_SetVisible_ptr r1 k). destruct (SetVisible_ptr r1 k) as [r2 o2]. simpl.
  rewrite core_URC. case_bool; [change (core (with_increased ?r true)) with (core r)|];
    case_bool; by rewrite ?core_SetAtWar_ptr.
Qed.

Lemma same_dom_SetOne r fe x incr : same_dom r (SetOneFactionReputation r fe x incr).1.2.
Proof.
  destruct (_factions r !! u32 (reputationListID fe)) as [s|] eqn:Hs.
  - unfold same_dom.
    rewrite <- (dom_fmap_L (λ s, (fs_ID s, Standing s))), <- (dom_fmap_L (λ s, (fs_ID s, Standing s)) (_factions r)).
    fold (core r). fold (core (SetOneFactionReputation r fe x incr).1.2).
    rewrite (core_SetOne _ _ _ _ _ Hs). apply dom_insert_lookup_L.
    rewrite (core_lookup _ _ _ Hs). by eexists.
  - unfold SetOneFactionReputation. by rewrite Hs.
Qed.

Lemma SetReputation_ind (P : ReputationMgr → Prop) r fe x incr :
  store_ok → spill_ok → sFactionStore !! fe_ID fe = Some fe →
  (∀ r fe x incr, sFactionStore !! fe_ID fe = Some fe → P r →
    P (SetOneFactionReputation r fe x incr).1.2) →
  (∀ r f, P r → P (SendState r f).1) → P r →
  ∃ b r' o, SetReputation r fe x incr = Ok (b, r', o) ∧ P r'.
Proof.
  intros Hst Hsp Hfe P1 P2 Hr. unfold SetReputation.
  set (x' := script_standing _ _ _).
  assert (∃ b r1 o1,
    (match rep_spillover !! fe_ID fe with
     | Some t =>
       let! (r1, o1) := spill_template r
         (zip (zip (sp_faction t) (sp_rate t)) (sp_rank t)) x' incr in
       Ok (false, r1, o1)
     | None => Ok (spill_dbc r fe x' incr)
     end) = Ok (b, r1, o1) ∧ P r1) as (b & r1 & o1 & -> & Hr1).
  { destruct (rep_spillover !! fe_ID fe) as [t|] eqn:Ht.
    - destruct (spill_template_ind P P1 Hst
        (zip (zip (sp_faction t) (sp_rate t)) (sp_rank t)) r x' incr) as (r1 & o1 & -> & H1);
        [|done|simpl; eauto].
      intros row Hrow%zip_zip_fst. by eapply Hsp.
    - pose proof (spill_dbc_ind P P1 Hst r fe x' incr Hr) as H1.
      destruct (spill_dbc r fe x' incr) as [[b r1] o1]. eauto. }
  simpl. destruct (_factions r1 !! _) as [s|] eqn:Hs; [|eauto].
  pose proof (P1 r1 fe x' incr Hfe Hr1) as H2.
  pose proof (same_dom_SetOne r1 fe x' incr) as Hd.
  destruct (SetOneFactionReputation r1 fe x' incr) as [[b2 r2] o2]. simpl in *.
  destruct (_factions r2 !! _) as [f|] eqn:Hf.
  - simpl. eexists _, _, _. split; [done|]. by apply (P2 _ f).
  - exfalso. apply not_elem_of_dom in Hf. apply Hf. rewrite Hd. by apply elem_of_dom.
Qed.

Lemma LoadFromDB_inv r rows :
  store_ok → NoDup (map row_faction rows) → load_inv rows (LoadFromDB r (Some rows)).1.
Proof.
  intros Hst Hnd. destruct (Initialize_inv r Hst) as [Hi _ Ha].
  apply (load_rows_inv rows [] (Initialize r) [] Hst); [|done].
  split; [done|]. intros id fe Hid Hl. simpl.
  apply Ha; [done|apply (so_rows Hst _ _ Hid)|done].
Qed.

(** loading: the saved standing of every faction with a reputation line becomes
    its current one (0 without a row), whatever was loaded before, and the rank and
    visibility counters agree with the loaded states. *)
Theorem LoadFromDB_standings r rows :
  store_ok → NoDup (map row_faction rows) →
  let r' := (LoadFromDB r (Some rows)).1 in
  inv r' ∧
  ∀ id fe, sFactionStore !! id = Some fe → 0 ≤ reputationListID fe →
    core r' !! u32 (reputationListID fe)
    = Some (id, default 0 (row_standing <$> row_of id rows)).
Proof.
  intros Hst Hnd. destruct (LoadFromDB_inv r rows Hst Hnd). auto.
Qed.

(** ** Reachable managers *)

Inductive rep_op :=
| OpSetReputation (id standing : Z) (incremental : bool)
| OpSetOne (id standing : Z) (incremental : bool)
| OpSetVisible (id : Z)
| OpSetVisibleTemplate (template_faction : Z)
| OpSetAtWar (list_id : Z) (on : bool)
| OpSetInactive (list_id : Z) (on : bool)
| OpForceReaction (id rank : Z) (apply : bool)
| OpSendState (list_id : Z)
| OpSendInitial
| OpSendStates
| OpSave.

Definition with_entry (r : ReputationMgr) (id : Z) (k : FactionEntry → outcome ReputationMgr)
    : outcome ReputationMgr :=
  match sFactionStore !! id with Some fe => k fe | None => Ok r end.

Definition rep_step (r : ReputationMgr) (op : rep_op) : outcome ReputationMgr :=
  match op with
  | OpSetReputation id x incr => with_entry r id (λ fe,
      let! (_, r', _) := SetReputation r fe x incr in Ok r')
  | OpSetOne id x incr => with_entry r id (λ fe, Ok (SetOneFactionReputation r fe x incr).1.2)
  | OpSetVisible id => with_entry r id (λ fe, Ok (SetVisible r fe).1)
  | OpSetVisibleTemplate id => Ok (SetVisible_template r id).1
  | OpSetAtWar k on => Ok (SetAtWar r k on)
  | OpSetInactive k on => Ok (SetInactive r k on)
  | OpForceReaction id rank apply => Ok (ApplyForceReaction r id rank apply)
  | OpSendState k => match _factions r !! k with Some f => Ok (SendState r f).1 | None => Ok r end
  | OpSendInitial => Ok (SendInitialReputations r).1
  | OpSendStates => Ok (SendStates r).1
  | OpSave => Ok (SaveToDB r).1
  end.

(** A session: loaded from rows of distinct factions, then any operations. *)
Inductive reachable : ReputationMgr → Prop :=
| reach_load r0 rows :
    NoDup (map row_faction rows) → reachable (LoadFromDB r0 (Some rows)).1
| reach_new r0 : reachable (LoadFromDB r0 None).1
| reach_step r r' op : reachable r → rep_step r op = Ok r' → reachable r'.

(** A property kept by every elementary change is kept by every operation. *)
Section steps.
Variable P : ReputationMgr → Prop.
Hypothesis Hst : store_ok.
Hypothesis Hsp : spill_ok.
Hypothesis P_one : ∀ r fe x incr, sFactionStore !! fe_ID fe = Some fe → P r →
  P (SetOneFactionReputation r fe x incr).1.2.
Hypothesis P_visible : ∀ r k, P r → P (SetVisible_ptr r k).1.
Hypothesis P_war : ∀ r k on, P r → P (SetAtWar_ptr r k on).
Hypothesis P_inactive : ∀ r k on, P r → P (SetInactive_ptr r k on).
Hypothesis P_forced : ∀ r f, P r → P (with_forced r f).
Hypothesis P_need : ∀ r g x, P r →
  (∀ s, fs_ID (g s) = fs_ID s ∧ ReputationListID (g s) = ReputationListID s
        ∧ Standing (g s) = Standing s ∧ Flags (g s) = Flags s) →
  P (with_increased (with_factions r (g <$> _factions r)) x).

Lemma P_SendState r f : P r → P (SendState r f).1.
Proof. intros Hr. simpl. apply P_need; [done|]. by intros []. Qed.

Lemma P_send_states ks r : P r → P (send_states r ks).1.
Proof.
  revert r. induction ks as [|k ks IH]; intros r Hr; [done|]. simpl.
  destruct (_factions r !! k) as [s|]; [|auto].
  specialize (IH _ (P_SendState r s Hr)). simpl in *. by destruct (send_states _ ks).
Qed.

Lemma P_need' r g : P r →
  (∀ s, fs_ID (g s) = fs_ID s ∧ ReputationListID (g s) = ReputationListID s
        ∧ Standing (g s) = Standing s ∧ Flags (g s) = Flags s) →
  P (with_factions r (g <$> _factions r)).
Proof.
  intros Hr Hg. apply (P_need r g (_sendFactionIncreased r)) in Hr; [|done]. exact Hr.
Qed.

Lemma rep_step_ind r op : P r → ∃ r', rep_step r op = Ok r' ∧ P r'.
Proof.
  intros Hr. destruct op as [id x incr|id x incr|id|id|k on|k on|id rank ap|k| | |]; simpl;
    unfold with_entry.
  - destruct (sFactionStore !! id) as [fe|] eqn:Hfe; [|eauto].
    destruct (SetReputation_ind P r fe x incr) as (b & r' & o & -> & Hr'); simpl; eauto.
    + by rewrite (so_id Hst _ _ Hfe).
  - destruct (sFactionStore !! id) as [fe|] eqn:Hfe; [|eauto].
    eexists. split; [done|]. apply P_one; [|done]. by rewrite (so_id Hst _ _ Hfe).
  - destruct (sFactionStore !! id) as [fe|]; [|eauto]. eexists. split; [done|].
    unfold SetVisible. case_bool; auto.
  - eexists. split; [done|]. unfold SetVisible_template. case_bool; [done|].
    destruct (sFactionStore !! id) as [fe|]; [|done]. case_bool; [|done].
    unfold SetVisible. case_bool; auto.
  - eexists. split; [done|]. unfold SetAtWar. destruct (_factions r !! k); [|done].
    case_bool; auto.
  - eexists. split; [done|]. unfold SetInactive. destruct (_factions r !! k); auto.
  - eauto.
  - destruct (_factions r !! k) as [f|]; [|eauto]. eexists. split; [done|]. by apply (P_SendState _ f).
  - eexists. split; [done|]. unfold SendInitialReputations.
    destruct (init_entries _ _). apply P_need'; [done|]. by intros [].
  - eexists. split; [done|]. by apply P_send_states.
  - eexists. split; [done|]. apply P_need'; [done|]. intros []. simpl. by case_bool.
Qed.
End steps.

Lemma inv_forced r f : inv r → inv (with_forced r f).
Proof. intros []. by split. Qed.

(** C8: over a whole session, the rank and visibility counters the achievement
    criteria read are the numbers of factions with that rank (Honored, Revered,
    Exalted or better) and with the visible flag, modulo the byte they are kept in;
    and every operation returns (no failed assertion). *)
Theorem rank_counters_count r :
  store_ok → spill_ok → reachable r →
  (_honoredFactionCount r = u8 (count_if (rank_ge REP_HONORED) (_factions r)) ∧
   _reveredFactionCount r = u8 (count_if (rank_ge REP_REVERED) (_factions r)) ∧
   _exaltedFactionCount r = u8 (count_if (rank_ge REP_EXALTED) (_factions r)) ∧
   _visibleFactionCount r = u8 (count_if visible (_factions r))) ∧
  ∀ op, ∃ r', rep_step r op = Ok r'.
Proof.
  intros Hst Hsp Hr.
  assert (∀ r op, inv r → ∃ r', rep_step r op = Ok r' ∧ inv r') as Hstep.
  { intros r0 op. apply rep_step_ind; [done|done|..].
    - intros. by apply inv_SetOneFactionReputation.
    - apply inv_SetVisible_ptr.
    - apply inv_SetAtWar_ptr.
    - apply inv_SetInactive_ptr.
    - apply inv_forced.
    - intros. by apply inv_fmap_need. }
  assert (inv r) as Hi.
  { induction Hr as [r0 rows Hnd|r0|r r' op _ IH E].
    - apply (li_inv _ _ (LoadFromDB_inv r0 rows Hst Hnd)).
    - apply (ii_inv _ _ (Initialize_inv r0 Hst)).
    - destruct (Hstep r op IH) as (r1 & E1 & ?). by assert (r1 = r') as <- by congruence. }
  split; [by destruct Hi|]. intros op. destruct (Hstep r op Hi) as (r' & ? & _). eauto.
Qed.

(** ** One faction *)

Lemma SetVisible_ptr_ne r k j : j ≠ k → _factions (SetVisible_ptr r k).1 !! j = _factions r !! j.
Proof.
  intros Hne. unfold SetVisible_ptr. destruct (_factions r !! k); [|done].
  repeat case_bool; try done. simpl. by rewrite lookup_insert_ne.
Qed.

Lemma SetAtWar_ptr_ne r k j w : j ≠ k → _factions (SetAtWar_ptr r k w) !! j = _factions r !! j.
Proof.
  intros Hne. unfold SetAtWar_ptr. destruct (_factions r !! k); [|done].
  simpl. by rewrite lookup_insert_ne.
Qed.

Lemma at_war_step_on r f :
  tst (Flags f) FACTION_FLAG_PEACE_FORCED = false →
  tst (Flags (at_war_step r f true)) FACTION_FLAG_AT_WAR = true.
Proof.
  intros Hp. unfold at_war_step. set (f1 := if _ && (_ || _) then _ else f).
  assert (tst (Flags f1) FACTION_FLAG_PEACE_FORCED = false) as ->.
  { unfold f1. case_bool; [|done]. simpl. by rewrite tst_lor. }
  simpl. destruct (Flags f1 .& FACTION_FLAG_AT_WAR) eqn:E; simpl; [done|].
  by apply tst_lor_same.
Qed.

(** A peace-forced faction other than the two Sholazar ones keeps its war flag when
    war is asked for. *)
Lemma at_war_step_peace r f w :
  tst (Flags f) FACTION_FLAG_PEACE_FORCED = true → fs_ID f ≠ 1104 → fs_ID f ≠ 1105 →
  tst (Flags (at_war_step r f w)) FACTION_FLAG_AT_WAR = true → tst (Flags f) FACTION_FLAG_AT_WAR = true.
Proof.
  intros Hp H1 H2. unfold at_war_step.
  destruct (fs_ID f =? 1104) eqn:E1; b2p; [done|]. destruct (fs_ID f =? 1105) eqn:E2; b2p; [done|].
  simpl. rewrite andb_false_r, Hp. destruct w; simpl; [done|].
  destruct (Flags f .& FACTION_FLAG_AT_WAR) eqn:E; simpl; [done|by rewrite E].
Qed.

Lemma GetReputation_core r fe id st :
  0 ≤ reputationListID fe → core r !! reputationListID fe = Some (id, st) →
  GetReputation r (Some fe) = s32 (GetBaseReputation (Some fe) + st).
Proof.
  intros Hl (s & Hs & E)%core_lookup_inv. unfold GetReputation, GetState, GetState_id, CanHaveReputation.
  destruct (Z.leb_spec 0 (reputationListID fe)); [|lia]. rewrite Hs. congruence.
Qed.

Lemma SetAtWar_ptr_IsAtWar r fe f :
  0 ≤ reputationListID fe → _factions r !! reputationListID fe = Some f →
  tst (Flags f) FACTION_FLAG_PEACE_FORCED = false →
  IsAtWar (SetAtWar_ptr r (reputationListID fe) true) (Some fe) = true.
Proof.
  intros Hl Hf Hp. unfold IsAtWar, GetState, GetState_id, CanHaveReputation, SetAtWar_ptr.
  destruct (Z.leb_spec 0 (reputationListID fe)); [|lia].
  rewrite Hf. simpl. rewrite lookup_insert_eq. by apply at_war_step_on.
Qed.

Lemma SetVisible_ptr_peace r k s :
  _factions r !! k = Some s →
  ∃ f, _factions (SetVisible_ptr r k).1 !! k = Some f ∧
       tst (Flags f) FACTION_FLAG_PEACE_FORCED = tst (Flags s) FACTION_FLAG_PEACE_FORCED.
Proof.
  intros Hs. destruct (core_lookup_inv (SetVisible_ptr r k).1 k (fs_ID s, Standing s)) as (f & Hf & _).
  { rewrite core_SetVisible_ptr. by apply core_lookup. }
  exists f. split; [done|].
  destruct (SetVisible_ptr_lookup r k k f Hf) as (s0 & Hs0 & _ & _ & _ & -> & _). congruence.
Qed.

(** setting or modifying one faction's reputation. An unknown faction is refused
    and nothing changes. Otherwise the reputation becomes exactly the clamped
    target, so it stays between -42000 and 42999; a faction that ends Hostile or
    worse is at war unless peace is forced; and no other faction's state changes. *)
Theorem SetOneFactionReputation_spec r fe x incr :
  0 ≤ reputationListID fe < 2 ^ 31 →
  let k := reputationListID fe in
  let '(ok, r', _) := SetOneFactionReputation r fe x incr in
  (∀ j, j ≠ k → _factions r' !! j = _factions r !! j) ∧
  match _factions r !! k with
  | None => ok = false ∧ r' = r
  | Some s =>
    let target := clamp_standing
      (if incr then s32 (rated x + s32 (Standing s + GetBaseReputation (Some fe))) else x) in
    ok = true ∧ GetReputation r' (Some fe) = target ∧
    Reputation_Bottom ≤ GetReputation r' (Some fe) ≤ Reputation_Cap ∧
    (GetRank r' (Some fe) ≤ REP_HOSTILE →
     tst (Flags s) FACTION_FLAG_PEACE_FORCED = false → IsAtWar r' (Some fe) = true)
  end.
Proof.
  intros Hl k. assert (u32 (reputationListID fe) = k) as Ek.
  { apply wrap_small. unfold in_u, k. lia. }
  destruct (_factions r !! k) as [s|] eqn:Hs.
  2:{ unfold SetOneFactionReputation. by rewrite Ek, Hs. }
  pose proof (core_SetOne r fe x incr s) as HC. rewrite Ek in HC. specialize (HC Hs).
  set (target := clamp_standing _) in *.
  assert (GetReputation (SetOneFactionReputation r fe x incr).1.2 (Some fe) = target) as HG.
  { erewrite GetReputation_core; [|lia|rewrite HC; apply lookup_insert_eq].
    apply s32_back, clamp_in_s32. }
  revert HG. unfold GetRank, SetOneFactionReputation. rewrite Ek, Hs. fold target.
  set (r1 := with_factions r _).
  pose proof (SetVisible_ptr_ne r1 k) as HN.
  destruct (SetVisible_ptr_peace r1 k _ (lookup_insert_eq _ _ _)) as (f & Hf & Hfp).
  destruct (SetVisible_ptr r1 k) as [r2 o2]. simpl in *. intros HG. rewrite HG.
  split_and!; [|done|done|apply clamp_standing_range..|].
  - intros j Hj. repeat case_bool; simpl; rewrite ?SetAtWar_ptr_ne, HN by done; simpl;
      by rewrite lookup_insert_ne.
  - intros Hh Hp. destruct (Z.leb_spec (ReputationToRank target) REP_HOSTILE); [|lia].
    rewrite Hp in Hfp. pose proof (SetAtWar_ptr_IsAtWar r2 fe f (proj1 Hl) Hf Hfp).
    by case_bool.
Qed.

(** ** Peace with the own factions *)

Definition sholazar (id : Z) : Prop := id = 1104 ∨ id = 1105.

(** No state was put at war against a forced peace: at-war flags of peace-forced
    factions come from the default flags of the store. *)
Definition peace_ok (s : FactionState) : Prop :=
  tst (Flags s) FACTION_FLAG_PEACE_FORCED = true → ¬ sholazar (fs_ID s) →
  tst (Flags s) FACTION_FLAG_AT_WAR = true →
  tst (u8 (GetDefaultStateFlags (sFactionStore !! fs_ID s))) FACTION_FLAG_AT_WAR = true.
Definition peace_inv (r : ReputationMgr) : Prop := map_Forall (λ _, peace_ok) (_factions r).

Lemma peace_insert r r' k s :
  peace_inv r → _factions r' = <[k := s]> (_factions r) → peace_ok s → peace_inv r'.
Proof. intros Hr E Hs. unfold peace_inv. rewrite E. by apply map_Forall_insert_2. Qed.

(** Updates of other flags, of standings and of the send/save marks. *)
Lemma peace_ok_same s s' :
  peace_ok s → fs_ID s' = fs_ID s →
  tst (Flags s') FACTION_FLAG_PEACE_FORCED = tst (Flags s) FACTION_FLAG_PEACE_FORCED →
  tst (Flags s') FACTION_FLAG_AT_WAR = tst (Flags s) FACTION_FLAG_AT_WAR → peace_ok s'.
Proof. unfold peace_ok. by intros H1 -> -> ->. Qed.

Lemma peace_SetVisible_ptr r k : peace_inv r → peace_inv (SetVisible_ptr r k).1.
Proof.
  intros Hr j s Hs. destruct (SetVisible_ptr_lookup r k j s Hs) as (s0 & Hs0 & ? & _ & _ & ? & ?).
  by eapply peace_ok_same; [exact (Hr j s0 Hs0)|..].
Qed.

Lemma peace_SetAtWar_ptr r k w : peace_inv r → peace_inv (SetAtWar_ptr r k w).
Proof.
  intros Hr. unfold SetAtWar_ptr. destruct (_factions r !! k) as [s|] eqn:Hs; [|done].
  eapply peace_insert; [done..|]. destruct (at_war_step_flags r s w) as [E _ _ HF].
  unfold peace_ok. rewrite E, HF by done. intros Hp Hns Hw. apply (Hr k s Hs Hp Hns).
  apply (at_war_step_peace r s w); [done| | |done]; intros ?; apply Hns; [by left|by right].
Qed.

Lemma peace_SetInactive_ptr r k w : peace_inv r → peace_inv (SetInactive_ptr r k w).
Proof.
  intros Hr. unfold SetInactive_ptr. destruct (_factions r !! k) as [s|] eqn:Hs; [|done].
  eapply peace_insert; [done..|]. destruct (inactive_step_flags s w) as [E _ _ HF].
  eapply peace_ok_same; [exact (Hr k s Hs)|done|by apply HF..].
Qed.

Lemma peace_SetOne r fe x incr :
  peace_inv r → peace_inv (SetOneFactionReputation r fe x incr).1.2.
Proof.
  intros Hr. unfold SetOneFactionReputation. destruct (_factions r !! _) as [s|] eqn:Hs; [|done].
  set (k := u32 _) in *. set (s' := dirty _). set (r1 := with_factions r _).
  assert (peace_inv (SetVisible_ptr r1 k).1) as H2.
  { apply peace_SetVisible_ptr. apply (peace_insert r r1 k s'); [done..|].
    by apply (peace_ok_same s); [exact (Hr k s Hs)|..]. }
  destruct (SetVisible_ptr r1 k) as [r2 o2]. simpl in *.
  repeat case_bool; try done; by apply (peace_SetAtWar_ptr r2 k true).
Qed.

Lemma peace_init_row r n : store_ok → peace_inv r → peace_inv (init_row r n).
Proof.
  intros Hst Hr. unfold init_row. destruct (sFactionStore !! n) as [fe|] eqn:Hfe; [|done].
  case_bool; [|done]. eapply (peace_insert r); [done|simpl; by case_bool|].
  unfold peace_ok. simpl. by rewrite (so_id Hst _ _ Hfe), Hfe.
Qed.

Lemma peace_Initialize r : store_ok → peace_inv (Initialize r).
Proof.
  intros Hst. unfold Initialize. set (r0 := mkMgr _ _ _ _ _ _ _).
  assert (peace_inv r0) as Hr0 by apply map_Forall_empty.
  clearbody r0. revert r0 Hr0. induction (seqZ 1 (faction_rows - 1)) as [|i l IH]; intros r0 Hr0; [done|].
  simpl. apply IH. by apply peace_init_row.
Qed.

Lemma peace_load_row r o row : peace_inv r → peace_inv (load_row (r, o) row).1.
Proof.
  intros Hr. unfold load_row. destruct (sFactionStore !! row_faction row) as [fe|]; [|done].
  case_bool; [|done]. set (k := u32 _). set (f := default _ _).
  set (r2 := UpdateRankCounters _ _ _).
  assert (peace_inv r2) as H2.
  { apply (peace_insert r r2 k (set_standing f (row_standing row))); [done..|].
    apply (peace_ok_same f); try done. unfold f.
    destruct (_factions r !! k) as [s|] eqn:Hs; [exact (Hr k s Hs)|done]. }
  clearbody r2. destruct (if row_flags row .& FACTION_FLAG_VISIBLE then _ else _) as [r3 o3] eqn:E3.
  assert (peace_inv r3) as H3.
  { pose proof (peace_SetVisible_ptr r2 k H2).
    destruct (_ .& FACTION_FLAG_VISIBLE); [by rewrite E3 in *|by simplify_eq]. }
  clear E3. set (r4 := if row_flags row .& FACTION_FLAG_INACTIVE then _ else _).
  assert (peace_inv r4) as H4.
  { unfold r4. destruct (_ .& FACTION_FLAG_INACTIVE); [by apply peace_SetInactive_ptr|done]. }
  clearbody r4. set (v := match _factions r4 !! k with Some _ => _ | None => _ end).
  clearbody v. set (r5 := if row_flags row .& FACTION_FLAG_AT_WAR then _ else _).
  assert (peace_inv r5) as H5.
  { unfold r5. destruct (_ .& FACTION_FLAG_AT_WAR), v; try apply peace_SetAtWar_ptr; done. }
  clearbody r5. set (r6 := if GetRank _ _ <=? _ then _ else _).
  assert (peace_inv r6) as H6.
  { unfold r6. destruct (GetRank r5 (Some fe) <=? _); [by apply peace_SetAtWar_ptr|done]. }
  clearbody r6. simpl. destruct (_factions r6 !! k) as [s|] eqn:Hs; [|done].
  case_bool; [|done]. eapply (peace_insert r6); [done..|].
  by apply (peace_ok_same s); [exact (H6 k s Hs)|..].
Qed.

(** no operation of a session (loading, changing standings with their spill-over,
    the client's at-war switch) puts the player at war with a faction whose peace is
    forced: such a faction is at war only if its default flags say so. The two
    Sholazar factions 1104 and 1105 are the exception the code makes. *)
Theorem peace_forced_respected r :
  store_ok → spill_ok → reachable r →
  ∀ k s, _factions r !! k = Some s → ¬ sholazar (fs_ID s) →
  tst (Flags s) FACTION_FLAG_PEACE_FORCED = true →
  tst (u8 (GetDefaultStateFlags (sFactionStore !! fs_ID s))) FACTION_FLAG_AT_WAR = false →
  tst (Flags s) FACTION_FLAG_AT_WAR = false.
Proof.
  intros Hst Hsp Hr. assert (peace_inv r) as Hp.
  { induction Hr as [r0 rows _|r0|r r' op _ IH E].
    - unfold LoadFromDB. pose proof (peace_Initialize r0 Hst) as H1. revert H1.
      generalize (Initialize r0) as r1, (@nil rep_out) as o1.
      induction rows as [|row rows IH]; intros r1 o1 H1; [done|]. cbn [foldl].
      pose proof (peace_load_row r1 o1 row H1). destruct (load_row (r1, o1) row). by apply IH.
    - by apply peace_Initialize.
    - destruct (rep_step_ind peace_inv Hst Hsp) with (r := r) (op := op) as (r1 & E1 & ?);
        auto using peace_SetOne, peace_SetVisible_ptr, peace_SetAtWar_ptr, peace_SetInactive_ptr.
      + intros r1 g x H1 Hg. apply map_Forall_fmap. intros j s Hj. simpl.
        destruct (Hg s) as (E1 & _ & _ & E4).
        apply (peace_ok_same s); [exact (H1 j s Hj)|done|by rewrite E4..].
      + by assert (r1 = r') as <- by congruence. }
  intros k s Hs Hns Hf Hd. destruct (tst (Flags s) FACTION_FLAG_AT_WAR) eqn:E; [|done].
  by rewrite (Hp k s Hs Hf Hns E) in Hd.
Qed.

(** ** The initial packet *)

(** What the client is to see under list id [i]. *)
Definition initial_entry (m : gmap Z FactionState) (i : Z) : Z * Z :=
  match m !! i with Some s => (Flags s, u32 (Standing s)) | None => (0, 0) end.

Lemma replicate_absent m a n :
  (∀ i, a ≤ i < a + Z.of_nat n → m !! i = None) →
  replicate n (0, 0) = map (initial_entry m) (seqZ a (Z.of_nat n)).
Proof.
  revert a. induction n as [|n IH]; intros a Ha; [done|].
  rewrite seqZ_cons by lia. cbn [replicate map]. f_equal.
  - unfold initial_entry. by rewrite Ha by lia.
  - rewrite Nat2Z.inj_succ, Z.pred_succ. apply IH. intros i Hi. apply Ha. lia.
Qed.

Lemma init_entries_spec m fs a :
  StronglySorted (λ x y : Z * FactionState, x.1 < y.1) fs →
  (∀ k s, a ≤ k → m !! k = Some s ↔ (k, s) ∈ fs) →
  Forall (λ x, a ≤ x.1 < 128) fs → 0 ≤ a ≤ 128 →
  let '(a', es) := init_entries a fs in
  a ≤ a' ≤ 128 ∧ es = map (initial_entry m) (seqZ a (a' - a)) ∧
  ∀ k, a' ≤ k → m !! k = None.
Proof.
  revert a. induction fs as [|[k s] fs IH]; intros a Hs Hm Hr Ha; simpl.
  { rewrite Z.sub_diag. split_and!; try done; [lia|]. intros k Hk.
    destruct (m !! k) eqn:E; [|done]. by apply Hm, not_elem_of_nil in E. }
  apply StronglySorted_inv in Hs as [Hs Hlt]. apply Forall_cons in Hr as [Hk Hr]. simpl in Hk.
  assert (u32 (k + 1) = k + 1) as -> by (apply wrap_small; unfold in_u; lia).
  specialize (IH (k + 1)). destruct (init_entries (k + 1) fs) as [a' es].
  assert (m !! k = Some s) as Hks by (apply Hm; [lia|left]).
  destruct IH as (I1 & -> & I3); [done| | |lia|].
  - intros j t Hj. rewrite (Hm j t) by lia. rewrite elem_of_cons. split; [|by right].
    intros [[= -> ->]|]; [lia|done].
  - rewrite Forall_forall in Hlt, Hr |- *. intros x Hx. specialize (Hlt x Hx). specialize (Hr x Hx).
    simpl in *. lia.
  - assert (u32 (k - a) = k - a) as -> by (apply wrap_small; unfold in_u; lia).
    split_and!; [lia|lia| |done].
    rewrite (replicate_absent m a).
    + rewrite Z2Nat.id by lia. replace (a' - a) with ((k - a) + (1 + (a' - (k + 1)))) by lia.
      rewrite (seqZ_app a (k - a)), map_app by lia. f_equal.
      replace (a + (k - a)) with k by lia. rewrite seqZ_app by lia.
      rewrite (seqZ_cons k 1), (seqZ_nil _ (Z.pred 1)), map_app by lia. simpl. f_equal.
      unfold initial_entry. by rewrite Hks.
    + intros i Hi. destruct (m !! i) as [t|] eqn:E; [|done]. apply Hm in E; [|lia].
      apply elem_of_cons in E as [[= -> _]|E]; [lia|].
      rewrite Forall_forall in Hlt. specialize (Hlt _ E). simpl in Hlt. lia.
Qed.

(** SMSG_INITIALIZE_FACTIONS carries exactly the 128 entries it announces: entry
    [i] is the flags and standing of the faction with list id [i], zero where the
    player has none; and no faction is left marked for sending. *)
Theorem SendInitialReputations_spec r :
  (∀ k, is_Some (_factions r !! k) → 0 ≤ k < 128) →
  let '(r', out) := SendInitialReputations r in
  out = [SMSG_INITIALIZE_FACTIONS 128 (map (initial_entry (_factions r)) (seqZ 0 128))] ∧
  core r' = core r ∧
  map_Forall (λ _ s, needSend s = false) (_factions r').
Proof.
  intros Hk. unfold SendInitialReputations.
  pose proof (init_entries_spec (_factions r) (items (_factions r)) 0) as HI.
  destruct (init_entries 0 (items (_factions r))) as [a es].
  destruct HI as (H1 & -> & H3); [apply items_lt| | |lia|].
  - intros k s _. by rewrite items_elem.
  - apply Forall_forall. intros [k s] Hin. apply items_elem in Hin. simpl. eauto.
  - split_and!.
    + do 2 f_equal. assert (u32 (128 - a) = 128 - a) as -> by (apply wrap_small; unfold in_u; lia).
      rewrite (replicate_absent (_factions r) a).
      * rewrite Z2Nat.id, Z.sub_0_r, <- map_app by lia.
        replace 128 with (a + (128 - a)) at 2 by lia. by rewrite seqZ_app by lia.
      * intros i Hi. apply H3. lia.
    + unfold core. simpl. rewrite <- map_fmap_compose. by apply map_fmap_ext.
    + intros k s. simpl. rewrite lookup_fmap. by intros (s0 & _ & ->)%fmap_Some.
Qed.

(** ** Saving and loading again *)

(** The player's rows of character_reputation under the two statements. *)
Abbreviation reputation_table := (gmap Z (Z * Z)).
Definition db_exec (db : reputation_table) (o : rep_out) : reputation_table :=
  match o with
  | CHAR_DEL_CHAR_REPUTATION_BY_FACTION _ f => delete f db
  | CHAR_INS_CHAR_REPUTATION_BY_FACTION _ f st fl => <[f := (st, fl)]> db
  | _ => db
  end.
Definition db_rows (db : reputation_table) : list db_row :=
  map (λ x, mkRow x.1 x.2.1 x.2.2) (items db).

Lemma db_rows_NoDup db : NoDup (map row_faction (db_rows db)).
Proof.
  unfold db_rows. rewrite map_map. simpl.
  replace (map (λ x : Z * (Z * Z), x.1) (items db)) with (items db).*1 by done.
  apply items_NoDup.
Qed.

Lemma row_of_db_rows db id :
  row_standing <$> row_of id (db_rows db) = fst <$> db !! id.
Proof.
  unfold row_of. destruct (List.find _ _) as [row|] eqn:E.
  - apply find_some in E as [Hin He]. simpl in He. b2p. unfold db_rows in Hin.
    apply in_map_iff in Hin as ([f [st fl]] & <- & Hin). simpl in *. subst.
    apply list_elem_of_In, items_elem in Hin. by rewrite Hin.
  - destruct (db !! id) as [[st fl]|] eqn:Hd; [|done].
    apply items_elem in Hd. exfalso.
    assert (In (mkRow id st fl) (db_rows db)) as Hin.
    { unfold db_rows. apply in_map_iff. exists (id, (st, fl)). split; [done|].
      by apply list_elem_of_In. }
    pose proof (find_none _ _ E _ Hin) as HE. simpl in HE. by rewrite Z.eqb_refl in HE.
Qed.

(** Executing the statements of a list of states with distinct faction ids. *)
Lemma db_exec_states (l : list (Z * FactionState)) (db : reputation_table) :
  NoDup (map (λ x, u16 (fs_ID x.2)) l) →
  let db' := foldl db_exec db (concat (map (λ ks, save_state ks.2) l)) in
  (∀ k s, (k, s) ∈ l → db' !! u16 (fs_ID s)
     = if needSave s then Some (Standing s, Flags s) else db !! u16 (fs_ID s)) ∧
  ∀ f, f ∉ map (λ x, u16 (fs_ID x.2)) l → db' !! f = db !! f.
Proof.
  revert db. induction l as [|[k0 s0] l IH]; intros db Hnd; simpl.
  { split; [by intros ?? ?%not_elem_of_nil|done]. }
  apply NoDup_cons in Hnd as [Hni Hnd]. simpl in Hni. rewrite foldl_app.
  set (db1 := foldl db_exec db (save_state s0)).
  assert (∀ f, f ≠ u16 (fs_ID s0) → db1 !! f = db !! f) as H1.
  { intros f Hf. unfold db1, save_state. case_bool; [|done]. simpl.
    by rewrite lookup_insert_ne, lookup_delete_ne. }
  destruct (IH db1 Hnd) as [I1 I2]. split.
  - intros k s [[= -> ->]|Hin]%elem_of_cons.
    + rewrite I2 by done. unfold db1, save_state. case_bool; [|done]. simpl.
      apply lookup_insert_eq.
    + rewrite (I1 k s Hin). case_bool; [done|]. apply H1. intros EQ.
      apply Hni. rewrite <- EQ.
      by apply (list_elem_of_fmap_2 (λ x : Z * FactionState, u16 (fs_ID x.2)) l (k, s)).
  - intros f. rewrite not_elem_of_cons. intros [Hf Hfl]. rewrite I2 by done. auto.
Qed.

(** The rows of the states that have nothing to save are already in the table. *)
Definition db_synced (db : reputation_table) (r : ReputationMgr) : Prop :=
  ∀ k s, _factions r !! k = Some s → needSave s = false →
  db !! fs_ID s = Some (Standing s, Flags s).

Lemma state_ids_distinct r :
  store_ok → inv r → faction_rows ≤ 2 ^ 16 →
  NoDup (map (λ x, u16 (fs_ID x.2)) (items (_factions r))) ∧
  ∀ k s, _factions r !! k = Some s → u16 (fs_ID s) = fs_ID s.
Proof.
  intros Hst Hr Hrows.
  assert (∀ k s, _factions r !! k = Some s → u16 (fs_ID s) = fs_ID s) as Hsmall.
  { intros k s Hs. destruct (ko_store _ (inv_keys _ Hr) k s Hs) as (fe & Hfe & _).
    pose proof (so_rows Hst _ _ Hfe). apply wrap_small. unfold in_u. lia. }
  split; [|done]. pose proof (items_NoDup (_factions r)) as Hnd.
  assert (∀ k s, (k, s) ∈ items (_factions r) → _factions r !! k = Some s) as Hl.
  { intros k s. by rewrite items_elem. }
  revert Hnd Hl. generalize (items (_factions r)) as l.
  induction l as [|[k s] l IH]; intros Hnd Hl; [constructor|]. simpl in *.
  apply NoDup_cons in Hnd as [Hni Hnd]. constructor.
  - intros Hin. apply list_elem_of_fmap in Hin as ([k' s'] & E & Hin). simpl in E. apply Hni.
    assert (_factions r !! k = Some s) as Hk by (apply Hl; left).
    assert (_factions r !! k' = Some s') as Hk' by (apply Hl; by right).
    rewrite (Hsmall _ _ Hk), (Hsmall _ _ Hk') in E.
    destruct (ko_store _ (inv_keys _ Hr) _ _ Hk) as (fe & Hfe & E1 & _).
    destruct (ko_store _ (inv_keys _ Hr) _ _ Hk') as (fe' & Hfe' & E2 & _).
    assert (k = k') as -> by congruence. by apply (list_elem_of_fmap_2 fst l (k', s')).
  - apply IH; [done|]. intros k' s' Hin. apply Hl. by right.
Qed.

(** C29: saving and loading again: after SaveToDB nothing is marked for saving, the
    player's rows hold the standing and flags of every faction, and a manager loaded
    from these rows has the same standing with every faction. *)
Theorem SaveToDB_LoadFromDB r r0 db :
  store_ok → faction_rows ≤ 2 ^ 16 → inv r → db_synced db r →
  let '(r', out) := SaveToDB r in
  let db' := foldl db_exec db out in
  map_Forall (λ _ s, needSave s = false) (_factions r') ∧
  db_synced db' r' ∧
  ∀ k, is_Some (_factions r !! k) →
    core (LoadFromDB r0 (Some (db_rows db'))).1 !! k = core r !! k.
Proof.
  intros Hst Hrows Hr Hdb. destruct (state_ids_distinct r Hst Hr Hrows) as [Hnd Hsmall].
  unfold SaveToDB. set (out := concat _). set (db' := foldl db_exec db out).
  assert (∀ k s, _factions r !! k = Some s → db' !! fs_ID s = Some (Standing s, Flags s)) as Hdb'.
  { intros k s Hs. destruct (db_exec_states (items (_factions r)) db Hnd) as [H1 _].
    specialize (H1 k s). rewrite (Hsmall k s Hs) in H1. unfold db', out.
    rewrite H1 by (by apply items_elem). case_bool; [done|]. by apply (Hdb k). }
  split_and!.
  - intros k s. simpl. rewrite lookup_fmap. intros (s0 & _ & ->)%fmap_Some. by case_bool.
  - intros k s. simpl. rewrite lookup_fmap. intros (s0 & Hs0 & ->)%fmap_Some _.
    case_bool; simpl; by apply (Hdb' k).
  - intros k [s Hs]. rewrite (core_lookup _ _ _ Hs).
    destruct (ko_store _ (inv_keys _ Hr) _ _ Hs) as (fe & Hfe & <- & Hl).
    rewrite (li_core _ _ (LoadFromDB_inv r0 _ Hst (db_rows_NoDup db')) _ fe Hfe Hl).
    by rewrite row_of_db_rows, (Hdb' _ _ Hs).
Qed.

End env.

(** ** A small store, on which the theorems are applied *)
Section demo.

(** Two factions with a reputation line: Stormwind-like (peace forced, visible) and
    a neutral one, of the same parent without one. *)
Definition demo_factions : gmap Z FactionEntry :=
  <[72 := mkEntry 72 1 [1; 2; 0; 0] [0; 0; 0; 0] [3100; -42000; 0; 0] [17; 6; 0; 0]
            469 (f32_lit 1 2) (f32_lit 1 4) 7]>
  (<[21 := mkEntry 21 4 [1; 0; 0; 0] [0; 0; 0; 0] [0; 0; 0; 0] [0; 0; 0; 0]
            469 (f32_lit 1 2) (f32_lit 1 4) 7]>
  (<[469 := mkEntry 469 (-1) [0; 0; 0; 0] [0; 0; 0; 0] [0; 0; 0; 0] [0; 0; 0; 0]
            0 f32_zero f32_zero 0]> ∅)).

#[local] Instance demo_env : RepEnv := {|
  sFactionStore := demo_factions;
  faction_rows := 500;
  rep_spillover := {[ 21 := mkSpill [72; 0] [f32_lit 1 2; f32_zero] [7; 0] ]};
  faction_team_list := {[ 469 := [72; 21] ]};
  race_mask := 1;
  class_mask := 1;
  rate_reputation_gain := f32_of_Z 1;
  player_loading := false;
  player_guid := 7;
  script_standing := λ _ x _, x
|}.

Lemma demo_cases id fe :
  demo_factions !! id = Some fe →
  (id = 72 ∧ demo_factions !! 72 = Some fe) ∨ (id = 21 ∧ demo_factions !! 21 = Some fe)
  ∨ (id = 469 ∧ demo_factions !! 469 = Some fe).
Proof.
  intros E. destruct (decide (id = 72)) as [->|]; [by left|].
  destruct (decide (id = 21)) as [->|]; [right; by left|].
  destruct (decide (id = 469)) as [->|]; [right; by right|].
  exfalso. revert E. unfold demo_factions. by rewrite !lookup_insert_ne by done.
Qed.

Lemma demo_store_ok : store_ok.
Proof.
  split.
  - intros id fe [[-> [= <-]]|[[-> [= <-]]|[-> [= <-]]]]%demo_cases; done.
  - intros id fe [[-> _]|[[-> _]|[-> _]]]%demo_cases; simpl; lia.
  - intros id fe [[-> [= <-]]|[[-> [= <-]]|[-> [= <-]]]]%demo_cases; done.
  - intros id fe [[-> [= <-]]|[[-> [= <-]]|[-> [= <-]]]]%demo_cases;
      repeat (constructor; [done|]); constructor.
  - intros i j f g Hi Hj.
    destruct (demo_cases i f Hi) as [[-> [= <-]]|[[-> [= <-]]|[-> [= <-]]]];
    destruct (demo_cases j g Hj) as [[-> [= <-]]|[[-> [= <-]]|[-> [= <-]]]]; intros _; vm_compute; congruence.
Qed.

Lemma demo_spill_ok : spill_ok.
Proof.
  intros id t f Ht. simpl in Ht. apply lookup_singleton_Some in Ht as [<- <-]. simpl.
  intros [->|[->|[]%not_elem_of_nil]%elem_of_cons]%elem_of_cons.
  - right. by eexists.
  - by left.
Qed.

Definition demo_mgr : ReputationMgr := mkMgr ∅ ∅ 0 0 0 0 false.

Lemma demo_rows_NoDup : NoDup (map row_faction [mkRow 72 500 19; mkRow 21 (-5000) 1]).
Proof. apply (bool_decide_eq_true_1 _). reflexivity. Qed.

(** A session: loaded, then 6000 points of faction 21 with their spill-over. *)
Definition demo_loaded : ReputationMgr :=
  (LoadFromDB demo_mgr (Some [mkRow 72 500 19; mkRow 21 (-5000) 1])).1.

Lemma demo_reachable : reachable demo_loaded.
Proof. exact (reach_load demo_mgr [mkRow 72 500 19; mkRow 21 (-5000) 1] demo_rows_NoDup). Qed.

Lemma LoadFromDB_standings_witness :
  core (LoadFromDB demo_mgr (Some [mkRow 72 500 19; mkRow 21 (-5000) 1])).1 !! 4 = Some (21, -5000).
Proof.
  destruct (LoadFromDB_standings demo_mgr [mkRow 72 500 19; mkRow 21 (-5000) 1]
    demo_store_ok demo_rows_NoDup) as [_ H].
  apply (H 21 _ eq_refl). simpl. lia.
Defined.

Lemma rank_counters_count_witness :
  ∃ r, reachable r ∧ _honoredFactionCount r = u8 (count_if (rank_ge REP_HONORED) (_factions r))
       ∧ _honoredFactionCount r = 2.
Proof.
  set (op := OpSetReputation 21 20000 true).
  destruct (rank_counters_count demo_loaded demo_store_ok demo_spill_ok
    demo_reachable) as [_ Hop].
  destruct (Hop op) as [r Hr].
  assert (reachable r) as HR.
  { exact (reach_step _ _ op demo_reachable Hr). }
  exists r. split; [exact HR|].
  destruct (rank_counters_count r demo_store_ok demo_spill_ok HR) as [(H & _) _].
  split; [exact H|].
  assert (match rep_step demo_loaded op with Ok r => _honoredFactionCount r | _ => 0 end = 2)
    as HV by (vm_compute; reflexivity).
  rewrite Hr in HV. exact HV.
Defined.

Lemma peace_forced_respected_witness :
  ∃ s, _factions demo_loaded !! 1 = Some s ∧ tst (Flags s) FACTION_FLAG_PEACE_FORCED = true
       ∧ tst (Flags s) FACTION_FLAG_AT_WAR = false.
Proof.
  destruct (_factions demo_loaded !! 1) as [s|] eqn:Hs; [|by vm_compute in Hs].
  exists s. split; [reflexivity|].
  assert (match _factions demo_loaded !! 1 with Some s => (Flags s, fs_ID s) | None => (0, 0) end
          = (17, 72)) as HV by (vm_compute; reflexivity).
  rewrite Hs in HV. injection HV as Hf Hid.
  split; [by rewrite Hf|].
  apply (peace_forced_respected demo_loaded demo_store_ok demo_spill_ok
    demo_reachable 1 s Hs).
  - rewrite Hid. unfold sholazar. lia.
  - by rewrite Hf.
  - by rewrite Hid.
Defined.

Lemma SetOneFactionReputation_spec_witness :
  ∃ fe, 0 ≤ reputationListID fe < 2 ^ 31 ∧
  GetReputation (SetOneFactionReputation demo_loaded fe (-50000) true).1.2 (Some fe) = -42000.
Proof.
  exists (mkEntry 21 4 [1; 0; 0; 0] [0; 0; 0; 0] [0; 0; 0; 0] [0; 0; 0; 0]
            469 (f32_lit 1 2) (f32_lit 1 4) 7).
  split; [simpl; lia|].
  pose proof (SetOneFactionReputation_spec demo_loaded (mkEntry 21 4 [1; 0; 0; 0] [0; 0; 0; 0]
    [0; 0; 0; 0] [0; 0; 0; 0] 469 (f32_lit 1 2) (f32_lit 1 4) 7) (-50000) true) as H.
  destruct (SetOneFactionReputation _ _ _ _) as [[ok r] o]. destruct H as [_ H]; [simpl; lia|].
  revert H. simpl reputationListID.
  destruct (_factions demo_loaded !! 4) as [s|] eqn:E; [|by vm_compute in E].
  intros (_ & H & _). simpl. etrans; [exact H|].
  assert (match _factions demo_loaded !! 4 with Some s => Standing s | None => 0 end = -5000)
    as HV by (vm_compute; reflexivity).
  rewrite E in HV. rewrite HV. vm_compute. reflexivity.
Defined.

Lemma SendInitialReputations_spec_witness :
  ∃ out, SendInitialReputations demo_loaded = out ∧
  out.2 = [SMSG_INITIALIZE_FACTIONS 128 (map (initial_entry (_factions demo_loaded)) (seqZ 0 128))].
Proof.
  eexists. split; [reflexivity|].
  pose proof (SendInitialReputations_spec demo_loaded) as H.
  destruct (SendInitialReputations demo_loaded) as [r out]. apply H.
  intros k [s Hs].
  assert (dom (_factions demo_loaded) = {[1; 4]}) as HD by (vm_compute; reflexivity).
  assert (k ∈ dom (_factions demo_loaded)) as Hk by (apply elem_of_dom; eauto).
  rewrite HD in Hk. clear -Hk.
  apply elem_of_union in Hk as [Hk|Hk]; apply elem_of_singleton in Hk; lia.
Defined.

Lemma SaveToDB_LoadFromDB_witness :
  core (LoadFromDB demo_mgr (Some (db_rows (foldl db_exec ∅ (SaveToDB (Initialize demo_mgr)).2)))).1 !! 1
  = core (Initialize demo_mgr) !! 1.
Proof.
  pose proof (SaveToDB_LoadFromDB (Initialize demo_mgr) demo_mgr ∅ demo_store_ok) as H.
  destruct (SaveToDB (Initialize demo_mgr)) as [r' out]. apply H.
  - vm_compute. discriminate.
  - apply (ii_inv _ _ (Initialize_inv demo_mgr demo_store_ok)).
  - intros k s Hs Hn. exfalso.
    assert (map_Forall (λ _ s, needSave s = true) (_factions (Initialize demo_mgr))) as HF.
    { apply (bool_decide_eq_true_1 _). vm_compute. reflexivity. }
    rewrite (HF k s Hs) in Hn. discriminate.
  - apply (bool_decide_eq_true_1 _). vm_compute. reflexivity.
Defined.

End demo.
End Reputation.
