(* ===== verification/Items.v ===== *)
(** * Items ([src/server/game/Entities/Item/])

    Item templates, items and bags: the data of ItemPrototype.h, Item.h and
    Container/Bag.h as far as the inventory of Inventory.v and Storage.v reads it.

    Pointers are integers and the memory is a total map from pointers to items, so
    that pointer comparisons of the code ([pItem2 == pSrcItem]) are comparisons of
    pointers and not of contents. An item is only ever created with an existing
    template (Item::Create and Item::LoadFromDB refuse otherwise), so GetTemplate is a
    field of the item and the entry is the template's id. *)
From S2P Require Import Prelude.

Module Items.

Inductive InventoryResult :=
| EQUIP_ERR_OK
| EQUIP_ERR_CANT_EQUIP_LEVEL_I
| EQUIP_ERR_CANT_EQUIP_SKILL
| EQUIP_ERR_ITEM_DOESNT_GO_TO_SLOT
| EQUIP_ERR_BAG_FULL
| EQUIP_ERR_NONEMPTY_BAG_OVER_OTHER_BAG
| EQUIP_ERR_NO_REQUIRED_PROFICIENCY
| EQUIP_ERR_YOU_CAN_NEVER_USE_THAT_ITEM
| EQUIP_ERR_ITEM_DOESNT_GO_INTO_BAG
| EQUIP_ERR_CANT_CARRY_MORE_OF_THIS
| EQUIP_ERR_ITEM_CANT_STACK
| EQUIP_ERR_ITEM_CANT_BE_EQUIPPED
| EQUIP_ERR_ITEMS_CANT_BE_SWAPPED
| EQUIP_ERR_ITEM_NOT_FOUND
| EQUIP_ERR_CAN_ONLY_DO_WITH_EMPTY_BAGS
| EQUIP_ERR_DONT_OWN_THAT_ITEM
| EQUIP_ERR_MUST_PURCHASE_THAT_BAG_SLOT
| EQUIP_ERR_YOU_ARE_DEAD
| EQUIP_ERR_CANT_DO_RIGHT_NOW
| EQUIP_ERR_ALREADY_LOOTED
| EQUIP_ERR_INVENTORY_FULL
| EQUIP_ERR_BANK_FULL
| EQUIP_ERR_OBJECT_IS_BUSY
| EQUIP_ERR_NONE
| EQUIP_ERR_NOT_IN_COMBAT
| EQUIP_ERR_CANT_EQUIP_REPUTATION
| EQUIP_ERR_NOT_DURING_ARENA_MATCH
| EQUIP_ERR_ITEM_MAX_LIMIT_CATEGORY_COUNT_EXCEEDED
| EQUIP_ERR_CANT_DROP_SOULBOUND
| EQUIP_ERR_COULDNT_SPLIT_ITEMS
| EQUIP_ERR_TRIED_TO_SPLIT_MORE_THAN_COUNT
| EQUIP_ERR_CANT_EQUIP_WITH_TWOHANDED
| EQUIP_ERR_CANT_DUAL_WIELD
| EQUIP_ERR_CAN_EQUIP_ONLY1_QUIVER
| EQUIP_ERR_CAN_EQUIP_ONLY1_AMMOPOUCH
| EQUIP_ERR_NO_EQUIPMENT_SLOT_AVAILABLE
| EQUIP_ERR_YOU_ARE_STUNNED
| EQUIP_ERR_ITEM_UNIQUE_EQUIPABLE
| EQUIP_ERR_ITEM_MAX_COUNT_EQUIPPED_SOCKETED
| EQUIP_ERR_ITEM_MAX_LIMIT_CATEGORY_EQUIPPED_EXCEEDED
| EQUIP_ERR_TOO_MUCH_GOLD.

#[export] Instance InventoryResult_eq_dec : EqDecision InventoryResult.
Proof. solve_decision. Defined.

Definition is_ok (r : InventoryResult) : bool := bool_decide (r = EQUIP_ERR_OK).

Lemma is_ok_true r : is_ok r = true ↔ r = EQUIP_ERR_OK.
Proof. apply bool_decide_eq_true. Qed.
Lemma is_ok_false r : is_ok r = false ↔ r ≠ EQUIP_ERR_OK.
Proof. apply bool_decide_eq_false. Qed.

(** ** Templates ([ItemTemplate]) *)
Record ItemTemplate := mkTemplate {
  ItemId : Z;
  Class_ : Z;
  SubClass : Z;
  Quality : Z;
  tFlags : Z;
  Flags2 : Z;
  InventoryType : Z;
  AllowableClass : Z;
  AllowableRace : Z;
  RequiredLevel : Z;
  RequiredSkill : Z;
  RequiredSkillRank : Z;
  RequiredSpell : Z;
  RequiredReputationFaction : Z;
  RequiredReputationRank : Z;
  MaxCount : Z;                (* int32 *)
  Stackable : Z;               (* int32 *)
  ContainerSlots : Z;
  SpellId0 : Z;                (* Spells[0].SpellId *)
  SpellId1 : Z;                (* Spells[1].SpellId *)
  BagFamily : Z;
  TotemCategory : Z;
  Socket0_Color : Z;           (* Socket[0].Color *)
  GemProperties : Z;
  ItemLimitCategory : Z;
  HolidayId : Z;
  Bonding : Z;
  SellPrice : Z;
  FlagsCu : Z;
  ScalingStatDistribution : Z;
  MaxDurability : Z;
  Duration : Z
}.

Definition ITEM_CLASS_CONSUMABLE := 0.
Definition ITEM_CLASS_CONTAINER := 1.
Definition ITEM_CLASS_WEAPON := 2.
Definition ITEM_CLASS_ARMOR := 4.
Definition ITEM_CLASS_PROJECTILE := 6.
Definition ITEM_CLASS_QUIVER := 11.

Definition ITEM_SUBCLASS_POTION := 1.
Definition ITEM_SUBCLASS_CONTAINER := 0.
Definition ITEM_SUBCLASS_SOUL_CONTAINER := 1.
Definition ITEM_SUBCLASS_HERB_CONTAINER := 2.
Definition ITEM_SUBCLASS_ENCHANTING_CONTAINER := 3.
Definition ITEM_SUBCLASS_ENGINEERING_CONTAINER := 4.
Definition ITEM_SUBCLASS_GEM_CONTAINER := 5.
Definition ITEM_SUBCLASS_MINING_CONTAINER := 6.
Definition ITEM_SUBCLASS_LEATHERWORKING_CONTAINER := 7.
Definition ITEM_SUBCLASS_INSCRIPTION_CONTAINER := 8.
Definition ITEM_SUBCLASS_QUIVER := 2.
Definition ITEM_SUBCLASS_AMMO_POUCH := 3.

Definition BAG_FAMILY_MASK_ARROWS := 0x1.
Definition BAG_FAMILY_MASK_BULLETS := 0x2.
Definition BAG_FAMILY_MASK_SOUL_SHARDS := 0x4.
Definition BAG_FAMILY_MASK_LEATHERWORKING_SUPP := 0x8.
Definition BAG_FAMILY_MASK_INSCRIPTION_SUPP := 0x10.
Definition BAG_FAMILY_MASK_HERBS := 0x20.
Definition BAG_FAMILY_MASK_ENCHANTING_SUPP := 0x40.
Definition BAG_FAMILY_MASK_ENGINEERING_SUPP := 0x80.
Definition BAG_FAMILY_MASK_KEYS := 0x100.
Definition BAG_FAMILY_MASK_GEMS := 0x200.
Definition BAG_FAMILY_MASK_MINING_SUPP := 0x400.
Definition BAG_FAMILY_MASK_CURRENCY_TOKENS := 0x2000.

Definition INVTYPE_SHIELD := 14.
Definition INVTYPE_BAG := 18.
Definition INVTYPE_HOLDABLE := 23.
Definition INVTYPE_RELIC := 28.

Definition ITEM_QUALITY_HEIRLOOM := 7.
Definition ITEM_FLAGS_EXTRA_HORDE_ONLY := 0x1.
Definition ITEM_FLAGS_EXTRA_ALLIANCE_ONLY := 0x2.
Definition ITEM_PROTO_FLAG_BIND_TO_ACCOUNT := 0x08000000.

Definition IsCurrencyToken (p : ItemTemplate) : bool := BagFamily p .& BAG_FAMILY_MASK_CURRENCY_TOKENS.

Definition GetMaxStackSize (p : ItemTemplate) : Z :=
  if (Stackable p =? 2147483647) || (Stackable p <=? 0) then 0x7FFFFFFF - 1 else Stackable p.

Definition IsPotion (p : ItemTemplate) : bool :=
  (Class_ p =? ITEM_CLASS_CONSUMABLE) && (SubClass p =? ITEM_SUBCLASS_POTION).

Definition CanChangeEquipStateInCombat (p : ItemTemplate) : bool :=
  (InventoryType p =? INVTYPE_RELIC) || (InventoryType p =? INVTYPE_SHIELD)
  || (InventoryType p =? INVTYPE_HOLDABLE)
  || (Class_ p =? ITEM_CLASS_WEAPON) || (Class_ p =? ITEM_CLASS_PROJECTILE).

Definition item_weapon_skills : list Z :=
  [44; 172; 45; 46; 54; 160; 229; 43; 55; 0; 136; 0; 0; 473; 0; 173; 176; 253; 226; 228; 356].
Definition item_armor_skills : list Z := [0; 415; 414; 413; 293; 0; 433; 0; 0; 0; 0].

Definition GetSkill (p : ItemTemplate) : Z :=
  if Class_ p =? ITEM_CLASS_WEAPON then nth (Z.to_nat (SubClass p)) item_weapon_skills 0
  else if Class_ p =? ITEM_CLASS_ARMOR then nth (Z.to_nat (SubClass p)) item_armor_skills 0
  else 0.

Definition ItemCanGoIntoBag (p bagProto : ItemTemplate) : bool :=
  if Class_ bagProto =? ITEM_CLASS_CONTAINER then
    if SubClass bagProto =? ITEM_SUBCLASS_CONTAINER then true
    else if SubClass bagProto =? ITEM_SUBCLASS_SOUL_CONTAINER then BagFamily p .& BAG_FAMILY_MASK_SOUL_SHARDS
    else if SubClass bagProto =? ITEM_SUBCLASS_HERB_CONTAINER then BagFamily p .& BAG_FAMILY_MASK_HERBS
    else if SubClass bagProto =? ITEM_SUBCLASS_ENCHANTING_CONTAINER
      then BagFamily p .& BAG_FAMILY_MASK_ENCHANTING_SUPP
    else if SubClass bagProto =? ITEM_SUBCLASS_MINING_CONTAINER
      then BagFamily p .& BAG_FAMILY_MASK_MINING_SUPP
    else if SubClass bagProto =? ITEM_SUBCLASS_ENGINEERING_CONTAINER
      then BagFamily p .& BAG_FAMILY_MASK_ENGINEERING_SUPP
    else if SubClass bagProto =? ITEM_SUBCLASS_GEM_CONTAINER then BagFamily p .& BAG_FAMILY_MASK_GEMS
    else if SubClass bagProto =? ITEM_SUBCLASS_LEATHERWORKING_CONTAINER
      then BagFamily p .& BAG_FAMILY_MASK_LEATHERWORKING_SUPP
    else if SubClass bagProto =? ITEM_SUBCLASS_INSCRIPTION_CONTAINER
      then BagFamily p .& BAG_FAMILY_MASK_INSCRIPTION_SUPP
    else false
  else if Class_ bagProto =? ITEM_CLASS_QUIVER then
    if SubClass bagProto =? ITEM_SUBCLASS_QUIVER then BagFamily p .& BAG_FAMILY_MASK_ARROWS
    else if SubClass bagProto =? ITEM_SUBCLASS_AMMO_POUCH then BagFamily p .& BAG_FAMILY_MASK_BULLETS
    else false
  else false.

Definition is_plain_container (p : ItemTemplate) : bool :=
  (Class_ p =? ITEM_CLASS_CONTAINER) && (SubClass p =? ITEM_SUBCLASS_CONTAINER).

(** ** Items *)
Abbreviation ptr := Z.

Definition MAX_BAG_SIZE := 36.
Definition NULL_BAG := 0.
Definition NULL_SLOT := 255.

Record Item := mkItem {
  guid : Z;                         (* GetGUID *)
  GetTemplate : ItemTemplate;
  GetCount : Z;                     (* ITEM_FIELD_STACK_COUNT *)
  m_slot : Z;
  m_lootGenerated : bool;
  mb_in_trade : bool;
  IsSoulBound : bool;               (* ITEM_FLAG_SOULBOUND *)
  bop_tradeable : bool;             (* ITEM_FLAG_BOP_TRADEABLE *)
  owner : Z;                        (* ITEM_FIELD_OWNER *)
  allowedGUIDs : gset Z;
  max_durability : Z;
  durability : Z;
  enchantments : gmap Z Z;          (* slot -> GetEnchantmentId *)
  bag_num_slots : Z;                (* CONTAINER_FIELD_NUM_SLOTS *)
  m_bagslot : gmap Z ptr            (* the MAX_BAG_SIZE pointers of a bag *)
}.

Definition GetEntry (it : Item) : Z := ItemId (GetTemplate it).
Definition GetEnchantmentId (it : Item) (slot : Z) : Z := default 0 (enchantments it !! slot).
Definition IsBag (it : Item) : bool := InventoryType (GetTemplate it) =? INVTYPE_BAG.
Definition IsInTrade (it : Item) : bool := mb_in_trade it.
Definition IsBroken (it : Item) : bool := (0 <? max_durability it) && (durability it =? 0).
Definition IsBoundAccountWide (it : Item) : bool :=
  tFlags (GetTemplate it) .& ITEM_PROTO_FLAG_BIND_TO_ACCOUNT.
Definition GetBagSize (bag : Item) : Z := bag_num_slots bag.

Definition SOCK_ENCHANTMENT_SLOT := 2.
Definition MAX_GEM_SOCKETS := 3.
Definition PRISMATIC_ENCHANTMENT_SLOT := 6.

Definition IsBindedNotWith (it : Item) (player_guid : Z) : bool :=
  if negb (IsSoulBound it) then false
  else if owner it =? player_guid then false
  else if bop_tradeable it && bool_decide (player_guid ∈ allowedGUIDs it) then false
  else if IsBoundAccountWide it then false
  else true.

Definition CanBeMergedPartlyWith (it : Item) (p : ItemTemplate) : InventoryResult :=
  if m_lootGenerated it then EQUIP_ERR_ALREADY_LOOTED
  else if negb (GetEntry it =? ItemId p) then EQUIP_ERR_ITEM_CANT_STACK
  else if GetMaxStackSize p <=? GetCount it then EQUIP_ERR_ITEM_CANT_STACK
  else EQUIP_ERR_OK.

(** The data stores the items refer to. *)
Record ItemLimitCategoryEntry := mkLimit { maxCount : Z; mode : Z }.
Definition ITEM_LIMIT_CATEGORY_MODE_HAVE := 0.

Class ItemEnv := {
  item_templates : gmap Z ItemTemplate;                        (* sObjectMgr->GetItemTemplate *)
  sItemLimitCategoryStore : gmap Z ItemLimitCategoryEntry;
  sSpellItemEnchantmentStore : gmap Z Z;                       (* id -> GemID *)
  sTotemCategoryStore : gmap Z (Z * Z)                         (* id -> type, mask *)
}.

Section env.
Context `{IE : ItemEnv}.

(** The loop over the three gem sockets; the counters are uint8. *)
Definition gem_count (counts : Z → bool) (it : Item) : Z :=
  foldl (λ count slot,
    let enchant_id := GetEnchantmentId it slot in
    if enchant_id =? 0 then count
    else match sSpellItemEnchantmentStore !! enchant_id with
         | None => count
         | Some gem => if counts gem then u8 (count + 1) else count
         end) 0 (seqZ SOCK_ENCHANTMENT_SLOT MAX_GEM_SOCKETS).

Definition GetGemCountWithID (it : Item) (GemID : Z) : Z := gem_count (λ gem, GemID =? gem) it.

Definition GetGemCountWithLimitCategory (it : Item) (limitCategory : Z) : Z :=
  gem_count (λ gem, match item_templates !! gem with
                    | None => false
                    | Some gemProto => ItemLimitCategory gemProto =? limitCategory
                    end) it.

Definition IsTotemCategoryCompatiableWith (itemTotemCategoryId requiredTotemCategoryId : Z) : bool :=
  if requiredTotemCategoryId =? 0 then true
  else if itemTotemCategoryId =? 0 then false
  else match sTotemCategoryStore !! itemTotemCategoryId with
       | None => false
       | Some (itype, imask) =>
         match sTotemCategoryStore !! requiredTotemCategoryId with
         | None => false
         | Some (rtype, rmask) =>
           if negb (itype =? rtype) then false else Z.land imask rmask =? rmask
         end
       end.

(** ** Bags *)
Section memory.
Variable mem : ptr → Item.

Definition bag_slots (bag : Item) : list Z := seqZ 0 (GetBagSize bag).

Definition Bag_GetItemByPos (bag : Item) (slot : Z) : option ptr :=
  if slot <? GetBagSize bag then m_bagslot bag !! slot else None.

Definition Bag_IsEmpty (bag : Item) : bool :=
  forallb (λ i, bool_decide (m_bagslot bag !! i = None)) (bag_slots bag).

Definition Bag_GetFreeSlots (bag : Item) : Z :=
  foldl (λ n i, if bool_decide (m_bagslot bag !! i = None) then u32 (n + 1) else n) 0 (bag_slots bag).

Definition IsNotEmptyBag (it : Item) : bool := IsBag it && negb (Bag_IsEmpty it).

(** Adding up [amount] over the stored items other than [skip] that satisfy [p]. *)
Definition sum_slots (items : list (option ptr)) (skip : option ptr) (p : Item → bool)
    (amount : Item → Z) (count : Z) : Z :=
  foldl (λ n o,
    match o with
    | Some q => if negb (bool_decide (Some q = skip)) && p (mem q) then u32 (n + amount (mem q)) else n
    | None => n
    end) count items.

Definition bag_items (bag : Item) : list (option ptr) := map (λ i, m_bagslot bag !! i) (bag_slots bag).

Definition has_entry (item : Z) (it : Item) : bool := GetEntry it =? item.
Definition has_socket (it : Item) : bool := negb (Socket0_Color (GetTemplate it) =? 0).
Definition is_gem (o : option ptr) : bool :=
  match o with Some e => negb (GemProperties (GetTemplate (mem e)) =? 0) | None => false end.

Definition Bag_GetItemCount (bag : Item) (item : Z) (eItem : option ptr) : Z :=
  let count := sum_slots (bag_items bag) eItem (has_entry item) GetCount 0 in
  if is_gem eItem
  then sum_slots (bag_items bag) eItem has_socket (λ it, GetGemCountWithID it item) count
  else count.

Definition in_category (limitCategory : Z) (it : Item) : bool :=
  ItemLimitCategory (GetTemplate it) =? limitCategory.

Definition Bag_GetItemCountWithLimitCategory (bag : Item) (limitCategory : Z) (skip : option ptr) : Z :=
  sum_slots (bag_items bag) skip (in_category limitCategory) GetCount 0.

Definition Bag_GetSlotByItemGUID (bag : Item) (g : Z) : Z :=
  default NULL_SLOT (List.find (λ i, match m_bagslot bag !! i with
                                     | Some q => guid (mem q) =? g
                                     | None => false
                                     end) (bag_slots bag)).

End memory.

End env.

(** ** Facts *)

Lemma GetMaxStackSize_range p : in_s32 (Stackable p) → 1 ≤ GetMaxStackSize p < 2 ^ 31.
Proof.
  unfold GetMaxStackSize, in_s32. intros. destruct (_ || _) eqn:E; [lia|]. b2p. lia.
Qed.

Lemma CanBeMergedPartlyWith_ok it p :
  CanBeMergedPartlyWith it p = EQUIP_ERR_OK →
  GetEntry it = ItemId p ∧ GetCount it < GetMaxStackSize p ∧ m_lootGenerated it = false.
Proof.
  unfold CanBeMergedPartlyWith. repeat case_bool; try done. b2p. done.
Qed.

(** Adding up is summing, as long as the sum fits in 32 bits. *)
Definition slot_amount (mem : ptr → Item) (skip : option ptr) (p : Item → bool) (amount : Item → Z)
    (o : option ptr) : Z :=
  match o with
  | Some q => if negb (bool_decide (Some q = skip)) && p (mem q) then amount (mem q) else 0
  | None => 0
  end.

Definition total {A} (f : A → Z) (l : list A) : Z := foldr (λ x n, f x + n) 0 l.

Lemma total_app {A} (f : A → Z) l1 l2 : total f (l1 ++ l2) = total f l1 + total f l2.
Proof. induction l1 as [|x l1 IH]; simpl; [done|]. rewrite IH. lia. Qed.

Lemma total_nonneg {A} (f : A → Z) l : (∀ x, 0 ≤ f x) → 0 ≤ total f l.
Proof. intros Hf. induction l as [|x l IH]; simpl; [lia|]. specialize (Hf x). lia. Qed.

Lemma total_le {A} (f g : A → Z) l : (∀ x, x ∈ l → f x ≤ g x) → total f l ≤ total g l.
Proof.
  intros Hf. induction l as [|x l IH]; simpl; [lia|].
  assert (f x ≤ g x) by (apply Hf; left).
  assert (total f l ≤ total g l) by (apply IH; intros y Hy; apply Hf; by right). lia.
Qed.

Lemma sum_slots_total mem items skip p amount count :
  in_u32 count →
  sum_slots mem items skip p amount count
  = u32 (count + total (slot_amount mem skip p amount) items).
Proof.
  unfold sum_slots. revert count. induction items as [|o items IH]; intros count Hc; simpl.
  { by rewrite Z.add_0_r, wrap_small. }
  destruct o as [q|]; simpl; [|by apply IH]. case_bool; [|by apply IH].
  rewrite IH by auto with rg. rewrite wrap_add_l. f_equal. lia.
Qed.

Lemma sum_slots_range mem items skip p amount count :
  in_u32 count → in_u32 (sum_slots mem items skip p amount count).
Proof. intros Hc. rewrite sum_slots_total by done. auto with rg. Qed.

End Items.
