(* ===== verification/Inventory.v ===== *)
(** * Inventory queries ([src/server/game/Entities/Player/Player.cpp])

    The slots of a player, the position predicates, and the walks over the inventory
    that look for items or count them. *)
From S2P Require Import Prelude Items.

Module Inventory.
Export Items.

(** ** Slots (Player.h) *)
Definition INVENTORY_SLOT_BAG_0 := 255.
Definition EQUIPMENT_SLOT_START := 0.
Definition EQUIPMENT_SLOT_MAINHAND := 15.
Definition EQUIPMENT_SLOT_OFFHAND := 16.
Definition EQUIPMENT_SLOT_RANGED := 17.
Definition EQUIPMENT_SLOT_END := 19.
Definition INVENTORY_SLOT_BAG_START := 19.
Definition INVENTORY_SLOT_BAG_END := 23.
Definition INVENTORY_SLOT_ITEM_START := 23.
Definition INVENTORY_SLOT_ITEM_END := 39.
Definition BANK_SLOT_ITEM_START := 39.
Definition BANK_SLOT_ITEM_END := 67.
Definition BANK_SLOT_BAG_START := 67.
Definition BANK_SLOT_BAG_END := 74.
Definition BUYBACK_SLOT_START := 74.
Definition BUYBACK_SLOT_END := 86.
Definition KEYRING_SLOT_START := 86.
Definition KEYRING_SLOT_END := 118.
Definition CURRENCYTOKEN_SLOT_START := 118.
Definition CURRENCYTOKEN_SLOT_END := 150.
Definition PLAYER_SLOT_END := 150.
Definition GetMaxKeyringSize : Z := KEYRING_SLOT_END - KEYRING_SLOT_START.

Definition BASE_ATTACK := 0.
Definition OFF_ATTACK := 1.
Definition RANGED_ATTACK := 2.
Definition MAX_ATTACK := 3.

(** Position predicates. *)
Definition between (a x b : Z) : bool := (a <=? x) && (x <? b).

Definition IsInventoryPos (bag slot : Z) : bool :=
  ((bag =? INVENTORY_SLOT_BAG_0) && (slot =? NULL_SLOT))
  || ((bag =? INVENTORY_SLOT_BAG_0) && between INVENTORY_SLOT_ITEM_START slot INVENTORY_SLOT_ITEM_END)
  || between INVENTORY_SLOT_BAG_START bag INVENTORY_SLOT_BAG_END
  || ((bag =? INVENTORY_SLOT_BAG_0) && between KEYRING_SLOT_START slot CURRENCYTOKEN_SLOT_END).

Definition IsEquipmentPos (bag slot : Z) : bool :=
  ((bag =? INVENTORY_SLOT_BAG_0) && (slot <? EQUIPMENT_SLOT_END))
  || ((bag =? INVENTORY_SLOT_BAG_0) && between INVENTORY_SLOT_BAG_START slot INVENTORY_SLOT_BAG_END).

Definition IsBankPos (bag slot : Z) : bool :=
  ((bag =? INVENTORY_SLOT_BAG_0) && between BANK_SLOT_ITEM_START slot BANK_SLOT_ITEM_END)
  || ((bag =? INVENTORY_SLOT_BAG_0) && between BANK_SLOT_BAG_START slot BANK_SLOT_BAG_END)
  || between BANK_SLOT_BAG_START bag BANK_SLOT_BAG_END.

(** A position packs bag and slot in 16 bits. *)
Definition pack (bag slot : Z) : Z := u16 (Z.lor (Z.shiftl bag 8) slot).
Definition pos_bag (pos : Z) : Z := u8 (Z.shiftr pos 8).
Definition pos_slot (pos : Z) : Z := u8 (Z.land pos 255).

Definition IsBagPos (pos : Z) : bool :=
  ((pos_bag pos =? INVENTORY_SLOT_BAG_0)
   && between INVENTORY_SLOT_BAG_START (pos_slot pos) INVENTORY_SLOT_BAG_END)
  || ((pos_bag pos =? INVENTORY_SLOT_BAG_0)
      && between BANK_SLOT_BAG_START (pos_slot pos) BANK_SLOT_BAG_END).

Definition GetAttackBySlot (slot : Z) : Z :=
  if slot =? EQUIPMENT_SLOT_MAINHAND then BASE_ATTACK
  else if slot =? EQUIPMENT_SLOT_OFFHAND then OFF_ATTACK
  else if slot =? EQUIPMENT_SLOT_RANGED then RANGED_ATTACK
  else MAX_ATTACK.

(** ** The player *)
Record Player := mkPlayer {
  player_guid : Z;
  m_items : gmap Z ptr;
  mem : ptr → Item;
  disarmed : bool;                  (* UNIT_FLAG_DISARMED *)
  disarmed_offhand : bool;          (* UNIT_FLAG2_DISARM_OFFHAND *)
  disarmed_ranged : bool;           (* UNIT_FLAG2_DISARM_RANGED *)
  IsInFeralForm : bool;
  IsAlive : bool;
  IsCharmed : bool;
  IsInCombat : bool;
  in_running_arena : bool;          (* GetBattleground() is an arena IN_PROGRESS *)
  GetBankBagSlotCount : Z;
  GetOTeam : Z;
  getClass : Z;
  getClassMask : Z;
  getORaceMask : Z;
  getLevel : Z;
  skills : gmap Z Z;                (* GetSkillValue; HasSkill: a learned skill *)
  spells : gset Z;                  (* HasSpell *)
  reputation_rank : Z → Z;          (* GetReputationRank, Reputation.v *)
  m_lastPotionId : Z;
  active_holidays : gset Z          (* IsHolidayActive *)
}.

Definition CanUseAttackType (pl : Player) (attacktype : Z) : bool :=
  if attacktype =? BASE_ATTACK then negb (disarmed pl)
  else if attacktype =? OFF_ATTACK then negb (disarmed_offhand pl)
  else if attacktype =? RANGED_ATTACK then negb (disarmed_ranged pl)
  else true.

Section player.
Context `{IE : ItemEnv}.
Variable pl : Player.

Definition ToBag (p : ptr) : option ptr := if IsBag (mem pl p) then Some p else None.

(** GetItemByPos and GetBagByPos call each other; a bag sits in a slot of the
    player's own array, so that the inner call takes the first branch. *)
Definition own_slot (slot : Z) : bool :=
  (slot <? BANK_SLOT_BAG_END) || between KEYRING_SLOT_START slot CURRENCYTOKEN_SLOT_END.
Definition bag_slot (bag : Z) : bool :=
  between INVENTORY_SLOT_BAG_START bag INVENTORY_SLOT_BAG_END
  || between BANK_SLOT_BAG_START bag BANK_SLOT_BAG_END.

Definition GetBagByPos (bag : Z) : option ptr :=
  if bag_slot bag then
    match m_items pl !! bag with
    | Some item => ToBag item
    | None => None
    end
  else None.

Definition GetItemByPos (bag slot : Z) : option ptr :=
  if (bag =? INVENTORY_SLOT_BAG_0) && own_slot slot then m_items pl !! slot
  else match GetBagByPos bag with
       | Some pBag => Bag_GetItemByPos (mem pl pBag) slot
       | None => None
       end.

Definition GetItemByPos16 (pos : Z) : option ptr := GetItemByPos (pos_bag pos) (pos_slot pos).

Definition GetUseableItemByPos (bag slot : Z) : option ptr :=
  if negb (CanUseAttackType pl (GetAttackBySlot slot)) then None else GetItemByPos bag slot.

Definition GetWeaponForAttack (attackType : Z) (useable : bool) : option ptr :=
  let slot := if attackType =? BASE_ATTACK then Some EQUIPMENT_SLOT_MAINHAND
              else if attackType =? OFF_ATTACK then Some EQUIPMENT_SLOT_OFFHAND
              else if attackType =? RANGED_ATTACK then Some EQUIPMENT_SLOT_RANGED else None in
  match slot with
  | None => None
  | Some slot =>
    match (if useable then GetUseableItemByPos INVENTORY_SLOT_BAG_0 slot
           else GetItemByPos INVENTORY_SLOT_BAG_0 slot) with
    | None => None
    | Some item =>
      if negb (Class_ (GetTemplate (mem pl item)) =? ITEM_CLASS_WEAPON) then None
      else if negb useable then Some item
      else if IsBroken (mem pl item) || IsInFeralForm pl then None
      else Some item
    end
  end.

Definition GetShield (useable : bool) : option ptr :=
  match (if useable then GetUseableItemByPos INVENTORY_SLOT_BAG_0 EQUIPMENT_SLOT_OFFHAND
         else GetItemByPos INVENTORY_SLOT_BAG_0 EQUIPMENT_SLOT_OFFHAND) with
  | None => None
  | Some item =>
    if negb (Class_ (GetTemplate (mem pl item)) =? ITEM_CLASS_ARMOR) then None
    else if negb useable then Some item
    else if IsBroken (mem pl item) then None
    else Some item
  end.

Definition IsValidPos (bag slot : Z) (explicit_pos : bool) : bool :=
  if (bag =? NULL_BAG) && negb explicit_pos then true
  else if bag =? INVENTORY_SLOT_BAG_0 then
    if (slot =? NULL_SLOT) && negb explicit_pos then true
    else if slot <? EQUIPMENT_SLOT_END then true
    else if between INVENTORY_SLOT_BAG_START slot INVENTORY_SLOT_BAG_END then true
    else if between INVENTORY_SLOT_ITEM_START slot INVENTORY_SLOT_ITEM_END then true
    else if between KEYRING_SLOT_START slot KEYRING_SLOT_END then true
    else if between BANK_SLOT_ITEM_START slot BANK_SLOT_ITEM_END then true
    else if between BANK_SLOT_BAG_START slot BANK_SLOT_BAG_END then true
    else false
  else match GetBagByPos bag with
       | Some pBag =>
         if (slot =? NULL_SLOT) && negb explicit_pos then true
         else slot <? GetBagSize (mem pl pBag)
       | None => false
       end.

(** ** Walks

    [own a b]: what the loop over the player's slots [a .. b) sees; [bagged a b]: what
    the nested loop over the bags in these slots sees, in order. *)
Definition range (a b : Z) : list Z := seqZ a (b - a).
Definition own (a b : Z) : list (option ptr) := map (GetItemByPos INVENTORY_SLOT_BAG_0) (range a b).
Definition in_bag (i : Z) : list (option ptr) :=
  match GetBagByPos i with
  | Some pBag => map (λ j, GetItemByPos i (u8 j)) (bag_slots (mem pl pBag))
  | None => []
  end.
Definition bagged (a b : Z) : list (option ptr) := concat (map in_bag (range a b)).

(** The loop over the bags of GetItemCount and GetItemCountWithLimitCategory. *)
Definition bags_add (f : Item → Z) (a b : Z) (count : Z) : Z :=
  foldl (λ n i, match GetBagByPos i with Some pBag => u32 (n + f (mem pl pBag)) | None => n end)
    count (range a b).

Definition GetItemCount (item : Z) (inBankAlso : bool) (skip : option ptr) : Z :=
  let add := sum_slots (mem pl) in
  let gems it := GetGemCountWithID it item in
  let c1 := add (own EQUIPMENT_SLOT_START INVENTORY_SLOT_ITEM_END) skip (has_entry item) GetCount 0 in
  let c2 := add (own KEYRING_SLOT_START CURRENCYTOKEN_SLOT_END) skip (has_entry item) GetCount c1 in
  let c3 := bags_add (λ bag, Bag_GetItemCount (mem pl) bag item skip)
              INVENTORY_SLOT_BAG_START INVENTORY_SLOT_BAG_END c2 in
  let c4 := if is_gem (mem pl) skip
            then add (own EQUIPMENT_SLOT_START INVENTORY_SLOT_ITEM_END) skip has_socket gems c3
            else c3 in
  if inBankAlso then
    let c5 := add (own BANK_SLOT_ITEM_START BANK_SLOT_BAG_END) skip (has_entry item) GetCount c4 in
    let c6 := bags_add (λ bag, Bag_GetItemCount (mem pl) bag item skip)
                BANK_SLOT_BAG_START BANK_SLOT_BAG_END c5 in
    if is_gem (mem pl) skip
    then add (own BANK_SLOT_ITEM_START BANK_SLOT_ITEM_END) skip has_socket gems c6
    else c6
  else c4.

Definition GetItemCountWithLimitCategory (limitCategory : Z) (skip : option ptr) : Z :=
  let add := sum_slots (mem pl) in
  let cat := in_category limitCategory in
  let bag_count bag := Bag_GetItemCountWithLimitCategory (mem pl) bag limitCategory skip in
  let c1 := add (own EQUIPMENT_SLOT_START INVENTORY_SLOT_ITEM_END) skip cat GetCount 0 in
  let c2 := add (own KEYRING_SLOT_START CURRENCYTOKEN_SLOT_END) skip cat GetCount c1 in
  let c3 := bags_add bag_count INVENTORY_SLOT_BAG_START INVENTORY_SLOT_BAG_END c2 in
  let c4 := add (own BANK_SLOT_ITEM_START BANK_SLOT_BAG_END) skip cat GetCount c3 in
  bags_add bag_count BANK_SLOT_BAG_START BANK_SLOT_BAG_END c4.

(** The first stored item with a guid. *)
Definition bag_contents (a b : Z) : list (option ptr) :=
  concat (map (λ i, match GetBagByPos i with
                    | Some pBag => map (λ j, Bag_GetItemByPos (mem pl pBag) (u8 j)) (bag_slots (mem pl pBag))
                    | None => []
                    end) (range a b)).

Fixpoint first_guid (g : Z) (l : list (option ptr)) : option ptr :=
  match l with
  | [] => None
  | Some q :: l => if guid (mem pl q) =? g then Some q else first_guid g l
  | None :: l => first_guid g l
  end.

Definition GetItemByGuid (g : Z) : option ptr :=
  first_guid g (own EQUIPMENT_SLOT_START INVENTORY_SLOT_ITEM_END
             ++ own KEYRING_SLOT_START CURRENCYTOKEN_SLOT_END
             ++ own BANK_SLOT_ITEM_START BANK_SLOT_BAG_END
             ++ bag_contents INVENTORY_SLOT_BAG_START INVENTORY_SLOT_BAG_END
             ++ bag_contents BANK_SLOT_BAG_START BANK_SLOT_BAG_END).

(** [tempcount] adds up over the items satisfying [p] until it reaches [count]. *)
Fixpoint reaches (p : Item → bool) (amount : Item → Z) (count : Z) (l : list (option ptr))
    (tempcount : Z) : bool * Z :=
  match l with
  | [] => (false, tempcount)
  | Some q :: l =>
    if p (mem pl q) then
      let t := u32 (tempcount + amount (mem pl q)) in
      if count <=? t then (true, t) else reaches p amount count l t
    else reaches p amount count l tempcount
  | None :: l => reaches p amount count l tempcount
  end.

Definition HasItemCount (item count : Z) (inBankAlso : bool) : bool :=
  (reaches (λ it, (GetEntry it =? item) && negb (IsInTrade it)) GetCount count
     (own EQUIPMENT_SLOT_START INVENTORY_SLOT_ITEM_END
      ++ own KEYRING_SLOT_START CURRENCYTOKEN_SLOT_END
      ++ bagged INVENTORY_SLOT_BAG_START INVENTORY_SLOT_BAG_END
      ++ if inBankAlso
         then own BANK_SLOT_ITEM_START BANK_SLOT_ITEM_END ++ bagged BANK_SLOT_BAG_START BANK_SLOT_BAG_END
         else []) 0).1.

(** The equipment slots but one. *)
Definition equipped_but (except_slot : Z) : list (option ptr) :=
  map (GetItemByPos INVENTORY_SLOT_BAG_0)
    (filter (λ i, i ≠ except_slot) (range EQUIPMENT_SLOT_START EQUIPMENT_SLOT_END)).

Definition HasItemOrGemWithIdEquipped (item count except_slot : Z) : bool :=
  let '(found, tempcount) := reaches (has_entry item) GetCount count (equipped_but except_slot) 0 in
  if found then true
  else match item_templates !! item with
       | Some pProto =>
         if negb (GemProperties pProto =? 0)
         then (reaches has_socket (λ it, GetGemCountWithID it item) count
                 (equipped_but except_slot) tempcount).1
         else false
       | None => false
       end.

(** Both tests for each item in turn. *)
Fixpoint category_reaches (limitCategory count : Z) (l : list (option ptr)) (tempcount : Z) : bool :=
  match l with
  | [] => false
  | None :: l => category_reaches limitCategory count l tempcount
  | Some q :: l =>
    let it := mem pl q in
    let t1 := u32 (tempcount + GetCount it) in
    if in_category limitCategory it && (count <=? t1) then true
    else
      let t := if in_category limitCategory it then t1 else tempcount in
      if negb (Socket0_Color (GetTemplate it) =? 0)
         || negb (GetEnchantmentId it PRISMATIC_ENCHANTMENT_SLOT =? 0) then
        let t2 := u32 (t + GetGemCountWithLimitCategory it limitCategory) in
        if count <=? t2 then true else category_reaches limitCategory count l t2
      else category_reaches limitCategory count l t
  end.

Definition HasItemOrGemWithLimitCategoryEquipped (limitCategory count except_slot : Z) : bool :=
  category_reaches limitCategory count (equipped_but except_slot) 0.

(** The totem walk goes through [GetUseableItemByPos], bags included. *)
Definition has_totem (TotemCategory_ : Z) (o : option ptr) : bool :=
  match o with
  | Some q => IsTotemCategoryCompatiableWith (TotemCategory (GetTemplate (mem pl q))) TotemCategory_
  | None => false
  end.

Definition HasItemTotemCategory (TotemCategory_ : Z) : bool :=
  existsb (λ i, has_totem TotemCategory_ (GetUseableItemByPos INVENTORY_SLOT_BAG_0 i))
    (range EQUIPMENT_SLOT_START INVENTORY_SLOT_ITEM_END)
  || existsb (λ i, has_totem TotemCategory_ (GetUseableItemByPos INVENTORY_SLOT_BAG_0 i))
       (range KEYRING_SLOT_START CURRENCYTOKEN_SLOT_END)
  || existsb (λ i, match GetBagByPos i with
                   | Some pBag => existsb (λ j, has_totem TotemCategory_ (GetUseableItemByPos i (u8 j)))
                                    (bag_slots (mem pl pBag))
                   | None => false
                   end) (range INVENTORY_SLOT_BAG_START INVENTORY_SLOT_BAG_END).

(** ** What may be taken off or used *)

Definition CanUnequipItem (pos : Z) (swap : bool) : InventoryResult :=
  if negb (IsEquipmentPos (pos_bag pos) (pos_slot pos)) && negb (IsBagPos pos) then EQUIP_ERR_OK
  else match GetItemByPos16 pos with
  | None => EQUIP_ERR_OK
  | Some q =>
    let it := mem pl q in
    let pProto := GetTemplate it in
    if m_lootGenerated it then EQUIP_ERR_ALREADY_LOOTED
    else if IsCharmed pl then EQUIP_ERR_CANT_DO_RIGHT_NOW
    else if negb (CanChangeEquipStateInCombat pProto) && IsInCombat pl then EQUIP_ERR_NOT_IN_COMBAT
    else if negb (CanChangeEquipStateInCombat pProto) && in_running_arena pl
      then EQUIP_ERR_NOT_DURING_ARENA_MATCH
    else if negb swap && IsNotEmptyBag it then EQUIP_ERR_CAN_ONLY_DO_WITH_EMPTY_BAGS
    else EQUIP_ERR_OK
  end.

(** The first loop of CanUnequipItems, over equipment and bags. *)
Fixpoint unequip_equipped (item count : Z) (slots : list Z) (tempcount : Z) (res : InventoryResult)
    : bool * Z * InventoryResult :=
  match slots with
  | [] => (false, tempcount, res)
  | i :: slots =>
    match GetItemByPos INVENTORY_SLOT_BAG_0 i with
    | Some q =>
      if GetEntry (mem pl q) =? item then
        let ires := CanUnequipItem (pack INVENTORY_SLOT_BAG_0 i) false in
        if is_ok ires then
          let t := u32 (tempcount + GetCount (mem pl q)) in
          if count <=? t then (true, t, res) else unequip_equipped item count slots t res
        else unequip_equipped item count slots tempcount ires
      else unequip_equipped item count slots tempcount res
    | None => unequip_equipped item count slots tempcount res
    end
  end.

Definition CanUnequipItems (item count : Z) : InventoryResult :=
  let '(found, tempcount, res) :=
    unequip_equipped item count (range EQUIPMENT_SLOT_START INVENTORY_SLOT_BAG_END) 0 EQUIP_ERR_OK in
  if found then EQUIP_ERR_OK
  else if (reaches (has_entry item) GetCount count
             (own INVENTORY_SLOT_ITEM_START INVENTORY_SLOT_ITEM_END
              ++ own KEYRING_SLOT_START CURRENCYTOKEN_SLOT_END
              ++ bagged INVENTORY_SLOT_BAG_START INVENTORY_SLOT_BAG_END) tempcount).1
  then EQUIP_ERR_OK else res.

Definition HORDE := 67.
Definition ALLIANCE := 469.
Definition GetSkillValue (skill : Z) : Z := default 0 (skills pl !! skill).
Definition HasSkill (skill : Z) : bool := bool_decide (is_Some (skills pl !! skill)).

Definition CanUseItem_template (proto : ItemTemplate) (checkLevel : bool) : InventoryResult :=
  if (Flags2 proto .& ITEM_FLAGS_EXTRA_HORDE_ONLY) && negb (GetOTeam pl =? HORDE)
  then EQUIP_ERR_YOU_CAN_NEVER_USE_THAT_ITEM
  else if (Flags2 proto .& ITEM_FLAGS_EXTRA_ALLIANCE_ONLY) && negb (GetOTeam pl =? ALLIANCE)
  then EQUIP_ERR_YOU_CAN_NEVER_USE_THAT_ITEM
  else if negb (AllowableClass proto .& getClassMask pl) || negb (AllowableRace proto .& getORaceMask pl)
  then EQUIP_ERR_YOU_CAN_NEVER_USE_THAT_ITEM
  else if negb (RequiredSkill proto =? 0) && (GetSkillValue (RequiredSkill proto) =? 0)
  then EQUIP_ERR_NO_REQUIRED_PROFICIENCY
  else if negb (RequiredSkill proto =? 0)
          && (GetSkillValue (RequiredSkill proto) <? RequiredSkillRank proto)
  then EQUIP_ERR_CANT_EQUIP_SKILL
  else if negb (RequiredSpell proto =? 0) && negb (bool_decide (RequiredSpell proto ∈ spells pl))
  then EQUIP_ERR_NO_REQUIRED_PROFICIENCY
  else if (getLevel pl <? RequiredLevel proto) && checkLevel then EQUIP_ERR_CANT_EQUIP_LEVEL_I
  else if negb (HolidayId proto =? 0) && negb (bool_decide (HolidayId proto ∈ active_holidays pl))
  then EQUIP_ERR_CANT_DO_RIGHT_NOW
  else if IsPotion proto && negb (m_lastPotionId pl =? 0) then EQUIP_ERR_OBJECT_IS_BUSY
  else if negb (HolidayId proto =? 0) && negb (bool_decide (HolidayId proto ∈ active_holidays pl))
  then EQUIP_ERR_CANT_DO_RIGHT_NOW
  else if ((SpellId0 proto =? 483) || (SpellId0 proto =? 55884))
          && bool_decide (SpellId1 proto ∈ spells pl)
  then EQUIP_ERR_NONE
  else EQUIP_ERR_OK.

Definition CLASS_WARRIOR := 1.
Definition CLASS_PALADIN := 2.
Definition CLASS_HUNTER := 3.
Definition CLASS_SHAMAN := 7.
Definition SKILL_PLATE_MAIL := 293.
Definition SKILL_MAIL := 413.

(** The default of [checkLevel] is true. *)
Definition CanUseItem (pItem : option ptr) (not_loading : bool) : InventoryResult :=
  match pItem with
  | None => EQUIP_ERR_ITEM_NOT_FOUND
  | Some q =>
    let it := mem pl q in
    let pProto := GetTemplate it in
    if negb (IsAlive pl) && not_loading then EQUIP_ERR_YOU_ARE_DEAD
    else if IsBindedNotWith it (player_guid pl) then EQUIP_ERR_DONT_OWN_THAT_ITEM
    else
      let res := CanUseItem_template pProto true in
      if negb (is_ok res) then res
      else
        let itemSkill := GetSkill pProto in
        let allowEquip :=
          if (Quality pProto =? ITEM_QUALITY_HEIRLOOM) && (Class_ pProto =? ITEM_CLASS_ARMOR)
             && negb (HasSkill itemSkill)
          then if (getClass pl =? CLASS_HUNTER) || (getClass pl =? CLASS_SHAMAN) then itemSkill =? SKILL_MAIL
               else if (getClass pl =? CLASS_PALADIN) || (getClass pl =? CLASS_WARRIOR)
                    then itemSkill =? SKILL_PLATE_MAIL else false
          else false in
        if negb (itemSkill =? 0) && negb allowEquip && (GetSkillValue itemSkill =? 0)
        then EQUIP_ERR_NO_REQUIRED_PROFICIENCY
        else if negb (RequiredReputationFaction pProto =? 0)
                && (u32 (reputation_rank pl (RequiredReputationFaction pProto)) <? RequiredReputationRank pProto)
        then EQUIP_ERR_CANT_EQUIP_REPUTATION
        else EQUIP_ERR_OK
  end.

(** ** Facts *)

(** Memory is well formed: counts are unsigned and bags no larger than their array. *)
Record mem_ok : Prop := {
  mo_count : ∀ q, 0 ≤ GetCount (mem pl q);
  mo_size : ∀ q, GetBagSize (mem pl q) ≤ MAX_BAG_SIZE
}.

Lemma GetBagByPos_spec bag q :
  GetBagByPos bag = Some q ↔
  bag_slot bag = true ∧ GetItemByPos INVENTORY_SLOT_BAG_0 bag = Some q ∧ IsBag (mem pl q) = true.
Proof.
  unfold GetBagByPos, GetItemByPos, ToBag.
  destruct (bag_slot bag) eqn:E; [|by split; [|intros (? & _)]].
  assert (own_slot bag = true) as ->.
  { unfold bag_slot, own_slot, between in *. unfold INVENTORY_SLOT_BAG_START, INVENTORY_SLOT_BAG_END,
      BANK_SLOT_BAG_START, BANK_SLOT_BAG_END, KEYRING_SLOT_START, CURRENCYTOKEN_SLOT_END in *. lia. }
  simpl. destruct (m_items pl !! bag) as [p|]; [|by split; [|intros (_ & ? & _)]].
  destruct (IsBag (mem pl p)) eqn:EB.
  - split; [intros [= <-]; done|by intros (_ & [= <-] & _)].
  - split; [done|]. intros (_ & [= <-] & ?). congruence.
Qed.

Lemma in_bag_items i q : mem_ok → GetBagByPos i = Some q → in_bag i = bag_items (mem pl q).
Proof.
  intros Hm Hq. unfold in_bag. rewrite Hq. unfold bag_items. apply map_ext_in.
  intros j Hj%list_elem_of_In. unfold bag_slots in Hj. apply elem_of_seqZ in Hj.
  pose proof (mo_size Hm q). unfold MAX_BAG_SIZE in *.
  assert (u8 j = j) as -> by (apply wrap_small; unfold in_u; lia).
  apply GetBagByPos_spec in Hq as Hq'. destruct Hq' as (Hs & _ & _).
  unfold GetItemByPos. destruct (i =? INVENTORY_SLOT_BAG_0) eqn:E; b2p.
  { subst i. discriminate Hs. }
  simpl. rewrite Hq. unfold Bag_GetItemByPos.
  destruct (j <? GetBagSize (mem pl q)) eqn:EL; [done|]. b2p. lia.
Qed.

(** What the walks see, in order: the carried items and those of the bank. *)
Definition carried : list (option ptr) :=
  own EQUIPMENT_SLOT_START INVENTORY_SLOT_ITEM_END
  ++ own KEYRING_SLOT_START CURRENCYTOKEN_SLOT_END
  ++ bagged INVENTORY_SLOT_BAG_START INVENTORY_SLOT_BAG_END.
Definition banked : list (option ptr) :=
  own BANK_SLOT_ITEM_START BANK_SLOT_BAG_END ++ bagged BANK_SLOT_BAG_START BANK_SLOT_BAG_END.
Definition stored (inBankAlso : bool) : list (option ptr) :=
  carried ++ if inBankAlso then banked else [].

Definition amount_of (item : Z) : option ptr → Z :=
  slot_amount (mem pl) None (has_entry item) GetCount.

Lemma amount_nonneg item o : mem_ok → 0 ≤ amount_of item o.
Proof.
  intros Hm. unfold amount_of, slot_amount. destruct o as [q|]; [|lia].
  case_bool; [apply (mo_count Hm)|lia].
Qed.

Lemma bags_add_total item a b count :
  mem_ok → in_u32 count →
  bags_add (λ bag, Bag_GetItemCount (mem pl) bag item None) a b count
  = u32 (count + total (amount_of item) (bagged a b)).
Proof.
  intros Hm. unfold bags_add, bagged. revert count.
  induction (range a b) as [|i l IH]; intros count Hc; simpl.
  { by rewrite Z.add_0_r, wrap_small. }
  rewrite total_app. destruct (GetBagByPos i) as [q|] eqn:Hq.
  - rewrite IH by auto with rg. rewrite (in_bag_items i q Hm Hq).
    unfold Bag_GetItemCount. simpl.
    rewrite sum_slots_total by (unfold in_u; lia). rewrite wrap_add_r, wrap_add_l.
    f_equal. unfold amount_of. lia.
  - unfold in_bag at 1. rewrite Hq. simpl. by apply IH.
Qed.

Lemma bags_add_range f a b count : in_u32 count → in_u32 (bags_add f a b count).
Proof.
  unfold bags_add. revert count. induction (range a b) as [|i l IH]; intros count Hc; simpl; [done|].
  apply IH. destruct (GetBagByPos i); [auto with rg|done].
Qed.

Lemma GetItemCount_range item bank skip : in_u32 (GetItemCount item bank skip).
Proof.
  unfold GetItemCount. cbv zeta.
  repeat first [apply sum_slots_range | apply bags_add_range
    | case_bool | (unfold in_u; lia) ].
Qed.

Lemma GetItemCountWithLimitCategory_range cat skip : in_u32 (GetItemCountWithLimitCategory cat skip).
Proof.
  unfold GetItemCountWithLimitCategory. cbv zeta.
  repeat first [apply sum_slots_range | apply bags_add_range | (unfold in_u; lia) ].
Qed.

Lemma GetItemCount_total item inBankAlso :
  mem_ok → GetItemCount item inBankAlso None = u32 (total (amount_of item) (stored inBankAlso)).
Proof.
  intros Hm. unfold GetItemCount, stored, carried, banked. simpl (is_gem _ None). cbv iota.
  assert (∀ a b c, in_u32 c → sum_slots (mem pl) (own a b) None (has_entry item) GetCount c
            = u32 (c + total (amount_of item) (own a b))) as Hown.
  { intros. by apply sum_slots_total. }
  rewrite (Hown _ _ 0) by (unfold in_u; lia).
  rewrite (Hown KEYRING_SLOT_START) by auto with rg.
  rewrite (bags_add_total _ INVENTORY_SLOT_BAG_START) by auto with rg.
  rewrite !total_app. destruct inBankAlso.
  - rewrite (Hown BANK_SLOT_ITEM_START), bags_add_total by auto with rg.
    repeat (rewrite <- ?Z.add_assoc; rewrite wrap_add_l). rewrite total_app. f_equal; lia.
  - repeat (rewrite <- ?Z.add_assoc; rewrite wrap_add_l). simpl. f_equal; lia.
Qed.

(** GetItemCount of an entry is the sum of the stack sizes over all the slots it
    is meant to cover, each once (equipment, backpack, key ring, currencies and the
    contents of the bags; with the bank the bank slots, the bank bags and their
    contents), modulo 2^32. *)
Theorem GetItemCount_spec item inBankAlso :
  mem_ok → GetItemCount item inBankAlso None = u32 (total (amount_of item) (stored inBankAlso)).
Proof. apply GetItemCount_total. Qed.

Lemma reaches_spec p amount count l t :
  (∀ q, 0 ≤ amount (mem pl q)) → 0 ≤ t < count →
  t + total (slot_amount (mem pl) None p amount) l < 2 ^ 32 →
  (reaches p amount count l t).1 = (count <=? t + total (slot_amount (mem pl) None p amount) l).
Proof.
  intros Ha. revert t. induction l as [|[q|] l IH]; intros t Ht Hb; simpl in *.
  - destruct (Z.leb_spec count (t + 0)); [lia|done].
  - assert (0 ≤ total (slot_amount (mem pl) None p amount) l).
    { apply total_nonneg. intros [q'|]; simpl; [|lia]. case_bool; [apply Ha|lia]. }
    destruct (p (mem pl q)).
    + specialize (Ha q) as Hq. rewrite wrap_small by (unfold in_u; lia).
      destruct (Z.leb_spec count (t + amount (mem pl q))); simpl.
      * symmetry. apply Z.leb_le. lia.
      * rewrite IH by lia. f_equal. lia.
    + rewrite IH by lia. f_equal; lia.
  - by rewrite Z.add_0_l in *; apply IH.
Qed.

(** The items a player can hand over: those not in a trade window. *)
Definition available_amount (item : Z) : option ptr → Z :=
  slot_amount (mem pl) None (λ it, (GetEntry it =? item) && negb (IsInTrade it)) GetCount.

Lemma available_le item o : mem_ok → available_amount item o ≤ amount_of item o.
Proof.
  intros Hm. unfold available_amount, amount_of, slot_amount, has_entry. destruct o as [q|]; [|lia].
  pose proof (mo_count Hm q). rewrite bool_decide_false by done. simpl.
  destruct (GetEntry (mem pl q) =? item), (IsInTrade (mem pl q)); simpl; lia.
Qed.

Lemma own_bank_split :
  own BANK_SLOT_ITEM_START BANK_SLOT_BAG_END
  = own BANK_SLOT_ITEM_START BANK_SLOT_ITEM_END ++ own BANK_SLOT_BAG_START BANK_SLOT_BAG_END.
Proof. unfold own. by rewrite <- map_app. Qed.

(** HasItemCount against GetItemCount: a positive amount is found only if the
    inventory holds it, and, when nothing of it is in a trade window and none of it is
    a bag in a bank bag slot, found whenever the inventory holds it. *)
Theorem HasItemCount_spec item count inBankAlso :
  mem_ok → 0 < count → total (amount_of item) (stored inBankAlso) < 2 ^ 32 →
  (HasItemCount item count inBankAlso = true → count ≤ GetItemCount item inBankAlso None) ∧
  (count ≤ GetItemCount item inBankAlso None →
   (∀ q, Some q ∈ stored inBankAlso → GetEntry (mem pl q) = item → IsInTrade (mem pl q) = false) →
   (inBankAlso = true → ∀ q, Some q ∈ own BANK_SLOT_BAG_START BANK_SLOT_BAG_END →
      GetEntry (mem pl q) ≠ item) →
   HasItemCount item count inBankAlso = true).
Proof.
  intros Hm Hc Hb. rewrite GetItemCount_total by done.
  assert (∀ l, 0 ≤ total (amount_of item) l) as Hpos.
  { intros l. apply total_nonneg. intros o. by apply amount_nonneg. }
  rewrite wrap_small by (unfold in_u; specialize (Hpos (stored inBankAlso)); lia).
  set (seen := carried ++ if inBankAlso then
    own BANK_SLOT_ITEM_START BANK_SLOT_ITEM_END ++ bagged BANK_SLOT_BAG_START BANK_SLOT_BAG_END else []).
  assert (total (amount_of item) (stored inBankAlso)
          = total (amount_of item) seen
            + if inBankAlso then total (amount_of item) (own BANK_SLOT_BAG_START BANK_SLOT_BAG_END)
              else 0) as HS.
  { unfold seen, stored, banked. destruct inBankAlso; [|lia].
    rewrite own_bank_split, !total_app. lia. }
  assert (total (available_amount item) seen ≤ total (amount_of item) seen) as Hle.
  { apply total_le. intros o _. by apply available_le. }
  assert (HasItemCount item count inBankAlso = (count <=? total (available_amount item) seen)) as ->.
  { unfold HasItemCount. rewrite reaches_spec; [|apply (mo_count Hm)|lia|];
      unfold seen, carried in *; rewrite <- ?app_assoc in *; [done|].
    specialize (Hpos (own BANK_SLOT_BAG_START BANK_SLOT_BAG_END)).
    rewrite Z.add_0_l. eapply Z.le_lt_trans; [exact Hle|]. destruct inBankAlso; lia. }
  split.
  - intros H%Z.leb_le. specialize (Hpos (own BANK_SLOT_BAG_START BANK_SLOT_BAG_END)).
    destruct inBankAlso; lia.
  - intros H1 Htrade Hbags. apply Z.leb_le.
    assert (total (amount_of item) seen ≤ total (available_amount item) seen).
    { apply total_le. intros [q|] Hq; [|done]. unfold amount_of, available_amount, slot_amount, has_entry.
      simpl. destruct (GetEntry (mem pl q) =? item) eqn:EE; simpl; [|lia]. b2p.
      rewrite (Htrade q); [simpl; lia| |done].
      revert Hq. unfold seen, stored, banked. rewrite own_bank_split.
      destruct inBankAlso; [|done]. rewrite !elem_of_app. tauto. }
    assert ((if inBankAlso then total (amount_of item) (own BANK_SLOT_BAG_START BANK_SLOT_BAG_END) else 0) ≤ 0).
    { destruct inBankAlso; [|lia].
      etrans; [apply (total_le _ (λ _, 0))|clear; induction (own _ _); simpl in *; lia].
      intros [q|] Hq; [|done]. unfold amount_of, slot_amount, has_entry. simpl.
      destruct (GetEntry (mem pl q) =? item) eqn:EE; [|lia]. b2p. by destruct (Hbags eq_refl q Hq). }
    lia.
Qed.

Lemma bag_contents_bagged a b : bag_contents a b = bagged a b.
Proof.
  unfold bag_contents, bagged. f_equal. apply map_ext_in. intros i _. unfold in_bag.
  destruct (GetBagByPos i) as [q|] eqn:Hq; [|done]. apply map_ext. intros j.
  apply GetBagByPos_spec in Hq as Hq'. destruct Hq' as (Hs & _ & _). unfold GetItemByPos.
  destruct (i =? INVENTORY_SLOT_BAG_0) eqn:E; b2p; [by subst i|]. simpl. by rewrite Hq.
Qed.

Lemma first_guid_spec g l :
  match first_guid g l with
  | Some q => Some q ∈ l ∧ guid (mem pl q) = g
  | None => ∀ q, Some q ∈ l → guid (mem pl q) ≠ g
  end.
Proof.
  induction l as [|[q|] l IH]; simpl.
  - by intros q ?%not_elem_of_nil.
  - destruct (guid (mem pl q) =? g) eqn:E; b2p; [split; [left|done]|].
    destruct (first_guid g l) as [q'|]; [destruct IH; split; [by right|done]|].
    intros q' [[= ->]|Hin]%elem_of_cons; auto.
  - destruct (first_guid g l) as [q'|]; [destruct IH; split; [by right|done]|].
    intros q' [?|Hin]%elem_of_cons; [done|auto].
Qed.

(** GetItemByGuid finds exactly the stored items: what it returns is stored
    (carried or banked, in a slot or in a bag) under the guid asked for, and it
    returns nothing only if no stored item has that guid. *)
Theorem GetItemByGuid_spec g :
  match GetItemByGuid g with
  | Some q => Some q ∈ stored true ∧ guid (mem pl q) = g
  | None => ∀ q, Some q ∈ stored true → guid (mem pl q) ≠ g
  end.
Proof.
  unfold GetItemByGuid. set (l := own _ _ ++ _).
  assert (∀ o, o ∈ l ↔ o ∈ stored true) as Hl.
  { intros o. unfold l, stored, carried, banked. rewrite !bag_contents_bagged, !elem_of_app. tauto. }
  pose proof (first_guid_spec g l) as H. destruct (first_guid g l) as [q|].
  - by rewrite <- Hl.
  - intros q Hq. apply H. by rewrite Hl.
Qed.

(** Positions survive their packing in 16 bits. *)
Lemma pack_unpack bag slot :
  in_u8 bag → in_u8 slot → pos_bag (pack bag slot) = bag ∧ pos_slot (pack bag slot) = slot.
Proof.
  unfold in_u. intros Hb Hs. unfold pack, pos_bag, pos_slot, wrap.
  rewrite (lor_shiftl bag slot 8) by lia.
  rewrite (Z.mod_small _ (2 ^ 16)) by lia.
  rewrite Z.shiftr_div_pow2 by lia. change 255 with (Z.ones 8). rewrite Z.land_ones by lia.
  split; zlia.
Qed.

End player.

(** ** A small world, on which the theorems are applied *)
Section demo.

Definition demo_template (id cls sub invtype maxcount stack slots family totem : Z) : ItemTemplate := {|
  ItemId := id; Class_ := cls; SubClass := sub; Quality := 1; tFlags := 0; Flags2 := 0;
  InventoryType := invtype; AllowableClass := -1; AllowableRace := -1; RequiredLevel := 0;
  RequiredSkill := 0; RequiredSkillRank := 0; RequiredSpell := 0; RequiredReputationFaction := 0;
  RequiredReputationRank := 0; MaxCount := maxcount; Stackable := stack; ContainerSlots := slots;
  SpellId0 := 0; SpellId1 := 0; BagFamily := family; TotemCategory := totem; Socket0_Color := 0;
  GemProperties := 0; ItemLimitCategory := 0; HolidayId := 0;
  Bonding := 0; SellPrice := 0; FlagsCu := 0; ScalingStatDistribution := 0;
  MaxDurability := 0; Duration := 0 |}.

Definition cloth : ItemTemplate := demo_template 1 7 5 0 0 20 0 0 0.
Definition sword : ItemTemplate := demo_template 2 2 7 13 0 1 0 0 0.
Definition satchel : ItemTemplate := demo_template 3 1 0 18 0 1 16 0 0.
Definition mining_pick : ItemTemplate := demo_template 4 2 14 13 0 1 0 0 165.
Definition relic : ItemTemplate := demo_template 5 15 0 0 1 1 0 0 0.

#[export] Instance demo_items : ItemEnv := {|
  item_templates := {[ 1 := cloth; 2 := sword; 3 := satchel; 4 := mining_pick; 5 := relic ]};
  sItemLimitCategoryStore := ∅;
  sSpellItemEnchantmentStore := ∅;
  sTotemCategoryStore := {[ 165 := (21, 1) ]}
|}.

Definition demo_item (g : Z) (t : ItemTemplate) (count : Z) (in_trade : bool) (slots : Z)
    (contents : gmap Z ptr) : Item := {|
  guid := g; GetTemplate := t; GetCount := count; m_slot := 0; m_lootGenerated := false;
  mb_in_trade := in_trade; IsSoulBound := false; bop_tradeable := false; owner := 1;
  allowedGUIDs := ∅; max_durability := 0; durability := 0; enchantments := ∅;
  bag_num_slots := slots; m_bagslot := contents |}.

Definition default_item : Item := demo_item 0 sword 1 false 0 ∅.

(** A player with the given slots and items. *)
Definition demo_player (slots : gmap Z ptr) (items : gmap Z Item) (is_disarmed : bool) : Player := {|
  player_guid := 1; m_items := slots; mem := λ q, default default_item (items !! q);
  disarmed := is_disarmed; disarmed_offhand := false; disarmed_ranged := false;
  IsInFeralForm := false; IsAlive := true; IsCharmed := false; IsInCombat := false;
  in_running_arena := false; GetBankBagSlotCount := 1; GetOTeam := ALLIANCE; getClass := CLASS_WARRIOR;
  getClassMask := 1; getORaceMask := 1; getLevel := 80; skills := ∅; spells := ∅;
  reputation_rank := λ _, 3; m_lastPotionId := 0; active_holidays := ∅ |}.

Lemma demo_mem (P : Item → Prop) slots items d :
  P default_item → map_Forall (λ _, P) items → ∀ q, P (mem (demo_player slots items d) q).
Proof.
  intros H0 Hm q. simpl. destruct (items !! q) as [it|] eqn:E; simpl; [by apply (Hm q)|done].
Qed.

(** Twelve cloth in the first backpack slot, eight more in a bag. *)
Definition carrier : Player :=
  demo_player {[ 19 := 30; 23 := 31 ]}
    {[ 30 := demo_item 30 satchel 1 false 16 {[ 2 := 32 ]};
       31 := demo_item 31 cloth 12 false 0 ∅; 32 := demo_item 32 cloth 8 false 0 ∅ ]} false.

Lemma carrier_mem_ok : mem_ok carrier.
Proof.
  split.
  - apply (demo_mem (λ it, 0 ≤ GetCount it)); [done|].
    apply (bool_decide_eq_true_1 _). by vm_compute.
  - apply (demo_mem (λ it, GetBagSize it ≤ MAX_BAG_SIZE)); [done|].
    apply (bool_decide_eq_true_1 _). by vm_compute.
Qed.

Lemma GetItemCount_spec_witness :
  mem_ok carrier ∧ GetItemCount carrier 1 false None = 20.
Proof.
  split; [exact carrier_mem_ok|].
  rewrite (GetItemCount_spec carrier 1 false carrier_mem_ok). vm_compute. reflexivity.
Defined.

Lemma HasItemCount_spec_witness : HasItemCount carrier 1 20 false = true.
Proof.
  apply (HasItemCount_spec carrier 1 20 false carrier_mem_ok).
  - lia.
  - vm_compute. reflexivity.
  - vm_compute. discriminate.
  - intros q _ _. revert q. apply (demo_mem (λ it, IsInTrade it = false)); [done|].
    apply (bool_decide_eq_true_1 _). by vm_compute.
  - discriminate.
Defined.

(** A mining pick in slot 15 of a bag. *)
Definition miner (is_disarmed : bool) : Player :=
  demo_player {[ 19 := 30 ]}
    {[ 30 := demo_item 30 satchel 1 false 16 {[ 15 := 33 ]}; 33 := demo_item 33 mining_pick 1 false 0 ∅ ]}
    is_disarmed.

(** a slot number inside a bag is taken for a weapon slot: a disarmed player does not
    have the totem category of the pick in the sixteenth slot of a bag. *)
Theorem HasItemTotemCategory_bag_slot :
  HasItemTotemCategory (miner false) 165 = true ∧
  HasItemTotemCategory (miner true) 165 = false ∧
  GetItemByPos (miner true) INVENTORY_SLOT_BAG_START EQUIPMENT_SLOT_MAINHAND = Some 33 ∧
  GetUseableItemByPos (miner true) INVENTORY_SLOT_BAG_START EQUIPMENT_SLOT_MAINHAND = None.
Proof. by vm_compute. Qed.

End demo.
End Inventory.
