(* ===== verification/Storage.v ===== *)
(** * Storing items ([src/server/game/Entities/Player/Player.cpp])

    The functions that decide where an item can go: the limits on similar items, the
    search for room in a slot, a bag or a range of slots, and the searches over the
    whole inventory (CanStoreItem, CanBankItem, CanStoreItems). *)
From S2P Require Import Prelude Items Inventory.

Module Storage.
Export Inventory.

Record ItemPosCount := mkPos { pos : Z; cnt : Z }.
#[export] Instance ItemPosCount_eq_dec : EqDecision ItemPosCount.
Proof. solve_decision. Defined.
Abbreviation ItemPosCountVec := (list ItemPosCount).

Definition isContainedIn (p : ItemPosCount) (vec : ItemPosCountVec) : bool :=
  existsb (λ q, pos q =? pos p) vec.

Section player.
Context `{IE : ItemEnv}.
Variable pl : Player.

(** ** CanTakeMoreSimilarItems

    The result with what is written to [*no_space_count] and [*itemLimitCategory];
    [None]: not written. *)
Definition CanTakeMoreSimilarItems (entry count : Z) (pItem : option ptr)
    : InventoryResult * option Z * option Z :=
  match item_templates !! entry with
  | None => (EQUIP_ERR_CANT_CARRY_MORE_OF_THIS, Some count, None)
  | Some pProto =>
    if match pItem with Some q => m_lootGenerated (mem pl q) | None => false end
    then (EQUIP_ERR_ALREADY_LOOTED, None, None)
    else if ((MaxCount pProto <=? 0) && (ItemLimitCategory pProto =? 0))
            || (MaxCount pProto =? 2147483647)
    then (EQUIP_ERR_OK, None, None)
    else
      let curcount := GetItemCount pl (ItemId pProto) true pItem in
      if (0 <? MaxCount pProto) && (u32 (MaxCount pProto) <? u32 (curcount + count))
      then (EQUIP_ERR_CANT_CARRY_MORE_OF_THIS, Some (u32 (count + curcount - MaxCount pProto)), None)
      else if negb (ItemLimitCategory pProto =? 0) then
        match sItemLimitCategoryStore !! ItemLimitCategory pProto with
        | None => (EQUIP_ERR_ITEM_CANT_BE_EQUIPPED, Some count, None)
        | Some limitEntry =>
          let curcount := GetItemCountWithLimitCategory pl (ItemLimitCategory pProto) pItem in
          if (mode limitEntry =? ITEM_LIMIT_CATEGORY_MODE_HAVE)
             && (u32 (maxCount limitEntry) <? u32 (curcount + count))
          then (EQUIP_ERR_ITEM_MAX_LIMIT_CATEGORY_COUNT_EXCEEDED,
                Some (u32 (count + curcount - maxCount limitEntry)),
                Some (ItemLimitCategory pProto))
          else (EQUIP_ERR_OK, None, None)
        end
      else (EQUIP_ERR_OK, None, None)
  end.

(** ** Room in one slot, one bag, one range *)

Definition src_not_empty_bag (pSrcItem : option ptr) : bool :=
  match pSrcItem with Some q => IsNotEmptyBag (mem pl q) | None => false end.

(** The item in the way: a slot that holds the moved item counts as empty. *)
Definition item_in_way (bag slot : Z) (pSrcItem : option ptr) : option ptr :=
  let pItem2 := GetItemByPos pl bag slot in
  if bool_decide (pItem2 = pSrcItem) then None else pItem2.

(** Take [need_space] of [count] at a position, unless the position is taken already. *)
Definition place (bag slot need_space : Z) (dest : ItemPosCountVec) (count : Z)
    : bool * ItemPosCountVec * Z :=
  let need_space := if count <? need_space then count else need_space in
  let newPosition := mkPos (pack bag slot) need_space in
  if isContainedIn newPosition dest then (false, dest, count)
  else (true, dest ++ [newPosition], u32 (count - need_space)).

(** Whether an item of template [pProto] may enter an empty slot. *)
Definition specific_slot_check (bag slot : Z) (pProto : ItemTemplate) : InventoryResult :=
  if bag =? INVENTORY_SLOT_BAG_0 then
    if between KEYRING_SLOT_START slot (KEYRING_SLOT_START + GetMaxKeyringSize)
       && negb (BagFamily pProto .& BAG_FAMILY_MASK_KEYS)
    then EQUIP_ERR_ITEM_DOESNT_GO_INTO_BAG
    else if between CURRENCYTOKEN_SLOT_START slot CURRENCYTOKEN_SLOT_END && negb (IsCurrencyToken pProto)
    then EQUIP_ERR_ITEM_DOESNT_GO_INTO_BAG
    else if between BUYBACK_SLOT_START slot BUYBACK_SLOT_END || (PLAYER_SLOT_END <=? slot)
    then EQUIP_ERR_ITEM_DOESNT_GO_INTO_BAG
    else EQUIP_ERR_OK
  else match GetBagByPos pl bag with
       | None => EQUIP_ERR_ITEM_DOESNT_GO_INTO_BAG
       | Some pBag =>
         let pBagProto := GetTemplate (mem pl pBag) in
         if ContainerSlots pBagProto <=? slot then EQUIP_ERR_ITEM_DOESNT_GO_INTO_BAG
         else if negb (ItemCanGoIntoBag pProto pBagProto) then EQUIP_ERR_ITEM_DOESNT_GO_INTO_BAG
         else EQUIP_ERR_OK
       end.

Definition CanStoreItem_InSpecificSlot (bag slot : Z) (dest : ItemPosCountVec) (pProto : ItemTemplate)
    (count : Z) (swap : bool) (pSrcItem : option ptr) : InventoryResult * ItemPosCountVec * Z :=
  let pItem2 := item_in_way bag slot pSrcItem in
  if src_not_empty_bag pSrcItem && negb (IsBagPos (pack bag slot))
  then (EQUIP_ERR_CAN_ONLY_DO_WITH_EMPTY_BAGS, dest, count)
  else
    let '(res, need_space) :=
      match pItem2, swap with
      | Some q, false =>
        (CanBeMergedPartlyWith (mem pl q) pProto, u32 (GetMaxStackSize pProto - GetCount (mem pl q)))
      | _, _ => (specific_slot_check bag slot pProto, GetMaxStackSize pProto)
      end in
    if negb (is_ok res) then (res, dest, count)
    else let '(_, dest, count) := place bag slot need_space dest count in (EQUIP_ERR_OK, dest, count).

(** The loop over slots shared by CanStoreItem_InBag and CanStoreItem_InInventorySlots. *)
Fixpoint scan_slots (bag : Z) (slots : list Z) (skip : Z → bool) (merge : bool) (pProto : ItemTemplate)
    (pSrcItem : option ptr) (dest : ItemPosCountVec) (count : Z) : ItemPosCountVec * Z :=
  match slots with
  | [] => (dest, count)
  | j :: slots =>
    let continue := scan_slots bag slots skip merge pProto pSrcItem in
    if skip j then continue dest count
    else
      let pItem2 := item_in_way bag (u8 j) pSrcItem in
      if negb (Bool.eqb (bool_decide (is_Some pItem2)) merge) then continue dest count
      else
        let '(mergeable, need_space) :=
          match pItem2 with
          | Some q => (is_ok (CanBeMergedPartlyWith (mem pl q) pProto),
                       u32 (GetMaxStackSize pProto - GetCount (mem pl q)))
          | None => (true, GetMaxStackSize pProto)
          end in
        if negb mergeable then continue dest count
        else
          let '(placed, dest, count) := place bag j need_space dest count in
          if placed && (count =? 0) then (dest, count) else continue dest count
  end.

Definition CanStoreItem_InBag (bag : Z) (dest : ItemPosCountVec) (pProto : ItemTemplate) (count : Z)
    (merge non_specialized : bool) (pSrcItem : option ptr) (skip_bag skip_slot : Z)
    : InventoryResult * ItemPosCountVec * Z :=
  if bag =? skip_bag then (EQUIP_ERR_ITEM_DOESNT_GO_INTO_BAG, dest, count)
  else match GetBagByPos pl bag with
  | None => (EQUIP_ERR_ITEM_DOESNT_GO_INTO_BAG, dest, count)
  | Some pBag =>
    let pBagProto := GetTemplate (mem pl pBag) in
    if bool_decide (Some pBag = pSrcItem) then (EQUIP_ERR_ITEM_DOESNT_GO_INTO_BAG, dest, count)
    else if src_not_empty_bag pSrcItem then (EQUIP_ERR_CAN_ONLY_DO_WITH_EMPTY_BAGS, dest, count)
    else if negb (Bool.eqb non_specialized (is_plain_container pBagProto))
    then (EQUIP_ERR_ITEM_DOESNT_GO_INTO_BAG, dest, count)
    else if negb (ItemCanGoIntoBag pProto pBagProto) then (EQUIP_ERR_ITEM_DOESNT_GO_INTO_BAG, dest, count)
    else
      let '(dest, count) := scan_slots bag (bag_slots (mem pl pBag)) (λ j, j =? skip_slot) merge
                              pProto pSrcItem dest count in
      (EQUIP_ERR_OK, dest, count)
  end.

Definition CanStoreItem_InInventorySlots (slot_begin slot_end : Z) (dest : ItemPosCountVec)
    (pProto : ItemTemplate) (count : Z) (merge : bool) (pSrcItem : option ptr) (skip_bag skip_slot : Z)
    : InventoryResult * ItemPosCountVec * Z :=
  if src_not_empty_bag pSrcItem then (EQUIP_ERR_CAN_ONLY_DO_WITH_EMPTY_BAGS, dest, count)
  else
    let '(dest, count) := scan_slots INVENTORY_SLOT_BAG_0 (range slot_begin slot_end)
                            (λ j, (INVENTORY_SLOT_BAG_0 =? skip_bag) && (j =? skip_slot)) merge
                            pProto pSrcItem dest count in
    (EQUIP_ERR_OK, dest, count).

(** ** The searches

    A search step either returns or goes on with what is left to store. *)
Record verdict := mkVerdict {
  v_res : InventoryResult;
  v_dest : ItemPosCountVec;
  v_no_space : option Z                       (* written to *no_space_count *)
}.

Inductive flow :=
| Return (v : verdict)
| Go (dest : ItemPosCountVec) (count : Z).

Definition fbind (f : flow) (k : ItemPosCountVec → Z → flow) : flow :=
  match f with Return v => Return v | Go dest count => k dest count end.

(** The block after each attempt: an error returns, nothing left returns (as an error
    when the limit on similar items cut the amount), otherwise the search goes on. *)
Definition settle (no_similar_count : Z) (r : InventoryResult * ItemPosCountVec * Z) : flow :=
  let '(res, dest, count) := r in
  if negb (is_ok res) then Return (mkVerdict res dest (Some (u32 (count + no_similar_count))))
  else if count =? 0 then
    if no_similar_count =? 0 then Return (mkVerdict EQUIP_ERR_OK dest None)
    else Return (mkVerdict EQUIP_ERR_CANT_CARRY_MORE_OF_THIS dest (Some (u32 (count + no_similar_count))))
  else Go dest count.

(** The block in the loops over bags: an error tries the next bag. *)
Definition settle_bag (no_similar_count : Z) (r : InventoryResult * ItemPosCountVec * Z) : flow :=
  if negb (is_ok r.1.1) then Go r.1.2 r.2 else settle no_similar_count r.

Fixpoint try_bags (bags : list Z) (attempt : Z → ItemPosCountVec → Z → InventoryResult * ItemPosCountVec * Z)
    (no_similar_count : Z) (dest : ItemPosCountVec) (count : Z) : flow :=
  match bags with
  | [] => Go dest count
  | i :: bags =>
    fbind (settle_bag no_similar_count (attempt i dest count)) (try_bags bags attempt no_similar_count)
  end.

Section search.
Variables (bag slot : Z) (pProto : ItemTemplate) (pItem : option ptr) (swap : bool) (nsim : Z).

Definition in_slots (a b : Z) (merge : bool) (dest : ItemPosCountVec) (count : Z) : flow :=
  settle nsim (CanStoreItem_InInventorySlots a b dest pProto count merge pItem bag slot).

(** Specialized, then non-specialized, without skipping the bag. *)
Definition in_this_bag (merge : bool) (dest : ItemPosCountVec) (count : Z) : flow :=
  let r := CanStoreItem_InBag bag dest pProto count merge false pItem NULL_BAG slot in
  settle nsim (if negb (is_ok r.1.1)
               then CanStoreItem_InBag bag dest pProto count merge true pItem NULL_BAG slot else r).

Definition in_bags (a b : Z) (merge non_specialized : bool) (dest : ItemPosCountVec) (count : Z) : flow :=
  try_bags (range a b)
    (λ i dest count, CanStoreItem_InBag i dest pProto count merge non_specialized pItem bag slot)
    nsim dest count.

Definition has_family : bool := negb (BagFamily pProto =? 0).
Definition is_key : bool := BagFamily pProto .& BAG_FAMILY_MASK_KEYS.

Definition store_specific_slot (dest : ItemPosCountVec) (count : Z) : flow :=
  if negb (bag =? NULL_BAG) && negb (slot =? NULL_SLOT)
  then settle nsim (CanStoreItem_InSpecificSlot bag slot dest pProto count swap pItem)
  else Go dest count.

Definition store_bag_merge (dest : ItemPosCountVec) (count : Z) : flow :=
  if negb (Stackable pProto =? 1) then
    if bag =? INVENTORY_SLOT_BAG_0 then
      fbind (in_slots KEYRING_SLOT_START CURRENCYTOKEN_SLOT_END true dest count)
        (in_slots INVENTORY_SLOT_ITEM_START INVENTORY_SLOT_ITEM_END true)
    else in_this_bag true dest count
  else Go dest count.

Definition store_bag_free (dest : ItemPosCountVec) (count : Z) : flow :=
  if bag =? INVENTORY_SLOT_BAG_0 then
    fbind
      (if is_key then
         fbind (in_slots KEYRING_SLOT_START (KEYRING_SLOT_START + GetMaxKeyringSize) false dest count)
           (in_slots CURRENCYTOKEN_SLOT_START CURRENCYTOKEN_SLOT_END false)
       else if IsCurrencyToken pProto then
         in_slots CURRENCYTOKEN_SLOT_START CURRENCYTOKEN_SLOT_END false dest count
       else Go dest count)
      (in_slots INVENTORY_SLOT_ITEM_START INVENTORY_SLOT_ITEM_END false)
  else in_this_bag false dest count.

Definition store_specific_bag (dest : ItemPosCountVec) (count : Z) : flow :=
  if negb (bag =? NULL_BAG) then fbind (store_bag_merge dest count) store_bag_free else Go dest count.

Definition store_merge (dest : ItemPosCountVec) (count : Z) : flow :=
  if negb (Stackable pProto =? 1) then
    fbind (in_slots KEYRING_SLOT_START CURRENCYTOKEN_SLOT_END true dest count) (λ dest count,
    fbind (in_slots INVENTORY_SLOT_ITEM_START INVENTORY_SLOT_ITEM_END true dest count) (λ dest count,
    fbind (if has_family then in_bags INVENTORY_SLOT_BAG_START INVENTORY_SLOT_BAG_END true false dest count
           else Go dest count)
      (in_bags INVENTORY_SLOT_BAG_START INVENTORY_SLOT_BAG_END true true)))
  else Go dest count.

Definition store_special (dest : ItemPosCountVec) (count : Z) : flow :=
  if has_family then
    fbind
      (if is_key then in_slots KEYRING_SLOT_START (KEYRING_SLOT_START + GetMaxKeyringSize) false dest count
       else if IsCurrencyToken pProto then
         in_slots CURRENCYTOKEN_SLOT_START CURRENCYTOKEN_SLOT_END false dest count
       else Go dest count)
      (in_bags INVENTORY_SLOT_BAG_START INVENTORY_SLOT_BAG_END false false)
  else Go dest count.

Definition store_free (dest : ItemPosCountVec) (count : Z) : flow :=
  if src_not_empty_bag pItem then Return (mkVerdict EQUIP_ERR_NONEMPTY_BAG_OVER_OTHER_BAG dest None)
  else
    fbind (in_slots INVENTORY_SLOT_ITEM_START INVENTORY_SLOT_ITEM_END false dest count)
      (in_bags INVENTORY_SLOT_BAG_START INVENTORY_SLOT_BAG_END false true).

Definition store_search (dest : ItemPosCountVec) (count : Z) : flow :=
  fbind (store_specific_slot dest count) (λ dest count,
  fbind (store_specific_bag dest count) (λ dest count,
  fbind (store_merge dest count) (λ dest count,
  fbind (store_special dest count) store_free))).
End search.

Definition CanStoreItem_entry (bag slot : Z) (dest : ItemPosCountVec) (entry count : Z)
    (pItem : option ptr) (swap : bool) : verdict :=
  match item_templates !! entry with
  | None => mkVerdict (if swap then EQUIP_ERR_ITEMS_CANT_BE_SWAPPED else EQUIP_ERR_ITEM_NOT_FOUND)
              dest (Some count)
  | Some pProto =>
    if match pItem with Some q => m_lootGenerated (mem pl q) | None => false end
    then mkVerdict EQUIP_ERR_ALREADY_LOOTED dest (Some count)
    else if match pItem with Some q => IsBindedNotWith (mem pl q) (player_guid pl) | None => false end
    then mkVerdict EQUIP_ERR_DONT_OWN_THAT_ITEM dest (Some count)
    else
      let '(res, written, _) := CanTakeMoreSimilarItems entry count pItem in
      let no_similar_count := default 0 written in
      if negb (is_ok res) && (count =? no_similar_count)
      then mkVerdict res dest (Some no_similar_count)
      else
        let count := if negb (is_ok res) then u32 (count - no_similar_count) else count in
        match store_search bag slot pProto pItem swap no_similar_count dest count with
        | Return v => v
        | Go dest count =>
          mkVerdict EQUIP_ERR_INVENTORY_FULL dest (Some (u32 (count + no_similar_count)))
        end
  end.

Definition CanStoreNewItem (bag slot : Z) (dest : ItemPosCountVec) (item count : Z) : verdict :=
  CanStoreItem_entry bag slot dest item count None false.

Definition CanStoreItem (bag slot : Z) (dest : ItemPosCountVec) (pItem : option ptr) (swap : bool) : verdict :=
  match pItem with
  | None => mkVerdict EQUIP_ERR_ITEM_NOT_FOUND dest None
  | Some q => CanStoreItem_entry bag slot dest (GetEntry (mem pl q)) (GetCount (mem pl q)) pItem swap
  end.

(** Player::AddItem up to the creation of the item: the places and the number of items
    it goes on to create, or the message that there is no space. *)
Definition AddItem (itemId count : Z) : option (ItemPosCountVec * Z) :=
  let v := CanStoreNewItem NULL_BAG NULL_SLOT [] itemId count in
  let count := if negb (is_ok (v_res v)) then u32 (count - default 0 (v_no_space v)) else count in
  if (count =? 0) || bool_decide (v_dest v = []) then None else Some (v_dest v, count).

(** ** CanBankItem: the same search over the bank, reporting no remainder *)
Section bank.
Variables (bag slot : Z) (q : ptr) (swap not_loading : bool).
Let pItem : option ptr := Some q.
Let pProto : ItemTemplate := GetTemplate (mem pl q).

Definition bank_specific_slot (dest : ItemPosCountVec) (count : Z) : flow :=
  if negb (bag =? NULL_BAG) && negb (slot =? NULL_SLOT) then
    let res :=
      if between BANK_SLOT_BAG_START slot BANK_SLOT_BAG_END then
        if negb (IsBag (mem pl q)) then EQUIP_ERR_ITEM_DOESNT_GO_TO_SLOT
        else if GetBankBagSlotCount pl <=? slot - BANK_SLOT_BAG_START
        then EQUIP_ERR_MUST_PURCHASE_THAT_BAG_SLOT
        else CanUseItem pl pItem not_loading
      else EQUIP_ERR_OK in
    if negb (is_ok res) then Return (mkVerdict res dest None)
    else settle 0 (CanStoreItem_InSpecificSlot bag slot dest pProto count swap pItem)
  else Go dest count.

Definition bank_specific_bag (dest : ItemPosCountVec) (count : Z) : flow :=
  if negb (bag =? NULL_BAG) then
    if IsNotEmptyBag (mem pl q) then Return (mkVerdict EQUIP_ERR_NONEMPTY_BAG_OVER_OTHER_BAG dest None)
    else
      let here merge dest count :=
        if bag =? INVENTORY_SLOT_BAG_0
        then in_slots bag slot pProto pItem 0 BANK_SLOT_ITEM_START BANK_SLOT_ITEM_END merge dest count
        else in_this_bag bag slot pProto pItem 0 merge dest count in
      fbind (if negb (Stackable pProto =? 1) then here true dest count else Go dest count) (here false)
  else Go dest count.

Definition bank_merge (dest : ItemPosCountVec) (count : Z) : flow :=
  if negb (Stackable pProto =? 1) then
    fbind (in_slots bag slot pProto pItem 0 BANK_SLOT_ITEM_START BANK_SLOT_ITEM_END true dest count) (λ dest count,
    fbind (if has_family pProto
           then in_bags bag slot pProto pItem 0 BANK_SLOT_BAG_START BANK_SLOT_BAG_END true false dest count
           else Go dest count)
      (in_bags bag slot pProto pItem 0 BANK_SLOT_BAG_START BANK_SLOT_BAG_END true true))
  else Go dest count.

Definition bank_free (dest : ItemPosCountVec) (count : Z) : flow :=
  fbind (if has_family pProto
         then in_bags bag slot pProto pItem 0 BANK_SLOT_BAG_START BANK_SLOT_BAG_END false false dest count
         else Go dest count) (λ dest count,
  fbind (in_slots bag slot pProto pItem 0 BANK_SLOT_ITEM_START BANK_SLOT_ITEM_END false dest count)
    (in_bags bag slot pProto pItem 0 BANK_SLOT_BAG_START BANK_SLOT_BAG_END false true)).

Definition bank_search (dest : ItemPosCountVec) (count : Z) : flow :=
  fbind (bank_specific_slot dest count) (λ dest count,
  fbind (bank_specific_bag dest count) (λ dest count,
  fbind (bank_merge dest count) bank_free)).
End bank.

Definition CanBankItem (bag slot : Z) (dest : ItemPosCountVec) (pItem : option ptr)
    (swap not_loading : bool) : InventoryResult * ItemPosCountVec :=
  match pItem with
  | None => (if swap then EQUIP_ERR_ITEMS_CANT_BE_SWAPPED else EQUIP_ERR_ITEM_NOT_FOUND, dest)
  | Some q =>
    let it := mem pl q in
    if m_lootGenerated it then (EQUIP_ERR_ALREADY_LOOTED, dest)
    else if IsBindedNotWith it (player_guid pl) then (EQUIP_ERR_DONT_OWN_THAT_ITEM, dest)
    else if between CURRENCYTOKEN_SLOT_START (m_slot it) CURRENCYTOKEN_SLOT_END
    then (EQUIP_ERR_ITEMS_CANT_BE_SWAPPED, dest)
    else
      let '(res, _, _) := CanTakeMoreSimilarItems (GetEntry it) (GetCount it) pItem in
      if negb (is_ok res) then (res, dest)
      else match bank_search bag slot q swap not_loading dest (GetCount it) with
           | Return v => (v_res v, v_dest v)
           | Go dest _ => (EQUIP_ERR_BANK_FULL, dest)
           end
  end.

(** ** Correctness of the search *)
Section sound.
Variables (pProto : ItemTemplate) (pItem : option ptr).
Hypothesis Hmem : mem_ok pl.
Hypothesis Hstack : in_s32 (Stackable pProto).

(** An empty place that the item may take: one that the check of a place that is asked
    for lets pass, or a slot of a bag that takes such items and is not the item; keys
    are also put where currency is, which that check refuses. *)
Definition suits (bag slot : Z) : Prop :=
  specific_slot_check bag slot pProto = EQUIP_ERR_OK ∨
  (∃ b, GetBagByPos pl bag = Some b ∧ Some b ≠ pItem ∧ 0 ≤ slot < GetBagSize (mem pl b) ∧
        ItemCanGoIntoBag pProto (GetTemplate (mem pl b)) = true) ∨
  (is_key pProto = true ∧ bag = INVENTORY_SLOT_BAG_0 ∧ CURRENCYTOKEN_SLOT_START ≤ slot < CURRENCYTOKEN_SLOT_END).

(** [cnt] items fit at [pos]: in a slot that is empty (or emptied by the move) and suits
    the item a stack, in an occupied one what is missing to a stack of the same item. *)
Definition fits (pc : ItemPosCount) : Prop :=
  0 ≤ cnt pc ∧
  match item_in_way (pos_bag (pos pc)) (pos_slot (pos pc)) pItem with
  | None => cnt pc ≤ GetMaxStackSize pProto ∧ suits (pos_bag (pos pc)) (pos_slot (pos pc))
  | Some q => GetEntry (mem pl q) = ItemId pProto ∧
              GetCount (mem pl q) + cnt pc ≤ GetMaxStackSize pProto
  end.

Record good (dest : ItemPosCountVec) : Prop := {
  good_nodup : NoDup (map pos dest);
  good_fits : Forall fits dest
}.

(** [n] items are placed or still to be placed. *)
Record progress (n : Z) (dest : ItemPosCountVec) (count : Z) : Prop := {
  pr_good : good dest;
  pr_count : 0 ≤ count < 2 ^ 32;
  pr_total : total cnt dest + count = n
}.

Lemma isContainedIn_spec pc dest : isContainedIn pc dest = true ↔ pos pc ∈ map pos dest.
Proof.
  unfold isContainedIn. rewrite existsb_exists. split.
  - intros (x & Hin%list_elem_of_In & E). b2p. rewrite <- E. by apply list_elem_of_fmap_2.
  - intros (x & E & Hin)%list_elem_of_fmap. exists x. split; [by apply list_elem_of_In|].
    apply Z.eqb_eq. done.
Qed.

Lemma progress_place n bag slot need dest count :
  progress n dest count → 0 ≤ need →
  (∀ k, 0 ≤ k ≤ need → fits (mkPos (pack bag slot) k)) →
  let '(_, dest', count') := place bag slot need dest count in progress n dest' count'.
Proof.
  intros [[Hnd Hf] Hc Ht] Hn Hfit. unfold place.
  set (k := if count <? need then count else need).
  assert (0 ≤ k ≤ need ∧ k ≤ count) as [Hk Hk'] by (unfold k; case_bool; b2p; lia).
  destruct (isContainedIn _ dest) eqn:E; [split; [by split|done|done]|].
  rewrite wrap_small by (unfold in_u; lia). split; [split|lia|].
  - rewrite map_app. apply NoDup_app. split_and!; [done| |apply NoDup_singleton].
    intros x Hx Hin. apply list_elem_of_singleton in Hin. simpl in Hin. subst x.
    apply (isContainedIn_spec (mkPos (pack bag slot) k)) in Hx. congruence.
  - apply Forall_app. split; [done|]. apply Forall_singleton. auto.
  - rewrite total_app. simpl. lia.
Qed.

Lemma max_stack : 1 ≤ GetMaxStackSize pProto < 2 ^ 31.
Proof. by apply GetMaxStackSize_range. Qed.

(** What fits at the position of a slot, from what the slot holds. *)
Lemma fits_slot bag slot k :
  in_u8 bag → in_u8 slot → 0 ≤ k →
  match item_in_way bag slot pItem with
  | None => k ≤ GetMaxStackSize pProto ∧ suits bag slot
  | Some q => CanBeMergedPartlyWith (mem pl q) pProto = EQUIP_ERR_OK ∧
              k ≤ u32 (GetMaxStackSize pProto - GetCount (mem pl q))
  end → fits (mkPos (pack bag slot) k).
Proof.
  intros Hb Hs Hk H. unfold fits. simpl. destruct (pack_unpack bag slot Hb Hs) as [-> ->].
  split; [done|]. destruct (item_in_way bag slot pItem) as [q|]; [|done].
  destruct H as [(HE & HC & _)%CanBeMergedPartlyWith_ok H2]. split; [done|].
  pose proof (mo_count pl Hmem q). pose proof max_stack.
  rewrite wrap_small in H2 by (unfold in_u; lia). lia.
Qed.

Lemma progress_InSpecificSlot n bag slot dest count :
  in_u8 bag → in_u8 slot → progress n dest count →
  let '(_, dest', count') :=
    CanStoreItem_InSpecificSlot bag slot dest pProto count false pItem in progress n dest' count'.
Proof.
  intros Hb Hs Hp. unfold CanStoreItem_InSpecificSlot. case_bool; [done|].
  pose proof (fits_slot bag slot) as HF. pose proof max_stack.
  destruct (item_in_way bag slot pItem) as [q|].
  - destruct (CanBeMergedPartlyWith (mem pl q) pProto) eqn:EM; simpl; try done.
    set (need := u32 _). assert (0 ≤ need) by (apply wrap_range; lia).
    pose proof (progress_place n bag slot need dest count Hp) as H1.
    destruct (place _ _ _ _ _) as [[??]?]. apply H1; [done|]. intros k Hk. apply HF; [done..|lia|].
    split; [done|lia].
  - case_bool; [done|]. apply negb_false_iff, is_ok_true in E0.
    pose proof (progress_place n bag slot (GetMaxStackSize pProto) dest count Hp) as H1.
    destruct (place _ _ _ _ _) as [[??]?]. apply H1; [lia|]. intros k Hk. apply HF; [done..|lia|]. split; [lia|by left].
Qed.

Lemma progress_scan n bag slots skip merge dest count :
  in_u8 bag → Forall in_u8 slots → (merge = false → Forall (λ j, skip j = false → suits bag j) slots) → progress n dest count →
  let '(dest', count') := scan_slots bag slots skip merge pProto pItem dest count in
  progress n dest' count'.
Proof.
  intros Hb Hs. revert dest count. induction Hs as [|j slots Hj Hs IH]; intros dest count Hm Hp; [done|].
  assert (merge = false → Forall (λ j, skip j = false → suits bag j) slots) as Hm' by (intros E; specialize (Hm E); by inversion Hm).
  specialize (λ dest count, IH dest count Hm').
  simpl. case_bool; [by apply IH|].
  rewrite (wrap_small 8 j) by done. pose proof (fits_slot bag j) as HF. pose proof max_stack.
  destruct (item_in_way bag j pItem) as [q|] eqn:Ew; (case_bool; [by apply IH|]).
  - destruct (is_ok (CanBeMergedPartlyWith (mem pl q) pProto)) eqn:EM; simpl; [|by apply IH].
    apply is_ok_true in EM. set (need := u32 _). assert (0 ≤ need) by (apply wrap_range; lia).
    pose proof (progress_place n bag j need dest count Hp) as H1.
    destruct (place _ _ _ _ _) as [[b d] c]. assert (progress n d c).
    { apply H1; [done|]. intros k Hk. apply HF; [done..|lia|]. split; [done|lia]. }
    case_bool; [done|by apply IH].
  - simpl. pose proof (progress_place n bag j (GetMaxStackSize pProto) dest count Hp) as H1.
    destruct (place _ _ _ _ _) as [[b d] c]. assert (progress n d c).
    { apply H1; [lia|]. intros k Hk. apply HF; [done..|lia|]. split; [lia|]. destruct merge; [by rewrite bool_decide_eq_false_2 in E0 by (by intros [? ?])|].
      specialize (Hm eq_refl). inversion Hm as [|? ? Hj']. auto. }
    case_bool; [done|by apply IH].
Qed.

Lemma range_u8 a b : 0 ≤ a → b ≤ 256 → Forall in_u8 (range a b).
Proof.
  intros Ha Hb. apply Forall_forall. intros j Hj%elem_of_seqZ. unfold in_u. lia.
Qed.

Lemma GetBagByPos_u8 bag q : GetBagByPos pl bag = Some q → in_u8 bag.
Proof.
  intros (H & _)%GetBagByPos_spec. unfold bag_slot, between in H. unfold in_u.
  unfold INVENTORY_SLOT_BAG_START, INVENTORY_SLOT_BAG_END, BANK_SLOT_BAG_START, BANK_SLOT_BAG_END in H. lia.
Qed.

Lemma progress_InBag n bag dest count merge ns skip_bag skip_slot :
  progress n dest count →
  let '(_, dest', count') :=
    CanStoreItem_InBag bag dest pProto count merge ns pItem skip_bag skip_slot in
  progress n dest' count'.
Proof.
  intros Hp. unfold CanStoreItem_InBag. case_bool; [done|].
  destruct (GetBagByPos pl bag) as [b|] eqn:Hb; [|done].
  repeat (case_bool; [done|]).
  pose proof (progress_scan n bag (bag_slots (mem pl b)) (λ j, j =? skip_slot) merge dest count) as H1.
  destruct (scan_slots _ _ _ _ _ _ _ _). apply H1; [by eapply GetBagByPos_u8|..].
  - apply Forall_forall. intros j Hj%elem_of_seqZ. pose proof (mo_size pl Hmem b).
    unfold MAX_BAG_SIZE in *. unfold in_u. lia.
  - intros _. apply Forall_forall. intros j Hj%elem_of_seqZ _. right. left. exists b. apply bool_decide_eq_false in E0. apply negb_false_iff in E3.
    split_and!; [done|done|lia|lia|done].
  - done.
Qed.

(** The slots from [a] to [b] of the player suit the item. *)
Definition own_suit (a b : Z) : Prop := ∀ j, a ≤ j < b → suits INVENTORY_SLOT_BAG_0 j.
Lemma progress_InInventorySlots n a b dest count merge skip_bag skip_slot :
  0 ≤ a → b ≤ 256 → (merge = false → own_suit a b) → progress n dest count →
  let '(_, dest', count') :=
    CanStoreItem_InInventorySlots a b dest pProto count merge pItem skip_bag skip_slot in
  progress n dest' count'.
Proof.
  intros Ha Hb Hm Hp. unfold CanStoreItem_InInventorySlots. case_bool; [done|].
  pose proof (progress_scan n INVENTORY_SLOT_BAG_0 (range a b)
    (λ j, (INVENTORY_SLOT_BAG_0 =? skip_bag) && (j =? skip_slot)) merge dest count) as H1.
  destruct (scan_slots _ _ _ _ _ _ _ _). apply H1; [by unfold in_u|by apply range_u8| |done].
  intros E'. apply Forall_forall. intros j Hj%elem_of_seqZ _. apply Hm; [done|lia].
Qed.

Ltac own_slots := unfold specific_slot_check, between, GetMaxKeyringSize, INVENTORY_SLOT_ITEM_START, INVENTORY_SLOT_ITEM_END,
  BANK_SLOT_ITEM_START, BANK_SLOT_ITEM_END, BUYBACK_SLOT_START, BUYBACK_SLOT_END, KEYRING_SLOT_START, KEYRING_SLOT_END,
  CURRENCYTOKEN_SLOT_START, CURRENCYTOKEN_SLOT_END, PLAYER_SLOT_END in *.
(** A check that does not apply. *)
Lemma own_suit_plain a b :
  INVENTORY_SLOT_ITEM_START ≤ a → b ≤ BUYBACK_SLOT_START → own_suit a b.
Proof.
  intros Ha Hb j Hj. left. own_slots. rewrite Z.eqb_refl.
  repeat (case_bool; [exfalso; lia|]). done.
Qed.
Lemma own_suit_keys : is_key pProto = true → own_suit KEYRING_SLOT_START (KEYRING_SLOT_START + GetMaxKeyringSize).
Proof.
  intros Hk j Hj. left. unfold is_key in Hk. own_slots. rewrite Z.eqb_refl, Hk, andb_false_r.
  repeat (case_bool; [exfalso; lia|]). done.
Qed.
Lemma own_suit_currency :
  is_key pProto = true ∨ IsCurrencyToken pProto = true → own_suit CURRENCYTOKEN_SLOT_START CURRENCYTOKEN_SLOT_END.
Proof.
  intros [Hk|Hc] j Hj; [by right; right|]. left. own_slots. rewrite Z.eqb_refl, Hc, andb_false_r.
  repeat (case_bool; [exfalso; lia|]). done.
Qed.

(** What a search step promises, of [n] items to store after [nsim] were refused. *)
Record verdict_ok (n nsim : Z) (v : verdict) : Prop := {
  vo_good : good (v_dest v);
  vo_ok : v_res v = EQUIP_ERR_OK → total cnt (v_dest v) = n ∧ nsim = 0;
  vo_rest : 0 ≤ nsim ∧ n + nsim < 2 ^ 32 → ∀ k, v_no_space v = Some k → 0 ≤ k ∧ total cnt (v_dest v) + k = n + nsim
}.
Definition flow_ok (n nsim : Z) (f : flow) : Prop :=
  match f with
  | Return v => verdict_ok n nsim v
  | Go dest count => progress n dest count
  end.

Definition keeps (n nsim : Z) (step : ItemPosCountVec → Z → flow) : Prop :=
  ∀ dest count, progress n dest count → flow_ok n nsim (step dest count).

Lemma total_cnt_nonneg dest : Forall fits dest → 0 ≤ total cnt dest.
Proof. induction 1 as [|pc dest [H _] _ IH]; simpl; lia. Qed.

Section steps.
Variables (bag slot : Z) (n nsim : Z).

Lemma flow_ok_bind f k : flow_ok n nsim f → keeps n nsim k → flow_ok n nsim (fbind f k).
Proof. destruct f as [v|d c]; simpl; auto. Qed.

Lemma flow_ok_settle r :
  (let '(_, dest, count) := r in progress n dest count) → flow_ok n nsim (settle nsim r).
Proof.
  destruct r as [[res dest] count]. intros Hp. pose proof Hp as [Hg Hc Ht].
  pose proof (total_cnt_nonneg dest (good_fits _ Hg)).
  assert (0 ≤ nsim ∧ n + nsim < 2 ^ 32 → u32 (count + nsim) = count + nsim) as EW by (intros ?; apply wrap_small; unfold in_u; lia).
  unfold settle. case_bool; [|case_bool; [case_bool|]]; b2p.
  - split; simpl; [done| |intros Hn k [= <-]; specialize (EW Hn); lia].
    intros ->. by apply is_ok_false in E.
  - split; simpl; [done|intros _; lia|done].
  - split; simpl; [done|done|intros Hn k [= <-]; specialize (EW Hn); lia].
  - done.
Qed.

Lemma flow_ok_settle_bag r :
  (let '(_, dest, count) := r in progress n dest count) → flow_ok n nsim (settle_bag nsim r).
Proof.
  intros Hr. unfold settle_bag. case_bool; [by destruct r as [[??]?]|by apply flow_ok_settle].
Qed.

Lemma keeps_try_bags bags attempt :
  (∀ i dest count, progress n dest count →
    let '(_, dest', count') := attempt i dest count in progress n dest' count') →
  keeps n nsim (try_bags bags attempt nsim).
Proof.
  intros Ha. induction bags as [|i bags IH]; intros dest count Hp; [done|].
  simpl. apply flow_ok_bind; [|done]. by apply flow_ok_settle_bag, Ha.
Qed.

Lemma keeps_in_bags a b merge ns :
  keeps n nsim (in_bags bag slot pProto pItem nsim a b merge ns).
Proof. apply keeps_try_bags. intros i dest count Hp. by apply progress_InBag. Qed.

Lemma keeps_in_slots a b merge :
  0 ≤ a → b ≤ 256 → (merge = false → own_suit a b) → keeps n nsim (in_slots bag slot pProto pItem nsim a b merge).
Proof. intros ??? dest count Hp. by apply flow_ok_settle, progress_InInventorySlots. Qed.

Lemma keeps_in_this_bag merge : keeps n nsim (in_this_bag bag slot pProto pItem nsim merge).
Proof.
  intros dest count Hp. unfold in_this_bag. apply flow_ok_settle.
  case_bool; by apply progress_InBag.
Qed.

Lemma keeps_go : keeps n nsim Go.
Proof. by intros dest count Hp. Qed.

End steps.

(** The searches are built from these steps. *)
Ltac side := first [assumption | done | lia | intros _; first [by apply own_suit_plain|by apply own_suit_keys|by apply own_suit_currency; auto]].
Ltac keeps_tac :=
  repeat match goal with
  | |- keeps _ _ (λ _ _, _) => intros ? ? ?
  | |- flow_ok _ _ (fbind _ _) => apply flow_ok_bind
  | |- flow_ok _ _ (if ?b then _ else _) => destruct b eqn:?
  | |- flow_ok _ _ (Go _ _) => apply keeps_go; side
  | |- flow_ok _ _ (in_bags _ _ _ _ _ _ _ _ _ _ _) => apply keeps_in_bags; side
  | |- flow_ok _ _ (in_slots _ _ _ _ _ _ _ _ _ _) => apply keeps_in_slots; side
  | |- flow_ok _ _ (in_this_bag _ _ _ _ _ _ _ _) => apply keeps_in_this_bag; side
  | |- keeps _ _ (in_bags _ _ _ _ _ _ _ _ _) => apply keeps_in_bags; side
  | |- keeps _ _ (in_slots _ _ _ _ _ _ _ _) => apply keeps_in_slots; side
  | |- keeps _ _ (in_this_bag _ _ _ _ _ _) => apply keeps_in_this_bag; side
  end.

Lemma keeps_store_search bag slot n nsim :
  in_u8 bag → in_u8 slot → keeps n nsim (store_search bag slot pProto pItem false nsim).
Proof.
  intros Hb Hs. unfold store_search. intros dest count Hp. apply flow_ok_bind.
  { unfold store_specific_slot. case_bool; [|done].
    by apply flow_ok_settle, progress_InSpecificSlot. }
  clear dest count Hp. intros dest count Hp. apply flow_ok_bind.
  { unfold store_specific_bag, store_bag_merge. keeps_tac.
    intros dest' count' Hp'. unfold store_bag_free. keeps_tac. }
  clear dest count Hp. intros dest count Hp. apply flow_ok_bind.
  { unfold store_merge. keeps_tac. }
  clear dest count Hp. intros dest count Hp. apply flow_ok_bind.
  { unfold store_special. keeps_tac. }
  clear dest count Hp. intros dest count Hp. unfold store_free. case_bool.
  - split; simpl; [by destruct Hp|done|done].
  - keeps_tac.
Qed.

Lemma keeps_bank_search bag slot n q not_loading :
  pItem = Some q → pProto = GetTemplate (mem pl q) →
  in_u8 bag → in_u8 slot → keeps n 0 (bank_search bag slot q false not_loading).
Proof.
  intros Ei Ep Hb Hs. unfold bank_search, bank_specific_slot, bank_specific_bag, bank_merge, bank_free.
  rewrite <- Ei, <- Ep. intros dest count Hp.
  apply flow_ok_bind.
  { case_bool; [|done]. cbv zeta. case_bool.
    - split; simpl; [by destruct Hp| |done]. intros E2. rewrite E2 in E0. done.
    - by apply flow_ok_settle, progress_InSpecificSlot. }
  clear dest count Hp. intros dest count Hp. apply flow_ok_bind.
  { case_bool; [|done]. case_bool.
    - split; simpl; [by destruct Hp|done|done].
    - keeps_tac. }
  clear dest count Hp. intros dest count Hp. apply flow_ok_bind.
  { keeps_tac. }
  clear dest count Hp. intros dest count Hp. keeps_tac.
Qed.
End sound.

(** The player holds no more of an item than its limits allow (and the numbers fit). *)
Definition within_limits (pProto : ItemTemplate) (count : Z) (pItem : option ptr) : Prop :=
  (0 < MaxCount pProto →
   GetItemCount pl (ItemId pProto) true pItem ≤ MaxCount pProto ∧
   GetItemCount pl (ItemId pProto) true pItem + count < 2 ^ 32) ∧
  ∀ limit, sItemLimitCategoryStore !! ItemLimitCategory pProto = Some limit →
  maxCount limit < 2 ^ 32 ∧
  GetItemCountWithLimitCategory pl (ItemLimitCategory pProto) pItem ≤ maxCount limit ∧
  GetItemCountWithLimitCategory pl (ItemLimitCategory pProto) pItem + count < 2 ^ 32.

Local Ltac fin := simpl; split; [lia|done].

(** What CanTakeMoreSimilarItems refuses is at most what was asked for. *)
Lemma CanTakeMoreSimilarItems_refused entry pProto count pItem :
  item_templates !! entry = Some pProto → in_s32 (MaxCount pProto) → 0 ≤ count < 2 ^ 32 →
  within_limits pProto count pItem →
  let '(res, written, _) := CanTakeMoreSimilarItems entry count pItem in
  0 ≤ default 0 written ≤ count ∧ (res = EQUIP_ERR_OK → written = None).
Proof.
  intros Ht Hmax Hc [H1 H2]. unfold CanTakeMoreSimilarItems. rewrite Ht.
  case_bool; [fin|]. case_bool; [fin|]. unfold in_s32 in Hmax.
  pose proof (GetItemCount_range pl (ItemId pProto) true pItem) as R1.
  pose proof (GetItemCountWithLimitCategory_range pl (ItemLimitCategory pProto) pItem) as R2.
  unfold in_u in R1, R2.
  set (c1 := GetItemCount pl (ItemId pProto) true pItem) in *.
  set (c2 := GetItemCountWithLimitCategory pl (ItemLimitCategory pProto) pItem) in *.
  destruct (Z.ltb_spec 0 (MaxCount pProto)) as [Hpos|Hneg]; simpl.
  - destruct (H1 Hpos) as [L1 L2].
    rewrite (wrap_small 32 (MaxCount pProto)), (wrap_small 32 (c1 + count)) by (unfold in_u; lia).
    case_bool; b2p; [rewrite wrap_small by (unfold in_u; lia); fin|].
    case_bool; [|fin].
    destruct (sItemLimitCategoryStore !! _) as [l|] eqn:EL; [|fin].
    destruct (H2 l eq_refl) as (M0 & M1 & M2). case_bool; [|fin]. b2p.
    rewrite (wrap_small 32 (c2 + count)) in * by (unfold in_u; lia).
    rewrite wrap_small in * by (unfold in_u; lia). rewrite wrap_small by (unfold in_u; lia).
    fin.
  - case_bool; [|fin].
    destruct (sItemLimitCategoryStore !! _) as [l|] eqn:EL; [|fin].
    destruct (H2 l eq_refl) as (M0 & M1 & M2). case_bool; [|fin]. b2p.
    rewrite (wrap_small 32 (c2 + count)) in * by (unfold in_u; lia).
    rewrite wrap_small in * by (unfold in_u; lia). rewrite wrap_small by (unfold in_u; lia).
    fin.
Qed.
(** An error is not reported with success. *)
Lemma CanTakeMoreSimilarItems_accepts entry count pItem :
  let '(res, written, _) := CanTakeMoreSimilarItems entry count pItem in res = EQUIP_ERR_OK → written = None.
Proof.
  unfold CanTakeMoreSimilarItems. destruct (item_templates !! entry) as [pProto|]; [|done].
  repeat case_match; simplify_eq; done.
Qed.

(** What is reported adds up when [nsim] of [count] were refused. *)
Definition adds_up (before count nsim : Z) (v : verdict) : Prop :=
  0 ≤ nsim ≤ count → before + count < 2 ^ 32 →
  ∀ k, v_no_space v = Some k → 0 ≤ k ∧ total cnt (v_dest v) + k = before + count.
Lemma search_conclusion pProto pItem before nsim f count :
  0 ≤ before →
  flow_ok pProto pItem (before + u32 (count - nsim)) nsim f → 0 ≤ count < 2 ^ 32 →
  let v := match f with
           | Return v => v
           | Go dest c => mkVerdict EQUIP_ERR_INVENTORY_FULL dest (Some (u32 (c + nsim)))
           end in
  good pProto pItem (v_dest v) ∧
  (v_res v = EQUIP_ERR_OK → total cnt (v_dest v) = before + count) ∧ adds_up before count nsim v.
Proof.
  intros Hb HK Hc. destruct f as [v|dest c]; simpl in *.
  - destruct HK as [G1 G2 G3]. split_and!; [done| |].
    + intros E. destruct (G2 E) as [-> ->]. rewrite Z.sub_0_r, wrap_small by (unfold in_u; lia). lia.
    + intros Hn Hw k Hk. rewrite (wrap_small 32 (count - nsim)) in G3 by (unfold in_u; lia). specialize (G3 ltac:(lia) k Hk). lia.
  - destruct HK as [G1 G2 G3]. pose proof (total_cnt_nonneg _ _ _ (good_fits _ _ _ G1)).
    split_and!; [done|done|]. intros Hn Hw k [= <-]. rewrite (wrap_small 32 (count - nsim)) in G3 by (unfold in_u; lia).
    rewrite (wrap_small 32 (c + nsim)) by (unfold in_u; lia). simpl. lia.
Qed.

Lemma CanStoreItem_total bag slot dest entry pProto count pItem :
  mem_ok pl → in_u8 bag → in_u8 slot →
  item_templates !! entry = Some pProto → in_s32 (Stackable pProto) → good pProto pItem dest → 0 ≤ count < 2 ^ 32 →
  let v := CanStoreItem_entry bag slot dest entry count pItem false in
  good pProto pItem (v_dest v) ∧
  (v_res v = EQUIP_ERR_OK → total cnt (v_dest v) = total cnt dest + count) ∧
  (in_s32 (MaxCount pProto) → within_limits pProto count pItem → total cnt dest + count < 2 ^ 32 →
   ∀ k, v_no_space v = Some k → 0 ≤ k ∧ total cnt (v_dest v) + k = total cnt dest + count).
Proof.
  intros Hm Hb Hs Ht Hst Hg Hc. unfold CanStoreItem_entry. rewrite Ht. cbv zeta.
  assert (∀ res, res ≠ EQUIP_ERR_OK → let v := mkVerdict res dest (Some count) in
    good pProto pItem (v_dest v) ∧ (v_res v = EQUIP_ERR_OK → total cnt (v_dest v) = total cnt dest + count) ∧
    (in_s32 (MaxCount pProto) → within_limits pProto count pItem → total cnt dest + count < 2 ^ 32 →
     ∀ k, v_no_space v = Some k → 0 ≤ k ∧ total cnt (v_dest v) + k = total cnt dest + count)) as Hbase.
  { intros res Hres. simpl. split_and!; [done|done|intros _ _ _ k [= <-]; lia]. }
  do 2 (case_bool; [by apply Hbase|]).
  pose proof (CanTakeMoreSimilarItems_accepts entry count pItem) as HW.
  pose proof (λ Hmx Hl, CanTakeMoreSimilarItems_refused entry pProto count pItem Ht Hmx Hc Hl) as HR.
  destruct (CanTakeMoreSimilarItems entry count pItem) as [[res written] cat].
  set (nsim := default 0 written) in *.
  case_bool. { apply andb_true_iff in E1 as [E1 E2]. apply Z.eqb_eq in E2. rewrite <- E2. apply Hbase. by apply is_ok_false, negb_true_iff. }
  set (left := if negb (is_ok res) then u32 (count - nsim) else count).
  assert (left = u32 (count - nsim)) as EL.
  { unfold left. destruct (is_ok res) eqn:Eok; [|done]. apply is_ok_true in Eok. unfold nsim. rewrite HW by done.
    cbn. rewrite Z.sub_0_r. symmetry. apply wrap_small. unfold in_u. lia. }
  pose proof (total_cnt_nonneg _ _ _ (good_fits _ _ _ Hg)).
  assert (flow_ok pProto pItem (total cnt dest + u32 (count - nsim)) nsim (store_search bag slot pProto pItem false nsim dest left)) as HF.
  { apply keeps_store_search; [done..|]. rewrite EL. split; [done| |done]. apply wrap_range. lia. }
  destruct (search_conclusion _ _ (total cnt dest) nsim _ count ltac:(done) HF Hc) as (H1 & H2 & H3).
  split; [exact H1|split; [exact H2|]]. intros Hmx Hl Hw. apply H3; [apply (HR Hmx Hl)|done].
Qed.

(** C2: CanStoreItem, asked without an exchange, is sound, whatever positions were proposed
    before: the positions are distinct, each takes at most what fits there (in an empty
    slot a stack, if the slot suits the item, in an occupied one the rest of a stack of
    the same item), and a success places exactly the amount asked for. A player within the
    limits of the item loses nothing either: in every other outcome that reports a
    remainder, the placed amounts and the remainder add up to the amount. *)
Theorem CanStoreItem_sound bag slot dest entry pProto count pItem :
  mem_ok pl → in_u8 bag → in_u8 slot →
  item_templates !! entry = Some pProto → in_s32 (Stackable pProto) → good pProto pItem dest → 0 ≤ count < 2 ^ 32 →
  let v := CanStoreItem_entry bag slot dest entry count pItem false in
  good pProto pItem (v_dest v) ∧
  (v_res v = EQUIP_ERR_OK → total cnt (v_dest v) = total cnt dest + count) ∧
  (in_s32 (MaxCount pProto) → within_limits pProto count pItem → total cnt dest + count < 2 ^ 32 →
   ∀ k, v_no_space v = Some k → 0 ≤ k ∧ total cnt (v_dest v) + k = total cnt dest + count).
Proof. apply CanStoreItem_total. Qed.

(** CanBankItem is sound: the positions it proposes are distinct and fit, and a
    success places the whole stack. *)
Theorem CanBankItem_sound bag slot q not_loading :
  mem_ok pl → in_u8 bag → in_u8 slot → in_s32 (Stackable (GetTemplate (mem pl q))) →
  GetCount (mem pl q) < 2 ^ 32 →
  let '(res, dest) := CanBankItem bag slot [] (Some q) false not_loading in
  good (GetTemplate (mem pl q)) (Some q) dest ∧
  (res = EQUIP_ERR_OK → total cnt dest = GetCount (mem pl q)).
Proof.
  intros Hm Hb Hs Hst Hc. unfold CanBankItem. pose proof (mo_count pl Hm q).
  set (p := GetTemplate (mem pl q)) in *.
  assert (good p (Some q) []) as Hg by (split; constructor).
  do 3 (case_bool; [done|]).
  destruct (CanTakeMoreSimilarItems _ _ _) as [[res w] lc]. case_bool; [split; [done|]|].
  { intros ->. by apply negb_true_iff, is_ok_false in E2. }
  pose proof (keeps_bank_search p (Some q) Hm Hst bag slot (GetCount (mem pl q)) q not_loading
    eq_refl eq_refl Hb Hs [] (GetCount (mem pl q))) as HK.
  assert (progress p (Some q) (GetCount (mem pl q)) [] (GetCount (mem pl q))) as HP.
  { split; [done|lia|simpl; lia]. }
  specialize (HK HP). destruct (bank_search _ _ _ _ _ _ _) as [v|dest c].
  - destruct HK as [G1 G2 _]. split; [done|]. intros EQ. by destruct (G2 EQ).
  - by destruct HK as [G1 _ _].
Qed.

(** *** Exhaustiveness of the search for a free backpack slot *)

(** Slots of the walk that are free for the item are taken by [dest]. *)
Definition free_taken (pItem : option ptr) (slots : list Z) (skip : Z → bool) (dest : ItemPosCountVec) : Prop :=
  ∀ j, j ∈ slots → skip j = false → item_in_way INVENTORY_SLOT_BAG_0 j pItem = None →
  pack INVENTORY_SLOT_BAG_0 j ∈ map pos dest.

Lemma place_grows bag slot need dest count :
  let '(placed, dest', count') := place bag slot need dest count in
  (∀ x, x ∈ map pos dest → x ∈ map pos dest') ∧ pack bag slot ∈ map pos dest'.
Proof.
  unfold place. set (pc := mkPos _ _). destruct (isContainedIn pc dest) eqn:E.
  - split; [done|]. by apply (isContainedIn_spec pc) in E.
  - rewrite map_app. split; [intros x Hx; apply elem_of_app; by left|].
    apply elem_of_app. right. by left.
Qed.

Lemma scan_grows bag slots skip merge pProto pItem dest count :
  ∀ x, x ∈ map pos dest → x ∈ map pos (scan_slots bag slots skip merge pProto pItem dest count).1.
Proof.
  revert dest count. induction slots as [|j slots IH]; intros dest count x Hx; [done|]. simpl.
  case_bool; [auto|]. case_bool; [auto|].
  destruct (match item_in_way bag (u8 j) pItem with Some _ => _ | None => _ end) as [m need].
  case_bool; [auto|]. pose proof (place_grows bag j need dest count) as HG.
  destruct (place _ _ _ _ _) as [[b d] c]. destruct HG as [HG _].
  case_bool; [by apply HG|auto].
Qed.

Lemma scan_exhausts slots skip pProto pItem dest count :
  Forall in_u8 slots → 
  let '(dest', count') := scan_slots INVENTORY_SLOT_BAG_0 slots skip false pProto pItem dest count in
  count' ≠ 0 → free_taken pItem slots skip dest'.
Proof.
  intros Hs. revert dest count. induction Hs as [|j slots Hj Hs IH]; intros dest count; simpl.
  { intros _ j Hj. by apply not_elem_of_nil in Hj. }
  assert (∀ dest count,
    (skip j = false → item_in_way INVENTORY_SLOT_BAG_0 j pItem = None →
     pack INVENTORY_SLOT_BAG_0 j ∈ map pos dest) →
    let '(dest', count') := scan_slots INVENTORY_SLOT_BAG_0 slots skip false pProto pItem dest count in
    count' ≠ 0 → free_taken pItem (j :: slots) skip dest') as Hcont.
  { intros d c Hin. pose proof (IH d c) as H1.
    pose proof (scan_grows INVENTORY_SLOT_BAG_0 slots skip false pProto pItem d c) as H2.
    destruct (scan_slots _ _ _ _ _ _ d c) as [d' c']. intros Hne k [->|Hk]%elem_of_cons Hsk Hw.
    - apply H2. auto.
    - by apply H1. }
  case_bool; [apply Hcont; congruence|]. rewrite (wrap_small 8 j) by done.
  destruct (item_in_way INVENTORY_SLOT_BAG_0 j pItem) as [q|] eqn:Ew; simpl.
  { apply Hcont. congruence. }
  pose proof (place_grows INVENTORY_SLOT_BAG_0 j (GetMaxStackSize pProto) dest count) as HG.
  destruct (place _ _ _ _ _) as [[b d] c]. destruct HG as [_ HG].
  destruct (b && (c =? 0)) eqn:Ec; [|by apply Hcont]. b2p. done.
Qed.

(** Properties of whatever the search returns, from the blocks after each attempt. *)
Definition returns (P : verdict → Prop) (f : flow) : Prop :=
  match f with Return v => P v | Go _ _ => True end.

Lemma not_full_InSlots a b d p c m src sb ss :
  (CanStoreItem_InInventorySlots a b d p c m src sb ss).1.1 ≠ EQUIP_ERR_INVENTORY_FULL.
Proof. unfold CanStoreItem_InInventorySlots. case_bool; [done|]. by destruct (scan_slots _ _ _ _ _ _ _ _). Qed.

Lemma not_full_InBag i d p c m ns src sb ss :
  (CanStoreItem_InBag i d p c m ns src sb ss).1.1 ≠ EQUIP_ERR_INVENTORY_FULL.
Proof.
  unfold CanStoreItem_InBag. case_bool; [done|]. destruct (GetBagByPos pl i); [|done].
  repeat (case_bool; [done|]). by destruct (scan_slots _ _ _ _ _ _ _ _).
Qed.

Lemma not_full_InSpecificSlot bag slot d p c src :
  (CanStoreItem_InSpecificSlot bag slot d p c false src).1.1 ≠ EQUIP_ERR_INVENTORY_FULL.
Proof.
  unfold CanStoreItem_InSpecificSlot, specific_slot_check, CanBeMergedPartlyWith. case_bool; [done|].
  destruct (item_in_way bag slot src) as [q|].
  - repeat case_bool; try done; by destruct (place _ _ _ _ _) as [[??]?].
  - destruct (bag =? INVENTORY_SLOT_BAG_0); [|destruct (GetBagByPos pl bag)];
      repeat case_bool; try done; by destruct (place _ _ _ _ _) as [[??]?].
Qed.

Section returns.
Variable P : verdict → Prop.
Hypothesis P_settle : ∀ nsim r, r.1.1 ≠ EQUIP_ERR_INVENTORY_FULL → returns P (settle nsim r).

Lemma returns_bind f k : returns P f → (∀ d c, returns P (k d c)) → returns P (fbind f k).
Proof. destruct f; simpl; auto. Qed.

Lemma returns_try_bags bags f nsim d c :
  (∀ i d c, (f i d c).1.1 ≠ EQUIP_ERR_INVENTORY_FULL) → returns P (try_bags bags f nsim d c).
Proof.
  intros Hf. revert d c. induction bags as [|i bags IH]; intros d c; [done|]. simpl.
  apply returns_bind; [|done]. unfold settle_bag. case_bool; [done|]. by apply P_settle.
Qed.

Ltac returns_tac :=
  repeat match goal with
  | |- returns _ (fbind _ _) => apply returns_bind
  | |- ∀ _ _, returns _ _ => intros ? ?
  | |- returns _ (if ?b then _ else _) => destruct b eqn:?
  | |- returns _ (Go _ _) => exact I
  | |- returns _ (in_slots _ _ _ _ _ _ _ _ _ _) => apply P_settle, not_full_InSlots
  | |- returns _ (in_bags _ _ _ _ _ _ _ _ _ _ _) =>
      apply returns_try_bags; intros ? ? ?; apply not_full_InBag
  | |- returns _ (in_this_bag _ _ _ _ _ _ _ _) =>
      unfold in_this_bag; apply P_settle; case_bool; apply not_full_InBag
  | |- returns _ (settle _ _) => apply P_settle, not_full_InSpecificSlot
  end.

Lemma returns_store_search bag slot p src nsim d c :
  (src_not_empty_bag src = true →
   ∀ dest, P (mkVerdict EQUIP_ERR_NONEMPTY_BAG_OVER_OTHER_BAG dest None)) →
  returns P (store_search bag slot p src false nsim d c).
Proof.
  intros Hsrc. unfold store_search, store_specific_slot, store_specific_bag, store_bag_merge,
    store_bag_free, store_merge, store_special, store_free. returns_tac. simpl. auto.
Qed.
End returns.

(** INVENTORY_FULL is only the answer when everything went on. *)
Lemma not_full_store_search bag slot p src nsim d c :
  returns (λ v, v_res v ≠ EQUIP_ERR_INVENTORY_FULL) (store_search bag slot p src false nsim d c).
Proof.
  apply returns_store_search; [|done]. intros ns [[res d'] c'] Hr. unfold settle. by repeat case_bool.
Qed.

(** A refusal reports a remainder, unless a non-empty bag is being moved. *)
Lemma reports_store_search bag slot p src nsim d c :
  src_not_empty_bag src = false →
  returns (λ v, v_res v = EQUIP_ERR_OK ∨ is_Some (v_no_space v))
    (store_search bag slot p src false nsim d c).
Proof.
  intros Hs. apply returns_store_search; [|congruence]. intros ns [[res d'] c'] Hr. unfold settle.
  repeat case_bool; simpl; eauto.
Qed.

(** Going on from the last phase means that the backpack was walked to its end. *)
Lemma fbind_Go f k d c : fbind f k = Go d c → ∃ d1 c1, f = Go d1 c1 ∧ k d1 c1 = Go d c.
Proof. destruct f as [v|d1 c1]; simpl; [done|]. eauto. Qed.

Lemma settle_Go nsim r d c : settle nsim r = Go d c → r = (EQUIP_ERR_OK, d, c) ∧ c ≠ 0.
Proof.
  destruct r as [[res d'] c']. unfold settle. repeat case_bool; try done. intros [= -> ->]. b2p.
  by apply is_ok_true in E as ->.
Qed.

Lemma try_bags_grows bags p m ns src sb ss nsim d c d' c' :
  try_bags bags (λ i d c, CanStoreItem_InBag i d p c m ns src sb ss) nsim d c = Go d' c' →
  ∀ x, x ∈ map pos d → x ∈ map pos d'.
Proof.
  revert d c. induction bags as [|i bags IH]; intros d c; simpl; [by intros [= -> _]|].
  intros (d1 & c1 & E1 & E2)%fbind_Go x Hx. apply (IH _ _ E2). revert E1.
  assert (x ∈ map pos (CanStoreItem_InBag i d p c m ns src sb ss).1.2) as Hin.
  { unfold CanStoreItem_InBag. case_bool; [done|]. destruct (GetBagByPos pl i) as [b|]; [|done].
    repeat (case_bool; [done|]).
    pose proof (scan_grows i (bag_slots (mem pl b)) (λ j, j =? ss) m p src d c x Hx).
    by destruct (scan_slots _ _ _ _ _ _ _ _). }
  unfold settle_bag. case_bool; [by intros [= <- _]|].
  intros [E1 _]%settle_Go. by rewrite E1 in Hin.
Qed.

Lemma store_free_exhausts bag slot p src nsim d c d' c' :
  store_free bag slot p src nsim d c = Go d' c' →
  free_taken src (range INVENTORY_SLOT_ITEM_START INVENTORY_SLOT_ITEM_END)
    (λ j, (INVENTORY_SLOT_BAG_0 =? bag) && (j =? slot)) d'.
Proof.
  unfold store_free. case_bool; [done|]. intros (d1 & c1 & E1 & E2)%fbind_Go.
  apply settle_Go in E1 as [E1 Hc1]. unfold CanStoreItem_InInventorySlots in E1. rewrite E in E1.
  pose proof (scan_exhausts (range INVENTORY_SLOT_ITEM_START INVENTORY_SLOT_ITEM_END)
    (λ j, (INVENTORY_SLOT_BAG_0 =? bag) && (j =? slot)) p src d c) as HX.
  destruct (scan_slots _ _ _ _ _ _ _ _) as [d2 c2]. injection E1 as -> ->.
  intros j Hj Hs Hw. eapply try_bags_grows; [exact E2|].
  apply HX; [by apply range_u8|done..].
Qed.

(** INVENTORY_FULL is the truth: when CanStoreItem answers it, every backpack slot
    (but a specific one that was asked for) holds an item in the way or is already
    used up by the proposed positions. *)
Theorem CanStoreItem_full bag slot entry count pItem :
  let v := CanStoreItem_entry bag slot [] entry count pItem false in
  v_res v = EQUIP_ERR_INVENTORY_FULL →
  ∀ j, INVENTORY_SLOT_ITEM_START ≤ j < INVENTORY_SLOT_ITEM_END →
  ¬ (bag = INVENTORY_SLOT_BAG_0 ∧ slot = j) →
  is_Some (item_in_way INVENTORY_SLOT_BAG_0 j pItem) ∨
  pack INVENTORY_SLOT_BAG_0 j ∈ map pos (v_dest v).
Proof.
  unfold CanStoreItem_entry. destruct (item_templates !! entry) as [p|]; [|done].
  do 2 (case_bool; [done|]).
  destruct (CanTakeMoreSimilarItems entry count pItem) as [[res w] lc] eqn:ER.
  case_bool.
  { simpl. intros ->. revert ER. unfold CanTakeMoreSimilarItems.
    destruct (item_templates !! entry); [|done]. repeat (case_bool; [done|]).
    case_bool; [|done]. destruct (sItemLimitCategoryStore !! _); [|done]. by case_bool. }
  set (c0 := if negb (is_ok res) then _ else _).
  pose proof (not_full_store_search bag slot p pItem (default 0 w) [] c0) as HN.
  destruct (store_search _ _ _ _ _ _ _ _) as [v|d c] eqn:ES; [by intros ?|].
  intros _ j Hj Hne. simpl. unfold store_search in ES.
  do 4 apply fbind_Go in ES as (? & ? & _ & ES). cbv beta in ES.
  destruct (item_in_way INVENTORY_SLOT_BAG_0 j pItem) eqn:Ew; [by left|right].
  eapply store_free_exhausts; [exact ES| | |done].
  - apply elem_of_seqZ. unfold INVENTORY_SLOT_ITEM_START, INVENTORY_SLOT_ITEM_END in *. lia.
  - apply andb_false_iff. destruct (Z.eqb_spec INVENTORY_SLOT_BAG_0 bag); [|by left].
    right. apply Z.eqb_neq. intros ->. by apply Hne.
Qed.
Lemma CanStoreItem_reports bag slot entry count pItem :
  src_not_empty_bag pItem = false →
  let v := CanStoreItem_entry bag slot [] entry count pItem false in
  v_res v = EQUIP_ERR_OK ∨ is_Some (v_no_space v).
Proof.
  intros Hs. unfold CanStoreItem_entry. destruct (item_templates !! entry) as [p|]; [|simpl; eauto].
  do 2 (case_bool; [simpl; eauto|]).
  destruct (CanTakeMoreSimilarItems entry count pItem) as [[res w] lc]. case_bool; [simpl; eauto|].
  set (c0 := if negb (is_ok res) then _ else _).
  pose proof (reports_store_search bag slot p pItem (default 0 w) [] c0 Hs) as HN.
  destruct (store_search _ _ _ _ _ _ _ _); [done|simpl; eauto].
Qed.

(** AddItem creates what it stores: within the limits, the number of items it goes on
    to create is the number its positions hold, and at most what was asked for. *)
Theorem AddItem_count itemId pProto count :
  mem_ok pl → item_templates !! itemId = Some pProto →
  in_s32 (Stackable pProto) → in_s32 (MaxCount pProto) →
  0 ≤ count < 2 ^ 32 → within_limits pProto count None →
  match AddItem itemId count with
  | Some (dest, created) => created = total cnt dest ∧ 0 < created ≤ count
  | None => True
  end.
Proof.
  intros Hm Ht Hst Hmx Hc Hl. unfold AddItem, CanStoreNewItem.
  pose proof (CanStoreItem_total NULL_BAG NULL_SLOT [] itemId pProto count None Hm) as HT.
  pose proof (CanStoreItem_reports NULL_BAG NULL_SLOT itemId count None eq_refl) as H4.
  destruct HT as (H1 & H2 & H3); [done..|by split; constructor|done|]. specialize (H3 Hmx Hl ltac:(cbn; lia)). cbn in H2, H3. cbv zeta in H4.
  set (v := CanStoreItem_entry _ _ _ _ _ _ _) in *.
  pose proof (total_cnt_nonneg _ _ _ (good_fits _ _ _ H1)).
  destruct (is_ok (v_res v)) eqn:Er; simpl.
  - apply is_ok_true in Er. specialize (H2 Er). case_bool; [done|]. b2p. lia.
  - apply is_ok_false in Er. destruct H4 as [?|[k Hk]]; [done|]. rewrite Hk. simpl.
    specialize (H3 k Hk). rewrite wrap_small by (unfold in_u; lia).
    case_bool; [done|]. b2p. lia.
Qed.
End player.

Section demo.
(** Two of a unique item in a backpack of sixteen slots. *)
Definition over_limit : Player :=
  demo_player {[ 23 := 31; 24 := 32 ]}
    {[ 31 := demo_item 31 relic 1 false 0 ∅; 32 := demo_item 32 relic 1 false 0 ∅ ]} false.

(** above the limit the refused amount exceeds the amount asked for and the
    subtraction wraps around: a player who holds two of an item limited to one and is
    given one more gets fourteen. *)
Theorem AddItem_over_limit :
  MaxCount relic = 1 ∧ GetItemCount over_limit 5 true None = 2 ∧
  CanTakeMoreSimilarItems over_limit 5 1 None = (EQUIP_ERR_CANT_CARRY_MORE_OF_THIS, Some 2, None) ∧
  (λ r, (length r.1, total cnt r.1, r.2)) <$> AddItem over_limit 5 1 = Some (14%nat, 14, 14).
Proof. by vm_compute. Qed.

Lemma carrier_limits : within_limits carrier cloth 25 None.
Proof. split; [done|intros limit HL; by vm_compute in HL]. Qed.

Lemma CanStoreItem_sound_witness :
  v_res (CanStoreItem_entry carrier NULL_BAG NULL_SLOT [] 1 25 None false) = EQUIP_ERR_OK ∧
  total cnt (v_dest (CanStoreItem_entry carrier NULL_BAG NULL_SLOT [] 1 25 None false)) = 25.
Proof.
  assert (v_res (CanStoreItem_entry carrier NULL_BAG NULL_SLOT [] 1 25 None false) = EQUIP_ERR_OK) as E
    by (vm_compute; reflexivity).
  split; [exact E|].
  apply (CanStoreItem_sound carrier NULL_BAG NULL_SLOT [] 1 cloth 25 None carrier_mem_ok);
    [done|done|reflexivity|done|split; constructor|lia|exact E].
Defined.

Lemma AddItem_count_witness :
  ∃ dest, AddItem carrier 1 25 = Some (dest, 25) ∧ 25 = total cnt dest.
Proof.
  pose proof (AddItem_count carrier 1 cloth 25 carrier_mem_ok) as H.
  destruct (AddItem carrier 1 25) as [[dest created]|] eqn:E; [|by vm_compute in E].
  assert (match AddItem carrier 1 25 with Some (_, n) => n | None => 0 end = 25) as EC
    by (vm_compute; reflexivity).
  rewrite E in EC. subst created. exists dest. split; [reflexivity|].
  apply H; [reflexivity|done|done|lia|exact carrier_limits].
Defined.

Lemma CanBankItem_sound_witness :
  ∃ dest, CanBankItem carrier NULL_BAG NULL_SLOT [] (Some 31) false true = (EQUIP_ERR_OK, dest)
          ∧ total cnt dest = 12.
Proof.
  pose proof (CanBankItem_sound carrier NULL_BAG NULL_SLOT 31 true carrier_mem_ok) as H.
  destruct (CanBankItem carrier NULL_BAG NULL_SLOT [] (Some 31) false true) as [res dest] eqn:E.
  assert ((CanBankItem carrier NULL_BAG NULL_SLOT [] (Some 31) false true).1 = EQUIP_ERR_OK) as ER
    by (vm_compute; reflexivity).
  rewrite E in ER. simpl in ER. subst res. exists dest. split; [reflexivity|].
  destruct H as [_ H]; [done|done|done|done|]. by apply H.
Defined.

(** A backpack full of swords. *)
Definition full_pack : Player :=
  demo_player (list_to_map (map (λ i, (i, 50)) (range 23 39)))
    {[ 50 := demo_item 50 sword 1 false 0 ∅ ]} false.

Lemma CanStoreItem_full_witness :
  v_res (CanStoreItem_entry full_pack NULL_BAG NULL_SLOT [] 1 5 None false) = EQUIP_ERR_INVENTORY_FULL
  ∧ is_Some (item_in_way full_pack INVENTORY_SLOT_BAG_0 30 None).
Proof.
  assert (v_res (CanStoreItem_entry full_pack NULL_BAG NULL_SLOT [] 1 5 None false)
          = EQUIP_ERR_INVENTORY_FULL) as E by (vm_compute; reflexivity).
  split; [exact E|].
  destruct (CanStoreItem_full full_pack NULL_BAG NULL_SLOT 1 5 None E 30) as [H|H]; [..|exact H|].
  - unfold INVENTORY_SLOT_ITEM_START, INVENTORY_SLOT_ITEM_END. lia.
  - intros [H _]. discriminate H.
  - exfalso. vm_compute in H. by apply not_elem_of_nil in H.
Defined.
End demo.
End Storage.
