(* ===== verification/StoreMany.v ===== *)
(** * Storing several items at once ([src/server/game/Entities/Player/Player.cpp])

    CanStoreItems: the check before a trade completes. It fills a table with the
    counts of the slots, treating the items in the trade window as gone, and books
    room for one item after the other in the table. *)
From S2P Require Import Prelude Items Inventory Storage.

Module StoreMany.
Export Storage.

Section player.
Context `{IE : ItemEnv}.
Variable pl : Player.

(** The four arrays of the code as one table from bag and slot; absent is 0. *)
Abbreviation place_t := (Z * Z)%type.
Abbreviation table := (gmap (Z * Z) Z).
Definition at_ (t : table) (p : place_t) : Z := default 0 (t !! p).

Definition item_at (p : place_t) : option ptr := GetItemByPos pl p.1 p.2.

Definition own_places (a b : Z) : list place_t := map (λ j, (INVENTORY_SLOT_BAG_0, j)) (range a b).
Definition bag_places (i : Z) : list place_t :=
  match GetBagByPos pl i with
  | Some pBag => map (λ j, (i, u8 j)) (bag_slots (mem pl pBag))
  | None => []
  end.

(** The table of what each slot holds, but for the items in trade. *)
Definition fill_space_table : table :=
  foldl (λ t p,
    match item_at p with
    | Some q => if negb (IsInTrade (mem pl q)) then <[p := GetCount (mem pl q)]> t else t
    | None => t
    end) ∅
    (own_places INVENTORY_SLOT_ITEM_START INVENTORY_SLOT_ITEM_END
     ++ own_places KEYRING_SLOT_START KEYRING_SLOT_END
     ++ own_places CURRENCYTOKEN_SLOT_START CURRENCYTOKEN_SLOT_END
     ++ concat (map bag_places (range INVENTORY_SLOT_BAG_START INVENTORY_SLOT_BAG_END))).

(** The first place of a list where the whole item can be added to a stack. *)
Fixpoint find_merge (ps : list place_t) (item : ptr) (t : table) : option (place_t * table) :=
  match ps with
  | [] => None
  | p :: ps =>
    let pProto := GetTemplate (mem pl item) in
    match item_at p with
    | Some q =>
      if is_ok (CanBeMergedPartlyWith (mem pl q) pProto)
         && (u32 (at_ t p + GetCount (mem pl item)) <=? GetMaxStackSize pProto)
      then Some (p, <[p := u32 (at_ t p + GetCount (mem pl item))]> t)
      else find_merge ps item t
    | None => find_merge ps item t
    end
  end.

(** The first place of a list whose count is 0, booked by a 1. *)
Fixpoint find_free (ps : list place_t) (t : table) : option (place_t * table) :=
  match ps with
  | [] => None
  | p :: ps => if at_ t p =? 0 then Some (p, <[p := 1]> t) else find_free ps t
  end.

Definition bags_where (ok : ItemTemplate → bool) : list place_t :=
  concat (map (λ i, match GetBagByPos pl i with
                    | Some pBag => if ok (GetTemplate (mem pl pBag)) then bag_places i else []
                    | None => []
                    end) (range INVENTORY_SLOT_BAG_START INVENTORY_SLOT_BAG_END)).

Definition merge_places (pProto : ItemTemplate) : list place_t :=
  own_places KEYRING_SLOT_START KEYRING_SLOT_END
  ++ own_places CURRENCYTOKEN_SLOT_START CURRENCYTOKEN_SLOT_END
  ++ own_places INVENTORY_SLOT_ITEM_START INVENTORY_SLOT_ITEM_END
  ++ bags_where (ItemCanGoIntoBag pProto).

Definition special_places (pProto : ItemTemplate) : list place_t :=
  (if BagFamily pProto .& BAG_FAMILY_MASK_KEYS
   then own_places KEYRING_SLOT_START (KEYRING_SLOT_START + GetMaxKeyringSize) else [])
  ++ (if IsCurrencyToken pProto then own_places CURRENCYTOKEN_SLOT_START CURRENCYTOKEN_SLOT_END else [])
  ++ bags_where (λ b, negb (is_plain_container b) && ItemCanGoIntoBag pProto b).

Definition free_places : list place_t :=
  own_places INVENTORY_SLOT_ITEM_START INVENTORY_SLOT_ITEM_END ++ bags_where is_plain_container.

Definition oor {A} (a b : option A) : option A := match a with Some _ => a | None => b end.

(** Book room for one item. *)
Definition book (item : ptr) (t : table) : option (place_t * table) :=
  let pProto := GetTemplate (mem pl item) in
  oor (if negb (Stackable pProto =? 1) then find_merge (merge_places pProto) item t else None)
    (oor (if negb (BagFamily pProto =? 0) then find_free (special_places pProto) t else None)
       (find_free free_places t)).

(** The result, what is written to [*itemLimitCategory], and (for the proofs) where
    each item was booked. *)
Fixpoint store_items (items : list (option ptr)) (t : table)
    : InventoryResult * option Z * list (ptr * place_t) :=
  match items with
  | [] => (EQUIP_ERR_OK, None, [])
  | None :: items => store_items items t
  | Some item :: items =>
    let it := mem pl item in
    if m_lootGenerated it then (EQUIP_ERR_ALREADY_LOOTED, None, [])
    else if IsBindedNotWith it (player_guid pl) then (EQUIP_ERR_DONT_OWN_THAT_ITEM, None, [])
    else
      let '(res, _, cat) := CanTakeMoreSimilarItems pl (GetEntry it) (GetCount it) (Some item) in
      if negb (is_ok res) then (res, cat, [])
      else match book item t with
           | None => (EQUIP_ERR_BAG_FULL, None, [])
           | Some (p, t') =>
             let '(res, cat, booked) := store_items items t' in (res, cat, (item, p) :: booked)
           end
  end.

Definition CanStoreItems (items : list (option ptr)) : InventoryResult * option Z :=
  (store_items items fill_space_table).1.

(** ** What OK means *)

(** Everything booked at place [p], and how many items that is. *)
Definition booked_at (p : place_t) (booked : list (ptr * place_t)) : list (ptr * place_t) :=
  filter (λ b, b.2 = p) booked.
Definition booked_count (p : place_t) (booked : list (ptr * place_t)) : Z :=
  total (λ b, GetCount (mem pl b.1)) (booked_at p booked).

(** The bookings can all be carried out: an empty place receives at most one item; at an
    occupied one the items are of its entry and together fit in its stack. *)
Definition feasible (booked : list (ptr * place_t)) : Prop :=
  ∀ p,
    match item_at p with
    | None => (length (booked_at p booked) ≤ 1)%nat
    | Some q => ∀ b, b ∈ booked_at p booked →
        GetEntry (mem pl b.1) = GetEntry (mem pl q) ∧
        GetCount (mem pl q) + booked_count p booked ≤ GetMaxStackSize (GetTemplate (mem pl b.1))
    end.

(** Memory as the server keeps it: templates are found by entry, stacks are not empty
    and fit in 31 bits; and nothing of the player's is in a trade window. *)
Record many_ok : Prop := {
  my_mem : mem_ok pl;
  my_template : ∀ q q', GetEntry (mem pl q) = GetEntry (mem pl q') →
    GetTemplate (mem pl q) = GetTemplate (mem pl q');
  my_stack : ∀ q, in_s32 (Stackable (GetTemplate (mem pl q)));
  my_count : ∀ q, 0 < GetCount (mem pl q) < 2 ^ 31;
  my_trade : ∀ p q, item_at p = Some q → IsInTrade (mem pl q) = false
}.

Definition covered : list place_t :=
  own_places INVENTORY_SLOT_ITEM_START INVENTORY_SLOT_ITEM_END
  ++ own_places KEYRING_SLOT_START KEYRING_SLOT_END
  ++ own_places CURRENCYTOKEN_SLOT_START CURRENCYTOKEN_SLOT_END
  ++ concat (map bag_places (range INVENTORY_SLOT_BAG_START INVENTORY_SLOT_BAG_END)).

(** The table agrees with what is stored and booked. *)
Definition agrees (t : table) (booked : list (ptr * place_t)) (p : place_t) : Prop :=
  match item_at p with
  | None => (at_ t p = 0 ∧ booked_at p booked = []) ∨
            (at_ t p = 1 ∧ length (booked_at p booked) = 1%nat)
  | Some q =>
    at_ t p = GetCount (mem pl q) + booked_count p booked ∧ at_ t p < 2 ^ 31 ∧
    ∀ b, b ∈ booked_at p booked →
      GetEntry (mem pl b.1) = GetEntry (mem pl q) ∧ at_ t p ≤ GetMaxStackSize (GetTemplate (mem pl b.1))
  end.
Definition table_inv (t : table) (booked : list (ptr * place_t)) : Prop :=
  (∀ p, p ∈ covered → agrees t booked p) ∧ (∀ p, p ∉ covered → booked_at p booked = []).

Lemma bags_where_covered ok p : p ∈ bags_where ok → p ∈ covered.
Proof.
  unfold bags_where, covered. rewrite !elem_of_app, !list_elem_of_In, !in_concat.
  intros (l & (i & <- & Hi)%in_map_iff & Hp). right. right. right.
  exists (bag_places i). split; [by apply in_map|].
  destruct (GetBagByPos pl i); [|done]. by case_bool.
Qed.

Lemma merge_places_covered pr p : p ∈ merge_places pr → p ∈ covered.
Proof.
  unfold merge_places. rewrite !elem_of_app.
  intros [H|[H|[H|H]]]; [..|by eapply bags_where_covered]; unfold covered; rewrite !elem_of_app; tauto.
Qed.

Lemma special_places_covered pr p : p ∈ special_places pr → p ∈ covered.
Proof.
  unfold special_places. rewrite !elem_of_app.
  intros [H|[H|H]]; [..|by eapply bags_where_covered]; case_bool;
    try (by apply not_elem_of_nil in H); unfold covered; rewrite !elem_of_app; tauto.
Qed.

Lemma free_places_covered p : p ∈ free_places → p ∈ covered.
Proof.
  unfold free_places. rewrite !elem_of_app.
  intros [H|H]; [|by eapply bags_where_covered]. unfold covered. rewrite !elem_of_app. tauto.
Qed.

Lemma find_merge_spec ps item t p t' :
  find_merge ps item t = Some (p, t') →
  p ∈ ps ∧ ∃ q, item_at p = Some q ∧
    CanBeMergedPartlyWith (mem pl q) (GetTemplate (mem pl item)) = EQUIP_ERR_OK ∧
    u32 (at_ t p + GetCount (mem pl item)) ≤ GetMaxStackSize (GetTemplate (mem pl item)) ∧
    t' = <[p := u32 (at_ t p + GetCount (mem pl item))]> t.
Proof.
  induction ps as [|x ps IH]; simpl; [done|].
  destruct (item_at x) as [q|] eqn:Eq; [case_bool|].
  - intros [= <- <-]. b2p. apply is_ok_true in H. split; [left|]. eauto 6.
  - intros H. destruct (IH H) as [? ?]. split; [by right|done].
  - intros H. destruct (IH H) as [? ?]. split; [by right|done].
Qed.

Lemma find_free_spec ps t p t' :
  find_free ps t = Some (p, t') → p ∈ ps ∧ at_ t p = 0 ∧ t' = <[p := 1]> t.
Proof.
  induction ps as [|x ps IH]; simpl; [done|]. case_bool.
  - intros [= <- <-]. b2p. split; [left|done].
  - intros H. destruct (IH H) as [? ?]. split; [by right|done].
Qed.

Lemma at_insert t p x p' : at_ (<[p := x]> t) p' = if decide (p = p') then x else at_ t p'.
Proof.
  unfold at_. case_decide; [subst; by rewrite lookup_insert_eq|by rewrite lookup_insert_ne].
Qed.

Lemma booked_at_snoc p booked item p' :
  booked_at p (booked ++ [(item, p')])
  = booked_at p booked ++ if decide (p' = p) then [(item, p')] else [].
Proof. unfold booked_at. rewrite filter_app. simpl. by rewrite filter_cons, filter_nil. Qed.

(** One booking keeps the agreement. *)
Lemma book_inv item t p t' booked :
  many_ok → table_inv t booked → book item t = Some (p, t') →
  table_inv t' (booked ++ [(item, p)]).
Proof.
  intros Hm [Hin Hout] Hb.
  assert (p ∈ covered ∧
    ((∃ q, item_at p = Some q ∧
       CanBeMergedPartlyWith (mem pl q) (GetTemplate (mem pl item)) = EQUIP_ERR_OK ∧
       u32 (at_ t p + GetCount (mem pl item)) ≤ GetMaxStackSize (GetTemplate (mem pl item)) ∧
       t' = <[p := u32 (at_ t p + GetCount (mem pl item))]> t) ∨
     (at_ t p = 0 ∧ t' = <[p := 1]> t))) as [Hp Hcase].
  { unfold book in Hb.
    destruct (if negb (Stackable _ =? 1) then _ else _) as [[p0 t0]|] eqn:E1; cbn [oor] in Hb.
    { injection Hb as -> ->. case_bool; [|done]. apply find_merge_spec in E1 as [Hp Hq].
      split; [by eapply merge_places_covered|by left]. }
    destruct (if negb (BagFamily _ =? 0) then _ else _) as [[p0 t0]|] eqn:E2; cbn [oor] in Hb.
    { injection Hb as -> ->. case_bool; [|done]. apply find_free_spec in E2 as [Hp Hq].
      split; [by eapply special_places_covered|by right]. }
    apply find_free_spec in Hb as [Hp Hq]. split; [by apply free_places_covered|by right]. }
  split.
  2:{ intros x Hx. rewrite booked_at_snoc, Hout by done. case_decide; [by subst|done]. }
  intros x Hx. specialize (Hin x Hx).
  destruct (decide (p = x)) as [<-|Hne].
  2:{ assert (at_ t' x = at_ t x) as E.
      { destruct Hcase as [(q & _ & _ & _ & ->)|[_ ->]]; rewrite at_insert; by case_decide. }
      unfold agrees, booked_count in *. rewrite booked_at_snoc, decide_False, app_nil_r, E by done.
      exact Hin. }
  unfold agrees, booked_count in *. rewrite booked_at_snoc, decide_True by done.
  destruct Hcase as [(q & Hq & Hmerge & Hle & ->)|[H0 ->]].
  - rewrite Hq in *. destruct Hin as (Ht & Hlt & Hb').
    apply CanBeMergedPartlyWith_ok in Hmerge as (HE & _ & _).
    pose proof (my_count Hm item). pose proof (my_count Hm q).
    assert (u32 (at_ t p + GetCount (mem pl item)) = at_ t p + GetCount (mem pl item)) as EW.
    { apply wrap_small. unfold in_u.
      assert (0 ≤ total (λ b : ptr * place_t, GetCount (mem pl b.1)) (booked_at p booked)).
      { apply total_nonneg. intros b. apply (mo_count _ (my_mem Hm)). } lia. }
    rewrite EW in *. rewrite at_insert, decide_True by done. rewrite total_app. simpl.
    pose proof (GetMaxStackSize_range _ (my_stack Hm item)).
    split_and!; [lia|lia|]. intros b [Hb1|Hb1%list_elem_of_singleton]%elem_of_app.
    + destruct (Hb' b Hb1) as [EB _]. split; [done|].
      rewrite (my_template Hm b.1 item); [done|]. rewrite EB, HE. done.
    + subst b. simpl. split; [by rewrite HE|done].
  - destruct (item_at p) as [q|] eqn:Hq.
    + destruct Hin as (Ht & _ & _). pose proof (my_count Hm q).
      assert (0 ≤ total (λ b : ptr * place_t, GetCount (mem pl b.1)) (booked_at p booked)).
      { apply total_nonneg. intros b. apply (mo_count _ (my_mem Hm)). } lia.
    + right. rewrite at_insert, decide_True by done. split; [done|].
      destruct Hin as [[_ ->]|[H1 _]]; [done|lia].
Qed.

Lemma fill_inv : many_ok → table_inv fill_space_table [].
Proof.
  intros Hm. split; [|done]. intros p Hp. unfold fill_space_table. fold covered.
  assert (∀ l t, at_ (foldl (λ t p, match item_at p with
      | Some q => if negb (IsInTrade (mem pl q)) then <[p := GetCount (mem pl q)]> t else t
      | None => t end) t l) p
    = if decide (p ∈ l) then match item_at p with Some q => GetCount (mem pl q) | None => at_ t p end
      else at_ t p) as Hfold.
  { induction l as [|x l IH]; intros t; [by rewrite decide_False by apply not_elem_of_nil|].
    simpl. rewrite IH. clear IH.
    assert (p ∈ x :: l ↔ p = x ∨ p ∈ l) as Hc by apply elem_of_cons.
    destruct (decide (p ∈ l)), (decide (p ∈ x :: l)); try tauto.
    - destruct (item_at p) eqn:Ep; [done|]. destruct (item_at x) as [q|] eqn:Ex; [|done].
      case_bool; [|done]. rewrite at_insert, decide_False; [done|congruence].
    - destruct Hc as [[->|] _]; [done| |done].
      destruct (item_at x) as [q|] eqn:Ex; [|done].
      rewrite (my_trade Hm x q Ex). simpl. by rewrite at_insert, decide_True.
    - assert (x ≠ p) by (intros ->; tauto). destruct (item_at x) as [q|]; [|done].
      case_bool; [|done]. by rewrite at_insert, decide_False. }
  unfold agrees. rewrite Hfold, decide_True by done. unfold booked_count. simpl.
  destruct (item_at p) as [q|] eqn:Eq.
  - pose proof (my_count Hm q). split_and!; [lia|lia|]. intros b Hb. by apply not_elem_of_nil in Hb.
  - left. done.
Qed.

Lemma store_items_inv items t booked :
  many_ok → table_inv t booked →
  let '(_, _, b) := store_items items t in ∃ t', table_inv t' (booked ++ b).
Proof.
  intros Hm. revert t booked. induction items as [|[item|] items IH]; intros t booked Ht; simpl.
  - exists t. by rewrite app_nil_r.
  - assert (∃ t', table_inv t' (booked ++ [])) as Hstop by (exists t; by rewrite app_nil_r).
    do 2 (case_bool; [done|]).
    destruct (CanTakeMoreSimilarItems _ _ _ _) as [[res w] cat]. case_bool; [done|].
    destruct (book item t) as [[p t']|] eqn:Hb; [|done].
    specialize (IH t' _ (book_inv item t p t' booked Hm Ht Hb)).
    destruct (store_items items t') as [[r c] b]. destruct IH as [t2 H2]. exists t2.
    by rewrite <- app_assoc in H2.
  - by apply IH.
Qed.

(** C25: CanStoreItems, with nothing in the trade window: a positive answer comes with a
    booking of every item that can be carried out: an empty slot is booked at most
    once, and the items booked onto a stack are of its entry and together fit. *)
Theorem CanStoreItems_sound items :
  many_ok → (CanStoreItems items).1 = EQUIP_ERR_OK →
  let booked := (store_items items fill_space_table).2 in
  map fst booked = omap id items ∧ feasible booked.
Proof.
  intros Hm Hok. pose proof (store_items_inv items fill_space_table [] Hm (fill_inv Hm)) as HI.
  unfold CanStoreItems in Hok. simpl. split.
  - clear HI. revert Hok. generalize fill_space_table as t.
    induction items as [|[item|] items IH]; intros t; simpl; [done| |apply IH].
    do 2 (case_bool; [done|]).
    destruct (CanTakeMoreSimilarItems _ _ _ _) as [[res w] cat].
    destruct (is_ok res) eqn:Er; simpl; [|intros ->; by apply is_ok_false in Er].
    destruct (book item t) as [[p t']|]; [|done]. specialize (IH t').
    destruct (store_items items t') as [[r c] b]. simpl in *. intros Hr. f_equal. by apply IH.
  - destruct (store_items items fill_space_table) as [[r c] b]. destruct HI as [t [Hin Hout]].
    simpl in *. intros p. destruct (decide (p ∈ covered)) as [Hp|Hp].
    + specialize (Hin p Hp). unfold agrees in Hin. destruct (item_at p) as [q|].
      * destruct Hin as (E & _ & Hb). intros x Hx. destruct (Hb x Hx). by rewrite <- E.
      * destruct Hin as [[_ ->]|[_ ->]]; simpl; lia.
    + rewrite Hout by done. destruct (item_at p); [|simpl; lia].
      intros x Hx. by apply not_elem_of_nil in Hx.
Qed.

End player.

Section demo.
Lemma carrier_many_ok : many_ok carrier.
Proof.
  split.
  - exact carrier_mem_ok.
  - intros q q'.
    assert (∀ q, GetTemplate (mem carrier q) = cloth ∨ GetTemplate (mem carrier q) = sword
                 ∨ GetTemplate (mem carrier q) = satchel) as HT.
    { apply (demo_mem (λ it, GetTemplate it = cloth ∨ GetTemplate it = sword ∨ GetTemplate it = satchel));
        [by right; left|].
      intros i it. rewrite !lookup_insert_Some, lookup_singleton_Some.
      intros [[_ <-]|[_ [[_ <-]|[_ [_ <-]]]]]; [by right; right|by left|by left]. }
    unfold GetEntry. destruct (HT q) as [->|[->| ->]], (HT q') as [->|[->| ->]]; done.
  - apply (demo_mem (λ it, in_s32 (Stackable (GetTemplate it)))); [done|].
    apply (bool_decide_eq_true_1 _). by vm_compute.
  - apply (demo_mem (λ it, 0 < GetCount it < 2 ^ 31)); [done|].
    apply (bool_decide_eq_true_1 _). by vm_compute.
  - intros p q _. revert q. apply (demo_mem (λ it, IsInTrade it = false)); [done|].
    apply (bool_decide_eq_true_1 _). by vm_compute.
Qed.

Lemma CanStoreItems_sound_witness :
  (CanStoreItems carrier [Some 32; None; Some 50]).1 = EQUIP_ERR_OK ∧
  feasible carrier (store_items carrier [Some 32; None; Some 50] (fill_space_table carrier)).2.
Proof.
  assert ((CanStoreItems carrier [Some 32; None; Some 50]).1 = EQUIP_ERR_OK) as E
    by (vm_compute; reflexivity).
  split; [exact E|].
  exact (proj2 (CanStoreItems_sound carrier [Some 32; None; Some 50] carrier_many_ok E)).
Defined.

(** A backpack with one slot left for the trade: five cloth that are being traded
    away; a sword and fifteen cloth come in. *)
Definition trader (last : ptr) : Player :=
  demo_player (<[38 := last]> (list_to_map (map (λ i, (i, 50)) (range 23 38))))
    {[ 50 := demo_item 50 sword 1 false 0 ∅; 51 := demo_item 51 cloth 5 true 0 ∅;
       52 := demo_item 52 sword 1 false 0 ∅; 53 := demo_item 53 cloth 15 false 0 ∅ ]} false.

(** with items in the trade window the check is too generous: both incoming items are
    booked into the one slot that becomes free (the sword takes it, the cloth is added to
    the stack that leaves), and CanStoreItems answers OK; once the sword is in the slot
    there is no room for the cloth. *)
Theorem CanStoreItems_overbooks :
  (CanStoreItems (trader 51) [Some 52; Some 53]).1 = EQUIP_ERR_OK ∧
  map snd (store_items (trader 51) [Some 52; Some 53] (fill_space_table (trader 51))).2
  = [(INVENTORY_SLOT_BAG_0, 38); (INVENTORY_SLOT_BAG_0, 38)] ∧
  v_res (CanStoreItem (trader 52) NULL_BAG NULL_SLOT [] (Some 53) false) = EQUIP_ERR_INVENTORY_FULL.
Proof. by vm_compute. Qed.
End demo.
End StoreMany.
