(* ===== verification/MoveData.v ===== *)
(** * The inventory in motion ([src/server/game/Entities/Player/Player.cpp], [Entities/Item/Item.cpp])

    The state that the operations on the inventory change. The queries (Items.v,
    Inventory.v, Storage.v) read the fields of [Item] and of [Player]; [ItemState] holds
    the other fields of an item. An item exists at an address while [states] has an
    entry for it: [delete] removes the entry, and every later use of the pointer is
    [BadPtr].

    Stats, auras, quests, achievements and packets belong to other components; what the
    code tells them is kept as a list of [effect]s where it depends on the item. The
    client's view of the world, item text and the database are left out. *)
From S2P Require Import Prelude StateMonad Items Inventory Storage.

Module MoveData.
Export Storage.

Inductive ItemUpdateState := ITEM_UNCHANGED | ITEM_CHANGED | ITEM_NEW | ITEM_REMOVED.
#[export] Instance ItemUpdateState_eq_dec : EqDecision ItemUpdateState.
Proof. solve_decision. Defined.

(** ** Fields that change *)
Definition set_GetCount (r : Item) (x : Z) : Item := mkItem
  (guid r) (GetTemplate r) x (m_slot r) (m_lootGenerated r) (mb_in_trade r) (IsSoulBound r)
    (bop_tradeable r) (owner r) (allowedGUIDs r) (max_durability r) (durability r) (enchantments r)
    (bag_num_slots r) (m_bagslot r).
Definition set_m_slot (r : Item) (x : Z) : Item := mkItem
  (guid r) (GetTemplate r) (GetCount r) x (m_lootGenerated r) (mb_in_trade r) (IsSoulBound r)
    (bop_tradeable r) (owner r) (allowedGUIDs r) (max_durability r) (durability r) (enchantments r)
    (bag_num_slots r) (m_bagslot r).
Definition set_m_lootGenerated (r : Item) (x : bool) : Item := mkItem
  (guid r) (GetTemplate r) (GetCount r) (m_slot r) x (mb_in_trade r) (IsSoulBound r)
    (bop_tradeable r) (owner r) (allowedGUIDs r) (max_durability r) (durability r) (enchantments r)
    (bag_num_slots r) (m_bagslot r).
Definition set_IsSoulBound (r : Item) (x : bool) : Item := mkItem
  (guid r) (GetTemplate r) (GetCount r) (m_slot r) (m_lootGenerated r) (mb_in_trade r) x
    (bop_tradeable r) (owner r) (allowedGUIDs r) (max_durability r) (durability r) (enchantments r)
    (bag_num_slots r) (m_bagslot r).
Definition set_bop_tradeable (r : Item) (x : bool) : Item := mkItem
  (guid r) (GetTemplate r) (GetCount r) (m_slot r) (m_lootGenerated r) (mb_in_trade r) (IsSoulBound
    r) x (owner r) (allowedGUIDs r) (max_durability r) (durability r) (enchantments r)
    (bag_num_slots r) (m_bagslot r).
Definition set_owner (r : Item) (x : Z) : Item := mkItem
  (guid r) (GetTemplate r) (GetCount r) (m_slot r) (m_lootGenerated r) (mb_in_trade r) (IsSoulBound
    r) (bop_tradeable r) x (allowedGUIDs r) (max_durability r) (durability r) (enchantments r)
    (bag_num_slots r) (m_bagslot r).
Definition set_allowedGUIDs (r : Item) (x : gset Z) : Item := mkItem
  (guid r) (GetTemplate r) (GetCount r) (m_slot r) (m_lootGenerated r) (mb_in_trade r) (IsSoulBound
    r) (bop_tradeable r) (owner r) x (max_durability r) (durability r) (enchantments r)
    (bag_num_slots r) (m_bagslot r).
Definition set_enchantments (r : Item) (x : gmap Z Z) : Item := mkItem
  (guid r) (GetTemplate r) (GetCount r) (m_slot r) (m_lootGenerated r) (mb_in_trade r) (IsSoulBound
    r) (bop_tradeable r) (owner r) (allowedGUIDs r) (max_durability r) (durability r) x
    (bag_num_slots r) (m_bagslot r).
Definition set_m_bagslot (r : Item) (x : gmap Z ptr) : Item := mkItem
  (guid r) (GetTemplate r) (GetCount r) (m_slot r) (m_lootGenerated r) (mb_in_trade r) (IsSoulBound
    r) (bop_tradeable r) (owner r) (allowedGUIDs r) (max_durability r) (durability r) (enchantments
    r) (bag_num_slots r) x.
Definition set_m_items (r : Player) (x : gmap Z ptr) : Player := mkPlayer
  (player_guid r) x (mem r) (disarmed r) (disarmed_offhand r) (disarmed_ranged r) (IsInFeralForm r)
    (IsAlive r) (IsCharmed r) (IsInCombat r) (in_running_arena r) (GetBankBagSlotCount r) (GetOTeam
    r) (getClass r) (getClassMask r) (getORaceMask r) (getLevel r) (skills r) (spells r)
    (reputation_rank r) (m_lastPotionId r) (active_holidays r).
Definition set_mem (r : Player) (x : ptr → Item) : Player := mkPlayer
  (player_guid r) (m_items r) x (disarmed r) (disarmed_offhand r) (disarmed_ranged r) (IsInFeralForm
    r) (IsAlive r) (IsCharmed r) (IsInCombat r) (in_running_arena r) (GetBankBagSlotCount r)
    (GetOTeam r) (getClass r) (getClassMask r) (getORaceMask r) (getLevel r) (skills r) (spells r)
    (reputation_rank r) (m_lastPotionId r) (active_holidays r).

(** The other fields of an item. *)
Record ItemState := mkState {
  m_container : option ptr;             (* the bag it is in *)
  contained : Z;                        (* ITEM_FIELD_CONTAINED *)
  uState : ItemUpdateState;
  uQueuePos : Z;                        (* int16; -1: not in the update queue *)
  refundable : bool;                    (* ITEM_FLAG_REFUNDABLE *)
  wrapped : bool;                       (* ITEM_FLAG_WRAPPED *)
  item_duration : Z;                    (* ITEM_FIELD_DURATION *)
  enchantment_durations : gmap Z Z;     (* slot -> GetEnchantmentDuration *)
  GetItemRandomPropertyId : Z;
  GetItemSuffixFactor : Z;              (* ITEM_FIELD_PROPERTY_SEED *)
  played_time : Z;                      (* ITEM_FIELD_CREATE_PLAYED_TIME *)
  m_lastPlayedTimeUpdate : Z;
  isLooted : bool                       (* loot.isLooted() *)
}.
Definition set_m_container (r : ItemState) (x : option ptr) : ItemState := mkState
  x (contained r) (uState r) (uQueuePos r) (refundable r) (wrapped r) (item_duration r)
    (enchantment_durations r) (GetItemRandomPropertyId r) (GetItemSuffixFactor r) (played_time r)
    (m_lastPlayedTimeUpdate r) (isLooted r).
Definition set_contained (r : ItemState) (x : Z) : ItemState := mkState
  (m_container r) x (uState r) (uQueuePos r) (refundable r) (wrapped r) (item_duration r)
    (enchantment_durations r) (GetItemRandomPropertyId r) (GetItemSuffixFactor r) (played_time r)
    (m_lastPlayedTimeUpdate r) (isLooted r).
Definition set_uState (r : ItemState) (x : ItemUpdateState) : ItemState := mkState
  (m_container r) (contained r) x (uQueuePos r) (refundable r) (wrapped r) (item_duration r)
    (enchantment_durations r) (GetItemRandomPropertyId r) (GetItemSuffixFactor r) (played_time r)
    (m_lastPlayedTimeUpdate r) (isLooted r).
Definition set_uQueuePos (r : ItemState) (x : Z) : ItemState := mkState
  (m_container r) (contained r) (uState r) x (refundable r) (wrapped r) (item_duration r)
    (enchantment_durations r) (GetItemRandomPropertyId r) (GetItemSuffixFactor r) (played_time r)
    (m_lastPlayedTimeUpdate r) (isLooted r).
Definition set_refundable (r : ItemState) (x : bool) : ItemState := mkState
  (m_container r) (contained r) (uState r) (uQueuePos r) x (wrapped r) (item_duration r)
    (enchantment_durations r) (GetItemRandomPropertyId r) (GetItemSuffixFactor r) (played_time r)
    (m_lastPlayedTimeUpdate r) (isLooted r).
Definition set_wrapped (r : ItemState) (x : bool) : ItemState := mkState
  (m_container r) (contained r) (uState r) (uQueuePos r) (refundable r) x (item_duration r)
    (enchantment_durations r) (GetItemRandomPropertyId r) (GetItemSuffixFactor r) (played_time r)
    (m_lastPlayedTimeUpdate r) (isLooted r).
Definition set_item_duration (r : ItemState) (x : Z) : ItemState := mkState
  (m_container r) (contained r) (uState r) (uQueuePos r) (refundable r) (wrapped r) x
    (enchantment_durations r) (GetItemRandomPropertyId r) (GetItemSuffixFactor r) (played_time r)
    (m_lastPlayedTimeUpdate r) (isLooted r).
Definition set_enchantment_durations (r : ItemState) (x : gmap Z Z) : ItemState := mkState
  (m_container r) (contained r) (uState r) (uQueuePos r) (refundable r) (wrapped r) (item_duration
    r) x (GetItemRandomPropertyId r) (GetItemSuffixFactor r) (played_time r) (m_lastPlayedTimeUpdate
    r) (isLooted r).
Definition set_GetItemRandomPropertyId (r : ItemState) (x : Z) : ItemState := mkState
  (m_container r) (contained r) (uState r) (uQueuePos r) (refundable r) (wrapped r) (item_duration
    r) (enchantment_durations r) x (GetItemSuffixFactor r) (played_time r) (m_lastPlayedTimeUpdate
    r) (isLooted r).
Definition set_GetItemSuffixFactor (r : ItemState) (x : Z) : ItemState := mkState
  (m_container r) (contained r) (uState r) (uQueuePos r) (refundable r) (wrapped r) (item_duration
    r) (enchantment_durations r) (GetItemRandomPropertyId r) x (played_time r)
    (m_lastPlayedTimeUpdate r) (isLooted r).
Definition set_played_time (r : ItemState) (x : Z) : ItemState := mkState
  (m_container r) (contained r) (uState r) (uQueuePos r) (refundable r) (wrapped r) (item_duration
    r) (enchantment_durations r) (GetItemRandomPropertyId r) (GetItemSuffixFactor r) x
    (m_lastPlayedTimeUpdate r) (isLooted r).
Definition set_m_lastPlayedTimeUpdate (r : ItemState) (x : Z) : ItemState := mkState
  (m_container r) (contained r) (uState r) (uQueuePos r) (refundable r) (wrapped r) (item_duration
    r) (enchantment_durations r) (GetItemRandomPropertyId r) (GetItemSuffixFactor r) (played_time r)
    x (isLooted r).
Definition set_isLooted (r : ItemState) (x : bool) : ItemState := mkState
  (m_container r) (contained r) (uState r) (uQueuePos r) (refundable r) (wrapped r) (item_duration
    r) (enchantment_durations r) (GetItemRandomPropertyId r) (GetItemSuffixFactor r) (played_time r)
    (m_lastPlayedTimeUpdate r) x.

(** What other components are told. *)
Inductive effect :=
| SendEquipError (msg : InventoryResult)
| SendSellError (msg : Z)
| SendBuyError (msg : Z)
| ItemAddedQuestCheck (entry count : Z)
| ItemRemovedQuestCheck (entry count : Z)
| ApplyItemMods (item : ptr) (slot : Z) (apply : bool)
| AddKnownCurrency (entry : Z)
| SendMail (item : ptr)
| SendLootRelease (g : Z).

(** The player with everything that the operations change. *)
Record Mover := mkMover {
  pl : Player;                          (* what the queries read *)
  states : gmap ptr ItemState;          (* the items that exist *)
  next_address : ptr;
  next_guid : Z;                        (* ObjectMgr::GenerateLowGuid *)
  m_itemUpdateQueue : list (option ptr);
  m_itemUpdateQueueBlocked : bool;
  m_itemDuration : list ptr;
  m_enchantDuration : list (ptr * Z * Z); (* item, slot, time left *)
  m_itemSoulboundTradeable : list ptr;
  m_refundableItems : gset Z;
  buyback_price : gmap Z Z;             (* PLAYER_FIELD_BUYBACK_PRICE_1 *)
  buyback_timestamp : gmap Z Z;         (* PLAYER_FIELD_BUYBACK_TIMESTAMP_1 *)
  m_currentBuybackSlot : Z;
  GetMoney : Z;
  m_weaponChangeTimer : Z;
  mailed : list ptr;                    (* items that were sent to the player by mail *)
  now : Z;                              (* time(NULL) *)
  m_logintime : Z;
  GetTotalPlayedTime : Z;
  CanDualWield : bool;
  CanTitanGrip : bool;
  stunned : bool;                       (* UNIT_STATE_STUNNED *)
  IsNonMeleeSpellCast : bool;
  InArena : bool;
  traded : gset Z;                      (* guids of the items in the trade window *)
  GetLootGUID : Z;
  CanUseBank : bool;
  at_vendor : bool;                     (* GetNPCIfCanInteractWith answers a vendor *)
  effects : list effect                 (* newest first *)
}.
Definition set_pl (r : Mover) (x : Player) : Mover := mkMover
  x (states r) (next_address r) (next_guid r) (m_itemUpdateQueue r) (m_itemUpdateQueueBlocked r)
    (m_itemDuration r) (m_enchantDuration r) (m_itemSoulboundTradeable r) (m_refundableItems r)
    (buyback_price r) (buyback_timestamp r) (m_currentBuybackSlot r) (GetMoney r)
    (m_weaponChangeTimer r) (mailed r) (now r) (m_logintime r) (GetTotalPlayedTime r) (CanDualWield
    r) (CanTitanGrip r) (stunned r) (IsNonMeleeSpellCast r) (InArena r) (traded r) (GetLootGUID r)
    (CanUseBank r) (at_vendor r) (effects r).
Definition set_states (r : Mover) (x : gmap ptr ItemState) : Mover := mkMover
  (pl r) x (next_address r) (next_guid r) (m_itemUpdateQueue r) (m_itemUpdateQueueBlocked r)
    (m_itemDuration r) (m_enchantDuration r) (m_itemSoulboundTradeable r) (m_refundableItems r)
    (buyback_price r) (buyback_timestamp r) (m_currentBuybackSlot r) (GetMoney r)
    (m_weaponChangeTimer r) (mailed r) (now r) (m_logintime r) (GetTotalPlayedTime r) (CanDualWield
    r) (CanTitanGrip r) (stunned r) (IsNonMeleeSpellCast r) (InArena r) (traded r) (GetLootGUID r)
    (CanUseBank r) (at_vendor r) (effects r).
Definition set_next_address (r : Mover) (x : ptr) : Mover := mkMover
  (pl r) (states r) x (next_guid r) (m_itemUpdateQueue r) (m_itemUpdateQueueBlocked r)
    (m_itemDuration r) (m_enchantDuration r) (m_itemSoulboundTradeable r) (m_refundableItems r)
    (buyback_price r) (buyback_timestamp r) (m_currentBuybackSlot r) (GetMoney r)
    (m_weaponChangeTimer r) (mailed r) (now r) (m_logintime r) (GetTotalPlayedTime r) (CanDualWield
    r) (CanTitanGrip r) (stunned r) (IsNonMeleeSpellCast r) (InArena r) (traded r) (GetLootGUID r)
    (CanUseBank r) (at_vendor r) (effects r).
Definition set_next_guid (r : Mover) (x : Z) : Mover := mkMover
  (pl r) (states r) (next_address r) x (m_itemUpdateQueue r) (m_itemUpdateQueueBlocked r)
    (m_itemDuration r) (m_enchantDuration r) (m_itemSoulboundTradeable r) (m_refundableItems r)
    (buyback_price r) (buyback_timestamp r) (m_currentBuybackSlot r) (GetMoney r)
    (m_weaponChangeTimer r) (mailed r) (now r) (m_logintime r) (GetTotalPlayedTime r) (CanDualWield
    r) (CanTitanGrip r) (stunned r) (IsNonMeleeSpellCast r) (InArena r) (traded r) (GetLootGUID r)
    (CanUseBank r) (at_vendor r) (effects r).
Definition set_m_itemUpdateQueue (r : Mover) (x : list (option ptr)) : Mover := mkMover
  (pl r) (states r) (next_address r) (next_guid r) x (m_itemUpdateQueueBlocked r) (m_itemDuration r)
    (m_enchantDuration r) (m_itemSoulboundTradeable r) (m_refundableItems r) (buyback_price r)
    (buyback_timestamp r) (m_currentBuybackSlot r) (GetMoney r) (m_weaponChangeTimer r) (mailed r)
    (now r) (m_logintime r) (GetTotalPlayedTime r) (CanDualWield r) (CanTitanGrip r) (stunned r)
    (IsNonMeleeSpellCast r) (InArena r) (traded r) (GetLootGUID r) (CanUseBank r) (at_vendor r)
    (effects r).
Definition set_m_itemDuration (r : Mover) (x : list ptr) : Mover := mkMover
  (pl r) (states r) (next_address r) (next_guid r) (m_itemUpdateQueue r) (m_itemUpdateQueueBlocked
    r) x (m_enchantDuration r) (m_itemSoulboundTradeable r) (m_refundableItems r) (buyback_price r)
    (buyback_timestamp r) (m_currentBuybackSlot r) (GetMoney r) (m_weaponChangeTimer r) (mailed r)
    (now r) (m_logintime r) (GetTotalPlayedTime r) (CanDualWield r) (CanTitanGrip r) (stunned r)
    (IsNonMeleeSpellCast r) (InArena r) (traded r) (GetLootGUID r) (CanUseBank r) (at_vendor r)
    (effects r).
Definition set_m_enchantDuration (r : Mover) (x : list (ptr * Z * Z)) : Mover := mkMover
  (pl r) (states r) (next_address r) (next_guid r) (m_itemUpdateQueue r) (m_itemUpdateQueueBlocked
    r) (m_itemDuration r) x (m_itemSoulboundTradeable r) (m_refundableItems r) (buyback_price r)
    (buyback_timestamp r) (m_currentBuybackSlot r) (GetMoney r) (m_weaponChangeTimer r) (mailed r)
    (now r) (m_logintime r) (GetTotalPlayedTime r) (CanDualWield r) (CanTitanGrip r) (stunned r)
    (IsNonMeleeSpellCast r) (InArena r) (traded r) (GetLootGUID r) (CanUseBank r) (at_vendor r)
    (effects r).
Definition set_m_itemSoulboundTradeable (r : Mover) (x : list ptr) : Mover := mkMover
  (pl r) (states r) (next_address r) (next_guid r) (m_itemUpdateQueue r) (m_itemUpdateQueueBlocked
    r) (m_itemDuration r) (m_enchantDuration r) x (m_refundableItems r) (buyback_price r)
    (buyback_timestamp r) (m_currentBuybackSlot r) (GetMoney r) (m_weaponChangeTimer r) (mailed r)
    (now r) (m_logintime r) (GetTotalPlayedTime r) (CanDualWield r) (CanTitanGrip r) (stunned r)
    (IsNonMeleeSpellCast r) (InArena r) (traded r) (GetLootGUID r) (CanUseBank r) (at_vendor r)
    (effects r).
Definition set_m_refundableItems (r : Mover) (x : gset Z) : Mover := mkMover
  (pl r) (states r) (next_address r) (next_guid r) (m_itemUpdateQueue r) (m_itemUpdateQueueBlocked
    r) (m_itemDuration r) (m_enchantDuration r) (m_itemSoulboundTradeable r) x (buyback_price r)
    (buyback_timestamp r) (m_currentBuybackSlot r) (GetMoney r) (m_weaponChangeTimer r) (mailed r)
    (now r) (m_logintime r) (GetTotalPlayedTime r) (CanDualWield r) (CanTitanGrip r) (stunned r)
    (IsNonMeleeSpellCast r) (InArena r) (traded r) (GetLootGUID r) (CanUseBank r) (at_vendor r)
    (effects r).
Definition set_buyback_price (r : Mover) (x : gmap Z Z) : Mover := mkMover
  (pl r) (states r) (next_address r) (next_guid r) (m_itemUpdateQueue r) (m_itemUpdateQueueBlocked
    r) (m_itemDuration r) (m_enchantDuration r) (m_itemSoulboundTradeable r) (m_refundableItems r) x
    (buyback_timestamp r) (m_currentBuybackSlot r) (GetMoney r) (m_weaponChangeTimer r) (mailed r)
    (now r) (m_logintime r) (GetTotalPlayedTime r) (CanDualWield r) (CanTitanGrip r) (stunned r)
    (IsNonMeleeSpellCast r) (InArena r) (traded r) (GetLootGUID r) (CanUseBank r) (at_vendor r)
    (effects r).
Definition set_buyback_timestamp (r : Mover) (x : gmap Z Z) : Mover := mkMover
  (pl r) (states r) (next_address r) (next_guid r) (m_itemUpdateQueue r) (m_itemUpdateQueueBlocked
    r) (m_itemDuration r) (m_enchantDuration r) (m_itemSoulboundTradeable r) (m_refundableItems r)
    (buyback_price r) x (m_currentBuybackSlot r) (GetMoney r) (m_weaponChangeTimer r) (mailed r)
    (now r) (m_logintime r) (GetTotalPlayedTime r) (CanDualWield r) (CanTitanGrip r) (stunned r)
    (IsNonMeleeSpellCast r) (InArena r) (traded r) (GetLootGUID r) (CanUseBank r) (at_vendor r)
    (effects r).
Definition set_m_currentBuybackSlot (r : Mover) (x : Z) : Mover := mkMover
  (pl r) (states r) (next_address r) (next_guid r) (m_itemUpdateQueue r) (m_itemUpdateQueueBlocked
    r) (m_itemDuration r) (m_enchantDuration r) (m_itemSoulboundTradeable r) (m_refundableItems r)
    (buyback_price r) (buyback_timestamp r) x (GetMoney r) (m_weaponChangeTimer r) (mailed r) (now
    r) (m_logintime r) (GetTotalPlayedTime r) (CanDualWield r) (CanTitanGrip r) (stunned r)
    (IsNonMeleeSpellCast r) (InArena r) (traded r) (GetLootGUID r) (CanUseBank r) (at_vendor r)
    (effects r).
Definition set_GetMoney (r : Mover) (x : Z) : Mover := mkMover
  (pl r) (states r) (next_address r) (next_guid r) (m_itemUpdateQueue r) (m_itemUpdateQueueBlocked
    r) (m_itemDuration r) (m_enchantDuration r) (m_itemSoulboundTradeable r) (m_refundableItems r)
    (buyback_price r) (buyback_timestamp r) (m_currentBuybackSlot r) x (m_weaponChangeTimer r)
    (mailed r) (now r) (m_logintime r) (GetTotalPlayedTime r) (CanDualWield r) (CanTitanGrip r)
    (stunned r) (IsNonMeleeSpellCast r) (InArena r) (traded r) (GetLootGUID r) (CanUseBank r)
    (at_vendor r) (effects r).
Definition set_m_weaponChangeTimer (r : Mover) (x : Z) : Mover := mkMover
  (pl r) (states r) (next_address r) (next_guid r) (m_itemUpdateQueue r) (m_itemUpdateQueueBlocked
    r) (m_itemDuration r) (m_enchantDuration r) (m_itemSoulboundTradeable r) (m_refundableItems r)
    (buyback_price r) (buyback_timestamp r) (m_currentBuybackSlot r) (GetMoney r) x (mailed r) (now
    r) (m_logintime r) (GetTotalPlayedTime r) (CanDualWield r) (CanTitanGrip r) (stunned r)
    (IsNonMeleeSpellCast r) (InArena r) (traded r) (GetLootGUID r) (CanUseBank r) (at_vendor r)
    (effects r).
Definition set_mailed (r : Mover) (x : list ptr) : Mover := mkMover
  (pl r) (states r) (next_address r) (next_guid r) (m_itemUpdateQueue r) (m_itemUpdateQueueBlocked
    r) (m_itemDuration r) (m_enchantDuration r) (m_itemSoulboundTradeable r) (m_refundableItems r)
    (buyback_price r) (buyback_timestamp r) (m_currentBuybackSlot r) (GetMoney r)
    (m_weaponChangeTimer r) x (now r) (m_logintime r) (GetTotalPlayedTime r) (CanDualWield r)
    (CanTitanGrip r) (stunned r) (IsNonMeleeSpellCast r) (InArena r) (traded r) (GetLootGUID r)
    (CanUseBank r) (at_vendor r) (effects r).
Definition set_GetLootGUID (r : Mover) (x : Z) : Mover := mkMover
  (pl r) (states r) (next_address r) (next_guid r) (m_itemUpdateQueue r) (m_itemUpdateQueueBlocked
    r) (m_itemDuration r) (m_enchantDuration r) (m_itemSoulboundTradeable r) (m_refundableItems r)
    (buyback_price r) (buyback_timestamp r) (m_currentBuybackSlot r) (GetMoney r)
    (m_weaponChangeTimer r) (mailed r) (now r) (m_logintime r) (GetTotalPlayedTime r) (CanDualWield
    r) (CanTitanGrip r) (stunned r) (IsNonMeleeSpellCast r) (InArena r) (traded r) x (CanUseBank r)
    (at_vendor r) (effects r).
Definition set_effects (r : Mover) (x : list effect) : Mover := mkMover
  (pl r) (states r) (next_address r) (next_guid r) (m_itemUpdateQueue r) (m_itemUpdateQueueBlocked
    r) (m_itemDuration r) (m_enchantDuration r) (m_itemSoulboundTradeable r) (m_refundableItems r)
    (buyback_price r) (buyback_timestamp r) (m_currentBuybackSlot r) (GetMoney r)
    (m_weaponChangeTimer r) (mailed r) (now r) (m_logintime r) (GetTotalPlayedTime r) (CanDualWield
    r) (CanTitanGrip r) (stunned r) (IsNonMeleeSpellCast r) (InArena r) (traded r) (GetLootGUID r)
    (CanUseBank r) (at_vendor r) x.

Abbreviation MW := (ST Mover).

(** Data stores and configuration. *)
Class MoveEnv := {
  sScalingStatDistributionStore : gmap Z Z;           (* id -> MaxLevel *)
  sItemRandomPropertiesStore : gmap Z (list Z);       (* id -> enchant_id *)
  sItemRandomSuffixStore : gmap Z (list Z);           (* id -> enchant_id *)
  GenerateEnchSuffixFactor : Z → Z;
  weapon_switch_cooldown : Z → option Z               (* by class: StartRecoveryTime of spell 6123 or 6119 *)
}.

(** ** Memory *)

Definition exists_at (w : Mover) (p : ptr) : bool := bool_decide (is_Some (states w !! p)).
Definition state_at (p : ptr) : MW ItemState :=
  w ← get; lift (match states w !! p with Some s => Ok s | None => BadPtr end).
Definition item_at (p : ptr) : MW Item := _ ← state_at p; w ← get; mret (mem (pl w) p).
(** A use of the pointer that reads nothing that is modelled. *)
Definition touch (p : ptr) : MW unit := _ ← state_at p; skip.

Definition write_item (p : ptr) (it : Item) (w : Mover) : Mover :=
  set_pl w (set_mem (pl w) (λ q, if q =? p then it else mem (pl w) q)).
Definition write_state (p : ptr) (s : ItemState) (w : Mover) : Mover := set_states w (<[p := s]> (states w)).
Definition upd_item (p : ptr) (f : Item → Item) : MW unit := it ← item_at p; modify (write_item p (f it)).
Definition upd_state (p : ptr) (f : ItemState → ItemState) : MW unit := s ← state_at p; modify (write_state p (f s)).

(** [m_items[slot] = pItem] *)
Definition put_own (slot : Z) (o : option ptr) : MW unit :=
  modify (λ w, set_pl w (set_m_items (pl w) (partial_alter (λ _, o) slot (m_items (pl w))))).
Definition tell (e : effect) : MW unit := modify (λ w, set_effects w (e :: effects w)).
Definition refuse (msg : InventoryResult) : MW unit := tell (SendEquipError msg).

(** [delete]: a bag deletes what is in it (Bag::~Bag). *)
Fixpoint delete_object (fuel : nat) (p : ptr) : MW unit :=
  match fuel with
  | O => lift OutOfFuel
  | S fuel =>
    it ← item_at p;
    _ ← modify (λ w, set_states w (delete p (states w)));
    if IsBag it then for_each (map_to_list (m_bagslot it)).*2 (delete_object fuel) else skip
  end.
Definition delete_item (p : ptr) : MW unit := w ← get; delete_object (S (size (states w))) p.

(** ** The update queue (Item.cpp) *)

Definition s16 (x : Z) : Z := (x + 2 ^ 15) `mod` 2 ^ 16 - 2 ^ 15.

Definition AddToUpdateQueueOf (p : ptr) (player : bool) : MW unit :=
  s ← state_at p;
  if negb (uQueuePos s =? -1) then skip
  else if negb player then lift AssertFail
  else
    it ← item_at p; w ← get;
    if negb (player_guid (pl w) =? owner it) then skip
    else if m_itemUpdateQueueBlocked w then skip
    else
      _ ← modify (λ w, set_m_itemUpdateQueue w (m_itemUpdateQueue w ++ [Some p]));
      upd_state p (λ s, set_uQueuePos s (s16 (Z.of_nat (length (m_itemUpdateQueue w))))).

Definition RemoveFromUpdateQueueOf (p : ptr) : MW unit :=
  s ← state_at p;
  if uQueuePos s =? -1 then skip
  else
    it ← item_at p; w ← get;
    if negb (player_guid (pl w) =? owner it) then skip
    else if m_itemUpdateQueueBlocked w then skip
    else if (uQueuePos s <? 0) || (Z.of_nat (length (m_itemUpdateQueue w)) <=? uQueuePos s) then lift Undefined
    else
      _ ← modify (λ w, set_m_itemUpdateQueue w (<[Z.to_nat (uQueuePos s) := None]> (m_itemUpdateQueue w)));
      upd_state p (λ s, set_uQueuePos s (-1)).

Definition DeleteRefundReference (g : Z) : MW unit :=
  modify (λ w, set_m_refundableItems w (m_refundableItems w ∖ {[g]})).

(** [player]: whether the second argument is the player, or NULL. *)
Definition SetState (p : ptr) (state : ItemUpdateState) (player : bool) : MW unit :=
  s ← state_at p;
  if bool_decide (uState s = ITEM_NEW ∧ state = ITEM_REMOVED) then
    it ← item_at p;
    _ ← when player (_ ← RemoveFromUpdateQueueOf p; DeleteRefundReference (guid it));
    delete_item p
  else if negb (bool_decide (state = ITEM_UNCHANGED)) then
    _ ← when (negb (bool_decide (uState s = ITEM_NEW))) (upd_state p (λ s, set_uState s state));
    AddToUpdateQueueOf p player
  else upd_state p (λ s, set_uState (set_uQueuePos s (-1)) ITEM_UNCHANGED).

(** [SetState(state, GetOwner())], when only the player himself is known by guid. *)
Definition SetState_owner (p : ptr) (state : ItemUpdateState) : MW unit :=
  it ← item_at p; w ← get; SetState p state (owner it =? player_guid (pl w)).

(** ** Enchantments, binding, refunds (Item.cpp) *)

Definition PROP_ENCHANTMENT_SLOT_0 := 7.
Definition PROP_ENCHANTMENT_SLOT_1 := 8.
Definition PROP_ENCHANTMENT_SLOT_2 := 9.
Definition PROP_ENCHANTMENT_SLOT_3 := 10.
Definition PROP_ENCHANTMENT_SLOT_4 := 11.
Definition MAX_ENCHANTMENT_SLOT := 12.
Definition GetEnchantmentDuration (s : ItemState) (slot : Z) : Z := default 0 (enchantment_durations s !! slot).

Definition write_enchantment (p : ptr) (slot id duration : Z) : MW unit :=
  _ ← upd_item p (λ it, set_enchantments it (<[slot := id]> (enchantments it)));
  upd_state p (λ s, set_enchantment_durations s (<[slot := duration]> (enchantment_durations s))).
Definition ClearEnchantment (p : ptr) (slot : Z) : MW unit :=
  it ← item_at p;
  if GetEnchantmentId it slot =? 0 then skip
  else _ ← write_enchantment p slot 0 0; SetState_owner p ITEM_CHANGED.
(** Without charges. *)
Definition SetEnchantment (p : ptr) (slot id duration : Z) : MW unit :=
  it ← item_at p; s ← state_at p;
  if (GetEnchantmentId it slot =? id) && (GetEnchantmentDuration s slot =? duration) then skip
  else _ ← write_enchantment p slot id duration; SetState_owner p ITEM_CHANGED.
Definition SetEnchantmentDuration (p : ptr) (slot duration : Z) (player : bool) : MW unit :=
  s ← state_at p;
  if GetEnchantmentDuration s slot =? duration then skip
  else
    _ ← upd_state p (λ s, set_enchantment_durations s (<[slot := duration]> (enchantment_durations s)));
    SetState p ITEM_CHANGED player.

Definition SetBinding (p : ptr) (val : bool) : MW unit := upd_item p (λ it, set_IsSoulBound it val).
Definition SetNotRefundable (p : ptr) (changestate : bool) : MW unit :=
  s ← state_at p;
  if negb (refundable s) then skip
  else
    _ ← upd_state p (λ s, set_refundable s false);
    _ ← when changestate (SetState p ITEM_CHANGED true);
    it ← item_at p; DeleteRefundReference (guid it).
Definition ClearSoulboundTradeable (p : ptr) : MW unit :=
  it ← item_at p;
  _ ← upd_item p (λ it, set_bop_tradeable it false);
  if bool_decide (allowedGUIDs it = ∅) then skip
  else _ ← upd_item p (λ it, set_allowedGUIDs it ∅); SetState p ITEM_CHANGED true.
Definition HOUR := 3600.
Definition UpdatePlayedTime (p : ptr) : MW unit :=
  s ← state_at p; w ← get;
  let new_playtime := u32 (played_time s + u32 (now w - m_lastPlayedTimeUpdate s)) in
  if new_playtime <=? 2 * HOUR then
    _ ← upd_state p (λ s, set_played_time s new_playtime);
    _ ← SetState p ITEM_CHANGED true;
    upd_state p (λ s, set_m_lastPlayedTimeUpdate s (now w))
  else SetNotRefundable p true.
(** But for the packet. *)
Definition SendRefundInfo (p : ptr) : MW unit := UpdatePlayedTime p.

Section env.
Context `{IE : ItemEnv} `{ME : MoveEnv}.

(** ** Creating items *)

Definition SetItemRandomProperties (p : ptr) (randomPropId : Z) : MW unit :=
  if randomPropId =? 0 then skip
  else
    s ← state_at p; it ← item_at p;
    if 0 <? randomPropId then
      match sItemRandomPropertiesStore !! randomPropId with
      | None => skip
      | Some enchant_id =>
        _ ← when (negb (GetItemRandomPropertyId s =? randomPropId))
              (_ ← upd_state p (λ s, set_GetItemRandomPropertyId s randomPropId); SetState_owner p ITEM_CHANGED);
        for_each [0; 1; 2] (λ i, SetEnchantment p (PROP_ENCHANTMENT_SLOT_2 + i) (nth (Z.to_nat i) enchant_id 0) 0)
      end
    else
      match sItemRandomSuffixStore !! (- randomPropId) with
      | None => skip
      | Some enchant_id =>
        _ ← when (negb (GetItemRandomPropertyId s =? randomPropId) || (GetItemSuffixFactor s =? 0))
              (_ ← upd_state p (λ s, set_GetItemSuffixFactor (set_GetItemRandomPropertyId s randomPropId)
                                       (GenerateEnchSuffixFactor (GetEntry it)));
               SetState_owner p ITEM_CHANGED);
        for_each [0; 1; 2] (λ i, SetEnchantment p (PROP_ENCHANTMENT_SLOT_0 + i) (nth (Z.to_nat i) enchant_id 0) 0)
      end.

(** NewItemOrBag and Create: what a new item looks like. *)
Definition new_item (proto : ItemTemplate) (g count me : Z) : Item :=
  mkItem g proto count 0 false false false false me ∅ (MaxDurability proto) (MaxDurability proto) ∅
    (if InventoryType proto =? INVTYPE_BAG then ContainerSlots proto else 0) ∅.
Definition new_state (proto : ItemTemplate) (me time : Z) : ItemState :=
  mkState None me ITEM_NEW (-1) false false (if InventoryType proto =? INVTYPE_BAG then 0 else Duration proto) ∅ 0 0 0 time true.
Definition CreateItem (itemEntry count : Z) : MW (option ptr) :=
  if count <? 1 then mret None
  else match item_templates !! itemEntry with
  | None => lift AssertFail
  | Some proto =>
    w ← get;
    let count := if GetMaxStackSize proto <? count then GetMaxStackSize proto else count in
    let me := player_guid (pl w) in let p := next_address w in
    _ ← modify (λ w, set_next_guid (set_next_address w (p + 1)) (next_guid w + 1));
    if (InventoryType proto =? INVTYPE_BAG) && (MAX_BAG_SIZE <? ContainerSlots proto) then mret None
    else
      _ ← modify (write_state p (new_state proto me (now w)));
      _ ← modify (write_item p (new_item proto (next_guid w) count me));
      mret (Some p)
  end.
Definition CloneItem (p : ptr) (count : Z) : MW (option ptr) :=
  it ← item_at p; s ← state_at p;
  o ← CreateItem (GetEntry it) count;
  match o with
  | None => mret None
  | Some q =>
    _ ← upd_item q (λ new, set_IsSoulBound new (IsSoulBound it));
    _ ← upd_state q (λ new, set_item_duration (set_wrapped new (wrapped s)) (item_duration s));
    _ ← SetItemRandomProperties q (GetItemRandomPropertyId s);
    mret (Some q)
  end.

(** ** Bags (Bag.cpp) *)

Definition Bag_RemoveItem (bag : ptr) (slot : Z) : MW unit :=
  b ← item_at bag;
  if MAX_BAG_SIZE <=? slot then lift AssertFail
  else
    _ ← match m_bagslot b !! slot with Some q => upd_state q (λ s, set_m_container s None) | None => skip end;
    upd_item bag (λ b, set_m_bagslot b (delete slot (m_bagslot b))).
Definition Bag_StoreItem (bag : ptr) (slot : Z) (p : ptr) : MW unit :=
  b ← item_at bag;
  if MAX_BAG_SIZE <=? slot then lift AssertFail
  else
    it ← item_at p;
    if guid it =? guid b then skip
    else
      _ ← upd_item bag (λ b, set_m_bagslot b (<[slot := p]> (m_bagslot b)));
      _ ← upd_item p (λ it, set_m_slot (set_owner it (owner b)) slot);
      upd_state p (λ s, set_m_container (set_contained s (guid b)) (Some bag)).

(** [GetBagSlot] and [GetPos] *)
Definition GetBagSlot (p : ptr) : MW Z :=
  s ← state_at p;
  match m_container s with
  | Some bag => b ← item_at bag; mret (m_slot b)
  | None => mret INVENTORY_SLOT_BAG_0
  end.
Definition GetPos (p : ptr) : MW Z := bag ← GetBagSlot p; it ← item_at p; mret (pack bag (m_slot it)).

(** ** Timed items and enchantments (Player.cpp) *)

Definition AddItemDurations (p : ptr) : MW unit :=
  s ← state_at p;
  when (negb (item_duration s =? 0)) (modify (λ w, set_m_itemDuration w (m_itemDuration w ++ [p]))).
Fixpoint remove_first (p : ptr) (l : list ptr) : list ptr :=
  match l with [] => [] | q :: l => if q =? p then l else q :: remove_first p l end.
Definition RemoveItemDurations (p : ptr) : MW unit :=
  modify (λ w, set_m_itemDuration w (remove_first p (m_itemDuration w))).

Definition same_enchant (p : ptr) (slot : Z) (e : ptr * Z * Z) : bool := (e.1.1 =? p) && (e.1.2 =? slot).
Fixpoint erase_enchant (p : ptr) (slot : Z) (l : list (ptr * Z * Z)) : list (ptr * Z * Z) :=
  match l with [] => [] | e :: l => if same_enchant p slot e then l else e :: erase_enchant p slot l end.
Definition AddEnchantmentDuration (p : ptr) (slot duration : Z) : MW unit :=
  w ← get;
  _ ← match find (same_enchant p slot) (m_enchantDuration w) with
      | Some e =>
        _ ← SetEnchantmentDuration p slot e.2 true;
        modify (λ w, set_m_enchantDuration w (erase_enchant p slot (m_enchantDuration w)))
      | None => skip
      end;
  when (0 <? duration) (modify (λ w, set_m_enchantDuration w (m_enchantDuration w ++ [(p, slot, duration)]))).
Definition AddEnchantmentDurations (p : ptr) : MW unit :=
  _ ← touch p;
  for_each (range 0 MAX_ENCHANTMENT_SLOT) (λ x,
    it ← item_at p; s ← state_at p;
    if GetEnchantmentId it x =? 0 then skip
    else
      let duration := GetEnchantmentDuration s x in
      when (0 <? duration) (AddEnchantmentDuration p x duration)).
Definition RemoveEnchantmentDurations (p : ptr) : MW unit :=
  w ← get;
  _ ← for_each (filter (λ e, e.1.1 = p) (m_enchantDuration w)) (λ e, SetEnchantmentDuration p e.1.2 e.2 true);
  modify (λ w, set_m_enchantDuration w (filter (λ e, e.1.1 ≠ p) (m_enchantDuration w))).

Definition AddTradeableItem (p : ptr) : MW unit :=
  modify (λ w, set_m_itemSoulboundTradeable w (m_itemSoulboundTradeable w ++ [p])).
Definition RemoveTradeableItem (p : ptr) : MW unit :=
  modify (λ w, set_m_itemSoulboundTradeable w (filter (λ q, q ≠ p) (m_itemSoulboundTradeable w))).
End env.
End MoveData.
