(* ===== verification/MoveOps.v ===== *)
(** * Storing, equipping and removing items ([src/server/game/Entities/Player/Player.cpp])

    The operations that put an item in its place and take it out again. *)
From S2P Require Import Prelude StateMonad Items Inventory Storage MoveData.

Module MoveOps.
Export MoveData.

Definition BIND_WHEN_PICKED_UP := 1.
Definition BIND_WHEN_EQUIPED := 2.
Definition BIND_QUEST_ITEM := 4.
Definition INVTYPE_WEAPON := 13.
Definition INVTYPE_2HWEAPON := 17.
Definition INVTYPE_WEAPONOFFHAND := 22.
Definition ITEM_PROTO_FLAG_HAS_LOOT := 0x4.
Definition ITEM_PROTO_FLAG_INDESTRUCTIBLE := 0x20.
Definition ITEM_PROTO_FLAG_PROSPECTABLE := 0x00040000.
Definition ITEM_PROTO_FLAG_MILLABLE := 0x20000000.
Definition ITEM_FLAGS_CU_POISON := 0x5.

Section ops.
Context `{IE : ItemEnv} `{ME : MoveEnv}.

Definition SetCount (p : ptr) (value : Z) : MW unit := upd_item p (λ it, set_GetCount it (u32 value)).

(** ** _StoreItem and StoreItem *)

(** Whether storing binds the item. *)
Definition binds_at (it : Item) (position : Z) : bool :=
  let b := Bonding (GetTemplate it) in
  (b =? BIND_WHEN_PICKED_UP) || (b =? BIND_QUEST_ITEM) || ((b =? BIND_WHEN_EQUIPED) && IsBagPos position).

(** The item is deleted; its amount is in another stack. *)
Definition merged_away (p : ptr) : MW unit :=
  _ ← touch p;
  _ ← RemoveEnchantmentDurations p;
  _ ← RemoveItemDurations p;
  w ← get;
  _ ← upd_item p (λ it, set_owner it (player_guid (pl w)));
  _ ← SetNotRefundable p true;
  _ ← ClearSoulboundTradeable p;
  _ ← RemoveTradeableItem p;
  SetState p ITEM_REMOVED true.

(** The item comes to an empty slot. *)
Definition place_item (p : ptr) (position : Z) : MW unit :=
  let bag := pos_bag position in let slot := pos_slot position in
  it ← item_at p;
  _ ← when (binds_at it position) (SetBinding p true);
  w ← get;
  let pBag := if bag =? INVENTORY_SLOT_BAG_0 then None else GetBagByPos (pl w) bag in
  _ ← match pBag with
      | None =>
        let me := player_guid (pl w) in
        _ ← put_own slot (Some p);
        _ ← upd_state p (λ s, set_m_container (set_contained s me) None);
        _ ← upd_item p (λ it, set_m_slot (set_owner it me) slot);
        when (between CURRENCYTOKEN_SLOT_START slot CURRENCYTOKEN_SLOT_END) (tell (AddKnownCurrency (GetEntry it)))
      | Some pBag => Bag_StoreItem pBag slot p
      end;
  _ ← SetState p ITEM_CHANGED true;
  _ ← match pBag with Some pBag => SetState pBag ITEM_CHANGED true | None => skip end;
  _ ← AddEnchantmentDurations p;
  AddItemDurations p.

Definition StoreItem_at (position : Z) (p : ptr) (count : Z) (clone : bool) : MW (option ptr) :=
  _ ← touch p;
  w ← get;
  match GetItemByPos16 (pl w) position with
  | None =>
    o ← (if clone then CloneItem p count else _ ← SetCount p count; mret (Some p));
    match o with
    | None => mret None
    | Some p => _ ← place_item p position; mret (Some p)
    end
  | Some q =>
    it ← item_at q;
    _ ← when (binds_at it position) (SetBinding q true);
    _ ← SetCount q (GetCount it + count);
    _ ← when (negb clone) (merged_away p);
    _ ← AddEnchantmentDurations q;
    _ ← SetState q ITEM_CHANGED true;
    mret (Some q)
  end.

(** All but the last part are clones. *)
Fixpoint StoreItem (dest : ItemPosCountVec) (p : ptr) : MW (option ptr) :=
  match dest with
  | [] => mret (Some p)
  | [pc] => StoreItem_at (pos pc) p (cnt pc) false
  | pc :: dest => _ ← StoreItem_at (pos pc) p (cnt pc) true; StoreItem dest p
  end.
Definition BankItem (dest : ItemPosCountVec) (p : ptr) : MW (option ptr) := StoreItem dest p.

Definition StoreNewItem (dest : ItemPosCountVec) (item randomPropertyId : Z) (allowedLooters : gset Z) : MW (option ptr) :=
  w ← get;
  let count := foldl (λ count pc, u32 (count + cnt pc)) 0 dest in
  o ← CreateItem item count;
  match o with
  | None => mret None
  | Some p =>
    _ ← tell (ItemAddedQuestCheck item count);
    _ ← SetItemRandomProperties p randomPropertyId;
    o ← StoreItem dest p;
    match o with
    | None => if 1 <? Z.of_nat (size allowedLooters) then lift BadPtr else mret None
    | Some p =>
      it ← item_at p;
      _ ← when ((1 <? Z.of_nat (size allowedLooters)) && (GetMaxStackSize (GetTemplate it) =? 1) && IsSoulBound it)
            (_ ← upd_item p (λ it, set_allowedGUIDs (set_bop_tradeable it true) allowedLooters);
             _ ← upd_state p (λ s, set_played_time s (GetTotalPlayedTime w));
             AddTradeableItem p);
      mret (Some p)
    end
  end.

(** ** Equipping *)

Definition VisualizeItem (slot : Z) (p : ptr) : MW unit :=
  it ← item_at p;
  let b := Bonding (GetTemplate it) in
  _ ← when ((b =? BIND_WHEN_EQUIPED) || (b =? BIND_WHEN_PICKED_UP) || (b =? BIND_QUEST_ITEM)) (SetBinding p true);
  w ← get;
  let me := player_guid (pl w) in
  _ ← put_own slot (Some p);
  _ ← upd_state p (λ s, set_m_container (set_contained s me) None);
  _ ← upd_item p (λ it, set_m_slot (set_owner it me) slot);
  SetState p ITEM_CHANGED true.

(** Changing a weapon in combat starts a cooldown. *)
Definition start_weapon_timer (p : ptr) : MW unit :=
  it ← item_at p; w ← get;
  let proto := GetTemplate it in
  when (IsInCombat (pl w) && ((Class_ proto =? ITEM_CLASS_WEAPON) || (InventoryType proto =? INVTYPE_RELIC))
        && (m_weaponChangeTimer w =? 0))
    (match weapon_switch_cooldown (getClass (pl w)) with
     | Some time => modify (λ w, set_m_weaponChangeTimer w time)
     | None => skip
     end).

Definition EquipItem (position : Z) (p : ptr) : MW (option ptr) :=
  _ ← AddEnchantmentDurations p;
  _ ← AddItemDurations p;
  let slot := pos_slot position in
  w ← get;
  match GetItemByPos16 (pl w) position with
  | None =>
    _ ← VisualizeItem slot p;
    _ ← when (IsAlive (pl w)) (_ ← tell (ApplyItemMods p slot true); start_weapon_timer p);
    mret (Some p)
  | Some q =>
    it ← item_at p; it2 ← item_at q;
    _ ← SetCount q (GetCount it2 + GetCount it);
    _ ← merged_away p;
    _ ← SetState q ITEM_CHANGED true;
    mret (Some q)
  end.
Definition EquipNewItem (position item : Z) : MW (option ptr) :=
  o ← CreateItem item 1;
  match o with
  | None => mret None
  | Some p => _ ← tell (ItemAddedQuestCheck item 1); EquipItem position p
  end.
Definition QuickEquipItem (position : Z) (p : ptr) : MW unit :=
  _ ← AddEnchantmentDurations p;
  _ ← AddItemDurations p;
  VisualizeItem (pos_slot position) p.

(** ** Taking out *)

(** What was only held in the main hand is lost. *)
Definition clear_held (p : ptr) : MW unit :=
  s ← state_at p;
  if negb (GetItemSuffixFactor s =? 0)
  then _ ← ClearEnchantment p PROP_ENCHANTMENT_SLOT_3; ClearEnchantment p PROP_ENCHANTMENT_SLOT_4
  else _ ← ClearEnchantment p PROP_ENCHANTMENT_SLOT_0; ClearEnchantment p PROP_ENCHANTMENT_SLOT_1.

Definition RemoveItem (bag slot : Z) : MW unit :=
  w ← get;
  match GetItemByPos (pl w) bag slot with
  | None => skip
  | Some p =>
    _ ← touch p;
    _ ← RemoveEnchantmentDurations p;
    _ ← RemoveItemDurations p;
    _ ← RemoveTradeableItem p;
    _ ← (if bag =? INVENTORY_SLOT_BAG_0 then
           _ ← when (slot <? INVENTORY_SLOT_BAG_END)
                 (_ ← tell (ApplyItemMods p slot false);
                  when (slot =? EQUIPMENT_SLOT_MAINHAND) (clear_held p));
           put_own slot None
         else
           w ← get;
           match GetBagByPos (pl w) bag with Some pBag => Bag_RemoveItem pBag slot | None => skip end);
    _ ← upd_state p (λ s, set_contained s 0);
    upd_item p (λ it, set_m_slot it NULL_SLOT)
  end.

Definition MoveItemFromInventory (bag slot : Z) : MW unit :=
  w ← get;
  match GetItemByPos (pl w) bag slot with
  | None => skip
  | Some p =>
    it ← item_at p;
    _ ← tell (ItemRemovedQuestCheck (GetEntry it) (GetCount it));
    _ ← RemoveItem bag slot;
    _ ← SetNotRefundable p false;
    RemoveFromUpdateQueueOf p
  end.
Definition MoveItemToInventory (dest : ItemPosCountVec) (p : ptr) (in_characterInventoryDB : bool) : MW unit :=
  it ← item_at p;
  _ ← tell (ItemAddedQuestCheck (GetEntry it) (GetCount it));
  o ← StoreItem dest p;
  if bool_decide (o = Some p) then
    w ← get;
    _ ← upd_item p (λ it, set_owner it (player_guid (pl w)));
    _ ← SetState p (if in_characterInventoryDB then ITEM_CHANGED else ITEM_NEW) true;
    it ← item_at p;
    when (bop_tradeable it) (AddTradeableItem p)
  else skip.

(** ** Destroying *)

Fixpoint DestroyItem_at (fuel : nat) (bag slot : Z) : MW unit :=
  w ← get;
  match GetItemByPos (pl w) bag slot with
  | None => skip
  | Some p =>
    it ← item_at p;
    _ ← (if IsNotEmptyBag it then
           match fuel with
           | O => lift OutOfFuel
           | S fuel => for_each (range 0 MAX_BAG_SIZE) (λ i, DestroyItem_at fuel slot i)
           end
         else skip);
    _ ← RemoveEnchantmentDurations p;
    _ ← RemoveItemDurations p;
    _ ← SetNotRefundable p true;
    _ ← ClearSoulboundTradeable p;
    _ ← RemoveTradeableItem p;
    it ← item_at p;
    _ ← tell (ItemRemovedQuestCheck (GetEntry it) (GetCount it));
    _ ← (if bag =? INVENTORY_SLOT_BAG_0 then
           _ ← when (slot <? INVENTORY_SLOT_BAG_END) (tell (ApplyItemMods p slot false));
           put_own slot None
         else
           w ← get;
           match GetBagByPos (pl w) bag with Some pBag => Bag_RemoveItem pBag slot | None => skip end);
    _ ← upd_state p (λ s, set_contained s 0);
    _ ← upd_item p (λ it, set_m_slot it NULL_SLOT);
    SetState p ITEM_REMOVED true
  end.
(** A bag inside a bag is empty: two levels. *)
Definition DestroyItem (bag slot : Z) : MW unit := DestroyItem_at 2 bag slot.

(** DestroyItemCount of a given item; what is left of the count. *)
Definition DestroyItemCount_of (p : ptr) (count : Z) : MW Z :=
  it ← item_at p; w ← get;
  if InArena w && (FlagsCu (GetTemplate it) .& ITEM_FLAGS_CU_POISON) then mret count
  else if GetCount it <=? count then
    bag ← GetBagSlot p;
    _ ← DestroyItem bag (m_slot it);
    mret (u32 (count - GetCount it))
  else
    _ ← tell (ItemRemovedQuestCheck (GetEntry it) count);
    _ ← SetCount p (GetCount it - count);
    _ ← SetState p ITEM_CHANGED true;
    mret 0.

(** DestroyItemCount of an entry: walks that stop when enough is destroyed ([None]). *)
Fixpoint walk {A} (l : list A) (f : A → Z → MW (option Z)) (remcount : Z) : MW (option Z) :=
  match l with
  | [] => mret (Some remcount)
  | a :: l => o ← f a remcount; match o with Some remcount => walk l f remcount | None => mret None end
  end.
Definition and_then (k : Z → MW (option Z)) (o : option Z) : MW (option Z) :=
  match o with Some remcount => k remcount | None => mret None end.

Section destroy_count.
Variables (itemEntry count : Z) (unequip_check : bool).

(** [check]: the loop over the equipment, where what cannot be taken off stays. *)
Definition destroy_some (check : bool) (bag slot : Z) (o : option ptr) (remcount : Z) : MW (option Z) :=
  match o with
  | None => mret (Some remcount)
  | Some p =>
    it ← item_at p; w ← get;
    if negb (GetEntry it =? itemEntry) || IsInTrade it then mret (Some remcount)
    else if u32 (GetCount it + remcount) <=? count then
      if check && unequip_check && negb (is_ok (CanUnequipItem (pl w) (pack INVENTORY_SLOT_BAG_0 slot) false))
      then mret (Some remcount)
      else
        let remcount := u32 (remcount + GetCount it) in
        _ ← DestroyItem bag slot;
        mret (if count <=? remcount then None else Some remcount)
    else
      _ ← tell (ItemRemovedQuestCheck (GetEntry it) (u32 (count - remcount)));
      _ ← SetCount p (GetCount it - count + remcount);
      _ ← SetState p ITEM_CHANGED true;
      mret None
  end.
Definition destroy_own (check : bool) (i remcount : Z) : MW (option Z) :=
  w ← get; destroy_some check INVENTORY_SLOT_BAG_0 i (GetItemByPos (pl w) INVENTORY_SLOT_BAG_0 i) remcount.
Definition destroy_in_bag (i remcount : Z) : MW (option Z) :=
  w ← get;
  match GetBagByPos (pl w) i with
  | None => mret (Some remcount)
  | Some bag =>
    walk (bag_slots (mem (pl w) bag)) (λ j remcount,
      b ← item_at bag; destroy_some false i j (Bag_GetItemByPos b (u8 j)) remcount) remcount
  end.
Definition DestroyItemCount : MW unit :=
  o ← walk (range INVENTORY_SLOT_ITEM_START INVENTORY_SLOT_ITEM_END) (destroy_own false) 0;
  o ← and_then (walk (range KEYRING_SLOT_START CURRENCYTOKEN_SLOT_END) (destroy_own false)) o;
  o ← and_then (walk (range INVENTORY_SLOT_BAG_START INVENTORY_SLOT_BAG_END) destroy_in_bag) o;
  o ← and_then (walk (range EQUIPMENT_SLOT_START INVENTORY_SLOT_BAG_END) (destroy_own true)) o;
  o ← and_then (walk (range BANK_SLOT_ITEM_START BANK_SLOT_ITEM_END) (destroy_own false)) o;
  _ ← and_then (walk (range BANK_SLOT_BAG_START BANK_SLOT_BAG_END) destroy_in_bag) o;
  skip.
End destroy_count.
End ops.
End MoveOps.
