(* ===== verification/MoveEquip.v ===== *)
(** * What can be equipped ([src/server/game/Entities/Player/Player.cpp])

    The slot an item can be worn in, and whether it can be put there now. *)
From S2P Require Import Prelude StateMonad Items Inventory Storage MoveData MoveOps.

Module MoveEquip.
Export MoveOps.

Definition EQUIPMENT_SLOT_HEAD := 0.
Definition EQUIPMENT_SLOT_NECK := 1.
Definition EQUIPMENT_SLOT_SHOULDERS := 2.
Definition EQUIPMENT_SLOT_BODY := 3.
Definition EQUIPMENT_SLOT_CHEST := 4.
Definition EQUIPMENT_SLOT_WAIST := 5.
Definition EQUIPMENT_SLOT_LEGS := 6.
Definition EQUIPMENT_SLOT_FEET := 7.
Definition EQUIPMENT_SLOT_WRISTS := 8.
Definition EQUIPMENT_SLOT_HANDS := 9.
Definition EQUIPMENT_SLOT_FINGER1 := 10.
Definition EQUIPMENT_SLOT_FINGER2 := 11.
Definition EQUIPMENT_SLOT_TRINKET1 := 12.
Definition EQUIPMENT_SLOT_TRINKET2 := 13.
Definition EQUIPMENT_SLOT_BACK := 14.
Definition EQUIPMENT_SLOT_TABARD := 18.

Definition INVTYPE_HEAD := 1.
Definition INVTYPE_NECK := 2.
Definition INVTYPE_SHOULDERS := 3.
Definition INVTYPE_BODY := 4.
Definition INVTYPE_CHEST := 5.
Definition INVTYPE_WAIST := 6.
Definition INVTYPE_LEGS := 7.
Definition INVTYPE_FEET := 8.
Definition INVTYPE_WRISTS := 9.
Definition INVTYPE_HANDS := 10.
Definition INVTYPE_FINGER := 11.
Definition INVTYPE_TRINKET := 12.
Definition INVTYPE_RANGED := 15.
Definition INVTYPE_CLOAK := 16.
Definition INVTYPE_TABARD := 19.
Definition INVTYPE_ROBE := 20.
Definition INVTYPE_WEAPONMAINHAND := 21.
Definition INVTYPE_THROWN := 25.
Definition INVTYPE_RANGEDRIGHT := 26.

Definition ITEM_SUBCLASS_WEAPON_AXE2 := 1.
Definition ITEM_SUBCLASS_WEAPON_MACE2 := 5.
Definition ITEM_SUBCLASS_WEAPON_SWORD2 := 8.
Definition ITEM_SUBCLASS_ARMOR_MISC := 0.
Definition ITEM_SUBCLASS_ARMOR_LIBRAM := 7.
Definition ITEM_SUBCLASS_ARMOR_IDOL := 8.
Definition ITEM_SUBCLASS_ARMOR_TOTEM := 9.
Definition ITEM_SUBCLASS_ARMOR_SIGIL := 10.
Definition CLASS_DEATH_KNIGHT := 6.
Definition CLASS_WARLOCK := 9.
Definition CLASS_DRUID := 11.
Definition DEFAULT_MAX_LEVEL := 80.
Definition ITEM_PROTO_FLAG_UNIQUE_EQUIPPED := 0x80000.

Section equip.
Context `{IE : ItemEnv} `{ME : MoveEnv}.
Variable w : Mover.

Definition own_item (slot : Z) : option ptr := GetItemByPos (pl w) INVENTORY_SLOT_BAG_0 slot.
Definition has_inventory_type (t : Z) (o : option ptr) : bool :=
  match o with Some p => InventoryType (GetTemplate (mem (pl w) p)) =? t | None => false end.

(** ** Two-handed weapons *)

Definition IsTitanGripTwoHandWeapon (weaponSubClass : Z) : bool :=
  (weaponSubClass =? ITEM_SUBCLASS_WEAPON_AXE2) || (weaponSubClass =? ITEM_SUBCLASS_WEAPON_MACE2)
  || (weaponSubClass =? ITEM_SUBCLASS_WEAPON_SWORD2).
Definition CanTitanGripCurrently : bool :=
  let abilityConditions := CanDualWield w && CanTitanGrip w in
  match own_item EQUIPMENT_SLOT_MAINHAND with
  | Some p =>
    let t := GetTemplate (mem (pl w) p) in
    if InventoryType t =? INVTYPE_2HWEAPON then IsTitanGripTwoHandWeapon (SubClass t) && abilityConditions
    else abilityConditions
  | None => abilityConditions
  end.
Definition IsTwoHandUsed : bool :=
  has_inventory_type INVTYPE_2HWEAPON (own_item EQUIPMENT_SLOT_MAINHAND) && negb CanTitanGripCurrently.

(** ** The slots for an item *)

(** The quiver that is worn already, unless it is the one that moves. *)
Definition worn_quiver (p : ptr) (i : Z) : bool :=
  match own_item i with
  | Some q => (Class_ (GetTemplate (mem (pl w) q)) =? Class_ (GetTemplate (mem (pl w) p))) && negb (q =? p)
  | None => false
  end.
(** With one there is only its own slot left, but counted from the first bag slot twice;
    the other entries of the array stay as they were. *)
Definition CanEquipQuiver (p : ptr) (preferredSlot : Z) (slots : list Z) : InventoryResult * list Z :=
  match find (worn_quiver p) (range INVENTORY_SLOT_BAG_START INVENTORY_SLOT_BAG_END) with
  | Some i =>
    if negb (preferredSlot =? i) && between INVENTORY_SLOT_BAG_START preferredSlot INVENTORY_SLOT_BAG_END then
      (match own_item i with
       | Some q => if SubClass (GetTemplate (mem (pl w) q)) =? ITEM_SUBCLASS_AMMO_POUCH
                   then EQUIP_ERR_CAN_EQUIP_ONLY1_AMMOPOUCH else EQUIP_ERR_CAN_EQUIP_ONLY1_QUIVER
       | None => EQUIP_ERR_OK
       end, slots)
    else (EQUIP_ERR_OK, <[0%nat := u8 (INVENTORY_SLOT_BAG_START + i)]> slots)
  | None => (EQUIP_ERR_OK, map (λ i, INVENTORY_SLOT_BAG_START + i) [0; 1; 2; 3])
  end.

Definition four (l : list Z) : list Z := take 4 (l ++ replicate 4 NULL_SLOT).
(** The relic of a class is of no use to another. *)
Definition relic_class (subclass : Z) : option Z :=
  if subclass =? ITEM_SUBCLASS_ARMOR_LIBRAM then Some CLASS_PALADIN
  else if subclass =? ITEM_SUBCLASS_ARMOR_TOTEM then Some CLASS_SHAMAN
  else if subclass =? ITEM_SUBCLASS_ARMOR_SIGIL then Some CLASS_DEATH_KNIGHT
  else if subclass =? ITEM_SUBCLASS_ARMOR_IDOL then Some CLASS_DRUID
  else if subclass =? ITEM_SUBCLASS_ARMOR_MISC then Some CLASS_WARLOCK
  else None.
(** Whether the off hand can be emptied for a two-handed weapon. *)
Definition offhand_in_way : bool :=
  match own_item EQUIPMENT_SLOT_OFFHAND with
  | Some q =>
    negb (is_ok (CanUnequipItem (pl w) (pack INVENTORY_SLOT_BAG_0 EQUIPMENT_SLOT_OFFHAND) false))
    || negb (is_ok (v_res (CanStoreItem (pl w) NULL_BAG NULL_SLOT [] (Some q) false)))
  | None => false
  end.

(** The switch over the inventory type: the slots, or why there is none. *)
Definition equip_slots (p : ptr) (preferredSlot : Z) (swap not_loading : bool) : InventoryResult * list Z :=
  let proto := GetTemplate (mem (pl w) p) in
  let t := InventoryType proto in
  let one slot := (EQUIP_ERR_OK, four [slot]) in
  let two a b := (EQUIP_ERR_OK, four [a; b]) in
  let no err := (err, four []) in
  if t =? INVTYPE_HEAD then one EQUIPMENT_SLOT_HEAD
  else if t =? INVTYPE_NECK then one EQUIPMENT_SLOT_NECK
  else if t =? INVTYPE_SHOULDERS then one EQUIPMENT_SLOT_SHOULDERS
  else if t =? INVTYPE_BODY then one EQUIPMENT_SLOT_BODY
  else if (t =? INVTYPE_CHEST) || (t =? INVTYPE_ROBE) then one EQUIPMENT_SLOT_CHEST
  else if t =? INVTYPE_WAIST then one EQUIPMENT_SLOT_WAIST
  else if t =? INVTYPE_LEGS then one EQUIPMENT_SLOT_LEGS
  else if t =? INVTYPE_FEET then one EQUIPMENT_SLOT_FEET
  else if t =? INVTYPE_WRISTS then one EQUIPMENT_SLOT_WRISTS
  else if t =? INVTYPE_HANDS then one EQUIPMENT_SLOT_HANDS
  else if t =? INVTYPE_FINGER then two EQUIPMENT_SLOT_FINGER1 EQUIPMENT_SLOT_FINGER2
  else if t =? INVTYPE_TRINKET then two EQUIPMENT_SLOT_TRINKET1 EQUIPMENT_SLOT_TRINKET2
  else if t =? INVTYPE_CLOAK then one EQUIPMENT_SLOT_BACK
  else if t =? INVTYPE_WEAPON then
    if CanDualWield w && negb IsTwoHandUsed then two EQUIPMENT_SLOT_MAINHAND EQUIPMENT_SLOT_OFFHAND
    else if preferredSlot =? EQUIPMENT_SLOT_OFFHAND then
      no (if CanDualWield w then EQUIP_ERR_CANT_EQUIP_WITH_TWOHANDED else EQUIP_ERR_CANT_DUAL_WIELD)
    else one EQUIPMENT_SLOT_MAINHAND
  else if t =? INVTYPE_SHIELD then
    if IsTwoHandUsed then no EQUIP_ERR_CANT_EQUIP_WITH_TWOHANDED else one EQUIPMENT_SLOT_OFFHAND
  else if t =? INVTYPE_2HWEAPON then
    let grip := CanTitanGripCurrently && IsTitanGripTwoHandWeapon (SubClass proto) in
    if negb grip && not_loading && offhand_in_way
    then no (if swap then EQUIP_ERR_ITEMS_CANT_BE_SWAPPED else EQUIP_ERR_INVENTORY_FULL)
    else if grip then two EQUIPMENT_SLOT_MAINHAND EQUIPMENT_SLOT_OFFHAND
    else one EQUIPMENT_SLOT_MAINHAND
  else if t =? INVTYPE_TABARD then one EQUIPMENT_SLOT_TABARD
  else if t =? INVTYPE_WEAPONMAINHAND then one EQUIPMENT_SLOT_MAINHAND
  else if t =? INVTYPE_WEAPONOFFHAND then
    if IsTwoHandUsed then no EQUIP_ERR_CANT_EQUIP_WITH_TWOHANDED
    else if negb (CanDualWield w) then no EQUIP_ERR_CANT_DUAL_WIELD
    else one EQUIPMENT_SLOT_OFFHAND
  else if t =? INVTYPE_HOLDABLE then
    if IsTwoHandUsed then no EQUIP_ERR_CANT_EQUIP_WITH_TWOHANDED else one EQUIPMENT_SLOT_OFFHAND
  else if (t =? INVTYPE_RANGED) || (t =? INVTYPE_THROWN) || (t =? INVTYPE_RANGEDRIGHT) then one EQUIPMENT_SLOT_RANGED
  else if t =? INVTYPE_BAG then
    let slots := map (λ i, INVENTORY_SLOT_BAG_START + i) [0; 1; 2; 3] in
    if Class_ proto =? ITEM_CLASS_QUIVER then CanEquipQuiver p (u8 preferredSlot) slots else (EQUIP_ERR_OK, slots)
  else if t =? INVTYPE_RELIC then
    match relic_class (SubClass proto) with
    | Some c => if negb (getClass (pl w) =? c) then no EQUIP_ERR_ITEM_CANT_BE_EQUIPPED else one EQUIPMENT_SLOT_RANGED
    | None => one EQUIPMENT_SLOT_RANGED
    end
  else no EQUIP_ERR_ITEM_CANT_BE_EQUIPPED.

Definition CanFindEquipSlot (p : ptr) (preferredSlot : Z) (swap not_loading : bool) : InventoryResult * Z :=
  let '(res, slots) := equip_slots p preferredSlot swap not_loading in
  if negb (is_ok res) then (res, NULL_SLOT)
  else if negb (preferredSlot =? NULL_SLOT) then
    if (swap || bool_decide (own_item preferredSlot = None)) && existsb (Z.eqb preferredSlot) slots
    then (EQUIP_ERR_OK, u8 preferredSlot)
    else (EQUIP_ERR_ITEM_DOESNT_GO_TO_SLOT, NULL_SLOT)
  else match find (λ slot, negb (slot =? NULL_SLOT) && bool_decide (own_item slot = None)) slots with
  | Some slot => (EQUIP_ERR_OK, slot)
  | None =>
    match find (λ slot, negb (slot =? NULL_SLOT) && swap) slots with
    | Some slot => (EQUIP_ERR_OK, slot)
    | None => (EQUIP_ERR_ITEM_CANT_BE_EQUIPPED, NULL_SLOT)
    end
  end.

(** ** Unique items *)

Definition CanEquipUniqueItem_template (itemProto : ItemTemplate) (except_slot limit_count : Z) : InventoryResult :=
  if (tFlags itemProto .& ITEM_PROTO_FLAG_UNIQUE_EQUIPPED)
     && HasItemOrGemWithIdEquipped (pl w) (ItemId itemProto) 1 except_slot
  then EQUIP_ERR_ITEM_UNIQUE_EQUIPABLE
  else if negb (ItemLimitCategory itemProto =? 0) then
    match sItemLimitCategoryStore !! ItemLimitCategory itemProto with
    | None => EQUIP_ERR_ITEM_CANT_BE_EQUIPPED
    | Some limitEntry =>
      if maxCount limitEntry <? limit_count then EQUIP_ERR_ITEM_MAX_LIMIT_CATEGORY_EQUIPPED_EXCEEDED
      else if HasItemOrGemWithLimitCategoryEquipped (pl w) (ItemLimitCategory itemProto)
                (u32 (maxCount limitEntry - limit_count + 1)) except_slot
      then EQUIP_ERR_ITEM_MAX_COUNT_EQUIPPED_SOCKETED
      else EQUIP_ERR_OK
    end
  else EQUIP_ERR_OK.

Definition IsEquipped (p : ptr) : bool :=
  bool_decide ((states w !! p) ≫= m_container = None) && (m_slot (mem (pl w) p) <? EQUIPMENT_SLOT_END).
(** One after the other the gems, until one is refused. *)
Definition gem_check (p : ptr) (eslot enchant_slot : Z) : InventoryResult :=
  let it := mem (pl w) p in
  let enchant_id := GetEnchantmentId it enchant_slot in
  if enchant_id =? 0 then EQUIP_ERR_OK
  else match sSpellItemEnchantmentStore !! enchant_id with
  | None => EQUIP_ERR_OK
  | Some GemID =>
    match item_templates !! GemID with
    | None => EQUIP_ERR_OK
    | Some pGem =>
      CanEquipUniqueItem_template pGem eslot
        (if negb (IsEquipped p) && negb (ItemLimitCategory pGem =? 0)
         then GetGemCountWithLimitCategory it (ItemLimitCategory pGem) else 1)
    end
  end.
Definition CanEquipUniqueItem (p : ptr) (eslot limit_count : Z) : InventoryResult :=
  let res := CanEquipUniqueItem_template (GetTemplate (mem (pl w) p)) eslot limit_count in
  if negb (is_ok res) then res
  else default EQUIP_ERR_OK
    (find (λ res, negb (is_ok res)) (map (gem_check p eslot) (range SOCK_ENCHANTMENT_SLOT (SOCK_ENCHANTMENT_SLOT + 3)))).

(** ** CanEquipItem *)

Definition FindIgnorableSlotForUniqueItem (p : ptr) (equipSlot : Z) (swap : bool) : Z :=
  if negb swap then NULL_SLOT
  else
    let ignoreSlot :=
      if equipSlot =? EQUIPMENT_SLOT_MAINHAND then EQUIPMENT_SLOT_OFFHAND
      else if equipSlot =? EQUIPMENT_SLOT_OFFHAND then EQUIPMENT_SLOT_MAINHAND
      else if equipSlot =? EQUIPMENT_SLOT_FINGER1 then EQUIPMENT_SLOT_FINGER2
      else if equipSlot =? EQUIPMENT_SLOT_FINGER2 then EQUIPMENT_SLOT_FINGER1
      else if equipSlot =? EQUIPMENT_SLOT_TRINKET1 then EQUIPMENT_SLOT_TRINKET2
      else if equipSlot =? EQUIPMENT_SLOT_TRINKET2 then EQUIPMENT_SLOT_TRINKET1
      else NULL_SLOT in
    if (ignoreSlot =? NULL_SLOT) || negb (bool_decide (own_item ignoreSlot = Some p)) then equipSlot else ignoreSlot.

Definition CanEquipItemsCurrently (p : ptr) : InventoryResult :=
  let pProto := GetTemplate (mem (pl w) p) in
  if disarmed (pl w) && ((Class_ pProto =? ITEM_CLASS_WEAPON) || (Class_ pProto =? ITEM_CLASS_ARMOR))
  then EQUIP_ERR_CANT_DO_RIGHT_NOW
  else if stunned w then EQUIP_ERR_YOU_ARE_STUNNED
  else if negb (CanChangeEquipStateInCombat pProto) && IsInCombat (pl w) then EQUIP_ERR_NOT_IN_COMBAT
  else if negb (CanChangeEquipStateInCombat pProto) && in_running_arena (pl w) then EQUIP_ERR_NOT_DURING_ARENA_MATCH
  else if IsInCombat (pl w) && ((Class_ pProto =? ITEM_CLASS_WEAPON) || (InventoryType pProto =? INVTYPE_RELIC))
          && negb (m_weaponChangeTimer w =? 0)
  then EQUIP_ERR_CANT_DO_RIGHT_NOW
  else if IsNonMeleeSpellCast w then EQUIP_ERR_CANT_DO_RIGHT_NOW
  else EQUIP_ERR_OK.

(** The highest level at which a scaling item can be worn. *)
Definition outgrown (proto : ItemTemplate) : bool :=
  if ScalingStatDistribution proto =? 0 then false
  else match sScalingStatDistributionStore !! ScalingStatDistribution proto with
  | Some MaxLevel => (MaxLevel <? DEFAULT_MAX_LEVEL) && (MaxLevel <? getLevel (pl w))
  | None => false
  end.

Definition CanEquipItem (preferredSlot : Z) (p : ptr) (swap not_loading : bool) : InventoryResult * Z :=
  let it := mem (pl w) p in
  let pProto := GetTemplate it in
  let '(more, _, _) := CanTakeMoreSimilarItems (pl w) (GetEntry it) (GetCount it) (Some p) in
  let usable := CanUseItem (pl w) (Some p) not_loading in
  if m_lootGenerated it then (EQUIP_ERR_ALREADY_LOOTED, 0)
  else if IsBindedNotWith it (player_guid (pl w)) then (EQUIP_ERR_DONT_OWN_THAT_ITEM, 0)
  else if negb (is_ok more) then (more, 0)
  else if IsCharmed (pl w) then (EQUIP_ERR_CANT_DO_RIGHT_NOW, 0)
  else if negb (is_ok usable) then (usable, 0)
  else if outgrown pProto then (EQUIP_ERR_ITEM_CANT_BE_EQUIPPED, 0)
  else if not_loading && negb (is_ok (CanEquipItemsCurrently p)) then (CanEquipItemsCurrently p, 0)
  else
    let '(res, targetEquipSlot) := CanFindEquipSlot p preferredSlot swap not_loading in
    if negb (is_ok res) then (res, 0)
    else
      let unique := CanEquipUniqueItem p (FindIgnorableSlotForUniqueItem p targetEquipSlot swap) 1 in
      if negb (is_ok unique) then (unique, 0)
      else if negb swap && bool_decide (is_Some (own_item targetEquipSlot))
      then (EQUIP_ERR_NO_EQUIPMENT_SLOT_AVAILABLE, 0)
      else (EQUIP_ERR_OK, pack INVENTORY_SLOT_BAG_0 targetEquipSlot).
End equip.
End MoveEquip.
