(* ===== verification/MoveSwap.v ===== *)
(** * Splitting and swapping items ([src/server/game/Entities/Player/Player.cpp])

    The operations that move items between two places of the inventory, and the slots for
    buying back what was sold. *)
From S2P Require Import Prelude StateMonad Items Inventory Storage MoveData MoveOps MoveEquip.

Module MoveSwap.
Export MoveEquip.

Section swap.
Context `{IE : ItemEnv} `{ME : MoveEnv}.

Definition IsInventoryPos16 (position : Z) : bool := IsInventoryPos (pos_bag position) (pos_slot position).
Definition IsBankPos16 (position : Z) : bool := IsBankPos (pos_bag position) (pos_slot position).
Definition IsEquipmentPos16 (position : Z) : bool := IsEquipmentPos (pos_bag position) (pos_slot position).

Definition CanEquipNewItem (slot item : Z) (swap : bool) : MW (InventoryResult * Z) :=
  o ← CreateItem item 1;
  match o with
  | None => mret (EQUIP_ERR_ITEM_NOT_FOUND, 0)
  | Some p => w ← get; let r := CanEquipItem w slot p swap true in _ ← delete_item p; mret r
  end.

(** ** The off hand *)

(** What saving an item does to it. *)
Definition SaveToDB (p : ptr) : MW unit :=
  s ← state_at p;
  if bool_decide (uState s = ITEM_REMOVED) then delete_item p else SetState p ITEM_UNCHANGED false.

Definition AutoUnequipOffhandIfNeed (force : bool) : MW unit :=
  w ← get;
  match own_item w EQUIPMENT_SLOT_OFFHAND with
  | None => skip
  | Some offItem =>
    it ← item_at offItem;
    let t := InventoryType (GetTemplate it) in
    let force := force || (negb (CanDualWield w) && ((t =? INVTYPE_WEAPONOFFHAND) || (t =? INVTYPE_WEAPON))) in
    if negb force && negb (IsTwoHandUsed w) then skip
    else
      let v := CanStoreItem (pl w) NULL_BAG NULL_SLOT [] (Some offItem) false in
      if is_ok (v_res v) then
        _ ← RemoveItem INVENTORY_SLOT_BAG_0 EQUIPMENT_SLOT_OFFHAND;
        _ ← StoreItem (v_dest v) offItem; skip
      else
        _ ← MoveItemFromInventory INVENTORY_SLOT_BAG_0 EQUIPMENT_SLOT_OFFHAND;
        _ ← SaveToDB offItem;
        _ ← tell (SendMail offItem);
        modify (λ w, set_mailed w (offItem :: mailed w))
  end.

Definition StoreNewItemInBestSlots_loop (titem_id : Z) : nat → Z → MW Z :=
  fix loop fuel titem_amount :=
    if titem_amount <=? 0 then mret 0
    else match fuel with
    | O => lift OutOfFuel
    | S fuel =>
      r ← CanEquipNewItem NULL_SLOT titem_id false;
      if negb (is_ok r.1) then mret titem_amount
      else
        _ ← EquipNewItem r.2 titem_id;
        _ ← AutoUnequipOffhandIfNeed false;
        loop fuel (titem_amount - 1)
    end.
(** Worn one by one as far as possible, the rest stored. *)
Definition StoreNewItemInBestSlots (titem_id titem_amount randomPropertyId : Z) : MW bool :=
  left ← StoreNewItemInBestSlots_loop titem_id (Z.to_nat titem_amount) titem_amount;
  if left =? 0 then mret true
  else
    w ← get;
    let v := CanStoreNewItem (pl w) INVENTORY_SLOT_BAG_0 NULL_SLOT [] titem_id left in
    if is_ok (v_res v) then _ ← StoreNewItem (v_dest v) titem_id randomPropertyId ∅; mret true
    else mret false.
(** Player::AddItem with the items it creates. *)
Definition AddNewItem (itemId count randomPropertyId : Z) : MW bool :=
  w ← get;
  match AddItem (pl w) itemId count with
  | None => mret false
  | Some (dest, _) =>
    o ← StoreNewItem dest itemId randomPropertyId ∅;
    mret (bool_decide (is_Some o))
  end.

(** ** Where a place is: a backpack or bag, the bank, the body *)

(** The answers of CanStoreItem, CanBankItem or CanEquipItem, as the place asks for; [None]:
    no such place. *)
Inductive route := Stored (dest : ItemPosCountVec) | Banked (dest : ItemPosCountVec) | Worn (dest : Z) | Nowhere.
Definition plan (w : Mover) (position : Z) (p : ptr) (swap : bool) : InventoryResult * route :=
  let bag := pos_bag position in let slot := pos_slot position in
  if IsInventoryPos16 position then
    let v := CanStoreItem (pl w) bag slot [] (Some p) swap in (v_res v, Stored (v_dest v))
  else if IsBankPos16 position then
    let '(res, dest) := CanBankItem (pl w) bag slot [] (Some p) swap true in (res, Banked dest)
  else if IsEquipmentPos16 position then
    let '(res, dest) := CanEquipItem w slot p swap true in (res, Worn dest)
  else (EQUIP_ERR_OK, Nowhere).
Definition follow (r : route) (p : ptr) : MW unit :=
  match r with
  | Stored dest => _ ← StoreItem dest p; skip
  | Banked dest => _ ← BankItem dest p; skip
  | Worn dest => _ ← EquipItem dest p; skip
  | Nowhere => skip
  end.
Definition goes_nowhere (r : route) : bool := match r with Nowhere => true | _ => false end.
Definition is_worn (r : route) : bool := match r with Worn _ => true | _ => false end.

(** ** SplitItem *)

Definition in_trade_window (w : Mover) (it : Item) : bool := bool_decide (guid it ∈ traded w).

Definition SplitItem (src dst count : Z) : MW unit :=
  w ← get;
  match GetItemByPos16 (pl w) src with
  | None => refuse EQUIP_ERR_ITEM_NOT_FOUND
  | Some p =>
    it ← item_at p;
    if m_lootGenerated it then refuse EQUIP_ERR_COULDNT_SPLIT_ITEMS
    else if GetCount it =? count then refuse EQUIP_ERR_COULDNT_SPLIT_ITEMS
    else if GetCount it <? count then refuse EQUIP_ERR_TRIED_TO_SPLIT_MORE_THAN_COUNT
    else if in_trade_window w it then skip
    else
      o ← CloneItem p count;
      match o with
      | None => refuse EQUIP_ERR_ITEM_NOT_FOUND
      | Some new =>
        if negb (IsInventoryPos16 dst || IsBankPos16 dst || IsEquipmentPos16 dst) then skip
        else
          _ ← SetCount p (GetCount it - count);
          w ← get;
          let '(msg, r) := plan w dst new false in
          if negb (is_ok msg) then
            _ ← delete_item new;
            _ ← SetCount p (GetCount it - count + count);
            refuse msg
          else
            _ ← SetState p ITEM_CHANGED true;
            _ ← follow r new;
            when (is_worn r) (AutoUnequipOffhandIfNeed false)
      end
  end.

(** ** SwapItem *)

(** To an empty place. *)
Definition move_item (src dst : Z) (p : ptr) : MW unit :=
  w ← get;
  let '(msg, r) := plan w dst p false in
  if goes_nowhere r then skip
  else if negb (is_ok msg) then refuse msg
  else
    _ ← RemoveItem (pos_bag src) (pos_slot src);
    _ ← follow r p;
    match r with
    | Stored _ => when (IsBankPos16 src) (it ← item_at p; tell (ItemAddedQuestCheck (GetEntry it) (GetCount it)))
    | Banked _ => it ← item_at p; tell (ItemRemovedQuestCheck (GetEntry it) (GetCount it))
    | Worn _ => AutoUnequipOffhandIfNeed false
    | Nowhere => skip
    end.

(** Onto a stack that can take it, or some of it. *)
Definition merge_items (src : Z) (r : route) (p q : ptr) : MW unit :=
  it ← item_at p; it2 ← item_at q;
  let stack := GetMaxStackSize (GetTemplate it) in
  _ ← (if u32 (GetCount it + GetCount it2) <=? stack then
         _ ← RemoveItem (pos_bag src) (pos_slot src);
         _ ← follow r p;
         when (is_worn r) (AutoUnequipOffhandIfNeed false)
       else
         _ ← SetCount p (GetCount it + GetCount it2 - stack);
         _ ← SetCount q stack;
         _ ← SetState p ITEM_CHANGED true;
         SetState q ITEM_CHANGED true);
  SendRefundInfo q.

(** One bag is empty and not worn: the contents of the other change over. *)
Definition bag_exchange (w : Mover) (src dst : Z) (p q : ptr) : option (ptr * ptr) :=
  let a := mem (pl w) p in let b := mem (pl w) q in
  if negb (IsBag a && IsBag b) then None
  else if Bag_IsEmpty a && negb (IsBagPos src) then Some (p, q)
  else if Bag_IsEmpty b && negb (IsBagPos dst) then Some (q, p)
  else None.
Definition exchange_error (w : Mover) (empty full : ptr) : InventoryResult :=
  let e := mem (pl w) empty in let f := mem (pl w) full in
  if existsb (λ o, match o with Some r => negb (ItemCanGoIntoBag (GetTemplate (mem (pl w) r)) (GetTemplate e)) | None => false end)
       (bag_items f)
  then EQUIP_ERR_NONEMPTY_BAG_OVER_OTHER_BAG
  else if GetBagSize e <? Z.of_nat (length (omap id (bag_items f))) then EQUIP_ERR_ITEMS_CANT_BE_SWAPPED
  else EQUIP_ERR_OK.
Fixpoint exchange (empty full : ptr) (slots : list Z) (count : Z) : MW unit :=
  match slots with
  | [] => skip
  | i :: slots =>
    f ← item_at full;
    match Bag_GetItemByPos f (u8 i) with
    | None => exchange empty full slots count
    | Some r =>
      _ ← Bag_RemoveItem full (u8 i);
      _ ← Bag_StoreItem empty (u8 count) r;
      _ ← SetState r ITEM_CHANGED true;
      exchange empty full slots (count + 1)
    end
  end.

(** WorldSession::DoLootRelease ([Handlers/LootHandler.cpp]) of a player in the world, for the
    loot of an item: what was prospected or milled loses five, what was opened and emptied
    is destroyed. *)
Definition DoLootRelease (lguid : Z) : MW unit :=
  _ ← modify (λ w, set_GetLootGUID w 0);
  _ ← tell (SendLootRelease lguid);
  w ← get;
  match GetItemByGuid (pl w) lguid with
  | None => skip
  | Some p =>
    it ← item_at p; s ← state_at p;
    let flags := tFlags (GetTemplate it) in
    if (flags .& ITEM_PROTO_FLAG_PROSPECTABLE) || (flags .& ITEM_PROTO_FLAG_MILLABLE) then
      _ ← upd_item p (λ it, set_m_lootGenerated it false);
      _ ← upd_state p (λ s, set_isLooted s true);
      _ ← DestroyItemCount_of p (if 5 <? GetCount it then 5 else GetCount it); skip
    else when (isLooted s || negb (flags .& ITEM_PROTO_FLAG_HAS_LOOT))
           (bag ← GetBagSlot p; DestroyItem bag (m_slot it))
  end.

(** Loot that is open in a moved bag is closed. *)
Definition loot_inside (w : Mover) (p : ptr) : bool :=
  existsb (λ o, match o with Some r => guid (mem (pl w) r) =? GetLootGUID w | None => false end) (bag_items (mem (pl w) p)).
Definition release_loot (src dst : Z) (p q : ptr) : MW unit :=
  w ← get;
  when (negb (GetLootGUID w =? 0))
    (let in_src := IsBagPos src && loot_inside w p in
     if (IsBagPos src && negb (IsBag (mem (pl w) p))) || (negb in_src && IsBagPos dst && negb (IsBag (mem (pl w) q)))
     then lift BadPtr
     else when (in_src || (IsBagPos dst && loot_inside w q)) (DoLootRelease (GetLootGUID w))).

(** Whether what is worn at the target can be taken off for the other. *)
Definition checked_plan (w : Mover) (position : Z) (p : ptr) : InventoryResult * route :=
  let '(msg, r) := plan w position p true in
  match r with
  | Worn dest => (if is_ok msg then CanUnequipItem (pl w) dest true else msg, r)
  | _ => (msg, r)
  end.
Definition swap_items (src dst : Z) (p q : ptr) : MW unit :=
  w ← get;
  let '(msg, there) := checked_plan w dst p in
  if negb (is_ok msg) then refuse msg
  else
    let '(msg, back) := checked_plan w src q in
    if negb (is_ok msg) then refuse msg
    else
      let x := bag_exchange w src dst p q in
      let err := match x with Some (empty, full) => exchange_error w empty full | None => EQUIP_ERR_OK end in
      if negb (is_ok err) then refuse err
      else
        _ ← match x with
            | Some (empty, full) => exchange empty full (bag_slots (mem (pl w) full)) 0
            | None => skip
            end;
        _ ← RemoveItem (pos_bag dst) (pos_slot dst);
        _ ← RemoveItem (pos_bag src) (pos_slot src);
        _ ← follow there p;
        _ ← follow back q;
        _ ← release_loot src dst p q;
        AutoUnequipOffhandIfNeed false.

(** Bags are taken off for other bags, or when the other is an empty bag. *)
Definition is_empty_bag (w : Mover) (o : option ptr) : bool :=
  match o with Some q => IsBag (mem (pl w) q) && Bag_IsEmpty (mem (pl w) q) | None => false end.
Definition can_leave (w : Mover) (position other : Z) (o : option ptr) : InventoryResult :=
  if IsEquipmentPos16 position || IsBagPos position
  then CanUnequipItem (pl w) position (negb (IsBagPos position) || IsBagPos other || is_empty_bag w o)
  else EQUIP_ERR_OK.

Definition SwapItem (src dst : Z) : MW unit :=
  w ← get;
  match GetItemByPos16 (pl w) src with
  | None => skip
  | Some p =>
    _ ← touch p;
    let o := GetItemByPos16 (pl w) dst in
    if negb (IsAlive (pl w)) then refuse EQUIP_ERR_YOU_ARE_DEAD
    else if negb (is_ok (can_leave w src dst o)) then refuse (can_leave w src dst o)
    else if IsBagPos src && (pos_slot src =? pos_bag dst) then refuse EQUIP_ERR_NONEMPTY_BAG_OVER_OTHER_BAG
    else if IsBagPos dst && (pos_bag src =? pos_slot dst) then refuse EQUIP_ERR_ITEMS_CANT_BE_SWAPPED
    else match o with
    | None => move_item src dst p
    | Some q =>
      _ ← touch q;
      let leave := can_leave w dst src (Some p) in
      if negb (is_ok leave) then refuse leave
      else
        let '(msg, r) := plan w dst p false in
        let both := negb (IsBag (mem (pl w) p)) && negb (IsBag (mem (pl w) q)) in
        if both && goes_nowhere r then skip
        else if both && is_ok msg then merge_items src r p q
        else swap_items src dst p q
    end
  end.

(** ** Buying back *)

Definition buyback_slots : list Z := range BUYBACK_SLOT_START BUYBACK_SLOT_END.
Definition own_ptr (w : Mover) (slot : Z) : option ptr := m_items (pl w) !! slot.

Definition RemoveItemFromBuyBackSlot (slot : Z) (del : bool) : MW unit :=
  if negb (between BUYBACK_SLOT_START slot BUYBACK_SLOT_END) then skip
  else
    w ← get;
    _ ← match own_ptr w slot with
        | Some p => _ ← touch p; when del (SetState p ITEM_REMOVED true)
        | None => skip
        end;
    _ ← put_own slot None;
    let eslot := slot - BUYBACK_SLOT_START in
    _ ← modify (λ w, set_buyback_timestamp (set_buyback_price w (<[eslot := 0]> (buyback_price w)))
                       (<[eslot := 0]> (buyback_timestamp w)));
    w ← get;
    when (bool_decide (is_Some (own_ptr w (m_currentBuybackSlot w)))) (modify (λ w, set_m_currentBuybackSlot w slot)).

(** The oldest of the slots before the first empty one. *)
Fixpoint oldest_slot (w : Mover) (slots : list Z) (time slot : Z) : Z :=
  match slots with
  | [] => slot
  | i :: slots =>
    if bool_decide (own_ptr w i = None) then slot
    else
      let i_time := default 0 (buyback_timestamp w !! (i - BUYBACK_SLOT_START)) in
      if i_time <? time then oldest_slot w slots i_time i else oldest_slot w slots time slot
  end.
Definition buyback_slot (w : Mover) : Z :=
  if bool_decide (is_Some (own_ptr w (m_currentBuybackSlot w)))
  then oldest_slot w (range (BUYBACK_SLOT_START + 1) BUYBACK_SLOT_END) (default 0 (buyback_timestamp w !! 0)) BUYBACK_SLOT_START
  else m_currentBuybackSlot w.
Definition AddItemToBuyBackSlot (p : ptr) : MW unit :=
  w ← get;
  let slot := buyback_slot w in
  _ ← RemoveItemFromBuyBackSlot slot true;
  it ← item_at p;
  _ ← put_own slot (Some p);
  let eslot := slot - BUYBACK_SLOT_START in
  _ ← modify (λ w, set_buyback_timestamp
        (set_buyback_price w (<[eslot := u32 (SellPrice (GetTemplate it) * GetCount it)]> (buyback_price w)))
        (<[eslot := u32 (now w - m_logintime w + 30 * 3600)]> (buyback_timestamp w)));
  modify (λ w, if m_currentBuybackSlot w <? BUYBACK_SLOT_END - 1
               then set_m_currentBuybackSlot w (m_currentBuybackSlot w + 1) else w).
Definition GetItemFromBuyBackSlot (w : Mover) (slot : Z) : option ptr :=
  if between BUYBACK_SLOT_START slot BUYBACK_SLOT_END then own_ptr w slot else None.
End swap.
End MoveSwap.
