(* ===== verification/MoveHandlers.v ===== *)
(** * Requests that move items ([src/server/game/Handlers/ItemHandler.cpp])

    The handlers of the client's packets, and histories of them. *)
From S2P Require Import Prelude StateMonad Items Inventory Storage MoveData MoveOps MoveEquip MoveSwap.

Module MoveHandlers.
Export MoveSwap.

Definition SELL_ERR_CANT_FIND_ITEM := 1.
Definition SELL_ERR_CANT_SELL_ITEM := 2.
Definition SELL_ERR_CANT_FIND_VENDOR := 3.
Definition BUY_ERR_CANT_FIND_ITEM := 0.
Definition BUY_ERR_NOT_ENOUGHT_MONEY := 2.
Definition MAX_MONEY_AMOUNT := 0x7FFFFFFF - 1.

Section handlers.
Context `{IE : ItemEnv} `{ME : MoveEnv}.

(** ** Moving *)

Definition HandleSplitItemOpcode (srcbag srcslot dstbag dstslot count : Z) : MW unit :=
  w ← get;
  let src := pack srcbag srcslot in let dst := pack dstbag dstslot in
  if src =? dst then skip
  else if count =? 0 then skip
  else if negb (IsValidPos (pl w) srcbag srcslot true) then refuse EQUIP_ERR_ITEM_NOT_FOUND
  else if negb (IsValidPos (pl w) dstbag dstslot false) then refuse EQUIP_ERR_ITEM_DOESNT_GO_TO_SLOT
  else SplitItem src dst count.

Definition HandleSwapItem (dstbag dstslot srcbag srcslot : Z) : MW unit :=
  w ← get;
  let src := pack srcbag srcslot in let dst := pack dstbag dstslot in
  if src =? dst then skip
  else if negb (IsValidPos (pl w) srcbag srcslot true) then refuse EQUIP_ERR_ITEM_NOT_FOUND
  else if negb (IsValidPos (pl w) dstbag dstslot true) then refuse EQUIP_ERR_ITEM_DOESNT_GO_TO_SLOT
  else if IsBankPos srcbag srcslot && negb (CanUseBank w) then skip
  else if IsBankPos dstbag dstslot && negb (CanUseBank w) then skip
  else SwapItem src dst.
Definition HandleSwapInvItemOpcode (dstslot srcslot : Z) : MW unit :=
  HandleSwapItem INVENTORY_SLOT_BAG_0 dstslot INVENTORY_SLOT_BAG_0 srcslot.

Definition HandleAutoEquipItemSlotOpcode (itemguid dstslot : Z) : MW unit :=
  if negb (IsEquipmentPos INVENTORY_SLOT_BAG_0 dstslot) then skip
  else
    w ← get;
    let dstpos := pack INVENTORY_SLOT_BAG_0 dstslot in
    match GetItemByGuid (pl w) itemguid with
    | None => skip
    | Some p => position ← GetPos p; if position =? dstpos then skip else SwapItem position dstpos
    end.

(** Where what is worn can go: to the place of the other, its bag, or anywhere. The
    answers of the attempts before stay in [dest]. *)
Definition place_for (w : Mover) (src : Z) (p : ptr) : InventoryResult * route :=
  let bag := pos_bag src in let slot := pos_slot src in
  if IsInventoryPos16 src then
    let v := CanStoreItem (pl w) bag slot [] (Some p) true in
    let v := if is_ok (v_res v) then v else CanStoreItem (pl w) bag NULL_SLOT (v_dest v) (Some p) true in
    let v := if is_ok (v_res v) then v else CanStoreItem (pl w) NULL_BAG NULL_SLOT (v_dest v) (Some p) true in
    (v_res v, Stored (v_dest v))
  else if IsBankPos16 src then
    let r := CanBankItem (pl w) bag slot [] (Some p) true true in
    let r := if is_ok r.1 then r else CanBankItem (pl w) bag NULL_SLOT r.2 (Some p) true true in
    let r := if is_ok r.1 then r else CanBankItem (pl w) NULL_BAG NULL_SLOT r.2 (Some p) true true in
    (r.1, Banked r.2)
  else if IsEquipmentPos16 src then
    let '(msg, dest) := CanEquipItem w slot p true true in
    (if is_ok msg then CanUnequipItem (pl w) dest true else msg, Worn dest)
  else (EQUIP_ERR_OK, Nowhere).
Definition HandleAutoEquipItemOpcode (srcbag srcslot : Z) : MW unit :=
  w ← get;
  match GetItemByPos (pl w) srcbag srcslot with
  | None => skip
  | Some p =>
    it ← item_at p;
    let '(msg, dest) := CanEquipItem w NULL_SLOT p (negb (IsBag it)) true in
    if negb (is_ok msg) then refuse msg
    else
      src ← GetPos p;
      if dest =? src then skip
      else match GetItemByPos16 (pl w) dest with
      | None =>
        _ ← RemoveItem srcbag srcslot;
        _ ← EquipItem dest p;
        AutoUnequipOffhandIfNeed false
      | Some q =>
        dstbag ← GetBagSlot q; it2 ← item_at q;
        let msg := CanUnequipItem (pl w) dest (negb (IsBag it)) in
        if negb (is_ok msg) then refuse msg
        else
          let '(msg, back) := place_for w src q in
          if negb (is_ok msg) then refuse msg
          else
            _ ← RemoveItem dstbag (m_slot it2);
            _ ← RemoveItem srcbag srcslot;
            _ ← EquipItem dest p;
            _ ← follow back q;
            AutoUnequipOffhandIfNeed false
      end
  end.

(** No-op: placed where it is. *)
Definition stays (dest : ItemPosCountVec) (src : Z) : bool :=
  match dest with [pc] => pos pc =? src | _ => false end.
Definition HandleAutoStoreBagItemOpcode (srcbag srcslot dstbag : Z) : MW unit :=
  w ← get;
  match GetItemByPos (pl w) srcbag srcslot with
  | None => skip
  | Some p =>
    if negb (IsValidPos (pl w) dstbag NULL_SLOT false) then refuse EQUIP_ERR_ITEM_DOESNT_GO_TO_SLOT
    else
      src ← GetPos p;
      let leave := if IsEquipmentPos16 src || IsBagPos src
                   then CanUnequipItem (pl w) src (negb (IsBagPos src)) else EQUIP_ERR_OK in
      if negb (is_ok leave) then refuse leave
      else
        let v := CanStoreItem (pl w) dstbag NULL_SLOT [] (Some p) false in
        if negb (is_ok (v_res v)) then refuse (v_res v)
        else if stays (v_dest v) src then refuse EQUIP_ERR_NONE
        else _ ← RemoveItem srcbag srcslot; _ ← StoreItem (v_dest v) p; skip
  end.

Definition HandleAutoBankItemOpcode (srcbag srcslot : Z) : MW unit :=
  w ← get;
  if negb (CanUseBank w) then skip
  else match GetItemByPos (pl w) srcbag srcslot with
  | None => skip
  | Some p =>
    let '(msg, dest) := CanBankItem (pl w) NULL_BAG NULL_SLOT [] (Some p) false true in
    if negb (is_ok msg) then refuse msg
    else
      src ← GetPos p;
      if stays dest src then refuse EQUIP_ERR_NONE
      else
        _ ← RemoveItem srcbag srcslot;
        it ← item_at p;
        _ ← tell (ItemRemovedQuestCheck (GetEntry it) (GetCount it));
        _ ← BankItem dest p; skip
  end.

Definition HandleAutoStoreBankItemOpcode (srcbag srcslot : Z) : MW unit :=
  w ← get;
  if negb (CanUseBank w) then skip
  else match GetItemByPos (pl w) srcbag srcslot with
  | None => skip
  | Some p =>
    if IsBankPos srcbag srcslot then
      let v := CanStoreItem (pl w) NULL_BAG NULL_SLOT [] (Some p) false in
      if negb (is_ok (v_res v)) then refuse (v_res v)
      else
        _ ← RemoveItem srcbag srcslot;
        o ← StoreItem (v_dest v) p;
        match o with
        | Some q => it ← item_at q; tell (ItemAddedQuestCheck (GetEntry it) (GetCount it))
        | None => skip
        end
    else
      let '(msg, dest) := CanBankItem (pl w) NULL_BAG NULL_SLOT [] (Some p) false true in
      if negb (is_ok msg) then refuse msg
      else _ ← RemoveItem srcbag srcslot; _ ← BankItem dest p; skip
  end.

(** ** Destroying, selling, buying back *)

Definition HandleDestroyItemOpcode (bag slot count : Z) : MW unit :=
  w ← get;
  let position := pack bag slot in
  let leave := if IsEquipmentPos16 position || IsBagPos position then CanUnequipItem (pl w) position false else EQUIP_ERR_OK in
  if negb (is_ok leave) then refuse leave
  else match GetItemByPos (pl w) bag slot with
  | None => refuse EQUIP_ERR_ITEM_NOT_FOUND
  | Some p =>
    it ← item_at p;
    if tFlags (GetTemplate it) .& ITEM_PROTO_FLAG_INDESTRUCTIBLE then refuse EQUIP_ERR_CANT_DROP_SOULBOUND
    else if count =? 0 then DestroyItem bag slot
    else _ ← DestroyItemCount_of p count; skip
  end.

(** ModifyMoney; whether the amount fits. *)
Definition ModifyMoney (amount : Z) : MW unit :=
  w ← get;
  if amount <? 0 then
    modify (λ w, set_GetMoney w (if u32 (- amount) <? GetMoney w then GetMoney w + amount else 0))
  else if GetMoney w <=? u32 (MAX_MONEY_AMOUNT - amount) then modify (λ w, set_GetMoney w (GetMoney w + amount))
  else refuse EQUIP_ERR_TOO_MUCH_GOLD.
Definition HasEnoughMoney (w : Mover) (price : Z) : bool :=
  if 0 <? s32 price then s32 price <=? GetMoney w else true.

Definition sell (p : ptr) (count : Z) : MW unit :=
  it ← item_at p;
  let pProto := GetTemplate it in
  if GetMaxStackSize pProto <? count then skip
  else if 0 <? SellPrice pProto then
    o ← (if count <? GetCount it then
           o ← CloneItem p count;
           match o with
           | None => _ ← tell (SendSellError SELL_ERR_CANT_SELL_ITEM); mret false
           | Some new =>
             _ ← SetCount p (GetCount it - count);
             _ ← tell (ItemRemovedQuestCheck (GetEntry it) count);
             _ ← SetState p ITEM_CHANGED true;
             _ ← AddItemToBuyBackSlot new;
             mret true
           end
         else
           _ ← tell (ItemRemovedQuestCheck (GetEntry it) (GetCount it));
           bag ← GetBagSlot p;
           _ ← RemoveItem bag (m_slot it);
           _ ← RemoveFromUpdateQueueOf p;
           _ ← AddItemToBuyBackSlot p;
           mret true);
    when (o : bool) (ModifyMoney (s32 (u32 (SellPrice pProto * count))))
  else tell (SendSellError SELL_ERR_CANT_SELL_ITEM).
Definition HandleSellItemOpcode (itemguid count : Z) : MW unit :=
  w ← get;
  if itemguid =? 0 then skip
  else if negb (at_vendor w) then tell (SendSellError SELL_ERR_CANT_FIND_VENDOR)
  else match GetItemByGuid (pl w) itemguid with
  | None => tell (SendSellError SELL_ERR_CANT_FIND_ITEM)
  | Some p =>
    it ← item_at p; s ← state_at p;
    if negb (owner it =? player_guid (pl w)) then tell (SendSellError SELL_ERR_CANT_SELL_ITEM)
    else if IsNotEmptyBag it then tell (SendSellError SELL_ERR_CANT_SELL_ITEM)
    else if GetLootGUID w =? guid it then tell (SendSellError SELL_ERR_CANT_SELL_ITEM)
    else if refundable s then skip
    else if count =? 0 then sell p (GetCount it)
    else if GetCount it <? count then tell (SendSellError SELL_ERR_CANT_SELL_ITEM)
    else sell p count
  end.

Definition HandleBuybackItem (slot : Z) : MW unit :=
  w ← get;
  if negb (at_vendor w) then tell (SendSellError SELL_ERR_CANT_FIND_VENDOR)
  else match GetItemFromBuyBackSlot w slot with
  | None => tell (SendBuyError BUY_ERR_CANT_FIND_ITEM)
  | Some p =>
    _ ← touch p;
    let price := default 0 (buyback_price w !! (slot - BUYBACK_SLOT_START)) in
    if negb (HasEnoughMoney w price) then tell (SendBuyError BUY_ERR_NOT_ENOUGHT_MONEY)
    else
      let v := CanStoreItem (pl w) NULL_BAG NULL_SLOT [] (Some p) false in
      if negb (is_ok (v_res v)) then refuse (v_res v)
      else
        _ ← ModifyMoney (- s32 price);
        _ ← RemoveItemFromBuyBackSlot slot false;
        it ← item_at p;
        _ ← tell (ItemAddedQuestCheck (GetEntry it) (GetCount it));
        _ ← StoreItem (v_dest v) p; skip
  end.

(** ** Histories *)

Inductive request :=
| Split (srcbag srcslot dstbag dstslot count : Z)
| Swap (dstbag dstslot srcbag srcslot : Z)
| AutoEquip (srcbag srcslot : Z)
| AutoEquipSlot (itemguid dstslot : Z)
| AutoStoreBag (srcbag srcslot dstbag : Z)
| AutoBank (srcbag srcslot : Z)
| AutoStoreBank (srcbag srcslot : Z)
| Destroy (bag slot count : Z)
| Sell (itemguid count : Z)
| Buyback (slot : Z).

Definition run (r : request) : MW unit :=
  match r with
  | Split srcbag srcslot dstbag dstslot count => HandleSplitItemOpcode (u8 srcbag) (u8 srcslot) (u8 dstbag) (u8 dstslot) (u32 count)
  | Swap dstbag dstslot srcbag srcslot => HandleSwapItem (u8 dstbag) (u8 dstslot) (u8 srcbag) (u8 srcslot)
  | AutoEquip srcbag srcslot => HandleAutoEquipItemOpcode (u8 srcbag) (u8 srcslot)
  | AutoEquipSlot itemguid dstslot => HandleAutoEquipItemSlotOpcode itemguid (u8 dstslot)
  | AutoStoreBag srcbag srcslot dstbag => HandleAutoStoreBagItemOpcode (u8 srcbag) (u8 srcslot) (u8 dstbag)
  | AutoBank srcbag srcslot => HandleAutoBankItemOpcode (u8 srcbag) (u8 srcslot)
  | AutoStoreBank srcbag srcslot => HandleAutoStoreBankItemOpcode (u8 srcbag) (u8 srcslot)
  | Destroy bag slot count => HandleDestroyItemOpcode (u8 bag) (u8 slot) (u8 count)
  | Sell itemguid count => HandleSellItemOpcode itemguid (u32 count)
  | Buyback slot => HandleBuybackItem (u32 slot)
  end.
Definition run_all (rs : list request) : MW unit := for_each rs run.
End handlers.
End MoveHandlers.
