(* ===== verification/MoveCalm.v ===== *)
(** * Steps that move nothing

    Much of what an operation does to an item changes only its flags, its timers or the
    update queue. Such a step is calm: no item moves, is counted anew, appears or goes. *)
From S2P Require Import Prelude StateMonad Items Inventory Storage MoveData MoveOps.

Module MoveCalm.
Export MoveOps.

(** Allocated, and not waiting to be deleted. *)
Definition live (w : Mover) (p : ptr) : Prop := ∃ s, states w !! p = Some s ∧ uState s ≠ ITEM_REMOVED.
Definition mine (w : Mover) (p : ptr) : Prop := live w p ∧ owner (mem (pl w) p) = player_guid (pl w).

Record same_item (a b : Item) : Prop := {
  si_guid : guid a = guid b;
  si_template : GetTemplate a = GetTemplate b;
  si_count : GetCount a = GetCount b;
  si_slot : m_slot a = m_slot b;
  si_owner : owner a = owner b;
  si_size : bag_num_slots a = bag_num_slots b;
  si_bag : m_bagslot a = m_bagslot b
}.
Definition same_state (a b : option ItemState) : Prop :=
  match a, b with
  | Some s, Some t => m_container s = m_container t ∧ (uState s = ITEM_REMOVED ↔ uState t = ITEM_REMOVED)
  | None, None => True
  | _, _ => False
  end.
Record calm (w w' : Mover) : Prop := {
  cm_items : m_items (pl w) = m_items (pl w');
  cm_me : player_guid (pl w) = player_guid (pl w');
  cm_mem p : same_item (mem (pl w) p) (mem (pl w') p);
  cm_states p : same_state (states w !! p) (states w' !! p);
  cm_address : next_address w = next_address w';
  cm_guid : next_guid w = next_guid w';
  cm_mailed : mailed w = mailed w';
  cm_buyback : m_currentBuybackSlot w = m_currentBuybackSlot w'
}.

#[export] Instance same_item_equiv : Equivalence same_item.
Proof. split; [done|by intros ?? []|]. intros ??? [] []. split; congruence. Qed.
#[export] Instance same_state_equiv : Equivalence same_state.
Proof.
  split.
  - intros [s|]; cbn; [|done]. by split.
  - intros [s|] [t|]; cbn; try done. intros [-> ?]. split; [done|by symmetry].
  - intros [s|] [t|] [u|]; cbn; try done. intros [-> H] [-> H']. split; [done|by rewrite H].
Qed.
#[export] Instance calm_equiv : Equivalence calm.
Proof.
  split.
  - intros w. split; done.
  - intros w w' []. by split.
  - intros w w' w'' [] []. split; try congruence; intros p; etransitivity; eauto.
Qed.

Lemma calm_live w w' p : calm w w' → live w p → live w' p.
Proof.
  intros H (s & Hs & Hn). pose proof (cm_states _ _ H p) as Hp. rewrite Hs in Hp. unfold live.
  destruct (states w' !! p) as [t|]; [|done]. exists t. split; [done|]. by destruct Hp as [_ <-].
Qed.

Lemma calm_mine w w' p : calm w w' → mine w p → mine w' p.
Proof.
  intros H [Hl Ho]. split; [by eapply calm_live|]. by rewrite <- (cm_me _ _ H), <- (si_owner _ _ (cm_mem _ _ H p)).
Qed.

(** ** Quiet operations: safe and calm while the item they use is the player's *)

Definition quiet {A} (p : ptr) (k : MW A) : Prop := ∀ w0, mine w0 p → safe (calm w0) k (λ _, calm w0).

Section quiet.
Variable p : ptr.

Lemma quiet_intro {A} (k : MW A) :
  (∀ w, mine w p → match k w with Ok (_, w') => calm w w' | Undefined => True | _ => False end) → quiet p k.
Proof.
  intros H w0 H0 w Hw. specialize (H w (calm_mine _ _ _ Hw H0)). destruct (k w) as [[a w']| | | |]; try done.
  by transitivity w.
Qed.
Lemma quiet_wp {A} (k : MW A) w : quiet p k → mine w p → wp k (λ _, calm w) w.
Proof. intros H Hl. exact (H w Hl w ltac:(reflexivity)). Qed.
Lemma wp_quiet {A B} (k : MW A) (f : A → MW B) (Q : B → Mover → Prop) w :
  quiet p k → mine w p → (∀ a w', calm w w' → wp (f a) Q w') → wp (k ≫= f) Q w.
Proof. intros H Hl HQ. eapply wp_use; [by apply quiet_wp|done]. Qed.
Lemma wp_still {A B} (k : MW A) (f : A → MW B) (Q : B → Mover → Prop) w0 w :
  quiet p k → mine w0 p → calm w0 w → (∀ a w', calm w0 w' → wp (f a) Q w') → wp (k ≫= f) Q w.
Proof.
  intros H Hl Hw HQ. apply wp_quiet; [done|by eapply calm_mine|]. intros a w' Hw'. apply HQ. by transitivity w.
Qed.
Lemma wp_end {A} (k : MW A) (Q : A → Mover → Prop) w0 w :
  quiet p k → mine w0 p → calm w0 w → (∀ a w', calm w0 w' → Q a w') → wp k Q w.
Proof.
  intros H Hl Hw HQ. eapply wp_mono; [by apply quiet_wp; [|eapply calm_mine]|]. cbn. intros a w' Hw'. apply HQ. by transitivity w.
Qed.

Lemma quiet_ret {A} (a : A) : quiet p (mret a).
Proof. intros w0 _. by apply safe_ret. Qed.
Lemma quiet_skip : quiet p skip.
Proof. apply quiet_ret. Qed.
Lemma quiet_bind {A B} (k : MW A) (f : A → MW B) : quiet p k → (∀ a, quiet p (f a)) → quiet p (k ≫= f).
Proof. intros Hk Hf w0 H0. eapply safe_bind; [by apply Hk|]. intros a. by apply Hf. Qed.
Lemma quiet_get {B} (f : Mover → MW B) : (∀ w, quiet p (f w)) → quiet p (get ≫= f).
Proof. intros H. apply quiet_bind; [|done]. by apply quiet_intro. Qed.
Lemma quiet_when b k : quiet p k → quiet p (when b k).
Proof. destruct b; [done|intros _; apply quiet_skip]. Qed.
Lemma quiet_for_each {A} (l : list A) f : (∀ a, quiet p (f a)) → quiet p (for_each l f).
Proof. induction l as [|a l IH]; intros H; [apply quiet_skip|]. cbn. apply quiet_bind; auto. Qed.

Lemma state_at_Ok w s : states w !! p = Some s → state_at p w = Ok (s, w).
Proof. unfold state_at, mbind, ST_bind. cbn. by intros ->. Qed.
Lemma item_at_answers w : live w p → item_at p w = Ok (mem (pl w) p, w).
Proof. intros (s & Hs & _). unfold item_at. by rewrite (bind_run _ _ _ _ _ (state_at_Ok _ _ Hs)). Qed.
Lemma quiet_state_at : quiet p (state_at p).
Proof. apply quiet_intro. intros w [(s & Hs & _) _]. by rewrite (state_at_Ok _ _ Hs). Qed.
Lemma quietly_item_at : quiet p (item_at p).
Proof. apply quiet_intro. intros w [H _]. by rewrite item_at_answers. Qed.

Lemma calm_write_item w q it : same_item (mem (pl w) q) it → calm w (write_item q it w).
Proof. intros H. split; try done. intros p'. cbn. destruct (Z.eqb_spec p' q) as [->|]; done. Qed.
Lemma calm_write_state w q s t :
  states w !! q = Some s → m_container s = m_container t → (uState s = ITEM_REMOVED ↔ uState t = ITEM_REMOVED) →
  calm w (write_state q t w).
Proof.
  intros Hs Hc Hr. split; try done. intros p'. cbn. destruct (decide (p' = q)) as [->|].
  - by rewrite Hs, lookup_insert_eq.
  - by rewrite lookup_insert_ne by done.
Qed.
Lemma quiet_upd_item f : (∀ it, same_item it (f it)) → quiet p (upd_item p f).
Proof.
  intros Hf. apply quiet_intro. intros w [H _]. unfold upd_item. rewrite (bind_run _ _ _ _ _ (item_at_answers _ H)).
  by apply calm_write_item.
Qed.
Lemma quiet_upd_state f :
  (∀ s, m_container s = m_container (f s) ∧ (uState s ≠ ITEM_REMOVED → uState (f s) ≠ ITEM_REMOVED)) → quiet p (upd_state p f).
Proof.
  intros Hf. apply quiet_intro. intros w [(s & Hs & Hn) _]. unfold upd_state. rewrite (bind_run _ _ _ _ _ (state_at_Ok _ _ Hs)).
  destruct (Hf s) as [H1 H2]. eapply calm_write_state; [done..|]. split; [done|]. intros E. by destruct (H2 Hn).
Qed.
Lemma quietly_modify f : (∀ w, calm w (f w)) → quiet p (modify f).
Proof. intros H. apply quiet_intro. intros w _. apply H. Qed.
Lemma quietly_tell e : quiet p (tell e).
Proof. by apply quietly_modify. Qed.
Lemma quiet_touch : quiet p (touch p).
Proof. apply quiet_bind; [apply quiet_state_at|]. intros _. apply quiet_skip. Qed.
Lemma quiet_undefined {A} : quiet p (lift Undefined : MW A).
Proof. by apply quiet_intro. Qed.
End quiet.

(** Through an operation's code, down to the steps that [leaf] knows. *)
Ltac quiet_step leaf :=
  match goal with
  | |- quiet _ (get ≫= _) => apply quiet_get; intros ?
  | |- quiet _ (_ ≫= _) => apply quiet_bind; [|intros ?]
  | |- quiet _ (when _ _) => apply quiet_when
  | |- quiet _ (for_each _ _) => apply quiet_for_each; intros ?
  | |- quiet _ (mret _) => apply quiet_ret
  | |- quiet _ skip => apply quiet_skip
  | |- quiet _ (state_at _) => apply quiet_state_at
  | |- quiet _ (item_at _) => apply quietly_item_at
  | |- quiet _ (touch _) => apply quiet_touch
  | |- quiet _ (tell _) => apply quietly_tell
  | |- quiet _ (lift Undefined) => apply quiet_undefined
  | |- quiet _ (upd_item _ _) => apply quiet_upd_item; done
  | |- quiet _ (upd_state _ _) => apply quiet_upd_state; intros ?; split; [done|try done]
  | |- quiet _ (modify _) => apply quietly_modify; done
  | |- quiet _ (if ?b then _ else _) => destruct b eqn:?
  | |- quiet _ (match ?x with _ => _ end) => destruct x eqn:?
  | |- quiet _ (let _ := _ in _) => cbv zeta
  | _ => leaf
  end.
Ltac quiet_tac leaf := repeat (quiet_step leaf).

Lemma quiet_AddToUpdateQueueOf p : quiet p (AddToUpdateQueueOf p true).
Proof. unfold AddToUpdateQueueOf. cbn [negb]. quiet_tac idtac. Qed.
Lemma quiet_RemoveFromUpdateQueueOf p : quiet p (RemoveFromUpdateQueueOf p).
Proof. unfold RemoveFromUpdateQueueOf. quiet_tac idtac. Qed.
Lemma quietly_SetState p st : st ≠ ITEM_REMOVED → quiet p (SetState p st true).
Proof.
  intros H. unfold SetState. quiet_step idtac; [quiet_tac idtac|].
  rewrite bool_decide_eq_false_2 by (by intros [_ ?]).
  quiet_tac ltac:(apply quiet_AddToUpdateQueueOf).
Qed.
Lemma quiet_SetState_unchanged p b : quiet p (SetState p ITEM_UNCHANGED b).
Proof.
  unfold SetState. quiet_step idtac; [quiet_tac idtac|].
  rewrite bool_decide_eq_false_2 by (by intros [_ ?]).
  rewrite (bool_decide_eq_true_2 (ITEM_UNCHANGED = ITEM_UNCHANGED)) by done. cbn [negb]. quiet_tac idtac.
Qed.
Lemma quiet_SetState_owner p st : st ≠ ITEM_REMOVED → quiet p (SetState_owner p st).
Proof.
  intros H. apply quiet_intro. intros w [Hl Ho]. unfold SetState_owner.
  rewrite (bind_run _ _ _ _ _ (item_at_answers _ _ Hl)). unfold mbind, ST_bind. cbn. rewrite Ho, Z.eqb_refl.
  exact (quietly_SetState p st H w (conj Hl Ho) w ltac:(reflexivity)).
Qed.

Create HintDb stillness discriminated.
#[export] Hint Resolve quiet_AddToUpdateQueueOf quiet_RemoveFromUpdateQueueOf quiet_SetState_unchanged : stillness.
#[export] Hint Extern 1 (quiet _ (SetState _ _ _)) => apply quietly_SetState; done : stillness.
#[export] Hint Extern 1 (quiet _ (SetState_owner _ _)) => apply quiet_SetState_owner; done : stillness.
Ltac quieten := quiet_tac ltac:(idtac; solve [auto with stillness nocore]).

Section ops.
Context `{IE : ItemEnv} `{ME : MoveEnv}.
Variable p : ptr.

Lemma quiet_write_enchantment slot id d : quiet p (write_enchantment p slot id d).
Proof. unfold write_enchantment. quieten. Qed.
Lemma quiet_ClearEnchantment slot : quiet p (ClearEnchantment p slot).
Proof. unfold ClearEnchantment, write_enchantment. quieten. Qed.
Lemma quiet_SetEnchantment slot id d : quiet p (SetEnchantment p slot id d).
Proof. unfold SetEnchantment, write_enchantment. quieten. Qed.
Lemma quiet_SetEnchantmentDuration slot d : quiet p (SetEnchantmentDuration p slot d true).
Proof. unfold SetEnchantmentDuration. quieten. Qed.
Lemma quiet_SetBinding v : quiet p (SetBinding p v).
Proof. unfold SetBinding. quieten. Qed.
Lemma quiet_SetNotRefundable b : quiet p (SetNotRefundable p b).
Proof. unfold SetNotRefundable, DeleteRefundReference. quieten. Qed.
Lemma quiet_ClearSoulboundTradeable : quiet p (ClearSoulboundTradeable p).
Proof. unfold ClearSoulboundTradeable. quieten. Qed.
Lemma quiet_UpdatePlayedTime : quiet p (UpdatePlayedTime p).
Proof. unfold UpdatePlayedTime. quieten. apply quiet_SetNotRefundable. Qed.
Lemma quiet_AddItemDurations : quiet p (AddItemDurations p).
Proof. unfold AddItemDurations. quieten. Qed.
Lemma quiet_RemoveItemDurations : quiet p (RemoveItemDurations p).
Proof. unfold RemoveItemDurations. quieten. Qed.
Lemma quiet_AddEnchantmentDurations : quiet p (AddEnchantmentDurations p).
Proof.
  unfold AddEnchantmentDurations, AddEnchantmentDuration.
  quiet_tac ltac:(apply quiet_SetEnchantmentDuration).
Qed.
Lemma quiet_RemoveEnchantmentDurations : quiet p (RemoveEnchantmentDurations p).
Proof. unfold RemoveEnchantmentDurations. quiet_tac ltac:(apply quiet_SetEnchantmentDuration). Qed.
Lemma quiet_AddTradeableItem : quiet p (AddTradeableItem p).
Proof. unfold AddTradeableItem. quieten. Qed.
Lemma quiet_RemoveTradeableItem : quiet p (RemoveTradeableItem p).
Proof. unfold RemoveTradeableItem. quieten. Qed.
Lemma quiet_SetItemRandomProperties r : quiet p (SetItemRandomProperties p r).
Proof. unfold SetItemRandomProperties. quiet_tac ltac:(first [apply quiet_SetEnchantment|idtac; solve [auto with stillness nocore]]). Qed.
Lemma quiet_clear_held : quiet p (clear_held p).
Proof. unfold clear_held. quiet_tac ltac:(apply quiet_ClearEnchantment). Qed.
Lemma quiet_start_weapon_timer : quiet p (start_weapon_timer p).
Proof. unfold start_weapon_timer. quieten. Qed.
End ops.
#[export] Hint Resolve quiet_write_enchantment quiet_ClearEnchantment quiet_SetEnchantment quiet_SetEnchantmentDuration
  quiet_SetBinding quiet_SetNotRefundable quiet_ClearSoulboundTradeable quiet_UpdatePlayedTime quiet_AddItemDurations
  quiet_RemoveItemDurations quiet_AddEnchantmentDurations quiet_RemoveEnchantmentDurations quiet_AddTradeableItem
  quiet_RemoveTradeableItem quiet_SetItemRandomProperties quiet_clear_held quiet_start_weapon_timer : stillness.
End MoveCalm.
