(* ===== verification/MoveInvariant.v ===== *)
(** * The inventory in order

    What the operations on the inventory maintain: every item is in one place, the items
    and the places know of each other, and stacks are within their size.

    An item may be loose for a while: taken out, not yet put back. *)
From S2P Require Import Prelude StateMonad Items Inventory Storage MoveData MoveOps MoveCalm.

Module MoveInvariant.
Export MoveCalm.

(** ** What the player has *)

Definition inside (w : Mover) (b : ptr) : list ptr := (map_to_list (m_bagslot (mem (pl w) b))).*2.
Definition tree (w : Mover) (p : ptr) : list ptr := p :: inside w p.
Definition own_ptrs (w : Mover) : list ptr := (map_to_list (m_items (pl w))).*2.
(** With [L] loose: all that is not in a bag. Mail on its way counts. *)
Definition roots (L : list ptr) (w : Mover) : list ptr := own_ptrs w ++ L ++ mailed w.
Definition held (L : list ptr) (w : Mover) : list ptr := roots L w ≫= tree w.

Definition container_of (w : Mover) (p : ptr) : option ptr := states w !! p ≫= m_container.

(** Amounts: how many of an entry. *)
Definition units (w : Mover) (e : Z) (p : ptr) : Z := if GetEntry (mem (pl w) p) =? e then GetCount (mem (pl w) p) else 0.
Definition amount (e : Z) (L : list ptr) (w : Mover) : Z := total (units w e) (held L w).

Section inv.
Context `{IE : ItemEnv}.

Record sound_item (w : Mover) (p : ptr) : Prop := {
  so_mine : mine w p;
  so_address : p < next_address w;
  so_guid : guid (mem (pl w) p) < next_guid w;
  so_template : item_templates !! GetEntry (mem (pl w) p) = Some (GetTemplate (mem (pl w) p));
  so_count : 1 ≤ GetCount (mem (pl w) p) ≤ GetMaxStackSize (GetTemplate (mem (pl w) p));
  so_size : bag_num_slots (mem (pl w) p) =
            if IsBag (mem (pl w) p) then ContainerSlots (GetTemplate (mem (pl w) p)) else 0
}.
(** Only quivers are, by mistake, in other places with what is inside. *)
Definition in_slot (w : Mover) (s : Z) (p : ptr) : Prop :=
  0 ≤ s < PLAYER_SLOT_END ∧
  (own_slot s = true →
   m_slot (mem (pl w) p) = s ∧ container_of w p = None ∧
   (bag_slot s = true → IsBag (mem (pl w) p) = true) ∧
   (inside w p ≠ [] → bag_slot s = true ∨ EQUIPMENT_SLOT_END ≤ s ∧ Class_ (GetTemplate (mem (pl w) p)) = ITEM_CLASS_QUIVER)).
Definition in_bag_slot (w : Mover) (b : ptr) (j : Z) (p : ptr) : Prop :=
  0 ≤ j < bag_num_slots (mem (pl w) b) ∧ m_slot (mem (pl w) p) = j ∧ container_of w p = Some b ∧ inside w p = [].

Record Inv (L : list ptr) (w : Mover) : Prop := {
  iv_nodup : NoDup (held L w);
  iv_item p : p ∈ held L w → sound_item w p;
  iv_guid p q : p ∈ held L w → q ∈ held L w → guid (mem (pl w) p) = guid (mem (pl w) q) → p = q;
  iv_own s p : m_items (pl w) !! s = Some p → in_slot w s p;
  iv_inside b j p : b ∈ roots L w → m_bagslot (mem (pl w) b) !! j = Some p → in_bag_slot w b j p;
  iv_mem : mem_ok (pl w);
  iv_buyback : BUYBACK_SLOT_START ≤ m_currentBuybackSlot w < BUYBACK_SLOT_END
}.
(** Between requests nothing is loose. *)
Definition in_order (w : Mover) : Prop := Inv [] w.

(** *** Who is where *)

Lemma elem_of_snd {K} `{Countable K} {A} (m : gmap K A) a : a ∈ (map_to_list m).*2 ↔ ∃ k, m !! k = Some a.
Proof.
  rewrite list_elem_of_fmap. split.
  - intros ([k a'] & -> & Hk%elem_of_map_to_list). by exists k.
  - intros [k Hk%elem_of_map_to_list]. by exists (k, a).
Qed.
Lemma elem_of_inside w b p : p ∈ inside w b ↔ ∃ j, m_bagslot (mem (pl w) b) !! j = Some p.
Proof. apply elem_of_snd. Qed.
Lemma elem_of_own w p : p ∈ own_ptrs w ↔ ∃ s, m_items (pl w) !! s = Some p.
Proof. apply elem_of_snd. Qed.
Lemma elem_of_held L w p : p ∈ held L w ↔ ∃ r, r ∈ roots L w ∧ (p = r ∨ p ∈ inside w r).
Proof.
  unfold held. rewrite list_elem_of_bind. split.
  - intros (r & Hp & Hr). exists r. split; [done|]. unfold tree in Hp. set_solver.
  - intros (r & Hr & Hp). exists r. split; [|done]. unfold tree. set_solver.
Qed.
Lemma root_held L w p : p ∈ roots L w → p ∈ held L w.
Proof. intros H. apply elem_of_held. eauto. Qed.
Lemma inside_held L w b j p : b ∈ roots L w → m_bagslot (mem (pl w) b) !! j = Some p → p ∈ held L w.
Proof. intros Hb Hp. apply elem_of_held. exists b. split; [done|]. right. apply elem_of_inside. eauto. Qed.
Lemma own_root L w s p : m_items (pl w) !! s = Some p → p ∈ roots L w.
Proof. intros H. unfold roots. rewrite elem_of_app. left. apply elem_of_own. eauto. Qed.
Lemma loose_root p L w : p ∈ L → p ∈ roots L w.
Proof. unfold roots. set_solver. Qed.

(** Each in its place only. *)
Lemma bind_split {A} (R : list A) (f : A → list A) b : b ∈ R → ∃ R', R ≡ₚ b :: R' ∧ R ≫= f ≡ₚ f b ++ (R' ≫= f).
Proof. intros (R' & E)%elem_of_Permutation. exists R'. split; [done|]. by rewrite E. Qed.
Lemma held_split L w b : b ∈ roots L w → ∃ R', roots L w ≡ₚ b :: R' ∧ held L w ≡ₚ tree w b ++ (R' ≫= tree w).
Proof. apply bind_split. Qed.
Lemma in_trees w R p : p ∈ R → p ∈ R ≫= tree w.
Proof. intros H. apply list_elem_of_bind. exists p. unfold tree. set_solver. Qed.
Lemma nodup_trees w R : NoDup (R ≫= tree w) → NoDup R.
Proof.
  induction R as [|r R IH]; [constructor|]. cbn. intros H. rewrite app_comm_cons in H. apply NoDup_app in H as (_ & H2 & H3).
  constructor; [|auto]. intros Hr. apply (H2 r); [set_solver|by apply in_trees].
Qed.
Lemma nodup_roots L w : Inv L w → NoDup (roots L w).
Proof. intros H. eapply nodup_trees, iv_nodup, H. Qed.
Lemma root_not_inside L w b p : Inv L w → p ∈ roots L w → b ∈ roots L w → p ∉ inside w b.
Proof.
  intros H Hp Hb Hin. destruct (held_split L w b Hb) as (R' & E1 & E2). pose proof (iv_nodup _ _ H) as Hn.
  rewrite E2 in Hn. unfold tree at 1 in Hn. cbn in Hn. apply NoDup_cons in Hn as [Hn1 [Hn2 [Hn3 _]]%NoDup_app].
  rewrite E1 in Hp. apply elem_of_cons in Hp as [->|Hp].
  - apply Hn1. set_solver.
  - apply (Hn3 p Hin). by apply in_trees.
Qed.
Lemma inside_one L w b b' p : Inv L w → b ∈ roots L w → b' ∈ roots L w → p ∈ inside w b → p ∈ inside w b' → b = b'.
Proof.
  intros H Hb Hb' Hin Hin'. destruct (held_split L w b Hb) as (R' & E1 & E2). pose proof (iv_nodup _ _ H) as Hn.
  rewrite E2 in Hn. apply NoDup_app in Hn as [_ [Hn3 _]].
  rewrite E1 in Hb'. apply elem_of_cons in Hb' as [->|Hb']; [done|]. exfalso.
  apply (Hn3 p); [unfold tree; set_solver|]. apply list_elem_of_bind. exists b'. unfold tree. set_solver.
Qed.
Lemma loose_not_own p L w : Inv (p :: L) w → p ∉ own_ptrs w.
Proof.
  intros H Hp. pose proof (nodup_roots _ _ H) as Hn. unfold roots in Hn. apply NoDup_app in Hn as (_ & Hn & _).
  apply (Hn p Hp). set_solver.
Qed.
(** *** Calm steps keep all of it *)

Lemma calm_inside w w' b : calm w w' → inside w b = inside w' b.
Proof. intros H. unfold inside. by rewrite (si_bag _ _ (cm_mem _ _ H b)). Qed.
Lemma calm_roots L w w' : calm w w' → roots L w = roots L w'.
Proof. intros H. unfold roots, own_ptrs. by rewrite (cm_items _ _ H), (cm_mailed _ _ H). Qed.
Lemma calm_held L w w' : calm w w' → held L w = held L w'.
Proof.
  intros H. unfold held. rewrite (calm_roots L w w' H). apply list_bind_ext; [|done].
  intros p. unfold tree. by rewrite (calm_inside w w').
Qed.
Lemma calm_container w w' p : calm w w' → container_of w p = container_of w' p.
Proof.
  intros H. unfold container_of. pose proof (cm_states _ _ H p) as Hp.
  destruct (states w !! p), (states w' !! p); try done. cbn. by destruct Hp.
Qed.
Lemma calm_entry w w' p : calm w w' → GetEntry (mem (pl w) p) = GetEntry (mem (pl w') p).
Proof. intros H. unfold GetEntry. by rewrite (si_template _ _ (cm_mem _ _ H p)). Qed.
Lemma calm_IsBag w w' p : calm w w' → IsBag (mem (pl w) p) = IsBag (mem (pl w') p).
Proof. intros H. unfold IsBag. by rewrite (si_template _ _ (cm_mem _ _ H p)). Qed.
Lemma calm_amount e L w w' : calm w w' → amount e L w = amount e L w'.
Proof.
  intros H. unfold amount. rewrite (calm_held L w w' H). induction (held L w') as [|p l IH]; [done|].
  unfold total in *. cbn. rewrite IH. unfold units. by rewrite (calm_entry _ _ _ H), (si_count _ _ (cm_mem _ _ H p)).
Qed.

Lemma calm_sound_item w w' p : calm w w' → sound_item w p → sound_item w' p.
Proof.
  intros H [H1 H2 H3 H4 H5 H6]. pose proof (cm_mem _ _ H p) as E. split.
  - by eapply calm_mine.
  - by rewrite <- (cm_address _ _ H).
  - by rewrite <- (cm_guid _ _ H), <- (si_guid _ _ E).
  - by rewrite <- (calm_entry _ _ _ H), <- (si_template _ _ E).
  - by rewrite <- (si_count _ _ E), <- (si_template _ _ E).
  - by rewrite <- (si_size _ _ E), <- (calm_IsBag _ _ _ H), <- (si_template _ _ E).
Qed.
Lemma calm_Inv L w w' : calm w w' → Inv L w → Inv L w'.
Proof.
  intros H HI. pose proof (calm_held L w w' H) as Eh. pose proof (calm_roots L w w' H) as Er. destruct HI. split.
  - by rewrite <- Eh.
  - intros p. rewrite <- Eh. intros Hp. by eapply calm_sound_item; eauto.
  - intros p q. rewrite <- Eh, <- !(si_guid _ _ (cm_mem _ _ H _)). auto.
  - intros s p. rewrite <- (cm_items _ _ H). intros Hs. unfold in_slot.
    rewrite <- (si_slot _ _ (cm_mem _ _ H p)), <- (calm_container _ _ _ H), <- (calm_IsBag _ _ _ H),
      <- (calm_inside _ _ _ H), <- (si_template _ _ (cm_mem _ _ H p)). by apply iv_own0.
  - intros b j p. rewrite <- Er, <- (si_bag _ _ (cm_mem _ _ H b)). intros Hb Hj. unfold in_bag_slot.
    rewrite <- (si_size _ _ (cm_mem _ _ H b)), <- (si_slot _ _ (cm_mem _ _ H p)), <- (calm_container _ _ _ H),
      <- (calm_inside _ _ _ H). by apply iv_inside0.
  - destruct iv_mem0 as [A B]. split; intros q; unfold GetBagSize in *.
    + by rewrite <- (si_count _ _ (cm_mem _ _ H q)).
    + by rewrite <- (si_size _ _ (cm_mem _ _ H q)).
  - by rewrite <- (cm_buyback _ _ H).
Qed.

(** *** Moving a root: only the places change *)

Lemma Inv_reroot L L' w w' :
  Inv L w → roots L w ≡ₚ roots L' w' → mem (pl w) = mem (pl w') → states w = states w' →
  player_guid (pl w) = player_guid (pl w') → next_address w = next_address w' → next_guid w = next_guid w' →
  BUYBACK_SLOT_START ≤ m_currentBuybackSlot w' < BUYBACK_SLOT_END →
  (∀ s p, m_items (pl w') !! s = Some p → in_slot w' s p) → Inv L' w'.
Proof.
  intros HI Er Em Es Eg Ea En Hb Hs.
  assert (∀ p, tree w p = tree w' p) as Et by (intros p; unfold tree, inside; by rewrite Em).
  assert (held L w ≡ₚ held L' w') as Eh.
  { unfold held. rewrite Er. apply reflexive_eq. by apply list_bind_ext. }
  destruct HI. split; try done.
  - by rewrite <- Eh.
  - intros p. rewrite <- Eh. intros [[Hl Ho] ? ? ? ? ?]%iv_item0. split; rewrite <- ?Em, <- ?Ea, <- ?En; try done.
    split; [|by rewrite <- Em, <- Eg]. unfold live. by rewrite <- Es.
  - intros p q. rewrite <- Eh, <- Em. auto.
  - intros b j p. rewrite <- Er, <- Em. intros Hb' Hj. unfold in_bag_slot, container_of, inside.
    rewrite <- Em, <- Es. by apply (iv_inside0 b j p).
  - destruct iv_mem0 as [A B]. by split; rewrite <- Em.
Qed.

(** *** Changing an item in its place *)

Definition reitem (p : ptr) (f : Item → Item) (w : Mover) : Mover := write_item p (f (mem (pl w) p)) w.
(** What [f] must leave alone. *)
Record keeps_kind (it it' : Item) : Prop := {
  kk_guid : guid it' = guid it;
  kk_template : GetTemplate it' = GetTemplate it;
  kk_owner : owner it' = owner it;
  kk_size : bag_num_slots it' = bag_num_slots it;
  kk_bag : m_bagslot it' = m_bagslot it
}.
Lemma mem_reitem p f w q : mem (pl (reitem p f w)) q = if q =? p then f (mem (pl w) p) else mem (pl w) q.
Proof. done. Qed.

Section reitem.
Variables (L : list ptr) (w : Mover) (p : ptr) (f : Item → Item).
Hypothesis Hf : keeps_kind (mem (pl w) p) (f (mem (pl w) p)).

Lemma reitem_inside q : inside (reitem p f w) q = inside w q.
Proof. unfold inside. rewrite mem_reitem. destruct (Z.eqb_spec q p) as [->|]; [|done]. by rewrite (kk_bag _ _ Hf). Qed.
Lemma reitem_held : held L (reitem p f w) = held L w.
Proof. unfold held. apply list_bind_ext; [|done]. intros q. unfold tree. by rewrite reitem_inside. Qed.
Lemma reitem_template q : GetTemplate (mem (pl (reitem p f w)) q) = GetTemplate (mem (pl w) q).
Proof. rewrite mem_reitem. destruct (Z.eqb_spec q p) as [->|]; [|done]. apply Hf. Qed.
Lemma reitem_guid q : guid (mem (pl (reitem p f w)) q) = guid (mem (pl w) q).
Proof. rewrite mem_reitem. destruct (Z.eqb_spec q p) as [->|]; [|done]. apply Hf. Qed.
Lemma reitem_size q : bag_num_slots (mem (pl (reitem p f w)) q) = bag_num_slots (mem (pl w) q).
Proof. rewrite mem_reitem. destruct (Z.eqb_spec q p) as [->|]; [|done]. apply Hf. Qed.
Lemma reitem_bag q : m_bagslot (mem (pl (reitem p f w)) q) = m_bagslot (mem (pl w) q).
Proof. rewrite mem_reitem. destruct (Z.eqb_spec q p) as [->|]; [|done]. apply Hf. Qed.

Lemma Inv_reitem :
  Inv L w → 1 ≤ GetCount (f (mem (pl w) p)) ≤ GetMaxStackSize (GetTemplate (mem (pl w) p)) →
  m_slot (f (mem (pl w) p)) = m_slot (mem (pl w) p) ∨ p ∈ L ++ mailed w → Inv L (reitem p f w).
Proof.
  intros HI Hc Hs. assert (∀ q, q ∈ own_ptrs w ∨ (∃ b, b ∈ roots L w ∧ q ∈ inside w b) →
    m_slot (mem (pl (reitem p f w)) q) = m_slot (mem (pl w) q)) as Hslot.
  { intros q Hq. rewrite mem_reitem. destruct (Z.eqb_spec q p) as [->|]; [|done]. destruct Hs as [Hs|Hs]; [done|]. exfalso.
    destruct Hq as [Hq|(b & Hb & Hq)].
    - pose proof (nodup_roots _ _ HI) as Hn. unfold roots in Hn. apply NoDup_app in Hn as (_ & Hn & _). by apply (Hn p Hq).
    - eapply (root_not_inside L w b p); try done. unfold roots. set_solver. }
  pose proof HI as HI'. destruct HI. split; try done.
  - by rewrite reitem_held.
  - intros q. rewrite reitem_held. intros [[Hl Ho] ? ? ? ? ?]%iv_item0. unfold GetEntry, IsBag in *. split;
      unfold GetEntry, IsBag; rewrite ?reitem_template, ?reitem_guid, ?reitem_size; try done.
    + split; [done|]. rewrite mem_reitem. destruct (Z.eqb_spec q p) as [->|]; [|done]. by rewrite (kk_owner _ _ Hf).
    + rewrite mem_reitem. destruct (Z.eqb_spec q p) as [->|]; done.
  - intros q q'. rewrite reitem_held, !reitem_guid. auto.
  - intros s q Hq. unfold in_slot, IsBag. rewrite reitem_inside, reitem_template, Hslot by (left; apply elem_of_own; eauto).
    by apply iv_own0.
  - intros b j q Hb. rewrite reitem_bag. intros Hq. unfold in_bag_slot. rewrite reitem_inside, reitem_size, Hslot.
    + by apply iv_inside0.
    + right. exists b. split; [done|]. apply elem_of_inside. eauto.
  - destruct iv_mem0 as [A B]. split; intros q; unfold GetBagSize in *; rewrite ?reitem_size; [|done].
    rewrite mem_reitem. destruct (Z.eqb_spec q p) as [->|]; [lia|done].
Qed.
End reitem.
(** *** Taking out and putting in *)

Definition own_put (s : Z) (o : option ptr) (w : Mover) : Mover :=
  set_pl w (set_m_items (pl w) (partial_alter (λ _, o) s (m_items (pl w)))).
Definition bag_put (b : ptr) (j : Z) (o : option ptr) (w : Mover) : Mover :=
  reitem b (λ it, set_m_bagslot it (partial_alter (λ _, o) j (m_bagslot it))) w.

Lemma snd_insert (m : gmap Z ptr) s p : m !! s = None → (map_to_list (partial_alter (λ _, Some p) s m)).*2 ≡ₚ p :: (map_to_list m).*2.
Proof. intros H. change (partial_alter _ s m) with (<[s := p]> m). by rewrite map_to_list_insert. Qed.
Lemma snd_delete (m : gmap Z ptr) s p : m !! s = Some p → (map_to_list m).*2 ≡ₚ p :: (map_to_list (partial_alter (λ _, None) s m)).*2.
Proof. intros H. change (partial_alter _ s m) with (delete s m). by rewrite <- (map_to_list_delete m s p H). Qed.

Lemma roots_own_take L w s p : m_items (pl w) !! s = Some p → roots L w ≡ₚ roots (p :: L) (own_put s None w).
Proof. intros H. unfold roots, own_ptrs. cbn. rewrite (snd_delete _ _ _ H). cbn. apply Permutation_middle. Qed.
Lemma roots_own_put L w s p : m_items (pl w) !! s = None → roots (p :: L) w ≡ₚ roots L (own_put s (Some p) w).
Proof. intros H. unfold roots, own_ptrs. cbn. rewrite (snd_insert _ _ _ H). cbn. symmetry. apply Permutation_middle. Qed.
Lemma own_put_lookup s o w s' : m_items (pl (own_put s o w)) !! s' = if decide (s' = s) then o else m_items (pl w) !! s'.
Proof. cbn. destruct (decide (s' = s)) as [->|]; [by rewrite lookup_partial_alter_eq|by rewrite lookup_partial_alter_ne]. Qed.

Lemma own_inj L w s s' p : Inv L w → m_items (pl w) !! s = Some p → m_items (pl w) !! s' = Some p → s = s'.
Proof.
  intros H Hs Hs'. destruct (decide (s = s')) as [|Hne]; [done|]. exfalso.
  pose proof (nodup_roots _ _ H) as Hn. rewrite (roots_own_take L w s p Hs) in Hn. unfold roots in Hn.
  apply NoDup_app in Hn as (_ & Hn & _). apply (Hn p); [|set_solver]. apply elem_of_own. exists s'.
  rewrite own_put_lookup. by rewrite decide_False.
Qed.

Lemma Inv_own_take L w s p : Inv L w → m_items (pl w) !! s = Some p → Inv (p :: L) (own_put s None w).
Proof.
  intros H Hs. eapply (Inv_reroot L _ w); try done; [by apply roots_own_take|apply H|].
  intros s' q. rewrite own_put_lookup. destruct (decide _); [done|]. apply (iv_own _ _ H).
Qed.
Lemma Inv_own_put L w s p : Inv (p :: L) w → m_items (pl w) !! s = None → in_slot w s p → Inv L (own_put s (Some p) w).
Proof.
  intros H Hs Hp. eapply (Inv_reroot _ L w); try done; [by apply roots_own_put|apply H|].
  intros s' q. rewrite own_put_lookup. destruct (decide (s' = s)) as [->|]; [by intros [= <-]|]. apply (iv_own _ _ H).
Qed.
Lemma Inv_perm L L' w : L ≡ₚ L' → Inv L w → Inv L' w.
Proof. intros E H. eapply (Inv_reroot L L' w w); try done; [by unfold roots; rewrite E|apply H|apply (iv_own _ _ H)]. Qed.
Lemma Inv_mail L w p : Inv (p :: L) w → Inv L (set_mailed w (p :: mailed w)).
Proof.
  intros H. eapply (Inv_reroot _ L w); try done; [|apply H|apply (iv_own _ _ H)].
  unfold roots. cbn. apply Permutation_app; [done|]. apply Permutation_middle.
Qed.
Lemma Inv_current L w s : BUYBACK_SLOT_START ≤ s < BUYBACK_SLOT_END → Inv L w → Inv L (set_m_currentBuybackSlot w s).
Proof. intros Hs H. eapply (Inv_reroot L L w); try done. apply (iv_own _ _ H). Qed.

(** Another state of a loose item. *)
Lemma Inv_restate L w p st : Inv L w → p ∈ L → uState st ≠ ITEM_REMOVED → Inv L (write_state p st w).
Proof.
  intros H Hp Hst. assert (∀ q, q ≠ p → container_of (write_state p st w) q = container_of w q) as Hc.
  { intros q Hq. unfold container_of. cbn. by rewrite lookup_insert_ne. }
  assert (p ∈ roots L w) as Hr by (by apply loose_root).
  pose proof (nodup_roots _ _ H) as Hn. destruct H as [A B C D E F G] eqn:EI. split; try done.
  - intros q [[Hl Ho] ? ? ? ? ?]%B. split; try done. split; [|done]. destruct Hl as (t & Ht & Hu).
    destruct (decide (q = p)) as [->|Hq]; [exists st|exists t]; cbn; [by rewrite lookup_insert_eq|by rewrite lookup_insert_ne].
  - intros s q Hq. pose proof (D s q Hq) as Hd. unfold in_slot. rewrite Hc; [done|]. intros ->.
    unfold roots in Hn. apply NoDup_app in Hn as (_ & Hn & _). apply (Hn p); [apply elem_of_own; eauto|set_solver].
  - intros b j q Hb Hq. unfold in_bag_slot. rewrite Hc; [by apply E|]. intros ->.
    eapply (root_not_inside L w b p); try done. apply elem_of_inside. eauto.
Qed.

(** *** What is inside a bag *)

Section bag_put.
Variables (w : Mover) (b : ptr) (j : Z) (o : option ptr).
Notation w' := (bag_put b j o w).

Lemma bag_put_mem q : same_item (set_m_bagslot (mem (pl w') q) ∅) (set_m_bagslot (mem (pl w) q) ∅).
Proof. unfold bag_put. rewrite mem_reitem. by destruct (Z.eqb_spec q b) as [->|]. Qed.
Lemma bag_put_template q : GetTemplate (mem (pl w') q) = GetTemplate (mem (pl w) q).
Proof. exact (si_template _ _ (bag_put_mem q)). Qed.
Lemma bag_put_IsBag q : IsBag (mem (pl w') q) = IsBag (mem (pl w) q).
Proof. unfold IsBag. by rewrite bag_put_template. Qed.
Lemma bag_put_size q : bag_num_slots (mem (pl w') q) = bag_num_slots (mem (pl w) q).
Proof. exact (si_size _ _ (bag_put_mem q)). Qed.
Lemma bag_put_slot q : m_slot (mem (pl w') q) = m_slot (mem (pl w) q).
Proof. exact (si_slot _ _ (bag_put_mem q)). Qed.
Lemma bag_put_count q : GetCount (mem (pl w') q) = GetCount (mem (pl w) q).
Proof. exact (si_count _ _ (bag_put_mem q)). Qed.
Lemma bag_put_guid q : guid (mem (pl w') q) = guid (mem (pl w) q).
Proof. exact (si_guid _ _ (bag_put_mem q)). Qed.
Lemma bag_put_owner q : owner (mem (pl w') q) = owner (mem (pl w) q).
Proof. exact (si_owner _ _ (bag_put_mem q)). Qed.
Lemma bag_put_bag q :
  m_bagslot (mem (pl w') q) = if q =? b then partial_alter (λ _, o) j (m_bagslot (mem (pl w) b)) else m_bagslot (mem (pl w) q).
Proof. unfold bag_put. rewrite mem_reitem. by destruct (q =? b). Qed.
Lemma bag_put_lookup q j' :
  m_bagslot (mem (pl w') q) !! j' = if decide (q = b ∧ j' = j) then o else m_bagslot (mem (pl w) q) !! j'.
Proof.
  rewrite bag_put_bag. destruct (Z.eqb_spec q b) as [->|Hq]; [|by rewrite decide_False by (by intros [? _])].
  destruct (decide (j' = j)) as [->|Hj].
  - rewrite lookup_partial_alter_eq. by rewrite decide_True.
  - rewrite lookup_partial_alter_ne by done. by rewrite decide_False by (by intros [_ ?]).
Qed.
Lemma bag_put_inside q : q ≠ b → inside w' q = inside w q.
Proof. intros Hq. unfold inside. rewrite bag_put_bag. by destruct (Z.eqb_spec q b). Qed.
Lemma bag_put_sound q : sound_item w q → sound_item w' q.
Proof.
  intros [[Hl Ho] ? ? ? ? ?]. unfold GetEntry in *. split; unfold GetEntry;
    rewrite ?bag_put_template, ?bag_put_guid, ?bag_put_count, ?bag_put_size, ?bag_put_IsBag; try done.
  split; [done|]. by rewrite bag_put_owner.
Qed.
Lemma bag_put_mem_ok : mem_ok (pl w) → mem_ok (pl w').
Proof. intros [A B]. split; intros q; unfold GetBagSize in *; by rewrite ?bag_put_count, ?bag_put_size. Qed.
Lemma bag_put_trees R : b ∉ R → R ≫= tree w' = R ≫= tree w.
Proof.
  induction R as [|r R IH]; [done|]. intros [Hr HR]%not_elem_of_cons. cbn. rewrite IH by done. unfold tree.
  by rewrite bag_put_inside by congruence.
Qed.
End bag_put.

Lemma none_empty j : partial_alter (λ _, None) j (∅ : gmap Z ptr) = ∅.
Proof. exact (delete_empty (M := gmap Z) j). Qed.
Lemma held_bag_put L w b j p :
  NoDup (roots L w) → b ∈ roots L w → m_bagslot (mem (pl w) b) !! j = None →
  held L (bag_put b j (Some p) w) ≡ₚ p :: held L w.
Proof.
  intros Hn Hb Hj. destruct (held_split L w b Hb) as (R' & E1 & E2). rewrite E1 in Hn. apply NoDup_cons in Hn as [Hn _].
  change (held L (bag_put b j (Some p) w)) with (roots L w ≫= tree (bag_put b j (Some p) w)).
  rewrite E2, E1. cbn. rewrite bag_put_trees by done.
  assert (inside (bag_put b j (Some p) w) b ≡ₚ p :: inside w b) as ->.
  { unfold inside at 1. rewrite bag_put_bag, Z.eqb_refl. by apply snd_insert. }
  cbn. apply Permutation_swap.
Qed.
Lemma held_bag_take L w b j p :
  NoDup (roots L w) → b ∈ roots L w → m_bagslot (mem (pl w) b) !! j = Some p →
  held L w ≡ₚ p :: held L (bag_put b j None w).
Proof.
  intros Hn Hb Hj. destruct (held_split L w b Hb) as (R' & E1 & E2). rewrite E1 in Hn. apply NoDup_cons in Hn as [Hn _].
  change (held L (bag_put b j None w)) with (roots L w ≫= tree (bag_put b j None w)).
  rewrite E2, E1. cbn. rewrite bag_put_trees by done.
  assert (inside w b ≡ₚ p :: inside (bag_put b j None w) b) as ->.
  { unfold inside at 2. rewrite bag_put_bag, Z.eqb_refl. by apply snd_delete. }
  cbn. apply Permutation_swap.
Qed.
Lemma inside_nil w p : inside w p = [] ↔ m_bagslot (mem (pl w) p) = ∅.
Proof.
  unfold inside. split.
  - intros H%fmap_nil_inv. by apply map_to_list_empty_iff.
  - intros ->. by rewrite map_to_list_empty.
Qed.
Lemma held_cons L w p : inside w p = [] → held (p :: L) w ≡ₚ p :: held L w.
Proof.
  intros H. assert (roots (p :: L) w ≡ₚ p :: roots L w) as E.
  { unfold roots. cbn. symmetry. apply Permutation_middle. }
  unfold held. rewrite E. cbn. by rewrite H.
Qed.
Lemma held_cons_tree L w p : held (p :: L) w ≡ₚ tree w p ++ held L w.
Proof.
  assert (roots (p :: L) w ≡ₚ p :: roots L w) as E.
  { unfold roots. cbn. symmetry. apply Permutation_middle. }
  unfold held. by rewrite E.
Qed.

Lemma Inv_bag_take L w b j p :
  Inv L w → b ∈ roots L w → m_bagslot (mem (pl w) b) !! j = Some p → Inv (p :: L) (bag_put b j None w).
Proof.
  intros H Hb Hj. pose proof (nodup_roots _ _ H) as Hn. pose proof (iv_inside _ _ H _ _ _ Hb Hj) as (Hj1 & Hj2 & Hj3 & Hj4).
  assert (p ≠ b) as Hpb. { intros ->. eapply (root_not_inside L w b b); try done. apply elem_of_inside. eauto. }
  assert (inside (bag_put b j None w) p = []) as Hp0 by (by rewrite bag_put_inside).
  assert (held (p :: L) (bag_put b j None w) ≡ₚ held L w) as Eh.
  { rewrite held_cons by done. symmetry. by apply held_bag_take. }
  destruct H as [A B C D E F G]. split; try done.
  - by rewrite Eh.
  - intros q. rewrite Eh. intros Hq. by apply bag_put_sound, B.
  - intros q q'. rewrite Eh, !bag_put_guid. auto.
  - intros s q Hq. destruct (D s q Hq) as [D1 D2]. split; [done|]. intros Hs. destruct (D2 Hs) as (D3 & D4 & D5 & D6).
    rewrite bag_put_slot, bag_put_IsBag, bag_put_template. split_and!; try done.
    intros Hi. apply D6. intros Hi'. apply Hi. destruct (decide (q = b)) as [->|]; [|by rewrite bag_put_inside].
    apply inside_nil in Hi'. apply inside_nil. rewrite bag_put_bag, Z.eqb_refl, Hi'. apply none_empty.
  - intros b' j' q Hb'. rewrite bag_put_lookup. destruct (decide _) as [|Hne]; [done|]. intros Hq.
    assert (b' ∈ roots L w) as Hb''.
    { assert (b' ∈ p :: roots L w) as Hc; [|apply elem_of_cons in Hc as [->|Hc]; [|done]].
      - change (roots (p :: L) (bag_put b j None w)) with (roots (p :: L) w) in Hb'. unfold roots in *. set_solver.
      - exfalso. apply inside_nil in Hj4. rewrite Hj4 in Hq. done. }
    destruct (E b' j' q Hb'' Hq) as (E1 & E2 & E3 & E4). unfold in_bag_slot. rewrite bag_put_size, bag_put_slot. split_and!; try done; try lia.
    apply inside_nil in E4. apply inside_nil. rewrite bag_put_bag. destruct (Z.eqb_spec q b) as [Eq|]; [|done].
    subst q. rewrite E4. apply none_empty.
  - by apply bag_put_mem_ok.
Qed.

Lemma Inv_bag_put L w b j p s :
  Inv (p :: L) w → m_items (pl w) !! s = Some b → own_slot s = true → bag_slot s = true →
  m_bagslot (mem (pl w) b) !! j = None → in_bag_slot w b j p → Inv L (bag_put b j (Some p) w).
Proof.
  intros H Hb Hos Hs Hj (Hp1 & Hp2 & Hp3 & Hp4). pose proof (nodup_roots _ _ H) as Hn0.
  assert (b ∈ roots L w) as HbL by (by eapply own_root).
  assert (roots (p :: L) w ≡ₚ p :: roots L w) as Er. { unfold roots. cbn. symmetry. apply Permutation_middle. }
  rewrite Er in Hn0. apply NoDup_cons in Hn0 as [HpL Hn].
  assert (p ≠ b) as Hpb by (by intros ->).
  assert (held L (bag_put b j (Some p) w) ≡ₚ held (p :: L) w) as Eh.
  { rewrite held_cons by done. by apply held_bag_put. }
  assert (∀ b0, b0 ∈ roots L w → b ∉ inside w b0) as Hnb.
  { intros b0 Hb0. eapply root_not_inside; [exact H| |]; rewrite Er; set_solver. }
  pose proof (λ s', own_inj _ _ s s' b H Hb) as Hinj.
  destruct H as [A B C D E F G]. split; try done.
  - by rewrite Eh.
  - intros q. rewrite Eh. intros Hq. by apply bag_put_sound, B.
  - intros q q'. rewrite Eh, !bag_put_guid. auto.
  - intros s' q Hq. destruct (D s' q Hq) as [D1 D2]. split; [done|]. intros Hs'. destruct (D2 Hs') as (D3 & D4 & D5 & D6).
    rewrite bag_put_slot, bag_put_IsBag, bag_put_template. split_and!; try done.
    intros Hi. destruct (decide (q = b)) as [->|]; [left; by rewrite <- (Hinj s')|]. apply D6. by rewrite bag_put_inside in Hi.
  - intros b' j' q Hb'. change (roots L (bag_put b j (Some p) w)) with (roots L w) in Hb'. rewrite bag_put_lookup.
    unfold in_bag_slot. rewrite bag_put_size, bag_put_slot. destruct (decide _) as [[-> ->]|Hne].
    + intros [= <-]. split_and!; try done; try lia. by rewrite bag_put_inside.
    + intros Hq. destruct (E b' j' q) as (E1 & E2 & E3 & E4); [by rewrite Er; set_solver|done|]. split_and!; try done; try lia.
      rewrite bag_put_inside; [done|]. intros ->. apply (Hnb b' Hb'). apply elem_of_inside. eauto.
  - by apply bag_put_mem_ok.
Qed.

(** *** Items that go and items that come *)

Lemma Inv_gone L w w' p :
  Inv (p :: L) w → pl w' = pl w → next_address w' = next_address w → next_guid w' = next_guid w →
  mailed w' = mailed w → m_currentBuybackSlot w' = m_currentBuybackSlot w →
  (∀ q, q ∉ tree w p → states w' !! q = states w !! q) → Inv L w'.
Proof.
  intros H Ep Ea Eg Em Eb Es. pose proof (held_cons_tree L w p) as Eh.
  assert (roots L w' = roots L w) as Er by (unfold roots, own_ptrs; by rewrite Ep, Em).
  assert (∀ q, inside w' q = inside w q) as Ei by (intros q; unfold inside; by rewrite Ep).
  assert (held L w' = held L w) as Eh'.
  { unfold held. rewrite Er. apply list_bind_ext; [|done]. intros q. unfold tree. by rewrite Ei. }
  pose proof (iv_nodup _ _ H) as Hn. rewrite Eh in Hn. apply NoDup_app in Hn as (_ & Hd & Hn).
  assert (∀ q, q ∈ held L w → states w' !! q = states w !! q) as Hs.
  { intros q Hq. apply Es. intros Hq'. by apply (Hd q). }
  assert (∀ q, q ∈ held L w → q ∈ held (p :: L) w) as Hin by (intros q Hq; rewrite Eh; set_solver).
  assert (∀ q, q ∈ roots L w → q ∈ roots (p :: L) w) as Hrin by (intros q; unfold roots; set_solver).
  destruct H as [A B C D E F G]. split; rewrite ?Ep, ?Eh', ?Er, ?Eb; try done.
  - intros q Hq. destruct (B q (Hin q Hq)) as [[Hl Ho] ? ? ? ? ?]. split; rewrite ?Ep, ?Ea, ?Eg; try done.
    split; [|by rewrite Ep]. unfold live. by rewrite Hs.
  - intros q q' Hq Hq'. apply C; auto.
  - intros s q Hq. unfold in_slot, container_of. rewrite Ep, Ei, Hs; [by apply D|]. eapply root_held, own_root, Hq.
  - intros b j q Hb Hq. unfold in_bag_slot, container_of. rewrite Ep, Ei, Hs; [by apply (E b j q); auto|].
    by eapply inside_held.
Qed.

Definition create (it : Item) (st : ItemState) (w : Mover) : Mover :=
  write_item (next_address w) it (write_state (next_address w) st
    (set_next_guid (set_next_address w (next_address w + 1)) (next_guid w + 1))).

Section create.
Variables (L : list ptr) (w : Mover) (it : Item) (st : ItemState).
Notation p := (next_address w).
Notation w' := (create it st w).
Hypothesis HI : Inv L w.
Hypothesis Hbag : m_bagslot it = ∅.

Lemma fresh_held q : q ∈ held L w → q ≠ p.
Proof. intros Hq ->. pose proof (so_address _ _ (iv_item _ _ HI _ Hq)). lia. Qed.
Lemma create_mem q : q ≠ p → mem (pl w') q = mem (pl w) q.
Proof. intros Hq. cbn. by destruct (Z.eqb_spec q p). Qed.
Lemma create_mem_new : mem (pl w') p = it.
Proof. cbn. by rewrite Z.eqb_refl. Qed.
Lemma create_state q : q ≠ p → states w' !! q = states w !! q.
Proof. intros Hq. cbn. by rewrite lookup_insert_ne. Qed.
Lemma create_inside q : q ≠ p → inside w' q = inside w q.
Proof. intros Hq. unfold inside. by rewrite create_mem. Qed.
Lemma create_inside_new : inside w' p = [].
Proof. apply inside_nil. by rewrite create_mem_new. Qed.
Lemma create_held : held L w' = held L w.
Proof.
  unfold held. change (roots L w') with (roots L w). pose proof (root_held L w) as Hr. induction (roots L w) as [|r R IH]; [done|].
  cbn. rewrite IH by (intros; apply Hr; set_solver). unfold tree. rewrite create_inside; [done|]. apply fresh_held, Hr. set_solver.
Qed.

Lemma Inv_create :
  guid it = next_guid w → owner it = player_guid (pl w) → item_templates !! GetEntry it = Some (GetTemplate it) →
  1 ≤ GetCount it ≤ GetMaxStackSize (GetTemplate it) →
  bag_num_slots it = (if IsBag it then ContainerSlots (GetTemplate it) else 0) → bag_num_slots it ≤ MAX_BAG_SIZE →
  uState st ≠ ITEM_REMOVED → Inv (p :: L) w'.
Proof.
  intros Hg Ho Ht Hc Hs Hm Hu.
  assert (held (p :: L) w' ≡ₚ p :: held L w) as Eh.
  { rewrite held_cons by apply create_inside_new. by rewrite create_held. }
  pose proof fresh_held as Hf. destruct HI as [A B C D E F G]. split; try done.
  - rewrite Eh. apply NoDup_cons. split; [|done]. intros Hp. by apply (Hf p).
  - intros q. rewrite Eh. intros [->|Hq]%elem_of_cons.
    + split; rewrite ?create_mem_new; try done; cbn; try lia. split; [|cbn; by rewrite Z.eqb_refl].
      exists st. cbn. by rewrite lookup_insert_eq.
    + destruct (B q Hq) as [[[t Hl] Ho'] ? ? ? ? ?]. pose proof (Hf q Hq). split; rewrite ?create_mem by done; try done; cbn; try lia.
      split; [|by rewrite create_mem]. exists t. by rewrite create_state.
  - assert (∀ q, q ∈ held L w → guid (mem (pl w) q) < next_guid w) as Hlt by (intros q Hq; apply B, Hq).
    intros q q'. rewrite Eh. intros [->|Hq]%elem_of_cons [->|Hq']%elem_of_cons; [done| | |].
    + rewrite create_mem_new, create_mem by auto. intros E1. specialize (Hlt _ Hq'). lia.
    + rewrite create_mem_new, create_mem by auto. intros E1. specialize (Hlt _ Hq). lia.
    + rewrite !create_mem by auto. auto.
  - intros s q Hq. assert (q ≠ p) by (eapply Hf, root_held, own_root, Hq). unfold in_slot, container_of.
    rewrite create_mem, create_inside, create_state by done. by apply D.
  - intros b j q Hb. destruct (decide (b = p)) as [->|Hbp]; [by rewrite create_mem_new, Hbag|]. rewrite create_mem by done. intros Hq.
    assert (b ∈ roots L w) as Hb'.
    { change (roots (p :: L) w') with (roots (p :: L) w) in Hb. unfold roots in *. set_solver. }
    assert (q ≠ p) by (eapply Hf, inside_held; done). unfold in_bag_slot, container_of.
    rewrite !create_mem, create_inside, create_state by done. by apply (E b j q).
  - destruct F as [F1 F2]. split; intros q; destruct (decide (q = p)) as [->|]; rewrite ?create_mem_new, ?create_mem by done; try done. lia.
Qed.
End create.
Lemma Inv_bump L w : Inv L w → Inv L (set_next_guid (set_next_address w (next_address w + 1)) (next_guid w + 1)).
Proof.
  intros [A B C D E F G]. split; try done. intros p [? ? ? ? ? ?]%B. split; try done; cbn; lia.
Qed.

(** *** Places and what is in them *)

Lemma position_own L w slot p :
  Inv L w → GetItemByPos (pl w) INVENTORY_SLOT_BAG_0 slot = Some p → own_slot slot = true ∧ m_items (pl w) !! slot = Some p.
Proof. intros H. unfold GetItemByPos. cbn. by destruct (own_slot slot). Qed.
Lemma bag_at L w bag b :
  Inv L w → GetBagByPos (pl w) bag = Some b → bag_slot bag = true ∧ own_slot bag = true ∧ m_items (pl w) !! bag = Some b ∧ IsBag (mem (pl w) b) = true.
Proof.
  intros H (H1 & H2 & H3)%GetBagByPos_spec. split; [done|]. by apply (position_own L w bag b H) in H2 as [??].
Qed.
Lemma bag_is_root L w bag b : Inv L w → GetBagByPos (pl w) bag = Some b → b ∈ roots L w.
Proof. intros H (_ & _ & Hb & _)%(bag_at L w bag b H). by eapply own_root. Qed.
Lemma position_bag L w bag slot p :
  Inv L w → bag ≠ INVENTORY_SLOT_BAG_0 → GetItemByPos (pl w) bag slot = Some p →
  ∃ b, GetBagByPos (pl w) bag = Some b ∧ m_bagslot (mem (pl w) b) !! slot = Some p ∧ slot < bag_num_slots (mem (pl w) b).
Proof.
  intros H Hne. unfold GetItemByPos. rewrite (proj2 (Z.eqb_neq _ _) Hne). cbn.
  destruct (GetBagByPos (pl w) bag) as [b|]; [|done]. unfold Bag_GetItemByPos, GetBagSize. case_bool; [|done]. b2p. eauto.
Qed.
Lemma position_held L w bag slot p : Inv L w → GetItemByPos (pl w) bag slot = Some p → p ∈ held L w.
Proof.
  intros H Hp. destruct (decide (bag = INVENTORY_SLOT_BAG_0)) as [->|Hne].
  - apply (position_own L w) in Hp as [_ Hp]; [|done]. by eapply root_held, own_root.
  - apply (position_bag L w) in Hp as (b & Hb & Hp & _); [|done..]. eapply inside_held; [|done]. by eapply bag_is_root.
Qed.
Lemma held_mine L w p : Inv L w → p ∈ held L w → mine w p.
Proof. intros H Hp. apply (iv_item _ _ H p Hp). Qed.
Lemma position_mine L w bag slot p : Inv L w → GetItemByPos (pl w) bag slot = Some p → mine w p.
Proof. intros H Hp. by eapply held_mine, position_held. Qed.

End inv.
End MoveInvariant.
