(* ===== verification/MoveSteps.v ===== *)
(** * What the operations do, step by step

    The effect of each operation on the places, up to calm steps: [take] an item out,
    [place] it, [create] one, recount a stack. *)
From S2P Require Import Prelude StateMonad Items Inventory Storage MoveData MoveOps MoveCalm MoveInvariant.

Module MoveSteps.
Export MoveInvariant.

(** ** Calm states stay so *)

Definition box (p : ptr) (c : option ptr) (w : Mover) : Mover :=
  match states w !! p with Some s => write_state p (set_m_container s c) w | None => w end.

Lemma calm_own_put s o w w' : calm w w' → calm (own_put s o w) (own_put s o w').
Proof. intros []. split; try done. cbn. congruence. Qed.
Lemma calm_reitem p f w w' :
  calm w w' → same_item (f (mem (pl w) p)) (f (mem (pl w') p)) → calm (reitem p f w) (reitem p f w').
Proof. intros [] Hf. split; try done. intros q. rewrite !mem_reitem. by destruct (q =? p). Qed.
Lemma calm_bag_put b j o w w' : calm w w' → calm (bag_put b j o w) (bag_put b j o w').
Proof.
  intros H. apply calm_reitem; [done|]. destruct (cm_mem _ _ H b) as [? ? ? ? ? ? E]. split; try done. cbn. by rewrite E.
Qed.
Lemma calm_box p c w w' : calm w w' → calm (box p c w) (box p c w').
Proof.
  intros H. unfold box. pose proof (cm_states _ _ H p) as Hp.
  destruct (states w !! p) as [s|], (states w' !! p) as [t|]; try done. destruct Hp as [_ Hr]. destruct H. split; try done.
  intros q. cbn. destruct (decide (q = p)) as [->|]; [by rewrite !lookup_insert_eq|by rewrite !lookup_insert_ne].
Qed.
Lemma calm_same w p f : same_item (mem (pl w) p) (f (mem (pl w) p)) → calm w (reitem p f w).
Proof. intros H. by apply calm_write_item. Qed.

Lemma calm_bag_at w w' bag : calm w w' → GetBagByPos (pl w') bag = GetBagByPos (pl w) bag.
Proof.
  intros H. unfold GetBagByPos, ToBag. rewrite <- (cm_items _ _ H). destruct (bag_slot bag); [|done].
  destruct (m_items (pl w) !! bag) as [b|]; [|done]. by rewrite <- (calm_IsBag _ _ _ H).
Qed.
Lemma calm_item_at w w' bag slot : calm w w' → GetItemByPos (pl w') bag slot = GetItemByPos (pl w) bag slot.
Proof.
  intros H. unfold GetItemByPos. rewrite (calm_bag_at w w') by done. rewrite <- (cm_items _ _ H).
  destruct (_ && _); [done|]. destruct (GetBagByPos (pl w) bag) as [b|]; [|done].
  unfold Bag_GetItemByPos, GetBagSize. by rewrite <- (si_size _ _ (cm_mem _ _ H b)), <- (si_bag _ _ (cm_mem _ _ H b)).
Qed.

(** ** Steps *)

Lemma wp_item_at {B} p (f : Item → MW B) Q w : live w p → wp (f (mem (pl w) p)) Q w → wp (item_at p ≫= f) Q w.
Proof. intros H HQ. apply wp_bind. unfold wp at 1. by rewrite item_at_answers. Qed.
Lemma wp_state_at {B} p (f : ItemState → MW B) Q w :
  live w p → (∀ s, states w !! p = Some s → uState s ≠ ITEM_REMOVED → wp (f s) Q w) → wp (state_at p ≫= f) Q w.
Proof. intros (s & Hs & Hn) HQ. apply wp_bind. unfold wp at 1. rewrite (state_at_Ok _ _ _ Hs). by apply HQ. Qed.
Lemma wp_touch {B} p (f : unit → MW B) Q w : live w p → wp (f tt) Q w → wp (touch p ≫= f) Q w.
Proof.
  intros (s & Hs & Hn) HQ. apply wp_bind. unfold touch, wp at 1. by rewrite (bind_run _ _ _ _ _ (state_at_Ok _ _ _ Hs)).
Qed.
Lemma wp_upd_item {B} p g (f : unit → MW B) Q w : live w p → wp (f tt) Q (reitem p g w) → wp (upd_item p g ≫= f) Q w.
Proof.
  intros H HQ. apply wp_bind. unfold upd_item, wp at 1. by rewrite (bind_run _ _ _ _ _ (item_at_answers _ _ H)).
Qed.
Lemma wp_upd_state {B} p g (f : unit → MW B) Q w :
  live w p → (∀ s, states w !! p = Some s → uState s ≠ ITEM_REMOVED → wp (f tt) Q (write_state p (g s) w)) →
  wp (upd_state p g ≫= f) Q w.
Proof.
  intros (s & Hs & Hn) HQ. apply wp_bind. unfold upd_state, wp at 1. rewrite (bind_run _ _ _ _ _ (state_at_Ok _ _ _ Hs)).
  by apply HQ.
Qed.
Lemma wp_last {A} (k : MW A) Q w : wp (k ≫= mret) Q w → wp k Q w.
Proof. unfold wp, mbind, ST_bind. by destruct (k w) as [[a w']| | | |]. Qed.
Lemma live_reitem w p f q : live (reitem p f w) q ↔ live w q.
Proof. done. Qed.
Lemma live_own_put w s o q : live (own_put s o w) q ↔ live w q.
Proof. done. Qed.
Lemma live_write w p s q : live w q → uState s ≠ ITEM_REMOVED → live (write_state p s w) q.
Proof.
  intros (t & Ht & Hn) Hs. destruct (decide (q = p)) as [->|].
  - exists s. cbn. by rewrite lookup_insert_eq.
  - exists t. cbn. by rewrite lookup_insert_ne.
Qed.
Lemma live_box w p c q : live w q → live (box p c w) q.
Proof.
  unfold box. intros (t & Ht & Hn). destruct (states w !! p) as [s|] eqn:Hs; [|by exists t].
  destruct (decide (q = p)) as [->|].
  - exists (set_m_container s c). cbn. rewrite lookup_insert_eq. split; [done|]. by simplify_eq.
  - exists t. cbn. by rewrite lookup_insert_ne.
Qed.

Lemma mine_own_put w s o q : mine w q → mine (own_put s o w) q.
Proof. done. Qed.
Lemma mine_box w p c q : mine w q → mine (box p c w) q.
Proof. intros [Hl Ho]. split; [by apply live_box|]. unfold box. by destruct (states w !! p). Qed.
Lemma mine_bag_put w b j o q : mine w q → mine (bag_put b j o w) q.
Proof. intros [Hl Ho]. split; [done|]. by rewrite bag_put_owner. Qed.
Lemma mine_reitem w p f q : owner (f (mem (pl w) p)) = owner (mem (pl w) p) → mine w q → mine (reitem p f w) q.
Proof. intros Hf [Hl Ho]. split; [done|]. rewrite mem_reitem. by destruct (Z.eqb_spec q p) as [->|]; [rewrite Hf|]. Qed.
#[export] Hint Resolve mine_own_put mine_box mine_bag_put : core.

(** A calm step of an item that is [mine]; [Hc] says how calm it has been. *)
Ltac still Hc :=
  eapply wp_still; [first [solve [auto with stillness nocore]|by quieten]|eassumption|exact Hc|]; clear Hc; intros ? ? Hc.

Section ops.
Context `{IE : ItemEnv} `{ME : MoveEnv}.

(** ** Taking out *)

Definition unlink (bag slot : Z) (p : ptr) (w : Mover) : Mover :=
  if bag =? INVENTORY_SLOT_BAG_0 then own_put slot None w
  else match GetBagByPos (pl w) bag with Some b => bag_put b slot None (box p None w) | None => w end.
Definition take (bag slot : Z) (p : ptr) (w : Mover) : Mover :=
  reitem p (λ it, set_m_slot it NULL_SLOT) (unlink bag slot p w).

Lemma bag_not_inside L w bag b slot p :
  Inv L w → GetBagByPos (pl w) bag = Some b → m_bagslot (mem (pl w) b) !! slot = Some p → p ≠ b.
Proof.
  intros H Hb Hp ->. eapply (root_not_inside L w b b); try done; [by eapply bag_is_root..|].
  apply elem_of_inside. eauto.
Qed.

Lemma calm_take bag slot p w w' : calm w w' → calm (take bag slot p w) (take bag slot p w').
Proof.
  intros H. assert (calm (unlink bag slot p w) (unlink bag slot p w')) as Hx.
  { unfold unlink. destruct (bag =? _); [by apply calm_own_put|]. rewrite (calm_bag_at _ _ _ H).
    destruct (GetBagByPos (pl w) bag); [|done]. by apply calm_bag_put, calm_box. }
  apply calm_reitem; [done|]. by destruct (cm_mem _ _ Hx p).
Qed.

Lemma Inv_take L w bag slot p : Inv L w → GetItemByPos (pl w) bag slot = Some p → Inv (p :: L) (take bag slot p w).
Proof.
  intros H Hp. assert (p ∈ held L w) as Hin by (by eapply position_held). pose proof (iv_item _ _ H p Hin) as Hso.
  assert (∀ w1, Inv (p :: L) w1 → mem (pl w1) p = mem (pl w) p → Inv (p :: L) (reitem p (λ it, set_m_slot it NULL_SLOT) w1)) as Hre.
  { intros w1 H1 E. apply Inv_reitem; [done|done| |right; set_solver]. rewrite E. apply (so_count _ _ Hso). }
  unfold take, unlink. destruct (Z.eqb_spec bag INVENTORY_SLOT_BAG_0) as [->|Hne].
  - apply (position_own L) in Hp as [_ Hp]; [|done]. apply Hre; [|done]. by apply Inv_own_take.
  - apply (position_bag L) in Hp as (b & Hb & Hp & _); [|done..]. rewrite Hb.
    assert (p ≠ b) as Hpb by (by eapply bag_not_inside).
    destruct (so_mine _ _ Hso) as [(s & Hs & Hn) _]. unfold box. rewrite Hs.
    change (bag_put b slot None (write_state p (set_m_container s None) w))
      with (write_state p (set_m_container s None) (bag_put b slot None w)).
    apply Hre.
    + apply Inv_restate; [|set_solver|done]. apply Inv_bag_take; [done| |done]. by eapply bag_is_root.
    + cbn. by rewrite (proj2 (Z.eqb_neq _ _) Hpb).
Qed.

Lemma mine_unlink bag slot p q w : mine w q → mine (unlink bag slot p w) q.
Proof.
  intros H. unfold unlink. destruct (bag =? _); [auto|]. destruct (GetBagByPos (pl w) bag); auto.
Qed.
Lemma wp_Bag_RemoveItem w b slot p :
  live w b → live w p → slot < MAX_BAG_SIZE → m_bagslot (mem (pl w) b) !! slot = Some p →
  wp (Bag_RemoveItem b slot) (λ _ w', w' = bag_put b slot None (box p None w)) w.
Proof.
  intros Hb Hp Hs Hin. unfold Bag_RemoveItem. apply wp_item_at; [done|]. rewrite (proj2 (Z.leb_gt _ _) Hs), Hin.
  apply wp_upd_state; [done|]. intros s Es Hu. apply wp_last, wp_upd_item; [by apply live_write|]. apply wp_ret.
  unfold box. by rewrite Es.
Qed.

(** What RemoveItem and DestroyItem end with; [pre] is about the mods of a worn item. *)
Lemma wp_unlink L w0 w bag slot p (pre : MW unit) :
  Inv L w0 → GetItemByPos (pl w0) bag slot = Some p → quiet p pre → calm w0 w →
  wp (if bag =? INVENTORY_SLOT_BAG_0 then _ ← pre; put_own slot None
      else w ← get; match GetBagByPos (pl w) bag with Some pBag => Bag_RemoveItem pBag slot | None => skip end)
     (λ _, calm (unlink bag slot p w0)) w.
Proof.
  intros H Hp Hpre Hc. assert (mine w0 p) as Hm by (by eapply position_mine).
  unfold unlink. destruct (Z.eqb_spec bag INVENTORY_SLOT_BAG_0) as [->|Hne].
  - apply wp_bind. eapply (wp_end p _ _ w0); [exact Hpre|exact Hm|exact Hc|].
    intros _ w1 Hw1. unfold put_own. apply wp_modify. by apply calm_own_put.
  - apply wp_get. rewrite (calm_bag_at _ _ _ Hc). apply (position_bag L) in Hp as (b & Hb & Hp & Hs); [|done..].
    rewrite Hb. pose proof (mo_size _ (iv_mem _ _ H) b) as Hsz. unfold GetBagSize in Hsz.
    eapply wp_mono; [apply (wp_Bag_RemoveItem _ b slot p)|].
    + eapply calm_live; [exact Hc|]. eapply held_mine; [exact H|]. eapply root_held, bag_is_root; done.
    + eapply calm_live; [exact Hc|]. apply Hm.
    + lia.
    + by rewrite <- (si_bag _ _ (cm_mem _ _ Hc b)).
    + cbn. intros _ w1 ->. by apply calm_bag_put, calm_box.
Qed.
Lemma wp_unplace {B} w0 w bag slot p (f : unit → MW B) Q :
  mine w0 p → calm (unlink bag slot p w0) w → (∀ w', calm (take bag slot p w0) w' → wp (f tt) Q w') →
  wp (_ ← upd_state p (λ s, set_contained s 0); upd_item p (λ it, set_m_slot it NULL_SLOT) ≫= f) Q w.
Proof.
  intros Hm Hw HQ. assert (mine (unlink bag slot p w0) p) as Hm1 by (by apply mine_unlink).
  still Hw. apply wp_upd_item; [by eapply calm_live, Hm1|]. apply HQ. unfold take.
  apply calm_reitem; [done|]. by destruct (cm_mem _ _ Hw p).
Qed.

Lemma wp_RemoveItem L w bag slot p :
  Inv L w → GetItemByPos (pl w) bag slot = Some p → wp (RemoveItem bag slot) (λ _, calm (take bag slot p w)) w.
Proof.
  intros H Hp. assert (mine w p) as Hm by (by eapply position_mine).
  unfold RemoveItem. apply wp_get. rewrite Hp. apply wp_touch; [apply Hm|].
  assert (calm w w) as Hc by done. still Hc. still Hc. still Hc.
  eapply wp_use; [eapply (wp_unlink L); [done..| |exact Hc]|].
  - apply quiet_when, quiet_bind; [apply quietly_tell|]. intros _. apply quiet_when. auto with stillness.
  - cbn beta. intros _ w1 Hw1. assert (mine (unlink bag slot p w) p) as Hm1 by (by apply mine_unlink). still Hw1.
    apply wp_last, wp_upd_item; [by eapply calm_live, Hm1|]. apply wp_ret. unfold take.
    apply calm_reitem; [done|]. by destruct (cm_mem _ _ Hw1 p).
Qed.

(** ** Putting in *)

(** Room for a loose item: a slot of its kind, empty, or a bag with that slot. *)
Definition free_place (pl : Player) (p : ptr) (bag slot : Z) : Prop :=
  (bag = INVENTORY_SLOT_BAG_0 ∧ own_slot slot = true ∧ 0 ≤ slot < PLAYER_SLOT_END ∧
   (bag_slot slot = true → IsBag (mem pl p) = true) ∧
   (m_bagslot (mem pl p) ≠ ∅ → bag_slot slot = true ∨ EQUIPMENT_SLOT_END ≤ slot ∧ Class_ (GetTemplate (mem pl p)) = ITEM_CLASS_QUIVER)) ∨
  (bag ≠ INVENTORY_SLOT_BAG_0 ∧ m_bagslot (mem pl p) = ∅ ∧
   ∃ b, GetBagByPos pl bag = Some b ∧ b ≠ p ∧ 0 ≤ slot < bag_num_slots (mem pl b)).
Definition into (w : Mover) (bag : Z) : option ptr :=
  if bag =? INVENTORY_SLOT_BAG_0 then None else GetBagByPos (pl w) bag.
Definition put (bag slot : Z) (p : ptr) (w : Mover) : Mover :=
  let w1 := box p (into w bag) (reitem p (λ it, set_m_slot it slot) w) in
  match into w bag with
  | None => own_put slot (Some p) w1
  | Some b => bag_put b slot (Some p) w1
  end.

Lemma mem_box p c w q : mem (pl (box p c w)) q = mem (pl w) q.
Proof. unfold box. by destruct (states w !! p). Qed.
Lemma pl_box p c w : pl (box p c w) = pl w.
Proof. unfold box. by destruct (states w !! p). Qed.
Lemma container_box p c w q : live w p → container_of (box p c w) q = if q =? p then c else container_of w q.
Proof.
  intros (s & Hs & _). unfold box, container_of. rewrite Hs. cbn. destruct (Z.eqb_spec q p) as [->|].
  - by rewrite lookup_insert_eq.
  - by rewrite lookup_insert_ne.
Qed.
Lemma Inv_box L w p c : Inv L w → p ∈ L → Inv L (box p c w).
Proof.
  intros H Hp. assert (mine w p) as [(s & Hs & Hn) _] by (by eapply held_mine, root_held, loose_root).
  unfold box. rewrite Hs. by apply Inv_restate.
Qed.

Lemma loose_mine p L w : Inv (p :: L) w → mine w p.
Proof. intros H. eapply held_mine; [exact H|]. apply root_held, loose_root. set_solver. Qed.
Lemma loose_sound p L w : Inv (p :: L) w → sound_item w p.
Proof. intros H. eapply iv_item; [exact H|]. apply root_held, loose_root. set_solver. Qed.

Lemma Inv_put L w bag slot p :
  Inv (p :: L) w → free_place (pl w) p bag slot → GetItemByPos (pl w) bag slot = None → Inv L (put bag slot p w).
Proof.
  intros H Hf Hnone. pose proof (loose_sound _ _ _ H) as Hso. pose proof (proj1 (so_mine _ _ Hso)) as Hl.
  set (w1 := reitem p (λ it, set_m_slot it slot) w).
  assert (Inv (p :: L) w1) as H1.
  { apply Inv_reitem; [done|done|apply (so_count _ _ Hso)|right; set_solver]. }
  assert (∀ q, inside w1 q = inside w q) as Ei by (by apply reitem_inside).
  assert (m_slot (mem (pl w1) p) = slot) as Eslot by (unfold w1; by rewrite mem_reitem, Z.eqb_refl).
  assert (∀ q, GetTemplate (mem (pl w1) q) = GetTemplate (mem (pl w) q)) as Et by (by apply reitem_template).
  unfold put, into. fold w1. destruct Hf as [(-> & Hos & Hr & Hb & Hi)|(Hne & Hin & b & Hb & Hbp & Hs)].
  - cbn. apply Inv_own_put; [apply Inv_box; [done|set_solver]| |].
    + rewrite pl_box. cbn. unfold GetItemByPos in Hnone. cbn in Hnone. by rewrite Hos in Hnone.
    + split; [done|]. intros _. rewrite mem_box, container_box, Z.eqb_refl by done. split_and!; [done|done| |].
      * unfold IsBag. rewrite Et. done.
      * unfold inside. rewrite mem_box, Et. intros Hx. apply Hi. intros E0. apply Hx.
        change (inside w1 p = []). rewrite Ei. by apply inside_nil.
  - rewrite (proj2 (Z.eqb_neq _ _) Hne), Hb.
    assert (m_bagslot (mem (pl w) b) !! slot = None) as Hj.
    { unfold GetItemByPos in Hnone. rewrite (proj2 (Z.eqb_neq _ _) Hne), Hb in Hnone. cbn in Hnone.
      unfold Bag_GetItemByPos, GetBagSize in Hnone. by rewrite (proj2 (Z.ltb_lt _ _) (proj2 Hs)) in Hnone. }
    apply (bag_at (p :: L)) in Hb as (Hbs & Hos & Hbm & _); [|done].
    assert (mem (pl w1) b = mem (pl w) b) as Eb by (unfold w1; by rewrite mem_reitem, (proj2 (Z.eqb_neq _ _) Hbp)).
    eapply (Inv_bag_put _ _ _ _ _ bag); [apply Inv_box; [done|set_solver]|by rewrite pl_box|done|done| |].
    + by rewrite mem_box, Eb.
    + unfold in_bag_slot, inside. rewrite !mem_box, Eb, container_box, Z.eqb_refl by done. split_and!; try done; try lia.
      change (inside w1 p = []). rewrite Ei. by apply inside_nil.
Qed.

Lemma mine_put bag slot p q w : mine w q → mine (put bag slot p w) q.
Proof.
  intros H. unfold put. destruct (into w bag); [apply mine_bag_put|apply mine_own_put]; apply mine_box; by apply mine_reitem.
Qed.

(** The bag in which the loose item goes. *)
Lemma into_bag L w p bag slot b :
  Inv (p :: L) w → free_place (pl w) p bag slot → into w bag = Some b →
  b ∈ roots (p :: L) w ∧ b ≠ p ∧ 0 ≤ slot < MAX_BAG_SIZE ∧ m_bagslot (mem (pl w) p) = ∅.
Proof.
  intros H Hf. unfold into. destruct (Z.eqb_spec bag INVENTORY_SLOT_BAG_0) as [|Hne]; [done|]. intros Hb.
  destruct Hf as [[-> _]|(_ & Hin & b' & Hb' & Hbp & Hs)]; [done|].
  rewrite Hb in Hb'. injection Hb' as <-.
  pose proof (mo_size _ (iv_mem _ _ H) b) as Hsz. unfold GetBagSize in Hsz. split_and!; try done; try lia.
  by eapply bag_is_root.
Qed.

Lemma wp_Bag_StoreItem L w b slot p :
  Inv (p :: L) w → b ∈ roots (p :: L) w → b ≠ p → 0 ≤ slot < MAX_BAG_SIZE →
  wp (Bag_StoreItem b slot p)
     (λ _, calm (bag_put b slot (Some p) (box p (Some b) (reitem p (λ it, set_m_slot it slot) w)))) w.
Proof.
  intros H Hb Hbp Hs. pose proof (held_mine _ _ b H (root_held _ _ _ Hb)) as Hmb. pose proof (loose_mine _ _ _ H) as Hmp.
  unfold Bag_StoreItem. apply wp_item_at; [apply Hmb|]. rewrite (proj2 (Z.leb_gt _ _) (proj2 Hs)).
  apply wp_item_at; [apply Hmp|]. destruct (Z.eqb_spec (guid (mem (pl w) p)) (guid (mem (pl w) b))) as [E|_].
  { exfalso. apply Hbp. eapply (iv_guid _ _ H); [|apply root_held, loose_root; set_solver|done]. by apply root_held. }
  apply wp_upd_item; [apply Hmb|]. apply wp_upd_item; [apply Hmp|].
  apply wp_last, wp_upd_state; [apply Hmp|]. intros s Es Hu. apply wp_ret. split; try done.
  - unfold box. cbn in Es. cbn. by rewrite Es.
  - unfold box. cbn in Es. cbn. by rewrite Es.
  - intros q. cbn in Es. unfold box. cbn. rewrite Es. cbn. rewrite (proj2 (Z.eqb_neq _ _) Hbp).
    destruct (Z.eqb_spec q p) as [->|Hqp].
    + rewrite (proj2 (Z.eqb_neq p b) (not_eq_sym Hbp)). split; try done. cbn. by rewrite (proj2 Hmb), (proj2 Hmp).
    + by destruct (q =? b).
  - intros q. cbn in Es. unfold box. cbn. rewrite Es. cbn. destruct (decide (q = p)) as [->|].
    + rewrite !lookup_insert_eq. done.
    + by rewrite !lookup_insert_ne.
  - cbn in Es. unfold box. cbn. by rewrite Es.
  - cbn in Es. unfold box. cbn. by rewrite Es.
  - cbn in Es. unfold box. cbn. by rewrite Es.
  - cbn in Es. unfold box. cbn. by rewrite Es.
Qed.

Lemma calm_into w w' bag : calm w w' → into w' bag = into w bag.
Proof. intros H. unfold into. by rewrite (calm_bag_at _ _ _ H). Qed.
Lemma calm_put bag slot p w w' : calm w w' → calm (put bag slot p w) (put bag slot p w').
Proof.
  intros H. unfold put. rewrite (calm_into _ _ _ H).
  assert (calm (reitem p (λ it, set_m_slot it slot) w) (reitem p (λ it, set_m_slot it slot) w')) as H1.
  { apply calm_reitem; [done|]. by destruct (cm_mem _ _ H p). }
  destruct (into w bag); [apply calm_bag_put|apply calm_own_put]; by apply calm_box.
Qed.
(** The steps in the order of the code. *)
Lemma calm_own_steps slot p s me w :
  mine w p → states w !! p = Some s → player_guid (pl w) = me →
  calm (own_put slot (Some p) (box p None (reitem p (λ it, set_m_slot it slot) w)))
    (reitem p (λ it, set_m_slot (set_owner it me) slot)
       (write_state p (set_m_container (set_contained s me) None) (own_put slot (Some p) w))).
Proof.
  intros [Hl Ho] Hs Hme. unfold box. cbn. rewrite Hs. split; try done.
  - intros q. cbn. destruct (Z.eqb_spec q p) as [->|]; [|done]. split; try done. cbn. congruence.
  - intros q. cbn. destruct (decide (q = p)) as [->|]; [by rewrite !lookup_insert_eq|by rewrite !lookup_insert_ne].
Qed.

Lemma wp_place_item L w position p :
  Inv (p :: L) w → free_place (pl w) p (pos_bag position) (pos_slot position) →
  wp (place_item p position) (λ _, calm (put (pos_bag position) (pos_slot position) p w)) w.
Proof.
  intros H Hf. pose proof (loose_mine _ _ _ H) as Hm. unfold place_item. apply wp_item_at; [apply Hm|].
  assert (calm w w) as Hc by done. still Hc. apply wp_get.
  change (if pos_bag position =? INVENTORY_SLOT_BAG_0 then None else GetBagByPos (pl w') (pos_bag position)) with (into w' (pos_bag position)).
  assert (into w' (pos_bag position) = into w (pos_bag position)) as Einto by (unfold into; by rewrite (calm_bag_at _ _ _ Hc)).
  rewrite !Einto. apply wp_use with (Q := λ _, calm (put (pos_bag position) (pos_slot position) p w)).
  - unfold put. destruct (into w (pos_bag position)) as [b|] eqn:Eb.
    + destruct (into_bag _ _ _ _ _ _ H Hf Eb) as (Hb & Hbp & Hs & _).
      eapply wp_mono; [eapply (wp_Bag_StoreItem L); [by eapply calm_Inv|by rewrite <- (calm_roots _ _ _ Hc)|done|done]|].
      cbn. intros _ w1 Hw1. transitivity (bag_put b (pos_slot position) (Some p) (box p (Some b) (reitem p (λ it, set_m_slot it (pos_slot position)) w'))); [|done].
      apply calm_bag_put, calm_box, calm_reitem; [done|]. by destruct (cm_mem _ _ Hc p).
    + assert (live w' p) as Hl by (by eapply calm_live, Hm).
      unfold put_own. apply wp_bind, wp_modify. apply wp_upd_state; [done|]. intros s Es Hu.
      apply wp_upd_item; [by apply live_write|]. cbv beta.
      eapply (wp_end p _ _ (put (pos_bag position) (pos_slot position) p w)); [|by apply mine_put| |].
      * apply quiet_when, quietly_tell.
      * transitivity (put (pos_bag position) (pos_slot position) p w'); [by apply calm_put|].
        unfold put. rewrite Einto, ?Eb. apply calm_own_steps; [by eapply calm_mine|done|done].
      * unfold put. by rewrite Eb.
  - intros _ w1 Hw1. assert (mine (put (pos_bag position) (pos_slot position) p w) p) as Hm1 by (by apply mine_put).
    still Hw1. apply wp_use with (Q := λ _, calm (put (pos_bag position) (pos_slot position) p w)).
    { destruct (into w (pos_bag position)) as [b|] eqn:Eb; [|by apply wp_ret].
      destruct (into_bag _ _ _ _ _ _ H Hf Eb) as (Hb & _).
      eapply (wp_end b _ _ (put (pos_bag position) (pos_slot position) p w)); [auto with stillness| |exact Hw1|done].
      apply mine_put. eapply held_mine; [exact H|by apply root_held]. }
    clear w'0 Hw1. intros _ w2 Hw2. still Hw2. eapply wp_end; [auto with stillness|exact Hm1|exact Hw2|done].
Qed.

End ops.
End MoveSteps.
