(* ===== verification/GroupData.v ===== *)
(** * The state behind player groups
    ([src/server/game/Groups/Group.h], [GroupMgr.{h,cpp}], [GroupReference.cpp])

    Groups and Player objects live at addresses and point at each other: a player's two
    references (the group it plays in, and, while it is in a battleground, the group it
    came from) are linked into the list of their group, and an invitation is a bare
    pointer both ways. A Group is found under its address in [groups], a Player under
    its guid in [players] as long as it is connected; looking up an address that is
    gone is a dangling access. *)
From S2P Require Import Prelude StateMonad.

Module GroupData.

Definition MAXGROUPSIZE := 5.
Definition MAXRAIDSIZE := 40.
Definition MAX_RAID_SUBGROUPS := MAXRAIDSIZE / MAXGROUPSIZE.
Definition TARGETICONCOUNT := 8.

Inductive RollVote := PASS | NEED | GREED | DISENCHANT | NOT_EMITED_YET | NOT_VALID.
#[export] Instance RollVote_eq : EqDecision RollVote.
Proof. solve_decision. Defined.

Definition MEMBER_FLAG_ASSISTANT := 0x01.
Definition MEMBER_FLAG_MAINTANK := 0x02.
Definition MEMBER_FLAG_MAINASSIST := 0x04.

Definition GROUPTYPE_NORMAL := 0x00.
Definition GROUPTYPE_BG := 0x01.
Definition GROUPTYPE_RAID := 0x02.
Definition GROUPTYPE_BGRAID := Z.lor GROUPTYPE_BG GROUPTYPE_RAID.
Definition GROUPTYPE_LFG_RESTRICTED := 0x04.
Definition GROUPTYPE_LFG := 0x08.

Inductive LootMethod := FREE_FOR_ALL | ROUND_ROBIN | MASTER_LOOT | GROUP_LOOT | NEED_BEFORE_GREED.
#[export] Instance LootMethod_eq : EqDecision LootMethod.
Proof. solve_decision. Defined.

Definition ITEM_QUALITY_UNCOMMON := 2.
Definition ITEM_QUALITY_ARTIFACT := 6.

Inductive RemoveMethod :=
| GROUP_REMOVEMETHOD_DEFAULT | GROUP_REMOVEMETHOD_KICK | GROUP_REMOVEMETHOD_LEAVE |
    GROUP_REMOVEMETHOD_KICK_LFG.
#[export] Instance RemoveMethod_eq : EqDecision RemoveMethod.
Proof. solve_decision. Defined.

Definition ROLL_ALL_TYPE_NO_DISENCHANT := 0x07.
Definition ROLL_FLAG_TYPE_NEED := 0x02.
Definition ROLL_FLAG_TYPE_DISENCHANT := 0x08.

(** ** Data *)

(** An item offered for a roll ([class Roll]); [r_loot] is the link to the loot it is in,
    cut when that loot is cleared. *)
Record Roll := mkRoll {
  itemGUID : Z;
  itemid : Z;
  itemCount : Z;
  playerVote : gmap Z RollVote;
  totalPlayersRolling : Z;
  totalNeed : Z;
  totalGreed : Z;
  totalPass : Z;
  itemSlot : Z;
  rollVoteMask : Z;
  r_loot : option Z
}.
Definition set_itemGUID (r : Roll) (x : Z) : Roll := mkRoll
  x (itemid r) (itemCount r) (playerVote r) (totalPlayersRolling r) (totalNeed r) (totalGreed r)
    (totalPass r) (itemSlot r) (rollVoteMask r) (r_loot r).
Definition set_itemid (r : Roll) (x : Z) : Roll := mkRoll
  (itemGUID r) x (itemCount r) (playerVote r) (totalPlayersRolling r) (totalNeed r) (totalGreed r)
    (totalPass r) (itemSlot r) (rollVoteMask r) (r_loot r).
Definition set_itemCount (r : Roll) (x : Z) : Roll := mkRoll
  (itemGUID r) (itemid r) x (playerVote r) (totalPlayersRolling r) (totalNeed r) (totalGreed r)
    (totalPass r) (itemSlot r) (rollVoteMask r) (r_loot r).
Definition set_playerVote (r : Roll) (x : gmap Z RollVote) : Roll := mkRoll
  (itemGUID r) (itemid r) (itemCount r) x (totalPlayersRolling r) (totalNeed r) (totalGreed r) (totalPass
    r) (itemSlot r) (rollVoteMask r) (r_loot r).
Definition set_totalPlayersRolling (r : Roll) (x : Z) : Roll := mkRoll
  (itemGUID r) (itemid r) (itemCount r) (playerVote r) x (totalNeed r) (totalGreed r) (totalPass r)
    (itemSlot r) (rollVoteMask r) (r_loot r).
Definition set_totalNeed (r : Roll) (x : Z) : Roll := mkRoll
  (itemGUID r) (itemid r) (itemCount r) (playerVote r) (totalPlayersRolling r) x (totalGreed r)
    (totalPass r) (itemSlot r) (rollVoteMask r) (r_loot r).
Definition set_totalGreed (r : Roll) (x : Z) : Roll := mkRoll
  (itemGUID r) (itemid r) (itemCount r) (playerVote r) (totalPlayersRolling r) (totalNeed r) x (totalPass
    r) (itemSlot r) (rollVoteMask r) (r_loot r).
Definition set_totalPass (r : Roll) (x : Z) : Roll := mkRoll
  (itemGUID r) (itemid r) (itemCount r) (playerVote r) (totalPlayersRolling r) (totalNeed r) (totalGreed
    r) x (itemSlot r) (rollVoteMask r) (r_loot r).
Definition set_itemSlot (r : Roll) (x : Z) : Roll := mkRoll
  (itemGUID r) (itemid r) (itemCount r) (playerVote r) (totalPlayersRolling r) (totalNeed r) (totalGreed
    r) (totalPass r) x (rollVoteMask r) (r_loot r).
Definition set_rollVoteMask (r : Roll) (x : Z) : Roll := mkRoll
  (itemGUID r) (itemid r) (itemCount r) (playerVote r) (totalPlayersRolling r) (totalNeed r) (totalGreed
    r) (totalPass r) (itemSlot r) x (r_loot r).
Definition set_r_loot (r : Roll) (x : option Z) : Roll := mkRoll
  (itemGUID r) (itemid r) (itemCount r) (playerVote r) (totalPlayersRolling r) (totalNeed r) (totalGreed
    r) (totalPass r) (itemSlot r) (rollVoteMask r) x.

(** [struct LootItem] and [struct Loot], as far as rolls touch them. *)
Record LootItem := mkLootItem {
  li_itemid : Z;
  li_count : Z;
  is_looted : bool;
  is_blocked : bool;
  freeforall : bool;
  is_underthreshold : bool;
  follow_loot_rules : bool
}.
Definition set_li_itemid (r : LootItem) (x : Z) : LootItem := mkLootItem
  x (li_count r) (is_looted r) (is_blocked r) (freeforall r) (is_underthreshold r) (follow_loot_rules r).
Definition set_li_count (r : LootItem) (x : Z) : LootItem := mkLootItem
  (li_itemid r) x (is_looted r) (is_blocked r) (freeforall r) (is_underthreshold r) (follow_loot_rules r).
Definition set_is_looted (r : LootItem) (x : bool) : LootItem := mkLootItem
  (li_itemid r) (li_count r) x (is_blocked r) (freeforall r) (is_underthreshold r) (follow_loot_rules r).
Definition set_is_blocked (r : LootItem) (x : bool) : LootItem := mkLootItem
  (li_itemid r) (li_count r) (is_looted r) x (freeforall r) (is_underthreshold r) (follow_loot_rules r).
Definition set_freeforall (r : LootItem) (x : bool) : LootItem := mkLootItem
  (li_itemid r) (li_count r) (is_looted r) (is_blocked r) x (is_underthreshold r) (follow_loot_rules r).
Definition set_is_underthreshold (r : LootItem) (x : bool) : LootItem := mkLootItem
  (li_itemid r) (li_count r) (is_looted r) (is_blocked r) (freeforall r) x (follow_loot_rules r).
Definition set_follow_loot_rules (r : LootItem) (x : bool) : LootItem := mkLootItem
  (li_itemid r) (li_count r) (is_looted r) (is_blocked r) (freeforall r) (is_underthreshold r) x.
Record Loot := mkLoot {
  l_items : list LootItem;
  quest_items : list LootItem;
  unlootedCount : Z
}.
Definition set_l_items (r : Loot) (x : list LootItem) : Loot := mkLoot
  x (quest_items r) (unlootedCount r).
Definition set_quest_items (r : Loot) (x : list LootItem) : Loot := mkLoot
  (l_items r) x (unlootedCount r).
Definition set_unlootedCount (r : Loot) (x : Z) : Loot := mkLoot
  (l_items r) (quest_items r) x.

(** [Group::MemberSlot] *)
Record MemberSlot := mkSlot {
  s_guid : Z;
  s_name : string;
  s_group : Z;
  s_flags : Z;
  s_roles : Z
}.
Definition set_s_guid (r : MemberSlot) (x : Z) : MemberSlot := mkSlot
  x (s_name r) (s_group r) (s_flags r) (s_roles r).
Definition set_s_name (r : MemberSlot) (x : string) : MemberSlot := mkSlot
  (s_guid r) x (s_group r) (s_flags r) (s_roles r).
Definition set_s_group (r : MemberSlot) (x : Z) : MemberSlot := mkSlot
  (s_guid r) (s_name r) x (s_flags r) (s_roles r).
Definition set_s_flags (r : MemberSlot) (x : Z) : MemberSlot := mkSlot
  (s_guid r) (s_name r) (s_group r) x (s_roles r).
Definition set_s_roles (r : MemberSlot) (x : Z) : MemberSlot := mkSlot
  (s_guid r) (s_name r) (s_group r) (s_flags r) x.

(** Which of a player's two references is linked into a group's list. *)
Inductive RefKind := GroupRef | OriginalRef.
#[export] Instance RefKind_eq : EqDecision RefKind.
Proof. solve_decision. Defined.

(** [class Group]. [m_invitees] is a set of Player pointers; [m_memberMgr] the linked list
    of the references of the connected members. Left out: the instances it is bound to,
    the achievements of its leader, two time stamps and the packet counter. *)
Record Group := mkGroup {
  m_memberSlots : list MemberSlot;
  m_memberMgr : list (Z * RefKind);
  m_invitees : gset Z;
  m_leaderGuid : Z;
  m_leaderName : string;
  m_groupType : Z;
  m_dungeonDifficulty : Z;
  m_raidDifficulty : Z;
  m_bgGroup : option Z;
  m_bfGroup : option Z;
  m_targetIcons : list Z;
  m_lootMethod : LootMethod;
  m_lootThreshold : Z;
  m_looterGuid : Z;
  m_masterLooterGuid : Z;
  RollId : list Roll;
  m_subGroupsCounts : option (list Z);
  m_guid : Z;
  m_maxEnchantingLevel : Z;
  m_dbStoreId : Z
}.
Definition set_m_memberSlots (r : Group) (x : list MemberSlot) : Group := mkGroup
  x (m_memberMgr r) (m_invitees r) (m_leaderGuid r) (m_leaderName r) (m_groupType r) (m_dungeonDifficulty
    r) (m_raidDifficulty r) (m_bgGroup r) (m_bfGroup r) (m_targetIcons r) (m_lootMethod r)
    (m_lootThreshold r) (m_looterGuid r) (m_masterLooterGuid r) (RollId r) (m_subGroupsCounts r) (m_guid
    r) (m_maxEnchantingLevel r) (m_dbStoreId r).
Definition set_m_memberMgr (r : Group) (x : list (Z * RefKind)) : Group := mkGroup
  (m_memberSlots r) x (m_invitees r) (m_leaderGuid r) (m_leaderName r) (m_groupType r)
    (m_dungeonDifficulty r) (m_raidDifficulty r) (m_bgGroup r) (m_bfGroup r) (m_targetIcons r)
    (m_lootMethod r) (m_lootThreshold r) (m_looterGuid r) (m_masterLooterGuid r) (RollId r)
    (m_subGroupsCounts r) (m_guid r) (m_maxEnchantingLevel r) (m_dbStoreId r).
Definition set_m_invitees (r : Group) (x : gset Z) : Group := mkGroup
  (m_memberSlots r) (m_memberMgr r) x (m_leaderGuid r) (m_leaderName r) (m_groupType r)
    (m_dungeonDifficulty r) (m_raidDifficulty r) (m_bgGroup r) (m_bfGroup r) (m_targetIcons r)
    (m_lootMethod r) (m_lootThreshold r) (m_looterGuid r) (m_masterLooterGuid r) (RollId r)
    (m_subGroupsCounts r) (m_guid r) (m_maxEnchantingLevel r) (m_dbStoreId r).
Definition set_m_leaderGuid (r : Group) (x : Z) : Group := mkGroup
  (m_memberSlots r) (m_memberMgr r) (m_invitees r) x (m_leaderName r) (m_groupType r)
    (m_dungeonDifficulty r) (m_raidDifficulty r) (m_bgGroup r) (m_bfGroup r) (m_targetIcons r)
    (m_lootMethod r) (m_lootThreshold r) (m_looterGuid r) (m_masterLooterGuid r) (RollId r)
    (m_subGroupsCounts r) (m_guid r) (m_maxEnchantingLevel r) (m_dbStoreId r).
Definition set_m_leaderName (r : Group) (x : string) : Group := mkGroup
  (m_memberSlots r) (m_memberMgr r) (m_invitees r) (m_leaderGuid r) x (m_groupType r)
    (m_dungeonDifficulty r) (m_raidDifficulty r) (m_bgGroup r) (m_bfGroup r) (m_targetIcons r)
    (m_lootMethod r) (m_lootThreshold r) (m_looterGuid r) (m_masterLooterGuid r) (RollId r)
    (m_subGroupsCounts r) (m_guid r) (m_maxEnchantingLevel r) (m_dbStoreId r).
Definition set_m_groupType (r : Group) (x : Z) : Group := mkGroup
  (m_memberSlots r) (m_memberMgr r) (m_invitees r) (m_leaderGuid r) (m_leaderName r) x
    (m_dungeonDifficulty r) (m_raidDifficulty r) (m_bgGroup r) (m_bfGroup r) (m_targetIcons r)
    (m_lootMethod r) (m_lootThreshold r) (m_looterGuid r) (m_masterLooterGuid r) (RollId r)
    (m_subGroupsCounts r) (m_guid r) (m_maxEnchantingLevel r) (m_dbStoreId r).
Definition set_m_dungeonDifficulty (r : Group) (x : Z) : Group := mkGroup
  (m_memberSlots r) (m_memberMgr r) (m_invitees r) (m_leaderGuid r) (m_leaderName r) (m_groupType r) x
    (m_raidDifficulty r) (m_bgGroup r) (m_bfGroup r) (m_targetIcons r) (m_lootMethod r) (m_lootThreshold
    r) (m_looterGuid r) (m_masterLooterGuid r) (RollId r) (m_subGroupsCounts r) (m_guid r)
    (m_maxEnchantingLevel r) (m_dbStoreId r).
Definition set_m_raidDifficulty (r : Group) (x : Z) : Group := mkGroup
  (m_memberSlots r) (m_memberMgr r) (m_invitees r) (m_leaderGuid r) (m_leaderName r) (m_groupType r)
    (m_dungeonDifficulty r) x (m_bgGroup r) (m_bfGroup r) (m_targetIcons r) (m_lootMethod r)
    (m_lootThreshold r) (m_looterGuid r) (m_masterLooterGuid r) (RollId r) (m_subGroupsCounts r) (m_guid
    r) (m_maxEnchantingLevel r) (m_dbStoreId r).
Definition set_m_bgGroup (r : Group) (x : option Z) : Group := mkGroup
  (m_memberSlots r) (m_memberMgr r) (m_invitees r) (m_leaderGuid r) (m_leaderName r) (m_groupType r)
    (m_dungeonDifficulty r) (m_raidDifficulty r) x (m_bfGroup r) (m_targetIcons r) (m_lootMethod r)
    (m_lootThreshold r) (m_looterGuid r) (m_masterLooterGuid r) (RollId r) (m_subGroupsCounts r) (m_guid
    r) (m_maxEnchantingLevel r) (m_dbStoreId r).
Definition set_m_bfGroup (r : Group) (x : option Z) : Group := mkGroup
  (m_memberSlots r) (m_memberMgr r) (m_invitees r) (m_leaderGuid r) (m_leaderName r) (m_groupType r)
    (m_dungeonDifficulty r) (m_raidDifficulty r) (m_bgGroup r) x (m_targetIcons r) (m_lootMethod r)
    (m_lootThreshold r) (m_looterGuid r) (m_masterLooterGuid r) (RollId r) (m_subGroupsCounts r) (m_guid
    r) (m_maxEnchantingLevel r) (m_dbStoreId r).
Definition set_m_targetIcons (r : Group) (x : list Z) : Group := mkGroup
  (m_memberSlots r) (m_memberMgr r) (m_invitees r) (m_leaderGuid r) (m_leaderName r) (m_groupType r)
    (m_dungeonDifficulty r) (m_raidDifficulty r) (m_bgGroup r) (m_bfGroup r) x (m_lootMethod r)
    (m_lootThreshold r) (m_looterGuid r) (m_masterLooterGuid r) (RollId r) (m_subGroupsCounts r) (m_guid
    r) (m_maxEnchantingLevel r) (m_dbStoreId r).
Definition set_m_lootMethod (r : Group) (x : LootMethod) : Group := mkGroup
  (m_memberSlots r) (m_memberMgr r) (m_invitees r) (m_leaderGuid r) (m_leaderName r) (m_groupType r)
    (m_dungeonDifficulty r) (m_raidDifficulty r) (m_bgGroup r) (m_bfGroup r) (m_targetIcons r) x
    (m_lootThreshold r) (m_looterGuid r) (m_masterLooterGuid r) (RollId r) (m_subGroupsCounts r) (m_guid
    r) (m_maxEnchantingLevel r) (m_dbStoreId r).
Definition set_m_lootThreshold (r : Group) (x : Z) : Group := mkGroup
  (m_memberSlots r) (m_memberMgr r) (m_invitees r) (m_leaderGuid r) (m_leaderName r) (m_groupType r)
    (m_dungeonDifficulty r) (m_raidDifficulty r) (m_bgGroup r) (m_bfGroup r) (m_targetIcons r)
    (m_lootMethod r) x (m_looterGuid r) (m_masterLooterGuid r) (RollId r) (m_subGroupsCounts r) (m_guid
    r) (m_maxEnchantingLevel r) (m_dbStoreId r).
Definition set_m_looterGuid (r : Group) (x : Z) : Group := mkGroup
  (m_memberSlots r) (m_memberMgr r) (m_invitees r) (m_leaderGuid r) (m_leaderName r) (m_groupType r)
    (m_dungeonDifficulty r) (m_raidDifficulty r) (m_bgGroup r) (m_bfGroup r) (m_targetIcons r)
    (m_lootMethod r) (m_lootThreshold r) x (m_masterLooterGuid r) (RollId r) (m_subGroupsCounts r)
    (m_guid r) (m_maxEnchantingLevel r) (m_dbStoreId r).
Definition set_m_masterLooterGuid (r : Group) (x : Z) : Group := mkGroup
  (m_memberSlots r) (m_memberMgr r) (m_invitees r) (m_leaderGuid r) (m_leaderName r) (m_groupType r)
    (m_dungeonDifficulty r) (m_raidDifficulty r) (m_bgGroup r) (m_bfGroup r) (m_targetIcons r)
    (m_lootMethod r) (m_lootThreshold r) (m_looterGuid r) x (RollId r) (m_subGroupsCounts r) (m_guid r)
    (m_maxEnchantingLevel r) (m_dbStoreId r).
Definition set_RollId (r : Group) (x : list Roll) : Group := mkGroup
  (m_memberSlots r) (m_memberMgr r) (m_invitees r) (m_leaderGuid r) (m_leaderName r) (m_groupType r)
    (m_dungeonDifficulty r) (m_raidDifficulty r) (m_bgGroup r) (m_bfGroup r) (m_targetIcons r)
    (m_lootMethod r) (m_lootThreshold r) (m_looterGuid r) (m_masterLooterGuid r) x (m_subGroupsCounts r)
    (m_guid r) (m_maxEnchantingLevel r) (m_dbStoreId r).
Definition set_m_subGroupsCounts (r : Group) (x : option (list Z)) : Group := mkGroup
  (m_memberSlots r) (m_memberMgr r) (m_invitees r) (m_leaderGuid r) (m_leaderName r) (m_groupType r)
    (m_dungeonDifficulty r) (m_raidDifficulty r) (m_bgGroup r) (m_bfGroup r) (m_targetIcons r)
    (m_lootMethod r) (m_lootThreshold r) (m_looterGuid r) (m_masterLooterGuid r) (RollId r) x (m_guid r)
    (m_maxEnchantingLevel r) (m_dbStoreId r).
Definition set_m_guid (r : Group) (x : Z) : Group := mkGroup
  (m_memberSlots r) (m_memberMgr r) (m_invitees r) (m_leaderGuid r) (m_leaderName r) (m_groupType r)
    (m_dungeonDifficulty r) (m_raidDifficulty r) (m_bgGroup r) (m_bfGroup r) (m_targetIcons r)
    (m_lootMethod r) (m_lootThreshold r) (m_looterGuid r) (m_masterLooterGuid r) (RollId r)
    (m_subGroupsCounts r) x (m_maxEnchantingLevel r) (m_dbStoreId r).
Definition set_m_maxEnchantingLevel (r : Group) (x : Z) : Group := mkGroup
  (m_memberSlots r) (m_memberMgr r) (m_invitees r) (m_leaderGuid r) (m_leaderName r) (m_groupType r)
    (m_dungeonDifficulty r) (m_raidDifficulty r) (m_bgGroup r) (m_bfGroup r) (m_targetIcons r)
    (m_lootMethod r) (m_lootThreshold r) (m_looterGuid r) (m_masterLooterGuid r) (RollId r)
    (m_subGroupsCounts r) (m_guid r) x (m_dbStoreId r).
Definition set_m_dbStoreId (r : Group) (x : Z) : Group := mkGroup
  (m_memberSlots r) (m_memberMgr r) (m_invitees r) (m_leaderGuid r) (m_leaderName r) (m_groupType r)
    (m_dungeonDifficulty r) (m_raidDifficulty r) (m_bgGroup r) (m_bfGroup r) (m_targetIcons r)
    (m_lootMethod r) (m_lootThreshold r) (m_looterGuid r) (m_masterLooterGuid r) (RollId r)
    (m_subGroupsCounts r) (m_guid r) (m_maxEnchantingLevel r) x.

(** A linked reference: where it points, and [iSubGroup]. *)
Record GroupReference := mkRef { r_target : Z; iSubGroup : Z }.

(** What the groups' code asks of a player without changing it. *)
Record PlayerEnv := mkEnv {
  IsInWorld : bool;
  HasSession : bool;
  PlayerLogout : bool;
  IsGameMaster : bool;
  IsSecretQueuingActive : bool;
  InBattleground : bool;
  IsInCombat : bool;
  IsAlive : bool;
  team : Z;
  level : Z;
  mapId : Z;
  instanceId : Z;
  enchanting : Z;
  passOnGroupLoot : bool;
  ignores : gset Z
}.
Definition set_IsInWorld (r : PlayerEnv) (x : bool) : PlayerEnv := mkEnv
  x (HasSession r) (PlayerLogout r) (IsGameMaster r) (IsSecretQueuingActive r) (InBattleground r)
    (IsInCombat r) (IsAlive r) (team r) (level r) (mapId r) (instanceId r) (enchanting r)
    (passOnGroupLoot r) (ignores r).
Definition set_HasSession (r : PlayerEnv) (x : bool) : PlayerEnv := mkEnv
  (IsInWorld r) x (PlayerLogout r) (IsGameMaster r) (IsSecretQueuingActive r) (InBattleground r)
    (IsInCombat r) (IsAlive r) (team r) (level r) (mapId r) (instanceId r) (enchanting r)
    (passOnGroupLoot r) (ignores r).
Definition set_PlayerLogout (r : PlayerEnv) (x : bool) : PlayerEnv := mkEnv
  (IsInWorld r) (HasSession r) x (IsGameMaster r) (IsSecretQueuingActive r) (InBattleground r)
    (IsInCombat r) (IsAlive r) (team r) (level r) (mapId r) (instanceId r) (enchanting r)
    (passOnGroupLoot r) (ignores r).
Definition set_IsGameMaster (r : PlayerEnv) (x : bool) : PlayerEnv := mkEnv
  (IsInWorld r) (HasSession r) (PlayerLogout r) x (IsSecretQueuingActive r) (InBattleground r)
    (IsInCombat r) (IsAlive r) (team r) (level r) (mapId r) (instanceId r) (enchanting r)
    (passOnGroupLoot r) (ignores r).
Definition set_IsSecretQueuingActive (r : PlayerEnv) (x : bool) : PlayerEnv := mkEnv
  (IsInWorld r) (HasSession r) (PlayerLogout r) (IsGameMaster r) x (InBattleground r) (IsInCombat r)
    (IsAlive r) (team r) (level r) (mapId r) (instanceId r) (enchanting r) (passOnGroupLoot r) (ignores r).
Definition set_InBattleground (r : PlayerEnv) (x : bool) : PlayerEnv := mkEnv
  (IsInWorld r) (HasSession r) (PlayerLogout r) (IsGameMaster r) (IsSecretQueuingActive r) x (IsInCombat
    r) (IsAlive r) (team r) (level r) (mapId r) (instanceId r) (enchanting r) (passOnGroupLoot r)
    (ignores r).
Definition set_IsInCombat (r : PlayerEnv) (x : bool) : PlayerEnv := mkEnv
  (IsInWorld r) (HasSession r) (PlayerLogout r) (IsGameMaster r) (IsSecretQueuingActive r)
    (InBattleground r) x (IsAlive r) (team r) (level r) (mapId r) (instanceId r) (enchanting r)
    (passOnGroupLoot r) (ignores r).
Definition set_IsAlive (r : PlayerEnv) (x : bool) : PlayerEnv := mkEnv
  (IsInWorld r) (HasSession r) (PlayerLogout r) (IsGameMaster r) (IsSecretQueuingActive r)
    (InBattleground r) (IsInCombat r) x (team r) (level r) (mapId r) (instanceId r) (enchanting r)
    (passOnGroupLoot r) (ignores r).
Definition set_team (r : PlayerEnv) (x : Z) : PlayerEnv := mkEnv
  (IsInWorld r) (HasSession r) (PlayerLogout r) (IsGameMaster r) (IsSecretQueuingActive r)
    (InBattleground r) (IsInCombat r) (IsAlive r) x (level r) (mapId r) (instanceId r) (enchanting r)
    (passOnGroupLoot r) (ignores r).
Definition set_level (r : PlayerEnv) (x : Z) : PlayerEnv := mkEnv
  (IsInWorld r) (HasSession r) (PlayerLogout r) (IsGameMaster r) (IsSecretQueuingActive r)
    (InBattleground r) (IsInCombat r) (IsAlive r) (team r) x (mapId r) (instanceId r) (enchanting r)
    (passOnGroupLoot r) (ignores r).
Definition set_mapId (r : PlayerEnv) (x : Z) : PlayerEnv := mkEnv
  (IsInWorld r) (HasSession r) (PlayerLogout r) (IsGameMaster r) (IsSecretQueuingActive r)
    (InBattleground r) (IsInCombat r) (IsAlive r) (team r) (level r) x (instanceId r) (enchanting r)
    (passOnGroupLoot r) (ignores r).
Definition set_instanceId (r : PlayerEnv) (x : Z) : PlayerEnv := mkEnv
  (IsInWorld r) (HasSession r) (PlayerLogout r) (IsGameMaster r) (IsSecretQueuingActive r)
    (InBattleground r) (IsInCombat r) (IsAlive r) (team r) (level r) (mapId r) x (enchanting r)
    (passOnGroupLoot r) (ignores r).
Definition set_enchanting (r : PlayerEnv) (x : Z) : PlayerEnv := mkEnv
  (IsInWorld r) (HasSession r) (PlayerLogout r) (IsGameMaster r) (IsSecretQueuingActive r)
    (InBattleground r) (IsInCombat r) (IsAlive r) (team r) (level r) (mapId r) (instanceId r) x
    (passOnGroupLoot r) (ignores r).
Definition set_passOnGroupLoot (r : PlayerEnv) (x : bool) : PlayerEnv := mkEnv
  (IsInWorld r) (HasSession r) (PlayerLogout r) (IsGameMaster r) (IsSecretQueuingActive r)
    (InBattleground r) (IsInCombat r) (IsAlive r) (team r) (level r) (mapId r) (instanceId r) (enchanting
    r) x (ignores r).
Definition set_ignores (r : PlayerEnv) (x : gset Z) : PlayerEnv := mkEnv
  (IsInWorld r) (HasSession r) (PlayerLogout r) (IsGameMaster r) (IsSecretQueuingActive r)
    (InBattleground r) (IsInCombat r) (IsAlive r) (team r) (level r) (mapId r) (instanceId r) (enchanting
    r) (passOnGroupLoot r) x.

(** The part of [class Player] that belongs to groups. *)
Record Player := mkPlayer {
  p_name : string;
  m_group : option GroupReference;
  m_originalGroup : option GroupReference;
  m_groupInvite : option Z;
  leaderFlag : bool;
  dungeonDifficulty : Z;
  raidDifficulty : Z;
  env : PlayerEnv
}.
Definition set_p_name (r : Player) (x : string) : Player := mkPlayer
  x (m_group r) (m_originalGroup r) (m_groupInvite r) (leaderFlag r) (dungeonDifficulty r)
    (raidDifficulty r) (env r).
Definition set_m_group (r : Player) (x : option GroupReference) : Player := mkPlayer
  (p_name r) x (m_originalGroup r) (m_groupInvite r) (leaderFlag r) (dungeonDifficulty r) (raidDifficulty
    r) (env r).
Definition set_m_originalGroup (r : Player) (x : option GroupReference) : Player := mkPlayer
  (p_name r) (m_group r) x (m_groupInvite r) (leaderFlag r) (dungeonDifficulty r) (raidDifficulty r) (env
    r).
Definition set_m_groupInvite (r : Player) (x : option Z) : Player := mkPlayer
  (p_name r) (m_group r) (m_originalGroup r) x (leaderFlag r) (dungeonDifficulty r) (raidDifficulty r)
    (env r).
Definition set_leaderFlag (r : Player) (x : bool) : Player := mkPlayer
  (p_name r) (m_group r) (m_originalGroup r) (m_groupInvite r) x (dungeonDifficulty r) (raidDifficulty r)
    (env r).
Definition set_dungeonDifficulty (r : Player) (x : Z) : Player := mkPlayer
  (p_name r) (m_group r) (m_originalGroup r) (m_groupInvite r) (leaderFlag r) x (raidDifficulty r) (env r).
Definition set_raidDifficulty (r : Player) (x : Z) : Player := mkPlayer
  (p_name r) (m_group r) (m_originalGroup r) (m_groupInvite r) (leaderFlag r) (dungeonDifficulty r) x
    (env r).
Definition set_env (r : Player) (x : PlayerEnv) : Player := mkPlayer
  (p_name r) (m_group r) (m_originalGroup r) (m_groupInvite r) (leaderFlag r) (dungeonDifficulty r)
    (raidDifficulty r) x.

(** What the groups' code tells the rest of the server: calls of script hooks, the
    results of loot rolls, items given out, and answers to a player's request. *)
Inductive PartyResult :=
| ERR_PARTY_RESULT_OK | ERR_BAD_PLAYER_NAME_S | ERR_TARGET_NOT_IN_GROUP_S | ERR_TARGET_NOT_IN_INSTANCE_S
| ERR_GROUP_FULL | ERR_ALREADY_IN_GROUP_S | ERR_NOT_IN_GROUP | ERR_NOT_LEADER | ERR_PLAYER_WRONG_FACTION
| ERR_IGNORING_YOU_S | ERR_INVITE_RESTRICTED | ERR_PARTY_LFG_BOOT_LIMIT | ERR_PARTY_LFG_BOOT_IN_PROGRESS
| ERR_PARTY_LFG_BOOT_TOO_FEW_PLAYERS | ERR_PARTY_LFG_BOOT_DUNGEON_COMPLETE | ERR_PARTY_LFG_BOOT_LOOT_ROLLS
| ERR_PARTY_LFG_BOOT_IN_COMBAT | ERR_PARTY_LFG_BOOT_NOT_ELIGIBLE_S.
#[export] Instance PartyResult_eq : EqDecision PartyResult.
Proof. solve_decision. Defined.

Inductive event :=
| OnGroupInviteMember (group guid : Z)
| OnGroupAddMember (group guid : Z)
| OnGroupRemoveMember (group guid : Z) (method : RemoveMethod) (kicker : Z)
| OnGroupChangeLeader (group newLeader oldLeader : Z)
| OnGroupDisband (group : Z)
| SendPartyResult (guid : Z) (res : PartyResult)
| LootRolled (item guid number : Z) (vote : RollVote)
| LootRollWon (item guid number : Z) (vote : RollVote)
| LootAllPassed (item : Z)
| StoreNewItem (guid itemid count : Z)
| Disenchanted (guid itemid : Z).

(** The prepared statements on the tables [groups] and [group_member]. *)
Inductive statement :=
| INS_GROUP (dbid leader : Z)
| INS_GROUP_MEMBER (dbid member flags subgroup roles : Z)
| DEL_GROUP_MEMBER (member : Z)
| DEL_GROUP (dbid : Z)
| DEL_GROUP_MEMBER_ALL (dbid : Z)
| DEL_LFG_DATA (dbid : Z)
| UPD_GROUP_LEADER (leader dbid : Z)
| UPD_GROUP_TYPE (type dbid : Z)
| UPD_GROUP_MEMBER_SUBGROUP (subgroup member : Z)
| UPD_GROUP_MEMBER_FLAG (flags member : Z)
| UPD_GROUP_DIFFICULTY (difficulty dbid : Z)
| UPD_GROUP_RAID_DIFFICULTY (difficulty dbid : Z).

(** ** The world of the groups *)

Section world.
Context {RND : Random}.

Record World := mkWorld {
  groups : gmap Z Group;
  players : gmap Z Player;
  loots : gmap Z Loot;
  next_address : Z;
  NextGroupId : Z;
  NextGroupDbStoreId : Z;
  GroupDbStore : list (option Z);
  GroupStore : gmap Z Z;
  next_item : Z;
  w_rng : rng;
  w_out : list event;
  w_db : list statement
}.
Definition set_groups (r : World) (x : gmap Z Group) : World := mkWorld
  x (players r) (loots r) (next_address r) (NextGroupId r) (NextGroupDbStoreId r) (GroupDbStore r)
    (GroupStore r) (next_item r) (w_rng r) (w_out r) (w_db r).
Definition set_players (r : World) (x : gmap Z Player) : World := mkWorld
  (groups r) x (loots r) (next_address r) (NextGroupId r) (NextGroupDbStoreId r) (GroupDbStore r)
    (GroupStore r) (next_item r) (w_rng r) (w_out r) (w_db r).
Definition set_loots (r : World) (x : gmap Z Loot) : World := mkWorld
  (groups r) (players r) x (next_address r) (NextGroupId r) (NextGroupDbStoreId r) (GroupDbStore r)
    (GroupStore r) (next_item r) (w_rng r) (w_out r) (w_db r).
Definition set_next_address (r : World) (x : Z) : World := mkWorld
  (groups r) (players r) (loots r) x (NextGroupId r) (NextGroupDbStoreId r) (GroupDbStore r) (GroupStore
    r) (next_item r) (w_rng r) (w_out r) (w_db r).
Definition set_NextGroupId (r : World) (x : Z) : World := mkWorld
  (groups r) (players r) (loots r) (next_address r) x (NextGroupDbStoreId r) (GroupDbStore r) (GroupStore
    r) (next_item r) (w_rng r) (w_out r) (w_db r).
Definition set_NextGroupDbStoreId (r : World) (x : Z) : World := mkWorld
  (groups r) (players r) (loots r) (next_address r) (NextGroupId r) x (GroupDbStore r) (GroupStore r)
    (next_item r) (w_rng r) (w_out r) (w_db r).
Definition set_GroupDbStore (r : World) (x : list (option Z)) : World := mkWorld
  (groups r) (players r) (loots r) (next_address r) (NextGroupId r) (NextGroupDbStoreId r) x (GroupStore
    r) (next_item r) (w_rng r) (w_out r) (w_db r).
Definition set_GroupStore (r : World) (x : gmap Z Z) : World := mkWorld
  (groups r) (players r) (loots r) (next_address r) (NextGroupId r) (NextGroupDbStoreId r) (GroupDbStore
    r) x (next_item r) (w_rng r) (w_out r) (w_db r).
Definition set_next_item (r : World) (x : Z) : World := mkWorld
  (groups r) (players r) (loots r) (next_address r) (NextGroupId r) (NextGroupDbStoreId r) (GroupDbStore
    r) (GroupStore r) x (w_rng r) (w_out r) (w_db r).
Definition set_w_rng (r : World) (x : rng) : World := mkWorld
  (groups r) (players r) (loots r) (next_address r) (NextGroupId r) (NextGroupDbStoreId r) (GroupDbStore
    r) (GroupStore r) (next_item r) x (w_out r) (w_db r).
Definition set_w_out (r : World) (x : list event) : World := mkWorld
  (groups r) (players r) (loots r) (next_address r) (NextGroupId r) (NextGroupDbStoreId r) (GroupDbStore
    r) (GroupStore r) (next_item r) (w_rng r) x (w_db r).
Definition set_w_db (r : World) (x : list statement) : World := mkWorld
  (groups r) (players r) (loots r) (next_address r) (NextGroupId r) (NextGroupDbStoreId r) (GroupDbStore
    r) (GroupStore r) (next_item r) (w_rng r) (w_out r) x.

#[local] Abbreviation GM := (ST World).

Definition tell (e : event) : GM unit := modify (λ w, set_w_out w (w_out w ++ [e])).
Definition Execute (s : statement) : GM unit := modify (λ w, set_w_db w (w_db w ++ [s])).

(** Access through a [Group*] and through a [Player*]. *)
Definition group_at (this : Z) : GM Group := w ← get; lift (deref (groups w !! this) Ok).
Definition upd_group (this : Z) (f : Group → Group) : GM unit :=
  g ← group_at this; modify (λ w, set_groups w (<[this := f g]> (groups w))).
Definition player_at (p : Z) : GM Player := w ← get; lift (deref (players w !! p) Ok).
Definition upd_player (p : Z) (f : Player → Player) : GM unit :=
  x ← player_at p; modify (λ w, set_players w (<[p := f x]> (players w))).

(** ObjectAccessor: players that are connected, and those also in the world. *)
Definition FindConnectedPlayer (w : World) (guid : Z) : option Player := players w !! guid.
Definition FindPlayer (w : World) (guid : Z) : option Player :=
  p ← players w !! guid; if IsInWorld (env p) then Some p else None.

Definition isLFGGroup (g : Group) : bool := m_groupType g .& GROUPTYPE_LFG.
Definition isRaidGroup (g : Group) : bool := m_groupType g .& GROUPTYPE_RAID.
Definition isBGGroup (g : Group) : bool := bool_decide (is_Some (m_bgGroup g)).
Definition isBFGroup (g : Group) : bool := bool_decide (is_Some (m_bfGroup g)).
Definition saved (g : Group) : bool := negb (isBGGroup g) && negb (isBFGroup g).
Definition GetMembersCount (g : Group) : Z := Z.of_nat (length (m_memberSlots g)).
Definition IsCreated (g : Group) : bool := 0 <? GetMembersCount g.
Definition IsLeader (g : Group) (guid : Z) : bool := m_leaderGuid g =? guid.
Definition IsFull (g : Group) : bool :=
  if isRaidGroup g then MAXRAIDSIZE <=? GetMembersCount g else MAXGROUPSIZE <=? GetMembersCount g.
Definition GetInviteeCount (g : Group) : Z := Z.of_nat (size (m_invitees g)).

(** [_getMemberCSlot] *)
Definition getMemberSlot (g : Group) (guid : Z) : option MemberSlot :=
  snd <$> list_find (λ s, s_guid s = guid) (m_memberSlots g).
Definition IsMember (g : Group) (guid : Z) : bool := bool_decide (is_Some (getMemberSlot g guid)).
Definition IsAssistant (g : Group) (guid : Z) : bool :=
  match getMemberSlot g guid with Some s => s_flags s .& MEMBER_FLAG_ASSISTANT | None => false end.
Definition GetMemberGroup (g : Group) (guid : Z) : Z :=
  match getMemberSlot g guid with Some s => s_group s | None => MAX_RAID_SUBGROUPS + 1 end.
Definition GetMemberGUID (g : Group) (name : string) : Z :=
  match list_find (λ s, s_name s = name) (m_memberSlots g) with Some (_, s) => s_guid s | None => 0 end.
(** Assigning through the iterator that [_getMemberWSlot] found. *)
Definition upd_slot (guid : Z) (f : MemberSlot → MemberSlot) (l : list MemberSlot) : list MemberSlot :=
  match list_find (λ s, s_guid s = guid) l with
  | Some (i, s) => <[i := f s]> l
  | None => l
  end.
Definition erase_slot (guid : Z) (l : list MemberSlot) : list MemberSlot :=
  match list_find (λ s, s_guid s = guid) l with Some (i, _) => delete i l | None => l end.

(** [m_subGroupsCounts] is an array of [MAX_RAID_SUBGROUPS] bytes, or null. *)
Definition count_at (cs : list Z) (subgroup : Z) (d : Z) : outcome (list Z) :=
  match cs !! Z.to_nat subgroup with
  | Some n => if 0 <=? subgroup then Ok (<[Z.to_nat subgroup := u8 (n + d)]> cs) else Undefined
  | None => Undefined
  end.
Definition change_count (this subgroup d : Z) : GM unit :=
  g ← group_at this;
  match m_subGroupsCounts g with
  | None => skip
  | Some cs => cs ← lift (count_at cs subgroup d); upd_group this (λ g, set_m_subGroupsCounts g (Some cs))
  end.
Definition SubGroupCounterIncrease (this subgroup : Z) : GM unit := change_count this subgroup 1.
Definition SubGroupCounterDecrease (this subgroup : Z) : GM unit := change_count this subgroup (-1).
Definition HasFreeSlotSubGroup (g : Group) (subgroup : Z) : outcome bool :=
  match m_subGroupsCounts g with
  | None => Ok false
  | Some cs => match cs !! Z.to_nat subgroup with Some n => Ok (n <? MAXGROUPSIZE) | None => Undefined end
  end.
(** [_initRaidSubGroupsCounter] *)
Fixpoint count_slots (cs : list Z) (l : list MemberSlot) : outcome (list Z) :=
  match l with
  | [] => Ok cs
  | s :: l => let! cs := count_at cs (s_group s) 1 in count_slots cs l
  end.
Definition initRaidSubGroupsCounter (this : Z) : GM unit :=
  g ← group_at this;
  cs ← lift (count_slots (replicate (Z.to_nat MAX_RAID_SUBGROUPS) 0) (m_memberSlots g));
  upd_group this (λ g, set_m_subGroupsCounts g (Some cs)).

(** ** References of players (Player::SetGroup and its like) *)

Definition GetGroup (p : Player) : option Z := r_target <$> m_group p.
Definition GetOriginalGroup (p : Player) : option Z := r_target <$> m_originalGroup p.
Definition GetSubGroup (p : Player) : Z := default 0 (iSubGroup <$> m_group p).
Definition GetOriginalSubGroup (p : Player) : Z := default 0 (iSubGroup <$> m_originalGroup p).

Definition ref_of (k : RefKind) (p : Player) : option GroupReference :=
  match k with GroupRef => m_group p | OriginalRef => m_originalGroup p end.
Definition set_ref (k : RefKind) (p : Player) (r : option GroupReference) : Player :=
  match k with GroupRef => set_m_group p r | OriginalRef => set_m_originalGroup p r end.

(** Reference::unlink: out of the list it is linked into, and null. *)
Definition unlink (guid : Z) (k : RefKind) : GM unit :=
  p ← player_at guid;
  _ ← match ref_of k p with
      | Some r => upd_group (r_target r)
                    (λ g, set_m_memberMgr g (filter (λ x, x ≠ (guid, k)) (m_memberMgr g)))
      | None => skip
      end;
  upd_player guid (λ p, set_ref k p None).
(** Reference::link: first unlinked from where it was, then in front of the new list. *)
Definition link (guid : Z) (k : RefKind) (group subgroup : Z) : GM unit :=
  p ← player_at guid;
  _ ← (if bool_decide (is_Some (ref_of k p)) then unlink guid k else skip);
  _ ← upd_group group (λ g, set_m_memberMgr g ((guid, k) :: m_memberMgr g));
  upd_player guid (λ p, set_ref k p (Some (mkRef group subgroup))).

(** [SetGroup(group, subgroup)] and [SetOriginalGroup(group, subgroup)], the subgroup an
    int8 that is asserted to be positive; a null group unlinks. *)
Definition SetRef (k : RefKind) (guid : Z) (group : option Z) (subgroup : Z) : GM unit :=
  match group with
  | None => unlink guid k
  | Some g => _ ← lift (assert_ (subgroup <? 128) (Ok tt)); link guid k g subgroup
  end.
Definition SetGroup := SetRef GroupRef.
Definition SetOriginalGroup := SetRef OriginalRef.

Definition SetBattlegroundOrBattlefieldRaid (guid group subgroup : Z) : GM unit :=
  p ← player_at guid;
  _ ← SetOriginalGroup guid (GetGroup p) (GetSubGroup p);
  _ ← unlink guid GroupRef;
  link guid GroupRef group subgroup.
Definition RemoveFromBattlegroundOrBattlefieldRaid (guid : Z) : GM unit :=
  _ ← unlink guid GroupRef;
  p ← player_at guid;
  _ ← match m_originalGroup p with
      | Some r => link guid GroupRef (r_target r) (iSubGroup r)
      | None => skip
      end;
  SetOriginalGroup guid None 0.

Definition SetGroupInvite (guid : Z) (group : option Z) : GM unit :=
  upd_player guid (λ p, set_m_groupInvite p group).

(** The destructor of a Group: the references that still point at it are cut
    (RefManager::clearReferences), and its address is gone. *)
Definition delete_group (this : Z) : GM unit :=
  g ← group_at this;
  _ ← for_each (m_memberMgr g) (λ x, upd_player x.1 (λ p, set_ref x.2 p None));
  modify (λ w, set_groups w (delete this (groups w))).

(** ** GroupMgr *)

(** The first index from [i] on that is past the end or null. *)
Fixpoint free_from (store : list (option Z)) (i : Z) : Z :=
  match store with
  | Some _ :: store => free_from store (i + 1)
  | _ => i
  end.
Definition GenerateNewGroupDbStoreId : GM Z :=
  w ← get;
  let newStorageId := NextGroupDbStoreId w in
  let next := u32 (NextGroupDbStoreId w + 1) in
  let i := free_from (drop (Z.to_nat next) (GroupDbStore w)) next in
  _ ← modify (λ w, set_NextGroupDbStoreId w (if i <? 0xFFFFFFFF then i else next));
  mret newStorageId.
Definition RegisterGroupDbStoreId (storageId group : Z) : GM unit :=
  modify (λ w, set_GroupDbStore w
    (<[Z.to_nat storageId := Some group]> (resize (length (GroupDbStore w) `max` S (Z.to_nat storageId)) None (GroupDbStore w)))).
Definition FreeGroupDbStoreId (storageId : Z) : GM unit :=
  _ ← modify (λ w, if storageId <? NextGroupDbStoreId w then set_NextGroupDbStoreId w storageId else w);
  w ← get;
  if Z.of_nat (length (GroupDbStore w)) <=? storageId then lift Undefined
  else modify (λ w, set_GroupDbStore w (<[Z.to_nat storageId := None]> (GroupDbStore w))).
Definition GetGroupByDbStoreId (w : World) (storageId : Z) : option Z :=
  mjoin (GroupDbStore w !! Z.to_nat storageId).
Definition GenerateGroupId : GM Z :=
  w ← get;
  _ ← modify (λ w, set_NextGroupId w (u32 (NextGroupId w + 1)));
  mret (NextGroupId w).
Definition AddGroup (group : Z) : GM unit :=
  g ← group_at group; modify (λ w, set_GroupStore w (<[m_guid g := group]> (GroupStore w))).
Definition RemoveGroup (group : Z) : GM unit :=
  g ← group_at group; modify (λ w, set_GroupStore w (delete (m_guid g) (GroupStore w))).
Definition GetGroupByGUID (w : World) (groupId : Z) : option Z := GroupStore w !! groupId.

End world.

Abbreviation GM := (ST World).

End GroupData.
