(* ===== verification/GroupLoot.v ===== *)
(** * Loot of a group ([src/server/game/Groups/Group.cpp])

    Rolls for items (Need, Greed, Disenchant, Pass), how a roll is decided and the item
    given out, and whose turn it is to loot. A Roll is an entry of its group's [RollId];
    [RollId.erase] and the like go by its index. *)
From S2P Require Import Prelude StateMonad GroupData.

Module GroupLoot.
Export GroupData.

(** What loot needs of the rest of the server: the templates of items, and whether a
    player has room for an item (which depends on everything that happened before). *)
Record LootTemplate := mkTemplate {
  Quality : Z;
  DisenchantID : Z;
  RequiredDisenchantSkill : Z;
  NeedRollDisabled : bool
}.
Class LootEnv `{RND : Random} := {
  GetItemTemplate : Z → option LootTemplate;
  CanStoreNewItem : World → Z → Z → Z → bool
}.

Section loot.
Context {RND : Random} {LV : LootEnv}.

(** ** Access *)

Definition loot_at (l : Z) : GM Loot := w ← get; lift (deref (loots w !! l) Ok).
Definition upd_loot (l : Z) (f : Loot → Loot) : GM unit :=
  x ← loot_at l; modify (λ w, set_loots w (<[l := f x]> (loots w))).

(** [itemSlot >= items.size() ? quest_items[itemSlot - items.size()] : items[itemSlot]] *)
Definition slot_item (l : Loot) (slot : Z) : outcome LootItem :=
  match (l_items l ++ quest_items l) !! Z.to_nat slot with Some i => Ok i | None => Undefined end.
Definition upd_item (slot : Z) (f : LootItem → LootItem) (l : Loot) : Loot :=
  let k := Z.to_nat slot in
  set_quest_items (set_l_items l (alter f k (l_items l)))
    (if bool_decide (k < length (l_items l))%nat then quest_items l
     else alter f (k - length (l_items l))%nat (quest_items l)).

Definition block (i : LootItem) : LootItem := set_is_blocked i true.
Definition unblock (i : LootItem) : LootItem := set_is_blocked i false.

(** ** Starting rolls *)

Definition new_roll (itemGUID : Z) (i : LootItem) : Roll :=
  mkRoll itemGUID (li_itemid i) (li_count i) ∅ 0 0 0 0 0 ROLL_ALL_TYPE_NO_DISENCHANT None.

(** The members who may roll, from the list of references; with [passing], those who
    always pass do so at once. *)
Definition add_voter (allowed near : Z → bool) (passing : bool) (r : Roll) (x : Z * Player) : Roll :=
  if HasSession (env x.2) && allowed x.1 && near x.1 then
    let r := set_totalPlayersRolling r (u8 (totalPlayersRolling r + 1)) in
    if passing && passOnGroupLoot (env x.2) then
      set_totalPass (set_playerVote r (<[x.1 := PASS]> (playerVote r))) (u8 (totalPass r + 1))
    else set_playerVote r (<[x.1 := NOT_EMITED_YET]> (playerVote r))
  else r.
Fixpoint sources (w : World) (l : list (Z * RefKind)) : outcome (list (Z * Player)) :=
  match l with
  | [] => Ok []
  | x :: l => deref (players w !! x.1) (λ p, let! ps := sources w l in Ok ((x.1, p) :: ps))
  end.
Definition voters (this : Z) (allowed near : Z → bool) (passing : bool) (r : Roll) : GM Roll :=
  g ← group_at this; w ← get;
  ps ← lift (sources w (m_memberMgr g));
  mret (foldl (add_voter allowed near passing) r ps).

Definition new_item_guid : GM Z :=
  w ← get; _ ← modify (λ w, set_next_item w (u32 (next_item w + 1))); mret (next_item w).

(** Those who passed are announced. *)
Definition tell_passes (r : Roll) : GM unit :=
  for_each (items (playerVote r)) (λ v,
    match v.2 with PASS => tell (LootRolled (itemGUID r) v.1 128 PASS) | _ => skip end).

(** From [setLoot] on: the roll is linked to the loot, its item blocked, and the roll
    pushed back. *)
Definition start_roll (this loot itemSlot mask : Z) (r : Roll) : GM unit :=
  let r := set_rollVoteMask (set_itemSlot (set_r_loot r (Some loot)) itemSlot) mask in
  _ ← upd_loot loot (upd_item itemSlot block);
  _ ← tell_passes r;
  upd_group this (λ g, set_RollId g (RollId g ++ [r])).

Definition with_disenchant (g : Group) (t : LootTemplate) (mask : Z) : Z :=
  if negb (DisenchantID t =? 0) && (RequiredDisenchantSkill t <=? m_maxEnchantingLevel g)
  then Z.lor mask ROLL_FLAG_TYPE_DISENCHANT else mask.
Definition without_need (t : LootTemplate) (mask : Z) : Z :=
  if NeedRollDisabled t then Z.land mask (Z.lnot ROLL_FLAG_TYPE_NEED) else mask.

(** One item of the loot ([needFirst]: Need before Greed, which reads the template of an
    unknown item through a null pointer). *)
Definition roll_item (needFirst : bool) (this loot : Z) (allowed : LootItem → Z → bool) (near : Z → bool)
    (x : Z * LootItem) : GM unit :=
  let '(itemSlot, i) := x in
  if freeforall i then skip
  else
    match GetItemTemplate (li_itemid i) with
    | None => if needFirst then lift BadPtr else skip
    | Some t =>
      g ← group_at this;
      if m_lootThreshold g <=? Quality t then
        guid ← new_item_guid;
        r ← voters this (allowed i) near true (new_roll guid i);
        if 0 <? totalPlayersRolling r then
          let mask := with_disenchant g t (rollVoteMask r) in
          start_roll this loot itemSlot (if needFirst then without_need t mask else mask) r
        else skip
      else upd_loot loot (upd_item itemSlot (λ i, set_is_underthreshold i true))
    end.
Definition roll_quest_item (needFirst : bool) (this loot : Z) (allowed : LootItem → Z → bool) (near : Z → bool)
    (x : Z * LootItem) : GM unit :=
  let '(itemSlot, i) := x in
  if negb (follow_loot_rules i) then skip
  else
    if negb needFirst && negb (bool_decide (is_Some (GetItemTemplate (li_itemid i)))) then skip
    else
      guid ← new_item_guid;
      r ← voters this (allowed i) near false (new_roll guid i);
      if 0 <? totalPlayersRolling r then start_roll this loot itemSlot (rollVoteMask r) r else skip.

(** The items with their slots, a uint8 that runs on from the items to the quest items. *)
Definition numbered (start : Z) (l : list LootItem) : list (Z * LootItem) :=
  imap (λ k i, (u8 (start + Z.of_nat k), i)) l.
Definition roll_all (needFirst : bool) (this loot : Z) (allowed : LootItem → Z → bool) (near : Z → bool) : GM unit :=
  l ← loot_at loot;
  _ ← for_each (numbered 0 (l_items l)) (roll_item needFirst this loot allowed near);
  for_each (numbered (Z.of_nat (length (l_items l))) (quest_items l))
    (roll_quest_item needFirst this loot allowed near).
Definition GroupLoot := roll_all false.
Definition NeedBeforeGreed := roll_all true.

(** Master loot: what is above the threshold is blocked for the others. *)
Definition MasterLoot (loot : Z) : GM unit :=
  upd_loot loot (λ l,
    set_quest_items
      (set_l_items l ((λ i, if freeforall i then i else set_is_blocked i (negb (is_underthreshold i))) <$> l_items l))
      ((λ i, if follow_loot_rules i then set_is_blocked i (negb (is_underthreshold i)) else i) <$> quest_items l)).

(** Loot::clear and its destructor cut the links of the rolls. *)
Definition cut_link (loot : Z) (r : Roll) : Roll :=
  if bool_decide (r_loot r = Some loot) then set_r_loot r None else r.
Definition clear_loot (loot : Z) : GM unit :=
  _ ← upd_loot loot (λ _, mkLoot [] [] 0);
  modify (λ w, set_groups w ((λ g, set_RollId g (cut_link loot <$> RollId g)) <$> groups w)).

(** ** Deciding a roll *)

Definition valid_roll (r : Roll) : bool := bool_decide (is_Some (r_loot r)).
(** The index that [GetRoll] finds. *)
Definition GetRoll (g : Group) (guid : Z) : option (nat * Roll) :=
  list_find (λ r, itemGUID r = guid ∧ valid_roll r = true) (RollId g).

Definition votes_for (need : bool) (v : RollVote) : bool :=
  match v with NEED => need | GREED | DISENCHANT => negb need | _ => false end.
(** One player's roll of the dice, and the best so far. *)
Definition roll_dice (need : bool) (item : Z) (best : Z * Z * RollVote) (v : Z * RollVote)
    : GM (Z * Z * RollVote) :=
  if votes_for need v.2 then
    w ← get;
    let '(randomN, s) := urand (w_rng w) 1 100 in
    _ ← modify (λ w, set_w_rng w s);
    _ ← tell (LootRolled item v.1 (u8 randomN) v.2);
    mret (if best.1.2 <? u8 randomN then (v.1, u8 randomN, v.2) else best)
  else mret best.
Fixpoint roll_best (need : bool) (item : Z) (best : Z * Z * RollVote) (l : list (Z * RollVote))
    : GM (Z * Z * RollVote) :=
  match l with
  | [] => mret best
  | v :: l => best ← roll_dice need item best v; roll_best need item best l
  end.

(** The winner's item goes to the inventory, or is unblocked for all when there is no
    room for it. *)
Definition give_item (r : Roll) (loot guid : Z) : GM unit :=
  l ← loot_at loot; i ← lift (slot_item l (itemSlot r)); w ← get;
  if CanStoreNewItem w guid (itemid r) (li_count i) then
    _ ← upd_loot loot (λ l, set_unlootedCount (upd_item (itemSlot r) (λ i, set_is_looted i true) l)
                              (u8 (unlootedCount l - 1)));
    tell (StoreNewItem guid (itemid r) (li_count i))
  else upd_loot loot (upd_item (itemSlot r) unblock).
(** A disenchanted item is looted in any case: what comes of it goes to the inventory or,
    without room, by mail. *)
Definition disenchant_item (r : Roll) (loot guid : Z) : GM unit :=
  l ← loot_at loot; _ ← lift (slot_item l (itemSlot r));
  _ ← upd_loot loot (λ l, set_unlootedCount (upd_item (itemSlot r) (λ i, set_is_looted i true) l)
                            (u8 (unlootedCount l - 1)));
  tell (Disenchanted guid (itemid r)).

Definition has_session (w : World) (guid : Z) : bool :=
  match FindConnectedPlayer w guid with Some p => HasSession (env p) | None => false end.

Definition award (need : bool) (r : Roll) (loot : Z) : GM unit :=
  match items (playerVote r) with
  | [] => skip
  | (first, _) :: _ =>
    best ← roll_best need (itemGUID r) (first, 0, if need then NEED else NOT_VALID) (items (playerVote r));
    let '(maxguid, maxresul, vote) := best in
    _ ← tell (LootRollWon (itemGUID r) maxguid maxresul vote);
    w ← get;
    if has_session w maxguid then
      match vote with
      | NEED | GREED => give_item r loot maxguid
      | DISENCHANT => disenchant_item r loot maxguid
      | _ => l ← loot_at loot; _ ← lift (slot_item l (itemSlot r)); skip
      end
    else skip
  end.

Definition erase_roll (this : Z) (k : nat) : GM unit :=
  upd_group this (λ g, set_RollId g (delete k (RollId g))).
Definition CountTheRoll (this : Z) (k : nat) : GM unit :=
  g ← group_at this;
  match RollId g !! k with
  | None => lift Undefined
  | Some r =>
    match r_loot r with
    | None => erase_roll this k
    | Some loot =>
      _ ← (if 0 <? totalNeed r then award true r loot
           else if 0 <? totalGreed r then award false r loot
           else
             _ ← tell (LootAllPassed (itemGUID r));
             l ← loot_at loot; _ ← lift (slot_item l (itemSlot r));
             upd_loot loot (upd_item (itemSlot r) unblock));
      erase_roll this k
    end
  end.

(** The player's choice (0 pass, 1 need, 2 greed, 3 disenchant; anything else is no vote). *)
Definition emit_vote (choice : Z) : option RollVote :=
  if choice =? 0 then Some PASS else if choice =? 1 then Some NEED
  else if choice =? 2 then Some GREED else if choice =? 3 then Some DISENCHANT else None.
Definition count_vote (v : RollVote) (r : Roll) : Roll :=
  match v with
  | PASS => set_totalPass r (u8 (totalPass r + 1))
  | NEED => set_totalNeed r (u8 (totalNeed r + 1))
  | GREED | DISENCHANT => set_totalGreed r (u8 (totalGreed r + 1))
  | _ => r
  end.
Definition cast_vote (guid : Z) (v : RollVote) (r : Roll) : Roll :=
  set_playerVote (count_vote v r) (<[guid := v]> (playerVote r)).
Definition all_voted (r : Roll) : bool :=
  totalPlayersRolling r <=? totalPass r + totalNeed r + totalGreed r.

Definition CountRollVote (this playerGUID guid choice : Z) : GM unit :=
  g ← group_at this;
  match GetRoll g guid with
  | None => skip
  | Some (k, r) =>
    match playerVote r !! playerGUID, r_loot r with
    | Some _, Some loot =>
      l ← loot_at loot;
      match l_items l with
      | [] => skip
      | _ =>
        let r' := match emit_vote choice with Some v => cast_vote playerGUID v r | None => r end in
        _ ← match emit_vote choice with
            | Some v => tell (LootRolled guid playerGUID (match v with NEED => 0 | _ => 128 end) v)
            | None => skip
            end;
        _ ← upd_group this (λ g, set_RollId g (<[k := r']> (RollId g)));
        if all_voted r' then CountTheRoll this k else skip
      end
    | _, _ => skip
    end
  end.

(** The time of the rolls for a loot is over. *)
Fixpoint end_rolls (fuel : nat) (this loot : Z) : GM unit :=
  match fuel with
  | O => lift OutOfFuel
  | S fuel =>
    g ← group_at this;
    match list_find (λ r, r_loot r = Some loot) (RollId g) with
    | None => skip
    | Some (k, _) => _ ← CountTheRoll this k; end_rolls fuel this loot
    end
  end.
Definition EndRoll (this loot : Z) : GM unit :=
  g ← group_at this; end_rolls (S (length (RollId g))) this loot.

(** ** Whose turn it is (Group::UpdateLooterGuid) *)

Definition GetLooterGuid (g : Group) : Z :=
  if bool_decide (m_lootMethod g = FREE_FOR_ALL) then 0 else m_looterGuid g.
(** The members in the order in which they are asked, starting behind the looter. *)
Definition looter_order (looter : Z) (l : list MemberSlot) : list MemberSlot :=
  match list_find (λ s, s_guid s = looter) l with
  | Some (i, _) => drop (S i) l ++ take (S i) l
  | None => l
  end.
(** [near guid]: the player is found on the looted object's map and close to it. *)
Definition UpdateLooterGuid (this : Z) (near : Z → bool) (ifneed : bool) : GM unit :=
  g ← group_at this;
  if bool_decide (m_lootMethod g = FREE_FOR_ALL) then skip
  else
    let old := GetLooterGuid g in
    if ifneed && IsMember g old && near old then skip
    else
      match list_find (λ s, near (s_guid s) = true) (looter_order old (m_memberSlots g)) with
      | Some (_, s) => upd_group this (λ g, set_m_looterGuid g (s_guid s))
      | None => upd_group this (λ g, set_m_looterGuid g 0)
      end.

End loot.

End GroupLoot.
