(* ===== verification/Groups.v ===== *)
(** * Player groups ([src/server/game/Groups/Group.cpp],
    [Entities/Player/Player.cpp], [DungeonFinding/LFGMgr.cpp])

    Invitations, joining, leaving, the leader, subgroups of a raid, target icons and the
    end of a group. *)
From S2P Require Import Prelude StateMonad Multimap GroupData GroupLoot.

Module Groups.
Export GroupLoot.

Definition LEVELREQUIREMENT_HEROIC := 70.

(** The configuration, and what the dungeon finder answers about a group. *)
Class GroupEnv `{RND : Random} := {
  CONFIG_ALLOW_GM_GROUP : bool;
  CONFIG_ALLOW_TWO_SIDE_INTERACTION_GROUP : bool;
  CacheGetGUID : string → Z;                       (* player::PlayerCache::GetGUID *)
  LfgGetDungeonMapId : World → Z → Z;
  LfgGetKicksLeft : World → Z → Z;
  LfgIsVoteKickActive : World → Z → bool;
  LfgIsFinished : World → Z → bool;                (* state is LFG_STATE_FINISHED_DUNGEON *)
  GetLfgBootVoteTime : World → Z → Z
}.

Section groups.
Context {RND : Random} {LV : LootEnv} {GE : GroupEnv}.

Definition in_world (w : World) (guid : Z) : bool := bool_decide (is_Some (FindPlayer w guid)).
Definition connected (w : World) (guid : Z) : bool := bool_decide (is_Some (FindConnectedPlayer w guid)).

(** ** Invitations *)

Definition RemoveInvite (this player : Z) : GM unit :=
  _ ← upd_group this (λ g, set_m_invitees g (m_invitees g ∖ {[player]}));
  SetGroupInvite player None.

(** The group that counts for an invitation: not that of the battleground. *)
Definition home_group (w : World) (p : Player) (bf : bool) : outcome (option Z) :=
  match GetGroup p with
  | None => Ok None
  | Some a =>
    deref (groups w !! a) (λ g,
      Ok (if isBGGroup g || (bf && isBFGroup g) then GetOriginalGroup p else Some a))
  end.

Definition AddInvite (this player : Z) : GM bool :=
  p ← player_at player; w ← get;
  if bool_decide (is_Some (m_groupInvite p)) then mret false
  else
    group ← lift (home_group w p true);
    match group with
    | Some _ => mret false
    | None =>
      _ ← RemoveInvite this player;
      _ ← upd_group this (λ g, set_m_invitees g ({[player]} ∪ m_invitees g));
      _ ← SetGroupInvite player (Some this);
      _ ← tell (OnGroupInviteMember this player);
      mret true
    end.

Definition AddLeaderInvite (this player : Z) : GM bool :=
  ok ← AddInvite this player;
  if negb ok then mret false
  else
    p ← player_at player;
    _ ← upd_group this (λ g, set_m_leaderName (set_m_leaderGuid g player) (p_name p));
    mret true.

Definition RemoveAllInvites (this : Z) : GM unit :=
  g ← group_at this;
  _ ← for_each (elements (m_invitees g)) (λ p, SetGroupInvite p None);
  upd_group this (λ g, set_m_invitees g ∅).

Definition GetInvited (g : Group) (guid : Z) : option Z :=
  if bool_decide (guid ∈ m_invitees g) then Some guid else None.
(** By name, in the order of the addresses, which nothing fixes: the guids' order here. *)
Definition GetInvitedByName (w : World) (g : Group) (name : string) : option Z :=
  snd <$> list_find (λ p, (p_name <$> players w !! p) = Some name) (elements (m_invitees g)).

(** ** Joining *)

(** The first subgroup of a raid with room; a party has only subgroup 0. *)
Definition first_free_subgroup (g : Group) : option Z :=
  match m_subGroupsCounts g with
  | None => Some 0
  | Some cs => (λ x, Z.of_nat x.1) <$> list_find (λ n, n < MAXGROUPSIZE) (take (Z.to_nat MAX_RAID_SUBGROUPS) cs)
  end.

Definition take_difficulties (this player : Z) : GM unit :=
  g ← group_at this; p ← player_at player;
  if negb (IsLeader g player) && saved g && (LEVELREQUIREMENT_HEROIC <=? level (env p)) then
    upd_player player (λ p, set_raidDifficulty (set_dungeonDifficulty p (m_dungeonDifficulty g)) (m_raidDifficulty g))
  else skip.

Definition AddMember (this player : Z) : GM bool :=
  g ← group_at this;
  match first_free_subgroup g with
  | None => mret false
  | Some subGroup =>
    p ← player_at player;
    _ ← upd_group this (λ g, set_m_memberSlots g (m_memberSlots g ++ [mkSlot player (p_name p) subGroup 0 0]));
    _ ← SubGroupCounterIncrease this subGroup;
    _ ← SetGroupInvite player None;
    p ← player_at player;
    _ ← match GetGroup p with
        | Some _ => if isBGGroup g || isBFGroup g then SetBattlegroundOrBattlefieldRaid player this subGroup
                    else SetOriginalGroup player (Some this) subGroup
        | None => SetGroup player (Some this) subGroup
        end;
    _ ← when (negb (isRaidGroup g)) (upd_group this (λ g, set_m_targetIcons g (replicate (Z.to_nat TARGETICONCOUNT) 0)));
    _ ← when (saved g) (Execute (INS_GROUP_MEMBER (m_dbStoreId g) player 0 subGroup 0));
    _ ← tell (OnGroupAddMember this player);
    _ ← take_difficulties this player;
    p ← player_at player;
    _ ← upd_group this (λ g, if m_maxEnchantingLevel g <? enchanting (env p)
                             then set_m_maxEnchantingLevel g (enchanting (env p)) else g);
    mret true
  end.

(** The constructor of Group. *)
Definition no_group : Group :=
  mkGroup [] [] ∅ 0 "" GROUPTYPE_NORMAL 0 0 None None (replicate (Z.to_nat TARGETICONCOUNT) 0)
    FREE_FOR_ALL ITEM_QUALITY_UNCOMMON 0 0 [] None 0 0 0.
Definition new_group : GM Z :=
  w ← get;
  let a := next_address w in
  _ ← modify (λ w, set_next_address (set_groups w (<[a := no_group]> (groups w))) (a + 1));
  mret a.

Definition Create (this leader : Z) : GM bool :=
  id ← GenerateGroupId;
  p ← player_at leader;
  _ ← upd_group this (λ g, set_m_leaderName (set_m_leaderGuid (set_m_guid g id) leader) (p_name p));
  _ ← upd_player leader (λ p, set_leaderFlag p true);
  g ← group_at this;
  _ ← when (isBGGroup g || isBFGroup g) (upd_group this (λ g, set_m_groupType g GROUPTYPE_BGRAID));
  g ← group_at this;
  _ ← when (isRaidGroup g) (initRaidSubGroupsCounter this);
  _ ← when (negb (isLFGGroup g)) (upd_group this (λ g, set_m_lootMethod g GROUP_LOOT));
  _ ← upd_group this (λ g, set_m_masterLooterGuid (set_m_looterGuid (set_m_lootThreshold g ITEM_QUALITY_UNCOMMON) leader) 0);
  _ ← upd_group this (λ g, set_m_raidDifficulty (set_m_dungeonDifficulty g 0) 0);
  if saved g then
    _ ← upd_group this (λ g, set_m_raidDifficulty (set_m_dungeonDifficulty g (dungeonDifficulty p)) (raidDifficulty p));
    dbid ← GenerateNewGroupDbStoreId;
    _ ← upd_group this (λ g, set_m_dbStoreId g dbid);
    _ ← RegisterGroupDbStoreId dbid this;
    _ ← Execute (INS_GROUP dbid leader);
    ok ← AddMember this leader;
    _ ← lift (assert_ ok (Ok tt));
    mret true
  else AddMember this leader.

(** ** Leaving *)

Definition ResetMaxEnchantingLevel (this : Z) : GM unit :=
  g ← group_at this; w ← get;
  upd_group this (λ g, set_m_maxEnchantingLevel g
    (foldl (λ m s, match FindPlayer w (s_guid s) with
                   | Some p => if m <? enchanting (env p) then enchanting (env p) else m
                   | None => m
                   end) 0 (m_memberSlots g))).

(** DelinkMember: the first reference in the list that is the member's is unlinked. *)
Definition DelinkMember (this guid : Z) : GM unit :=
  g ← group_at this;
  match list_find (λ x : Z * RefKind, x.1 = guid) (m_memberMgr g) with
  | Some (_, x) => unlink x.1 x.2
  | None => skip
  end.

(** A player leaves the group in the way its kind asks for. *)
Definition leave_reference (this guid : Z) (g : Group) : GM unit :=
  if isBGGroup g || isBFGroup g then RemoveFromBattlegroundOrBattlefieldRaid guid
  else
    p ← player_at guid;
    if bool_decide (GetOriginalGroup p = Some this) then SetOriginalGroup guid None 0
    else SetGroup guid None 0.

Definition toggle (flag : Z) (apply : bool) (s : MemberSlot) : MemberSlot :=
  set_s_flags s (if apply then Z.lor (s_flags s) flag else Z.land (s_flags s) (Z.lnot flag)).

Definition ChangeLeader (this newLeaderGuid : Z) : GM unit :=
  g ← group_at this; w ← get;
  if negb (IsMember g newLeaderGuid) then skip
  else
    match FindConnectedPlayer w newLeaderGuid with
    | None => skip
    | Some newLeader =>
      _ ← tell (OnGroupChangeLeader this newLeaderGuid (m_leaderGuid g));
      _ ← when (saved g) (Execute (UPD_GROUP_LEADER newLeaderGuid (m_dbStoreId g)));
      _ ← when (connected w (m_leaderGuid g)) (upd_player (m_leaderGuid g) (λ p, set_leaderFlag p false));
      _ ← upd_player newLeaderGuid (λ p, set_leaderFlag p true);
      upd_group this (λ g, set_m_memberSlots
        (set_m_leaderName (set_m_leaderGuid g newLeaderGuid) (p_name newLeader))
        (upd_slot newLeaderGuid (toggle MEMBER_FLAG_ASSISTANT false) (m_memberSlots g)))
    end.

Definition Disband (this : Z) : GM unit :=
  g ← group_at this;
  _ ← tell (OnGroupDisband this);
  _ ← for_each (m_memberSlots g) (λ s,
        w ← get; when (connected w (s_guid s)) (leave_reference this (s_guid s) g));
  _ ← upd_group this (λ g, set_m_memberSlots (set_RollId g []) []);
  _ ← RemoveAllInvites this;
  _ ← (if saved g then
         _ ← Execute (DEL_GROUP (m_dbStoreId g));
         _ ← Execute (DEL_GROUP_MEMBER_ALL (m_dbStoreId g));
         _ ← Execute (DEL_LFG_DATA (m_dbStoreId g));
         FreeGroupDbStoreId (m_dbStoreId g)
       else skip);
  _ ← RemoveGroup this;
  delete_group this.

(** A roll without the vote of somebody who left. *)
Definition forget_vote (guid : Z) (r : Roll) : Roll :=
  match playerVote r !! guid with
  | None => r
  | Some v =>
    let r := match v with
             | GREED | DISENCHANT => set_totalGreed r (u8 (totalGreed r - 1))
             | NEED => set_totalNeed r (u8 (totalNeed r - 1))
             | PASS => set_totalPass r (u8 (totalPass r - 1))
             | _ => r
             end in
    let r := match v with NOT_VALID => r | _ => set_totalPlayersRolling r (u8 (totalPlayersRolling r - 1)) end in
    set_playerVote r (delete guid (playerVote r))
  end.
Definition MAX_ROLL_TYPE := 4.
(** The [k]-th roll of the loop over [RollId]. *)
Definition leave_roll (this guid : Z) (k : nat) : GM unit :=
  g ← group_at this;
  match RollId g !! k with
  | None => lift Undefined
  | Some r =>
    if bool_decide (is_Some (playerVote r !! guid)) then
      _ ← upd_group this (λ g, set_RollId g (<[k := forget_vote guid r]> (RollId g)));
      CountRollVote this guid (itemGUID r) MAX_ROLL_TYPE
    else skip
  end.

Definition pick_leader (this guid : Z) : GM unit :=
  g ← group_at this; w ← get;
  if m_leaderGuid g =? guid then
    match list_find (λ s, connected w (s_guid s) = true) (m_memberSlots g) with
    | Some (_, s) => ChangeLeader this (s_guid s)
    | None => skip
    end
  else skip.

(** Out of the list and of the counter of the subgroup. *)
Definition drop_slot (this guid : Z) : GM unit :=
  g ← group_at this;
  match getMemberSlot g guid with
  | Some s =>
    _ ← SubGroupCounterDecrease this (s_group s);
    upd_group this (λ g, set_m_memberSlots g (erase_slot guid (m_memberSlots g)))
  | None => skip
  end.

(** The rest of RemoveMember when the group may go on without the member. *)
Definition take_out (this guid : Z) : GM unit :=
  g ← group_at this; w ← get;
  _ ← when (connected w guid) (leave_reference this guid g);
  _ ← (if saved g then _ ← Execute (DEL_GROUP_MEMBER guid); DelinkMember this guid else skip);
  w ← get;
  _ ← when (match FindConnectedPlayer w guid with
            | Some p => negb (enchanting (env p) =? 0)
            | None => true
            end) (ResetMaxEnchantingLevel this);
  g ← group_at this;
  _ ← for_each (seq 0 (length (RollId g))) (leave_roll this guid);
  _ ← drop_slot this guid;
  _ ← pick_leader this guid;
  upd_group this (λ g, if m_masterLooterGuid g =? guid then set_m_masterLooterGuid g (m_leaderGuid g) else g).

(** A dungeon finder group of one goes on only while its leader stays in the dungeon. *)
Definition lfg_alone (w : World) (g : Group) : bool :=
  isLFGGroup g && (GetMembersCount g =? 1) &&
  let mapid := LfgGetDungeonMapId w (m_guid g) in
  match FindConnectedPlayer w (m_leaderGuid g) with
  | None => true
  | Some p => (mapid =? 0) || (IsAlive (env p) && negb (mapId (env p) =? mapid))
  end.

Definition RemoveMember (this guid : Z) (method : RemoveMethod) (kicker : Z) : GM bool :=
  _ ← tell (OnGroupRemoveMember this guid method kicker);
  g ← group_at this;
  if isLFGGroup g && bool_decide (method = GROUP_REMOVEMETHOD_KICK) then
    mret (negb (bool_decide (m_memberSlots g = [])))
  else if (if isBGGroup g || isLFGGroup g || isBFGroup g then 1 else 2) <? GetMembersCount g then
    _ ← take_out this guid;
    g ← group_at this; w ← get;
    if lfg_alone w g then _ ← Disband this; mret false
    else
      _ ← when (Z.of_nat (length (m_memberMgr g)) <? (if isLFGGroup g || isBGGroup g then 1 else 2)) (Disband this);
      mret true
  else _ ← Disband this; mret false.

(** Player::UninviteFromGroup *)
Definition UninviteFromGroup (player : Z) : GM unit :=
  p ← player_at player;
  match m_groupInvite p with
  | None => skip
  | Some group =>
    _ ← RemoveInvite group player;
    g ← group_at group;
    if IsCreated g then when (GetMembersCount g <=? 1) (Disband group)
    else if GetInviteeCount g <=? 1 then _ ← RemoveAllInvites group; delete_group group
    else skip
  end.

(** ** Changing a group *)

Definition ConvertToLFG (this : Z) : GM unit :=
  _ ← upd_group this (λ g, set_m_lootMethod
        (set_m_groupType g (Z.lor (Z.lor (m_groupType g) GROUPTYPE_LFG) GROUPTYPE_LFG_RESTRICTED)) NEED_BEFORE_GREED);
  g ← group_at this;
  when (saved g) (Execute (UPD_GROUP_TYPE (m_groupType g) (m_dbStoreId g))).

Definition ConvertToRaid (this : Z) : GM unit :=
  _ ← upd_group this (λ g, set_m_groupType g (Z.lor (m_groupType g) GROUPTYPE_RAID));
  _ ← initRaidSubGroupsCounter this;
  g ← group_at this;
  when (saved g) (Execute (UPD_GROUP_TYPE (m_groupType g) (m_dbStoreId g))).

Definition set_subgroup (sub : Z) (r : GroupReference) : GroupReference := mkRef (r_target r) sub.
Definition ChangeMembersGroup (this guid group : Z) : GM unit :=
  g ← group_at this;
  if negb (isRaidGroup g) then skip
  else if negb (IsMember g guid) then skip
  else
    let prevSubGroup := GetMemberGroup g guid in
    if prevSubGroup =? group then skip
    else
      _ ← upd_group this (λ g, set_m_memberSlots g (upd_slot guid (λ s, set_s_group s group) (m_memberSlots g)));
      _ ← SubGroupCounterIncrease this group;
      _ ← SubGroupCounterDecrease this prevSubGroup;
      _ ← when (saved g) (Execute (UPD_GROUP_MEMBER_SUBGROUP group guid));
      w ← get;
      when (connected w guid)
        (upd_player guid (λ p,
           if bool_decide (GetGroup p = Some this) then set_m_group p (set_subgroup group <$> m_group p)
           else set_m_originalGroup p (set_subgroup group <$> m_originalGroup p))).

Definition RemoveUniqueGroupMemberFlag (this flag : Z) : GM unit :=
  upd_group this (λ g, set_m_memberSlots g (toggle flag false <$> m_memberSlots g)).

Definition SetGroupMemberFlag (this guid : Z) (apply : bool) (flag : Z) : GM unit :=
  g ← group_at this;
  if negb (isRaidGroup g) then skip
  else if negb (IsMember g guid) then skip
  else if negb ((flag =? MEMBER_FLAG_MAINASSIST) || (flag =? MEMBER_FLAG_MAINTANK) || (flag =? MEMBER_FLAG_ASSISTANT)) then skip
  else
    _ ← when (negb (flag =? MEMBER_FLAG_ASSISTANT)) (RemoveUniqueGroupMemberFlag this flag);
    _ ← upd_group this (λ g, set_m_memberSlots g (upd_slot guid (toggle flag apply) (m_memberSlots g)));
    g ← group_at this;
    Execute (UPD_GROUP_MEMBER_FLAG (default 0 (s_flags <$> getMemberSlot g guid)) guid).

(** SetTargetIcon; the recursive calls clear an icon each. *)
Definition put_icon (this id target : Z) : GM unit :=
  upd_group this (λ g, set_m_targetIcons g (<[Z.to_nat id := target]> (m_targetIcons g))).
Definition SetTargetIcon (this id targetGuid : Z) : GM unit :=
  if TARGETICONCOUNT <=? id then skip
  else
    _ ← (if targetGuid =? 0 then skip
         else for_each (seqZ 0 TARGETICONCOUNT) (λ i,
           g ← group_at this;
           when (bool_decide (m_targetIcons g !! Z.to_nat i = Some targetGuid)) (put_icon this i 0)));
    put_icon this id targetGuid.

Definition sessions_set (this : Z) (f : Player → Player) : GM unit :=
  g ← group_at this;
  for_each (m_memberMgr g) (λ x, upd_player x.1 (λ p, if HasSession (env p) then f p else p)).
Definition SetDungeonDifficulty (this difficulty : Z) : GM unit :=
  _ ← upd_group this (λ g, set_m_dungeonDifficulty g difficulty);
  g ← group_at this;
  _ ← when (saved g) (Execute (UPD_GROUP_DIFFICULTY difficulty (m_dbStoreId g)));
  sessions_set this (λ p, set_dungeonDifficulty p difficulty).
Definition SetRaidDifficulty (this difficulty : Z) : GM unit :=
  _ ← upd_group this (λ g, set_m_raidDifficulty g difficulty);
  g ← group_at this;
  _ ← when (saved g) (Execute (UPD_GROUP_RAID_DIFFICULTY difficulty (m_dbStoreId g)));
  sessions_set this (λ p, set_raidDifficulty p difficulty).

(** SetLfgRoles: the member's roles, then the list is sorted by roles (std::list::sort
    keeps the order of equal ones). *)
Definition sort_by_roles (l : list MemberSlot) : list MemberSlot :=
  (foldl (λ acc s, mm_insert (s_roles s) s acc) [] l).*2.
Definition SetLfgRoles (this guid roles : Z) : GM unit :=
  g ← group_at this;
  if negb (IsMember g guid) then skip
  else upd_group this (λ g, set_m_memberSlots g
         (sort_by_roles (upd_slot guid (λ s, set_s_roles s roles) (m_memberSlots g)))).

(** LFGMgr::MakeNewGroup, the part that forms the group: the players (the leader first)
    with their roles, and the group that is filled up, if any. *)
Definition make_new_group_step (grp : option Z) (x : Z * Z) : GM (option Z) :=
  let '(pguid, role) := x in
  w ← get;
  match FindPlayer w pguid with
  | None => mret grp
  | Some player =>
    let group := GetGroup player in
    _ ← match group with
        | Some a => if bool_decide (group = grp) then skip
                    else _ ← RemoveMember a pguid GROUP_REMOVEMETHOD_DEFAULT 0; skip
        | None => skip
        end;
    a ← match grp with
        | None =>
          a ← new_group;
          _ ← ConvertToLFG a; _ ← Create a pguid; _ ← AddGroup a;
          mret a
        | Some a =>
          _ ← (if bool_decide (group = grp) then skip else _ ← AddMember a pguid; skip);
          mret a
        end;
    _ ← SetLfgRoles a pguid role;
    mret (Some a)
  end.
Fixpoint make_new_group (grp : option Z) (players : list (Z * Z)) : GM (option Z) :=
  match players with
  | [] => mret grp
  | x :: players => grp ← make_new_group_step grp x; make_new_group grp players
  end.
Definition MakeNewGroup (grp : option Z) (players : list (Z * Z)) (difficulty : Z) : GM unit :=
  grp ← make_new_group grp players;
  match grp with
  | None => lift AssertFail
  | Some a => SetDungeonDifficulty a difficulty
  end.

End groups.

End Groups.
