(* ===== verification/GroupHandlers.v ===== *)
(** * The requests that drive player groups
    ([src/server/game/Handlers/GroupHandler.cpp], [Entities/Player/Player.cpp],
    [Server/WorldSession.cpp])

    The packet handlers of groups with all their checks, logging in and out, and the
    histories they make up. [GetPlayer()] is the argument [me]. *)
From S2P Require Import Prelude StateMonad Multimap GroupData GroupLoot Groups.

Module GroupHandlers.
Export Groups.

(** ** The table [group_member]

    The rows that the statements sent so far have left. *)
Record MemberRow := mkRow { row_group : Z; row_member : Z; row_flags : Z; row_subgroup : Z; row_roles : Z }.
Definition exec_members (l : list MemberRow) (s : statement) : list MemberRow :=
  match s with
  | INS_GROUP_MEMBER d m f sub r => l ++ [mkRow d m f sub r]
  | DEL_GROUP_MEMBER m => filter (λ r, row_member r ≠ m) l
  | DEL_GROUP_MEMBER_ALL d => filter (λ r, row_group r ≠ d) l
  | UPD_GROUP_MEMBER_SUBGROUP sub m =>
    (λ r, if row_member r =? m then mkRow (row_group r) m (row_flags r) sub (row_roles r) else r) <$> l
  | UPD_GROUP_MEMBER_FLAG f m =>
    (λ r, if row_member r =? m then mkRow (row_group r) m f (row_subgroup r) (row_roles r) else r) <$> l
  | _ => l
  end.
Definition member_rows (db : list statement) : list MemberRow := foldl exec_members [] db.

Section handlers.
Context {RND : Random} {LV : LootEnv} {GE : GroupEnv}.

Definition answer (me : Z) (r : PartyResult) : GM unit := tell (SendPartyResult me r).

Definition FindPlayerByName (w : World) (name : string) : option Z :=
  let guid := CacheGetGUID name in
  if guid =? 0 then None else if in_world w guid then Some guid else None.

(** The checks of HandleGroupInviteOpcode before groups come into it. *)
Definition invite_refused (w : World) (me guid : Z) (inviting invited : Player) : option PartyResult :=
  let a := env inviting in
  let b := env invited in
  if negb (IsGameMaster a) && IsSecretQueuingActive b then Some ERR_BAD_PLAYER_NAME_S
  else if guid =? me then Some ERR_BAD_PLAYER_NAME_S
  else if negb CONFIG_ALLOW_GM_GROUP && negb (IsGameMaster a) && IsGameMaster b then Some ERR_BAD_PLAYER_NAME_S
  else if negb (IsGameMaster a) && negb CONFIG_ALLOW_TWO_SIDE_INTERACTION_GROUP && negb (team a =? team b)
  then Some ERR_PLAYER_WRONG_FACTION
  else if negb (instanceId a =? 0) && negb (instanceId b =? 0) && negb (instanceId a =? instanceId b)
          && (mapId a =? mapId b) then Some ERR_TARGET_NOT_IN_INSTANCE_S
  else if negb (instanceId b =? 0) && negb (dungeonDifficulty invited =? dungeonDifficulty inviting)
  then Some ERR_IGNORING_YOU_S
  else if bool_decide (me ∈ ignores b) then Some ERR_IGNORING_YOU_S
  else None.

(** A group that does not exist yet: it is created by the first who accepts. *)
Definition invite_to_new_group (me guid : Z) : GM bool :=
  a ← new_group;
  ok ← AddLeaderInvite a me;
  if negb ok then _ ← delete_group a; mret false
  else
    ok ← AddInvite a guid;
    if negb ok then _ ← RemoveAllInvites a; _ ← delete_group a; mret false
    else mret true.

Definition HandleGroupInvite (me : Z) (membername : option string) : GM unit :=
  w ← get; inviting ← player_at me;
  match (n ← membername; FindPlayerByName w n) with
  | None => answer me ERR_BAD_PLAYER_NAME_S
  | Some guid =>
    invited ← player_at guid;
    match invite_refused w me guid inviting invited with
    | Some r => answer me r
    | None =>
      home ← lift (home_group w inviting false);
      group2 ← lift (home_group w invited false);
      let group := match home with Some a => Some a | None => m_groupInvite inviting end in
      if bool_decide (is_Some group2) || bool_decide (is_Some (m_groupInvite invited)) then
        answer me ERR_ALREADY_IN_GROUP_S
      else
        match group with
        | None =>
          ok ← invite_to_new_group me guid;
          when ok (answer me ERR_PARTY_RESULT_OK)
        | Some a =>
          g ← group_at a;
          if negb (IsLeader g me) && negb (IsAssistant g me) then
            when (IsCreated g) (answer me ERR_NOT_LEADER)
          else if IsFull g then answer me ERR_GROUP_FULL
          else
            ok ← AddInvite a guid;
            when ok (answer me ERR_PARTY_RESULT_OK)
        end
    end
  end.

Definition HandleGroupAccept (me : Z) : GM unit :=
  p ← player_at me;
  match m_groupInvite p with
  | None => skip
  | Some a =>
    _ ← RemoveInvite a me;
    g ← group_at a; w ← get;
    if m_leaderGuid g =? me then skip
    else if IsFull g then answer me ERR_GROUP_FULL
    else if negb (IsCreated g) then
      match FindPlayer w (m_leaderGuid g) with
      | None => RemoveAllInvites a
      | Some _ =>
        _ ← RemoveInvite a (m_leaderGuid g);
        _ ← Create a (m_leaderGuid g);
        _ ← AddGroup a;
        _ ← AddMember a me; skip
      end
    else _ ← AddMember a me; skip
  end.

Definition HandleGroupDecline (me : Z) : GM unit :=
  p ← player_at me;
  match m_groupInvite p with
  | None => skip
  | Some a => _ ← group_at a; UninviteFromGroup me
  end.

Definition CanUninviteFromGroup (me guidMember : Z) : GM PartyResult :=
  p ← player_at me; w ← get;
  match GetGroup p with
  | None => mret ERR_NOT_IN_GROUP
  | Some a =>
    g ← group_at a;
    if isLFGGroup g then
      ps ← lift (sources w (m_memberMgr g));
      let gguid := m_guid g in
      mret (if LfgGetKicksLeft w gguid =? 0 then ERR_PARTY_LFG_BOOT_LIMIT
            else if LfgIsVoteKickActive w gguid then ERR_PARTY_LFG_BOOT_IN_PROGRESS
            else if GetMembersCount g <=? 3 then ERR_PARTY_LFG_BOOT_TOO_FEW_PLAYERS
            else if LfgIsFinished w gguid then ERR_PARTY_LFG_BOOT_DUNGEON_COMPLETE
            else if negb (bool_decide (RollId g = [])) then ERR_PARTY_LFG_BOOT_LOOT_ROLLS
            else if existsb (λ x : Z * Player, IsInCombat (env x.2)) ps then ERR_PARTY_LFG_BOOT_IN_COMBAT
            else if (0 <? GetLfgBootVoteTime w a) && in_world w guidMember then ERR_PARTY_LFG_BOOT_NOT_ELIGIBLE_S
            else ERR_PARTY_RESULT_OK)
    else
      mret (if negb (IsLeader g me) && negb (IsAssistant g me) then ERR_NOT_LEADER
            else if InBattleground (env p) then ERR_INVITE_RESTRICTED
            else if IsLeader g guidMember then ERR_NOT_LEADER
            else ERR_PARTY_RESULT_OK)
  end.

Definition HandleGroupUninviteGuid (me guid : Z) : GM unit :=
  if guid =? me then skip
  else
    res ← CanUninviteFromGroup me guid;
    if negb (bool_decide (res = ERR_PARTY_RESULT_OK)) then answer me res
    else
      p ← player_at me;
      match GetGroup p with
      | None => lift AssertFail
      | Some a =>
        g ← group_at a;
        if IsMember g guid then _ ← RemoveMember a guid GROUP_REMOVEMETHOD_KICK me; skip
        else
          match GetInvited g guid with
          | Some p => UninviteFromGroup p
          | None => answer me ERR_TARGET_NOT_IN_GROUP_S
          end
      end.

Definition HandleGroupUninvite (me : Z) (membername : option string) : GM unit :=
  p ← player_at me;
  match membername with
  | None => skip
  | Some name =>
    if bool_decide (p_name p = name) then skip
    else
      res ← CanUninviteFromGroup me 0;
      if negb (bool_decide (res = ERR_PARTY_RESULT_OK)) then answer me res
      else
        match GetGroup p with
        | None => skip
        | Some a =>
          g ← group_at a; w ← get;
          let guid := GetMemberGUID g name in
          if negb (guid =? 0) then _ ← RemoveMember a guid GROUP_REMOVEMETHOD_KICK me; skip
          else
            match GetInvitedByName w g name with
            | Some p => UninviteFromGroup p
            | None => answer me ERR_TARGET_NOT_IN_GROUP_S
            end
        end
  end.

Definition HandleGroupSetLeader (me guid : Z) : GM unit :=
  p ← player_at me; w ← get;
  match GetGroup p, FindConnectedPlayer w guid with
  | Some a, Some player =>
    g ← group_at a;
    if negb (IsLeader g me) || negb (bool_decide (GetGroup player = Some a)) then skip
    else ChangeLeader a guid
  | _, _ => skip
  end.

(** CMSG_GROUP_DISBAND: leave the group, or call off one that nobody joined yet. *)
Definition HandleGroupDisband (me : Z) : GM unit :=
  p ← player_at me;
  if negb (bool_decide (is_Some (GetGroup p))) && negb (bool_decide (is_Some (m_groupInvite p))) then skip
  else if InBattleground (env p) then answer me ERR_INVITE_RESTRICTED
  else
    match GetGroup p, m_groupInvite p with
    | Some a, _ =>
      _ ← answer me ERR_PARTY_RESULT_OK;
      _ ← RemoveMember a me GROUP_REMOVEMETHOD_LEAVE 0; skip
    | None, Some a =>
      g ← group_at a;
      if m_leaderGuid g =? me then _ ← answer me ERR_PARTY_RESULT_OK; Disband a else skip
    | None, None => skip
    end.

Definition HandleLootMethod (me : Z) (lootMethod : option LootMethod) (lootMaster lootThreshold : Z) : GM unit :=
  p ← player_at me;
  match GetGroup p with
  | None => skip
  | Some a =>
    g ← group_at a;
    match lootMethod with
    | None => skip                                      (* lootMethod > NEED_BEFORE_GREED *)
    | Some method =>
      if negb (IsLeader g me) then skip
      else if (lootThreshold <? ITEM_QUALITY_UNCOMMON) || (ITEM_QUALITY_ARTIFACT <? lootThreshold) then skip
      else if bool_decide (method = MASTER_LOOT) && negb (IsMember g lootMaster) then skip
      else if isLFGGroup g then skip
      else upd_group a (λ g, set_m_lootThreshold (set_m_masterLooterGuid (set_m_lootMethod g method) lootMaster) lootThreshold)
    end
  end.

Definition HandleLootRoll (me guid rollType : Z) : GM unit :=
  p ← player_at me;
  match GetGroup p with Some a => CountRollVote a me guid rollType | None => skip end.

(** [ok]: the icon's target, if it is a player, is on the map and not hostile. *)
Definition HandleRaidTargetUpdate (me x guid : Z) (ok : bool) : GM unit :=
  p ← player_at me;
  match GetGroup p with
  | None => skip
  | Some a =>
    g ← group_at a;
    if x =? 0xFF then skip
    else if isRaidGroup g && negb (IsLeader g me) && negb (IsAssistant g me) then skip
    else if negb ok then skip
    else SetTargetIcon a x guid
  end.

Definition HandleGroupRaidConvert (me : Z) : GM unit :=
  p ← player_at me;
  match GetGroup p with
  | None => skip
  | Some a =>
    if InBattleground (env p) then skip
    else
      g ← group_at a;
      if negb (IsLeader g me) || (GetMembersCount g <? 2) then skip
      else _ ← answer me ERR_PARTY_RESULT_OK; ConvertToRaid a
  end.

Definition HandleGroupChangeSubGroup (me : Z) (name : string) (groupNr : Z) : GM unit :=
  p ← player_at me;
  match GetGroup p with
  | None => skip
  | Some a =>
    g ← group_at a;
    if MAX_RAID_SUBGROUPS <=? groupNr then skip
    else if negb (IsLeader g me) && negb (IsAssistant g me) then skip
    else
      free ← lift (HasFreeSlotSubGroup g groupNr);
      if negb free then skip else ChangeMembersGroup a (CacheGetGUID name) groupNr
  end.

Definition HandleGroupAssistantLeader (me guid : Z) (apply : bool) : GM unit :=
  p ← player_at me;
  match GetGroup p with
  | None => skip
  | Some a =>
    g ← group_at a;
    if negb (IsLeader g me) then skip else SetGroupMemberFlag a guid apply MEMBER_FLAG_ASSISTANT
  end.

Definition GROUP_ASSIGN_MAINTANK := 0.
Definition GROUP_ASSIGN_MAINASSIST := 1.
Definition HandlePartyAssignment (me assignment : Z) (apply : bool) (guid : Z) : GM unit :=
  p ← player_at me;
  match GetGroup p with
  | None => skip
  | Some a =>
    g ← group_at a;
    if negb (IsLeader g me) && negb (IsAssistant g me) then skip
    else if assignment =? GROUP_ASSIGN_MAINASSIST then
      _ ← RemoveUniqueGroupMemberFlag a MEMBER_FLAG_MAINASSIST; SetGroupMemberFlag a guid apply MEMBER_FLAG_MAINASSIST
    else if assignment =? GROUP_ASSIGN_MAINTANK then
      _ ← RemoveUniqueGroupMemberFlag a MEMBER_FLAG_MAINTANK; SetGroupMemberFlag a guid apply MEMBER_FLAG_MAINTANK
    else skip
  end.

(** ** Logging in and out *)

(** A player object appears; Player::_LoadGroup puts it back into its group. *)
Definition LoadGroup (me : Z) : GM unit :=
  w ← get;
  let row := snd <$> list_find (λ r, row_member r = me) (member_rows (w_db w)) in
  _ ← match (r ← row; GetGroupByDbStoreId w (row_group r)) with
      | None => skip
      | Some a =>
        g ← group_at a;
        _ ← when (IsLeader g me) (upd_player me (λ p, set_leaderFlag p true));
        _ ← SetGroup me (Some a) (GetMemberGroup g me);
        p ← player_at me;
        when (LEVELREQUIREMENT_HEROIC <=? level (env p))
          (upd_player me (λ p, set_raidDifficulty (set_dungeonDifficulty p (m_dungeonDifficulty g)) (m_raidDifficulty g)))
      end;
  p ← player_at me; w ← get;
  let leads := match GetGroup p with
               | Some a => match groups w !! a with Some g => IsLeader g me | None => false end
               | None => false
               end in
  when (negb leads) (upd_player me (λ p, set_leaderFlag p false)).

Definition Login (me : Z) (name : string) (dungeon raid : Z) (e : PlayerEnv) : GM unit :=
  _ ← modify (λ w, set_players w (<[me := mkPlayer name None None None false dungeon raid e]> (players w)));
  LoadGroup me.

(** WorldSession::LogoutPlayer, then the destructor of the player's references.
    [requested]: by the user, over a live connection. *)
Definition Logout (me : Z) (requested : bool) : GM unit :=
  p ← player_at me; w ← get;
  _ ← match GetGroup p with
      | Some a =>
        g ← group_at a;
        if negb (isRaidGroup g) && requested && negb (mapId (env p) =? 35)
        then _ ← RemoveMember a me GROUP_REMOVEMETHOD_DEFAULT 0; skip
        else skip
      | None => skip
      end;
  _ ← UninviteFromGroup me;
  p ← player_at me;
  _ ← match GetGroup p with Some a => ResetMaxEnchantingLevel a | None => skip end;
  _ ← unlink me GroupRef;
  _ ← unlink me OriginalRef;
  modify (λ w, set_players w (delete me (players w))).

(** ** Histories *)

Inductive op :=
| OpLogin (me : Z) (name : string) (dungeon raid : Z) (e : PlayerEnv)
| OpLogout (me : Z) (requested : bool)
| OpEnv (me : Z) (e : PlayerEnv)                      (* the player moves, levels, ... *)
| OpInvite (me : Z) (name : option string)
| OpAccept (me : Z)
| OpDecline (me : Z)
| OpUninviteGuid (me guid : Z)
| OpUninvite (me : Z) (name : option string)
| OpSetLeader (me guid : Z)
| OpDisband (me : Z)
| OpLootMethod (me : Z) (m : option LootMethod) (master threshold : Z)
| OpLootRoll (me guid choice : Z)
| OpTarget (me x guid : Z) (ok : bool)
| OpRaidConvert (me : Z)
| OpChangeSubGroup (me : Z) (name : string) (n : Z)
| OpAssistant (me guid : Z) (apply : bool)
| OpAssign (me assignment : Z) (apply : bool) (guid : Z)
| OpLfgGroup (grp : option Z) (players : list (Z * Z)) (difficulty : Z)
| OpLfgKick (group victim : Z)
| OpNewLoot (items quest : list LootItem) (unlooted : Z) (* a creature dies *)
| OpRollLoot (needFirst : bool) (group loot : Z) (allowed : LootItem → Z → bool) (near : Z → bool)
| OpMasterLoot (loot : Z)
| OpClearLoot (loot : Z)
| OpEndRoll (group loot : Z)
| OpLooter (group : Z) (near : Z → bool) (ifneed : bool).

Definition new_loot (l : Loot) : GM unit :=
  modify (λ w, set_next_address (set_loots w (<[next_address w := l]> (loots w))) (next_address w + 1)).

Definition perform (o : op) : GM unit :=
  match o with
  | OpLogin me name dungeon raid e => Login me name dungeon raid e
  | OpLogout me requested => Logout me requested
  | OpEnv me e => upd_player me (λ p, set_env p e)
  | OpInvite me name => HandleGroupInvite me name
  | OpAccept me => HandleGroupAccept me
  | OpDecline me => HandleGroupDecline me
  | OpUninviteGuid me guid => HandleGroupUninviteGuid me guid
  | OpUninvite me name => HandleGroupUninvite me name
  | OpSetLeader me guid => HandleGroupSetLeader me guid
  | OpDisband me => HandleGroupDisband me
  | OpLootMethod me m master threshold => HandleLootMethod me m master threshold
  | OpLootRoll me guid choice => HandleLootRoll me guid choice
  | OpTarget me x guid ok => HandleRaidTargetUpdate me x guid ok
  | OpRaidConvert me => HandleGroupRaidConvert me
  | OpChangeSubGroup me name n => HandleGroupChangeSubGroup me name n
  | OpAssistant me guid apply => HandleGroupAssistantLeader me guid apply
  | OpAssign me assignment apply guid => HandlePartyAssignment me assignment apply guid
  | OpLfgGroup grp players difficulty => MakeNewGroup grp players difficulty
  | OpLfgKick group victim => _ ← RemoveMember group victim GROUP_REMOVEMETHOD_KICK_LFG 0; skip
  | OpNewLoot l q n => new_loot (mkLoot l q n)
  | OpRollLoot needFirst group loot allowed near => roll_all needFirst group loot allowed near
  | OpMasterLoot loot => MasterLoot loot
  | OpClearLoot loot => clear_loot loot
  | OpEndRoll group loot => EndRoll group loot
  | OpLooter group near ifneed => UpdateLooterGuid group near ifneed
  end.

(** The server after its start: nobody is connected and there are no groups. *)
Definition new_world (s : rng) : World := mkWorld ∅ ∅ ∅ 1 1 1 [] ∅ 1 s [] [].

End handlers.

End GroupHandlers.
