(* ===== verification/GroupLocal.v ===== *)
(** * What holds of every single group

    [group_ok]: the subgroup counters of a raid count its members, no party or subgroup
    has more than five, a target carries one icon, and there is one main tank and one
    main assistant. Every operation of GroupHandlers keeps it for all groups. *)
From S2P Require Import Prelude StateMonad Multimap GroupData GroupLoot Groups GroupHandlers.

Module GroupLocal.
Export GroupHandlers.

(** ** Running the primitives *)
Section run.
Context {RND : Random}.

Lemma group_at_Ok a w g w' : group_at a w = Ok (g, w') → groups w !! a = Some g ∧ w' = w.
Proof.
  unfold group_at. intros (w1 & m & E & H)%bind_Ok. injection E as <- <-.
  apply lift_Ok in H as [E ->]. destruct (groups w !! a); [|done]. by injection E as ->.
Qed.
Lemma player_at_Ok a w p w' : player_at a w = Ok (p, w') → players w !! a = Some p ∧ w' = w.
Proof.
  unfold player_at. intros (w1 & m & E & H)%bind_Ok. injection E as <- <-.
  apply lift_Ok in H as [E ->]. destruct (players w !! a); [|done]. by injection E as ->.
Qed.
Lemma upd_group_Ok a f w u w' :
  upd_group a f w = Ok (u, w') →
  ∃ g, groups w !! a = Some g ∧ w' = set_groups w (<[a := f g]> (groups w)).
Proof.
  unfold upd_group. intros (g & m & [Hg ->]%group_at_Ok & H)%bind_Ok. injection H as _ <-. eauto.
Qed.
Lemma upd_player_Ok a f w u w' :
  upd_player a f w = Ok (u, w') →
  ∃ p, players w !! a = Some p ∧ w' = set_players w (<[a := f p]> (players w)).
Proof.
  unfold upd_player. intros (g & m & [Hg ->]%player_at_Ok & H)%bind_Ok. injection H as _ <-. eauto.
Qed.
End run.

(** [run_inv] for these. *)
Ltac grun :=
  repeat (run_inv;
  match goal with
  | H : group_at _ _ = Ok _ |- _ => apply group_at_Ok in H as [? ->]
  | H : player_at _ _ = Ok _ |- _ => apply player_at_Ok in H as [? ->]
  | H : upd_group _ _ _ = Ok _ |- _ => apply upd_group_Ok in H as (? & ? & ->)
  | H : upd_player _ _ _ = Ok _ |- _ => apply upd_player_Ok in H as (? & ? & ->)
  end); run_inv.

(** ** The invariant *)

Definition in_sub (n : Z) (s : MemberSlot) : bool := s_group s =? n.
(** How many members are in subgroup [n]. *)
Definition count_sub (l : list MemberSlot) (n : Z) : Z := Z.of_nat (length (filter (λ s, s_group s = n) l)).
Definition flagged (f : Z) (l : list MemberSlot) : nat := length (filter (λ s, s_flags s .& f = true) l).

Definition subgroups_ok (g : Group) : Prop :=
  match m_subGroupsCounts g with
  | None => isRaidGroup g = false ∧ Forall (λ s, s_group s = 0) (m_memberSlots g)
  | Some cs =>
    isRaidGroup g = true ∧ length cs = 8%nat ∧ Forall (λ s, 0 ≤ s_group s < 8) (m_memberSlots g) ∧
    ∀ n, 0 ≤ n < 8 → cs !! Z.to_nat n = Some (u8 (count_sub (m_memberSlots g) n))
  end.
(** Groups of the dungeon finder are filled without looking at their size. *)
Definition bounded (g : Group) : Prop :=
  isLFGGroup g = false →
  if isRaidGroup g then ∀ n, 0 ≤ n < 8 → count_sub (m_memberSlots g) n ≤ MAXGROUPSIZE
  else GetMembersCount g ≤ MAXGROUPSIZE.
Definition icons_ok (g : Group) : Prop :=
  length (m_targetIcons g) = 8%nat ∧
  ∀ i j t, t ≠ 0 → m_targetIcons g !! i = Some t → m_targetIcons g !! j = Some t → i = j.

Record group_ok (g : Group) : Prop := mkGroupOk {
  go_plain : m_bgGroup g = None ∧ m_bfGroup g = None;
  go_sub : subgroups_ok g;
  go_bounded : bounded g;
  go_icons : icons_ok g;
  go_tank : (flagged MEMBER_FLAG_MAINTANK (m_memberSlots g) ≤ 1)%nat;
  go_assist : (flagged MEMBER_FLAG_MAINASSIST (m_memberSlots g) ≤ 1)%nat
}.

Section local.
Context {RND : Random} {LV : LootEnv} {GE : GroupEnv}.

(** All groups are in order, but for those at the addresses [X]. *)
Definition ok_but (X : gset Z) (w : World) : Prop :=
  ∀ a g, a ∉ X → groups w !! a = Some g → group_ok g.
Abbreviation all_ok := (ok_but ∅).
Definition local (X : gset Z) (w w' : World) : Prop := ok_but X w → ok_but X w'.
#[export] Instance local_pre X : PreOrder (local X).
Proof. split; unfold local; [by intros ?|intros ? ? ?; auto]. Qed.

Lemma ok_insert X w a g :
  ok_but X w → (a ∉ X → group_ok g) → ok_but X (set_groups w (<[a := g]> (groups w))).
Proof. intros H Hg b g' Hb Hl. cbn in Hl. revert Hl. intros [[<- <-]|[_ Hg']]%lookup_insert_Some; [by apply Hg|by apply (H b)]. Qed.

Lemma local_upd X a f : (∀ g, group_ok g → group_ok (f g)) → keeps (local X) (upd_group a f).
Proof.
  intros Hf w u w' (g & Hg & ->)%upd_group_Ok Hok. apply ok_insert; [done|].
  intros Ha. by apply Hf, (Hok a).
Qed.
Lemma local_group_at X a : keeps (local X) (group_at a).
Proof. intros w g w' [_ ->]%group_at_Ok. reflexivity. Qed.
Lemma local_player_at X a : keeps (local X) (player_at a).
Proof. intros w g w' [_ ->]%player_at_Ok. reflexivity. Qed.

(** ** Every group after is a group before, changed by [R] *)

Definition groupwise (R : Group → Group → Prop) (w w' : World) : Prop :=
  ∀ a g', groups w' !! a = Some g' → ∃ g, groups w !! a = Some g ∧ R g g'.
#[export] Instance groupwise_pre R `{!PreOrder R} : PreOrder (groupwise R).
Proof.
  split; [intros w a g Hg; by exists g|]. intros w w' w'' H1 H2 a g'' Hg''.
  destruct (H2 a g'' Hg'') as (g' & Hg' & HR'). destruct (H1 a g' Hg') as (g & Hg & HR).
  exists g. split; [done|by etransitivity].
Qed.

(** Fields the invariant does not look at. *)
Record same_core (g g' : Group) : Prop := mkCore {
  sc_slots : m_memberSlots g' = m_memberSlots g;
  sc_counts : m_subGroupsCounts g' = m_subGroupsCounts g;
  sc_type : m_groupType g' = m_groupType g;
  sc_icons : m_targetIcons g' = m_targetIcons g;
  sc_bg : m_bgGroup g' = m_bgGroup g;
  sc_bf : m_bfGroup g' = m_bfGroup g
}.
#[export] Instance same_core_pre : PreOrder same_core.
Proof. split; [by intros ?|]. intros ??? [] []. split; congruence. Qed.
Abbreviation quiet := (groupwise same_core).

Lemma core_ok g g' : same_core g g' → group_ok g → group_ok g'.
Proof.
  intros [E1 E2 E3 E4 E5 E6] [H1 H2 H3 H4 H5 H6].
  split; unfold subgroups_ok, bounded, icons_ok, isRaidGroup, isLFGGroup, GetMembersCount in *;
    by rewrite ?E1, ?E2, ?E3, ?E4, ?E5, ?E6.
Qed.

Lemma groupwise_upd R `{!Reflexive R} a f : (∀ g, R g (f g)) → keeps (groupwise R) (upd_group a f).
Proof.
  intros Hf w u w' (g & Hg & ->)%upd_group_Ok b g' Hb. cbn in Hb.
  apply lookup_insert_Some in Hb as [[<- <-]|[_ Hb]]; eauto.
Qed.
Lemma groupwise_modify R `{!Reflexive R} f : (∀ w, groups (f w) = groups w) → keeps (groupwise R) (modify f).
Proof. intros Hf w u w' [-> ->]%modify_Ok b g Hb. rewrite Hf in Hb. eauto. Qed.

(** A quiet operation keeps every relation that holds of the fields it leaves alone. *)
Lemma quiet_groupwise {A} R (k : GM A) :
  (∀ g g', same_core g g' → R g g') → keeps quiet k → keeps (groupwise R) k.
Proof. intros HR H w x w' E a g' Hg'. destruct (H _ _ _ E a g' Hg') as (g & Hg & Hs). eauto. Qed.
Lemma groupwise_local {A} R X (k : GM A) :
  (∀ g g', R g g' → group_ok g → group_ok g') → keeps (groupwise R) k → keeps (local X) k.
Proof.
  intros HR H w x w' E Hok b g' Hb Hg'. destruct (H _ _ _ E b g' Hg') as (g & Hg & Hs).
  eapply HR; [done|]. by apply (Hok b).
Qed.
Lemma quiet_local {A} X (k : GM A) : keeps quiet k → keeps (local X) k.
Proof. apply groupwise_local, core_ok. Qed.

Lemma quiet_group_at a : keeps quiet (group_at a).
Proof. intros w g w' [_ ->]%group_at_Ok. reflexivity. Qed.
Lemma quiet_player_at a : keeps quiet (player_at a).
Proof. intros w g w' [_ ->]%player_at_Ok. reflexivity. Qed.
Lemma quiet_upd_player a f : keeps quiet (upd_player a f).
Proof. intros w u w' (p & _ & ->)%upd_player_Ok b g Hb. by exists g. Qed.
Lemma quiet_tell e : keeps quiet (tell e).
Proof. by apply groupwise_modify; [apply _|]. Qed.
Lemma quiet_Execute s : keeps quiet (Execute s).
Proof. by apply groupwise_modify; [apply _|]. Qed.

End local.
Abbreviation quiet := (groupwise same_core).

Create HintDb local.
Create HintDb quiet.
#[export] Hint Resolve quiet_group_at quiet_player_at quiet_upd_player quiet_tell quiet_Execute : quiet.

Ltac quiet_leaf :=
  idtac; match goal with
  | |- keeps quiet (upd_group _ _) => apply groupwise_upd; [apply _|intros ?; solve [repeat case_match; by split]]
  | |- keeps quiet (modify _) => apply groupwise_modify; [apply _|intros ?; solve [repeat case_match; reflexivity]]
  | _ => solve [auto with quiet]
  end.
Ltac quiet_solve := repeat keeps_step quiet_leaf.
Ltac local_leaf := idtac; first [solve [auto with local] | apply quiet_local; quiet_leaf].
Ltac local_solve := repeat keeps_step local_leaf.

Section quiet_ops.
Context {RND : Random} {LV : LootEnv} {GE : GroupEnv}.

(** ** Operations that do not touch members, counters or icons *)

Lemma quiet_upd_loot l f : keeps quiet (upd_loot l f).
Proof. unfold upd_loot, loot_at. quiet_solve. Qed.
Lemma quiet_loot_at l : keeps quiet (loot_at l).
Proof. unfold loot_at. quiet_solve. Qed.
Lemma quiet_SetGroupInvite p g : keeps quiet (SetGroupInvite p g).
Proof. apply quiet_upd_player. Qed.
Lemma quiet_unlink p k : keeps quiet (unlink p k).
Proof. unfold unlink. quiet_solve. Qed.
#[local] Hint Resolve quiet_upd_loot quiet_loot_at quiet_SetGroupInvite quiet_unlink : quiet.
Lemma quiet_link p k a n : keeps quiet (link p k a n).
Proof. unfold link. quiet_solve. Qed.
#[local] Hint Resolve quiet_link : quiet.
Lemma quiet_SetRef k p a n : keeps quiet (SetRef k p a n).
Proof. unfold SetRef. quiet_solve. Qed.
#[local] Hint Resolve quiet_SetRef : quiet.
Lemma quiet_SetGroupRef p a n : keeps quiet (SetGroup p a n).
Proof. apply quiet_SetRef. Qed.
Lemma quiet_SetOriginalGroup p a n : keeps quiet (SetOriginalGroup p a n).
Proof. apply quiet_SetRef. Qed.
#[local] Hint Resolve quiet_SetGroupRef quiet_SetOriginalGroup : quiet.
Lemma quiet_SetBGRaid p a n : keeps quiet (SetBattlegroundOrBattlefieldRaid p a n).
Proof. unfold SetBattlegroundOrBattlefieldRaid. quiet_solve. Qed.
Lemma quiet_RemoveBGRaid p : keeps quiet (RemoveFromBattlegroundOrBattlefieldRaid p).
Proof. unfold RemoveFromBattlegroundOrBattlefieldRaid. quiet_solve. Qed.
#[local] Hint Resolve quiet_SetBGRaid quiet_RemoveBGRaid : quiet.

Lemma quiet_destroy a : keeps quiet (delete_group a).
Proof.
  unfold delete_group. quiet_solve. intros w u w' [-> ->]%modify_Ok b g Hg. cbn in Hg.
  apply lookup_delete_Some in Hg as [_ Hg]. by exists g.
Qed.
Lemma no_group_ok : group_ok no_group.
Proof.
  assert (icons_ok no_group).
  { split; [done|]. intros i j t Ht Hi _. by apply lookup_replicate_1 in Hi as [-> _]. }
  split; [done|by split|done|done|cbn; lia|cbn; lia].
Qed.
Lemma local_new_group X : keeps (local X) new_group.
Proof.
  unfold new_group. local_solve. intros w u w' [-> ->]%modify_Ok Hok.
  apply (ok_insert X w); [done|]. intros _. apply no_group_ok.
Qed.
#[local] Hint Resolve quiet_destroy : quiet.

Lemma quiet_RemoveInvite a p : keeps quiet (RemoveInvite a p).
Proof. unfold RemoveInvite. quiet_solve. Qed.
#[local] Hint Resolve quiet_RemoveInvite : quiet.
Lemma quiet_AddInvite a p : keeps quiet (AddInvite a p).
Proof. unfold AddInvite. quiet_solve. Qed.
#[local] Hint Resolve quiet_AddInvite : quiet.
Lemma quiet_AddLeaderInvite a p : keeps quiet (AddLeaderInvite a p).
Proof. unfold AddLeaderInvite. quiet_solve. Qed.
Lemma quiet_RemoveAllInvites a : keeps quiet (RemoveAllInvites a).
Proof. unfold RemoveAllInvites. quiet_solve. Qed.
Lemma quiet_GenerateGroupId : keeps quiet GenerateGroupId.
Proof. unfold GenerateGroupId. quiet_solve. Qed.
Lemma quiet_GenerateDb : keeps quiet GenerateNewGroupDbStoreId.
Proof. unfold GenerateNewGroupDbStoreId. quiet_solve. Qed.
Lemma quiet_Register n a : keeps quiet (RegisterGroupDbStoreId n a).
Proof. unfold RegisterGroupDbStoreId. quiet_solve. Qed.
Lemma quiet_Free n : keeps quiet (FreeGroupDbStoreId n).
Proof. unfold FreeGroupDbStoreId. quiet_solve. Qed.
Lemma quiet_AddGroup a : keeps quiet (AddGroup a).
Proof. unfold AddGroup. quiet_solve. Qed.
Lemma quiet_RemoveGroup a : keeps quiet (RemoveGroup a).
Proof. unfold RemoveGroup. quiet_solve. Qed.
Lemma quiet_ResetMax a : keeps quiet (ResetMaxEnchantingLevel a).
Proof. unfold ResetMaxEnchantingLevel. quiet_solve. Qed.
Lemma quiet_DelinkMember a p : keeps quiet (DelinkMember a p).
Proof. unfold DelinkMember. quiet_solve. Qed.
Lemma quiet_leave_reference a p g : keeps quiet (leave_reference a p g).
Proof. unfold leave_reference. quiet_solve. Qed.
Lemma quiet_take_difficulties a p : keeps quiet (take_difficulties a p).
Proof. unfold take_difficulties. quiet_solve. Qed.
Lemma quiet_sessions_set a f : keeps quiet (sessions_set a f).
Proof. unfold sessions_set. quiet_solve. Qed.
#[local] Hint Resolve quiet_AddLeaderInvite quiet_RemoveAllInvites quiet_GenerateGroupId quiet_GenerateDb quiet_Register
  quiet_Free quiet_AddGroup quiet_RemoveGroup quiet_ResetMax quiet_DelinkMember quiet_leave_reference
  quiet_take_difficulties quiet_sessions_set : quiet.
Lemma quiet_SetDungeonDifficulty a d : keeps quiet (SetDungeonDifficulty a d).
Proof. unfold SetDungeonDifficulty. quiet_solve. Qed.

(** Loot. *)
Lemma quiet_voters a al ne b r : keeps quiet (voters a al ne b r).
Proof. unfold voters. quiet_solve. Qed.
Lemma quiet_new_item_guid : keeps quiet new_item_guid.
Proof. unfold new_item_guid. quiet_solve. Qed.
Lemma quiet_tell_passes r : keeps quiet (tell_passes r).
Proof. unfold tell_passes. quiet_solve. Qed.
#[local] Hint Resolve quiet_voters quiet_new_item_guid quiet_tell_passes : quiet.
Lemma quiet_start_roll a l n m r : keeps quiet (start_roll a l n m r).
Proof. unfold start_roll. quiet_solve. Qed.
#[local] Hint Resolve quiet_start_roll : quiet.
Lemma quiet_roll_all b a l al ne : keeps quiet (roll_all b a l al ne).
Proof. unfold roll_all, roll_item, roll_quest_item. quiet_solve. Qed.
Lemma quiet_MasterLoot l : keeps quiet (MasterLoot l).
Proof. apply quiet_upd_loot. Qed.
Lemma quiet_roll_best need item best l : keeps quiet (roll_best need item best l).
Proof. revert best. induction l as [|v l IH]; intros best; cbn; [|unfold roll_dice]; quiet_solve. Qed.
#[local] Hint Resolve quiet_roll_best : quiet.
Lemma quiet_give_item r l p : keeps quiet (give_item r l p).
Proof. unfold give_item. quiet_solve. Qed.
Lemma quiet_disenchant_item r l p : keeps quiet (disenchant_item r l p).
Proof. unfold disenchant_item. quiet_solve. Qed.
#[local] Hint Resolve quiet_give_item quiet_disenchant_item : quiet.
Lemma quiet_award need r l : keeps quiet (award need r l).
Proof. unfold award. quiet_solve. Qed.
Lemma quiet_erase_roll a k : keeps quiet (erase_roll a k).
Proof. unfold erase_roll. quiet_solve. Qed.
#[local] Hint Resolve quiet_award quiet_erase_roll : quiet.
Lemma quiet_CountTheRoll a k : keeps quiet (CountTheRoll a k).
Proof. unfold CountTheRoll. quiet_solve. Qed.
#[local] Hint Resolve quiet_CountTheRoll : quiet.
Lemma quiet_CountRollVote a p i c : keeps quiet (CountRollVote a p i c).
Proof. unfold CountRollVote. quiet_solve. Qed.
#[local] Hint Resolve quiet_CountRollVote : quiet.
Lemma quiet_EndRoll a l : keeps quiet (EndRoll a l).
Proof.
  unfold EndRoll. keeps_step quiet_leaf; [quiet_solve|]. generalize (S (length (RollId a0))) as n.
  induction n as [|n IH]; cbn; quiet_solve.
Qed.
Lemma quiet_leave_roll a p k : keeps quiet (leave_roll a p k).
Proof. unfold leave_roll. quiet_solve. Qed.
Lemma quiet_clear_loot l : keeps quiet (clear_loot l).
Proof.
  unfold clear_loot. quiet_solve. intros w u w' [-> ->]%modify_Ok b g Hg. cbn in Hg.
  apply lookup_fmap_Some in Hg as (g0 & <- & Hg0). exists g0. by split.
Qed.
Lemma quiet_UpdateLooterGuid a ne b : keeps quiet (UpdateLooterGuid a ne b).
Proof. unfold UpdateLooterGuid. quiet_solve. Qed.
Lemma quiet_new_loot l : keeps quiet (new_loot l).
Proof. unfold new_loot. quiet_solve. Qed.
End quiet_ops.

#[export] Hint Resolve quiet_upd_loot quiet_loot_at quiet_SetGroupInvite quiet_unlink quiet_link quiet_SetRef
  quiet_SetGroupRef quiet_SetOriginalGroup quiet_SetBGRaid quiet_RemoveBGRaid quiet_destroy
  quiet_RemoveInvite quiet_AddInvite quiet_AddLeaderInvite quiet_RemoveAllInvites quiet_GenerateGroupId
  quiet_GenerateDb quiet_Register quiet_Free quiet_AddGroup quiet_RemoveGroup quiet_ResetMax quiet_DelinkMember
  quiet_leave_reference quiet_take_difficulties quiet_sessions_set quiet_SetDungeonDifficulty quiet_roll_all
  quiet_MasterLoot quiet_CountRollVote quiet_EndRoll quiet_leave_roll quiet_clear_loot quiet_UpdateLooterGuid
  quiet_new_loot : quiet.
#[export] Hint Resolve local_new_group : local.

End GroupLocal.
