(* ===== verification/GroupMembers.v ===== *)
(** * The members of a group and its counters

    The operations that change the member list keep [group_ok]; with GroupLocal, so does
    every request, in every history. *)
From S2P Require Import Prelude StateMonad Multimap GroupData GroupLoot Groups GroupHandlers GroupLocal.

Module GroupMembers.
Export GroupLocal.

(** ** The member list *)

Lemma find_slot_split (l : list MemberSlot) guid i s :
  list_find (λ s, s_guid s = guid) l = Some (i, s) →
  ∃ l1 l2, l = l1 ++ s :: l2 ∧ length l1 = i ∧ s_guid s = guid ∧ Forall (λ s, s_guid s ≠ guid) l1.
Proof.
  intros (Hi & Hs & Hlt)%list_find_Some. exists (take i l), (drop (S i) l).
  assert (i < length l)%nat by (by eapply lookup_lt_Some). split; [symmetry; by apply take_drop_middle|].
  rewrite length_take. split; [lia|]. split; [done|]. apply Forall_lookup. intros j x Hj.
  apply lookup_take_Some in Hj as [Hj Hlt']. by apply (Hlt j x).
Qed.

(** The slot of a member, and the list around it. *)
Inductive slot_at (guid : Z) (l : list MemberSlot) : option MemberSlot → Prop :=
| slot_none : Forall (λ s, s_guid s ≠ guid) l → slot_at guid l None
| slot_some l1 s l2 : l = l1 ++ s :: l2 → s_guid s = guid → Forall (λ s, s_guid s ≠ guid) l1 →
    (∀ f, upd_slot guid f l = l1 ++ f s :: l2) → erase_slot guid l = l1 ++ l2 → slot_at guid l (Some s).

Lemma getMemberSlot_at g guid : slot_at guid (m_memberSlots g) (getMemberSlot g guid).
Proof.
  unfold getMemberSlot. destruct (list_find _ _) as [[i s]|] eqn:E; cbn.
  - destruct (find_slot_split _ _ _ _ E) as (l1 & l2 & Hl & Hi & Hs & Hn).
    econstructor; [exact Hl|done|done| |].
    + intros f. unfold upd_slot. rewrite E, Hl. subst i.
      by rewrite insert_app_r_alt, Nat.sub_diag by lia.
    + unfold erase_slot. rewrite E, Hl. subst i. by rewrite delete_middle.
  - constructor. apply list_find_None in E. done.
Qed.

Lemma upd_slot_none guid f l : Forall (λ s, s_guid s ≠ guid) l → upd_slot guid f l = l.
Proof.
  intros H. unfold upd_slot. destruct (list_find _ _) as [[i s]|] eqn:E; [|done].
  apply list_find_Some in E as (Hi & Hs & _). rewrite Forall_lookup in H. by destruct (H i s Hi).
Qed.

Section counting.
Implicit Types l : list MemberSlot.

Lemma count_sub_app l1 l2 n : count_sub (l1 ++ l2) n = count_sub l1 n + count_sub l2 n.
Proof. unfold count_sub. rewrite filter_app, length_app. lia. Qed.
Lemma count_sub_cons s l n : count_sub (s :: l) n = (if s_group s =? n then 1 else 0) + count_sub l n.
Proof.
  unfold count_sub. destruct (Z.eqb_spec (s_group s) n).
  - rewrite filter_cons_True by done. cbn. lia.
  - by rewrite filter_cons_False by done.
Qed.
Lemma count_sub_range l n : 0 ≤ count_sub l n ≤ Z.of_nat (length l).
Proof. unfold count_sub. split; [lia|]. apply inj_le. apply length_filter. Qed.
Lemma count_sub_perm l l' n : l ≡ₚ l' → count_sub l n = count_sub l' n.
Proof. intros H. unfold count_sub. by rewrite H. Qed.
Lemma count_sub_map (f : MemberSlot → MemberSlot) l n :
  (∀ s, s_group (f s) = s_group s) → count_sub (f <$> l) n = count_sub l n.
Proof. intros Hf. induction l as [|s l IH]; [done|]. rewrite fmap_cons, !count_sub_cons, Hf. lia. Qed.

Lemma flagged_app f l1 l2 : flagged f (l1 ++ l2) = (flagged f l1 + flagged f l2)%nat.
Proof. unfold flagged. by rewrite filter_app, length_app. Qed.
Lemma flagged_cons f s l : flagged f (s :: l) = ((if s_flags s .& f then 1 else 0) + flagged f l)%nat.
Proof.
  unfold flagged. destruct (s_flags s .& f) eqn:E.
  - by rewrite filter_cons_True by done.
  - by rewrite filter_cons_False by (by rewrite E).
Qed.
Lemma flagged_perm f l l' : l ≡ₚ l' → flagged f l = flagged f l'.
Proof. intros H. unfold flagged. by rewrite H. Qed.
Lemma flagged_map f (h : MemberSlot → MemberSlot) l :
  (∀ s, s_flags (h s) .& f = s_flags s .& f) → flagged f (h <$> l) = flagged f l.
Proof. intros Hh. induction l as [|s l IH]; [done|]. rewrite fmap_cons, !flagged_cons, Hh. lia. Qed.
Lemma flagged_none f (h : MemberSlot → MemberSlot) l :
  (∀ s, s_flags (h s) .& f = false) → flagged f (h <$> l) = 0%nat.
Proof. intros Hh. induction l as [|s l IH]; [done|]. rewrite fmap_cons, !flagged_cons, Hh. lia. Qed.

Lemma sort_by_roles_perm l : sort_by_roles l ≡ₚ l.
Proof.
  unfold sort_by_roles.
  assert (∀ acc, (foldl (λ acc s, mm_insert (s_roles s) s acc) acc l).*2 ≡ₚ acc.*2 ++ l) as H.
  { induction l as [|s l IH]; intros acc; cbn; [by rewrite app_nil_r|].
    rewrite IH, mm_insert_Permutation. cbn. by rewrite Permutation_middle. }
  by rewrite H.
Qed.
End counting.

(** ** The counters *)

(** [cs] counts by [c]. *)
Definition counted (cs : list Z) (c : Z → Z) : Prop :=
  length cs = 8%nat ∧ ∀ n, 0 ≤ n < 8 → cs !! Z.to_nat n = Some (u8 (c n)).

Lemma counted_ext cs c c' : (∀ n, 0 ≤ n < 8 → c n = c' n) → counted cs c → counted cs c'.
Proof. intros H [Hl Hc]. split; [done|]. intros n Hn. by rewrite <- H by done; apply Hc. Qed.

Lemma count_at_Ok cs n d cs' c :
  counted cs c → count_at cs n d = Ok cs' →
  0 ≤ n < 8 ∧ counted cs' (λ k, c k + if k =? n then d else 0).
Proof.
  intros [Hl Hc] H. unfold count_at in H. destruct (cs !! Z.to_nat n) as [x|] eqn:Ex; [|done].
  destruct (Z.leb_spec 0 n); [|done]. injection H as <-.
  pose proof (lookup_lt_Some _ _ _ Ex) as Hlt. assert (0 ≤ n < 8) as Hn by lia.
  split; [done|]. split; [by rewrite length_insert|]. intros k Hk.
  destruct (Z.eqb_spec k n) as [->|Hne].
  - rewrite list_lookup_insert_eq by lia. rewrite Hc in Ex by done. injection Ex as <-.
    by rewrite wrap_add_l.
  - rewrite list_lookup_insert_ne by lia. rewrite Z.add_0_r. by apply Hc.
Qed.

Lemma count_slots_Ok l cs cs' c :
  counted cs c → count_slots cs l = Ok cs' →
  Forall (λ s, 0 ≤ s_group s < 8) l ∧ counted cs' (λ k, c k + count_sub l k).
Proof.
  revert cs c. induction l as [|s l IH]; cbn; intros cs c Hc H.
  - injection H as <-. split; [constructor|]. eapply counted_ext, Hc. intros k _.
    unfold count_sub. cbn. lia.
  - destruct (count_at cs (s_group s) 1) as [cs1| | | |] eqn:E; try done. cbn in H.
    destruct (count_at_Ok _ _ _ _ _ Hc E) as [Hs H1]. destruct (IH _ _ H1 H) as [Hl H2].
    split; [by constructor|]. eapply counted_ext, H2. intros k _. rewrite count_sub_cons. cbv beta.
    rewrite (Z.eqb_sym k). lia.
Qed.

Lemma counted_zero : counted (replicate (Z.to_nat MAX_RAID_SUBGROUPS) 0) (λ _, 0).
Proof.
  split; [done|]. intros n Hn. apply lookup_replicate_2.
  change (Z.to_nat MAX_RAID_SUBGROUPS) with 8%nat. lia.
Qed.

Section members.
Context {RND : Random} {LV : LootEnv} {GE : GroupEnv}.

Lemma change_count_Ok a n d w u w' g :
  change_count a n d w = Ok (u, w') → groups w !! a = Some g →
  match m_subGroupsCounts g with
  | None => w' = w
  | Some cs => ∃ cs', count_at cs n d = Ok cs' ∧
      w' = set_groups w (<[a := set_m_subGroupsCounts g (Some cs')]> (groups w))
  end.
Proof.
  unfold change_count. intros (g' & m & [Hg' ->]%group_at_Ok & H)%bind_Ok Hg.
  rewrite Hg in Hg'. injection Hg' as <-. destruct (m_subGroupsCounts g) as [cs|]; [|by injection H as _ <-].
  apply bind_Ok in H as (cs' & m & [E ->]%lift_Ok & (g' & Hg' & ->)%upd_group_Ok).
  rewrite Hg in Hg'. injection Hg' as <-. eauto.
Qed.

(** ** Icons *)

Lemma icons_replaced g l :
  group_ok g → length l = 8%nat →
  (∀ i j t, t ≠ 0 → l !! i = Some t → l !! j = Some t → i = j) → group_ok (set_m_targetIcons g l).
Proof. intros [H1 H2 H3 H4 H5 H6] Hl Hu. split; [exact H1|exact H2|exact H3|by split|exact H5|exact H6]. Qed.

Lemma local_reset_icons X a :
  keeps (local X) (upd_group a (λ g, set_m_targetIcons g (replicate (Z.to_nat TARGETICONCOUNT) 0))).
Proof.
  apply local_upd. intros g Hg. apply icons_replaced; [done..|].
  intros i j t Ht Hi _. by apply lookup_replicate_1 in Hi as [-> _].
Qed.
#[local] Hint Resolve local_reset_icons : local.

Lemma put_icon_ok g k t :
  group_ok g → t = 0 ∨ (∀ i, m_targetIcons g !! i ≠ Some t) →
  group_ok (set_m_targetIcons g (<[k := t]> (m_targetIcons g))).
Proof.
  intros Hg Ht. destruct (go_icons g Hg) as [Hl Hu]. apply icons_replaced; [done|by rewrite length_insert|].
  intros i j x Hx Hi Hj.
  apply list_lookup_insert_Some in Hi as [(<- & <- & Hlt)|[Hik Hi]];
    apply list_lookup_insert_Some in Hj as [(<- & Hjx & _)|[Hjk Hj]]; try done.
  - destruct Ht as [->|Ht]; [done|]. by destruct (Ht j).
  - subst t. destruct Ht as [->|Ht]; [done|]. by destruct (Ht i).
  - by eapply Hu.
Qed.
Lemma local_put_icon0 X a k : keeps (local X) (put_icon a k 0).
Proof. apply local_upd. intros g Hg. apply put_icon_ok; [done|by left]. Qed.

(** The loop takes the target off every icon. *)
Lemma clear_icons a t w u w' :
  for_each (seqZ 0 TARGETICONCOUNT) (λ i,
    g ← group_at a; when (bool_decide (m_targetIcons g !! Z.to_nat i = Some t)) (put_icon a i 0)) w = Ok (u, w') →
  t ≠ 0 → ∀ g, groups w' !! a = Some g → length (m_targetIcons g) = 8%nat → ∀ i, m_targetIcons g !! i ≠ Some t.
Proof.
  intros H Ht.
  assert (∀ l w u w', for_each l (λ i, g ← group_at a;
            when (bool_decide (m_targetIcons g !! Z.to_nat i = Some t)) (put_icon a i 0)) w = Ok (u, w') →
          ∀ g', groups w' !! a = Some g' → ∃ g, groups w !! a = Some g ∧
            length (m_targetIcons g') = length (m_targetIcons g) ∧
            ∀ i, m_targetIcons g' !! i = Some t → m_targetIcons g !! i = Some t ∧ ¬ (∃ k, k ∈ l ∧ Z.to_nat k = i)) as Hl.
  { clear w u w' H. induction l as [|k l IH]; cbn; intros w u w' H g' Hg'.
    - injection H as _ <-. exists g'. split; [done|]. split; [done|]. intros i Hi. split; [done|]. set_solver.
    - apply bind_Ok in H as (u1 & w1 & E & H). apply bind_Ok in E as (g & m & [Hg ->]%group_at_Ok & E).
      destruct (IH _ _ _ H g' Hg') as (g1 & Hg1 & Hlen & Hno). exists g. split; [done|].
      destruct (bool_decide_reflect (m_targetIcons g !! Z.to_nat k = Some t)) as [Hk|Hk]; cbn in E.
      + apply upd_group_Ok in E as (g0 & Hg0 & ->). rewrite Hg in Hg0. injection Hg0 as <-.
        cbn in Hg1. rewrite lookup_insert_eq in Hg1. injection Hg1 as <-. cbn in Hlen, Hno.
        rewrite length_insert in Hlen. split; [done|]. intros i Hi. apply Hno in Hi as [Hi Hn].
        apply list_lookup_insert_Some in Hi as [(? & ? & ?)|[Hki Hi]]; [congruence|].
        split; [done|]. intros (k' & [->|Hk']%elem_of_cons & Ei); [done|]. eauto.
      + injection E as _ <-. rewrite Hg in Hg1. injection Hg1 as <-. split; [done|].
        intros i Hi. destruct (Hno i Hi) as [Hi' Hn]. split; [done|].
        intros (k' & [->|Hk']%elem_of_cons & Ei); [by subst i|]. eauto. }
  intros g Hg Hlen i Hi. destruct (Hl _ _ _ _ H g Hg) as (g0 & _ & _ & Hno). destruct (Hno i Hi) as [_ []].
  exists (Z.of_nat i). split; [|lia]. apply elem_of_seqZ. apply lookup_lt_Some in Hi. unfold TARGETICONCOUNT. lia.
Qed.

Lemma local_SetTargetIcon X a k t : keeps (local X) (SetTargetIcon a k t).
Proof.
  unfold SetTargetIcon. destruct (TARGETICONCOUNT <=? k); [apply keeps_skip, _|].
  destruct (Z.eqb_spec t 0) as [->|Ht].
  { apply keeps_bind; [apply _|apply keeps_skip, _|intros _; apply local_put_icon0]. }
  intros w u w' (u1 & w1 & H1 & H2)%bind_Ok Hok.
  assert (ok_but X w1) as Hok1.
  { revert H1 Hok. generalize w u1 w1.
    match goal with |- ∀ w ok w', ?k w = _ → _ => change (keeps (local X) k) end.
    local_solve. apply local_put_icon0. }
  apply upd_group_Ok in H2 as (g & Hg & ->). apply ok_insert; [done|]. intros Ha.
  pose proof (Hok1 a g Ha Hg) as Hgok. apply put_icon_ok; [done|]. right.
  eapply clear_icons; [exact H1|done|done|]. apply Hgok.
Qed.

(** ** Joining *)

Definition push (s : MemberSlot) (g : Group) : Group := set_m_memberSlots g (m_memberSlots g ++ [s]).
(** The new member's subgroup has room. *)
Definition pushable (s : MemberSlot) (g : Group) : Prop :=
  s_flags s = 0 ∧
  match m_subGroupsCounts g with
  | None => s_group s = 0 ∧ (isLFGGroup g = false → GetMembersCount g < MAXGROUPSIZE)
  | Some cs => ∃ x, cs !! Z.to_nat (s_group s) = Some x ∧ x < MAXGROUPSIZE
  end.

Lemma flagged_push f s l : s_flags s = 0 → flagged f (l ++ [s]) = flagged f l.
Proof.
  intros Hs. rewrite flagged_app, flagged_cons, Hs. unfold tst. rewrite Z.land_0_l. cbn.
  unfold flagged. cbn. lia.
Qed.

Lemma push_party g s :
  group_ok g → pushable s g → m_subGroupsCounts g = None → group_ok (push s g).
Proof.
  intros [H1 H2 H3 H4 H5 H6] [Hf Hp] E. rewrite E in Hp. destruct Hp as [Hs Hlt].
  unfold subgroups_ok in H2. rewrite E in H2. destruct H2 as [Hr Hall].
  unfold push. split; cbn [m_memberSlots set_m_memberSlots set_m_subGroupsCounts]; rewrite ?flagged_push by done;
    [exact H1| | |exact H4|exact H5|exact H6].
  - unfold subgroups_ok. cbn. rewrite E. split; [done|]. by rewrite Forall_app, Forall_singleton.
  - intros HL. change (isLFGGroup g = false) in HL. match goal with |- if ?b then _ else _ => change b with (isRaidGroup g) end.
    rewrite Hr. unfold GetMembersCount in *. cbn. rewrite length_app. cbn. specialize (Hlt HL). lia.
Qed.

Lemma push_raid g s cs cs' :
  group_ok g → pushable s g → m_subGroupsCounts g = Some cs → count_at cs (s_group s) 1 = Ok cs' →
  group_ok (set_m_subGroupsCounts (push s g) (Some cs')).
Proof.
  intros [H1 H2 H3 H4 H5 H6] [Hf Hp] E Hcs. rewrite E in Hp. destruct Hp as (x & Hx & Hlt).
  unfold subgroups_ok in H2. rewrite E in H2. destruct H2 as (Hr & Hl & Hall & Hc).
  destruct (count_at_Ok cs (s_group s) 1 cs' (count_sub (m_memberSlots g))) as [Hs [Hl' Hc']]; [by split|done|].
  unfold push. split; cbn [m_memberSlots set_m_memberSlots set_m_subGroupsCounts]; rewrite ?flagged_push by done;
    [exact H1| | |exact H4|exact H5|exact H6].
  - unfold subgroups_ok. cbn. repeat split; [done|done| |].
    + rewrite Forall_app, Forall_singleton. by split.
    + intros n Hn. rewrite Hc' by done. do 2 f_equal. rewrite count_sub_app, count_sub_cons.
      unfold count_sub at 3. cbn. rewrite (Z.eqb_sym n). lia.
  - intros HL. change (isLFGGroup g = false) in HL. match goal with |- if ?b then _ else _ => change b with (isRaidGroup g) end.
    rewrite Hr. intros n Hn. cbn. specialize (H3 HL). rewrite Hr in H3. specialize (H3 n Hn).
    rewrite count_sub_app, count_sub_cons. unfold count_sub at 2. cbn.
    destruct (Z.eqb_spec (s_group s) n) as [<-|]; [|lia]. rewrite Hc in Hx by done. injection Hx as <-.
    pose proof (count_sub_range (m_memberSlots g) (s_group s)). unfold MAXGROUPSIZE in *.
    rewrite wrap_small in Hlt by (unfold in_u; lia). lia.
Qed.

(** Everything may happen to the group at [a] while it is left aside. *)
Lemma local_free X a f : keeps (local ({[a]} ∪ X)) (upd_group a f).
Proof. intros w u w' (g & Hg & ->)%upd_group_Ok Hok. apply ok_insert; [done|]. set_solver. Qed.
Lemma ok_weaken X Y w : X ⊆ Y → ok_but X w → ok_but Y w.
Proof. intros HX Hok b g Hb. apply Hok. set_solver. Qed.
Lemma ok_close X a w :
  ok_but ({[a]} ∪ X) w → (∀ g, groups w !! a = Some g → a ∉ X → group_ok g) → ok_but X w.
Proof.
  intros Hok Ha b g Hb Hg. destruct (decide (b = a)) as [->|]; [by apply Ha|].
  apply (Hok b); [set_solver|done].
Qed.

Lemma push_slot X a s w u1 w1 u2 w2 :
  upd_group a (push s) w = Ok (u1, w1) → SubGroupCounterIncrease a (s_group s) w1 = Ok (u2, w2) →
  (∀ g, groups w !! a = Some g → a ∉ X → pushable s g) → ok_but X w → ok_but X w2.
Proof.
  intros (g & Hg & ->)%upd_group_Ok H2 Hp Hok.
  eapply change_count_Ok in H2; [|apply lookup_insert_eq]. cbn in H2.
  destruct (m_subGroupsCounts g) as [cs|] eqn:E.
  - destruct H2 as (cs' & Hcs & ->). intros b g' Hb Hg'. cbn in Hg'. rewrite insert_insert_eq in Hg'.
    apply lookup_insert_Some in Hg' as [[<- <-]|[_ Hg']]; [|by apply (Hok b)].
    eapply push_raid; eauto.
  - subst w2. apply ok_insert; [done|]. intros Ha. apply push_party; eauto.
Qed.

Lemma first_free_pushable g n s :
  first_free_subgroup g = Some n → s_group s = n → s_flags s = 0 →
  (isLFGGroup g = false → m_subGroupsCounts g = None → GetMembersCount g < MAXGROUPSIZE) → pushable s g.
Proof.
  unfold first_free_subgroup. intros H <- Hf Hroom. split; [done|].
  destruct (m_subGroupsCounts g) as [cs|].
  - apply fmap_Some in H as ([i x] & H%list_find_Some & Hn). cbn in Hn. rewrite Hn, Nat2Z.id.
    destruct H as (Hi & Hlt & _). apply lookup_take_Some in Hi as [Hi _]. eauto.
  - injection H as H. split; [done|]. intros. by apply Hroom.
Qed.

(** There is room for one more, as far as the size of a party goes. *)
Definition room (w : World) (a : Z) : Prop :=
  ∀ g, groups w !! a = Some g → isLFGGroup g = false → m_subGroupsCounts g = None → GetMembersCount g < MAXGROUPSIZE.

Lemma AddMember_local X a p w ok w' :
  AddMember a p w = Ok (ok, w') → room w a → ok_but X w → ok_but X w'.
Proof.
  unfold AddMember. intros (g & m & [Hg ->]%group_at_Ok & H)%bind_Ok Hroom Hok.
  destruct (first_free_subgroup g) as [n|] eqn:En; [|by injection H as _ <-].
  apply bind_Ok in H as (x & m & [Hx ->]%player_at_Ok & H).
  apply bind_Ok in H as (u1 & w1 & E1 & H). apply bind_Ok in H as (u2 & w2 & E2 & H).
  assert (ok_but X w2) as Hok2.
  { eapply (push_slot X a (mkSlot p (p_name x) n 0 0)); [exact E1|exact E2| |done].
    intros g' Hg' _. rewrite Hg in Hg'. injection Hg' as <-.
    eapply first_free_pushable; [exact En|done|done|]. by apply Hroom. }
  revert H Hok2. generalize w2 ok w'.
  match goal with |- ∀ w ok w', ?k w = _ → _ => change (keeps (local X) k) end.
  local_solve.
Qed.

(** ** Changing the list in place *)

Lemma map_slots_ok g l :
  group_ok g → (∀ n, count_sub l n = count_sub (m_memberSlots g) n) → length l = length (m_memberSlots g) →
  (∀ P : Z → Prop, Forall (λ s, P (s_group s)) (m_memberSlots g) → Forall (λ s, P (s_group s)) l) →
  (flagged MEMBER_FLAG_MAINTANK l ≤ 1)%nat → (flagged MEMBER_FLAG_MAINASSIST l ≤ 1)%nat →
  group_ok (set_m_memberSlots g l).
Proof.
  intros [H1 H2 H3 H4 H5 H6] Hc Hl Hall Ht Ha. split; [exact H1| | |exact H4|done|done].
  - unfold subgroups_ok in *. cbn. destruct (m_subGroupsCounts g) as [cs|].
    + destruct H2 as (R1 & R2 & R3 & R4). repeat split; [done|done|by apply (Hall (λ n, 0 ≤ n < 8))|].
      intros n Hn. rewrite Hc. by apply R4.
    + destruct H2 as [R1 R2]. split; [done|]. by apply (Hall (λ n, n = 0)).
  - intros HL. specialize (H3 HL). match goal with |- if ?b then _ else _ => change b with (isRaidGroup g) end.
    destruct (isRaidGroup g).
    + intros n Hn. cbn. rewrite Hc. by apply H3.
    + unfold GetMembersCount in *. cbn. by rewrite Hl.
Qed.

Lemma perm_slots_ok g l : group_ok g → l ≡ₚ m_memberSlots g → group_ok (set_m_memberSlots g l).
Proof.
  intros Hg Hp. apply map_slots_ok; [done| |by rewrite Hp| |by rewrite (flagged_perm _ _ _ Hp); apply Hg..].
  - intros n. by apply count_sub_perm.
  - intros P H. by rewrite Hp.
Qed.

(** One member's slot changes, but not its subgroup. *)
Lemma upd_slot_ok g guid f :
  group_ok g → (∀ s, s_group (f s) = s_group s) →
  (flagged MEMBER_FLAG_MAINTANK (upd_slot guid f (m_memberSlots g)) ≤ 1)%nat →
  (flagged MEMBER_FLAG_MAINASSIST (upd_slot guid f (m_memberSlots g)) ≤ 1)%nat →
  group_ok (set_m_memberSlots g (upd_slot guid f (m_memberSlots g))).
Proof.
  intros Hg Hf Ht Ha. destruct (getMemberSlot_at g guid) as [Hn|l1 s l2 Hl Hs Hn Hu He].
  { rewrite upd_slot_none by done. by apply perm_slots_ok. }
  rewrite Hu in *. apply map_slots_ok; [done|..|done|done].
  - intros n. by rewrite Hl, !count_sub_app, !count_sub_cons, Hf.
  - rewrite Hl, !length_app. done.
  - intros P. rewrite Hl, !Forall_app, !Forall_cons, Hf. done.
Qed.

Lemma flagged_upd f guid h l :
  (∀ s, s_flags (h s) .& f = s_flags s .& f) → flagged f (upd_slot guid h l) = flagged f l.
Proof.
  intros Hh. unfold upd_slot. destruct (list_find _ _) as [[i s]|] eqn:E; [|done].
  destruct (find_slot_split _ _ _ _ E) as (l1 & l2 & -> & <- & _ & _).
  rewrite insert_app_r_alt, Nat.sub_diag by lia.
  change (<[0%nat := h s]> (s :: l2)) with (h s :: l2). by rewrite !flagged_app, !flagged_cons, Hh.
Qed.
Lemma flagged_upd_one f guid h l : flagged f l = 0%nat → (flagged f (upd_slot guid h l) ≤ 1)%nat.
Proof.
  intros Hl. unfold upd_slot. destruct (list_find _ _) as [[i s]|] eqn:E; [|lia].
  destruct (find_slot_split _ _ _ _ E) as (l1 & l2 & -> & <- & _ & _).
  rewrite flagged_app, flagged_cons in Hl.
  rewrite insert_app_r_alt, Nat.sub_diag, flagged_app by lia.
  change (<[0%nat := h s]> (s :: l2)) with (h s :: l2). rewrite flagged_cons. repeat case_match; lia.
Qed.

(** Setting or clearing one flag does not touch another. *)
Lemma toggle_other f f' b s :
  Z.land f f' = 0 → s_flags (toggle f b s) .& f' = s_flags s .& f'.
Proof.
  intros Hff. unfold toggle, tst. cbn. do 2 f_equal. destruct b.
  - by rewrite Z.land_lor_distr_l, Hff, Z.lor_0_r.
  - apply Z.bits_inj'. intros n Hn. rewrite !Z.land_spec, Z.lnot_spec by done.
    assert (Z.testbit f n && Z.testbit f' n = false) as H by (by rewrite <- Z.land_spec, Hff, Z.bits_0).
    destruct (Z.testbit (s_flags s) n), (Z.testbit f n), (Z.testbit f' n); done.
Qed.
Lemma toggle_off f s : s_flags (toggle f false s) .& f = false.
Proof. unfold toggle, tst. cbn. by rewrite <- Z.land_assoc, (Z.land_comm (Z.lnot f)), Z.land_lnot_diag, Z.land_0_r. Qed.

Lemma local_RemoveUnique X a f :
  f = MEMBER_FLAG_MAINTANK ∨ f = MEMBER_FLAG_MAINASSIST → keeps (local X) (RemoveUniqueGroupMemberFlag a f).
Proof.
  intros Hf. apply local_upd. intros g Hg. apply map_slots_ok; [done|..].
  - intros n. by apply count_sub_map.
  - apply length_fmap.
  - intros P H. by apply Forall_fmap.
  - destruct Hf as [->| ->]; [rewrite (flagged_none _ _ _ (toggle_off _)); lia|].
    rewrite flagged_map; [apply Hg|]. intros s. by apply toggle_other.
  - destruct Hf as [->| ->]; [|rewrite (flagged_none _ _ _ (toggle_off _)); lia].
    rewrite flagged_map; [apply Hg|]. intros s. by apply toggle_other.
Qed.

Lemma local_toggle_assistant X a guid b :
  keeps (local X) (upd_group a (λ g, set_m_memberSlots g (upd_slot guid (toggle MEMBER_FLAG_ASSISTANT b) (m_memberSlots g)))).
Proof.
  apply local_upd. intros g Hg. apply upd_slot_ok; [done|done|..].
  all: rewrite flagged_upd by (intros s; by apply toggle_other); apply Hg.
Qed.

Lemma local_SetGroupMemberFlag X a guid b f : keeps (local X) (SetGroupMemberFlag a guid b f).
Proof.
  unfold SetGroupMemberFlag. do 4 (keeps_step local_leaf; try solve [local_solve]). cbv zeta.
  destruct (Z.eqb_spec f MEMBER_FLAG_ASSISTANT) as [->|Hne]; cbn.
  { keeps_step local_leaf; [local_solve|]. keeps_step local_leaf; [apply local_toggle_assistant|local_solve]. }
  assert (f = MEMBER_FLAG_MAINTANK ∨ f = MEMBER_FLAG_MAINASSIST) as Hf.
  { match goal with H : negb _ = false |- _ => revert H end.
    destruct (Z.eqb_spec f MEMBER_FLAG_MAINASSIST); [by right|]. destruct (Z.eqb_spec f MEMBER_FLAG_MAINTANK); [by left|done]. }
  intros w u w' (u1 & w1 & E1 & H)%bind_Ok Hok. apply bind_Ok in H as (u2 & w2 & E2 & H).
  assert (ok_but X w1) as Hok1 by (eapply local_RemoveUnique; eauto).
  assert (∀ g, groups w1 !! a = Some g → flagged f (m_memberSlots g) = 0%nat) as Hz.
  { apply upd_group_Ok in E1 as (g & Hg & ->). intros g'. cbn. rewrite lookup_insert_eq. intros [= <-].
    cbn. apply flagged_none, toggle_off. }
  apply upd_group_Ok in E2 as (g & Hg & ->).
  assert (ok_but X (set_groups w1 (<[a := set_m_memberSlots g (upd_slot guid (toggle f b) (m_memberSlots g))]> (groups w1)))) as Hok2.
  { apply ok_insert; [done|]. intros Ha. pose proof (Hok1 a g Ha Hg) as Hgok. apply upd_slot_ok; [done|done|..].
    - destruct Hf as [->| ->]; [by apply flagged_upd_one, Hz|].
      rewrite flagged_upd by (intros s; by apply toggle_other). apply Hgok.
    - destruct Hf as [->| ->]; [|by apply flagged_upd_one, Hz].
      rewrite flagged_upd by (intros s; by apply toggle_other). apply Hgok. }
  revert H Hok2. generalize (set_groups w1 (<[a := set_m_memberSlots g (upd_slot guid (toggle f b) (m_memberSlots g))]> (groups w1))) u w'.
  match goal with |- ∀ w ok w', ?k w = _ → _ => change (keeps (local X) k) end. local_solve.
Qed.

Lemma local_SetLfgRoles X a p r : keeps (local X) (SetLfgRoles a p r).
Proof.
  unfold SetLfgRoles. local_solve. apply local_upd. intros g Hg.
  apply (perm_slots_ok (set_m_memberSlots g (upd_slot p (λ s, set_s_roles s r) (m_memberSlots g))) _); [|apply sort_by_roles_perm].
  apply upd_slot_ok; [done|done|..]; rewrite flagged_upd by done; apply Hg.
Qed.

End members.

End GroupMembers.
