(* ===== verification/GroupInvariant.v ===== *)
(** * Every group is in order in every history

    The operations that change several members or several groups at once keep [group_ok]
    for all groups, so every request does, and so it holds in every reachable world. *)
From S2P Require Import Prelude StateMonad Multimap GroupData GroupLoot Groups GroupHandlers GroupLocal GroupMembers.

Module GroupInvariant.
Export GroupMembers.

(** ** Another list of members with its counters *)

Definition relist (g : Group) (l : list MemberSlot) (cs : option (list Z)) : Group :=
  set_m_memberSlots (set_m_subGroupsCounts g cs) l.

(** Counters [cs] fit the list [l] of a raid. *)
Definition fits (l : list MemberSlot) (cs : list Z) : Prop :=
  Forall (λ s, 0 ≤ s_group s < 8) l ∧ counted cs (count_sub l).

Lemma sub_raid g cs : group_ok g → m_subGroupsCounts g = Some cs → isRaidGroup g = true ∧ fits (m_memberSlots g) cs.
Proof.
  intros Hg E. pose proof (go_sub g Hg) as H. unfold subgroups_ok in H. rewrite E in H.
  destruct H as (Hr & Hl & Hall & Hc). by repeat split.
Qed.
Lemma sub_party g : group_ok g → m_subGroupsCounts g = None → isRaidGroup g = false ∧ Forall (λ s, s_group s = 0) (m_memberSlots g).
Proof. intros Hg E. pose proof (go_sub g Hg) as H. unfold subgroups_ok in H. by rewrite E in H. Qed.

Lemma relist_raid g l cs cs' :
  group_ok g → m_subGroupsCounts g = Some cs → fits l cs' →
  (isLFGGroup g = false → ∀ n, 0 ≤ n < 8 → count_sub l n ≤ MAXGROUPSIZE) →
  (∀ f, flagged f l ≤ flagged f (m_memberSlots g))%nat →
  group_ok (relist g l (Some cs')).
Proof.
  intros Hg E [Hall [Hl Hc]] Hb Hf. destruct (sub_raid g cs Hg E) as [Hr _].
  split; [apply Hg| | |apply Hg|etransitivity; [apply Hf|apply Hg]..].
  - unfold subgroups_ok. cbn. repeat split; done.
  - intros HL. match goal with |- if ?b then _ else _ => change b with (isRaidGroup g) end. rewrite Hr.
    intros n Hn. by apply Hb.
Qed.
Lemma relist_party g l :
  group_ok g → m_subGroupsCounts g = None → Forall (λ s, s_group s = 0) l →
  (length l ≤ length (m_memberSlots g))%nat →
  (∀ f, flagged f l ≤ flagged f (m_memberSlots g))%nat →
  group_ok (relist g l None).
Proof.
  intros Hg E Hall Hlen Hf. destruct (sub_party g Hg E) as [Hr _].
  split; [apply Hg| | |apply Hg|etransitivity; [apply Hf|apply Hg]..].
  - unfold subgroups_ok. cbn. by split.
  - intros HL. pose proof (go_bounded g Hg HL) as Hb. rewrite Hr in Hb.
    match goal with |- if ?b then _ else _ => change b with (isRaidGroup g) end. rewrite Hr.
    unfold GetMembersCount in *. cbn. lia.
Qed.

Section invariant.
Context {RND : Random} {LV : LootEnv} {GE : GroupEnv}.

(** ** A member leaves the list *)

Lemma flagged_middle f l1 s l2 : (flagged f (l1 ++ l2) ≤ flagged f (l1 ++ s :: l2))%nat.
Proof. rewrite !flagged_app, flagged_cons. lia. Qed.

Lemma drop_ok g l1 s l2 cs cs' :
  group_ok g → m_memberSlots g = l1 ++ s :: l2 → m_subGroupsCounts g = Some cs →
  count_at cs (s_group s) (-1) = Ok cs' → group_ok (relist g (l1 ++ l2) (Some cs')).
Proof.
  intros Hg El Ec Hc. destruct (sub_raid g cs Hg Ec) as (Hr & Hall & Hcs).
  destruct (count_at_Ok _ _ _ _ _ Hcs Hc) as [Hs Hcs'].
  assert (∀ n, count_sub (m_memberSlots g) n = (if n =? s_group s then 1 else 0) + count_sub (l1 ++ l2) n) as Hn.
  { intros n. rewrite El, !count_sub_app, count_sub_cons, (Z.eqb_sym n). lia. }
  eapply relist_raid; [done|done|split|..].
  - revert Hall. rewrite El, !Forall_app, Forall_cons. tauto.
  - eapply counted_ext, Hcs'. intros n _. cbv beta. rewrite Hn. case_match; lia.
  - intros HL n Hn8. pose proof (go_bounded g Hg HL) as Hb. rewrite Hr in Hb. specialize (Hb n Hn8).
    rewrite Hn in Hb. case_match; lia.
  - intros f. rewrite El. apply flagged_middle.
Qed.

Lemma local_drop_slot X a guid : keeps (local X) (drop_slot a guid).
Proof.
  unfold drop_slot. intros w u w' (g & m & [Hg ->]%group_at_Ok & H)%bind_Ok Hok.
  destruct (getMemberSlot_at g guid) as [|l1 s l2 El Hs _ _ Her]; [by injection H as _ <-|].
  apply bind_Ok in H as (u1 & w1 & E1 & E2). eapply change_count_Ok in E1; [|done].
  destruct (m_subGroupsCounts g) as [cs|] eqn:Ec.
  - destruct E1 as (cs' & Hc & ->). apply upd_group_Ok in E2 as (g' & Hg' & ->). cbn in Hg'.
    rewrite lookup_insert_eq in Hg'. injection Hg' as <-. intros b g' Hb Hg'. cbn in Hg'. rewrite insert_insert_eq in Hg'.
    apply lookup_insert_Some in Hg' as [[<- <-]|[_ Hg']]; [|by apply (Hok b)].
    cbn. rewrite Her. eapply (drop_ok g); eauto.
  - subst w1. apply upd_group_Ok in E2 as (g' & Hg' & ->). rewrite Hg in Hg'. injection Hg' as <-.
    apply ok_insert; [done|]. intros Ha. pose proof (Hok a g Ha Hg) as Hgok. rewrite Her.
    destruct (sub_party g Hgok Ec) as [_ Hall].
    assert (group_ok (relist g (l1 ++ l2) None)) as Hr.
    { apply relist_party; [done|done| | |].
      - revert Hall. rewrite El, !Forall_app, Forall_cons. tauto.
      - rewrite El, !length_app. cbn. lia.
      - intros f. rewrite El. apply flagged_middle. }
    unfold relist in Hr. revert Hr. apply core_ok. by split.
Qed.

(** ** Between subgroups *)

Lemma count_sub_upd l1 s l2 (f : MemberSlot → MemberSlot) n :
  count_sub (l1 ++ f s :: l2) n =
  count_sub (l1 ++ s :: l2) n + (if n =? s_group (f s) then 1 else 0) - (if n =? s_group s then 1 else 0).
Proof. rewrite !count_sub_app, !count_sub_cons, !(Z.eqb_sym n). lia. Qed.

Lemma move_ok g l1 s l2 cs cs1 cs2 n :
  group_ok g → m_memberSlots g = l1 ++ s :: l2 → m_subGroupsCounts g = Some cs → s_group s ≠ n →
  (∃ x, cs !! Z.to_nat n = Some x ∧ x < MAXGROUPSIZE) →
  count_at cs n 1 = Ok cs1 → count_at cs1 (s_group s) (-1) = Ok cs2 →
  group_ok (relist g (l1 ++ set_s_group s n :: l2) (Some cs2)).
Proof.
  intros Hg El Ec Hne (x & Hx & Hlt) H1 H2. destruct (sub_raid g cs Hg Ec) as (Hr & Hall & Hcs).
  destruct (count_at_Ok _ _ _ _ _ Hcs H1) as [Hn Hcs1].
  destruct (count_at_Ok _ _ _ _ _ Hcs1 H2) as [Hs Hcs2].
  pose proof (count_sub_upd l1 s l2 (λ s, set_s_group s n)) as Hc. cbn in Hc.
  eapply relist_raid; [done|done|split|..].
  - revert Hall. rewrite El, !Forall_app, !Forall_cons. cbn. tauto.
  - eapply counted_ext, Hcs2. intros k _. cbv beta. rewrite Hc, <- El. repeat case_match; lia.
  - intros HL k Hk. pose proof (go_bounded g Hg HL) as Hb. rewrite Hr in Hb. specialize (Hb k Hk).
    rewrite Hc, <- El. destruct (Z.eqb_spec k n) as [->|]; [|case_match; lia].
    destruct Hcs as [_ Hcs]. rewrite Hcs in Hx by done. injection Hx as <-.
    pose proof (count_sub_range (m_memberSlots g) n). unfold MAXGROUPSIZE in *.
    rewrite wrap_small in Hlt by (unfold in_u; lia). case_match; lia.
  - intros f. rewrite El, !flagged_app, !flagged_cons. cbn. lia.
Qed.

(** [change_count] on a group in the middle of an update. *)
Lemma change_count_at a n d w u w' g :
  change_count a n d (set_groups w (<[a := g]> (groups w))) = Ok (u, w') →
  match m_subGroupsCounts g with
  | None => w' = set_groups w (<[a := g]> (groups w))
  | Some cs => ∃ cs', count_at cs n d = Ok cs' ∧
      w' = set_groups w (<[a := set_m_subGroupsCounts g (Some cs')]> (groups w))
  end.
Proof.
  intros H. eapply change_count_Ok in H; [|apply lookup_insert_eq].
  destruct (m_subGroupsCounts g); [|done]. destruct H as (cs' & Hc & ->). exists cs'. split; [done|].
  unfold set_groups. cbn. by rewrite insert_insert_eq.
Qed.

(** What follows the update of a group keeps the others' order and its own. *)
Lemma local_after {A} X a g w (k : GM A) x w' :
  keeps (local X) k → k (set_groups w (<[a := g]> (groups w))) = Ok (x, w') →
  ok_but X w → (a ∉ X → group_ok g) → ok_but X w'.
Proof. intros Hk E Hok Hg. eapply Hk; [exact E|]. by apply ok_insert. Qed.

Lemma ChangeMembersGroup_local X a guid n w u w' :
  ChangeMembersGroup a guid n w = Ok (u, w') →
  (∀ g, groups w !! a = Some g → HasFreeSlotSubGroup g n = Ok true) → ok_but X w → ok_but X w'.
Proof.
  unfold ChangeMembersGroup. intros (g & m & [Hg ->]%group_at_Ok & H)%bind_Ok Hfree Hok.
  destruct (negb (isRaidGroup g)) eqn:Hr; [by injection H as _ <-|].
  destruct (negb (IsMember g guid)) eqn:Hm; [by injection H as _ <-|].
  unfold GetMemberGroup, IsMember in *.
  destruct (getMemberSlot_at g guid) as [|l1 s l2 El Hs _ Hupd _]; [done|]. cbv zeta in H.
  destruct (Z.eqb_spec (s_group s) n) as [|Hne]; [by injection H as _ <-|].
  apply bind_Ok in H as (u1 & w1 & (g' & Hg' & ->)%upd_group_Ok & H). rewrite Hg in Hg'. injection Hg' as <-.
  apply bind_Ok in H as (u2 & w2 & E2 & H). apply bind_Ok in H as (u3 & w3 & E3 & H).
  specialize (Hfree g Hg). unfold HasFreeSlotSubGroup in Hfree.
  apply change_count_at in E2. cbn in E2. destruct (m_subGroupsCounts g) as [cs|] eqn:Ec; [|done].
  destruct E2 as (cs1 & H1 & ->). apply change_count_at in E3. cbn in E3. destruct E3 as (cs2 & H2 & ->).
  eapply local_after; [|exact H|done|].
  { local_solve. }
  intros Ha. pose proof (Hok a g Ha Hg) as Hgok. cbn. rewrite Hupd.
  apply (move_ok g l1 s l2 cs cs1 cs2 n); try done.
  destruct (cs !! Z.to_nat n) as [x|] eqn:Ex; [|done]. injection Hfree as Hlt%Z.ltb_lt. by exists x.
Qed.

(** ** The leader and the kind of the group *)

Lemma local_ChangeLeader X a guid : keeps (local X) (ChangeLeader a guid).
Proof.
  unfold ChangeLeader. local_solve. apply local_upd. intros g Hg.
  apply (core_ok (set_m_memberSlots g (upd_slot guid (toggle MEMBER_FLAG_ASSISTANT false) (m_memberSlots g)))); [by split|].
  apply upd_slot_ok; [done|done|..].
  all: rewrite flagged_upd by (intros s; by apply toggle_other); apply Hg.
Qed.

(** Bits of the group's type. *)
Lemma tst_lor_other x f f' : Z.land f f' = 0 → Z.lor x f .& f' = x .& f'.
Proof. intros H. unfold tst. by rewrite Z.land_lor_distr_l, H, Z.lor_0_r. Qed.
Lemma tst_lor_self x f : f ≠ 0 → Z.lor x f .& f = true.
Proof.
  intros Hf. unfold tst. rewrite Z.land_lor_distr_l, Z.land_diag.
  destruct (Z.eqb_spec (Z.lor (Z.land x f) f) 0) as [E|]; [|done].
  by apply Z.lor_eq_0_iff in E as [_ E].
Qed.

Lemma local_ConvertToLFG X a : keeps (local X) (ConvertToLFG a).
Proof.
  unfold ConvertToLFG. local_solve. apply local_upd. intros g [H1 H2 H3 H4 H5 H6].
  assert (∀ f, Z.land 8 f = 0 → Z.land 4 f = 0 → Z.lor (Z.lor (m_groupType g) 8) 4 .& f = m_groupType g .& f) as Ht.
  { intros f ??. by rewrite !tst_lor_other. }
  split; [exact H1| | |exact H4|exact H5|exact H6].
  - unfold subgroups_ok, isRaidGroup in *. cbn. rewrite Ht by done. exact H2.
  - intros HL. unfold isLFGGroup in HL. cbn in HL.
    rewrite tst_lor_other in HL by done. by rewrite tst_lor_self in HL by done.
Qed.

Lemma count_slots_fits l cs : count_slots (replicate (Z.to_nat MAX_RAID_SUBGROUPS) 0) l = Ok cs → fits l cs.
Proof. intros H. destruct (count_slots_Ok _ _ _ _ counted_zero H) as [Hall Hc]. by split. Qed.

Lemma raid_ok g cs t :
  group_ok g → fits (m_memberSlots g) cs → t .& GROUPTYPE_RAID = true → t .& GROUPTYPE_LFG = isLFGGroup g →
  group_ok (set_m_subGroupsCounts (set_m_groupType g t) (Some cs)).
Proof.
  intros Hg [Hall [Hl Hc]] Hr HL. split; [apply Hg| | |apply Hg..].
  - unfold subgroups_ok. cbn. repeat split; done.
  - unfold bounded, isLFGGroup at 1, isRaidGroup. cbn. rewrite HL, Hr. intros HL'. pose proof (go_bounded g Hg HL') as Hb.
    intros n Hn. destruct (isRaidGroup g); [by apply Hb|].
    pose proof (count_sub_range (m_memberSlots g) n). unfold GetMembersCount in Hb. lia.
Qed.

Lemma init_run a w u w' :
  initRaidSubGroupsCounter a w = Ok (u, w') →
  ∃ g cs, groups w !! a = Some g ∧ fits (m_memberSlots g) cs ∧
    w' = set_groups w (<[a := set_m_subGroupsCounts g (Some cs)]> (groups w)).
Proof.
  unfold initRaidSubGroupsCounter. intros H. grun. simplify_eq. eexists _, _. split; [done|].
  split; [by apply count_slots_fits|done].
Qed.

Lemma init_raid_ok X a w u w' g :
  initRaidSubGroupsCounter a w = Ok (u, w') → groups w !! a = Some g → isRaidGroup g = true →
  ok_but X w → ok_but X w'.
Proof.
  intros (g' & cs & Hg' & Hf & ->)%init_run Hg Hr Hok. rewrite Hg in Hg'. injection Hg' as <-.
  apply ok_insert; [done|]. intros Ha.
  apply (core_ok (set_m_subGroupsCounts (set_m_groupType g (m_groupType g)) (Some cs))); [by split|].
  apply raid_ok; [by apply (Hok a)|done..].
Qed.

Lemma local_ConvertToRaid X a : keeps (local X) (ConvertToRaid a).
Proof.
  unfold ConvertToRaid. intros w u w' (u1 & w1 & (g & Hg & ->)%upd_group_Ok & H)%bind_Ok Hok.
  apply bind_Ok in H as (u2 & w2 & (g' & cs & Hg' & Hf & ->)%init_run & H). cbn in Hg'.
  rewrite lookup_insert_eq in Hg'. injection Hg' as <-. unfold set_groups in H at 1. cbn in H.
  rewrite insert_insert_eq in H. eapply (local_after X a _ w); [|exact H|done|]; [local_solve|].
  intros Ha. apply raid_ok; [by apply (Hok a)|exact Hf|by apply tst_lor_self|by apply tst_lor_other].
Qed.

(** ** The end of a group *)

Lemma delete_group_gone a w u w' : delete_group a w = Ok (u, w') → groups w' !! a = None.
Proof. unfold delete_group. intros H. grun. cbn. apply lookup_delete_eq. Qed.
Lemma Disband_gone a w u w' : Disband a w = Ok (u, w') → groups w' !! a = None.
Proof. unfold Disband. intros H. run_inv. by eapply delete_group_gone. Qed.

Lemma local_Disband X a : keeps (local X) (Disband a).
Proof.
  intros w u w' E Hok. apply (ok_close X a).
  - assert (keeps (local ({[a]} ∪ X)) (Disband a)) as Hk; [|eapply Hk; [exact E|]; eapply ok_weaken; [|exact Hok]; set_solver].
    unfold Disband. local_solve. apply local_free.
  - intros g Hg. by rewrite (Disband_gone _ _ _ _ E) in Hg.
Qed.
#[local] Hint Resolve local_ChangeLeader local_Disband local_drop_slot : local.

Lemma local_take_out X a guid : keeps (local X) (take_out a guid).
Proof. unfold take_out, pick_leader. local_solve. Qed.
#[local] Hint Resolve local_take_out : local.
Lemma local_RemoveMember X a guid m k : keeps (local X) (RemoveMember a guid m k).
Proof. unfold RemoveMember. local_solve. Qed.
Lemma local_UninviteFromGroup X p : keeps (local X) (UninviteFromGroup p).
Proof. unfold UninviteFromGroup. local_solve. Qed.
#[local] Hint Resolve local_RemoveMember local_UninviteFromGroup local_SetGroupMemberFlag local_RemoveUnique
  local_SetLfgRoles local_SetTargetIcon local_ConvertToLFG local_ConvertToRaid local_reset_icons : local.

(** ** The size and the kind of one group *)

Definition size_le (a n : Z) (w : World) : Prop := ∀ g, groups w !! a = Some g → GetMembersCount g ≤ n.
Definition lfg_at (a : Z) (w : World) : Prop := ∀ g, groups w !! a = Some g → isLFGGroup g = true.

Definition same_type (g g' : Group) : Prop := m_groupType g' = m_groupType g.
#[local] Instance same_type_pre : PreOrder same_type.
Proof. split; unfold same_type; [by intros ?|intros ? ? ?; congruence]. Qed.
Definition same_party (g g' : Group) : Prop := same_type g g' ∧ m_memberSlots g' = m_memberSlots g.
#[local] Instance same_party_pre : PreOrder same_party.
Proof. split; unfold same_party, same_type; [by intros ?|intros ? ? ? [] []; split; congruence]. Qed.

Lemma type_lfg {A} a (k : GM A) : keeps (groupwise same_type) k → keeps (kept (lfg_at a)) k.
Proof.
  intros Hk w x w' E Hs g' Hg'. destruct (Hk _ _ _ E a g' Hg') as (g & Hg & H).
  unfold isLFGGroup. rewrite H. by apply Hs.
Qed.
Lemma party_size {A} a n (k : GM A) : keeps (groupwise same_party) k → keeps (kept (size_le a n)) k.
Proof.
  intros Hk w x w' E Hs g' Hg'. destruct (Hk _ _ _ E a g' Hg') as (g & Hg & _ & H).
  unfold GetMembersCount. rewrite H. by apply Hs.
Qed.
Lemma party_type {A} (k : GM A) : keeps (groupwise same_party) k → keeps (groupwise same_type) k.
Proof. intros Hk w x w' E a g' Hg'. destruct (Hk _ _ _ E a g' Hg') as (g & Hg & H & _). eauto. Qed.
Lemma quiet_party {A} (k : GM A) : keeps quiet k → keeps (groupwise same_party) k.
Proof. apply quiet_groupwise. by intros g g' []. Qed.
Lemma quiet_type {A} (k : GM A) : keeps quiet k → keeps (groupwise same_type) k.
Proof. intros H. by apply party_type, quiet_party. Qed.

Ltac gw_leaf db :=
  match goal with
  | |- keeps _ (upd_group _ _) =>
    apply groupwise_upd; [apply _|intros ?; solve [repeat case_match; first [reflexivity|by split]]]
  | |- keeps (groupwise same_party) _ => apply quiet_party; quiet_leaf
  | |- keeps (groupwise same_type) _ => first [apply quiet_type; quiet_leaf|db]
  end.
Ltac party_leaf := idtac; gw_leaf fail.
Ltac party_solve := repeat keeps_step party_leaf.

Lemma party_change_count a n d : keeps (groupwise same_party) (change_count a n d).
Proof. unfold change_count. party_solve. Qed.
Lemma party_init a : keeps (groupwise same_party) (initRaidSubGroupsCounter a).
Proof. unfold initRaidSubGroupsCounter. party_solve. Qed.

Create HintDb type.
Ltac type_leaf := idtac; gw_leaf ltac:(solve [auto with type]).
Ltac type_solve := repeat keeps_step type_leaf.
Lemma type_change_count a n d : keeps (groupwise same_type) (change_count a n d).
Proof. apply party_type, party_change_count. Qed.
#[local] Hint Resolve type_change_count : type.
Lemma type_AddMember a p : keeps (groupwise same_type) (AddMember a p).
Proof. unfold AddMember, SubGroupCounterIncrease. type_solve. Qed.
Lemma type_ChangeLeader a p : keeps (groupwise same_type) (ChangeLeader a p).
Proof. unfold ChangeLeader. type_solve. Qed.
Lemma type_Disband a : keeps (groupwise same_type) (Disband a).
Proof. unfold Disband. type_solve. Qed.
#[local] Hint Resolve type_ChangeLeader type_Disband : type.
Lemma type_take_out a p : keeps (groupwise same_type) (take_out a p).
Proof. unfold take_out, drop_slot, pick_leader, SubGroupCounterDecrease. type_solve. Qed.
#[local] Hint Resolve type_take_out : type.
Lemma type_RemoveMember a p m k : keeps (groupwise same_type) (RemoveMember a p m k).
Proof. unfold RemoveMember. type_solve. Qed.
Lemma type_SetLfgRoles a p r : keeps (groupwise same_type) (SetLfgRoles a p r).
Proof. unfold SetLfgRoles. type_solve. Qed.

(** In order, and the group at [a] of at most [n] members and (when [L]) a group of the
    dungeon finder. *)
Record small (L : bool) (a n : Z) (w : World) : Prop := mkSmall {
  sm_ok : ok_but ∅ w;
  sm_size : size_le a n w;
  sm_lfg : L = true → lfg_at a w
}.
Lemma small_kept {A} L a n (k : GM A) :
  keeps (local ∅) k → keeps (groupwise same_party) k → keeps (kept (small L a n)) k.
Proof.
  intros H1 H2 w x w' E [Hok Hs HL]. split; [by eapply H1|by eapply (party_size a n)|].
  intros HL'. eapply type_lfg; [by apply party_type|exact E|by apply HL].
Qed.
Lemma small_quiet {A} L a n (k : GM A) : keeps quiet k → keeps (kept (small L a n)) k.
Proof. intros H. apply small_kept; [by apply quiet_local|by apply quiet_party]. Qed.
Ltac small_leaf := idtac; apply small_quiet; quiet_leaf.
Ltac small_step := eapply partial_step; [solve [repeat keeps_step small_leaf]|intros ?].

Lemma AddMember_small L a n p :
  n < MAXGROUPSIZE → partial (small L a n) (AddMember a p) (λ _, small L a (n + 1)).
Proof.
  intros Hn w ok w' E [Hok Hs HL]. split.
  - eapply AddMember_local; [exact E| |exact Hok]. intros g Hg _ _. specialize (Hs g Hg). lia.
  - unfold AddMember in E. apply bind_Ok in E as (g & m & [Hg ->]%group_at_Ok & E).
    destruct (first_free_subgroup g) as [k|]; [|injection E as _ <-; intros g' Hg'; specialize (Hs g' Hg'); lia].
    apply bind_Ok in E as (x & m & [Hx ->]%player_at_Ok & E).
    apply bind_Ok in E as (u1 & w1 & (g' & Hg' & ->)%upd_group_Ok & E). rewrite Hg in Hg'. injection Hg' as <-.
    apply bind_Ok in E as (u2 & w2 & E2 & E).
    match type of E with ?k w2 = _ => assert (keeps (kept (size_le a (n + 1))) k) as Hk end.
    { apply party_size. party_solve. }
    eapply Hk; [exact E|]. eapply (party_size a (n + 1)); [apply party_change_count|exact E2|].
    intros g' Hg'. cbn in Hg'. rewrite lookup_insert_eq in Hg'. injection Hg' as <-.
    specialize (Hs g Hg). unfold GetMembersCount in *. cbn. rewrite length_app. cbn. lia.
  - intros HL'. eapply type_lfg; [apply type_AddMember|exact E|by apply HL].
Qed.

Lemma small_group_at L a n b : partial (small L a n) (group_at b) (λ g w, groups w !! b = Some g ∧ small L a n w).
Proof. intros w g w' [Hg ->]%group_at_Ok H. by split. Qed.

Lemma Create_small L a p : partial (small L a 0) (Create a p) (λ _, small L a 1).
Proof.
  unfold Create. do 4 small_step.
  eapply partial_bind; [apply small_group_at|intros g].
  eapply (partial_bind _ _ _ (λ _, small L a 0)).
  { intros w u w' E [Hg [Hok Hs HL]]. destruct (go_plain g (Hok a g (not_elem_of_empty a) Hg)) as [Hb Hf].
    unfold isBGGroup, isBFGroup in E. rewrite Hb, Hf in E. cbn in E. injection E as _ <-. by split. }
  intros ?. eapply partial_bind; [apply small_group_at|intros g1].
  eapply (partial_bind _ _ _ (λ _, small L a 0)).
  { intros w u w' E [Hg [Hok Hs HL]].
    assert (keeps (groupwise same_party) (when (isRaidGroup g1) (initRaidSubGroupsCounter a))) as Hk
      by (apply keeps_when; [apply _|apply party_init]).
    split; [|by eapply (party_size a 0); [exact Hk|exact E|]|intros HL'; eapply type_lfg; [by apply party_type|exact E|by apply HL]].
    destruct (isRaidGroup g1) eqn:Hr; [|by injection E as _ <-].
    by eapply init_raid_ok. }
  intros ?. do 3 small_step.
  assert (partial (small L a 0) (AddMember a p) (λ _, small L a 1)) as HA by by apply (AddMember_small L a 0).
  match goal with |- partial _ (if ?b then _ else _) _ => destruct b end; [|exact HA].
  do 5 small_step. eapply partial_bind; [exact HA|intros ok]. small_step. by apply partial_ret.
Qed.

(** ** The requests *)

Lemma local_answer me r : keeps (local ∅) (answer me r).
Proof. unfold answer. local_solve. Qed.
#[local] Hint Resolve local_answer : local.

Lemma room_free a w g : ok_but ∅ w → groups w !! a = Some g → IsFull g = false → room w a.
Proof.
  intros Hok Hg Hf g' Hg' _ Hc. rewrite Hg in Hg'. injection Hg' as <-.
  destruct (sub_party g) as [Hr _]; [by apply (Hok a)|done|]. unfold IsFull in Hf. rewrite Hr in Hf.
  by apply Z.leb_gt in Hf.
Qed.

Lemma local_HandleGroupAccept me : keeps (local ∅) (HandleGroupAccept me).
Proof.
  unfold HandleGroupAccept. apply keeps_bind; [apply _|local_leaf|intros p]. destruct (m_groupInvite p) as [a|]; [|local_solve].
  keeps_step local_leaf; [local_leaf|].
  intros w u w' (g & m & [Hg ->]%group_at_Ok & H)%bind_Ok Hok. apply bind_Ok in H as (w0 & m & E & H).
  injection E as <- <-. destruct (m_leaderGuid g =? me); [by injection H as _ <-|].
  destruct (IsFull g) eqn:Hf; [by eapply local_answer|].
  destruct (IsCreated g) eqn:Hc; cbn [negb] in H.
  { apply bind_Ok in H as (ok & w1 & E & H). injection H as _ <-.
    eapply AddMember_local; [exact E|by eapply room_free|done]. }
  destruct (FindPlayer w (m_leaderGuid g)); [|revert H Hok; eapply quiet_local, quiet_RemoveAllInvites].
  assert (small false a 0 w) as Hs.
  { split; [done| |done]. intros g' Hg'. rewrite Hg in Hg'. injection Hg' as <-. by apply Z.ltb_ge in Hc. }
  assert (partial (small false a 0) (_ ← RemoveInvite a (m_leaderGuid g); _ ← Create a (m_leaderGuid g);
    _ ← AddGroup a; _ ← AddMember a me; skip) (λ _, small false a 2)) as Hp.
  { small_step. eapply partial_bind; [apply Create_small|intros ?]. small_step.
    eapply partial_bind; [by apply (AddMember_small false a 1)|intros ?]. by apply partial_ret. }
  by eapply Hp.
Qed.

Lemma local_ChangeSubGroup me name n : keeps (local ∅) (HandleGroupChangeSubGroup me name n).
Proof.
  unfold HandleGroupChangeSubGroup. apply keeps_bind; [apply _|local_leaf|intros p]. destruct (GetGroup p) as [a|]; [|local_solve].
  intros w u w' (g & m & [Hg ->]%group_at_Ok & H)%bind_Ok Hok.
  destruct (MAX_RAID_SUBGROUPS <=? n); [by injection H as _ <-|].
  destruct (_ && _); [by injection H as _ <-|].
  apply bind_Ok in H as (free & m & [Hfree ->]%lift_Ok & H). destruct free; cbn [negb] in H; [|by injection H as _ <-].
  eapply ChangeMembersGroup_local; [exact H| |done]. intros g' Hg'. rewrite Hg in Hg'. by injection Hg' as <-.
Qed.

(** LFGMgr forms its groups as groups of the dungeon finder. *)
Definition forming (grp : option Z) (w : World) : Prop :=
  ok_but ∅ w ∧ match grp with Some a => lfg_at a w | None => True end.

Lemma forming_kept {A} grp (k : GM A) :
  keeps (local ∅) k → keeps (groupwise same_type) k → keeps (kept (forming grp)) k.
Proof.
  intros H1 H2 w x w' E [Hok HL]. split; [by eapply H1|]. destruct grp; [|done]. by eapply type_lfg.
Qed.
#[local] Hint Resolve type_AddMember type_RemoveMember type_SetLfgRoles : type.
Ltac forming_leaf := idtac; apply forming_kept; [solve [local_solve]|solve [type_solve]].

Lemma new_group_small : partial (ok_but ∅) new_group (λ a, small false a 0).
Proof.
  intros w a w' E Hok. pose proof (local_new_group ∅ _ _ _ E Hok) as Hok'. split; [done| |done].
  unfold new_group in E. run_inv. intros g. cbn. rewrite lookup_insert_eq. by intros [= <-].
Qed.
Lemma ConvertToLFG_small a n : partial (small false a n) (ConvertToLFG a) (λ _, small true a n).
Proof.
  intros w u w' E [Hok Hs _]. split; [by eapply local_ConvertToLFG|..].
  all: unfold ConvertToLFG in E; apply bind_Ok in E as (u1 & w1 & (g & Hg & ->)%upd_group_Ok & E).
  - eapply party_size; [|exact E|]; [party_solve|]. intros g'. cbn. rewrite lookup_insert_eq. intros [= <-].
    exact (Hs g Hg).
  - intros _. eapply type_lfg; [|exact E|]; [type_solve|]. intros g'. cbn. rewrite lookup_insert_eq. intros [= <-].
    unfold isLFGGroup. cbn. rewrite tst_lor_other by done. by apply tst_lor_self.
Qed.

Lemma forming_step grp x : partial (forming grp) (make_new_group_step grp x) (λ grp, forming grp).
Proof.
  destruct x as [p r]. unfold make_new_group_step.
  eapply partial_step; [solve [repeat keeps_step forming_leaf]|intros w0].
  destruct (FindPlayer w0 p) as [player|]; [|by apply partial_ret]. cbv zeta.
  eapply partial_step; [solve [repeat keeps_step forming_leaf]|intros _].
  eapply (partial_bind _ _ _ (λ a, forming (Some a))).
  - destruct grp as [a|].
    + eapply partial_step; [|intros _; by apply partial_ret]. case_match; [solve [repeat keeps_step forming_leaf]|].
      apply keeps_bind; [apply _| |intros _; solve [repeat keeps_step forming_leaf]].
      intros w ok w' E [Hok HL]. split; [|by eapply type_lfg; [apply type_AddMember|exact E|]].
      eapply AddMember_local; [exact E| |done]. intros g Hg Hf. by rewrite (HL g Hg) in Hf.
    + eapply (partial_weaken _ (ok_but ∅)); [|by intros w []|intros a w H; exact H].
      eapply partial_bind; [apply new_group_small|intros a].
      eapply partial_bind; [apply ConvertToLFG_small|intros ?].
      eapply partial_bind; [apply Create_small|intros ?]. small_step. apply partial_ret. intros w []. by split; auto.
  - intros a. eapply partial_step; [solve [repeat keeps_step forming_leaf]|intros _]. by apply partial_ret.
Qed.

Lemma local_MakeNewGroup grp l d w u w' :
  MakeNewGroup grp l d w = Ok (u, w') → (∀ a, grp = Some a → lfg_at a w) → ok_but ∅ w → ok_but ∅ w'.
Proof.
  intros H Hgrp Hok. unfold MakeNewGroup in H. apply bind_Ok in H as (grp' & w1 & E & H).
  assert (∀ l grp, partial (forming grp) (make_new_group grp l) (λ grp, forming grp)) as Hl.
  { clear. induction l as [|x l IH]; intros grp; cbn; [by apply partial_ret|].
    eapply partial_bind; [apply forming_step|intros grp']. apply IH. }
  assert (ok_but ∅ w1) as Hok1.
  { eapply Hl; [exact E|]. split; [done|]. destruct grp; [by apply Hgrp|done]. }
  destruct grp' as [a|]; [|by apply lift_Ok in H as []]. revert H Hok1. eapply quiet_local, quiet_SetDungeonDifficulty.
Qed.

(** ** Histories *)

(** A request the server makes of itself: LFGMgr fills up a group that it formed. *)
Definition legit (o : op) (w : World) : Prop :=
  match o with OpLfgGroup (Some a) _ _ => lfg_at a w | _ => True end.

#[local] Hint Resolve local_HandleGroupAccept local_ChangeSubGroup : local.

Lemma local_Login me n d r e : keeps (local ∅) (Login me n d r e).
Proof. unfold Login, LoadGroup. local_solve. Qed.
Lemma local_Logout me b : keeps (local ∅) (Logout me b).
Proof. unfold Logout. local_solve. Qed.
Lemma local_HandleGroupInvite me n : keeps (local ∅) (HandleGroupInvite me n).
Proof. unfold HandleGroupInvite, invite_to_new_group. local_solve. Qed.
Lemma local_Uninvite me n : keeps (local ∅) (HandleGroupUninvite me n).
Proof. unfold HandleGroupUninvite, CanUninviteFromGroup. local_solve. Qed.
Lemma local_UninviteGuid me guid : keeps (local ∅) (HandleGroupUninviteGuid me guid).
Proof. unfold HandleGroupUninviteGuid, CanUninviteFromGroup. local_solve. Qed.
Lemma local_PartyAssignment me x b guid : keeps (local ∅) (HandlePartyAssignment me x b guid).
Proof. unfold HandlePartyAssignment. local_solve; apply local_RemoveUnique; auto. Qed.
#[local] Hint Resolve local_Login local_Logout local_HandleGroupInvite local_PartyAssignment local_Uninvite
  local_UninviteGuid : local.

Lemma perform_local o w u w' : perform o w = Ok (u, w') → legit o w → ok_but ∅ w → ok_but ∅ w'.
Proof.
  intros E Hl. assert ((∃ grp l d, o = OpLfgGroup grp l d) ∨ keeps (local ∅) (perform o)) as H.
  { destruct o; (left; by eauto) || (right; cbn [perform]; (solve [auto with local]) || idtac).
    all: unfold HandleGroupDecline, HandleGroupSetLeader, HandleGroupDisband, HandleLootMethod, HandleLootRoll,
      HandleRaidTargetUpdate, HandleGroupRaidConvert, HandleGroupAssistantLeader.
    all: try solve [local_solve]. }
  destruct H as [(grp & l & d & ->)|H]; [|by eapply H].
  eapply local_MakeNewGroup; [exact E|]. intros a ->. exact Hl.
Qed.

Inductive groups_reachable : World → Prop :=
| groups_start s : groups_reachable (new_world s)
| groups_step w o w' : groups_reachable w → legit o w → perform o w = Ok (tt, w') → groups_reachable w'.

Lemma reachable_ok w : groups_reachable w → ok_but ∅ w.
Proof.
  induction 1 as [s|w o w' _ IH Hl E]; [by intros a g _ Hg|]. by eapply perform_local.
Qed.
Lemma reachable_group_ok w a g : groups_reachable w → groups w !! a = Some g → group_ok g.
Proof. intros H%reachable_ok. by apply (H a). Qed.

(** ** Sizes *)

Lemma count_sub_filter l (P : MemberSlot → Prop) `{!∀ s, Decision (P s)} n : count_sub (filter P l) n ≤ count_sub l n.
Proof.
  induction l as [|s l IH]; [done|]. rewrite filter_cons, count_sub_cons.
  destruct (decide (P s)); [rewrite count_sub_cons|]; case_match; lia.
Qed.
Lemma filter_split l n : Z.of_nat (length l) = count_sub l n + Z.of_nat (length (filter (λ s, s_group s ≠ n) l)).
Proof.
  induction l as [|s l IH]; [done|]. rewrite count_sub_cons, filter_cons. cbn [length].
  destruct (Z.eqb_spec (s_group s) n), (decide (s_group s ≠ n)); cbn [length]; try done; lia.
Qed.
(** A list over [m] subgroups of at most [c] members each. *)
Lemma subgroups_bound c (m : nat) : ∀ l,
  Forall (λ s, 0 ≤ s_group s < Z.of_nat m) l → (∀ n, 0 ≤ n < Z.of_nat m → count_sub l n ≤ c) →
  Z.of_nat (length l) ≤ Z.of_nat m * c.
Proof.
  induction m as [|m IH]; intros l Hall Hc.
  { destruct l as [|s l]; [done|]. apply Forall_cons in Hall as [Hs _]. lia. }
  rewrite (filter_split l (Z.of_nat m)).
  assert (Z.of_nat (length (filter (λ s, s_group s ≠ Z.of_nat m) l)) ≤ Z.of_nat m * c) as Hrest.
  { apply IH.
    - rewrite Forall_forall in *. intros s [Hs Hin]%list_elem_of_filter. specialize (Hall s Hin). lia.
    - intros n Hn. etransitivity; [apply count_sub_filter|]. apply Hc. lia. }
  specialize (Hc (Z.of_nat m)). lia.
Qed.

Lemma raid_bound g :
  group_ok g → isLFGGroup g = false → GetMembersCount g ≤ if isRaidGroup g then MAXRAIDSIZE else MAXGROUPSIZE.
Proof.
  intros Hg HL. pose proof (go_bounded g Hg HL) as Hb. destruct (m_subGroupsCounts g) as [cs|] eqn:Ec.
  - destruct (sub_raid g cs Hg Ec) as (Hr & Hall & _). rewrite Hr in *.
    apply (subgroups_bound MAXGROUPSIZE 8); [exact Hall|exact Hb].
  - destruct (sub_party g Hg Ec) as [Hr _]. by rewrite Hr in *.
Qed.

(** The counter of a subgroup tells whether it has room. *)
Lemma free_slot_exact g n :
  group_ok g → isLFGGroup g = false → 0 ≤ n < 8 →
  HasFreeSlotSubGroup g n = Ok (isRaidGroup g && (count_sub (m_memberSlots g) n <? MAXGROUPSIZE)).
Proof.
  intros Hg HL Hn. pose proof (go_bounded g Hg HL) as Hb. unfold HasFreeSlotSubGroup.
  destruct (m_subGroupsCounts g) as [cs|] eqn:Ec; [|by destruct (sub_party g Hg Ec) as [-> _]].
  destruct (sub_raid g cs Hg Ec) as (Hr & _ & _ & Hc). rewrite Hr in *. rewrite Hc by done. specialize (Hb n Hn).
  pose proof (count_sub_range (m_memberSlots g) n). unfold MAXGROUPSIZE in *.
  by rewrite wrap_small by (unfold in_u; lia).
Qed.
End invariant.

End GroupInvariant.
