(* ===== verification/GroupRolls.v ===== *)
(** * Loot rolls and turns: what the loops of Group.cpp come to

    The dice of a roll and its winner, when a roll is over, and the turns of round robin. *)
From S2P Require Import Prelude StateMonad GroupData GroupLoot GroupHandlers GroupLocal.

Module GroupRolls.
Export GroupLocal.

Section rolls.
Context {RND : Random} {LV : LootEnv} {GE : GroupEnv}.

(** ** The dice *)

(** What everybody who takes part rolls: guid, number and vote, in the order of the guids. *)
Fixpoint draws (need : bool) (s : rng) (l : list (Z * RollVote)) : list (Z * Z * RollVote) * rng :=
  match l with
  | [] => ([], s)
  | v :: l =>
    if votes_for need v.2 then
      let x := urand s 1 100 in let ds := draws need x.2 l in ((v.1, x.1, v.2) :: ds.1, ds.2)
    else draws need s l
  end.
(** The first of the highest numbers. *)
Definition wins (d : Z * Z * RollVote) (ds : list (Z * Z * RollVote)) : Prop :=
  ∃ before behind, ds = before ++ d :: behind ∧
    Forall (λ e, e.1.2 < d.1.2) before ∧ Forall (λ e, e.1.2 ≤ d.1.2) behind.
Definition announce (item : Z) (d : Z * Z * RollVote) : event := LootRolled item d.1.1 d.1.2 d.2.

Lemma draws_who need l : ∀ s, (λ d, (d.1.1, d.2)) <$> (draws need s l).1 = filter (λ v, votes_for need v.2 = true) l.
Proof.
  induction l as [|v l IH]; intros s; [done|]. rewrite filter_cons. cbn [draws].
  destruct (votes_for need v.2) eqn:E; [|by rewrite decide_False by done].
  rewrite decide_True by done. cbn [fst]. rewrite fmap_cons, IH. by destruct v.
Qed.
Lemma draws_range need l : ∀ s, Forall (λ d, 1 ≤ d.1.2 ≤ 100) (draws need s l).1.
Proof.
  induction l as [|v l IH]; intros s; [by constructor|]. cbn. destruct (votes_for need v.2); [|done].
  constructor; [|done]. cbn. by apply urand_range.
Qed.

(** The loop against the draws: the best so far and what comes behind it. *)
Lemma roll_best_run need item l : ∀ best w,
  ∃ best', roll_best need item best l w =
    Ok (best', set_w_out (set_w_rng w (draws need (w_rng w) l).2)
                 (w_out w ++ (announce item <$> (draws need (w_rng w) l).1))) ∧
  wins best' (best :: (draws need (w_rng w) l).1).
Proof.
  induction l as [|v l IH]; intros best w.
  { exists best. split; [|by exists [], []]. cbn. rewrite app_nil_r. by destruct w. }
  cbn [roll_best draws]. unfold roll_dice. destruct (votes_for need v.2) eqn:Ev; [|apply IH].
  destruct (urand (w_rng w) 1 100) as [n s] eqn:Eu.
  pose proof (urand_range (w_rng w) 1 100 ltac:(lia)) as Hn. rewrite Eu in Hn. cbn in Hn.
  assert (u8 n = n) as Hu by (apply wrap_small; unfold in_u; lia).
  unfold mbind, ST_bind, get, modify, tell, mret, ST_ret. cbn. rewrite Eu. cbn. rewrite Hu.
  set (w1 := set_w_out _ _). destruct (IH (if best.1.2 <? n then (v.1, n, v.2) else best) w1) as (best' & E & Hw).
  exists best'. cbn in E, Hw. split.
  - rewrite E. do 2 f_equal. unfold w1. cbn. by rewrite <- app_assoc.
  - destruct Hw as (l1 & l2 & Hl & H1 & H2). destruct (Z.ltb_spec best.1.2 n) as [Hlt|Hle].
    + exists (best :: l1), l2. split; [by rewrite Hl|]. split; [|done]. constructor; [|done].
      destruct l1 as [|d l1]; [by injection Hl as <- _|]. injection Hl as <- _.
      apply Forall_cons in H1 as [H1 _]. cbn in H1. lia.
    + destruct l1 as [|d l1].
      * injection Hl as <- <-. exists [], ((v.1, n, v.2) :: (draws need s l).1). split; [done|]. split; [done|].
        by constructor.
      * injection Hl as <- Hl. apply Forall_cons in H1 as [Hb H1].
        exists (best :: (v.1, n, v.2) :: l1), l2. split; [by rewrite Hl|]. split; [|done].
        repeat constructor; [done| |done]. cbn. lia.
Qed.

(** Whoever rolls beats the 0 that the loop starts from. *)
Lemma wins_over_none d0 d ds : d0.1.2 = 0 → ds ≠ [] → Forall (λ d, 1 ≤ d.1.2 ≤ 100) ds → wins d (d0 :: ds) → wins d ds.
Proof.
  intros H0 Hne Hr (l1 & l2 & El & H1 & H2). destruct l1 as [|x l1].
  - injection El as <- <-. exfalso. destruct ds as [|e ds]; [done|]. apply Forall_cons in H2 as [H2 _].
    apply Forall_cons in Hr as [Hr _]. lia.
  - injection El as _ ->. apply Forall_cons in H1 as [_ H1]. by exists l1, l2.
Qed.

(** ** The winner's item *)

Definition taken (slot : Z) (l : Loot) : Loot :=
  set_unlootedCount (upd_item slot (λ i, set_is_looted i true) l) (u8 (unlootedCount l - 1)).
Definition put_loot (loot : Z) (l : Loot) (w : World) : World := set_loots w (<[loot := l]> (loots w)).
Definition told (e : event) (w : World) : World := set_w_out w (w_out w ++ [e]).
(** What the winner [d] gets of the item [i] of the loot [l]: the item, while connected
    and with room for it; what it disenchants to; otherwise nothing. *)
Definition prize (r : Roll) (loot : Z) (l : Loot) (i : LootItem) (d : Z * Z * RollVote) (w : World) : World :=
  let guid := d.1.1 in
  if has_session w guid then
    match d.2 with
    | NEED | GREED =>
      if CanStoreNewItem w guid (itemid r) (li_count i)
      then told (StoreNewItem guid (itemid r) (li_count i)) (put_loot loot (taken (itemSlot r) l) w)
      else put_loot loot (upd_item (itemSlot r) unblock l) w
    | DISENCHANT => told (Disenchanted guid (itemid r)) (put_loot loot (taken (itemSlot r) l) w)
    | _ => w
    end
  else w.
(** The world when the dice are rolled and the winner announced. *)
Definition rolled (need : bool) (r : Roll) (d : Z * Z * RollVote) (w : World) : World :=
  let ds := draws need (w_rng w) (items (playerVote r)) in
  told (LootRollWon (itemGUID r) d.1.1 d.1.2 d.2)
    (set_w_out (set_w_rng w ds.2) (w_out w ++ (announce (itemGUID r) <$> ds.1))).

Lemma loot_at_run l w x : loots w !! l = Some x → loot_at l w = Ok (x, w).
Proof. intros H. unfold loot_at, mbind, ST_bind, get, lift. cbn. by rewrite H. Qed.
Lemma upd_loot_run l f w x : loots w !! l = Some x → upd_loot l f w = Ok (tt, put_loot l (f x) w).
Proof. intros H. unfold upd_loot. by rewrite (bind_run _ _ _ _ _ (loot_at_run _ _ _ H)). Qed.

Lemma give_run r loot guid l i w :
  loots w !! loot = Some l → slot_item l (itemSlot r) = Ok i →
  give_item r loot guid w =
    Ok (tt, if CanStoreNewItem w guid (itemid r) (li_count i)
            then told (StoreNewItem guid (itemid r) (li_count i)) (put_loot loot (taken (itemSlot r) l) w)
            else put_loot loot (upd_item (itemSlot r) unblock l) w).
Proof.
  intros Hl Hi. unfold give_item. rewrite (bind_run _ _ _ _ _ (loot_at_run _ _ _ Hl)), Hi.
  rewrite (bind_run (lift (Ok i)) _ w i w) by done. rewrite (bind_run get _ w w w) by done.
  case_match; [|by apply upd_loot_run]. by rewrite (bind_run _ _ _ _ _ (upd_loot_run _ _ _ _ Hl)).
Qed.
Lemma disenchant_run r loot guid l i w :
  loots w !! loot = Some l → slot_item l (itemSlot r) = Ok i →
  disenchant_item r loot guid w =
    Ok (tt, told (Disenchanted guid (itemid r)) (put_loot loot (taken (itemSlot r) l) w)).
Proof.
  intros Hl Hi. unfold disenchant_item. rewrite (bind_run _ _ _ _ _ (loot_at_run _ _ _ Hl)), Hi.
  rewrite (bind_run (lift (Ok i)) _ w i w) by done. by rewrite (bind_run _ _ _ _ _ (upd_loot_run _ _ _ _ Hl)).
Qed.

Lemma award_run need r loot l i w :
  loots w !! loot = Some l → slot_item l (itemSlot r) = Ok i →
  (∃ guid v, playerVote r !! guid = Some v ∧ votes_for need v = true) →
  ∃ d, wins d (draws need (w_rng w) (items (playerVote r))).1 ∧
    award need r loot w = Ok (tt, prize r loot l i d (rolled need r d w)).
Proof.
  intros Hl Hi (guid & v & Hv & Hn). unfold award.
  assert ((guid, v) ∈ items (playerVote r)) as Hin by by apply items_elem.
  destruct (items (playerVote r)) as [|[first v0] rest] eqn:Eit; [set_solver|]. rewrite <- Eit in *.
  destruct (roll_best_run need (itemGUID r) (items (playerVote r)) (first, 0, if need then NEED else NOT_VALID) w)
    as (d & Er & Hw).
  exists d. split.
  { eapply wins_over_none; [|..|exact Hw]; [done| |apply draws_range]. intros E0.
    pose proof (draws_who need (items (playerVote r)) (w_rng w)) as Hwho. rewrite E0 in Hwho.
    assert ((guid, v) ∈ filter (λ v : Z * RollVote, votes_for need v.2 = true) (items (playerVote r))) as Hf
      by (apply list_elem_of_filter; by split).
    rewrite <- Hwho in Hf. set_solver. }
  rewrite (bind_run _ _ _ _ _ Er). destruct d as [[dg dn] dv]. cbn zeta.
  set (w1 := set_w_out _ _). rewrite (bind_run (tell _) _ w1 tt (told (LootRollWon (itemGUID r) dg dn dv) w1)) by done.
  change (told (LootRollWon (itemGUID r) dg dn dv) w1) with (rolled need r (dg, dn, dv) w).
  set (w2 := rolled need r _ w). rewrite (bind_run get _ w2 w2 w2) by done.
  assert (loots w2 !! loot = Some l) as Hl2 by done. unfold prize. cbn [fst snd].
  destruct (has_session w2 dg); [|done].
  destruct dv; try by apply give_run. all: try by eapply disenchant_run.
  all: rewrite (bind_run _ _ _ _ _ (loot_at_run _ _ _ Hl2)), Hi; done.
Qed.

(** ** The end of a roll *)

Lemma group_at_run a w g : groups w !! a = Some g → group_at a w = Ok (g, w).
Proof. intros H. unfold group_at, mbind, ST_bind, get, lift. cbn. by rewrite H. Qed.
Lemma upd_group_run a f w g :
  groups w !! a = Some g → upd_group a f w = Ok (tt, set_groups w (<[a := f g]> (groups w))).
Proof. intros H. unfold upd_group. by rewrite (bind_run _ _ _ _ _ (group_at_run _ _ _ H)). Qed.

Definition without_roll (a : Z) (k : nat) (g : Group) (w : World) : World :=
  set_groups w (<[a := set_RollId g (delete k (RollId g))]> (groups w)).

Lemma prize_groups r loot l i d w : groups (prize r loot l i d w) = groups w.
Proof. unfold prize. by repeat case_match. Qed.

Lemma count_run (need : bool) this k g r loot l i w :
  groups w !! this = Some g → RollId g !! k = Some r → r_loot r = Some loot →
  loots w !! loot = Some l → slot_item l (itemSlot r) = Ok i →
  (if need then 0 < totalNeed r else totalNeed r ≤ 0 ∧ 0 < totalGreed r) →
  (∃ guid v, playerVote r !! guid = Some v ∧ votes_for need v = true) →
  ∃ d, wins d (draws need (w_rng w) (items (playerVote r))).1 ∧
    CountTheRoll this k w = Ok (tt, without_roll this k g (prize r loot l i d (rolled need r d w))).
Proof.
  intros Hg Hr Hlink Hl Hi Ht Hv. destruct (award_run need r loot l i w Hl Hi Hv) as (d & Hd & E).
  exists d. split; [done|]. unfold CountTheRoll.
  rewrite (bind_run _ _ _ _ _ (group_at_run _ _ _ Hg)), Hr, Hlink.
  assert (∀ w', groups w' = groups w → erase_roll this k w' = Ok (tt, without_roll this k g w')) as Her.
  { intros w' Hw'. unfold erase_roll. rewrite (upd_group_run _ _ _ g) by by rewrite Hw'. done. }
  destruct need.
  - rewrite (proj2 (Z.ltb_lt _ _) Ht), (bind_run _ _ _ _ _ E). apply Her. by rewrite prize_groups.
  - destruct Ht as [Hn Hg0]. rewrite (proj2 (Z.ltb_ge _ _) Hn), (proj2 (Z.ltb_lt _ _) Hg0), (bind_run _ _ _ _ _ E).
    apply Her. by rewrite prize_groups.
Qed.

Lemma all_passed_run this k g r loot l i w :
  groups w !! this = Some g → RollId g !! k = Some r → r_loot r = Some loot →
  loots w !! loot = Some l → slot_item l (itemSlot r) = Ok i → totalNeed r ≤ 0 → totalGreed r ≤ 0 →
  CountTheRoll this k w = Ok (tt, without_roll this k g
    (put_loot loot (upd_item (itemSlot r) unblock l) (told (LootAllPassed (itemGUID r)) w))).
Proof.
  intros Hg Hr Hlink Hl Hi Hn Hg0. unfold CountTheRoll.
  rewrite (bind_run _ _ _ _ _ (group_at_run _ _ _ Hg)), Hr, Hlink.
  rewrite (proj2 (Z.ltb_ge _ _) Hn), (proj2 (Z.ltb_ge _ _) Hg0).
  set (w1 := told (LootAllPassed (itemGUID r)) w). assert (loots w1 !! loot = Some l) as Hl1 by done.
  erewrite bind_run.
  2:{ rewrite (bind_run (tell _) _ w tt w1) by done. rewrite (bind_run _ _ _ _ _ (loot_at_run _ _ _ Hl1)), Hi.
      rewrite (bind_run (lift (Ok i)) _ w1 i w1) by done. by apply upd_loot_run. }
  unfold erase_roll. by rewrite (upd_group_run _ _ _ g).
Qed.

(** ** EndRoll returns *)

(** An operation that leaves the groups alone and has no loop to run out of fuel. *)
Definition calm {A} (k : GM A) : Prop :=
  ∀ w, k w ≠ OutOfFuel ∧ ∀ x w', k w = Ok (x, w') → groups w' = groups w.

Lemma calm_ret {A} (x : A) : calm (mret x).
Proof. intros w. split; [done|]. by intros y w' [= _ <-]. Qed.
Lemma calm_lift {A} (o : outcome A) : o ≠ OutOfFuel → calm (lift o).
Proof. intros Ho w. split; [by destruct o|]. by intros y w' [_ ->]%lift_Ok. Qed.
Lemma calm_modify f : (∀ w, groups (f w) = groups w) → calm (modify f).
Proof. intros Hf w. split; [done|]. intros y w' [_ ->]%modify_Ok. apply Hf. Qed.
Lemma calm_bind {A B} (k : GM A) (f : A → GM B) : calm k → (∀ x, calm (f x)) → calm (k ≫= f).
Proof.
  intros Hk Hf w. destruct (Hk w) as [Hk1 Hk2]. split.
  - unfold mbind, ST_bind. destruct (k w) as [[x w1]| | | |]; try done. apply (Hf x w1).
  - intros y w' (x & w1 & E1 & E2)%bind_Ok. apply Hf in E2. by rewrite E2, (Hk2 _ _ E1).
Qed.
Lemma calm_get : calm get.
Proof. intros w. split; [done|]. by intros y w' [= _ <-]. Qed.
Lemma calm_loot_at l : calm (loot_at l).
Proof. apply calm_bind; [apply calm_get|intros w]. apply calm_lift. by destruct (loots w !! l). Qed.
Lemma calm_upd_loot l f : calm (upd_loot l f).
Proof. apply calm_bind; [apply calm_loot_at|intros x]. by apply calm_modify. Qed.
Lemma calm_tell e : calm (tell e).
Proof. by apply calm_modify. Qed.
Lemma slot_item_fuel l k : slot_item l k ≠ OutOfFuel.
Proof. unfold slot_item. by destruct (_ !! _). Qed.
#[local] Hint Resolve calm_ret calm_get calm_lift calm_loot_at calm_upd_loot calm_tell slot_item_fuel : calm.
Ltac calm_solve :=
  repeat match goal with
  | |- calm (_ ≫= _) => apply calm_bind; [|intros ?]
  | |- calm (match ?x with _ => _ end) => destruct x
  | |- calm skip => apply calm_ret
  | |- calm (modify _) => by apply calm_modify
  | _ => solve [auto with calm]
  end.

Lemma calm_roll_best need item l : ∀ best, calm (roll_best need item best l).
Proof. induction l as [|v l IH]; intros best; cbn; [|unfold roll_dice]; calm_solve. Qed.
#[local] Hint Resolve calm_roll_best : calm.
Lemma calm_award need r l : calm (award need r l).
Proof. unfold award, give_item, disenchant_item. calm_solve. Qed.
#[local] Hint Resolve calm_award : calm.

Lemma CountTheRoll_erases a k w g :
  groups w !! a = Some g → is_Some (RollId g !! k) →
  CountTheRoll a k w ≠ OutOfFuel ∧
  ∀ u w', CountTheRoll a k w = Ok (u, w') → groups w' = <[a := set_RollId g (delete k (RollId g))]> (groups w).
Proof.
  intros Hg [r Hr]. unfold CountTheRoll. rewrite (bind_run _ _ _ _ _ (group_at_run _ _ _ Hg)), Hr.
  assert (∀ w', groups w' = groups w → erase_roll a k w' = Ok (tt, without_roll a k g w')) as Her.
  { intros w' Hw'. unfold erase_roll. by rewrite (upd_group_run _ _ _ g) by by rewrite Hw'. }
  destruct (r_loot r) as [loot|]; [|rewrite Her by done; split; [done|]; by intros u w' [= _ <-]].
  match goal with |- (?k' ≫= _) _ ≠ _ ∧ _ => assert (calm k') as Hk by calm_solve end.
  destruct (Hk w) as [H1 H2]. unfold mbind, ST_bind. match goal with |- (let! _ := ?o in _) ≠ _ ∧ _ => destruct o as [[x w1]| | | |] eqn:E end; try done.
  cbn. rewrite (Her w1) by by eapply H2. split; [done|]. intros u w' [= _ <-]. cbn. by rewrite (H2 _ _ E).
Qed.

(** Every round of EndRoll erases a roll: it returns, and none of the loot's is left. *)
Lemma EndRoll_returns a l w :
  EndRoll a l w ≠ OutOfFuel ∧
  ∀ u w', EndRoll a l w = Ok (u, w') → ∃ g, groups w' !! a = Some g ∧ Forall (λ r, r_loot r ≠ Some l) (RollId g).
Proof.
  unfold EndRoll. destruct (groups w !! a) as [g|] eqn:Hg.
  2:{ assert (group_at a w = BadPtr) as E by (unfold group_at, mbind, ST_bind, get, lift; cbn; by rewrite Hg).
      unfold mbind, ST_bind. by rewrite E. }
  rewrite (bind_run _ _ _ _ _ (group_at_run _ _ _ Hg)).
  assert (length (RollId g) < S (length (RollId g)))%nat as Hlt by lia. revert Hlt.
  generalize (S (length (RollId g))) as n. intros n. revert w g Hg.
  induction n as [|n IH]; intros w g Hg Hlt; [lia|]. cbn.
  rewrite (bind_run _ _ _ _ _ (group_at_run _ _ _ Hg)).
  destruct (list_find _ _) as [[k r]|] eqn:Ef.
  - apply list_find_Some in Ef as (Hk & _ & _). pose proof (lookup_lt_Some _ _ _ Hk).
    destruct (CountTheRoll_erases a k w g Hg ltac:(eauto)) as [H1 H2]. unfold mbind, ST_bind.
    destruct (CountTheRoll a k w) as [[u w1]| | | |] eqn:E; try done. cbn.
    eapply (IH w1 (set_RollId g (delete k (RollId g)))); [by rewrite (H2 _ _ eq_refl), lookup_insert_eq|].
    cbn. rewrite length_delete by eauto. lia.
  - split; [done|]. intros u w' [= _ <-]. exists g. split; [done|]. by apply list_find_None in Ef.
Qed.

(** ** Counting the votes *)

Definition is_pass (v : RollVote) : bool := match v with PASS => true | _ => false end.
Definition pending (v : RollVote) : bool := match v with NOT_EMITED_YET => true | _ => false end.
(** The counters of a roll count its votes. *)
Record tallied (r : Roll) : Prop := mkTallied {
  ta_need : totalNeed r = count_if (votes_for true) (playerVote r);
  ta_greed : totalGreed r = count_if (votes_for false) (playerVote r);
  ta_pass : totalPass r = count_if is_pass (playerVote r);
  ta_size : totalPlayersRolling r = Z.of_nat (size (playerVote r));
  ta_valid : ∀ guid, playerVote r !! guid ≠ Some NOT_VALID;
  ta_small : Z.of_nat (size (playerVote r)) < 256
}.

Lemma count_if_size {V} (m : gmap Z V) : count_if (λ _, true) m = Z.of_nat (size m).
Proof.
  unfold count_if. do 2 f_equal. apply map_filter_id. done.
Qed.
Lemma count_if_add {V} (p q : V → bool) (m : gmap Z V) :
  (∀ k v, m !! k = Some v → p v && q v = false) → count_if (λ v, p v || q v) m = count_if p m + count_if q m.
Proof.
  induction m as [|k v m Hk IH] using map_ind; intros Hd; [done|].
  rewrite !count_if_insert_new by done. rewrite IH.
  - specialize (Hd k v (lookup_insert_eq _ _ _)). destruct (p v), (q v); try done; cbn; lia.
  - intros k' v' Hk'. apply (Hd k'). rewrite lookup_insert_ne; [done|]. by intros ->; rewrite Hk in Hk'.
Qed.

(** Every vote is a pass, a need, a greed or still to come. *)
Lemma votes_total (m : gmap Z RollVote) :
  (∀ guid, m !! guid ≠ Some NOT_VALID) →
  Z.of_nat (size m) = count_if is_pass m + count_if (votes_for true) m + count_if (votes_for false) m + count_if pending m.
Proof.
  intros Hv. rewrite <- count_if_size.
  rewrite (count_if_ext _ (λ v, ((is_pass v || votes_for true v) || votes_for false v) || pending v)).
  - rewrite !count_if_add; [lia|by intros ? [] ..].
  - intros k [] Hk; try done. by destruct (Hv k).
Qed.

Lemma count_if_pos {V} (p : V → bool) (m : gmap Z V) k v : m !! k = Some v → p v = true → 0 < count_if p m.
Proof.
  intros Hk Hp. rewrite <- (insert_delete_id m k v Hk), count_if_insert_new, Hp by apply lookup_delete_eq.
  pose proof (count_if_nonneg p (delete k m)). lia.
Qed.

(** The roll is over exactly when nobody's vote is missing. *)
Lemma all_voted_iff r :
  tallied r → all_voted r = true ↔ ∀ guid, playerVote r !! guid ≠ Some NOT_EMITED_YET.
Proof.
  intros [Hn Hg Hp Hs Hv _]. unfold all_voted. rewrite Z.leb_le, Hn, Hg, Hp, Hs, (votes_total _ Hv). split.
  - intros Hle guid Hk. pose proof (count_if_pos pending _ _ _ Hk eq_refl). lia.
  - intros Hno. rewrite (count_if_none pending); [lia|]. intros k v Hk. destruct v; try done. by destruct (Hno k).
Qed.

Lemma tallied_sums r : tallied r → totalPass r + totalNeed r + totalGreed r ≤ totalPlayersRolling r < 256.
Proof.
  intros [Hn Hg Hp Hs Hv Hlt]. rewrite Hn, Hg, Hp, Hs. split; [|done]. rewrite (votes_total _ Hv).
  pose proof (count_if_nonneg pending (playerVote r)). lia.
Qed.

Lemma cast_tallied guid v r :
  tallied r → playerVote r !! guid = Some NOT_EMITED_YET → v ≠ NOT_VALID → tallied (cast_vote guid v r).
Proof.
  intros Ht Hk Hv. pose proof (tallied_sums r Ht) as Hsum. destruct Ht as [Hn Hg Hp Hs Hno Hlt].
  pose proof (count_if_nonneg is_pass (playerVote r)). pose proof (count_if_nonneg (votes_for true) (playerVote r)).
  pose proof (count_if_nonneg (votes_for false) (playerVote r)).
  pose proof (count_if_pos pending _ _ _ Hk eq_refl). pose proof (votes_total _ Hno).
  assert (size (<[guid:=v]> (playerVote r)) = size (playerVote r)) as Hsize by (apply map_size_insert_Some; eauto).
  assert (∀ x, 0 ≤ x < Z.of_nat (size (playerVote r)) → u8 (x + 1) = x + 1) as Hu
    by (intros x Hx; apply wrap_small; unfold in_u; lia).
  split; destruct v; try done; cbn -[count_if]; rewrite ?(count_if_insert _ _ _ _ _ Hk), ?Hu, ?Hsize by lia; cbn; try lia; try done.
  all: intros guid' [(_ & ?)|(_ & ?)]%lookup_insert_Some; [done|by eapply Hno].
Qed.

Lemma forget_tallied guid r : tallied r → tallied (forget_vote guid r).
Proof.
  intros Ht. pose proof (tallied_sums r Ht) as Hsum. destruct Ht as [Hn Hg Hp Hs Hno Hlt].
  unfold forget_vote. destruct (playerVote r !! guid) as [v|] eqn:Hk; [|done].
  assert (∀ p, count_if p (playerVote r) = count_if p (delete guid (playerVote r)) + (if p v then 1 else 0)) as Hc.
  { intros p. rewrite <- (insert_delete_id _ _ _ Hk) at 1. by apply count_if_insert_new, lookup_delete_eq. }
  pose proof (Hc is_pass) as H1. pose proof (Hc (votes_for true)) as H2. pose proof (Hc (votes_for false)) as H3.
  pose proof (count_if_nonneg is_pass (delete guid (playerVote r))).
  pose proof (count_if_nonneg (votes_for true) (delete guid (playerVote r))).
  pose proof (count_if_nonneg (votes_for false) (delete guid (playerVote r))).
  assert (Z.of_nat (size (playerVote r)) = Z.of_nat (size (delete guid (playerVote r))) + 1) as Hsz.
  { rewrite <- !count_if_size. by rewrite Hc. }
  assert (∀ x, 1 ≤ x < 256 → u8 (x - 1) = x - 1) as Hu by (intros x Hx; apply wrap_small; unfold in_u; lia).
  split; destruct v; try (by destruct (Hno guid)); cbn -[count_if] in *; rewrite ?Hu by lia; try lia.
  all: intros guid' [_ ?]%lookup_delete_Some; by eapply Hno.
Qed.

(** A roll starts with every voter counted, those who always pass as having passed. *)
Lemma voters_tallied allowed near passing r ps :
  tallied r → NoDup ps.*1 → (∀ x, x ∈ ps.*1 → playerVote r !! x = None) →
  Z.of_nat (size (playerVote r)) + Z.of_nat (length ps) < 256 →
  tallied (foldl (add_voter allowed near passing) r ps).
Proof.
  revert r. induction ps as [|x ps IH]; intros r Ht Hnd Hnew Hlen; [done|]. cbn in *.
  apply NoDup_cons in Hnd as [Hx Hnd].
  assert (playerVote r !! x.1 = None) as Hk by (apply Hnew; set_solver).
  assert (tallied (add_voter allowed near passing r x) ∧
    (playerVote (add_voter allowed near passing r x) = playerVote r ∨
     ∃ v, playerVote (add_voter allowed near passing r x) = <[x.1 := v]> (playerVote r))) as [Ht' Hvotes].
  { unfold add_voter. destruct (_ && _ && _); [|by split; [|left]].
    pose proof (tallied_sums r Ht) as Hsum. destruct Ht as [Hn Hg Hp Hs Hno Hlt].
    pose proof (count_if_nonneg is_pass (playerVote r)). pose proof (count_if_nonneg (votes_for true) (playerVote r)).
    pose proof (count_if_nonneg (votes_for false) (playerVote r)).
    assert (∀ n, 0 ≤ n < 255 → u8 (n + 1) = n + 1) as Hu by (intros n Hn8; apply wrap_small; unfold in_u; lia).
    destruct (passing && _); (split; [|right; by eexists]).
    all: split; cbn -[count_if size]; rewrite ?count_if_insert_new, ?map_size_insert_None, ?Hu by (done || lia); cbn; try lia; try done.
    all: intros guid [(_ & ?)|(_ & ?)]%lookup_insert_Some; [done|by eapply Hno]. }
  apply IH; [done|done|..].
  - intros y Hy. destruct Hvotes as [->|[v ->]]; [apply Hnew; set_solver|].
    rewrite lookup_insert_ne by (by intros <-). apply Hnew. set_solver.
  - destruct Hvotes as [->|[v ->]]; [lia|]. rewrite map_size_insert_None by done. lia.
Qed.
Lemma new_roll_tallied guid i : tallied (new_roll guid i).
Proof. split; try done. Qed.

(** ** Casting a vote *)

Definition with_roll (a : Z) (k : nat) (r : Roll) (g : Group) (w : World) : World :=
  set_groups w (<[a := set_RollId g (<[k := r]> (RollId g))]> (groups w)).
Definition vote_number (v : RollVote) : Z := match v with NEED => 0 | _ => 128 end.

(** A vote that counts, one by one: announced, entered, and the roll decided when it is
    over. *)
Lemma vote_run this p guid choice v k g r loot l w :
  groups w !! this = Some g → GetRoll g guid = Some (k, r) → is_Some (playerVote r !! p) →
  r_loot r = Some loot → loots w !! loot = Some l → l_items l ≠ [] → emit_vote choice = Some v →
  let w1 := with_roll this k (cast_vote p v r) g (told (LootRolled guid p (vote_number v) v) w) in
  CountRollVote this p guid choice w =
    if all_voted (cast_vote p v r) then CountTheRoll this k w1 else Ok (tt, w1).
Proof.
  intros Hg Hr [v0 Hp] Hlink Hl Hne Hv w1. unfold CountRollVote.
  rewrite (bind_run _ _ _ _ _ (group_at_run _ _ _ Hg)), Hr, Hp, Hlink.
  rewrite (bind_run _ _ _ _ _ (loot_at_run _ _ _ Hl)). destruct (l_items l); [done|]. rewrite Hv.
  rewrite (bind_run (tell _) _ w tt (told (LootRolled guid p (vote_number v) v) w)) by done.
  rewrite (bind_run _ _ _ _ _ (upd_group_run this _ (told _ w) g Hg)). by destruct (all_voted _).
Qed.

(** The updated roll is found where it was. *)
Lemma GetRoll_with g guid k r r' :
  GetRoll g guid = Some (k, r) → itemGUID r' = itemGUID r → r_loot r' = r_loot r →
  GetRoll (set_RollId g (<[k := r']> (RollId g))) guid = Some (k, r').
Proof.
  unfold GetRoll. cbn. intros (Hk & Hok & Hlt)%list_find_Some Hi Hl. apply list_find_Some.
  pose proof (lookup_lt_Some _ _ _ Hk). split; [by apply list_lookup_insert_eq|]. split.
  - unfold valid_roll in *. by rewrite Hi, Hl.
  - intros j y Hj Hjk. rewrite list_lookup_insert_ne in Hj by lia. eauto.
Qed.
Lemma cast_vote_same p v r : itemGUID (cast_vote p v r) = itemGUID r ∧ r_loot (cast_vote p v r) = r_loot r ∧ itemSlot (cast_vote p v r) = itemSlot r.
Proof. by destruct v. Qed.

Lemma delete_insert_list {A} (k : nat) (x : A) (l : list A) : delete k (<[k := x]> l) = delete k l.
Proof. revert k. induction l as [|y l IH]; intros [|k]; [done..|]. cbn. f_equal. apply IH. Qed.

(** A player who has a vote in the roll passes [n] times: each time counts. *)
Lemma passes_run this p guid loot l (n : nat) : ∀ k g r w i,
  groups w !! this = Some g → GetRoll g guid = Some (k, r) → is_Some (playerVote r !! p) →
  r_loot r = Some loot → loots w !! loot = Some l → slot_item l (itemSlot r) = Ok i → l_items l ≠ [] →
  totalNeed r = 0 → totalGreed r = 0 → 0 ≤ totalPass r → totalPlayersRolling r < 256 →
  totalPlayersRolling r = totalPass r + Z.of_nat (S n) →
  ∃ w', for_each (replicate (S n) tt) (λ _, CountRollVote this p guid 0) w = Ok (tt, w') ∧
    groups w' !! this = Some (set_RollId g (delete k (RollId g))) ∧
    loots w' !! loot = Some (upd_item (itemSlot r) unblock l) ∧ LootAllPassed guid ∈ w_out w'.
Proof.
  induction n as [|n IH]; intros k g r w i Hg Hr Hp Hlink Hl Hi Hne Hn Hgr H0 Hlt Hall.
  all: pose proof (vote_run this p guid 0 PASS k g r loot l w Hg Hr Hp Hlink Hl Hne eq_refl) as E; cbv zeta in E.
  all: assert (totalPass (cast_vote p PASS r) = totalPass r + 1) as Hpass by (cbn; apply wrap_small; unfold in_u; lia).
  all: set (w1 := with_roll _ _ _ _ _) in E; set (g1 := set_RollId g (<[k := cast_vote p PASS r]> (RollId g))).
  all: assert (groups w1 !! this = Some g1) as Hg1 by apply lookup_insert_eq.
  all: assert (RollId g !! k = Some r ∧ itemGUID r = guid) as [Hkr Hid] by (apply list_find_Some in Hr as (? & [? ?] & _); by split).
  all: pose proof (lookup_lt_Some _ _ _ Hkr).
  all: assert (GetRoll g1 guid = Some (k, cast_vote p PASS r)) as Hr1 by (by apply (GetRoll_with g guid k r)).
  all: assert (∀ x, set_RollId g1 (delete k (RollId g1)) = x → set_RollId g (delete k (RollId g)) = x) as Hdel
    by (intros x <-; unfold g1; cbn; by rewrite delete_insert_list).
  - assert (all_voted (cast_vote p PASS r) = true) as Hv.
    { unfold all_voted. rewrite Hpass. cbn. apply Z.leb_le. lia. }
    rewrite Hv in E. rewrite (all_passed_run this k g1 (cast_vote p PASS r) loot l i w1) in E; try done; cycle 1.
    { unfold g1. cbn. by apply list_lookup_insert_eq. } { cbn. lia. } { cbn. lia. }
    eexists. split; [cbn [replicate for_each]; by rewrite (bind_run _ _ _ _ _ E)|]. cbn.
    rewrite !lookup_insert_eq. split; [by f_equal; symmetry; apply Hdel|]. split; [done|]. rewrite Hid. set_solver.
  - assert (all_voted (cast_vote p PASS r) = false) as Hv.
    { unfold all_voted. rewrite Hpass. cbn. apply Z.leb_gt. lia. }
    rewrite Hv in E.
    destruct (IH k g1 (cast_vote p PASS r) w1 i) as (w' & E' & Hg' & Hl' & Ho); try done.
    { cbn. rewrite lookup_insert_eq. eauto. } { rewrite Hpass. lia. } { rewrite Hpass. cbn. lia. }
    exists w'. split; [cbn [replicate for_each] in *; by rewrite (bind_run _ _ _ _ _ E)|].
    split; [|done]. rewrite Hg'. by f_equal; symmetry; apply Hdel.
Qed.

(** ** Turns *)

(** The next looter: the first one near behind the last, around the list. *)
Definition next_looter (near : Z → bool) (l : list MemberSlot) (old : Z) : Z :=
  match list_find (λ s, near (s_guid s) = true) (looter_order old l) with
  | Some (_, s) => s_guid s
  | None => 0
  end.

Lemma turn_run this near w g :
  groups w !! this = Some g → m_lootMethod g ≠ FREE_FOR_ALL →
  UpdateLooterGuid this near false w =
    Ok (tt, set_groups w (<[this := set_m_looterGuid g (next_looter near (m_memberSlots g) (m_looterGuid g))]> (groups w))).
Proof.
  intros Hg Hm. unfold UpdateLooterGuid. rewrite (bind_run _ _ _ _ _ (group_at_run _ _ _ Hg)).
  rewrite bool_decide_eq_false_2 by done. cbn [andb]. unfold next_looter, GetLooterGuid.
  rewrite bool_decide_eq_false_2 by done.
  destruct (list_find _ _) as [[i s]|]; by rewrite (upd_group_run _ _ _ g Hg).
Qed.

(** The order in which the members are asked is the list, begun somewhere else. *)
Lemma looter_order_rot old l : ∃ T D, l = T ++ D ∧ looter_order old l = D ++ T.
Proof.
  unfold looter_order. destruct (list_find _ l) as [[i s]|].
  - exists (take (S i) l), (drop (S i) l). split; [by rewrite take_drop|done].
  - exists [], l. split; [done|by rewrite app_nil_r].
Qed.
Lemma looter_order_at l1 s l2 :
  NoDup (s_guid <$> l1 ++ s :: l2) → looter_order (s_guid s) (l1 ++ s :: l2) = l2 ++ l1 ++ [s].
Proof.
  intros Hnd. unfold looter_order. assert (list_find (λ x, s_guid x = s_guid s) (l1 ++ s :: l2) = Some (length l1, s)) as ->.
  { apply list_find_Some. split; [by apply list_lookup_middle|]. split; [done|]. intros j y Hj Hlt Hy.
    rewrite fmap_app, fmap_cons in Hnd. apply NoDup_app in Hnd as (_ & Hd & _).
    rewrite lookup_app_l in Hj by done. apply (Hd (s_guid y)); [by eapply list_elem_of_fmap_2, list_elem_of_lookup_2|].
    rewrite Hy. set_solver. }
  rewrite drop_app_ge, take_app_ge by lia. replace (S (length l1) - length l1)%nat with 1%nat by lia.
  cbn. by rewrite take_0, drop_0.
Qed.
(** Behind [x] come those that came behind it, then those before it, then [x]. *)
Lemma looter_order_next old l a x b :
  NoDup (s_guid <$> l) → looter_order old l = a ++ x :: b → looter_order (s_guid x) l = b ++ a ++ [x].
Proof.
  intros Hnd E. destruct (looter_order_rot old l) as (T & D & -> & E'). rewrite E' in E.
  apply app_eq_app in E as (m & [[-> Hm]|[-> Hm]]).
  - destruct m as [|y m].
    + cbn in Hm. subst T. rewrite app_nil_r in *. cbn. cbn in Hnd.
      pose proof (looter_order_at [] x (b ++ a)) as H. cbn in H. rewrite H by done. by rewrite app_assoc.
    + injection Hm as <- ->. pose proof (looter_order_at (T ++ a) x m) as H. rewrite <- app_assoc in H.
      rewrite H by done. by rewrite <- !app_assoc.
  - subst T. rewrite <- app_assoc in Hnd |- *. cbn in *. rewrite looter_order_at by done. by rewrite <- !app_assoc.
Qed.

Lemma find_first near (l : list MemberSlot) s l2 :
  Forall (λ s, near (s_guid s) = false) l → near (s_guid s) = true →
  list_find (λ s, near (s_guid s) = true) (l ++ s :: l2) = Some (length l, s).
Proof.
  intros Hl Hs. apply list_find_Some. split; [by apply list_lookup_middle|]. split; [done|].
  intros j y Hj Hlt. rewrite lookup_app_l in Hj by done. rewrite Forall_lookup in Hl. by rewrite (Hl j y Hj).
Qed.
Lemma split_near near (l : list MemberSlot) :
  Forall (λ s, near (s_guid s) = false) l ∨
  ∃ a x b, l = a ++ x :: b ∧ Forall (λ s, near (s_guid s) = false) a ∧ near (s_guid x) = true.
Proof.
  induction l as [|s l IH]; [by left|]. destruct (near (s_guid s)) eqn:E.
  - right. exists [], s, l. by repeat split.
  - destruct IH as [H|(a & x & b & -> & H & Hx)]; [left; by constructor|].
    right. exists (s :: a), x, b. by repeat split; [constructor|].
Qed.

(** Who is near gets the turn before [n] others do, if [n] come before. *)
Lemma turn_comes near l s : NoDup (s_guid <$> l) → near (s_guid s) = true → ∀ n before behind old,
  looter_order old l = before ++ s :: behind → (length before < n)%nat →
  ∃ m, (m ≤ n)%nat ∧ (0 < m)%nat ∧ Nat.iter m (next_looter near l) old = s_guid s.
Proof.
  intros Hnd Hs. induction n as [|n IH]; intros before behind old E Hlt; [lia|].
  destruct (split_near near before) as [Hno|(a & x & b & -> & Ha & Hx)].
  - exists 1%nat. split; [lia|]. split; [lia|]. cbn. unfold next_looter. rewrite E. by rewrite find_first.
  - rewrite <- app_assoc in E. cbn in E.
    assert (next_looter near l old = s_guid x) as Hn by (unfold next_looter; rewrite E; by rewrite find_first).
    destruct (IH b (behind ++ a ++ [x]) (s_guid x)) as (m & Hm & H0 & Hit).
    + rewrite (looter_order_next _ _ _ _ _ Hnd E), <- app_assoc. done.
    + rewrite length_app in Hlt. cbn in Hlt. lia.
    + exists (S m). split; [lia|]. split; [lia|]. by rewrite Nat.iter_succ_r, Hn.
Qed.

(** Updates of the looter, one after the other. *)
Lemma turns_run this near (n : nat) : ∀ w g,
  groups w !! this = Some g → m_lootMethod g ≠ FREE_FOR_ALL →
  ∃ w', for_each (replicate n tt) (λ _, UpdateLooterGuid this near false) w = Ok (tt, w') ∧
    groups w' !! this = Some (set_m_looterGuid g (Nat.iter n (next_looter near (m_memberSlots g)) (m_looterGuid g))).
Proof.
  induction n as [|n IH]; intros w g Hg Hm; [exists w; split; [done|by rewrite Hg; destruct g]|].
  pose proof (turn_run this near w g Hg Hm) as E.
  match type of E with _ = Ok (tt, ?x) => set (w1 := x) in E end.
  destruct (IH w1 (set_m_looterGuid g (next_looter near (m_memberSlots g) (m_looterGuid g)))) as (w' & E' & Hg').
  { apply lookup_insert_eq. } { done. }
  exists w'. split; [cbn [replicate for_each]; by rewrite (bind_run _ _ _ _ _ E)|].
  rewrite Hg'. cbn [m_memberSlots m_looterGuid set_m_looterGuid]. by rewrite Nat.iter_succ_r.
Qed.
End rolls.

End GroupRolls.
