(* ===== verification/GroupTheorems.v ===== *)
(** * What holds of player groups, and what does not

    The theorems about groups and their loot with concrete runs they apply to, and the
    histories in which the code does something else than it means to. *)
From S2P Require Import Prelude StateMonad GroupData GroupLoot GroupHandlers GroupLocal GroupInvariant GroupRolls.

Module GroupTheorems.
Export GroupHandlers.
Import GroupInvariant GroupRolls.

(** ** A server with four players *)

#[export] Instance dice : Random := {|
  rng := Z;
  urand s min max := (min + (if bool_decide (min ≤ max) then s `mod` (max - min + 1) else 0), s * 7 + 3);
  urand_range := ltac:(intros s min max H; cbn; rewrite bool_decide_eq_true_2 by done; pose proof (Z.mod_pos_bound s (max - min + 1)); lia)
|}.
#[export] Instance demo_loot : LootEnv := {|
  GetItemTemplate := λ i, Some (mkTemplate 3 1 100 false);
  CanStoreNewItem := λ w g i c, true
|}.
Definition guid_of (name : string) : Z :=
  if String.eqb name "A" then 1 else if String.eqb name "B" then 2
  else if String.eqb name "C" then 3 else if String.eqb name "D" then 4 else 0.
#[export] Instance demo_group_env : GroupEnv := {|
  CONFIG_ALLOW_GM_GROUP := true;
  CONFIG_ALLOW_TWO_SIDE_INTERACTION_GROUP := false;
  CacheGetGUID := guid_of;
  LfgGetDungeonMapId _ _ := 0;
  LfgGetKicksLeft _ _ := 3;
  LfgIsVoteKickActive _ _ := false;
  LfgIsFinished _ _ := false;
  GetLfgBootVoteTime _ _ := 0
|}.
Definition at_home : PlayerEnv := mkEnv true true false false false false false true 67 80 0 0 0 false ∅.
Definition logins : list op :=
  [OpLogin 1 "A" 0 0 at_home; OpLogin 2 "B" 0 0 at_home; OpLogin 3 "C" 0 0 at_home; OpLogin 4 "D" 0 0 at_home].
Definition join (leader me : Z) (name : string) : list op := [OpInvite leader (Some name); OpAccept me].

Definition legit_op (w : World) (o : op) : bool :=
  match o with
  | OpLfgGroup (Some a) _ _ => match groups w !! a with Some g => isLFGGroup g | None => true end
  | _ => true
  end.
Lemma legit_op_sound w o : legit_op w o = true → legit o w.
Proof. destruct o; try done. destruct grp as [a|]; [|done]. cbn. intros H g Hg. by rewrite Hg in H. Qed.

Fixpoint play (w : World) (ops : list op) : outcome World :=
  match ops with
  | [] => Ok w
  | o :: ops => if legit_op w o then let! (_, w) := perform o w in play w ops else AssertFail
  end.
Lemma history_reachable w ops w' : groups_reachable w → play w ops = Ok w' → groups_reachable w'.
Proof.
  revert w. induction ops as [|o ops IH]; intros w Hr E; cbn in E; [by injection E as <-|].
  destruct (legit_op w o) eqn:Eo; [|done]. destruct (perform o w) as [[[] w1]| | | |] eqn:Ep; try done.
  eapply IH; [|exact E]. eapply groups_step; [done|by apply legit_op_sound|done].
Qed.
Definition run_of (ops : list op) : World := match play (new_world 5) ops with Ok w => w | _ => new_world 5 end.
Lemma run_reachable ops : groups_reachable (run_of ops).
Proof.
  unfold run_of. destruct (play _ _) eqn:E; try apply groups_start. eapply history_reachable; [apply groups_start|done].
Qed.

(** ** Every group, in every history *)

Section theorems.
Context {RND : Random} {LV : LootEnv} {GE : GroupEnv}.

(** C10: In every history of requests every group is in order: the counters of a raid's
    subgroups are the numbers of their members (modulo 256) and a party has none, no two
    icons mark one target, and there is at most one main tank and one main assistant. *)
Theorem groups_in_order w a g :
  groups_reachable w → groups w !! a = Some g →
  subgroups_ok g ∧ icons_ok g ∧
  (flagged MEMBER_FLAG_MAINTANK (m_memberSlots g) ≤ 1)%nat ∧ (flagged MEMBER_FLAG_MAINASSIST (m_memberSlots g) ≤ 1)%nat.
Proof. intros Hr Hg. destruct (reachable_group_ok w a g Hr Hg). auto. Qed.

(** C27: In every history a group that the dungeon finder did not make has at most five
    members, as a raid at most forty with at most five in a subgroup, and the counters
    say exactly which subgroups have room. *)
Theorem group_sizes w a g n :
  groups_reachable w → groups w !! a = Some g → isLFGGroup g = false → 0 ≤ n < MAX_RAID_SUBGROUPS →
  GetMembersCount g ≤ (if isRaidGroup g then MAXRAIDSIZE else MAXGROUPSIZE) ∧
  (isRaidGroup g = true → count_sub (m_memberSlots g) n ≤ MAXGROUPSIZE) ∧
  HasFreeSlotSubGroup g n = Ok (isRaidGroup g && (count_sub (m_memberSlots g) n <? MAXGROUPSIZE)).
Proof.
  intros Hr Hg HL Hn. pose proof (reachable_group_ok w a g Hr Hg) as Hok.
  split; [by apply raid_bound|]. split; [|by apply free_slot_exact].
  intros Hraid. pose proof (go_bounded g Hok HL) as Hb. rewrite Hraid in Hb. by apply Hb.
Qed.

(** ** Rolls *)

(** C4: A roll somebody needs goes to one who needs it, otherwise to one who wants it for
    greed or to disenchant: everybody who voted so rolls once, in the order of the guids,
    a number from 1 to 100, the first of the highest numbers wins, and the winner who is
    connected gets the item (or what it disenchants to) when there is room for it. The
    roll is gone. *)
Theorem loot_roll_winner (need : bool) this k w g r loot l i :
  groups w !! this = Some g → RollId g !! k = Some r → r_loot r = Some loot →
  loots w !! loot = Some l → slot_item l (itemSlot r) = Ok i →
  (if need then 0 < totalNeed r else totalNeed r ≤ 0 ∧ 0 < totalGreed r) →
  (∃ guid v, playerVote r !! guid = Some v ∧ votes_for need v = true) →
  let ds := (draws need (w_rng w) (items (playerVote r))).1 in
  ((λ d, (d.1.1, d.2)) <$> ds) = filter (λ v, votes_for need v.2 = true) (items (playerVote r)) ∧
  Forall (λ d, 1 ≤ d.1.2 ≤ 100) ds ∧
  ∃ d, wins d ds ∧
    CountTheRoll this k w = Ok (tt, without_roll this k g (prize r loot l i d (rolled need r d w))).
Proof.
  intros Hg Hr Hlink Hl Hi Ht Hv ds. split; [apply draws_who|]. split; [apply draws_range|].
  by eapply count_run.
Qed.

(** C22: While everybody votes at most once a roll counts its votes, and it is decided
    exactly by the vote after which nobody's is missing. *)
Theorem last_vote_decides this p guid choice v k g r loot l w :
  groups w !! this = Some g → GetRoll g guid = Some (k, r) → tallied r →
  playerVote r !! p = Some NOT_EMITED_YET → r_loot r = Some loot → loots w !! loot = Some l → l_items l ≠ [] →
  emit_vote choice = Some v →
  let r' := cast_vote p v r in
  let w1 := with_roll this k r' g (told (LootRolled guid p (vote_number v) v) w) in
  tallied r' ∧
  ((∃ q, playerVote r' !! q = Some NOT_EMITED_YET) → CountRollVote this p guid choice w = Ok (tt, w1)) ∧
  ((∀ q, playerVote r' !! q ≠ Some NOT_EMITED_YET) →
   CountRollVote this p guid choice w = CountTheRoll this k w1).
Proof.
  intros Hg Hr Ht Hp Hlink Hl Hne Hv r' w1.
  assert (tallied r') as Ht'.
  { apply cast_tallied; [done|done|]. intros ->. revert Hv. unfold emit_vote. by repeat case_match. }
  split; [done|]. pose proof (all_voted_iff r' Ht') as Hiff.
  rewrite (vote_run this p guid choice v k g r loot l w) by eauto.
  change (cast_vote p v r) with r'. destruct (all_voted r'); split; [|done|done|].
  - intros [q Hq]. by destruct (proj1 Hiff eq_refl q).
  - intros Hno. by pose proof (proj2 Hiff Hno).
Qed.

(** C16: The turns of round robin go around: a member close to the looted creatures has
    the turn after at most as many updates as there are members. *)
Theorem everybody_gets_a_turn this near w g s :
  groups w !! this = Some g → m_lootMethod g ≠ FREE_FOR_ALL → NoDup (s_guid <$> m_memberSlots g) →
  s ∈ m_memberSlots g → near (s_guid s) = true →
  ∃ n w' g', (0 < n ≤ length (m_memberSlots g))%nat ∧
    for_each (replicate n tt) (λ _, UpdateLooterGuid this near false) w = Ok (tt, w') ∧
    groups w' !! this = Some g' ∧ GetLooterGuid g' = s_guid s.
Proof.
  intros Hg Hm Hnd Hs Hnear. destruct (looter_order_rot (m_looterGuid g) (m_memberSlots g)) as (T & D & El & E).
  assert (s ∈ looter_order (m_looterGuid g) (m_memberSlots g)) as Hin.
  { rewrite E. rewrite El in Hs. set_solver. }
  apply list_elem_of_split in Hin as (before & behind & E').
  assert (length before < length (m_memberSlots g))%nat as Hlen.
  { assert (length (looter_order (m_looterGuid g) (m_memberSlots g)) = length (m_memberSlots g)) as Hl
      by (rewrite E, El, !length_app; lia).
    rewrite E', length_app in Hl. cbn in Hl. lia. }
  destruct (turn_comes near (m_memberSlots g) s Hnd Hnear _ _ _ _ E' Hlen) as (n & Hn & H0 & Hit).
  destruct (turns_run this near n w g Hg Hm) as (w' & Hw & Hg'). rewrite Hit in Hg'.
  exists n, w', (set_m_looterGuid g (s_guid s)). repeat split; [done..|].
  unfold GetLooterGuid. cbn. by rewrite bool_decide_eq_false_2.
Qed.

(** C38: CountRollVote does not ask whether the player has voted before: in a roll that
    nobody needs or wants yet one player who passes again and again ends the roll for
    everybody, and the item is free for all. *)
Theorem one_player_ends_the_roll this p guid k g r loot l i w :
  groups w !! this = Some g → GetRoll g guid = Some (k, r) → is_Some (playerVote r !! p) →
  r_loot r = Some loot → loots w !! loot = Some l → slot_item l (itemSlot r) = Ok i → l_items l ≠ [] →
  totalNeed r = 0 → totalGreed r = 0 → 0 ≤ totalPass r < totalPlayersRolling r → totalPlayersRolling r < 256 →
  ∃ n w', for_each (replicate n tt) (λ _, CountRollVote this p guid 0) w = Ok (tt, w') ∧
    groups w' !! this = Some (set_RollId g (delete k (RollId g))) ∧
    loots w' !! loot = Some (upd_item (itemSlot r) unblock l) ∧ LootAllPassed guid ∈ w_out w'.
Proof.
  intros Hg Hr Hp Hlink Hl Hi Hne Hn Hgr H0 Hlt.
  exists (S (Z.to_nat (totalPlayersRolling r - totalPass r - 1))). eapply passes_run; try done; lia.
Qed.
End theorems.

(** ** Concrete worlds *)

Ltac concrete := try match goal with |- @eq _ _ _ => vm_compute; reflexivity end.


Definition raid_ops : list op := logins ++ join 1 2 "B" ++ join 1 3 "C" ++ [OpRaidConvert 1; OpAssign 1 0 true 2; OpTarget 1 3 77 true].
Definition raid_world : World := Eval vm_compute in run_of raid_ops.
Lemma raid_world_reachable : groups_reachable raid_world.
Proof. replace raid_world with (run_of raid_ops) by (vm_compute; reflexivity). apply run_reachable. Qed.
Definition the_raid : Group := default no_group (groups raid_world !! 1).
Lemma the_raid_at : groups raid_world !! 1 = Some the_raid.
Proof. vm_compute. reflexivity. Qed.

Lemma groups_in_order_witness : GetMembersCount the_raid = 3 ∧ subgroups_ok the_raid ∧ icons_ok the_raid.
Proof.
  split; [vm_compute; reflexivity|].
  destruct (groups_in_order raid_world 1 the_raid raid_world_reachable the_raid_at) as (H1 & H2 & _). by split.
Defined.
Lemma group_sizes_witness : GetMembersCount the_raid ≤ 40 ∧ HasFreeSlotSubGroup the_raid 0 = Ok true.
Proof.
  destruct (group_sizes raid_world 1 the_raid 0 raid_world_reachable the_raid_at) as (H1 & _ & H2);
    [vm_compute; reflexivity|done|].
  split; [exact H1|]. vm_compute. reflexivity.
Defined.

(** A creature with one item to roll for dies. *)
Definition an_item : LootItem := mkLootItem 500 1 false false false false true.
Definition roll_ops : list op :=
  logins ++ join 1 2 "B" ++ join 1 3 "C" ++
  [OpNewLoot [an_item] [] 1; OpRollLoot false 1 2 (λ _ _, true) (λ _, true)].
Definition roll_world : World := Eval vm_compute in run_of roll_ops.
Definition rolling : Group := Eval vm_compute in default no_group (groups roll_world !! 1).
Definition the_roll : Roll := Eval vm_compute in default (new_roll 0 an_item) (RollId rolling !! 0%nat).
Definition blocked_loot : Loot := mkLoot [block an_item] [] 1.
Definition need_world : World := Eval vm_compute in
  match play roll_world [OpLootRoll 1 1 1; OpLootRoll 2 1 1] with Ok w => w | _ => roll_world end.
Definition needed : Group := Eval vm_compute in default no_group (groups need_world !! 1).
Definition needed_roll : Roll := Eval vm_compute in default the_roll (RollId needed !! 0%nat).

Lemma loot_roll_winner_witness :
  ∃ (d : Z * Z * RollVote) w', d.2 = NEED ∧ CountTheRoll 1 0 need_world = Ok (tt, w') ∧ StoreNewItem d.1.1 500 1 ∈ w_out w'.
Proof.
  destruct (loot_roll_winner true 1 0 need_world needed needed_roll 2 blocked_loot (block an_item))
    as (Hwho & _ & d & Hd & E); concrete.
  { done. }
  { exists 1, NEED. split; vm_compute; reflexivity. }
  assert (d.2 = NEED ∧ (d.1.1 = 1 ∨ d.1.1 = 2)) as [Hneed Hg].
  { destruct Hd as (l1 & l2 & Hl & _). rewrite Hl in Hwho. 
    assert ((d.1.1, d.2) ∈ [(1, NEED); (2, NEED)]) as Hin.
    { replace [(1, NEED); (2, NEED)] with (filter (λ v : Z * RollVote, votes_for true v.2 = true) (items (playerVote needed_roll)))
        by (vm_compute; reflexivity).
      rewrite <- Hwho, fmap_app, fmap_cons. set_solver. }
    set_solver. }
  exists d. eexists. split; [exact Hneed|]. split; [exact E|].
  unfold prize. rewrite Hneed. destruct Hg as [->| ->]; cbn; set_solver.
Defined.

(** A and B have voted; C's vote decides. *)
Lemma last_vote_decides_witness :
  ∃ w', CountRollVote 1 3 1 0 need_world = CountTheRoll 1 0 w' ∧ playerVote needed_roll !! 3 = Some NOT_EMITED_YET.
Proof.
  destruct (last_vote_decides 1 3 1 0 PASS 0 needed needed_roll 2 blocked_loot need_world) as (_ & _ & E);
    concrete.
  - split; concrete; [|done]. intros guid.
    do 3 (destruct guid as [|[guid|guid|]|]; try discriminate; cbn; try discriminate).
  - discriminate.
  - eexists. split; [apply E|vm_compute; reflexivity]. intros q Hq.
    assert (count_if pending (playerVote (cast_vote 3 PASS needed_roll)) = 0) as H0 by (vm_compute; reflexivity).
    pose proof (count_if_pos pending _ _ _ Hq eq_refl). lia.
Defined.

Lemma everybody_gets_a_turn_witness : ∃ n w' g', (0 < n ≤ 3)%nat ∧
  for_each (replicate n tt) (λ _, UpdateLooterGuid 1 (λ _, true) false) roll_world = Ok (tt, w') ∧
  groups w' !! 1 = Some g' ∧ GetLooterGuid g' = 3.
Proof.
  apply (everybody_gets_a_turn 1 (λ _, true) roll_world rolling (mkSlot 3 "C" 0 0 0)); concrete.
  - discriminate.
  - apply (bool_decide_unpack _). vm_compute. exact I.
  - cbn. set_solver.
Defined.

Lemma one_player_ends_the_roll_witness : ∃ n w', for_each (replicate n tt) (λ _, CountRollVote 1 3 1 0) roll_world = Ok (tt, w') ∧
  LootAllPassed 1 ∈ w_out w'.
Proof.
  destruct (one_player_ends_the_roll 1 3 1 0 rolling the_roll 2 blocked_loot (block an_item) roll_world)
    as (n & w' & E & _ & _ & H); concrete.
  - vm_compute. eauto.
  - discriminate.
  - split; vm_compute; congruence.
  - done.
  - by exists n, w'.
Defined.

(** ** What the code does wrong *)

Definition twice_off_ops : list op :=
  logins ++ join 1 2 "B" ++ [OpInvite 3 (Some "D"); OpDisband 3; OpInvite 3 (Some "D"); OpAccept 4; OpDisband 2;
    OpInvite 1 (Some "B"); OpDisband 1; OpInvite 1 (Some "B"); OpAccept 2].
Definition twice_off : World := Eval vm_compute in run_of twice_off_ops.
Lemma twice_off_reachable : groups_reachable twice_off.
Proof. replace twice_off with (run_of twice_off_ops) by (vm_compute; reflexivity). apply run_reachable. Qed.

(** Calling off a group that nobody has joined (CMSG_GROUP_DISBAND by its leader)
    disbands it under the database id 0 that it never got: on a fresh server that writes
    past the end of the store of ids; later the id 0 counts as free, and of two groups
    that are called off and made again both get it. *)
Theorem called_off_group :
  (∃ w, groups_reachable w ∧ perform (OpDisband 1) w = Undefined) ∧
  ∃ w a b ga gb, groups_reachable w ∧ a ≠ b ∧ groups w !! a = Some ga ∧ groups w !! b = Some gb ∧
    IsCreated ga = true ∧ IsCreated gb = true ∧ m_dbStoreId ga = m_dbStoreId gb.
Proof.
  split.
  - exists (run_of (logins ++ [OpInvite 1 (Some "B")])). split; [apply run_reachable|vm_compute; reflexivity].
  - exists twice_off, 3, 5, (default no_group (groups twice_off !! 3)), (default no_group (groups twice_off !! 5)).
    split; [exact twice_off_reachable|]. split; [done|]. split_and!; concrete.
Qed.

Definition declined_ops : list op :=
  logins ++ [OpInvite 1 (Some "B"); OpInvite 1 (Some "C"); OpDecline 1; OpInvite 4 (Some "A"); OpAccept 1; OpAccept 2].
Definition declined : World := Eval vm_compute in run_of declined_ops.
Lemma declined_reachable : groups_reachable declined.
Proof. replace declined with (run_of declined_ops) by (vm_compute; reflexivity). apply run_reachable. Qed.

(** Somebody who formed a group that nobody has joined and then declines it leads it
    still: the first to accept puts him into it although he plays in another group. *)
Theorem member_of_two_groups :
  ∃ w a b ga gb, groups_reachable w ∧ a ≠ b ∧ groups w !! a = Some ga ∧ groups w !! b = Some gb ∧
    IsMember ga 1 = true ∧ IsMember gb 1 = true ∧ IsLeader gb 1 = true.
Proof.
  exists declined, 2, 1, (default no_group (groups declined !! 2)), (default no_group (groups declined !! 1)).
  split; [exact declined_reachable|]. split; [done|]. split_and!; concrete.
Qed.

End GroupTheorems.
