(* ===== verification/LfgRoles.v ===== *)
(** * Roles of the dungeon finder
    ([src/server/game/DungeonFinding/LFG.h], [LFGQueue.cpp], [LFGMgr.cpp])

    Every player selects some of the roles tank, healer and damage; a group needs
    one tank, one healer and three damage dealers. The queue enumerates the
    arrangements ([LFGQueue::CheckRoles]); the role check of a group strips
    selected roles in place until every player has one ([LFGMgr::CheckGroupRoles]).
    Both are shown to decide the same question. *)
From S2P Require Import Prelude.

Module LfgRoles.

Definition PLAYER_ROLE_NONE := 0x00.
Definition PLAYER_ROLE_LEADER := 0x01.
Definition PLAYER_ROLE_TANK := 0x02.
Definition PLAYER_ROLE_HEALER := 0x04.
Definition PLAYER_ROLE_DAMAGE := 0x08.

Definition LFG_TANKS_NEEDED := 1.
Definition LFG_HEALERS_NEEDED := 1.
Definition LFG_DPS_NEEDED := 3.

Definition MAXGROUPSIZE := 5.

(** Player guids to roles; roles to the number of players still needed. *)
Abbreviation LfgRolesMap := (gmap Z Z).
Abbreviation LfgRolesNeededMap := (gmap Z Z).

Definition NEEDED_ALL_ROLES : LfgRolesNeededMap :=
  <[PLAYER_ROLE_TANK := LFG_TANKS_NEEDED]>
  (<[PLAYER_ROLE_HEALER := LFG_HEALERS_NEEDED]>
  (<[PLAYER_ROLE_DAMAGE := LFG_DPS_NEEDED]> ∅)).

(** ** LFGQueue::CheckRoles *)

(** One level of the recursion per player, in the order of the map. *)
Fixpoint CheckRoles_rec (players : list (Z * Z)) (needed : LfgRolesNeededMap)
    (interim : LfgRolesMap) (result : list LfgRolesMap) (full : bool) : list LfgRolesMap :=
  match full, result with
  | false, _ :: _ => result
  | _, _ =>
    match players with
    | [] => result ++ [interim]
    | (guid, sel) :: players =>
      foldl (λ result rn,
          if (rn.2 =? 0) || negb (rn.1 .& sel) then result
          else CheckRoles_rec players (<[rn.1 := u8 (rn.2 - 1)]> needed)
                 (emplace guid rn.1 interim) result full)
        result (items needed)
    end
  end.

Definition CheckRoles (rolesMap : LfgRolesMap) (full : bool) : list LfgRolesMap :=
  CheckRoles_rec (items rolesMap) NEEDED_ALL_ROLES ∅ [] full.

(** ** LFGMgr::CheckGroupRoles *)

(** What a step of the loop does: return, or go on with a counter. *)
Inductive step_res := Return (b : bool) | Continue (n : Z).

Section check_group_roles.
Variable rec : LfgRolesMap → outcome (bool * LfgRolesMap).

(** [if (role & bit) ...]: strip the bit and try again, or count the player. *)
Definition role_branch (bit limit k role n : Z) (groles : LfgRolesMap)
    : outcome (step_res * LfgRolesMap) :=
  if role .& bit then
    if negb (role =? bit) then
      let! (ok, g) := rec (<[k := u8 (default 0 (groles !! k) - bit)]> groles) in
      if (ok : bool) then Ok (Return true, g)
      else Ok (Continue n, <[k := u8 (default 0 (g !! k) + bit)]> g)
    else if n =? limit then Ok (Return false, groles)
    else Ok (Continue (u8 (n + 1)), groles)
  else Ok (Continue n, groles).

Fixpoint roles_loop (keys : list Z) (damage healer tank : Z) (groles : LfgRolesMap)
    : outcome (bool * LfgRolesMap) :=
  match keys with
  | [] => Ok (tank + healer + damage =? u8 (Z.of_nat (size groles)), groles)
  | k :: keys =>
    let role := Z.land (default 0 (groles !! k)) (Z.lnot PLAYER_ROLE_LEADER) in
    if role =? PLAYER_ROLE_NONE then Ok (false, groles)
    else
      let! (s, g) := role_branch PLAYER_ROLE_DAMAGE LFG_DPS_NEEDED k role damage groles in
      match s with
      | Return b => Ok (b, g)
      | Continue damage =>
        let! (s, g) := role_branch PLAYER_ROLE_HEALER LFG_HEALERS_NEEDED k role healer g in
        match s with
        | Return b => Ok (b, g)
        | Continue healer =>
          let! (s, g) := role_branch PLAYER_ROLE_TANK LFG_TANKS_NEEDED k role tank g in
          match s with
          | Return b => Ok (b, g)
          | Continue tank => roles_loop keys damage healer tank g
          end
        end
      end
  end.
End check_group_roles.

Fixpoint CheckGroupRoles_fuel (fuel : nat) (groles : LfgRolesMap) : outcome (bool * LfgRolesMap) :=
  match fuel with
  | O => OutOfFuel
  | S n =>
    if bool_decide (groles = ∅) then Ok (false, groles)
    else roles_loop (CheckGroupRoles_fuel n) (items groles).*1 0 0 0 groles
  end.

(** Every nested call has a role less to strip: the sum of the selected roles is
    enough fuel. *)
Definition role_sum (groles : LfgRolesMap) : nat :=
  map_fold (λ _ r n, (Z.to_nat r + n)%nat) O groles.

Definition CheckGroupRoles (groles : LfgRolesMap) : outcome (bool * LfgRolesMap) :=
  CheckGroupRoles_fuel (S (role_sum groles)) groles.

(** ** What an arrangement is *)

Definition role_count (r : Z) (a : LfgRolesMap) : Z := count_if (λ x, x =? r) a.
Definition need (r : Z) : Z := default 0 (NEEDED_ALL_ROLES !! r).

(** Every player gets one of the roles they selected, and no role more often than
    a group needs it. *)
Record arrangement (roles a : LfgRolesMap) : Prop := mkArr {
  arr_dom : dom a = dom roles;
  arr_sel : ∀ g r sel, a !! g = Some r → roles !! g = Some sel → r .& sel = true;
  arr_count : ∀ r, role_count r a ≤ need r
}.

Example CheckRoles_ex :
  CheckRoles {[1 := 0xA; 2 := 0x4; 3 := 0x8; 4 := 0x8; 5 := 0xC]} true
  = [ {[1 := 2; 2 := 4; 3 := 8; 4 := 8; 5 := 8]} ].
Proof. vm_compute. reflexivity. Qed.

Example CheckGroupRoles_ex :
  CheckGroupRoles {[1 := 0xB; 2 := 0x4; 3 := 0x8; 4 := 0x8; 5 := 0xC]}
  = Ok (true, {[1 := 3; 2 := 4; 3 := 8; 4 := 8; 5 := 8]}).
Proof. vm_compute. reflexivity. Qed.

(** ** The search enumerates the arrangements *)

Lemma CheckRoles_rec_done ps n i x l :
  CheckRoles_rec ps n i (x :: l) false = x :: l.
Proof. by destruct ps. Qed.

Lemma foldl_collect {A B} (f : list B → A → list B) (Q : A → B → Prop) l res b :
  (∀ res x, b ∈ f res x ↔ b ∈ res ∨ Q x b) →
  b ∈ foldl f res l ↔ b ∈ res ∨ ∃ x, x ∈ l ∧ Q x b.
Proof.
  intros Hf. revert res. induction l as [|x l IH]; intros res; simpl.
  - split; [by left|]. intros [?|(x & Hx & _)]; [done|by apply elem_of_nil in Hx].
  - rewrite IH, Hf. split.
    + intros [[?|?]|(y & Hy & ?)]; [by left|right; exists x|right; exists y]; set_solver.
    + intros [?|(y & [->|Hy]%elem_of_cons & ?)]; [by left; left|by left; right|].
      right. by exists y.
Qed.

(** [fill ps n b]: the players of [ps] take the roles of [b], one after the other,
    from the roles [n] still to be given. *)
Inductive fill : list (Z * Z) → LfgRolesNeededMap → list (Z * Z) → Prop :=
| fill_nil n : fill [] n []
| fill_cons g sel ps n r k b :
    n !! r = Some k → k ≠ 0 → r .& sel = true →
    fill ps (<[r := u8 (k - 1)]> n) b → fill ((g, sel) :: ps) n ((g, r) :: b).

Definition put (m : LfgRolesMap) (b : list (Z * Z)) : LfgRolesMap :=
  foldl (λ m kv, emplace kv.1 kv.2 m) m b.

Lemma CheckRoles_rec_full ps n i res a :
  a ∈ CheckRoles_rec ps n i res true ↔ a ∈ res ∨ ∃ b, fill ps n b ∧ a = put i b.
Proof.
  revert n i res. induction ps as [|[g sel] ps IH]; intros n i res; simpl.
  { rewrite elem_of_app, list_elem_of_singleton. apply or_iff_compat_l. split.
    - intros ->. exists []. split; [constructor|done].
    - intros (b & Hb & ->). by inversion Hb. }
  rewrite (foldl_collect _ (λ rn a, rn.2 ≠ 0 ∧ rn.1 .& sel = true ∧
    ∃ b, fill ps (<[rn.1 := u8 (rn.2 - 1)]> n) b ∧ a = put (emplace g rn.1 i) b)).
  - apply or_iff_compat_l. split.
    + intros ([r k] & Hr & Hk & Hs & b & Hb & ->). exists ((g, r) :: b).
      split; [|done]. apply items_elem in Hr. by eapply fill_cons.
    + intros (b & Hb & ->). inversion Hb as [|? ? ? ? r k b' Hr Hk Hs Hb']; subst.
      exists (r, k). split; [by apply items_elem|]. eauto.
  - intros res' [r k]. simpl. destruct (k =? 0) eqn:E; b2p; simpl.
    { split; [by left|]. intros [?|[? _]]; [done|lia]. }
    destruct (r .& sel); simpl; [rewrite IH|]; apply or_iff_compat_l || idtac.
    + split; [by intros|]. by intros (_ & _ & H).
    + split; [by left|]. by intros [?|(_ & ? & _)].
Qed.

(** Without [full] the first arrangement found is enough. *)
Lemma CheckRoles_rec_first ps n i :
  (CheckRoles_rec ps n i [] false = [] ∧ ∀ b, ¬ fill ps n b) ∨
  (∃ b, fill ps n b ∧ CheckRoles_rec ps n i [] false = [put i b]).
Proof.
  revert n i. induction ps as [|[g sel] ps IH]; intros n i; simpl.
  { right. exists []. split; [constructor|done]. }
  set (f := λ (res : list LfgRolesMap) (rn : Z * Z), _).
  assert (∀ l x res, foldl f (x :: res) l = x :: res) as Hdone.
  { induction l as [|[r k] l IHl]; intros x res; [done|]. simpl. unfold f at 2.
    rewrite CheckRoles_rec_done. by destruct (_ || _); apply IHl. }
  assert (∀ l, (foldl f [] l = [] ∧ ∀ rn, rn ∈ l → rn.2 ≠ 0 → rn.1 .& sel = true →
                  ∀ b, ¬ fill ps (<[rn.1 := u8 (rn.2 - 1)]> n) b) ∨
               (∃ rn b, rn ∈ l ∧ rn.2 ≠ 0 ∧ rn.1 .& sel = true ∧
                  fill ps (<[rn.1 := u8 (rn.2 - 1)]> n) b ∧
                  foldl f [] l = [put (emplace g rn.1 i) b])) as Hl.
  { induction l as [|[r k] l IHl]; [left; split; [done|by intros ? ?%elem_of_nil]|].
    simpl. unfold f at 2 4. simpl. destruct (k =? 0) eqn:E; b2p; simpl.
    { destruct IHl as [[-> H]|(rn & b & Hrn & H)]; [left|right; exists rn, b; set_solver].
      split; [done|]. intros rn [->|?]%elem_of_cons; simpl; [lia|auto]. }
    destruct (r .& sel) eqn:Es; simpl.
    - destruct (IH (<[r := u8 (k - 1)]> n) (emplace g r i)) as [[-> H]|(b & Hb & ->)].
      + destruct IHl as [[-> H']|(rn & b & Hrn & H')]; [left|right; exists rn, b; set_solver].
        split; [done|]. intros rn [->|?]%elem_of_cons; simpl; auto.
      + right. exists (r, k), b. rewrite Hdone. set_solver.
    - destruct IHl as [[-> H]|(rn & b & Hrn & H)]; [left|right; exists rn, b; set_solver].
      split; [done|]. intros rn [->|?]%elem_of_cons; simpl; [congruence|auto]. }
  destruct (Hl (items n)) as [[-> H]|([r k] & b & Hrn & Hk & Hs & Hb & ->)].
  - left. split; [done|]. intros b Hb. inversion Hb as [|? ? ? ? r k b' Hr Hk Hs Hb']; subst.
    eapply (H (r, k)); [by apply items_elem|done..].
  - right. exists ((g, r) :: b). split; [|done]. apply items_elem in Hrn. by eapply fill_cons.
Qed.

(** ** Fillings are arrangements *)

Lemma put_map b m :
  NoDup b.*1 → (∀ g, g ∈ b.*1 → m !! g = None) → put m b = list_to_map b ∪ m.
Proof.
  revert m. induction b as [|[g r] b IH]; intros m Hn Hm; simpl; [by rewrite (left_id_L ∅ (∪))|].
  apply NoDup_cons in Hn as [Hg Hn]. unfold emplace.
  rewrite (Hm g) by set_solver. rewrite IH; [|done|].
  - rewrite <- insert_union_l, insert_union_r; [done|]. by apply not_elem_of_list_to_map_1.
  - intros g' Hg'. rewrite lookup_insert_ne; set_solver.
Qed.

Definition lcount (r : Z) (b : list (Z * Z)) : Z := count_if (λ x, x =? r) (list_to_map b : gmap Z Z).

Lemma lcount_cons r g x b :
  g ∉ b.*1 → lcount r ((g, x) :: b) = lcount r b + (if x =? r then 1 else 0).
Proof.
  intros Hg. unfold lcount. simpl. rewrite count_if_insert_new; [done|].
  by apply not_elem_of_list_to_map_1.
Qed.

(** What the roles still to be given allow: [avail n r] players of role [r]. *)
Definition avail (n : LfgRolesNeededMap) (r : Z) : Z := default 0 (n !! r).
Definition needed_ok (n : LfgRolesNeededMap) : Prop := map_Forall (λ _ k, in_u8 k) n.

Lemma avail_range n r : needed_ok n → in_u8 (avail n r).
Proof.
  intros Hn. unfold avail. destruct (n !! r) eqn:E; [by apply (Hn r)|]. unfold in_u; simpl; lia.
Qed.

Lemma avail_dec n r k x :
  needed_ok n → n !! r = Some k → k ≠ 0 →
  avail (<[r := u8 (k - 1)]> n) x = avail n x - (if r =? x then 1 else 0).
Proof.
  intros Hn Hr Hk. pose proof (Hn r k Hr) as Hu. unfold avail. destruct (Z.eqb_spec r x) as [<-|Hx].
  - rewrite lookup_insert_eq, Hr. simpl. rewrite wrap_small; unfold in_u in *; lia.
  - rewrite lookup_insert_ne by done. lia.
Qed.

Lemma needed_ok_dec n r k :
  needed_ok n → n !! r = Some k → k ≠ 0 → needed_ok (<[r := u8 (k - 1)]> n).
Proof. intros. apply map_Forall_insert_2; [apply wrap_range; lia|done]. Qed.

Lemma fill_spec ps n b :
  NoDup ps.*1 → needed_ok n →
  fill ps n b ↔
  b.*1 = ps.*1 ∧ Forall2 (λ p q, q.2 .& p.2 = true) ps b ∧ ∀ r, lcount r b ≤ avail n r.
Proof.
  revert n b. induction ps as [|[g sel] ps IH]; intros n b Hnd Hn.
  { split.
    - intros Hb. inversion Hb; subst. split; [done|]. split; [constructor|].
      intros r. by apply avail_range.
    - intros (Hb & _). apply fmap_nil_inv in Hb as ->. constructor. }
  rewrite fmap_cons in *. apply NoDup_cons in Hnd as [Hg Hnd]. cbn [fst] in *. split.
  - intros Hb. inversion Hb as [|? ? ? ? r k b' Hr Hk Hs Hb']; subst.
    apply IH in Hb' as (Hd & Hf & Hc); [|done|by apply needed_ok_dec].
    rewrite fmap_cons. split; [by rewrite Hd|]. split; [by constructor|].
    intros x. rewrite lcount_cons by (by rewrite Hd).
    specialize (Hc x). rewrite (avail_dec n r k) in Hc by done. lia.
  - intros (Hd & Hf & Hc). inversion Hf as [|? [g' r] ? b' Hs Hf']; subst. cbn [fst snd] in *.
    rewrite fmap_cons in Hd. injection Hd as -> Hd. assert (g ∉ b'.*1) by (by rewrite Hd).
    pose proof (Hc r) as Hcr. rewrite lcount_cons, Z.eqb_refl in Hcr by done.
    pose proof (count_if_nonneg (λ x, x =? r) (list_to_map b' : gmap Z Z)) as H0.
    change (0 ≤ lcount r b') in H0.
    unfold avail in Hcr. destruct (n !! r) as [k|] eqn:Hr; simpl in Hcr; [|lia].
    assert (k ≠ 0) as Hk by lia. eapply fill_cons; [done..|].
    apply IH; [done|by apply needed_ok_dec|]. split; [done|]. split; [done|].
    intros x. specialize (Hc x). rewrite lcount_cons in Hc by done.
    rewrite (avail_dec n r k) by done. lia.
Qed.

Lemma NEEDED_ok : needed_ok NEEDED_ALL_ROLES.
Proof. apply (bool_decide_eq_true_1 (map_Forall _ _)). vm_compute. reflexivity. Qed.

Lemma fill_arrangement roles b :
  fill (items roles) NEEDED_ALL_ROLES b → arrangement roles (list_to_map b).
Proof.
  pose proof (items_NoDup roles) as Hnd.
  rewrite fill_spec by (done || apply NEEDED_ok). intros (Hd & Hf & Hc).
  assert (NoDup b.*1) as Hnb by by rewrite Hd. split; [| |exact Hc].
  - apply set_eq. intros g. rewrite dom_list_to_map_L, elem_of_list_to_set, Hd, elem_of_dom.
    rewrite list_elem_of_fmap. split.
    + intros ([g' s] & -> & Hs). apply items_elem in Hs. by exists s.
    + intros [s Hs]. exists (g, s). split; [done|]. by apply items_elem.
  - intros g r sel Hr Hs. apply elem_of_list_to_map_2 in Hr. apply items_elem in Hs.
    apply list_elem_of_lookup in Hs as [i Hi]. 
    destruct (Forall2_lookup_l _ _ _ _ _ Hf Hi) as ([g' r'] & Hi' & Hsel). simpl in Hsel.
    assert (g' = g) as ->.
    { apply (f_equal (.!! i)) in Hd. rewrite !list_lookup_fmap, Hi, Hi' in Hd. by injection Hd. }
    apply list_elem_of_lookup_2 in Hi'.
    apply elem_of_list_to_map_1 in Hr; [|done]. apply (elem_of_list_to_map_1 _ _ _ Hnb) in Hi'. congruence.
Qed.

Lemma arrangement_fill roles a :
  arrangement roles a → ∃ b, fill (items roles) NEEDED_ALL_ROLES b ∧ a = put ∅ b.
Proof.
  intros [Hd Hs Hc].
  set (b := map (λ kv : Z * Z, (kv.1, default 0 (a !! kv.1))) (items roles)).
  assert (b.*1 = (items roles).*1) as Hb.
  { unfold b. rewrite <- list_fmap_compose. by apply list_fmap_ext. }
  pose proof (items_NoDup roles) as Hnd.
  assert (NoDup b.*1) as Hnb by by rewrite Hb.
  assert (list_to_map b = a) as Ha.
  { apply map_eq. intros g. apply option_eq. intros r. rewrite <- elem_of_list_to_map by done.
    unfold b. rewrite list_elem_of_fmap. split.
    - intros ([g' s] & [= -> ->] & Hi). apply items_elem, elem_of_dom_2 in Hi. simpl in *.
      rewrite <- Hd in Hi. apply elem_of_dom in Hi as [r' Hr]. by rewrite Hr.
    - intros Hr. assert (is_Some (roles !! g)) as [s Hg].
      { apply elem_of_dom. rewrite <- Hd. by eapply elem_of_dom_2. }
      exists (g, s). simpl. rewrite Hr. split; [done|]. by apply items_elem. }
  exists b. rewrite put_map, (right_id_L ∅ (∪)) by (done || set_solver).
  rewrite fill_spec by (done || apply NEEDED_ok).
  split; [|done]. split; [done|]. split.
  - unfold b. apply Forall2_fmap_r, Forall_Forall2_diag, Forall_forall. intros [g s] Hi. simpl.
    apply items_elem in Hi. assert (is_Some (a !! g)) as [r Hr].
    { apply elem_of_dom. rewrite Hd. by eapply elem_of_dom_2. }
    rewrite Hr. simpl. eauto.
  - intros r. unfold lcount. rewrite Ha. apply Hc.
Qed.

Lemma put_empty ps b : NoDup ps.*1 → fill ps NEEDED_ALL_ROLES b → put ∅ b = list_to_map b.
Proof.
  intros Hn Hb. apply fill_spec in Hb as (Hd & _); [|done|apply NEEDED_ok].
  rewrite put_map, (right_id_L ∅ (∪)); [done|by rewrite Hd|set_solver].
Qed.

Lemma CheckRoles_full_iff roles a : a ∈ CheckRoles roles true ↔ arrangement roles a.
Proof.
  unfold CheckRoles. rewrite CheckRoles_rec_full. split.
  - intros [[]%elem_of_nil|(b & Hb & ->)].
    rewrite (put_empty _ _ (items_NoDup roles) Hb). by apply fill_arrangement.
  - intros Ha. right. by apply arrangement_fill.
Qed.

Lemma CheckRoles_first_iff roles :
  (CheckRoles roles false = [] ∧ ∀ a, ¬ arrangement roles a) ∨
  (∃ a, CheckRoles roles false = [a] ∧ arrangement roles a).
Proof.
  unfold CheckRoles. destruct (CheckRoles_rec_first (items roles) NEEDED_ALL_ROLES ∅) as [[-> H]|(b & Hb & ->)].
  - left. split; [done|]. intros a (b & Hb & _)%arrangement_fill. by apply (H b).
  - right. eexists. split; [done|]. rewrite (put_empty _ _ (items_NoDup roles) Hb).
    by apply fill_arrangement.
Qed.

(** There are at most three roles per player to try. *)
Lemma CheckRoles_rec_length ps n i res full :
  (length (CheckRoles_rec ps n i res full) ≤ length res + size n ^ length ps)%nat.
Proof.
  revert n i res. induction ps as [|[g sel] ps IH]; intros n i res; simpl.
  { destruct full; [|destruct res]; simpl; rewrite ?length_app; simpl; lia. }
  set (f := λ (result : list LfgRolesMap) (rn : Z * Z),
        if (rn.2 =? 0) || negb (rn.1 .& sel) then result
        else CheckRoles_rec ps (<[rn.1 := u8 (rn.2 - 1)]> n) (emplace g rn.1 i) result full).
  assert (∀ l, (∀ rk, rk ∈ l → is_Some (n !! rk.1)) → ∀ res,
    (length (foldl f res l)
     ≤ length res + length l * size n ^ length ps)%nat) as Hl.
  { induction l as [|[r k] l IHl]; intros Hin res'; simpl; [lia|].
    etrans; [apply IHl; set_solver|]. unfold f. simpl. case_match; [lia|].
    specialize (IH (<[r := u8 (k - 1)]> n) (emplace g r i) res').
    destruct (Hin (r, k) ltac:(set_solver)) as [k' Hk]. simpl in Hk.
    rewrite map_size_insert_Some in IH by (by exists k'). lia. }
  assert (length (items n) = size n) as Hlen by (rewrite items_Permutation; apply length_map_to_list).
  destruct full; [|destruct res; [|simpl; lia]]; (etrans; [apply Hl|rewrite Hlen; simpl; lia]);
    intros [r k] Hin; apply items_elem in Hin; by exists k.
Qed.

(** [LFGQueue::CheckRoles] enumerates exactly the arrangements of the selected
    roles when it is asked for all of them, and otherwise answers one arrangement
    if there is any. *)
Theorem CheckRoles_spec (roles : LfgRolesMap) :
  (∀ a, a ∈ CheckRoles roles true ↔ arrangement roles a) ∧
  ((CheckRoles roles false = [] ∧ ∀ a, ¬ arrangement roles a) ∨
   (∃ a, CheckRoles roles false = [a] ∧ arrangement roles a)).
Proof. split; [intros a; apply CheckRoles_full_iff|apply CheckRoles_first_iff]. Qed.

(** ** The role check decides the same question *)

(** The roles without the leader flag; roles without unknown bits; a single role. *)
Definition role_of (r : Z) : Z := Z.land r (Z.lnot PLAYER_ROLE_LEADER).
Definition clean (r : Z) : bool := Z.land r 0xF0 =? 0.
Definition single (r : Z) : bool := (role_of r =? 2) || (role_of r =? 4) || (role_of r =? 8).
Definition is_role (b : Z) : Prop := b = 2 ∨ b = 4 ∨ b = 8.

Definition roles_ok (groles : LfgRolesMap) : Prop :=
  map_Forall (λ _ r, in_u8 r) groles ∧ 0 < Z.of_nat (size groles) < 256.

Definition nogo (groles : LfgRolesMap) : Prop :=
  map_Forall (λ _ r, clean r = true) groles → ∀ a, ¬ arrangement groles a.

(** The answer of the role check: the map that is left holds an arrangement and the
    leader flags, or it is as it was and there is no arrangement. *)
Definition verdict (groles : LfgRolesMap) (res : bool) (g' : LfgRolesMap) : Prop :=
  if res then
    arrangement groles (role_of <$> g') ∧ map_Forall (λ _ r, clean r = true) groles ∧
    (λ r, Z.land r 1) <$> g' = (λ r, Z.land r 1) <$> groles
  else g' = groles ∧ nogo groles.

(** *** Facts about bytes *)

Lemma strip_byte b r :
  is_role b → in_u8 r → r .& b = true →
  in_u8 (r - b) ∧ b ≤ r ∧ Z.land (r - b) 1 = Z.land r 1 ∧ clean (r - b) = clean r ∧
  (b .& (r - b)) = false ∧ ∀ c, is_role c → c ≠ b → (c .& (r - b)) = (c .& r).
Proof.
  intros Hb Hr Ht.
  set (bits := [2; 4; 8]).
  assert (forallb (λ b, implb (r .& b)
    ((0 <=? r - b) && (b <=? r) && (Z.land (r - b) 1 =? Z.land r 1) &&
     Bool.eqb (clean (r - b)) (clean r) && negb (b .& (r - b)) &&
     forallb (λ c, (c =? b) || Bool.eqb (c .& (r - b)) (c .& r)) bits)) bits = true) as H.
  { revert r Hr Ht. refine (λ r Hr _, u8_all (λ r, _) _ r Hr). vm_compute. reflexivity. }
  rewrite forallb_forall in H. specialize (H b). rewrite Ht in H. cbn [implb] in H.
  assert (In b bits) as Hin by (unfold is_role, bits in *; simpl; naive_solver).
  specialize (H Hin). rewrite !andb_true_iff in H.
  destruct H as [[[[[H1 H2] H3] H4] H5] H6]. b2p. apply Bool.eqb_prop in H4.
  split; [unfold in_u in *; unfold is_role in *; lia|]. split; [done|]. split; [done|].
  split; [done|]. split; [done|]. intros c Hc Hcb.
  rewrite forallb_forall in H6. specialize (H6 c).
  assert (In c bits) as Hinc by (unfold is_role, bits in *; simpl; naive_solver).
  specialize (H6 Hinc). apply orb_true_iff in H6 as [H6|H6]; b2p; [done|].
  by apply Bool.eqb_prop in H6.
Qed.

Lemma tst_comm a b : (a .& b) = (b .& a).
Proof. unfold tst. by rewrite Z.land_comm. Qed.

(** A player with several known roles has another one beside any role. *)
Lemma other_role r b :
  in_u8 r → clean r = true → single r = false → is_role b → b .& r = true →
  ∃ c, is_role c ∧ c ≠ b ∧ r .& c = true ∧ role_of r ≠ c.
Proof.
  intros Hr Hc Hs Hb Hbr.
  assert (existsb (λ c, negb (c =? b) && (r .& c) && negb (role_of r =? c)) [2; 4; 8] = true) as H.
  { assert (forallb (λ b, implb (clean r && negb (single r) && (b .& r))
      (existsb (λ c, negb (c =? b) && (r .& c) && negb (role_of r =? c)) [2; 4; 8])) [2; 4; 8] = true) as H.
    { clear - Hr. revert r Hr. refine (λ r Hr, u8_all (λ r, _) _ r Hr). vm_compute. reflexivity. }
    rewrite forallb_forall in H. specialize (H b). rewrite Hc, Hs, Hbr in H. apply H.
    unfold is_role in Hb. simpl. naive_solver. }
  apply existsb_exists in H as (c & Hin & H). rewrite !andb_true_iff in H.
  destruct H as [[H1 H2] H3]. b2p. exists c. split; [|done].
  unfold is_role. simpl in Hin. naive_solver.
Qed.

Lemma role_of_tst r b : is_role b → (role_of r .& b) = (r .& b).
Proof.
  intros Hb. unfold role_of, tst. rewrite <- Z.land_assoc. f_equal.
  destruct Hb as [->|[->| ->]]; reflexivity.
Qed.

Lemma single_clean r : in_u8 r → single r = true → clean r = true.
Proof.
  intros Hr Hs. assert (implb (single r) (clean r) = true) as H.
  { clear Hs. revert r Hr. refine (u8_all (λ r, _) _). vm_compute. reflexivity. }
  by rewrite Hs in H.
Qed.

Lemma no_role_tst r b : in_u8 r → role_of r = 0 → is_role b → (b .& r) = false.
Proof.
  intros Hr H0 Hb. rewrite tst_comm, <- role_of_tst, H0 by done. done.
Qed.

(** *** Stripping a role *)

Lemma need_role r : need r = if r =? 2 then 1 else if r =? 4 then 1 else if r =? 8 then 3 else 0.
Proof.
  unfold need, NEEDED_ALL_ROLES, PLAYER_ROLE_TANK, PLAYER_ROLE_HEALER, PLAYER_ROLE_DAMAGE.
  destruct (Z.eqb_spec r 2) as [->|?]; [reflexivity|].
  destruct (Z.eqb_spec r 4) as [->|?]; [reflexivity|].
  destruct (Z.eqb_spec r 8) as [->|?]; [reflexivity|].
  by rewrite !lookup_insert_ne, lookup_empty by lia.
Qed.

Lemma arrangement_role roles a g r : arrangement roles a → a !! g = Some r → is_role r.
Proof.
  intros [_ _ Hc] Hg. specialize (Hc r). unfold is_role.
  assert (1 ≤ role_count r a) as H1.
  { unfold role_count. rewrite <- (insert_delete_id a g r Hg).
    rewrite count_if_insert_new by apply lookup_delete_eq. rewrite Z.eqb_refl.
    pose proof (count_if_nonneg (λ x, x =? r) (delete g a)). lia. }
  rewrite need_role in Hc. repeat case_bool; b2p; lia.
Qed.

Lemma arrangement_lookup roles a g sel :
  arrangement roles a → roles !! g = Some sel → ∃ r, a !! g = Some r ∧ is_role r ∧ r .& sel = true.
Proof.
  intros Ha Hg. assert (is_Some (a !! g)) as [r Hr].
  { apply elem_of_dom. rewrite (arr_dom _ _ Ha). by eapply elem_of_dom_2. }
  exists r. split; [done|]. split; [by eapply arrangement_role|by eapply arr_sel].
Qed.

Section strip.
Variables (groles : LfgRolesMap) (k r b : Z).
Hypothesis Hk : groles !! k = Some r.
Hypothesis Hb : is_role b.
Hypothesis Hr : in_u8 r.
Hypothesis Hrb : r .& b = true.
Let stripped := <[k := r - b]> groles.

Lemma strip_dom : dom stripped = dom groles.
Proof. apply dom_insert_lookup_L. by exists r. Qed.

Lemma strip_ok : roles_ok groles → roles_ok stripped.
Proof.
  intros [Hu Hs]. split.
  - apply map_Forall_insert_2; [|done]. by destruct (strip_byte b r Hb Hr Hrb).
  - by rewrite <- size_dom, strip_dom, size_dom.
Qed.

Lemma strip_clean :
  map_Forall (λ _ r, clean r = true) stripped ↔ map_Forall (λ _ r, clean r = true) groles.
Proof.
  destruct (strip_byte b r Hb Hr Hrb) as (_ & _ & _ & Hc & _). split; intros H j x Hj.
  - destruct (decide (j = k)) as [->|Hne].
    + assert (x = r) as -> by congruence. rewrite <- Hc. apply (H k). apply lookup_insert_eq.
    + apply (H j). unfold stripped. by rewrite lookup_insert_ne.
  - unfold stripped in Hj. apply lookup_insert_Some in Hj as [[<- <-]|[_ Hj]]; [|by eapply H].
    rewrite Hc. by apply (H k).
Qed.

Lemma unstrip_arrangement a : arrangement stripped a → arrangement groles a.
Proof.
  intros Ha. destruct (strip_byte b r Hb Hr Hrb) as (_ & _ & _ & _ & Hnb & Hoth).
  split; [by rewrite <- strip_dom; apply Ha| |apply Ha].
  intros g x sel Hx Hs. destruct (decide (g = k)) as [->|Hne].
  - assert (sel = r) as -> by congruence.
    pose proof (arrangement_role _ _ _ _ Ha Hx) as Hxr.
    assert (x .& (r - b) = true) as Hx'.
    { eapply (arr_sel _ _ Ha k); [done|]. apply lookup_insert_eq. }
    destruct (decide (x = b)) as [->|]; [congruence|]. by rewrite Hoth in Hx'.
  - eapply (arr_sel _ _ Ha g); [done|]. unfold stripped. by rewrite lookup_insert_ne.
Qed.

Lemma strip_arrangement a :
  arrangement groles a → a !! k ≠ Some b → arrangement stripped a.
Proof.
  intros Ha Hab. destruct (strip_byte b r Hb Hr Hrb) as (_ & _ & _ & _ & _ & Hoth).
  split; [by rewrite strip_dom; apply Ha| |apply Ha].
  intros g x sel Hx Hs. unfold stripped in Hs.
  apply lookup_insert_Some in Hs as [[<- <-]|[_ Hs]]; [|by eapply (arr_sel _ _ Ha)].
  pose proof (arrangement_role _ _ _ _ Ha Hx). rewrite Hoth; [|done|congruence].
  by eapply (arr_sel _ _ Ha).
Qed.

Lemma strip_leader :
  (λ r, Z.land r 1) <$> stripped = (λ r, Z.land r 1) <$> groles.
Proof.
  destruct (strip_byte b r Hb Hr Hrb) as (_ & _ & Hl & _). unfold stripped.
  rewrite fmap_insert. simpl. rewrite Hl. apply insert_id. by rewrite lookup_fmap, Hk.
Qed.

Lemma role_sum_split m j x :
  m !! j = Some x → role_sum m = (Z.to_nat x + role_sum (delete j m))%nat.
Proof.
  intros Hj. unfold role_sum. rewrite (map_fold_delete_L _ _ j x) by (done || intros; lia). done.
Qed.

Lemma strip_sum : (role_sum stripped < role_sum groles)%nat.
Proof.
  destruct (strip_byte b r Hb Hr Hrb) as (_ & Hle & _).
  rewrite (role_sum_split stripped k (r - b)) by apply lookup_insert_eq.
  rewrite (role_sum_split groles k r Hk). unfold stripped. rewrite delete_insert_eq.
  unfold is_role, in_u in *. lia.
Qed.

Lemma strip_verdict g' : verdict stripped true g' → verdict groles true g'.
Proof.
  intros (Ha & Hc & Hl). split; [by apply unstrip_arrangement|].
  split; [by apply strip_clean|]. by rewrite Hl, strip_leader.
Qed.
End strip.

(** *** One pass over the group *)

Section pass.
Variable rec : LfgRolesMap → outcome (bool * LfgRolesMap).
Variable groles : LfgRolesMap.
Hypothesis Hrec : ∀ m, roles_ok m → (role_sum m < role_sum groles)%nat →
  ∃ res g', rec m = Ok (res, g') ∧ verdict m res g'.
Hypothesis Hok : roles_ok groles.

Lemma role_branch_ok bit limit k r n :
  groles !! k = Some r → is_role bit → limit = need bit → 0 ≤ n ≤ limit →
  (∃ g', role_branch rec bit limit k (role_of r) n groles = Ok (Return true, g') ∧
         verdict groles true g') ∨
  (role_branch rec bit limit k (role_of r) n groles = Ok (Return false, groles) ∧
   role_of r = bit ∧ n = limit) ∨
  (∃ n', role_branch rec bit limit k (role_of r) n groles = Ok (Continue n', groles) ∧
   n' = n + (if role_of r =? bit then 1 else 0) ∧ n' ≤ limit ∧
   (r .& bit = true → role_of r ≠ bit → nogo (<[k := r - bit]> groles))).
Proof.
  intros Hk Hb -> Hn. pose proof (proj1 Hok k r Hk) as Hr. simpl in Hr.
  unfold role_branch. rewrite (role_of_tst r bit Hb). destruct (r .& bit) eqn:Hrb.
  2:{ right; right. exists n. split; [done|].
      destruct (Z.eqb_spec (role_of r) bit) as [E|_]; [|split; [lia|split; [lia|done]]].
      exfalso. rewrite <- (role_of_tst r bit Hb), E in Hrb.
      by destruct Hb as [->|[->| ->]]. }
  destruct (Z.eqb_spec (role_of r) bit) as [E|Hne]; simpl.
  - destruct (Z.eqb_spec n (need bit)) as [->|Hnl].
    + right; left. done.
    + right; right. exists (n + 1). rewrite wrap_small; [split; [done|]; split; [lia|]; split; [lia|done]|].
      rewrite need_role in *. destruct Hb as [->|[->| ->]]; unfold in_u; simpl in *; lia.
  - rewrite Hk. simpl.
    destruct (strip_byte bit r Hb Hr Hrb) as (Hu & Hle & _).
    rewrite (wrap_small 8 (r - bit)) by done.
    destruct (Hrec (<[k := r - bit]> groles)) as (res & g' & -> & Hv).
    { by apply strip_ok. }
    { by apply strip_sum. }
    destruct res; simpl.
    + left. exists g'. split; [done|]. by eapply strip_verdict.
    + right; right. destruct Hv as [-> Hng]. exists n.
      rewrite lookup_insert_eq. simpl. rewrite Z.sub_add, wrap_small by done.
      rewrite insert_insert_eq, insert_id by done.
      split; [done|]. split; [lia|]. split; [lia|done].
Qed.

(** A player with several roles whom no strip helps rules an arrangement out. *)
Lemma multi_nogo k r :
  groles !! k = Some r → single r = false →
  (∀ b, is_role b → r .& b = true → role_of r ≠ b → nogo (<[k := r - b]> groles)) → nogo groles.
Proof.
  intros Hk Hs Hng Hc a Ha. pose proof (proj1 Hok k r Hk) as Hr. simpl in Hr.
  destruct (arrangement_lookup _ _ _ _ Ha Hk) as (x & Hx & Hxr & Hxs).
  destruct (other_role r x Hr (Hc k r Hk) Hs Hxr Hxs) as (c & Hcr & Hcx & Hrc & Hrole).
  apply (Hng c Hcr Hrc Hrole) with a; [by apply (strip_clean groles k r c)|].
  apply (strip_arrangement groles k r c); congruence.
Qed.

Lemma single_choice a k r :
  arrangement groles a → groles !! k = Some r → single r = true → a !! k = Some (role_of r).
Proof.
  intros Ha Hk Hs. destruct (arrangement_lookup _ _ _ _ Ha Hk) as (x & Hx & Hxr & Hxs).
  rewrite Hx. f_equal. rewrite tst_comm, <- (role_of_tst r x Hxr) in Hxs.
  unfold single in Hs. rewrite !orb_true_iff, !Z.eqb_eq in Hs.
  destruct Hs as [[E|E]|E]; rewrite E in *; destruct Hxr as [->|[->| ->]]; done.
Qed.

(** The players counted so far get their role in every arrangement. *)
Definition counted (b : Z) (D : LfgRolesMap) : Z := count_if (λ r, role_of r =? b) D.

Lemma counted_le a b D : is_role b → arrangement groles a → D ⊆ groles → counted b D ≤ need b.
Proof.
  intros Hb Ha HD. etrans; [|apply (arr_count _ _ Ha b)]. apply count_if_le.
  intros k r Hk E. b2p. exists b. rewrite Z.eqb_refl. split; [|done].
  rewrite <- E. apply single_choice; [done|by eapply lookup_weaken|].
  unfold single. rewrite E. destruct Hb as [->|[->| ->]]; done.
Qed.

Lemma counted_insert b k r D :
  D !! k = None → counted b (<[k := r]> D) = counted b D + (if role_of r =? b then 1 else 0).
Proof. intros. unfold counted. by rewrite count_if_insert_new. Qed.

Lemma counted_size D :
  counted 2 D + counted 4 D + counted 8 D + count_if (λ r, negb (single r)) D = Z.of_nat (size D).
Proof.
  induction D as [|k r D Hk IH] using map_ind; [done|].
  rewrite !counted_insert, count_if_insert_new, map_size_insert_None by done.
  unfold single in *.
  destruct (Z.eqb_spec (role_of r) 2), (Z.eqb_spec (role_of r) 4), (Z.eqb_spec (role_of r) 8);
    cbn [orb negb]; lia.
Qed.

Lemma all_single_verdict :
  count_if (λ r, negb (single r)) groles = 0 →
  counted 2 groles ≤ 1 → counted 4 groles ≤ 1 → counted 8 groles ≤ 3 →
  verdict groles true groles.
Proof.
  intros H0 H2 H4 H8.
  assert (∀ k r, groles !! k = Some r → single r = true) as Hs.
  { intros k r Hk. destruct (single r) eqn:E; [done|].
    assert (1 ≤ count_if (λ r, negb (single r)) groles) as H1; [|lia].
    rewrite <- (insert_delete_id groles k r Hk).
    rewrite count_if_insert_new by apply lookup_delete_eq. rewrite E. simpl.
    pose proof (count_if_nonneg (λ r, negb (single r)) (delete k groles)). lia. }
  split; [split|split; [|done]].
  - by rewrite dom_fmap_L.
  - intros g x sel Hx Hg. rewrite lookup_fmap, Hg in Hx. injection Hx as <-.
    specialize (Hs g sel Hg). unfold single in Hs. rewrite !orb_true_iff, !Z.eqb_eq in Hs.
    rewrite tst_comm.
    destruct Hs as [[E|E]|E]; rewrite E; [rewrite <- (role_of_tst sel 2) by (by left)
      |rewrite <- (role_of_tst sel 4) by (right; by left)|rewrite <- (role_of_tst sel 8) by (right; by right)];
      by rewrite E.
  - intros x. unfold role_count. rewrite count_if_fmap. change (counted x groles ≤ need x).
    rewrite need_role. destruct (Z.eqb_spec x 2) as [->|?]; [done|].
    destruct (Z.eqb_spec x 4) as [->|?]; [done|]. destruct (Z.eqb_spec x 8) as [->|?]; [done|].
    apply Z.eq_le_incl, count_if_none. intros k r Hk. specialize (Hs k r Hk).
    unfold single in Hs. rewrite !orb_true_iff, !Z.eqb_eq in Hs. apply Z.eqb_neq. lia.
  - intros k r Hk. apply single_clean; [by apply (proj1 Hok k)|by eapply Hs].
Qed.

Lemma roles_loop_ok keys D damage healer tank :
  NoDup keys → D ⊆ groles →
  (∀ k, k ∈ keys ↔ is_Some (groles !! k) ∧ D !! k = None) →
  damage = counted 8 D → healer = counted 4 D → tank = counted 2 D →
  damage ≤ 3 → healer ≤ 1 → tank ≤ 1 →
  (count_if (λ r, negb (single r)) D = 0 ∨ nogo groles) →
  ∃ res g', roles_loop rec keys damage healer tank groles = Ok (res, g') ∧ verdict groles res g'.
Proof.
  revert D damage healer tank. induction keys as [|k keys IH];
    intros D damage healer tank Hnd HD Hkeys Hd Hh Ht Hd3 Hh1 Ht1 Hm; cbn [roles_loop].
  { assert (D = groles) as ->.
    { apply map_eq. intros k. destruct (D !! k) as [r|] eqn:E.
      - symmetry. by eapply lookup_weaken.
      - destruct (groles !! k) eqn:E'; [|done].
        assert (k ∈ []) by (apply Hkeys; eauto). set_solver. }
    pose proof (counted_size groles) as Hsz. destruct Hok as [Hu Hs].
    pose proof (count_if_nonneg (λ r, negb (single r)) groles).
    rewrite (wrap_small 8) by (unfold in_u; lia).
    eexists _, _. split; [done|].
    destruct (Z.eqb_spec (tank + healer + damage) (Z.of_nat (size groles))) as [E|E].
    - apply all_single_verdict; lia.
    - split; [done|]. destruct Hm; [lia|done]. }
  apply NoDup_cons in Hnd as [Hni Hnd].
  destruct (proj1 (Hkeys k) ltac:(set_solver)) as [[r Hk] HDk]. rewrite Hk. cbn [default from_option id].
  change (Z.land r (Z.lnot PLAYER_ROLE_LEADER)) with (role_of r).
  change PLAYER_ROLE_DAMAGE with 8. change PLAYER_ROLE_HEALER with 4. change PLAYER_ROLE_TANK with 2.
  destruct (Z.eqb_spec (role_of r) PLAYER_ROLE_NONE) as [E0|Hr0].
  { eexists _, _. split; [done|]. split; [done|]. intros Hc a Ha.
    destruct (arrangement_lookup _ _ _ _ Ha Hk) as (x & _ & Hxr & Hxs).
    pose proof (proj1 Hok k r Hk) as Hu. simpl in Hu.
    rewrite (no_role_tst r x Hu E0 Hxr) in Hxs. done. }
  assert (∀ b, is_role b → role_of r = b → counted b D = need b → nogo groles) as Hfull.
  { intros b Hb Er Hn Hc a Ha.
    assert (counted b (<[k := r]> D) ≤ need b) as Hle.
    { apply (counted_le a); [done|done|]. by apply insert_subseteq_l. }
    rewrite counted_insert, Er, Z.eqb_refl in Hle by done. lia. }
  pose proof (count_if_nonneg (λ x, role_of x =? 8) D). pose proof (count_if_nonneg (λ x, role_of x =? 4) D).
  pose proof (count_if_nonneg (λ x, role_of x =? 2) D). unfold counted in Hd, Hh, Ht.
  destruct (role_branch_ok 8 LFG_DPS_NEEDED k r damage Hk) as [(g' & -> & Hv)|[(-> & Er & En)|(d' & -> & Hd' & Hdl & Hng8)]];
    [by right; right|done|unfold LFG_DPS_NEEDED; lia|eauto|simpl; eexists _, _; split; [done|];
     split; [done|]; apply (Hfull 8); [by right; right|done|unfold counted; by rewrite <- Hd]|].
  simpl.
  destruct (role_branch_ok 4 LFG_HEALERS_NEEDED k r healer Hk) as [(g' & -> & Hv)|[(-> & Er & En)|(h' & -> & Hh' & Hhl & Hng4)]];
    [by right; left|done|unfold LFG_HEALERS_NEEDED; lia|eauto|simpl; eexists _, _; split; [done|];
     split; [done|]; apply (Hfull 4); [by right; left|done|unfold counted; by rewrite <- Hh]|].
  simpl.
  destruct (role_branch_ok 2 LFG_TANKS_NEEDED k r tank Hk) as [(g' & -> & Hv)|[(-> & Er & En)|(t' & -> & Ht' & Htl & Hng2)]];
    [by left|done|unfold LFG_TANKS_NEEDED; lia|eauto|simpl; eexists _, _; split; [done|];
     split; [done|]; apply (Hfull 2); [by left|done|unfold counted; by rewrite <- Ht]|].
  simpl. apply (IH (<[k := r]> D)); try done; try (rewrite counted_insert by done; unfold counted; lia).
  - by apply insert_subseteq_l.
  - intros j. rewrite lookup_insert_None. specialize (Hkeys j). rewrite elem_of_cons in Hkeys.
    split; [|naive_solver]. intros Hj. assert (j ≠ k) by congruence. naive_solver.
  - rewrite count_if_insert_new by done. destruct (single r) eqn:Es; simpl; [rewrite Z.add_0_r; done|].
    right. apply (multi_nogo k r Hk Es). intros b [->|[->| ->]]; auto.
Qed.
End pass.

Lemma CheckGroupRoles_fuel_ok n groles :
  roles_ok groles → (role_sum groles < n)%nat →
  ∃ res g', CheckGroupRoles_fuel n groles = Ok (res, g') ∧ verdict groles res g'.
Proof.
  revert groles. induction n as [|n IH]; intros groles Hok Hn; [lia|]. cbn [CheckGroupRoles_fuel].
  case_bool_decide as E; [destruct Hok as [_ Hs]; rewrite E, map_size_empty in Hs; lia|].
  apply (roles_loop_ok _ groles) with (D := ∅).
  - intros m Hm Hlt. apply IH; [done|lia].
  - done.
  - apply items_NoDup.
  - apply map_empty_subseteq.
  - intros k. rewrite lookup_empty, list_elem_of_fmap. split.
    + intros ([j r] & -> & Hj%items_elem). eauto.
    + intros [[r Hr] _]. exists (k, r). split; [done|]. by apply items_elem.
  - reflexivity.
  - reflexivity.
  - reflexivity.
  - lia.
  - lia.
  - lia.
  - by left.
Qed.

Lemma CheckGroupRoles_ok groles :
  roles_ok groles → ∃ res g', CheckGroupRoles groles = Ok (res, g') ∧ verdict groles res g'.
Proof. intros. apply CheckGroupRoles_fuel_ok; [done|lia]. Qed.

(** C34: For a group of 1 to 255 players the role check terminates. When it answers
    yes, what it leaves in the map, leader flags aside, is one role per player out of
    those selected with at most one tank, one healer and three damage dealers, and
    the leader flags are untouched; when it answers no, the map is as before and no
    such arrangement exists, unless some player sent unknown role bits. *)
Theorem CheckGroupRoles_spec (groles : LfgRolesMap) :
  map_Forall (λ _ r, in_u8 r) groles → 0 < Z.of_nat (size groles) < 256 →
  ∃ res g', CheckGroupRoles groles = Ok (res, g') ∧
    if res then
      arrangement groles (role_of <$> g') ∧
      (λ r, Z.land r PLAYER_ROLE_LEADER) <$> g' = (λ r, Z.land r PLAYER_ROLE_LEADER) <$> groles
    else
      g' = groles ∧
      (map_Forall (λ _ r, clean r = true) groles → ∀ a, ¬ arrangement groles a).
Proof.
  intros Hu Hs. destruct (CheckGroupRoles_ok groles) as (res & g' & -> & Hv); [done|].
  exists res, g'. split; [done|]. destruct res; simpl in *; [|done].
  destruct Hv as (Ha & _ & Hl). done.
Qed.

Lemma CheckGroupRoles_spec_witness :
  let groles : LfgRolesMap := {[1 := 0xB; 2 := 0x4; 3 := 0x8; 4 := 0x8; 5 := 0xC]} in
  ∃ res g', CheckGroupRoles groles = Ok (res, g') ∧
    if res then
      arrangement groles (role_of <$> g') ∧
      (λ r, Z.land r PLAYER_ROLE_LEADER) <$> g' = (λ r, Z.land r PLAYER_ROLE_LEADER) <$> groles
    else
      g' = groles ∧
      (map_Forall (λ _ r, clean r = true) groles → ∀ a, ¬ arrangement groles a).
Proof.
  intros groles. apply CheckGroupRoles_spec.
  - unfold groles. repeat apply map_Forall_insert_2; try (unfold in_u; lia).
    apply map_Forall_empty.
  - vm_compute. split; reflexivity.
Defined.

(** The four known role bits are clean. *)
Lemma clean_small r : 0 ≤ r < 16 → clean r = true.
Proof.
  intros Hr. assert (implb (r <? 16) (clean r) = true) as H.
  { refine (u8_all (λ r, implb (r <? 16) (clean r)) _ r _); [vm_compute; reflexivity|unfold in_u; lia]. }
  by rewrite (proj2 (Z.ltb_lt r 16)) in H by lia.
Qed.

(** The role check of a group and the queue's search agree: a group whose players
    selected only known roles passes the first exactly when the second finds an
    arrangement, whether it looks for one or for all. *)
Theorem role_checks_agree (groles : LfgRolesMap) (full : bool) :
  map_Forall (λ _ r, 0 ≤ r < 16) groles → 0 < Z.of_nat (size groles) < 256 →
  (∃ g', CheckGroupRoles groles = Ok (true, g')) ↔ CheckRoles groles full ≠ [].
Proof.
  intros Hr Hs.
  assert (map_Forall (λ _ r, clean r = true) groles) as Hc.
  { intros k r Hk. by apply clean_small, (Hr k). }
  assert (CheckRoles groles full ≠ [] ↔ ∃ a, arrangement groles a) as ->.
  { destruct full.
    - split.
      + destruct (CheckRoles groles true) as [|a l] eqn:E; [done|]. intros _. exists a.
        apply CheckRoles_full_iff. rewrite E. set_solver.
      + intros [a Ha] E. apply CheckRoles_full_iff in Ha. rewrite E in Ha. set_solver.
    - destruct (CheckRoles_first_iff groles) as [[-> Hn]|(a & -> & Ha)].
      + split; [done|]. intros [a Ha]. by destruct (Hn a).
      + split; [eauto|done]. }
  destruct (CheckGroupRoles_ok groles) as (res & g' & -> & Hv).
  { split; [|done]. intros k r Hk. specialize (Hr k r Hk). unfold in_u. simpl in *. lia. }
  destruct res; split.
  - intros _. destruct Hv as (Ha & _). eauto.
  - eauto.
  - by intros [? [=]].
  - destruct Hv as [_ Hn]. intros [a Ha]. by destruct (Hn Hc a).
Qed.

Lemma role_checks_agree_witness :
  let groles : LfgRolesMap := {[1 := 0xA; 2 := 0x2; 3 := 0x2]} in
  (∃ g', CheckGroupRoles groles = Ok (true, g')) ↔ CheckRoles groles true ≠ [].
Proof.
  intros groles. apply role_checks_agree.
  - unfold groles. repeat apply map_Forall_insert_2; try lia. apply map_Forall_empty.
  - vm_compute. split; reflexivity.
Defined.

(** ** Choosing the leader (LFGQueue::SelectLeader) *)

Section random.
Context `{Random}.

(** Containers::SelectRandomContainerElement asserts that there is an element. *)
Definition SelectRandomContainerElement {A} (c : list A) (s : rng) : outcome (A * rng) :=
  let '(i, s) := urand s 0 (u32 (u32 (Z.of_nat (length c)) - 1)) in
  match c with
  | [] => AssertFail
  | x :: _ => Ok (nth (Z.to_nat i) c x, s)
  end.

Definition SelectLeader (roles : LfgRolesMap) (s : rng) : outcome (Z * rng) :=
  let playersWithLeaderFlag := (filter (λ kv : Z * Z, kv.2 .& PLAYER_ROLE_LEADER = true) (items roles)).*1 in
  let allPlayers := (items roles).*1 in
  SelectRandomContainerElement
    (match playersWithLeaderFlag with [] => allPlayers | _ => playersWithLeaderFlag end) s.

Lemma SelectRandomContainerElement_ok {A} (c : list A) s :
  c ≠ [] → Z.of_nat (length c) ≤ 2 ^ 32 →
  ∃ x s', SelectRandomContainerElement c s = Ok (x, s') ∧ x ∈ c.
Proof.
  intros Hc Hl. unfold SelectRandomContainerElement. destruct c as [|x c]; [done|].
  set (n := u32 _). assert (n = Z.of_nat (length c)) as ->.
  { unfold n. rewrite wrap_sub_l, wrap_small; simpl length in *; [lia|unfold in_u; lia]. }
  pose proof (urand_range s 0 (Z.of_nat (length c)) ltac:(lia)) as Hr.
  destruct (urand s 0 (Z.of_nat (length c))) as [i s']. simpl fst in Hr.
  eexists _, s'. split; [done|]. apply list_elem_of_In, nth_In. simpl. lia.
Qed.

Lemma SelectLeader_ok roles s :
  roles ≠ ∅ → Z.of_nat (size roles) ≤ 2 ^ 32 →
  ∃ l s', SelectLeader roles s = Ok (l, s') ∧ is_Some (roles !! l).
Proof.
  intros Hne Hs. unfold SelectLeader.
  assert (length (items roles) = size roles) as Hlen by (rewrite items_Permutation; apply length_map_to_list).
  assert (items roles ≠ []) as Hi.
  { intros E. apply Hne, map_size_empty_inv. by rewrite <- Hlen, E. }
  match goal with |- context [SelectRandomContainerElement ?c] => set (l := c) end.
  assert (∀ x, x ∈ l → is_Some (roles !! x)) as Hin.
  { intros x Hx. assert (x ∈ (items roles).*1) as Hx'.
    { unfold l in Hx. destruct (filter _ _).*1 eqn:E; [done|]. rewrite <- E in Hx.
      apply list_elem_of_fmap in Hx as (y & -> & Hy). apply list_elem_of_filter in Hy as [_ Hy].
      by apply list_elem_of_fmap_2. }
    apply list_elem_of_fmap in Hx' as ([k r] & -> & Hk). apply items_elem in Hk. by exists r. }
  destruct (SelectRandomContainerElement_ok l s) as (x & s' & -> & Hx); [| |by eauto].
  - unfold l. destruct (filter _ _).*1 eqn:E; [|done]. destruct (items roles); done.
  - assert (length l ≤ length (items roles))%nat; [|lia].
    unfold l. destruct (filter _ _).*1 eqn:E; [by rewrite length_fmap|].
    rewrite <- E, length_fmap. apply length_filter.
Qed.
End random.

End LfgRoles.
