(* ===== verification/LfgQueue.v ===== *)
(** * The queue of the dungeon finder
    ([src/server/game/DungeonFinding/LFGQueue.{h,cpp}])

    Premades (single players and groups) wait in [queue]; [allCombinations] keeps
    every combination of waiting premades that could still grow into a group, the
    longest waiting first. Each update takes one premade from [newToQueue] and tries
    it alone and with every combination. A [Premade] of the code is a guid with a
    reference to its entry of [queueDataStore]: here the guid, and every access
    looks the entry up, [BadPtr] when it is gone. The sets of premades are ordered
    by data behind the reference: [Undefined] when that order has been broken. *)
From S2P Require Import Prelude Multimap LfgRoles.

Module LfgQueue.
Export LfgRoles.

Inductive LfgState :=
| LFG_STATE_NONE | LFG_STATE_ROLECHECK | LFG_STATE_QUEUED | LFG_STATE_PROPOSAL
| LFG_STATE_DUNGEON | LFG_STATE_FINISHED_DUNGEON | LFG_STATE_RAIDBROWSER.
#[export] Instance LfgState_eq : EqDecision LfgState.
Proof. solve_decision. Defined.

Inductive LfgAnswer := LFG_ANSWER_PENDING | LFG_ANSWER_DENY | LFG_ANSWER_AGREE.
#[export] Instance LfgAnswer_eq : EqDecision LfgAnswer.
Proof. solve_decision. Defined.

Inductive LfgProposalState := LFG_PROPOSAL_INITIATING | LFG_PROPOSAL_FAILED | LFG_PROPOSAL_SUCCESS.
#[export] Instance LfgProposalState_eq : EqDecision LfgProposalState.
Proof. solve_decision. Defined.

(** Conversion to a signed 64-bit integer ([time_t]). *)
Definition s64 (x : Z) : Z := (x + 2 ^ 63) `mod` 2 ^ 64 - 2 ^ 63.

Definition LFG_TIME_PROPOSAL := 45.
Definition MINUTE := 60.

(** ** Data *)

Abbreviation LfgDungeonSet := (gset Z).
(** The iteration order of a [std::set] of integers. *)
Definition set_items (s : gset Z) : list Z := merge_sort Z.le (elements s).

Record QueueData := mkData {
  joinTime : Z;                        (* time_t *)
  dungeons : LfgDungeonSet;
  roles : LfgRolesMap;
  isLfgGroup : bool;
  avgWaitTime : Z;                     (* int32 *)
  rolesNeeded : LfgRolesNeededMap
}.

Definition newData (joinTime : Z) (dungeons : LfgDungeonSet) (roles : LfgRolesMap)
    (isLfgGroup : bool) : QueueData :=
  mkData joinTime dungeons roles isLfgGroup (-1) NEEDED_ALL_ROLES.

Inductive CombinationInfo :=
| COMBINATION_INVALID
| COMBINATION_INCOMPLETE (premades : list Z) (arrangement : LfgRolesMap)
| COMBINATION_COMPLETE (premades : list Z) (arrangement : LfgRolesMap)
    (commonDungeons : LfgDungeonSet) (leaderGuid groupFromDungeon : Z).

(** [joinTimeAvg] is the key of the multiset of combinations. *)
Record Combination := mkComb {
  premades : list Z;
  c_rolesNeeded : LfgRolesNeededMap
}.

Record DelayedDungeonEntry := mkDelayed {
  d_dungeon : Z; timeToAdd : Z; d_joinTime : Z; premade : Z
}.

Record LfgProposalPlayer := mkPPlayer { p_role : Z; accept : LfgAnswer; p_group : Z }.

Record LfgProposal := mkProposal {
  p_id : Z; dungeonId : Z; p_state : LfgProposalState; group : Z; leader : Z;
  cancelTime : Z; encounters : Z; isNew : bool; needSendUpdate : bool;
  queues : list Z; showorder : list Z; p_players : gmap Z LfgProposalPlayer;
  p_commonDungeons : LfgDungeonSet
}.

Record LfgQueueStatusData := mkStatus {
  q_dungeonId : Z; waitTime : Z; waitTimeAvg : Z; waitTimeTank : Z; waitTimeHealer : Z;
  waitTimeDps : Z; queuedTime : Z; tanks : Z; healers : Z; dps : Z
}.

Definition newStatus (waitTimeAvg queuedTime tanks healers dps : Z) : LfgQueueStatusData :=
  mkStatus 1 (-1) waitTimeAvg (-1) (-1) (-1) queuedTime tanks healers dps.

Record LFGQueue := mkQueue {
  queueDataStore : gmap Z QueueData;
  queueDataCellar : gmap Z QueueData;
  queue : list Z;
  newToQueue : list Z;
  allCombinations : list (Z * Combination);
  waitTimes : gmap Z (gmap Z Z);
  combinationsUpdated : bool;
  timesUpdated : bool;
  queueDataUpdated : bool;
  _isUpdating : bool;
  timedDungeonEntries : list DelayedDungeonEntry
}.

Definition empty_queue : LFGQueue := mkQueue ∅ ∅ [] [] [] ∅ false false false false [].

Definition set_store q x : LFGQueue :=
  mkQueue x (queueDataCellar q) (queue q) (newToQueue q) (allCombinations q)
    (waitTimes q) (combinationsUpdated q) (timesUpdated q) (queueDataUpdated q)
    (_isUpdating q) (timedDungeonEntries q).
Definition set_cellar q x : LFGQueue :=
  mkQueue (queueDataStore q) x (queue q) (newToQueue q) (allCombinations q)
    (waitTimes q) (combinationsUpdated q) (timesUpdated q) (queueDataUpdated q)
    (_isUpdating q) (timedDungeonEntries q).
Definition set_queue q x : LFGQueue :=
  mkQueue (queueDataStore q) (queueDataCellar q) x (newToQueue q) (allCombinations q)
    (waitTimes q) (combinationsUpdated q) (timesUpdated q) (queueDataUpdated q)
    (_isUpdating q) (timedDungeonEntries q).
Definition set_new q x : LFGQueue :=
  mkQueue (queueDataStore q) (queueDataCellar q) (queue q) x (allCombinations q)
    (waitTimes q) (combinationsUpdated q) (timesUpdated q) (queueDataUpdated q)
    (_isUpdating q) (timedDungeonEntries q).
Definition set_combs q x : LFGQueue :=
  mkQueue (queueDataStore q) (queueDataCellar q) (queue q) (newToQueue q) x
    (waitTimes q) (combinationsUpdated q) (timesUpdated q) (queueDataUpdated q)
    (_isUpdating q) (timedDungeonEntries q).
Definition set_waitTimes q x : LFGQueue :=
  mkQueue (queueDataStore q) (queueDataCellar q) (queue q) (newToQueue q)
    (allCombinations q) x (combinationsUpdated q) (timesUpdated q) (queueDataUpdated q)
    (_isUpdating q) (timedDungeonEntries q).
Definition set_combinationsUpdated q x : LFGQueue :=
  mkQueue (queueDataStore q) (queueDataCellar q) (queue q) (newToQueue q)
    (allCombinations q) (waitTimes q) x (timesUpdated q) (queueDataUpdated q)
    (_isUpdating q) (timedDungeonEntries q).
Definition set_timesUpdated q x : LFGQueue :=
  mkQueue (queueDataStore q) (queueDataCellar q) (queue q) (newToQueue q)
    (allCombinations q) (waitTimes q) (combinationsUpdated q) x (queueDataUpdated q)
    (_isUpdating q) (timedDungeonEntries q).
Definition set_queueDataUpdated q x : LFGQueue :=
  mkQueue (queueDataStore q) (queueDataCellar q) (queue q) (newToQueue q)
    (allCombinations q) (waitTimes q) (combinationsUpdated q) (timesUpdated q) x
    (_isUpdating q) (timedDungeonEntries q).
Definition set_isUpdating q x : LFGQueue :=
  mkQueue (queueDataStore q) (queueDataCellar q) (queue q) (newToQueue q)
    (allCombinations q) (waitTimes q) (combinationsUpdated q) (timesUpdated q)
    (queueDataUpdated q) x (timedDungeonEntries q).
Definition set_timed q x : LFGQueue :=
  mkQueue (queueDataStore q) (queueDataCellar q) (queue q) (newToQueue q)
    (allCombinations q) (waitTimes q) (combinationsUpdated q) (timesUpdated q)
    (queueDataUpdated q) (_isUpdating q) x.

(** ** Sets of premades (Premade::operator<) *)

Definition premade_lt (st : gmap Z QueueData) (a b : Z) : bool :=
  let jt g := from_option joinTime 0 (st !! g) in
  if a =? b then false
  else if jt a =? jt b then a <? b else jt a <? jt b.

(** The references of the set are alive and the set is in order. *)
Fixpoint in_order (st : gmap Z QueueData) (l : list Z) : bool :=
  match l with
  | a :: ((b :: _) as l') => premade_lt st a b && in_order st l'
  | _ => true
  end.

Definition with_set {A} (st : gmap Z QueueData) (l : list Z) (k : outcome A) : outcome A :=
  if bool_decide (Forall (λ g, is_Some (st !! g)) l) then
    if in_order st l then k else Undefined
  else BadPtr.

Definition set_find (st : gmap Z QueueData) (g : Z) (l : list Z) : outcome bool :=
  with_set st l (Ok (bool_decide (g ∈ l))).

Fixpoint insert_at (st : gmap Z QueueData) (g : Z) (l : list Z) : list Z :=
  match l with
  | [] => [g]
  | h :: t => if premade_lt st h g then h :: insert_at st g t
              else if premade_lt st g h then g :: l else l
  end.

Definition set_insert (st : gmap Z QueueData) (g : Z) (l : list Z) : outcome (list Z) :=
  with_set st l (if bool_decide (is_Some (st !! g)) then Ok (insert_at st g l) else BadPtr).

Definition set_erase (st : gmap Z QueueData) (g : Z) (l : list Z) : outcome (list Z) :=
  with_set st l (Ok (filter (λ x, x ≠ g) l)).

(** Reading through the references of a set, in order. *)
Fixpoint read_all (st : gmap Z QueueData) (l : list Z) : outcome (list (Z * QueueData)) :=
  match l with
  | [] => Ok []
  | g :: l => deref (st !! g) (λ d, let! r := read_all st l in Ok ((g, d) :: r))
  end.

(** ** The environment

    [asserts]: whether assert() is compiled in; [ignores p q]: player [p] is online now
    and has [q] on the ignore list. *)
Class LfgEnv := {
  asserts : bool;
  ignores : Z → Z → bool
}.

(** What the queue asks LFGMgr for: the old state of a group, the group of a player. *)
Class LfgGroups := {
  GetOldState : Z → LfgState;
  GetGroup : Z → Z
}.

Section queue.
Context `{LE : LfgEnv} `{LG : LfgGroups} `{RND : Random}.
Implicit Types q : LFGQueue.

(** [assert(!_isUpdating)] *)
Definition assert_not_updating {A} q (k : outcome A) : outcome A :=
  if asserts && _isUpdating q then AssertFail else k.

Definition IsQueued q (g : Z) : outcome bool :=
  let! a := set_find (queueDataStore q) g (queue q) in
  if (a : bool) then Ok true else set_find (queueDataStore q) g (newToQueue q).

Fixpoint erase_combinations (st : gmap Z QueueData) (g : Z) (l : list (Z * Combination))
    : outcome (list (Z * Combination)) :=
  match l with
  | [] => Ok []
  | tc :: l =>
    let! found := set_find st g (premades tc.2) in
    let! l := erase_combinations st g l in
    Ok (if (found : bool) then l else tc :: l)
  end.

(** RemoveFromQueue(Premade) *)
Definition RemovePremade q (g : Z) : outcome LFGQueue :=
  let st := queueDataStore q in
  let! n := set_erase st g (newToQueue q) in
  let! w := set_erase st g (queue q) in
  let! cs := erase_combinations st g (allCombinations q) in
  Ok (set_combinationsUpdated (set_combs (set_queue (set_new q n) w) cs) true).

(** RemoveFromQueue(ObjectGuid) *)
Definition RemoveFromQueue q (guid : Z) : outcome LFGQueue :=
  match queueDataStore q !! guid with
  | Some _ => RemovePremade q guid
  | None => Ok q
  end.

(** RemoveFromQueue(PremadeSet) *)
Fixpoint RemovePremades q (guids : list Z) : outcome LFGQueue :=
  match guids with
  | [] => Ok q
  | g :: guids => let! q := RemovePremade q g in RemovePremades q guids
  end.

(** ** Waiting times *)

Definition all_roles (r : LfgRolesMap) : Z :=
  Z.land (foldl (λ acc kv, Z.lor acc kv.2) 0 (items r)) (Z.lnot PLAYER_ROLE_LEADER).

Definition RefreshWaitTime q (g : Z) : outcome LFGQueue :=
  deref (queueDataStore q !! g) (λ myData,
    let mask := all_roles (roles myData) in
    let bestWaitTime :=
      foldl (λ best d,
          match waitTimes q !! d with
          | None => best
          | Some wt =>
            foldl (λ best x,
                if (x.1 .& mask) && ((x.2 <? best) || (best =? -1)) then x.2 else best)
              best (items wt)
          end)
        (-1) (set_items (dungeons myData)) in
    Ok (set_store q (<[g := mkData (joinTime myData) (dungeons myData) (roles myData)
                          (isLfgGroup myData) bestWaitTime (rolesNeeded myData)]>
                       (queueDataStore q)))).

Fixpoint refresh_all q (l : list Z) : outcome LFGQueue :=
  match l with
  | [] => Ok q
  | g :: l => let! q := RefreshWaitTime q g in refresh_all q l
  end.

Definition RefreshWaitTimes q : outcome LFGQueue :=
  if negb (timesUpdated q) then Ok q
  else
    let! q := refresh_all q (queue q) in
    Ok (set_queueDataUpdated (set_timesUpdated q false) true).

(** The sum of the times per role, then the mean. [int32] sums that overflow wrap. *)
Definition mean_times (times : list (Z * Z)) : outcome (gmap Z Z) :=
  let sums := foldl (λ wt rt, match wt !! rt.1 with
                              | None => <[rt.1 := rt.2]> wt
                              | Some x => <[rt.1 := s32 (x + rt.2)]> wt
                              end) (∅ : gmap Z Z) times in
  foldr (λ rt acc,
      let! wt := acc in
      match NEEDED_ALL_ROLES !! rt.1 with
      | Some n => Ok (<[rt.1 := Z.quot rt.2 n]> wt)
      | None => Undefined                         (* map::at throws *)
      end) (Ok ∅) (items sums).

Definition merge_times (old wt : gmap Z Z) : gmap Z Z :=
  foldl (λ old rt, match old !! rt.1 with
                   | None => <[rt.1 := rt.2]> old
                   | Some x => <[rt.1 := Z.quot (s32 (x + rt.2)) 2]> old
                   end) old (items wt).

Definition UpdateWaitTime q (ds : LfgDungeonSet) (times : list (Z * Z)) : outcome LFGQueue :=
  let! wt := mean_times times in
  let store := foldl (λ ws d, match ws !! d with
                              | None => <[d := wt]> ws
                              | Some old => <[d := merge_times old wt]> ws
                              end) (waitTimes q) (set_items ds) in
  Ok (set_timesUpdated (set_waitTimes q store) true).

(** ** Adding and removing *)

(** Insertion into the set of delayed entries, whose order looks at the time only:
    an entry of an equal time is not inserted. *)
Fixpoint delayed_insert (e : DelayedDungeonEntry) (l : list DelayedDungeonEntry)
    : list DelayedDungeonEntry :=
  match l with
  | [] => [e]
  | h :: t => if timeToAdd h <? timeToAdd e then h :: delayed_insert e t
              else if timeToAdd e <? timeToAdd h then e :: l else l
  end.

(** Both AddNewToQueue and AddOldToQueue end with this part. *)
Definition enqueue q (guid : Z) : outcome LFGQueue :=
  let! queued := IsQueued q guid in
  let! q := (if (queued : bool) then RemovePremade q guid else Ok q) in
  let! n := set_insert (queueDataStore q) guid (newToQueue q) in
  RefreshWaitTime (set_new q n) guid.

Definition AddNewToQueue q (now guid joinTime : Z) (dungeonTimes : gmap Z Z)
    (roles : LfgRolesMap) (isLfgGroup : bool) : outcome LFGQueue :=
  assert_not_updating q (
    let '(ds, timed) :=
      foldl (λ acc dt,
          if dt.2 <=? now then ({[dt.1]} ∪ acc.1, acc.2)
          else (acc.1, delayed_insert (mkDelayed dt.1 dt.2 joinTime guid) acc.2))
        (∅, timedDungeonEntries q) (items dungeonTimes) in
    enqueue (set_store (set_timed q timed)
               (<[guid := newData joinTime ds roles isLfgGroup]> (queueDataStore q))) guid).

Definition AddOldToQueue q (guid : Z) : outcome LFGQueue :=
  assert_not_updating q (
    match queueDataStore q !! guid with
    | Some _ => enqueue q guid
    | None =>
      match queueDataCellar q !! guid with
      | None => Ok q
      | Some d => enqueue (set_store q (<[guid := d]> (queueDataStore q))) guid
      end
    end).

Definition RemoveFromSystem q (guid : Z) : outcome LFGQueue :=
  assert_not_updating q (
    let! q := RemoveFromQueue q guid in
    match queueDataStore q !! guid with
    | Some d => Ok (set_store (set_cellar q (<[guid := d]> (queueDataCellar q)))
                      (delete guid (queueDataStore q)))
    | None => Ok q
    end).

Definition SetDebugUpdating q (isUpdating : bool) : LFGQueue := set_isUpdating q isUpdating.
Definition HasData q (guid : Z) : bool := bool_decide (is_Some (queueDataStore q !! guid)).

Definition NeedsUpdate q (now : Z) : bool :=
  negb (bool_decide (newToQueue q = [])) || combinationsUpdated q || timesUpdated q ||
  match timedDungeonEntries q with [] => false | e :: _ => timeToAdd e <? now end.

Definition GetJoinTime q (now guid : Z) : Z :=
  match queueDataStore q !! guid with
  | Some d => joinTime d
  | None => match queueDataCellar q !! guid with
            | Some d => joinTime d
            | None => now - MINUTE
            end
  end.

(** ** Combinations *)

Definition roles_union (pd : list (Z * QueueData)) : LfgRolesMap :=
  foldl (λ acc gd, foldl (λ acc kv, emplace kv.1 kv.2 acc) acc (items (roles gd.2))) ∅ pd.

Definition common_dungeons (first : LfgDungeonSet) (pd : list (Z * QueueData)) : LfgDungeonSet :=
  foldl (λ common gd, dungeons gd.2 ∩ common) first pd.

(** The only group that queues from a dungeon, 0 for none; [None] for two of them. *)
Fixpoint group_from_dungeon (pd : list (Z * QueueData)) (found : Z) : option Z :=
  match pd with
  | [] => Some found
  | (g, d) :: pd =>
    if isLfgGroup d then
      if negb (found =? 0) then None else group_from_dungeon pd g
    else group_from_dungeon pd found
  end.

Definition any_ignores (pd : list (Z * QueueData)) : bool :=
  existsb (λ a, existsb (λ b,
    if a.1 =? b.1 then false
    else existsb (λ p, existsb (λ pp, ignores p.1 pp.1) (items (roles b.2))) (items (roles a.2)))
    pd) pd.

Definition BuildCombinationInfo (st : gmap Z QueueData) (ps : list Z) (s : rng)
    : outcome (CombinationInfo * rng) :=
  let! pd := read_all st ps in
  match pd with
  | [] => BadPtr                                     (* premades.begin() of an empty set *)
  | (_, d0) :: _ =>
    let rs := roles_union pd in
    if MAXGROUPSIZE <? Z.of_nat (size rs) then Ok (COMBINATION_INVALID, s)
    else
      let common := common_dungeons (dungeons d0) pd in
      if bool_decide (common = ∅) then Ok (COMBINATION_INVALID, s)
      else
        let full := Z.of_nat (size rs) =? MAXGROUPSIZE in
        let armts := CheckRoles rs full in
        match armts with
        | [] => Ok (COMBINATION_INVALID, s)
        | _ =>
          match group_from_dungeon pd 0 with
          | None => Ok (COMBINATION_INVALID, s)
          | Some groupFromDungeon =>
            if any_ignores pd then Ok (COMBINATION_INVALID, s)
            else
              let! (arrangement, s) := SelectRandomContainerElement armts s in
              if negb full then Ok (COMBINATION_INCOMPLETE ps arrangement, s)
              else
                let! (leader, s) := SelectLeader rs s in
                Ok (COMBINATION_COMPLETE ps arrangement common leader groupFromDungeon, s)
          end
        end
  end.

(** The average join time, the key of the combination, and the combination. *)
Definition ToCombination (st : gmap Z QueueData) (ps : list Z) (arrangement : LfgRolesMap)
    : outcome (Z * Combination) :=
  let! pd := read_all st ps in
  let sumJoinTime :=
    foldl (λ sum gd, u64 (sum + joinTime gd.2 * Z.of_nat (size (roles gd.2)))) 0 pd in
  let needed :=
    foldl (λ n kv, <[kv.2 := u8 (default 0 (n !! kv.2) - 1)]> n) NEEDED_ALL_ROLES
      (items arrangement) in
  if Z.of_nat (size arrangement) =? 0 then Undefined
  else Ok (s64 (sumJoinTime / Z.of_nat (size arrangement)), mkComb ps needed).

(** The entry of a player in a proposal: members of the group that continues in its
    dungeon have agreed already. *)
Definition proposal_player (isNew : bool) (grp guid role : Z) : LfgProposalPlayer :=
  let g := GetGroup guid in
  mkPPlayer role
    (if negb isNew && negb (g =? 0) && (g =? grp) then LFG_ANSWER_AGREE else LFG_ANSWER_PENDING) g.

Definition BuildProposal (now : Z) (ps : list Z) (arrangement : LfgRolesMap)
    (commonDungeons : LfgDungeonSet) (leaderGuid groupFromDungeon : Z) (s : rng)
    : outcome (LfgProposal * rng) :=
  let isNew := negb (negb (groupFromDungeon =? 0)
                     && bool_decide (GetOldState groupFromDungeon = LFG_STATE_DUNGEON)) in
  let! (dungeonId, s) := SelectRandomContainerElement (set_items commonDungeons) s in
  let proposalPlayers :=
    foldl (λ m kv, emplace kv.1 (proposal_player isNew groupFromDungeon kv.1 kv.2) m)
      (∅ : gmap Z LfgProposalPlayer) (items arrangement) in
  Ok (mkProposal 0 dungeonId LFG_PROPOSAL_INITIATING groupFromDungeon leaderGuid
        (now + LFG_TIME_PROPOSAL) 0 isNew true ps [] proposalPlayers commonDungeons, s).

(** ** Searching *)

(** What one try ends with: a proposal handed to LFGMgr::AddProposal, or not. *)
Abbreviation search_result := (bool * LFGQueue * option LfgProposal * rng)%type.

(** The loop over the existing combinations. *)
Fixpoint search q (now premade : Z) (cs : list (Z * Combination))
    (newCombinations : list (Z * Combination)) (s : rng)
    : outcome (option (LFGQueue * LfgProposal) * list (Z * Combination) * rng) :=
  match cs with
  | [] => Ok (None, newCombinations, s)
  | (_, c) :: cs =>
    let st := queueDataStore q in
    let! cGuids := set_insert st premade (premades c) in
    let! (info, s) := BuildCombinationInfo st cGuids s in
    match info with
    | COMBINATION_INVALID => search q now premade cs newCombinations s
    | COMBINATION_COMPLETE ps a common leader grp =>
      let! (p, s) := BuildProposal now ps a common leader grp s in
      let! q := RemovePremades q (premades c) in
      Ok (Some (q, p), newCombinations, s)
    | COMBINATION_INCOMPLETE ps a =>
      let! tc := ToCombination st ps a in
      search q now premade cs (mm_insert tc.1 tc.2 newCombinations) s
    end
  end.

Definition FindGroup q (now premade : Z) (s : rng) : outcome search_result :=
  let st := queueDataStore q in
  let! (info, s) := BuildCombinationInfo st [premade] s in
  match info with
  | COMBINATION_INVALID => Ok (false, q, None, s)
  | COMBINATION_COMPLETE ps a common leader grp =>
    let! (p, s) := BuildProposal now ps a common leader grp s in
    Ok (true, q, Some p, s)
  | COMBINATION_INCOMPLETE ps a =>
    let! tc := ToCombination st ps a in
    let! (found, newCombinations, s) := search q now premade (allCombinations q) [tc] s in
    match found with
    | Some (q, p) => Ok (true, q, Some p, s)
    | None =>
      let! w := set_insert st premade (queue q) in
      Ok (false, set_combs (set_queue q w)
                   (mm_insert_all newCombinations (allCombinations q)), None, s)
    end
  end.

(** Dungeons whose waiting time is over are added to their premades. *)
Fixpoint add_delayed q (now : Z) (timed : list DelayedDungeonEntry) : outcome LFGQueue :=
  match timed with
  | e :: timed =>
    if timeToAdd e <=? now then
      let guid := premade e in
      let! q :=
        match queueDataStore q !! guid with
        | Some d =>
          if joinTime d =? d_joinTime e then
            let d := mkData (joinTime d) ({[d_dungeon e]} ∪ dungeons d) (roles d) (isLfgGroup d)
                       (avgWaitTime d) (rolesNeeded d) in
            let q := set_store q (<[guid := d]> (queueDataStore q)) in
            let! waiting := set_find (queueDataStore q) guid (queue q) in
            if (waiting : bool) then
              let! q := RemovePremade q guid in AddOldToQueue q guid
            else Ok q
          else Ok q
        | None => Ok q
        end in
      add_delayed (set_timed q timed) now timed
    else Ok q
  | [] => Ok q
  end.

Definition FindGroups q (now : Z) (s : rng) : outcome (LFGQueue * option LfgProposal * rng) :=
  let! q := add_delayed q now (timedDungeonEntries q) in
  match newToQueue q with
  | [] => Ok (q, None, s)
  | premade :: _ =>
    let! (_, q, p, s) := FindGroup q now premade s in
    Ok (set_combinationsUpdated (set_new q (tail (newToQueue q))) true, p, s)
  end.

(** ** What the clients are shown *)

Definition GetSumNeeded (m : LfgRolesNeededMap) : Z :=
  foldl (λ acc kv, u8 (acc + kv.2)) 0 (items m).

Definition with_needed (d : QueueData) (n : LfgRolesNeededMap) : QueueData :=
  mkData (joinTime d) (dungeons d) (roles d) (isLfgGroup d) (avgWaitTime d) n.

(** [it->data.rolesNeeded = n] for every premade of the list *)
Fixpoint assign_needed (n : LfgRolesNeededMap) (l : list Z) (st : gmap Z QueueData)
    : outcome (gmap Z QueueData) :=
  match l with
  | [] => Ok st
  | g :: l => deref (st !! g) (λ d, assign_needed n l (<[g := with_needed d n]> st))
  end.

(** The loop stops at the first premade that is already better off. *)
Fixpoint improves (st : gmap Z QueueData) (n : LfgRolesNeededMap) (l : list Z) : outcome bool :=
  match l with
  | [] => Ok true
  | g :: l => deref (st !! g) (λ d,
      if GetSumNeeded (rolesNeeded d) <=? GetSumNeeded n then Ok false else improves st n l)
  end.

Fixpoint best_arrangements (cs : list (Z * Combination)) (st : gmap Z QueueData)
    : outcome (gmap Z QueueData) :=
  match cs with
  | [] => Ok st
  | (_, c) :: cs =>
    let! isValid := improves st (c_rolesNeeded c) (premades c) in
    let! st := (if (isValid : bool) then assign_needed (c_rolesNeeded c) (premades c) st else Ok st) in
    best_arrangements cs st
  end.

Definition RefreshBestArrangements q : outcome LFGQueue :=
  if negb (combinationsUpdated q) then Ok q
  else
    let! st := assign_needed NEEDED_ALL_ROLES (queue q) (queueDataStore q) in
    let! st := best_arrangements (allCombinations q) st in
    Ok (set_queueDataUpdated (set_combinationsUpdated (set_store q st) false) true).

(** [rolesNeeded.at(role)] throws for a role that is not there. *)
Definition at_role (n : LfgRolesNeededMap) (r : Z) {A} (k : Z → outcome A) : outcome A :=
  match n !! r with Some x => k x | None => Undefined end.

Definition SendQueueData q (currTime : Z) : outcome (LFGQueue * list (Z * LfgQueueStatusData)) :=
  if negb (queueDataUpdated q) then Ok (q, [])
  else
    let! pd := read_all (queueDataStore q) (queue q) in
    let! out := foldr (λ gd acc,
        let! acc := acc in
        let d := gd.2 in
        at_role (rolesNeeded d) PLAYER_ROLE_TANK (λ t,
        at_role (rolesNeeded d) PLAYER_ROLE_HEALER (λ h,
        at_role (rolesNeeded d) PLAYER_ROLE_DAMAGE (λ dd,
          let queueData := newStatus (avgWaitTime d) (u32 (currTime - joinTime d)) t h dd in
          Ok (map (λ kv : Z * Z, (kv.1, queueData)) (items (roles d)) ++ acc)))))
      (Ok []) pd in
    Ok (set_queueDataUpdated q false, out).

End queue.

End LfgQueue.
