(* ===== verification/LfgMatch.v ===== *)
(** * What the queue of the dungeon finder guarantees

    The specification of [LfgQueue]: which sets of premades can play together
    ([compat]), the invariant of the queue, and the theorems: the proposals are
    sound, no group that could start is left waiting, and no operation follows a
    dead reference. *)
From S2P Require Import Prelude Multimap LfgRoles LfgQueue.

Module LfgMatch.
Export LfgQueue.

(** ** Reading the store *)

Definition no_data : QueueData := newData 0 ∅ ∅ false.
Definition data (st : gmap Z QueueData) (g : Z) : QueueData := default no_data (st !! g).

(** The part of the data that the search reads. *)
Definition core (d : QueueData) : Z * LfgDungeonSet * LfgRolesMap * bool :=
  (joinTime d, dungeons d, roles d, isLfgGroup d).

Definition alive (st : gmap Z QueueData) (l : list Z) : Prop := Forall (λ g, is_Some (st !! g)) l.

Definition party (st : gmap Z QueueData) (l : list Z) : LfgRolesMap :=
  ⋃ ((λ g, roles (data st g)) <$> l).
Definition players (st : gmap Z QueueData) (l : list Z) : Z := Z.of_nat (size (party st l)).

(** Strict order of premades. *)
Definition plt (st : gmap Z QueueData) (a b : Z) : Prop := premade_lt st a b = true.
Definition pset (st : gmap Z QueueData) (l : list Z) : Prop := alive st l ∧ StronglySorted (plt st) l.

(** The premades of [l] can play together, when [ig p q] says that [p] ignores [q]. *)
Record compat_with (ig : Z → Z → Prop) (st : gmap Z QueueData) (l : list Z) : Prop := mkCompat {
  co_size : players st l ≤ MAXGROUPSIZE;
  co_dungeon : ∃ d, ∀ g, g ∈ l → d ∈ dungeons (data st g);
  co_roles : ∃ a, arrangement (party st l) a;
  co_group : ∀ g g', g ∈ l → g' ∈ l →
    isLfgGroup (data st g) = true → isLfgGroup (data st g') = true → g = g';
  co_ignore : ∀ g g' p p', g ∈ l → g' ∈ l → g ≠ g' →
    is_Some (roles (data st g) !! p) → is_Some (roles (data st g') !! p') → ¬ ig p p'
}.

(** The ignore lists of this moment, and none. *)
Definition ignoring `{LE : LfgEnv} (p p' : Z) : Prop := ignores p p' = true.
Definition nobody (p p' : Z) : Prop := False.
Abbreviation compat := (compat_with ignoring).

Lemma compat_weaken (ig ig' : Z → Z → Prop) st l :
  (∀ p p', ig' p p' → ig p p') → compat_with ig st l → compat_with ig' st l.
Proof. intros H [H1 H2 H3 H4 H5]. split; try done. intros g g' p p' ? ? ? ? ? ?%H. by eapply (H5 g g' p p'). Qed.

Lemma compat_nobody ig st l : compat_with ig st l → compat_with nobody st l.
Proof. apply compat_weaken. by intros p p' []. Qed.

Definition has_all_roles (n : LfgRolesNeededMap) : Prop :=
  is_Some (n !! PLAYER_ROLE_TANK) ∧ is_Some (n !! PLAYER_ROLE_HEALER) ∧ is_Some (n !! PLAYER_ROLE_DAMAGE).

Record data_ok (d : QueueData) : Prop := mkDataOk {
  do_roles : roles d ≠ ∅;
  do_dungeons : ∀ x, x ∈ dungeons d → in_u32 x;
  do_needed : has_all_roles (rolesNeeded d)
}.

(** No guid is 0 and no player is in two premades. *)
Record store_ok (st : gmap Z QueueData) : Prop := mkStoreOk {
  so_data : map_Forall (λ _ d, data_ok d) st;
  so_zero : st !! 0 = None;
  so_disj : ∀ g g' p, is_Some (roles (data st g) !! p) → is_Some (roles (data st g') !! p) → g = g'
}.

(** ** The order of premades *)

Section order.
Variable st : gmap Z QueueData.
Let jt g := joinTime (data st g).

Lemma plt_iff a b : plt st a b ↔ jt a < jt b ∨ (jt a = jt b ∧ a < b).
Proof.
  unfold plt, premade_lt, jt, data.
  assert (∀ g, from_option joinTime 0 (st !! g) = joinTime (default no_data (st !! g))) as E.
  { intros g. by destruct (st !! g). }
  rewrite !E. destruct (Z.eqb_spec a b) as [->|Hab].
  - split; [done|lia].
  - destruct (Z.eqb_spec (joinTime (default no_data (st !! a))) (joinTime (default no_data (st !! b)))) as [->|Hj].
    + rewrite Z.ltb_lt. lia.
    + rewrite Z.ltb_lt. lia.
Qed.

Lemma premade_lt_false a b : premade_lt st a b = false ↔ ¬ plt st a b.
Proof. unfold plt. by rewrite not_true_iff_false. Qed.

#[local] Instance plt_trans : Transitive (plt st).
Proof. intros a b c. rewrite !plt_iff. lia. Qed.

Lemma in_order_iff l : in_order st l = true ↔ StronglySorted (plt st) l.
Proof.
  induction l as [|a l IH]; [split; [constructor|done]|].
  destruct l as [|b l]; [split; [repeat constructor|done]|].
  change (in_order st (a :: b :: l)) with (premade_lt st a b && in_order st (b :: l)).
  rewrite andb_true_iff, IH. split.
  - intros [Hab Hl]. constructor; [done|]. constructor; [done|].
    inversion Hl as [|? ? _ Hb]; subst. eapply Forall_impl; [exact Hb|].
    intros c Hc. by transitivity b.
  - inversion 1 as [|? ? Hl Ha]; subst. inversion Ha; subst. done.
Qed.

Lemma sorted_NoDup l : StronglySorted (plt st) l → NoDup l.
Proof.
  induction 1 as [|a l Hl IH Ha]; constructor; [|done].
  intros Hin. rewrite Forall_forall in Ha. specialize (Ha a Hin). rewrite plt_iff in Ha. lia.
Qed.

Lemma sorted_unique l1 l2 :
  StronglySorted (plt st) l1 → StronglySorted (plt st) l2 → (∀ x, x ∈ l1 ↔ x ∈ l2) → l1 = l2.
Proof.
  intros H1 H2 Hel.
  apply (StronglySorted_unique_strong (plt st)); [|done|done|].
  - intros x y _ _. rewrite !plt_iff. lia.
  - by apply NoDup_Permutation; [apply sorted_NoDup|apply sorted_NoDup|].
Qed.

Lemma insert_at_elem g l x : x ∈ insert_at st g l ↔ x = g ∨ x ∈ l.
Proof.
  induction l as [|h l IH]; simpl; [set_solver|].
  destruct (premade_lt st h g) eqn:E1; [rewrite !elem_of_cons, IH; naive_solver|].
  destruct (premade_lt st g h) eqn:E2; [set_solver|].
  assert (g = h) as ->; [|set_solver].
  apply premade_lt_false in E1, E2. rewrite plt_iff in *. lia.
Qed.

Lemma insert_at_sorted g l : StronglySorted (plt st) l → StronglySorted (plt st) (insert_at st g l).
Proof.
  induction 1 as [|h l Hl IH Hh]; simpl; [repeat constructor|].
  destruct (premade_lt st h g) eqn:E1.
  - constructor; [done|]. rewrite Forall_forall in *. intros x [->|Hx]%insert_at_elem; auto.
  - destruct (premade_lt st g h) eqn:E2; [|by constructor].
    constructor; [by constructor|]. constructor; [done|].
    eapply Forall_impl; [exact Hh|]. intros x Hx. by transitivity h.
Qed.

Lemma with_set_ok {A} l (k : outcome A) : pset st l → with_set st l k = k.
Proof.
  intros [Ha Hs]. unfold with_set. rewrite bool_decide_true by done.
  by rewrite (proj2 (in_order_iff l)).
Qed.

Lemma pset_filter (P : Z → Prop) `{∀ x, Decision (P x)} l : pset st l → pset st (filter P l).
Proof.
  intros [Ha Hs]. split; [|by apply StronglySorted_filter].
  unfold alive in *. rewrite Forall_forall in *. intros x Hx.
  apply Ha. by apply list_elem_of_filter in Hx as [_ Hx].
Qed.

Lemma pset_insert g l : is_Some (st !! g) → pset st l → pset st (insert_at st g l).
Proof.
  intros Hg [Ha Hs]. split; [|by apply insert_at_sorted].
  unfold alive in *. rewrite Forall_forall in *. intros x [->|Hx]%insert_at_elem; auto.
Qed.

Lemma pset_singleton g : is_Some (st !! g) → pset st [g].
Proof. intros Hg. split; repeat constructor; done. Qed.

Lemma set_insert_ok g l :
  is_Some (st !! g) → pset st l → set_insert st g l = Ok (insert_at st g l).
Proof. intros Hg Hl. unfold set_insert. rewrite with_set_ok by done. by rewrite bool_decide_true. Qed.

Lemma set_find_ok g l : pset st l → set_find st g l = Ok (bool_decide (g ∈ l)).
Proof. intros Hl. unfold set_find. by rewrite with_set_ok. Qed.

Lemma set_erase_ok g l : pset st l → set_erase st g l = Ok (filter (λ x, x ≠ g) l).
Proof. intros Hl. unfold set_erase. by rewrite with_set_ok. Qed.

Lemma read_all_ok l : alive st l → read_all st l = Ok ((λ g, (g, data st g)) <$> l).
Proof.
  induction 1 as [|g l [d Hd] Hl IH]; [done|]. simpl.
  unfold data at 1. rewrite Hd. simpl. by rewrite IH.
Qed.
End order.

(** ** The members of a set of premades *)

Lemma foldl_emplace (m acc : LfgRolesMap) :
  foldl (λ acc kv, emplace kv.1 kv.2 acc) acc (items m) = acc ∪ m.
Proof.
  assert (∀ b (acc : LfgRolesMap), NoDup b.*1 →
    foldl (λ acc kv, emplace kv.1 kv.2 acc) acc b = acc ∪ list_to_map b) as H.
  { induction b as [|[k v] b IH]; intros acc' Hn; simpl; [by rewrite (right_id_L ∅ (∪))|].
    rewrite fmap_cons in Hn. apply NoDup_cons in Hn as [Hk Hn]. rewrite IH by done.
    simpl in Hk. unfold emplace. destruct (acc' !! k) as [v'|] eqn:E.
    - apply map_eq. intros j. rewrite !lookup_union.
      destruct (decide (j = k)) as [->|Hj]; [rewrite E, lookup_insert_eq|by rewrite lookup_insert_ne].
      by destruct (list_to_map b !! k).
    - rewrite <- insert_union_l, insert_union_r; done. }
  rewrite H by apply items_NoDup. f_equal.
  rewrite <- (list_to_map_to_list m) at 2. apply list_to_map_proper; [apply items_NoDup|].
  apply items_Permutation.
Qed.

Lemma roles_union_party st l :
  roles_union ((λ g, (g, data st g)) <$> l) = party st l.
Proof.
  unfold roles_union, party.
  assert (∀ acc : LfgRolesMap,
    foldl (λ acc gd, foldl (λ acc kv, emplace kv.1 kv.2 acc) acc (items (roles gd.2))) acc
      ((λ g, (g, data st g)) <$> l) = acc ∪ ⋃ ((λ g, roles (data st g)) <$> l)) as H.
  { induction l as [|g l IH]; intros acc; simpl; [by rewrite (right_id_L ∅ (∪))|].
    rewrite foldl_emplace, IH. by rewrite (assoc_L (∪)). }
  rewrite H. by rewrite (left_id_L ∅ (∪)).
Qed.

Lemma common_dungeons_elem st l first d :
  d ∈ common_dungeons first ((λ g, (g, data st g)) <$> l) ↔
  d ∈ first ∧ ∀ g, g ∈ l → d ∈ dungeons (data st g).
Proof.
  unfold common_dungeons. revert first. induction l as [|g l IH]; intros first; simpl.
  { split; [intros; split; [done|intros ? []%elem_of_nil]|by intros []]. }
  rewrite IH. setoid_rewrite elem_of_cons. simpl. set_solver.
Qed.

Section members.
Context `{LE : LfgEnv}.
Variable st : gmap Z QueueData.
Hypothesis Hst : store_ok st.

Lemma party_lookup l p r :
  party st l !! p = Some r ↔ ∃ g, g ∈ l ∧ roles (data st g) !! p = Some r.
Proof.
  unfold party. induction l as [|g l IH]; simpl.
  { rewrite lookup_empty. split; [done|]. by intros (g & []%elem_of_nil & _). }
  rewrite lookup_union_Some_raw. setoid_rewrite IH. setoid_rewrite elem_of_cons. split.
  - intros [Hg|[_ (g' & Hg' & Hr)]]; eauto.
  - intros (g' & [->|Hg'] & Hr); [by left|].
    destruct (roles (data st g) !! p) as [r'|] eqn:E; [|right; eauto].
    assert (g = g') as -> by (eapply (so_disj _ Hst); eauto). left. congruence.
Qed.

Lemma party_mono l l' : (∀ g, g ∈ l' → g ∈ l) → party st l' ⊆ party st l.
Proof.
  intros Hl. apply map_subseteq_spec. intros p r. rewrite !party_lookup. naive_solver.
Qed.

Lemma arrangement_mono rs rs' a :
  rs' ⊆ rs → arrangement rs a → ∃ a', arrangement rs' a'.
Proof.
  intros Hsub [Hd Hs Hc]. exists (filter (λ kv : Z * Z, kv.1 ∈ dom rs') a).
  assert (∀ g r, filter (λ kv : Z * Z, kv.1 ∈ dom rs') a !! g = Some r ↔ a !! g = Some r ∧ g ∈ dom rs')
    as Hf by (intros; by rewrite map_lookup_filter_Some).
  split.
  - apply set_eq. intros g. rewrite elem_of_dom. unfold is_Some. setoid_rewrite Hf. split; [naive_solver|].
    intros Hg. assert (g ∈ dom a) as [r Hr]%elem_of_dom; [|eauto].
    rewrite Hd. apply (subseteq_dom _ _ Hsub _ Hg).
  - intros g r sel Hg Hsel. apply Hf in Hg as [Hg _]. eapply Hs; [done|]. by eapply lookup_weaken.
  - intros r. etrans; [|apply (Hc r)]. apply count_if_le. intros k v Hk Hv.
    apply Hf in Hk as [Hk _]. eauto.
Qed.

Lemma players_mono l l' : (∀ g, g ∈ l' → g ∈ l) → players st l' ≤ players st l.
Proof. intros Hl. unfold players. apply inj_le, map_subseteq_size, party_mono, Hl. Qed.

(** A set of premades that can play together can do so without some of them. *)
Lemma compat_mono ig l l' : (∀ g, g ∈ l' → g ∈ l) → compat_with ig st l → compat_with ig st l'.
Proof.
  intros Hl [H1 H2 H3 H4 H5]. split.
  - etrans; [by apply players_mono|done].
  - destruct H2 as [d Hd]. exists d. auto.
  - destruct H3 as [a Ha]. eapply arrangement_mono; [by apply party_mono|done].
  - intros g g' Hg Hg'. apply H4; auto.
  - intros g g' p p' Hg Hg'. apply H5; auto.
Qed.

Lemma data_some g : is_Some (st !! g) → st !! g = Some (data st g).
Proof. intros [d Hd]. unfold data. by rewrite Hd. Qed.

Lemma players_lt l l' g :
  is_Some (st !! g) → g ∈ l → g ∉ l' → (∀ x, x ∈ l' → x ∈ l) → players st l' < players st l.
Proof.
  intros Hg Hin Hni Hl. unfold players.
  destruct (map_choose (roles (data st g))) as (p & r & Hp).
  { apply (do_roles (data st g)), (so_data _ Hst g), data_some, Hg. }
  apply inj_lt. rewrite <- !size_dom. apply subset_size. split.
  - apply subseteq_dom, party_mono, Hl.
  - intros Hsub. assert (p ∈ dom (party st l)) as Hpl.
    { apply elem_of_dom. exists r. apply party_lookup. eauto. }
    apply Hsub, elem_of_dom in Hpl as [r' Hr']. apply party_lookup in Hr' as (g' & Hg' & Hr').
    assert (g = g') as -> by (eapply (so_disj _ Hst); eauto). done.
Qed.
End members.

(** ** Evaluating a combination *)

Section evaluate.
Context `{LE : LfgEnv} `{LG : LfgGroups} `{RND : Random}.
Variable st : gmap Z QueueData.
Hypothesis Hst : store_ok st.

(** What the answer of BuildCombinationInfo says about the set [l]. *)
Definition info_ok (l : list Z) (info : CombinationInfo) : Prop :=
  match info with
  | COMBINATION_INVALID => ¬ compat st l
  | COMBINATION_INCOMPLETE ps a =>
    ps = l ∧ compat st l ∧ players st l < MAXGROUPSIZE ∧ arrangement (party st l) a
  | COMBINATION_COMPLETE ps a cd leader grp =>
    ps = l ∧ compat st l ∧ players st l = MAXGROUPSIZE ∧ arrangement (party st l) a ∧
    (cd ≠ ∅ ∧ ∀ d, d ∈ cd ↔ ∀ g, g ∈ l → d ∈ dungeons (data st g)) ∧
    is_Some (party st l !! leader) ∧
    (grp = 0 ∧ (∀ g, g ∈ l → isLfgGroup (data st g) = false) ∨
     grp ∈ l ∧ isLfgGroup (data st grp) = true)
  end.

Let pd (l : list Z) := (λ g, (g, data st g)) <$> l.

Lemma pd_elem l g d : (g, d) ∈ pd l ↔ g ∈ l ∧ d = data st g.
Proof. unfold pd. rewrite list_elem_of_fmap. naive_solver. Qed.

Lemma group_found l found :
  found ≠ 0 →
  (group_from_dungeon (pd l) found = Some found ∧ ∀ g, g ∈ l → isLfgGroup (data st g) = false) ∨
  (group_from_dungeon (pd l) found = None ∧ ∃ g, g ∈ l ∧ isLfgGroup (data st g) = true).
Proof.
  intros Hf. induction l as [|g l IH]; simpl; [left; split; [done|by intros ? []%elem_of_nil]|].
  destruct (isLfgGroup (data st g)) eqn:E.
  - right. rewrite (proj2 (Z.eqb_neq found 0)) by done. split; [done|]. exists g. set_solver.
  - destruct IH as [[-> H]|[-> (g' & Hg' & H)]]; [left|right; split; [done|]; exists g'; set_solver].
    split; [done|]. intros g' [->|Hg']%elem_of_cons; auto.
Qed.

Lemma group_none l :
  NoDup l → (∀ g, g ∈ l → g ≠ 0) →
  (group_from_dungeon (pd l) 0 = Some 0 ∧ ∀ g, g ∈ l → isLfgGroup (data st g) = false) ∨
  (∃ g, group_from_dungeon (pd l) 0 = Some g ∧ g ∈ l ∧ isLfgGroup (data st g) = true ∧
        ∀ g', g' ∈ l → isLfgGroup (data st g') = true → g' = g) ∨
  (group_from_dungeon (pd l) 0 = None ∧
   ∃ g g', g ∈ l ∧ g' ∈ l ∧ g ≠ g' ∧ isLfgGroup (data st g) = true ∧ isLfgGroup (data st g') = true).
Proof.
  intros Hn H0. induction l as [|g l IH]; simpl; [left; split; [done|by intros ? []%elem_of_nil]|].
  apply NoDup_cons in Hn as [Hg Hn]. destruct (isLfgGroup (data st g)) eqn:E.
  - right. assert (g ≠ 0) as Hg0 by (apply H0; set_solver).
    destruct (group_found l g Hg0) as [[-> H]|[-> (g' & Hg' & H)]].
    + left. exists g. split; [done|]. split; [set_solver|]. split; [done|].
      intros g' [->|Hg']%elem_of_cons E'; [done|]. rewrite H in E' by done. done.
    + right. split; [done|]. exists g, g'. split; [set_solver|]. split; [set_solver|].
      split; [congruence|done].
  - destruct IH as [[-> H]|[(g' & -> & Hg' & Hl & H)|[-> (g1 & g2 & H1 & H2 & H)]]];
      [done|intros; apply H0; set_solver|left|right; left|right; right].
    + split; [done|]. intros g' [->|Hg']%elem_of_cons; auto.
    + exists g'. split; [done|]. split; [set_solver|]. split; [done|].
      intros x [->|Hx]%elem_of_cons Ex; [congruence|auto].
    + split; [done|]. exists g1, g2. set_solver.
Qed.

Lemma any_ignores_false l :
  any_ignores (pd l) = false ↔
  ∀ g g' p p', g ∈ l → g' ∈ l → g ≠ g' →
    is_Some (roles (data st g) !! p) → is_Some (roles (data st g') !! p') → ¬ ignoring p p'.
Proof.
  unfold any_ignores. rewrite <- not_true_iff_false, existsb_exists. split.
  - intros H g g' p p' Hg Hg' Hne [r Hr] [r' Hr'] Hi. apply H.
    exists (g, data st g). split; [by apply list_elem_of_In, pd_elem|].
    apply existsb_exists. exists (g', data st g'). split; [by apply list_elem_of_In, pd_elem|].
    simpl. rewrite (proj2 (Z.eqb_neq g g')) by done.
    apply existsb_exists. exists (p, r). split; [by apply list_elem_of_In, items_elem|].
    apply existsb_exists. exists (p', r'). split; [by apply list_elem_of_In, items_elem|done].
  - intros H ([g d] & Hg & Hex). apply existsb_exists in Hex as ([g' d'] & Hg' & Hi).
    apply list_elem_of_In, pd_elem in Hg as [Hg ->]. apply list_elem_of_In, pd_elem in Hg' as [Hg' ->].
    cbn [fst snd] in Hi. case_match eqn:E; [done|]. b2p.
    apply existsb_exists in Hi as ([p r] & Hp & Hi). apply existsb_exists in Hi as ([p' r'] & Hp' & Hi).
    apply list_elem_of_In, items_elem in Hp. apply list_elem_of_In, items_elem in Hp'. simpl in Hi.
    by apply (H g g' p p' Hg Hg' E (mk_is_Some _ _ Hp) (mk_is_Some _ _ Hp')).
Qed.

Lemma CheckRoles_answer rs full :
  Z.of_nat (size rs) ≤ 5 →
  (CheckRoles rs full = [] ∧ ∀ a, ¬ arrangement rs a) ∨
  (CheckRoles rs full ≠ [] ∧ Z.of_nat (length (CheckRoles rs full)) < 2 ^ 32 ∧
   ∀ a, a ∈ CheckRoles rs full → arrangement rs a).
Proof.
  intros Hs.
  assert (Z.of_nat (length (CheckRoles rs full)) < 2 ^ 32) as Hlen.
  { unfold CheckRoles. pose proof (CheckRoles_rec_length (items rs) NEEDED_ALL_ROLES ∅ [] full) as H.
    assert (length (items rs) = size rs) as E by (rewrite items_Permutation; apply length_map_to_list).
    rewrite E in H. change (size NEEDED_ALL_ROLES) with 3%nat in H. simpl length in H.
    assert (3 ^ size rs ≤ 3 ^ 5)%nat by (apply Nat.pow_le_mono_r; lia). simpl in *. lia. }
  destruct full.
  - destruct (CheckRoles rs true) as [|a l] eqn:E.
    + left. split; [done|]. intros a Ha. apply CheckRoles_full_iff in Ha. rewrite E in Ha. set_solver.
    + right. split; [done|]. split; [done|]. intros a' Ha'. apply CheckRoles_full_iff. by rewrite E.
  - destruct (CheckRoles_first_iff rs) as [?|(a & E & Ha)]; [by left|right].
    split; [by rewrite E|]. split; [done|]. intros a'. rewrite E. by intros ->%list_elem_of_singleton.
Qed.

(** The end of BuildCombinationInfo: ignore lists, then the random choices. *)
Lemma choices_ok l full grp common s :
  pset st l → full = (Z.of_nat (size (party st l)) =? MAXGROUPSIZE) →
  players st l ≤ MAXGROUPSIZE →
  (∀ d, d ∈ common ↔ ∀ g, g ∈ l → d ∈ dungeons (data st g)) → common ≠ ∅ →
  CheckRoles (party st l) full ≠ [] →
  (∀ g g', g ∈ l → g' ∈ l → isLfgGroup (data st g) = true → isLfgGroup (data st g') = true → g = g') →
  (grp = 0 ∧ (∀ g, g ∈ l → isLfgGroup (data st g) = false) ∨ grp ∈ l ∧ isLfgGroup (data st grp) = true) →
  ∃ info s', (if any_ignores (pd l) then Ok (COMBINATION_INVALID, s)
    else let! (arrangement, s) := SelectRandomContainerElement (CheckRoles (party st l) full) s in
         if negb full then Ok (COMBINATION_INCOMPLETE l arrangement, s)
         else let! (leader, s) := SelectLeader (party st l) s in
              Ok (COMBINATION_COMPLETE l arrangement common leader grp, s)) = Ok (info, s') ∧ info_ok l info.
Proof.
  intros Hl Efull Hsz Hcd Hcd0 Hne Hone Hgrp.
  destruct (CheckRoles_answer (party st l) full Hsz) as [[E _]|(_ & Hlen & Harr)]; [done|].
  destruct (any_ignores (pd l)) eqn:Ei.
  { eexists _, s. split; [done|]. intros [_ _ _ _ H5]. apply any_ignores_false in H5. congruence. }
  destruct (SelectRandomContainerElement_ok _ s Hne (Z.lt_le_incl _ _ Hlen)) as (a & s1 & -> & Ha).
  apply Harr in Ha. cbn [obind].
  assert (compat st l) as Hco.
  { split; [done| |by exists a|done|by apply any_ignores_false].
    apply set_choose_L in Hcd0 as [d Hd]. exists d. by apply Hcd. }
  rewrite Efull. destruct (Z.eqb_spec (Z.of_nat (size (party st l))) MAXGROUPSIZE) as [Ef|Ef]; cbn [negb].
  - destruct (SelectLeader_ok (party st l) s1) as (ld & s2 & -> & Hld).
    { intros E. rewrite E, map_size_empty in Ef. done. }
    { rewrite Ef. done. }
    eexists _, s2. split; [done|]. cbn [info_ok]. split; [done|]. split; [done|]. split; [done|].
    split; [done|]. split; [by split|done].
  - eexists _, s1. split; [done|]. cbn [info_ok]. split; [done|]. split; [done|]. split; [|done].
    unfold players in *. lia.
Qed.

Lemma BuildCombinationInfo_ok l s :
  pset st l → l ≠ [] →
  ∃ info s', BuildCombinationInfo st l s = Ok (info, s') ∧ info_ok l info.
Proof.
  intros Hl Hne. unfold BuildCombinationInfo. rewrite (read_all_ok st l (proj1 Hl)). cbn [obind].
  change ((λ g, (g, data st g)) <$> l) with (pd l).
  destruct (pd l) as [|[g0 d0] t] eqn:Ep; [by destruct l|]. rewrite <- Ep in *.
  assert (g0 ∈ l ∧ d0 = data st g0) as [Hg0 ->] by (apply pd_elem; rewrite Ep; set_solver).
  clear Ep t. assert (roles_union (pd l) = party st l) as -> by apply roles_union_party.
  pose proof (sorted_NoDup st l (proj2 Hl)) as Hnd.
  assert (∀ g, g ∈ l → g ≠ 0) as H0.
  { intros g Hg ->. destruct Hl as [Ha _]. unfold alive in Ha. rewrite Forall_forall in Ha.
    destruct (Ha 0 Hg) as [d Hd]. by rewrite (so_zero _ Hst) in Hd. }
  assert (∀ d, d ∈ common_dungeons (dungeons (data st g0)) (pd l) ↔ ∀ g, g ∈ l → d ∈ dungeons (data st g)) as Hcd.
  { intros d. unfold pd. rewrite common_dungeons_elem. split; [by intros []|]. intros H; split; [by apply H|done]. }
  destruct (Z.ltb_spec MAXGROUPSIZE (Z.of_nat (size (party st l)))) as [Hsz|Hsz].
  { eexists _, s. split; [done|]. intros [H1 _ _ _ _]. unfold players in H1. lia. }
  case_bool_decide as Hd.
  { eexists _, s. split; [done|]. intros [_ [d H2] _ _ _]. apply Hcd in H2. rewrite Hd in H2. set_solver. }
  set (full := Z.of_nat (size (party st l)) =? MAXGROUPSIZE).
  destruct (CheckRoles_answer (party st l) full Hsz) as [[-> Hno]|(Hne' & _)].
  { eexists _, s. split; [done|]. intros [_ _ [a Ha] _ _]. by apply (Hno a). }
  destruct (CheckRoles (party st l) full) as [|a0 as_] eqn:Ea; [done|]. rewrite <- Ea in *. clear Ea a0 as_.
  destruct (group_none l Hnd H0) as [[-> H]|[(g & -> & Hgl & Hlfg & H)|[-> (g & g' & Hgl & Hgl' & Hne2 & H1 & H2)]]].
  - apply choices_ok; try done; [|by left]. intros g g' Hgl _ E. rewrite (H g Hgl) in E. done.
  - apply choices_ok; try done; [|by right]. intros x y Hx Hy Ex Ey. rewrite (H x Hx Ex). symmetry. auto.
  - eexists _, s. split; [done|]. intros [_ _ _ H4 _]. eauto.
Qed.
End evaluate.

(** ** Combinations and proposals *)

Definition avg_join (st : gmap Z QueueData) (l : list Z) : Z :=
  s64 (foldl (λ sum g, u64 (sum + joinTime (data st g) * Z.of_nat (size (roles (data st g))))) 0 l
       / players st l).

Lemma has_all_roles_insert n r k : has_all_roles n → has_all_roles (<[r := k]> n).
Proof.
  intros (H1 & H2 & H3).
  repeat split; apply lookup_insert_is_Some'; by right.
Qed.

Lemma has_all_roles_all : has_all_roles NEEDED_ALL_ROLES.
Proof. repeat split; vm_compute; eexists; reflexivity. Qed.

Lemma arrangement_size rs a : arrangement rs a → size a = size rs.
Proof. intros Ha. by rewrite <- !size_dom, (arr_dom _ _ Ha). Qed.

(** With five players the roles are exactly those of a group. *)
Lemma arrangement_full rs a :
  arrangement rs a → Z.of_nat (size rs) = MAXGROUPSIZE →
  role_count PLAYER_ROLE_TANK a = 1 ∧ role_count PLAYER_ROLE_HEALER a = 1 ∧
  role_count PLAYER_ROLE_DAMAGE a = 3.
Proof.
  intros Ha Hs. rewrite <- (arrangement_size _ _ Ha) in Hs.
  assert (role_count 2 a + role_count 4 a + role_count 8 a = Z.of_nat (size a)) as Hsum.
  { assert (∀ g r, a !! g = Some r → is_role r) as Hr by (intros; by eapply arrangement_role).
    clear Ha Hs. induction a as [|g r a Hg IH] using map_ind; [done|].
    unfold role_count in *. rewrite !count_if_insert_new, map_size_insert_None by done.
    assert (is_role r) as Hrr by (apply (Hr g); apply lookup_insert_eq).
    assert (count_if (λ x, x =? 2) a + count_if (λ x, x =? 4) a + count_if (λ x, x =? 8) a
            = Z.of_nat (size a)) as IH'.
    { apply IH. intros g' r' Hg'. apply (Hr g'). rewrite lookup_insert_ne by congruence. done. }
    destruct Hrr as [->|[->| ->]]; simpl; lia. }
  pose proof (arr_count _ _ Ha 2) as H2. pose proof (arr_count _ _ Ha 4) as H4.
  pose proof (arr_count _ _ Ha 8) as H8. rewrite need_role in H2, H4, H8. simpl in H2, H4, H8.
  unfold PLAYER_ROLE_TANK, PLAYER_ROLE_HEALER, PLAYER_ROLE_DAMAGE, MAXGROUPSIZE in *. lia.
Qed.

Section proposals.
Context `{LE : LfgEnv} `{LG : LfgGroups} `{RND : Random}.
Variable st : gmap Z QueueData.
Hypothesis Hst : store_ok st.

Lemma players_pos l : pset st l → l ≠ [] → 0 < players st l.
Proof.
  intros [Ha _] Hl. destruct l as [|g l]; [done|]. unfold alive in Ha.
  inversion Ha as [|? ? Hg Hl']; subst.
  assert (players st [] < players st (g :: l)) as H.
  { eapply (players_lt st Hst _ _ g); [done|set_solver..]. }
  unfold players at 1, party in H. simpl in H. rewrite map_size_empty in H. lia.
Qed.

Lemma ToCombination_ok l a :
  pset st l → l ≠ [] → arrangement (party st l) a →
  ∃ n, ToCombination st l a = Ok (avg_join st l, mkComb l n) ∧ has_all_roles n.
Proof.
  intros Hl Hne Ha. unfold ToCombination. rewrite (read_all_ok st l (proj1 Hl)). cbn [obind].
  pose proof (players_pos l Hl Hne) as Hp. rewrite (arrangement_size _ _ Ha).
  change (Z.of_nat (size (party st l))) with (players st l).
  rewrite (proj2 (Z.eqb_neq _ 0)) by lia. eexists. split.
  - do 3 f_equal. unfold avg_join. do 2 f_equal.
    generalize 0 as x. clear. induction l as [|g l IH]; intros x; [done|]. simpl. apply IH.
  - apply foldl_inv; [apply has_all_roles_all|]. intros. by apply has_all_roles_insert.
Qed.

(** A proposal of the set [l] that the code may hand on. *)
Record good_proposal (now : Z) (l : list Z) (pr : LfgProposal) : Prop := mkGood {
  gp_queues : queues pr = l;
  gp_compat : compat st l;
  gp_size : Z.of_nat (size (p_players pr)) = MAXGROUPSIZE;
  gp_roles : arrangement (party st l) (p_role <$> p_players pr);
  gp_dungeon : ∀ g, g ∈ l → dungeonId pr ∈ dungeons (data st g);
  gp_leader : is_Some (p_players pr !! leader pr);
  gp_group : (group pr = 0 ∧ ∀ g, g ∈ l → isLfgGroup (data st g) = false) ∨
             (group pr ∈ l ∧ isLfgGroup (data st (group pr)) = true);
  gp_state : p_state pr = LFG_PROPOSAL_INITIATING ∧ cancelTime pr = now + LFG_TIME_PROPOSAL
}.

Lemma set_items_elem (s : gset Z) x : x ∈ set_items s ↔ x ∈ s.
Proof. unfold set_items. by rewrite merge_sort_Permutation, elem_of_elements. Qed.

Lemma u32_set_length (s : gset Z) : (∀ x, x ∈ s → in_u32 x) → Z.of_nat (length (set_items s)) ≤ 2 ^ 32.
Proof.
  intros Hs. unfold set_items. rewrite merge_sort_Permutation.
  assert (length (elements s) ≤ length (seqZ 0 (2 ^ 32)))%nat as Hle.
  { apply submseteq_length, NoDup_submseteq; [apply NoDup_elements|].
    intros x Hx%elem_of_elements%Hs. apply elem_of_seqZ. unfold in_u in Hx. lia. }
  rewrite length_seqZ in Hle. lia.
Qed.

Lemma select_u32 (s : gset Z) rs :
  s ≠ ∅ → (∀ x, x ∈ s → in_u32 x) →
  ∃ x rs', SelectRandomContainerElement (set_items s) rs = Ok (x, rs') ∧ x ∈ s.
Proof.
  intros Hne Hs. destruct (SelectRandomContainerElement_ok (set_items s) rs) as (x & rs' & E & Hx).
  - apply set_choose_L in Hne as [x Hx]. apply set_items_elem in Hx. by intros E; rewrite E in Hx; apply elem_of_nil in Hx.
  - by apply u32_set_length.
  - exists x, rs'. split; [done|]. by apply set_items_elem.
Qed.

Lemma foldl_emplace_map {V} (f : Z → V → LfgProposalPlayer) (b : list (Z * V)) m :
  NoDup b.*1 → (∀ k, k ∈ b.*1 → m !! k = None) →
  foldl (λ m kv, emplace kv.1 (f kv.1 kv.2) m) m b = list_to_map ((λ kv, (kv.1, f kv.1 kv.2)) <$> b) ∪ m.
Proof.
  revert m. induction b as [|[k v] b IH]; intros m Hn Hm; simpl; [by rewrite (left_id_L ∅ (∪))|].
  rewrite fmap_cons in Hn, Hm. apply NoDup_cons in Hn as [Hk Hn]. cbn [fst] in *.
  unfold emplace at 2. rewrite (Hm k) by set_solver. rewrite IH; [|done|].
  - rewrite <- insert_union_l, insert_union_r; [done|]. apply not_elem_of_list_to_map_1.
    rewrite <- list_fmap_compose. rewrite (list_fmap_ext _ fst) by done. done.
  - intros k' Hk'. rewrite lookup_insert_ne; set_solver.
Qed.

Lemma BuildProposal_ok now l a cd ld grp s :
  info_ok st l (COMBINATION_COMPLETE l a cd ld grp) → l ≠ [] → alive st l →
  ∃ pr s', BuildProposal now l a cd ld grp s = Ok (pr, s') ∧ good_proposal now l pr.
Proof.
  intros (_ & Hco & Hsz & Ha & (Hcd & Hcd') & Hld & Hgrp) Hne Hal. unfold BuildProposal.
  destruct (select_u32 cd s Hcd) as (d & s' & -> & Hd).
  { intros x Hx. destruct l as [|g l]; [done|].
    inversion Hal as [|? ? Hg _]; subst.
    apply (do_dungeons (data st g)); [by apply (so_data _ Hst g), data_some|].
    apply Hcd'; [done|set_solver]. }
  cbn [obind]. eexists _, s'. split; [done|].
  match goal with |- context [mkProposal _ _ _ _ _ _ _ ?n _ _ _ _ _] => set (isNew := n) end.
  rewrite (foldl_emplace_map (proposal_player isNew grp));
    [|apply items_NoDup|intros; apply lookup_empty].
  rewrite (right_id_L ∅ (∪)).
  match goal with |- context [list_to_map ?b] => set (pl := (list_to_map b : gmap Z LfgProposalPlayer)) end.
  assert (p_role <$> pl = a) as Hpl.
  { apply map_eq. intros k. rewrite lookup_fmap. unfold pl. apply option_eq. intros r.
    assert (NoDup ((λ kv : Z * Z, (kv.1, proposal_player isNew grp kv.1 kv.2)) <$> items a).*1) as Hnd.
    { rewrite <- list_fmap_compose, (list_fmap_ext _ fst) by done. apply items_NoDup. }
    rewrite fmap_Some. setoid_rewrite <- elem_of_list_to_map; [|done]. setoid_rewrite list_elem_of_fmap. split.
    - intros (x & ([k' r'] & [= -> ->] & Hin) & ->). by apply items_elem in Hin.
    - intros Hr. exists (proposal_player isNew grp k r). split; [|done]. exists (k, r). split; [done|]. by apply items_elem. }
  split; cbn [queues p_players dungeonId leader group p_state cancelTime]; try done.
  - rewrite <- (map_size_fmap p_role), Hpl. rewrite (arrangement_size _ _ Ha). done.
  - by rewrite Hpl.
  - intros g Hg. by apply Hcd'.
  - apply elem_of_dom. rewrite <- (dom_fmap_L p_role), Hpl, (arr_dom _ _ Ha). by apply elem_of_dom.
Qed.
End proposals.

End LfgMatch.
