(* ===== verification/LfgInvariant.v ===== *)
(** * The invariant of the dungeon finder's queue

    [inv]: the sets of premades are in order and refer to live data, every kept
    combination fits together and is short of players, every combination of waiting
    premades that can play together is kept, and no set of them could start. Ignore lists
    change: a kept combination may have come to ignore each other (it is checked again
    before it is used), and completeness is about premades none of whose players has
    ignored one of another at an update so far ([ignored]). Every operation of [LfgQueue]
    preserves [inv]; the theorems on the reachable queues follow. *)
From S2P Require Import Prelude Multimap LfgRoles LfgQueue LfgMatch.

Module LfgInvariant.
Export LfgMatch.

(** Who has ignored whom at some update of the past. *)
Class IgnoreHistory := ignored : Z → Z → Prop.

Section invariant.
Context `{LE : LfgEnv} `{LG : LfgGroups} `{RND : Random} `{HI : IgnoreHistory}.
Implicit Types (q : LFGQueue) (st : gmap Z QueueData).

(** ** The invariant *)

Record comb_ok st (w : list Z) (t : Z) (c : Combination) : Prop := mkCombOk {
  cb_pset : pset st (premades c);
  cb_ne : premades c ≠ [];
  cb_in : ∀ g, g ∈ premades c → g ∈ w;
  cb_compat : compat_with nobody st (premades c);
  cb_short : players st (premades c) < MAXGROUPSIZE;
  cb_time : t = avg_join st (premades c);
  cb_needed : has_all_roles (c_rolesNeeded c)
}.

Record inv_on st (w n : list Z) (cs : list (Z * Combination)) : Prop := mkInv {
  io_store : store_ok st;
  io_queue : pset st w;
  io_new : pset st n;
  io_disj : ∀ g, g ∈ w → g ∉ n;
  io_sorted : mm_sorted cs;
  io_combs : ∀ t c, (t, c) ∈ cs → comb_ok st w t c;
  io_all : ∀ l, pset st l → l ≠ [] → (∀ g, g ∈ l → g ∈ w) → compat_with ignored st l →
    players st l < MAXGROUPSIZE → ∃ t c, (t, c) ∈ cs ∧ premades c = l;
  io_none : ∀ l, pset st l → l ≠ [] → (∀ g, g ∈ l → g ∈ w) → compat_with ignored st l →
    players st l ≠ MAXGROUPSIZE
}.

Definition inv q : Prop :=
  inv_on (queueDataStore q) (queue q) (newToQueue q) (allCombinations q) ∧
  map_Forall (λ _ d, data_ok d) (queueDataCellar q) ∧ queueDataCellar q !! 0 = None.

Lemma inv_empty : inv empty_queue.
Proof.
  assert (∀ l, l ≠ [] → (∀ g : Z, g ∈ l → g ∈ []) → False) as Hn.
  { intros [|g l] Hne H; [done|]. specialize (H g ltac:(set_solver)). set_solver. }
  split; [|split; [apply map_Forall_empty|done]].
  split; simpl.
  - split; [apply map_Forall_empty|done|].
    intros g g' p [r Hr]. unfold data in Hr. rewrite lookup_empty in Hr. done.
  - split; constructor.
  - split; constructor.
  - intros g []%elem_of_nil.
  - constructor.
  - intros t c []%elem_of_nil.
  - intros l _ Hne Hl. by destruct (Hn l Hne Hl).
  - intros l _ Hne Hl. by destruct (Hn l Hne Hl).
Qed.

(** ** Changing the data of other premades *)

Definition agree st st' (l : list Z) : Prop :=
  ∀ g, g ∈ l → core (data st g) = core (data st' g) ∧ (is_Some (st !! g) ↔ is_Some (st' !! g)).

Section agree.
Variables (st st' : gmap Z QueueData) (l : list Z).
Hypothesis Hag : agree st st' l.

Lemma agree_sym : agree st' st l.
Proof. intros g Hg. destruct (Hag g Hg) as [-> ?]. by split. Qed.

Lemma agree_data g :
  g ∈ l → joinTime (data st g) = joinTime (data st' g) ∧ dungeons (data st g) = dungeons (data st' g) ∧
          roles (data st g) = roles (data st' g) ∧ isLfgGroup (data st g) = isLfgGroup (data st' g).
Proof. intros Hg. destruct (Hag g Hg) as [[= -> -> -> ->] _]. done. Qed.

Lemma agree_pset : pset st l → pset st' l.
Proof.
  intros [Ha Hs]. split.
  - unfold alive in *. rewrite Forall_forall in *. intros g Hg. apply (Hag g Hg). by apply Ha.
  - clear Ha. induction Hs as [|a l' Hl IH Ha]; [constructor|]. constructor.
    + apply IH. intros g Hg. apply Hag. set_solver.
    + rewrite Forall_forall in *. intros b Hb. specialize (Ha b Hb). rewrite plt_iff in *.
      destruct (Hag a ltac:(set_solver)) as [[= E1 _ _ _] _].
      destruct (Hag b ltac:(set_solver)) as [[= E2 _ _ _] _]. by rewrite <- E1, <- E2.
Qed.

Lemma agree_party : party st l = party st' l.
Proof.
  unfold party. f_equal. apply list_fmap_ext. intros i g Hg.
  apply list_elem_of_lookup_2 in Hg. by apply agree_data.
Qed.

Lemma agree_compat ig : compat_with ig st l → compat_with ig st' l.
Proof.
  intros [H1 [d H2] H3 H4 H5]. split.
  - unfold players. by rewrite <- agree_party.
  - exists d. intros g Hg. destruct (agree_data g Hg) as (_ & <- & _). auto.
  - by rewrite <- agree_party.
  - intros g g' Hg Hg'. destruct (agree_data g Hg) as (_ & _ & _ & <-).
    destruct (agree_data g' Hg') as (_ & _ & _ & <-). auto.
  - intros g g' p p' Hg Hg'. destruct (agree_data g Hg) as (_ & _ & <- & _).
    destruct (agree_data g' Hg') as (_ & _ & <- & _). by apply H5.
Qed.

Lemma agree_avg : avg_join st l = avg_join st' l.
Proof.
  unfold avg_join, players. rewrite agree_party. do 2 f_equal. clear -Hag.
  generalize 0 as x. induction l as [|g l' IH]; intros x; [done|]. simpl.
  destruct (Hag g ltac:(set_solver)) as [[= -> _ -> _] _]. apply IH.
  intros g' Hg'. apply Hag. set_solver.
Qed.
End agree.

Lemma agree_sub st st' l l' : agree st st' l → (∀ g, g ∈ l' → g ∈ l) → agree st st' l'.
Proof. intros H Hl g Hg. apply H. auto. Qed.

(** The invariant survives when some premades stop waiting, whatever becomes of
    their data. *)
Lemma inv_restrict st st' w n n' cs (P : Z → Prop) `{∀ x, Decision (P x)} :
  inv_on st w n cs → store_ok st' → pset st' n' → (∀ g, g ∈ filter P w → g ∉ n') →
  agree st st' (filter P w) →
  inv_on st' (filter P w) n' (filter (λ tc, Forall P (premades tc.2)) cs).
Proof.
  intros [Hst Hw Hn Hd Hso Hcs Hall Hnone] Hst' Hn' Hd' Hag.
  assert (∀ l : list Z, (∀ g, g ∈ l → g ∈ filter P w) → ∀ g, g ∈ l → g ∈ w ∧ P g) as Hsub.
  { intros l Hl g Hg. apply Hl, list_elem_of_filter in Hg. tauto. }
  split; [done| |done|done| | | |].
  - apply (agree_pset st); [done|]. by apply pset_filter.
  - by apply mm_sorted_filter.
  - intros t c [HP Hc]%list_elem_of_filter. simpl in HP. destruct (Hcs t c Hc) as [H1 H2 H3 H4 H5 H6 H7].
    assert (agree st st' (premades c)) as Hagc.
    { eapply agree_sub; [exact Hag|]. intros g Hg. apply list_elem_of_filter. split; [|by apply H3].
      rewrite Forall_forall in HP. by apply HP. }
    split; [by eapply agree_pset|done| |by eapply agree_compat| | |done].
    + intros g Hg. apply list_elem_of_filter. split; [|by apply H3]. rewrite Forall_forall in HP. by apply HP.
    + unfold players. by rewrite <- (agree_party st st').
    + rewrite H6. by apply agree_avg.
  - intros l Hl Hne Hin Hco Hsz.
    assert (agree st' st l) as Hagl by (apply agree_sym; by eapply agree_sub).
    destruct (Hall l) as (t & c & Hc & <-).
    + by eapply agree_pset.
    + done.
    + intros g Hg. by apply (Hsub l Hin g).
    + by eapply agree_compat.
    + unfold players in *. by rewrite <- (agree_party st' st).
    + exists t, c. split; [|done]. apply list_elem_of_filter. split; [|done]. simpl.
      apply Forall_forall. intros g Hg. by apply (Hsub _ Hin g).
  - intros l Hl Hne Hin Hco.
    assert (agree st' st l) as Hagl by (apply agree_sym; by eapply agree_sub).
    unfold players. rewrite (agree_party st' st) by done. apply (Hnone l).
    + by eapply agree_pset.
    + done.
    + intros g Hg. by apply (Hsub l Hin g).
    + by eapply agree_compat.
Qed.

(** Nothing the search reads has changed. *)
Lemma inv_same st st' w n cs :
  inv_on st w n cs → store_ok st' → (∀ g, core (data st g) = core (data st' g)) →
  (∀ g, is_Some (st !! g) ↔ is_Some (st' !! g)) → inv_on st' w n cs.
Proof.
  intros Hi Hst' Hc Hs. pose proof (inv_restrict st st' w n n cs (λ _, True) Hi Hst') as H.
  rewrite !filter_id in H by (apply Forall_forall; done || (intros; apply Forall_forall; done)).
  apply H.
  - eapply agree_pset; [|apply Hi]. by intros g _.
  - apply Hi.
  - by intros g _.
Qed.

(** ** Removing a premade *)

Definition drop q (g : Z) : LFGQueue :=
  set_combinationsUpdated
    (set_combs
       (set_queue (set_new q (filter (λ x, x ≠ g) (newToQueue q))) (filter (λ x, x ≠ g) (queue q)))
       (filter (λ tc, Forall (λ x, x ≠ g) (premades tc.2)) (allCombinations q))) true.

(** All sets of premades are usable. *)
Definition sets_ok q : Prop :=
  pset (queueDataStore q) (queue q) ∧ pset (queueDataStore q) (newToQueue q) ∧
  ∀ t c, (t, c) ∈ allCombinations q →
    pset (queueDataStore q) (premades c) ∧ ∀ g, g ∈ premades c → g ∈ queue q.

Lemma inv_sets_ok q : inv q → sets_ok q.
Proof.
  intros [[Hst Hw Hn Hd Hso Hcs _ _] _]. split; [done|]. split; [done|].
  intros t c Hc. destruct (Hcs t c Hc). done.
Qed.

Lemma erase_combinations_ok st g l :
  (∀ t c, (t, c) ∈ l → pset st (premades c)) →
  erase_combinations st g l = Ok (filter (λ tc, Forall (λ x, x ≠ g) (premades tc.2)) l).
Proof.
  induction l as [|[t c] l IH]; intros Hl; [done|]. cbn [erase_combinations snd].
  rewrite set_find_ok by (apply (Hl t); set_solver). cbn [obind].
  rewrite IH by (intros t' c' Hc; apply (Hl t'); set_solver). cbn [obind]. f_equal.
  case_bool_decide as Hg.
  - rewrite filter_cons_False; [done|]. simpl. rewrite Forall_forall. intros H. by apply (H g).
  - rewrite filter_cons_True; [done|]. simpl. rewrite Forall_forall. intros x Hx ->. done.
Qed.

Lemma RemovePremade_ok q g : sets_ok q → RemovePremade q g = Ok (drop q g).
Proof.
  intros (Hw & Hn & Hcs). unfold RemovePremade.
  rewrite set_erase_ok by done. cbn [obind]. rewrite set_erase_ok by done. cbn [obind].
  rewrite erase_combinations_ok; [done|]. intros t c Hc. by apply (Hcs t c).
Qed.

Lemma pset_filter_ne st g l : pset st l → pset st (filter (λ x, x ≠ g) l).
Proof. apply pset_filter. Qed.

(** Removing a premade, whose data may have changed since. *)
Lemma inv_drop q st' g :
  inv q → store_ok st' → pset st' (filter (λ x, x ≠ g) (newToQueue q)) →
  agree (queueDataStore q) st' (filter (λ x, x ≠ g) (queue q)) →
  inv (drop (set_store q st') g).
Proof.
  intros [Hi Hc] Hst' Hn Hag. split; [|exact Hc]. cbn.
  apply (inv_restrict (queueDataStore q) st' _ (newToQueue q)); try done.
  intros x [Hx Hw]%list_elem_of_filter. rewrite list_elem_of_filter. intros [_ Hxn].
  by apply (io_disj _ _ _ _ Hi x).
Qed.

Lemma inv_drop_same q g : inv q → inv (drop q g).
Proof.
  intros Hi. assert (drop q g = drop (set_store q (queueDataStore q)) g) as -> by (by destruct q).
  apply inv_drop; [done|apply Hi|apply pset_filter_ne, Hi|by intros x _].
Qed.

(** ** Data updates *)

Definition fresh st (g : Z) (rs : LfgRolesMap) : Prop :=
  ∀ g' p, g' ≠ g → is_Some (rs !! p) → ¬ is_Some (roles (data st g') !! p).

Lemma data_insert st g d x : data (<[g := d]> st) x = if decide (x = g) then d else data st x.
Proof.
  unfold data. destruct (decide (x = g)) as [->|Hx]; [by rewrite lookup_insert_eq|].
  by rewrite lookup_insert_ne.
Qed.

Lemma store_ok_insert st g d :
  store_ok st → g ≠ 0 → data_ok d → fresh st g (roles d) → store_ok (<[g := d]> st).
Proof.
  intros [H1 H2 H3] Hg Hd Hf. split.
  - by apply map_Forall_insert_2.
  - by rewrite lookup_insert_ne.
  - intros x y p. rewrite !data_insert.
    destruct (decide (x = g)) as [->|Hx], (decide (y = g)) as [->|Hy]; intros H4 H5.
    + done.
    + by destruct (Hf y p Hy H4).
    + by destruct (Hf x p Hx H5).
    + by eapply H3.
Qed.

Lemma store_ok_delete st g : store_ok st → store_ok (delete g st).
Proof.
  intros [H1 H2 H3]. split.
  - by apply map_Forall_delete.
  - by rewrite lookup_delete_None; right.
  - assert (∀ x p, is_Some (roles (data (delete g st) x) !! p) → is_Some (roles (data st x) !! p)) as H.
    { intros x p. unfold data. destruct (decide (x = g)) as [->|Hx].
      - rewrite lookup_delete_eq. simpl. rewrite lookup_empty. by intros [].
      - by rewrite lookup_delete_ne by done. }
    intros x y p Hx%H Hy%H. by eapply H3.
Qed.

Lemma store_nonzero st g : store_ok st → is_Some (st !! g) → g ≠ 0.
Proof. intros Hst [d Hd] ->. by rewrite (so_zero _ Hst) in Hd. Qed.

(** New data with the same roles. *)
Lemma store_ok_update st g d :
  store_ok st → is_Some (st !! g) → data_ok d → roles d = roles (data st g) → store_ok (<[g := d]> st).
Proof.
  intros Hst Hg Hd Hr. apply store_ok_insert; [done|by eapply store_nonzero|done|].
  intros g' p Hne Hp Hp'. rewrite Hr in Hp. apply Hne. by eapply (so_disj _ Hst).
Qed.

Lemma alive_insert st g d x :
  is_Some (st !! g) → is_Some (st !! x) ↔ is_Some (<[g := d]> st !! x).
Proof.
  intros Hg. destruct (decide (x = g)) as [->|Hx].
  - rewrite lookup_insert_eq. split; [by eexists|done].
  - by rewrite lookup_insert_ne.
Qed.

Lemma inv_core_update q g d :
  inv q → is_Some (queueDataStore q !! g) → data_ok d →
  core d = core (data (queueDataStore q) g) →
  inv (set_store q (<[g := d]> (queueDataStore q))).
Proof.
  intros [Hi Hc] Hg Hd Hcore. split; [|exact Hc]. cbn.
  injection Hcore as E1 E2 E3 E4.
  apply (inv_same (queueDataStore q)); [done|..].
  - apply store_ok_update; [apply Hi|done..].
  - intros x. rewrite data_insert. destruct (decide (x = g)) as [->|]; [|done].
    unfold core. congruence.
  - intros x. by apply alive_insert.
Qed.

Lemma data_ok_alive q g : inv q → is_Some (queueDataStore q !! g) → data_ok (data (queueDataStore q) g).
Proof. intros [Hi _] Hg. apply (so_data _ (io_store _ _ _ _ Hi) g). by apply data_some. Qed.

Lemma RefreshWaitTime_ok q g :
  inv q → is_Some (queueDataStore q !! g) →
  ∃ q' d, RefreshWaitTime q g = Ok q' ∧ inv q' ∧
    q' = set_store q (<[g := d]> (queueDataStore q)) ∧ core d = core (data (queueDataStore q) g).
Proof.
  intros Hi Hg. unfold RefreshWaitTime. rewrite (data_some _ _ Hg). cbn [deref].
  eexists _, _. split; [done|]. split; [|split; [done|done]].
  apply inv_core_update; [done|done| |done].
  destruct (data_ok_alive q g Hi Hg). by split.
Qed.

(** ** Adding and removing *)

Lemma IsQueued_ok q g :
  sets_ok q → ∃ b, IsQueued q g = Ok b ∧ (b = true ↔ g ∈ queue q ∨ g ∈ newToQueue q).
Proof.
  intros (Hw & Hn & _). unfold IsQueued. rewrite set_find_ok by done. cbn [obind].
  case_bool_decide as E1; [exists true; naive_solver|].
  rewrite set_find_ok by done. eexists. split; [done|]. rewrite bool_decide_eq_true. naive_solver.
Qed.

Lemma drop_noop q g :
  sets_ok q → g ∉ queue q → g ∉ newToQueue q → inv (drop q g) → inv q.
Proof.
  intros (_ & _ & Hcs) Hw Hn [Hi Hc]. split; [|exact Hc]. cbn in Hi.
  rewrite (filter_id (λ x, x ≠ g) (queue q)), (filter_id (λ x, x ≠ g) (newToQueue q)) in Hi
    by (apply Forall_forall; intros x Hx ->; done).
  rewrite filter_id in Hi; [done|]. apply Forall_forall. intros [t c] Hx.
  apply Forall_forall. intros x Hxc ->. destruct (Hcs t c Hx) as [_ Hin]. by apply Hw, Hin.
Qed.

Lemma inv_add_new q g :
  inv q → is_Some (queueDataStore q !! g) → g ∉ queue q →
  inv (set_new q (insert_at (queueDataStore q) g (newToQueue q))).
Proof.
  intros [[H1 H2 H3 H4 H5 H6 H7 H8] Hc] Hg Hw. split; [|exact Hc]. cbn. split; try done.
  - by apply pset_insert.
  - intros x Hx. rewrite insert_at_elem. intros [->|Hn]; [done|]. by apply (H4 x).
Qed.

Lemma enqueue_ok q g :
  sets_ok q → is_Some (queueDataStore q !! g) → inv (drop q g) →
  ∃ q', enqueue q g = Ok q' ∧ inv q' ∧ queue q' = filter (λ x, x ≠ g) (queue q) ∧
    timedDungeonEntries q' = timedDungeonEntries q ∧ _isUpdating q' = _isUpdating q ∧
    g ∈ newToQueue q' ∧
    (∀ x, core (data (queueDataStore q') x) = core (data (queueDataStore q) x)).
Proof.
  intros Hs Hg Hi. unfold enqueue.
  destruct (IsQueued_ok q g Hs) as (b & -> & Hb). cbn [obind].
  assert (∃ q1, (if b then RemovePremade q g else Ok q) = Ok q1 ∧ inv q1 ∧
            queueDataStore q1 = queueDataStore q ∧ queue q1 = filter (λ x, x ≠ g) (queue q) ∧
            timedDungeonEntries q1 = timedDungeonEntries q ∧ _isUpdating q1 = _isUpdating q)
    as (q1 & -> & Hi1 & E1 & E2 & E3 & E4).
  { destruct b.
    - exists (drop q g). by rewrite RemovePremade_ok.
    - exists q. assert (¬ (g ∈ queue q ∨ g ∈ newToQueue q)) as Hnot by (rewrite <- Hb; done).
      split; [done|]. split; [apply (drop_noop q g); tauto|]. split; [done|]. split; [|done].
      rewrite filter_id; [done|]. apply Forall_forall. intros x Hx ->. tauto. }
  cbn [obind]. rewrite <- E1 in Hg.
  rewrite set_insert_ok by (done || apply Hi1). cbn [obind].
  destruct (RefreshWaitTime_ok (set_new q1 (insert_at (queueDataStore q1) g (newToQueue q1))) g)
    as (q' & d & -> & Hi' & -> & Hd).
  { apply inv_add_new; [done|done|]. rewrite E2. intros [? _]%list_elem_of_filter. done. }
  { done. }
  eexists. split; [done|]. split; [done|]. cbn.
  split; [done|]. split; [done|]. split; [done|]. split; [apply insert_at_elem; by left|].
  intros x. rewrite data_insert. cbn in Hd. rewrite <- E1. case_decide as Ex; [by rewrite Ex|done].
Qed.

Lemma set_insert_Ok st g l n : set_insert st g l = Ok n → n = insert_at st g l.
Proof. unfold set_insert, with_set. repeat case_bool; try done. by intros [= ->]. Qed.

(** What [enqueue] leaves of the other premades. *)
Lemma enqueue_frame q g q' :
  is_Some (queueDataStore q !! g) → enqueue q g = Ok q' →
  (∀ x, is_Some (queueDataStore q' !! x) ↔ is_Some (queueDataStore q !! x)) ∧
  (∀ x, x ∈ newToQueue q → x ∈ newToQueue q').
Proof.
  intros Hg. unfold enqueue. destruct (IsQueued q g) as [b| | | |]; try done. cbn [obind].
  assert (∀ q1, (if b then RemovePremade q g else Ok q) = Ok q1 →
            queueDataStore q1 = queueDataStore q ∧ ∀ x, x ∈ newToQueue q → x = g ∨ x ∈ newToQueue q1) as H1.
  { intros q1. destruct b; [|by intros [= <-]; auto]. unfold RemovePremade, set_erase, with_set.
    repeat case_bool; try done. cbn [obind].
    destruct (erase_combinations _ _ _); try done. cbn. intros [= <-]. cbn. split; [done|].
    intros x Hx. destruct (decide (x = g)); [by left|right]. by apply list_elem_of_filter. }
  destruct (if b then RemovePremade q g else Ok q) as [q1| | | |]; try done. cbn [obind].
  destruct (H1 q1 eq_refl) as [E1 E2].
  destruct (set_insert (queueDataStore q1) g (newToQueue q1)) as [n| | | |] eqn:En; try done. cbn [obind].
  apply set_insert_Ok in En as ->. unfold RefreshWaitTime. cbn. rewrite E1. destruct Hg as [d Hd]. rewrite Hd. cbn. intros [= <-]. cbn. split.
  - intros x. destruct (decide (x = g)) as [->|Hne].
    + rewrite lookup_insert_eq, Hd. split; intros _; by eexists.
    + by rewrite lookup_insert_ne.
  - intros x Hx. apply insert_at_elem. by apply E2.
Qed.

Lemma sets_ok_update q g d :
  inv q → (g ∈ queue q ∨ g ∈ newToQueue q → is_Some (queueDataStore q !! g) ∧
           joinTime d = joinTime (data (queueDataStore q) g)) →
  sets_ok (set_store q (<[g := d]> (queueDataStore q))) ∧
  pset (<[g := d]> (queueDataStore q)) (filter (λ x, x ≠ g) (newToQueue q)).
Proof.
  intros Hi Hj. pose proof (inv_sets_ok q Hi) as (Hw & Hn & Hcs).
  assert (∀ l, (∀ x, x ∈ l → x ∈ queue q ∨ x ∈ newToQueue q) → pset (queueDataStore q) l →
               pset (<[g := d]> (queueDataStore q)) l) as Hps.
  { intros l Hin [Ha Hs]. split.
    - unfold alive in *. rewrite Forall_forall in *. intros x Hx.
      destruct (decide (x = g)) as [->|Hxg]; [rewrite lookup_insert_eq; by eexists|].
      rewrite lookup_insert_ne by done. by apply Ha.
    - assert (∀ x, x ∈ l → joinTime (data (<[g := d]> (queueDataStore q)) x) = joinTime (data (queueDataStore q) x)) as Hjt.
      { intros x Hx. rewrite data_insert. case_decide as E; [subst x|done]. apply Hj. by apply Hin. }
      clear - Hs Hjt. induction Hs as [|a l Hl IH Ha]; [constructor|]. constructor.
      + apply IH. intros x Hx. apply Hjt. set_solver.
      + rewrite Forall_forall in *. intros b Hb. specialize (Ha b Hb). rewrite plt_iff in *.
        rewrite !Hjt by set_solver. done. }
  split; [split; [|split]|]; cbn.
  - apply Hps; [tauto|done].
  - apply Hps; [tauto|done].
  - intros t c Hc. destruct (Hcs t c Hc) as [Hp Hin]. split; [|done]. apply Hps; [|done].
    intros x Hx. left. by apply Hin.
  - apply Hps; [|by apply pset_filter_ne]. intros x [_ Hx]%list_elem_of_filter. by right.
Qed.

(** New data for a premade, which then waits in [newToQueue]. *)
Lemma enqueue_new_ok q g d :
  inv q → g ≠ 0 → data_ok d → fresh (queueDataStore q) g (roles d) →
  (g ∈ queue q ∨ g ∈ newToQueue q → joinTime d = joinTime (data (queueDataStore q) g)) →
  ∃ q', enqueue (set_store q (<[g := d]> (queueDataStore q))) g = Ok q' ∧ inv q' ∧
    g ∈ newToQueue q' ∧ g ∉ queue q' ∧
    timedDungeonEntries q' = timedDungeonEntries q ∧ _isUpdating q' = _isUpdating q ∧
    roles (data (queueDataStore q') g) = roles d.
Proof.
  intros Hi Hg Hd Hf Hj.
  destruct (sets_ok_update q g d Hi) as [Hs Hn].
  { intros Hin. split; [|by apply Hj]. destruct (inv_sets_ok q Hi) as ([Ha _] & [Ha' _] & _).
    unfold alive in *. rewrite Forall_forall in Ha, Ha'. destruct Hin; auto. }
  destruct (enqueue_ok (set_store q (<[g := d]> (queueDataStore q))) g) as (q' & -> & Hi' & Hw & Ht & Hu & Hin & Hcore).
  - done.
  - cbn. rewrite lookup_insert_eq. by eexists.
  - apply inv_drop; [done| |done|].
    + by apply store_ok_insert; [apply Hi|..].
    + intros x [Hx _]%list_elem_of_filter. rewrite data_insert, decide_False by done.
      by rewrite lookup_insert_ne.
  - exists q'. split; [done|]. split; [done|]. split; [done|]. split; [|split; [done|split; [done|]]].
    + rewrite Hw. intros [? _]%list_elem_of_filter. done.
    + specialize (Hcore g). cbn in Hcore. rewrite data_insert, decide_True in Hcore by done.
      by injection Hcore.
Qed.

(** *** A premade that is queued with another join time

    The data is overwritten first, so that the sets of premades may be out of order when
    they are searched for it. *)

Lemma with_set_alive {A} st l (k : outcome A) :
  alive st l → pset st l ∧ with_set st l k = k ∨ with_set st l k = Undefined.
Proof.
  intros Ha. unfold with_set. rewrite bool_decide_eq_true_2 by done.
  destruct (in_order st l) eqn:E; [left|by right]. split; [split; [done|by apply in_order_iff]|done].
Qed.

Lemma erase_combinations_alive st g l :
  (∀ t c, (t, c) ∈ l → alive st (premades c)) →
  (∀ t c, (t, c) ∈ l → pset st (premades c)) ∨ erase_combinations st g l = Undefined.
Proof.
  induction l as [|[t c] l IH]; intros Hl; [left; by intros ? ? []%elem_of_nil|]. cbn [erase_combinations snd].
  unfold set_find. destruct (with_set_alive st (premades c) (Ok (bool_decide (g ∈ premades c)))) as [[Hp ->]| ->];
    [apply (Hl t); set_solver| |by right]. cbn [obind].
  destruct IH as [IH| ->]; [intros t' c' Hc; apply (Hl t'); set_solver|left|by right].
  intros t' c' [[= -> ->]|Hc]%elem_of_cons; [done|by apply (IH t')].
Qed.

Lemma RemovePremade_alive q g :
  alive (queueDataStore q) (queue q) → alive (queueDataStore q) (newToQueue q) →
  (∀ t c, (t, c) ∈ allCombinations q → ∀ x, x ∈ premades c → x ∈ queue q) →
  sets_ok q ∨ RemovePremade q g = Undefined.
Proof.
  intros Hw Hn Hcs. unfold RemovePremade, set_erase.
  destruct (with_set_alive (queueDataStore q) (newToQueue q) (Ok (filter (λ x, x ≠ g) (newToQueue q))))
    as [[Hn' ->]| ->]; [done| |by right]. cbn [obind].
  destruct (with_set_alive (queueDataStore q) (queue q) (Ok (filter (λ x, x ≠ g) (queue q))))
    as [[Hw' ->]| ->]; [done| |by right]. cbn [obind].
  destruct (erase_combinations_alive (queueDataStore q) g (allCombinations q)) as [Hc| ->]; [|left|by right].
  - intros t c Hc. apply Forall_forall. intros x Hx. unfold alive in Hw. rewrite Forall_forall in Hw.
    apply Hw. by apply (Hcs t c Hc).
  - split; [done|]. split; [done|]. intros t c Htc. split; [by apply (Hc t c)|by apply (Hcs t c)].
Qed.

Lemma enqueue_alive q g :
  alive (queueDataStore q) (queue q) → alive (queueDataStore q) (newToQueue q) →
  (∀ t c, (t, c) ∈ allCombinations q → ∀ x, x ∈ premades c → x ∈ queue q) →
  g ∈ queue q ∨ g ∈ newToQueue q → sets_ok q ∨ enqueue q g = Undefined.
Proof.
  intros Hw Hn Hcs Hg. destruct (RemovePremade_alive q g Hw Hn Hcs) as [?|E]; [by left|right].
  unfold enqueue, IsQueued, set_find.
  destruct (with_set_alive (queueDataStore q) (queue q) (Ok (bool_decide (g ∈ queue q)))) as [[_ ->]| ->];
    [done| |done]. cbn [obind]. case_bool_decide as Hgw; cbn [obind]; [by rewrite E|].
  destruct (with_set_alive (queueDataStore q) (newToQueue q) (Ok (bool_decide (g ∈ newToQueue q)))) as [[_ ->]| ->];
    [done| |done]. cbn [obind]. rewrite bool_decide_eq_true_2 by tauto. by rewrite E.
Qed.

(** New data for a premade, whatever it was. *)
Lemma enqueue_new_any q g d :
  inv q → g ≠ 0 → data_ok d → fresh (queueDataStore q) g (roles d) →
  (∃ q', enqueue (set_store q (<[g := d]> (queueDataStore q))) g = Ok q' ∧ inv q' ∧
     timedDungeonEntries q' = timedDungeonEntries q) ∨
  (enqueue (set_store q (<[g := d]> (queueDataStore q))) g = Undefined ∧
   (g ∈ queue q ∨ g ∈ newToQueue q) ∧ joinTime d ≠ joinTime (data (queueDataStore q) g)).
Proof.
  intros Hi Hg Hd Hf.
  destruct (decide ((g ∈ queue q ∨ g ∈ newToQueue q) ∧ joinTime d ≠ joinTime (data (queueDataStore q) g)))
    as [[Hin Hj]|Hno].
  2:{ left. destruct (enqueue_new_ok q g d Hi Hg Hd Hf) as (q' & E & Hi' & _ & _ & Ht & _).
      - intros Hin. destruct (decide (joinTime d = joinTime (data (queueDataStore q) g))); [done|tauto].
      - by exists q'. }
  destruct (inv_sets_ok q Hi) as ([Ha Hs] & [Ha' Hs'] & Hcs).
  set (q1 := set_store q (<[g := d]> (queueDataStore q))).
  assert (∀ l, alive (queueDataStore q) l → alive (queueDataStore q1) l) as Hal.
  { intros l Hl. eapply Forall_impl; [exact Hl|]. intros x Hx. cbn.
    destruct (decide (x = g)) as [->|]; [rewrite lookup_insert_eq; by eexists|by rewrite lookup_insert_ne]. }
  destruct (enqueue_alive q1 g) as [Hok|E]; [by apply Hal|by apply Hal|intros t c Hc; by apply (Hcs t c)|done|left|by right].
  destruct (enqueue_ok q1 g) as (q' & -> & Hi' & _ & Ht & _); [done|cbn; rewrite lookup_insert_eq; by eexists| |by exists q'].
  destruct Hok as (_ & Hn & _). apply inv_drop; [done| |by apply pset_filter_ne|].
  - by apply store_ok_insert; [apply Hi|..].
  - intros x [Hx _]%list_elem_of_filter. rewrite data_insert, decide_False by done.
    by rewrite lookup_insert_ne.
Qed.

(** ** Searching *)

Definition complete st (l : list Z) : Prop := compat st l ∧ players st l = MAXGROUPSIZE.

Lemma drop_store q g : queueDataStore (drop q g) = queueDataStore q.
Proof. done. Qed.

Lemma drop_all_frame q gs :
  queueDataStore (foldl drop q gs) = queueDataStore q ∧
  queue (foldl drop q gs) = filter (λ x, x ∉ gs) (queue q) ∧
  newToQueue (foldl drop q gs) = filter (λ x, x ∉ gs) (newToQueue q) ∧
  timedDungeonEntries (foldl drop q gs) = timedDungeonEntries q ∧
  _isUpdating (foldl drop q gs) = _isUpdating q.
Proof.
  revert q. induction gs as [|g gs IH]; intros q; simpl.
  { rewrite !filter_id; [done|apply Forall_forall; set_solver..]. }
  destruct (IH (drop q g)) as (-> & -> & -> & -> & ->). cbn. split; [done|].
  rewrite !list_filter_filter.
  split; [|split; [|done]]; apply list_filter_iff; set_solver.
Qed.

Lemma RemovePremades_ok q gs :
  inv q → RemovePremades q gs = Ok (foldl drop q gs) ∧ inv (foldl drop q gs).
Proof.
  revert q. induction gs as [|g gs IH]; intros q Hi; [done|]. cbn [RemovePremades foldl].
  rewrite RemovePremade_ok by (by apply inv_sets_ok). cbn [obind]. apply IH. by apply inv_drop_same.
Qed.

Lemma insert_at_filter st p l :
  pset st l → p ∈ l → insert_at st p (filter (λ x, x ≠ p) l) = l.
Proof.
  intros Hl Hp. apply (sorted_unique st).
  - apply insert_at_sorted. by apply pset_filter_ne.
  - apply Hl.
  - intros x. rewrite insert_at_elem, list_elem_of_filter. destruct (decide (x = p)); naive_solver.
Qed.

Section one_premade.
Variables (q : LFGQueue) (now p : Z).
Hypothesis Hi : inv q.
Hypothesis Hp : is_Some (queueDataStore q !! p).
Hypothesis Hpw : p ∉ queue q.
Let st := queueDataStore q.
Let w' := insert_at st p (queue q).
Let grown (c : Combination) := insert_at st p (premades c).

Lemma grown_ok t c : (t, c) ∈ allCombinations q →
  pset st (grown c) ∧ grown c ≠ [] ∧ (∀ g, g ∈ grown c → g ∈ w').
Proof.
  intros Hc. destruct (io_combs _ _ _ _ (proj1 Hi) t c Hc) as [H1 _ H3 _ _ _ _].
  split; [by apply pset_insert|]. split.
  - intros E. assert (p ∈ grown c) as Hin by (apply insert_at_elem; by left).
    rewrite E in Hin. by apply elem_of_nil in Hin.
  - intros g [->|Hg]%insert_at_elem; apply insert_at_elem; [by left|right; auto].
Qed.

(** What the loop has found and collected. *)
Definition search_post (cs newC : list (Z * Combination))
    (r : option (LFGQueue * LfgProposal)) (newC' : list (Z * Combination)) : Prop :=
  match r with
  | None =>
    mm_sorted newC' ∧ (∀ t c, (t, c) ∈ newC' → comb_ok st w' t c) ∧
    (∀ tc, tc ∈ newC → tc ∈ newC') ∧
    ∀ t c, (t, c) ∈ cs → compat st (grown c) →
      players st (grown c) < MAXGROUPSIZE ∧ ∃ t' c', (t', c') ∈ newC' ∧ premades c' = grown c
  | Some (q', pr) =>
    ∃ pre t c post, cs = pre ++ (t, c) :: post ∧
      (∀ t' c', (t', c') ∈ pre → ¬ complete st (grown c')) ∧
      good_proposal st now (grown c) pr ∧ q' = foldl drop q (premades c)
  end.

Lemma search_post_cons tc cs newC newC1 r newC' :
  ¬ complete st (grown tc.2) → (∀ x, x ∈ newC → x ∈ newC1) →
  (r = None → compat st (grown tc.2) → players st (grown tc.2) < MAXGROUPSIZE ∧
     ∃ t' c', (t', c') ∈ newC1 ∧ premades c' = grown tc.2) →
  search_post cs newC1 r newC' → search_post (tc :: cs) newC r newC'.
Proof.
  intros Hnc Hsub Htc. destruct r as [[q' pr]|]; simpl.
  - intros (pre & t & c & post & -> & Hpre & Hrest). exists (tc :: pre), t, c, post.
    split; [done|]. split; [|done]. intros t' c' [<-|H]%elem_of_cons; [done|by eapply Hpre].
  - intros (H1 & H2 & H3 & H4). split; [done|]. split; [done|]. split; [auto|].
    intros t c [<-|Hc]%elem_of_cons Hco; [|by eapply H4].
    destruct (Htc eq_refl Hco) as (Hs & t' & c' & Hc' & E). split; [done|]. exists t', c'. auto.
Qed.

Lemma search_ok cs newC s :
  (∀ tc, tc ∈ cs → tc ∈ allCombinations q) →
  mm_sorted newC → (∀ t c, (t, c) ∈ newC → comb_ok st w' t c) →
  ∃ r newC' s', search q now p cs newC s = Ok (r, newC', s') ∧ search_post cs newC r newC'.
Proof.
  revert newC s. induction cs as [|[t c] cs IH]; intros newC s Hcs Hso Hok.
  { exists None, newC, s. split; [done|]. split; [done|]. split; [done|]. split; [done|].
    by intros t c []%elem_of_nil. }
  cbn [search]. assert ((t, c) ∈ allCombinations q) as Hc by (apply Hcs; set_solver).
  destruct (grown_ok t c Hc) as (Hg1 & Hg2 & Hg3).
  destruct (io_combs _ _ _ _ (proj1 Hi) t c Hc) as [Hpc _ _ _ _ _ _].
  rewrite set_insert_ok by done. cbn [obind]. change (insert_at (queueDataStore q) p (premades c)) with (grown c).
  destruct (BuildCombinationInfo_ok st (io_store _ _ _ _ (proj1 Hi)) (grown c) s Hg1 Hg2) as (info & s1 & E & Hinfo).
  unfold st in E. rewrite E. cbn [obind]. clear E.
  assert (∀ tc, tc ∈ cs → tc ∈ allCombinations q) as Hcs' by (intros; apply Hcs; set_solver).
  destruct info as [|ps a|ps a cd ld grp].
  - destruct (IH newC s1 Hcs' Hso Hok) as (r & newC' & s' & -> & Hpost).
    exists r, newC', s'. split; [done|]. cbn in Hinfo.
    apply (search_post_cons (t, c) cs newC newC); [by intros []|done|done|done].
  - destruct Hinfo as (-> & Hco & Hsz & Ha).
    destruct (ToCombination_ok st (io_store _ _ _ _ (proj1 Hi)) (grown c) a Hg1 Hg2 Ha) as (n & Et & Hn).
    unfold st in Et. rewrite Et. cbn [obind fst snd].
    destruct (IH (mm_insert (avg_join (queueDataStore q) (grown c)) (mkComb (grown c) n) newC) s1 Hcs')
      as (r & newC' & s' & -> & Hpost).
    { by apply mm_insert_sorted. }
    { intros t' c' [[= -> ->]|Hc']%mm_insert_elem; [|by apply Hok]. split; try done. by eapply compat_nobody. }
    exists r, newC', s'. split; [done|].
    eapply (search_post_cons (t, c) cs newC); [| | |exact Hpost].
    + intros [_ E]. cbn [snd] in E. lia.
    + intros x Hx. apply mm_insert_elem. by right.
    + intros _ _. split; [done|]. eexists _, _. split; [apply mm_insert_elem; by left|done].
  - pose proof Hinfo as (-> & _).
    destruct (BuildProposal_ok st (io_store _ _ _ _ (proj1 Hi)) now (grown c) a cd ld grp s1 Hinfo Hg2 (proj1 Hg1))
      as (pr & s2 & -> & Hgood). cbn [obind].
    destruct (RemovePremades_ok q (premades c) Hi) as [-> _]. cbn [obind].
    eexists (Some (_, pr)), newC, s2. split; [done|]. exists [], t, c, cs.
    split; [done|]. split; [by intros ? ? []%elem_of_nil|done].
Qed.
End one_premade.

(** A premade that fits nothing complete joins the waiting ones. *)
Lemma inv_join q now p tc newC' :
  (∀ x y, ignoring x y → ignored x y) → inv q → is_Some (queueDataStore q !! p) → p ∉ queue q →
  let st := queueDataStore q in
  premades tc.2 = [p] → players st [p] < MAXGROUPSIZE →
  search_post q now p (allCombinations q) [tc] None newC' →
  inv (set_new (set_combs (set_queue q (insert_at st p (queue q))) (mm_insert_all newC' (allCombinations q)))
         (filter (λ x, x ≠ p) (newToQueue q))).
Proof.
  intros Hig [[H1 H2 H3 H4 H5 H6 H7 H8] Hc] Hp Hpw st Htc Hp5 (Hso & Hok & Hsub & Hall).
  split; [|exact Hc]. cbn. fold st.
  assert (∀ l, pset st l → p ∈ l → filter (λ x, x ≠ p) l ≠ [] →
    (∀ g, g ∈ l → g ∈ insert_at st p (queue q)) → compat_with ignored st l → players st l ≤ MAXGROUPSIZE →
    players st l < MAXGROUPSIZE ∧ ∃ t c, (t, c) ∈ newC' ∧ premades c = l) as Hgrow.
  { intros l Hl Hpl Hne Hin Hco Hsz.
    destruct (H7 (filter (λ x, x ≠ p) l)) as (t & c & Htc' & Epr).
    - by apply pset_filter_ne.
    - done.
    - intros g [Hg Hgl]%list_elem_of_filter. apply Hin, insert_at_elem in Hgl as [->|?]; done.
    - eapply compat_mono; [done| |done]. by intros g [_ Hg]%list_elem_of_filter.
    - eapply Z.lt_le_trans; [|exact Hsz]. eapply (players_lt _ H1 _ _ p); [done|done| |].
      + intros [? _]%list_elem_of_filter. done.
      + by intros g [_ Hg]%list_elem_of_filter.
    - assert (insert_at (queueDataStore q) p (premades c) = l) as E by (rewrite Epr; by apply insert_at_filter).
      destruct (Hall t c Htc') as (Hlt & t' & c' & Hc' & E'); rewrite E in *; [by eapply compat_weaken|]. eauto. }
  assert (∀ l, pset st l → p ∈ l → filter (λ x, x ≠ p) l = [] → l = [p]) as Hsingle.
  { intros l Hl Hpl E. rewrite <- (insert_at_filter st p l Hl Hpl), E. done. }
  split; try done.
  - by apply pset_insert.
  - by apply pset_filter_ne.
  - intros g [->|Hg]%insert_at_elem [Hne Hn]%list_elem_of_filter; [done|]. by apply (H4 g).
  - by apply mm_insert_all_sorted.
  - intros t c. rewrite mm_insert_all_Permutation, elem_of_app. intros [Hc'|Hc']; [by apply Hok|].
    destruct (H6 t c Hc') as [G1 G2 G3 G4 G5 G6 G7]. split; try done.
    intros g Hg. apply insert_at_elem. right. auto.
  - intros l Hl Hne Hin Hco Hsz. setoid_rewrite mm_insert_all_Permutation. setoid_rewrite elem_of_app.
    destruct (decide (p ∈ l)) as [Hpl|Hpl].
    + destruct (decide (filter (λ x, x ≠ p) l = [])) as [E|E].
      * rewrite (Hsingle l Hl Hpl E). destruct tc as [t c]. exists t, c. split; [|done].
        left. apply Hsub. set_solver.
      * destruct (Hgrow l Hl Hpl E Hin Hco) as (_ & t & c & Hc' & Hpr); [lia|]. eauto.
    + destruct (H7 l Hl Hne) as (t & c & Hc' & Hpr); [|done|done|eauto].
      intros g Hg. apply Hin in Hg as Hg'. apply insert_at_elem in Hg' as [->|?]; done.
  - intros l Hl Hne Hin Hco E5. destruct (decide (p ∈ l)) as [Hpl|Hpl].
    + destruct (decide (filter (λ x, x ≠ p) l = [])) as [E|E].
      * rewrite (Hsingle l Hl Hpl E) in E5. lia.
      * destruct (Hgrow l Hl Hpl E Hin Hco) as [Hlt _]; lia.
    + apply (H8 l Hl Hne); [|done|done].
      intros g Hg. apply Hin in Hg as Hg'. apply insert_at_elem in Hg' as [->|?]; done.
Qed.

(** What FindGroup does with a premade [p] that is not waiting yet. *)
Definition found_post q (now p : Z) (b : bool) (q' : LFGQueue) (pr : option LfgProposal) : Prop :=
  let st := queueDataStore q in
  match pr with
  | None =>
    b = false ∧
    (q' = q ∧ ¬ compat st [p] ∨
     inv (set_new q' (filter (λ x, x ≠ p) (newToQueue q))) ∧ newToQueue q' = newToQueue q ∧
     p ∈ queue q')
  | Some pr =>
    b = true ∧ ∃ l, good_proposal st now l pr ∧ p ∈ l ∧ (∀ g, g ∈ l → g = p ∨ g ∈ queue q) ∧
      q' = foldl drop q (filter (λ x, x ≠ p) l) ∧
      (l = [p] ∨ ∃ pre t c post, allCombinations q = pre ++ (t, c) :: post ∧
         l = insert_at st p (premades c) ∧ t = avg_join st (premades c) ∧
         ∀ t' c', (t', c') ∈ pre → ¬ complete st (insert_at st p (premades c')))
  end ∧ queueDataStore q' = queueDataStore q ∧ timedDungeonEntries q' = timedDungeonEntries q ∧
  _isUpdating q' = _isUpdating q.

Lemma FindGroup_ok q now p s :
  (∀ x y, ignoring x y → ignored x y) → inv q → is_Some (queueDataStore q !! p) → p ∉ queue q →
  ∃ b q' pr s', FindGroup q now p s = Ok (b, q', pr, s') ∧ found_post q now p b q' pr.
Proof.
  intros Hig Hi Hp Hpw. unfold FindGroup. set (st := queueDataStore q).
  pose proof (io_store _ _ _ _ (proj1 Hi)) as Hst. fold st in Hst.
  assert (pset st [p]) as Hsp by by apply pset_singleton.
  destruct (BuildCombinationInfo_ok st Hst [p] s Hsp ltac:(done)) as (info & s1 & -> & Hinfo).
  cbn [obind]. destruct info as [|ps a|ps a cd ld grp].
  - eexists _, _, _, _. split; [done|]. split; [|done]. split; [done|]. by left.
  - destruct Hinfo as (-> & Hco & Hsz & Ha).
    destruct (ToCombination_ok st Hst [p] a Hsp ltac:(done) Ha) as (n & -> & Hn). cbn [obind].
    destruct (search_ok q now p Hi Hp Hpw (allCombinations q) [(avg_join st [p], mkComb [p] n)] s1)
      as (r & newC' & s' & -> & Hpost).
    { done. }
    { repeat constructor. }
    { intros t c [= -> ->]%list_elem_of_singleton. split; try done.
      - intros g ->%list_elem_of_singleton. apply insert_at_elem. by left.
      - by eapply compat_nobody. }
    cbn [obind]. destruct r as [[q' pr]|].
    + eexists _, _, _, _. split; [done|].
      destruct Hpost as (pre & t & c & post & E & Hpre & Hgood & ->).
      assert ((t, c) ∈ allCombinations q) as Hc by (rewrite E; set_solver).
      destruct (io_combs _ _ _ _ (proj1 Hi) t c Hc) as [Hpc _ Hin _ _ Ht _].
      destruct (drop_all_frame q (premades c)) as (E1 & _ & _ & E4 & E5).
      split; [|done]. split; [done|]. exists (insert_at st p (premades c)).
      assert (p ∉ premades c) as Hpc' by auto.
      split; [done|]. split; [apply insert_at_elem; by left|]. split; [|split].
      * intros g [->|Hg]%insert_at_elem; auto.
      * f_equal. symmetry. apply (sorted_unique st); [by apply pset_filter_ne, pset_insert|apply Hpc|].
        intros x. rewrite list_elem_of_filter, insert_at_elem. split; [naive_solver|].
        intros Hx. split; [by intros ->|by right].
      * right. exists pre, t, c, post. done.
    + rewrite set_insert_ok by (done || apply Hi). cbn [obind].
      eexists _, _, _, _. split; [done|]. split; [|done]. split; [done|]. right.
      split; [|split; [done|apply insert_at_elem; by left]].
      by eapply (inv_join q now p (avg_join st [p], mkComb [p] n) newC').
  - destruct (BuildProposal_ok st Hst now [p] a cd ld grp s1) as (pr & s2 & E & Hgood); [|done|apply Hsp|].
    { destruct Hinfo as (-> & H). done. }
    assert (ps = [p]) as -> by apply Hinfo. rewrite E. cbn [obind].
    eexists _, _, _, _. split; [done|]. split; [|done]. split; [done|]. exists [p].
    split; [done|]. split; [set_solver|]. split; [set_solver|]. split; [|by left].
    rewrite filter_cons_False by naive_solver. done.
Qed.

(** ** Delayed dungeons and the update *)

Definition timed_ok (l : list DelayedDungeonEntry) : Prop := Forall (λ e, in_u32 (d_dungeon e)) l.
Definition wf q : Prop := inv q ∧ timed_ok (timedDungeonEntries q).

(** The assertion of AddOldToQueue can fail during the search. *)
Definition may_assert q : Prop := asserts = true ∧ _isUpdating q = true.

Lemma inv_update_outside q g d :
  inv q → g ≠ 0 → is_Some (queueDataStore q !! g) → data_ok d → roles d = roles (data (queueDataStore q) g) →
  joinTime d = joinTime (data (queueDataStore q) g) → g ∉ queue q →
  inv (set_store q (<[g := d]> (queueDataStore q))).
Proof.
  intros Hi Hg Hs Hd Hr Hj Hw. destruct (sets_ok_update q g d Hi ltac:(done)) as [(_ & Hn & _) _].
  destruct Hi as [Hi Hc]. split; [|exact Hc]. cbn.
  pose proof (inv_restrict (queueDataStore q) (<[g := d]> (queueDataStore q)) (queue q) (newToQueue q)
    (newToQueue q) (allCombinations q) (λ _, True) Hi) as H.
  rewrite (filter_id (λ _, True) (queue q)), (filter_id _ (allCombinations q)) in H
    by (apply Forall_forall; intros; done || (apply Forall_forall; done)).
  apply H.
  - apply store_ok_update; [apply Hi|done..].
  - exact Hn.
  - apply Hi.
  - intros x Hx. assert (x ≠ g) by congruence. rewrite data_insert, decide_False by done.
    by rewrite lookup_insert_ne.
Qed.

Lemma AddOldToQueue_stored q g :
  inv q → is_Some (queueDataStore q !! g) →
  (AddOldToQueue q g = AssertFail ∧ may_assert q) ∨
  ∃ q', AddOldToQueue q g = Ok q' ∧ inv q' ∧ g ∈ newToQueue q' ∧ g ∉ queue q' ∧
    timedDungeonEntries q' = timedDungeonEntries q ∧ _isUpdating q' = _isUpdating q.
Proof.
  intros Hi Hg. unfold AddOldToQueue, assert_not_updating, may_assert.
  destruct (asserts && _isUpdating q) eqn:E; [left; by apply andb_true_iff in E|right].
  rewrite (data_some _ _ Hg).
  destruct (enqueue_ok q g) as (q' & -> & Hi' & Hw & Ht & Hu & Hin & _);
    [by apply inv_sets_ok|done|by apply inv_drop_same|].
  exists q'. split; [done|]. split; [done|]. split; [done|]. split; [|done].
  rewrite Hw. intros [? _]%list_elem_of_filter. done.
Qed.

(** One matured entry. *)
Lemma matured_ok q (e : DelayedDungeonEntry) d :
  inv q → in_u32 (d_dungeon e) → queueDataStore q !! premade e = Some d →
  let d' := mkData (joinTime d) ({[d_dungeon e]} ∪ dungeons d) (roles d) (isLfgGroup d)
              (avgWaitTime d) (rolesNeeded d) in
  let q1 := set_store q (<[premade e := d']> (queueDataStore q)) in
  ∃ b, set_find (queueDataStore q1) (premade e) (queue q1) = Ok b ∧
    if b then
      RemovePremade q1 (premade e) = Ok (drop q1 (premade e)) ∧ inv (drop q1 (premade e)) ∧
      is_Some (queueDataStore (drop q1 (premade e)) !! premade e)
    else inv q1.
Proof.
  intros Hi Hu Hd d' q1.
  assert (is_Some (queueDataStore q !! premade e)) as Hs by by exists d.
  assert (data (queueDataStore q) (premade e) = d) as Hdd by (unfold data; by rewrite Hd).
  pose proof (store_nonzero _ _ (io_store _ _ _ _ (proj1 Hi)) Hs) as H0.
  assert (data_ok d') as Hd'.
  { destruct (data_ok_alive q _ Hi Hs) as [G1 G2 G3]. rewrite Hdd in *. split; [done| |done].
    cbn. intros x [->%elem_of_singleton|Hx]%elem_of_union; auto. }
  destruct (sets_ok_update q (premade e) d' Hi) as [Hsets Hn]; [by rewrite Hdd|].
  fold q1 in Hsets. rewrite set_find_ok by apply Hsets. eexists. split; [done|].
  case_bool_decide as Hw.
  - split; [by apply RemovePremade_ok|]. split; [|cbn; rewrite lookup_insert_eq; by eexists].
    apply inv_drop; [done| |done|].
    + apply store_ok_update; [apply Hi|done|done|by rewrite Hdd].
    + intros x [Hx _]%list_elem_of_filter. rewrite data_insert, decide_False by done.
      by rewrite lookup_insert_ne.
  - apply inv_update_outside; try done; by rewrite Hdd.
Qed.

Lemma add_delayed_ok q now timed :
  inv q → timedDungeonEntries q = timed → timed_ok timed →
  (add_delayed q now timed = AssertFail ∧ may_assert q) ∨
  ∃ q', add_delayed q now timed = Ok q' ∧ wf q' ∧ _isUpdating q' = _isUpdating q.
Proof.
  revert q. induction timed as [|e timed IH]; intros q Hi Ht Hok; cbn [add_delayed].
  { right. exists q. split; [done|]. split; [|done]. split; [done|by rewrite Ht]. }
  case_bool; [|right; exists q; split; [done|]; split; [split; [done|by rewrite Ht]|done]].
  pose proof Hok as Hok0. inversion Hok as [|? ? He Hok']; subst.
  assert (∀ q1, inv q1 → _isUpdating q1 = _isUpdating q →
    (add_delayed (set_timed q1 timed) now timed = AssertFail ∧ may_assert q) ∨
    ∃ q', add_delayed (set_timed q1 timed) now timed = Ok q' ∧ wf q' ∧ _isUpdating q' = _isUpdating q) as Hgo.
  { intros q1 Hi1 Hu1. destruct (IH (set_timed q1 timed)) as [[Hf Hm]|(q' & Hq & Hw & Hu)];
      [exact Hi1|done|done|left|right].
    - split; [done|]. unfold may_assert in *. cbn in Hm. by rewrite Hu1 in Hm.
    - exists q'. split; [done|]. split; [done|]. cbn in Hu. congruence. }
  destruct (queueDataStore q !! premade e) as [d|] eqn:Hd; [|by apply Hgo].
  destruct (joinTime d =? d_joinTime e); [|by apply Hgo].
  destruct (matured_ok q e d Hi He Hd) as (b & -> & Hb). cbn [obind]. destruct b; [|by apply Hgo].
  destruct Hb as (-> & Hi1 & Hs). cbn [obind].
  destruct (AddOldToQueue_stored _ _ Hi1 Hs) as [[-> Hm]|(q2 & -> & Hi2 & _ & _ & Ht2 & Hu2)]; [by left|].
  cbn [obind]. apply Hgo; [done|]. rewrite Hu2. done.
Qed.

Lemma sorted_tail_filter st p l : pset st (p :: l) → filter (λ x, x ≠ p) (p :: l) = l.
Proof.
  intros [_ Hs]. rewrite filter_cons_False by naive_solver. apply filter_id, Forall_forall.
  intros x Hx ->. apply sorted_NoDup, NoDup_cons in Hs. tauto.
Qed.

Lemma inv_remove_new q p : inv q → inv (set_new q (filter (λ x, x ≠ p) (newToQueue q))).
Proof.
  intros [[H1 H2 H3 H4 H5 H6 H7 H8] Hc]. split; [|exact Hc]. cbn. split; try done.
  - by apply pset_filter_ne.
  - intros g Hg [_ Hn]%list_elem_of_filter. by apply (H4 g).
Qed.

(** One update of the queue: a proposal is good, it was found with the first premade
    [p] of [newToQueue] alone or with the longest waiting of the combinations that
    [p] completes, and none of its premades is waiting any more. *)
Definition update_post q (now : Z) (q' : LFGQueue) (pr : option LfgProposal) : Prop :=
  wf q' ∧ _isUpdating q' = _isUpdating q ∧
  match pr with
  | None => True
  | Some pr => ∃ q0 p l, wf q0 ∧ head (newToQueue q0) = Some p ∧
      queueDataStore q0 = queueDataStore q' ∧ good_proposal (queueDataStore q') now l pr ∧
      (∀ g, g ∈ l → g ∉ queue q' ∧ g ∉ newToQueue q') ∧
      (l = [p] ∨ ∃ pre t c post, allCombinations q0 = pre ++ (t, c) :: post ∧
         l = insert_at (queueDataStore q0) p (premades c) ∧ t = avg_join (queueDataStore q0) (premades c) ∧
         ∀ t' c', (t', c') ∈ pre → ¬ complete (queueDataStore q0) (insert_at (queueDataStore q0) p (premades c')))
  end.

Lemma found_update q0 now p n b q1 pr :
  wf q0 → newToQueue q0 = p :: n → found_post q0 now p b q1 pr →
  update_post q0 now (set_combinationsUpdated (set_new q1 (tail (newToQueue q1))) true) pr.
Proof.
  intros [Hi0 Ht0] En (Hcase & Hst & Htm & Hu).
  pose proof (io_new _ _ _ _ (proj1 Hi0)) as Hpn. rewrite En in Hpn.
  pose proof (sorted_tail_filter _ _ _ Hpn) as Hn.
  split; [split|split; [exact Hu|]].
  - assert (newToQueue q1 = newToQueue q0 ∧ inv (set_new q1 (filter (λ x, x ≠ p) (newToQueue q0)))) as [E Hi1].
    { destruct pr as [pr|].
      - destruct Hcase as (_ & l & _ & _ & Hin & -> & _).
        destruct (drop_all_frame q0 (filter (λ x, x ≠ p) l)) as (_ & _ & E3 & _).
        assert (newToQueue (foldl drop q0 (filter (λ x, x ≠ p) l)) = newToQueue q0) as E.
        { rewrite E3. apply filter_id, Forall_forall. intros x Hx [Hne Hl]%list_elem_of_filter.
          destruct (Hin x Hl); [done|]. by apply (io_disj _ _ _ _ (proj1 Hi0) x). }
        split; [exact E|]. rewrite <- E. apply inv_remove_new. by apply RemovePremades_ok.
      - destruct Hcase as [_ [[-> _]|(Hi1 & E & _)]]; [|done]. split; [done|]. by apply inv_remove_new. }
    rewrite E, En in *. cbn [tail]. rewrite Hn in Hi1. exact Hi1.
  - cbn. by rewrite Htm.
  - destruct pr as [pr|]; [|done].
    destruct Hcase as (_ & l & Hgood & Hpl & Hin & -> & Hfirst).
    exists q0, p, l. split; [done|]. split; [by rewrite En|].
    destruct (drop_all_frame q0 (filter (λ x, x ≠ p) l)) as (E1 & E2 & E3 & _).
    cbn. rewrite E1, E2, E3. split; [done|]. split; [done|]. split; [|done].
    intros g Hg. destruct (decide (g = p)) as [->|Hne].
    + split.
      * rewrite list_elem_of_filter. intros [_ Hw]. apply (io_disj _ _ _ _ (proj1 Hi0) p Hw). rewrite En. set_solver.
      * assert (p ∉ filter (λ x, x ≠ p) l) as Hpf by (rewrite list_elem_of_filter; tauto).
        rewrite En, filter_cons_True by done. cbn [tail]. rewrite list_elem_of_filter. intros [_ Hpn'].
        destruct Hpn as [_ Hs]. apply sorted_NoDup, NoDup_cons in Hs. tauto.
    + assert (g ∈ filter (λ x, x ≠ p) l) as Hgf by by apply list_elem_of_filter.
      split; rewrite ?list_elem_of_filter; [tauto|].
      intros Hgn. assert (g ∈ filter (λ x, x ∉ filter (λ x, x ≠ p) l) (newToQueue q0)) as Hgn'.
      { destruct (filter _ (newToQueue q0)); [done|]. by right. }
      apply list_elem_of_filter in Hgn'. tauto.
Qed.

Lemma FindGroups_ok q now s :
  (∀ x y, ignoring x y → ignored x y) → wf q →
  (FindGroups q now s = AssertFail ∧ may_assert q) ∨
  ∃ q' pr s', FindGroups q now s = Ok (q', pr, s') ∧ update_post q now q' pr.
Proof.
  intros Hig [Hi Ht]. unfold FindGroups.
  destruct (add_delayed_ok q now (timedDungeonEntries q) Hi eq_refl Ht) as [[-> Hm]|(q0 & -> & Hw0 & Hu)];
    [by left|right]. cbn [obind].
  destruct (newToQueue q0) as [|p n] eqn:En; [by exists q0, None, s|].
  pose proof (io_new _ _ _ _ (proj1 (proj1 Hw0))) as Hpn. rewrite En in Hpn.
  assert (is_Some (queueDataStore q0 !! p)) as Hp by (destruct Hpn as [Ha _]; by inversion Ha).
  assert (p ∉ queue q0) as Hpw.
  { intros Hin. apply (io_disj _ _ _ _ (proj1 (proj1 Hw0)) p Hin). rewrite En. set_solver. }
  destruct (FindGroup_ok q0 now p s Hig (proj1 Hw0) Hp Hpw) as (b & q1 & pr & s' & -> & Hpost). cbn [obind].
  eexists _, pr, s'. split; [done|].
  destruct (found_update q0 now p n b q1 pr Hw0 En Hpost) as (H1 & H2 & H3).
  split; [done|]. split; [congruence|done].
Qed.

(** ** The other operations *)

Lemma delayed_insert_ok e l : in_u32 (d_dungeon e) → timed_ok l → timed_ok (delayed_insert e l).
Proof.
  intros He. induction 1 as [|h t Hh Ht IH]; simpl; [constructor; [done|constructor]|].
  repeat case_bool; repeat (apply Forall_cons; split); done.
Qed.

Lemma assert_not_updating_ok {A} q (k : outcome A) (P : A → Prop) :
  (∃ a, k = Ok a ∧ P a) →
  (assert_not_updating q k = AssertFail ∧ may_assert q) ∨ ∃ a, assert_not_updating q k = Ok a ∧ P a.
Proof.
  intros H. unfold assert_not_updating, may_assert. destruct (asserts && _isUpdating q) eqn:E; [left|by right].
  by apply andb_true_iff in E.
Qed.

Lemma AddNewToQueue_data q now guid jt times rs lfg :
  wf q → rs ≠ ∅ → map_Forall (λ d _, in_u32 d) times →
  ∃ ds timed, timed_ok timed ∧ data_ok (newData jt ds rs lfg) ∧
    AddNewToQueue q now guid jt times rs lfg = assert_not_updating q
      (enqueue (set_store (set_timed q timed) (<[guid := newData jt ds rs lfg]> (queueDataStore q))) guid).
Proof.
  intros [Hi Ht] Hr Htimes. unfold AddNewToQueue.
  set (f := λ (acc : LfgDungeonSet * list DelayedDungeonEntry) (dt : Z * Z), _).
  destruct (foldl f (∅, timedDungeonEntries q) (items times)) as [ds timed] eqn:E.
  assert ((∀ x, x ∈ ds → in_u32 x) ∧ timed_ok timed) as [Hds Htimed].
  { change ds with (ds, timed).1. change timed with (ds, timed).2 at 2. rewrite <- E.
    assert (Forall (λ dt : Z * Z, in_u32 dt.1) (items times)) as Hall.
    { apply Forall_forall. intros [d t] Hd%items_elem. by apply (Htimes d t). }
    generalize (items times) Hall. clear E. intros l Hl.
    assert ((∀ x, x ∈ (∅ : gset Z) → in_u32 x) ∧ timed_ok (timedDungeonEntries q)) as Hbase by (split; [set_solver|done]).
    revert Hbase. generalize (∅ : gset Z) (timedDungeonEntries q).
    induction Hl as [|[d t] l Hd Hl IH]; intros s0 t0 [Hs0 Ht0]; [done|]. cbn [foldl].
    unfold f at 2 4. cbn [fst snd] in *. case_match; apply IH; cbn [fst snd]; split; try done.
    - intros x [->%elem_of_singleton|Hx]%elem_of_union; auto.
    - by apply delayed_insert_ok. }
  exists ds, timed. split; [done|]. split; [|done]. split; [done|done|apply has_all_roles_all].
Qed.

Lemma AddNewToQueue_ok q now guid jt times rs lfg :
  wf q → guid ≠ 0 → rs ≠ ∅ → map_Forall (λ d _, in_u32 d) times → fresh (queueDataStore q) guid rs →
  (guid ∈ queue q ∨ guid ∈ newToQueue q → jt = joinTime (data (queueDataStore q) guid)) →
  (AddNewToQueue q now guid jt times rs lfg = AssertFail ∧ may_assert q) ∨
  ∃ q', AddNewToQueue q now guid jt times rs lfg = Ok q' ∧
    (wf q' ∧ guid ∈ newToQueue q' ∧ guid ∉ queue q' ∧ _isUpdating q' = _isUpdating q ∧
     roles (data (queueDataStore q') guid) = rs).
Proof.
  intros Hw Hg Hr Htimes Hf Hj.
  destruct (AddNewToQueue_data q now guid jt times rs lfg Hw Hr Htimes) as (ds & timed & Htimed & Hd & ->).
  apply assert_not_updating_ok.
  destruct (enqueue_new_ok (set_timed q timed) guid (newData jt ds rs lfg)) as (q' & Hq & Hi' & Hin & Hni & Ht' & Hu' & Hrs);
    [exact (proj1 Hw)|done|done|exact Hf|exact Hj|].
  exists q'. split; [exact Hq|]. split; [split; [done|]|done]. by rewrite Ht'.
Qed.

(** Without the condition on the join time. *)
Lemma AddNewToQueue_any q now guid jt times rs lfg :
  wf q → guid ≠ 0 → rs ≠ ∅ → map_Forall (λ d _, in_u32 d) times → fresh (queueDataStore q) guid rs →
  (AddNewToQueue q now guid jt times rs lfg = AssertFail ∧ may_assert q) ∨
  (∃ q', AddNewToQueue q now guid jt times rs lfg = Ok q' ∧ wf q') ∨
  (AddNewToQueue q now guid jt times rs lfg = Undefined ∧ (guid ∈ queue q ∨ guid ∈ newToQueue q) ∧
   jt ≠ joinTime (data (queueDataStore q) guid)).
Proof.
  intros Hw Hg Hr Htimes Hf.
  destruct (AddNewToQueue_data q now guid jt times rs lfg Hw Hr Htimes) as (ds & timed & Htimed & Hd & ->).
  unfold assert_not_updating, may_assert.
  destruct (asserts && _isUpdating q) eqn:Ea; [left; by apply andb_true_iff in Ea|right].
  destruct (enqueue_new_any (set_timed q timed) guid (newData jt ds rs lfg)) as [(q' & E & Hi' & Ht')|(E & Hin & Hj)];
    [exact (proj1 Hw)|done|done|exact Hf|left|right].
  - exists q'. split; [exact E|]. split; [done|]. by rewrite Ht'.
  - split; [exact E|]. split; [exact Hin|exact Hj].
Qed.

(** The data that AddOldToQueue would take from the archive is still valid. *)
Definition archive_fresh q (guid : Z) : Prop :=
  queueDataStore q !! guid = None →
  ∀ d, queueDataCellar q !! guid = Some d → fresh (queueDataStore q) guid (roles d).

Lemma not_stored_not_queued q g :
  inv q → queueDataStore q !! g = None → g ∉ queue q ∧ g ∉ newToQueue q.
Proof.
  intros Hi Hg. destruct (inv_sets_ok q Hi) as ([Ha _] & [Ha' _] & _).
  unfold alive in *. rewrite Forall_forall in Ha, Ha'.
  split; intros Hin; [destruct (Ha g Hin)|destruct (Ha' g Hin)]; congruence.
Qed.

Lemma AddOldToQueue_ok q guid :
  wf q → archive_fresh q guid →
  (AddOldToQueue q guid = AssertFail ∧ may_assert q) ∨
  ∃ q', AddOldToQueue q guid = Ok q' ∧ (wf q' ∧ _isUpdating q' = _isUpdating q).
Proof.
  intros [Hi Ht] Hf. destruct (queueDataStore q !! guid) as [d|] eqn:Hd.
  { destruct (AddOldToQueue_stored q guid Hi) as [?|(q' & E & Hi' & _ & _ & Ht' & Hu')]; [by exists d|by left|right].
    exists q'. split; [done|]. split; [|done]. split; [done|]. by rewrite Ht'. }
  unfold AddOldToQueue. apply assert_not_updating_ok. rewrite Hd.
  destruct (queueDataCellar q !! guid) as [d|] eqn:Hc; [|by exists q].
  destruct (not_stored_not_queued q guid Hi Hd) as [Hw Hn].
  destruct Hi as [Hi' [Hcell H0]].
  destruct (enqueue_new_ok q guid d) as (q' & E & Hi2 & _ & _ & Ht' & Hu' & _); [done|..].
  - intros ->. by rewrite H0 in Hc.
  - by apply (Hcell guid).
  - by apply Hf.
  - tauto.
  - exists q'. split; [done|]. split; [|done]. split; [done|]. by rewrite Ht'.
Qed.

Lemma RemoveFromSystem_ok q guid :
  wf q →
  (RemoveFromSystem q guid = AssertFail ∧ may_assert q) ∨
  ∃ q', RemoveFromSystem q guid = Ok q' ∧
    (wf q' ∧ _isUpdating q' = _isUpdating q ∧
     queueDataStore q' = delete guid (queueDataStore q) ∧
     queue q' = filter (λ x, x ≠ guid) (queue q) ∧
     newToQueue q' = filter (λ x, x ≠ guid) (newToQueue q) ∧
     queueDataCellar q' =
       match queueDataStore q !! guid with
       | Some d => <[guid := d]> (queueDataCellar q)
       | None => queueDataCellar q
       end).
Proof.
  intros [Hi Ht]. unfold RemoveFromSystem, RemoveFromQueue. apply assert_not_updating_ok.
  destruct (queueDataStore q !! guid) as [d|] eqn:Hd.
  - rewrite RemovePremade_ok by by apply inv_sets_ok. cbn [obind]. rewrite drop_store, Hd.
    eexists. split; [done|]. split; [|done]. split; [|exact Ht].
    pose proof (inv_drop q (delete guid (queueDataStore q)) guid Hi) as [Hi' _].
    + apply store_ok_delete, Hi.
    + apply (agree_pset (queueDataStore q)); [|apply pset_filter_ne, Hi].
      intros x [Hx _]%list_elem_of_filter. unfold data. by rewrite lookup_delete_ne.
    + intros x [Hx _]%list_elem_of_filter. unfold data. by rewrite lookup_delete_ne.
    + split; [exact Hi'|]. cbn. destruct Hi as [Hi [Hc H0]].
      assert (is_Some (queueDataStore q !! guid)) as Hs by by exists d. split.
      * apply map_Forall_insert_2; [|done]. by apply (so_data _ (io_store _ _ _ _ Hi) guid).
      * rewrite lookup_insert_ne; [done|]. by apply (store_nonzero (queueDataStore q)); [apply Hi|].
  - cbn [obind]. rewrite Hd. exists q. split; [done|]. split; [done|].
    destruct (not_stored_not_queued q guid Hi Hd) as [Hw Hn]. split; [done|].
    rewrite delete_id by done.
    rewrite !filter_id by (apply Forall_forall; intros x Hx ->; done). done.
Qed.

(** *** Bookkeeping: waiting times and the roles shown to the clients *)

(** Nothing but [avgWaitTime] and [rolesNeeded] differs. *)
Definition same_search st st' : Prop :=
  store_ok st' ∧ (∀ x, core (data st x) = core (data st' x)) ∧ ∀ x, is_Some (st !! x) ↔ is_Some (st' !! x).

Lemma same_search_refl st : store_ok st → same_search st st.
Proof. done. Qed.

Lemma same_search_trans st1 st2 st3 : same_search st1 st2 → same_search st2 st3 → same_search st1 st3.
Proof.
  intros (_ & Hc & Hs) (Hst & Hc' & Hs'). split; [done|]. split.
  - intros x. by rewrite Hc.
  - intros x. by rewrite Hs.
Qed.

Lemma same_search_alive st st' l : same_search st st' → alive st l → alive st' l.
Proof. intros (_ & _ & Hs) Hl. eapply Forall_impl; [exact Hl|]. intros x. apply Hs. Qed.

Lemma same_search_insert st g d :
  store_ok st → is_Some (st !! g) → data_ok d → core d = core (data st g) → same_search st (<[g := d]> st).
Proof.
  intros Hst Hg Hd Hc. split; [|split].
  - apply store_ok_update; [done..|]. by injection Hc.
  - intros x. rewrite data_insert. case_decide as E; [by rewrite E|done].
  - intros x. by apply alive_insert.
Qed.

Lemma inv_same_search q st' : inv q → same_search (queueDataStore q) st' → inv (set_store q st').
Proof.
  intros [Hi Hc] (Hst & Hcore & Hs). split; [|exact Hc]. cbn. by apply (inv_same (queueDataStore q)).
Qed.

Lemma refresh_all_ok q l :
  wf q → alive (queueDataStore q) l →
  ∃ st', refresh_all q l = Ok (set_store q st') ∧ wf (set_store q st').
Proof.
  revert q. induction l as [|g l IH]; intros q [Hi Ht] Hal.
  { exists (queueDataStore q). split; [by destruct q|split; [|done]].
    apply inv_same_search; [done|]. apply same_search_refl, Hi. }
  apply Forall_cons in Hal as [Hg Hal]. cbn [refresh_all].
  destruct (RefreshWaitTime_ok q g Hi Hg) as (q' & d & -> & Hi' & -> & Hd). cbn [obind].
  destruct (IH (set_store q (<[g := d]> (queueDataStore q)))) as (st' & -> & Hw).
  - split; [exact Hi'|exact Ht].
  - eapply Forall_impl; [exact Hal|]. intros x Hx. by apply alive_insert.
  - by exists st'.
Qed.

Lemma RefreshWaitTimes_ok q :
  wf q → ∃ q', RefreshWaitTimes q = Ok q' ∧ wf q' ∧ _isUpdating q' = _isUpdating q.
Proof.
  intros Hw. unfold RefreshWaitTimes. destruct (timesUpdated q); [cbn [negb]|by exists q].
  destruct (refresh_all_ok q (queue q) Hw) as (st' & -> & Hw'); [apply (io_queue _ _ _ _ (proj1 (proj1 Hw)))|].
  cbn [obind]. eexists. split; [done|]. split; [exact Hw'|done].
Qed.

Lemma assign_needed_ok n l st :
  store_ok st → has_all_roles n → alive st l →
  ∃ st', assign_needed n l st = Ok st' ∧ same_search st st'.
Proof.
  revert st. induction l as [|g l IH]; intros st Hst Hn Hal; cbn [assign_needed]; [by exists st|].
  apply Forall_cons in Hal as [Hg Hal]. rewrite (data_some _ _ Hg). cbn [deref].
  assert (same_search st (<[g := with_needed (data st g) n]> st)) as Hs.
  { apply same_search_insert; [done|done| |done].
    destruct (so_data _ Hst g (data st g) (data_some _ _ Hg)). by split. }
  destruct (IH (<[g := with_needed (data st g) n]> st)) as (st' & -> & Hs').
  - apply Hs.
  - done.
  - by eapply same_search_alive.
  - exists st'. split; [done|]. by eapply same_search_trans.
Qed.

Lemma improves_ok st n l : alive st l → ∃ b, improves st n l = Ok b.
Proof.
  induction 1 as [|g l [d Hd] Hl [b IH]]; [by exists true|]. cbn [improves]. rewrite Hd. cbn [deref].
  case_bool; [by exists false|]. rewrite IH. by exists b.
Qed.

Lemma best_arrangements_ok cs st :
  store_ok st → (∀ t c, (t, c) ∈ cs → alive st (premades c) ∧ has_all_roles (c_rolesNeeded c)) →
  ∃ st', best_arrangements cs st = Ok st' ∧ same_search st st'.
Proof.
  revert st. induction cs as [|[t c] cs IH]; intros st Hst Hcs; cbn [best_arrangements]; [by exists st|].
  destruct (Hcs t c ltac:(set_solver)) as [Hal Hn].
  destruct (improves_ok st (c_rolesNeeded c) (premades c) Hal) as [b ->]. cbn [obind].
  assert (∃ st1, (if b then assign_needed (c_rolesNeeded c) (premades c) st else Ok st) = Ok st1 ∧ same_search st st1)
    as (st1 & -> & Hs1) by (destruct b; [by apply assign_needed_ok|by exists st]).
  cbn [obind]. destruct (IH st1) as (st' & -> & Hs').
  - apply Hs1.
  - intros t' c' Hc'. destruct (Hcs t' c' ltac:(set_solver)) as [Hal' Hn']. split; [|done].
    by eapply same_search_alive.
  - exists st'. split; [done|]. by eapply same_search_trans.
Qed.

Lemma RefreshBestArrangements_ok q :
  wf q → ∃ q', RefreshBestArrangements q = Ok q' ∧ wf q' ∧ _isUpdating q' = _isUpdating q.
Proof.
  intros [Hi Ht]. unfold RefreshBestArrangements. destruct (combinationsUpdated q); [cbn [negb]|by exists q].
  destruct (assign_needed_ok NEEDED_ALL_ROLES (queue q) (queueDataStore q)) as (st1 & -> & Hs1);
    [apply Hi|apply has_all_roles_all|apply Hi|]. cbn [obind].
  destruct (best_arrangements_ok (allCombinations q) st1) as (st2 & -> & Hs2).
  - apply Hs1.
  - intros t c Hc. destruct (io_combs _ _ _ _ (proj1 Hi) t c Hc) as [[Hal _] _ _ _ _ _ Hn].
    split; [|done]. by eapply same_search_alive.
  - cbn [obind]. eexists. split; [done|]. split; [split; [|exact Ht]|done].
    apply (inv_same_search q st2); [done|]. by eapply same_search_trans.
Qed.

Lemma mean_times_ok times :
  Forall (λ rt, is_role rt.1) times → ∃ wt, mean_times times = Ok wt.
Proof.
  intros Hr. unfold mean_times.
  set (f := λ (wt : gmap Z Z) (rt : Z * Z), _). set (sums := foldl f ∅ times).
  assert (map_Forall (λ r _, is_role r) sums) as Hs.
  { unfold sums. assert (map_Forall (λ r (_ : Z), is_role r) (∅ : gmap Z Z)) as Hb by apply map_Forall_empty.
    revert Hb. generalize (∅ : gmap Z Z). induction Hr as [|rt l Hrt Hl IH]; intros m Hm; [done|]. cbn [foldl].
    apply IH. unfold f. case_match; by apply map_Forall_insert_2. }
  assert (Forall (λ rt : Z * Z, is_role rt.1) (items sums)) as Hl.
  { apply Forall_forall. intros [r t] Hin%items_elem. by apply (Hs r t). }
  induction Hl as [|[r t] l Hrt Hl [wt IH]]; [by exists ∅|]. cbn [foldr]. rewrite IH. cbn [obind fst snd].
  destruct Hrt as [E|[E|E]]; cbn in E; subst r; eexists; reflexivity.
Qed.

Lemma UpdateWaitTime_ok q ds times :
  wf q → Forall (λ rt, is_role rt.1) times →
  ∃ q', UpdateWaitTime q ds times = Ok q' ∧ wf q' ∧ _isUpdating q' = _isUpdating q.
Proof.
  intros Hw Hr. unfold UpdateWaitTime. destruct (mean_times_ok times Hr) as [wt ->]. cbn [obind].
  eexists. split; [done|]. split; [exact Hw|done].
Qed.

Lemma SendQueueData_ok q now :
  wf q → ∃ q' out, SendQueueData q now = Ok (q', out) ∧ wf q' ∧ _isUpdating q' = _isUpdating q.
Proof.
  intros [Hi Ht]. unfold SendQueueData. destruct (queueDataUpdated q); [cbn [negb]|by exists q, []].
  pose proof (io_queue _ _ _ _ (proj1 Hi)) as [Hal _]. rewrite read_all_ok by done. cbn [obind].
  match goal with |- context [foldr ?f (Ok []) _] => set (F := f) end.
  assert (∃ out, foldr F (Ok []) ((λ g, (g, data (queueDataStore q) g)) <$> queue q) = Ok out) as [out ->].
  { clear Ht. induction Hal as [|g l Hg Hl [out IH]]; [by exists []|]. rewrite fmap_cons. cbn [foldr].
    rewrite IH. unfold F at 1. cbn [obind snd].
    destruct (data_ok_alive q g Hi Hg) as [_ _ ([a Ha] & [b Hb] & [c Hc])].
    unfold at_role. rewrite Ha, Hb, Hc. eexists. reflexivity. }
  cbn [obind]. eexists _, out. split; [done|]. split; [split; [exact Hi|exact Ht]|done].
Qed.
End invariant.

(** A longer history of ignoring asks for less. *)
Lemma wf_history (e e' : IgnoreHistory) q :
  (∀ x y, e x y → e' x y) → wf (HI := e) q → wf (HI := e') q.
Proof.
  intros He [[[H1 H2 H3 H4 H5 H6 H7 H8] Hc] Ht]. split; [split; [split; try done|done]|done].
  - intros l Hl Hne Hin Hco. apply H7; try done. by eapply compat_weaken.
  - intros l Hl Hne Hin Hco. apply H8; try done. by eapply compat_weaken.
Qed.

End LfgInvariant.
