(* ===== verification/LfgTheorems.v ===== *)
(** * The guarantees of the dungeon finder's queue

    The histories of the queue as a transition system, and what holds in each of its
    states: no operation follows a dead reference, the order of the sets breaks only when
    a waiting premade is given another join time, no group that could start is left
    waiting, and every proposal is a playable group. *)
From S2P Require Import Prelude Multimap LfgRoles LfgQueue LfgMatch LfgInvariant.

Module LfgTheorems.
Export LfgInvariant.

Section theorems.
Context `{LE : LfgEnv} `{LG : LfgGroups} `{RND : Random}.

(** ** Histories *)

(** [ign]: the ignore lists (of the players who are online) at the moment of the update;
    [lg]: what LFGMgr then says about players and groups. *)
Inductive op :=
| OpAddNew (now guid joinTime : Z) (dungeonTimes : gmap Z Z) (roles : LfgRolesMap) (isLfgGroup : bool)
| OpAddOld (guid : Z)
| OpRemove (guid : Z)
| OpFind (ign : Z → Z → bool) (lg : LfgGroups) (now : Z) (s : rng)
| OpUpdateWaitTime (dungeons : LfgDungeonSet) (times : list (Z * Z))
| OpRefreshBest
| OpRefreshTimes
| OpSend (now : Z)
| OpUpdating (b : bool).

Definition run (q : LFGQueue) (o : op) : outcome LFGQueue :=
  match o with
  | OpAddNew now guid jt times rs lfg => AddNewToQueue q now guid jt times rs lfg
  | OpAddOld guid => AddOldToQueue q guid
  | OpRemove guid => RemoveFromSystem q guid
  | OpFind ign lg now s =>
    let! (q, _, _) := FindGroups (LE := {| asserts := asserts; ignores := ign |}) (LG := lg) q now s in Ok q
  | OpUpdateWaitTime ds times => UpdateWaitTime q ds times
  | OpRefreshBest => RefreshBestArrangements q
  | OpRefreshTimes => RefreshWaitTimes q
  | OpSend now => let! (q, _) := SendQueueData q now in Ok q
  | OpUpdating b => Ok (SetDebugUpdating q b)
  end.

(** What the callers in LFGMgr see to: a new premade has players, none of whom is in
    another premade, dungeons are [uint32] and waiting times belong to the three roles. *)
Definition op_pre (q : LFGQueue) (o : op) : Prop :=
  match o with
  | OpAddNew _ guid _ times rs _ =>
    guid ≠ 0 ∧ rs ≠ ∅ ∧ map_Forall (λ d _, in_u32 d) times ∧ fresh (queueDataStore q) guid rs
  | OpAddOld guid => archive_fresh q guid
  | OpUpdateWaitTime _ times => Forall (λ rt, is_role rt.1) times
  | _ => True
  end.

(** The operation gives a premade that is still queued another join time. *)
Definition rejoins (q : LFGQueue) (o : op) : Prop :=
  match o with
  | OpAddNew _ guid jt _ _ _ =>
    (guid ∈ queue q ∨ guid ∈ newToQueue q) ∧ jt ≠ joinTime (data (queueDataStore q) guid)
  | _ => False
  end.

(** Who has ignored whom at the updates up to and with [o]. *)
Definition seen (ever : IgnoreHistory) (o : op) : IgnoreHistory :=
  match o with
  | OpFind ign _ _ _ => λ p p', ever p p' ∨ ign p p' = true
  | _ => ever
  end.

Inductive reachable : IgnoreHistory → LFGQueue → Prop :=
| reachable_init : reachable nobody empty_queue
| reachable_step ever q o q' :
    reachable ever q → op_pre q o → run q o = Ok q' → reachable (seen ever o) q'.

Lemma seen_weaken (ever : IgnoreHistory) o q : wf (HI := ever) q → wf (HI := seen ever o) q.
Proof. destruct o; try done. apply wf_history. by left. Qed.

Lemma run_ok (ever : IgnoreHistory) q o :
  wf (HI := ever) q → op_pre q o →
  (run q o = AssertFail ∧ may_assert q) ∨ (run q o = Undefined ∧ rejoins q o) ∨
  ∃ q', run q o = Ok q' ∧ wf (HI := seen ever o) q'.
Proof.
  intros Hw Hpre. destruct o as [now g jt times rs lfg|g|g|ign lg now s|ds times| | |now|b]; cbn [run op_pre rejoins] in *.
  - destruct Hpre as (H1 & H2 & H3 & H4).
    destruct (AddNewToQueue_any q now g jt times rs lfg Hw H1 H2 H3 H4) as [?|[(q' & -> & ?)|(-> & ?)]];
      [by left|right; right; by exists q'|right; by left].
  - destruct (AddOldToQueue_ok q g Hw Hpre) as [?|(q' & -> & ? & _)]; [by left|right; right; by exists q'].
  - destruct (RemoveFromSystem_ok q g Hw) as [?|(q' & -> & ? & _)]; [by left|right; right; by exists q'].
  - destruct (FindGroups_ok (LE := {| asserts := asserts; ignores := ign |}) (LG := lg)
                (HI := seen ever (OpFind ign lg now s)) q now s) as [[-> ?]|(q' & pr & s' & -> & ? & _)];
      [intros x y Hxy; by right|by apply (seen_weaken ever (OpFind ign lg now s))|by left|].
    right. right. by exists q'.
  - destruct (UpdateWaitTime_ok q ds times Hw Hpre) as (q' & -> & ? & _). right. right. by exists q'.
  - destruct (RefreshBestArrangements_ok q Hw) as (q' & -> & ? & _). right. right. by exists q'.
  - destruct (RefreshWaitTimes_ok q Hw) as (q' & -> & ? & _). right. right. by exists q'.
  - destruct (SendQueueData_ok q now Hw) as (q' & out & -> & ? & _). right. right. by exists q'.
  - right. right. eexists. split; [done|]. destruct Hw as [Hi Ht]. split; [exact Hi|exact Ht].
Qed.

Lemma queue_reachable_wf ever q : reachable ever q → wf (HI := ever) q.
Proof.
  induction 1 as [|ever q o q' _ IH Hpre Hrun]; [split; [apply inv_empty|constructor]|].
  destruct (run_ok ever q o IH Hpre) as [[E _]|[[E _]|(q1 & E & Hw)]]; congruence.
Qed.

(** An update, with the ignore lists of the moment. *)
Lemma update_found ever q now s :
  reachable ever q →
  (FindGroups q now s = AssertFail ∧ may_assert q) ∨
  ∃ q' pr s' (e : IgnoreHistory), FindGroups q now s = Ok (q', pr, s') ∧ update_post (HI := e) q now q' pr.
Proof.
  intros Hr. destruct (FindGroups_ok (HI := λ p p', ever p p' ∨ ignoring p p') q now s) as [?|(q' & pr & s' & E & H)];
    [intros x y Hxy; by right| |by left|right; exists q', pr, s', (λ p p', ever p p' ∨ ignoring p p'); by split].
  apply (wf_history ever); [intros x y Hxy; by left|by apply queue_reachable_wf].
Qed.

(** ** Sets of waiting premades in any order *)

Lemma waiting_sorted `{HI : IgnoreHistory} q (l : list Z) :
  wf q → (∀ g, g ∈ l → g ∈ queue q) →
  ∃ l', pset (queueDataStore q) l' ∧ ∀ g, g ∈ l' ↔ g ∈ l.
Proof.
  intros [Hi _] Hl. exists (filter (λ g, g ∈ l) (queue q)). split; [apply pset_filter, Hi|].
  intros g. rewrite list_elem_of_filter. naive_solver.
Qed.

Lemma same_elements ig st l l' :
  store_ok st → (∀ g, g ∈ l' ↔ g ∈ l) →
  (compat_with ig st l ↔ compat_with ig st l') ∧ players st l = players st l'.
Proof.
  intros Hst Hl. split.
  - split; apply compat_mono; try done; intros g; by rewrite Hl.
  - apply Z.le_antisymm; apply players_mono; try done; intros g; by rewrite Hl.
Qed.

(** ** Theorems *)

(** C33: In every history of the queue, with ignore lists that change as they like, no
    operation follows a reference to erased data, divides by zero or misses a key of a
    map: it returns, or it fails the assertion that the queue is not being updated, or it
    searches a set whose order was broken, and that only when AddNewToQueue gives a
    premade that is still queued another join time. *)
Theorem queue_safe (ever : IgnoreHistory) (q : LFGQueue) (o : op) :
  reachable ever q → op_pre q o →
  (∃ q', run q o = Ok q') ∨ (run q o = AssertFail ∧ asserts = true ∧ _isUpdating q = true) ∨
  (run q o = Undefined ∧ rejoins q o).
Proof.
  intros Hr Hpre. destruct (run_ok ever q o (queue_reachable_wf ever q Hr) Hpre) as [?|[?|(q' & E & _)]];
    [right; by left|right; by right|left; eauto].
Qed.

(** C9: Matchmaking is complete: in every reachable state no set of waiting premades, none
    of whose players has ignored one of another of them at an update so far, could start
    a group, and every such set that can play together is among the combinations that the
    next premade is tried with. *)
Theorem no_missed_group (ever : IgnoreHistory) (q : LFGQueue) (l : list Z) :
  reachable ever q → l ≠ [] → (∀ g, g ∈ l → g ∈ queue q) →
  let st := queueDataStore q in
  ¬ (compat_with ever st l ∧ players st l = MAXGROUPSIZE) ∧
  (compat_with ever st l → ∃ t c, (t, c) ∈ allCombinations q ∧ ∀ g, g ∈ premades c ↔ g ∈ l).
Proof.
  intros Hr Hne Hl. cbv zeta. pose proof (queue_reachable_wf ever q Hr) as Hw.
  destruct (waiting_sorted q l Hw Hl) as (l' & Hp & Hel). destruct Hw as [[Hi _] _].
  assert (l' ≠ []) as Hne'.
  { intros ->. destruct l as [|g l]; [done|]. assert (g ∈ []) as []%elem_of_nil. apply Hel. set_solver. }
  assert (∀ g, g ∈ l' → g ∈ queue q) as Hl' by (intros g Hg; by apply Hl, Hel).
  destruct (same_elements ever (queueDataStore q) l l' (io_store _ _ _ _ Hi) Hel) as [Hco Hpl].
  assert (¬ (compat_with ever (queueDataStore q) l ∧ players (queueDataStore q) l = MAXGROUPSIZE)) as Hnc.
  { intros [H1 H2]. apply (io_none _ _ _ _ Hi l' Hp Hne' Hl'); [by apply Hco|by rewrite <- Hpl]. }
  split; [done|]. intros Hc. destruct (io_all _ _ _ _ Hi l' Hp Hne' Hl') as (t & c & Hc' & <-).
  - by apply Hco.
  - rewrite <- Hpl. destruct (Z.lt_total (players (queueDataStore q) l) MAXGROUPSIZE) as [?|[E|?]]; [done| |].
    + destruct Hnc. by split.
    + destruct Hc as [Hsz _ _ _ _]. lia.
  - by exists t, c.
Qed.

(** C3: Matchmaking is sound: a proposal made by an update has five players, one tank,
    one healer and three damage dealers, each in a role they selected; the dungeon is
    one that every premade selected, the leader is one of the players, premades that
    ignore each other are not put together, and none of its premades still waits. *)
Theorem proposal_sound (ever : IgnoreHistory) (q q' : LFGQueue) (now : Z) (s s' : rng) (pr : LfgProposal) :
  reachable ever q → FindGroups q now s = Ok (q', Some pr, s') →
  let st := queueDataStore q' in
  let l := queues pr in
  let chosen := p_role <$> p_players pr in
  dom (p_players pr) = dom (party st l) ∧
  role_count PLAYER_ROLE_TANK chosen = 1 ∧ role_count PLAYER_ROLE_HEALER chosen = 1 ∧
  role_count PLAYER_ROLE_DAMAGE chosen = 3 ∧ Z.of_nat (size (p_players pr)) = 5 ∧
  (∀ g p r sel, g ∈ l → roles (data st g) !! p = Some sel → chosen !! p = Some r → r .& sel = true) ∧
  (∀ g, g ∈ l → dungeonId pr ∈ dungeons (data st g)) ∧
  is_Some (p_players pr !! leader pr) ∧
  (∀ g g' p p', g ∈ l → g' ∈ l → g ≠ g' → is_Some (roles (data st g) !! p) →
     is_Some (roles (data st g') !! p') → ignores p p' = false) ∧
  ∀ g, g ∈ l → g ∉ queue q' ∧ g ∉ newToQueue q'.
Proof.
  intros Hr E. destruct (update_found ever q now s Hr) as [[E' _]|(q1 & pr1 & s1 & e & E' & Hpost)];
    [congruence|].
  rewrite E in E'. injection E' as <- <- <-. destruct Hpost as (Hw & _ & q0 & p & l & _ & _ & _ & Hgood & Hgone & _).
  destruct Hgood as [-> Hco Hsz Harr Hd Hld _ _]. pose proof (io_store _ _ _ _ (proj1 (proj1 Hw))) as Hst.
  cbn zeta. pose proof (arrangement_size _ _ Harr) as Hs'. rewrite map_size_fmap in Hs'.
  destruct (arrangement_full _ _ Harr) as (H1 & H2 & H3); [by rewrite <- Hs'|].
  split; [by rewrite <- (arr_dom _ _ Harr), dom_fmap_L|]. split; [done|]. split; [done|]. split; [done|].
  split; [done|]. split; [|split; [done|split; [done|split; [|done]]]].
  2:{ intros g g' p' p'' H5 H6 H7 H8 H9. apply not_true_iff_false. by eapply (co_ignore _ _ _ Hco g g'). }
  intros g x r sel Hg Hsel Hx. eapply (arr_sel _ _ Harr); [exact Hx|].
  apply (party_lookup _ Hst). eauto.
Qed.

(** The combination that a new premade completes is the longest waiting one: when
    an update makes a proposal out of more than the new premade, every combination
    with an earlier average join time could not have been completed by it. *)
Theorem longest_waiting_first (ever : IgnoreHistory) (q q' : LFGQueue) (now : Z) (s s' : rng) (pr : LfgProposal) :
  reachable ever q → FindGroups q now s = Ok (q', Some pr, s') →
  ∃ q0 p, head (newToQueue q0) = Some p ∧ queueDataStore q0 = queueDataStore q' ∧
    (queues pr = [p] ∨
     ∃ t c, (t, c) ∈ allCombinations q0 ∧ queues pr = insert_at (queueDataStore q') p (premades c) ∧
       ∀ t' c', (t', c') ∈ allCombinations q0 → t' < t →
         ¬ (compat (queueDataStore q') (insert_at (queueDataStore q') p (premades c')) ∧
            players (queueDataStore q') (insert_at (queueDataStore q') p (premades c')) = MAXGROUPSIZE)).
Proof.
  intros Hr E. destruct (update_found ever q now s Hr) as [[E' _]|(q1 & pr1 & s1 & e & E' & Hpost)];
    [congruence|].
  rewrite E in E'. injection E' as <- <- <-.
  destruct Hpost as (_ & _ & q0 & p & l & Hw0 & Hp & Est & Hgood & _ & Hfirst).
  exists q0, p. split; [done|]. split; [done|]. rewrite (gp_queues _ _ _ _ Hgood).
  destruct Hfirst as [->|(pre & t & c & post & Ec & -> & _ & Hpre)]; [by left|right].
  exists t, c. split; [rewrite Ec; set_solver|]. rewrite <- Est. split; [done|].
  intros t' c' Hc' Hlt. apply (Hpre t'). rewrite Ec in Hc'.
  apply elem_of_app in Hc' as [?|Hc']; [done|].
  pose proof (io_sorted _ _ _ _ (proj1 (proj1 Hw0))) as Hso. rewrite Ec in Hso.
  apply StronglySorted_app_1_r in Hso. apply elem_of_cons in Hc' as [[= -> ->]|Hc']; [lia|].
  pose proof (mm_sorted_head _ _ _ Hso Hc') as Hle. cbn in Hle. lia.
Qed.

(** RemoveFromSystem leaves no trace of the premade in the queue: no data, no
    place in either set, no combination with it; its data is kept in the archive
    only, and the data of all others is untouched. *)
Theorem RemoveFromSystem_spec (ever : IgnoreHistory) (q : LFGQueue) (guid : Z) :
  reachable ever q → _isUpdating q = false →
  ∃ q', RemoveFromSystem q guid = Ok q' ∧
    queueDataStore q' = delete guid (queueDataStore q) ∧ HasData q' guid = false ∧
    queue q' = filter (λ g, g ≠ guid) (queue q) ∧ newToQueue q' = filter (λ g, g ≠ guid) (newToQueue q) ∧
    (∀ t c, (t, c) ∈ allCombinations q' → guid ∉ premades c) ∧
    (∀ d, queueDataStore q !! guid = Some d → queueDataCellar q' !! guid = Some d).
Proof.
  intros Hr Hu. destruct (RemoveFromSystem_ok q guid (queue_reachable_wf ever q Hr)) as [[_ [_ ?]]|(q' & E & Hw & _ & H1 & H2 & H3 & H4)];
    [congruence|].
  exists q'. split; [done|]. split; [done|]. split; [|split; [done|split; [done|split]]].
  - unfold HasData. rewrite H1, lookup_delete_eq. apply bool_decide_eq_false_2. by intros [].
  - intros t c Hc Hin. destruct (io_combs _ _ _ _ (proj1 (proj1 Hw)) t c Hc) as [_ _ Hsub _ _ _ _].
    apply Hsub in Hin. rewrite H2 in Hin. apply list_elem_of_filter in Hin as [? _]. done.
  - intros d Hd. rewrite H4, Hd. apply lookup_insert_eq.
Qed.

(** When a dungeon whose waiting time is over belongs to a waiting premade, the
    update fails: LFGMgr::UpdateStart marks every queue as updating and FindGroups
    then calls AddOldToQueue, which asserts that it is not. *)
Theorem FindGroups_asserts (ever : IgnoreHistory) (q : LFGQueue) (now : Z) (s : rng) (e : DelayedDungeonEntry)
    (rest : list DelayedDungeonEntry) (d : QueueData) :
  reachable ever q → asserts = true → _isUpdating q = true →
  timedDungeonEntries q = e :: rest → timeToAdd e ≤ now →
  queueDataStore q !! premade e = Some d → joinTime d = d_joinTime e → premade e ∈ queue q →
  FindGroups q now s = AssertFail.
Proof.
  intros Hr Ha Hu Ht Hle Hd Hj Hw. destruct (queue_reachable_wf ever q Hr) as [Hi Htm].
  rewrite Ht in Htm. inversion Htm as [|? ? He _]; subst.
  unfold FindGroups. rewrite Ht. cbn [add_delayed]. rewrite (proj2 (Z.leb_le _ _)) by done.
  rewrite Hd, Hj, Z.eqb_refl. rewrite <- Hj.
  destruct (matured_ok q e d Hi He Hd) as (b & Hf & Hb). rewrite Hf. cbn [obind].
  assert (b = true) as ->.
  { assert (∃ b', set_find (<[premade e := mkData (joinTime d) ({[d_dungeon e]} ∪ dungeons d) (roles d)
       (isLfgGroup d) (avgWaitTime d) (rolesNeeded d)]> (queueDataStore q)) (premade e) (queue q) = Ok b' ∧ b' = b) as (b' & E & <-).
    { exists b. split; [exact Hf|done]. }
    unfold set_find, with_set in E. repeat case_bool; try done. injection E as <-. by apply bool_decide_eq_true. }
  destruct Hb as (-> & _ & _). cbn [obind]. unfold AddOldToQueue, assert_not_updating. cbn.
  by rewrite Ha, Hu.
Qed.
End theorems.

(** ** A queue to try *)

#[local] Instance demo_env : LfgEnv := {| asserts := true; ignores := λ _ _, false |}.
#[local] Instance demo_groups : LfgGroups :=
  {| GetOldState := λ _, LFG_STATE_NONE; GetGroup := λ _, 0 |}.
#[local] Program Instance demo_random : Random :=
  {| rng := unit; urand := λ s min _, (min, s) |}.
Next Obligation. intros. simpl. lia. Qed.

Definition runs (ops : list op) : outcome LFGQueue :=
  foldl (λ q o, let! q := q in run q o) (Ok empty_queue) ops.

(** A boolean version of the caller's obligations. *)
Definition pre_ok (q : LFGQueue) (o : op) : bool :=
  match o with
  | OpAddNew _ guid jt times rs _ =>
    negb (guid =? 0) && bool_decide (rs ≠ ∅) && forallb (λ dt, (0 <=? dt.1) && (dt.1 <? 2 ^ 32)) (items times) &&
    forallb (λ gd, (gd.1 =? guid) || bool_decide (dom (roles gd.2) ∩ dom rs = (∅ : gset Z))) (items (queueDataStore q))
  | OpAddOld guid => bool_decide (is_Some (queueDataStore q !! guid))
  | OpUpdateWaitTime _ times => forallb (λ rt, (rt.1 =? 2) || (rt.1 =? 4) || (rt.1 =? 8)) times
  | _ => true
  end.

Lemma pre_ok_sound q o : pre_ok q o = true → op_pre q o.
Proof.
  destruct o as [now g jt times rs lfg|g| | |ds times| | | |]; cbn; try done.
  - rewrite !andb_true_iff, !bool_decide_eq_true, !forallb_forall.
    intros [[[H1 H2] H3] H4]. b2p. split; [done|]. split; [done|]. split.
    + intros d t Hd. specialize (H3 (d, t)). rewrite <- list_elem_of_In, items_elem in H3.
      specialize (H3 Hd). b2p. unfold in_u. simpl in *. b2p. lia.
    + intros g' p Hne [r Hp] [r' Hp']. unfold data in Hp'.
      destruct (queueDataStore q !! g') as [d|] eqn:Hd; [|by cbn in Hp'; rewrite lookup_empty in Hp'].
      specialize (H4 (g', d)). rewrite <- list_elem_of_In, items_elem in H4. specialize (H4 Hd).
      apply orb_true_iff in H4 as [H4|H4]; [b2p; done|]. apply bool_decide_eq_true in H4. cbn in *.
      assert (p ∈ dom (roles d) ∩ dom rs) as Hin; [|rewrite H4 in Hin; set_solver].
      apply elem_of_intersection. split; apply elem_of_dom; by eexists.
  - rewrite bool_decide_eq_true. intros [d Hd] E. congruence.
  - rewrite forallb_forall. intros H. apply Forall_forall. intros rt Hrt. apply list_elem_of_In, H in Hrt.
    unfold is_role. rewrite !orb_true_iff, !Z.eqb_eq in Hrt. tauto.
Qed.

Fixpoint checked (q : LFGQueue) (ops : list op) : option LFGQueue :=
  match ops with
  | [] => Some q
  | o :: ops => if pre_ok q o then
                  match run q o with Ok q => checked q ops | _ => None end
                else None
  end.

Definition all_seen (ever : IgnoreHistory) (ops : list op) : IgnoreHistory := foldl seen ever ops.

Lemma checked_reachable ever q ops q' :
  reachable ever q → checked q ops = Some q' → reachable (all_seen ever ops) q'.
Proof.
  revert ever q. induction ops as [|o ops IH]; intros ever q Hr E; cbn in E; [by injection E as <-|].
  destruct (pre_ok q o) eqn:Ep; [|done]. destruct (run q o) as [q1| | | |] eqn:Er; try done.
  apply (IH (seen ever o) q1); [|exact E]. eapply reachable_step; [done|by apply pre_ok_sound|done].
Qed.

(** Player 11 ignores player 99, who is not there. *)
Definition demo_lists (p p' : Z) : bool := (p =? 11) && (p' =? 99).

(** Four players who miss a tank wait; then a tank joins. *)
Definition four : LfgRolesMap := {[11 := 0x8; 12 := 0x8; 13 := 0x9; 14 := 0x4]}.
Definition demo_ops : list op :=
  [OpAddNew 1000 100 1000 {[206 := 0; 207 := 0]} four false; OpFind demo_lists demo_groups 1001 (tt : @rng demo_random);
   OpAddNew 1002 15 1002 {[206 := 0; 208 := 1500]} {[15 := 0x2]} false].
Definition demo_queue : LFGQueue := default empty_queue (checked empty_queue demo_ops).

Definition demo_ever : IgnoreHistory := all_seen nobody demo_ops.

Lemma queue_demo_reachable : reachable demo_ever demo_queue.
Proof.
  apply (checked_reachable nobody empty_queue demo_ops); [apply reachable_init|].
  vm_compute. reflexivity.
Qed.

Definition next_find : op := OpFind (λ p p', p =? 15) demo_groups 1003 (tt : @rng demo_random).

Lemma queue_safe_witness :
  (∃ q', run demo_queue next_find = Ok q') ∨
  (run demo_queue next_find = AssertFail ∧ asserts = true ∧ _isUpdating demo_queue = true) ∨
  (run demo_queue next_find = Undefined ∧ rejoins demo_queue next_find).
Proof. apply (queue_safe demo_ever); [apply queue_demo_reachable|exact I]. Defined.

Lemma no_missed_group_witness :
  ¬ (compat_with demo_ever (queueDataStore demo_queue) [100] ∧
     players (queueDataStore demo_queue) [100] = MAXGROUPSIZE) ∧
  (compat_with demo_ever (queueDataStore demo_queue) [100] →
   ∃ t c, (t, c) ∈ allCombinations demo_queue ∧ ∀ g, g ∈ premades c ↔ g ∈ [100]).
Proof.
  apply (no_missed_group demo_ever demo_queue [100]); [apply queue_demo_reachable|discriminate|].
  intros g Hg. apply list_elem_of_singleton in Hg as ->.
  apply (bool_decide_eq_true_1 _). vm_compute. reflexivity.
Defined.

Lemma proposal_sound_witness :
  match FindGroups demo_queue 1003 (tt : @rng demo_random) with
  | Ok (q', Some pr, _) =>
    let st := queueDataStore q' in
    let l := queues pr in
    let chosen := p_role <$> p_players pr in
    dom (p_players pr) = dom (party st l) ∧
    role_count PLAYER_ROLE_TANK chosen = 1 ∧ role_count PLAYER_ROLE_HEALER chosen = 1 ∧
    role_count PLAYER_ROLE_DAMAGE chosen = 3 ∧ Z.of_nat (size (p_players pr)) = 5 ∧
    (∀ g p r sel, g ∈ l → roles (data st g) !! p = Some sel → chosen !! p = Some r → r .& sel = true) ∧
    (∀ g, g ∈ l → dungeonId pr ∈ dungeons (data st g)) ∧
    is_Some (p_players pr !! leader pr) ∧
    (∀ g g' p p', g ∈ l → g' ∈ l → g ≠ g' → is_Some (roles (data st g) !! p) →
       is_Some (roles (data st g') !! p') → ignores p p' = false) ∧
    ∀ g, g ∈ l → g ∉ queue q' ∧ g ∉ newToQueue q'
  | _ => False
  end.
Proof.
  destruct (FindGroups demo_queue 1003 (tt : @rng demo_random)) as [[[q' [pr|]] s']| | | |] eqn:E;
    try (vm_compute in E; discriminate E).
  exact (proposal_sound demo_ever demo_queue q' 1003 (tt : @rng demo_random) s' pr queue_demo_reachable E).
Defined.

Lemma longest_waiting_first_witness :
  match FindGroups demo_queue 1003 (tt : @rng demo_random) with
  | Ok (q', Some pr, _) =>
    ∃ q0 p, head (newToQueue q0) = Some p ∧ queueDataStore q0 = queueDataStore q' ∧
    (queues pr = [p] ∨
     ∃ t c, (t, c) ∈ allCombinations q0 ∧ queues pr = insert_at (queueDataStore q') p (premades c) ∧
       ∀ t' c', (t', c') ∈ allCombinations q0 → t' < t →
         ¬ (compat (queueDataStore q') (insert_at (queueDataStore q') p (premades c')) ∧
            players (queueDataStore q') (insert_at (queueDataStore q') p (premades c')) = MAXGROUPSIZE))
  | _ => False
  end.
Proof.
  destruct (FindGroups demo_queue 1003 (tt : @rng demo_random)) as [[[q' [pr|]] s']| | | |] eqn:E;
    try (vm_compute in E; discriminate E).
  exact (longest_waiting_first demo_ever demo_queue q' 1003 (tt : @rng demo_random) s' pr queue_demo_reachable E).
Defined.

Lemma RemoveFromSystem_spec_witness :
  ∃ q', RemoveFromSystem demo_queue 100 = Ok q' ∧
    queueDataStore q' = delete 100 (queueDataStore demo_queue) ∧ HasData q' 100 = false ∧
    queue q' = filter (λ g, g ≠ 100) (queue demo_queue) ∧
    newToQueue q' = filter (λ g, g ≠ 100) (newToQueue demo_queue) ∧
    (∀ t c, (t, c) ∈ allCombinations q' → 100 ∉ premades c) ∧
    (∀ d, queueDataStore demo_queue !! 100 = Some d → queueDataCellar q' !! 100 = Some d).
Proof. apply (RemoveFromSystem_spec demo_ever); [apply queue_demo_reachable|vm_compute; reflexivity]. Defined.

(** The tank waits for a further dungeon while queued; the update asserts. *)
Definition waiting_ops : list op :=
  [OpAddNew 1000 15 1000 {[206 := 0; 208 := 1500]} {[15 := 0x2]} false;
   OpFind (λ _ _, false) demo_groups 1001 (tt : @rng demo_random); OpUpdating true].
Definition waiting_queue : LFGQueue := default empty_queue (checked empty_queue waiting_ops).

Lemma waiting_reachable : reachable (all_seen nobody waiting_ops) waiting_queue.
Proof.
  apply (checked_reachable nobody empty_queue waiting_ops); [apply reachable_init|].
  vm_compute. reflexivity.
Qed.

Lemma FindGroups_asserts_witness :
  FindGroups waiting_queue 1500 (tt : @rng demo_random) = AssertFail.
Proof.
  apply (FindGroups_asserts (all_seen nobody waiting_ops) waiting_queue 1500 (tt : @rng demo_random) (mkDelayed 208 1500 1000 15) []
           (default no_data (queueDataStore waiting_queue !! 15))).
  - apply waiting_reachable.
  - reflexivity.
  - vm_compute. reflexivity.
  - vm_compute. reflexivity.
  - vm_compute. discriminate.
  - vm_compute. reflexivity.
  - vm_compute. reflexivity.
  - apply (bool_decide_eq_true_1 _). vm_compute. reflexivity.
Defined.

(** The group 100 is still queued when it joins again, later than 200: its entry is
    overwritten under the sets that refer to it, and their order is gone. FinishDungeon
    leaves a queued group in the queue and changes its state, so that JoinLfg does not
    remove it. *)
Theorem rejoin_breaks_order :
  match checked empty_queue [OpAddNew 1000 100 1000 {[206 := 0]} {[11 := 0x8]} false;
                             OpAddNew 1002 200 1002 {[206 := 0]} {[12 := 0x8]} false] with
  | Some q => AddNewToQueue q 1010 100 1010 {[206 := 0]} {[11 := 0x8]} false = Undefined
  | None => False
  end.
Proof. vm_compute. reflexivity. Qed.

(** The set of delayed entries is ordered by time alone, so of two dungeons that a
    premade may enter from the same second on only one is remembered: the other is
    never added. *)
Theorem delayed_dungeon_lost :
  match AddNewToQueue empty_queue 1000 15 1000 {[206 := 1500; 208 := 1500]} {[15 := 0x2]} false with
  | Ok q => timedDungeonEntries q = [mkDelayed 206 1500 1000 15] ∧ dungeons (data (queueDataStore q) 15) = ∅
  | _ => False
  end.
Proof. vm_compute. split; reflexivity. Qed.

End LfgTheorems.
