(* ===== verification/LfgData.v ===== *)
(** * Per-player and per-group data of the dungeon finder
    ([src/server/game/DungeonFinding/LFGPlayerData.{h,cpp}], [LFGGroupData.{h,cpp}])

    Each player and each group has a state and the last stable state to fall back
    to when a role check or a proposal fails. *)
From S2P Require Import Prelude LfgRoles LfgQueue.

Module LfgData.
Export LfgQueue.

Definition LFG_GROUP_MAX_KICKS := 3.

Record LfgPlayerData := mkPlayerData {
  m_State : LfgState;
  m_OldState : LfgState;
  m_Team : Z;
  m_Group : Z;
  m_randomPlayers : option Z;          (* not initialised by the constructor *)
  m_Roles : Z;
  m_Comment : string;
  m_SelectedDungeons : LfgDungeonSet
}.

Record LfgGroupData := mkGroupData {
  g_State : LfgState;
  g_OldState : LfgState;
  m_Leader : Z;
  m_Players : gset Z;
  m_Dungeon : Z;
  m_KicksLeft : Z;
  m_VoteKickActive : bool
}.

Definition new_player_data : LfgPlayerData :=
  mkPlayerData LFG_STATE_NONE LFG_STATE_NONE 0 0 None 0 "" ∅.
Definition new_group_data : LfgGroupData :=
  mkGroupData LFG_STATE_NONE LFG_STATE_NONE 0 ∅ 0 LFG_GROUP_MAX_KICKS false.

(** ** LfgPlayerData *)

(** The cases fall through: NONE and FINISHED_DUNGEON clear the selection, those two
    and DUNGEON are also remembered as the state to fall back to. *)
Definition PlayerSetState (d : LfgPlayerData) (state : LfgState) : LfgPlayerData :=
  match state with
  | LFG_STATE_NONE | LFG_STATE_FINISHED_DUNGEON =>
    mkPlayerData state state (m_Team d) (m_Group d) (m_randomPlayers d) 0 "" ∅
  | LFG_STATE_DUNGEON =>
    mkPlayerData state state (m_Team d) (m_Group d) (m_randomPlayers d) (m_Roles d) (m_Comment d)
      (m_SelectedDungeons d)
  | _ =>
    mkPlayerData state (m_OldState d) (m_Team d) (m_Group d) (m_randomPlayers d) (m_Roles d)
      (m_Comment d) (m_SelectedDungeons d)
  end.

Definition PlayerRestoreState (d : LfgPlayerData) : LfgPlayerData :=
  if bool_decide (m_OldState d = LFG_STATE_NONE) then
    mkPlayerData (m_OldState d) (m_OldState d) (m_Team d) (m_Group d) (m_randomPlayers d) 0
      (m_Comment d) ∅
  else
    mkPlayerData (m_OldState d) (m_OldState d) (m_Team d) (m_Group d) (m_randomPlayers d)
      (m_Roles d) (m_Comment d) (m_SelectedDungeons d).

Definition PlayerSetTeam (d : LfgPlayerData) (team : Z) : LfgPlayerData :=
  mkPlayerData (m_State d) (m_OldState d) team (m_Group d) (m_randomPlayers d) (m_Roles d)
    (m_Comment d) (m_SelectedDungeons d).
Definition PlayerSetGroup (d : LfgPlayerData) (group : Z) : LfgPlayerData :=
  mkPlayerData (m_State d) (m_OldState d) (m_Team d) group (m_randomPlayers d) (m_Roles d)
    (m_Comment d) (m_SelectedDungeons d).
Definition PlayerSetRandomPlayersCount (d : LfgPlayerData) (count : Z) : LfgPlayerData :=
  mkPlayerData (m_State d) (m_OldState d) (m_Team d) (m_Group d) (Some count) (m_Roles d)
    (m_Comment d) (m_SelectedDungeons d).
Definition PlayerSetRoles (d : LfgPlayerData) (roles : Z) : LfgPlayerData :=
  mkPlayerData (m_State d) (m_OldState d) (m_Team d) (m_Group d) (m_randomPlayers d) roles
    (m_Comment d) (m_SelectedDungeons d).
Definition PlayerSetComment (d : LfgPlayerData) (comment : string) : LfgPlayerData :=
  mkPlayerData (m_State d) (m_OldState d) (m_Team d) (m_Group d) (m_randomPlayers d) (m_Roles d)
    comment (m_SelectedDungeons d).
Definition PlayerSetSelectedDungeons (d : LfgPlayerData) (ds : LfgDungeonSet) : LfgPlayerData :=
  mkPlayerData (m_State d) (m_OldState d) (m_Team d) (m_Group d) (m_randomPlayers d) (m_Roles d)
    (m_Comment d) ds.

(** ** LfgGroupData *)

Definition GroupIsLfgGroup (d : LfgGroupData) : bool := negb (bool_decide (g_OldState d = LFG_STATE_NONE)).

Definition GroupSetState (d : LfgGroupData) (state : LfgState) : LfgGroupData :=
  match state with
  | LFG_STATE_NONE =>
    mkGroupData state state (m_Leader d) (m_Players d) 0 LFG_GROUP_MAX_KICKS (m_VoteKickActive d)
  | LFG_STATE_FINISHED_DUNGEON | LFG_STATE_DUNGEON =>
    mkGroupData state state (m_Leader d) (m_Players d) (m_Dungeon d) (m_KicksLeft d) (m_VoteKickActive d)
  | _ =>
    mkGroupData state (g_OldState d) (m_Leader d) (m_Players d) (m_Dungeon d) (m_KicksLeft d)
      (m_VoteKickActive d)
  end.

Definition GroupRestoreState (d : LfgGroupData) : LfgGroupData :=
  mkGroupData (g_OldState d) (g_OldState d) (m_Leader d) (m_Players d) (m_Dungeon d) (m_KicksLeft d)
    (m_VoteKickActive d).

Definition GroupSetPlayers (d : LfgGroupData) (ps : gset Z) : LfgGroupData :=
  mkGroupData (g_State d) (g_OldState d) (m_Leader d) ps (m_Dungeon d) (m_KicksLeft d) (m_VoteKickActive d).
Definition GroupAddPlayer (d : LfgGroupData) (guid : Z) : LfgGroupData :=
  GroupSetPlayers d ({[guid]} ∪ m_Players d).
(** Returns the number of players left, a [uint8]. *)
Definition GroupRemovePlayer (d : LfgGroupData) (guid : Z) : LfgGroupData * Z :=
  let d := GroupSetPlayers d (m_Players d ∖ {[guid]}) in (d, u8 (Z.of_nat (size (m_Players d)))).
Definition GroupRemoveAllPlayers (d : LfgGroupData) : LfgGroupData := GroupSetPlayers d ∅.
Definition GroupSetLeader (d : LfgGroupData) (guid : Z) : LfgGroupData :=
  mkGroupData (g_State d) (g_OldState d) guid (m_Players d) (m_Dungeon d) (m_KicksLeft d) (m_VoteKickActive d).
Definition GroupSetDungeon (d : LfgGroupData) (dungeon : Z) : LfgGroupData :=
  mkGroupData (g_State d) (g_OldState d) (m_Leader d) (m_Players d) dungeon (m_KicksLeft d) (m_VoteKickActive d).
Definition GroupDecreaseKicksLeft (d : LfgGroupData) : LfgGroupData :=
  mkGroupData (g_State d) (g_OldState d) (m_Leader d) (m_Players d) (m_Dungeon d)
    (if m_KicksLeft d =? 0 then 0 else u8 (m_KicksLeft d - 1)) (m_VoteKickActive d).
Definition GroupSetVoteKick (d : LfgGroupData) (active : bool) : LfgGroupData :=
  mkGroupData (g_State d) (g_OldState d) (m_Leader d) (m_Players d) (m_Dungeon d) (m_KicksLeft d) active.
Definition GroupGetDungeon (d : LfgGroupData) (asId : bool) : Z :=
  if asId then Z.land (m_Dungeon d) 0x00FFFFFF else m_Dungeon d.
Definition GroupGetPlayerCount (d : LfgGroupData) : Z := u8 (Z.of_nat (size (m_Players d))).

(** ** The states to fall back to *)

Definition stable (s : LfgState) : Prop :=
  s = LFG_STATE_NONE ∨ s = LFG_STATE_DUNGEON ∨ s = LFG_STATE_FINISHED_DUNGEON.

Lemma PlayerSetState_old d s :
  m_OldState (PlayerSetState d s) = (if bool_decide (stable s) then s else m_OldState d).
Proof. unfold stable. destruct s; reflexivity. Qed.
End LfgData.
