(* ===== verification/LfgMgr.v ===== *)
(** * The dungeon finder's manager ([src/server/game/DungeonFinding/LFGMgr.{h,cpp}])

    Role checks, proposals and votes to kick, on top of the queues (one per team) and
    of the data of players and groups. [PlayersStore[guid]] and its like insert a
    default entry when there is none: here a missing entry reads as the default one,
    which nothing can tell apart. Packets sent are appended to [out]. *)
From S2P Require Import Prelude StateMonad Multimap LfgRoles LfgQueue LfgData.

Module LfgMgr.
Export LfgData.

Definition LFG_TIME_ROLECHECK := 45 * 1000.
Definition LFG_TIME_BOOT := 120.
Definition LFG_QUEUEUPDATE_INTERVAL := 2 * 1000.
Definition LFG_GROUP_KICK_VOTES_NEEDED := 3.
Definition MAX_LEVEL := 100.
Definition LFG_OPTION_ENABLE_DUNGEON_FINDER := 0x01.
Definition LFG_OPTION_ENABLE_RAID_BROWSER := 0x02.
Definition HIGHGUID_GROUP := 0x1F50.

Definition IsGroup (guid : Z) : bool := Z.land (Z.shiftr guid 48) 0xFFFF =? HIGHGUID_GROUP.

Inductive LfgType := LFG_TYPE_NONE | LFG_TYPE_DUNGEON | LFG_TYPE_RAID | LFG_TYPE_HEROIC | LFG_TYPE_RANDOM.

Inductive LfgRoleCheckState :=
| LFG_ROLECHECK_DEFAULT | LFG_ROLECHECK_FINISHED | LFG_ROLECHECK_INITIALITING
| LFG_ROLECHECK_MISSING_ROLE | LFG_ROLECHECK_WRONG_ROLES | LFG_ROLECHECK_ABORTED
| LFG_ROLECHECK_NO_ROLE.
#[export] Instance LfgRoleCheckState_eq : EqDecision LfgRoleCheckState.
Proof. solve_decision. Defined.

Inductive LfgUpdateType :=
| LFG_UPDATETYPE_DEFAULT | LFG_UPDATETYPE_LEADER_UNK1 | LFG_UPDATETYPE_ROLECHECK_ABORTED
| LFG_UPDATETYPE_JOIN_QUEUE | LFG_UPDATETYPE_ROLECHECK_FAILED | LFG_UPDATETYPE_REMOVED_FROM_QUEUE
| LFG_UPDATETYPE_PROPOSAL_FAILED | LFG_UPDATETYPE_PROPOSAL_DECLINED | LFG_UPDATETYPE_GROUP_FOUND
| LFG_UPDATETYPE_ADDED_TO_QUEUE | LFG_UPDATETYPE_PROPOSAL_BEGIN | LFG_UPDATETYPE_UPDATE_STATUS
| LFG_UPDATETYPE_GROUP_MEMBER_OFFLINE | LFG_UPDATETYPE_GROUP_DISBAND_UNK16.
#[export] Instance LfgUpdateType_eq : EqDecision LfgUpdateType.
Proof. solve_decision. Defined.

Inductive LfgJoinResult :=
| LFG_JOIN_OK | LFG_JOIN_FAILED | LFG_JOIN_GROUPFULL | LFG_JOIN_INTERNAL_ERROR
| LFG_JOIN_NOT_MEET_REQS | LFG_JOIN_PARTY_NOT_MEET_REQS | LFG_JOIN_MIXED_RAID_DUNGEON
| LFG_JOIN_MULTI_REALM | LFG_JOIN_DISCONNECTED | LFG_JOIN_PARTY_INFO_FAILED
| LFG_JOIN_DUNGEON_INVALID | LFG_JOIN_DESERTER | LFG_JOIN_PARTY_DESERTER
| LFG_JOIN_RANDOM_COOLDOWN | LFG_JOIN_PARTY_RANDOM_COOLDOWN | LFG_JOIN_TOO_MUCH_MEMBERS
| LFG_JOIN_USING_BG_SYSTEM.
#[export] Instance LfgJoinResult_eq : EqDecision LfgJoinResult.
Proof. solve_decision. Defined.

(** ** Data *)

(** The field [state] stays NONE in all that the manager sends. *)
Record LfgUpdateData := mkUpdate {
  updateType : LfgUpdateType; u_dungeons : LfgDungeonSet; u_comment : string
}.
Definition update_of (t : LfgUpdateType) : LfgUpdateData := mkUpdate t ∅ "".

Record LfgRoleCheck := mkRoleCheck {
  rc_cancelTime : Z; rc_roles : LfgRolesMap; rc_state : LfgRoleCheckState;
  rc_dungeons : LfgDungeonSet; minlevel : Z; maxlevel : Z; rDungeonId : Z; rc_leader : Z
}.
Definition rc_with (rc : LfgRoleCheck) (rs : LfgRolesMap) (st : LfgRoleCheckState) : LfgRoleCheck :=
  mkRoleCheck (rc_cancelTime rc) rs st (rc_dungeons rc) (minlevel rc) (maxlevel rc)
    (rDungeonId rc) (rc_leader rc).

Record LfgPlayerBoot := mkBoot {
  b_cancelTime : Z; inProgress : bool; votes : gmap Z LfgAnswer; victim : Z; reason : string
}.

(** Without the name, the difficulty and the place of the entrance, which only the
    building of the group and the teleport use. *)
Record LFGDungeonData := mkDungeon {
  dungeon_id : Z; map_id : Z; type_ : LfgType; expansion : Z; group_ : Z; min_level : Z;
  max_level : Z; recMinlevel : Z; recMaxlevel : Z; seasonal : bool
}.
Definition type_number (t : LfgType) : Z :=
  match t with
  | LFG_TYPE_NONE => 0 | LFG_TYPE_DUNGEON => 1 | LFG_TYPE_RAID => 2
  | LFG_TYPE_HEROIC => 5 | LFG_TYPE_RANDOM => 6
  end.
Definition Entry (d : LFGDungeonData) : Z := u32 (dungeon_id d + Z.shiftl (type_number (type_ d)) 24).

(** The packets, to one player each. *)
Inductive lfg_msg :=
| MsgRoleChosen (pguid roles : Z)
| MsgRoleCheckUpdate (rc : LfgRoleCheck)
| MsgUpdatePlayer (d : LfgUpdateData)
| MsgUpdateParty (d : LfgUpdateData)
| MsgJoinResult (result : LfgJoinResult) (state : LfgRoleCheckState) (lockmap : gmap Z (gmap Z Z))
| MsgBootProposalUpdate (b : LfgPlayerBoot)
| MsgUpdateProposal (p : LfgProposal)
| MsgQueueStatus (d : LfgQueueStatusData)
| MsgLfrList (update : bool)
| MsgOfferContinue (dungeonEntry : Z)
| CastDeserter.                                     (* the aura, not a packet *)

Record LFGMgr := mkMgr {
  m_lfgProposalId : Z;
  m_QueueTimer : Z;
  QueuesStore : gmap Z LFGQueue;
  RoleChecksStore : gmap Z LfgRoleCheck;
  ProposalsStore : gmap Z LfgProposal;
  BootsStore : gmap Z LfgPlayerBoot;
  PlayersStore : gmap Z LfgPlayerData;
  GroupsStore : gmap Z LfgGroupData;
  out : list (Z * lfg_msg)
}.

(** The manager as it starts. *)
Definition new_mgr : LFGMgr := mkMgr 1 0 ∅ ∅ ∅ ∅ ∅ ∅ [].

Definition set_proposalId m x := mkMgr x (m_QueueTimer m) (QueuesStore m) (RoleChecksStore m)
  (ProposalsStore m) (BootsStore m) (PlayersStore m) (GroupsStore m) (out m).
Definition set_timer m x := mkMgr (m_lfgProposalId m) x (QueuesStore m) (RoleChecksStore m)
  (ProposalsStore m) (BootsStore m) (PlayersStore m) (GroupsStore m) (out m).
Definition set_queues m x := mkMgr (m_lfgProposalId m) (m_QueueTimer m) x (RoleChecksStore m)
  (ProposalsStore m) (BootsStore m) (PlayersStore m) (GroupsStore m) (out m).
Definition set_roleChecks m x := mkMgr (m_lfgProposalId m) (m_QueueTimer m) (QueuesStore m) x
  (ProposalsStore m) (BootsStore m) (PlayersStore m) (GroupsStore m) (out m).
Definition set_proposals m x := mkMgr (m_lfgProposalId m) (m_QueueTimer m) (QueuesStore m)
  (RoleChecksStore m) x (BootsStore m) (PlayersStore m) (GroupsStore m) (out m).
Definition set_boots m x := mkMgr (m_lfgProposalId m) (m_QueueTimer m) (QueuesStore m)
  (RoleChecksStore m) (ProposalsStore m) x (PlayersStore m) (GroupsStore m) (out m).
Definition set_players m x := mkMgr (m_lfgProposalId m) (m_QueueTimer m) (QueuesStore m)
  (RoleChecksStore m) (ProposalsStore m) (BootsStore m) x (GroupsStore m) (out m).
Definition set_groups m x := mkMgr (m_lfgProposalId m) (m_QueueTimer m) (QueuesStore m)
  (RoleChecksStore m) (ProposalsStore m) (BootsStore m) (PlayersStore m) x (out m).
Definition set_out m x := mkMgr (m_lfgProposalId m) (m_QueueTimer m) (QueuesStore m)
  (RoleChecksStore m) (ProposalsStore m) (BootsStore m) (PlayersStore m) (GroupsStore m) x.

(** ** The state and outcome monad of the handlers *)

Abbreviation LM := (ST LFGMgr).

(** ** Players and groups *)

Definition pdata (m : LFGMgr) (g : Z) : LfgPlayerData := default new_player_data (PlayersStore m !! g).
Definition gdata (m : LFGMgr) (g : Z) : LfgGroupData := default new_group_data (GroupsStore m !! g).
Definition upd_player (g : Z) (f : LfgPlayerData → LfgPlayerData) : LM unit :=
  modify (λ m, set_players m (<[g := f (pdata m g)]> (PlayersStore m))).
Definition upd_group (g : Z) (f : LfgGroupData → LfgGroupData) : LM unit :=
  modify (λ m, set_groups m (<[g := f (gdata m g)]> (GroupsStore m))).

Definition GetState (m : LFGMgr) (guid : Z) : LfgState :=
  if IsGroup guid then g_State (gdata m guid) else m_State (pdata m guid).
Definition MgrGetOldState (m : LFGMgr) (guid : Z) : LfgState :=
  if IsGroup guid then g_OldState (gdata m guid) else m_OldState (pdata m guid).
Definition SetState (guid : Z) (state : LfgState) : LM unit :=
  if IsGroup guid then upd_group guid (λ d, GroupSetState d state)
  else upd_player guid (λ d, PlayerSetState d state).
Definition RestoreState (guid : Z) : LM unit :=
  if IsGroup guid then upd_group guid GroupRestoreState else upd_player guid PlayerRestoreState.

Definition MgrGetGroup (m : LFGMgr) (guid : Z) : Z := m_Group (pdata m guid).
Definition SetGroup (guid group : Z) : LM unit := upd_player guid (λ d, PlayerSetGroup d group).
Definition GetTeam (m : LFGMgr) (guid : Z) : Z := m_Team (pdata m guid).
Definition GetRoles (m : LFGMgr) (guid : Z) : Z := m_Roles (pdata m guid).
Definition SetRoles (guid roles : Z) : LM unit := upd_player guid (λ d, PlayerSetRoles d roles).
Definition GetComment (m : LFGMgr) (guid : Z) : string := m_Comment (pdata m guid).
Definition SetComment (guid : Z) (c : string) : LM unit := upd_player guid (λ d, PlayerSetComment d c).
Definition GetSelectedDungeons (m : LFGMgr) (guid : Z) : LfgDungeonSet := m_SelectedDungeons (pdata m guid).
Definition SetSelectedDungeons (guid : Z) (ds : LfgDungeonSet) : LM unit :=
  upd_player guid (λ d, PlayerSetSelectedDungeons d ds).
Definition SetRandomPlayersCount (guid count : Z) : LM unit :=
  upd_player guid (λ d, PlayerSetRandomPlayersCount d count).
Definition RemovePlayerData (guid : Z) : LM unit :=
  modify (λ m, set_players m (delete guid (PlayersStore m))).

Definition GetDungeon (m : LFGMgr) (guid : Z) (asId : bool) : Z := GroupGetDungeon (gdata m guid) asId.
Definition SetDungeon (guid dungeon : Z) : LM unit := upd_group guid (λ d, GroupSetDungeon d dungeon).
Definition GetKicksLeft (m : LFGMgr) (guid : Z) : Z := m_KicksLeft (gdata m guid).
Definition DecreaseKicksLeft (guid : Z) : LM unit := upd_group guid GroupDecreaseKicksLeft.
Definition IsVoteKickActive (gguid : Z) : LM bool :=
  m ← get; lift (assert_ (IsGroup gguid) (Ok (m_VoteKickActive (gdata m gguid)))).
Definition SetVoteKick (gguid : Z) (active : bool) : LM unit :=
  _ ← lift (assert_ (IsGroup gguid) (Ok tt)); upd_group gguid (λ d, GroupSetVoteKick d active).
Definition GetPlayers (m : LFGMgr) (guid : Z) : gset Z := m_Players (gdata m guid).
Definition GetPlayerCount (m : LFGMgr) (guid : Z) : Z := GroupGetPlayerCount (gdata m guid).
Definition GetLeader (m : LFGMgr) (guid : Z) : Z := m_Leader (gdata m guid).
Definition SetLeader (gguid leader : Z) : LM unit := upd_group gguid (λ d, GroupSetLeader d leader).
Definition AddPlayerToGroup (gguid guid : Z) : LM unit := upd_group gguid (λ d, GroupAddPlayer d guid).
Definition RemovePlayerFromGroup (gguid guid : Z) : LM Z :=
  m ← get;
  let '(d, n) := GroupRemovePlayer (gdata m gguid) guid in
  _ ← upd_group gguid (λ _, d); mret n.
Definition IsLfgGroup (m : LFGMgr) (guid : Z) : bool :=
  negb (guid =? 0) && IsGroup guid && GroupIsLfgGroup (gdata m guid).
Definition AllQueued (m : LFGMgr) (check : list Z) : bool :=
  match check with
  | [] => false
  | _ => forallb (λ g, bool_decide (GetState m g = LFG_STATE_QUEUED)) check
  end.
Definition SetupGroupMember (guid gguid : Z) : LM unit :=
  m ← get;
  _ ← SetSelectedDungeons guid {[GetDungeon m gguid true]};
  _ ← SetState guid (GetState m gguid);
  _ ← SetGroup guid gguid;
  AddPlayerToGroup gguid guid.

(** ** The rest of the server

    The Group objects are outside: building the group of a proposal (MakeNewGroup) and
    kicking a player out of one (Player::RemoveFromGroup) reach the manager through
    calls of its own functions, made by the code itself and by the hooks of
    LFGScripts.cpp. Any list of such calls may come back. *)
Inductive group_call :=
| CallSetState (guid : Z) (state : LfgState)
| CallSetGroup (guid group : Z)
| CallSetLeader (gguid leader : Z)
| CallSetDungeon (gguid dungeon : Z)
| CallAddPlayer (gguid guid : Z)
| CallRemovePlayer (gguid guid : Z)
| CallSetRandomPlayersCount (guid count : Z)
| CallLeaveQueued (now guid : Z)                  (* OnAddMember: LeaveLfg if queued *)
| CallLeaveLfg (now guid : Z)                     (* OnRemoveMember, OnInviteMember *)
| CallRemoveGroupData (gguid : Z)                 (* OnDisband *)
| CallLeaveAllLfgQueues (guid : Z) (allowgroup : bool) (groupguid : Z).

(** [connected]: the player is online; [encounter_mask]: the encounters that the
    instance of a proposal's group has completed;
    the dungeons are those of the client's tables, [CachedDungeonMapStore] groups them
    by type; [locked_dungeons] are the locks of a player; [m_options] and the CONFIG
    values are settings. *)
Class MgrEnv := {
  connected : Z → bool;
  MakeNewGroup : LfgProposal → LFGMgr → list group_call;
  RemoveFromGroup : Z → Z → LFGMgr → list group_call;
  encounter_mask : LfgProposal → option Z;
  LfgDungeonStore : gmap Z LFGDungeonData;
  CachedDungeonMapStore : gmap Z (gset Z);
  locked_dungeons : Z → bool → gmap Z Z;
  m_options : Z;
  CONFIG_LFG_LEVEL_THRESHOLD : Z;
  CONFIG_LFG_WAITTIME_PER_DIFF : Z;
  CONFIG_ALLOW_TWO_SIDE_INTERACTION_GROUP : bool
}.

Section manager.
Context `{LE : LfgEnv} `{RND : Random} `{ME : MgrEnv}.

(** What the queue sees of the manager. *)
Definition groups_of (m : LFGMgr) : LfgGroups :=
  {| LfgQueue.GetOldState := MgrGetOldState m; LfgQueue.GetGroup := MgrGetGroup m |}.

Definition SetTeam (guid team : Z) : LM unit :=
  upd_player guid (λ d, PlayerSetTeam d (if CONFIG_ALLOW_TWO_SIDE_INTERACTION_GROUP then 0 else team)).

(** Packets reach connected players only. *)
Definition send (guid : Z) (msg : lfg_msg) : LM unit :=
  when (connected guid) (modify (λ m, set_out m (out m ++ [(guid, msg)]))).

(** The queue of a team; a group's team is that of its first player. *)
Definition queue_id (m : LFGMgr) (guid : Z) : Z :=
  if IsGroup guid then
    match set_items (GetPlayers m guid) with
    | [] => 0
    | pguid :: _ => if pguid =? 0 then 0 else GetTeam m pguid
    end
  else GetTeam m guid.
Definition GetQueue (m : LFGMgr) (id : Z) : LFGQueue := default empty_queue (QueuesStore m !! id).
Definition on_queue (id : Z) (f : LFGQueue → outcome LFGQueue) : LM unit :=
  m ← get;
  q ← lift (f (GetQueue m id));
  modify (λ m, set_queues m (<[id := q]> (QueuesStore m))).

Definition GetLFGDungeon (id : Z) : option LFGDungeonData := LfgDungeonStore !! id.
Definition GetDungeonsByRandom (randomdungeon : Z) : gset Z :=
  let group := match GetLFGDungeon randomdungeon with Some d => group_ d | None => 0 end in
  default ∅ (CachedDungeonMapStore !! group).
Definition GetDungeonType (id : Z) : LfgType :=
  match GetLFGDungeon id with Some d => type_ d | None => LFG_TYPE_NONE end.
Definition GetLFGDungeonEntry (id : Z) : Z :=
  if id =? 0 then 0 else match GetLFGDungeon id with Some d => Entry d | None => 0 end.

(** ** Dungeons a group may enter, and when *)

Definition GetDungeonRecommendedLevelDiff (dungeon minlevel maxlevel : Z) : Z :=
  match GetLFGDungeon dungeon with
  | None => 0
  | Some d =>
    let diff := if minlevel <? recMinlevel d then recMinlevel d - minlevel else 0 in
    if recMaxlevel d <? maxlevel then Z.max diff (maxlevel - recMaxlevel d) else diff
  end.

Definition GetDungeonTimes (now : Z) (ds : LfgDungeonSet) (minlevel maxlevel : Z) (isRandom : bool)
    : gmap Z Z :=
  if isRandom then
    let diff d := GetDungeonRecommendedLevelDiff d minlevel maxlevel in
    let minDiff := foldl (λ acc d, Z.min acc (diff d)) MAX_LEVEL (set_items ds) in
    foldl (λ times d,
        let lvldiff := u32 (diff d - minDiff) in
        <[d := if CONFIG_LFG_LEVEL_THRESHOLD <? lvldiff
               then now + u32 (lvldiff * CONFIG_LFG_WAITTIME_PER_DIFF) else 0]> times)
      ∅ (set_items ds)
  else foldl (λ times d, <[d := 0]> times) ∅ (set_items ds).

(** Both loops stop as soon as no dungeon is left. *)
Definition GetCompatibleDungeons (ds : LfgDungeonSet) (players : gset Z) (ignoreBindings : bool)
    : LfgDungeonSet * gmap Z (gmap Z Z) :=
  let '(ds, lockMap) :=
    foldl (λ acc guid,
        if bool_decide (acc.1 = ∅) then acc
        else
          foldl (λ acc lock,
              if bool_decide (acc.1 = ∅) then acc
              else
                let dungeonId := Z.land lock.1 0x00FFFFFF in
                if bool_decide (dungeonId ∈ acc.1) then
                  (acc.1 ∖ {[dungeonId]},
                   <[guid := <[dungeonId := lock.2]> (default ∅ (acc.2 !! guid))]> acc.2)
                else acc)
            acc (items (locked_dungeons guid ignoreBindings)))
      (ds, ∅) (set_items players) in
  (ds, if bool_decide (ds = ∅) then lockMap else ∅).

(** ** Leaving the queue *)

(** LeaveLfg of a queued player or group: the whole group leaves. *)
Definition leave_queue (guid : Z) : LM unit :=
  m ← get;
  let gguid := if IsGroup guid then guid else MgrGetGroup m guid in
  if negb (gguid =? 0) then
    _ ← on_queue (queue_id m gguid) (λ q, RemoveFromSystem q gguid);
    _ ← RestoreState gguid;
    for_each (set_items (GetPlayers m gguid)) (λ p,
      _ ← RestoreState p;
      send p (MsgUpdateParty (update_of LFG_UPDATETYPE_REMOVED_FROM_QUEUE)))
  else
    _ ← on_queue (queue_id m guid) (λ q, RemoveFromSystem q guid);
    _ ← send guid (MsgUpdatePlayer (update_of LFG_UPDATETYPE_REMOVED_FROM_QUEUE));
    SetState guid LFG_STATE_NONE.

Definition remove_everywhere (guid : Z) : LM unit :=
  m ← get;
  for_each (items (QueuesStore m)).*1 (λ id, on_queue id (λ q, RemoveFromSystem q guid)).

Definition LeaveAllLfgQueues (guid : Z) (allowgroup : bool) (groupguid : Z) : LM unit :=
  m ← get;
  let '(pguid, gguid) :=
    if IsGroup guid then (0, guid)
    else if negb (groupguid =? 0) && IsGroup groupguid then (guid, groupguid)
    else (guid, MgrGetGroup m guid) in
  let gguid := if allowgroup then gguid else 0 in
  _ ← when (negb (pguid =? 0)) (remove_everywhere pguid);
  _ ← when (negb (gguid =? 0)) (remove_everywhere gguid);
  _ ← when (negb (pguid =? 0) && (gguid =? 0))
        (m ← get;
         when (bool_decide (GetState m pguid = LFG_STATE_QUEUED))
           (_ ← send pguid (MsgUpdatePlayer (update_of LFG_UPDATETYPE_REMOVED_FROM_QUEUE));
            SetState pguid LFG_STATE_NONE));
  when (negb (gguid =? 0))
    (m ← get;
     when (bool_decide (GetState m gguid = LFG_STATE_QUEUED))
       (_ ← SetState gguid LFG_STATE_NONE;
        for_each (set_items (GetPlayers m gguid)) (λ p,
          _ ← SetState p LFG_STATE_NONE;
          send p (MsgUpdateParty (update_of LFG_UPDATETYPE_REMOVED_FROM_QUEUE))))).

(** ** Role checks *)

(** The state of a role check after an answer: [guid] 0 aborts. *)
Definition answer_role_check (rc : LfgRoleCheck) (guid roles : Z) : outcome LfgRoleCheck :=
  if guid =? 0 then Ok (rc_with rc (rc_roles rc) LFG_ROLECHECK_ABORTED)
  else if roles <? PLAYER_ROLE_TANK then Ok (rc_with rc (rc_roles rc) LFG_ROLECHECK_NO_ROLE)
  else
    let rs := <[guid := roles]> (rc_roles rc) in
    if forallb (λ kv, negb (kv.2 =? PLAYER_ROLE_NONE)) (items rs) then
      let! (ok, _) := CheckGroupRoles rs in
      Ok (rc_with rc rs (if (ok : bool) then LFG_ROLECHECK_FINISHED else LFG_ROLECHECK_WRONG_ROLES))
    else Ok (rc_with rc rs (rc_state rc)).

Definition erase_role_check (gguid : Z) : LM unit :=
  modify (λ m, set_roleChecks m (delete gguid (RoleChecksStore m))).

(** What every player of the role check is told, and their new state. *)
Definition role_check_player (rc : LfgRoleCheck) (sendRoleChosen : bool) (guid roles : Z)
    (p : Z * Z) : LM unit :=
  let dungeons := if negb (rDungeonId rc =? 0) then {[rDungeonId rc]} else rc_dungeons rc in
  let pguid := p.1 in
  _ ← when sendRoleChosen (send pguid (MsgRoleChosen guid roles));
  _ ← send pguid (MsgRoleCheckUpdate rc);
  match rc_state rc with
  | LFG_ROLECHECK_INITIALITING => skip
  | LFG_ROLECHECK_FINISHED =>
    _ ← SetState pguid LFG_STATE_QUEUED;
    _ ← SetRoles pguid p.2;
    m ← get;
    send pguid (MsgUpdateParty (mkUpdate LFG_UPDATETYPE_ADDED_TO_QUEUE dungeons (GetComment m pguid)))
  | _ =>
    _ ← when (rc_leader rc =? pguid) (send pguid (MsgJoinResult LFG_JOIN_FAILED (rc_state rc) ∅));
    _ ← send pguid (MsgUpdateParty (update_of LFG_UPDATETYPE_ROLECHECK_FAILED));
    RestoreState pguid
  end.

(** The end of the function: a decided check enters the queue or is given up. *)
Definition finish_role_check (now gguid : Z) (rc : LfgRoleCheck) : LM unit :=
  match rc_state rc with
  | LFG_ROLECHECK_FINISHED =>
    _ ← SetState gguid LFG_STATE_QUEUED;
    m ← get;
    let times := GetDungeonTimes now (rc_dungeons rc) (minlevel rc) (maxlevel rc)
                   (negb (rDungeonId rc =? 0)) in
    _ ← on_queue (queue_id m gguid)
          (λ q, AddNewToQueue q now gguid now times (rc_roles rc) (IsLfgGroup m gguid));
    erase_role_check gguid
  | LFG_ROLECHECK_INITIALITING => skip
  | _ =>
    _ ← RestoreState gguid;
    erase_role_check gguid
  end.

Definition UpdateRoleCheck (now gguid guid roles : Z) : LM unit :=
  if gguid =? 0 then skip
  else
    m ← get;
    match RoleChecksStore m !! gguid with
    | None => skip
    | Some rc0 =>
      let sendRoleChosen := negb (bool_decide (rc_state rc0 = LFG_ROLECHECK_DEFAULT)) && negb (guid =? 0) in
      rc ← lift (answer_role_check rc0 guid roles);
      _ ← modify (λ m, set_roleChecks m (<[gguid := rc]> (RoleChecksStore m)));
      _ ← for_each (items (rc_roles rc)) (role_check_player rc sendRoleChosen guid roles);
      finish_role_check now gguid rc
    end.

(** ** Votes to kick *)

Definition send_boot (b : LfgPlayerBoot) (players : list Z) : LM unit :=
  for_each players (λ p, send p (MsgBootProposalUpdate b)).

Definition InitBoot (now gguid kicker vguid : Z) (why : string) : LM unit :=
  _ ← SetVoteKick gguid true;
  m ← get;
  let old := match BootsStore m !! gguid with Some b => votes b | None => ∅ end in
  let players := set_items (GetPlayers m gguid) in
  let vs := foldl (λ vs p, <[p := LFG_ANSWER_PENDING]> vs) old players in
  let b := mkBoot (now + LFG_TIME_BOOT) true
             (<[kicker := LFG_ANSWER_AGREE]> (<[vguid := LFG_ANSWER_DENY]> vs)) vguid why in
  _ ← modify (λ m, set_boots m (<[gguid := b]> (BootsStore m)));
  send_boot b players.

Definition answered (a : LfgAnswer) : bool := negb (bool_decide (a = LFG_ANSWER_PENDING)).
Definition agreed (a : LfgAnswer) : bool := bool_decide (a = LFG_ANSWER_AGREE).
Definition votes_num (vs : gmap Z LfgAnswer) : Z :=
  foldl (λ n kv, if answered kv.2 then u8 (n + 1) else n) 0 (items vs).
Definition agree_num (vs : gmap Z LfgAnswer) : Z :=
  foldl (λ n kv, if agreed kv.2 then u8 (n + 1) else n) 0 (items vs).

(** [operator[]]: the vote of a player who has none is created, as
    LfgAnswer(0) = LFG_ANSWER_DENY. *)
Definition vote_of (vs : gmap Z LfgAnswer) (guid : Z) : LfgAnswer * gmap Z LfgAnswer :=
  match vs !! guid with
  | Some a => (a, vs)
  | None => (LFG_ANSWER_DENY, <[guid := LFG_ANSWER_DENY]> vs)
  end.

Definition boot_with (b : LfgPlayerBoot) (vs : gmap Z LfgAnswer) (going : bool) : LfgPlayerBoot :=
  mkBoot (b_cancelTime b) going vs (victim b) (reason b).
Definition set_boot (gguid : Z) (b : LfgPlayerBoot) : LM unit :=
  modify (λ m, set_boots m (<[gguid := b]> (BootsStore m))).

Definition boot_voters (b : LfgPlayerBoot) : list Z :=
  filter (λ p, p ≠ victim b) (items (votes b)).*1.

(** ** Proposals *)

Definition AddProposal (p : LfgProposal) : LM unit :=
  m ← get;
  let id := u32 (m_lfgProposalId m + 1) in
  _ ← modify (λ m, set_proposalId m id);
  modify (λ m, set_proposals m
    (<[id := mkProposal id (dungeonId p) (p_state p) (group p) (leader p) (cancelTime p) (encounters p)
               (isNew p) (needSendUpdate p) (queues p) (showorder p) (p_players p) (p_commonDungeons p)]>
       (ProposalsStore m))).

Definition proposal_with (p : LfgProposal) (st : LfgProposalState) (ps : gmap Z LfgProposalPlayer)
    : LfgProposal :=
  mkProposal (p_id p) (dungeonId p) st (group p) (leader p) (cancelTime p) (encounters p) (isNew p)
    (needSendUpdate p) (queues p) (showorder p) ps (p_commonDungeons p).

Definition set_accept (a : LfgAnswer) (pl : LfgProposalPlayer) : LfgProposalPlayer :=
  mkPPlayer (p_role pl) a (p_group pl).

(** The queue entry of a player: the group if there was one. *)
Definition entry_of (kv : Z * LfgProposalPlayer) : Z :=
  if negb (p_group kv.2 =? 0) then p_group kv.2 else kv.1.

(** Players who did not agree, and the queue entries to remove because of them. *)
Definition refuses (type : LfgUpdateType) (pl : LfgProposalPlayer) : bool :=
  negb (bool_decide (accept pl = LFG_ANSWER_AGREE)) &&
  (bool_decide (accept pl = LFG_ANSWER_DENY) || bool_decide (type = LFG_UPDATETYPE_PROPOSAL_FAILED)).

(** At the end of the time those who have not answered count as refusing. *)
Definition deny_pending (type : LfgUpdateType) (pl : LfgProposalPlayer) : LfgProposalPlayer :=
  if bool_decide (type = LFG_UPDATETYPE_PROPOSAL_FAILED) && bool_decide (accept pl = LFG_ANSWER_PENDING)
  then set_accept LFG_ANSWER_DENY pl else pl.
Definition mark_refusal (type : LfgUpdateType) (pl : LfgProposalPlayer) : LfgProposalPlayer :=
  if refuses type pl then set_accept LFG_ANSWER_DENY pl else pl.

Definition refusals (type : LfgUpdateType) (ps : gmap Z LfgProposalPlayer)
    : gmap Z LfgProposalPlayer * gset Z :=
  let ps := deny_pending type <$> ps in
  (mark_refusal type <$> ps,
   list_to_set (entry_of <$> filter (λ kv, refuses type kv.2 = true) (items ps))).

(** What a player of a failed proposal is told. *)
Definition notify_failed (type : LfgUpdateType) (p : LfgProposal) (toRemove : gset Z)
    (kv : Z * LfgProposalPlayer) : LM unit :=
  let guid := kv.1 in
  let gguid := entry_of kv in
  _ ← send guid (MsgUpdateProposal p);
  if bool_decide (gguid ∈ toRemove) then
    let data := update_of (if bool_decide (accept kv.2 = LFG_ANSWER_DENY) then type
                           else LFG_UPDATETYPE_REMOVED_FROM_QUEUE) in
    _ ← RestoreState guid;
    if negb (gguid =? guid) then
      _ ← RestoreState (p_group kv.2); send guid (MsgUpdateParty data)
    else send guid (MsgUpdatePlayer data)
  else
    _ ← SetState guid LFG_STATE_QUEUED;
    _ ← when (negb (gguid =? guid)) (SetState gguid LFG_STATE_QUEUED);
    m ← get;
    let data := mkUpdate LFG_UPDATETYPE_ADDED_TO_QUEUE (GetSelectedDungeons m guid) (GetComment m guid) in
    send guid (if negb (gguid =? guid) then MsgUpdateParty data else MsgUpdatePlayer data).

Definition RemoveProposal (id : Z) (type : LfgUpdateType) : LM unit :=
  m ← get;
  match ProposalsStore m !! id with
  | None => lift BadPtr                              (* an iterator to nothing *)
  | Some p0 =>
    let '(ps, toRemove0) := refusals type (p_players p0) in
    let p := proposal_with p0 LFG_PROPOSAL_FAILED ps in
    _ ← modify (λ m, set_proposals m (<[id := p]> (ProposalsStore m)));
    let toRemove :=
      foldl (λ acc g, if HasData (GetQueue m (queue_id m g)) g then acc else {[g]} ∪ acc)
        toRemove0 (queues p) in
    _ ← for_each (items ps) (notify_failed type p toRemove);
    match items ps with
    | [] => lift BadPtr                              (* players.begin() of an empty map *)
    | (first, _) :: _ =>
      m ← get;
      let q := queue_id m first in
      _ ← for_each (set_items toRemove) (λ g, on_queue q (λ q, RemoveFromSystem q g));
      _ ← for_each (filter (λ g, g ∉ toRemove) (queues p)) (λ g, on_queue q (λ q, AddOldToQueue q g));
      modify (λ m, set_proposals m (delete id (ProposalsStore m)))
    end
  end.

(** ** Leaving *)

(** The first proposal with the player, in the order of the ids. *)
Definition find_proposal (m : LFGMgr) (pguid : Z) : option (Z * LfgProposal) :=
  find (λ kv : Z * LfgProposal, bool_decide (is_Some (p_players kv.2 !! pguid)))
    (items (ProposalsStore m)).

Definition LeaveLfg (now guid : Z) : LM unit :=
  m ← get;
  let gguid := if IsGroup guid then guid else MgrGetGroup m guid in
  match GetState m guid with
  | LFG_STATE_QUEUED =>
    leave_queue guid
  | LFG_STATE_ROLECHECK => when (negb (gguid =? 0)) (UpdateRoleCheck now gguid 0 PLAYER_ROLE_NONE)
  | LFG_STATE_PROPOSAL =>
    let pguid := if gguid =? guid then GetLeader m gguid else guid in
    match find_proposal m pguid with
    | None => skip
    | Some (id, p) =>
      let ps := match p_players p !! pguid with
                | Some pl => <[pguid := set_accept LFG_ANSWER_DENY pl]> (p_players p)
                | None => p_players p
                end in
      _ ← modify (λ m, set_proposals m (<[id := proposal_with p (p_state p) ps]> (ProposalsStore m)));
      RemoveProposal id LFG_UPDATETYPE_PROPOSAL_DECLINED
    end
  | LFG_STATE_NONE | LFG_STATE_RAIDBROWSER => skip
  | LFG_STATE_DUNGEON | LFG_STATE_FINISHED_DUNGEON =>
    when (negb (guid =? gguid)) (SetState guid LFG_STATE_NONE)
  end.

Definition RemoveGroupData (guid : Z) : LM unit :=
  m ← get;
  match GroupsStore m !! guid with
  | None => skip
  | Some d =>
    let state := GetState m guid in
    _ ← for_each (set_items (m_Players d)) (λ p,
          _ ← SetGroup p 0;
          when (negb (bool_decide (state = LFG_STATE_PROPOSAL)))
            (_ ← SetState p LFG_STATE_NONE;
             send p (MsgUpdateParty (update_of LFG_UPDATETYPE_REMOVED_FROM_QUEUE))));
    modify (λ m, set_groups m (delete guid (GroupsStore m)))
  end.

(** ** The calls that come back from the groups *)

Definition call (c : group_call) : LM unit :=
  match c with
  | CallSetState guid state => SetState guid state
  | CallSetGroup guid group => SetGroup guid group
  | CallSetLeader gguid leader => SetLeader gguid leader
  | CallSetDungeon gguid dungeon => SetDungeon gguid dungeon
  | CallAddPlayer gguid guid => AddPlayerToGroup gguid guid
  | CallRemovePlayer gguid guid => _ ← RemovePlayerFromGroup gguid guid; skip
  | CallSetRandomPlayersCount guid count => SetRandomPlayersCount guid count
  | CallLeaveQueued now guid =>
    m ← get; when (bool_decide (GetState m guid = LFG_STATE_QUEUED)) (LeaveLfg now guid)
  | CallLeaveLfg now guid => LeaveLfg now guid
  | CallRemoveGroupData gguid => RemoveGroupData gguid
  | CallLeaveAllLfgQueues guid allowgroup groupguid => LeaveAllLfgQueues guid allowgroup groupguid
  end.

(** ** The answers that change a group *)

Definition UpdateBoot (guid : Z) (accept : bool) : LM unit :=
  m ← get;
  let gguid := MgrGetGroup m guid in
  if gguid =? 0 then skip
  else
    match BootsStore m !! gguid with
    | None => skip
    | Some b =>
      let '(a, vs) := vote_of (votes b) guid in
      _ ← set_boot gguid (boot_with b vs (inProgress b));
      if answered a then skip
      else
        let vs := <[guid := if accept then LFG_ANSWER_AGREE else LFG_ANSWER_DENY]> vs in
        _ ← set_boot gguid (boot_with b vs (inProgress b));
        if (agree_num vs <? LFG_GROUP_KICK_VOTES_NEEDED)
           && (votes_num vs - agree_num vs <? LFG_GROUP_KICK_VOTES_NEEDED)
        then skip
        else
          let b := boot_with b vs false in
          _ ← set_boot gguid b;
          _ ← send_boot b (boot_voters b);
          _ ← SetVoteKick gguid false;
          _ ← when (agree_num vs =? LFG_GROUP_KICK_VOTES_NEEDED)
                (m ← get; _ ← for_each (RemoveFromGroup gguid (victim b) m) call; DecreaseKicksLeft gguid);
          modify (λ m, set_boots m (delete gguid (BootsStore m)))
    end.

(** [erase] through the iterator of UpdateProposal, which dangles when a call that came
    back has ended the proposal. *)
Definition erase_proposal (id : Z) : LM unit :=
  m ← get;
  match ProposalsStore m !! id with
  | None => lift BadPtr
  | Some _ => modify (λ m, set_proposals m (delete id (ProposalsStore m)))
  end.

(** One player of a successful proposal: the packets, the waiting time of the role and
    the new state. The first player is told of the group, the others of the removal. *)
Definition join_player (p : LfgProposal) (sendUpdate : bool) (joinTime : Z) (q : Z)
    (kv : Z * LfgProposalPlayer) (data : LfgUpdateData) : LM (LfgUpdateData * (Z * Z)) :=
  let pguid := kv.1 in
  let gguid := p_group kv.2 in
  m ← get;
  _ ← lift (match set_items (GetSelectedDungeons m pguid) with [] => BadPtr | _ => Ok tt end);
  _ ← when sendUpdate (send pguid (MsgUpdateProposal p));
  let entry := if negb (gguid =? 0) then gguid else pguid in
  let waitTime := s32 (joinTime - GetJoinTime (GetQueue m q) joinTime entry) in
  _ ← send pguid (if negb (gguid =? 0) then MsgUpdateParty data else MsgUpdatePlayer data);
  let data := mkUpdate LFG_UPDATETYPE_REMOVED_FROM_QUEUE (u_dungeons data) (u_comment data) in
  _ ← send pguid (MsgUpdatePlayer data);
  _ ← send pguid (MsgUpdateParty data);
  _ ← SetState pguid LFG_STATE_DUNGEON;
  mret (data, (Z.land (p_role kv.2) (Z.lnot PLAYER_ROLE_LEADER), waitTime)).

Fixpoint join_players (p : LfgProposal) (sendUpdate : bool) (joinTime : Z) (q : Z)
    (ps : list (Z * LfgProposalPlayer)) (data : LfgUpdateData) (times : list (Z * Z))
    : LM (list (Z * Z)) :=
  match ps with
  | [] => mret times
  | kv :: ps =>
    r ← join_player p sendUpdate joinTime q kv data;
    join_players p sendUpdate joinTime q ps r.1 (mm_insert r.2.1 r.2.2 times)
  end.

Definition all_agree (ps : gmap Z LfgProposalPlayer) : bool :=
  forallb (λ kv, bool_decide (accept kv.2 = LFG_ANSWER_AGREE)) (items ps).

Definition UpdateProposal (now proposalId guid : Z) (accept : bool) : LM unit :=
  m ← get;
  match ProposalsStore m !! proposalId with
  | None => skip
  | Some p0 =>
    match p_players p0 !! guid with
    | None => skip
    | Some player =>
      let ps := <[guid := set_accept (if accept then LFG_ANSWER_AGREE else LFG_ANSWER_DENY) player]>
                  (p_players p0) in
      let p := proposal_with p0 (p_state p0) ps in
      _ ← modify (λ m, set_proposals m (<[proposalId := p]> (ProposalsStore m)));
      if negb accept then RemoveProposal proposalId LFG_UPDATETYPE_PROPOSAL_DECLINED
      else if negb (all_agree ps) then
        for_each (items ps) (λ kv, send kv.1 (MsgUpdateProposal p))
      else
        let sendUpdate := negb (bool_decide (p_state p = LFG_PROPOSAL_SUCCESS)) in
        let p := proposal_with p LFG_PROPOSAL_SUCCESS ps in
        _ ← modify (λ m, set_proposals m (<[proposalId := p]> (ProposalsStore m)));
        let q := queue_id m guid in
        times ← join_players p sendUpdate now q (items ps) (update_of LFG_UPDATETYPE_GROUP_FOUND) [];
        _ ← when (MAXGROUPSIZE / 2 <? Z.of_nat (length (queues p)))
              (on_queue q (λ q, UpdateWaitTime q (p_commonDungeons p) times));
        _ ← for_each (queues p) (λ g, on_queue q (λ q, RemoveFromSystem q g));
        m ← get;
        _ ← for_each (MakeNewGroup p m) call;
        erase_proposal proposalId
    end
  end.

(** ** Joining *)

(** The facts about the player and the group that the request is checked against. *)
Record Joiner := mkJoiner {
  j_guid : Z;
  has_permission : bool;
  in_battleground : bool;               (* InBattleground() || InArena() *)
  has_deserter : bool;
  has_cooldown : bool;
  is_frozen : bool;
  level : Z                             (* uint8 *)
}.
Record JoinGroup := mkJoinGroup {
  jg_guid : Z;
  jg_isLFG : bool;
  jg_count : Z;                         (* GetMembersCount() *)
  jg_online : list Joiner               (* the references of the group, in order *)
}.

(** The check of one member; the counter and the set grow even when it fails. *)
Definition check_member (isLFG : bool) (j : Joiner) : LfgJoinResult :=
  let r := if has_permission j then LFG_JOIN_OK else LFG_JOIN_PARTY_NOT_MEET_REQS in
  if has_deserter j then LFG_JOIN_PARTY_DESERTER
  else if has_cooldown j && negb isLFG then LFG_JOIN_PARTY_RANDOM_COOLDOWN
  else if in_battleground j then LFG_JOIN_USING_BG_SYSTEM
  else if is_frozen j then LFG_JOIN_PARTY_NOT_MEET_REQS
  else r.

Fixpoint check_members (isLFG : bool) (l : list Joiner) (result : LfgJoinResult) (count : Z)
    (players : gset Z) : LfgJoinResult * Z * gset Z :=
  match l with
  | [] => (result, count, players)
  | j :: l =>
    if bool_decide (result = LFG_JOIN_OK)
    then check_members isLFG l (check_member isLFG j) (u8 (count + 1)) ({[j_guid j]} ∪ players)
    else (result, count, players)
  end.

(** The first part of the checks: who joins. *)
Definition join_restrictions (j : Joiner) (grp : option JoinGroup) (isContinue : bool)
    (ds : LfgDungeonSet) : LfgJoinResult * gset Z :=
  let inLFG := match grp with Some g => jg_isLFG g | None => false end in
  if negb (has_permission j) then (LFG_JOIN_NOT_MEET_REQS, ∅)
  else if in_battleground j then (LFG_JOIN_USING_BG_SYSTEM, ∅)
  else if has_deserter j then (LFG_JOIN_DESERTER, ∅)
  else if has_cooldown j && negb inLFG then (LFG_JOIN_RANDOM_COOLDOWN, ∅)
  else if bool_decide (ds = ∅) then (LFG_JOIN_NOT_MEET_REQS, ∅)
  else if is_frozen j then (LFG_JOIN_NOT_MEET_REQS, ∅)
  else
    match grp with
    | Some g =>
      if MAXGROUPSIZE <? jg_count g then (LFG_JOIN_TOO_MUCH_MEMBERS, ∅)
      else if isContinue && (jg_count g =? MAXGROUPSIZE) then (LFG_JOIN_GROUPFULL, ∅)
      else
        let '(r, memberCount, players) := check_members (jg_isLFG g) (jg_online g) LFG_JOIN_OK 0 ∅ in
        (if bool_decide (r = LFG_JOIN_OK) && negb (memberCount =? jg_count g)
         then LFG_JOIN_DISCONNECTED else r, players)
    | None => (LFG_JOIN_OK, {[j_guid j]})
    end.

(** The second part: what is joined. The cases of the switch fall through from RANDOM
    to HEROIC and DUNGEON. *)
Fixpoint check_dungeons (ds : LfgDungeonSet) (l : list Z) (result : LfgJoinResult) (rDungeonId : Z)
    (isDungeon isRaid : bool) : LfgJoinResult * Z * bool :=
  match l with
  | [] => (result, rDungeonId, isRaid)
  | d :: l =>
    if negb (bool_decide (result = LFG_JOIN_OK)) then (result, rDungeonId, isRaid)
    else
      match GetDungeonType d with
      | (LFG_TYPE_RANDOM | LFG_TYPE_HEROIC | LFG_TYPE_DUNGEON) as t =>
        let '(result, rDungeonId) :=
          match t with
          | LFG_TYPE_RANDOM =>
            if (1 <? Z.of_nat (size ds)) then (LFG_JOIN_DUNGEON_INVALID, rDungeonId)
            else (result, hd 0 (set_items ds))
          | _ => (result, rDungeonId)
          end in
        check_dungeons ds l (if isRaid then LFG_JOIN_MIXED_RAID_DUNGEON else result) rDungeonId true isRaid
      | LFG_TYPE_RAID =>
        check_dungeons ds l (if isDungeon then LFG_JOIN_MIXED_RAID_DUNGEON else result) rDungeonId isDungeon true
      | LFG_TYPE_NONE => check_dungeons ds l LFG_JOIN_DUNGEON_INVALID rDungeonId isDungeon isRaid
      end
  end.

(** Start of the role check of a group. *)
Definition start_role_check (now : Z) (j : Joiner) (roles : Z) (g : JoinGroup) (ds : LfgDungeonSet)
    (rDungeonId : Z) (isContinue : bool) (comment : string) : LM unit :=
  let gguid := jg_guid g in
  let shown := if negb (rDungeonId =? 0) then {[rDungeonId]} else ds in
  let rs := foldl (λ (rs : LfgRolesMap) m, <[j_guid m := 0]> rs) ∅ (jg_online g) in
  let lo := foldl (λ x m, Z.min x (level m)) (level j) (jg_online g) in
  let hi := foldl (λ x m, Z.max x (level m)) (level j) (jg_online g) in
  let rc := mkRoleCheck (now + LFG_TIME_ROLECHECK) rs LFG_ROLECHECK_INITIALITING ds lo hi rDungeonId (j_guid j) in
  _ ← SetState gguid LFG_STATE_ROLECHECK;
  _ ← for_each (jg_online g) (λ m,
        _ ← send (j_guid m) (MsgUpdateParty (mkUpdate LFG_UPDATETYPE_JOIN_QUEUE shown comment));
        _ ← SetState (j_guid m) LFG_STATE_ROLECHECK;
        when (negb isContinue) (SetSelectedDungeons (j_guid m) shown));
  _ ← modify (λ m, set_roleChecks m (<[gguid := rc]> (RoleChecksStore m)));
  UpdateRoleCheck now gguid (j_guid j) roles.

Definition join_alone (now : Z) (j : Joiner) (roles : Z) (ds : LfgDungeonSet) (rDungeonId : Z)
    (isContinue : bool) (comment : string) : LM unit :=
  let guid := j_guid j in
  let shown := if negb (rDungeonId =? 0) then {[rDungeonId]} else ds in
  m ← get;
  let times := GetDungeonTimes now ds (level j) (level j) (negb (rDungeonId =? 0)) in
  _ ← on_queue (queue_id m guid) (λ q, AddNewToQueue q now guid now times {[guid := roles]} isContinue);
  _ ← when (negb isContinue) (SetSelectedDungeons guid shown);
  let shown := if isContinue then ds else shown in
  _ ← send guid (MsgJoinResult LFG_JOIN_OK LFG_ROLECHECK_DEFAULT ∅);
  _ ← send guid (MsgUpdatePlayer (mkUpdate LFG_UPDATETYPE_JOIN_QUEUE shown comment));
  _ ← SetState guid LFG_STATE_QUEUED;
  SetRoles guid roles.

Definition JoinLfg (now : Z) (j : Joiner) (grp : option JoinGroup) (roles : Z) (ds0 : LfgDungeonSet)
    (comment : string) : LM unit :=
  if bool_decide (ds0 = ∅) then skip
  else
    m ← get;
    let guid := j_guid j in
    let gguid := match grp with Some g => jg_guid g | None => guid end in
    let isContinue :=
      match grp with Some g => jg_isLFG g | None => false end && bool_decide (GetState m gguid = LFG_STATE_DUNGEON) in
    let ds := if isContinue then {[GetDungeon m gguid true]} else ds0 in
    _ ← when (bool_decide (GetState m gguid = LFG_STATE_QUEUED))
          (on_queue (queue_id m gguid) (λ q, RemoveFromSystem q gguid));
    let '(r1, players) := join_restrictions j grp isContinue ds in
    let ok1 := bool_decide (r1 = LFG_JOIN_OK) in
    let '(r2, rDungeonId, isRaid) :=
      if ok1 then check_dungeons ds (set_items ds) r1 0 false false else (r1, 0, false) in
    let ok2 := bool_decide (r2 = LFG_JOIN_OK) in
    let expanded := if negb (rDungeonId =? 0) then GetDungeonsByRandom rDungeonId else ds in
    let '(ds', lockmap) :=
      if ok1 && ok2 then GetCompatibleDungeons expanded players (negb (rDungeonId =? 0) || isContinue)
      else (ds, ∅) in
    let r3 := if ok1 && ok2 && bool_decide (ds' = ∅)
              then match grp with Some _ => LFG_JOIN_PARTY_NOT_MEET_REQS | None => LFG_JOIN_NOT_MEET_REQS end
              else r2 in
    if negb (bool_decide (r3 = LFG_JOIN_OK)) then
      send guid (MsgJoinResult r3 LFG_ROLECHECK_DEFAULT (if bool_decide (ds' = ∅) then lockmap else ∅))
    else
      _ ← SetComment guid comment;
      if isRaid then skip
      else
        match grp with
        | Some g => start_role_check now j roles g ds' rDungeonId isContinue comment
        | None => join_alone now j roles ds' rDungeonId isContinue comment
        end.

(** ** The update of the world *)

(** [true] when the queues are to be updated in the worker thread, which then runs
    [UpdateQueues]; UpdateFinish waits for it. *)
Definition UpdateStart (now : Z) : LM bool :=
  m ← get;
  if existsb (λ kq, NeedsUpdate kq.2 now) (items (QueuesStore m)) then
    _ ← modify (λ m, set_queues m ((λ q, SetDebugUpdating q true) <$> QueuesStore m));
    mret true
  else mret false.

Fixpoint UpdateQueues (now : Z) (ids : list Z) (s : rng) : LM rng :=
  match ids with
  | [] => mret s
  | id :: ids =>
    m ← get;
    r ← lift (FindGroups (LG := groups_of m) (GetQueue m id) now s);
    let '(q, p, s) := r in
    _ ← match p with Some p => AddProposal p | None => skip end;
    q ← lift (RefreshBestArrangements q);
    q ← lift (RefreshWaitTimes q);
    _ ← modify (λ m, set_queues m (<[id := SetDebugUpdating q false]> (QueuesStore m)));
    UpdateQueues now ids s
  end.

Definition expire_role_check (now : Z) (kv : Z * LfgRoleCheck) : LM unit :=
  if now <? rc_cancelTime kv.2 then skip
  else
    let rc := rc_with kv.2 (rc_roles kv.2) LFG_ROLECHECK_MISSING_ROLE in
    _ ← for_each (items (rc_roles rc)) (λ p,
          _ ← RestoreState p.1;
          _ ← send p.1 (MsgRoleCheckUpdate rc);
          when (p.1 =? rc_leader rc)
            (send p.1 (MsgJoinResult LFG_JOIN_FAILED LFG_ROLECHECK_MISSING_ROLE ∅)));
    _ ← RestoreState kv.1;
    erase_role_check kv.1.

Definition expire_proposal (now : Z) (kv : Z * LfgProposal) : LM unit :=
  when (cancelTime kv.2 <? now) (RemoveProposal kv.1 LFG_UPDATETYPE_PROPOSAL_FAILED).

Definition expire_boot (now : Z) (kv : Z * LfgPlayerBoot) : LM unit :=
  when (b_cancelTime kv.2 <? now)
    (let b := boot_with kv.2 (votes kv.2) false in
     _ ← send_boot b (boot_voters b);
     _ ← SetVoteKick kv.1 false;
     modify (λ m, set_boots m (delete kv.1 (BootsStore m)))).

(** A new proposal is shown to its players; one that all have accepted already (they
    are in the dungeon) is carried out. *)
Definition announce_player (p : LfgProposal) (guid : Z) : LM unit :=
  _ ← SetState guid LFG_STATE_PROPOSAL;
  m ← get;
  let data := mkUpdate LFG_UPDATETYPE_PROPOSAL_BEGIN (GetSelectedDungeons m guid) (GetComment m guid) in
  let gguid := MgrGetGroup m guid in
  _ ← (if negb (gguid =? 0) then
         _ ← SetState gguid LFG_STATE_PROPOSAL; send guid (MsgUpdateParty data)
       else send guid (MsgUpdatePlayer data));
  send guid (MsgUpdateProposal p).

Definition announce (now : Z) (id : Z) : LM unit :=
  m ← get;
  match ProposalsStore m !! id with
  | None => skip
  | Some p =>
    if negb (needSendUpdate p) then skip
    else
      let mask := if isNew p then encounters p else default (encounters p) (encounter_mask p) in
      let p := mkProposal (p_id p) (dungeonId p) (p_state p) (group p) (leader p) (cancelTime p) mask
                 (isNew p) false (queues p) (showorder p) (p_players p) (p_commonDungeons p) in
      _ ← modify (λ m, set_proposals m (<[id := p]> (ProposalsStore m)));
      let guids := (items (p_players p)).*1 in
      _ ← for_each guids (announce_player p);
      when (bool_decide (p_state p = LFG_PROPOSAL_SUCCESS))
        (_ ← UpdateProposal now id (default 0 (last guids)) true;
         m ← get;                                      (* the loop steps on from [id] *)
         lift (deref (ProposalsStore m !! id) (λ _, Ok tt)))
  end.

(** The loop over the proposals to announce starts at the newest id. *)
Definition to_announce (m : LFGMgr) : list Z :=
  match ProposalsStore m !! m_lfgProposalId m with
  | None => []
  | Some _ => filter (λ id, m_lfgProposalId m ≤ id) (items (ProposalsStore m)).*1
  end.

Definition send_status (now : Z) (id : Z) : LM unit :=
  m ← get;
  r ← lift (SendQueueData (GetQueue m id) now);
  let '(q, msgs) := r in
  _ ← modify (λ m, set_queues m (<[id := q]> (QueuesStore m)));
  for_each msgs (λ gd, send gd.1 (MsgQueueStatus gd.2)).

Definition isOptionEnabled (option : Z) : bool := m_options .& option.

Definition UpdateFinish (now diff : Z) : LM unit :=
  if negb (isOptionEnabled (Z.lor LFG_OPTION_ENABLE_DUNGEON_FINDER LFG_OPTION_ENABLE_RAID_BROWSER)) then skip
  else
  m ← get;
  _ ← for_each (items (RoleChecksStore m)) (expire_role_check now);
  m ← get;
  _ ← for_each (items (ProposalsStore m)) (expire_proposal now);
  m ← get;
  _ ← for_each (items (BootsStore m)) (expire_boot now);
  m ← get;
  _ ← for_each (to_announce m) (announce now);
  m ← get;
  if LFG_QUEUEUPDATE_INTERVAL <? m_QueueTimer m then
    _ ← modify (λ m, set_timer m 0);
    for_each (items (QueuesStore m)).*1 (send_status now)
  else modify (λ m, set_timer m (u32 (m_QueueTimer m + diff))).
End manager.

End LfgMgr.
