(* ===== verification/LfgScripts.v ===== *)
(** * The hooks by which players and groups drive the dungeon finder
    ([src/server/game/DungeonFinding/LFGScripts.cpp])

    The scripts of login, logout and of the changes of a group. The teleport out of
    the dungeon and the auras other than the deserter's are left out. *)
From S2P Require Import Prelude StateMonad Multimap LfgRoles LfgQueue LfgData LfgMgr.

Module LfgScripts.
Export LfgMgr.

(** What the hooks read of a Group. *)
Record GroupView := mkGroupView { gv_guid : Z; gv_leader : Z; gv_isLFG : bool }.

Inductive RemoveMethod :=
| GROUP_REMOVEMETHOD_DEFAULT | GROUP_REMOVEMETHOD_KICK | GROUP_REMOVEMETHOD_LEAVE
| GROUP_REMOVEMETHOD_KICK_LFG.
#[export] Instance RemoveMethod_eq : EqDecision RemoveMethod.
Proof. solve_decision. Defined.

Section scripts.
Context `{LE : LfgEnv} `{RND : Random} `{ME : MgrEnv}.

Definition if_enabled (k : LM unit) : LM unit :=
  when (isOptionEnabled (Z.lor LFG_OPTION_ENABLE_DUNGEON_FINDER LFG_OPTION_ENABLE_RAID_BROWSER)) k.

(** [group]: player->GetGroup(). *)
Definition OnLogout (now guid : Z) (group : option GroupView) : LM unit :=
  if_enabled
    match group with
    | None =>
      _ ← send guid (MsgLfrList false);
      _ ← LeaveLfg now guid;
      LeaveAllLfgQueues guid true 0
    | Some _ => skip
    end.

Definition OnLogin (guid team : Z) (group : option GroupView) : LM unit :=
  if_enabled
    (m ← get;
     _ ← match group with
         | Some g => when (negb (MgrGetGroup m guid =? gv_guid g)) (SetupGroupMember guid (gv_guid g))
         | None => skip
         end;
     SetTeam guid (u8 team)).

Definition OnAddMember (now : Z) (group : GroupView) (guid : Z) : LM unit :=
  if_enabled
    (let gguid := gv_guid group in
     let leader := gv_leader group in
     _ ← (if leader =? guid then SetLeader gguid guid
          else
            m ← get;
            let gstate := GetState m gguid in
            let state := GetState m guid in
            _ ← when (bool_decide (state = LFG_STATE_QUEUED)) (LeaveLfg now guid);
            when (bool_decide (gstate = LFG_STATE_QUEUED)) (LeaveLfg now gguid));
     _ ← when (negb (gv_isLFG group))
           (_ ← LeaveAllLfgQueues leader true gguid; LeaveAllLfgQueues guid false 0);
     _ ← SetGroup guid gguid;
     AddPlayerToGroup gguid guid).

Definition OnRemoveMember (now : Z) (group : GroupView) (guid : Z) (method : RemoveMethod) (kicker : Z)
    (why : string) : LM unit :=
  if_enabled
    (let gguid := gv_guid group in
     if gv_isLFG group && bool_decide (method = GROUP_REMOVEMETHOD_KICK) then
       InitBoot now gguid kicker guid why
     else
       m ← get;
       let state := GetState m gguid in
       if bool_decide (state = LFG_STATE_PROPOSAL) && bool_decide (method = GROUP_REMOVEMETHOD_DEFAULT) then
         _ ← SetGroup guid 0;
         _ ← RemovePlayerFromGroup gguid guid;
         skip
       else
         _ ← LeaveLfg now guid;
         _ ← LeaveAllLfgQueues guid true gguid;
         _ ← SetGroup guid 0;
         players ← RemovePlayerFromGroup gguid guid;
         _ ← when (bool_decide (method = GROUP_REMOVEMETHOD_LEAVE) && bool_decide (state = LFG_STATE_DUNGEON) &&
                   (LFG_GROUP_KICK_VOTES_NEEDED <=? players)) (send guid CastDeserter);
         _ ← send guid (MsgUpdateParty (update_of LFG_UPDATETYPE_LEADER_UNK1));
         m ← get;
         when (gv_isLFG group && negb (bool_decide (state = LFG_STATE_FINISHED_DUNGEON)))
           (send (GetLeader m gguid) (MsgOfferContinue (GetDungeon m gguid false)))).

Definition OnDisband (group : GroupView) : LM unit := if_enabled (RemoveGroupData (gv_guid group)).

Definition OnChangeLeader (group : GroupView) (newLeaderGuid : Z) : LM unit :=
  if_enabled (SetLeader (gv_guid group) newLeaderGuid).

Definition OnInviteMember (now : Z) (group : GroupView) : LM unit :=
  if_enabled
    (let leader := gv_leader group in
     when (negb (leader =? 0) && (gv_guid group =? 0))
       (_ ← LeaveLfg now leader; LeaveAllLfgQueues leader true 0)).
End scripts.

End LfgScripts.
