(* ===== verification/LfgManager.v ===== *)
(** * The guarantees of the dungeon finder's manager

    What the handlers of [LfgMgr] and the hooks of [LfgScripts] leave alone, the
    invariant of their histories, and what role checks, proposals and votes to kick
    decide. *)
From S2P Require Import Prelude StateMonad Multimap LfgRoles LfgQueue LfgData LfgMgr LfgScripts.

Module LfgManager.
Export LfgScripts.

(** ** Handlers that only move players and groups *)

Definition states_ok (m : LFGMgr) : Prop :=
  map_Forall (λ _ d, stable (m_OldState d)) (PlayersStore m) ∧
  map_Forall (λ _ d, stable (g_OldState d)) (GroupsStore m).

Record quiet (m m' : LFGMgr) : Prop := mkQuiet {
  qt_roles : RoleChecksStore m' = RoleChecksStore m;
  qt_props : ProposalsStore m' = ProposalsStore m;
  qt_boots : BootsStore m' = BootsStore m;
  qt_id : m_lfgProposalId m' = m_lfgProposalId m;
  qt_states : states_ok m → states_ok m'
}.

#[export] Instance quiet_pre : PreOrder quiet.
Proof.
  split.
  - intros m. by split.
  - intros a b c [? ? ? ? ?] [? ? ? ? ?]. split; try congruence. auto.
Qed.

Create HintDb quiet.
#[export] Hint Resolve quiet_pre keeps_ret keeps_get keeps_lift keeps_skip : quiet.

Ltac quiet_step :=
  match goal with
  | |- keeps quiet (_ ≫= _) => apply keeps_bind; [apply _| |intros ?]
  | |- keeps quiet (when _ _) => apply keeps_when; [apply _|]
  | |- keeps quiet (for_each _ _) => apply keeps_for_each; [apply _|intros ? ?]
  | |- keeps quiet (if ?b then _ else _) => destruct b eqn:?
  | |- keeps quiet (match ?x with _ => _ end) => destruct x eqn:?
  | |- keeps quiet (let _ := _ in _) => cbv zeta
  | _ => solve [auto with quiet]
  end.
Ltac quiet_solve := repeat quiet_step.

Section quiet.
Context `{LE : LfgEnv} `{RND : Random} `{ME : MgrEnv}.

Lemma quiet_modify f : (∀ m, quiet m (f m)) → keeps quiet (modify f).
Proof. intros H m a m' [= _ <-]. apply H. Qed.

Lemma stable_NONE : stable LFG_STATE_NONE.
Proof. by left. Qed.

Lemma states_pdata m g : states_ok m → stable (m_OldState (pdata m g)).
Proof.
  intros [H _]. unfold pdata. destruct (PlayersStore m !! g) as [d|] eqn:E; [|apply stable_NONE].
  exact (H g d E).
Qed.

Lemma states_gdata m g : states_ok m → stable (g_OldState (gdata m g)).
Proof.
  intros [_ H]. unfold gdata. destruct (GroupsStore m !! g) as [d|] eqn:E; [|apply stable_NONE].
  exact (H g d E).
Qed.

Lemma quiet_player g f :
  (∀ d, stable (m_OldState d) → stable (m_OldState (f d))) → keeps quiet (upd_player g f).
Proof.
  intros Hf. apply quiet_modify. intros m. split; try done. intros Hok. split; [|apply Hok].
  apply map_Forall_insert_2; [|apply Hok]. by apply Hf, states_pdata.
Qed.

Lemma quiet_group g f :
  (∀ d, stable (g_OldState d) → stable (g_OldState (f d))) → keeps quiet (upd_group g f).
Proof.
  intros Hf. apply quiet_modify. intros m. split; try done. intros Hok. split; [apply Hok|].
  apply map_Forall_insert_2; [|apply Hok]. by apply Hf, states_gdata.
Qed.

Lemma quiet_queues f : keeps quiet (modify (λ m, set_queues m (f m))).
Proof. by apply quiet_modify. Qed.

Lemma quiet_timer f : keeps quiet (modify (λ m, set_timer m (f m))).
Proof. by apply quiet_modify. Qed.

Lemma quiet_send g msg : keeps quiet (send g msg).
Proof. apply keeps_when; [apply _|]. by apply quiet_modify. Qed.

Lemma quiet_SetState g s : keeps quiet (SetState g s).
Proof.
  unfold SetState. case_bool.
  - apply quiet_group. intros d Hd. unfold stable in *. destruct s; cbn; tauto.
  - apply quiet_player. intros d Hd. unfold stable in *. destruct s; cbn; tauto.
Qed.

Lemma quiet_RestoreState g : keeps quiet (RestoreState g).
Proof.
  unfold RestoreState. case_bool; [by apply quiet_group|].
  apply quiet_player. intros d Hd. unfold PlayerRestoreState. by case_bool.
Qed.

Lemma quiet_SetGroup g x : keeps quiet (SetGroup g x).
Proof. by apply quiet_player. Qed.
Lemma quiet_SetTeam g x : keeps quiet (SetTeam g x).
Proof. by apply quiet_player. Qed.
Lemma quiet_SetRoles g x : keeps quiet (SetRoles g x).
Proof. by apply quiet_player. Qed.
Lemma quiet_SetComment g x : keeps quiet (SetComment g x).
Proof. by apply quiet_player. Qed.
Lemma quiet_SetSelectedDungeons g x : keeps quiet (SetSelectedDungeons g x).
Proof. by apply quiet_player. Qed.
Lemma quiet_SetRandomPlayersCount g x : keeps quiet (SetRandomPlayersCount g x).
Proof. by apply quiet_player. Qed.
Lemma quiet_SetDungeon g x : keeps quiet (SetDungeon g x).
Proof. by apply quiet_group. Qed.
Lemma quiet_SetLeader g x : keeps quiet (SetLeader g x).
Proof. by apply quiet_group. Qed.
Lemma quiet_DecreaseKicksLeft g : keeps quiet (DecreaseKicksLeft g).
Proof. by apply quiet_group. Qed.
Lemma quiet_AddPlayerToGroup g x : keeps quiet (AddPlayerToGroup g x).
Proof. by apply quiet_group. Qed.
Lemma quiet_SetVoteKick g x : keeps quiet (SetVoteKick g x).
Proof. apply keeps_bind; [apply _|apply keeps_lift, _|intros _]. by apply quiet_group. Qed.
End quiet.

#[export] Hint Resolve quiet_queues quiet_timer quiet_send quiet_SetState quiet_RestoreState
  quiet_SetGroup quiet_SetTeam quiet_SetRoles quiet_SetComment quiet_SetSelectedDungeons
  quiet_SetRandomPlayersCount quiet_SetDungeon quiet_SetLeader quiet_DecreaseKicksLeft
  quiet_AddPlayerToGroup quiet_SetVoteKick : quiet.

Section quiet_handlers.
Context `{LE : LfgEnv} `{RND : Random} `{ME : MgrEnv}.

Lemma quiet_RemovePlayerFromGroup g x : keeps quiet (RemovePlayerFromGroup g x).
Proof.
  intros m a m' H. apply bind_Ok in H as (m0 & m1 & E & H). injection E as <- <-.
  apply bind_Ok in H as ([] & m1 & E & H). injection E as <-. injection H as <- <-. split; try done.
  intros Hok. split; [apply Hok|]. apply map_Forall_insert_2; [|apply Hok].
  apply (states_gdata m g Hok).
Qed.

Lemma quiet_on_queue id f : keeps quiet (on_queue id f).
Proof. unfold on_queue. quiet_solve. Qed.
#[local] Hint Resolve quiet_RemovePlayerFromGroup quiet_on_queue : quiet.

Lemma quiet_SetupGroupMember g x : keeps quiet (SetupGroupMember g x).
Proof. unfold SetupGroupMember. quiet_solve. Qed.

Lemma quiet_leave_queue g : keeps quiet (leave_queue g).
Proof. unfold leave_queue. quiet_solve. Qed.

Lemma quiet_remove_everywhere g : keeps quiet (remove_everywhere g).
Proof. unfold remove_everywhere. quiet_solve. Qed.
#[local] Hint Resolve quiet_SetupGroupMember quiet_leave_queue quiet_remove_everywhere : quiet.

Lemma quiet_LeaveAllLfgQueues g b gg : keeps quiet (LeaveAllLfgQueues g b gg).
Proof. unfold LeaveAllLfgQueues. quiet_solve. Qed.
#[local] Hint Resolve quiet_LeaveAllLfgQueues : quiet.

Lemma quiet_role_check_player rc b g r p : keeps quiet (role_check_player rc b g r p).
Proof. unfold role_check_player. quiet_solve. Qed.

Lemma quiet_send_boot b ps : keeps quiet (send_boot b ps).
Proof. unfold send_boot. quiet_solve. Qed.

Lemma quiet_notify_failed t p rem kv : keeps quiet (notify_failed t p rem kv).
Proof. unfold notify_failed. quiet_solve. Qed.

Lemma quiet_join_player p b now q kv d : keeps quiet (join_player p b now q kv d).
Proof. unfold join_player. quiet_solve. Qed.

Lemma quiet_join_players p b now q ps d ts : keeps quiet (join_players p b now q ps d ts).
Proof.
  revert d ts. induction ps as [|kv ps IH]; intros d ts; cbn [join_players]; [quiet_solve|].
  apply keeps_bind; [apply _|apply quiet_join_player|intros r; apply IH].
Qed.

Lemma quiet_announce_player p g : keeps quiet (announce_player p g).
Proof. unfold announce_player. quiet_solve. Qed.

Lemma quiet_join_alone now j r ds rd b c : keeps quiet (join_alone now j r ds rd b c).
Proof. unfold join_alone. quiet_solve. Qed.

Lemma quiet_UpdateStart now : keeps quiet (UpdateStart now).
Proof. unfold UpdateStart. quiet_solve. Qed.

Lemma quiet_send_status now id : keeps quiet (send_status now id).
Proof. unfold send_status. quiet_solve. Qed.

Lemma quiet_delete_group g : keeps quiet (modify (λ m, set_groups m (delete g (GroupsStore m)))).
Proof.
  apply quiet_modify. intros m. split; try done. intros Hok. split; [apply Hok|].
  apply map_Forall_delete, Hok.
Qed.
#[local] Hint Resolve quiet_delete_group : quiet.

Lemma quiet_RemoveGroupData g : keeps quiet (RemoveGroupData g).
Proof. unfold RemoveGroupData. quiet_solve. Qed.
End quiet_handlers.

#[export] Hint Resolve quiet_RemovePlayerFromGroup quiet_on_queue quiet_SetupGroupMember
  quiet_leave_queue quiet_LeaveAllLfgQueues quiet_role_check_player quiet_send_boot
  quiet_notify_failed quiet_join_player quiet_join_players quiet_announce_player quiet_join_alone
  quiet_UpdateStart quiet_send_status quiet_RemoveGroupData : quiet.

(** ** The invariant *)

Definition check_ok (rc : LfgRoleCheck) : Prop :=
  rc_state rc = LFG_ROLECHECK_INITIALITING ∧ ∃ p, rc_roles rc !! p = Some PLAYER_ROLE_NONE.
Definition prop_ok (id : Z) (p : LfgProposal) : Prop := p_id p = id ∧ p_state p = LFG_PROPOSAL_INITIATING.
Definition boot_ok (b : LfgPlayerBoot) : Prop :=
  inProgress b = true ∧ count_if agreed (votes b) < LFG_GROUP_KICK_VOTES_NEEDED.

(** While the group of a proposal is built or a player is kicked, the proposal [ex] or
    the vote of the group [eg] that is being decided is excepted. *)
Record ok_but (ex eg : option Z) (m : LFGMgr) : Prop := mkMgrOk {
  ok_states : states_ok m;
  ok_checks : map_Forall (λ _, check_ok) (RoleChecksStore m);
  ok_props : map_Forall (λ id p, ex ≠ Some id → prop_ok id p) (ProposalsStore m);
  ok_boots : map_Forall (λ g b, eg ≠ Some g → boot_ok b) (BootsStore m)
}.
Abbreviation mgr_ok := (ok_but None None).

Definition safe_but (ex eg : option Z) (m m' : LFGMgr) : Prop := ok_but ex eg m → ok_but ex eg m'.
Abbreviation safe := (safe_but None None).
#[export] Instance safe_pre ex eg : PreOrder (safe_but ex eg).
Proof. unfold safe_but. split; [by intros m|]. intros a b c ? ?. auto. Qed.

Lemma quiet_ok ex eg m m' : quiet m m' → ok_but ex eg m → ok_but ex eg m'.
Proof. intros [H1 H2 H3 _ H5] [K1 K2 K3 K4]. split; [auto|by rewrite H1|by rewrite H2|by rewrite H3]. Qed.

Lemma keeps_safe {A} (k : LM A) ex eg : keeps quiet k → keeps (safe_but ex eg) k.
Proof. intros H m a m' E. exact (quiet_ok ex eg m m' (H m a m' E)). Qed.

Lemma quiet_of {A} (k : LM A) m a m' : keeps quiet k → k m = Ok (a, m') → quiet m m'.
Proof. intros H E. by eapply H. Qed.

(** Replaces the runs of quiet parts of a handler by what they leave. *)
Ltac quiet_parts :=
  repeat match goal with
  | H : ?k ?m = Ok (?a, ?m') |- _ =>
    let Q := fresh "Q" in
    assert (quiet m m') as Q by (eapply quiet_of; [|exact H]; quiet_solve); clear H
  end;
  repeat match goal with
  | Q1 : quiet ?a ?b, Q2 : quiet ?b ?c |- _ =>
    let Q := fresh "Q" in
    assert (quiet a c) as Q by (etransitivity; [exact Q1|exact Q2]); clear Q1 Q2
  end.

(** ** Counting votes *)

Lemma count_if_items {V} (p : V → bool) (m : gmap Z V) :
  count_if p m = Z.of_nat (length (filter (λ kv : Z * V, p kv.2 = true) (items m))).
Proof.
  unfold count_if. f_equal. rewrite map_filter_alt, (map_size_list_to_map (M := gmap Z)).
  - apply Permutation_length. by rewrite items_Permutation.
  - pose proof (NoDup_fst_map_to_list m) as Hn. revert Hn. generalize (map_to_list m) as l.
    induction l as [|kv l IH]; intros Hn; [constructor|]. apply NoDup_cons in Hn as [Hx Hn].
    rewrite filter_cons. case_decide; [|auto]. apply NoDup_cons. split; [|auto].
    intros (kv' & E & [_ Hin]%list_elem_of_filter)%list_elem_of_fmap. apply Hx. rewrite E.
    by apply list_elem_of_fmap_2.
Qed.

Lemma foldl_count {V} (p : V → bool) (l : list (Z * V)) n :
  foldl (λ n kv, if p kv.2 then u8 (n + 1) else n) (u8 n) l
  = u8 (n + Z.of_nat (length (filter (λ kv : Z * V, p kv.2 = true) l))).
Proof.
  revert n. induction l as [|kv l IH]; intros n; [cbn; f_equal; lia|]. cbn [foldl].
  rewrite filter_cons. destruct (p kv.2); cbn [decide bool_eq_dec].
  - rewrite wrap_add_l, IH. case_decide; [|done]. cbn [length]. f_equal. lia.
  - case_decide; [done|]. apply IH.
Qed.

Lemma agree_num_count vs : agree_num vs = u8 (count_if agreed vs).
Proof. unfold agree_num. rewrite count_if_items. apply (foldl_count agreed (items vs) 0). Qed.

Lemma votes_num_count vs : votes_num vs = u8 (count_if answered vs).
Proof. unfold votes_num. rewrite count_if_items. apply (foldl_count answered (items vs) 0). Qed.

Lemma count_agreed_insert vs g a :
  vs !! g = Some LFG_ANSWER_PENDING ∨ vs !! g = None →
  count_if agreed (<[g := a]> vs) = count_if agreed vs + (if agreed a then 1 else 0).
Proof.
  intros [H|H]; [|by apply count_if_insert_new].
  rewrite (count_if_insert _ _ _ _ _ H).
  replace (if agreed LFG_ANSWER_PENDING then 1 else 0) with 0 by reflexivity. lia.
Qed.

(** ** Every operation preserves the invariant *)

Section preserve.
Context `{LE : LfgEnv} `{RND : Random} `{ME : MgrEnv}.
#[local] Hint Resolve safe_pre : quiet.

(** Changing one store. *)
Lemma ok_set_checks ex eg m x :
  ok_but ex eg m → map_Forall (λ _, check_ok) x → ok_but ex eg (set_roleChecks m x).
Proof. intros [? ? ? ?] H. by split. Qed.
Lemma ok_set_props ex ex' eg m x :
  ok_but ex eg m → map_Forall (λ id p, ex' ≠ Some id → prop_ok id p) x → ok_but ex' eg (set_proposals m x).
Proof. intros [? ? ? ?] H. by split. Qed.
Lemma ok_set_boots ex eg eg' m x :
  ok_but ex eg m → map_Forall (λ g b, eg' ≠ Some g → boot_ok b) x → ok_but ex eg' (set_boots m x).
Proof. intros [? ? ? ?] H. by split. Qed.

(** The end of what is excepted. *)
Lemma ok_delete_prop ex id eg m :
  ok_but ex eg m → ex = None ∨ ex = Some id → ok_but None eg (set_proposals m (delete id (ProposalsStore m))).
Proof.
  intros Hok Hex. eapply ok_set_props; [exact Hok|].
  intros k p [Hne Hk]%lookup_delete_Some _. apply (ok_props _ _ m Hok k p Hk). destruct Hex; congruence.
Qed.
Lemma ok_delete_boot ex g m :
  ok_but ex (Some g) m → ok_but ex None (set_boots m (delete g (BootsStore m))).
Proof.
  intros Hok. eapply ok_set_boots; [exact Hok|].
  intros k b [Hne Hk]%lookup_delete_Some _. apply (ok_boots _ _ m Hok k b Hk). congruence.
Qed.

Lemma safe_erase_role_check ex eg g : keeps (safe_but ex eg) (erase_role_check g).
Proof.
  intros m a m' [= _ <-] Hok. apply ok_set_checks; [done|]. apply map_Forall_delete, Hok.
Qed.

Lemma answer_role_check_waits rc g r rc' :
  rc_state rc = LFG_ROLECHECK_INITIALITING → answer_role_check rc g r = Ok rc' →
  rc_state rc' = LFG_ROLECHECK_INITIALITING → check_ok rc'.
Proof.
  intros Hrc H Hs. split; [done|]. revert H Hs. unfold answer_role_check.
  repeat case_bool; try (intros [= <-]; done).
  - destruct (CheckGroupRoles _) as [[ok ?]| | | |]; try done. cbn. intros [= <-]. by destruct ok.
  - intros [= <-] _. apply not_true_iff_false in E1.
    destruct (decide (Exists (λ kv, kv.2 = PLAYER_ROLE_NONE) (items (<[g:=r]> (rc_roles rc))))) as [He|He].
    + apply Exists_exists in He as ([p x] & Hin & Hx). apply items_elem in Hin. cbn in *. subst x. eauto.
    + destruct E1. apply forallb_forall. intros kv Hin%list_elem_of_In. apply negb_true_iff, Z.eqb_neq.
      intros Hx. apply He, Exists_exists. eauto.
Qed.

(** The answer to the role check of [gguid], whatever that check was. *)
Lemma UpdateRoleCheck_ok ex eg now gguid guid roles m a m' :
  ok_but ex eg (set_roleChecks m (delete gguid (RoleChecksStore m))) →
  (∀ rc, RoleChecksStore m !! gguid = Some rc → rc_state rc = LFG_ROLECHECK_INITIALITING) →
  gguid ≠ 0 → UpdateRoleCheck now gguid guid roles m = Ok (a, m') → ok_but ex eg m'.
Proof.
  intros Hok Hrc Hg H. unfold UpdateRoleCheck in H. rewrite (proj2 (Z.eqb_neq _ _)) in H by done.
  run_inv. destruct (RoleChecksStore m !! gguid) as [rc0|] eqn:E0.
  2:{ rewrite delete_id in Hok by done. run_inv. by destruct m. }
  specialize (Hrc rc0 eq_refl). run_inv.
  match goal with x : LfgRoleCheck |- _ => rename x into rc end.
  set (m1 := set_roleChecks m (<[gguid := rc]> _)) in *. quiet_parts.
  assert (∀ m3, quiet m1 m3 → ok_but ex eg (set_roleChecks m3 (delete gguid (RoleChecksStore m3)))) as Her.
  { intros m3 [K1 K2 K3 _ K5]. split; cbn; rewrite ?K1, ?K2, ?K3; cbn; try apply Hok.
    - by apply K5, Hok.
    - unfold m1. cbn. rewrite delete_insert_eq. apply Hok. }
  unfold finish_role_check, erase_role_check in H. destruct (rc_state rc) eqn:Es; run_inv; quiet_parts; try by apply Her.
  apply (quiet_ok _ _ m1); [done|]. split; try apply Hok. cbn. rewrite <- insert_delete_eq.
  apply map_Forall_insert_2; [|apply Hok].
  by apply (answer_role_check_waits rc0 guid roles).
Qed.

Lemma safe_UpdateRoleCheck ex eg now gguid guid roles : keeps (safe_but ex eg) (UpdateRoleCheck now gguid guid roles).
Proof.
  intros m a m' H Hok. destruct (decide (gguid = 0)) as [->|Hg]; [by injection H as _ <-|].
  eapply UpdateRoleCheck_ok; [|intros rc Hrc|exact Hg|exact H].
  - apply ok_set_checks; [done|]. apply map_Forall_delete, Hok.
  - by apply (ok_checks _ _ m Hok gguid).
Qed.

Lemma safe_RemoveProposal ex eg id type : keeps (safe_but ex eg) (RemoveProposal id type).
Proof.
  intros m a m' H Hok. unfold RemoveProposal in H. run_inv.
  destruct (ProposalsStore m !! id) as [p0|] eqn:E0; [|by apply lift_Ok in H as [? _]].
  destruct (refusals type (p_players p0)) as [ps rem0]. run_inv.
  destruct (items ps) as [|[first ?] ?]; [by apply lift_Ok in H as [? _]|].
  run_inv. quiet_parts.
  match goal with Q : quiet _ _ |- _ => destruct Q as [K1 K2 K3 _ K5] end.
  split; cbn; rewrite ?K1, ?K2, ?K3; cbn; try apply Hok; [by apply K5, Hok|].
  rewrite delete_insert_eq. apply map_Forall_delete, Hok.
Qed.

(** *** Leaving, and the calls that come back from the groups *)

Lemma safe_LeaveLfg ex eg now guid : keeps (safe_but ex eg) (LeaveLfg now guid).
Proof.
  intros m a m' H Hok. unfold LeaveLfg in H. run_inv.
  destruct (GetState m guid); try (quiet_parts; by eapply quiet_ok).
  - destruct (negb _); [by eapply safe_UpdateRoleCheck|]. injection H as _ <-. done.
  - destruct (find_proposal m _) as [[id p]|] eqn:Ef; [|run_inv; done].
    run_inv.
    eapply safe_RemoveProposal; [exact H|]. eapply ok_set_props; [exact Hok|].
    unfold find_proposal in Ef. apply find_some in Ef as [Hin _]. apply list_elem_of_In, items_elem in Hin.
    apply map_Forall_insert_2; [|apply Hok]. exact (ok_props _ _ m Hok id p Hin).
Qed.

Lemma safe_call ex eg c : keeps (safe_but ex eg) (call c).
Proof.
  destruct c; cbn [call]; try (apply keeps_safe; quiet_solve; fail).
  - apply keeps_bind; [apply _|apply keeps_get, _|intros m]. apply keeps_when; [apply _|]. apply safe_LeaveLfg.
  - apply safe_LeaveLfg.
Qed.

Lemma safe_calls ex eg l : keeps (safe_but ex eg) (for_each l call).
Proof. apply keeps_for_each; [apply _|]. intros c _. apply safe_call. Qed.

Lemma safe_erase_proposal id eg m a m' :
  ok_but (Some id) eg m → erase_proposal id m = Ok (a, m') → ok_but None eg m'.
Proof.
  intros Hok H. unfold erase_proposal in H. run_inv.
  destruct (ProposalsStore m !! id); [|by apply lift_Ok in H as [? _]].
  run_inv. eapply ok_delete_prop; [exact Hok|by right].
Qed.

Lemma safe_UpdateProposal now id guid answer : keeps safe (UpdateProposal now id guid answer).
Proof.
  intros m a m' H Hok. unfold UpdateProposal in H. run_inv.
  destruct (ProposalsStore m !! id) as [p0|] eqn:E0; [|run_inv; done].
  destruct (p_players p0 !! guid) as [pl|]; [|run_inv; done]. run_inv.
  set (ps := <[guid := _]> _) in *.
  set (m1 := set_proposals m _) in *.
  assert (mgr_ok m1) as Hok1.
  { eapply ok_set_props; [exact Hok|]. apply map_Forall_insert_2; [|apply Hok].
    exact (ok_props _ _ m Hok id p0 E0). }
  destruct answer; cbn [negb] in H; [|by eapply safe_RemoveProposal].
  destruct (negb (all_agree ps)).
  - quiet_parts. by eapply quiet_ok.
  - run_inv. match goal with E : for_each _ call _ = Ok _ |- _ => rename E into Ec end.
    eapply safe_erase_proposal; [|exact H]. eapply safe_calls; [exact Ec|]. clear Ec H.
    quiet_parts. eapply quiet_ok; [eassumption|]. eapply ok_set_props; [exact Hok1|].
    apply map_Forall_insert_2; [by intros []|]. intros k p Hk _. by apply (ok_props _ _ m1 Hok1).
Qed.
Lemma safe_InitBoot now gguid kicker vguid why m a m' :
  BootsStore m !! gguid = None → mgr_ok m → InitBoot now gguid kicker vguid why m = Ok (a, m') → mgr_ok m'.
Proof.
  intros Hb Hok H. unfold InitBoot in H. run_inv.
  match goal with H : SetVoteKick _ _ m = Ok (_, ?mx) |- _ => rename mx into m1 end.
  quiet_parts. assert (mgr_ok m1) as Hok1 by (by eapply quiet_ok).
  match goal with Q : quiet m m1 |- _ => destruct Q as [_ _ Q3 _ _] end.
  eapply quiet_ok; [eassumption|]. eapply ok_set_boots; [exact Hok1|].
  apply map_Forall_insert_2; [intros _|apply Hok1]. split; [done|]. cbn [votes].
  rewrite Q3, Hb. set (vs := foldl _ _ _).
  assert (count_if agreed (<[vguid := LFG_ANSWER_DENY]> vs) = 0) as Hz.
  { apply count_if_none. intros k v. rewrite lookup_insert_Some. intros [[_ <-]|[_ Hv]]; [done|].
    assert (map_Forall (λ _ a, agreed a = false) vs) as Hall; [|exact (Hall k v Hv)].
    unfold vs. apply (foldl_inv (map_Forall (λ _ a, agreed a = false))); [apply map_Forall_empty|].
    intros vs' p Hvs'. by apply map_Forall_insert_2. }
  destruct ((<[vguid := LFG_ANSWER_DENY]> vs) !! kicker) as [x|] eqn:Ek.
  - rewrite (count_if_insert _ _ _ _ _ Ek), Hz. by destruct (agreed x).
  - by rewrite (count_if_insert_new _ _ _ _ Ek), Hz.
Qed.

(** The vote that is read when a player votes. *)
Lemma vote_of_ok vs guid a vs' :
  vote_of vs guid = (a, vs') → vs' !! guid = Some a ∧ count_if agreed vs' = count_if agreed vs.
Proof.
  unfold vote_of. destruct (vs !! guid) as [x|] eqn:E; intros [= <- <-]; [by split|].
  split; [apply lookup_insert_eq|]. rewrite count_if_insert_new by done.
  replace (if agreed LFG_ANSWER_DENY then 1 else 0) with 0 by reflexivity. lia.
Qed.

Lemma safe_UpdateBoot guid answer : keeps safe (UpdateBoot guid answer).
Proof.
  intros m a m' H Hok. unfold UpdateBoot in H. run_inv.
  destruct (MgrGetGroup m guid =? 0); [run_inv; done|]. set (gguid := MgrGetGroup m guid) in *.
  destruct (BootsStore m !! gguid) as [b|] eqn:Eb; [|run_inv; done].
  destruct (vote_of (votes b) guid) as [x vs] eqn:Ev. apply vote_of_ok in Ev as [Hx Hc].
  destruct (ok_boots _ _ m Hok gguid b Eb) as [Hp Hn]; [done|]. run_inv. unfold set_boot in *.
  assert (mgr_ok (set_boots m (<[gguid := boot_with b vs (inProgress b)]> (BootsStore m)))) as Hok0.
  { eapply ok_set_boots; [exact Hok|]. apply map_Forall_insert_2; [|apply Hok]. by rewrite <- Hc in Hn. }
  destruct (answered x) eqn:Ex; run_inv; [done|].
  assert (x = LFG_ANSWER_PENDING) as -> by (destruct x; done).
  set (vs2 := <[guid := _]> vs) in *.
  destruct ((agree_num vs2 <? _) && _) eqn:Et; run_inv.
  - b2p. eapply ok_set_boots; [exact Hok0|]. apply map_Forall_insert_2; [|apply Hok0].
    intros _. split; [done|]. cbn. rewrite agree_num_count in *.
    assert (count_if agreed vs2 ≤ count_if agreed vs + 1).
    { unfold vs2. rewrite count_agreed_insert by (by left). by destruct (agreed _); lia. }
    rewrite wrap_small in * by (pose proof (count_if_nonneg agreed vs2);
      unfold in_u, LFG_GROUP_KICK_VOTES_NEEDED in *; lia). done.
  - match goal with E : when _ _ ?mx = Ok (_, ?my) |- _ =>
      rename E into Ec; rename mx into n1; rename my into n2 end.
    assert (ok_but None (Some gguid) n1) as Hok1.
    { clear Ec. quiet_parts. eapply quiet_ok; [eassumption|]. split; try apply Hok. cbn.
      rewrite !insert_insert_eq. apply map_Forall_insert_2; [by intros []|]. intros k y Hk _. by apply (ok_boots _ _ m Hok k y Hk). }
    apply ok_delete_boot. revert Ec Hok1. refine ((_ : keeps (safe_but None (Some gguid)) _) n1 _ n2).
    apply keeps_when; [apply _|]. apply keeps_bind; [apply _|apply keeps_get, _|intros m3].
    apply keeps_bind; [apply _|apply safe_calls|intros _]. apply keeps_safe. quiet_solve.
Qed.

Lemma safe_start_role_check now j roles g ds rd cont comment m a m' :
  IsGroup (jg_guid g) = true → mgr_ok m →
  start_role_check now j roles g ds rd cont comment m = Ok (a, m') → mgr_ok m'.
Proof.
  intros Hg Hok H. unfold start_role_check in H. run_inv.
  match goal with H : for_each _ _ _ = Ok (_, ?mx) |- _ => rename mx into m1 end.
  quiet_parts. assert (mgr_ok m1) as Hok1 by (by eapply quiet_ok).
  eapply UpdateRoleCheck_ok; [| | |exact H]; cbn.
  - rewrite delete_insert_eq. apply (ok_set_checks _ _ m1); [done|]. apply map_Forall_delete, Hok1.
  - rewrite lookup_insert_eq. by intros rc [= <-].
  - intros E. by rewrite E in Hg.
Qed.

Lemma safe_JoinLfg now j grp roles ds comment m a m' :
  match grp with Some g => IsGroup (jg_guid g) = true | None => True end → mgr_ok m →
  JoinLfg now j grp roles ds comment m = Ok (a, m') → mgr_ok m'.
Proof.
  intros Hg Hok H. unfold JoinLfg in H. destruct (bool_decide (ds = ∅)); [run_inv; done|]. run_inv.
  match goal with E : when _ _ _ = Ok (_, ?mx) |- _ => rename mx into m1 end.
  quiet_parts. assert (mgr_ok m1) as Hok1 by (by eapply quiet_ok).
  repeat match type of H with
  | (let '(_, _) := ?x in _) _ = _ => destruct x
  end.
  match type of H with (if ?c then _ else _) _ = _ => destruct c end; [quiet_parts; by eapply quiet_ok|].
  run_inv. match goal with b : bool |- _ => destruct b end; [run_inv; quiet_parts; by eapply quiet_ok|].
  match goal with E : SetComment _ _ _ = Ok (_, ?mx) |- _ => rename mx into m2 end.
  destruct grp as [g'|].
  - quiet_parts. eapply safe_start_role_check; [exact Hg| |exact H]. by eapply quiet_ok.
  - quiet_parts. by eapply quiet_ok.
Qed.

(** Proposals come from the queues undecided. *)
Lemma BuildProposal_state `{LG : LfgGroups} now l a cd ld grp s p s' :
  BuildProposal now l a cd ld grp s = Ok (p, s') → p_state p = LFG_PROPOSAL_INITIATING.
Proof.
  unfold BuildProposal. destruct (SelectRandomContainerElement _ _) as [[d ?]| | | |]; try done.
  cbn. by intros [= <- _].
Qed.

Lemma search_state `{LG : LfgGroups} q now p cs newC s q' pr newC' s' :
  search q now p cs newC s = Ok (Some (q', pr), newC', s') → p_state pr = LFG_PROPOSAL_INITIATING.
Proof.
  revert newC s. induction cs as [|[t c] cs IH]; intros newC s; cbn [search]; [done|].
  destruct (set_insert _ _ _) as [cg| | | |]; try done. cbn [obind].
  destruct (BuildCombinationInfo _ _ _) as [[info s1]| | | |]; try done. cbn [obind].
  destruct info as [|ps a|ps a cd ld grp]; [apply IH| |].
  - destruct (ToCombination _ _ _) as [tc| | | |]; try done. cbn [obind]. apply IH.
  - destruct (BuildProposal _ _ _ _ _ _ _) as [[pr' s2]| | | |] eqn:Eb; try done. cbn [obind].
    destruct (RemovePremades _ _) as [q1| | | |]; try done. cbn. intros [= _ <- _ _].
    by eapply BuildProposal_state.
Qed.

Lemma FindGroup_state `{LG : LfgGroups} q now p s b q' pr s' :
  FindGroup q now p s = Ok (b, q', Some pr, s') → p_state pr = LFG_PROPOSAL_INITIATING.
Proof.
  unfold FindGroup. destruct (BuildCombinationInfo _ _ _) as [[info s1]| | | |]; try done. cbn [obind].
  destruct info as [|ps a|ps a cd ld grp]; [done| |].
  2:{ destruct (BuildProposal _ _ _ _ _ _ _) as [[pr' s2]| | | |] eqn:Eb; try done. cbn. intros [= _ _ <- _].
      by eapply BuildProposal_state. }
  - destruct (ToCombination _ _ _) as [tc| | | |]; try done. cbn [obind].
    destruct (search _ _ _ _ _ _) as [[[[[q1 pr1]|] newC] s2]| | | |] eqn:Es; try done; cbn [obind].
    + intros [= _ _ <- _]. by eapply search_state.
    + by destruct (set_insert _ _ _).
Qed.

Lemma safe_AddProposal p : p_state p = LFG_PROPOSAL_INITIATING → keeps safe (AddProposal p).
Proof.
  intros Hp m a m' H Hok. unfold AddProposal in H. run_inv. split; try apply Hok. cbn.
  apply map_Forall_insert_2; [by split|apply Hok].
Qed.

Lemma safe_UpdateQueues now ids s : keeps safe (UpdateQueues now ids s).
Proof.
  revert s. induction ids as [|id ids IH]; intros s; cbn [UpdateQueues]; [by apply keeps_safe, keeps_ret, _|].
  intros m a m' H Hok. run_inv.
  match goal with E : FindGroups _ _ _ = Ok ?r |- _ => destruct r as [[q p] s1]; rename E into Ef end.
  assert (∀ pr, p = Some pr → p_state pr = LFG_PROPOSAL_INITIATING) as Hpr.
  { intros pr ->. unfold FindGroups in Ef.
    destruct (add_delayed _ _ _) as [q1| | | |]; try done. cbn [obind] in Ef.
    destruct (newToQueue q1); [done|].
    destruct (FindGroup _ _ _ _) as [[[[b q2] p2] s2]| | | |] eqn:E2; try done. cbn in Ef.
    injection Ef as _ -> _. by eapply FindGroup_state. }
  run_inv. eapply IH; [exact H|].
  match goal with E : (match p with _ => _ end) m = Ok (_, ?mx) |- _ => rename mx into m1; rename E into Ep end.
  assert (mgr_ok m1) as Hok1.
  { destruct p as [pr|]; [by eapply (safe_AddProposal pr); [apply Hpr| |]|]. run_inv. done. }
  by apply (quiet_ok _ _ m1).
Qed.
Lemma safe_expire_role_check now kv : keeps safe (expire_role_check now kv).
Proof.
  unfold expire_role_check. case_bool; [apply keeps_safe, keeps_skip, _|].
  apply keeps_bind; [apply _|apply keeps_safe; quiet_solve|intros _].
  apply keeps_bind; [apply _|apply keeps_safe; quiet_solve|intros _]. apply safe_erase_role_check.
Qed.

Lemma safe_expire_proposal now kv : keeps safe (expire_proposal now kv).
Proof. apply keeps_when; [apply _|]. apply safe_RemoveProposal. Qed.

Lemma safe_expire_boot now kv : keeps safe (expire_boot now kv).
Proof.
  apply keeps_when; [apply _|].
  apply keeps_bind; [apply _|apply keeps_safe; quiet_solve|intros _].
  apply keeps_bind; [apply _|apply keeps_safe; quiet_solve|intros _].
  intros m a m' H Hok. run_inv. eapply ok_set_boots; [exact Hok|]. apply map_Forall_delete, Hok.
Qed.

Lemma safe_announce now id : keeps safe (announce now id).
Proof.
  intros m a m' H Hok. unfold announce in H. run_inv.
  destruct (ProposalsStore m !! id) as [p|] eqn:Ep; [|run_inv; done].
  destruct (negb (needSendUpdate p)); [run_inv; done|]. run_inv.
  match goal with E : for_each _ _ _ = Ok (_, ?mx) |- _ => rename mx into m1; rename E into Ef end.
  assert (mgr_ok m1) as Hok1.
  { eapply quiet_ok; [eapply quiet_of; [|exact Ef]; quiet_solve|]. eapply ok_set_props; [exact Hok|].
    apply map_Forall_insert_2; [|apply Hok]. exact (ok_props _ _ m Hok id p Ep). }
  revert H Hok1. refine ((_ : keeps safe _) m1 a m'). apply keeps_when; [apply _|].
  apply keeps_bind; [apply _|apply safe_UpdateProposal|intros _]. apply keeps_safe. quiet_solve.
Qed.

Lemma safe_UpdateFinish now diff : keeps safe (UpdateFinish now diff).
Proof.
  unfold UpdateFinish. case_bool; [apply keeps_safe, keeps_skip, _|].
  repeat (apply keeps_bind; [apply _| |intros ?]);
    try (apply keeps_safe, keeps_get, _); try (apply keeps_for_each; [apply _|intros ? ?]).
  - apply safe_expire_role_check.
  - apply safe_expire_proposal.
  - apply safe_expire_boot.
  - apply safe_announce.
  - apply keeps_safe. quiet_solve.
Qed.

(** The hooks. *)
Lemma safe_if_enabled k : keeps safe k → keeps safe (if_enabled k).
Proof. apply keeps_when, _. Qed.

Ltac safe_step :=
  match goal with
  | |- keeps safe (_ ≫= _) => apply keeps_bind; [apply _| |intros ?]
  | |- keeps safe (if_enabled _) => apply safe_if_enabled
  | |- keeps safe (LeaveLfg _ _) => apply safe_LeaveLfg
  | |- keeps safe (when _ _) => apply keeps_when; [apply _|]
  | |- keeps safe (if ?b then _ else _) => destruct b eqn:?
  | |- keeps safe (match ?x with _ => _ end) => destruct x eqn:?
  | |- keeps safe _ => apply keeps_safe; quiet_solve; fail
  end.

Lemma safe_OnLogout now g grp : keeps safe (OnLogout now g grp).
Proof. unfold OnLogout. repeat safe_step. Qed.
Lemma safe_OnLogin g t grp : keeps safe (OnLogin g t grp).
Proof. unfold OnLogin. repeat safe_step. Qed.
Lemma safe_OnAddMember now grp g : keeps safe (OnAddMember now grp g).
Proof. unfold OnAddMember. repeat safe_step. Qed.
Lemma safe_OnDisband grp : keeps safe (OnDisband grp).
Proof. unfold OnDisband. repeat safe_step. Qed.
Lemma safe_OnChangeLeader grp g : keeps safe (OnChangeLeader grp g).
Proof. unfold OnChangeLeader. repeat safe_step. Qed.
Lemma safe_OnInviteMember now grp : keeps safe (OnInviteMember now grp).
Proof. unfold OnInviteMember. repeat safe_step. Qed.

Lemma safe_OnRemoveMember now grp g method kicker why m a m' :
  (method = GROUP_REMOVEMETHOD_KICK → BootsStore m !! gv_guid grp = None) → mgr_ok m →
  OnRemoveMember now grp g method kicker why m = Ok (a, m') → mgr_ok m'.
Proof.
  intros Hb Hok H. unfold OnRemoveMember, if_enabled, when in H.
  destruct (isOptionEnabled _); [|run_inv; done].
  destruct (gv_isLFG grp && bool_decide (method = GROUP_REMOVEMETHOD_KICK)) eqn:Ek.
  - apply andb_true_iff in Ek as [_ Ek%bool_decide_eq_true]. eapply safe_InitBoot; [by apply Hb|done|exact H].
  - revert H Hok. match goal with |- ?k m = _ → _ => refine ((_ : keeps safe k) m a m') end.
    repeat safe_step.
Qed.
End preserve.

(** ** Histories of the manager *)

Section histories.
Context `{RND : Random}.

(** The packets of the clients, the hooks and the parts of the world's update. *)
Inductive mgr_op :=
| OpJoin (now : Z) (j : Joiner) (grp : option JoinGroup) (roles : Z) (ds : LfgDungeonSet) (comment : string)
| OpSetRoles (now gguid guid roles : Z)
| OpAnswer (now id guid : Z) (accept : bool)
| OpVote (guid : Z) (accept : bool)
| OpLeave (now guid : Z)
| OpUpdateStart (now : Z)
| OpUpdateQueues (now : Z) (s : rng)
| OpUpdateFinish (now diff : Z)
| OpLogin (guid team : Z) (group : option GroupView)
| OpLogout (now guid : Z) (group : option GroupView)
| OpAddMember (now : Z) (group : GroupView) (guid : Z)
| OpRemoveMember (now : Z) (group : GroupView) (guid : Z) (method : RemoveMethod) (kicker : Z) (why : string)
| OpDisband (group : GroupView)
| OpChangeLeader (group : GroupView) (newLeaderGuid : Z)
| OpInvite (now : Z) (group : GroupView)
| OpCall (c : group_call).

Definition perform `{LE : LfgEnv} `{ME : MgrEnv} (o : mgr_op) : LM unit :=
  match o with
  | OpJoin now j grp roles ds comment => JoinLfg now j grp roles ds comment
  | OpSetRoles now gguid guid roles => UpdateRoleCheck now gguid guid roles
  | OpAnswer now id guid accept => UpdateProposal now id guid accept
  | OpVote guid accept => UpdateBoot guid accept
  | OpLeave now guid => LeaveLfg now guid
  | OpUpdateStart now => _ ← UpdateStart now; skip
  | OpUpdateQueues now s => m ← get; _ ← UpdateQueues now (items (QueuesStore m)).*1 s; skip
  | OpUpdateFinish now diff => UpdateFinish now diff
  | OpLogin guid team group => OnLogin guid team group
  | OpLogout now guid group => OnLogout now guid group
  | OpAddMember now group guid => OnAddMember now group guid
  | OpRemoveMember now group guid method kicker why => OnRemoveMember now group guid method kicker why
  | OpDisband group => OnDisband group
  | OpChangeLeader group guid => OnChangeLeader group guid
  | OpInvite now group => OnInviteMember now group
  | OpCall c => call c
  end.

(** What the callers see to: the guid of a group is one, and a vote to kick is not
    started while the group has one (Player::CanUninviteFromGroup). *)
Definition mgr_pre (m : LFGMgr) (o : mgr_op) : Prop :=
  match o with
  | OpJoin _ _ (Some g) _ _ _ => IsGroup (jg_guid g) = true
  | OpRemoveMember _ group _ GROUP_REMOVEMETHOD_KICK _ _ => BootsStore m !! gv_guid group = None
  | _ => True
  end.

(** The rest of the server (who is online and ignores whom, what the groups call back)
    may be another at every step. *)
Inductive mgr_reachable : LFGMgr → Prop :=
| mgr_init : mgr_reachable new_mgr
| mgr_step (LE : LfgEnv) (ME : MgrEnv) m o m' :
    mgr_reachable m → mgr_pre m o → perform o m = Ok (tt, m') → mgr_reachable m'.

Lemma perform_safe `{LE : LfgEnv} `{ME : MgrEnv} m o a m' : mgr_pre m o → mgr_ok m → perform o m = Ok (a, m') → mgr_ok m'.
Proof.
  intros Hpre Hok H. destruct o; cbn [perform mgr_pre] in *.
  - eapply safe_JoinLfg; [|exact Hok|exact H]. by destruct grp.
  - by eapply safe_UpdateRoleCheck.
  - by eapply safe_UpdateProposal.
  - by eapply safe_UpdateBoot.
  - by eapply safe_LeaveLfg.
  - run_inv. quiet_parts. by eapply quiet_ok.
  - run_inv. by eapply safe_UpdateQueues.
  - by eapply safe_UpdateFinish.
  - by eapply safe_OnLogin.
  - by eapply safe_OnLogout.
  - by eapply safe_OnAddMember.
  - eapply safe_OnRemoveMember; [|exact Hok|exact H]. by intros ->.
  - by eapply safe_OnDisband.
  - by eapply safe_OnChangeLeader.
  - by eapply safe_OnInviteMember.
  - by eapply safe_call.
Qed.

Lemma mgr_reachable_ok m : mgr_reachable m → mgr_ok m.
Proof.
  induction 1 as [|LE ME m o m' _ IH Hpre H]; [|by eapply perform_safe].
  split; [split|..]; apply map_Forall_empty.
Qed.

(** C15: In every history of the dungeon finder in which no vote to kick is started while
    the group has one stored, and whatever functions of the manager the groups call back,
    the state that a player or group falls back to is NONE, DUNGEON or FINISHED_DUNGEON;
    every stored role check is undecided and waits for the role of a member; every stored
    proposal is undecided and found under its own id; and every stored vote to kick is
    in progress and has fewer than three yes votes (of the noes there may be more: those
    of players who joined after it began are stored without deciding it). *)
Theorem manager_invariant (m : LFGMgr) :
  mgr_reachable m →
  (∀ guid, stable (MgrGetOldState m guid)) ∧
  (∀ gguid rc, RoleChecksStore m !! gguid = Some rc →
     rc_state rc = LFG_ROLECHECK_INITIALITING ∧ ∃ p, rc_roles rc !! p = Some PLAYER_ROLE_NONE) ∧
  (∀ id p, ProposalsStore m !! id = Some p → p_id p = id ∧ p_state p = LFG_PROPOSAL_INITIATING) ∧
  (∀ gguid b, BootsStore m !! gguid = Some b →
     inProgress b = true ∧ count_if agreed (votes b) < LFG_GROUP_KICK_VOTES_NEEDED).
Proof.
  intros Hr. destruct (mgr_reachable_ok m Hr) as [H1 H2 H3 H4].
  split; [|split; [exact H2|split; [|intros g b Hb; by apply (H4 g b Hb)]]].
  2:{ intros id p Hp. by apply (H3 id p Hp). }
  intros guid. unfold MgrGetOldState. case_bool; [by apply states_gdata|by apply states_pdata].
Qed.
End histories.

End LfgManager.
