(* ===== verification/LfgOutcomes.v ===== *)
(** * What role checks and failed proposals leave behind

    The effect of the handlers of [LfgMgr] on the data of players and groups, as
    functions applied to each of them, and with it the outcome of a role check
    (LFGMgr::UpdateRoleCheck) and of a failed proposal (LFGMgr::RemoveProposal). *)
From S2P Require Import Prelude StateMonad Multimap LfgRoles LfgQueue LfgMatch LfgInvariant LfgData LfgMgr LfgScripts LfgManager.

Module LfgOutcomes.
Export LfgManager.
Import LfgInvariant.

(** ** Handlers that always return and change players and groups one by one *)

Record acted (P : Z → LfgPlayerData → LfgPlayerData) (G : Z → LfgGroupData → LfgGroupData)
    (m m' : LFGMgr) : Prop := mkActed {
  ac_player : ∀ x, pdata m' x = P x (pdata m x);
  ac_group : ∀ x, gdata m' x = G x (gdata m x);
  ac_queues : QueuesStore m' = QueuesStore m;
  ac_checks : RoleChecksStore m' = RoleChecksStore m;
  ac_props : ProposalsStore m' = ProposalsStore m
}.

Definition acts {A} (k : LM A) P G : Prop :=
  ∀ m, ∃ a m', k m = Ok (a, m') ∧ acted P G m m'.

Definition same {D} : Z → D → D := λ _ d, d.
Definition at_ {D} (g : Z) (f : D → D) : Z → D → D := λ x d, if x =? g then f d else d.

Lemma at_eq {D} g (f : D → D) d : at_ g f g d = f d.
Proof. unfold at_. by rewrite Z.eqb_refl. Qed.
Lemma at_ne {D} g (f : D → D) x d : x ≠ g → at_ g f x d = d.
Proof. intros H. unfold at_. by rewrite (proj2 (Z.eqb_neq _ _) H). Qed.

Section acts.
Context `{LE : LfgEnv} `{RND : Random} `{ME : MgrEnv} `{HI : IgnoreHistory}.

Lemma acts_bind {A B} (k : LM A) (f : A → LM B) P G P' G' :
  acts k P G → (∀ a, acts (f a) P' G') →
  acts (k ≫= f) (λ x d, P' x (P x d)) (λ x d, G' x (G x d)).
Proof.
  intros Hk Hf m. destruct (Hk m) as (a & m1 & E & [H1 H2 H3 H4 H5]).
  destruct (Hf a m1) as (b & m2 & E' & [K1 K2 K3 K4 K5]).
  exists b, m2. unfold mbind, ST_bind. rewrite E. cbn. split; [done|].
  split; try congruence; intros x; rewrite ?K1, ?K2, ?H1, ?H2; done.
Qed.

Lemma acts_ext {A} (k : LM A) P G P' G' :
  acts k P G → (∀ x d, P x d = P' x d) → (∀ x d, G x d = G' x d) → acts k P' G'.
Proof.
  intros H HP HG m. destruct (H m) as (a & m' & E & [H1 H2 H3 H4 H5]). exists a, m'. split; [done|].
  split; try done; intros x; [by rewrite H1|by rewrite H2].
Qed.

(** Reading the state first. *)
Lemma acts_get {B} (f : LFGMgr → LM B) P G : (∀ m, acts (f m) P G) → acts (get ≫= f) P G.
Proof. intros Hf m. destruct (Hf m m) as (b & m' & E & H). by exists b, m'. Qed.

Lemma acts_skip : acts skip same same.
Proof. intros m. by exists tt, m. Qed.

Lemma acts_ret {A} (a : A) : acts (mret a) same same.
Proof. intros m. by exists a, m. Qed.

Lemma acts_out (f : LFGMgr → list (Z * lfg_msg)) : acts (modify (λ m, set_out m (f m))) same same.
Proof. intros m. by eexists _, _. Qed.

Lemma acts_send g msg : acts (send g msg) same same.
Proof. unfold send, when. destruct (connected g); [apply acts_out|apply acts_skip]. Qed.

Lemma pdata_insert m g d x :
  pdata (set_players m (<[g := d]> (PlayersStore m))) x = if x =? g then d else pdata m x.
Proof.
  unfold pdata. cbn [PlayersStore set_players]. destruct (Z.eqb_spec x g) as [->|Hne].
  - by rewrite lookup_insert_eq.
  - by rewrite lookup_insert_ne.
Qed.

Lemma gdata_insert m g d x :
  gdata (set_groups m (<[g := d]> (GroupsStore m))) x = if x =? g then d else gdata m x.
Proof.
  unfold gdata. cbn [GroupsStore set_groups]. destruct (Z.eqb_spec x g) as [->|Hne].
  - by rewrite lookup_insert_eq.
  - by rewrite lookup_insert_ne.
Qed.

Lemma acts_player g f : acts (upd_player g f) (at_ g f) same.
Proof.
  intros m. eexists _, _. split; [reflexivity|]. split; try done.
  intros x. rewrite pdata_insert. unfold at_. by destruct (Z.eqb_spec x g) as [->|].
Qed.

Lemma acts_group g f : acts (upd_group g f) same (at_ g f).
Proof.
  intros m. eexists _, _. split; [reflexivity|]. split; try done.
  intros x. rewrite gdata_insert. unfold at_. by destruct (Z.eqb_spec x g) as [->|].
Qed.

Lemma acts_for_each {A} (l : list A) (f : A → LM unit) P G :
  (∀ a, a ∈ l → acts (f a) (P a) (G a)) →
  acts (for_each l f) (λ x d, foldl (λ d a, P a x d) d l) (λ x d, foldl (λ d a, G a x d) d l).
Proof.
  induction l as [|a l IH]; intros H; [apply acts_skip|]. cbn [for_each foldl].
  apply (acts_bind (f a) (λ _, for_each l f) (P a) (G a) (λ x d, foldl (λ d a, P a x d) d l)
           (λ x d, foldl (λ d a, G a x d) d l)); [apply H; set_solver|].
  intros _. apply IH. set_solver.
Qed.

(** The states: a player or a group, by the kind of the guid. *)
Definition on_player (g : Z) (f : LfgPlayerData → LfgPlayerData) :=
  if IsGroup g then same else at_ g f.
Definition on_group (g : Z) (f : LfgGroupData → LfgGroupData) :=
  if IsGroup g then at_ g f else same.

Lemma acts_SetState g s :
  acts (SetState g s) (on_player g (λ d, PlayerSetState d s)) (on_group g (λ d, GroupSetState d s)).
Proof. unfold SetState, on_player, on_group. destruct (IsGroup g); [apply acts_group|apply acts_player]. Qed.

Lemma acts_RestoreState g :
  acts (RestoreState g) (on_player g PlayerRestoreState) (on_group g GroupRestoreState).
Proof. unfold RestoreState, on_player, on_group. destruct (IsGroup g); [apply acts_group|apply acts_player]. Qed.

Lemma acts_when b k : acts k same same → acts (when b k) same same.
Proof. intros H. destruct b; [done|apply acts_skip]. Qed.

Ltac acts_solve :=
  repeat match goal with
  | |- acts (get ≫= _) _ _ => eapply acts_get; intros ?
  | |- acts (_ ≫= _) _ _ => eapply acts_bind; [|intros ?]
  | |- acts (when _ _) _ _ => eapply acts_when
  | |- acts (send _ _) _ _ => apply acts_send
  | |- acts skip _ _ => apply acts_skip
  | |- acts (mret _) _ _ => apply acts_ret
  | |- acts (SetState _ _) _ _ => apply acts_SetState
  | |- acts (RestoreState _) _ _ => apply acts_RestoreState
  | |- acts (SetRoles _ _) _ _ => apply acts_player
  end.

(** Some elements of the list apply [f], the others nothing: [f] is applied. *)
Lemma foldl_idem {A D} (Q : A → D → D) (f : D → D) (l : list A) d :
  (∀ a, a ∈ l → (∀ d, Q a d = f d) ∨ (∀ d, Q a d = d)) → (∀ d, f (f d) = f d) →
  Exists (λ a, ∀ d, Q a d = f d) l → foldl (λ d a, Q a d) d l = f d.
Proof.
  intros HQ Hf Hex.
  assert (∀ l d, (∀ a, a ∈ l → (∀ d, Q a d = f d) ∨ (∀ d, Q a d = d)) →
            foldl (λ d a, Q a d) (f d) l = f d) as Hrest.
  { clear -Hf. induction l as [|a l IH]; intros d HQ; [done|]. cbn.
    destruct (HQ a) as [->| ->]; [set_solver| |]; rewrite ?Hf; apply IH; set_solver. }
  revert d. induction Hex as [a l Ha|a l Hex IH]; intros d; cbn.
  - rewrite Ha. apply Hrest. set_solver.
  - destruct (HQ a) as [E|E]; [set_solver| |]; rewrite E; [apply Hrest; set_solver|]. apply IH. set_solver.
Qed.

Lemma foldl_same {A D} (Q : A → D → D) (l : list A) d :
  (∀ a d, a ∈ l → Q a d = d) → foldl (λ d a, Q a d) d l = d.
Proof. induction l as [|a l IH]; intros H; [done|]. cbn. rewrite H by set_solver. apply IH. set_solver. Qed.

(** ** Role checks *)

(** What a role check that has come to the state [st] does to a player with role [r]. *)
Definition role_check_effect (st : LfgRoleCheckState) (r : Z) (d : LfgPlayerData) : LfgPlayerData :=
  match st with
  | LFG_ROLECHECK_INITIALITING => d
  | LFG_ROLECHECK_FINISHED => PlayerSetRoles (PlayerSetState d LFG_STATE_QUEUED) r
  | _ => PlayerRestoreState d
  end.

Lemma role_check_effect_idem st r d :
  role_check_effect st r (role_check_effect st r d) = role_check_effect st r d.
Proof.
  destruct st; cbn; unfold PlayerRestoreState; try done;
    destruct (bool_decide (m_OldState d = LFG_STATE_NONE)) eqn:E; cbn; by rewrite E.
Qed.

Lemma acts_role_check_player rc b guid roles p :
  IsGroup p.1 = false →
  acts (role_check_player rc b guid roles p) (at_ p.1 (role_check_effect (rc_state rc) p.2)) same.
Proof.
  intros Hp. unfold role_check_player.
  destruct (rc_state rc); (eapply acts_ext; [acts_solve| |]); intros x d;
    unfold on_player, on_group, at_, same; rewrite ?Hp; by destruct (x =? p.1).
Qed.
Lemma acts_members rc b guid roles rs :
  (∀ p r, rs !! p = Some r → IsGroup p = false) →
  acts (for_each (items rs) (role_check_player rc b guid roles))
    (λ x d, match rs !! x with Some r => role_check_effect (rc_state rc) r d | None => d end) same.
Proof.
  intros Hrs. eapply acts_ext.
  - apply (acts_for_each _ _ (λ p, at_ p.1 (role_check_effect (rc_state rc) p.2)) (λ _, same)).
    intros [p r] Hp%items_elem. by apply acts_role_check_player, (Hrs p r).
  - intros x d. destruct (rs !! x) as [r|] eqn:Er.
    + apply (foldl_idem (λ p, at_ p.1 (role_check_effect (rc_state rc) p.2) x)).
      * intros [p r'] Hp%items_elem. cbn. destruct (decide (x = p)) as [<-|Hne].
        -- left. intros d'. rewrite at_eq. congruence.
        -- right. intros d'. by apply at_ne.
      * intros d'. apply role_check_effect_idem.
      * apply Exists_exists. exists (x, r). split; [by apply items_elem|]. intros d'. apply at_eq.
    + apply foldl_same. intros [p r'] d' Hp%items_elem. apply at_ne. cbn. congruence.
  - intros x d. by apply foldl_same.
Qed.

Lemma queue_id_acted P G m m' g :
  acted P G m m' → (∀ x d, m_Team (P x d) = m_Team d) → (∀ x d, m_Players (G x d) = m_Players d) →
  queue_id m' g = queue_id m g.
Proof.
  intros [H1 H2 _ _ _] HP HG. unfold queue_id, GetTeam, GetPlayers.
  rewrite H2, HG. destruct (IsGroup g); [|by rewrite H1, HP].
  destruct (set_items (m_Players (gdata m g))) as [|p ?]; [done|]. by rewrite H1, HP.
Qed.

Lemma PlayerSetState_team d s : m_Team (PlayerSetState d s) = m_Team d.
Proof. by destruct s. Qed.
Lemma GroupSetState_players d s : m_Players (GroupSetState d s) = m_Players d.
Proof. by destruct s. Qed.
Lemma PlayerRestoreState_team d : m_Team (PlayerRestoreState d) = m_Team d.
Proof. unfold PlayerRestoreState. by case_bool. Qed.

Lemma role_check_effect_team st r d : m_Team (role_check_effect st r d) = m_Team d.
Proof. destruct st; try done; apply PlayerRestoreState_team. Qed.

Lemma GetDungeonTimes_keys now ds lo hi rnd :
  (∀ x, x ∈ ds → in_u32 x) → map_Forall (λ d _, in_u32 d) (GetDungeonTimes now ds lo hi rnd).
Proof.
  intros Hds. unfold GetDungeonTimes.
  assert (∀ (f : Z → Z) l (acc : gmap Z Z), (∀ x, x ∈ l → in_u32 x) → map_Forall (λ d _, in_u32 d) acc →
            map_Forall (λ d _, in_u32 d) (foldl (λ times d, <[d := f d]> times) acc l)) as Hf.
  { intros f l. induction l as [|d l IH]; intros acc Hl Hacc; [done|]. apply IH; [set_solver|].
    apply map_Forall_insert_2; [apply Hl; set_solver|done]. }
  assert (∀ x, x ∈ set_items ds → in_u32 x) by (intros x Hx%set_items_elem; auto).
  case_bool; apply Hf; try done; apply map_Forall_empty.
Qed.

(** What the queue has to be like to take the group. *)
Record can_take (q : LFGQueue) (gguid : Z) (rs : LfgRolesMap) : Prop := mkCanTake {
  ct_wf : wf q;
  ct_idle : _isUpdating q = false;
  ct_fresh : fresh (queueDataStore q) gguid rs;
  ct_new : gguid ∉ queue q ∧ gguid ∉ newToQueue q
}.

Lemma acts_run {A} (k : LM A) P G m (B : Type) (f : A → LM B) :
  acts k P G → ∃ a m1, acted P G m m1 ∧ (k ≫= f) m = f a m1.
Proof.
  intros H. destruct (H m) as (a & m1 & E & Ha). exists a, m1. split; [done|].
  unfold mbind, ST_bind. by rewrite E.
Qed.

Definition decided (rc : LfgRoleCheck) (rs : LfgRolesMap) (finished : bool) : LfgRoleCheck :=
  rc_with rc rs (if finished then LFG_ROLECHECK_FINISHED else LFG_ROLECHECK_WRONG_ROLES).

Lemma answer_cases rc guid roles :
  guid ≠ 0 → PLAYER_ROLE_TANK ≤ roles →
  let rs := <[guid := roles]> (rc_roles rc) in
  map_Forall (λ _ r, 0 ≤ r < 16) rs → Z.of_nat (size rs) < 256 →
  ((∃ p, rs !! p = Some PLAYER_ROLE_NONE) ∧ answer_role_check rc guid roles = Ok (rc_with rc rs (rc_state rc))) ∨
  ((∀ p, rs !! p ≠ Some PLAYER_ROLE_NONE) ∧ (∃ a, arrangement rs a) ∧
     answer_role_check rc guid roles = Ok (decided rc rs true)) ∨
  ((∀ p, rs !! p ≠ Some PLAYER_ROLE_NONE) ∧ (∀ a, ¬ arrangement rs a) ∧
     answer_role_check rc guid roles = Ok (decided rc rs false)).
Proof.
  intros Hg Hr rs Hrs Hsz. unfold answer_role_check.
  rewrite (proj2 (Z.eqb_neq _ _)), (proj2 (Z.ltb_ge _ _)) by done. fold rs.
  destruct (forallb _ _) eqn:Ef.
  - right. rewrite forallb_forall in Ef.
    assert (∀ p, rs !! p ≠ Some PLAYER_ROLE_NONE) as Hno.
    { intros p Hp%items_elem%list_elem_of_In%Ef. done. }
    assert (roles_ok rs) as Hok.
    { split; [intros p r Hp; specialize (Hrs p r Hp); unfold in_u; simpl in *; lia|].
      split; [|done]. assert (size rs ≠ 0%nat); [|lia]. apply map_size_ne_0_lookup.
      exists guid. unfold rs. rewrite lookup_insert_eq. by eexists. }
    destruct (CheckGroupRoles_ok rs Hok) as (res & g' & -> & Hv).
    destruct res; cbn in *; [left|right]; (split; [done|split; [|done]]).
    + destruct Hv as (Ha & _). eauto.
    + destruct Hv as [_ Hn]. apply Hn. intros p r Hp. specialize (Hrs p r Hp).
      by apply clean_small.
  - left. split; [|done]. apply not_true_iff_false in Ef.
    destruct (decide (Exists (λ kv, kv.2 = PLAYER_ROLE_NONE) (items rs))) as [He|He].
    + apply Exists_exists in He as ([p x] & Hin%items_elem & Hx). cbn in *. subst x. eauto.
    + destruct Ef. apply forallb_forall. intros kv Hin%list_elem_of_In. apply negb_true_iff, Z.eqb_neq.
      intros Hx. apply He, Exists_exists. eauto.
Qed.
(** Up to the end of the function the members have been told. *)
Lemma UpdateRoleCheck_told now gguid guid roles rc rc' m :
  RoleChecksStore m !! gguid = Some rc → gguid ≠ 0 → answer_role_check rc guid roles = Ok rc' →
  (∀ p r, rc_roles rc' !! p = Some r → IsGroup p = false) →
  ∃ m1, acted (λ x d, match rc_roles rc' !! x with Some r => role_check_effect (rc_state rc') r d | None => d end)
          same (set_roleChecks m (<[gguid := rc']> (RoleChecksStore m))) m1 ∧
    UpdateRoleCheck now gguid guid roles m = finish_role_check now gguid rc' m1.
Proof.
  intros Hrc Hg Ha Hpl. unfold UpdateRoleCheck. rewrite (proj2 (Z.eqb_neq _ _)) by done.
  unfold mbind at 1, ST_bind at 1, get. cbn. rewrite Hrc. unfold mbind at 1, ST_bind at 1, lift.
  rewrite Ha. cbn.
  destruct (acts_run _ _ _ (set_roleChecks m (<[gguid := rc']> (RoleChecksStore m))) _
              (λ _, finish_role_check now gguid rc')
              (acts_members rc' (negb (bool_decide (rc_state rc = LFG_ROLECHECK_DEFAULT)) && negb (guid =? 0))
                 guid roles (rc_roles rc') Hpl)) as (a & m1 & Hact & E).
  exists m1. split; [done|]. rewrite <- E. reflexivity.
Qed.

Lemma finish_enters now gguid rc m :
  rc_state rc = LFG_ROLECHECK_FINISHED → IsGroup gguid = true → rc_roles rc ≠ ∅ →
  (∀ d, d ∈ rc_dungeons rc → in_u32 d) → can_take (GetQueue m (queue_id m gguid)) gguid (rc_roles rc) →
  ∃ m', finish_role_check now gguid rc m = Ok (tt, m') ∧
    RoleChecksStore m' = delete gguid (RoleChecksStore m) ∧
    GetState m' gguid = LFG_STATE_QUEUED ∧ (∀ x, pdata m' x = pdata m x) ∧
    gguid ∈ newToQueue (GetQueue m' (queue_id m gguid)) ∧
    LfgQueue.roles (data (queueDataStore (GetQueue m' (queue_id m gguid))) gguid) = rc_roles rc.
Proof.
  intros Hst Hgg Hne Hds [Hwf Hidle Hfresh [Hn1 Hn2]]. unfold finish_role_check. rewrite Hst.
  destruct (acts_run _ _ _ m _ (λ _, m ← get;
    _ ← on_queue (queue_id m gguid) (λ q, AddNewToQueue q now gguid now
           (GetDungeonTimes now (rc_dungeons rc) (minlevel rc) (maxlevel rc) (negb (rDungeonId rc =? 0)))
           (rc_roles rc) (IsLfgGroup m gguid)); erase_role_check gguid)
    (acts_SetState gguid LFG_STATE_QUEUED)) as (a & m1 & Hact & ->).
  assert (queue_id m1 gguid = queue_id m gguid) as Hid.
  { eapply queue_id_acted; [exact Hact|..]; intros x d; unfold on_player, on_group, same; rewrite Hgg; [done|].
    unfold at_. case_bool; [apply GroupSetState_players|done]. }
  destruct Hact as [K1 K2 K3 K4 K5].
  unfold mbind at 1, ST_bind at 1, get. cbn [obind]. rewrite Hid.
  assert (GetQueue m1 (queue_id m gguid) = GetQueue m (queue_id m gguid)) as Hq by (unfold GetQueue; by rewrite K3).
  edestruct (AddNewToQueue_ok (GetQueue m (queue_id m gguid)) now gguid now
    (GetDungeonTimes now (rc_dungeons rc) (minlevel rc) (maxlevel rc) (negb (rDungeonId rc =? 0)))
    (rc_roles rc) (IsLfgGroup m1 gguid)) as [(_ & _ & Hbad)|(q' & Eq & _ & Hin & _ & _ & Hr)];
    [done|by intros ->|done|by apply GetDungeonTimes_keys|done|tauto|congruence|].
  unfold on_queue, mbind, ST_bind, get, lift. cbn [obind]. rewrite Hq, Eq. cbn.
  eexists. split; [reflexivity|]. cbn. split; [by rewrite K4|]. split; [|split; [|split]].
  - transitivity (g_State (gdata m1 gguid)); [unfold GetState; by rewrite Hgg|].
    rewrite K2. unfold on_group. by rewrite Hgg, at_eq.
  - intros x. transitivity (pdata m1 x); [done|]. rewrite K1. unfold on_player. by rewrite Hgg.
  - unfold GetQueue. cbn. by rewrite lookup_insert_eq.
  - unfold GetQueue. cbn. by rewrite lookup_insert_eq.
Qed.

Lemma finish_gives_up now gguid rc m :
  rc_state rc ≠ LFG_ROLECHECK_FINISHED → rc_state rc ≠ LFG_ROLECHECK_INITIALITING → IsGroup gguid = true →
  ∃ m', finish_role_check now gguid rc m = Ok (tt, m') ∧
    RoleChecksStore m' = delete gguid (RoleChecksStore m) ∧
    GetState m' gguid = MgrGetOldState m gguid ∧ (∀ x, pdata m' x = pdata m x) ∧ QueuesStore m' = QueuesStore m.
Proof.
  intros H1 H2 Hgg.
  assert (finish_role_check now gguid rc = (_ ← RestoreState gguid; erase_role_check gguid)) as ->.
  { unfold finish_role_check. by destruct (rc_state rc). }
  destruct (acts_run _ _ _ m _ (λ _, erase_role_check gguid) (acts_RestoreState gguid)) as (a & m1 & Hact & ->).
  destruct Hact as [K1 K2 K3 K4 K5]. eexists. split; [reflexivity|]. cbn. split; [by rewrite K4|].
  split; [|split; [|done]].
  - transitivity (g_State (gdata m1 gguid)); [unfold GetState; by rewrite Hgg|].
    rewrite K2. unfold on_group, MgrGetOldState. by rewrite Hgg, at_eq.
  - intros x. transitivity (pdata m1 x); [done|]. rewrite K1. unfold on_player. by rewrite Hgg.
Qed.

(** C21: A member's answer to a role check, with the roles of the others. While somebody
    has not chosen, the choice is stored and nobody moves. When all have and their
    roles can be arranged into at most a tank, a healer and three damage dealers, the
    group enters its team's queue with exactly these roles, and it and every member are
    queued. When they cannot, the group and every member fall back to where they were
    before. In the last two cases the role check is gone. *)
Theorem UpdateRoleCheck_spec (now gguid guid roles : Z) (rc : LfgRoleCheck) (m : LFGMgr) :
  RoleChecksStore m !! gguid = Some rc → rc_state rc = LFG_ROLECHECK_INITIALITING →
  IsGroup gguid = true → guid ≠ 0 → PLAYER_ROLE_TANK ≤ roles →
  let rs := <[guid := roles]> (rc_roles rc) in
  (∀ p r, rs !! p = Some r → IsGroup p = false ∧ 0 ≤ r < 16) → Z.of_nat (size rs) < 256 →
  (∀ d, d ∈ rc_dungeons rc → in_u32 d) →
  let id := queue_id m gguid in
  can_take (GetQueue m id) gguid rs →
  ∃ m', UpdateRoleCheck now gguid guid roles m = Ok (tt, m') ∧
    ((∃ p, rs !! p = Some PLAYER_ROLE_NONE) →
       RoleChecksStore m' = <[gguid := rc_with rc rs (rc_state rc)]> (RoleChecksStore m) ∧
       (∀ x, GetState m' x = GetState m x) ∧ QueuesStore m' = QueuesStore m) ∧
    ((∀ p, rs !! p ≠ Some PLAYER_ROLE_NONE) → (∃ a, arrangement rs a) →
       RoleChecksStore m' = delete gguid (RoleChecksStore m) ∧
       GetState m' gguid = LFG_STATE_QUEUED ∧
       (∀ p r, rs !! p = Some r → GetState m' p = LFG_STATE_QUEUED ∧ GetRoles m' p = r) ∧
       gguid ∈ newToQueue (GetQueue m' id) ∧ LfgQueue.roles (data (queueDataStore (GetQueue m' id)) gguid) = rs) ∧
    ((∀ p, rs !! p ≠ Some PLAYER_ROLE_NONE) → (∀ a, ¬ arrangement rs a) →
       RoleChecksStore m' = delete gguid (RoleChecksStore m) ∧
       GetState m' gguid = MgrGetOldState m gguid ∧
       (∀ p r, rs !! p = Some r → GetState m' p = MgrGetOldState m p) ∧ QueuesStore m' = QueuesStore m).
Proof.
  intros Hrc Hst Hgg Hg Hr rs Hrs Hsz Hds id [Hwf Hidle Hfresh [Hn1 Hn2]].
  assert (gguid ≠ 0) as Hgg0 by (intros ->; done).
  assert (∀ p r, rs !! p = Some r → IsGroup p = false) as Hpl by (intros p r Hp; by eapply Hrs).
  assert (rs !! gguid = None) as Hnone.
  { destruct (rs !! gguid) as [r|] eqn:E; [|done]. apply Hpl in E. congruence. }
  destruct (answer_cases rc guid roles Hg Hr) as [(Hw & Ha)|[(Hw & Hex & Ha)|(Hw & Hex & Ha)]];
    [intros p r Hp; by eapply Hrs|done| | |]; fold rs in Hw, Ha; try fold rs in Hex.
  - destruct (UpdateRoleCheck_told now gguid guid roles rc _ m Hrc Hgg0 Ha Hpl) as (m1 & Hact & ->).
    destruct Hact as [K1 K2 K3 K4 K5]. exists m1.
    split; [unfold finish_role_check; cbn [rc_with rc_state]; by rewrite Hst|].
    split; [|split; intros Hno; destruct Hw as [p Hp]; by destruct (Hno p)].
    intros _. split; [by rewrite K4|]. split; [|by rewrite K3].
    intros x. unfold GetState. rewrite K1, K2. cbn [rc_with rc_state rc_roles]. rewrite Hst.
    unfold same. by destruct (rs !! x).
  - destruct (UpdateRoleCheck_told now gguid guid roles rc _ m Hrc Hgg0 Ha Hpl) as (m1 & Hact & ->).
    assert (queue_id m1 gguid = id) as Hid.
    { etransitivity; [eapply queue_id_acted; [exact Hact|..]|reflexivity]; intros x d; [|done].
      cbn. by destruct (rs !! x). }
    pose proof Hact as [K1 K2 K3 K4 K5].
    assert (GetQueue m1 id = GetQueue m id) as Hq by (unfold GetQueue; by rewrite K3).
    destruct (finish_enters now gguid (decided rc rs true) m1) as (m' & E & H1 & H2 & H3 & H4 & H5);
      [done|done|intros Hrs0; cbn in Hrs0; by apply insert_non_empty in Hrs0|done|by rewrite Hid, Hq|].
    rewrite Hid in H4, H5. exists m'. split; [done|]. split; [intros [p Hp]; by destruct (Hw p)|].
    split; [intros _ _|intros _ Hno; destruct Hex as [ar Har]; by destruct (Hno ar)].
    split; [rewrite H1, K4; cbn [set_roleChecks RoleChecksStore]; by rewrite delete_insert_eq|]. split; [done|]. split; [|done].
    intros p r Hp. unfold GetState, GetRoles. rewrite (Hpl p r Hp), H3, K1. cbn [decided rc_with rc_roles].
    by rewrite Hp.
  - destruct (UpdateRoleCheck_told now gguid guid roles rc _ m Hrc Hgg0 Ha Hpl) as (m1 & Hact & ->).
    destruct Hact as [K1 K2 K3 K4 K5].
    destruct (finish_gives_up now gguid (decided rc rs false) m1) as (m' & E & H1 & H2 & H3 & H4); [done..|].
    exists m'. split; [done|]. split; [intros [p Hp]; by destruct (Hw p)|].
    split; [intros _ [ar Har]; by destruct (Hex ar)|]. intros _ _.
    split; [rewrite H1, K4; cbn [set_roleChecks RoleChecksStore]; by rewrite delete_insert_eq|].
    split; [rewrite H2; unfold MgrGetOldState; by rewrite Hgg, K2|]. split; [|by rewrite H4, K3].
    intros p r Hp. unfold GetState, MgrGetOldState. rewrite (Hpl p r Hp), H3, K1. cbn [decided rc_with rc_roles].
    rewrite Hp. cbn. unfold PlayerRestoreState. by case_bool.
Qed.

(** ** Failed proposals *)

(** Operations on one queue, one premade after the other. *)
Fixpoint queue_all (f : LFGQueue → Z → outcome LFGQueue) (q : LFGQueue) (l : list Z) : outcome LFGQueue :=
  match l with
  | [] => Ok q
  | g :: l => let! q := f q g in queue_all f q l
  end.

Lemma on_queue_run id f m q :
  f (GetQueue m id) = Ok q → on_queue id f m = Ok (tt, set_queues m (<[id := q]> (QueuesStore m))).
Proof. intros E. unfold on_queue, mbind, ST_bind, get, lift, modify. cbn. by rewrite E. Qed.

(** Only the queue [id] differs. *)
Record same_but_queue (id : Z) (m m' : LFGMgr) : Prop := mkSbq {
  sb_players : PlayersStore m' = PlayersStore m;
  sb_groups : GroupsStore m' = GroupsStore m;
  sb_props : ProposalsStore m' = ProposalsStore m;
  sb_queues : ∀ id', id' ≠ id → QueuesStore m' !! id' = QueuesStore m !! id'
}.

Lemma for_each_queue id f l m q' :
  queue_all f (GetQueue m id) l = Ok q' →
  ∃ m', for_each l (λ g, on_queue id (λ q, f q g)) m = Ok (tt, m') ∧ same_but_queue id m m' ∧
    GetQueue m' id = q'.
Proof.
  revert m. induction l as [|g l IH]; intros m; cbn [queue_all].
  { intros [= <-]. by exists m. }
  destruct (f (GetQueue m id) g) as [q1| | | |] eqn:E1; try done. cbn [obind]. intros Eq.
  set (m1 := set_queues m (<[id := q1]> (QueuesStore m))).
  assert (GetQueue m1 id = q1) as Hq1 by (unfold GetQueue, m1; cbn; by rewrite lookup_insert_eq).
  destruct (IH m1) as (m' & E & [K1 K2 K3 K4] & Hq); [by rewrite Hq1|].
  exists m'. split; [|split; [|done]].
  - cbn [for_each]. erewrite bind_run by by apply on_queue_run. exact E.
  - split; [done..|]. intros id' Hid. rewrite K4 by done. unfold m1. cbn. by rewrite lookup_insert_ne.
Qed.

Lemma RemoveFromSystem_all q l :
  wf q → _isUpdating q = false →
  ∃ q', queue_all RemoveFromSystem q l = Ok q' ∧ wf q' ∧ _isUpdating q' = false ∧
    ∀ g, queueDataStore q' !! g = if bool_decide (g ∈ l) then None else queueDataStore q !! g.
Proof.
  revert q. induction l as [|g l IH]; intros q Hw Hu; [by exists q|]. cbn [queue_all].
  destruct (RemoveFromSystem_ok q g Hw) as [[_ [_ ?]]|(q1 & -> & Hw1 & Hu1 & Hs & _)]; [congruence|].
  cbn [obind]. destruct (IH q1) as (q' & -> & Hw' & Hu' & Hs'); [done|congruence|].
  exists q'. split; [done|]. split; [done|]. split; [done|]. intros x. rewrite Hs', Hs.
  destruct (decide (x = g)) as [->|Hne].
  - rewrite lookup_delete_eq, (bool_decide_eq_true_2 (g ∈ g :: l)) by set_solver. by case_bool.
  - rewrite lookup_delete_ne by done. by rewrite (bool_decide_ext (x ∈ g :: l) (x ∈ l)) by set_solver.
Qed.

Lemma AddOldToQueue_all q l :
  wf q → _isUpdating q = false → (∀ g, g ∈ l → is_Some (queueDataStore q !! g)) →
  ∃ q', queue_all AddOldToQueue q l = Ok q' ∧ wf q' ∧
    (∀ g, is_Some (queueDataStore q' !! g) ↔ is_Some (queueDataStore q !! g)) ∧
    (∀ g, g ∈ newToQueue q → g ∈ newToQueue q') ∧ (∀ g, g ∈ l → g ∈ newToQueue q').
Proof.
  revert q. induction l as [|g l IH]; intros q Hw Hu Hl.
  { exists q. split; [done|]. split; [done|]. split; [done|]. split; [done|]. intros g []%elem_of_nil. }
  cbn [queue_all]. assert (is_Some (queueDataStore q !! g)) as Hg by (apply Hl; set_solver).
  destruct (AddOldToQueue_stored q g (proj1 Hw) Hg) as [[_ [_ ?]]|(q1 & E1 & Hi1 & Hin & _ & Ht1 & Hu1)];
    [congruence|].
  assert (enqueue q g = Ok q1) as Ee.
  { destruct Hg as [d Hd]. revert E1. unfold AddOldToQueue, assert_not_updating. rewrite Hu, andb_false_r.
    by rewrite Hd. }
  destruct (enqueue_frame q g q1 Hg Ee) as [F1 F2]. rewrite E1. cbn [obind].
  destruct (IH q1) as (q' & -> & Hw' & H1 & H2 & H3).
  - split; [done|]. rewrite Ht1. apply Hw.
  - congruence.
  - intros x Hx. apply F1, Hl. set_solver.
  - exists q'. split; [done|]. split; [done|]. split; [intros x; by rewrite H1, F1|].
    split; [auto|]. intros x [->|Hx]%elem_of_cons; auto.
Qed.

(** The effect of the notice on a player, by whether its queue entry is removed. *)
Definition failed_effect (removed : bool) (d : LfgPlayerData) : LfgPlayerData :=
  if removed then PlayerRestoreState d else PlayerSetState d LFG_STATE_QUEUED.

Lemma failed_effect_idem b d : failed_effect b (failed_effect b d) = failed_effect b d.
Proof.
  destruct b; cbn; [|done]. unfold PlayerRestoreState.
  destruct (bool_decide (m_OldState d = LFG_STATE_NONE)) eqn:E; cbn; by rewrite E.
Qed.

Definition group_failed (removed : bool) (d : LfgGroupData) : LfgGroupData :=
  if removed then GroupRestoreState d else GroupSetState d LFG_STATE_QUEUED.

Definition proper_member (kv : Z * LfgProposalPlayer) : Prop :=
  IsGroup kv.1 = false ∧ (p_group kv.2 = 0 ∨ IsGroup (p_group kv.2) = true).

Lemma acts_notify_failed type p rem kv :
  proper_member kv →
  acts (notify_failed type p rem kv)
    (at_ kv.1 (failed_effect (bool_decide (entry_of kv ∈ rem))))
    (if p_group kv.2 =? 0 then same else at_ (p_group kv.2) (group_failed (bool_decide (entry_of kv ∈ rem)))).
Proof.
  intros [Hp Hg]. unfold notify_failed. cbv zeta.
  assert ((entry_of kv =? kv.1) = (p_group kv.2 =? 0)) as Hee.
  { unfold entry_of. destruct (Z.eqb_spec (p_group kv.2) 0) as [|Hne]; cbn; [apply Z.eqb_refl|].
    apply Z.eqb_neq. intros E. destruct Hg as [|Hg]; [done|]. congruence. }
  rewrite Hee. unfold when.
  destruct (Z.eqb_spec (p_group kv.2) 0) as [E0|E0]; cbn [negb];
    destruct (bool_decide (entry_of kv ∈ rem)); (eapply acts_ext; [acts_solve| |]); intros x d;
    unfold on_player, on_group, at_, same; rewrite ?Hp; try (by destruct (x =? kv.1));
    destruct Hg as [|Hg]; try done; rewrite ?Hg; try (by destruct (x =? kv.1));
    assert (entry_of kv = p_group kv.2) as -> by (unfold entry_of; by rewrite (proj2 (Z.eqb_neq _ _) E0));
    rewrite ?Hg; by destruct (x =? _).
Qed.

(** The members of group [x] among the players of a proposal. *)
Definition in_group (ps : gmap Z LfgProposalPlayer) (x : Z) : bool :=
  existsb (λ kv, negb (p_group kv.2 =? 0) && (p_group kv.2 =? x)) (items ps).

Lemma in_group_true ps k pl : ps !! k = Some pl → p_group pl ≠ 0 → in_group ps (p_group pl) = true.
Proof.
  intros Hk Hg. apply existsb_exists. exists (k, pl). split; [by apply list_elem_of_In, items_elem|].
  cbn. by rewrite (proj2 (Z.eqb_neq _ _) Hg), Z.eqb_refl.
Qed.

Lemma group_failed_idem b d : group_failed b (group_failed b d) = group_failed b d.
Proof. by destruct b. Qed.

Lemma acts_notify_all type p rem ps :
  map_Forall (λ k pl, proper_member (k, pl)) ps →
  acts (for_each (items ps) (notify_failed type p rem))
    (λ x d, match ps !! x with
            | Some pl => failed_effect (bool_decide (entry_of (x, pl) ∈ rem)) d
            | None => d
            end)
    (λ x d, if in_group ps x then group_failed (bool_decide (x ∈ rem)) d else d).
Proof.
  intros Hps. eapply acts_ext.
  - apply (acts_for_each _ _ (λ kv, at_ kv.1 (failed_effect (bool_decide (entry_of kv ∈ rem))))
      (λ kv, if p_group kv.2 =? 0 then same
             else at_ (p_group kv.2) (group_failed (bool_decide (entry_of kv ∈ rem))))).
    intros [k pl] Hk%items_elem. by apply acts_notify_failed, Hps.
  - intros x d. destruct (ps !! x) as [pl|] eqn:Ex.
    + apply (foldl_idem (λ kv, at_ kv.1 (failed_effect (bool_decide (entry_of kv ∈ rem))) x)).
      * intros [k pl'] Hk%items_elem. cbn. destruct (decide (x = k)) as [<-|Hne].
        -- left. intros d'. assert (pl' = pl) as -> by congruence. apply at_eq.
        -- right. intros d'. by apply at_ne.
      * intros d'. apply failed_effect_idem.
      * apply Exists_exists. exists (x, pl). split; [by apply items_elem|]. intros d'. apply at_eq.
    + apply foldl_same. intros [k pl] d' Hk%items_elem. apply at_ne. cbn. congruence.
  - intros x d. destruct (in_group ps x) eqn:Eg.
    + apply (foldl_idem (λ kv, (if p_group kv.2 =? 0 then same
             else at_ (p_group kv.2) (group_failed (bool_decide (entry_of kv ∈ rem)))) x)).
      * intros [k pl] Hk. cbn. destruct (Z.eqb_spec (p_group pl) 0) as [E|E]; [by right|].
        destruct (decide (x = p_group pl)) as [->|Hne]; [left|right]; intros d'; [|by apply at_ne].
        rewrite at_eq. unfold entry_of. cbn. by rewrite (proj2 (Z.eqb_neq _ _) E).
      * intros d'. apply group_failed_idem.
      * apply existsb_exists in Eg as ([k pl] & Hin & Hb). cbn in Hb. b2p. subst x.
        apply Exists_exists. exists (k, pl). split; [by apply list_elem_of_In|]. intros d'. cbn.
        rewrite (proj2 (Z.eqb_neq (p_group pl) 0)) by done. rewrite at_eq.
        unfold entry_of. cbn. by rewrite (proj2 (Z.eqb_neq (p_group pl) 0)).
    + apply foldl_same. intros [k pl] d' Hk. cbn. destruct (Z.eqb_spec (p_group pl) 0) as [E|E]; [done|].
      apply at_ne. intros ->. apply not_true_iff_false in Eg. apply Eg. apply items_elem in Hk.
      by eapply in_group_true.
Qed.

(** A player who is the reason that a proposal fails. *)
Definition declines (type : LfgUpdateType) (pl : LfgProposalPlayer) : Prop :=
  accept pl = LFG_ANSWER_DENY ∨ (accept pl = LFG_ANSWER_PENDING ∧ type = LFG_UPDATETYPE_PROPOSAL_FAILED).

Lemma refuses_declines type pl : refuses type (deny_pending type pl) = true ↔ declines type pl.
Proof.
  unfold refuses, deny_pending, declines. destruct pl as [r a g].
  destruct (decide (type = LFG_UPDATETYPE_PROPOSAL_FAILED)) as [->|Hn].
  - destruct a; cbn; split; try done; intuition congruence.
  - rewrite !(bool_decide_eq_false_2 (type = LFG_UPDATETYPE_PROPOSAL_FAILED)) by done. destruct a; cbn; split; try done; intuition congruence.
Qed.

Lemma deny_pending_group type pl : p_group (deny_pending type pl) = p_group pl.
Proof. unfold deny_pending. by case_bool. Qed.

Lemma refusals_spec type ps ps' rem :
  refusals type ps = (ps', rem) →
  (∀ k, p_group <$> ps' !! k = p_group <$> ps !! k) ∧
  (∀ g, g ∈ rem ↔ ∃ k pl, ps !! k = Some pl ∧ entry_of (k, pl) = g ∧ declines type pl).
Proof.
  unfold refusals. intros [<- <-]%pair_equal_spec. split.
  - intros k. rewrite !lookup_fmap. destruct (ps !! k) as [pl|]; [|done]. cbn. f_equal.
    unfold mark_refusal, deny_pending. by repeat case_bool.
  - intros g. rewrite elem_of_list_to_set, list_elem_of_fmap. setoid_rewrite list_elem_of_filter.
    split.
    + intros ([k pl0] & -> & Hd & Hk%items_elem). rewrite lookup_fmap in Hk. cbn in *.
      destruct (ps !! k) as [pl|] eqn:Ek; [|done]. injection Hk as <-. exists k, pl. split; [done|].
      split; [|by apply refuses_declines]. unfold entry_of. cbn. by rewrite deny_pending_group.
    + intros (k & pl & Hk & <- & Hd). exists (k, deny_pending type pl).
      split; [unfold entry_of; cbn; by rewrite deny_pending_group|].
      split; [by apply refuses_declines|]. apply items_elem. by rewrite lookup_fmap, Hk.
Qed.

(** The entries that leave the queue with a failed proposal: those with a player who
    declined, and those whose data the queue has lost. *)
Definition removed (type : LfgUpdateType) (p : LfgProposal) (q : LFGQueue) (g : Z) : Prop :=
  (∃ k pl, p_players p !! k = Some pl ∧ entry_of (k, pl) = g ∧ declines type pl) ∨
  (g ∈ queues p ∧ queueDataStore q !! g = None).

(** The set [toRemove]. *)
Lemma to_remove_spec type p q (rem0 : gset Z) m g :
  (∀ g, g ∈ queues p → GetQueue m (queue_id m g) = q) →
  (∀ g, g ∈ rem0 ↔ ∃ k pl, p_players p !! k = Some pl ∧ entry_of (k, pl) = g ∧ declines type pl) →
  g ∈ foldl (λ acc g, if HasData (GetQueue m (queue_id m g)) g then acc else {[g]} ∪ acc) rem0 (queues p) ↔
  removed type p q g.
Proof.
  intros Hq Hrem. unfold removed. rewrite <- Hrem. clear Hrem. revert Hq rem0.
  induction (queues p) as [|x l IH]; intros Hq rem0; cbn [foldl]; [set_solver|].
  rewrite IH by set_solver. rewrite Hq by set_solver. unfold HasData.
  destruct (queueDataStore q !! x) as [d|] eqn:Ex.
  - rewrite bool_decide_eq_true_2 by by eexists. split; [set_solver|].
    intros [?|[[->|?]%elem_of_cons ?]]; [by left|congruence|by right].
  - rewrite bool_decide_eq_false_2 by by intros []. set_solver.
Qed.

(** The queue at the end of RemoveProposal. *)
Lemma requeue_ok qid (rem : gset Z) l m :
  wf (GetQueue m qid) → _isUpdating (GetQueue m qid) = false →
  (∀ g, g ∈ l → g ∉ rem → is_Some (queueDataStore (GetQueue m qid) !! g)) →
  ∃ m', same_but_queue qid m m' ∧
    (∀ g, g ∈ rem → HasData (GetQueue m' qid) g = false) ∧
    (∀ g, g ∈ l → g ∉ rem → g ∈ newToQueue (GetQueue m' qid)) ∧
    ∀ (f : LM unit),
      (_ ← for_each (set_items rem) (λ g, on_queue qid (λ q, RemoveFromSystem q g));
       _ ← for_each (filter (λ g, g ∉ rem) l) (λ g, on_queue qid (λ q, AddOldToQueue q g)); f) m = f m'.
Proof.
  intros Hwf Hidle Hl.
  destruct (RemoveFromSystem_all (GetQueue m qid) (set_items rem) Hwf Hidle) as (q1 & E1 & Hwf1 & Hidle1 & Hs1).
  destruct (for_each_queue qid RemoveFromSystem (set_items rem) m q1 E1) as (m1 & R1 & [A1 A2 A3 A4] & Hq1).
  destruct (AddOldToQueue_all q1 (filter (λ g, g ∉ rem) l)) as (q2 & E2 & Hwf2 & Hs2 & _ & Hn2); [done|done| |].
  { intros g [Hg Hgl]%list_elem_of_filter. rewrite Hs1, bool_decide_eq_false_2 by by rewrite set_items_elem.
    by apply Hl. }
  destruct (for_each_queue qid AddOldToQueue (filter (λ g, g ∉ rem) l) m1 q2) as (m2 & R2 & [B1 B2 B3 B4] & Hq2);
    [by rewrite Hq1|].
  exists m2. split; [split; [congruence..|]; intros id' Hid; by rewrite B4, A4|].
  rewrite Hq2. split; [|split].
  - intros g Hg. unfold HasData. apply bool_decide_eq_false_2. rewrite Hs2, Hs1.
    rewrite bool_decide_eq_true_2 by by rewrite set_items_elem. by intros [].
  - intros g Hg Hn. apply Hn2. by apply list_elem_of_filter.
  - intros f. erewrite bind_run by exact R1. by erewrite bind_run by exact R2.
Qed.

(** The players of a proposal after the refusals are marked: the same, in the same
    groups. *)
Lemma refused_same (ps ps' : gmap Z LfgProposalPlayer) :
  (∀ k, p_group <$> ps' !! k = p_group <$> ps !! k) →
  ∀ k pl, ps !! k = Some pl →
    ∃ pl', ps' !! k = Some pl' ∧ p_group pl' = p_group pl ∧ entry_of (k, pl') = entry_of (k, pl).
Proof.
  intros Hps k pl Hk. pose proof (Hps k) as E. rewrite Hk in E. destruct (ps' !! k) as [pl'|]; [|done].
  injection E as E. exists pl'. split; [done|]. split; [done|]. unfold entry_of. cbn. by rewrite E.
Qed.

Lemma refused_members (ps ps' : gmap Z LfgProposalPlayer) :
  (∀ k, p_group <$> ps' !! k = p_group <$> ps !! k) →
  map_Forall (λ k pl, proper_member (k, pl)) ps → map_Forall (λ k pl, proper_member (k, pl)) ps'.
Proof.
  intros Hps Hmem k pl Hk. pose proof (Hps k) as E. rewrite Hk in E. cbn in E. symmetry in E.
  apply fmap_Some in E as (pl0 & Hk0 & E). specialize (Hmem k pl0 Hk0).
  unfold proper_member in *. cbn in *. by rewrite E.
Qed.

(** Where the members and the groups of a failed proposal end up. *)
Lemma player_fell_back m m' k (P : Prop) `{!Decision P} :
  IsGroup k = false → pdata m' k = failed_effect (bool_decide P) (pdata m k) →
  (P → GetState m' k = MgrGetOldState m k) ∧ (¬ P → GetState m' k = LFG_STATE_QUEUED).
Proof.
  intros Hk E. unfold GetState, MgrGetOldState. rewrite Hk, E. split; intros Hin.
  - rewrite bool_decide_eq_true_2 by done. cbn. unfold PlayerRestoreState. by case_bool.
  - by rewrite bool_decide_eq_false_2.
Qed.

Lemma group_fell_back m m' g (P : Prop) `{!Decision P} :
  IsGroup g = true → gdata m' g = group_failed (bool_decide P) (gdata m g) →
  (P → GetState m' g = MgrGetOldState m g) ∧ (¬ P → GetState m' g = LFG_STATE_QUEUED).
Proof.
  intros Hg E. unfold GetState, MgrGetOldState. rewrite Hg, E.
  split; intros Hin; [by rewrite bool_decide_eq_true_2|by rewrite bool_decide_eq_false_2].
Qed.

(** C30: A proposal that a player declined or that ran out of time. Every queue entry
    with a player who declined (or, out of time, did not answer) leaves the queue, and
    so does one whose data was lost; its players and its group fall back to where they
    were. Every other entry is put in line for the next search again, its players and its
    group queued. The proposal is gone. *)
Theorem RemoveProposal_spec (id : Z) (type : LfgUpdateType) (p : LfgProposal) (m : LFGMgr) (qid : Z) :
  ProposalsStore m !! id = Some p → p_players p ≠ ∅ →
  map_Forall (λ k pl, proper_member (k, pl)) (p_players p) →
  (∀ g, g ∈ queues p ∨ is_Some (p_players p !! g) → queue_id m g = qid) →
  wf (GetQueue m qid) → _isUpdating (GetQueue m qid) = false →
  let gone := removed type p (GetQueue m qid) in
  ∃ m', RemoveProposal id type m = Ok (tt, m') ∧ ProposalsStore m' = delete id (ProposalsStore m) ∧
    (∀ k pl, p_players p !! k = Some pl →
       (gone (entry_of (k, pl)) → GetState m' k = MgrGetOldState m k) ∧
       (¬ gone (entry_of (k, pl)) → GetState m' k = LFG_STATE_QUEUED)) ∧
    (∀ k pl, p_players p !! k = Some pl → p_group pl ≠ 0 →
       (gone (p_group pl) → GetState m' (p_group pl) = MgrGetOldState m (p_group pl)) ∧
       (¬ gone (p_group pl) → GetState m' (p_group pl) = LFG_STATE_QUEUED)) ∧
    (∀ g, g ∈ queues p →
       (gone g → HasData (GetQueue m' qid) g = false) ∧
       (¬ gone g → g ∈ newToQueue (GetQueue m' qid))).
Proof.
  intros Hp Hne Hmem Hqid Hwf Hidle gone.
  destruct (refusals type (p_players p)) as [ps rem0] eqn:Er.
  destruct (refusals_spec _ _ _ _ Er) as [Hps Hrem0].
  set (p1 := proposal_with p LFG_PROPOSAL_FAILED ps).
  set (m1 := set_proposals m (<[id := p1]> (ProposalsStore m))).
  set (rem := foldl (λ acc g, if HasData (GetQueue m (queue_id m g)) g then acc else {[g]} ∪ acc)
                rem0 (queues p)).
  assert (∀ g, g ∈ rem ↔ gone g) as Hrem.
  { intros g. apply to_remove_spec; [by intros; rewrite Hqid by auto|done]. }
  pose proof (refused_members _ _ Hps Hmem) as Hmem'.
  unfold RemoveProposal. erewrite bind_run by reflexivity. rewrite Hp, Er.
  erewrite bind_run by reflexivity. fold p1 m1.
  change (foldl _ rem0 (queues p1)) with rem. cbv zeta.
  destruct (acts_notify_all type p1 rem ps Hmem' m1) as (a & m2 & En & Hact).
  erewrite bind_run by exact En. clear En.
  destruct (items ps) as [|[first pl1] ?] eqn:Ei.
  { destruct (map_choose _ Hne) as (k & pl & Hk). destruct (refused_same _ _ Hps k pl Hk) as (pl' & Ek & _).
    apply items_elem in Ek. rewrite Ei in Ek. set_solver. }
  assert (∀ g, queue_id m2 g = queue_id m g) as Hid.
  { intros g. etransitivity; [eapply queue_id_acted; [exact Hact|..]|reflexivity]; intros x d; cbv beta.
    - destruct (ps !! x); [|done]. unfold failed_effect. case_bool; [apply PlayerRestoreState_team|done].
    - destruct (in_group ps x); [|done]. unfold group_failed. by case_bool. }
  pose proof Hact as [K1 K2 K3 K4 K5].
  assert (GetQueue m2 qid = GetQueue m qid) as Hq by (unfold GetQueue; by rewrite K3).
  erewrite bind_run by reflexivity. rewrite Hid, Hqid.
  2:{ right. assert (ps !! first = Some pl1) as Ef by (apply items_elem; rewrite Ei; set_solver).
      pose proof (Hps first) as E. rewrite Ef in E. destruct (p_players p !! first); [by eexists|done]. }
  destruct (requeue_ok qid rem (queues p1) m2) as (m3 & [L1 L2 L3 _] & L5 & L6 & Erun).
  { by rewrite Hq. }
  { by rewrite Hq. }
  { intros g Hg Hnot. rewrite Hq. destruct (queueDataStore (GetQueue m qid) !! g) as [d|] eqn:Ed; [by eexists|].
    destruct Hnot. apply Hrem. right. done. }
  rewrite Erun. eexists. split; [reflexivity|]. cbn.
  split; [by rewrite L3, K5; cbn; rewrite delete_insert_eq|].
  assert (∀ x, pdata m3 x = pdata m2 x ∧ gdata m3 x = gdata m2 x) as Hm3.
  { intros x. unfold pdata, gdata. by rewrite L1, L2. }
  pose proof (refused_same _ _ Hps) as Hsame.
  split; [|split].
  - intros k pl Hk. destruct (Hsame k pl Hk) as (pl' & Hk' & Eg & Ee). destruct (Hmem k pl Hk) as [Hgk _].
    rewrite <- Hrem. refine (player_fell_back _ _ _ _ Hgk _).
    transitivity (pdata m3 k); [reflexivity|]. rewrite (proj1 (Hm3 k)), K1, Hk', Ee. done.
  - intros k pl Hk Hg0. destruct (Hsame k pl Hk) as (pl' & Hk' & Eg & Ee).
    destruct (Hmem k pl Hk) as [_ [|Hgg]]; [done|].
    rewrite <- Hrem. refine (group_fell_back _ _ _ _ Hgg _).
    transitivity (gdata m3 (p_group pl)); [reflexivity|].
    rewrite (proj2 (Hm3 _)), K2, <- Eg, (in_group_true ps k pl' Hk') by congruence. cbn. by rewrite Eg.
  - intros g Hg. split; intros Hin; rewrite <- Hrem in Hin; [by apply L5|by apply L6].
Qed.

(** ** Accepted proposals *)

Definition to_dungeon (d : LfgPlayerData) : LfgPlayerData := PlayerSetState d LFG_STATE_DUNGEON.

Lemma join_player_role p b now q kv data m r m' :
  join_player p b now q kv data m = Ok (r, m') → r.2.1 = Z.land (p_role kv.2) (Z.lnot PLAYER_ROLE_LEADER).
Proof. intros H. unfold join_player in H. by run_inv. Qed.

Lemma join_player_run p b now q kv data m :
  IsGroup kv.1 = false → GetSelectedDungeons m kv.1 ≠ ∅ →
  ∃ r m', join_player p b now q kv data m = Ok (r, m') ∧ acted (at_ kv.1 to_dungeon) same m m'.
Proof.
  intros Hg Hne. unfold join_player. erewrite bind_run by reflexivity.
  destruct (set_items (GetSelectedDungeons m kv.1)) as [|d0 l0] eqn:Ed.
  { destruct Hne. apply set_eq. intros x. rewrite <- set_items_elem, Ed. set_solver. }
  erewrite bind_run by reflexivity.
  match goal with |- ∃ r m', ?k m = Ok _ ∧ _ => assert (acts k (at_ kv.1 to_dungeon) same) as Hact end.
  { eapply acts_ext; [acts_solve|..]; intros x d; unfold on_player, on_group, at_, same, to_dungeon;
      rewrite Hg; by destruct (x =? kv.1). }
  destruct (Hact m) as (r & m' & E & H). by exists r, m'.
Qed.

Lemma join_players_run p b now q l data times m :
  NoDup l.*1 → (∀ kv, kv ∈ l → IsGroup kv.1 = false ∧ GetSelectedDungeons m kv.1 ≠ ∅ ∧
                    is_role (Z.land (p_role kv.2) (Z.lnot PLAYER_ROLE_LEADER))) →
  Forall (λ rt, is_role rt.1) times →
  ∃ times' m', join_players p b now q l data times m = Ok (times', m') ∧
    Forall (λ rt, is_role rt.1) times' ∧
    acted (λ x d, if bool_decide (x ∈ l.*1) then to_dungeon d else d) same m m'.
Proof.
  revert data times m. induction l as [|kv l IH]; intros data times m Hnd Hl Ht.
  { exists times, m. split; [done|]. split; [done|]. by split. }
  cbn in Hnd. apply NoDup_cons in Hnd as [Hni Hnd]. cbn [join_players].
  destruct (Hl kv) as (Hg & Hsel & Hr); [set_solver|].
  destruct (join_player_run p b now q kv data m Hg Hsel) as (r & m1 & E & [A1 A2 A3 A4 A5]).
  pose proof (join_player_role _ _ _ _ _ _ _ _ _ E) as Er. erewrite bind_run by exact E.
  destruct (IH r.1 (mm_insert r.2.1 r.2.2 times) m1) as (times' & m' & -> & Ht' & [B1 B2 B3 B4 B5]).
  - done.
  - intros kv' Hin. destruct (Hl kv') as (Hg' & Hsel' & Hr'); [set_solver|]. split; [done|]. split; [|done].
    unfold GetSelectedDungeons. rewrite A1, at_ne; [done|]. intros Ek. apply Hni. rewrite <- Ek.
    by apply list_elem_of_fmap_2.
  - apply mm_insert_Forall; [|done]. by rewrite Er.
  - exists times', m'. split; [done|]. split; [done|]. split; try congruence.
    + intros x. rewrite B1, A1. cbn. destruct (decide (x = kv.1)) as [->|Hne].
      * rewrite at_eq, bool_decide_eq_false_2, bool_decide_eq_true_2 by (done || set_solver). done.
      * rewrite at_ne by done. by rewrite (bool_decide_ext (x ∈ kv.1 :: l.*1) (x ∈ l.*1)) by set_solver.
    + intros x. by rewrite B2, A2.
Qed.

Lemma wait_times_ok qid c ds times m :
  wf (GetQueue m qid) → _isUpdating (GetQueue m qid) = false → Forall (λ rt, is_role rt.1) times →
  ∃ m', when c (on_queue qid (λ q, UpdateWaitTime q ds times)) m = Ok (tt, m') ∧ same_but_queue qid m m' ∧
    wf (GetQueue m' qid) ∧ _isUpdating (GetQueue m' qid) = false.
Proof.
  intros Hwf Hidle Ht. destruct c; [|by exists m].
  destruct (UpdateWaitTime_ok (GetQueue m qid) ds times Hwf Ht) as (q' & E & Hwf' & Hidle').
  eexists. split; [by apply on_queue_run|]. unfold GetQueue. cbn. rewrite lookup_insert_eq. cbn.
  split; [|split; [done|congruence]]. split; try done. intros id' Hid. cbn. by rewrite lookup_insert_ne.
Qed.

Lemma all_agree_spec ps : all_agree ps = true ↔ ∀ k x, ps !! k = Some x → accept x = LFG_ANSWER_AGREE.
Proof.
  unfold all_agree. rewrite forallb_forall. split.
  - intros H k x Hk. specialize (H (k, x)). rewrite <- list_elem_of_In, items_elem in H.
    by eapply bool_decide_eq_true_1, H.
  - intros H [k x] Hk%list_elem_of_In%items_elem. apply bool_decide_eq_true_2. by apply (H k).
Qed.

(** C26: A player accepts a proposal. As long as another has not agreed, the answer is
    recorded and nothing else changes. When all have agreed, every player is put in
    the dungeon, none of the entries is left in the queue, the group is built from a
    proposal in which everybody agreed (the calls of MakeNewGroup, made once, on that
    state), and the proposal is erased. *)
Theorem UpdateProposal_spec (now id guid : Z) (p : LfgProposal) (pl : LfgProposalPlayer) (m : LFGMgr) :
  ProposalsStore m !! id = Some p → p_players p !! guid = Some pl →
  (∀ k x, p_players p !! k = Some x → IsGroup k = false ∧ GetSelectedDungeons m k ≠ ∅ ∧
     is_role (Z.land (p_role x) (Z.lnot PLAYER_ROLE_LEADER))) →
  let qid := queue_id m guid in
  wf (GetQueue m qid) → _isUpdating (GetQueue m qid) = false →
  let ps := <[guid := set_accept LFG_ANSWER_AGREE pl]> (p_players p) in
  ((∃ k x, ps !! k = Some x ∧ accept x ≠ LFG_ANSWER_AGREE) →
   ∃ m', UpdateProposal now id guid true m = Ok (tt, m') ∧
     ProposalsStore m' = <[id := proposal_with p (p_state p) ps]> (ProposalsStore m) ∧
     (∀ x, pdata m' x = pdata m x) ∧ (∀ x, gdata m' x = gdata m x) ∧ QueuesStore m' = QueuesStore m) ∧
  ((∀ k x, ps !! k = Some x → accept x = LFG_ANSWER_AGREE) →
   let p' := proposal_with p LFG_PROPOSAL_SUCCESS ps in
   ∃ m1, UpdateProposal now id guid true m
         = (_ ← for_each (MakeNewGroup p' m1) call; erase_proposal id) m1 ∧
     (∀ k, is_Some (ps !! k) → GetState m1 k = LFG_STATE_DUNGEON) ∧
     (∀ g, g ∈ queues p → HasData (GetQueue m1 qid) g = false)).
Proof.
  intros Hp Hpl Hmem qid Hwf Hidle ps.
  unfold UpdateProposal. erewrite bind_run by reflexivity. rewrite Hp, Hpl. cbv zeta. fold ps.
  erewrite bind_run by reflexivity. cbn [negb].
  set (m0 := set_proposals m _). split.
  - intros (k & x & Hk & Hx). assert (all_agree ps = false) as ->.
    { apply not_true_iff_false. rewrite all_agree_spec. intros H. by destruct Hx; apply (H k). }
    cbn [negb].
    edestruct (acts_for_each (items ps) (λ kv : Z * LfgProposalPlayer, send kv.1 (MsgUpdateProposal (proposal_with p (p_state p) ps)))
      (λ _, same) (λ _, same)) as (a & m' & E & [K1 K2 K3 K4 K5]); [intros; apply acts_send|].
    destruct a. exists m'. split; [exact E|]. split; [done|].
    split; [|split; [|done]]; intros y; rewrite ?K1, ?K2; by apply foldl_same.
  - intros Hall. set (p' := proposal_with p LFG_PROPOSAL_SUCCESS ps). rewrite (proj2 (all_agree_spec ps) Hall).
    assert (∀ k x, ps !! k = Some x → IsGroup k = false ∧ GetSelectedDungeons m k ≠ ∅ ∧
              is_role (Z.land (p_role x) (Z.lnot PLAYER_ROLE_LEADER))) as Hmem'.
    { intros k x [[<- <-]|[_ Hk]]%lookup_insert_Some; [by apply (Hmem guid pl)|by apply Hmem]. }
    cbn [negb]. erewrite bind_run by reflexivity. set (m1 := set_proposals m0 _).
    change (proposal_with (proposal_with p (p_state p) ps) LFG_PROPOSAL_SUCCESS ps) with p'.
    destruct (join_players_run p' (negb (bool_decide (p_state (proposal_with p (p_state p) ps) = LFG_PROPOSAL_SUCCESS)))
                now qid (items ps) (update_of LFG_UPDATETYPE_GROUP_FOUND) [] m1)
      as (times & m2 & Ej & Ht & [K1 K2 K3 K4 K5]); [apply items_NoDup| |constructor|].
    { intros [k x] Hk%items_elem. by apply (Hmem' k x). }
    erewrite bind_run by exact Ej.
    destruct (wait_times_ok qid (MAXGROUPSIZE / 2 <? Z.of_nat (length (queues p'))) (p_commonDungeons p') times m2)
      as (m3 & Ew & [W1 W2 W3 _] & Hwf3 & Hidle3).
    { unfold GetQueue in *. by rewrite K3. }
    { unfold GetQueue in *. by rewrite K3. }
    { done. }
    erewrite bind_run by exact Ew.
    destruct (RemoveFromSystem_all (GetQueue m3 qid) (queues p) Hwf3 Hidle3) as (q' & Eq & _ & _ & Hs).
    destruct (for_each_queue qid RemoveFromSystem (queues p) m3 q' Eq) as (m4 & Er & [R1 R2 R3 _] & Hq).
    erewrite bind_run by exact Er. erewrite bind_run by reflexivity. exists m4. split; [done|]. split.
    + intros k [x Hk]. unfold GetState. destruct (Hmem' k x Hk) as [-> _].
      assert (pdata m4 k = pdata m2 k) as -> by (unfold pdata; by rewrite R1, W1).
      rewrite K1, bool_decide_eq_true_2; [done|]. apply list_elem_of_fmap. exists (k, x). split; [done|].
      by apply items_elem.
    + intros g Hg. unfold HasData. rewrite Hq, Hs, (bool_decide_eq_true_2 (g ∈ queues p)) by done. by apply bool_decide_eq_false_2; intros [].
Qed.
End acts.

End LfgOutcomes.
