(* ===== verification/LfgVotes.v ===== *)
(** * Votes to kick as ballots

    The abstract specification of a vote to kick, a ballot in which everybody votes
    once and three equal votes decide, and the proof that LFGMgr::InitBoot opens it and
    LFGMgr::UpdateBoot counts it. A player who joins while the ballot is open is not on
    it: the first vote of such a player is stored as a no, which decides nothing by
    itself but counts when the next vote is cast. *)
From S2P Require Import Prelude StateMonad Multimap LfgRoles LfgQueue LfgMatch LfgData LfgMgr LfgScripts LfgManager LfgOutcomes.

Module LfgVotes.
Export LfgManager.
Import LfgOutcomes.

(** ** The specification *)

Record ballot := mkBallot { yes : gset Z; no : gset Z; pending : gset Z }.

(** A player on the ballot votes once; a vote that is not on it becomes a no. *)
Definition cast (b : ballot) (v : Z * bool) : ballot :=
  if bool_decide (v.1 ∈ pending b) then
    if v.2 then mkBallot ({[v.1]} ∪ yes b) (no b) (pending b ∖ {[v.1]})
    else mkBallot (yes b) ({[v.1]} ∪ no b) (pending b ∖ {[v.1]})
  else if bool_decide (v.1 ∈ yes b ∪ no b) then b
  else mkBallot (yes b) ({[v.1]} ∪ no b) (pending b).

Definition votes_in (s : gset Z) : Z := Z.of_nat (size s).

(** [Some true] kicks, [Some false] does not, [None] goes on. *)
Definition outcome_of (b : ballot) : option bool :=
  if LFG_GROUP_KICK_VOTES_NEEDED <=? votes_in (yes b) then Some true
  else if LFG_GROUP_KICK_VOTES_NEEDED <=? votes_in (no b) then Some false
  else None.

(** A vote that was pending is the occasion to count. *)
Definition decision (b : ballot) (v : Z * bool) : option bool :=
  if bool_decide (v.1 ∈ pending b) then outcome_of (cast b v) else None.

(** The ballot after the votes, none of which decided it. *)
Fixpoint ballot_after (b : ballot) (l : list (Z * bool)) : option ballot :=
  match l with
  | [] => Some b
  | v :: l => match decision b v with None => ballot_after (cast b v) l | Some _ => None end
  end.

(** The ballot as it is opened: the kicker has said yes, the victim no. *)
Definition opened (players : gset Z) (kicker vguid : Z) : ballot :=
  mkBallot {[kicker]} {[vguid]} (players ∖ {[kicker; vguid]}).

(** ** The ballot of the stored answers *)

Definition who (a : LfgAnswer) (vs : gmap Z LfgAnswer) : gset Z :=
  dom (filter (λ kv : Z * LfgAnswer, kv.2 = a) vs).
Definition ballot_of (vs : gmap Z LfgAnswer) : ballot :=
  mkBallot (who LFG_ANSWER_AGREE vs) (who LFG_ANSWER_DENY vs) (who LFG_ANSWER_PENDING vs).

Lemma who_elem a vs g : g ∈ who a vs ↔ vs !! g = Some a.
Proof.
  unfold who. rewrite elem_of_dom. split.
  - intros [x Hx]. apply map_lookup_filter_Some in Hx as [Hx <-]. done.
  - intros H. exists a. by apply map_lookup_filter_Some.
Qed.

Lemma who_count a vs : votes_in (who a vs) = count_if (λ x, bool_decide (x = a)) vs.
Proof.
  unfold votes_in, who, count_if. rewrite size_dom. do 2 f_equal. apply map_filter_ext.
  intros k v _. cbn. by rewrite bool_decide_eq_true.
Qed.

Lemma answered_count vs :
  count_if answered vs = votes_in (who LFG_ANSWER_AGREE vs) + votes_in (who LFG_ANSWER_DENY vs).
Proof.
  rewrite !who_count. induction vs as [|k v vs Hk IH] using map_ind; [done|].
  rewrite !count_if_insert_new, IH by done.
  replace (if answered v then 1 else 0)
    with ((if bool_decide (v = LFG_ANSWER_AGREE) then 1 else 0) + (if bool_decide (v = LFG_ANSWER_DENY) then 1 else 0))
    by (destruct v; reflexivity).
  lia.
Qed.

(** Recording the answer of a player who has not voted is casting the vote. *)
Lemma ballot_cast vs g (accept : bool) :
  vs !! g = Some LFG_ANSWER_PENDING →
  ballot_of (<[g := if accept then LFG_ANSWER_AGREE else LFG_ANSWER_DENY]> vs) = cast (ballot_of vs) (g, accept).
Proof.
  intros Hg. unfold cast. rewrite bool_decide_eq_true_2 by by apply who_elem. cbn [fst snd].
  destruct accept; unfold ballot_of; cbn [yes no pending]; f_equal; apply set_eq; intros x;
    rewrite ?elem_of_union, ?elem_of_difference, ?elem_of_singleton, !who_elem;
    (destruct (decide (x = g)) as [->|Hne]; [rewrite lookup_insert_eq, ?Hg|rewrite lookup_insert_ne by done]);
    intuition congruence.
Qed.

Section votes.
Context `{LE : LfgEnv} `{RND : Random} `{ME : MgrEnv}.

Definition vote_all (l : list (Z * bool)) : LM unit := for_each l (λ v, UpdateBoot v.1 v.2).

(** The end of the function. *)
Definition close_vote (gguid victim : Z) (kick : bool) : LM unit :=
  _ ← when kick (m ← get; _ ← for_each (RemoveFromGroup gguid victim m) call; DecreaseKicksLeft gguid);
  modify (λ m, set_boots m (delete gguid (BootsStore m))).

(** One vote adds at most one yes. *)
Lemma cast_yes b v : votes_in (yes (cast b v)) ≤ votes_in (yes b) + 1.
Proof.
  assert (votes_in ({[v.1]} ∪ yes b) ≤ votes_in (yes b) + 1) as H.
  { unfold votes_in. pose proof (size_union_alt ({[v.1]} : gset Z) (yes b)).
    assert (size (yes b ∖ {[v.1]}) ≤ size (yes b))%nat by (apply subseteq_size; set_solver).
    rewrite size_singleton in *. lia. }
  unfold cast. repeat case_bool; cbn [yes]; lia.
Qed.

Lemma answers_dom vs :
  votes_in (who LFG_ANSWER_AGREE vs) + votes_in (who LFG_ANSWER_DENY vs) ≤ votes_in (dom vs).
Proof.
  rewrite <- answered_count. unfold count_if, votes_in. rewrite size_dom. apply inj_le.
  rewrite <- !size_dom. apply subseteq_size. intros x [y Hy]%elem_of_dom.
  apply map_lookup_filter_Some in Hy as [Hy _]. by apply elem_of_dom_2 in Hy.
Qed.

Lemma agree_num_votes vs : agree_num vs = u8 (votes_in (who LFG_ANSWER_AGREE vs)).
Proof. rewrite agree_num_count, who_count. done. Qed.
Lemma votes_num_votes vs :
  votes_num vs = u8 (votes_in (who LFG_ANSWER_AGREE vs) + votes_in (who LFG_ANSWER_DENY vs)).
Proof. by rewrite votes_num_count, answered_count. Qed.

(** A player who has voted. *)
Lemma vote_again m guid accept gguid b a :
  MgrGetGroup m guid = gguid → BootsStore m !! gguid = Some b → votes b !! guid = Some a → answered a = true →
  gguid ≠ 0 → UpdateBoot guid accept m = Ok (tt, m).
Proof.
  intros Hg Hb Ha Hans H0. unfold UpdateBoot. erewrite bind_run by reflexivity.
  rewrite Hg, (proj2 (Z.eqb_neq _ _)) by done. rewrite Hb. unfold vote_of. rewrite Ha.
  erewrite bind_run by reflexivity. rewrite Hans. unfold skip, mret, ST_ret. do 2 f_equal.
  destruct m. unfold set_boots. cbn in *. f_equal. rewrite insert_id; [done|]. rewrite Hb. by destruct b.
Qed.

(** The players are told and the group may vote again. *)
Lemma closing_run gguid b vict kick m0 m :
  IsGroup gguid = true → (∀ x, pdata m0 x = pdata m x) → (∀ x, gdata m0 x = gdata m x) →
  ∃ m1, (_ ← set_boot gguid b; _ ← send_boot b (boot_voters b);
         _ ← SetVoteKick gguid false; close_vote gguid vict kick) m0 = close_vote gguid vict kick m1 ∧
    m_VoteKickActive (gdata m1 gguid) = false ∧ (∀ x, pdata m1 x = pdata m x) ∧
    (∀ g, g ≠ gguid → gdata m1 g = gdata m g).
Proof.
  intros HG Hp0 Hg0. erewrite bind_run by reflexivity. set (m1 := set_boots m0 _).
  destruct (acts_for_each (boot_voters b) (λ p, send p (MsgBootProposalUpdate b)) (λ _, same) (λ _, same)
              (λ p _, acts_send p _) m1) as (a & m2 & E & [K1 K2 _ _ _]).
  erewrite bind_run by exact E.
  destruct (acts_group gguid (λ d, GroupSetVoteKick d false) m2) as ([] & m3 & E3 & [L1 L2 _ _ _]).
  erewrite bind_run by (unfold SetVoteKick, assert_; rewrite HG; exact E3).
  exists m3. split; [done|]. split; [by rewrite L2, at_eq|]. split.
  - intros x. rewrite L1, K1. unfold same. rewrite foldl_same by done. apply Hp0.
  - intros g Hg. rewrite L2, at_ne, K2 by done. rewrite foldl_same by done. apply Hg0.
Qed.

Definition with_vote (b : LfgPlayerBoot) (guid : Z) (accept : bool) : LfgPlayerBoot :=
  boot_with b (<[guid := if accept then LFG_ANSWER_AGREE else LFG_ANSWER_DENY]> (votes b)) (inProgress b).

(** The vote of a player who is not on the ballot. *)
Lemma vote_late m guid accept gguid b :
  MgrGetGroup m guid = gguid → BootsStore m !! gguid = Some b → votes b !! guid = None → gguid ≠ 0 →
  UpdateBoot guid accept m
  = Ok (tt, set_boots m (<[gguid := boot_with b (<[guid := LFG_ANSWER_DENY]> (votes b)) (inProgress b)]> (BootsStore m))).
Proof.
  intros Hg Hb Ha H0. unfold UpdateBoot. erewrite bind_run by reflexivity.
  rewrite Hg, (proj2 (Z.eqb_neq _ _)) by done. rewrite Hb. unfold vote_of. rewrite Ha.
  by erewrite bind_run by reflexivity.
Qed.

(** The vote of a player on the ballot, of whom there are fewer than 256. *)
Lemma vote_first m guid accept gguid b :
  MgrGetGroup m guid = gguid → BootsStore m !! gguid = Some b → votes b !! guid = Some LFG_ANSWER_PENDING →
  IsGroup gguid = true → votes_in (who LFG_ANSWER_AGREE (votes b)) < 3 → votes_in (dom (votes b)) < 256 →
  match outcome_of (ballot_of (votes (with_vote b guid accept))) with
  | None => UpdateBoot guid accept m = Ok (tt, set_boots m (<[gguid := with_vote b guid accept]> (BootsStore m)))
  | Some kick =>
    ∃ m1, UpdateBoot guid accept m = close_vote gguid (victim b) kick m1 ∧
      m_VoteKickActive (gdata m1 gguid) = false ∧ (∀ x, pdata m1 x = pdata m x) ∧
      (∀ g, g ≠ gguid → gdata m1 g = gdata m g)
  end.
Proof.
  intros Hg Hb Ha HG Ho Hsz. assert (gguid ≠ 0) as H0 by (intros ->; done).
  unfold UpdateBoot. erewrite bind_run by reflexivity.
  rewrite Hg, (proj2 (Z.eqb_neq _ _)) by done. rewrite Hb. unfold vote_of. rewrite Ha.
  erewrite bind_run by reflexivity. cbv zeta.
  change (answered LFG_ANSWER_PENDING) with false. cbv iota.
  erewrite bind_run by reflexivity.
  unfold with_vote. set (vs := <[guid := _]> (votes b)).
  pose proof (cast_yes (ballot_of (votes b)) (guid, accept)) as HA.
  assert (ballot_of vs = cast (ballot_of (votes b)) (guid, accept)) as Hvs by by apply ballot_cast.
  assert (dom vs = dom (votes b)) as Hd.
  { unfold vs. rewrite dom_insert_L. apply elem_of_dom_2 in Ha. set_solver. }
  pose proof (answers_dom vs) as Hn. rewrite Hd in Hn.
  cbn [votes boot_with]. rewrite <- Hvs in HA. cbn [yes ballot_of] in HA.
  assert (0 ≤ votes_in (who LFG_ANSWER_AGREE vs) ∧ 0 ≤ votes_in (who LFG_ANSWER_DENY vs)) as [? ?]
    by (unfold votes_in; lia).
  rewrite agree_num_votes, votes_num_votes.
  rewrite !wrap_small by (unfold in_u; lia).
  unfold outcome_of. cbn [yes no ballot_of]. unfold LFG_GROUP_KICK_VOTES_NEEDED in *.
  set (m0 := set_boots _ _).
  assert (∀ kick, ∃ m1, (_ ← set_boot gguid (boot_with b vs false);
      _ ← send_boot (boot_with b vs false) (boot_voters (boot_with b vs false));
      _ ← SetVoteKick gguid false; close_vote gguid (victim b) kick) m0 = close_vote gguid (victim b) kick m1 ∧
      m_VoteKickActive (gdata m1 gguid) = false ∧ (∀ x, pdata m1 x = pdata m x) ∧
      (∀ g, g ≠ gguid → gdata m1 g = gdata m g)) as Hclose by (intros kick; by apply closing_run).
  destruct (Z.leb_spec 3 (votes_in (who LFG_ANSWER_AGREE vs))) as [H3|H3].
  - rewrite (proj2 (Z.ltb_ge _ _)) by lia. cbn [andb].
    rewrite (proj2 (Z.eqb_eq _ _)) by lia. apply (Hclose true).
  - rewrite (proj2 (Z.ltb_lt _ _)) by lia. cbn [andb].
    rewrite (proj2 (Z.eqb_neq _ _)) by lia.
    destruct (Z.leb_spec 3 (votes_in (who LFG_ANSWER_DENY vs))) as [H4|H4].
    + rewrite (proj2 (Z.ltb_ge _ _)) by lia. apply (Hclose false).
    + rewrite (proj2 (Z.ltb_lt _ _)) by lia. unfold skip, mret, ST_ret, m0. do 2 f_equal.
      destruct m. unfold set_boots. cbn. f_equal. by rewrite insert_insert_eq.
Qed.

(** ** Refinement *)

(** A vote that runs among the players of [E]. *)
Record running (E : gset Z) (b : LfgPlayerBoot) : Prop := mkRunning {
  ru_yes : votes_in (who LFG_ANSWER_AGREE (votes b)) < 3;
  ru_dom : dom (votes b) ⊆ E
}.

Section running.
Variables (E : gset Z) (m : LFGMgr) (gguid : Z).
Hypothesis HE : votes_in E < 256.
Hypothesis HG : IsGroup gguid = true.

Lemma running_size b : running E b → votes_in (dom (votes b)) < 256.
Proof. intros [_ Hd]. pose proof (subseteq_size _ _ Hd). unfold votes_in in *. lia. Qed.

(** The manager with the vote [b] of the group. *)
Definition with_boot (b : LfgPlayerBoot) : LFGMgr := set_boots m (<[gguid := b]> (BootsStore m)).

Definition refines (b : LfgPlayerBoot) (v : Z * bool) : Prop :=
  let b' := cast (ballot_of (votes b)) v in
  match decision (ballot_of (votes b)) v with
  | None => ∃ b2, UpdateBoot v.1 v.2 (with_boot b) = Ok (tt, with_boot b2) ∧
      ballot_of (votes b2) = b' ∧ victim b2 = victim b ∧ running E b2
  | Some kick => ∃ m1, UpdateBoot v.1 v.2 (with_boot b) = close_vote gguid (victim b) kick m1 ∧
      m_VoteKickActive (gdata m1 gguid) = false ∧ (∀ x, pdata m1 x = pdata m x)
  end.

Lemma with_boot_again b b2 :
  set_boots (with_boot b) (<[gguid := b2]> (BootsStore (with_boot b))) = with_boot b2.
Proof. unfold with_boot. cbn. by rewrite insert_insert_eq. Qed.

Lemma with_boot_lookup b : BootsStore (with_boot b) !! gguid = Some b.
Proof. apply lookup_insert_eq. Qed.

Lemma late_refines b v :
  MgrGetGroup m v.1 = gguid → v.1 ∈ E → running E b → votes b !! v.1 = None → refines b v.
Proof.
  intros Hg HvE Hr Hv. destruct v as [guid accept]. cbn [fst] in *. unfold refines, decision. cbn [fst snd].
  rewrite bool_decide_eq_false_2 by (cbn [pending ballot_of]; rewrite who_elem; congruence).
  pose proof (vote_late (with_boot b) guid accept gguid b Hg (with_boot_lookup b) Hv) as H.
  rewrite with_boot_again in H. eexists. split; [apply H; by intros ->|].
  cbn [votes boot_with]. split; [|split; [done|]].
  - unfold cast. cbn [fst]. rewrite !bool_decide_eq_false_2
      by (cbn [pending yes no ballot_of]; rewrite ?elem_of_union, !who_elem; intuition congruence).
    unfold ballot_of. cbn [yes no pending]. f_equal; apply set_eq; intros x;
      rewrite ?elem_of_union, ?elem_of_singleton, !who_elem;
      (destruct (decide (x = guid)) as [->|Hne]; [rewrite lookup_insert_eq, ?Hv|rewrite lookup_insert_ne by done]);
      intuition congruence.
  - split; cbn [votes boot_with]; [|rewrite dom_insert_L; destruct Hr; set_solver].
    rewrite who_count, count_if_insert_new, <- who_count by done. cbn. destruct Hr as [Hy _].
    replace (if bool_decide (LFG_ANSWER_DENY = LFG_ANSWER_AGREE) then 1 else 0) with 0 by reflexivity. lia.
Qed.

Lemma vote_refines b v :
  MgrGetGroup m v.1 = gguid → v.1 ∈ E → running E b → refines b v.
Proof.
  intros Hg HvE Hr. destruct (votes b !! v.1) as [a|] eqn:Ha; [|by apply late_refines].
  destruct v as [guid accept]. cbn [fst] in *. unfold refines, decision. cbn [fst snd].
  destruct (decide (a = LFG_ANSWER_PENDING)) as [->|Hne].
  - rewrite bool_decide_eq_true_2 by by apply who_elem.
    pose proof (vote_first (with_boot b) guid accept gguid b Hg (with_boot_lookup b) Ha HG
      (ru_yes _ _ Hr) (running_size b Hr)) as H.
    unfold with_vote in H. cbn [votes boot_with] in H. rewrite (ballot_cast _ _ accept Ha) in H.
    destruct (outcome_of (cast (ballot_of (votes b)) (guid, accept))) as [kick|] eqn:Eo.
    { destruct H as (m1 & H1 & H2 & H3 & _). by exists m1. }
    eexists. rewrite with_boot_again in H. split; [exact H|]. cbn.
    split; [by apply ballot_cast|]. split; [done|]. split; cbn [votes boot_with].
    + rewrite <- (ballot_cast _ _ accept Ha) in Eo. revert Eo. unfold outcome_of, LFG_GROUP_KICK_VOTES_NEEDED.
      cbn [yes ballot_of]. case_bool; [done|]. intros _. by b2p.
    + rewrite dom_insert_L. destruct Hr. set_solver.
  - rewrite bool_decide_eq_false_2 by (cbn [pending ballot_of]; rewrite who_elem; congruence).
    assert (cast (ballot_of (votes b)) (guid, accept) = ballot_of (votes b)) as ->.
    { unfold cast. cbn [fst]. rewrite bool_decide_eq_false_2 by (cbn [pending ballot_of]; rewrite who_elem; congruence).
      rewrite bool_decide_eq_true_2; [done|]. cbn [yes no ballot_of]. rewrite elem_of_union, !who_elem.
      destruct a; [done|right; congruence|left; congruence]. }
    exists b. split; [|done].
    apply (vote_again _ guid accept gguid b a); [done|apply with_boot_lookup|done|by destruct a|by intros ->].
Qed.

Lemma votes_refine l b final :
  (∀ x, x ∈ l → MgrGetGroup m x.1 = gguid ∧ x.1 ∈ E) → running E b →
  ballot_after (ballot_of (votes b)) l = Some final →
  ∃ b1, vote_all l (with_boot b) = Ok (tt, with_boot b1) ∧ ballot_of (votes b1) = final ∧
    victim b1 = victim b ∧ running E b1.
Proof.
  revert b. induction l as [|v l IH]; intros b Hl Hr Hf; [by injection Hf as <-; exists b|].
  cbn [ballot_after] in Hf. destruct (Hl v) as [Hg HvE]; [set_solver|].
  pose proof (vote_refines b v Hg HvE Hr) as Hv. unfold refines in Hv.
  destruct (decision _ v) as [kick|]; [done|]. destruct Hv as (b2 & E2 & K1 & K2 & K3).
  destruct (IH b2) as (b1 & E1 & H1 & H2 & H3); [intros; apply Hl; set_solver|done|by rewrite K1|].
  exists b1. split; [|by rewrite H2]. unfold vote_all. cbn [for_each]. erewrite bind_run by exact E2. exact E1.
Qed.
End running.

(** InitBoot opens the ballot. *)
Lemma InitBoot_ballot (players : gset Z) (kicker vguid : Z) :
  kicker ≠ vguid → kicker ∈ players → vguid ∈ players →
  ballot_of (<[kicker := LFG_ANSWER_AGREE]> (<[vguid := LFG_ANSWER_DENY]>
     (foldl (λ vs p, <[p := LFG_ANSWER_PENDING]> vs) ∅ (set_items players))))
  = opened players kicker vguid.
Proof.
  intros Hne Hk Hv.
  assert (∀ x, foldl (λ vs p, <[p := LFG_ANSWER_PENDING]> vs) (∅ : gmap Z LfgAnswer) (set_items players) !! x
            = if decide (x ∈ players) then Some LFG_ANSWER_PENDING else None) as Hf.
  { intros x. rewrite (decide_ext (x ∈ players) (x ∈ set_items players)) by by rewrite LfgMatch.set_items_elem.
    generalize (set_items players) as l. intros l.
    assert (∀ vs : gmap Z LfgAnswer, foldl (λ vs p, <[p := LFG_ANSWER_PENDING]> vs) vs l !! x
              = if decide (x ∈ l) then Some LFG_ANSWER_PENDING else vs !! x) as H; [|by rewrite H, lookup_empty].
    induction l as [|p l IH]; intros vs; [done|]. cbn [foldl]. rewrite IH.
    destruct (decide (x = p)) as [->|Hxp].
    - rewrite lookup_insert_eq, (decide_True _ _ (P := p ∈ p :: l)) by set_solver. by case_decide.
    - rewrite lookup_insert_ne by done. by rewrite (decide_ext (x ∈ p :: l) (x ∈ l)) by set_solver. }
  unfold opened, ballot_of. f_equal; apply set_eq; intros x; rewrite who_elem, !lookup_insert, Hf;
    repeat case_decide; set_solver.
Qed.

Lemma ballot_dom vs : dom vs = yes (ballot_of vs) ∪ no (ballot_of vs) ∪ pending (ballot_of vs).
Proof.
  apply set_eq. intros x. cbn. rewrite !elem_of_union, !who_elem, elem_of_dom. split.
  - intros [[] ->]; auto.
  - intros [[->| ->]| ->]; by eexists.
Qed.

Lemma send_boot_run b ps m : ∃ o, send_boot b ps m = Ok (tt, set_out m o).
Proof.
  revert m. induction ps as [|p ps IH]; intros m; unfold send_boot; cbn [for_each].
  { exists (out m). by destruct m. }
  unfold send, when. destruct (connected p).
  - erewrite bind_run by reflexivity. destruct (IH (set_out m (out m ++ [(p, MsgBootProposalUpdate b)]))) as [o E].
    exists o. exact E.
  - erewrite bind_run by reflexivity. apply IH.
Qed.

Lemma InitBoot_run now m gguid kicker vguid why :
  IsGroup gguid = true → BootsStore m !! gguid = None →
  kicker ≠ vguid → kicker ∈ GetPlayers m gguid → vguid ∈ GetPlayers m gguid →
  ∃ m0 b, InitBoot now gguid kicker vguid why m = Ok (tt, with_boot m0 gguid b) ∧
    m_VoteKickActive (gdata m0 gguid) = true ∧ (∀ x, pdata m0 x = pdata m x) ∧
    BootsStore m0 = BootsStore m ∧
    ballot_of (votes b) = opened (GetPlayers m gguid) kicker vguid ∧ victim b = vguid.
Proof.
  intros HG Hb Hne Hk Hv. unfold InitBoot.
  set (m1 := set_groups m (<[gguid := GroupSetVoteKick (gdata m gguid) true]> (GroupsStore m))).
  assert (SetVoteKick gguid true m = Ok (tt, m1)) as Es by (unfold SetVoteKick, assert_; by rewrite HG).
  erewrite bind_run by exact Es. erewrite bind_run by reflexivity. cbv zeta.
  assert (gdata m1 gguid = GroupSetVoteKick (gdata m gguid) true) as Hgd
    by (unfold gdata at 1, m1; cbn; by rewrite lookup_insert_eq).
  assert (GetPlayers m1 gguid = GetPlayers m gguid) as Hp by (unfold GetPlayers; by rewrite Hgd).
  rewrite Hp. change (BootsStore m1) with (BootsStore m). rewrite Hb.
  match goal with |- context [mkBoot ?t ?p ?vs ?v ?r] => set (b := mkBoot t p vs v r) end.
  erewrite bind_run by reflexivity.
  match goal with |- context [send_boot b ?ps ?m2] => destruct (send_boot_run b ps m2) as [o ->] end.
  exists (set_out m1 o), b. split; [reflexivity|]. split; [by change (gdata (set_out m1 o) gguid) with (gdata m1 gguid); rewrite Hgd|].
  split; [done|]. split; [done|]. split; [|done]. by apply InitBoot_ballot.
Qed.

(** C32: A vote to kick is a ballot. InitBoot opens it for the players of the group, with
    the kicker's yes and the victim's no. Whatever players of the group answer then, in
    any order and however often, UpdateBoot keeps the ballot in which each casts one vote
    and changes nothing else until a vote of a player on the ballot is counted when a side
    has three: that vote ends it, the group may vote again, and the victim is kicked exactly
    when the yes has three. The first vote of a player who joined after the opening is
    kept as a no, whatever it was, and does not itself end the ballot. *)
Theorem boot_refines_ballot (now : Z) (m : LFGMgr) (gguid kicker vguid : Z) (why : string)
    (l : list (Z * bool)) (v : Z * bool) (final : ballot) :
  IsGroup gguid = true → BootsStore m !! gguid = None →
  kicker ≠ vguid → kicker ∈ GetPlayers m gguid → vguid ∈ GetPlayers m gguid →
  (∀ x, x ∈ l ++ [v] → MgrGetGroup m x.1 = gguid) →
  votes_in (GetPlayers m gguid ∪ list_to_set (l ++ [v]).*1) < 256 →
  ballot_after (opened (GetPlayers m gguid) kicker vguid) l = Some final →
  ∃ m0 b0 b1, InitBoot now gguid kicker vguid why m = Ok (tt, with_boot m0 gguid b0) ∧
    ballot_of (votes b0) = opened (GetPlayers m gguid) kicker vguid ∧ victim b0 = vguid ∧
    m_VoteKickActive (gdata m0 gguid) = true ∧ (∀ x, pdata m0 x = pdata m x) ∧
    vote_all l (with_boot m0 gguid b0) = Ok (tt, with_boot m0 gguid b1) ∧
    ballot_of (votes b1) = final ∧ victim b1 = vguid ∧
    match decision final v with
    | None => ∃ b2, UpdateBoot v.1 v.2 (with_boot m0 gguid b1) = Ok (tt, with_boot m0 gguid b2) ∧
        ballot_of (votes b2) = cast final v
    | Some kick => ∃ m2, UpdateBoot v.1 v.2 (with_boot m0 gguid b1) = close_vote gguid vguid kick m2 ∧
        m_VoteKickActive (gdata m2 gguid) = false ∧ (∀ x, pdata m2 x = pdata m x)
    end.
Proof.
  intros HG Hb Hne Hk Hv Hl HE Hf. set (E := _ ∪ list_to_set _) in HE.
  destruct (InitBoot_run now m gguid kicker vguid why HG Hb Hne Hk Hv) as (m0 & b0 & E0 & Ha & Hp & _ & Hb0 & Hv0).
  assert (∀ x, x ∈ l ++ [v] → MgrGetGroup m0 x.1 = gguid ∧ x.1 ∈ E) as HlE.
  { intros x Hx. split; [unfold MgrGetGroup; rewrite Hp; by apply Hl|].
    apply elem_of_union_r, elem_of_list_to_set, list_elem_of_fmap. by exists x. }
  assert (running E b0) as Hr.
  { split; [|rewrite ballot_dom, Hb0; unfold opened, E; cbn; set_solver].
    change (who LFG_ANSWER_AGREE (votes b0)) with (yes (ballot_of (votes b0))). rewrite Hb0.
    unfold opened, votes_in. cbn [yes]. rewrite size_singleton. lia. }
  rewrite <- Hb0 in Hf.
  destruct (votes_refine E m0 gguid HE HG l b0 final) as (b1 & E1 & H1 & H2 & H3);
    [intros; apply HlE; set_solver|done..|].
  exists m0, b0, b1. do 7 (split; [done || congruence|]). split; [congruence|].
  destruct (HlE v) as [Hg HvE]; [set_solver|].
  pose proof (vote_refines E m0 gguid HE HG b1 v Hg HvE H3) as Hvr. unfold refines in Hvr. rewrite H1, H2, Hv0 in Hvr.
  destruct (decision final v) as [kick|].
  - destruct Hvr as (m2 & E2 & K1 & K2). exists m2. split; [done|]. split; [done|]. intros x. by rewrite K2.
  - destruct Hvr as (b2 & E2 & K1 & _). by exists b2.
Qed.
End votes.

End LfgVotes.
