(* ===== verification/LfgDemo.v ===== *)
(** * Concrete runs of the dungeon finder

    Small managers on which the theorems about it are applied, and runs that show what
    the code does in the cases reported as findings. *)
From S2P Require Import Prelude StateMonad Multimap LfgRoles LfgQueue LfgMatch LfgInvariant LfgTheorems LfgData.
From S2P Require Import LfgMgr LfgScripts LfgManager LfgOutcomes LfgVotes.

Module LfgDemo.
Export LfgManager.
Import LfgInvariant LfgTheorems LfgOutcomes LfgVotes.

(** ** A server *)

Definition G : Z := Z.shiftl HIGHGUID_GROUP 48 + 7.

#[export] Existing Instance demo_env.
#[export] Existing Instance demo_random.
#[export] Existing Instance demo_groups.
#[export] Instance demo_history : IgnoreHistory := nobody.

Definition deadmines : LFGDungeonData := mkDungeon 206 36 LFG_TYPE_DUNGEON 0 1 15 25 18 23 false.
(** A group is built by entering its players, and left by the one who is kicked. *)
#[export] Instance demo_server : MgrEnv := {|
  connected := λ _, true;
  MakeNewGroup := λ p _, CallSetState G LFG_STATE_DUNGEON ::
    ((λ k, CallSetGroup k G) <$> (items (p_players p)).*1);
  RemoveFromGroup := λ g v _, [CallSetGroup v 0; CallRemovePlayer g v];
  encounter_mask := λ _, None;
  LfgDungeonStore := {[206 := deadmines]};
  CachedDungeonMapStore := ∅;
  locked_dungeons := λ _ _, ∅;
  m_options := 3;
  CONFIG_LFG_LEVEL_THRESHOLD := 3;
  CONFIG_LFG_WAITTIME_PER_DIFF := 60;
  CONFIG_ALLOW_TWO_SIDE_INTERACTION_GROUP := true
|}.

(** ** Histories *)

Definition op_ok (m : LFGMgr) (o : mgr_op) : bool :=
  match o with
  | OpJoin _ _ (Some g) _ _ _ => IsGroup (jg_guid g)
  | OpRemoveMember _ group _ GROUP_REMOVEMETHOD_KICK _ _ => negb (bool_decide (is_Some (BootsStore m !! gv_guid group)))
  | _ => true
  end.

Lemma op_ok_sound m o : op_ok m o = true → mgr_pre m o.
Proof.
  destruct o; cbn; try done; [by destruct grp|]. destruct method; try done.
  rewrite negb_true_iff, bool_decide_eq_false. intros H. by apply eq_None_not_Some.
Qed.

Fixpoint play (m : LFGMgr) (ops : list mgr_op) : option LFGMgr :=
  match ops with
  | [] => Some m
  | o :: ops => if op_ok m o then match perform o m with Ok (_, m) => play m ops | _ => None end else None
  end.

Lemma play_reachable m ops m' : mgr_reachable m → play m ops = Some m' → mgr_reachable m'.
Proof.
  revert m. induction ops as [|o ops IH]; intros m Hr E; cbn in E; [by injection E as <-|].
  destruct (op_ok m o) eqn:Eo; [|done]. destruct (perform o m) as [[[] m1]| | | |] eqn:Ep; try done.
  eapply IH; [|exact E]. eapply mgr_step; [done|by apply op_ok_sound|done].
Qed.

Definition joiner (g : Z) : Joiner := mkJoiner g true false false false false 20.
Definition the_group : GroupView := mkGroupView G 1 false.
(** Two players form a group; the leader asks for the Deadmines as a tank. *)
Definition party_ops : list mgr_op :=
  [OpAddMember 100 the_group 1; OpAddMember 100 the_group 2;
   OpJoin 110 (joiner 1) (Some (mkJoinGroup G false 2 [joiner 1; joiner 2])) 0x3 {[206]} "hi"].
Definition party : LFGMgr := default new_mgr (play new_mgr party_ops).

Lemma party_reachable : mgr_reachable party.
Proof. apply (play_reachable new_mgr party_ops); [apply mgr_init|]. vm_compute. reflexivity. Qed.

Lemma manager_invariant_witness :
  bool_decide (is_Some (RoleChecksStore party !! G)) = true ∧ (∀ guid, stable (MgrGetOldState party guid)) ∧
  (∀ gguid rc, RoleChecksStore party !! gguid = Some rc →
     rc_state rc = LFG_ROLECHECK_INITIALITING ∧ ∃ p, rc_roles rc !! p = Some PLAYER_ROLE_NONE) ∧
  (∀ id p, ProposalsStore party !! id = Some p → p_id p = id ∧ p_state p = LFG_PROPOSAL_INITIATING) ∧
  (∀ gguid b, BootsStore party !! gguid = Some b →
     inProgress b = true ∧ count_if agreed (votes b) < LFG_GROUP_KICK_VOTES_NEEDED).
Proof.
  split; [vm_compute; reflexivity|]. apply manager_invariant. apply party_reachable.
Defined.

(** ** The second player chooses to heal *)

Definition no_check : LfgRoleCheck := mkRoleCheck 0 ∅ LFG_ROLECHECK_DEFAULT ∅ 0 0 0 0.
Definition the_check : LfgRoleCheck := default no_check (RoleChecksStore party !! G).
Definition healer_roles : LfgRolesMap := <[2 := 0x4]> (rc_roles the_check).

Lemma party_queue : GetQueue party (queue_id party G) = empty_queue.
Proof. vm_compute. reflexivity. Qed.

Lemma healer_arrangement : arrangement healer_roles {[1 := 2; 2 := 4]}.
Proof. apply CheckRoles_full_iff. apply (bool_decide_eq_true_1 _). vm_compute. reflexivity. Qed.

Lemma UpdateRoleCheck_spec_witness :
  ∃ m', UpdateRoleCheck 120 G 2 0x4 party = Ok (tt, m') ∧ GetState m' G = LFG_STATE_QUEUED ∧
    GetState m' 1 = LFG_STATE_QUEUED ∧ GetRoles m' 2 = 0x4 ∧
    G ∈ newToQueue (GetQueue m' (queue_id party G)).
Proof.
  destruct (UpdateRoleCheck_spec 120 G 2 0x4 the_check party) as (m' & E & _ & Hfin & _).
  - vm_compute. reflexivity.
  - vm_compute. reflexivity.
  - vm_compute. reflexivity.
  - discriminate.
  - vm_compute. discriminate.
  - change (map_Forall (λ p r, IsGroup p = false ∧ 0 ≤ r < 16) healer_roles).
    apply (bool_decide_eq_true_1 _). vm_compute. reflexivity.
  - vm_compute. reflexivity.
  - change (set_Forall (λ d, in_u32 d) (rc_dungeons the_check)).
    apply (bool_decide_eq_true_1 _). vm_compute. reflexivity.
  - rewrite party_queue. split; [split; [apply inv_empty|constructor]|done| |].
    + intros g' p _ _ [r Hr]. change (queueDataStore empty_queue) with (∅ : gmap Z QueueData) in Hr.
      unfold data in Hr. rewrite lookup_empty in Hr. done.
    + split; intros []%elem_of_nil.
  - destruct Hfin as (_ & H1 & H2 & H3 & _).
    + intros p.
      assert (map_Forall (λ _ r, r ≠ PLAYER_ROLE_NONE) healer_roles) as H.
      { apply (bool_decide_eq_true_1 _). vm_compute. reflexivity. }
      intros Hp. by apply (H p _ Hp).
    + exists {[1 := 2; 2 := 4]}. apply healer_arrangement.
    + exists m'. split; [exact E|]. split; [exact H1|]. split; [|split; [|exact H3]].
      * apply (H2 1 0x3). vm_compute. reflexivity.
      * apply (H2 2 0x4). vm_compute. reflexivity.
Defined.

(** ** Three damage dealers join; the queue offers a group *)

Definition offer_ops : list mgr_op :=
  [OpSetRoles 120 G 2 0x4; OpUpdateQueues 121 (tt : rng);
   OpJoin 130 (joiner 3) None 0x8 {[206]} ""; OpUpdateQueues 131 (tt : rng);
   OpJoin 132 (joiner 4) None 0x8 {[206]} ""; OpUpdateQueues 133 (tt : rng);
   OpJoin 134 (joiner 5) None 0x8 {[206]} ""; OpUpdateQueues 135 (tt : rng);
   OpUpdateFinish 136 10].
Definition offered : LFGMgr := default new_mgr (play party offer_ops).

Example offered_ex :
  (items (p_players (default (mkProposal 0 0 LFG_PROPOSAL_INITIATING 0 0 0 0 true true [] [] ∅ ∅)
            (ProposalsStore offered !! 2)))).*1 = [1; 2; 3; 4; 5].
Proof. vm_compute. reflexivity. Qed.

Definition queue_ops : list op :=
  [OpAddNew 120 G 120 {[206 := 0]} {[1 := 3; 2 := 4]} false; OpFind (λ _ _, false) demo_groups 121 (tt : rng); OpRefreshBest; OpRefreshTimes;
   OpAddNew 130 3 130 {[206 := 0]} {[3 := 8]} false; OpFind (λ _ _, false) demo_groups 131 (tt : rng); OpRefreshBest; OpRefreshTimes;
   OpAddNew 132 4 132 {[206 := 0]} {[4 := 8]} false; OpFind (λ _ _, false) demo_groups 133 (tt : rng); OpRefreshBest; OpRefreshTimes;
   OpAddNew 134 5 134 {[206 := 0]} {[5 := 8]} false; OpFind (λ _ _, false) demo_groups 135 (tt : rng); OpRefreshBest; OpRefreshTimes].

Lemma offered_queue : checked empty_queue queue_ops = Some (GetQueue offered 0).
Proof. vm_compute. reflexivity. Qed.

Lemma offered_wf : wf (GetQueue offered 0).
Proof.
  apply (wf_history (all_seen nobody queue_ops)).
  - unfold all_seen, queue_ops, seen. cbn [foldl]. intuition congruence.
  - apply queue_reachable_wf.
    apply (checked_reachable nobody empty_queue queue_ops); [apply reachable_init|apply offered_queue].
Qed.

Definition no_proposal : LfgProposal := mkProposal 0 0 LFG_PROPOSAL_INITIATING 0 0 0 0 true true [] [] ∅ ∅.
Definition offer : LfgProposal := default no_proposal (ProposalsStore offered !! 2).

(** *** Player 3 declines *)

Definition declined_offer : LfgProposal :=
  proposal_with offer LFG_PROPOSAL_INITIATING (alter (set_accept LFG_ANSWER_DENY) 3 (p_players offer)).
Definition declined : LFGMgr := set_proposals offered {[2 := declined_offer]}.

Lemma declined_wf : wf (GetQueue declined 0).
Proof. unfold declined, GetQueue. cbn [QueuesStore set_proposals]. exact offered_wf. Qed.

Lemma G_stays : ¬ removed LFG_UPDATETYPE_PROPOSAL_DECLINED declined_offer (GetQueue declined 0) G.
Proof.
  intros [(k & pl & Hk & He & Hd)|[_ Hn]]; [|vm_compute in Hn; discriminate Hn].
  assert (map_Forall (λ k pl, ¬ (entry_of (k, pl) = G ∧
     (accept pl = LFG_ANSWER_DENY ∨
      (accept pl = LFG_ANSWER_PENDING ∧ LFG_UPDATETYPE_PROPOSAL_DECLINED = LFG_UPDATETYPE_PROPOSAL_FAILED))))
     (p_players declined_offer)) as H by (apply (bool_decide_eq_true_1 _); vm_compute; reflexivity).
  exact (H k pl Hk (conj He Hd)).
Qed.

Definition member (k : Z) : LfgProposalPlayer :=
  default (mkPPlayer 0 LFG_ANSWER_PENDING 0) (p_players declined_offer !! k).

Lemma members_1_3 :
  (p_players declined_offer !! 1 = Some (member 1) ∧ p_players declined_offer !! 3 = Some (member 3)) ∧
  entry_of (1, member 1) = G ∧ p_group (member 1) = G ∧ entry_of (3, member 3) = 3 ∧
  accept (member 3) = LFG_ANSWER_DENY ∧ MgrGetOldState declined 3 = LFG_STATE_NONE.
Proof. vm_compute. repeat split; reflexivity. Qed.

Lemma gone_3 : removed LFG_UPDATETYPE_PROPOSAL_DECLINED declined_offer (GetQueue declined 0) 3.
Proof. 
  left. exists 3, (member 3). destruct members_1_3 as ([_ E] & _ & _ & E3 & Ed & _).
  split; [exact E|]. split; [exact E3|]. left. exact Ed.
Qed.

Lemma RemoveProposal_spec_witness :
  ∃ m', RemoveProposal 2 LFG_UPDATETYPE_PROPOSAL_DECLINED declined = Ok (tt, m') ∧
    ProposalsStore m' = ∅ ∧ GetState m' 3 = LFG_STATE_NONE ∧ GetState m' 1 = LFG_STATE_QUEUED ∧
    GetState m' G = LFG_STATE_QUEUED ∧ G ∈ newToQueue (GetQueue m' 0) ∧ HasData (GetQueue m' 0) 3 = false.
Proof.
  destruct (RemoveProposal_spec 2 LFG_UPDATETYPE_PROPOSAL_DECLINED declined_offer declined 0)
    as (m' & E & H0 & H1 & H2 & H3).
  - vm_compute. reflexivity.
  - intros H. vm_compute in H. discriminate H.
  - unfold proper_member. apply (bool_decide_eq_true_1 _). vm_compute. reflexivity.
  - assert (Forall (λ g, queue_id declined g = 0) (queues declined_offer ++ (items (p_players declined_offer)).*1)) as H.
    { apply (bool_decide_eq_true_1 _). vm_compute. reflexivity. }
    rewrite Forall_app, !Forall_forall in H. destruct H as [Ha Hb]. intros g [Hg|[pl Hg]]; [exact (Ha g Hg)|].
    apply Hb. apply list_elem_of_fmap. exists (g, pl). split; [reflexivity|]. apply items_elem. exact Hg.
  - exact declined_wf.
  - vm_compute. reflexivity.
  - destruct members_1_3 as ([M1 M3] & E1 & EG & E3 & _ & EO).
    exists m'. split; [exact E|]. split; [rewrite H0; vm_compute; reflexivity|].
    split; [|split; [|split; [|split]]].
    + specialize (H1 3 (member 3) M3). rewrite E3, EO in H1. exact (proj1 H1 gone_3).
    + specialize (H1 1 (member 1) M1). rewrite E1 in H1. exact (proj2 H1 G_stays).
    + specialize (H2 1 (member 1) M1). rewrite EG in H2. apply H2; [discriminate|exact G_stays].
    + apply (H3 G); [|exact G_stays]. apply (bool_decide_eq_true_1 _). vm_compute. reflexivity.
    + apply (H3 3); [|exact gone_3]. apply (bool_decide_eq_true_1 _). vm_compute. reflexivity.
Defined.

(** *** Everybody agrees; player 5 last *)

Definition almost_offer : LfgProposal :=
  proposal_with offer LFG_PROPOSAL_INITIATING
    (alter (set_accept LFG_ANSWER_PENDING) 5 (set_accept LFG_ANSWER_AGREE <$> p_players offer)).
Definition almost : LFGMgr := set_proposals offered {[2 := almost_offer]}.
Definition member5 : LfgProposalPlayer :=
  default (mkPPlayer 0 LFG_ANSWER_PENDING 0) (p_players almost_offer !! 5).
Definition agreed_players : gmap Z LfgProposalPlayer :=
  <[5 := set_accept LFG_ANSWER_AGREE member5]> (p_players almost_offer).

Lemma almost_wf : wf (GetQueue almost (queue_id almost 5)).
Proof.
  assert (queue_id almost 5 = 0) as -> by (vm_compute; reflexivity).
  unfold almost, GetQueue. cbn [QueuesStore set_proposals]. exact offered_wf.
Qed.

Lemma UpdateProposal_spec_witness :
  ∃ m1, UpdateProposal 140 2 5 true almost
        = (_ ← for_each (MakeNewGroup (proposal_with almost_offer LFG_PROPOSAL_SUCCESS agreed_players) m1) call;
           erase_proposal 2) m1 ∧
    GetState m1 1 = LFG_STATE_DUNGEON ∧ HasData (GetQueue m1 (queue_id almost 5)) G = false.
Proof.
  destruct (UpdateProposal_spec 140 2 5 almost_offer member5 almost) as [_ Hall].
  - vm_compute. reflexivity.
  - vm_compute. reflexivity.
  - change (map_Forall (λ k x, IsGroup k = false ∧ GetSelectedDungeons almost k ≠ ∅ ∧
       (Z.land (p_role x) (Z.lnot PLAYER_ROLE_LEADER) = 2 ∨ Z.land (p_role x) (Z.lnot PLAYER_ROLE_LEADER) = 4 ∨
        Z.land (p_role x) (Z.lnot PLAYER_ROLE_LEADER) = 8)) (p_players almost_offer)).
    apply (bool_decide_eq_true_1 _). vm_compute. reflexivity.
  - exact almost_wf.
  - vm_compute. reflexivity.
  - destruct Hall as (m1 & E & H1 & H2).
    + change (map_Forall (λ k x, accept x = LFG_ANSWER_AGREE) agreed_players).
      apply (bool_decide_eq_true_1 _). vm_compute. reflexivity.
    + exists m1. split; [exact E|]. split.
      * apply H1. apply (bool_decide_eq_true_1 _). vm_compute. reflexivity.
      * apply H2. apply (bool_decide_eq_true_1 _). vm_compute. reflexivity.
Defined.

(** ** Player 1 wants player 2 kicked *)

Definition dungeon_group : GroupView := mkGroupView G 1 true.
Definition kick_ops : list mgr_op :=
  (λ p, OpAddMember 100 dungeon_group p) <$> [1; 2; 3; 4; 5].
Definition vote_ops : list mgr_op := [OpRemoveMember 200 dungeon_group 2 GROUP_REMOVEMETHOD_KICK 1 "afk"].
Definition no_boot : LfgPlayerBoot := mkBoot 0 false ∅ 0 "".

(** Player 6 belongs to the group, but was not in its list when the vote began. *)
Definition five : LFGMgr := default new_mgr (play new_mgr (kick_ops ++ [OpCall (CallSetGroup 6 G)])).

Lemma boot_refines_ballot_witness :
  ∃ m0 b0 b1, InitBoot 200 G 1 2 "afk" five = Ok (tt, with_boot m0 G b0) ∧
    vote_all [(3, true); (6, true); (3, false)] (with_boot m0 G b0) = Ok (tt, with_boot m0 G b1) ∧
    ballot_of (votes b1) = mkBallot {[1; 3]} {[2; 6]} {[4; 5]} ∧
    ∃ m2, UpdateBoot 4 true (with_boot m0 G b1) = close_vote G 2 true m2 ∧ m_VoteKickActive (gdata m2 G) = false.
Proof.
  assert (ballot_after (opened (GetPlayers five G) 1 2) [(3, true); (6, true); (3, false)]
          = Some (mkBallot {[1; 3]} {[2; 6]} {[4; 5]})) as Hf by (vm_compute; reflexivity).
  destruct (boot_refines_ballot 200 five G 1 2 "afk" [(3, true); (6, true); (3, false)] (4, true)
              (mkBallot {[1; 3]} {[2; 6]} {[4; 5]}))
    as (m0 & b0 & b1 & E0 & _ & _ & _ & _ & E1 & H1 & _ & H3).
  - vm_compute. reflexivity.
  - vm_compute. reflexivity.
  - discriminate.
  - apply (bool_decide_eq_true_1 _). vm_compute. reflexivity.
  - apply (bool_decide_eq_true_1 _). vm_compute. reflexivity.
  - rewrite <- Forall_forall. apply (bool_decide_eq_true_1 _). vm_compute. reflexivity.
  - vm_compute. reflexivity.
  - exact Hf.
  - exists m0, b0, b1. split; [exact E0|]. split; [exact E1|]. split; [exact H1|].
    assert (decision (mkBallot {[1; 3]} {[2; 6]} {[4; 5]}) (4, true) = Some true) as Ed
      by (vm_compute; reflexivity).
    rewrite Ed in H3. destruct H3 as (m2 & E2 & K & _). exists m2. split; [exact E2|exact K].
Defined.

(** ** A player who joins while a vote runs

    Player 4 has said no. Player 5 leaves, player 6 comes in and says yes. *)
Definition late_ops : list mgr_op :=
  kick_ops ++ vote_ops ++
  [OpVote 4 false; OpRemoveMember 210 dungeon_group 5 GROUP_REMOVEMETHOD_LEAVE 0 "";
   OpAddMember 211 dungeon_group 6].

(** A player who joined after a vote to kick began has no answer stored: the first
    yes of such a player is discarded and stored as a no. It can decide the vote: with
    it the group rejects a kick that would otherwise stay open. *)
Theorem late_yes_counts_no :
  match play new_mgr (late_ops ++ [OpVote 6 true]) with
  | Some m => votes (default no_boot (BootsStore m !! G)) !! 6 = Some LFG_ANSWER_DENY
  | None => False
  end ∧
  match play new_mgr (late_ops ++ [OpVote 6 true; OpVote 3 true]), play new_mgr (late_ops ++ [OpVote 3 true]) with
  | Some m, Some m' =>
    BootsStore m !! G = None ∧ m_Group (pdata m 2) = G ∧
    outcome_of (ballot_of (votes (default no_boot (BootsStore m' !! G)))) = None ∧ is_Some (BootsStore m' !! G)
  | _, _ => False
  end.
Proof.
  split; [vm_compute; reflexivity|]. vm_compute. repeat split; try reflexivity. eexists. reflexivity.
Qed.

(** A role check is meant to last 45 seconds (its constant is 45 * IN_MILLISECONDS)
    but its time is added to a time in seconds: the check of [party], begun at second
    110, is still there after 44999 seconds and goes after 45000. *)
Theorem role_check_lifetime :
  match perform (OpUpdateFinish (110 + 44999) 0) party, perform (OpUpdateFinish (110 + 45000) 0) party with
  | Ok (_, m), Ok (_, m') => is_Some (RoleChecksStore m !! G) ∧ RoleChecksStore m' !! G = None
  | _, _ => False
  end.
Proof. vm_compute. split; [eexists; reflexivity|reflexivity]. Qed.

(** ** Two proposals of one update *)

(** A server without groups across the teams: a queue for each. *)
Definition two_teams : MgrEnv := {|
  connected := λ _, true;
  MakeNewGroup := λ _ _, [];
  RemoveFromGroup := λ _ _ _, [];
  encounter_mask := λ _, None;
  LfgDungeonStore := {[206 := deadmines]};
  CachedDungeonMapStore := ∅;
  locked_dungeons := λ _ _, ∅;
  m_options := 3;
  CONFIG_LFG_LEVEL_THRESHOLD := 3;
  CONFIG_LFG_WAITTIME_PER_DIFF := 60;
  CONFIG_ALLOW_TWO_SIDE_INTERACTION_GROUP := false
|}.

Fixpoint play_teams (m : LFGMgr) (ops : list mgr_op) : option LFGMgr :=
  match ops with
  | [] => Some m
  | o :: ops => match perform (ME := two_teams) o m with Ok (_, m) => play_teams m ops | _ => None end
  end.

Definition join_as (g role : Z) : mgr_op := OpJoin 300 (joiner g) None role {[206]} "".
(** Five players of either team ask for a group; the queues are updated until both
    have found one, in the same update. *)
Definition team_ops : list mgr_op :=
  ((λ g, OpLogin g 469 None) <$> [1; 2; 3; 4; 5]) ++ ((λ g, OpLogin g 67 None) <$> [11; 12; 13; 14; 15]) ++
  [join_as 1 2; join_as 11 2; OpUpdateQueues 301 (tt : rng); join_as 2 4; join_as 12 4; OpUpdateQueues 302 (tt : rng);
   join_as 3 8; join_as 13 8; OpUpdateQueues 303 (tt : rng); join_as 4 8; join_as 14 8; OpUpdateQueues 304 (tt : rng);
   join_as 5 8; join_as 15 8; OpUpdateQueues 305 (tt : rng)].

(** When the queues of both teams find a group in the same update, only the newest
    proposal is announced. The other is stored, but its players are never asked; 46
    seconds later they are thrown out of the queue for not having answered. *)
Theorem proposal_never_announced :
  match play_teams new_mgr (team_ops ++ [OpUpdateFinish 305 10]),
        play_teams new_mgr (team_ops ++ [OpUpdateFinish 305 10; OpUpdateFinish 351 10]) with
  | Some m, Some m' =>
    (∃ p p', ProposalsStore m !! 2 = Some p ∧ ProposalsStore m !! 3 = Some p' ∧
       needSendUpdate p = true ∧ needSendUpdate p' = false ∧
       is_Some (p_players p !! 11) ∧ is_Some (p_players p' !! 1)) ∧
    GetState m 11 = LFG_STATE_QUEUED ∧ GetState m 1 = LFG_STATE_PROPOSAL ∧
    GetState m' 11 = LFG_STATE_NONE ∧ HasData (GetQueue m' 67) 11 = false
  | _, _ => False
  end.
Proof.
  vm_compute. split; [|repeat split; reflexivity]. eexists _, _. repeat split; try reflexivity; eexists; reflexivity.
Qed.

End LfgDemo.
