(* ===== verification/GuildData.v ===== *)
(** * The state behind guilds
    ([src/server/game/Guilds/Guild.{h,cpp}], [GuildMgr.{h,cpp}],
    [Entities/Player/PlayerCache.{hpp,cpp}], [database/world/Connections/CharacterDatabase.cpp])

    Guilds are found under their id, members under the low guid of the character. Every
    change is also written to the database: a handler opens a transaction, appends
    prepared statements and commits it. [exec] gives each statement the meaning of its
    SQL text; a transaction one of whose statements fails is rolled back. *)
From Stdlib Require Import Ascii.
From stdpp Require Import pretty.
From S2P Require Import Prelude StateMonad Items.

Module GuildData.
Export Items.

Definition GUILD_BANK_MAX_TABS := 6.
Definition GUILD_BANK_MAX_SLOTS := 98.
Definition GUILD_BANK_MONEY_LOGS_TAB := 100.
Definition GUILD_RANKS_MIN_COUNT := 5.
Definition GUILD_RANKS_MAX_COUNT := 10.
Definition GUILD_RANK_NONE := 0xFF.
Definition GUILD_WITHDRAW_MONEY_UNLIMITED := 0xFFFFFFFF.
Definition GUILD_WITHDRAW_SLOT_UNLIMITED := 0xFFFFFFFF.
Definition GUILD_EVENT_LOG_GUID_UNDEFINED := 0xFFFFFFFF.
Definition TAB_UNDEFINED := 0xFF.
Definition MAX_MONEY_AMOUNT := 0x7FFFFFFF - 1.
Definition GOLD := 10000.
Definition EMBLEM_PRICE := 10 * GOLD.

Definition GR_GUILDMASTER := 0.
Definition GR_OFFICER := 1.

Definition GR_RIGHT_EMPTY := 0x00000040.
Definition GR_RIGHT_GCHATLISTEN := Z.lor GR_RIGHT_EMPTY 0x00000001.
Definition GR_RIGHT_GCHATSPEAK := Z.lor GR_RIGHT_EMPTY 0x00000002.
Definition GR_RIGHT_OFFCHATLISTEN := Z.lor GR_RIGHT_EMPTY 0x00000004.
Definition GR_RIGHT_OFFCHATSPEAK := Z.lor GR_RIGHT_EMPTY 0x00000008.
Definition GR_RIGHT_INVITE := Z.lor GR_RIGHT_EMPTY 0x00000010.
Definition GR_RIGHT_REMOVE := Z.lor GR_RIGHT_EMPTY 0x00000020.
Definition GR_RIGHT_PROMOTE := Z.lor GR_RIGHT_EMPTY 0x00000080.
Definition GR_RIGHT_DEMOTE := Z.lor GR_RIGHT_EMPTY 0x00000100.
Definition GR_RIGHT_SETMOTD := Z.lor GR_RIGHT_EMPTY 0x00001000.
Definition GR_RIGHT_EPNOTE := Z.lor GR_RIGHT_EMPTY 0x00002000.
Definition GR_RIGHT_VIEWOFFNOTE := Z.lor GR_RIGHT_EMPTY 0x00004000.
Definition GR_RIGHT_EOFFNOTE := Z.lor GR_RIGHT_EMPTY 0x00008000.
Definition GR_RIGHT_MODIFY_GUILD_INFO := Z.lor GR_RIGHT_EMPTY 0x00010000.
Definition GR_RIGHT_WITHDRAW_REPAIR := 0x00040000.
Definition GR_RIGHT_WITHDRAW_GOLD := 0x00080000.
Definition GR_RIGHT_ALL := 0x001DF1FF.

Definition GUILD_BANK_RIGHT_VIEW_TAB := 0x01.
Definition GUILD_BANK_RIGHT_PUT_ITEM := 0x02.
Definition GUILD_BANK_RIGHT_DEPOSIT_ITEM := Z.lor GUILD_BANK_RIGHT_VIEW_TAB GUILD_BANK_RIGHT_PUT_ITEM.
Definition GUILD_BANK_RIGHT_FULL := 0xFF.

Definition GUILDMEMBER_STATUS_NONE := 0x0000.
Definition GUILDMEMBER_STATUS_ONLINE := 0x0001.

Inductive GuildCommandType :=
| GUILD_COMMAND_CREATE | GUILD_COMMAND_INVITE | GUILD_COMMAND_QUIT | GUILD_COMMAND_ROSTER
| GUILD_COMMAND_PROMOTE | GUILD_COMMAND_DEMOTE | GUILD_COMMAND_REMOVE
| GUILD_COMMAND_CHANGE_LEADER | GUILD_COMMAND_EDIT_MOTD | GUILD_COMMAND_CHANGE_RANK
| GUILD_COMMAND_PUBLIC_NOTE | GUILD_COMMAND_VIEW_TAB.

Inductive GuildCommandError :=
| ERR_GUILD_COMMAND_SUCCESS | ERR_ALREADY_IN_GUILD_S | ERR_ALREADY_INVITED_TO_GUILD_S
| ERR_GUILD_NAME_INVALID | ERR_GUILD_NAME_EXISTS_S | ERR_GUILD_LEADER_LEAVE | ERR_GUILD_PERMISSIONS
| ERR_GUILD_PLAYER_NOT_IN_GUILD | ERR_GUILD_PLAYER_NOT_FOUND_S | ERR_GUILD_NOT_ALLIED
| ERR_GUILD_RANK_TOO_HIGH_S | ERR_GUILD_RANK_TOO_LOW_S.

Inductive GuildEmblemError :=
| ERR_GUILDEMBLEM_SUCCESS | ERR_GUILDEMBLEM_NOGUILD | ERR_GUILDEMBLEM_NOTGUILDMASTER
| ERR_GUILDEMBLEM_NOTENOUGHMONEY | ERR_GUILDEMBLEM_INVALIDVENDOR.

Inductive GuildEvents :=
| GE_PROMOTION | GE_DEMOTION | GE_MOTD | GE_JOINED | GE_LEFT | GE_REMOVED | GE_LEADER_CHANGED
| GE_DISBANDED | GE_RANK_UPDATED | GE_RANK_DELETED | GE_SIGNED_ON | GE_SIGNED_OFF
| GE_BANK_TAB_PURCHASED | GE_BANK_TAB_UPDATED | GE_BANK_MONEY_SET | GE_BANK_TAB_AND_MONEY_UPDATED.

Inductive GuildBankEventLogTypes :=
| GUILD_BANK_LOG_DEPOSIT_ITEM | GUILD_BANK_LOG_WITHDRAW_ITEM | GUILD_BANK_LOG_MOVE_ITEM
| GUILD_BANK_LOG_DEPOSIT_MONEY | GUILD_BANK_LOG_WITHDRAW_MONEY | GUILD_BANK_LOG_REPAIR_MONEY
| GUILD_BANK_LOG_MOVE_ITEM2 | GUILD_BANK_LOG_UNK1 | GUILD_BANK_LOG_BUY_SLOT.
#[export] Instance GuildBankEventLogTypes_eq : EqDecision GuildBankEventLogTypes.
Proof. solve_decision. Defined.

Inductive GuildEventLogTypes :=
| GUILD_EVENT_LOG_INVITE_PLAYER | GUILD_EVENT_LOG_JOIN_GUILD | GUILD_EVENT_LOG_PROMOTE_PLAYER
| GUILD_EVENT_LOG_DEMOTE_PLAYER | GUILD_EVENT_LOG_UNINVITE_PLAYER | GUILD_EVENT_LOG_LEAVE_GUILD.

Inductive BankState := NOT_LOADED | LOADING | LOADED.
#[export] Instance BankState_eq : EqDecision BankState.
Proof. solve_decision. Defined.

(** ** Data *)

Record EmblemInfo := mkEmblem {
  m_style : Z;
  m_color : Z;
  m_borderStyle : Z;
  m_borderColor : Z;
  m_backgroundColor : Z
}.
Definition set_m_style (r : EmblemInfo) (x : Z) : EmblemInfo := mkEmblem
  x (m_color r) (m_borderStyle r) (m_borderColor r) (m_backgroundColor r).
Definition set_m_color (r : EmblemInfo) (x : Z) : EmblemInfo := mkEmblem
  (m_style r) x (m_borderStyle r) (m_borderColor r) (m_backgroundColor r).
Definition set_m_borderStyle (r : EmblemInfo) (x : Z) : EmblemInfo := mkEmblem
  (m_style r) (m_color r) x (m_borderColor r) (m_backgroundColor r).
Definition set_m_borderColor (r : EmblemInfo) (x : Z) : EmblemInfo := mkEmblem
  (m_style r) (m_color r) (m_borderStyle r) x (m_backgroundColor r).
Definition set_m_backgroundColor (r : EmblemInfo) (x : Z) : EmblemInfo := mkEmblem
  (m_style r) (m_color r) (m_borderStyle r) (m_borderColor r) x.
(** Rights on a bank tab, and the items a rank may take from it per day. *)
Record GuildBankRightsAndSlots := mkRights {
  tabId : Z;                            (* uint8 *)
  rights : Z;                           (* uint8 *)
  slots : Z                             (* uint32 *)
}.
Definition set_tabId (r : GuildBankRightsAndSlots) (x : Z) : GuildBankRightsAndSlots := mkRights
  x (rights r) (slots r).
Definition set_rights (r : GuildBankRightsAndSlots) (x : Z) : GuildBankRightsAndSlots := mkRights
  (tabId r) x (slots r).
Definition set_slots (r : GuildBankRightsAndSlots) (x : Z) : GuildBankRightsAndSlots := mkRights
  (tabId r) (rights r) x.
Record RankInfo := mkRank {
  m_rankId : Z;                         (* uint8 *)
  m_name : string;
  m_rights : Z;                         (* uint32 *)
  m_bankMoneyPerDay : Z;                (* uint32 *)
  m_bankTabRightsAndSlots : list GuildBankRightsAndSlots
}.
Definition set_m_rankId (r : RankInfo) (x : Z) : RankInfo := mkRank
  x (m_name r) (m_rights r) (m_bankMoneyPerDay r) (m_bankTabRightsAndSlots r).
Definition set_m_name (r : RankInfo) (x : string) : RankInfo := mkRank
  (m_rankId r) x (m_rights r) (m_bankMoneyPerDay r) (m_bankTabRightsAndSlots r).
Definition set_m_rights (r : RankInfo) (x : Z) : RankInfo := mkRank
  (m_rankId r) (m_name r) x (m_bankMoneyPerDay r) (m_bankTabRightsAndSlots r).
Definition set_m_bankMoneyPerDay (r : RankInfo) (x : Z) : RankInfo := mkRank
  (m_rankId r) (m_name r) (m_rights r) x (m_bankTabRightsAndSlots r).
Definition set_m_bankTabRightsAndSlots (r : RankInfo) (x : list GuildBankRightsAndSlots) : RankInfo := mkRank
  (m_rankId r) (m_name r) (m_rights r) (m_bankMoneyPerDay r) x.
Record Member := mkMember {
  m_guid : Z;
  m_flags : Z;
  m_logoutTime : Z;
  m_rank : Z;                           (* m_rankId, uint8 *)
  m_publicNote : string;
  m_officerNote : string;
  m_bankWithdraw : list Z               (* int32, the money last *)
}.
Definition set_m_guid (r : Member) (x : Z) : Member := mkMember
  x (m_flags r) (m_logoutTime r) (m_rank r) (m_publicNote r) (m_officerNote r) (m_bankWithdraw r).
Definition set_m_flags (r : Member) (x : Z) : Member := mkMember
  (m_guid r) x (m_logoutTime r) (m_rank r) (m_publicNote r) (m_officerNote r) (m_bankWithdraw r).
Definition set_m_logoutTime (r : Member) (x : Z) : Member := mkMember
  (m_guid r) (m_flags r) x (m_rank r) (m_publicNote r) (m_officerNote r) (m_bankWithdraw r).
Definition set_m_rank (r : Member) (x : Z) : Member := mkMember
  (m_guid r) (m_flags r) (m_logoutTime r) x (m_publicNote r) (m_officerNote r) (m_bankWithdraw r).
Definition set_m_publicNote (r : Member) (x : string) : Member := mkMember
  (m_guid r) (m_flags r) (m_logoutTime r) (m_rank r) x (m_officerNote r) (m_bankWithdraw r).
Definition set_m_officerNote (r : Member) (x : string) : Member := mkMember
  (m_guid r) (m_flags r) (m_logoutTime r) (m_rank r) (m_publicNote r) x (m_bankWithdraw r).
Definition set_m_bankWithdraw (r : Member) (x : list Z) : Member := mkMember
  (m_guid r) (m_flags r) (m_logoutTime r) (m_rank r) (m_publicNote r) (m_officerNote r) x.
(** A bank tab; a slot that is not in [m_items] is a null pointer. *)
Record BankTab := mkTab {
  m_items : gmap Z ptr;
  t_name : string;
  m_icon : string;
  m_text : string
}.
Definition set_m_items (r : BankTab) (x : gmap Z ptr) : BankTab := mkTab
  x (t_name r) (m_icon r) (m_text r).
Definition set_t_name (r : BankTab) (x : string) : BankTab := mkTab
  (m_items r) x (m_icon r) (m_text r).
Definition set_m_icon (r : BankTab) (x : string) : BankTab := mkTab
  (m_items r) (t_name r) x (m_text r).
Definition set_m_text (r : BankTab) (x : string) : BankTab := mkTab
  (m_items r) (t_name r) (m_icon r) x.
Record EventLogEntry := mkEvent {
  e_guid : Z;
  m_eventType : GuildEventLogTypes;
  m_playerGuid1 : Z;
  m_playerGuid2 : Z;
  m_newRank : Z;
  m_timestamp : Z
}.
Definition set_e_guid (r : EventLogEntry) (x : Z) : EventLogEntry := mkEvent
  x (m_eventType r) (m_playerGuid1 r) (m_playerGuid2 r) (m_newRank r) (m_timestamp r).
Definition set_m_eventType (r : EventLogEntry) (x : GuildEventLogTypes) : EventLogEntry := mkEvent
  (e_guid r) x (m_playerGuid1 r) (m_playerGuid2 r) (m_newRank r) (m_timestamp r).
Definition set_m_playerGuid1 (r : EventLogEntry) (x : Z) : EventLogEntry := mkEvent
  (e_guid r) (m_eventType r) x (m_playerGuid2 r) (m_newRank r) (m_timestamp r).
Definition set_m_playerGuid2 (r : EventLogEntry) (x : Z) : EventLogEntry := mkEvent
  (e_guid r) (m_eventType r) (m_playerGuid1 r) x (m_newRank r) (m_timestamp r).
Definition set_m_newRank (r : EventLogEntry) (x : Z) : EventLogEntry := mkEvent
  (e_guid r) (m_eventType r) (m_playerGuid1 r) (m_playerGuid2 r) x (m_timestamp r).
Definition set_m_timestamp (r : EventLogEntry) (x : Z) : EventLogEntry := mkEvent
  (e_guid r) (m_eventType r) (m_playerGuid1 r) (m_playerGuid2 r) (m_newRank r) x.
Record BankEventLogEntry := mkBankEvent {
  be_guid : Z;
  be_eventType : GuildBankEventLogTypes;
  m_bankTabId : Z;
  m_playerGuid : Z;
  m_itemOrMoney : Z;
  m_itemStackCount : Z;
  m_destTabId : Z;
  be_timestamp : Z
}.
Definition set_be_guid (r : BankEventLogEntry) (x : Z) : BankEventLogEntry := mkBankEvent
  x (be_eventType r) (m_bankTabId r) (m_playerGuid r) (m_itemOrMoney r) (m_itemStackCount r)
    (m_destTabId r) (be_timestamp r).
Definition set_be_eventType (r : BankEventLogEntry) (x : GuildBankEventLogTypes) : BankEventLogEntry := mkBankEvent
  (be_guid r) x (m_bankTabId r) (m_playerGuid r) (m_itemOrMoney r) (m_itemStackCount r) (m_destTabId
    r) (be_timestamp r).
Definition set_m_bankTabId (r : BankEventLogEntry) (x : Z) : BankEventLogEntry := mkBankEvent
  (be_guid r) (be_eventType r) x (m_playerGuid r) (m_itemOrMoney r) (m_itemStackCount r)
    (m_destTabId r) (be_timestamp r).
Definition set_m_playerGuid (r : BankEventLogEntry) (x : Z) : BankEventLogEntry := mkBankEvent
  (be_guid r) (be_eventType r) (m_bankTabId r) x (m_itemOrMoney r) (m_itemStackCount r) (m_destTabId
    r) (be_timestamp r).
Definition set_m_itemOrMoney (r : BankEventLogEntry) (x : Z) : BankEventLogEntry := mkBankEvent
  (be_guid r) (be_eventType r) (m_bankTabId r) (m_playerGuid r) x (m_itemStackCount r) (m_destTabId
    r) (be_timestamp r).
Definition set_m_itemStackCount (r : BankEventLogEntry) (x : Z) : BankEventLogEntry := mkBankEvent
  (be_guid r) (be_eventType r) (m_bankTabId r) (m_playerGuid r) (m_itemOrMoney r) x (m_destTabId r)
    (be_timestamp r).
Definition set_m_destTabId (r : BankEventLogEntry) (x : Z) : BankEventLogEntry := mkBankEvent
  (be_guid r) (be_eventType r) (m_bankTabId r) (m_playerGuid r) (m_itemOrMoney r) (m_itemStackCount
    r) x (be_timestamp r).
Definition set_be_timestamp (r : BankEventLogEntry) (x : Z) : BankEventLogEntry := mkBankEvent
  (be_guid r) (be_eventType r) (m_bankTabId r) (m_playerGuid r) (m_itemOrMoney r) (m_itemStackCount
    r) (m_destTabId r) x.
(** Log entries of either kind: [LogEntry::GetGUID]. *)
Class LogEntry (E : Type) := GetLogGUID : E → Z.
#[export] Instance EventLogEntry_log : LogEntry EventLogEntry := e_guid.
#[export] Instance BankEventLogEntry_log : LogEntry BankEventLogEntry := be_guid.

Record LogHolder (E : Type) := mkLog {
  m_log : list E;                       (* oldest first *)
  m_maxRecords : Z;
  m_nextGUID : Z
}.
Arguments mkLog {E} _ _ _.
Arguments m_log {E} _.
Arguments m_maxRecords {E} _.
Arguments m_nextGUID {E} _.

Record Guild := mkGuild {
  g_name : string;
  m_leaderGuid : Z;
  m_motd : string;
  m_info : string;
  m_createdDate : Z;
  m_emblemInfo : EmblemInfo;
  m_accountsNumber : Z;
  m_bankMoney : Z;                      (* uint64 *)
  m_ranks : list RankInfo;
  m_members : gmap Z Member;
  m_bankTabs : list BankTab;
  m_eventLog : LogHolder EventLogEntry;
  m_bankEventLog : list (LogHolder BankEventLogEntry);
  m_bankState : BankState;
  m_playerToSendBank : gmap Z bool
}.
Definition set_g_name (r : Guild) (x : string) : Guild := mkGuild
  x (m_leaderGuid r) (m_motd r) (m_info r) (m_createdDate r) (m_emblemInfo r) (m_accountsNumber r)
    (m_bankMoney r) (m_ranks r) (m_members r) (m_bankTabs r) (m_eventLog r) (m_bankEventLog r)
    (m_bankState r) (m_playerToSendBank r).
Definition set_m_leaderGuid (r : Guild) (x : Z) : Guild := mkGuild
  (g_name r) x (m_motd r) (m_info r) (m_createdDate r) (m_emblemInfo r) (m_accountsNumber r)
    (m_bankMoney r) (m_ranks r) (m_members r) (m_bankTabs r) (m_eventLog r) (m_bankEventLog r)
    (m_bankState r) (m_playerToSendBank r).
Definition set_m_motd (r : Guild) (x : string) : Guild := mkGuild
  (g_name r) (m_leaderGuid r) x (m_info r) (m_createdDate r) (m_emblemInfo r) (m_accountsNumber r)
    (m_bankMoney r) (m_ranks r) (m_members r) (m_bankTabs r) (m_eventLog r) (m_bankEventLog r)
    (m_bankState r) (m_playerToSendBank r).
Definition set_m_info (r : Guild) (x : string) : Guild := mkGuild
  (g_name r) (m_leaderGuid r) (m_motd r) x (m_createdDate r) (m_emblemInfo r) (m_accountsNumber r)
    (m_bankMoney r) (m_ranks r) (m_members r) (m_bankTabs r) (m_eventLog r) (m_bankEventLog r)
    (m_bankState r) (m_playerToSendBank r).
Definition set_m_createdDate (r : Guild) (x : Z) : Guild := mkGuild
  (g_name r) (m_leaderGuid r) (m_motd r) (m_info r) x (m_emblemInfo r) (m_accountsNumber r)
    (m_bankMoney r) (m_ranks r) (m_members r) (m_bankTabs r) (m_eventLog r) (m_bankEventLog r)
    (m_bankState r) (m_playerToSendBank r).
Definition set_m_emblemInfo (r : Guild) (x : EmblemInfo) : Guild := mkGuild
  (g_name r) (m_leaderGuid r) (m_motd r) (m_info r) (m_createdDate r) x (m_accountsNumber r)
    (m_bankMoney r) (m_ranks r) (m_members r) (m_bankTabs r) (m_eventLog r) (m_bankEventLog r)
    (m_bankState r) (m_playerToSendBank r).
Definition set_m_accountsNumber (r : Guild) (x : Z) : Guild := mkGuild
  (g_name r) (m_leaderGuid r) (m_motd r) (m_info r) (m_createdDate r) (m_emblemInfo r) x
    (m_bankMoney r) (m_ranks r) (m_members r) (m_bankTabs r) (m_eventLog r) (m_bankEventLog r)
    (m_bankState r) (m_playerToSendBank r).
Definition set_m_bankMoney (r : Guild) (x : Z) : Guild := mkGuild
  (g_name r) (m_leaderGuid r) (m_motd r) (m_info r) (m_createdDate r) (m_emblemInfo r)
    (m_accountsNumber r) x (m_ranks r) (m_members r) (m_bankTabs r) (m_eventLog r) (m_bankEventLog
    r) (m_bankState r) (m_playerToSendBank r).
Definition set_m_ranks (r : Guild) (x : list RankInfo) : Guild := mkGuild
  (g_name r) (m_leaderGuid r) (m_motd r) (m_info r) (m_createdDate r) (m_emblemInfo r)
    (m_accountsNumber r) (m_bankMoney r) x (m_members r) (m_bankTabs r) (m_eventLog r)
    (m_bankEventLog r) (m_bankState r) (m_playerToSendBank r).
Definition set_m_members (r : Guild) (x : gmap Z Member) : Guild := mkGuild
  (g_name r) (m_leaderGuid r) (m_motd r) (m_info r) (m_createdDate r) (m_emblemInfo r)
    (m_accountsNumber r) (m_bankMoney r) (m_ranks r) x (m_bankTabs r) (m_eventLog r) (m_bankEventLog
    r) (m_bankState r) (m_playerToSendBank r).
Definition set_m_bankTabs (r : Guild) (x : list BankTab) : Guild := mkGuild
  (g_name r) (m_leaderGuid r) (m_motd r) (m_info r) (m_createdDate r) (m_emblemInfo r)
    (m_accountsNumber r) (m_bankMoney r) (m_ranks r) (m_members r) x (m_eventLog r) (m_bankEventLog
    r) (m_bankState r) (m_playerToSendBank r).
Definition set_m_eventLog (r : Guild) (x : LogHolder EventLogEntry) : Guild := mkGuild
  (g_name r) (m_leaderGuid r) (m_motd r) (m_info r) (m_createdDate r) (m_emblemInfo r)
    (m_accountsNumber r) (m_bankMoney r) (m_ranks r) (m_members r) (m_bankTabs r) x (m_bankEventLog
    r) (m_bankState r) (m_playerToSendBank r).
Definition set_m_bankEventLog (r : Guild) (x : list (LogHolder BankEventLogEntry)) : Guild := mkGuild
  (g_name r) (m_leaderGuid r) (m_motd r) (m_info r) (m_createdDate r) (m_emblemInfo r)
    (m_accountsNumber r) (m_bankMoney r) (m_ranks r) (m_members r) (m_bankTabs r) (m_eventLog r) x
    (m_bankState r) (m_playerToSendBank r).
Definition set_m_bankState (r : Guild) (x : BankState) : Guild := mkGuild
  (g_name r) (m_leaderGuid r) (m_motd r) (m_info r) (m_createdDate r) (m_emblemInfo r)
    (m_accountsNumber r) (m_bankMoney r) (m_ranks r) (m_members r) (m_bankTabs r) (m_eventLog r)
    (m_bankEventLog r) x (m_playerToSendBank r).
Definition set_m_playerToSendBank (r : Guild) (x : gmap Z bool) : Guild := mkGuild
  (g_name r) (m_leaderGuid r) (m_motd r) (m_info r) (m_createdDate r) (m_emblemInfo r)
    (m_accountsNumber r) (m_bankMoney r) (m_ranks r) (m_members r) (m_bankTabs r) (m_eventLog r)
    (m_bankEventLog r) (m_bankState r) x.
(** A connected player, as far as guilds use it. *)
Record Player := mkPlayer {
  GetMoney : Z;                         (* PLAYER_FIELD_COINAGE *)
  GetGuildId : Z;                       (* PLAYER_GUILDID *)
  GetRank : Z;                          (* PLAYER_GUILDRANK *)
  m_GuildIdInvited : Z;
  IsInWorld : bool;
  GetTeam : Z;
  GetOTeam : Z;
  ignores : gset Z;                     (* GetSocial()->HasIgnore *)
  IsSecretQueuingActive : bool;
  locale : Z                            (* GetSessionDbLocaleIndex *)
}.
Definition set_GetMoney (r : Player) (x : Z) : Player := mkPlayer
  x (GetGuildId r) (GetRank r) (m_GuildIdInvited r) (IsInWorld r) (GetTeam r) (GetOTeam r) (ignores
    r) (IsSecretQueuingActive r) (locale r).
Definition set_GetGuildId (r : Player) (x : Z) : Player := mkPlayer
  (GetMoney r) x (GetRank r) (m_GuildIdInvited r) (IsInWorld r) (GetTeam r) (GetOTeam r) (ignores r)
    (IsSecretQueuingActive r) (locale r).
Definition set_GetRank (r : Player) (x : Z) : Player := mkPlayer
  (GetMoney r) (GetGuildId r) x (m_GuildIdInvited r) (IsInWorld r) (GetTeam r) (GetOTeam r) (ignores
    r) (IsSecretQueuingActive r) (locale r).
Definition set_m_GuildIdInvited (r : Player) (x : Z) : Player := mkPlayer
  (GetMoney r) (GetGuildId r) (GetRank r) x (IsInWorld r) (GetTeam r) (GetOTeam r) (ignores r)
    (IsSecretQueuingActive r) (locale r).
Definition set_IsInWorld (r : Player) (x : bool) : Player := mkPlayer
  (GetMoney r) (GetGuildId r) (GetRank r) (m_GuildIdInvited r) x (GetTeam r) (GetOTeam r) (ignores
    r) (IsSecretQueuingActive r) (locale r).
Definition set_GetTeam (r : Player) (x : Z) : Player := mkPlayer
  (GetMoney r) (GetGuildId r) (GetRank r) (m_GuildIdInvited r) (IsInWorld r) x (GetOTeam r) (ignores
    r) (IsSecretQueuingActive r) (locale r).
Definition set_GetOTeam (r : Player) (x : Z) : Player := mkPlayer
  (GetMoney r) (GetGuildId r) (GetRank r) (m_GuildIdInvited r) (IsInWorld r) (GetTeam r) x (ignores
    r) (IsSecretQueuingActive r) (locale r).
Definition set_ignores (r : Player) (x : gset Z) : Player := mkPlayer
  (GetMoney r) (GetGuildId r) (GetRank r) (m_GuildIdInvited r) (IsInWorld r) (GetTeam r) (GetOTeam
    r) x (IsSecretQueuingActive r) (locale r).
Definition set_IsSecretQueuingActive (r : Player) (x : bool) : Player := mkPlayer
  (GetMoney r) (GetGuildId r) (GetRank r) (m_GuildIdInvited r) (IsInWorld r) (GetTeam r) (GetOTeam
    r) (ignores r) x (locale r).
Definition set_locale (r : Player) (x : Z) : Player := mkPlayer
  (GetMoney r) (GetGuildId r) (GetRank r) (m_GuildIdInvited r) (IsInWorld r) (GetTeam r) (GetOTeam
    r) (ignores r) (IsSecretQueuingActive r) x.
(** [player::PlayerCache::Entry]: what the server remembers of every character. *)
Record CacheEntry := mkCache {
  c_name : string;
  c_account : Z;
  c_team : Z;                           (* TeamForRace of the race *)
  c_level : Z;
  c_rename : bool;                      (* AT_LOGIN_RENAME *)
  c_guild : Z
}.
Definition set_c_name (r : CacheEntry) (x : string) : CacheEntry := mkCache
  x (c_account r) (c_team r) (c_level r) (c_rename r) (c_guild r).
Definition set_c_account (r : CacheEntry) (x : Z) : CacheEntry := mkCache
  (c_name r) x (c_team r) (c_level r) (c_rename r) (c_guild r).
Definition set_c_team (r : CacheEntry) (x : Z) : CacheEntry := mkCache
  (c_name r) (c_account r) x (c_level r) (c_rename r) (c_guild r).
Definition set_c_level (r : CacheEntry) (x : Z) : CacheEntry := mkCache
  (c_name r) (c_account r) (c_team r) x (c_rename r) (c_guild r).
Definition set_c_rename (r : CacheEntry) (x : bool) : CacheEntry := mkCache
  (c_name r) (c_account r) (c_team r) (c_level r) x (c_guild r).
Definition set_c_guild (r : CacheEntry) (x : Z) : CacheEntry := mkCache
  (c_name r) (c_account r) (c_team r) (c_level r) (c_rename r) x.
(** ** The database *)

Record GuildRow := mkGuildRow {
  row_name : string;
  row_leader : Z;
  row_info : string;
  row_motd : string;
  row_createdate : Z;
  row_emblem : EmblemInfo;
  row_BankMoney : Z
}.
Definition set_row_name (r : GuildRow) (x : string) : GuildRow := mkGuildRow
  x (row_leader r) (row_info r) (row_motd r) (row_createdate r) (row_emblem r) (row_BankMoney r).
Definition set_row_leader (r : GuildRow) (x : Z) : GuildRow := mkGuildRow
  (row_name r) x (row_info r) (row_motd r) (row_createdate r) (row_emblem r) (row_BankMoney r).
Definition set_row_info (r : GuildRow) (x : string) : GuildRow := mkGuildRow
  (row_name r) (row_leader r) x (row_motd r) (row_createdate r) (row_emblem r) (row_BankMoney r).
Definition set_row_motd (r : GuildRow) (x : string) : GuildRow := mkGuildRow
  (row_name r) (row_leader r) (row_info r) x (row_createdate r) (row_emblem r) (row_BankMoney r).
Definition set_row_createdate (r : GuildRow) (x : Z) : GuildRow := mkGuildRow
  (row_name r) (row_leader r) (row_info r) (row_motd r) x (row_emblem r) (row_BankMoney r).
Definition set_row_emblem (r : GuildRow) (x : EmblemInfo) : GuildRow := mkGuildRow
  (row_name r) (row_leader r) (row_info r) (row_motd r) (row_createdate r) x (row_BankMoney r).
Definition set_row_BankMoney (r : GuildRow) (x : Z) : GuildRow := mkGuildRow
  (row_name r) (row_leader r) (row_info r) (row_motd r) (row_createdate r) (row_emblem r) x.
Record MemberRow := mkMemberRow {
  row_guildid : Z;
  row_rank : Z;
  row_pnote : string;
  row_offnote : string
}.
Definition set_row_guildid (r : MemberRow) (x : Z) : MemberRow := mkMemberRow
  x (row_rank r) (row_pnote r) (row_offnote r).
Definition set_row_rank (r : MemberRow) (x : Z) : MemberRow := mkMemberRow
  (row_guildid r) x (row_pnote r) (row_offnote r).
Definition set_row_pnote (r : MemberRow) (x : string) : MemberRow := mkMemberRow
  (row_guildid r) (row_rank r) x (row_offnote r).
Definition set_row_offnote (r : MemberRow) (x : string) : MemberRow := mkMemberRow
  (row_guildid r) (row_rank r) (row_pnote r) x.
Record RankRow := mkRankRow {
  rname : string;
  row_rights : Z;
  BankMoneyPerDay : Z
}.
Definition set_rname (r : RankRow) (x : string) : RankRow := mkRankRow
  x (row_rights r) (BankMoneyPerDay r).
Definition set_row_rights (r : RankRow) (x : Z) : RankRow := mkRankRow
  (rname r) x (BankMoneyPerDay r).
Definition set_BankMoneyPerDay (r : RankRow) (x : Z) : RankRow := mkRankRow
  (rname r) (row_rights r) x.
Record TabRow := mkTabRow {
  TabName : string;
  TabIcon : string;
  TabText : string
}.
Definition set_TabName (r : TabRow) (x : string) : TabRow := mkTabRow
  x (TabIcon r) (TabText r).
Definition set_TabIcon (r : TabRow) (x : string) : TabRow := mkTabRow
  (TabName r) x (TabText r).
Definition set_TabText (r : TabRow) (x : string) : TabRow := mkTabRow
  (TabName r) (TabIcon r) x.
(** The tables, by the columns that identify a row. *)
Record Tables := mkTables {
  guild_ : gmap Z GuildRow;             (* guild: guildid *)
  guild_rank : gmap (Z * Z) RankRow;    (* guildid, rid *)
  guild_member : gmap Z MemberRow;      (* guid *)
  guild_member_withdraw : gmap Z (list Z * Z); (* guid *)
  guild_bank_tab : gmap (Z * Z) TabRow; (* guildid, TabId *)
  guild_bank_right : gmap (Z * Z * Z) (Z * Z); (* guildid, TabId, rid *)
  guild_bank_item : gmap (Z * Z * Z) Z; (* guildid, TabId, SlotId *)
  guild_eventlog : gmap (Z * Z) EventLogEntry; (* guildid, LogGuid *)
  guild_bank_eventlog : gmap (Z * Z * Z) BankEventLogEntry; (* guildid, LogGuid, TabId *)
  item_instance : gmap Z Item;          (* guid *)
  characters_money : gmap Z Z           (* characters.money: guid *)
}.
Definition set_guild_ (r : Tables) (x : gmap Z GuildRow) : Tables := mkTables
  x (guild_rank r) (guild_member r) (guild_member_withdraw r) (guild_bank_tab r) (guild_bank_right
    r) (guild_bank_item r) (guild_eventlog r) (guild_bank_eventlog r) (item_instance r)
    (characters_money r).
Definition set_guild_rank (r : Tables) (x : gmap (Z * Z) RankRow) : Tables := mkTables
  (guild_ r) x (guild_member r) (guild_member_withdraw r) (guild_bank_tab r) (guild_bank_right r)
    (guild_bank_item r) (guild_eventlog r) (guild_bank_eventlog r) (item_instance r)
    (characters_money r).
Definition set_guild_member (r : Tables) (x : gmap Z MemberRow) : Tables := mkTables
  (guild_ r) (guild_rank r) x (guild_member_withdraw r) (guild_bank_tab r) (guild_bank_right r)
    (guild_bank_item r) (guild_eventlog r) (guild_bank_eventlog r) (item_instance r)
    (characters_money r).
Definition set_guild_member_withdraw (r : Tables) (x : gmap Z (list Z * Z)) : Tables := mkTables
  (guild_ r) (guild_rank r) (guild_member r) x (guild_bank_tab r) (guild_bank_right r)
    (guild_bank_item r) (guild_eventlog r) (guild_bank_eventlog r) (item_instance r)
    (characters_money r).
Definition set_guild_bank_tab (r : Tables) (x : gmap (Z * Z) TabRow) : Tables := mkTables
  (guild_ r) (guild_rank r) (guild_member r) (guild_member_withdraw r) x (guild_bank_right r)
    (guild_bank_item r) (guild_eventlog r) (guild_bank_eventlog r) (item_instance r)
    (characters_money r).
Definition set_guild_bank_right (r : Tables) (x : gmap (Z * Z * Z) (Z * Z)) : Tables := mkTables
  (guild_ r) (guild_rank r) (guild_member r) (guild_member_withdraw r) (guild_bank_tab r) x
    (guild_bank_item r) (guild_eventlog r) (guild_bank_eventlog r) (item_instance r)
    (characters_money r).
Definition set_guild_bank_item (r : Tables) (x : gmap (Z * Z * Z) Z) : Tables := mkTables
  (guild_ r) (guild_rank r) (guild_member r) (guild_member_withdraw r) (guild_bank_tab r)
    (guild_bank_right r) x (guild_eventlog r) (guild_bank_eventlog r) (item_instance r)
    (characters_money r).
Definition set_guild_eventlog (r : Tables) (x : gmap (Z * Z) EventLogEntry) : Tables := mkTables
  (guild_ r) (guild_rank r) (guild_member r) (guild_member_withdraw r) (guild_bank_tab r)
    (guild_bank_right r) (guild_bank_item r) x (guild_bank_eventlog r) (item_instance r)
    (characters_money r).
Definition set_guild_bank_eventlog (r : Tables) (x : gmap (Z * Z * Z) BankEventLogEntry) : Tables := mkTables
  (guild_ r) (guild_rank r) (guild_member r) (guild_member_withdraw r) (guild_bank_tab r)
    (guild_bank_right r) (guild_bank_item r) (guild_eventlog r) x (item_instance r)
    (characters_money r).
Definition set_item_instance (r : Tables) (x : gmap Z Item) : Tables := mkTables
  (guild_ r) (guild_rank r) (guild_member r) (guild_member_withdraw r) (guild_bank_tab r)
    (guild_bank_right r) (guild_bank_item r) (guild_eventlog r) (guild_bank_eventlog r) x
    (characters_money r).
Definition set_characters_money (r : Tables) (x : gmap Z Z) : Tables := mkTables
  (guild_ r) (guild_rank r) (guild_member r) (guild_member_withdraw r) (guild_bank_tab r)
    (guild_bank_right r) (guild_bank_item r) (guild_eventlog r) (guild_bank_eventlog r)
    (item_instance r) x.

Inductive Stmt :=
| CHAR_INS_GUILD (id : Z) (r : GuildRow)
| CHAR_DEL_GUILD (id : Z)
| CHAR_UPD_GUILD_NAME (name : string) (id : Z)
| CHAR_UPD_GUILD_MOTD (motd : string) (id : Z)
| CHAR_UPD_GUILD_INFO (info : string) (id : Z)
| CHAR_UPD_GUILD_LEADER (leader id : Z)
| CHAR_UPD_GUILD_EMBLEM_INFO (e : EmblemInfo) (id : Z)
| CHAR_UPD_GUILD_BANK_MONEY (money id : Z)
| CHAR_INS_GUILD_MEMBER (id guid rank : Z) (pnote offnote : string)
| CHAR_DEL_GUILD_MEMBER (guid : Z)
| CHAR_DEL_GUILD_MEMBERS (id : Z)
| CHAR_UPD_GUILD_MEMBER_PNOTE (note : string) (guid : Z)
| CHAR_UPD_GUILD_MEMBER_OFFNOTE (note : string) (guid : Z)
| CHAR_UPD_GUILD_MEMBER_RANK (rank guid : Z)
| CHAR_INS_GUILD_MEMBER_WITHDRAW (guid : Z) (tabs : list Z) (money : Z)
| CHAR_DEL_GUILD_MEMBER_WITHDRAW
| CHAR_INS_GUILD_RANK (id rid : Z) (name : string) (rights money : Z)
| CHAR_DEL_GUILD_RANKS (id : Z)
| CHAR_DEL_GUILD_LOWEST_RANK (id rid : Z)
| CHAR_UPD_GUILD_RANK_NAME (name : string) (rid id : Z)
| CHAR_UPD_GUILD_RANK_RIGHTS (rights rid id : Z)
| CHAR_UPD_GUILD_RANK_BANK_MONEY (money rid id : Z)
| CHAR_INS_GUILD_BANK_TAB (id tab : Z)
| CHAR_DEL_GUILD_BANK_TAB (id tab : Z)
| CHAR_DEL_GUILD_BANK_TABS (id : Z)
| CHAR_UPD_GUILD_BANK_TAB_INFO (name icon : string) (id tab : Z)
| CHAR_UPD_GUILD_BANK_TAB_TEXT (text : string) (id tab : Z)
| CHAR_INS_GUILD_BANK_RIGHT (id tab rid gbright slot : Z)
| CHAR_DEL_GUILD_BANK_RIGHTS (id : Z)
| CHAR_DEL_GUILD_BANK_RIGHTS_FOR_RANK (id rid : Z)
| CHAR_INS_GUILD_BANK_ITEM (id tab slot item : Z)
| CHAR_DEL_GUILD_BANK_ITEM (id tab slot : Z)
| CHAR_DEL_GUILD_BANK_ITEMS (id : Z)
| CHAR_INS_GUILD_EVENTLOG (id : Z) (e : EventLogEntry)
| CHAR_DEL_GUILD_EVENTLOG (id guid : Z)
| CHAR_DEL_GUILD_EVENTLOGS (id : Z)
| CHAR_INS_GUILD_BANK_EVENTLOG (id : Z) (e : BankEventLogEntry)
| CHAR_DEL_GUILD_BANK_EVENTLOG (id guid tab : Z)
| CHAR_DEL_GUILD_BANK_EVENTLOGS (id : Z)
| CHAR_REP_ITEM_INSTANCE (it : Item)
| CHAR_UPD_ITEM_INSTANCE (it : Item)
| CHAR_DEL_ITEM_INSTANCE (guid : Z)
| CHAR_UPD_CHAR_MONEY (money guid : Z).

(** INSERT of a row that must be new, UPDATE of the rows that are there, DELETE of the rows
    that match. *)
Definition ins {K V M} `{Lookup K V M, Insert K V M} (k : K) (v : V) (m : M) : option M :=
  match m !! k with Some _ => None | None => Some (<[k := v]> m) end.
Definition del_where {K V} `{Countable K} (p : K → bool) (m : gmap K V) : gmap K V :=
  filter (λ kv, p kv.1 = false) m.

Definition no_tab_row : TabRow := mkTabRow "" "" "".

Definition exec (s : Stmt) (t : Tables) : option Tables :=
  match s with
  | CHAR_INS_GUILD id r => set_guild_ t <$> ins id r (guild_ t)
  | CHAR_DEL_GUILD id => Some (set_guild_ t (delete id (guild_ t)))
  | CHAR_UPD_GUILD_NAME name id => Some (set_guild_ t (alter (λ r, set_row_name r name) id (guild_ t)))
  | CHAR_UPD_GUILD_MOTD motd id => Some (set_guild_ t (alter (λ r, set_row_motd r motd) id (guild_ t)))
  | CHAR_UPD_GUILD_INFO info id => Some (set_guild_ t (alter (λ r, set_row_info r info) id (guild_ t)))
  | CHAR_UPD_GUILD_LEADER leader id => Some (set_guild_ t (alter (λ r, set_row_leader r leader) id (guild_ t)))
  | CHAR_UPD_GUILD_EMBLEM_INFO e id => Some (set_guild_ t (alter (λ r, set_row_emblem r e) id (guild_ t)))
  | CHAR_UPD_GUILD_BANK_MONEY money id => Some (set_guild_ t (alter (λ r, set_row_BankMoney r money) id (guild_ t)))
  | CHAR_INS_GUILD_MEMBER id guid rank pnote offnote =>
    set_guild_member t <$> ins guid (mkMemberRow id rank pnote offnote) (guild_member t)
  | CHAR_DEL_GUILD_MEMBER guid => Some (set_guild_member t (delete guid (guild_member t)))
  | CHAR_DEL_GUILD_MEMBERS id =>
    Some (set_guild_member t (filter (λ kv, row_guildid kv.2 ≠ id) (guild_member t)))
  | CHAR_UPD_GUILD_MEMBER_PNOTE note guid =>
    Some (set_guild_member t (alter (λ r, set_row_pnote r note) guid (guild_member t)))
  | CHAR_UPD_GUILD_MEMBER_OFFNOTE note guid =>
    Some (set_guild_member t (alter (λ r, set_row_offnote r note) guid (guild_member t)))
  | CHAR_UPD_GUILD_MEMBER_RANK rank guid =>
    Some (set_guild_member t (alter (λ r, set_row_rank r rank) guid (guild_member t)))
  | CHAR_INS_GUILD_MEMBER_WITHDRAW guid tabs money =>
    (* ON DUPLICATE KEY UPDATE tab0 .. tab5 *)
    Some (set_guild_member_withdraw t
      (partial_alter (λ o, Some (tabs, match o with Some (_, m) => m | None => money end))
        guid (guild_member_withdraw t)))
  | CHAR_DEL_GUILD_MEMBER_WITHDRAW => Some (set_guild_member_withdraw t ∅)
  | CHAR_INS_GUILD_RANK id rid name rights money =>
    set_guild_rank t <$> ins (id, rid) (mkRankRow name rights money) (guild_rank t)
  | CHAR_DEL_GUILD_RANKS id => Some (set_guild_rank t (del_where (λ k, k.1 =? id) (guild_rank t)))
  | CHAR_DEL_GUILD_LOWEST_RANK id rid =>
    Some (set_guild_rank t (del_where (λ k, (k.1 =? id) && (rid <=? k.2)) (guild_rank t)))
  | CHAR_UPD_GUILD_RANK_NAME name rid id =>
    Some (set_guild_rank t (alter (λ r, set_rname r name) (id, rid) (guild_rank t)))
  | CHAR_UPD_GUILD_RANK_RIGHTS rights rid id =>
    Some (set_guild_rank t (alter (λ r, set_row_rights r rights) (id, rid) (guild_rank t)))
  | CHAR_UPD_GUILD_RANK_BANK_MONEY money rid id =>
    Some (set_guild_rank t (alter (λ r, set_BankMoneyPerDay r money) (id, rid) (guild_rank t)))
  | CHAR_INS_GUILD_BANK_TAB id tab => set_guild_bank_tab t <$> ins (id, tab) no_tab_row (guild_bank_tab t)
  | CHAR_DEL_GUILD_BANK_TAB id tab => Some (set_guild_bank_tab t (delete (id, tab) (guild_bank_tab t)))
  | CHAR_DEL_GUILD_BANK_TABS id => Some (set_guild_bank_tab t (del_where (λ k, k.1 =? id) (guild_bank_tab t)))
  | CHAR_UPD_GUILD_BANK_TAB_INFO name icon id tab =>
    Some (set_guild_bank_tab t (alter (λ r, set_TabIcon (set_TabName r name) icon) (id, tab) (guild_bank_tab t)))
  | CHAR_UPD_GUILD_BANK_TAB_TEXT text id tab =>
    Some (set_guild_bank_tab t (alter (λ r, set_TabText r text) (id, tab) (guild_bank_tab t)))
  | CHAR_INS_GUILD_BANK_RIGHT id tab rid gbright slot =>
    Some (set_guild_bank_right t (<[(id, tab, rid) := (gbright, slot)]> (guild_bank_right t)))
  | CHAR_DEL_GUILD_BANK_RIGHTS id =>
    Some (set_guild_bank_right t (del_where (λ k, k.1.1 =? id) (guild_bank_right t)))
  | CHAR_DEL_GUILD_BANK_RIGHTS_FOR_RANK id rid =>
    Some (set_guild_bank_right t (del_where (λ k, (k.1.1 =? id) && (k.2 =? rid)) (guild_bank_right t)))
  | CHAR_INS_GUILD_BANK_ITEM id tab slot item =>
    set_guild_bank_item t <$> ins (id, tab, slot) item (guild_bank_item t)
  | CHAR_DEL_GUILD_BANK_ITEM id tab slot =>
    Some (set_guild_bank_item t (delete (id, tab, slot) (guild_bank_item t)))
  | CHAR_DEL_GUILD_BANK_ITEMS id =>
    Some (set_guild_bank_item t (del_where (λ k, k.1.1 =? id) (guild_bank_item t)))
  | CHAR_INS_GUILD_EVENTLOG id e => set_guild_eventlog t <$> ins (id, e_guid e) e (guild_eventlog t)
  | CHAR_DEL_GUILD_EVENTLOG id guid => Some (set_guild_eventlog t (delete (id, guid) (guild_eventlog t)))
  | CHAR_DEL_GUILD_EVENTLOGS id =>
    Some (set_guild_eventlog t (del_where (λ k, k.1 =? id) (guild_eventlog t)))
  | CHAR_INS_GUILD_BANK_EVENTLOG id e =>
    set_guild_bank_eventlog t <$> ins (id, be_guid e, m_bankTabId e) e (guild_bank_eventlog t)
  | CHAR_DEL_GUILD_BANK_EVENTLOG id guid tab =>
    Some (set_guild_bank_eventlog t (delete (id, guid, tab) (guild_bank_eventlog t)))
  | CHAR_DEL_GUILD_BANK_EVENTLOGS id =>
    Some (set_guild_bank_eventlog t (del_where (λ k, k.1.1 =? id) (guild_bank_eventlog t)))
  | CHAR_REP_ITEM_INSTANCE it => Some (set_item_instance t (<[guid it := it]> (item_instance t)))
  | CHAR_UPD_ITEM_INSTANCE it =>
    Some (set_item_instance t (alter (λ _, it) (guid it) (item_instance t)))
  | CHAR_DEL_ITEM_INSTANCE g => Some (set_item_instance t (delete g (item_instance t)))
  | CHAR_UPD_CHAR_MONEY money g =>
    Some (set_characters_money t (alter (λ _, money) g (characters_money t)))
  end.
Fixpoint exec_all (l : list Stmt) (t : Tables) : option Tables :=
  match l with
  | [] => Some t
  | s :: l => t ← exec s t; exec_all l t
  end.
(** A transaction: all of it or nothing. *)
Definition ExecuteTransaction (l : list Stmt) (t : Tables) : Tables := default t (exec_all l t).

(** ** Packets *)
Inductive Packet :=
| SMSG_GUILD_COMMAND_RESULT (type : GuildCommandType) (param : string) (err : GuildCommandError)
| MSG_SAVE_GUILD_EMBLEM (err : GuildEmblemError)
| SMSG_GUILD_EVENT (ev : GuildEvents) (params : list string) (who : Z)
| SMSG_GUILD_INVITE (from guild : string)
| SMSG_GUILD_ROSTER (membersize : Z) (motd info : string) (ranks : list RankInfo)
    (members : list (Z * Z * Z * string * string))    (* guid, flags, rank, notes *)
| SMSG_GUILD_QUERY_RESPONSE (id : Z) (name : string) (ranks : list string) (e : EmblemInfo) (nranks : Z)
| SMSG_GUILD_INFO (name : string) (created nmembers naccounts : Z)
| MSG_GUILD_EVENT_LOG_QUERY (log : list EventLogEntry)
| MSG_GUILD_BANK_LOG_QUERY (tab : Z) (log : list BankEventLogEntry)
| MSG_GUILD_PERMISSIONS (rank rights money ntabs : Z) (tabs : list (Z * Z))
| MSG_GUILD_BANK_MONEY_WITHDRAWN (amount : Z)
| SMSG_GUILD_BANK_LIST (money tab remaining : Z) (all : bool) (tabs : list (string * string))
    (contents : list (Z * Z * Z))                     (* slot, entry, count *)
| MSG_QUERY_GUILD_BANK_TEXT (tab : Z) (text : string)
| GuildChat (officer : bool) (from : Z) (msg : string)
| EquipError (err : InventoryResult).

(** ** The world *)

Record World := mkWorld {
  guilds : gmap Z Guild;                (* GuildMgr::GuildStore *)
  NextGuildId : Z;
  removals : list Z;                    (* RemoveGuild jobs in lowPrioThreadPool *)
  players : gmap Z Player;              (* connected players *)
  cache : gmap Z CacheEntry;
  mem : gmap Z Item;                    (* items of the banks, by address *)
  next_ptr : Z;
  next_item_guid : Z;
  now : Z;                              (* time(NULL) *)
  bank_queries : list (Z * list (Z * Z * Item)); (* answers of CHAR_SEL_GUILD_BANK_ITEMS *)
  tables : Tables;                      (* what is committed *)
  trans : list Stmt;                    (* the open transaction *)
  sent : list (Z * Packet)
}.
Definition set_guilds (r : World) (x : gmap Z Guild) : World := mkWorld
  x (NextGuildId r) (removals r) (players r) (cache r) (mem r) (next_ptr r) (next_item_guid r) (now
    r) (bank_queries r) (tables r) (trans r) (sent r).
Definition set_NextGuildId (r : World) (x : Z) : World := mkWorld
  (guilds r) x (removals r) (players r) (cache r) (mem r) (next_ptr r) (next_item_guid r) (now r)
    (bank_queries r) (tables r) (trans r) (sent r).
Definition set_removals (r : World) (x : list Z) : World := mkWorld
  (guilds r) (NextGuildId r) x (players r) (cache r) (mem r) (next_ptr r) (next_item_guid r) (now r)
    (bank_queries r) (tables r) (trans r) (sent r).
Definition set_players (r : World) (x : gmap Z Player) : World := mkWorld
  (guilds r) (NextGuildId r) (removals r) x (cache r) (mem r) (next_ptr r) (next_item_guid r) (now
    r) (bank_queries r) (tables r) (trans r) (sent r).
Definition set_cache (r : World) (x : gmap Z CacheEntry) : World := mkWorld
  (guilds r) (NextGuildId r) (removals r) (players r) x (mem r) (next_ptr r) (next_item_guid r) (now
    r) (bank_queries r) (tables r) (trans r) (sent r).
Definition set_mem (r : World) (x : gmap Z Item) : World := mkWorld
  (guilds r) (NextGuildId r) (removals r) (players r) (cache r) x (next_ptr r) (next_item_guid r)
    (now r) (bank_queries r) (tables r) (trans r) (sent r).
Definition set_next_ptr (r : World) (x : Z) : World := mkWorld
  (guilds r) (NextGuildId r) (removals r) (players r) (cache r) (mem r) x (next_item_guid r) (now r)
    (bank_queries r) (tables r) (trans r) (sent r).
Definition set_next_item_guid (r : World) (x : Z) : World := mkWorld
  (guilds r) (NextGuildId r) (removals r) (players r) (cache r) (mem r) (next_ptr r) x (now r)
    (bank_queries r) (tables r) (trans r) (sent r).
Definition set_now (r : World) (x : Z) : World := mkWorld
  (guilds r) (NextGuildId r) (removals r) (players r) (cache r) (mem r) (next_ptr r) (next_item_guid
    r) x (bank_queries r) (tables r) (trans r) (sent r).
Definition set_bank_queries (r : World) (x : list (Z * list (Z * Z * Item))) : World := mkWorld
  (guilds r) (NextGuildId r) (removals r) (players r) (cache r) (mem r) (next_ptr r) (next_item_guid
    r) (now r) x (tables r) (trans r) (sent r).
Definition set_tables (r : World) (x : Tables) : World := mkWorld
  (guilds r) (NextGuildId r) (removals r) (players r) (cache r) (mem r) (next_ptr r) (next_item_guid
    r) (now r) (bank_queries r) x (trans r) (sent r).
Definition set_trans (r : World) (x : list Stmt) : World := mkWorld
  (guilds r) (NextGuildId r) (removals r) (players r) (cache r) (mem r) (next_ptr r) (next_item_guid
    r) (now r) (bank_queries r) (tables r) x (sent r).
Definition set_sent (r : World) (x : list (Z * Packet)) : World := mkWorld
  (guilds r) (NextGuildId r) (removals r) (players r) (cache r) (mem r) (next_ptr r) (next_item_guid
    r) (now r) (bank_queries r) (tables r) (trans r) x.

Abbreviation GW := (ST World).

(** The configuration, and what other components answer. *)
Class GuildEnv := {
  CONFIG_ALLOW_TWO_SIDE_INTERACTION_GUILD : bool;
  CONFIG_GUILD_EVENT_LOG_COUNT : Z;
  CONFIG_GUILD_BANK_EVENT_LOG_COUNT : Z;
  CONFIG_GUILD_MAX_PLAYER_SHOWN : Z;
  AllowMultipleGuildMaster : bool;
  IsReservedName : string → bool;
  IsValidCharterName : string → bool;
  rank_name : Z → Z → string;                  (* GetTrinityString of a default rank, by locale *)
  normalizePlayerName : string → option string;
  CanUseGuildBank : Z → bool;                  (* GetGameObjectIfCanInteractWith a bank *)
  CanUseTabardDesigner : Z → bool;
  utf8truncate : string → string;              (* to MAX_GUILD_BANK_TAB_TEXT_LEN *)
  (* the order in which an unordered_map is walked *)
  hashed : ∀ V, gmap Z V → list (Z * V);
  hashed_perm : ∀ V (m : gmap Z V), hashed V m ≡ₚ map_to_list m
}.
Arguments hashed {_ _} _.

(** ** Access *)
Section access.
Context `{GE : GuildEnv}.

Definition guild_at (this : Z) : GW Guild := w ← get; lift (deref (guilds w !! this) Ok).
Definition upd_guild (this : Z) (f : Guild → Guild) : GW unit :=
  g ← guild_at this; modify (λ w, set_guilds w (<[this := f g]> (guilds w))).
Definition player_at (guid : Z) : GW Player := w ← get; lift (deref (players w !! guid) Ok).
Definition upd_player (guid : Z) (f : Player → Player) : GW unit :=
  p ← player_at guid; modify (λ w, set_players w (<[guid := f p]> (players w))).
Definition send (guid : Z) (pkt : Packet) : GW unit := modify (λ w, set_sent w (sent w ++ [(guid, pkt)])).

(** ObjectAccessor *)
Definition FindConnectedPlayer (w : World) (guid : Z) : option Player := players w !! guid.
Definition FindPlayer (w : World) (guid : Z) : option Player :=
  p ← players w !! guid; if IsInWorld p then Some p else None.

(** CharacterDatabase *)
Definition BeginTransaction : GW unit := modify (λ w, set_trans w []).
Definition Append (s : Stmt) : GW unit := modify (λ w, set_trans w (trans w ++ [s])).
Definition CommitTransaction : GW unit :=
  modify (λ w, set_trans (set_tables w (ExecuteTransaction (trans w) (tables w))) []).
Definition Execute (s : Stmt) : GW unit :=
  modify (λ w, set_tables w (ExecuteTransaction [s] (tables w))).

(** player::PlayerCache *)
Definition cache_get {A} (f : CacheEntry → A) (d : A) (w : World) (guid : Z) : A :=
  match cache w !! guid with Some c => f c | None => d end.
Definition CacheExists (w : World) (guid : Z) : bool := bool_decide (is_Some (cache w !! guid)).
Definition CacheGetName : World → Z → string :=
  cache_get (λ c, if c_rename c then "<rename>" else c_name c) "<not found>".
Definition CacheGetTeam : World → Z → Z := cache_get c_team 0.
Definition CacheGetAccountId : World → Z → Z := cache_get c_account 0.
Definition CacheGetGuildId : World → Z → Z := cache_get c_guild 0.
Definition CacheGetGUID (w : World) (name : string) : Z :=
  match list_find (λ x, c_name x.2 = name ∧ c_rename x.2 = false) (hashed (cache w)) with
  | Some (_, x) => x.1
  | None => 0
  end.
Definition CacheUpdateGuild (guid id : Z) : GW unit :=
  modify (λ w, set_cache w (alter (λ c, set_c_guild c id) guid (cache w))).
Definition FindPlayerByName (w : World) (name : string) : option (Z * Player) :=
  let guid := CacheGetGUID w name in
  if guid =? 0 then None else pair guid <$> FindPlayer w guid.

(** Player *)
Definition HasEnoughMoney (p : Player) (amount : Z) : bool := amount <=? GetMoney p.
(** [ModifyMoney(int32 amount)]; negating the smallest int32 is undefined. *)
Definition ModifyMoney (guid amount : Z) : GW bool :=
  if amount =? 0 then mret true
  else if amount =? - 2 ^ 31 then lift Undefined
  else
    p ← player_at guid;
    if amount <? 0 then
      _ ← upd_player guid (λ p, set_GetMoney p (if u32 (- amount) <? GetMoney p then u32 (GetMoney p + amount) else 0));
      mret true
    else if GetMoney p <=? u32 (MAX_MONEY_AMOUNT - amount) then
      _ ← upd_player guid (λ p, set_GetMoney p (u32 (GetMoney p + amount)));
      mret true
    else mret false.
Definition SaveGoldToDB (guid : Z) : GW unit :=
  p ← player_at guid; Append (CHAR_UPD_CHAR_MONEY (GetMoney p) guid).

(** ByteArrayToHexStr of a 64-bit integer, the highest byte first. *)
Definition hex_digit (n : Z) : string := default EmptyString (["0";"1";"2";"3";"4";"5";"6";"7";"8";"9";"A";"B";"C";"D";"E";"F"]%string !! Z.to_nat n).
Fixpoint hex (digits : nat) (n : Z) : string :=
  match digits with
  | O => EmptyString
  | S digits => (hex digits (n / 16) +:+ hex_digit (n `mod` 16))
  end.
Definition money_str (n : Z) : string := hex 16 n.
Definition toupper (a : ascii) : ascii :=
  let n := Z.of_nat (nat_of_ascii a) in
  if (97 <=? n) && (n <=? 122) then ascii_of_nat (Z.to_nat (n - 32)) else a.
Fixpoint upper (s : string) : string :=
  match s with EmptyString => EmptyString | String a s => String (toupper a) (upper s) end.
End access.

End GuildData.
