(* ===== verification/GuildLog.v ===== *)
(** * Event logs of a guild ([Guild::LogHolder], src/server/game/Guilds/Guild.cpp)

    A holder keeps the last [m_maxRecords] entries in memory, and as many rows in its
    table: row numbers are given out modulo [m_maxRecords], and an entry first deletes the
    row of its number. *)
From S2P Require Import Prelude StateMonad GuildData.

Module GuildLog.
Export GuildData.

Section holder.
Context {E : Type} `{LE : LogEntry E}.

Definition CanInsert (h : LogHolder E) : bool := Z.of_nat (length (m_log h)) <? m_maxRecords h.

Definition LoadEvent (h : LogHolder E) (entry : E) : LogHolder E :=
  mkLog (entry :: m_log h) (m_maxRecords h)
    (if m_nextGUID h =? GUILD_EVENT_LOG_GUID_UNDEFINED then GetLogGUID entry else m_nextGUID h).

(** What AddEvent does to the list; dropping the oldest of none is undefined. *)
Definition AddEvent (h : LogHolder E) (entry : E) : outcome (LogHolder E) :=
  if m_maxRecords h <=? Z.of_nat (length (m_log h)) then
    match m_log h with
    | [] => Undefined
    | _ :: log => Ok (mkLog (log ++ [entry]) (m_maxRecords h) (m_nextGUID h))
    end
  else Ok (mkLog (m_log h ++ [entry]) (m_maxRecords h) (m_nextGUID h)).

Definition GetNextGUID (h : LogHolder E) : outcome (Z * LogHolder E) :=
  if m_nextGUID h =? GUILD_EVENT_LOG_GUID_UNDEFINED then Ok (0, mkLog (m_log h) (m_maxRecords h) 0)
  else if m_maxRecords h =? 0 then Undefined
  else let next := (u32 (m_nextGUID h + 1)) `mod` m_maxRecords h in
       Ok (next, mkLog (m_log h) (m_maxRecords h) next).

(** A new entry, made from its number and added. *)
Definition Log (h : LogHolder E) (new : Z → E) : outcome (E * LogHolder E) :=
  let! (n, h) := GetNextGUID h in let! h := AddEvent h (new n) in Ok (new n, h).
End holder.

(** Never more entries than asked for. *)
Definition log_ok {E} (h : LogHolder E) : Prop := Z.of_nat (length (m_log h)) ≤ Z.max 0 (m_maxRecords h).

Lemma Log_ok {E} `{LogEntry E} (h : LogHolder E) new e h' : log_ok h → Log h new = Ok (e, h') → log_ok h'.
Proof.
  unfold Log, GetNextGUID, AddEvent, log_ok. intros Hh He.
  destruct (m_nextGUID h =? _) eqn:E1; [|destruct (m_maxRecords h =? 0); [done|]]; cbn in He;
    destruct (m_maxRecords h <=? Z.of_nat (length (m_log h))) eqn:E2; b2p;
    try (destruct (m_log h) as [|x l] eqn:El; [done|]); cbn in He; injection He as _ <-; cbn;
    rewrite ?length_app in *; cbn in *; lia.
Qed.

End GuildLog.
