(* ===== verification/GuildRing.v ===== *)
(** * The event log of a guild keeps the last entries, and a restart restores them

    [LogHolder] against its contract: the list of the last [m_maxRecords] entries of all
    that were logged, in memory and in the table, and read back by GuildMgr::LoadGuilds. *)
From S2P Require Import Prelude StateMonad GuildData GuildLog.

Module GuildRing.
Export GuildLog.

(** ** What is logged, and read back *)

(** What Guild::_LogEvent leaves behind once its transaction is committed. *)
Definition record_event (id : Z) (ht : LogHolder EventLogEntry * Tables) (new : Z → EventLogEntry)
    : outcome (LogHolder EventLogEntry * Tables) :=
  let! (e, h) := Log ht.1 new in
  Ok (h, ExecuteTransaction [CHAR_DEL_GUILD_EVENTLOG id (e_guid e); CHAR_INS_GUILD_EVENTLOG id e] ht.2).
Fixpoint record_events (id : Z) (ht : LogHolder EventLogEntry * Tables) (news : list (Z → EventLogEntry)) :=
  match news with
  | [] => Ok ht
  | new :: news => let! ht := record_event id ht new in record_events id ht news
  end.

Definition LoadEventLogFromDB (h : LogHolder EventLogEntry) (e : EventLogEntry) : LogHolder EventLogEntry :=
  if CanInsert h then LoadEvent h e else h.
(** ORDER BY TimeStamp DESC, LogGuid DESC *)
Definition later (a b : EventLogEntry) : Prop :=
  m_timestamp b < m_timestamp a ∨ (m_timestamp a = m_timestamp b ∧ e_guid b ≤ e_guid a).
#[export] Instance later_dec a b : Decision (later a b).
Proof. unfold later. apply _. Defined.
#[export] Instance later_trans : Transitive later.
Proof. unfold later. intros a b c ??. lia. Qed.
#[export] Instance later_total : Total later.
Proof. unfold later. intros a b. lia. Qed.

(** The rows of one guild, without those above the bound; then each is loaded. *)
Definition event_rows (id M : Z) (t : Tables) : list EventLogEntry :=
  (filter (λ x, x.1.1 = id ∧ x.1.2 ≤ M) (map_to_list (guild_eventlog t))).*2.
Definition fresh_log (M : Z) : LogHolder EventLogEntry := mkLog [] M GUILD_EVENT_LOG_GUID_UNDEFINED.
Definition LoadEventLogs (id M : Z) (t : Tables) : LogHolder EventLogEntry :=
  foldl LoadEventLogFromDB (fresh_log M) (merge_sort later (event_rows id M t)).

(** ** The contract *)

(** Entry [k] of all gets number [k] modulo [M]. *)
Definition numbered (M : Z) (k : nat) (new : Z → EventLogEntry) : EventLogEntry := new (Z.of_nat k `mod` M).
Definition all_entries (M : Z) (news : list (Z → EventLogEntry)) : list EventLogEntry := imap (numbered M) news.
(** The last [M] of them. *)
Definition last_entries (M : Z) (l : list EventLogEntry) : list EventLogEntry := drop (length l - Z.to_nat M) l.

(** The holder and the rows of guild [id] show the list [all]. *)
Record shows (id M : Z) (all : list EventLogEntry) (h : LogHolder EventLogEntry) (t : Tables) : Prop := {
  shows_bound : 0 < M < 2 ^ 32;
  shows_max : m_maxRecords h = M;
  shows_log : m_log h = last_entries M all;
  shows_next : m_nextGUID h = match all with [] => GUILD_EVENT_LOG_GUID_UNDEFINED | _ => (Z.of_nat (length all) - 1) `mod` M end;
  shows_guid : ∀ k e, all !! k = Some e → e_guid e = Z.of_nat k `mod` M;
  shows_rows : ∀ n e, guild_eventlog t !! (id, n) = Some e ↔ e ∈ last_entries M all ∧ e_guid e = n }.

Lemma last_entries_snoc M all e : 0 < M →
  last_entries M (all ++ [e]) =
  (if M <=? Z.of_nat (length (last_entries M all)) then tail (last_entries M all) else last_entries M all) ++ [e].
Proof.
  intros HM. unfold last_entries. rewrite length_drop, length_app. cbn.
  destruct (Z.leb_spec M (Z.of_nat (length all - (length all - Z.to_nat M)))).
  - rewrite drop_app_le by lia. f_equal. change (tail ?l) with (drop 1 l). rewrite drop_drop. f_equal. lia.
  - replace (length all + 1 - Z.to_nat M)%nat with O by lia.
    replace (length all - Z.to_nat M)%nat with O by lia. by rewrite !drop_0.
Qed.

Lemma elem_of_last_entries M all e :
  e ∈ last_entries M all ↔ ∃ j, all !! j = Some e ∧ (length all - Z.to_nat M ≤ j)%nat.
Proof.
  unfold last_entries. rewrite list_elem_of_lookup. setoid_rewrite lookup_drop. split.
  - intros [i Hi]. exists (length all - Z.to_nat M + i)%nat. split; [done|lia].
  - intros (j & Hj & Hl). exists (j - (length all - Z.to_nat M))%nat. rewrite <- Hj. f_equal. lia.
Qed.

(** Two entries less than [M] apart have different numbers. *)
Lemma mod_window M (j k : Z) : 0 < M → k - M < j < k → j `mod` M ≠ k `mod` M.
Proof. intros HM Hjk He. pose proof (Z.div_mod j M ltac:(lia)). pose proof (Z.div_mod k M ltac:(lia)).
  assert (k - j = M * (k `div` M - j `div` M)) by (rewrite Z.mul_sub_distr_l; lia).
  destruct (Z.le_gt_cases (k `div` M - j `div` M) 0); nia. Qed.

Section ring.
Context (id M : Z).

Lemma record_event_shows all h t new :
  (∀ n, e_guid (new n) = n) → shows id M all h t →
  ∃ h' t', record_event id (h, t) new = Ok (h', t') ∧ shows id M (all ++ [numbered M (length all) new]) h' t'.
Proof.
  intros Hnew [[HM HM'] Hmax Hlog Hnext Hguid Hrows].
  set (k := Z.of_nat (length all)). set (e := numbered M (length all) new).
  assert (e_guid e = k `mod` M) as He by apply Hnew.
  assert (GetNextGUID h = Ok (k `mod` M, mkLog (m_log h) M (k `mod` M))) as HG.
  { unfold GetNextGUID. rewrite Hnext, Hmax. destruct all as [|x all]; [done|].
    assert (0 ≤ (k - 1) `mod` M < M) as Hk by (apply Z.mod_pos_bound; lia).
    fold k. unfold GUILD_EVENT_LOG_GUID_UNDEFINED. change (2 ^ 32) with 4294967296 in *.
    destruct (Z.eqb_spec ((k - 1) `mod` M) 4294967295); [lia|]. destruct (Z.eqb_spec M 0); [lia|].
    cbn. unfold wrap. rewrite (Z.mod_small (_ + 1)), Zplus_mod_idemp_l by lia. by rewrite Z.sub_add. }
  exists (mkLog (last_entries M (all ++ [e])) M (k `mod` M)),
    (set_guild_eventlog t (<[(id, e_guid e) := e]> (delete (id, e_guid e) (guild_eventlog t)))).
  split.
  { assert (Log h new = Ok (e, mkLog (last_entries M (all ++ [e])) M (k `mod` M))) as HL.
    { unfold Log. rewrite HG. cbn. change (new (k `mod` M)) with e. rewrite last_entries_snoc by done.
      unfold AddEvent. cbn. rewrite Hlog.
      destruct (Z.leb_spec M (Z.of_nat (length (last_entries M all)))) as [Hl|_]; cbn; [|done].
      by destruct (last_entries M all); [cbn in Hl; lia|]. }
    unfold record_event. cbn [fst snd]. rewrite HL. cbn -[ExecuteTransaction]. do 2 f_equal.
    unfold ExecuteTransaction. cbn. unfold ins. by rewrite lookup_delete_eq. }
  assert (∀ j x, (all ++ [e]) !! j = Some x → e_guid x = Z.of_nat j `mod` M) as Hguid'.
  { intros j x [Hx|[Hl [Hj <-]%list_lookup_singleton_Some]]%lookup_app_Some; [by apply Hguid|].
    rewrite He. unfold k. do 2 f_equal. lia. }
  split; cbn; [done|done|done|..|done|].
  - unfold k. destruct all as [|x all]; [done|]. cbn [app]. change (x :: all ++ [e]) with ((x :: all) ++ [e]).
    rewrite length_app. f_equal. cbn. lia.
  - intros n x. rewrite elem_of_last_entries, length_app. cbn [length].
    destruct (decide (n = e_guid e)) as [->|Hn].
    + rewrite lookup_insert_eq. split.
      * intros [= <-]. split; [|done]. exists (length all). rewrite lookup_app_r, Nat.sub_diag by lia. split; [done|lia].
      * intros [(j & Hj & Hl) Hg]. f_equal. pose proof (Hguid' _ _ Hj) as Hgj. rewrite Hg, He in Hgj.
        apply lookup_app_Some in Hj as [Hj|[_ [_ Hj]%list_lookup_singleton_Some]]; [|done].
        pose proof (lookup_lt_Some _ _ _ Hj). unfold k in Hgj. exfalso.
        apply (mod_window M (Z.of_nat j) (Z.of_nat (length all))); [done|lia|done].
    + rewrite lookup_insert_ne, lookup_delete_ne, Hrows, elem_of_last_entries by congruence.
      split; intros [(j & Hj & Hl) <-]; (split; [|done]).
      * exists j. rewrite lookup_app_l by (by eapply lookup_lt_Some). split; [done|].
        destruct (decide (length all - Z.to_nat M = j)%nat) as [Hjl|]; [|lia].
        destruct (decide (Z.to_nat M ≤ length all)%nat); [|lia]. exfalso. apply Hn. rewrite He, (Hguid _ _ Hj).
        unfold k. subst j. rewrite Nat2Z.inj_sub, Z2Nat.id by lia. 
        rewrite <- (Z_mod_plus_full _ 1 M). f_equal. lia.
      * apply lookup_app_Some in Hj as [Hj|[_ [_ <-]%list_lookup_singleton_Some]]; [|done]. exists j. split; [done|lia].
Qed.

Lemma record_events_shows news : ∀ all h t,
  (∀ new n, new ∈ news → e_guid (new n) = n) → shows id M all h t →
  ∃ h' t', record_events id (h, t) news = Ok (h', t') ∧
    shows id M (all ++ imap (λ k, numbered M (length all + k)) news) h' t'.
Proof.
  induction news as [|new news IH]; intros all h t Hnew Hs; cbn.
  { exists h, t. by rewrite app_nil_r. }
  destruct (record_event_shows all h t new) as (h1 & t1 & -> & H1); [intros n; apply Hnew; left|done|].
  destruct (IH _ h1 t1 (λ f n Hf, Hnew f n ltac:(by right)) H1) as (h' & t' & Hr & Hs').
  exists h', t'. cbn. split; [done|]. rewrite <- app_assoc in Hs'. cbn in Hs'. rewrite Nat.add_0_r.
  erewrite imap_ext; [exact Hs'|]. intros i x Hx. rewrite length_app. cbn. f_equal. lia.
Qed.
End ring. 

(** ** Reading it back *)

(** A list sorted by a total order is the list that is strictly sorted by it. *)
Lemma sorted_strict {A} (R : relation A) `{!Transitive R, !Total R} (l k : list A) :
  l ≡ₚ k → StronglySorted R l → StronglySorted (λ x y, R x y ∧ ¬ R y x) k → l = k.
Proof.
  intros Hp Hl Hk. revert l Hp Hl. induction Hk as [|x k Hk IH Hx]; intros l Hp Hl.
  { by apply Permutation_nil_r. }
  destruct l as [|y l]; [by apply Permutation_nil_cons in Hp|]. inversion_clear Hl as [|?? Hs Hy].
  assert (y ∈ x :: k) as Hyk by (rewrite <- Hp; left). assert (x ∈ y :: l) as Hxl by (rewrite Hp; left).
  rewrite Forall_forall in Hx, Hy. apply elem_of_cons in Hyk as [->|Hyk].
  { f_equal. apply IH; [by apply Permutation_cons_inv in Hp|done]. }
  destruct (Hx y Hyk) as [_ Hn]. destruct Hn. apply elem_of_cons in Hxl as [->|Hxl]; [|by apply Hy].
  by destruct (base.total R y y).
Qed.
Lemma StronglySorted_reverse {A} (R : relation A) (l : list A) :
  StronglySorted R l → StronglySorted (flip R) (reverse l).
Proof.
  induction 1 as [|x l _ IH Hx]; [constructor|]. rewrite reverse_cons. apply StronglySorted_app_2; [|done|by repeat constructor].
  intros y z Hy ->%list_elem_of_singleton. rewrite elem_of_reverse in Hy. rewrite Forall_forall in Hx. exact (Hx y Hy).
Qed.
Lemma strict_NoDup {A} (R : relation A) (l : list A) : (∀ x, ¬ R x x) → StronglySorted R l → NoDup l.
Proof.
  intros HR. induction 1 as [|x l _ IH Hx]; constructor; [|done]. rewrite Forall_forall in Hx. intros Hi. exact (HR x (Hx x Hi)).
Qed.

(** The order of the table, oldest first. *)
Definition earlier (a b : EventLogEntry) : Prop := later b a ∧ ¬ later a b.

Lemma load_all M l : ∀ acc g,
  Z.of_nat (length acc + length l) ≤ M → (∀ e, e ∈ l → e_guid e ≠ GUILD_EVENT_LOG_GUID_UNDEFINED) →
  foldl LoadEventLogFromDB (mkLog acc M g) l =
  mkLog (reverse l ++ acc) M
    (if g =? GUILD_EVENT_LOG_GUID_UNDEFINED then default g (e_guid <$> head l) else g).
Proof.
  induction l as [|e l IH]; intros acc g Hl Hu.
  { cbn. by destruct (g =? _). }
  cbn [foldl length] in *. unfold LoadEventLogFromDB at 2. unfold CanInsert. cbn [m_log m_maxRecords].
  rewrite (proj2 (Z.ltb_lt _ _)) by lia. unfold LoadEvent. cbn [m_log m_maxRecords m_nextGUID].
  rewrite IH by first [cbn; lia|intros; apply Hu; by right]. rewrite reverse_cons, <- app_assoc. f_equal.
  unfold GetLogGUID, EventLogEntry_log. cbn [head]. destruct (Z.eqb_spec g GUILD_EVENT_LOG_GUID_UNDEFINED) as [->|]; cbn.
  - by destruct (Z.eqb_spec (e_guid e) GUILD_EVENT_LOG_GUID_UNDEFINED); [destruct (Hu e); [left|]|].
  - by destruct (Z.eqb_spec g GUILD_EVENT_LOG_GUID_UNDEFINED).
Qed.

Section restart.
Context (id M : Z) (all : list EventLogEntry) (h : LogHolder EventLogEntry) (t : Tables) (Hs : shows id M all h t).

Lemma shown_bound e : e ∈ m_log h → 0 ≤ e_guid e < M.
Proof.
  destruct Hs. rewrite shows_log0. intros (j & Hj & _)%elem_of_last_entries. rewrite (shows_guid0 _ _ Hj).
  apply Z.mod_pos_bound. lia.
Qed.
Lemma event_rows_shown : NoDup (m_log h) → event_rows id M t ≡ₚ reverse (m_log h).
Proof.
  intros Hn. pose proof shown_bound as Hb. destruct Hs. apply NoDup_Permutation.
  - apply NoDup_fmap_2_strong; [|apply NoDup_filter, NoDup_map_to_list].
    intros [[i n] x] [[j m] y] [[Hi _] Hx]%list_elem_of_filter [[Hj _] Hy]%list_elem_of_filter ?. cbn in *. subst.
    apply elem_of_map_to_list, shows_rows0 in Hx as [_ <-], Hy as [_ <-]. done.
  - by rewrite reverse_Permutation.
  - intros e. rewrite elem_of_reverse. unfold event_rows. rewrite list_elem_of_fmap. split.
    + intros ([[i n] x] & -> & [[Hi _] Hx]%list_elem_of_filter). cbn in *. subst.
      apply elem_of_map_to_list, shows_rows0 in Hx as [Hx _]. by rewrite shows_log0.
    + intros He. exists ((id, e_guid e), e). split; [done|]. apply list_elem_of_filter. cbn. specialize (Hb e He).
      split; [split; [done|lia]|]. apply elem_of_map_to_list, shows_rows0. by rewrite <- shows_log0.
Qed.
Lemma log_restored : StronglySorted earlier (m_log h) → LoadEventLogs id M t = h.
Proof.
  intros Hsort.
  assert (merge_sort later (event_rows id M t) = reverse (m_log h)) as HR.
  { apply (sorted_strict later).
    - rewrite merge_sort_Permutation. apply event_rows_shown. apply (strict_NoDup earlier); [|done]. intros x [Hx Hn]. exact (Hn Hx).
    - apply (StronglySorted_merge_sort later).
    - exact (StronglySorted_reverse earlier _ Hsort). }
  pose proof shown_bound as Hb. unfold LoadEventLogs. rewrite HR. unfold fresh_log. destruct Hs.
  rewrite load_all; [| |intros e He].
  - rewrite reverse_involutive, app_nil_r. destruct h as [l m n]. cbn in shows_max0, shows_log0, shows_next0. subst l m n.
    f_equal. cbn [m_log]. rewrite Z.eqb_refl. destruct all as [|e all' _] using rev_ind; [done|].
    rewrite last_entries_snoc, reverse_app by lia. cbn.
    rewrite (shows_guid0 (length all') e) by (rewrite lookup_app_r, Nat.sub_diag by lia; done).
    rewrite length_app. destruct (all' ++ [e]) eqn:E; [by destruct all'|]. cbn. f_equal. lia.
  - rewrite length_reverse, shows_log0. unfold last_entries. rewrite length_drop. cbn. lia.
  - rewrite elem_of_reverse in He. specialize (Hb e He). unfold GUILD_EVENT_LOG_GUID_UNDEFINED.
    change (2 ^ 32) with 4294967296 in *. lia.
Qed.
End restart.

(** ** The results *)

Lemma fresh_shows id M t : 0 < M < 2 ^ 32 → (∀ n, guild_eventlog t !! (id, n) = None) → shows id M [] (fresh_log M) t.
Proof.
  intros HM Ht. split; try done. intros n e. rewrite Ht. split; [done|]. intros [He _]. by apply elem_of_nil in He.
Qed.

Lemma logged id M t news :
  0 < M < 2 ^ 32 → (∀ n, guild_eventlog t !! (id, n) = None) →
  (∀ new n, new ∈ news → e_guid (new n) = n) →
  ∃ h' t', record_events id (fresh_log M, t) news = Ok (h', t') ∧ shows id M (all_entries M news) h' t'.
Proof.
  intros HM Ht Hn. exact (record_events_shows id M news [] _ _ Hn (fresh_shows id M t HM Ht)).
Qed.

(** C17: However many events a guild logs, the holder in memory is the list of the last
    [M] of them, oldest first, and the table holds exactly the same entries, each under
    its number. Logging never fails. *)
Theorem event_log_keeps_last id M t news :
  0 < M < 2 ^ 32 → (∀ n, guild_eventlog t !! (id, n) = None) →
  (∀ new n, new ∈ news → e_guid (new n) = n) →
  ∃ h' t', record_events id (fresh_log M, t) news = Ok (h', t') ∧
    m_log h' = last_entries M (all_entries M news) ∧
    ∀ n e, guild_eventlog t' !! (id, n) = Some e ↔ e ∈ m_log h' ∧ e_guid e = n.
Proof.
  intros HM Ht Hn. destruct (logged id M t news HM Ht Hn) as (h' & t' & Hr & Hs).
  exists h', t'. split; [done|]. split; [apply Hs|]. rewrite (shows_log _ _ _ _ _ Hs). apply Hs.
Qed.

(** C23: A restart restores the event log of a guild, the next number included, when the
    entries it keeps were written in the order of the table (by time, then by number). *)
Theorem event_log_restored id M t news h' t' :
  0 < M < 2 ^ 32 → (∀ n, guild_eventlog t !! (id, n) = None) →
  (∀ new n, new ∈ news → e_guid (new n) = n) →
  record_events id (fresh_log M, t) news = Ok (h', t') → StronglySorted earlier (m_log h') →
  LoadEventLogs id M t' = h'.
Proof.
  intros HM Ht Hn Hr. destruct (logged id M t news HM Ht Hn) as (h1 & t1 & Hr1 & Hs). rewrite Hr in Hr1. injection Hr1 as <- <-.
  by apply (log_restored id M _ _ _ Hs).
Qed.

Definition empty_tables : Tables := mkTables ∅ ∅ ∅ ∅ ∅ ∅ ∅ ∅ ∅ ∅ ∅.
Definition event_at (time : Z) : Z → EventLogEntry := λ n, mkEvent n GUILD_EVENT_LOG_INVITE_PLAYER 1 2 0 time.
Definition five_events : list (Z → EventLogEntry) := event_at <$> [10; 20; 30; 40; 50].
Definition after_five : LogHolder EventLogEntry * Tables :=
  match record_events 1 (fresh_log 3, empty_tables) five_events with Ok r => r | _ => (fresh_log 3, empty_tables) end.
Lemma five_numbered new n : new ∈ five_events → e_guid (new n) = n.
Proof. intros (k & -> & _)%list_elem_of_fmap. done. Qed.

Lemma event_log_keeps_last_witness :
  ∃ h' t', record_events 1 (fresh_log 3, empty_tables) five_events = Ok (h', t') ∧
    m_log h' = last_entries 3 (all_entries 3 five_events) ∧
    ∀ n e, guild_eventlog t' !! (1, n) = Some e ↔ e ∈ m_log h' ∧ e_guid e = n.
Proof. apply (event_log_keeps_last 1 3 empty_tables five_events); [lia|done|exact five_numbered]. Defined.
Lemma event_log_restored_witness : LoadEventLogs 1 3 after_five.2 = after_five.1.
Proof.
  apply (event_log_restored 1 3 empty_tables five_events); [lia|done|exact five_numbered|vm_compute; done|].
  change (m_log after_five.1) with [event_at 30 2; event_at 40 0; event_at 50 1].
  repeat constructor; unfold earlier, later; cbn; lia.
Defined.
End GuildRing.
