(* ===== verification/GuildParts.v ===== *)
(** * Ranks, members and tabs of a guild ([src/server/game/Guilds/Guild.{h,cpp}])

    The classes inside Guild: each change answers the changed part and the statements
    it appends. Then what a guild reads of its parts: rights, limits, what is left for
    the day. *)
From S2P Require Import Prelude StateMonad GuildData GuildLog.

Module GuildParts.
Export GuildLog.

(** Element [i] of an array or vector. *)
Definition nthZ {A} (l : list A) (i : Z) : option A := if 0 <=? i then l !! Z.to_nat i else None.
Definition updZ {A} (l : list A) (i : Z) (x : A) : list A := <[Z.to_nat i := x]> l.

Definition s8 (x : Z) : Z := (x + 2 ^ 7) `mod` 2 ^ 8 - 2 ^ 7.
(** Subtraction of int32: an overflow is undefined. *)
Definition sub32 (a b : Z) : outcome Z :=
  if (- 2 ^ 31 <=? a - b) && (a - b <? 2 ^ 31) then Ok (a - b) else Undefined.
Definition neg32 (a : Z) : outcome Z := sub32 0 a.

(** ** [RankInfo] *)
Definition no_rights : GuildBankRightsAndSlots := mkRights TAB_UNDEFINED 0 0.
Definition SetGuildMasterValues (r : GuildBankRightsAndSlots) : GuildBankRightsAndSlots :=
  mkRights (tabId r) GUILD_BANK_RIGHT_FULL GUILD_WITHDRAW_SLOT_UNLIMITED.
Definition GetTabId (r : GuildBankRightsAndSlots) : Z := s8 (tabId r).
Definition GetSlots (r : GuildBankRightsAndSlots) : Z := s32 (slots r).
Definition GetRights (r : GuildBankRightsAndSlots) : Z := s8 (rights r).

Definition new_rank (rankId : Z) (name : string) (rights money : Z) : RankInfo :=
  mkRank rankId name rights (if rankId =? GR_GUILDMASTER then GUILD_WITHDRAW_MONEY_UNLIMITED else money)
    (replicate (Z.to_nat GUILD_BANK_MAX_TABS) no_rights).

Definition GetBankMoneyPerDay (r : RankInfo) : Z := s32 (m_bankMoneyPerDay r).
Definition GetBankTabRights (r : RankInfo) (tab : Z) : Z :=
  match nthZ (m_bankTabRightsAndSlots r) tab with Some x => GetRights x | None => 0 end.
Definition GetBankTabSlotsPerDay (r : RankInfo) (tab : Z) : Z :=
  match nthZ (m_bankTabRightsAndSlots r) tab with Some x => GetSlots x | None => 0 end.

Definition SetRankName (id : Z) (r : RankInfo) (name : string) : RankInfo * list Stmt :=
  if decide (m_name r = name) then (r, [])
  else (set_m_name r name, [CHAR_UPD_GUILD_RANK_NAME name (m_rankId r) id]).
Definition SetRights (id : Z) (r : RankInfo) (rights : Z) : RankInfo * list Stmt :=
  let rights := if m_rankId r =? GR_GUILDMASTER then GR_RIGHT_ALL else rights in
  if m_rights r =? rights then (r, [])
  else (set_m_rights r rights, [CHAR_UPD_GUILD_RANK_RIGHTS rights (m_rankId r) id]).
Definition SetBankMoneyPerDay (id : Z) (r : RankInfo) (money : Z) : RankInfo * list Stmt :=
  let money := if m_rankId r =? GR_GUILDMASTER then GUILD_WITHDRAW_MONEY_UNLIMITED else money in
  if m_bankMoneyPerDay r =? money then (r, [])
  else (set_m_bankMoneyPerDay r money, [CHAR_UPD_GUILD_RANK_BANK_MONEY money (m_rankId r) id]).

Definition INS_RIGHT (id rankId tab : Z) (x : GuildBankRightsAndSlots) : Stmt :=
  CHAR_INS_GUILD_BANK_RIGHT id tab rankId (u8 (GetRights x)) (u32 (GetSlots x)).
(** The array is indexed by [GetTabId], an int8. *)
Definition SetBankTabSlotsAndRights (id : Z) (r : RankInfo) (x : GuildBankRightsAndSlots) (saveToDB : bool)
    : outcome (RankInfo * list Stmt) :=
  let x := if m_rankId r =? GR_GUILDMASTER then SetGuildMasterValues x else x in
  match nthZ (m_bankTabRightsAndSlots r) (GetTabId x) with
  | None => Undefined
  | Some _ =>
    Ok (set_m_bankTabRightsAndSlots r (updZ (m_bankTabRightsAndSlots r) (GetTabId x) x),
        if saveToDB then [INS_RIGHT id (m_rankId r) (u8 (GetTabId x)) x] else [])
  end.

Fixpoint missing_tabs (id : Z) (r : RankInfo) (tabs : list Z) : outcome (RankInfo * list Stmt) :=
  match tabs with
  | [] => Ok (r, [])
  | i :: tabs =>
    match nthZ (m_bankTabRightsAndSlots r) i with
    | None => Undefined
    | Some x =>
      if GetTabId x =? i then missing_tabs id r tabs
      else
        let x := set_tabId x i in
        let x := if m_rankId r =? GR_GUILDMASTER then SetGuildMasterValues x else x in
        let r := set_m_bankTabRightsAndSlots r (updZ (m_bankTabRightsAndSlots r) i x) in
        let! (r, l) := missing_tabs id r tabs in
        Ok (r, INS_RIGHT id (m_rankId r) i x :: l)
    end
  end.
Definition CreateMissingTabsIfNeeded (id : Z) (r : RankInfo) (tabs : Z) : outcome (RankInfo * list Stmt) :=
  missing_tabs id r (seqZ 0 tabs).
Definition SaveRank (id : Z) (r : RankInfo) : Stmt :=
  CHAR_INS_GUILD_RANK id (m_rankId r) (m_name r) (m_rights r) (m_bankMoneyPerDay r).

(** ** [Member] *)
Definition new_member (guid rankId now : Z) : Member :=
  mkMember guid GUILDMEMBER_STATUS_NONE now rankId "" "" (replicate (Z.to_nat (GUILD_BANK_MAX_TABS + 1)) 0).
Definition SetPublicNote (m : Member) (note : string) : Member * list Stmt :=
  if decide (m_publicNote m = note) then (m, [])
  else (set_m_publicNote m note, [CHAR_UPD_GUILD_MEMBER_PNOTE note (m_guid m)]).
Definition SetOfficerNote (m : Member) (note : string) : Member * list Stmt :=
  if decide (m_officerNote m = note) then (m, [])
  else (set_m_officerNote m note, [CHAR_UPD_GUILD_MEMBER_OFFNOTE note (m_guid m)]).
Definition SaveMember (id : Z) (m : Member) : Stmt :=
  CHAR_INS_GUILD_MEMBER id (m_guid m) (m_rank m) (m_publicNote m) (m_officerNote m).
Definition IsOnline (m : Member) : bool := m_flags m .& GUILDMEMBER_STATUS_ONLINE.
Definition AddFlag (m : Member) (var : Z) : Member := set_m_flags m (Z.lor (m_flags m) var).
Definition ResetFlags (m : Member) : Member := set_m_flags m GUILDMEMBER_STATUS_NONE.
Definition IsRank (m : Member) (rankId : Z) : bool := m_rank m =? rankId.
Definition IsRankNotLower (m : Member) (rankId : Z) : bool := m_rank m <=? rankId.

(** [m_bankWithdraw[tabId] += amount] in int32, and the row of the counters. *)
Definition UpdateBankWithdrawValue (m : Member) (tab amount : Z) : Member * list Stmt :=
  let m := set_m_bankWithdraw m (alter (λ n, s32 (n + amount)) (Z.to_nat tab) (m_bankWithdraw m)) in
  (m, [CHAR_INS_GUILD_MEMBER_WITHDRAW (m_guid m)
         (map u32 (take (Z.to_nat GUILD_BANK_MAX_TABS) (m_bankWithdraw m)))
         (u32 (default 0 (m_bankWithdraw m !! Z.to_nat GUILD_BANK_MAX_TABS)))]).
Definition ResetValues (m : Member) : Member :=
  set_m_bankWithdraw m (replicate (Z.to_nat (GUILD_BANK_MAX_TABS + 1)) 0).
Definition GetBankWithdrawValue (m : Member) (tab : Z) : Z :=
  if IsRank m GR_GUILDMASTER then s32 GUILD_WITHDRAW_MONEY_UNLIMITED
  else default 0 (nthZ (m_bankWithdraw m) tab).

(** ** [BankTab] *)
Definition new_tab : BankTab := mkTab ∅ "" "" "".
Definition SetInfo (id tab : Z) (t : BankTab) (name icon : string) : BankTab * list Stmt :=
  if decide (t_name t = name ∧ m_icon t = icon) then (t, [])
  else (set_m_icon (set_t_name t name) icon, [CHAR_UPD_GUILD_BANK_TAB_INFO name icon id tab]).
Definition SetText `{GuildEnv} (id tab : Z) (t : BankTab) (text : string) : BankTab * list Stmt :=
  if decide (m_text t = text) then (t, [])
  else (set_m_text t (utf8truncate text), [CHAR_UPD_GUILD_BANK_TAB_TEXT (utf8truncate text) id tab]).
Definition GetItem (t : BankTab) (slot : Z) : option ptr :=
  if slot <? GUILD_BANK_MAX_SLOTS then m_items t !! slot else None.

(** ** What a guild reads *)
Definition GetRanksSize (g : Guild) : Z := u8 (Z.of_nat (length (m_ranks g))).
Definition GetLowestRankId (g : Guild) : Z := u8 (Z.of_nat (length (m_ranks g)) - 1).
Definition GetPurchasedTabsSize (g : Guild) : Z := u8 (Z.of_nat (length (m_bankTabs g))).
Definition GetRankInfo (g : Guild) (rankId : Z) : option RankInfo :=
  if rankId <? GetRanksSize g then nthZ (m_ranks g) rankId else None.
Definition GetBankTab (g : Guild) (tab : Z) : option BankTab := nthZ (m_bankTabs g) tab.
Definition GetMember (g : Guild) (guid : Z) : option Member := m_members g !! guid.
Definition GetMemberByName `{GuildEnv} (w : World) (g : Guild) (name : string) : option Member :=
  GetMember g (CacheGetGUID w name).

Definition GetRankRights (g : Guild) (rankId : Z) : Z :=
  match GetRankInfo g rankId with Some r => m_rights r | None => 0 end.
Definition GetRankName (g : Guild) (rankId : Z) : string :=
  match GetRankInfo g rankId with Some r => m_name r | None => "<unknown>" end.
Definition GetRankBankMoneyPerDay (g : Guild) (rankId : Z) : Z :=
  match GetRankInfo g rankId with Some r => GetBankMoneyPerDay r | None => 0 end.
Definition GetRankBankTabSlotsPerDay (g : Guild) (rankId tab : Z) : Z :=
  if tab <? GetPurchasedTabsSize g then
    match GetRankInfo g rankId with Some r => GetBankTabSlotsPerDay r tab | None => 0 end
  else 0.
Definition GetRankBankTabRights (g : Guild) (rankId tab : Z) : Z :=
  match GetRankInfo g rankId with Some r => GetBankTabRights r tab | None => 0 end.

(** [_HasRankRight] *)
Definition HasRankRight (g : Guild) (guid right : Z) : bool :=
  match GetMember g guid with
  | Some m => negb (Z.land (GetRankRights g (m_rank m)) right =? GR_RIGHT_EMPTY)
  | None => false
  end.
(** [_IsLeader] *)
Definition IsLeader (g : Guild) (guid : Z) : bool :=
  (guid =? m_leaderGuid g) || match GetMember g guid with Some m => IsRank m GR_GUILDMASTER | None => false end.
(** [_MemberHasTabRights] *)
Definition MemberHasTabRights (g : Guild) (guid tab rights : Z) : bool :=
  match GetMember g guid with
  | Some m =>
    if IsRank m GR_GUILDMASTER || (m_leaderGuid g =? guid) then true
    else Z.land (u32 (GetRankBankTabRights g (m_rank m) tab)) rights =? rights
  | None => false
  end.

(** What a member may still take today; -1 for the guild master. *)
Definition remaining (limit taken : Z) : outcome Z := let! r := sub32 limit taken in Ok (if 0 <? r then r else 0).
Definition GetMemberRemainingSlots (g : Guild) (m : Member) (tab : Z) : outcome Z :=
  if m_rank m =? GR_GUILDMASTER then Ok (s32 GUILD_WITHDRAW_SLOT_UNLIMITED)
  else if u32 (GetRankBankTabRights g (m_rank m) tab) .& GUILD_BANK_RIGHT_VIEW_TAB
  then remaining (GetRankBankTabSlotsPerDay g (m_rank m) tab) (GetBankWithdrawValue m tab)
  else Ok 0.
Definition GetMemberRemainingMoney (g : Guild) (m : Member) : outcome Z :=
  if m_rank m =? GR_GUILDMASTER then Ok (s32 GUILD_WITHDRAW_MONEY_UNLIMITED)
  else if GetRankRights g (m_rank m) .& Z.lor GR_RIGHT_WITHDRAW_REPAIR GR_RIGHT_WITHDRAW_GOLD
  then remaining (GetRankBankMoneyPerDay g (m_rank m)) (GetBankWithdrawValue m GUILD_BANK_MAX_TABS)
  else Ok 0.

Definition GetGuildBankTabPrice (tab : Z) : Z :=
  default 0 ([100; 250; 500; 1000; 2500; 5000] !! Z.to_nat tab).
Definition IsMoneyEvent (t : GuildBankEventLogTypes) : bool :=
  match t with
  | GUILD_BANK_LOG_DEPOSIT_MONEY | GUILD_BANK_LOG_WITHDRAW_MONEY | GUILD_BANK_LOG_REPAIR_MONEY => true
  | _ => false
  end.

(** [Guild::Guild] *)
Definition new_guild (leader : Z) (name : string) : Guild :=
  mkGuild name leader "" "" 0 (mkEmblem 0 0 0 0 0) 0 0 [] ∅ [] (mkLog [] 0 0) [] NOT_LOADED ∅.

End GuildParts.
