(* ===== verification/Guilds.v ===== *)
(** * Guilds ([src/server/game/Guilds/Guild.cpp])

    Ranks, members, the leader, the money of the bank and the end of a guild: the
    handlers of class Guild. *)
From stdpp Require Import pretty.
From S2P Require Import Prelude StateMonad GuildData GuildLog GuildParts.

Module Guilds.
Export GuildParts.

Section guilds.
Context `{GE : GuildEnv}.

Definition Appends (l : list Stmt) : GW unit := for_each l Append.

(** Changing a part of a guild, with the statements that go with it. *)
Definition upd_member (this guid : Z) (f : Member → Member) : GW unit :=
  upd_guild this (λ g, set_m_members g (alter f guid (m_members g))).
Definition on_member (this guid : Z) (f : Member → Member * list Stmt) : GW unit :=
  g ← guild_at this;
  m ← lift (deref (GetMember g guid) Ok);
  let '(m, l) := f m in
  _ ← upd_guild this (λ g, set_m_members g (<[guid := m]> (m_members g)));
  Appends l.
Definition on_rank (this rankId : Z) (f : RankInfo → outcome (RankInfo * list Stmt)) : GW unit :=
  g ← guild_at this;
  r ← lift (deref (nthZ (m_ranks g) rankId) Ok);
  '(r, l) ← lift (f r);
  _ ← upd_guild this (λ g, set_m_ranks g (updZ (m_ranks g) rankId r));
  Appends l.
Definition on_tab (this tab : Z) (f : BankTab → BankTab * list Stmt) : GW unit :=
  g ← guild_at this;
  t ← lift (deref (GetBankTab g tab) Ok);
  let '(t, l) := f t in
  _ ← upd_guild this (λ g, set_m_bankTabs g (updZ (m_bankTabs g) tab t));
  Appends l.

(** ** Packets *)

Definition in_world (w : World) (guid : Z) : bool := bool_decide (is_Some (FindPlayer w guid)).
Definition connected (w : World) (guid : Z) : bool := bool_decide (is_Some (FindConnectedPlayer w guid)).
(** GetName of a connected player. *)
Definition player_name (w : World) (guid : Z) : string := cache_get c_name "" w guid.

Definition SendCommandResult (session : Z) (type : GuildCommandType) (err : GuildCommandError) (param : string)
    : GW unit := send session (SMSG_GUILD_COMMAND_RESULT type param err).
Definition SendSaveEmblemResult (session : Z) (err : GuildEmblemError) : GW unit :=
  send session (MSG_SAVE_GUILD_EMBLEM err).

Definition BroadcastPacket (this : Z) (pkt : Packet) : GW unit :=
  g ← guild_at this;
  for_each (hashed (m_members g)) (λ x,
    w ← get; when (in_world w (m_guid x.2)) (send (m_guid x.2) pkt)).
Definition BroadcastEvent (this : Z) (ev : GuildEvents) (who : Z) (params : list string) : GW unit :=
  BroadcastPacket this (SMSG_GUILD_EVENT ev params who).
Definition BroadcastPacketToRank (this rankId : Z) (pkt : Packet) : GW unit :=
  g ← guild_at this;
  for_each (hashed (m_members g)) (λ x,
    w ← get; when (IsRank x.2 rankId && connected w (m_guid x.2)) (send (m_guid x.2) pkt)).

(** What others see of a member ([Member::WritePacket]; level, class and zone left out). *)
Definition member_info (w : World) (sendOfficerNote : bool) (m : Member) : Z * Z * Z * string * string :=
  (m_guid m,
   match FindPlayer w (m_guid m) with
   | Some p => if IsSecretQueuingActive p then GUILDMEMBER_STATUS_NONE else m_flags m
   | None => m_flags m
   end,
   m_rank m, m_publicNote m, if sendOfficerNote then m_officerNote m else ""%string).

(** Those online first, up to the number that is shown; less than 2^16 of them. *)
Definition HandleRoster (this session : Z) : GW unit :=
  g ← guild_at this; w ← get;
  let membersize := u32 (Z.of_nat (size (m_members g))) `min` CONFIG_GUILD_MAX_PLAYER_SHOWN in
  let l := (hashed (m_members g)).*2 in
  let shown := take (Z.to_nat CONFIG_GUILD_MAX_PLAYER_SHOWN)
                 (filter (λ m, IsOnline m = true) l ++ filter (λ m, IsOnline m = false) l) in
  send session (SMSG_GUILD_ROSTER membersize (m_motd g) (m_info g) (m_ranks g)
                  (map (member_info w (HasRankRight g session GR_RIGHT_VIEWOFFNOTE)) shown)).
Definition HandleQuery (this session : Z) : GW unit :=
  g ← guild_at this;
  send session (SMSG_GUILD_QUERY_RESPONSE this (g_name g)
    (map (λ i, match nthZ (m_ranks g) i with
               | Some r => if i <? GetRanksSize g then m_name r else ""%string
               | None => ""%string
               end) (seqZ 0 GUILD_RANKS_MAX_COUNT))
    (m_emblemInfo g) (GetRanksSize g)).

(** The slots of a tab that go into a packet ([BankTab::WriteSlotPacket]). *)
Fixpoint write_slots (w : World) (t : BankTab) (l : list Z) (ignoreEmpty : bool) : outcome (list (Z * Z * Z)) :=
  match l with
  | [] => Ok []
  | s :: l =>
    let! rest := write_slots w t l ignoreEmpty in
    match GetItem t s with
    | None => Ok (if ignoreEmpty then rest else (s, 0, 0) :: rest)
    | Some p => deref (mem w !! p) (λ it,
        Ok (if (GetEntry it =? 0) && ignoreEmpty then rest else (s, GetEntry it, GetCount it) :: rest))
    end
  end.

(** [_SendBankList]; [slots]: those to show when not all are. *)
Definition SendBankList (this : Z) (session : option Z) (tab : Z) (sendAllSlots : bool) (slots : list Z) : GW unit :=
  g ← guild_at this; w ← get;
  let infos := if sendAllSlots && (tab =? 0) then map (λ t, (t_name t, m_icon t)) (m_bankTabs g) else [] in
  contents ← lift (match GetBankTab g tab with
                   | None => Ok []
                   | Some t => if sendAllSlots then write_slots w t (seqZ 0 GUILD_BANK_MAX_SLOTS) true
                               else write_slots w t slots false
                   end);
  let pkt n := SMSG_GUILD_BANK_LIST (m_bankMoney g) tab (u32 n) sendAllSlots infos contents in
  match session with
  | Some s =>
    numSlots ← lift (match GetMember g s with Some m => GetMemberRemainingSlots g m tab | None => Ok 0 end);
    send s (pkt numSlots)
  | None =>
    for_each (hashed (m_members g)) (λ x,
      if MemberHasTabRights g (m_guid x.2) tab GUILD_BANK_RIGHT_VIEW_TAB && in_world w (m_guid x.2) then
        numSlots ← lift (GetMemberRemainingSlots g x.2 tab); send (m_guid x.2) (pkt numSlots)
      else skip)
  end.

Definition SendLoginInfo (this session : Z) : GW unit :=
  g ← guild_at this;
  _ ← send session (SMSG_GUILD_EVENT GE_MOTD [m_motd g] 0);
  _ ← SendBankList this (Some session) 0 false [];
  _ ← HandleRoster this session;
  w ← get;
  _ ← BroadcastEvent this GE_SIGNED_ON session [player_name w session];
  upd_member this session (λ m, AddFlag m GUILDMEMBER_STATUS_ONLINE).

Definition SendInfo (this session : Z) : GW unit :=
  g ← guild_at this;
  send session (SMSG_GUILD_INFO (g_name g) (m_createdDate g) (u32 (Z.of_nat (size (m_members g)))) (m_accountsNumber g)).
Definition SendEventLog (this session : Z) : GW unit :=
  g ← guild_at this; send session (MSG_GUILD_EVENT_LOG_QUERY (m_log (m_eventLog g))).
Definition SendBankLog (this session tab : Z) : GW unit :=
  g ← guild_at this;
  if (tab <? GetPurchasedTabsSize g) || (tab =? GUILD_BANK_MAX_TABS) then
    h ← lift (deref (nthZ (m_bankEventLog g) tab) Ok);
    send session (MSG_GUILD_BANK_LOG_QUERY tab (m_log h))
  else skip.
Definition SendBankTabText (this session tab : Z) : GW unit :=
  g ← guild_at this;
  match GetBankTab g tab with Some t => send session (MSG_QUERY_GUILD_BANK_TEXT tab (m_text t)) | None => skip end.
Definition tab_permissions (g : Guild) (m : Member) (tab : Z) : outcome (Z * Z) :=
  let! n := GetMemberRemainingSlots g m tab in Ok (u32 (GetRankBankTabRights g (m_rank m) tab), u32 n).
Fixpoint all_permissions (g : Guild) (m : Member) (tabs : list Z) : outcome (list (Z * Z)) :=
  match tabs with
  | [] => Ok []
  | t :: tabs => let! x := tab_permissions g m t in let! l := all_permissions g m tabs in Ok (x :: l)
  end.
Definition SendPermissions (this session : Z) : GW unit :=
  g ← guild_at this;
  match GetMember g session with
  | None => skip
  | Some m =>
    money ← lift (GetMemberRemainingMoney g m);
    tabs ← lift (all_permissions g m (seqZ 0 GUILD_BANK_MAX_TABS));
    send session (MSG_GUILD_PERMISSIONS (m_rank m) (GetRankRights g (m_rank m)) (u32 money) (GetPurchasedTabsSize g) tabs)
  end.
Definition SendMoneyInfo (this session : Z) : GW unit :=
  g ← guild_at this;
  match GetMember g session with
  | None => skip
  | Some m => amount ← lift (GetMemberRemainingMoney g m); send session (MSG_GUILD_BANK_MONEY_WITHDRAWN amount)
  end.
(** The player is connected; a message goes to members that listen and do not ignore. *)
Definition BroadcastToGuild (this session : Z) (officerOnly : bool) (msg : string) : GW unit :=
  g ← guild_at this;
  if HasRankRight g session (if officerOnly then GR_RIGHT_OFFCHATSPEAK else GR_RIGHT_GCHATSPEAK) then
    for_each (hashed (m_members g)) (λ x,
      w ← get;
      match FindConnectedPlayer w (m_guid x.2) with
      | Some p =>
        when (HasRankRight g (m_guid x.2) (if officerOnly then GR_RIGHT_OFFCHATLISTEN else GR_RIGHT_GCHATLISTEN)
              && negb (bool_decide (session ∈ ignores p)))
          (send (m_guid x.2) (GuildChat officerOnly session msg))
      | None => skip
      end)
  else skip.

(** ** Logs *)

Definition LogEvent (this : Z) (type : GuildEventLogTypes) (playerGuid1 playerGuid2 newRank : Z) : GW unit :=
  g ← guild_at this; w ← get;
  '(e, h) ← lift (Log (m_eventLog g) (λ n, mkEvent n type playerGuid1 playerGuid2 newRank (now w)));
  _ ← upd_guild this (λ g, set_m_eventLog g h);
  Appends [CHAR_DEL_GUILD_EVENTLOG this (e_guid e); CHAR_INS_GUILD_EVENTLOG this e].
Definition is_move (t : GuildBankEventLogTypes) : bool := bool_decide (t = GUILD_BANK_LOG_MOVE_ITEM).
Definition LogBankEvent (this : Z) (type : GuildBankEventLogTypes) (tab lowguid itemOrMoney itemStackCount destTab : Z)
    : GW unit :=
  if GUILD_BANK_MAX_TABS <? tab then skip
  else if is_move type && (tab =? destTab) then skip
  else
    let dbTab := if IsMoneyEvent type then GUILD_BANK_MONEY_LOGS_TAB else tab in
    let tab := if IsMoneyEvent type then GUILD_BANK_MAX_TABS else tab in
    g ← guild_at this; w ← get;
    h ← lift (deref (nthZ (m_bankEventLog g) tab) Ok);
    '(e, h) ← lift (Log h (λ n, mkBankEvent n type dbTab lowguid itemOrMoney itemStackCount destTab (now w)));
    _ ← upd_guild this (λ g, set_m_bankEventLog g (updZ (m_bankEventLog g) tab h));
    Appends [CHAR_DEL_GUILD_BANK_EVENTLOG this (be_guid e) (m_bankTabId e); CHAR_INS_GUILD_BANK_EVENTLOG this e].
Definition CreateLogHolders (this : Z) : GW unit :=
  upd_guild this (λ g, set_m_bankEventLog (set_m_eventLog g (mkLog [] CONFIG_GUILD_EVENT_LOG_COUNT GUILD_EVENT_LOG_GUID_UNDEFINED))
    (replicate (Z.to_nat (GUILD_BANK_MAX_TABS + 1)) (mkLog [] CONFIG_GUILD_BANK_EVENT_LOG_COUNT GUILD_EVENT_LOG_GUID_UNDEFINED))).

(** ** Ranks *)

(** [Member::ChangeRank] *)
Definition ChangeRank (this guid newRank : Z) : GW unit :=
  _ ← upd_member this guid (λ m, set_m_rank m newRank);
  w ← get;
  _ ← when (in_world w guid) (upd_player guid (λ p, set_GetRank p newRank));
  Append (CHAR_UPD_GUILD_MEMBER_RANK newRank guid).
(** [_SetLeaderGUID] *)
Definition SetLeaderGUID (this leader : Z) : GW unit :=
  _ ← upd_guild this (λ g, set_m_leaderGuid g leader);
  _ ← ChangeRank this leader GR_GUILDMASTER;
  Append (CHAR_UPD_GUILD_LEADER leader this).

(** [_CreateRank]: the missing tabs are made in the local rank, after it was copied into
    the guild. *)
Definition CreateRank (this : Z) (name : string) (rights : Z) : GW bool :=
  g ← guild_at this;
  let newRankId := GetRanksSize g in
  if GUILD_RANKS_MAX_COUNT <=? newRankId then mret false
  else
    let info := new_rank newRankId name rights 0 in
    _ ← upd_guild this (λ g, set_m_ranks g (m_ranks g ++ [info]));
    '(info, l) ← lift (CreateMissingTabsIfNeeded this info (GetPurchasedTabsSize g));
    _ ← Appends l;
    _ ← Append (SaveRank this info);
    mret true.
(** Name and rights of the default ranks: master, officer, veteran, member, initiate. *)
Definition default_rights (i : Z) : Z :=
  if i <? 2 then GR_RIGHT_ALL else Z.lor GR_RIGHT_GCHATLISTEN GR_RIGHT_GCHATSPEAK.
Definition CreateDefaultGuildRanks (this loc : Z) : GW unit :=
  _ ← Append (CHAR_DEL_GUILD_RANKS this);
  _ ← Append (CHAR_DEL_GUILD_BANK_RIGHTS this);
  for_each (seqZ 0 GUILD_RANKS_MIN_COUNT) (λ i, _ ← CreateRank this (rank_name i loc) (default_rights i); skip).

Definition SetRankBankTabRightsAndSlots (this rankId : Z) (x : GuildBankRightsAndSlots) (saveToDB : bool) : GW unit :=
  g ← guild_at this;
  if GetPurchasedTabsSize g <=? GetTabId x then skip
  else match GetRankInfo g rankId with
       | Some _ => on_rank this rankId (λ r, SetBankTabSlotsAndRights this r x saveToDB)
       | None => skip
       end.
(** Changes of a rank that cannot fail. *)
Definition on_rank' (this rankId : Z) (f : RankInfo → RankInfo * list Stmt) : GW unit :=
  on_rank this rankId (λ r, Ok (f r)).

(** ** Members *)

(** [_UpdateAccountsNumber] *)
Definition UpdateAccountsNumber (this : Z) : GW unit :=
  g ← guild_at this; w ← get;
  let accountsIdSet : gset Z := list_to_set (map (λ x, CacheGetAccountId w (m_guid x.2)) (hashed (m_members g))) in
  upd_guild this (λ g, set_m_accountsNumber g (Z.of_nat (size accountsIdSet))).

Definition AddMember (this guid rankId : Z) : GW bool :=
  w ← get;
  let player := FindConnectedPlayer w guid in
  if match player with
     | Some p => negb (GetGuildId p =? 0)
     | None => negb (CacheGetGuildId w guid =? 0)
     end then mret false
  else
    g ← guild_at this;
    let rankId := if rankId =? GUILD_RANK_NONE then GetLowestRankId g else rankId in
    let member := new_member guid rankId (now w) in
    let store := upd_guild this (λ g, set_m_members g (<[guid := member]> (m_members g))) in
    let finish (name : string) :=
      g ← guild_at this;
      m ← lift (deref (GetMember g guid) Ok);
      _ ← Append (SaveMember this m);
      _ ← UpdateAccountsNumber this;
      _ ← LogEvent this GUILD_EVENT_LOG_JOIN_GUILD guid 0 0;
      _ ← BroadcastEvent this GE_JOINED guid [name];
      _ ← CacheUpdateGuild guid this;
      mret true in
    match player with
    | Some _ =>
      _ ← store;
      _ ← upd_player guid (λ p, set_GetRank (set_m_GuildIdInvited (set_GetGuildId p this) 0) rankId);
      _ ← SendLoginInfo this guid;
      finish (player_name w guid)
    | None => if CacheExists w guid then _ ← store; finish ""%string else mret false
    end.

(** The part of DeleteMember that takes the member out. *)
Definition EraseMember (this guid : Z) (isDisbanding : bool) : GW unit :=
  _ ← CacheUpdateGuild guid 0;
  _ ← upd_guild this (λ g, set_m_members g (delete guid (m_members g)));
  w ← get;
  _ ← when (connected w guid) (upd_player guid (λ p, set_GetRank (set_GetGuildId p 0) 0));
  _ ← Execute (CHAR_DEL_GUILD_MEMBER guid);
  when (negb isDisbanding) (UpdateAccountsNumber this).

(** The loop of Disband: the members in the order of the map, until none is left. *)
Fixpoint erase_all (fuel : nat) (this : Z) : GW unit :=
  g ← guild_at this;
  match hashed (m_members g) with
  | [] => skip
  | x :: _ =>
    match fuel with
    | O => lift OutOfFuel
    | S fuel => _ ← EraseMember this (m_guid x.2) true; erase_all fuel this
    end
  end.
(** [BankTab::Delete] *)
Definition DeleteTabItems (t : BankTab) : GW unit :=
  for_each (seqZ 0 GUILD_BANK_MAX_SLOTS) (λ s,
    match m_items t !! s with
    | Some p =>
      w ← get;
      it ← lift (deref (mem w !! p) Ok);
      _ ← Append (CHAR_DEL_ITEM_INSTANCE (guid it));
      modify (λ w, set_mem w (delete p (mem w)))
    | None => skip
    end).
Definition DeleteBankItems (this : Z) : GW unit :=
  g ← guild_at this;
  _ ← for_each (m_bankTabs g) DeleteTabItems;
  upd_guild this (λ g, set_m_bankTabs g []).
Definition Disband (this : Z) : GW unit :=
  _ ← BroadcastEvent this GE_DISBANDED 0 [];
  g ← guild_at this;
  _ ← erase_all (size (m_members g)) this;
  _ ← Appends [CHAR_DEL_GUILD this; CHAR_DEL_GUILD_RANKS this; CHAR_DEL_GUILD_BANK_TABS this];
  _ ← DeleteBankItems this;
  _ ← Appends [CHAR_DEL_GUILD_BANK_ITEMS this; CHAR_DEL_GUILD_BANK_RIGHTS this;
               CHAR_DEL_GUILD_BANK_EVENTLOGS this; CHAR_DEL_GUILD_EVENTLOGS this];
  modify (λ w, set_removals w (removals w ++ [this])).

(** The highest of the others, the first one of those in the order of the map. *)
Definition new_leader (guid : Z) (l : list (Z * Member)) : option Member :=
  foldl (λ o x,
    if x.1 =? guid then o
    else match o with
         | Some m => if m_rank x.2 <? m_rank m then Some x.2 else o
         | None => Some x.2
         end) None l.
Definition DeleteMember (this guid : Z) : GW unit :=
  g ← guild_at this;
  if m_leaderGuid g =? guid then
    match new_leader guid (hashed (m_members g)) with
    | None => Disband this
    | Some newLeader =>
      _ ← SetLeaderGUID this (m_guid newLeader);
      w ← get;
      _ ← when (in_world w (m_guid newLeader)) (upd_player (m_guid newLeader) (λ p, set_GetRank p GR_GUILDMASTER));
      _ ← match GetMember g guid with
          | Some _ =>
            w ← get;
            _ ← BroadcastEvent this GE_LEADER_CHANGED 0 [CacheGetName w guid; CacheGetName w (m_guid newLeader)];
            BroadcastEvent this GE_LEFT guid [CacheGetName w guid]
          | None => skip
          end;
      EraseMember this guid false
    end
  else EraseMember this guid false.

Definition ChangeMemberRank (this guid newRank : Z) : GW bool :=
  g ← guild_at this;
  if newRank <=? GetLowestRankId g then
    match GetMember g guid with
    | Some _ => _ ← ChangeRank this guid newRank; mret true
    | None => mret false
    end
  else mret false.

(** ** Creating a guild (also GuildMgr::CreateGuild) *)

Definition Create (this leader loc : Z) : GW unit :=
  w ← get;
  _ ← upd_guild this (λ g, set_m_createdDate (set_m_bankMoney (set_m_motd (set_m_info g "") "No message set.") 0) (now w));
  _ ← CreateLogHolders this;
  _ ← Append (CHAR_DEL_GUILD_MEMBERS this);
  g ← guild_at this;
  _ ← Append (CHAR_INS_GUILD this (mkGuildRow (g_name g) (m_leaderGuid g) (m_info g) (m_motd g)
                (u32 (m_createdDate g)) (m_emblemInfo g) (m_bankMoney g)));
  _ ← CreateDefaultGuildRanks this loc;
  ret ← AddMember this (m_leaderGuid g) GR_GUILDMASTER;
  lift (assert_ ret (Ok tt)).

Definition GetGuildByName (w : World) (name : string) : option Z :=
  (λ x, x.2.1) <$> list_find (λ x, upper (g_name x.2) = upper name) (hashed (guilds w)).
Definition GenerateGuildId : GW Z :=
  w ← get; _ ← modify (λ w, set_NextGuildId w (u32 (NextGuildId w + 1))); mret (NextGuildId w).
Definition CreateGuild (leader : Z) (name : string) : GW bool :=
  w ← get;
  match GetGuildByName w name with
  | Some _ => mret false
  | None =>
    p ← player_at leader;
    if negb (GetGuildId p =? 0) then mret false
    else
      id ← GenerateGuildId;
      _ ← modify (λ w, set_guilds w (<[id := new_guild leader name]> (guilds w)));
      _ ← Create id leader (locale p);
      mret true
  end.
(** The job of RemoveGuild. *)
Definition RunRemoval (id : Z) : GW unit :=
  modify (λ w, set_removals (set_guilds w (delete id (guilds w))) (filter (λ i, i ≠ id) (removals w))).

(** ** Money *)

(** [_ModifyBankMoney] *)
Definition ModifyBankMoney (this amount : Z) (add : bool) : GW bool :=
  g ← guild_at this;
  if negb add && (m_bankMoney g <? amount) then mret false
  else
    let money := if add then u64 (m_bankMoney g + amount) else m_bankMoney g - amount in
    _ ← upd_guild this (λ g, set_m_bankMoney g money);
    _ ← Append (CHAR_UPD_GUILD_BANK_MONEY money this);
    mret true.
(** [player->ModifyMoney(-int32(amount))] *)
Definition TakeMoney (guid amount : Z) : GW bool := d ← lift (neg32 (s32 amount)); ModifyMoney guid d.

Definition BroadcastMoney (this : Z) : GW unit :=
  g ← guild_at this; BroadcastEvent this GE_BANK_MONEY_SET 0 [money_str (m_bankMoney g)].
Definition HandleMemberDepositMoney (this session amount : Z) : GW unit :=
  _ ← BeginTransaction;
  _ ← ModifyBankMoney this amount true;
  _ ← TakeMoney session amount;
  _ ← SaveGoldToDB session;
  _ ← LogBankEvent this GUILD_BANK_LOG_DEPOSIT_MONEY 0 session amount 0 0;
  _ ← CommitTransaction;
  BroadcastMoney this.
Definition HandleMemberWithdrawMoney (this session amount : Z) (repair : bool) : GW bool :=
  let amount := amount `min` MAX_MONEY_AMOUNT in
  g ← guild_at this;
  if m_bankMoney g <? amount then mret false
  else match GetMember g session with
  | None => mret false
  | Some member =>
    left_ ← lift (GetMemberRemainingMoney g member);
    if u32 left_ <? amount then mret false
    else
      _ ← BeginTransaction;
      ok ← (if repair then mret true else ModifyMoney session (s32 amount));
      if negb ok then mret false
      else
        _ ← when (negb repair) (SaveGoldToDB session);
        _ ← on_member this session (λ m, UpdateBankWithdrawValue m GUILD_BANK_MAX_TABS amount);
        _ ← ModifyBankMoney this amount false;
        _ ← LogBankEvent this (if repair then GUILD_BANK_LOG_REPAIR_MONEY else GUILD_BANK_LOG_WITHDRAW_MONEY) 0 session amount 0 0;
        _ ← CommitTransaction;
        _ ← BroadcastMoney this;
        mret true
  end.

(** [_CreateNewBankTab] *)
Definition CreateNewBankTab (this : Z) : GW unit :=
  g ← guild_at this;
  let tab := GetPurchasedTabsSize g in
  _ ← upd_guild this (λ g, set_m_bankTabs g (m_bankTabs g ++ [new_tab]));
  _ ← Appends [CHAR_DEL_GUILD_BANK_TAB this tab; CHAR_INS_GUILD_BANK_TAB this tab];
  for_each (seqZ 0 (Z.of_nat (length (m_ranks g)))) (λ i, on_rank this i (λ r, CreateMissingTabsIfNeeded this r (u8 (tab + 1)))).
Definition HandleBuyBankTab (this session tab : Z) : GW unit :=
  p ← player_at session;
  g ← guild_at this;
  match GetMember g session with
  | None => skip
  | Some _ =>
    if GUILD_BANK_MAX_TABS <=? GetPurchasedTabsSize g then skip
    else if negb (tab =? GetPurchasedTabsSize g) then skip
    else
      let tabCost := u32 (GetGuildBankTabPrice tab * GOLD) in
      if tabCost =? 0 then skip
      else if negb (HasEnoughMoney p tabCost) then skip
      else
        _ ← BeginTransaction;
        _ ← TakeMoney session tabCost;
        _ ← SaveGoldToDB session;
        _ ← CreateNewBankTab this;
        _ ← BroadcastEvent this GE_BANK_TAB_PURCHASED 0 [];
        _ ← SendPermissions this session;
        CommitTransaction
  end.
Definition HandleSetEmblem (this session : Z) (emblemInfo : EmblemInfo) : GW unit :=
  p ← player_at session;
  g ← guild_at this;
  if negb (IsLeader g session) then SendSaveEmblemResult session ERR_GUILDEMBLEM_NOTGUILDMASTER
  else if negb (HasEnoughMoney p EMBLEM_PRICE) then SendSaveEmblemResult session ERR_GUILDEMBLEM_NOTENOUGHMONEY
  else
    _ ← BeginTransaction;
    _ ← TakeMoney session EMBLEM_PRICE;
    _ ← SaveGoldToDB session;
    _ ← upd_guild this (λ g, set_m_emblemInfo g emblemInfo);
    _ ← Append (CHAR_UPD_GUILD_EMBLEM_INFO emblemInfo this);
    _ ← SendSaveEmblemResult session ERR_GUILDEMBLEM_SUCCESS;
    _ ← HandleQuery this session;
    CommitTransaction.

(** ** Words *)

Definition SetName (this : Z) (name : string) : GW bool :=
  g ← guild_at this;
  if bool_decide (g_name g = name) || bool_decide (name = ""%string) || (24 <? Z.of_nat (String.length name))
     || IsReservedName name || negb (IsValidCharterName name)
  then mret false
  else
    _ ← upd_guild this (λ g, set_g_name g name);
    _ ← Append (CHAR_UPD_GUILD_NAME name this);
    mret true.
Definition HandleSetMOTD (this session : Z) (motd : string) : GW unit :=
  g ← guild_at this;
  if decide (m_motd g = motd) then skip
  else if negb (HasRankRight g session GR_RIGHT_SETMOTD)
  then SendCommandResult session GUILD_COMMAND_EDIT_MOTD ERR_GUILD_PERMISSIONS ""
  else
    _ ← upd_guild this (λ g, set_m_motd g motd);
    _ ← Execute (CHAR_UPD_GUILD_MOTD motd this);
    BroadcastEvent this GE_MOTD 0 [motd].
Definition HandleSetInfo (this session : Z) (info : string) : GW unit :=
  g ← guild_at this;
  if decide (m_info g = info) then skip
  else if HasRankRight g session GR_RIGHT_MODIFY_GUILD_INFO then
    _ ← upd_guild this (λ g, set_m_info g info);
    Execute (CHAR_UPD_GUILD_INFO info this)
  else skip.
Definition HandleSetBankTabInfo (this session tab : Z) (name icon : string) : GW unit :=
  g ← guild_at this;
  match GetBankTab g tab with
  | None => skip
  | Some _ =>
    _ ← BeginTransaction;
    _ ← on_tab this tab (λ t, SetInfo this tab t name icon);
    _ ← BroadcastEvent this GE_BANK_TAB_UPDATED 0 [pretty tab; name; icon];
    CommitTransaction
  end.
Definition SetBankTabText (this tab : Z) (text : string) : GW unit :=
  g ← guild_at this;
  match GetBankTab g tab with
  | None => skip
  | Some _ =>
    _ ← BeginTransaction;
    _ ← on_tab this tab (λ t, SetText this tab t text);
    g ← guild_at this;
    _ ← BroadcastPacket this (MSG_QUERY_GUILD_BANK_TEXT tab
          (match GetBankTab g tab with Some t => m_text t | None => ""%string end));
    CommitTransaction
  end.
Definition HandleSetMemberNote (this session : Z) (name note : string) (officer : bool) : GW unit :=
  g ← guild_at this; w ← get;
  if negb (HasRankRight g session (if officer then GR_RIGHT_EOFFNOTE else GR_RIGHT_EPNOTE))
  then SendCommandResult session GUILD_COMMAND_PUBLIC_NOTE ERR_GUILD_PERMISSIONS ""
  else match GetMemberByName w g name with
  | None => skip
  | Some member =>
    _ ← BeginTransaction;
    _ ← on_member this (m_guid member) (λ m, if officer then SetOfficerNote m note else SetPublicNote m note);
    _ ← HandleRoster this session;
    CommitTransaction
  end.

(** ** Ranks and members, on request *)

Definition HandleSetRankInfo (this session rankId : Z) (name : string) (rights moneyPerDay : Z)
    (rightsAndSlots : list GuildBankRightsAndSlots) : GW unit :=
  g ← guild_at this;
  if negb (IsLeader g session) then SendCommandResult session GUILD_COMMAND_CHANGE_RANK ERR_GUILD_PERMISSIONS ""
  else match GetRankInfo g rankId with
  | None => skip
  | Some _ =>
    _ ← BeginTransaction;
    _ ← on_rank' this rankId (λ r, SetRankName this r name);
    _ ← on_rank' this rankId (λ r, SetRights this r rights);
    _ ← on_rank' this rankId (λ r, SetBankMoneyPerDay this r moneyPerDay);
    _ ← for_each rightsAndSlots (λ x, SetRankBankTabRightsAndSlots this rankId x true);
    _ ← BroadcastEvent this GE_RANK_UPDATED 0 [pretty rankId; name];
    CommitTransaction
  end.
Definition HandleAddNewRank (this session : Z) (name : string) : GW unit :=
  g ← guild_at this;
  let size := GetRanksSize g in
  if GUILD_RANKS_MAX_COUNT <=? size then skip
  else if IsLeader g session then
    _ ← BeginTransaction;
    ok ← CreateRank this name (Z.lor GR_RIGHT_GCHATLISTEN GR_RIGHT_GCHATSPEAK);
    if ok : bool then _ ← CommitTransaction; BroadcastEvent this GE_RANK_UPDATED 0 [pretty size; name] else skip
  else skip.
Definition RemoveRank (this session rankId : Z) : GW unit :=
  g ← guild_at this;
  if (GetRanksSize g <=? GUILD_RANKS_MIN_COUNT) || (GetRanksSize g <=? rankId) || negb (IsLeader g session) then skip
  else
    _ ← BeginTransaction;
    _ ← Appends [CHAR_DEL_GUILD_BANK_RIGHTS_FOR_RANK this rankId; CHAR_DEL_GUILD_LOWEST_RANK this rankId];
    _ ← CommitTransaction;
    _ ← upd_guild this (λ g, set_m_ranks g (removelast (m_ranks g)));
    BroadcastEvent this GE_RANK_DELETED 0 [].
Definition HandleRemoveLowestRank (this session : Z) : GW unit :=
  g ← guild_at this; RemoveRank this session (GetLowestRankId g).

Definition HandleSetLeader (this session : Z) (name : string) : GW unit :=
  g ← guild_at this; w ← get;
  if negb (IsLeader g session) then SendCommandResult session GUILD_COMMAND_CHANGE_LEADER ERR_GUILD_PERMISSIONS ""
  else match GetMember g session, GetMemberByName w g name with
  | Some old, Some new =>
    _ ← BeginTransaction;
    _ ← SetLeaderGUID this (m_guid new);
    _ ← ChangeRank this (m_guid old) GR_OFFICER;
    _ ← BroadcastEvent this GE_LEADER_CHANGED 0 [player_name w session; name];
    CommitTransaction
  | _, _ => skip
  end.

Definition HandleInviteMember (this session : Z) (name : string) : GW unit :=
  w ← get;
  match FindPlayerByName w name with
  | None => SendCommandResult session GUILD_COMMAND_INVITE ERR_GUILD_PLAYER_NOT_FOUND_S name
  | Some (guid, pInvitee) =>
    player ← player_at session;
    g ← guild_at this;
    if bool_decide (session ∈ ignores pInvitee) then skip
    else if IsSecretQueuingActive pInvitee
    then SendCommandResult session GUILD_COMMAND_INVITE ERR_GUILD_PLAYER_NOT_FOUND_S name
    else if negb CONFIG_ALLOW_TWO_SIDE_INTERACTION_GUILD && negb (GetOTeam pInvitee =? GetOTeam player)
    then SendCommandResult session GUILD_COMMAND_INVITE ERR_GUILD_NOT_ALLIED name
    else if negb (GetGuildId pInvitee =? 0)
    then SendCommandResult session GUILD_COMMAND_INVITE ERR_ALREADY_IN_GUILD_S name
    else if negb (m_GuildIdInvited pInvitee =? 0)
    then SendCommandResult session GUILD_COMMAND_INVITE ERR_ALREADY_INVITED_TO_GUILD_S name
    else if negb (HasRankRight g session GR_RIGHT_INVITE)
    then SendCommandResult session GUILD_COMMAND_INVITE ERR_GUILD_PERMISSIONS ""
    else
      _ ← SendCommandResult session GUILD_COMMAND_INVITE ERR_GUILD_COMMAND_SUCCESS name;
      _ ← upd_player guid (λ p, set_m_GuildIdInvited p this);
      _ ← BeginTransaction;
      _ ← LogEvent this GUILD_EVENT_LOG_INVITE_PLAYER session guid 0;
      _ ← CommitTransaction;
      send guid (SMSG_GUILD_INVITE (player_name w session) (g_name g))
  end.
Definition HandleAcceptMember (this session : Z) : GW unit :=
  p ← player_at session; g ← guild_at this; w ← get;
  if negb CONFIG_ALLOW_TWO_SIDE_INTERACTION_GUILD && negb (GetTeam p =? CacheGetTeam w (m_leaderGuid g)) then skip
  else
    _ ← BeginTransaction;
    _ ← AddMember this session GUILD_RANK_NONE;
    CommitTransaction.
Definition HandleLeaveMember (this session : Z) : GW unit :=
  g ← guild_at this; w ← get;
  _ ← BeginTransaction;
  _ ← (if IsLeader g session then
         if 1 <? Z.of_nat (size (m_members g))
         then SendCommandResult session GUILD_COMMAND_QUIT ERR_GUILD_LEADER_LEAVE ""
         else Disband this
       else
         _ ← DeleteMember this session;
         _ ← LogEvent this GUILD_EVENT_LOG_LEAVE_GUILD session 0 0;
         _ ← BroadcastEvent this GE_LEFT session [player_name w session];
         SendCommandResult session GUILD_COMMAND_QUIT ERR_GUILD_COMMAND_SUCCESS (g_name g));
  CommitTransaction.
Definition HandleRemoveMember (this session : Z) (name : string) : GW unit :=
  g ← guild_at this; w ← get;
  if negb (HasRankRight g session GR_RIGHT_REMOVE)
  then SendCommandResult session GUILD_COMMAND_REMOVE ERR_GUILD_PERMISSIONS ""
  else match GetMemberByName w g name with
  | None => skip
  | Some member =>
    if IsRank member GR_GUILDMASTER then SendCommandResult session GUILD_COMMAND_REMOVE ERR_GUILD_LEADER_LEAVE ""
    else if match GetMember g session with Some me => IsRankNotLower member (m_rank me) | None => true end
    then SendCommandResult session GUILD_COMMAND_REMOVE ERR_GUILD_RANK_TOO_HIGH_S name
    else
      _ ← BeginTransaction;
      _ ← DeleteMember this (m_guid member);
      _ ← LogEvent this GUILD_EVENT_LOG_UNINVITE_PLAYER session (m_guid member) 0;
      _ ← BroadcastEvent this GE_REMOVED 0 [name; player_name w session];
      CommitTransaction
  end.
Definition HandleUpdateMemberRank (this session : Z) (name : string) (demote : bool) : GW unit :=
  let type := if demote then GUILD_COMMAND_DEMOTE else GUILD_COMMAND_PROMOTE in
  g ← guild_at this; w ← get;
  if negb (HasRankRight g session (if demote then GR_RIGHT_DEMOTE else GR_RIGHT_PROMOTE))
  then SendCommandResult session type ERR_GUILD_PERMISSIONS ""
  else match GetMemberByName w g name with
  | None => skip
  | Some member =>
    if m_guid member =? session then SendCommandResult session type ERR_GUILD_NAME_INVALID ""
    else
      me ← lift (deref (GetMember g session) Ok);
      if demote && IsRankNotLower member (m_rank me)
      then SendCommandResult session type ERR_GUILD_RANK_TOO_HIGH_S name
      else if demote && (GetLowestRankId g <=? m_rank member)
      then SendCommandResult session type ERR_GUILD_RANK_TOO_LOW_S name
      else if negb demote && IsRankNotLower member (u8 (m_rank me + 1))
      then SendCommandResult session type ERR_GUILD_RANK_TOO_HIGH_S name
      else
        _ ← BeginTransaction;
        let newRankId := u32 (m_rank member + (if demote then 1 else -1)) in
        _ ← ChangeRank this (m_guid member) (u8 newRankId);
        _ ← LogEvent this (if demote then GUILD_EVENT_LOG_DEMOTE_PLAYER else GUILD_EVENT_LOG_PROMOTE_PLAYER)
              session (m_guid member) (u8 newRankId);
        _ ← BroadcastEvent this (if demote then GE_DEMOTION else GE_PROMOTION) 0
              [player_name w session; name; GetRankName g (u8 newRankId)];
        CommitTransaction
  end.

Definition HandleMemberLogout (this session : Z) : GW unit :=
  w ← get;
  _ ← upd_member this session (λ m, ResetFlags (set_m_logoutTime m (now w)));
  BroadcastEvent this GE_SIGNED_OFF session [player_name w session].
Definition HandleDisband (this session : Z) : GW unit :=
  g ← guild_at this;
  if negb (IsLeader g session) then skip
  else _ ← BeginTransaction; _ ← Disband this; CommitTransaction.
Definition ResetTimes (this : Z) : GW unit :=
  _ ← upd_guild this (λ g, set_m_members g (ResetValues <$> m_members g));
  BroadcastEvent this GE_BANK_TAB_AND_MONEY_UPDATED 0 [].
Definition UpdateBankWithdrawValueForMember (this playerGuid tab amount : Z) : GW unit :=
  if playerGuid =? 0 then skip
  else
    g ← guild_at this;
    match GetMember g playerGuid with
    | None => skip
    | Some m =>
      let amount := if amount =? 0
                    then u32 (if tab =? GUILD_BANK_MAX_TABS then GetRankBankMoneyPerDay g (m_rank m)
                              else GetRankBankTabSlotsPerDay g (m_rank m) tab)
                    else amount in
      on_member this playerGuid (λ m, UpdateBankWithdrawValue m tab amount)
    end.

End guilds.

End Guilds.
