(* ===== verification/GuildBank.v ===== *)
(** * Items in the guild bank ([Guild::MoveItemData], src/server/game/Guilds/Guild.cpp)

    Moving, merging, splitting and swapping items between the slots of the bank
    ([Guild::SwapItems]). An item sits at an address, a slot holds the address. *)
From S2P Require Import Prelude StateMonad GuildData GuildLog GuildParts Guilds.

Module GuildBank.
Export Guilds.

Section bank.
Context `{GE : GuildEnv}.

Definition item_at (p : ptr) : GW Item := w ← get; lift (deref (mem w !! p) Ok).
Definition GetMaxStackCount (it : Item) : Z := GetMaxStackSize (GetTemplate it).
Definition SetCount (it : Item) (n : Z) : Item :=
  mkItem (guid it) (GetTemplate it) n (m_slot it) (m_lootGenerated it) (mb_in_trade it) (IsSoulBound it)
    (bop_tradeable it) (owner it) (allowedGUIDs it) (max_durability it) (durability it) (enchantments it)
    (bag_num_slots it) (m_bagslot it).
Definition SetOwner (it : Item) (o : Z) : Item :=
  mkItem (guid it) (GetTemplate it) (GetCount it) (m_slot it) (m_lootGenerated it) (mb_in_trade it) (IsSoulBound it)
    (bop_tradeable it) o (allowedGUIDs it) (max_durability it) (durability it) (enchantments it)
    (bag_num_slots it) (m_bagslot it).
Definition store_item (p : ptr) (it : Item) : GW unit := modify (λ w, set_mem w (<[p := it]> (mem w))).

(** [Item::CloneItem] and [Item::CreateItem]: none of nothing, at most a stack. *)
Definition clone_of (it : Item) (g count : Z) : Item :=
  mkItem g (GetTemplate it) (if GetMaxStackCount it <? count then GetMaxStackCount it else count) NULL_SLOT
    false false (IsSoulBound it) false 0 ∅ (max_durability it) (max_durability it) ∅ (bag_num_slots it) ∅.
Definition CloneItem (p : ptr) (count : Z) : GW (option ptr) :=
  it ← item_at p;
  if count <? 1 then mret None
  else
    w ← get;
    let q := next_ptr w in
    _ ← modify (λ w, set_next_item_guid (set_next_ptr w (q + 1)) (next_item_guid w + 1));
    _ ← store_item q (clone_of it (next_item_guid w) count);
    mret (Some q).

(** [BankTab::SetItem] *)
Definition SetItem (this tab slot : Z) (p : option ptr) : GW bool :=
  if GUILD_BANK_MAX_SLOTS <=? slot then mret false
  else
    g ← guild_at this;
    t ← lift (deref (GetBankTab g tab) Ok);
    _ ← upd_guild this (λ g, set_m_bankTabs g (updZ (m_bankTabs g) tab
          (set_m_items t (partial_alter (λ _, p) slot (m_items t)))));
    _ ← Append (CHAR_DEL_GUILD_BANK_ITEM this tab slot);
    match p with
    | None => mret true
    | Some p =>
      it ← item_at p;
      _ ← Append (CHAR_INS_GUILD_BANK_ITEM this tab slot (guid it));
      _ ← store_item p (SetOwner it 0);
      _ ← Append (CHAR_REP_ITEM_INSTANCE (SetOwner it 0));
      mret true
    end.

(** [_GetItem], [_RemoveItem] *)
Definition bank_item (g : Guild) (tab slot : Z) : option ptr := t ← GetBankTab g tab; GetItem t slot.
Definition RemoveBankItem (this tab slot : Z) : GW unit :=
  g ← guild_at this;
  match GetBankTab g tab with Some _ => _ ← SetItem this tab slot None; skip | None => skip end.

(** ** [BankMoveItemData] *)
Record MoveItemData := mkMove {
  m_container : Z;
  m_slotId : Z;
  m_pItem : option ptr;
  m_pClonedItem : option ptr;
  m_vec : list (Z * Z)                  (* slots and counts that are reserved *)
}.
Definition new_move (tab slot : Z) : MoveItemData := mkMove tab slot None None [].
Definition with_item (d : MoveItemData) (p : option ptr) : MoveItemData :=
  mkMove (m_container d) (m_slotId d) p (m_pClonedItem d) (m_vec d).
Definition with_clone (d : MoveItemData) (p : option ptr) : MoveItemData :=
  mkMove (m_container d) (m_slotId d) (m_pItem d) p (m_vec d).
Definition with_vec (d : MoveItemData) (v : list (Z * Z)) : MoveItemData :=
  mkMove (m_container d) (m_slotId d) (m_pItem d) (m_pClonedItem d) v.

Definition InitItem (this : Z) (d : MoveItemData) : GW MoveItemData :=
  g ← guild_at this; mret (with_item d (bank_item g (m_container d) (m_slotId d))).

(** The amount that goes on: 0 for the whole stack; [None]: more than there is. *)
Definition CheckItem (d : MoveItemData) (splitedAmount : Z) : GW (option Z) :=
  p ← lift (match m_pItem d with Some p => Ok p | None => AssertFail end);
  it ← item_at p;
  mret (if GetCount it <? splitedAmount then None
        else if splitedAmount =? GetCount it then Some 0 else Some splitedAmount).

Definition HasStoreRights (g : Guild) (player : Z) (d other : MoveItemData) : bool :=
  if m_container other =? m_container d then true
  else MemberHasTabRights g player (m_container d) GUILD_BANK_RIGHT_DEPOSIT_ITEM.
Definition HasWithdrawRights (g : Guild) (player : Z) (d other : MoveItemData) : outcome bool :=
  if m_container other =? m_container d then Ok true
  else
    let! slots := match GetMember g player with
                  | Some m => GetMemberRemainingSlots g m (m_container d)
                  | None => Ok 0
                  end in
    Ok (negb (slots =? 0)).

(** [_ReserveSpace]: [None] when the item there is in the way. *)
Definition ReserveSpace (slot : Z) (it : Item) (dest : option Item) (vec : list (Z * Z)) (count : Z)
    : option (list (Z * Z) * Z) :=
  if match dest with
     | Some d => negb (GetEntry d =? GetEntry it) || (GetMaxStackCount it <=? GetCount d)
     | None => false
     end then None
  else
    let requiredSpace := match dest with
                         | Some d => u32 (GetMaxStackCount it - GetCount d)
                         | None => GetMaxStackCount it
                         end `min` count in
    if existsb (λ q, q.1 =? slot) vec then Some (vec, count)
    else Some (vec ++ [(slot, requiredSpace)], u32 (count - requiredSpace)).

(** The item in a slot, if it is not the one that is moved. *)
Definition other_item (w : World) (g : Guild) (tab slot : Z) (p : ptr) : outcome (option Item) :=
  match bank_item g tab slot with
  | None => Ok None
  | Some q => if q =? p then Ok None else deref (mem w !! q) (λ it, Ok (Some it))
  end.
Fixpoint CanStoreItemInTab (w : World) (g : Guild) (tab : Z) (p : ptr) (it : Item) (skipSlot : Z) (merge : bool)
    (slots : list Z) (vec : list (Z * Z)) (count : Z) : outcome (list (Z * Z) * Z) :=
  match slots with
  | [] => Ok (vec, count)
  | s :: slots =>
    let continue := CanStoreItemInTab w g tab p it skipSlot merge slots in
    if count =? 0 then Ok (vec, count)
    else if s =? skipSlot then continue vec count
    else
      let! dest := other_item w g tab s p in
      if negb (Bool.eqb (bool_decide (is_Some dest)) merge) then continue vec count
      else match ReserveSpace s it dest vec count with
           | Some (vec, count) => continue vec count
           | None => continue vec count
           end
  end.
Definition all_slots : list Z := seqZ 0 GUILD_BANK_MAX_SLOTS.

(** [BankMoveItemData::CanStore]; slots of a tab are searched for stacks to merge with,
    then for free ones. *)
Definition CanStore (w : World) (g : Guild) (d : MoveItemData) (p : ptr) (swap : bool)
    : outcome (InventoryResult * list (Z * Z)) :=
  deref (mem w !! p) (λ it,
    if IsSoulBound it then Ok (EQUIP_ERR_CANT_DROP_SOULBOUND, [])
    else if GetPurchasedTabsSize g <=? m_container d then Ok (EQUIP_ERR_ITEM_DOESNT_GO_INTO_BAG, [])
    else
      let tab := m_container d in
      let search (vec : list (Z * Z)) (count : Z) :=
        let! (vec, count) := (if 1 <? GetMaxStackCount it
                              then CanStoreItemInTab w g tab p it (m_slotId d) true all_slots vec count
                              else Ok (vec, count)) in
        if count =? 0 then Ok (EQUIP_ERR_OK, vec)
        else
          let! (vec, count) := CanStoreItemInTab w g tab p it (m_slotId d) false all_slots vec count in
          Ok (if count =? 0 then EQUIP_ERR_OK else EQUIP_ERR_BANK_FULL, vec) in
      if m_slotId d =? NULL_SLOT then search [] (GetCount it)
      else
        let! dest := (if swap then Ok None else other_item w g tab (m_slotId d) p) in
        match ReserveSpace (m_slotId d) it dest [] (GetCount it) with
        | None => Ok (EQUIP_ERR_ITEM_CANT_STACK, [])
        | Some (vec, count) => if count =? 0 then Ok (EQUIP_ERR_OK, vec) else search vec count
        end).

(** [_UpdateMemberWithdrawSlots] *)
Definition UpdateMemberWithdrawSlots (this player tab : Z) : GW unit :=
  g ← guild_at this;
  match GetMember g player with
  | None => skip
  | Some m =>
    when (negb (m_rank m =? GR_GUILDMASTER)
          && (GetBankWithdrawValue m tab <? GetRankBankTabSlotsPerDay g (m_rank m) tab))
      (on_member this player (λ m, UpdateBankWithdrawValue m tab 1))
  end.

Definition RemoveItem (this player : Z) (d other : MoveItemData) (splitedAmount : Z) : GW MoveItemData :=
  p ← lift (match m_pItem d with Some p => Ok p | None => AssertFail end);
  d ← (if negb (splitedAmount =? 0) then
         it ← item_at p;
         let it := SetCount it (u32 (GetCount it - splitedAmount)) in
         _ ← store_item p it;
         _ ← Append (CHAR_UPD_ITEM_INSTANCE it);
         mret d
       else
         _ ← RemoveBankItem this (m_container d) (m_slotId d);
         mret (with_item d None));
  _ ← when (negb (m_container other =? m_container d)) (UpdateMemberWithdrawSlots this player (m_container d));
  mret d.

(** [_StoreItem]: one reserved slot. *)
Definition StoreItemAt (this tab : Z) (p : ptr) (slot count : Z) (clone : bool) : GW unit :=
  g ← guild_at this;
  match bank_item g tab slot with
  | Some q =>
    dest ← item_at q;
    let dest := SetCount dest (u32 (GetCount dest + count)) in
    _ ← store_item q dest;
    _ ← Append (CHAR_UPD_ITEM_INSTANCE dest);
    if clone then skip
    else
      it ← item_at p;
      _ ← Append (CHAR_DEL_ITEM_INSTANCE (guid it));
      modify (λ w, set_mem w (delete p (mem w)))
  | None =>
    q ← (if clone then CloneItem p count
         else it ← item_at p; _ ← store_item p (SetCount it count); mret (Some p));
    match q with
    | Some q => _ ← SetItem this tab slot (Some q); skip
    | None => skip
    end
  end.
Fixpoint StoreItems (this tab : Z) (p : ptr) (vec : list (Z * Z)) : GW unit :=
  match vec with
  | [] => skip
  | (slot, count) :: vec =>
    _ ← StoreItemAt this tab p slot count (negb (bool_decide (vec = [])));
    StoreItems this tab p vec
  end.
Definition StoreItem (this tab : Z) (p : ptr) (vec : list (Z * Z)) : GW unit :=
  g ← guild_at this;
  match GetBankTab g tab with Some _ => StoreItems this tab p vec | None => skip end.

Definition LogBankMove (this player : Z) (dest from : MoveItemData) (count : Z) : GW unit :=
  p ← lift (match m_pItem from with Some p => Ok p | None => AssertFail end);
  it ← item_at p;
  LogBankEvent this GUILD_BANK_LOG_MOVE_ITEM (m_container from) player (GetEntry it) (u16 count) (m_container dest).

(** [_DoItemsMove] *)
Definition DoItemsMove (this player : Z) (src dest : MoveItemData) (sendError : bool) (splitedAmount : Z)
    : GW (bool * MoveItemData * MoveItemData) :=
  g ← guild_at this; w ← get;
  let swap := bool_decide (is_Some (m_pItem dest)) in
  pSrcItem ← lift (match (if negb (splitedAmount =? 0) then m_pClonedItem src else m_pItem src) with
                   | Some p => Ok p | None => BadPtr end);
  '(res, vec) ← lift (CanStore w g dest pSrcItem swap);
  let dest := with_vec dest vec in
  if negb (is_ok res) then
    _ ← when sendError (send player (EquipError res)); mret (false, src, dest)
  else
    '(res, vec) ← lift (match m_pItem dest with
                        | Some q => CanStore w g src q true
                        | None => Ok (EQUIP_ERR_OK, m_vec src)
                        end);
    let src := with_vec src vec in
    if negb (is_ok res) then _ ← send player (EquipError res); mret (false, src, dest)
    else
      _ ← BeginTransaction;
      it ← item_at pSrcItem;
      _ ← LogBankMove this player dest src (GetCount it);
      _ ← match m_pItem dest with
          | Some q => it ← item_at q; LogBankMove this player src dest (GetCount it)
          | None => skip
          end;
      src' ← RemoveItem this player src dest splitedAmount;
      dest' ← (if swap then RemoveItem this player dest src 0 else mret dest);
      _ ← StoreItem this (m_container dest) pSrcItem (m_vec dest);
      _ ← match m_pItem dest with
          | Some q => StoreItem this (m_container src) q (m_vec src)
          | None => skip
          end;
      _ ← CommitTransaction;
      mret (true, src', dest').

Definition SendBankContentUpdate (this : Z) (src dest : MoveItemData) : GW unit :=
  if m_container dest =? m_container src then
    SendBankList this None (m_container src) false
      (merge_sort Z.le (elements (list_to_set (m_slotId src :: (m_vec dest).*1) : gset Z)))
  else
    _ ← SendBankList this None (m_container dest) false
          (merge_sort Z.le (elements (list_to_set (m_vec dest).*1 : gset Z)));
    SendBankList this None (m_container src) false [m_slotId src].

(** [_MoveItems] *)
Definition MoveItems (this player : Z) (src dest : MoveItemData) (splitedAmount : Z) : GW unit :=
  src ← InitItem this src;
  match m_pItem src with
  | None => skip
  | Some p =>
    amount ← CheckItem src splitedAmount;
    match amount with
    | None => skip
    | Some splitedAmount =>
      g ← guild_at this;
      if negb (HasStoreRights g player dest src) then skip
      else
      withdraw ← lift (HasWithdrawRights g player src dest);
      if negb withdraw then skip
      else if negb (splitedAmount =? 0) then
        c ← CloneItem p splitedAmount;
        match c with
        | None => send player (EquipError EQUIP_ERR_ITEM_NOT_FOUND)
        | Some _ =>
          '(_, src, dest) ← DoItemsMove this player (with_clone src c) dest true splitedAmount;
          SendBankContentUpdate this src dest
        end
      else
        '(merged, src, dest) ← DoItemsMove this player src dest false 0;
        if merged : bool then SendBankContentUpdate this src dest
        else
          dest ← InitItem this dest;
          match m_pItem dest with
          | None => skip
          | Some _ =>
            g ← guild_at this;
            if negb (HasStoreRights g player src dest) then skip
            else
            withdraw ← lift (HasWithdrawRights g player dest src);
            if negb withdraw then skip
            else
              '(_, src, dest) ← DoItemsMove this player src dest true 0;
              SendBankContentUpdate this src dest
          end
    end
  end.

Definition SwapItems (this player tab slot destTab destSlot splitedAmount : Z) : GW unit :=
  g ← guild_at this;
  if (GetPurchasedTabsSize g <=? tab) || (GUILD_BANK_MAX_SLOTS <=? slot)
     || (GetPurchasedTabsSize g <=? destTab) || (GUILD_BANK_MAX_SLOTS <=? destSlot) then skip
  else if (tab =? destTab) && (slot =? destSlot) then skip
  else MoveItems this player (new_move tab slot) (new_move destTab destSlot) splitedAmount.
End bank.

End GuildBank.
