(* ===== verification/GuildHandlers.v ===== *)
(** * Requests about guilds ([src/server/game/Handlers/GuildHandler.cpp],
    [Guilds/GuildMgr.cpp], [scripts/Commands/cs_guild.cpp], log-in and log-out)

    What a client, a game master or the server itself asks of guilds, and the histories
    of such requests. *)
From S2P Require Import Prelude StateMonad GuildData GuildLog GuildParts Guilds GuildBank.

Module GuildHandlers.
Export GuildBank.

Section handlers.
Context `{GE : GuildEnv}.

(** GetPlayer()->GetGuild() *)
Definition GetGuild (session : Z) : GW (option Z) :=
  p ← player_at session; w ← get;
  mret (if GetGuildId p =? 0 then None
        else if bool_decide (is_Some (guilds w !! GetGuildId p)) then Some (GetGuildId p) else None).
Definition with_guild (session : Z) (k : Z → GW unit) : GW unit :=
  o ← GetGuild session; match o with Some this => k this | None => skip end.
Definition with_name (name : string) (k : string → GW unit) : GW unit :=
  match normalizePlayerName name with Some name => k name | None => skip end.

Definition HandleGuildInviteOpcode (s : Z) (invitedName : string) : GW unit :=
  with_name invitedName (λ name, with_guild s (λ this, HandleInviteMember this s name)).
Definition HandleGuildRemoveOpcode (s : Z) (playerName : string) : GW unit :=
  with_name playerName (λ name, with_guild s (λ this, HandleRemoveMember this s name)).
Definition HandleGuildAcceptOpcode (s : Z) : GW unit :=
  p ← player_at s; w ← get;
  if negb (GetGuildId p =? 0) then skip
  else match guilds w !! m_GuildIdInvited p with
       | Some _ => HandleAcceptMember (m_GuildIdInvited p) s
       | None => skip
       end.
Definition HandleGuildDeclineOpcode (s : Z) : GW unit :=
  upd_player s (λ p, set_GetGuildId (set_m_GuildIdInvited p 0) 0).
Definition HandleGuildPromoteOpcode (s : Z) (playerName : string) : GW unit :=
  with_name playerName (λ name, with_guild s (λ this, HandleUpdateMemberRank this s name false)).
Definition HandleGuildDemoteOpcode (s : Z) (playerName : string) : GW unit :=
  with_name playerName (λ name, with_guild s (λ this, HandleUpdateMemberRank this s name true)).
Definition HandleGuildLeaveOpcode (s : Z) : GW unit :=
  p ← player_at s; w ← get;
  match guilds w !! GetGuildId p with Some _ => HandleLeaveMember (GetGuildId p) s | None => skip end.
Definition HandleGuildDisbandOpcode (s : Z) : GW unit := with_guild s (λ this, HandleDisband this s).
Definition HandleGuildLeaderOpcode (s : Z) (name : string) : GW unit :=
  with_name name (λ name, with_guild s (λ this, HandleSetLeader this s name)).
Definition HandleGuildMOTDOpcode (s : Z) (motd : string) : GW unit :=
  with_guild s (λ this, HandleSetMOTD this s motd).
Definition HandleGuildSetPublicNoteOpcode (s : Z) (playerName note : string) : GW unit :=
  with_name playerName (λ name, with_guild s (λ this, HandleSetMemberNote this s name note false)).
Definition HandleGuildSetOfficerNoteOpcode (s : Z) (playerName note : string) : GW unit :=
  with_name playerName (λ name, with_guild s (λ this, HandleSetMemberNote this s name note true)).
(** The six pairs of rights and slots of the packet. *)
Definition packet_rights (bank : Z → Z * Z) : list GuildBankRightsAndSlots :=
  map (λ tab, mkRights tab (u8 (bank tab).1) (u32 (bank tab).2)) (seqZ 0 GUILD_BANK_MAX_TABS).
Definition HandleGuildRankOpcode (s rankId rights : Z) (rankName : string) (money : Z) (bank : Z → Z * Z) : GW unit :=
  with_guild s (λ this, HandleSetRankInfo this s (u8 rankId) rankName rights money (packet_rights bank)).
Definition HandleGuildAddRankOpcode (s : Z) (rankName : string) : GW unit :=
  with_guild s (λ this, HandleAddNewRank this s rankName).
Definition HandleGuildDelRankOpcode (s : Z) : GW unit := with_guild s (λ this, HandleRemoveLowestRank this s).
Definition HandleGuildChangeInfoTextOpcode (s : Z) (info : string) : GW unit :=
  with_guild s (λ this, HandleSetInfo this s info).
Definition HandleSaveGuildEmblemOpcode (s vendorGuid : Z) (emblemInfo : EmblemInfo) : GW unit :=
  if CanUseTabardDesigner vendorGuid then
    o ← GetGuild s;
    match o with
    | Some this => HandleSetEmblem this s emblemInfo
    | None => SendSaveEmblemResult s ERR_GUILDEMBLEM_NOGUILD
    end
  else SendSaveEmblemResult s ERR_GUILDEMBLEM_INVALIDVENDOR.
Definition HandleGuildInfoOpcode (s : Z) : GW unit := with_guild s (λ this, SendInfo this s).
Definition HandleGuildRosterOpcode (s : Z) : GW unit :=
  o ← GetGuild s;
  match o with
  | Some this => HandleRoster this s
  | None => SendCommandResult s GUILD_COMMAND_ROSTER ERR_GUILD_PLAYER_NOT_IN_GUILD ""
  end.
Definition HandleGuildEventLogQueryOpcode (s : Z) : GW unit := with_guild s (λ this, SendEventLog this s).
Definition HandleGuildBankMoneyWithdrawn (s : Z) : GW unit := with_guild s (λ this, SendMoneyInfo this s).
Definition HandleGuildPermissions (s : Z) : GW unit := with_guild s (λ this, SendPermissions this s).

(** ** The bank *)

(** The rows of CHAR_SEL_GUILD_BANK_ITEMS: the slots of the guild, with their items. *)
Definition bank_rows (t : Tables) (id : Z) : list (Z * Z * Item) :=
  omap (λ x : (Z * Z * Z) * Z,
    if x.1.1.1 =? id then (λ it, (x.1.1.2, x.1.2, it)) <$> item_instance t !! x.2 else None)
    (map_to_list (guild_bank_item t)).
Definition SendBankTabsInfo (this session : Z) (sendAllSlots : bool) : GW unit :=
  g ← guild_at this; w ← get;
  match m_bankState g with
  | NOT_LOADED =>
    _ ← upd_guild this (λ g, set_m_playerToSendBank (set_m_bankState g LOADING)
                               (<[session := sendAllSlots]> (m_playerToSendBank g)));
    modify (λ w, set_bank_queries w (bank_queries w ++ [(this, bank_rows (tables w) this)]))
  | LOADING => upd_guild this (λ g, set_m_playerToSendBank g (<[session := sendAllSlots]> (m_playerToSendBank g)))
  | LOADED => SendBankList this (Some session) 0 sendAllSlots []
  end.
(** [BankTab::LoadItemFromDB], the item as it was saved. *)
Definition LoadBankItemFromDB (this : Z) (row : Z * Z * Item) : GW unit :=
  let '(tab, slot, it) := row in
  g ← guild_at this;
  if GetPurchasedTabsSize g <=? tab then skip
  else if GUILD_BANK_MAX_SLOTS <=? slot then skip
  else
    t ← lift (deref (GetBankTab g tab) Ok);
    w ← get;
    let q := next_ptr w in
    _ ← modify (λ w, set_next_ptr w (q + 1));
    _ ← store_item q it;
    upd_guild this (λ g, set_m_bankTabs g (updZ (m_bankTabs g) tab (set_m_items t (<[slot := q]> (m_items t))))).
(** The next query is answered: [LoadBankItemsFromDB], and the list for those who wait. *)
Definition BankItemsLoaded : GW unit :=
  w ← get;
  match bank_queries w with
  | [] => skip
  | (this, rows) :: qs =>
    _ ← modify (λ w, set_bank_queries w qs);
    match guilds w !! this with
    | None => skip
    | Some _ =>
      _ ← for_each rows (LoadBankItemFromDB this);
      _ ← upd_guild this (λ g, set_m_bankState g LOADED);
      g ← guild_at this;
      for_each (hashed (m_playerToSendBank g)) (λ x,
        w ← get; when (in_world w x.1) (SendBankTabsInfo this x.1 x.2))
    end
  end.
Definition HandleGuildBankerActivate (s : Z) (sendAllSlots : bool) : GW unit :=
  o ← GetGuild s;
  match o with
  | Some this => SendBankTabsInfo this s sendAllSlots
  | None => SendCommandResult s GUILD_COMMAND_VIEW_TAB ERR_GUILD_PLAYER_NOT_IN_GUILD ""
  end.
(** [SendBankTabData], [_SendBankContent] *)
Definition SendBankTabData (this session tab : Z) : GW unit :=
  g ← guild_at this;
  if bool_decide (m_bankState g = LOADED) && (tab <? GetPurchasedTabsSize g)
     && MemberHasTabRights g session tab GUILD_BANK_RIGHT_VIEW_TAB
  then SendBankList this (Some session) tab true [] else skip.
Definition HandleGuildBankQueryTab (s go tab : Z) : GW unit :=
  if CanUseGuildBank go then with_guild s (λ this, SendBankTabData this s tab) else skip.
Definition HandleGuildBankDepositMoney (s go money : Z) : GW unit :=
  if CanUseGuildBank go then
    p ← player_at s;
    if negb (money =? 0) && HasEnoughMoney p money
    then with_guild s (λ this, HandleMemberDepositMoney this s money) else skip
  else skip.
Definition HandleGuildBankWithdrawMoney (s go money : Z) : GW unit :=
  if negb (money =? 0) && CanUseGuildBank go
  then with_guild s (λ this, _ ← HandleMemberWithdrawMoney this s money false; skip) else skip.
(** Between two slots of the bank ([bankToBank]). *)
Definition HandleGuildBankSwapItems (s go tab slot destTab destSlot splitedAmount : Z) : GW unit :=
  if CanUseGuildBank go
  then with_guild s (λ this, SwapItems this s tab slot destTab destSlot splitedAmount) else skip.
Definition HandleGuildBankBuyTab (s go tab : Z) : GW unit :=
  if CanUseGuildBank go then with_guild s (λ this, HandleBuyBankTab this s tab) else skip.
Definition HandleGuildBankUpdateTab (s go tab : Z) (name icon : string) : GW unit :=
  if negb (bool_decide (name = ""%string)) && negb (bool_decide (icon = ""%string)) && CanUseGuildBank go
  then with_guild s (λ this, HandleSetBankTabInfo this s tab name icon) else skip.
Definition HandleGuildBankLogQuery (s tab : Z) : GW unit := with_guild s (λ this, SendBankLog this s tab).
Definition HandleQueryGuildBankTabText (s tab : Z) : GW unit := with_guild s (λ this, SendBankTabText this s tab).
Definition HandleSetGuildBankTabText (s tab : Z) (text : string) : GW unit :=
  with_guild s (λ this, SetBankTabText this tab text).
(** The guild pays for a repair (Player::DurabilityRepair); the amount is uint32. *)
Definition GuildRepair (s costs : Z) : GW unit :=
  p ← player_at s; w ← get;
  if GetGuildId p =? 0 then skip
  else match guilds w !! GetGuildId p with
       | Some _ => _ ← HandleMemberWithdrawMoney (GetGuildId p) s costs true; skip
       | None => skip
       end.

(** ** Petitions, game masters, the server *)

(** Player::... HandleTurnInPetitionOpcode, from the checks of a guild charter on. *)
Definition TurnInGuildPetition (s : Z) (name : string) (signatures : list Z) : GW unit :=
  p ← player_at s; w ← get;
  if negb (GetGuildId p =? 0) then skip
  else match GetGuildByName w name with
  | Some _ => SendCommandResult s GUILD_COMMAND_CREATE ERR_GUILD_NAME_EXISTS_S name
  | None =>
    _ ← BeginTransaction;
    let id := NextGuildId w in
    ok ← CreateGuild s name;
    if negb ok then skip
    else
      _ ← SendCommandResult s GUILD_COMMAND_CREATE ERR_GUILD_COMMAND_SUCCESS name;
      _ ← for_each signatures (λ guid, _ ← AddMember id guid GUILD_RANK_NONE; skip);
      CommitTransaction
  end.

(** The guild of a character, connected or not. *)
Definition guild_of (w : World) (guid : Z) : Z :=
  match players w !! guid with Some p => GetGuildId p | None => CacheGetGuildId w guid end.
Definition HandleGuildDeleteCommand (name : string) : GW unit :=
  w ← get;
  match GetGuildByName w name with
  | Some this => _ ← BeginTransaction; _ ← Disband this; CommitTransaction
  | None => skip
  end.
Definition HandleGuildInviteCommand (target : Z) (name : string) : GW unit :=
  w ← get;
  match GetGuildByName w name with
  | Some this => _ ← BeginTransaction; _ ← AddMember this target GUILD_RANK_NONE; CommitTransaction
  | None => skip
  end.
Definition HandleGuildUninviteCommand (target : Z) : GW unit :=
  w ← get;
  if guild_of w target =? 0 then skip
  else match guilds w !! guild_of w target with
  | Some _ => _ ← BeginTransaction; _ ← DeleteMember (guild_of w target) target; CommitTransaction
  | None => skip
  end.
Definition HandleGuildRankCommand (target newRank : Z) : GW unit :=
  w ← get;
  if guild_of w target =? 0 then skip
  else match guilds w !! guild_of w target with
  | Some _ => _ ← BeginTransaction; _ ← ChangeMemberRank (guild_of w target) target (u8 newRank); CommitTransaction
  | None => skip
  end.
(** The guild of the old name stays locked while the new one is looked up: finding the
    same guild locks its mutex again, which is undefined. *)
Definition HandleGuildRenameCommand (oldName newName : string) : GW unit :=
  w ← get;
  match GetGuildByName w oldName with
  | None => skip
  | Some this =>
    match GetGuildByName w newName with
    | Some other => if other =? this then lift Undefined else skip
    | None =>
      _ ← BeginTransaction;
      ok ← SetName this newName;
      when ok CommitTransaction
    end
  end.

(** GuildMgr::ResetTimes *)
Definition ResetAllTimes : GW unit :=
  w ← get;
  _ ← for_each (hashed (guilds w)) (λ x, ResetTimes x.1);
  Execute CHAR_DEL_GUILD_MEMBER_WITHDRAW.

(** The guild part of a log-in (CharacterHandler.cpp) and the money; both are read from the
    database. *)
Definition PlayerLogin (s : Z) (p : Player) : GW unit :=
  w ← get;
  if connected w s || negb (CacheExists w s) then skip
  else
    let '(id, rank) := match guild_member (tables w) !! s with
                       | Some r => (row_guildid r, row_rank r)
                       | None => (0, 0)
                       end in
    let money := u32 (default 0 (characters_money (tables w) !! s)) `min` MAX_MONEY_AMOUNT in
    let p := mkPlayer money id rank 0 (IsInWorld p) (GetTeam p) (GetOTeam p) (ignores p) (IsSecretQueuingActive p) (locale p) in
    _ ← modify (λ w, set_players w (<[s := p]> (players w)));
    if id =? 0 then skip
    else match guilds w !! id with
         | Some _ => SendLoginInfo id s
         | None => upd_player s (λ p, set_GetGuildId p 0)
         end.
(** The guild hears of it, then the player is saved. *)
Definition LogoutPlayer (s : Z) : GW unit :=
  p ← player_at s; w ← get;
  _ ← match guilds w !! GetGuildId p with Some _ => HandleMemberLogout (GetGuildId p) s | None => skip end;
  _ ← Execute (CHAR_UPD_CHAR_MONEY (GetMoney p) s);
  modify (λ w, set_players w (delete s (players w))).

(** ** Histories *)

Inductive request :=
| Invite (s : Z) (name : string)
| Remove (s : Z) (name : string)
| Accept (s : Z)
| Decline (s : Z)
| Promote (s : Z) (name : string)
| Demote (s : Z) (name : string)
| Leave (s : Z)
| DisbandGuild (s : Z)
| SetLeader (s : Z) (name : string)
| SetMOTD (s : Z) (motd : string)
| SetNote (s : Z) (name note : string) (officer : bool)
| SetRank (s rankId rights : Z) (name : string) (money : Z) (bank : Z → Z * Z)
| AddRank (s : Z) (name : string)
| DelRank (s : Z)
| SetGuildInfo (s : Z) (info : string)
| SaveEmblem (s vendor : Z) (e : EmblemInfo)
| Deposit (s go money : Z)
| Withdraw (s go money : Z)
| Repair (s costs : Z)
| BuyTab (s go tab : Z)
| UpdateTab (s go tab : Z) (name icon : string)
| TabText (s tab : Z) (text : string)
| Swap (s go tab slot destTab destSlot amount : Z)
| OpenBank (s : Z) (all : bool)
| BankLoaded
| TurnIn (s : Z) (name : string) (signatures : list Z)
| GmDelete (name : string)
| GmInvite (target : Z) (name : string)
| GmUninvite (target : Z)
| GmRank (target newRank : Z)
| GmRename (oldName newName : string)
| Login (s : Z) (p : Player)
| Logout (s : Z)
| MapChange (s : Z) (inWorld : bool)
| RemovalJob (id : Z)
| ResetDay
| Tick (t : Z).

(** What arrives in a packet has the width it is read with. *)
Definition ReadPacket (e : EmblemInfo) : EmblemInfo :=
  mkEmblem (u32 (m_style e)) (u32 (m_color e)) (u32 (m_borderStyle e)) (u32 (m_borderColor e)) (u32 (m_backgroundColor e)).
Definition run (r : request) : GW unit :=
  match r with
  | Invite s name => HandleGuildInviteOpcode s name
  | Remove s name => HandleGuildRemoveOpcode s name
  | Accept s => HandleGuildAcceptOpcode s
  | Decline s => HandleGuildDeclineOpcode s
  | Promote s name => HandleGuildPromoteOpcode s name
  | Demote s name => HandleGuildDemoteOpcode s name
  | Leave s => HandleGuildLeaveOpcode s
  | DisbandGuild s => HandleGuildDisbandOpcode s
  | SetLeader s name => HandleGuildLeaderOpcode s name
  | SetMOTD s motd => HandleGuildMOTDOpcode s motd
  | SetNote s name note officer =>
    if officer then HandleGuildSetOfficerNoteOpcode s name note else HandleGuildSetPublicNoteOpcode s name note
  | SetRank s rankId rights name money bank => HandleGuildRankOpcode s (u32 rankId) (u32 rights) name (u32 money) bank
  | AddRank s name => HandleGuildAddRankOpcode s name
  | DelRank s => HandleGuildDelRankOpcode s
  | SetGuildInfo s info => HandleGuildChangeInfoTextOpcode s info
  | SaveEmblem s vendor e => HandleSaveGuildEmblemOpcode s vendor (ReadPacket e)
  | Deposit s go money => HandleGuildBankDepositMoney s go (u32 money)
  | Withdraw s go money => HandleGuildBankWithdrawMoney s go (u32 money)
  | Repair s costs => GuildRepair s (u32 costs)
  | BuyTab s go tab => HandleGuildBankBuyTab s go (u8 tab)
  | UpdateTab s go tab name icon => HandleGuildBankUpdateTab s go (u8 tab) name icon
  | TabText s tab text => HandleSetGuildBankTabText s (u8 tab) text
  | Swap s go tab slot destTab destSlot amount =>
    HandleGuildBankSwapItems s go (u8 tab) (u8 slot) (u8 destTab) (u8 destSlot) (u32 amount)
  | OpenBank s all => HandleGuildBankerActivate s all
  | BankLoaded => BankItemsLoaded
  | TurnIn s name signatures => TurnInGuildPetition s name signatures
  | GmDelete name => HandleGuildDeleteCommand name
  | GmInvite target name => HandleGuildInviteCommand target name
  | GmUninvite target => HandleGuildUninviteCommand target
  | GmRank target newRank => HandleGuildRankCommand target newRank
  | GmRename oldName newName => HandleGuildRenameCommand oldName newName
  | Login s p => PlayerLogin s p
  | Logout s => LogoutPlayer s
  | MapChange s b => upd_player s (λ p, set_IsInWorld p b)
  | RemovalJob id => w ← get; when (bool_decide (id ∈ removals w)) (RunRemoval id)
  | ResetDay => ResetAllTimes
  | Tick t => modify (λ w, set_now w t)
  end.
Definition run_all (rs : list request) : GW unit := for_each rs run.

End handlers.
End GuildHandlers.
