(* ===== verification/GuildRun.v ===== *)
(** * Running the handlers of guilds

    What the primitive steps answer, and the steps that only talk: packets, log entries
    and the number of accounts. *)
From S2P Require Import Prelude StateMonad GuildData GuildLog GuildParts Guilds GuildBank GuildHandlers.

Module GuildRun.
Export GuildHandlers.

Section run.
Lemma nthZ_Some {A} (l : list A) i x : nthZ l i = Some x ↔ 0 ≤ i ∧ l !! Z.to_nat i = Some x.
Proof. unfold nthZ. case_bool; b2p; naive_solver lia. Qed.

Lemma guild_at_Ok a w g w' : guild_at a w = Ok (g, w') → guilds w !! a = Some g ∧ w' = w.
Proof.
  unfold guild_at. intros (w1 & m & E & H)%bind_Ok. injection E as <- <-.
  apply lift_Ok in H as [E ->]. destruct (guilds w !! a); [|done]. by injection E as ->.
Qed.
Lemma guild_player_at_Ok a w p w' : player_at a w = Ok (p, w') → players w !! a = Some p ∧ w' = w.
Proof.
  unfold player_at. intros (w1 & m & E & H)%bind_Ok. injection E as <- <-.
  apply lift_Ok in H as [E ->]. destruct (players w !! a); [|done]. by injection E as ->.
Qed.
Lemma item_at_Ok a w p w' : item_at a w = Ok (p, w') → mem w !! a = Some p ∧ w' = w.
Proof.
  unfold item_at. intros (w1 & m & E & H)%bind_Ok. injection E as <- <-.
  apply lift_Ok in H as [E ->]. destruct (mem w !! a); [|done]. by injection E as ->.
Qed.
Lemma upd_guild_Ok a f w u w' :
  upd_guild a f w = Ok (u, w') → ∃ g, guilds w !! a = Some g ∧ w' = set_guilds w (<[a := f g]> (guilds w)).
Proof. unfold upd_guild. intros (g & m & [Hg ->]%guild_at_Ok & H)%bind_Ok. injection H as _ <-. eauto. Qed.
Lemma guild_upd_player_Ok a f w u w' :
  upd_player a f w = Ok (u, w') → ∃ p, players w !! a = Some p ∧ w' = set_players w (<[a := f p]> (players w)).
Proof. unfold upd_player. intros (p & m & [Hg ->]%guild_player_at_Ok & H)%bind_Ok. injection H as _ <-. eauto. Qed.
Lemma deref_Ok {A B} (o : option A) (k : A → outcome B) b : deref o k = Ok b → ∃ a, o = Some a ∧ k a = Ok b.
Proof. destruct o; [eauto|done]. Qed.
Lemma guild_at_run a w g : guilds w !! a = Some g → guild_at a w = Ok (g, w).
Proof. intros E. unfold guild_at, mbind, ST_bind, get, lift. cbn. by rewrite E. Qed.
Lemma player_at_run a w p : players w !! a = Some p → player_at a w = Ok (p, w).
Proof. intros E. unfold player_at, mbind, ST_bind, get, lift. cbn. by rewrite E. Qed.
End run.

(** [run_inv] for these. *)
Ltac grun :=
  repeat (run_inv;
  match goal with
  | H : guild_at _ _ = Ok _ |- _ => apply guild_at_Ok in H as [? ->]
  | H : player_at _ _ = Ok _ |- _ => apply guild_player_at_Ok in H as [? ->]
  | H : item_at _ _ = Ok _ |- _ => apply item_at_Ok in H as [? ->]
  | H : upd_guild _ _ _ = Ok _ |- _ => apply upd_guild_Ok in H as (? & ? & ->)
  | H : upd_player _ _ _ = Ok _ |- _ => apply guild_upd_player_Ok in H as (? & ? & ->)
  | H : deref _ Ok = Ok _ |- _ => apply deref_Ok in H as (? & ? & [= <-])
  end); run_inv.

(** ** Steps that only talk *)

(** A log for each tab and one for money. *)
Definition bank_logs_ok (l : list (LogHolder BankEventLogEntry)) : Prop := length l = 7%nat ∧ Forall log_ok l.

(** Two states of a guild that differ in logs, waiting players and accounts. *)
Record same_guild (g g' : Guild) : Prop := mkSame {
  sg_name : g_name g' = g_name g;
  sg_leader : m_leaderGuid g' = m_leaderGuid g;
  sg_motd : m_motd g' = m_motd g;
  sg_info : m_info g' = m_info g;
  sg_date : m_createdDate g' = m_createdDate g;
  sg_emblem : m_emblemInfo g' = m_emblemInfo g;
  sg_money : m_bankMoney g' = m_bankMoney g;
  sg_ranks : m_ranks g' = m_ranks g;
  sg_members : m_members g' = m_members g;
  sg_tabs : m_bankTabs g' = m_bankTabs g;
  sg_events : log_ok (m_eventLog g) → log_ok (m_eventLog g');
  sg_bankEvents : bank_logs_ok (m_bankEventLog g) → bank_logs_ok (m_bankEventLog g')
}.
#[export] Instance same_guild_pre : PreOrder same_guild.
Proof. split; [by intros ?|]. intros ??? [] []. split; try congruence; auto. Qed.

(** Statements that only touch the logs and the counters of the day. *)
Definition log_stmt (s : Stmt) : Prop :=
  match s with
  | CHAR_INS_GUILD_EVENTLOG _ _ | CHAR_DEL_GUILD_EVENTLOG _ _ | CHAR_INS_GUILD_BANK_EVENTLOG _ _
  | CHAR_DEL_GUILD_BANK_EVENTLOG _ _ _ => True
  | _ => False
  end.

Definition rel_map (R : Guild → Guild → Prop) (m m' : gmap Z Guild) : Prop :=
  ∀ a, match m !! a, m' !! a with
       | Some g, Some g' => R g g'
       | None, None => True
       | _, _ => False
       end.
#[export] Instance rel_map_pre R `{!PreOrder R} : PreOrder (rel_map R).
Proof.
  split.
  - intros m a. destruct (m !! a); [reflexivity|done].
  - intros m1 m2 m3 H12 H23 a. specialize (H12 a). specialize (H23 a).
    destruct (m1 !! a), (m2 !! a), (m3 !! a); try done. by etransitivity.
Qed.
Lemma rel_map_insert R `{!PreOrder R} m a g g' : m !! a = Some g → R g g' → rel_map R m (<[a := g']> m).
Proof.
  intros E H b. destruct (decide (a = b)) as [<-|Hn].
  - by rewrite E, lookup_insert_eq.
  - rewrite lookup_insert_ne by done. destruct (m !! b); [reflexivity|done].
Qed.

Record quiet (w w' : World) : Prop := mkQuiet {
  qu_guilds : rel_map same_guild (guilds w) (guilds w');
  qu_players : players w' = players w;
  qu_cache : cache w' = cache w;
  qu_mem : mem w' = mem w;
  qu_next : NextGuildId w' = NextGuildId w;
  qu_rem : removals w' = removals w;
  qu_tables : tables w' = tables w;
  qu_trans : ∃ l, trans w' = trans w ++ l ∧ Forall log_stmt l
}.
#[export] Instance quiet_pre : PreOrder quiet.
Proof.
  split.
  - intros w. split; try done. exists []. by rewrite app_nil_r.
  - intros w1 w2 w3 [H1 H2 H3 H4 H5 H6 H7 (l1 & E1 & F1)] [K1 K2 K3 K4 K5 K6 K7 (l2 & E2 & F2)].
    split; try congruence; [by etransitivity|]. exists (l1 ++ l2).
    rewrite E2, E1, app_assoc. split; [done|by apply Forall_app].
Qed.

Section quiet.
Context `{GE : GuildEnv}.

Lemma quiet_guild_at a : keeps quiet (guild_at a).
Proof. intros w g w' H. grun. reflexivity. Qed.
Lemma guild_quiet_player_at a : keeps quiet (player_at a).
Proof. intros w g w' H. grun. reflexivity. Qed.
Lemma quiet_item_at a : keeps quiet (item_at a).
Proof. intros w g w' H. grun. reflexivity. Qed.
Lemma quiet_upd a f : (∀ g, same_guild g (f g)) → keeps quiet (upd_guild a f).
Proof.
  intros Hf w u w' H. grun. split; cbn; try done; [|exists []; by rewrite app_nil_r].
  by eapply rel_map_insert; [apply _| |].
Qed.
Lemma guild_quiet_send a p : keeps quiet (send a p).
Proof. intros w u w' H. unfold send in H. grun. split; cbn; try done. exists []. by rewrite app_nil_r. Qed.
Lemma quiet_Append s : log_stmt s → keeps quiet (Append s).
Proof.
  intros Hs w u w' H. unfold Append in H. grun. split; cbn; try done. exists [s].
  split; [done|by repeat constructor].
Qed.
Lemma quiet_Appends l : Forall log_stmt l → keeps quiet (Appends l).
Proof.
  intros H. apply keeps_for_each; [apply _|]. intros s Hs. apply quiet_Append.
  rewrite Forall_forall in H. auto.
Qed.
End quiet.

Create HintDb gquiet.
#[export] Hint Resolve quiet_guild_at guild_quiet_player_at quiet_item_at guild_quiet_send : gquiet.

Ltac gquiet_leaf :=
  idtac; match goal with
  | |- keeps quiet (upd_guild _ _) => apply quiet_upd; intros ?; solve [repeat case_match; by split]
  | |- keeps quiet (Appends _) => apply quiet_Appends; solve [repeat constructor]
  | _ => solve [auto with gquiet]
  end.
Ltac gquiet_solve := repeat keeps_step gquiet_leaf.

Section talk.
Context `{GE : GuildEnv}.

Lemma quiet_BroadcastPacket a p : keeps quiet (BroadcastPacket a p).
Proof. unfold BroadcastPacket. gquiet_solve. Qed.
Lemma quiet_BroadcastEvent a e x l : keeps quiet (BroadcastEvent a e x l).
Proof. apply quiet_BroadcastPacket. Qed.
Lemma quiet_SendCommandResult a t e x : keeps quiet (SendCommandResult a t e x).
Proof. apply guild_quiet_send. Qed.
Lemma quiet_SendSaveEmblemResult a e : keeps quiet (SendSaveEmblemResult a e).
Proof. apply guild_quiet_send. Qed.
Lemma quiet_HandleRoster a s : keeps quiet (HandleRoster a s).
Proof. unfold HandleRoster. gquiet_solve. Qed.
Lemma quiet_HandleQuery a s : keeps quiet (HandleQuery a s).
Proof. unfold HandleQuery. gquiet_solve. Qed.
Lemma quiet_SendBankList a s t all l : keeps quiet (SendBankList a s t all l).
Proof. unfold SendBankList. gquiet_solve. Qed.
Lemma quiet_SendPermissions a s : keeps quiet (SendPermissions a s).
Proof. unfold SendPermissions. gquiet_solve. Qed.
Ltac destruct_log := match goal with p : _ * LogHolder _ |- _ => destruct p end.
Lemma quiet_set_guild a g g' w : guilds w !! a = Some g → same_guild g g' → quiet w (set_guilds w (<[a := g']> (guilds w))).
Proof.
  intros Hg Hs. split; cbn; try done; [|exists []; by rewrite app_nil_r].
  by eapply rel_map_insert; [apply _| |].
Qed.
Lemma quiet_LogEvent a t x y z : keeps quiet (LogEvent a t x y z).
Proof.
  intros w u w' H. unfold LogEvent in H. grun. destruct_log. grun.
  etransitivity; [eapply quiet_set_guild; [done|]|eapply quiet_Appends; [|done]; by repeat constructor].
  split; try done. intros Hl. cbn. simplify_eq. by eapply Log_ok.
Qed.
Lemma quiet_LogBankEvent a t x y z u v : keeps quiet (LogBankEvent a t x y z u v).
Proof.
  intros w r w' H. unfold LogBankEvent in H.
  destruct (_ <? x); [by grun|]. destruct (is_move t && _); [by grun|]. grun. destruct_log. grun.
  etransitivity; [eapply quiet_set_guild; [done|]|eapply quiet_Appends; [|done]; by repeat constructor].
  split; try done. intros [Hn Hl]. cbn. simplify_eq. unfold updZ. split; [by rewrite length_insert|].
  apply Forall_insert; [done|].
  eapply Log_ok; [|done]. rewrite Forall_forall in Hl. apply Hl. 
  match goal with E : nthZ _ _ = Some _ |- _ => apply nthZ_Some in E as [_ E] end.
  by eapply list_elem_of_lookup_2.
Qed.
Lemma quiet_LogBankMove a p d f c : keeps quiet (LogBankMove a p d f c).
Proof. unfold LogBankMove. repeat keeps_step gquiet_leaf. apply quiet_LogBankEvent. Qed.
Lemma quiet_UpdateAccountsNumber a : keeps quiet (UpdateAccountsNumber a).
Proof. unfold UpdateAccountsNumber. gquiet_solve. Qed.
Lemma quiet_BroadcastMoney a : keeps quiet (BroadcastMoney a).
Proof. unfold BroadcastMoney. repeat keeps_step gquiet_leaf. apply quiet_BroadcastEvent. Qed.
Lemma quiet_CreateLogHolders a : keeps quiet (CreateLogHolders a).
Proof.
  apply quiet_upd. intros g. split; try done; intros _; [unfold log_ok; cbn; lia|].
  split; [done|]. apply Forall_replicate. unfold log_ok. cbn. lia.
Qed.
Lemma quiet_GetGuild s : keeps quiet (GetGuild s).
Proof. unfold GetGuild. gquiet_solve. Qed.
Lemma quiet_InitItem a d : keeps quiet (InitItem a d).
Proof. unfold InitItem. gquiet_solve. Qed.
Lemma quiet_CheckItem d n : keeps quiet (CheckItem d n).
Proof. unfold CheckItem. gquiet_solve. Qed.
Lemma quiet_SendBankContentUpdate a s d : keeps quiet (SendBankContentUpdate a s d).
Proof. unfold SendBankContentUpdate. repeat keeps_step gquiet_leaf; apply quiet_SendBankList. Qed.
End talk.
#[export] Hint Resolve quiet_BroadcastPacket quiet_BroadcastEvent quiet_SendCommandResult quiet_SendSaveEmblemResult
  quiet_HandleRoster quiet_HandleQuery quiet_SendBankList quiet_SendPermissions quiet_LogEvent quiet_LogBankEvent
  quiet_LogBankMove quiet_UpdateAccountsNumber quiet_BroadcastMoney quiet_CreateLogHolders quiet_GetGuild
  quiet_InitItem quiet_CheckItem quiet_SendBankContentUpdate : gquiet.

End GuildRun.
