(* ===== verification/GuildOrder.v ===== *)
(** * What holds of every single guild

    [parts_ok]: ranks are numbered from 0, at least five and at most ten, the master's rank has every
    right, no rank has rights on a tab that was not bought, there are at most six tabs,
    members are found under their guid, logs are bounded. Every request keeps it for all
    guilds. *)
From S2P Require Import Prelude StateMonad GuildData GuildLog GuildParts Guilds GuildBank GuildHandlers GuildRun.

Module GuildOrder.
Export GuildRun.

Lemma updZ_length {A} (l : list A) i x : length (updZ l i x) = length l.
Proof. apply length_insert. Qed.

(** ** Ranks *)

(** The rights of a rank on the tabs, [n] of them bought. *)
Record tab_ok (master : Prop) (n t : nat) (x : GuildBankRightsAndSlots) : Prop := mkTabOk {
  to_id : tabId x = Z.of_nat t ∨ tabId x = TAB_UNDEFINED;
  to_rights : in_u8 (rights x);
  to_slots : in_u32 (slots x);
  to_free : (n ≤ t)%nat → x = no_rights;
  to_master : (t < n)%nat → master →
    tabId x = Z.of_nat t ∧ rights x = GUILD_BANK_RIGHT_FULL ∧ slots x = GUILD_WITHDRAW_SLOT_UNLIMITED
}.
Record rank_ok (n i : nat) (r : RankInfo) : Prop := mkRankOk {
  ro_id : m_rankId r = Z.of_nat i;
  ro_rights : in_u32 (m_rights r);
  ro_money : in_u32 (m_bankMoneyPerDay r);
  ro_master : i = 0%nat → m_rights r = GR_RIGHT_ALL ∧ m_bankMoneyPerDay r = GUILD_WITHDRAW_MONEY_UNLIMITED;
  ro_len : length (m_bankTabRightsAndSlots r) = 6%nat;
  ro_tabs : ∀ t x, m_bankTabRightsAndSlots r !! t = Some x → tab_ok (i = 0%nat) n t x
}.

Lemma tab_ok_GetTabId P n t x : (t < 6)%nat → tab_ok P n t x → GetTabId x = Z.of_nat t ∨ GetTabId x = -1.
Proof.
  intros Ht [[E|E] _ _ _ _]; unfold GetTabId; rewrite E; [left|right]; unfold s8, TAB_UNDEFINED; [|reflexivity].
  zlia.
Qed.
Lemma tab_ok_none P n t : (n ≤ t)%nat → tab_ok P n t no_rights.
Proof. intros H. split; try done; [by right|lia]. Qed.

Lemma new_rank_ok n name rights money i :
  in_u32 rights → in_u32 money → (i = 0%nat → rights = GR_RIGHT_ALL ∧ n = 0%nat) →
  (i < 10)%nat → rank_ok n i (new_rank (Z.of_nat i) name rights money).
Proof.
  intros Hr Hm Hi Hl. unfold new_rank. split; cbn [m_rankId m_rights m_bankMoneyPerDay m_bankTabRightsAndSlots]; try done.
  - destruct (_ =? _); done.
  - intros ->. split; [by apply Hi|done].
  - intros t x Hx. change (Z.to_nat GUILD_BANK_MAX_TABS) with 6%nat in Hx.
    apply lookup_replicate in Hx as [-> Ht]. split; try done; [by right|].
    intros Hn ->. destruct Hi; [done|lia].
Qed.

(** Making the tabs [l] of a rank. *)
Definition made (master : bool) (i : Z) (x : GuildBankRightsAndSlots) : GuildBankRightsAndSlots :=
  if GetTabId x =? i then x
  else if master then SetGuildMasterValues (set_tabId x i) else set_tabId x i.
Definition made_list (master : bool) (l : list Z) (arr : list GuildBankRightsAndSlots) : list GuildBankRightsAndSlots :=
  imap (λ t x, if decide (Z.of_nat t ∈ l) then made master (Z.of_nat t) x else x) arr.
Definition made_stmts (id rankId : Z) (master : bool) (l : list Z) (arr : list GuildBankRightsAndSlots) : list Stmt :=
  omap (λ i, x ← nthZ arr i; if GetTabId x =? i then None else Some (INS_RIGHT id rankId i (made master i x))) l.

Lemma made_list_nil m arr : made_list m [] arr = arr.
Proof.
  unfold made_list. apply list_eq. intros t. rewrite list_lookup_imap. destruct (arr !! t) eqn:E; cbn; [|done].
  by rewrite decide_False by set_solver.
Qed.

Lemma missing_tabs_spec id l : NoDup l → ∀ r r' s,
  missing_tabs id r l = Ok (r', s) →
  let m := m_rankId r =? GR_GUILDMASTER in
  r' = set_m_bankTabRightsAndSlots r (made_list m l (m_bankTabRightsAndSlots r)) ∧
  s = made_stmts id (m_rankId r) m l (m_bankTabRightsAndSlots r).
Proof.
  induction 1 as [|i l Hi Hl IH]; intros r r' s H m; cbn in H.
  - injection H as <- <-. rewrite made_list_nil. by destruct r.
  - destruct (nthZ (m_bankTabRightsAndSlots r) i) as [x|] eqn:Ex; [|done].
    pose proof Ex as [Hi0 Ex']%nthZ_Some.
    destruct (GetTabId x =? i) eqn:Eid.
    + apply IH in H as [-> ->]. fold m. split.
      * f_equal. unfold made_list. apply imap_ext. intros t y Hy. cbv beta.
        destruct (decide (Z.of_nat t ∈ i :: l)) as [Hin|Hin], (decide (Z.of_nat t ∈ l)) as [Hl'|Hl']; try done.
        -- apply elem_of_cons in Hin as [<-|]; [|done]. rewrite Nat2Z.id in Ex'.
           assert (y = x) as -> by congruence. unfold made. by rewrite Eid.
        -- destruct Hin. by apply elem_of_cons; right.
      * unfold made_stmts. cbn. by rewrite Ex; cbn; rewrite Eid.
    + destruct (missing_tabs _ _ l) as [[r1 s1]| | | |] eqn:E1; try done. cbn in H. injection H as <- <-.
      apply IH in E1 as [-> ->]. cbn. fold m.
      assert ((if m then SetGuildMasterValues (set_tabId x i) else set_tabId x i) = made m i x) as Em
        by (unfold made; by rewrite Eid). rewrite Em. split.
      * unfold set_m_bankTabRightsAndSlots. cbn. f_equal. unfold made_list. apply list_eq. intros t.
        rewrite !list_lookup_imap. unfold updZ.
        destruct (decide (t = Z.to_nat i)) as [->|Hn].
        -- rewrite list_lookup_insert_eq by (eapply lookup_lt_Some; eauto). rewrite Ex'. cbn.
           rewrite Z2Nat.id by done. rewrite decide_False by done. by rewrite decide_True by set_solver.
        -- rewrite list_lookup_insert_ne by done. destruct (m_bankTabRightsAndSlots r !! t); cbn; [|done].
           destruct (decide (Z.of_nat t ∈ i :: l)) as [Hin|Hin], (decide (Z.of_nat t ∈ l)) as [Hl'|Hl']; try done.
           ++ apply elem_of_cons in Hin as [<-|]; [|done]. by rewrite Nat2Z.id in Hn.
           ++ destruct Hin. by apply elem_of_cons; right.
      * transitivity (INS_RIGHT id (m_rankId r) i (made m i x)
                        :: made_stmts id (m_rankId r) m l (m_bankTabRightsAndSlots r)).
        2: { unfold made_stmts. cbn. rewrite Ex. cbn. by rewrite Eid. }
        f_equal.
        unfold made_stmts. apply list_omap_ext, Forall2_same_length_lookup_2.
        { done. }
        intros k j j' Hj Hj'. assert (j' = j) as -> by congruence.
        assert (j ≠ i) by (intros ->; apply Hi; by eapply list_elem_of_lookup_2).
        unfold nthZ, updZ. destruct (0 <=? j) eqn:Ej; [|done]. b2p.
        by rewrite list_lookup_insert_ne by lia.
Qed.


Lemma made_lookup m l arr t : made_list m l arr !! t =
  (λ x, if decide (Z.of_nat t ∈ l) then made m (Z.of_nat t) x else x) <$> arr !! t.
Proof. apply list_lookup_imap. Qed.

Lemma CreateMissing_ok n n' i id r r' s :
  rank_ok n i r → (n ≤ n' ≤ 6)%nat → CreateMissingTabsIfNeeded id r (Z.of_nat n') = Ok (r', s) → rank_ok n' i r'.
Proof.
  intros [Hid Hr Hm Hma Hl Ht] Hn H. apply missing_tabs_spec in H as [-> _]; [|apply NoDup_seqZ].
  rewrite Hid. split; try done.
  { cbn. unfold made_list. by rewrite length_imap. }
  intros t x Hx. cbn in Hx. rewrite made_lookup in Hx.
  apply fmap_Some in Hx as (y & Hy & ->). pose proof (Ht t y Hy) as Hok.
  assert (t < 6)%nat by (rewrite <- Hl; by eapply lookup_lt_Some).
  destruct (decide (Z.of_nat t ∈ seqZ 0 (Z.of_nat n'))) as [Hin|Hin]; rewrite elem_of_seqZ in Hin.
  - destruct (tab_ok_GetTabId _ _ _ _ ltac:(done) Hok) as [E|E]; unfold made; rewrite E.
    + rewrite Z.eqb_refl. destruct Hok as [H1 H2 H3 H4 H5]. split; try done; [lia|].
      intros _ ->. destruct (decide (t < n)%nat) as [Hlt|]; [by apply H5|].
      rewrite H4 in E by lia.
      assert (GetTabId no_rights = -1) by reflexivity. lia.
    + destruct (Z.eqb_spec (-1) (Z.of_nat t)); [lia|]. destruct Hok as [H1 H2 H3 H4 H5].
      destruct (Z.eqb_spec (Z.of_nat i) GR_GUILDMASTER) as [Ei|Ei]; unfold GR_GUILDMASTER in Ei.
      * split; cbn; try done; [by left|lia].
      * split; cbn; try done; [by left|lia|intros _ ->; lia].
  - destruct Hok as [H1 H2 H3 H4 H5]. split; try done; [intros; apply H4; lia|lia].
Qed.

Lemma SetRankName_ok n i id r name : rank_ok n i r → rank_ok n i (SetRankName id r name).1.
Proof. intros []. unfold SetRankName. case_decide; by split. Qed.
Lemma SetRights_ok n i id r x : in_u32 x → rank_ok n i r → rank_ok n i (SetRights id r x).1.
Proof.
  intros Hx [H1 H2 H3 H4 H5 H6]. unfold SetRights. rewrite H1.
  destruct (Z.eqb_spec (Z.of_nat i) GR_GUILDMASTER) as [Ei|Ei]; unfold GR_GUILDMASTER in Ei; case_bool; split; try done.
  - intros ->. split; [done|by apply H4].
  - intros ->. lia.
Qed.
Lemma SetBankMoneyPerDay_ok n i id r x : in_u32 x → rank_ok n i r → rank_ok n i (SetBankMoneyPerDay id r x).1.
Proof.
  intros Hx [H1 H2 H3 H4 H5 H6]. unfold SetBankMoneyPerDay. rewrite H1.
  destruct (Z.eqb_spec (Z.of_nat i) GR_GUILDMASTER) as [Ei|Ei]; unfold GR_GUILDMASTER in Ei; case_bool; split; try done.
  - intros ->. split; [by apply H4|done].
  - intros ->. lia.
Qed.

(** The rights a packet can carry. *)
Record rights_ok (x : GuildBankRightsAndSlots) : Prop := mkRightsOk {
  io_id : 0 ≤ tabId x < 6;
  io_rights : in_u8 (rights x);
  io_slots : in_u32 (slots x)
}.
Lemma packet_rights_ok bank x : x ∈ packet_rights bank → rights_ok x.
Proof.
  intros Hx. unfold packet_rights in Hx. apply list_elem_of_fmap in Hx as (t & -> & Ht).
  apply elem_of_seqZ in Ht. unfold GUILD_BANK_MAX_TABS in Ht. split; cbn; [lia|apply wrap_range; lia..].
Qed.
Lemma GetTabId_small x : 0 ≤ tabId x < 6 → GetTabId x = tabId x.
Proof. intros H. unfold GetTabId, s8. zlia. Qed.

Lemma SetBankTab_ok n i id r x save r' s :
  rights_ok x → GetTabId x < Z.of_nat n → (n ≤ 6)%nat → rank_ok n i r →
  SetBankTabSlotsAndRights id r x save = Ok (r', s) → rank_ok n i r'.
Proof.
  intros [X1 X2 X3] Hn Hn6 [H1 H2 H3 H4 H5 H6] H. unfold SetBankTabSlotsAndRights in H. rewrite H1 in H.
  set (y := if Z.of_nat i =? GR_GUILDMASTER then SetGuildMasterValues x else x) in H.
  assert (tabId y = tabId x) as Ey by (subst y; by case_bool).
  assert (GetTabId y = tabId x) as EG by (rewrite <- (GetTabId_small x) by done; unfold GetTabId; by rewrite Ey).
  rewrite GetTabId_small in Hn by done.
  rewrite EG in H. destruct (nthZ (m_bankTabRightsAndSlots r) (tabId x)); [|done]. injection H as <- <-.
  split; try done; [cbn; by rewrite updZ_length|].
  intros t z Hz. cbn in Hz. unfold updZ in Hz. apply list_lookup_insert_Some in Hz as [(<- & <- & _)|[_ Hz]]; [|by apply H6].
  split.
  - left. rewrite Ey. lia.
  - subst y. by case_bool.
  - subst y. by case_bool.
  - intros. lia.
  - intros _ ->. subst y. cbn. split; [lia|done].
Qed.

(** ** Guilds *)

Record member_ok (guid : Z) (m : Member) : Prop := mkMemberOk {
  mo_guid : m_guid m = guid;
  mo_rank : in_u8 (m_rank m);
  mo_len : length (m_bankWithdraw m) = 7%nat;
  mo_withdraw : Forall in_s32 (m_bankWithdraw m)
}.
Record parts_ok (g : Guild) : Prop := mkPartsOk {
  po_ranks : (5 ≤ length (m_ranks g) ≤ 10)%nat;
  po_rank : ∀ i r, m_ranks g !! i = Some r → rank_ok (length (m_bankTabs g)) i r;
  po_tabs : (length (m_bankTabs g) ≤ 6)%nat;
  po_members : ∀ guid m, m_members g !! guid = Some m → member_ok guid m;
  po_events : log_ok (m_eventLog g);
  po_bankEvents : bank_logs_ok (m_bankEventLog g);
  po_money : in_u64 (m_bankMoney g)
}.

End GuildOrder.
