(* ===== verification/GuildInvariant.v ===== *)
(** * Every request keeps every guild in order *)
From stdpp Require Import pretty.
From S2P Require Import Prelude StateMonad GuildData GuildLog GuildParts Guilds GuildBank GuildHandlers GuildRun GuildOrder.

Module GuildInvariant.
Export GuildOrder.

(** All guilds are in order, but for those in [X] and those that are being removed. *)
Definition ok_but (X : gset Z) (w : World) : Prop :=
  ∀ a g, a ∉ X → a ∉ removals w → guilds w !! a = Some g → parts_ok g.
Abbreviation local X := (kept (ok_but X)).

Section local.
Context `{GE : GuildEnv} (X : gset Z).

Lemma guild_ok_insert w a g :
  ok_but X w → (a ∉ X → a ∉ removals w → parts_ok g) → ok_but X (set_guilds w (<[a := g]> (guilds w))).
Proof.
  intros H Hg b g' Hb Hr Hl. cbn in Hl, Hr. revert Hl.
  intros [[<- <-]|[_ Hg']]%lookup_insert_Some; [by apply Hg|by apply (H b)].
Qed.
Lemma guild_local_upd a f : (∀ g, parts_ok g → parts_ok (f g)) → keeps (local X) (upd_guild a f).
Proof. intros Hf w u w' H Hok. grun. apply guild_ok_insert; [done|]. intros Ha Hr. by eapply Hf, (Hok a). Qed.
Lemma local_modify f : (∀ w, guilds (f w) = guilds w ∧ removals (f w) = removals w) → keeps (local X) (modify f).
Proof. intros Hf w u w' H Hok. grun. intros a g. destruct (Hf w) as [-> ->]. apply Hok. Qed.
Lemma same_parts g g' : same_guild g g' → parts_ok g → parts_ok g'.
Proof.
  intros [E1 E2 E3 E4 E5 E6 E7 E8 E9 E10 E11 E12] [H1 H2 H3 H4 H5 H6 H7].
  split; rewrite ?E7, ?E8, ?E9, ?E10; auto.
Qed.
Lemma guild_quiet_ok w w' : quiet w w' → ok_but X w → ok_but X w'.
Proof.
  intros Hq Hok a g Ha Hr Hg. rewrite (qu_rem _ _ Hq) in Hr. pose proof (qu_guilds _ _ Hq a) as HR.
  rewrite Hg in HR. destruct (guilds w !! a) eqn:E; [|done]. eapply same_parts; [done|by eapply Hok].
Qed.
Lemma guild_quiet_local {A} (k : GW A) : keeps quiet k → keeps (local X) k.
Proof. intros H w a w' E Hok. eapply guild_quiet_ok; [by eapply H|done]. Qed.
Lemma local_upd_player a f : keeps (local X) (upd_player a f).
Proof. intros w u w' H Hok. by grun. Qed.
End local.

Create HintDb glocal.
#[export] Hint Resolve local_upd_player : glocal.
Ltac glocal_leaf :=
  idtac; match goal with
  | |- keeps _ (modify _) => apply local_modify; intros ?; solve [repeat case_match; by split]
  | |- keeps _ (upd_guild _ _) => apply guild_local_upd; intros ? ?; solve [repeat case_match; eauto with gparts]
  | _ => first [solve [auto with glocal gquiet] | apply guild_quiet_local; gquiet_leaf]
  end.
Ltac glocal_solve := repeat keeps_step glocal_leaf.

(** ** Changes of a guild *)
Create HintDb gparts.

Section parts.
Lemma parts_words g name leader motd info date emblem accounts state send :
  parts_ok g →
  parts_ok (mkGuild name leader motd info date emblem accounts (m_bankMoney g) (m_ranks g) (m_members g)
              (m_bankTabs g) (m_eventLog g) (m_bankEventLog g) state send).
Proof. intros []. by split. Qed.
Lemma parts_members g ms :
  (∀ guid m, ms !! guid = Some m → member_ok guid m) → parts_ok g → parts_ok (set_m_members g ms).
Proof. intros H []. by split. Qed.
Lemma parts_money g x : in_u64 x → parts_ok g → parts_ok (set_m_bankMoney g x).
Proof. intros H []. by split. Qed.
Lemma parts_alter g guid f :
  (∀ m, member_ok guid m → member_ok guid (f m)) → parts_ok g → parts_ok (set_m_members g (alter f guid (m_members g))).
Proof.
  intros Hf Hg. apply parts_members; [|done]. intros b m Hm.
  apply lookup_alter_Some in Hm as [(<- & m0 & Hm & ->)|[_ Hm]]; [|by apply Hg]. by apply Hf, Hg.
Qed.
Lemma parts_add g guid m : member_ok guid m → parts_ok g → parts_ok (set_m_members g (<[guid := m]> (m_members g))).
Proof.
  intros Hm Hg. apply parts_members; [|done]. intros b m'.
  intros [[<- <-]|[_ H]]%lookup_insert_Some; [done|by apply Hg].
Qed.
Lemma parts_delete g guid : parts_ok g → parts_ok (set_m_members g (delete guid (m_members g))).
Proof. intros Hg. apply parts_members; [|done]. intros b m [_ H]%lookup_delete_Some. by apply Hg. Qed.
Lemma parts_rank g i r r' :
  nthZ (m_ranks g) i = Some r → (rank_ok (length (m_bankTabs g)) (Z.to_nat i) r → rank_ok (length (m_bankTabs g)) (Z.to_nat i) r') →
  parts_ok g → parts_ok (set_m_ranks g (updZ (m_ranks g) i r')).
Proof.
  intros [_ E]%nthZ_Some Hr Hg. destruct Hg as [H1 H2 H3 H4 H5 H6 H7]. split; try done; cbn.
  - by rewrite updZ_length.
  - unfold updZ. intros j x [(<- & <- & _)|[_ Hx]]%list_lookup_insert_Some; [|by apply H2]. by apply Hr, H2.
Qed.
Lemma parts_ranks_app g r :
  (length (m_ranks g) < 10)%nat → rank_ok (length (m_bankTabs g)) (length (m_ranks g)) r →
  parts_ok g → parts_ok (set_m_ranks g (m_ranks g ++ [r])).
Proof.
  intros Hl Hr [H1 H2 H3 H4 H5 H6 H7]. split; try done; cbn.
  - rewrite length_app. cbn. lia.
  - intros j x Hx. apply lookup_app_Some in Hx as [Hx|[Hj Hx]]; [by apply H2|].
    apply list_lookup_singleton_Some in Hx as [Hj' <-]. by replace j with (length (m_ranks g)) by lia.
Qed.
Lemma parts_ranks_pop g :
  (5 < length (m_ranks g))%nat → parts_ok g → parts_ok (set_m_ranks g (removelast (m_ranks g))).
Proof.
  intros Hl [H1 H2 H3 H4 H5 H6 H7].
  assert (∀ j x, removelast (m_ranks g) !! j = Some x → m_ranks g !! j = Some x) as Hj.
  { intros j x Hx. destruct (decide (m_ranks g = [])) as [E|Hn]; [by rewrite E in Hx|].
    rewrite (app_removelast_last x Hn). by apply lookup_app_l_Some. }
  split; try done; cbn.
  - rewrite removelast_firstn_len, length_take. lia.
  - intros j x Hx. by apply H2, Hj.
Qed.
Lemma parts_tab g i t : parts_ok g → parts_ok (set_m_bankTabs g (updZ (m_bankTabs g) i t)).
Proof. intros []. split; cbn; rewrite ?updZ_length; auto. Qed.

Lemma member_note m guid x : member_ok guid m → member_ok guid (set_m_publicNote m x).
Proof. intros []. by split. Qed.
Lemma member_rank m guid x : in_u8 x → member_ok guid m → member_ok guid (set_m_rank m x).
Proof. intros ? []. by split. Qed.
Lemma member_AddFlag m guid x : member_ok guid m → member_ok guid (AddFlag m x).
Proof. intros []. by split. Qed.
Lemma member_logout m guid t : member_ok guid m → member_ok guid (ResetFlags (set_m_logoutTime m t)).
Proof. intros []. by split. Qed.
Lemma member_new guid rank now : in_u8 rank → member_ok guid (new_member guid rank now).
Proof.
  intros H. split; try done; cbn. change (7 `max` 0)%nat with 7%nat.
  apply Forall_replicate. unfold in_s32. lia.
Qed.
Lemma member_ResetValues guid m : member_ok guid m → member_ok guid (ResetValues m).
Proof. intros []. split; try done. cbn. apply Forall_replicate. unfold in_s32. lia. Qed.
Lemma member_Withdraw guid m tab amount : member_ok guid m → member_ok guid (UpdateBankWithdrawValue m tab amount).1.
Proof.
  intros [H1 H2 H3 H4]. split; try done; cbn.
  - by rewrite length_alter.
  - apply Forall_alter; [done|]. intros. apply s32_range.
Qed.
Lemma member_PublicNote guid m x : member_ok guid m → member_ok guid (SetPublicNote m x).1.
Proof. intros []. unfold SetPublicNote. case_decide; by split. Qed.
Lemma member_OfficerNote guid m x : member_ok guid m → member_ok guid (SetOfficerNote m x).1.
Proof. intros []. unfold SetOfficerNote. case_decide; by split. Qed.
End parts.
#[export] Hint Resolve parts_words parts_alter parts_add parts_delete parts_tab parts_money
  member_note member_rank member_AddFlag member_logout member_new member_Withdraw member_PublicNote member_OfficerNote : gparts.

(** ** Steps that leave the guilds alone *)
Definition calm (w w' : World) : Prop := guilds w' = guilds w ∧ removals w' = removals w.
#[export] Instance calm_pre : PreOrder calm.
Proof. split; [by intros ?|]. intros ??? [] []. split; congruence. Qed.

Section calm.
Context `{GE : GuildEnv}.
Lemma guild_calm_modify f : (∀ w, guilds (f w) = guilds w ∧ removals (f w) = removals w) → keeps calm (modify f).
Proof. intros Hf w u w' H. grun. apply Hf. Qed.
Lemma calm_upd_player a f : keeps calm (upd_player a f).
Proof. intros w u w' H. by grun. Qed.
Lemma calm_Appends l : keeps calm (Appends l).
Proof. apply keeps_for_each; [apply _|]. intros s _. by apply guild_calm_modify. Qed.
Lemma calm_local {A} (k : GW A) X : keeps calm k → keeps (local X) k.
Proof. intros H w a w' E Hok b g. destruct (H w a w' E) as [-> ->]. apply Hok. Qed.

Lemma calm_Append s : keeps calm (Append s).
Proof. by apply guild_calm_modify. Qed.
Lemma calm_Execute s : keeps calm (Execute s).
Proof. by apply guild_calm_modify. Qed.
Lemma calm_Begin : keeps calm BeginTransaction.
Proof. by apply guild_calm_modify. Qed.
Lemma calm_Commit : keeps calm CommitTransaction.
Proof. by apply guild_calm_modify. Qed.
Lemma calm_Cache a i : keeps calm (CacheUpdateGuild a i).
Proof. by apply guild_calm_modify. Qed.
Lemma local_Append X s : keeps (local X) (Append s).
Proof. apply calm_local, calm_Append. Qed.
Lemma local_Execute X s : keeps (local X) (Execute s).
Proof. apply calm_local, calm_Execute. Qed.
Lemma local_Begin X : keeps (local X) BeginTransaction.
Proof. apply calm_local, calm_Begin. Qed.
Lemma local_Commit X : keeps (local X) CommitTransaction.
Proof. apply calm_local, calm_Commit. Qed.
Lemma local_Cache X a i : keeps (local X) (CacheUpdateGuild a i).
Proof. apply calm_local, calm_Cache. Qed.
Lemma local_Appends X l : keeps (local X) (Appends l).
Proof. apply calm_local, calm_Appends. Qed.
Lemma calm_SaveGoldToDB s : keeps calm (SaveGoldToDB s).
Proof. intros w u w' H. unfold SaveGoldToDB, Append in H. by grun. Qed.
Lemma local_SaveGoldToDB X s : keeps (local X) (SaveGoldToDB s).
Proof. apply calm_local, calm_SaveGoldToDB. Qed.
Lemma calm_ModifyMoney s n : keeps calm (ModifyMoney s n).
Proof.
  unfold ModifyMoney. intros w u w' H.
  destruct (n =? 0); [by grun|]. destruct (n =? - 2 ^ 31); [by grun|]. grun.
  destruct (n <? 0); [by grun|]. destruct (_ <=? _); by grun.
Qed.
Lemma calm_TakeMoney s n : keeps calm (TakeMoney s n).
Proof. unfold TakeMoney. repeat keeps_step idtac. apply calm_ModifyMoney. Qed.
Lemma local_ModifyMoney X s n : keeps (local X) (ModifyMoney s n).
Proof. apply calm_local, calm_ModifyMoney. Qed.
Lemma local_TakeMoney X s n : keeps (local X) (TakeMoney s n).
Proof. apply calm_local, calm_TakeMoney. Qed.

(** ** Ranks, members, tabs *)
Lemma local_on_rank X a i f :
  (∀ n r r' l, rank_ok n (Z.to_nat i) r → f r = Ok (r', l) → rank_ok n (Z.to_nat i) r') →
  keeps (local X) (on_rank a i f).
Proof.
  intros Hf w u w' H Hok. unfold on_rank in H. grun.
  destruct_and?. match goal with p : _ * list Stmt |- _ => destruct p as [r' l] end. grun.
  eapply calm_local; [apply calm_Appends|done|]. apply guild_ok_insert; [done|]. intros Ha Hr.
  simplify_eq. eapply parts_rank; [done| |by eapply Hok]. intros HR. by eapply Hf.
Qed.
Lemma local_on_rank' X a i f :
  (∀ n r, rank_ok n (Z.to_nat i) r → rank_ok n (Z.to_nat i) (f r).1) → keeps (local X) (on_rank' a i f).
Proof.
  intros Hf. apply local_on_rank. intros n r r' l HR [= E]. specialize (Hf n r HR). by rewrite E in Hf.
Qed.
Lemma local_on_member X a guid f :
  (∀ m, member_ok guid m → member_ok guid (f m).1) → keeps (local X) (on_member a guid f).
Proof.
  intros Hf w u w' H Hok. unfold on_member in H. grun. destruct (f _) as [m' l] eqn:Ef. grun.
  eapply calm_local; [apply calm_Appends|done|]. apply guild_ok_insert; [done|]. intros Ha Hr.
  simplify_eq. match goal with E : f ?m = _ |- _ => specialize (Hf m); rewrite E in Hf end.
  assert (parts_ok a0) as Hg by by eapply Hok.
  apply parts_add; [|done]. by apply Hf, Hg.
Qed.
Lemma local_on_tab X a tab f : keeps (local X) (on_tab a tab f).
Proof.
  intros w u w' H Hok. unfold on_tab in H. grun. destruct (f _) as [t l] eqn:Ef. grun.
  eapply calm_local; [apply calm_Appends|done|]. apply guild_ok_insert; [done|]. intros Ha Hr.
  simplify_eq. apply parts_tab. by eapply Hok.
Qed.
Lemma local_upd_member X a guid f :
  (∀ m, member_ok guid m → member_ok guid (f m)) → keeps (local X) (upd_member a guid f).
Proof. intros Hf. apply guild_local_upd. intros g. by apply parts_alter. Qed.
End calm.

#[export] Hint Resolve local_on_tab local_Append local_Execute local_Begin local_Commit local_Cache local_Appends
  local_SaveGoldToDB local_ModifyMoney local_TakeMoney : glocal.

Section steps.
Context `{GE : GuildEnv} (X : gset Z).

Lemma local_SendLoginInfo a s : keeps (local X) (SendLoginInfo a s).
Proof. unfold SendLoginInfo. glocal_solve. apply local_upd_member. auto with gparts. Qed.
Lemma local_ChangeRank a guid r : in_u8 r → keeps (local X) (ChangeRank a guid r).
Proof. intros H. unfold ChangeRank. glocal_solve. apply local_upd_member. auto with gparts. Qed.
Lemma local_SetLeaderGUID a leader : keeps (local X) (SetLeaderGUID a leader).
Proof. unfold SetLeaderGUID. glocal_solve. by apply local_ChangeRank. Qed.
Lemma local_SetRank a i x save :
  rights_ok x → keeps (local X) (SetRankBankTabRightsAndSlots a i x save).
Proof.
  intros Hx w u w' H Hok. unfold SetRankBankTabRightsAndSlots in H. grun.
  destruct (GetPurchasedTabsSize a0 <=? _) eqn:Et; [by grun|]. destruct (GetRankInfo a0 i); [|by grun].
  unfold on_rank in H. grun. match goal with p : _ * list Stmt |- _ => destruct p as [r' l] end. grun.
  eapply calm_local; [apply calm_Appends|done|]. apply guild_ok_insert; [done|]. intros Ha Hr.
  simplify_eq. assert (parts_ok a0) as Hg by by eapply Hok.
  eapply parts_rank; [done| |done]. intros HR. b2p. destruct Hg as [_ _ Ht _ _ _ _].
  assert (GetPurchasedTabsSize a0 = Z.of_nat (length (m_bankTabs a0))) as E by (unfold GetPurchasedTabsSize, u8; zlia).
  eapply SetBankTab_ok; [exact Hx| |exact Ht|exact HR|done]. rewrite <- E. lia.
Qed.
Lemma local_AddMember a guid r : in_u8 r → keeps (local X) (AddMember a guid r).
Proof.
  intros Hr. unfold AddMember. repeat keeps_step glocal_leaf; try apply local_SendLoginInfo.
  all: apply guild_local_upd; intros g Hg; apply parts_add; [|done]; apply member_new; case_bool; [apply wrap_range; lia|done].
Qed.
Lemma local_EraseMember a guid b : keeps (local X) (EraseMember a guid b).
Proof. unfold EraseMember. glocal_solve. Qed.
Lemma local_erase_all fuel a : keeps (local X) (erase_all fuel a).
Proof.
  induction fuel as [|fuel IH]; cbn; repeat keeps_step glocal_leaf; first [apply local_EraseMember|apply IH].
Qed.
Lemma local_DeleteTabItems t : keeps (local X) (DeleteTabItems t).
Proof. unfold DeleteTabItems. glocal_solve. Qed.
Lemma local_ModifyBankMoney a n b : in_u64 n → keeps (local X) (ModifyBankMoney a n b).
Proof.
  intros Hn w u w' H Hok. unfold ModifyBankMoney in H. grun. destruct (negb b && _) eqn:E; grun; [done|].
  eapply local_Append; [done|]. apply guild_ok_insert; [done|]. intros Ha Hr. simplify_eq.
  assert (parts_ok a0) as Hg by by eapply Hok. apply parts_money; [|done].
  destruct Hg as [_ _ _ _ _ _ Hm]. destruct b; cbn in E; b2p; [apply wrap_range; lia|].
  unfold in_u64 in *. lia.
Qed.
Lemma local_on_withdraw a guid tab n : keeps (local X) (on_member a guid (λ m, UpdateBankWithdrawValue m tab n)).
Proof. apply local_on_member. intros m. apply member_Withdraw. Qed.
End steps.

(** ** Disbanding: the guild is not in order, but it is going *)

Lemma guild_ok_weaken X Y w : X ⊆ Y → ok_but X w → ok_but Y w.
Proof. intros HX H a g Ha. apply H. set_solver. Qed.

Section disband.
Context `{GE : GuildEnv} (X : gset Z).
Lemma local_upd_in a f : a ∈ X → keeps (local X) (upd_guild a f).
Proof. intros Ha w u w' H Hok. grun. by apply guild_ok_insert. Qed.
Lemma local_DeleteBankItems a : a ∈ X → keeps (local X) (DeleteBankItems a).
Proof.
  intros Ha. unfold DeleteBankItems. repeat keeps_step glocal_leaf; [apply local_DeleteTabItems|by apply local_upd_in].
Qed.
End disband.

Section handlers.
Context `{GE : GuildEnv} (X : gset Z).
Lemma guild_local_Disband a : keeps (local X) (Disband a).
Proof.
  enough (partial (ok_but ({[a]} ∪ X)) (Disband a) (λ _, ok_but X)) as H.
  { intros w u w' E Hok. eapply H; [exact E|]. eapply guild_ok_weaken; [|done]. set_solver. }
  unfold Disband.
  repeat (apply partial_step; [first [glocal_leaf|apply local_erase_all|apply local_DeleteBankItems; set_solver]|intros ?]).
  intros w u w' H Hok. grun. intros b g Hb Hr Hg. cbn in Hr, Hg. apply (Hok b g); set_solver.
Qed.
Lemma local_DeleteMember a guid : keeps (local X) (DeleteMember a guid).
Proof.
  unfold DeleteMember. repeat keeps_step glocal_leaf;
    first [apply guild_local_Disband|apply local_SetLeaderGUID|apply local_EraseMember].
Qed.
End handlers.
#[export] Hint Resolve local_SendLoginInfo local_SetLeaderGUID local_SetRank local_EraseMember local_erase_all
  local_DeleteTabItems local_on_withdraw guild_local_Disband local_DeleteMember : glocal.

End GuildInvariant.
