(* ===== verification/GuildCreation.v ===== *)
(** * New ranks, new tabs and new guilds are in order

    A guild is out of order while it is made, and while a bought tab is not yet known to
    every rank. *)
From stdpp Require Import pretty.
From S2P Require Import Prelude StateMonad GuildData GuildLog GuildParts Guilds GuildBank GuildHandlers GuildRun GuildOrder.
From S2P Require Import GuildInvariant.

Module GuildCreation.
Export GuildInvariant.

Lemma ranks_size g : (length (m_ranks g) ≤ 10)%nat → GetRanksSize g = Z.of_nat (length (m_ranks g)).
Proof. intros H. unfold GetRanksSize, u8. zlia. Qed.
Lemma tabs_size g : (length (m_bankTabs g) ≤ 6)%nat → GetPurchasedTabsSize g = Z.of_nat (length (m_bankTabs g)).
Proof. intros H. unfold GetPurchasedTabsSize, u8. zlia. Qed.

(** ** A new rank *)

(** A guild without tabs that has its first [n] ranks. *)
Record young (n : nat) (g : Guild) : Prop := mkYoung {
  y_ranks : length (m_ranks g) = n;
  y_rank : ∀ i r, m_ranks g !! i = Some r → rank_ok 0 i r;
  y_tabs : m_bankTabs g = [];
  y_members : ∀ guid m, m_members g !! guid = Some m → member_ok guid m;
  y_events : log_ok (m_eventLog g);
  y_bankEvents : bank_logs_ok (m_bankEventLog g);
  y_money : in_u64 (m_bankMoney g)
}.
Lemma young_ok n g : (5 ≤ n ≤ 10)%nat → young n g → parts_ok g.
Proof. intros Hn [H1 H2 H3 H4 H5 H6 H7]. split; rewrite ?H3; cbn; auto; lia. Qed.

Section creation.
Context `{GE : GuildEnv}.

Lemma CreateRank_Ok a name rights w ok w' :
  CreateRank a name rights w = Ok (ok, w') →
  ∃ g, guilds w !! a = Some g ∧ removals w' = removals w ∧
    if GUILD_RANKS_MAX_COUNT <=? GetRanksSize g then w' = w
    else guilds w' = <[a := set_m_ranks g (m_ranks g ++ [new_rank (GetRanksSize g) name rights 0])]> (guilds w).
Proof.
  intros H. unfold CreateRank in H. grun. exists a0. split; [done|].
  destruct (GUILD_RANKS_MAX_COUNT <=? _) eqn:E; [by grun|]. grun.
  match goal with p : _ * list Stmt |- _ => destruct p as [r l] end. unfold Append in H. grun. cbn.
  match goal with E : Appends _ _ = Ok _ |- _ => destruct (calm_Appends _ _ _ _ E) as [-> ->] end.
  by simplify_eq.
Qed.

Lemma young_step n g name rights :
  (n < 10)%nat → in_u32 rights → (n = 0%nat → rights = GR_RIGHT_ALL) → young n g →
  young (S n) (set_m_ranks g (m_ranks g ++ [new_rank (GetRanksSize g) name rights 0])).
Proof.
  intros Hn Hr H0 [H1 H2 H3 H4 H5 H6 H7]. split; try done; cbn.
  - rewrite length_app, H1. cbn. lia.
  - intros i r Hi. apply lookup_app_Some in Hi as [Hi|[Hj Hx]]; [by apply H2|].
    apply list_lookup_singleton_Some in Hx as [Hj' <-]. rewrite ranks_size by lia. rewrite H1 in *.
    replace i with n by lia. apply new_rank_ok; try done. auto.
Qed.

(** [w]: the guild at [a] has its first [n] ranks, and it alone is not in order. *)
Definition growing (X : gset Z) (a : Z) (n : nat) (w : World) : Prop :=
  ok_but ({[a]} ∪ X) w ∧ ∃ g, guilds w !! a = Some g ∧ young n g.
Lemma grown X a n w : (5 ≤ n ≤ 10)%nat → growing X a n w → ok_but X w.
Proof.
  intros Hn [Hok (g & Hg & Hy)] b g' Hb Hr Hg'. destruct (decide (b = a)) as [->|Hne].
  - simplify_eq. by eapply young_ok.
  - apply (Hok b g'); set_solver.
Qed.

Lemma growing_rank X a n name rights :
  (n < 10)%nat → in_u32 rights → (n = 0%nat → rights = GR_RIGHT_ALL) →
  partial (growing X a n) (CreateRank a name rights) (λ _, growing X a (S n)).
Proof.
  intros Hn Hr H0 w ok w' E [Hok (g & Hg & Hy)]. apply CreateRank_Ok in E as (g' & Hg' & Er & E).
  assert (g' = g) as -> by congruence.
  assert (GetRanksSize g = Z.of_nat n) as Es by (rewrite ranks_size; [by rewrite (y_ranks _ _ Hy)|rewrite (y_ranks _ _ Hy); lia]).
  rewrite Es in E. destruct (Z.leb_spec GUILD_RANKS_MAX_COUNT (Z.of_nat n)) as [Hle|_]; [unfold GUILD_RANKS_MAX_COUNT in Hle; lia|].
  split.
  - intros b g' Hb Hrm Hl. rewrite Er in Hrm. rewrite E in Hl.
    rewrite lookup_insert_ne in Hl by set_solver. by apply (Hok b).
  - eexists. split; [rewrite E; apply lookup_insert_eq|]. rewrite <- Es. by apply young_step.
Qed.
Lemma growing_calm {A} (k : GW A) X a n : keeps calm k → keeps (kept (growing X a n)) k.
Proof.
  intros Hk w u w' E [Hok Hy]. destruct (Hk w u w' E) as [E1 E2]. split; [|by rewrite E1].
  intros b g. rewrite E1, E2. apply Hok.
Qed.
Lemma growing_next X a n loc :
  (n < 10)%nat →
  partial (growing X a n) (_ ← CreateRank a (rank_name (Z.of_nat n) loc) (default_rights (Z.of_nat n)); skip)
    (λ _, growing X a (S n)).
Proof.
  intros Hn. eapply partial_bind; [apply growing_rank; [done| |intros ->; done]|intros ?; by apply partial_ret].
  unfold default_rights. case_bool; done.
Qed.
Lemma growing_default X a loc :
  partial (growing X a 0) (CreateDefaultGuildRanks a loc) (λ _, growing X a 5).
Proof.
  unfold CreateDefaultGuildRanks. do 2 (apply partial_step; [apply growing_calm, calm_Append|intros ?]).
  change (seqZ 0 GUILD_RANKS_MIN_COUNT) with (map Z.of_nat [0; 1; 2; 3; 4]%nat). cbn [map for_each].
  do 5 (eapply partial_bind; [apply growing_next; lia|intros ?; cbv beta]).
  by apply partial_ret.
Qed.

(** ** A new guild *)

Lemma ok_but_own X a w g : ok_but ({[a]} ∪ X) w → ok_but ({[a]} ∪ X) (set_guilds w (<[a := g]> (guilds w))).
Proof. intros H. apply guild_ok_insert; [done|]. set_solver. Qed.

(** The guild at [a] is [g], and it alone need not be in order. *)
Definition fresh_at (X : gset Z) (a : Z) (P : Guild → Prop) (w : World) : Prop :=
  ok_but ({[a]} ∪ X) w ∧ ∃ g, guilds w !! a = Some g ∧ P g.
Lemma fresh_upd X a f (P Q : Guild → Prop) :
  (∀ g, P g → Q (f g)) → partial (fresh_at X a P) (upd_guild a f) (λ _, fresh_at X a Q).
Proof.
  intros Hf w u w' E [Hok (g & Hg & HP)]. apply upd_guild_Ok in E as (g' & Hg' & ->). simplify_eq.
  split; [by apply ok_but_own|]. eexists. split; [apply lookup_insert_eq|auto].
Qed.
Lemma fresh_calm {A} (k : GW A) X a P : keeps calm k → keeps (kept (fresh_at X a P)) k.
Proof.
  intros Hk w u w' E [Hok Hy]. destruct (Hk w u w' E) as [E1 E2]. split; [|by rewrite E1].
  intros b g. rewrite E1, E2. apply Hok.
Qed.
Lemma calm_guild_at a : keeps calm (guild_at a).
Proof. intros w g w' H. by grun. Qed.

Definition unborn (g : Guild) : Prop :=
  m_ranks g = [] ∧ m_bankTabs g = [] ∧ m_members g = ∅ ∧ in_u64 (m_bankMoney g).
Lemma unborn_young g t :
  unborn g → young 0
    (set_m_bankEventLog (set_m_eventLog (set_m_createdDate (set_m_bankMoney (set_m_motd (set_m_info g "") "No message set.") 0) t)
       (mkLog [] CONFIG_GUILD_EVENT_LOG_COUNT GUILD_EVENT_LOG_GUID_UNDEFINED))
    (replicate (Z.to_nat (GUILD_BANK_MAX_TABS + 1)) (mkLog [] CONFIG_GUILD_BANK_EVENT_LOG_COUNT GUILD_EVENT_LOG_GUID_UNDEFINED))).
Proof.
  intros (E1 & E2 & E3 & E4). split; cbn [m_ranks m_members m_eventLog m_bankTabs m_bankEventLog m_bankMoney set_m_bankEventLog
    set_m_eventLog set_m_createdDate set_m_bankMoney set_m_motd set_m_info]; rewrite ?E1, ?E2, ?E3; try done.
  - unfold log_ok. cbn. lia.
  - split; [done|]. apply Forall_replicate. unfold log_ok. cbn. lia.
Qed.
Lemma local_Create X a leader loc : partial (fresh_at X a unborn) (Create a leader loc) (λ _, ok_but X).
Proof.
  unfold Create. apply partial_step; [apply keeps_get, _|intros w0].
  eapply partial_bind; [apply (fresh_upd _ _ _ _
    (λ g, ∃ g0, g = set_m_createdDate (set_m_bankMoney (set_m_motd (set_m_info g0 "") "No message set.") 0) (now w0) ∧ unborn g0)); eauto|].
  intros ?; cbv beta. eapply partial_bind; [apply (fresh_upd _ _ _ _ (young 0)); intros ? (g0 & -> & Hg); by apply unborn_young|].
  intros ?; cbv beta. change (fresh_at X a (young 0)) with (growing X a 0).
  do 3 (apply partial_step; [apply growing_calm; first [apply calm_Append|apply calm_guild_at]|intros ?]).
  eapply partial_bind; [apply growing_default|intros ?; cbv beta].
  eapply partial_weaken with (P := ok_but X) (Q := λ _, ok_but X); [|by intros s; apply grown; lia|done].
  apply partial_step; [by apply local_AddMember|intros ?]. by apply partial_kept, keeps_lift, _.
Qed.
Lemma local_CreateGuild X leader name : keeps (local X) (CreateGuild leader name).
Proof.
  intros w u w' E Hok. unfold CreateGuild in E. grun. destruct (GetGuildByName w name); [by grun|]. grun.
  destruct (negb _); [by grun|]. unfold GenerateGuildId in E. grun.
  match goal with E : Create _ _ _ _ = _ |- _ => refine (local_Create X _ _ _ _ _ _ E _) end. split.
  - apply guild_ok_insert; [|set_solver]. intros b g Hb. apply Hok. set_solver.
  - eexists. split; [apply lookup_insert_eq|done].
Qed.

(** ** A new tab *)

Definition with_tabs (g : Guild) (n : nat) (l : list Z) : Prop :=
  length (m_bankTabs g) = S n ∧ NoDup l ∧ ∀ i r, m_ranks g !! i = Some r →
    rank_ok (if decide (Z.of_nat i ∈ l) then n else S n) i r.
Definition rest_ok (g : Guild) : Prop :=
  (5 ≤ length (m_ranks g) ≤ 10)%nat ∧ (length (m_bankTabs g) ≤ 6)%nat ∧
  (∀ guid m, m_members g !! guid = Some m → member_ok guid m) ∧
  log_ok (m_eventLog g) ∧ bank_logs_ok (m_bankEventLog g) ∧ in_u64 (m_bankMoney g).
Lemma parts_of_rest g n : rest_ok g → with_tabs g n [] → parts_ok g.
Proof.
  intros (H1 & H2 & H3 & H4 & H5 & H6) (E & _ & Hr). split; try done. intros i r Hi. rewrite E.
  by apply (Hr i r).
Qed.
Lemma missing_step X a n (Ex : Prop) i l :
  0 ≤ i → (n < 6)%nat →
  partial (fresh_at X a (λ g, Ex ∨ (rest_ok g ∧ with_tabs g n (i :: l))))
    (on_rank a i (λ r, CreateMissingTabsIfNeeded a r (u8 (Z.of_nat n + 1))))
    (λ _, fresh_at X a (λ g, Ex ∨ (rest_ok g ∧ with_tabs g n l))).
Proof.
  intros Hi Hn w u w' E [Hok (g & Hg & HP)]. unfold on_rank in E. grun.
  match goal with p : _ * list Stmt |- _ => destruct p as [r' s] end. grun.
  eapply fresh_calm; [apply calm_Appends|done|]. simplify_eq.
  split; [by apply ok_but_own|]. eexists. split; [apply lookup_insert_eq|].
  destruct HP as [?|(Hrest & Et & Hnd & Hr)]; [by left|right].
  match goal with E : nthZ _ _ = Some _ |- _ => apply nthZ_Some in E as [_ Ei] end.
  apply NoDup_cons in Hnd as [Hil Hnd]. split.
  { destruct Hrest as [R1 R2]. split; [by cbn; rewrite updZ_length|exact R2]. }
  split; [done|]. split; [done|]. cbn. unfold updZ.
  intros j y [(<- & <- & _)|[Hne Hx]]%list_lookup_insert_Some.
  - rewrite decide_False by by rewrite Z2Nat.id. specialize (Hr _ _ Ei).
    rewrite decide_True in Hr by (rewrite Z2Nat.id by done; set_solver).
    eapply (CreateMissing_ok n (S n)); [exact Hr|lia|].
    replace (Z.of_nat (S n)) with (u8 (Z.of_nat n + 1)) by (unfold u8; zlia). done.
  - specialize (Hr j y Hx). destruct (decide (Z.of_nat j ∈ l)) as [Hj|Hj].
    + by rewrite decide_True in Hr by set_solver.
    + rewrite decide_False in Hr; [done|]. intros [<-|]%elem_of_cons; [|done]. by rewrite Nat2Z.id in Hne.
Qed.
Lemma missing_steps X a n (Ex : Prop) l :
  (∀ i, i ∈ l → 0 ≤ i) → (n < 6)%nat →
  partial (fresh_at X a (λ g, Ex ∨ (rest_ok g ∧ with_tabs g n l)))
    (for_each l (λ i, on_rank a i (λ r, CreateMissingTabsIfNeeded a r (u8 (Z.of_nat n + 1)))))
    (λ _, fresh_at X a (λ g, Ex ∨ parts_ok g)).
Proof.
  intros Hl Hn. induction l as [|i l IH]; cbn.
  - apply partial_ret. intros w [Hok (g & Hg & HP)]. split; [done|]. exists g. split; [done|].
    destruct HP as [?|[H1 H2]]; [by left|right; by eapply parts_of_rest].
  - eapply partial_bind; [apply missing_step; [apply Hl; set_solver|done]|]. intros ?. apply IH. set_solver.
Qed.
Definition same_removals (w w' : World) : Prop := removals w' = removals w.
#[export] Instance same_removals_pre : PreOrder same_removals.
Proof. split; [by intros ?|]. unfold same_removals. intros ??? ??. congruence. Qed.
Lemma same_removals_on_rank a i f : keeps same_removals (on_rank a i f).
Proof.
  intros w u w' E. unfold on_rank in E. grun.
  match goal with p : _ * list Stmt |- _ => destruct p as [r' s] end. grun.
  match goal with E : Appends _ _ = Ok _ |- _ => exact (proj2 (calm_Appends _ _ _ _ E)) end.
Qed.
Lemma same_removals_CreateNewBankTab a : keeps same_removals (CreateNewBankTab a).
Proof.
  unfold CreateNewBankTab. repeat keeps_step idtac; try apply same_removals_on_rank.
  - intros w u w' E. by grun.
  - intros w u w' E. by grun.
  - intros w u w' E. by destruct (calm_Appends _ _ _ _ E).
Qed.
Lemma seqZ_elem_pos n i : i ∈ seqZ 0 n → 0 ≤ i.
Proof. rewrite elem_of_seqZ. lia. Qed.
Lemma tabs_appended g n t :
  parts_ok g → length (m_bankTabs g) = n → (n < 6)%nat →
  rest_ok (set_m_bankTabs g (m_bankTabs g ++ [t])) ∧
  with_tabs (set_m_bankTabs g (m_bankTabs g ++ [t])) n (seqZ 0 (Z.of_nat (length (m_ranks g)))).
Proof.
  intros [H1 H2 H3 H4 H5 H6 H7] <- Hn. split.
  - split_and!; try done; try (by apply H1); try apply H6; [|apply H7..]. cbn. rewrite length_app. cbn. lia.
  - split; [cbn; rewrite length_app; cbn; lia|]. split; [apply NoDup_seqZ|]. cbn. intros i r Hi.
    rewrite decide_True; [by apply H2|]. apply elem_of_seqZ. apply lookup_lt_Some in Hi. lia.
Qed.
Lemma local_CreateNewBankTab X a w u w' g :
  CreateNewBankTab a w = Ok (u, w') → guilds w !! a = Some g → GetPurchasedTabsSize g < 6 →
  ok_but X w → ok_but X w'.
Proof.
  intros E Hg Hn Hok. pose proof (same_removals_CreateNewBankTab a w u w' E) as HR.
  enough (fresh_at X a (λ g, (a ∈ X ∨ a ∈ removals w) ∨ parts_ok g) w') as [Hok' (g' & Hg' & HP)].
  { intros b gb Hb Hr Hgb. rewrite HR in Hr. destruct (decide (b = a)) as [->|Hne].
    - simplify_eq. by destruct HP as [[?|?]|?].
    - apply (Hok' b); [set_solver|by rewrite HR|done]. }
  assert (0 ≤ GetPurchasedTabsSize g) as H0 by (apply wrap_range; lia).
  set (n := Z.to_nat (GetPurchasedTabsSize g)).
  assert (GetPurchasedTabsSize g = Z.of_nat n) as En by lia. clearbody n.
  unfold CreateNewBankTab in E. grun. simplify_eq. rewrite En in *.
  refine (missing_steps X a n _ _ (seqZ_elem_pos _) _ _ _ _ E _); [lia|].
  eapply fresh_calm; [apply calm_Appends|done|]. split; [by apply ok_but_own, (guild_ok_weaken X); [set_solver|]|].
  eexists. split; [apply lookup_insert_eq|].
  destruct (decide (a ∈ X ∨ a ∈ removals w)) as [Ha|Ha]; [by left|right].
  assert (parts_ok a0) as Hp by (eapply Hok; eauto). apply tabs_appended; [done| |lia].
  pose proof (tabs_size a0 (po_tabs _ Hp)). lia.
Qed.
End creation.

End GuildCreation.
