(* ===== verification/GuildHistories.v ===== *)
(** * Every request keeps every guild in order *)
From stdpp Require Import pretty.
From S2P Require Import Prelude StateMonad GuildData GuildLog GuildParts Guilds GuildBank GuildHandlers GuildRun GuildOrder.
From S2P Require Import GuildInvariant GuildCreation.

Module GuildHistories.
Export GuildCreation.

Section handlers.
Context `{GE : GuildEnv} (X : gset Z).

Lemma u8_range x : in_u8 (u8 x).
Proof. apply wrap_range. lia. Qed.
Lemma u32_range x : in_u32 (u32 x).
Proof. apply wrap_range. lia. Qed.

(** ** Ranks and members *)
Lemma local_CreateRank a name rights : in_u32 rights → keeps (local X) (CreateRank a name rights).
Proof.
  intros Hr w ok w' E Hok. apply CreateRank_Ok in E as (g & Hg & Er & E).
  destruct (GUILD_RANKS_MAX_COUNT <=? GetRanksSize g) eqn:Ef; [by rewrite E|].
  intros b g' Hb Hrm Hl. rewrite Er in Hrm. rewrite E in Hl.
  apply lookup_insert_Some in Hl as [[<- <-]|[_ Hl]]; [|by eapply Hok].
  assert (parts_ok g) as Hp by by eapply Hok. pose proof (po_ranks _ Hp).
  rewrite ranks_size in * by lia. b2p. unfold GUILD_RANKS_MAX_COUNT in Ef.
  apply parts_ranks_app; [lia| |done]. apply new_rank_ok; [done|done|lia|lia].
Qed.
Lemma local_RemoveRank a s i : keeps (local X) (RemoveRank a s i).
Proof.
  intros w u w' E Hok. unfold RemoveRank in E. grun.
  destruct (_ || _) eqn:Eg; [by grun|]. unfold BeginTransaction, CommitTransaction in E. grun.
  eapply (guild_quiet_local X); [apply quiet_BroadcastEvent|done|].
  match goal with E : Appends _ _ = Ok _ |- _ => destruct (calm_Appends _ _ _ _ E) as [F1 F2] end. cbn in F1, F2.
  apply guild_ok_insert; [intros b g; cbn; rewrite F1, F2; apply Hok|].
  cbn. rewrite F2. intros Ha Hr.
  assert (a0 = x) as <- by (cbn in *; congruence). assert (parts_ok a0) as Hp by by eapply Hok.
  apply parts_ranks_pop; [|done]. pose proof (po_ranks _ Hp). rewrite ranks_size in Eg by lia.
  b2p. unfold GUILD_RANKS_MIN_COUNT in *. lia.
Qed.
Lemma local_ChangeMemberRank a guid r : in_u8 r → keeps (local X) (ChangeMemberRank a guid r).
Proof. intros H. unfold ChangeMemberRank. repeat keeps_step glocal_leaf. by apply local_ChangeRank. Qed.
Lemma local_HandleSetRankInfo a s i name rights money l :
  in_u32 rights → in_u32 money → (∀ x, x ∈ l → rights_ok x) →
  keeps (local X) (HandleSetRankInfo a s i name rights money l).
Proof.
  intros Hr Hm Hl. unfold HandleSetRankInfo. repeat keeps_step glocal_leaf.
  - apply local_on_rank'. intros n q. apply SetRankName_ok.
  - apply local_on_rank'. intros n q. by apply SetRights_ok.
  - apply local_on_rank'. intros n q. by apply SetBankMoneyPerDay_ok.
Qed.
Lemma local_HandleAddNewRank a s name : keeps (local X) (HandleAddNewRank a s name).
Proof. unfold HandleAddNewRank. repeat keeps_step glocal_leaf. by apply local_CreateRank. Qed.
Lemma local_HandleSetLeader a s name : keeps (local X) (HandleSetLeader a s name).
Proof. unfold HandleSetLeader. repeat keeps_step glocal_leaf. by apply local_ChangeRank. Qed.
Lemma local_HandleInviteMember a s name : keeps (local X) (HandleInviteMember a s name).
Proof. unfold HandleInviteMember. glocal_solve. Qed.
Lemma local_HandleAcceptMember a s : keeps (local X) (HandleAcceptMember a s).
Proof. unfold HandleAcceptMember. repeat keeps_step glocal_leaf. by apply local_AddMember. Qed.
Lemma local_HandleLeaveMember a s : keeps (local X) (HandleLeaveMember a s).
Proof. unfold HandleLeaveMember. glocal_solve. Qed.
Lemma local_HandleRemoveMember a s name : keeps (local X) (HandleRemoveMember a s name).
Proof. unfold HandleRemoveMember. glocal_solve. Qed.
Lemma local_HandleUpdateMemberRank a s name b : keeps (local X) (HandleUpdateMemberRank a s name b).
Proof. unfold HandleUpdateMemberRank. repeat keeps_step glocal_leaf. apply local_ChangeRank, u8_range. Qed.
Lemma local_HandleDisband a s : keeps (local X) (HandleDisband a s).
Proof. unfold HandleDisband. glocal_solve. Qed.
Lemma local_HandleSetMemberNote a s name note b : keeps (local X) (HandleSetMemberNote a s name note b).
Proof.
  unfold HandleSetMemberNote. repeat keeps_step glocal_leaf. apply local_on_member. intros mb Hmb.
  destruct b; auto with gparts.
Qed.
Lemma local_ResetTimes a : keeps (local X) (ResetTimes a).
Proof.
  unfold ResetTimes. repeat keeps_step glocal_leaf. apply guild_local_upd. intros g Hg. apply parts_members; [|done].
  intros guid m Hm. apply lookup_fmap_Some in Hm as (m0 & <- & Hm). by apply member_ResetValues, Hg.
Qed.
Lemma local_HandleMemberLogout a s : keeps (local X) (HandleMemberLogout a s).
Proof. unfold HandleMemberLogout. repeat keeps_step glocal_leaf. apply local_upd_member. auto with gparts. Qed.

(** ** Words and money *)
Lemma local_SetName a name : keeps (local X) (SetName a name).
Proof. unfold SetName. glocal_solve. Qed.
Lemma local_HandleSetMOTD a s x : keeps (local X) (HandleSetMOTD a s x).
Proof. unfold HandleSetMOTD. glocal_solve. Qed.
Lemma local_HandleSetInfo a s x : keeps (local X) (HandleSetInfo a s x).
Proof. unfold HandleSetInfo. glocal_solve. Qed.
Lemma local_HandleSetBankTabInfo a s t n i : keeps (local X) (HandleSetBankTabInfo a s t n i).
Proof. unfold HandleSetBankTabInfo. glocal_solve. Qed.
Lemma local_SetBankTabText a t x : keeps (local X) (SetBankTabText a t x).
Proof. unfold SetBankTabText. glocal_solve. Qed.
Lemma local_HandleSetEmblem a s e : keeps (local X) (HandleSetEmblem a s e).
Proof. unfold HandleSetEmblem. glocal_solve. Qed.
Lemma u32_u64 x : in_u32 x → in_u64 x.
Proof. unfold in_u32, in_u64. lia. Qed.
Lemma local_HandleMemberDepositMoney a s n : in_u32 n → keeps (local X) (HandleMemberDepositMoney a s n).
Proof. intros H. unfold HandleMemberDepositMoney. repeat keeps_step glocal_leaf. by apply local_ModifyBankMoney, u32_u64. Qed.
Lemma local_HandleMemberWithdrawMoney a s n b : in_u32 n → keeps (local X) (HandleMemberWithdrawMoney a s n b).
Proof.
  intros H. unfold HandleMemberWithdrawMoney. repeat keeps_step glocal_leaf; apply local_ModifyBankMoney, u32_u64.
  all: unfold in_u32, MAX_MONEY_AMOUNT in *; lia.
Qed.
Lemma local_HandleBuyBankTab a s t : keeps (local X) (HandleBuyBankTab a s t).
Proof.
  intros w u w' E Hok. unfold HandleBuyBankTab in E. grun. destruct (GetMember _ _); [|by grun].
  destruct (_ <=? GetPurchasedTabsSize _) eqn:Et; [by grun|]. destruct (negb _); [by grun|].
  destruct (_ =? 0); [by grun|]. destruct (negb _); [by grun|].
  unfold BeginTransaction, CommitTransaction in E. grun.
  repeat match goal with
  | E : TakeMoney _ _ _ = _ |- _ => destruct (calm_TakeMoney _ _ _ _ _ E) as [??]; clear E
  | E : SaveGoldToDB _ _ = _ |- _ => destruct (calm_SaveGoldToDB _ _ _ _ E) as [??]; clear E
  | E : BroadcastEvent _ _ _ _ _ = _ |- _ => apply quiet_BroadcastEvent in E
  | E : SendPermissions _ _ _ = _ |- _ => apply quiet_SendPermissions in E
  end.
  match goal with |- ok_but X (set_trans (set_tables ?w _) _) => change (ok_but X w) end.
  eapply guild_quiet_ok; [done|]. eapply guild_quiet_ok; [done|].
  eapply local_CreateNewBankTab; [done| | |]; [|by b2p|]; cbn in *.
  - repeat match goal with H : guilds _ = _ |- _ => rewrite H end. done.
  - intros b g. repeat match goal with H : guilds _ = _ |- _ => rewrite H end.
    repeat match goal with H : removals _ = _ |- _ => rewrite H end. apply Hok.
Qed.
End handlers.

#[export] Hint Resolve u8_range u32_range local_ChangeMemberRank local_HandleSetRankInfo local_HandleAddNewRank
  local_HandleSetLeader local_HandleInviteMember local_HandleAcceptMember local_HandleLeaveMember
  local_HandleRemoveMember local_HandleUpdateMemberRank local_HandleDisband local_HandleSetMemberNote
  local_ResetTimes local_HandleMemberLogout local_SetName local_HandleSetMOTD local_HandleSetInfo
  local_HandleSetBankTabInfo local_SetBankTabText local_HandleSetEmblem local_HandleMemberDepositMoney
  local_HandleMemberWithdrawMoney local_HandleBuyBankTab local_RemoveRank local_CreateGuild local_AddMember : glocal.

Section requests.
Context `{GE : GuildEnv} (X : gset Z).

(** ** The bank's items *)
Lemma local_store_item p it : keeps (local X) (store_item p it).
Proof. unfold store_item. glocal_solve. Qed.
Lemma local_CloneItem p n : keeps (local X) (CloneItem p n).
Proof. unfold CloneItem. repeat keeps_step glocal_leaf. apply local_store_item. Qed.
Lemma local_SetItem a tab slot p : keeps (local X) (SetItem a tab slot p).
Proof. unfold SetItem. repeat keeps_step glocal_leaf; apply local_store_item. Qed.
Lemma local_RemoveBankItem a tab slot : keeps (local X) (RemoveBankItem a tab slot).
Proof. unfold RemoveBankItem. repeat keeps_step glocal_leaf. apply local_SetItem. Qed.
Lemma local_UpdateMemberWithdrawSlots a s tab : keeps (local X) (UpdateMemberWithdrawSlots a s tab).
Proof. unfold UpdateMemberWithdrawSlots. glocal_solve. Qed.
Lemma local_RemoveItem a s d o n : keeps (local X) (RemoveItem a s d o n).
Proof.
  unfold RemoveItem. repeat keeps_step glocal_leaf;
    first [apply local_store_item|apply local_RemoveBankItem|apply local_UpdateMemberWithdrawSlots].
Qed.
Lemma local_StoreItemAt a tab p slot n c : keeps (local X) (StoreItemAt a tab p slot n c).
Proof.
  unfold StoreItemAt. repeat keeps_step glocal_leaf;
    first [apply local_store_item|apply local_CloneItem|apply local_SetItem].
Qed.
Lemma local_StoreItems a tab p vec : keeps (local X) (StoreItems a tab p vec).
Proof.
  induction vec as [|[slot n] vec IH]; cbn; repeat keeps_step glocal_leaf; first [apply local_StoreItemAt|apply IH].
Qed.
Lemma local_StoreItem a tab p vec : keeps (local X) (StoreItem a tab p vec).
Proof. unfold StoreItem. repeat keeps_step glocal_leaf. apply local_StoreItems. Qed.
Lemma local_DoItemsMove a s d o b n : keeps (local X) (DoItemsMove a s d o b n).
Proof.
  unfold DoItemsMove. repeat keeps_step glocal_leaf; first [apply local_RemoveItem|apply local_StoreItem].
Qed.
Lemma local_MoveItems a s d o n : keeps (local X) (MoveItems a s d o n).
Proof.
  unfold MoveItems. repeat keeps_step glocal_leaf; first [apply local_CloneItem|apply local_DoItemsMove].
Qed.
Lemma local_SwapItems a s t i t' i' n : keeps (local X) (SwapItems a s t i t' i' n).
Proof. unfold SwapItems. repeat keeps_step glocal_leaf. apply local_MoveItems. Qed.
Lemma local_SendBankTabsInfo a s b : keeps (local X) (SendBankTabsInfo a s b).
Proof. unfold SendBankTabsInfo. glocal_solve. Qed.
Lemma local_LoadBankItemFromDB a row : keeps (local X) (LoadBankItemFromDB a row).
Proof. unfold LoadBankItemFromDB. repeat keeps_step glocal_leaf; apply local_store_item. Qed.
Lemma local_BankItemsLoaded : keeps (local X) BankItemsLoaded.
Proof.
  unfold BankItemsLoaded. repeat keeps_step glocal_leaf; first [apply local_LoadBankItemFromDB|apply local_SendBankTabsInfo].
Qed.

(** ** Requests *)
Lemma local_with_guild s k : (∀ a, keeps (local X) (k a)) → keeps (local X) (with_guild s k).
Proof. intros H. unfold with_guild. repeat keeps_step glocal_leaf. Qed.
Lemma local_with_name name k : (∀ a, keeps (local X) (k a)) → keeps (local X) (with_name name k).
Proof. intros H. unfold with_name. destruct (normalizePlayerName name); [apply H|apply keeps_skip, _]. Qed.
End requests.

#[export] Hint Resolve local_SwapItems local_SendBankTabsInfo local_BankItemsLoaded : glocal.

Ltac request_leaf :=
  idtac; match goal with
  | |- keeps _ (with_guild _ _) => apply local_with_guild; intros ?
  | |- keeps _ (with_name _ _) => apply local_with_name; intros ?
  | _ => glocal_leaf
  end.
Ltac request_solve := repeat keeps_step request_leaf.

Section run.
Context `{GE : GuildEnv} (X : gset Z).

Lemma local_PlayerLogin s p : keeps (local X) (PlayerLogin s p).
Proof. unfold PlayerLogin. request_solve. Qed.
Lemma local_RunRemoval id : keeps (local X) (RunRemoval id).
Proof.
  intros w u w' H Hok. unfold RunRemoval in H. grun. intros a g Ha Hr Hl. cbn in *.
  apply lookup_delete_Some in Hl as [Hne Hl]. apply (Hok a); [done| |done].
  intros Hin. apply Hr, list_elem_of_filter. auto.
Qed.
Lemma local_run r : keeps (local X) (run r).
Proof.
  destruct r; cbn [run].
  all: cbv beta delta [HandleGuildInviteOpcode HandleGuildRemoveOpcode HandleGuildAcceptOpcode
    HandleGuildDeclineOpcode HandleGuildPromoteOpcode HandleGuildDemoteOpcode HandleGuildLeaveOpcode
    HandleGuildDisbandOpcode HandleGuildLeaderOpcode HandleGuildMOTDOpcode HandleGuildSetPublicNoteOpcode
    HandleGuildSetOfficerNoteOpcode HandleGuildRankOpcode HandleGuildAddRankOpcode HandleGuildDelRankOpcode
    HandleGuildChangeInfoTextOpcode HandleSaveGuildEmblemOpcode HandleGuildBankDepositMoney
    HandleGuildBankWithdrawMoney GuildRepair HandleGuildBankBuyTab HandleGuildBankUpdateTab
    HandleSetGuildBankTabText HandleGuildBankSwapItems HandleGuildBankerActivate TurnInGuildPetition
    HandleGuildDeleteCommand HandleGuildInviteCommand HandleGuildUninviteCommand HandleGuildRankCommand
    HandleGuildRenameCommand LogoutPlayer ResetAllTimes HandleRemoveLowestRank].
  all: request_solve; first [by apply local_AddMember|apply local_PlayerLogin|apply local_RunRemoval|idtac].
  apply local_HandleSetRankInfo; [apply u32_range..|apply packet_rights_ok].
Qed.
Lemma local_run_all rs : keeps (local X) (run_all rs).
Proof. apply keeps_for_each; [apply _|]. intros r _. apply local_run. Qed.
End run.
End GuildHistories.
