(* ===== verification/GuildMoney.v ===== *)
(** * No request makes money

    What all characters and all guild banks hold together: the money of connected
    players, the saved money of the others, and the money in the banks. *)
From stdpp Require Import pretty.
From S2P Require Import Prelude StateMonad GuildData GuildLog GuildParts Guilds GuildBank GuildHandlers GuildRun.

Module GuildMoney.
Export GuildRun.

(** ** Sums over maps *)

Definition total (m : gmap Z Z) : Z := foldr Z.add 0 (map_to_list m).*2.

Lemma foldr_add_perm (l l' : list Z) : l ≡ₚ l' → foldr Z.add 0 l = foldr Z.add 0 l'.
Proof. induction 1; cbn; lia. Qed.
Lemma total_insert m k x : m !! k = None → total (<[k := x]> m) = x + total m.
Proof.
  intros H. unfold total. rewrite (foldr_add_perm _ (x :: (map_to_list m).*2)); [done|].
  by rewrite map_to_list_insert.
Qed.
Lemma total_delete m k x : m !! k = Some x → total (delete k m) = total m - x.
Proof.
  intros H. rewrite <- (insert_delete_id m k x) at 2 by done. rewrite total_insert by apply lookup_delete_eq. lia.
Qed.
Lemma total_update m k x y : m !! k = Some x → total (<[k := y]> m) = total m - x + y.
Proof.
  intros H. rewrite <- insert_delete_eq, total_insert by apply lookup_delete_eq. rewrite (total_delete m k x H). lia.
Qed.
Lemma guild_total_nonneg m : map_Forall (λ _ x, 0 ≤ x) m → 0 ≤ total m.
Proof.
  induction m as [|k x m Hk IH] using map_ind; [done|]. intros Hm.
  apply map_Forall_insert in Hm as [Hx Hm]; [|done]. rewrite total_insert by done. specialize (IH Hm). lia.
Qed.
Lemma total_overwrite m k y : map_Forall (λ _ x, 0 ≤ x) m → total (<[k := y]> m) ≤ total m + y.
Proof.
  intros Hm. destruct (m !! k) as [x|] eqn:E; [|rewrite total_insert by done; lia].
  rewrite (total_update m k x y E). pose proof (Hm k x E). cbn in *. lia.
Qed.

(** ** The money of the realm *)

Definition money_of (w : World) : gmap Z Z := GetMoney <$> players w.
Definition saved_of (w : World) : gmap Z Z := filter (λ x, players w !! x.1 = None) (characters_money (tables w)).
Definition banks_of (w : World) : gmap Z Z := m_bankMoney <$> guilds w.
Definition wealth (w : World) : Z := total (money_of w) + total (saved_of w) + total (banks_of w).

(** What statements may do to the money of characters: set it for those in [C]. *)
Definition money_stmt (C : gset Z) (s : Stmt) : Prop :=
  match s with CHAR_UPD_CHAR_MONEY m g => g ∈ C ∧ 0 ≤ m | _ => True end.
Record money_ok (C : gset Z) (w : World) : Prop := mkMoneyOk {
  mn_trans : Forall (money_stmt C) (trans w);
  mn_dom : ∀ g, g ∈ C → is_Some (players w !! g);
  mn_players : ∀ g p, players w !! g = Some p → 0 ≤ GetMoney p ≤ MAX_MONEY_AMOUNT;
  mn_saved : ∀ g x, characters_money (tables w) !! g = Some x → 0 ≤ x;
  mn_banks : ∀ a g, guilds w !! a = Some g → 0 ≤ m_bankMoney g
}.
(** At most [n] is added. *)
Definition adds (C : gset Z) (n : Z) (w w' : World) : Prop :=
  money_ok C w → money_ok C w' ∧ wealth w' ≤ wealth w + n.
Abbreviation frugal C := (adds C 0).
#[export] Instance frugal_pre C : PreOrder (frugal C).
Proof.
  split; [intros w Hw; split; [done|lia]|]. intros w1 w2 w3 H12 H23 H1.
  destruct (H12 H1) as [H2 L12]. destruct (H23 H2) as [H3 L23]. split; [done|lia].
Qed.
Lemma adds_trans C n m w1 w2 w3 : adds C n w1 w2 → adds C m w2 w3 → adds C (n + m) w1 w3.
Proof.
  intros H12 H23 H1. destruct (H12 H1) as [H2 L12]. destruct (H23 H2) as [H3 L23]. split; [done|lia].
Qed.

(** Statements leave the money of the others alone. *)
Lemma ins_Some {K V M} `{Lookup K V M, Insert K V M} (k : K) (v : V) (m m' : M) :
  ins k v m = Some m' → m' = <[k := v]> m.
Proof. unfold ins. destruct (m !! k); [done|]. by intros [= <-]. Qed.
Lemma exec_money C s t t' :
  money_stmt C s → exec s t = Some t' →
  (∀ g, g ∉ C → characters_money t' !! g = characters_money t !! g) ∧
  ((∀ g x, characters_money t !! g = Some x → 0 ≤ x) → ∀ g x, characters_money t' !! g = Some x → 0 ≤ x).
Proof.
  intros Hs H. destruct s; cbn in H; try (injection H as <-; done); try (apply fmap_Some in H as (? & ? & ->); done).
  destruct Hs as [Hin Hm]. injection H as <-. cbn. split.
  - intros g Hg. apply lookup_alter_ne. set_solver.
  - intros Ht g x [(<- & y & Hy & <-)|[_ Hx]]%lookup_alter_Some; eauto.
Qed.
Lemma exec_all_money C l t t' :
  Forall (money_stmt C) l → exec_all l t = Some t' →
  (∀ g, g ∉ C → characters_money t' !! g = characters_money t !! g) ∧
  ((∀ g x, characters_money t !! g = Some x → 0 ≤ x) → ∀ g x, characters_money t' !! g = Some x → 0 ≤ x).
Proof.
  intros Hl. revert t. induction Hl as [|s l Hs Hl IH]; intros t H; cbn in H.
  - by injection H as <-.
  - destruct (exec s t) as [t1|] eqn:E; [|done]. cbn in H. apply IH in H as [H1 H2].
    destruct (exec_money C s t t1 Hs E) as [H3 H4]. split.
    + intros g Hg. by rewrite H1, H3.
    + intros Ht. by apply H2, H4.
Qed.
Lemma transaction_money C l t :
  Forall (money_stmt C) l →
  (∀ g, g ∉ C → characters_money (ExecuteTransaction l t) !! g = characters_money t !! g) ∧
  ((∀ g x, characters_money t !! g = Some x → 0 ≤ x) →
   ∀ g x, characters_money (ExecuteTransaction l t) !! g = Some x → 0 ≤ x).
Proof.
  intros Hl. unfold ExecuteTransaction. destruct (exec_all l t) eqn:E; [|done]. by eapply exec_all_money.
Qed.

(** ** Steps that change no money *)

(** The same connected players, guilds and saved money, as far as money goes. *)
Record same_money (w w' : World) : Prop := mkSameMoney {
  sm_players : money_of w' = money_of w;
  sm_saved : characters_money (tables w') = characters_money (tables w);
  sm_banks : banks_of w' = banks_of w
}.
Lemma money_of_lookup w w' : money_of w' = money_of w → ∀ g, GetMoney <$> players w' !! g = GetMoney <$> players w !! g.
Proof. unfold money_of. intros E g. by rewrite <- !lookup_fmap, E. Qed.
Lemma saved_same w w' :
  (∀ g, players w' !! g = None ↔ players w !! g = None) →
  (∀ g, players w !! g = None → characters_money (tables w') !! g = characters_money (tables w) !! g) →
  saved_of w' = saved_of w.
Proof.
  intros Hp Hc. unfold saved_of. apply map_eq. intros g. apply option_eq. intros x.
  rewrite !map_lookup_filter_Some. cbn. rewrite Hp. split; intros [Hx Hg]; (split; [|done]); [rewrite <- Hc|rewrite Hc]; done.
Qed.
Lemma same_wealth w w' : same_money w w' → wealth w' = wealth w.
Proof.
  intros [E1 E2 E3]. unfold wealth. rewrite E1, E3, (saved_same w w'); [done| |by rewrite E2].
  intros g. pose proof (money_of_lookup _ _ E1 g) as E. destruct (players w !! g), (players w' !! g); done.
Qed.
Lemma same_ok C w w' : same_money w w' → Forall (money_stmt C) (trans w') → money_ok C w → money_ok C w'.
Proof.
  intros [E1 E2 E3] Ht [H1 H2 H3 H4 H5]. pose proof (money_of_lookup _ _ E1) as Ep. split; [done| | | |].
  - intros g Hg. specialize (Ep g). destruct (H2 g Hg) as [p Hp]. rewrite Hp in Ep.
    destruct (players w' !! g); [eauto|done].
  - intros g p Hp. specialize (Ep g). rewrite Hp in Ep. destruct (players w !! g) as [q|] eqn:Eq; [|done].
    injection Ep as ->. by apply (H3 g).
  - by rewrite E2.
  - intros a g Hg. assert (banks_of w' !! a = Some (m_bankMoney g)) as Eb by (unfold banks_of; by rewrite lookup_fmap, Hg).
    rewrite E3 in Eb. unfold banks_of in Eb. apply lookup_fmap_Some in Eb as (g' & <- & Hg'). by apply (H5 a).
Qed.
Lemma same_frugal C w w' :
  same_money w w' → (Forall (money_stmt C) (trans w) → Forall (money_stmt C) (trans w')) → frugal C w w'.
Proof.
  intros Hs Ht Hw. split; [|rewrite (same_wealth w w' Hs); lia]. eapply same_ok; [done|by apply Ht, Hw|done].
Qed.

Lemma fmap_insert_same {A B} (f : A → B) (m : gmap Z A) k x y :
  m !! k = Some x → f y = f x → f <$> <[k := y]> m = f <$> m.
Proof. intros Hk Hf. rewrite fmap_insert, Hf. apply insert_id. by rewrite lookup_fmap, Hk. Qed.
Lemma rel_map_banks R m m' : (∀ g g', R g g' → m_bankMoney g' = m_bankMoney g) → rel_map R m m' → m_bankMoney <$> m' = m_bankMoney <$> m.
Proof.
  intros HR Hm. apply map_eq. intros a. rewrite !lookup_fmap. specialize (Hm a).
  destruct (m !! a), (m' !! a); try done. cbn. f_equal. by apply HR.
Qed.
Lemma log_money C s : log_stmt s → money_stmt C s.
Proof. by destruct s. Qed.

Section frugal.
Context `{GE : GuildEnv} (C : gset Z).

Lemma quiet_frugal {A} (k : GW A) : keeps quiet k → keeps (frugal C) k.
Proof.
  intros Hk w a w' E. destruct (Hk w a w' E) as [H1 H2 H3 H4 H5 H6 H7 (l & Et & Hl)]. apply same_frugal.
  - split; [by unfold money_of; rewrite H2|by rewrite H7|]. unfold banks_of.
    eapply rel_map_banks; [|exact H1]. by intros g g' [].
  - rewrite Et. intros Hw. apply Forall_app. split; [done|]. eapply Forall_impl; [done|]. apply log_money.
Qed.
Lemma frugal_modify f :
  (∀ w, money_of (f w) = money_of w ∧ characters_money (tables (f w)) = characters_money (tables w) ∧
        banks_of (f w) = banks_of w ∧ (trans (f w) = trans w ∨ trans (f w) = [])) →
  keeps (frugal C) (modify f).
Proof.
  intros Hf w u w' H. grun. destruct (Hf w) as (H1 & H2 & H3 & H4). apply same_frugal; [by split|].
  by destruct H4 as [->| ->].
Qed.
Lemma frugal_upd_guild a f : (∀ g, m_bankMoney (f g) = m_bankMoney g) → keeps (frugal C) (upd_guild a f).
Proof.
  intros Hf w u w' H. grun. apply same_frugal; [|done]. split; try done.
  unfold banks_of. cbn. by eapply fmap_insert_same.
Qed.
Lemma frugal_upd_player a f : (∀ p, GetMoney (f p) = GetMoney p) → keeps (frugal C) (upd_player a f).
Proof.
  intros Hf w u w' H. grun. apply same_frugal; [|done]. split; try done.
  unfold money_of. cbn. by eapply fmap_insert_same.
Qed.
Lemma frugal_Append s : money_stmt C s → keeps (frugal C) (Append s).
Proof.
  intros Hs w u w' H. unfold Append in H. grun. apply same_frugal; [done|]. cbn. intros Hw.
  apply Forall_app. by repeat constructor.
Qed.
Lemma frugal_transaction w l :
  Forall (money_stmt C) l →
  frugal C w (set_tables w (ExecuteTransaction l (tables w))).
Proof.
  intros Hl Hw. destruct (transaction_money C l (tables w) Hl) as [H1 H2].
  assert (saved_of (set_tables w (ExecuteTransaction l (tables w))) = saved_of w) as E.
  { apply saved_same; [done|]. intros g Hg. apply H1. intros Hin. destruct (mn_dom _ _ Hw g Hin). cbn in *. congruence. }
  destruct Hw as [W1 W2 W3 W4 W5]. split; [split; try done; by apply H2|].
  unfold wealth. rewrite E. unfold money_of, banks_of. cbn. lia.
Qed.
Lemma frugal_Execute s : money_stmt C s → keeps (frugal C) (Execute s).
Proof. intros Hs w u w' H. unfold Execute in H. grun. apply frugal_transaction. by repeat constructor. Qed.
Lemma frugal_Begin : keeps (frugal C) BeginTransaction.
Proof. apply frugal_modify. intros w. split_and!; try done. by right. Qed.
Lemma frugal_Commit : keeps (frugal C) CommitTransaction.
Proof.
  intros w u w' H. unfold CommitTransaction in H. grun. intros Hw.
  destruct (frugal_transaction w _ (mn_trans _ _ Hw) Hw) as [[W1 W2 W3 W4 W5] HW]. split; [|exact HW]. by split.
Qed.
Lemma frugal_Cache a i : keeps (frugal C) (CacheUpdateGuild a i).
Proof. apply frugal_modify. intros w. split_and!; try done. by left. Qed.
Lemma frugal_Appends l : Forall (money_stmt C) l → keeps (frugal C) (Appends l).
Proof.
  intros Hl. apply keeps_for_each; [apply _|]. intros s Hs. apply frugal_Append.
  rewrite Forall_forall in Hl. auto.
Qed.
End frugal.

Create HintDb gmoney.
#[export] Hint Resolve frugal_Begin frugal_Commit frugal_Cache : gmoney.
Ltac gmoney_leaf :=
  idtac; match goal with
  | |- keeps _ (modify _) =>
    apply frugal_modify; intros ?; solve [repeat case_match; split_and!; first [done | by left | by right]]
  | |- keeps _ (upd_guild _ _) => apply frugal_upd_guild; intros ?; solve [repeat case_match; done]
  | |- keeps _ (upd_player _ _) => apply frugal_upd_player; intros ?; solve [repeat case_match; done]
  | |- keeps _ (Append _) => apply frugal_Append; solve [repeat case_match; exact I]
  | |- keeps _ (Execute _) => apply frugal_Execute; solve [exact I]
  | |- keeps _ (Appends _) => apply frugal_Appends; solve [repeat constructor; exact I]
  | _ => first [solve [auto with gmoney gquiet] | apply quiet_frugal; gquiet_leaf]
  end.
Ltac gmoney_solve := repeat keeps_step gmoney_leaf.

End GuildMoney.
