(* ===== verification/GuildWealth.v ===== *)
(** * Money moves between players and banks, and none is made

    Deposits, withdrawals, repairs, bought tabs and emblems; then every request. *)
From stdpp Require Import pretty.
From S2P Require Import Prelude StateMonad GuildData GuildLog GuildParts Guilds GuildBank GuildHandlers GuildRun GuildMoney.

Module GuildWealth.
Export GuildMoney.

Section moves.
Context `{GE : GuildEnv}.

(** ** Between two owners *)

Lemma money_player C w s p x :
  players w !! s = Some p → 0 ≤ x ≤ MAX_MONEY_AMOUNT →
  adds C (x - GetMoney p) w (set_players w (<[s := set_GetMoney p x]> (players w))).
Proof.
  intros Hp Hx [H1 H2 H3 H4 H5]. split.
  - split; try done; cbn.
    + intros g Hg. rewrite lookup_insert_is_Some'. auto.
    + intros g q [[<- <-]|[_ Hq]]%lookup_insert_Some; [done|eauto].
  - unfold wealth. rewrite (saved_same w (set_players w _)); [| |done].
    + unfold money_of, banks_of. cbn. rewrite fmap_insert, (total_update _ _ (GetMoney p)); [cbn; lia|].
      by rewrite lookup_fmap, Hp.
    + intros g. cbn. destruct (decide (s = g)) as [<-|Hn].
      * rewrite lookup_insert_eq, Hp. done.
      * by rewrite lookup_insert_ne.
Qed.
Lemma money_bank C w a g x :
  guilds w !! a = Some g → 0 ≤ x →
  adds C (x - m_bankMoney g) w (set_guilds w (<[a := set_m_bankMoney g x]> (guilds w))).
Proof.
  intros Hg Hx [H1 H2 H3 H4 H5]. split.
  - split; try done. cbn. intros b g' [[<- <-]|[_ Hb]]%lookup_insert_Some; [done|eauto].
  - unfold wealth, money_of, saved_of, banks_of. cbn.
    rewrite fmap_insert, (total_update _ _ (m_bankMoney g)); [cbn; lia|]. by rewrite lookup_fmap, Hg.
Qed.
Lemma adds_weaken C n m w w' : n ≤ m → adds C n w w' → adds C m w w'.
Proof. intros Hn H Hw. destruct (H Hw) as [H1 H2]. split; [done|lia]. Qed.

Lemma ModifyMoney_adds C s n w ok w' :
  ModifyMoney s n w = Ok (ok, w') → - 2 ^ 31 < n ≤ MAX_MONEY_AMOUNT →
  (n < 0 → ∀ p, players w !! s = Some p → - n ≤ GetMoney p) →
  adds C (if ok then n else 0) w w' ∧ guilds w' = guilds w ∧ (∀ g, is_Some (players w' !! g) ↔ is_Some (players w !! g)).
Proof.
  intros H Hn Hp. assert (guilds w' = guilds w) as Hg.
  { unfold ModifyMoney in H. destruct (n =? 0); [by grun|]. destruct (n =? - 2 ^ 31); [by grun|]. grun.
    destruct (n <? 0); [by grun|]. destruct (_ <=? _); by grun. }
  unfold ModifyMoney in H. destruct (Z.eqb_spec n 0) as [->|Hn0].
  { grun. split_and!; [|done|done]. intros Hw. split; [done|lia]. }
  destruct (Z.eqb_spec n (- 2 ^ 31)) as [->|Hn1]; [lia|]. grun.
  assert (∀ p q, players w !! s = Some p → ∀ g, is_Some (<[s := q]> (players w) !! g) ↔ is_Some (players w !! g)) as HS.
  { intros p q Hs g. destruct (decide (s = g)) as [<-|Hne]; [rewrite lookup_insert_eq, Hs; naive_solver|by rewrite lookup_insert_ne]. }
  assert (∀ q, money_ok C w → players w !! s = Some q → 0 ≤ GetMoney q ≤ MAX_MONEY_AMOUNT) as HR by (intros q [_ _ H3 _ _]; apply H3).
  destruct (Z.ltb_spec n 0) as [Hneg|Hpos].
  - grun. simplify_eq. specialize (Hp Hneg _ ltac:(done)).
    split_and!; [|done|by eapply HS]. intros Hw. pose proof (HR _ Hw ltac:(done)) as Hr.
    revert Hw. eapply adds_weaken; [|apply money_player; [done|]]; unfold MAX_MONEY_AMOUNT, u32 in *; case_bool; b2p; zlia.
  - destruct (GetMoney a <=? u32 (MAX_MONEY_AMOUNT - n)) eqn:Em; grun; simplify_eq.
    + split_and!; [|done|by eapply HS]. intros Hw. pose proof (HR _ Hw ltac:(done)) as Hr.
      revert Hw. b2p. eapply adds_weaken; [|apply money_player; [done|]]; unfold MAX_MONEY_AMOUNT, u32 in *; zlia.
    + split_and!; [|done|done]. intros Hw. split; [done|lia].
Qed.
Lemma ModifyMoney_take s n w ok w' : ModifyMoney s n w = Ok (ok, w') → n ≤ 0 → ok = true.
Proof.
  intros H Hn. unfold ModifyMoney in H. destruct (Z.eqb_spec n 0); [by grun|].
  destruct (_ =? _); [by grun|]. grun. destruct (Z.ltb_spec n 0); [by grun|lia].
Qed.
Lemma TakeMoney_adds C s n w ok w' p :
  TakeMoney s n w = Ok (ok, w') → players w !! s = Some p → 0 ≤ n ≤ GetMoney p → GetMoney p ≤ MAX_MONEY_AMOUNT →
  adds C (- n) w w' ∧ guilds w' = guilds w ∧ (∀ g, is_Some (players w' !! g) ↔ is_Some (players w !! g)).
Proof.
  intros H Hp Hn Hmax. unfold TakeMoney, neg32, sub32 in H. grun.
  assert (s32 n = n) as Es by (unfold s32; unfold MAX_MONEY_AMOUNT in *; zlia). rewrite Es in *.
  destruct (_ && _); [|done]. simplify_eq. replace (0 - n) with (- n) in * by lia.
  pose proof (ModifyMoney_take _ _ _ _ _ H ltac:(lia)) as ->.
  unfold MAX_MONEY_AMOUNT in *. apply (ModifyMoney_adds C) in H as (H1 & H2 & H3); [done|unfold MAX_MONEY_AMOUNT; lia|].
  intros _ q Hq. simplify_eq. lia.
Qed.

Lemma ModifyBankMoney_add C a n w ok w' :
  ModifyBankMoney a n true w = Ok (ok, w') → 0 ≤ n → adds C n w w' ∧ players w' = players w.
Proof.
  intros H Hn. unfold ModifyBankMoney in H. cbn [negb andb] in H. unfold Append in H. grun. simplify_eq.
  split; [|done]. intros Hw. assert (0 ≤ m_bankMoney a0) as H0 by by eapply mn_banks.
  match goal with |- money_ok C (set_trans ?v _) ∧ _ => assert (adds C n w v) as HA end.
  { eapply adds_weaken; [|apply money_bank; [done|]]; [unfold u64; zlia|apply wrap_range; lia]. }
  destruct (HA Hw) as [[W1 W2 W3 W4 W5] HW]. split; [|exact HW]. split; try done. cbn.
  apply Forall_app. by repeat constructor.
Qed.
Lemma ModifyBankMoney_take C a n w ok w' g :
  ModifyBankMoney a n false w = Ok (ok, w') → guilds w !! a = Some g → 0 ≤ n ≤ m_bankMoney g →
  adds C (- n) w w' ∧ players w' = players w.
Proof.
  intros H Hg Hn. unfold ModifyBankMoney in H. unfold Append in H. grun. simplify_eq.
  destruct (negb false && _) eqn:E; [cbn in E; b2p; lia|]. grun. simplify_eq.
  split; [|done]. intros Hw.
  match goal with |- money_ok C (set_trans ?v _) ∧ _ => assert (adds C (- n) w v) as HA end.
  { eapply adds_weaken; [|apply money_bank; [done|]]; lia. }
  destruct (HA Hw) as [[W1 W2 W3 W4 W5] HW]. split; [|exact HW]. split; try done. cbn.
  apply Forall_app. by repeat constructor.
Qed.

(** Statements about the money of [s] are made between here and the commit. *)
Lemma money_enter s w : money_ok ∅ w → is_Some (players w !! s) → money_ok {[s]} w.
Proof.
  intros [H1 H2 H3 H4 H5] Hs. split; try done.
  - eapply Forall_impl; [done|]. intros st. destruct st; cbn; set_solver.
  - intros g Hg. by assert (g = s) as -> by set_solver.
Qed.
Lemma money_leave C w : money_ok C w → trans w = [] → money_ok ∅ w.
Proof. intros [H1 H2 H3 H4 H5] Ht. split; try done. by rewrite Ht. Qed.
Lemma frugal_SaveGold s : keeps (frugal {[s]}) (SaveGoldToDB s).
Proof.
  intros w u w' H Hw. unfold SaveGoldToDB in H. grun.
  match goal with Hp : players w !! s = Some ?p |- _ => pose proof (mn_players _ _ Hw _ _ Hp) end.
  eapply (frugal_Append {[s]}); [|exact H|done]. cbn. split; [set_solver|lia].
Qed.
Lemma commit_trans w u w' : CommitTransaction w = Ok (u, w') → trans w' = [] ∧ players w' = players w ∧ guilds w' = guilds w.
Proof. intros H. unfold CommitTransaction in H. by grun. Qed.

(** A request of [s] that spends in a transaction and then only talks. *)
Lemma money_request s w w1 w2 n :
  is_Some (players w !! s) → adds {[s]} n w w1 → trans w1 = [] → frugal ∅ w1 w2 → adds ∅ n w w2.
Proof.
  intros Hs H1 Ht H2 Hw. destruct (H1 (money_enter _ _ Hw Hs)) as [Hw1 L1].
  destruct (H2 (money_leave _ _ Hw1 Ht)) as [Hw2 L2]. split; [done|lia].
Qed.

Lemma same_banks_on_member a guid f w u w' :
  on_member a guid f w = Ok (u, w') → banks_of w' = banks_of w ∧ players w' = players w.
Proof.
  intros H. unfold on_member in H. grun. destruct (f _) as [m l]. grun.
  assert (∀ l w u w', Appends l w = Ok (u, w') → guilds w' = guilds w ∧ players w' = players w) as HA.
  { clear. induction l as [|s l IH]; intros w u w' H; cbn in H; [by grun|]. unfold Append in H. grun.
    by apply IH in H. }
  apply HA in H as [E1 E2]. unfold banks_of. rewrite E1, E2. split; [|done]. cbn. by eapply fmap_insert_same.
Qed.
Lemma frugal_on_member C a guid f :
  (∀ m, Forall (money_stmt C) (f m).2) → keeps (frugal C) (on_member a guid f).
Proof.
  intros Hf. unfold on_member. repeat keeps_step gmoney_leaf. apply frugal_Appends.
  match goal with E : f ?m = _ |- _ => specialize (Hf m); by rewrite E in Hf end.
Qed.
Lemma money_stmts_withdraw C m tab n : Forall (money_stmt C) (UpdateBankWithdrawValue m tab n).2.
Proof. by repeat constructor. Qed.

Lemma banks_at w a g : guilds w !! a = Some g → banks_of w !! a = Some (m_bankMoney g).
Proof. intros H. unfold banks_of. by rewrite lookup_fmap, H. Qed.
Lemma banks_at_inv w a x : banks_of w !! a = Some x → ∃ g, guilds w !! a = Some g ∧ m_bankMoney g = x.
Proof. unfold banks_of. intros (g & <- & H)%lookup_fmap_Some. eauto. Qed.

Lemma deposit_adds a s n w u w' p :
  HandleMemberDepositMoney a s n w = Ok (u, w') → players w !! s = Some p → 0 ≤ n ≤ GetMoney p → adds ∅ 0 w w'.
Proof.
  intros H Hp Hn Hw. pose proof (mn_players _ _ Hw _ _ Hp) as Hmax. revert Hw. unfold HandleMemberDepositMoney in H.
  run_inv.
  match goal with
  | E1 : BeginTransaction w = Ok (_, ?w1), E2 : ModifyBankMoney _ _ _ ?w1 = Ok (_, ?w2), E3 : TakeMoney _ _ ?w2 = Ok (_, ?w3),
    E4 : SaveGoldToDB _ ?w3 = Ok (_, ?w4), E5 : LogBankEvent _ _ _ _ _ _ _ ?w4 = Ok (_, ?w5),
    E6 : CommitTransaction ?w5 = Ok (_, ?w6) |- _ =>
    apply (ModifyBankMoney_add {[s]}) in E2 as [A2 P2]; [|lia];
    assert (players w2 = players w) as Pw by (rewrite P2; unfold BeginTransaction in E1; by grun);
    apply (TakeMoney_adds {[s]} _ _ _ _ _ p) in E3 as (A3 & _ & _); [|by rewrite Pw|lia..];
    eapply (money_request s w w6); [eauto| |by eapply commit_trans|eapply quiet_frugal; [apply quiet_BroadcastMoney|done]];
    pose proof (frugal_Begin {[s]} _ _ _ E1) as A1; pose proof (frugal_SaveGold s _ _ _ E4) as A4;
    pose proof (quiet_frugal {[s]} _ (quiet_LogBankEvent _ _ _ _ _ _ _) _ _ _ E5) as A5;
    pose proof (frugal_Commit {[s]} _ _ _ E6) as A6
  end.
  pose proof (adds_trans _ _ _ _ _ _ (adds_trans _ _ _ _ _ _ (adds_trans _ _ _ _ _ _ (adds_trans _ _ _ _ _ _
    (adds_trans _ _ _ _ _ _ A1 A2) A3) A4) A5) A6) as A.
  eapply adds_weaken; [|exact A]. lia.
Qed.

(** Who gets the money of a withdrawal. *)
Lemma withdraw_money C s n (repair : bool) w ok w' :
  (if repair then mret true else ModifyMoney s (s32 n) : GW bool) w = Ok (ok, w') → 0 ≤ n ≤ MAX_MONEY_AMOUNT →
  adds C (if ok && negb repair then n else 0) w w' ∧ guilds w' = guilds w.
Proof.
  intros H Hn. assert (s32 n = n) as Es by (unfold s32; unfold MAX_MONEY_AMOUNT in *; zlia). rewrite Es in H.
  destruct repair; [grun; split; [intros Hw; split; [done|cbn; lia]|done]|].
  apply (ModifyMoney_adds C) in H as (H1 & H2 & _); [by destruct ok|lia..].
Qed.
Lemma withdraw_adds a s n repair w ok w' :
  HandleMemberWithdrawMoney a s n repair w = Ok (ok, w') → 0 ≤ n → is_Some (players w !! s) → adds ∅ 0 w w'.
Proof.
  intros H Hn Hs. unfold HandleMemberWithdrawMoney in H.
  assert (0 ≤ n `min` MAX_MONEY_AMOUNT ≤ MAX_MONEY_AMOUNT) as Hn' by (unfold MAX_MONEY_AMOUNT; lia).
  generalize dependent (n `min` MAX_MONEY_AMOUNT). clear n Hn. intros n H Hn.
  apply bind_Ok in H as (g & w0 & [Hg ->]%guild_at_Ok & H).
  destruct (Z.ltb_spec (m_bankMoney g) n) as [|Hb]; [by run_inv|]. destruct (GetMember g s); [|by run_inv].
  run_inv. destruct (_ <? n); [by run_inv|]. run_inv.
  match goal with
  | E1 : BeginTransaction w = Ok (_, ?w1), E2 : (if _ then _ else _) ?w1 = Ok (?ok, ?w2) |- _ =>
    assert (guilds w1 = guilds w) as G1 by (unfold BeginTransaction in E1; by grun);
    pose proof (frugal_Begin ∅ _ _ _ E1) as A0; pose proof (frugal_Begin {[s]} _ _ _ E1) as A1;
    pose proof (withdraw_money ∅ _ _ _ _ _ _ E2 Hn) as [A0' _];
    apply (withdraw_money {[s]}) in E2 as [A2 G2]; [|done]; destruct ok; cbn [negb andb] in H, A2, A0'
  end.
  2: { run_inv. exact (adds_trans _ _ _ _ _ _ A0 A0'). }
  run_inv.
  match goal with
  | E3 : when _ _ ?w2 = Ok (_, ?w3), E4 : on_member _ _ _ ?w3 = Ok (_, ?w4), E5 : ModifyBankMoney _ _ _ ?w4 = Ok (_, ?w5),
    E6 : LogBankEvent _ _ _ _ _ _ _ ?w5 = Ok (_, ?w6), E7 : CommitTransaction ?w6 = Ok (_, ?w7) |- _ =>
    assert (adds {[s]} 0 w2 w3 ∧ guilds w3 = guilds w2) as [A3 G3];
    [destruct repair; cbn in E3; [run_inv; split; [intros ?; split; [done|lia]|done]|];
     split; [exact (frugal_SaveGold s _ _ _ E3)|unfold SaveGoldToDB, Append in E3; by grun]|];
    pose proof (frugal_on_member {[s]} a s _ (λ m, money_stmts_withdraw _ m _ _) _ _ _ E4) as A4;
    apply same_banks_on_member in E4 as [B4 _];
    assert (banks_of w4 = banks_of w) as B by (rewrite B4; unfold banks_of; congruence);
    assert (banks_of w4 !! a = Some (m_bankMoney g)) as (g4 & Hg4 & Eg4)%banks_at_inv by (rewrite B; by apply banks_at);
    apply (ModifyBankMoney_take {[s]} _ _ _ _ _ g4) in E5 as [A5 _]; [|done|lia];
    eapply (money_request s w w7); [done| |by eapply commit_trans|eapply quiet_frugal; [apply quiet_BroadcastMoney|done]];
    pose proof (quiet_frugal {[s]} _ (quiet_LogBankEvent _ _ _ _ _ _ _) _ _ _ E6) as A6;
    pose proof (frugal_Commit {[s]} _ _ _ E7) as A7
  end.
  pose proof (adds_trans _ _ _ _ _ _ (adds_trans _ _ _ _ _ _ (adds_trans _ _ _ _ _ _ (adds_trans _ _ _ _ _ _
    (adds_trans _ _ _ _ _ _ (adds_trans _ _ _ _ _ _ A1 A2) A3) A4) A5) A6) A7) as A.
  eapply adds_weaken; [|exact A]. destruct repair; cbn; lia.
Qed.

(** ** Ranks, tabs and emblems *)
Lemma money_missing C id l : ∀ r r' s, missing_tabs id r l = Ok (r', s) → Forall (money_stmt C) s.
Proof.
  induction l as [|i l IH]; intros r r' s H; cbn in H; [by injection H as _ <-|].
  destruct (nthZ _ i); [|done]. destruct (_ =? _); [by eapply IH|].
  destruct (missing_tabs _ _ l) as [[r1 s1]| | | |] eqn:E; try done. cbn in H. injection H as _ <-.
  constructor; [done|]. by eapply IH.
Qed.
Lemma frugal_on_rank C a i f :
  (∀ r r' l, f r = Ok (r', l) → Forall (money_stmt C) l) → keeps (frugal C) (on_rank a i f).
Proof.
  intros Hf. unfold on_rank. apply keeps_bind; [apply _|gmoney_leaf|intros g].
  apply keeps_lift_bind; intros r _. apply keeps_lift_bind; intros [r' l] E.
  repeat keeps_step gmoney_leaf. apply frugal_Appends. by eapply Hf.
Qed.
Lemma frugal_CreateMissing C a i tabs : keeps (frugal C) (on_rank a i (λ r, CreateMissingTabsIfNeeded a r tabs)).
Proof. apply frugal_on_rank. intros r r' l. apply money_missing. Qed.
Lemma frugal_CreateNewBankTab C a : keeps (frugal C) (CreateNewBankTab a).
Proof. unfold CreateNewBankTab. repeat keeps_step gmoney_leaf. apply frugal_CreateMissing. Qed.

Lemma no_change C w : frugal C w w.
Proof. reflexivity. Qed.
Lemma buy_adds a s tab w u w' : HandleBuyBankTab a s tab w = Ok (u, w') → adds ∅ 0 w w'.
Proof.
  intros H Hw. unfold HandleBuyBankTab in H. apply bind_Ok in H as (p & w0 & [Hp ->]%guild_player_at_Ok & H).
  pose proof (mn_players _ _ Hw _ _ Hp) as Hmax. revert Hw.
  apply bind_Ok in H as (g & w0 & [Hg ->]%guild_at_Ok & H).
  destruct (GetMember g s); [|run_inv; apply no_change]. do 2 (destruct (_ : bool); [run_inv; apply no_change|]).
  set (cost := u32 _) in H. destruct (cost =? 0); [run_inv; apply no_change|].
  destruct (HasEnoughMoney p cost) eqn:Ec; cbn [negb] in H; [|run_inv; apply no_change].
  unfold HasEnoughMoney in Ec. b2p. assert (0 ≤ cost) as Hc by (apply wrap_range; lia). run_inv.
  match goal with
  | E1 : BeginTransaction w = Ok (_, ?w1), E3 : TakeMoney _ _ ?w1 = Ok (_, ?w3),
    E4 : SaveGoldToDB _ ?w3 = Ok (_, ?w4), E5 : CreateNewBankTab _ ?w4 = Ok (_, ?w5),
    E6 : BroadcastEvent _ _ _ _ ?w5 = Ok (_, ?w6), E7 : SendPermissions _ _ ?w6 = Ok (_, ?w7) |- _ =>
    pose proof (frugal_Begin {[s]} _ _ _ E1) as A1;
    assert (players w1 = players w) as Pw by (unfold BeginTransaction in E1; by grun);
    apply (TakeMoney_adds {[s]} _ _ _ _ _ p) in E3 as (A3 & _ & _); [|by rewrite Pw|lia..];
    pose proof (frugal_SaveGold s _ _ _ E4) as A4;
    pose proof (frugal_CreateNewBankTab {[s]} _ _ _ _ E5) as A5;
    pose proof (quiet_frugal {[s]} _ (quiet_BroadcastEvent _ _ _ _) _ _ _ E6) as A6;
    pose proof (quiet_frugal {[s]} _ (quiet_SendPermissions _ _) _ _ _ E7) as A7
  end.
  pose proof (frugal_Commit {[s]} _ _ _ H) as A8.
  pose proof (adds_trans _ _ _ _ _ _ (adds_trans _ _ _ _ _ _ (adds_trans _ _ _ _ _ _ (adds_trans _ _ _ _ _ _
    (adds_trans _ _ _ _ _ _ (adds_trans _ _ _ _ _ _ A1 A3) A4) A5) A6) A7) A8) as A.
  eapply (money_request s w w'); [eauto| |by eapply commit_trans|apply no_change]. eapply adds_weaken; [|exact A]. lia.
Qed.
Lemma emblem_adds a s e w u w' : HandleSetEmblem a s e w = Ok (u, w') → adds ∅ 0 w w'.
Proof.
  intros H Hw. unfold HandleSetEmblem in H. apply bind_Ok in H as (p & w0 & [Hp ->]%guild_player_at_Ok & H).
  pose proof (mn_players _ _ Hw _ _ Hp) as Hmax. revert Hw.
  apply bind_Ok in H as (g & w0 & [Hg ->]%guild_at_Ok & H).
  destruct (IsLeader g s); cbn [negb] in H; [|by eapply quiet_frugal; [apply quiet_SendSaveEmblemResult|exact H]].
  destruct (HasEnoughMoney p EMBLEM_PRICE) eqn:Ec; cbn [negb] in H;
    [|by eapply quiet_frugal; [apply quiet_SendSaveEmblemResult|exact H]].
  unfold HasEnoughMoney, EMBLEM_PRICE, GOLD in *. b2p. run_inv.
  match goal with
  | E1 : BeginTransaction w = Ok (_, ?w1), E3 : TakeMoney _ _ ?w1 = Ok (_, ?w3),
    E4 : SaveGoldToDB _ ?w3 = Ok (_, ?w4), E5 : upd_guild _ _ ?w4 = Ok (_, ?w5), E5' : Append _ ?w5 = Ok (_, ?w5'),
    E6 : SendSaveEmblemResult _ _ ?w5' = Ok (_, ?w6), E7 : HandleQuery _ _ ?w6 = Ok (_, ?w7) |- _ =>
    pose proof (frugal_Begin {[s]} _ _ _ E1) as A1;
    assert (players w1 = players w) as Pw by (unfold BeginTransaction in E1; by grun);
    apply (TakeMoney_adds {[s]} _ _ _ _ _ p) in E3 as (A3 & _ & _); [|by rewrite Pw|lia..];
    pose proof (frugal_SaveGold s _ _ _ E4) as A4;
    pose proof (frugal_upd_guild {[s]} a (λ g, set_m_emblemInfo g e) (λ _, eq_refl) _ _ _ E5) as A5; pose proof (frugal_Append {[s]} (CHAR_UPD_GUILD_EMBLEM_INFO e a) I _ _ _ E5') as A5';
    pose proof (quiet_frugal {[s]} _ (quiet_SendSaveEmblemResult _ _) _ _ _ E6) as A6;
    pose proof (quiet_frugal {[s]} _ (quiet_HandleQuery _ _) _ _ _ E7) as A7
  end.
  pose proof (frugal_Commit {[s]} _ _ _ H) as A8.
  pose proof (adds_trans _ _ _ _ _ _ (adds_trans _ _ _ _ _ _ (adds_trans _ _ _ _ _ _ (adds_trans _ _ _ _ _ _
    (adds_trans _ _ _ _ _ _ (adds_trans _ _ _ _ _ _ (adds_trans _ _ _ _ _ _ A1 A3) A4) A5) A5') A6) A7) A8) as A.
  eapply (money_request s w w'); [eauto| |by eapply commit_trans|apply no_change]. eapply adds_weaken; [|exact A]. lia.
Qed.
End moves.
#[export] Hint Resolve frugal_on_member frugal_CreateMissing frugal_CreateNewBankTab money_stmts_withdraw : gmoney.

(** ** Everything else *)
Section rest.
Context `{GE : GuildEnv} (C : gset Z).

Lemma frugal_upd_member a guid f : keeps (frugal C) (upd_member a guid f).
Proof. by apply frugal_upd_guild. Qed.
Lemma frugal_on_tab a tab f : (∀ t, Forall (money_stmt C) (f t).2) → keeps (frugal C) (on_tab a tab f).
Proof.
  intros Hf. unfold on_tab. repeat keeps_step gmoney_leaf. apply frugal_Appends.
  match goal with E : f ?m = _ |- _ => specialize (Hf m); by rewrite E in Hf end.
Qed.
Lemma frugal_on_rank' a i f : (∀ r, Forall (money_stmt C) (f r).2) → keeps (frugal C) (on_rank' a i f).
Proof. intros Hf. apply frugal_on_rank. intros r r' l [= E]. specialize (Hf r). by rewrite E in Hf. Qed.
Lemma frugal_SendLoginInfo a s : keeps (frugal C) (SendLoginInfo a s).
Proof. unfold SendLoginInfo. repeat keeps_step gmoney_leaf. apply frugal_upd_member. Qed.
Lemma frugal_ChangeRank a guid r : keeps (frugal C) (ChangeRank a guid r).
Proof. unfold ChangeRank. repeat keeps_step gmoney_leaf. apply frugal_upd_member. Qed.
Lemma frugal_SetLeaderGUID a leader : keeps (frugal C) (SetLeaderGUID a leader).
Proof. unfold SetLeaderGUID. repeat keeps_step gmoney_leaf. apply frugal_ChangeRank. Qed.
Lemma frugal_CreateRank a name rights : keeps (frugal C) (CreateRank a name rights).
Proof.
  unfold CreateRank. apply keeps_bind; [apply _|gmoney_leaf|intros g]. keeps_step gmoney_leaf; [apply keeps_ret, _|].
  cbv zeta. keeps_step gmoney_leaf; [gmoney_leaf|]. apply keeps_lift_bind. intros [r l] E.
  repeat keeps_step gmoney_leaf. apply frugal_Appends. by eapply money_missing.
Qed.
Lemma frugal_SetRank a i x save : keeps (frugal C) (SetRankBankTabRightsAndSlots a i x save).
Proof.
  unfold SetRankBankTabRightsAndSlots. repeat keeps_step gmoney_leaf. apply frugal_on_rank.
  unfold SetBankTabSlotsAndRights. intros q q' l H. destruct (nthZ _ _); [|done]. injection H as _ <-.
  destruct save; repeat constructor.
Qed.
Lemma frugal_AddMember a guid r : keeps (frugal C) (AddMember a guid r).
Proof. unfold AddMember. repeat keeps_step gmoney_leaf; apply frugal_SendLoginInfo. Qed.
Lemma frugal_EraseMember a guid b : keeps (frugal C) (EraseMember a guid b).
Proof. unfold EraseMember. gmoney_solve. Qed.
Lemma frugal_erase_all fuel a : keeps (frugal C) (erase_all fuel a).
Proof.
  induction fuel as [|fuel IH]; cbn; repeat keeps_step gmoney_leaf; first [apply frugal_EraseMember|apply IH].
Qed.
Lemma frugal_DeleteTabItems t : keeps (frugal C) (DeleteTabItems t).
Proof. unfold DeleteTabItems. gmoney_solve. Qed.
Lemma frugal_DeleteBankItems a : keeps (frugal C) (DeleteBankItems a).
Proof. unfold DeleteBankItems. repeat keeps_step gmoney_leaf. apply frugal_DeleteTabItems. Qed.
Lemma frugal_Disband a : keeps (frugal C) (Disband a).
Proof.
  unfold Disband. repeat keeps_step gmoney_leaf; first [apply frugal_erase_all|apply frugal_DeleteBankItems].
Qed.
Lemma frugal_DeleteMember a guid : keeps (frugal C) (DeleteMember a guid).
Proof.
  unfold DeleteMember. repeat keeps_step gmoney_leaf;
    first [apply frugal_Disband|apply frugal_SetLeaderGUID|apply frugal_EraseMember].
Qed.
Lemma frugal_ChangeMemberRank a guid r : keeps (frugal C) (ChangeMemberRank a guid r).
Proof. unfold ChangeMemberRank. repeat keeps_step gmoney_leaf. apply frugal_ChangeRank. Qed.
Lemma frugal_CreateDefaultGuildRanks a loc : keeps (frugal C) (CreateDefaultGuildRanks a loc).
Proof. unfold CreateDefaultGuildRanks. repeat keeps_step gmoney_leaf. apply frugal_CreateRank. Qed.
(** A new guild has no money, whatever was there. *)
Lemma frugal_set_money a f : (∀ g, m_bankMoney (f g) = 0) → keeps (frugal C) (upd_guild a f).
Proof.
  intros Hf w u w' H. grun. intros Hw. destruct Hw as [H1 H2 H3 H4 H5]. split.
  - split; try done. cbn. intros b g' [[<- <-]|[_ Hb]]%lookup_insert_Some; [by rewrite Hf|eauto].
  - unfold wealth, money_of, saved_of, banks_of. cbn. rewrite fmap_insert, Hf.
    match goal with |- context [total (<[?k := 0]> ?m)] => assert (total (<[k := 0]> m) ≤ total m + 0) as HT end; [|lia].
    apply total_overwrite. intros b y [g [<- Hg]]%lookup_fmap_Some. eauto.
Qed.
Lemma frugal_Create a leader loc : keeps (frugal C) (Create a leader loc).
Proof.
  unfold Create. repeat keeps_step gmoney_leaf;
    first [by apply frugal_set_money|apply frugal_CreateDefaultGuildRanks|apply frugal_AddMember].
Qed.
Lemma frugal_CreateGuild leader name : keeps (frugal C) (CreateGuild leader name).
Proof.
  unfold CreateGuild, GenerateGuildId. repeat keeps_step gmoney_leaf; [|apply frugal_Create].
  intros w u w' H. grun. intros [H1 H2 H3 H4 H5]. split.
  - split; try done. cbn. intros b g' [[<- <-]|[_ Hb]]%lookup_insert_Some; [done|eauto].
  - unfold wealth, money_of, saved_of, banks_of. cbn. rewrite fmap_insert.
    match goal with |- context [total (<[?k := ?x]> ?m)] => assert (total (<[k := x]> m) ≤ total m + x) as HT end; [|cbn in *; lia].
    apply total_overwrite. intros b y [g [<- Hg]]%lookup_fmap_Some. eauto.
Qed.
Lemma frugal_RunRemoval id : keeps (frugal C) (RunRemoval id).
Proof.
  intros w u w' H. unfold RunRemoval in H. grun. intros [H1 H2 H3 H4 H5]. split.
  - split; try done. cbn. intros b g' [_ Hb]%lookup_delete_Some. eauto.
  - unfold wealth, money_of, saved_of, banks_of. cbn. rewrite fmap_delete.
    destruct (guilds w !! id) as [g|] eqn:E; [|rewrite (delete_id (m_bankMoney <$> guilds w)); [lia|by rewrite lookup_fmap, E]].
    rewrite (total_delete _ _ (m_bankMoney g)); [|by rewrite lookup_fmap, E]. pose proof (H5 id g E). lia.
Qed.
End rest.

End GuildWealth.
