(* ===== verification/GuildSpending.v ===== *)
(** * No request makes money *)
From stdpp Require Import pretty.
From S2P Require Import Prelude StateMonad GuildData GuildLog GuildParts Guilds GuildBank GuildHandlers GuildRun GuildMoney.
From S2P Require Import GuildWealth.

Module GuildSpending.
Export GuildWealth.

#[export] Hint Resolve frugal_upd_member frugal_SendLoginInfo frugal_ChangeRank frugal_SetLeaderGUID frugal_CreateRank
  frugal_SetRank frugal_AddMember frugal_EraseMember frugal_Disband frugal_DeleteMember frugal_ChangeMemberRank
  frugal_CreateGuild frugal_RunRemoval : gmoney.

Section handlers.
Context `{GE : GuildEnv} (C : gset Z).

Lemma frugal_HandleSetRankInfo a s i name rights money l : keeps (frugal C) (HandleSetRankInfo a s i name rights money l).
Proof.
  unfold HandleSetRankInfo. repeat keeps_step gmoney_leaf; apply frugal_on_rank'; intros q.
  - unfold SetRankName. case_decide; by repeat constructor.
  - unfold SetRights. destruct (_ =? GR_GUILDMASTER), (_ =? _); by repeat constructor.
  - unfold SetBankMoneyPerDay. destruct (_ =? GR_GUILDMASTER), (_ =? _); by repeat constructor.
Qed.
Lemma frugal_HandleAddNewRank a s name : keeps (frugal C) (HandleAddNewRank a s name).
Proof. unfold HandleAddNewRank. gmoney_solve. Qed.
Lemma frugal_RemoveRank a s i : keeps (frugal C) (RemoveRank a s i).
Proof. unfold RemoveRank. gmoney_solve. Qed.
Lemma frugal_HandleSetLeader a s name : keeps (frugal C) (HandleSetLeader a s name).
Proof. unfold HandleSetLeader. gmoney_solve. Qed.
Lemma frugal_HandleInviteMember a s name : keeps (frugal C) (HandleInviteMember a s name).
Proof. unfold HandleInviteMember. gmoney_solve. Qed.
Lemma frugal_HandleAcceptMember a s : keeps (frugal C) (HandleAcceptMember a s).
Proof. unfold HandleAcceptMember. gmoney_solve. Qed.
Lemma frugal_HandleLeaveMember a s : keeps (frugal C) (HandleLeaveMember a s).
Proof. unfold HandleLeaveMember. gmoney_solve. Qed.
Lemma frugal_HandleRemoveMember a s name : keeps (frugal C) (HandleRemoveMember a s name).
Proof. unfold HandleRemoveMember. gmoney_solve. Qed.
Lemma frugal_HandleUpdateMemberRank a s name b : keeps (frugal C) (HandleUpdateMemberRank a s name b).
Proof. unfold HandleUpdateMemberRank. gmoney_solve. Qed.
Lemma frugal_HandleDisband a s : keeps (frugal C) (HandleDisband a s).
Proof. unfold HandleDisband. gmoney_solve. Qed.
Lemma frugal_HandleSetMemberNote a s name note b : keeps (frugal C) (HandleSetMemberNote a s name note b).
Proof.
  unfold HandleSetMemberNote. repeat keeps_step gmoney_leaf. apply frugal_on_member. intros mb.
  unfold SetOfficerNote, SetPublicNote. destruct b; case_decide; by repeat constructor.
Qed.
Lemma frugal_ResetTimes a : keeps (frugal C) (ResetTimes a).
Proof. unfold ResetTimes. gmoney_solve. Qed.
Lemma frugal_HandleMemberLogout a s : keeps (frugal C) (HandleMemberLogout a s).
Proof. unfold HandleMemberLogout. gmoney_solve. Qed.
Lemma frugal_SetName a name : keeps (frugal C) (SetName a name).
Proof. unfold SetName. gmoney_solve. Qed.
Lemma frugal_HandleSetMOTD a s x : keeps (frugal C) (HandleSetMOTD a s x).
Proof. unfold HandleSetMOTD. gmoney_solve. Qed.
Lemma frugal_HandleSetInfo a s x : keeps (frugal C) (HandleSetInfo a s x).
Proof. unfold HandleSetInfo. gmoney_solve. Qed.
Lemma frugal_HandleSetBankTabInfo a s t n i : keeps (frugal C) (HandleSetBankTabInfo a s t n i).
Proof.
  unfold HandleSetBankTabInfo. repeat keeps_step gmoney_leaf. apply frugal_on_tab. intros x.
  unfold SetInfo. case_decide; by repeat constructor.
Qed.
Lemma frugal_SetBankTabText a t x : keeps (frugal C) (SetBankTabText a t x).
Proof.
  unfold SetBankTabText. repeat keeps_step gmoney_leaf. apply frugal_on_tab. intros y.
  unfold SetText. case_decide; by repeat constructor.
Qed.

(** ** The bank's items *)
Lemma frugal_store_item p it : keeps (frugal C) (store_item p it).
Proof. unfold store_item. gmoney_solve. Qed.
Lemma frugal_CloneItem p n : keeps (frugal C) (CloneItem p n).
Proof. unfold CloneItem. repeat keeps_step gmoney_leaf. apply frugal_store_item. Qed.
Lemma frugal_SetItem a tab slot p : keeps (frugal C) (SetItem a tab slot p).
Proof. unfold SetItem. repeat keeps_step gmoney_leaf; apply frugal_store_item. Qed.
Lemma frugal_RemoveBankItem a tab slot : keeps (frugal C) (RemoveBankItem a tab slot).
Proof. unfold RemoveBankItem. repeat keeps_step gmoney_leaf. apply frugal_SetItem. Qed.
Lemma frugal_UpdateMemberWithdrawSlots a s tab : keeps (frugal C) (UpdateMemberWithdrawSlots a s tab).
Proof. unfold UpdateMemberWithdrawSlots. gmoney_solve. Qed.
Lemma frugal_RemoveItem a s d o n : keeps (frugal C) (RemoveItem a s d o n).
Proof.
  unfold RemoveItem. repeat keeps_step gmoney_leaf;
    first [apply frugal_store_item|apply frugal_RemoveBankItem|apply frugal_UpdateMemberWithdrawSlots].
Qed.
Lemma frugal_StoreItemAt a tab p slot n c : keeps (frugal C) (StoreItemAt a tab p slot n c).
Proof.
  unfold StoreItemAt. repeat keeps_step gmoney_leaf;
    first [apply frugal_store_item|apply frugal_CloneItem|apply frugal_SetItem].
Qed.
Lemma frugal_StoreItems a tab p vec : keeps (frugal C) (StoreItems a tab p vec).
Proof.
  induction vec as [|[slot n] vec IH]; cbn; repeat keeps_step gmoney_leaf; first [apply frugal_StoreItemAt|apply IH].
Qed.
Lemma frugal_StoreItem a tab p vec : keeps (frugal C) (StoreItem a tab p vec).
Proof. unfold StoreItem. repeat keeps_step gmoney_leaf. apply frugal_StoreItems. Qed.
Lemma frugal_DoItemsMove a s d o b n : keeps (frugal C) (DoItemsMove a s d o b n).
Proof.
  unfold DoItemsMove. repeat keeps_step gmoney_leaf; first [apply frugal_RemoveItem|apply frugal_StoreItem].
Qed.
Lemma frugal_MoveItems a s d o n : keeps (frugal C) (MoveItems a s d o n).
Proof.
  unfold MoveItems. repeat keeps_step gmoney_leaf; first [apply frugal_CloneItem|apply frugal_DoItemsMove].
Qed.
Lemma frugal_SwapItems a s t i t' i' n : keeps (frugal C) (SwapItems a s t i t' i' n).
Proof. unfold SwapItems. repeat keeps_step gmoney_leaf. apply frugal_MoveItems. Qed.
Lemma frugal_SendBankTabsInfo a s b : keeps (frugal C) (SendBankTabsInfo a s b).
Proof. unfold SendBankTabsInfo. gmoney_solve. Qed.
Lemma frugal_LoadBankItemFromDB a row : keeps (frugal C) (LoadBankItemFromDB a row).
Proof. unfold LoadBankItemFromDB. repeat keeps_step gmoney_leaf; apply frugal_store_item. Qed.
Lemma frugal_BankItemsLoaded : keeps (frugal C) BankItemsLoaded.
Proof.
  unfold BankItemsLoaded. repeat keeps_step gmoney_leaf; first [apply frugal_LoadBankItemFromDB|apply frugal_SendBankTabsInfo].
Qed.
End handlers.

(** ** Spending *)
Section spending.
Context `{GE : GuildEnv}.

Lemma player_at_frugal {A} s (k : Player → GW A) :
  (∀ p w a w', players w !! s = Some p → k p w = Ok (a, w') → frugal ∅ w w') →
  keeps (frugal ∅) (p ← player_at s; k p).
Proof. intros H w a w' (p & w1 & [Hp ->]%guild_player_at_Ok & E)%bind_Ok. by eapply H. Qed.
Lemma with_guild_run s (k : Z → GW unit) w u w' :
  with_guild s k w = Ok (u, w') → w' = w ∨ ∃ a p, players w !! s = Some p ∧ k a w = Ok (u, w').
Proof.
  intros E. unfold with_guild in E. apply bind_Ok in E as (o & w1 & E1 & E). unfold GetGuild in E1. grun.
  destruct (GetGuildId _ =? 0); [left; by grun|]. destruct (bool_decide _); [|left; by grun]. right. eauto.
Qed.
Lemma GetGuild_same s w o w' : GetGuild s w = Ok (o, w') → w' = w.
Proof. unfold GetGuild. intros E. by grun. Qed.

Lemma frugal_Deposit s go n : 0 ≤ n → keeps (frugal ∅) (HandleGuildBankDepositMoney s go n).
Proof.
  intros Hn w u w' E. unfold HandleGuildBankDepositMoney in E. destruct (CanUseGuildBank go); [|by run_inv].
  grun. destruct (negb _ && _) eqn:Ec; [|by run_inv]. unfold HasEnoughMoney in Ec. b2p.
  apply with_guild_run in E as [->|(this & p & Hp & E)]; [done|]. simplify_eq.
  eapply deposit_adds; [exact E|done|lia].
Qed.
Lemma frugal_Withdraw s go n : 0 ≤ n → keeps (frugal ∅) (HandleGuildBankWithdrawMoney s go n).
Proof.
  intros Hn w u w' E. unfold HandleGuildBankWithdrawMoney in E. destruct (_ && _); [|by run_inv].
  apply with_guild_run in E as [->|(this & p & Hp & E)]; [done|]. run_inv. eapply withdraw_adds; eauto.
Qed.
Lemma frugal_Repair s n : 0 ≤ n → keeps (frugal ∅) (GuildRepair s n).
Proof.
  intros Hn w u w' E. unfold GuildRepair in E. grun. destruct (GetGuildId a =? 0); [by run_inv|].
  destruct (guilds w !! GetGuildId a); [|by run_inv]. run_inv. eapply withdraw_adds; eauto.
Qed.
Lemma frugal_BuyTab s go tab : keeps (frugal ∅) (HandleGuildBankBuyTab s go tab).
Proof.
  intros w u w' E. unfold HandleGuildBankBuyTab in E. destruct (CanUseGuildBank go); [|by run_inv].
  apply with_guild_run in E as [->|(this & p & Hp & E)]; [done|]. by eapply buy_adds.
Qed.
Lemma frugal_Emblem s v e : keeps (frugal ∅) (HandleSaveGuildEmblemOpcode s v e).
Proof.
  intros w u w' E. unfold HandleSaveGuildEmblemOpcode in E.
  destruct (CanUseTabardDesigner v); [|by eapply quiet_frugal; [apply quiet_SendSaveEmblemResult|exact E]].
  apply bind_Ok in E as (o & w1 & ->%GetGuild_same & E). destruct o.
  - by eapply emblem_adds.
  - by eapply quiet_frugal; [apply quiet_SendSaveEmblemResult|exact E].
Qed.

(** ** Coming and going *)
Lemma saved_login w s p :
  players w !! s = None → ∀ x, default 0 (characters_money (tables w) !! s) = x →
  total (saved_of (set_players w (<[s := p]> (players w)))) = total (saved_of w) - x.
Proof.
  intros Hs x Hx. assert (saved_of (set_players w (<[s := p]> (players w))) = delete s (saved_of w)) as ->.
  { apply map_eq. intros g. apply option_eq. intros y.
    rewrite lookup_delete_Some. unfold saved_of. rewrite !map_lookup_filter_Some. cbn.
    destruct (decide (s = g)) as [<-|Hn]; [rewrite lookup_insert_eq; naive_solver|].
    rewrite lookup_insert_ne by done. naive_solver. }
  assert (saved_of w !! s = characters_money (tables w) !! s) as Es.
  { apply option_eq. intros y. unfold saved_of. rewrite map_lookup_filter_Some. naive_solver. }
  destruct (characters_money (tables w) !! s) as [y|] eqn:E; cbn in Hx; subst x.
  - by apply total_delete.
  - rewrite delete_id by done. lia.
Qed.
Lemma frugal_login w s p :
  players w !! s = None → 0 ≤ GetMoney p ≤ MAX_MONEY_AMOUNT →
  GetMoney p ≤ default 0 (characters_money (tables w) !! s) →
  frugal ∅ w (set_players w (<[s := p]> (players w))).
Proof.
  intros Hs Hp Hle [H1 H2 H3 H4 H5]. split.
  - split; try done. cbn. intros g q [[<- <-]|[_ Hq]]%lookup_insert_Some; eauto.
  - unfold wealth. rewrite (saved_login w s p Hs _ eq_refl). unfold money_of, banks_of. cbn.
    rewrite fmap_insert, total_insert by (by rewrite lookup_fmap, Hs). lia.
Qed.
Lemma frugal_PlayerLogin s p : keeps (frugal ∅) (PlayerLogin s p).
Proof.
  intros w u w' E Hw. revert Hw. unfold PlayerLogin in E. grun. destruct (connected w s || _) eqn:Ec; [run_inv; apply no_change|].
  apply orb_false_iff in Ec as [Ec _]. unfold connected, FindConnectedPlayer in Ec.
  apply bool_decide_eq_false, eq_None_not_Some in Ec. intros Hw.
  destruct (match guild_member (tables w) !! s with Some r => _ | None => _ end) as [id rank].
  apply bind_Ok in E as (u1 & w1 & [-> ->]%modify_Ok & E).
  match goal with H : _ = Ok (u, w') |- _ => match type of H with ?k (set_players w (<[s := ?q]> _)) = _ =>
    assert (frugal ∅ w (set_players w (<[s := q]> (players w)))) as HA end end.
  { apply frugal_login; [done|..]; cbn; set (x := default 0 _).
    - pose proof (wrap_range 32 x). unfold MAX_MONEY_AMOUNT, u32 in *. zlia.
    - assert (0 ≤ x) by (subst x; destruct (characters_money (tables w) !! s) eqn:El; cbn; [by eapply mn_saved|done]).
      unfold u32. zlia. }
  destruct (HA Hw) as [HB LB].
  enough (frugal ∅ (set_players w (<[s := mkPlayer (u32 (default 0 (characters_money (tables w) !! s)) `min` MAX_MONEY_AMOUNT)
    id rank 0 (IsInWorld p) (GetTeam p) (GetOTeam p) (ignores p) (IsSecretQueuingActive p) (locale p)]> (players w))) w') as HC.
  { destruct (HC HB). split; [done|lia]. }
  destruct (id =? 0); [by run_inv|]. destruct (guilds _ !! id).
  - by eapply frugal_SendLoginInfo.
  - eapply frugal_upd_player; [|exact E]. done.
Qed.
(** The money of a player that goes is saved where there is a row for it. *)
Lemma saved_logout w s p :
  players w !! s = Some p →
  saved_of (set_players (set_tables w (set_characters_money (tables w) (alter (λ _, GetMoney p) s (characters_money (tables w)))))
              (delete s (players w))) =
  match characters_money (tables w) !! s with Some _ => <[s := GetMoney p]> (saved_of w) | None => saved_of w end.
Proof.
  intros Hp. apply map_eq. intros g. apply option_eq. intros y.
  transitivity (alter (λ _, GetMoney p) s (characters_money (tables w)) !! g = Some y ∧ delete s (players w) !! g = None).
  { unfold saved_of. by rewrite map_lookup_filter_Some. }
  destruct (decide (s = g)) as [<-|Hn].
  - rewrite lookup_alter_eq, lookup_delete_eq. destruct (characters_money (tables w) !! s) eqn:Er; cbn.
    + rewrite lookup_insert_eq. naive_solver.
    + unfold saved_of. rewrite map_lookup_filter_Some. naive_solver.
  - rewrite lookup_alter_ne, lookup_delete_ne by done.
    destruct (characters_money (tables w) !! s); [rewrite lookup_insert_ne by done|];
      unfold saved_of; by rewrite map_lookup_filter_Some.
Qed.
Lemma frugal_logout w s p :
  players w !! s = Some p →
  frugal ∅ w (set_players (set_tables w (ExecuteTransaction [CHAR_UPD_CHAR_MONEY (GetMoney p) s] (tables w)))
                (delete s (players w))).
Proof.
  intros Hp [H1 H2 H3 H4 H5]. pose proof (H3 s p Hp) as Hr. split.
  - split; try done; cbn.
    + intros g q [_ Hq]%lookup_delete_Some. eauto.
    + intros g x [(<- & y & Hy & ->)|[_ Hx]]%lookup_alter_Some; [lia|eauto].
  - unfold wealth. change (ExecuteTransaction [CHAR_UPD_CHAR_MONEY (GetMoney p) s] (tables w))
      with (set_characters_money (tables w) (alter (λ _, GetMoney p) s (characters_money (tables w)))).
    rewrite (saved_logout w s p Hp). unfold money_of, banks_of. cbn.
    rewrite fmap_delete, (total_delete _ _ (GetMoney p)) by (by rewrite lookup_fmap, Hp).
    destruct (characters_money (tables w) !! s) eqn:Er; [|lia].
    rewrite total_insert; [lia|]. unfold saved_of. apply map_lookup_filter_None. right. cbn. naive_solver.
Qed.
Lemma frugal_LogoutPlayer s : keeps (frugal ∅) (LogoutPlayer s).
Proof.
  intros w u w' E. unfold LogoutPlayer in E. apply bind_Ok in E as (p & w1 & [Hp ->]%guild_player_at_Ok & E).
  apply bind_Ok in E as (w0 & w1 & E1 & E). injection E1 as <- <-.
  apply bind_Ok in E as (u1 & w1 & E1 & E).
  assert (frugal ∅ w w1 ∧ players w1 = players w) as [HA HP].
  { destruct (guilds w !! GetGuildId p); [|by run_inv]. split; [by eapply frugal_HandleMemberLogout|].
    unfold HandleMemberLogout, upd_member in E1. grun.
    match goal with E : BroadcastEvent _ _ _ _ _ = _ |- _ => by rewrite (qu_players _ _ (quiet_BroadcastEvent _ _ _ _ _ _ _ E)) end. }
  unfold Execute in E. grun. etransitivity; [exact HA|]. 
  assert (players w1 !! s = Some p) as Hp1 by by rewrite HP. exact (frugal_logout w1 s p Hp1).
Qed.
End spending.

#[export] Hint Resolve frugal_HandleSetRankInfo frugal_HandleAddNewRank frugal_RemoveRank frugal_HandleSetLeader
  frugal_HandleInviteMember frugal_HandleAcceptMember frugal_HandleLeaveMember frugal_HandleRemoveMember
  frugal_HandleUpdateMemberRank frugal_HandleDisband frugal_HandleSetMemberNote frugal_ResetTimes frugal_SetName
  frugal_HandleSetMOTD frugal_HandleSetInfo frugal_HandleSetBankTabInfo frugal_SetBankTabText frugal_SwapItems
  frugal_SendBankTabsInfo frugal_BankItemsLoaded frugal_BuyTab frugal_Emblem frugal_PlayerLogin frugal_LogoutPlayer : gmoney.

Section run.
Context `{GE : GuildEnv}.

Lemma frugal_with_guild s k : (∀ a, keeps (frugal ∅) (k a)) → keeps (frugal ∅) (with_guild s k).
Proof. intros H. unfold with_guild. repeat keeps_step gmoney_leaf. Qed.
Lemma frugal_with_name name k : (∀ a, keeps (frugal ∅) (k a)) → keeps (frugal ∅) (with_name name k).
Proof. intros H. unfold with_name. destruct (normalizePlayerName name); [apply H|apply keeps_skip, _]. Qed.

Ltac spending_leaf :=
  idtac; match goal with
  | |- keeps _ (with_guild _ _) => apply frugal_with_guild; intros ?
  | |- keeps _ (with_name _ _) => apply frugal_with_name; intros ?
  | _ => gmoney_leaf
  end.

Lemma frugal_run r : keeps (frugal ∅) (run r).
Proof.
  destruct r; cbn [run].
  all: cbv beta delta [HandleGuildInviteOpcode HandleGuildRemoveOpcode HandleGuildAcceptOpcode
    HandleGuildDeclineOpcode HandleGuildPromoteOpcode HandleGuildDemoteOpcode HandleGuildLeaveOpcode
    HandleGuildDisbandOpcode HandleGuildLeaderOpcode HandleGuildMOTDOpcode HandleGuildSetPublicNoteOpcode
    HandleGuildSetOfficerNoteOpcode HandleGuildRankOpcode HandleGuildAddRankOpcode HandleGuildDelRankOpcode
    HandleGuildChangeInfoTextOpcode HandleGuildBankUpdateTab
    HandleSetGuildBankTabText HandleGuildBankSwapItems HandleGuildBankerActivate TurnInGuildPetition
    HandleGuildDeleteCommand HandleGuildInviteCommand HandleGuildUninviteCommand HandleGuildRankCommand
    HandleGuildRenameCommand ResetAllTimes HandleRemoveLowestRank].
  all: try solve [repeat keeps_step spending_leaf].
  - apply frugal_Deposit, wrap_range. lia.
  - apply frugal_Withdraw, wrap_range. lia.
  - apply frugal_Repair, wrap_range. lia.
Qed.
Lemma frugal_run_all rs : keeps (frugal ∅) (run_all rs).
Proof. apply keeps_for_each; [apply _|]. intros r _. apply frugal_run. Qed.
End run.
End GuildSpending.
