(* ===== verification/GuildDemo.v ===== *)
(** * A server with four characters

    A configuration, the characters and the histories that the theorems on guilds are
    applied to. *)
From S2P Require Import Prelude StateMonad GuildData GuildLog GuildParts Guilds GuildBank GuildHandlers.

Module GuildDemo.
Export GuildHandlers.

#[export] Instance demo_guild_env : GuildEnv := {|
  CONFIG_ALLOW_TWO_SIDE_INTERACTION_GUILD := false;
  CONFIG_GUILD_EVENT_LOG_COUNT := 3;
  CONFIG_GUILD_BANK_EVENT_LOG_COUNT := 2;
  CONFIG_GUILD_MAX_PLAYER_SHOWN := 100;
  AllowMultipleGuildMaster := false;
  IsReservedName := λ _, false;
  IsValidCharterName := λ _, true;
  rank_name := λ i _, default "Initiate"%string (["Guild Master"; "Officer"; "Veteran"; "Member"]%string !! Z.to_nat i);
  normalizePlayerName := Some;
  CanUseGuildBank := λ _, true;
  CanUseTabardDesigner := λ _, true;
  utf8truncate := λ s, s;
  hashed := λ V m, map_to_list m;
  hashed_perm := λ V m, reflexivity _
|}.

Definition demo_player : Player := mkPlayer 100000000 0 0 0 true 0 0 ∅ false 0.
Definition demo_entry (name : string) (account : Z) : CacheEntry := mkCache name account 0 80 false 0.
Definition no_tables : Tables := mkTables ∅ ∅ ∅ ∅ ∅ ∅ ∅ ∅ ∅ ∅ ({[1 := 0; 2 := 0; 3 := 0; 4 := 0]}).
Definition demo_world : World := mkWorld
  ∅ 1 [] {[1 := demo_player; 2 := demo_player; 3 := demo_player; 4 := demo_player]}
  {[1 := demo_entry "anna" 11; 2 := demo_entry "bob" 12; 3 := demo_entry "carl" 13; 4 := demo_entry "dora" 14]}
  ∅ 100 1000 50 [] no_tables [] [].

(** Where a history leads, and whether it is answered. *)
Definition after (rs : list request) : World := match run_all rs demo_world with Ok (_, w) => w | _ => demo_world end.
Definition answered (rs : list request) : bool := match run_all rs demo_world with Ok _ => true | _ => false end.
Lemma after_run rs : answered rs = true → run_all rs demo_world = Ok (tt, after rs).
Proof. unfold answered, after. by destruct (run_all rs demo_world) as [[[] ?]| | | |]. Qed.

Definition join (s : Z) (name : string) : list request := [Invite 1 name; Accept s].
(** anna's guild, with bob, carl and dora. *)
Definition founding : list request := TurnIn 1 "guild" [] :: join 2 "bob" ++ join 3 "carl" ++ join 4 "dora".
Definition the_guild (w : World) : option Guild := guilds w !! 1.
Definition rank_of (w : World) (guid : Z) : option Z := m_rank <$> (g ← the_guild w; GetMember g guid).
Definition master_of (w : World) : option Z := m_leaderGuid <$> the_guild w.
Definition bank_money (w : World) : option Z := m_bankMoney <$> the_guild w.

End GuildDemo.
