(* ===== verification/GuildTheorems.v ===== *)
(** * What holds of guilds, and what does not

    The theorems about guilds with concrete histories they apply to, and the histories in
    which the code does something else than it means to. *)
From S2P Require Import Prelude StateMonad GuildData GuildLog GuildParts Guilds GuildBank GuildHandlers GuildRun GuildDemo.
From S2P Require Import GuildOrder GuildInvariant GuildHistories GuildSpending.

Module GuildTheorems.
Export GuildDemo.
Import GuildOrder GuildHistories GuildSpending.

(** ** Order *)

(** Every guild of the store that is not being removed. *)
Definition all_in_order (w : World) : Prop :=
  ∀ a g, guilds w !! a = Some g → a ∉ removals w → parts_ok g.

(** C5: In every history of requests (of members, game masters and the server itself) every
    guild stays in order: five to ten ranks numbered from 0, the master's with every right
    and no limit and full access to every bought tab, no rank with rights on a tab that was
    not bought, at most six tabs, members under their own guid, logs within their bound,
    the bank's money a 64-bit number. *)
Theorem guilds_in_order `{GE : GuildEnv} rs w u w' :
  all_in_order w → run_all rs w = Ok (u, w') → all_in_order w'.
Proof.
  intros Hw H a g Hg Hr.
  apply (local_run_all ∅ rs w u w' H (λ b gb _ Hb Hgb, Hw b gb Hgb Hb) a g); [set_solver|done..].
Qed.
Lemma guilds_in_order_witness :
  all_in_order demo_world ∧
  all_in_order (after (founding ++ [BuyTab 1 0 0; AddRank 1 "Trial"; Deposit 2 0 500; Demote 1 "bob"; Leave 4])).
Proof.
  assert (all_in_order demo_world) as H by (intros a g Hg; done). split; [exact H|].
  apply (guilds_in_order (founding ++ [BuyTab 1 0 0; AddRank 1 "Trial"; Deposit 2 0 500; Demote 1 "bob"; Leave 4])
    demo_world tt _ H). apply after_run. vm_compute. reflexivity.
Defined.

(** ** Money *)

(** C11: No history of requests makes money: what connected characters carry, what is saved
    for the others and what lies in the guild banks is together never more than before. *)
Theorem money_is_not_made `{GE : GuildEnv} rs w u w' :
  money_ok ∅ w → run_all rs w = Ok (u, w') → wealth w' ≤ wealth w.
Proof. intros Hw H. destruct (frugal_run_all rs w u w' H Hw) as [_ HL]. lia. Qed.
Definition spending : list request :=
  founding ++ [Deposit 1 0 7000000; BuyTab 1 0 0; Withdraw 1 0 2000; Repair 1 300; Logout 1; Login 1 demo_player].
Lemma money_is_not_made_witness :
  money_ok ∅ demo_world ∧ wealth (after spending) ≤ wealth demo_world.
Proof.
  assert (money_ok ∅ demo_world) as H.
  { split; [apply Forall_nil_2|set_solver| | |done]; intros g p Hp; cbn in Hp;
      repeat (apply lookup_insert_Some in Hp as [[_ <-]|[_ Hp]]; [unfold MAX_MONEY_AMOUNT; cbn; lia|]);
      apply lookup_singleton_Some in Hp as [_ <-]; unfold MAX_MONEY_AMOUNT; cbn; lia. }
  split; [exact H|]. apply (money_is_not_made spending demo_world tt _ H). apply after_run. vm_compute. reflexivity.
Defined.

(** ** Where the code does something else *)

(** A member whose rank was deleted has every right. *)
Theorem deleted_rank_has_every_right g guid m right :
  GetMember g guid = Some m → GetRankInfo g (m_rank m) = None → HasRankRight g guid right = true.
Proof.
  intros Hm Hr. unfold HasRankRight, GetRankRights. by rewrite Hm, Hr.
Qed.
Definition with_deleted_rank : World := after (founding ++ [AddRank 1 "Trial"; GmRank 4 5; DelRank 1]).
Definition empty_guild : Guild := new_guild 0 "".
Lemma deleted_rank_has_every_right_witness :
  HasRankRight (default empty_guild (the_guild with_deleted_rank)) 4 GR_RIGHT_REMOVE = true.
Proof.
  apply (deleted_rank_has_every_right _ 4
    (default (new_member 0 0 0) (GetMember (default empty_guild (the_guild with_deleted_rank)) 4)));
    vm_compute; reflexivity.
Defined.

(** A guild master who names himself master becomes an officer, and stays master. *)
Theorem master_named_himself :
  answered (founding ++ [SetLeader 1 "anna"]) = true ∧
  master_of (after (founding ++ [SetLeader 1 "anna"])) = Some 1 ∧
  rank_of (after (founding ++ [SetLeader 1 "anna"])) 1 = Some GR_OFFICER.
Proof. vm_compute. done. Qed.

(** A member who answers an invitation he did not get with no can found a second guild,
    and is a member of both. *)
Theorem member_of_two_guilds :
  answered (founding ++ [Decline 4; TurnIn 4 "other" []]) = true ∧
  (m ← guilds (after (founding ++ [Decline 4; TurnIn 4 "other" []])) !! 1; m_guid <$> GetMember m 4) = Some 4 ∧
  (m ← guilds (after (founding ++ [Decline 4; TurnIn 4 "other" []])) !! 2; m_guid <$> GetMember m 4) = Some 4.
Proof. vm_compute. done. Qed.

(** *** The money that is taken in a day *)

Definition saved_money (t : Tables) (guid : Z) : option Z := snd <$> guild_member_withdraw t !! guid.
(** Only the daily reset takes rows away. *)
Definition lasting (s : Stmt) : Prop := s ≠ CHAR_DEL_GUILD_MEMBER_WITHDRAW.
Lemma exec_saved s t t' guid n : lasting s → exec s t = Some t' → saved_money t guid = Some n → saved_money t' guid = Some n.
Proof.
  unfold saved_money. intros Hs. destruct s; cbn; try done;
    try (intros [= <-]; done); try (intros E; apply fmap_Some in E as (? & _ & ->); done).
  intros [= <-] Hn. cbn. destruct (decide (guid0 = guid)) as [->|].
  - rewrite lookup_partial_alter_eq. by destruct (guild_member_withdraw t !! guid) as [[]|].
  - by rewrite lookup_partial_alter_ne.
Qed.
Lemma transaction_saved l t guid n :
  Forall lasting l → saved_money t guid = Some n → saved_money (ExecuteTransaction l t) guid = Some n.
Proof.
  intros Hl Hn. unfold ExecuteTransaction. destruct (exec_all l t) as [t'|] eqn:E; [|done]. cbn.
  revert t Hn E. induction Hl as [|s l Hs Hl IH]; intros t Hn E; cbn in E; [by injection E as <-|].
  apply bind_Some in E as (t1 & E1 & E). eapply IH; [|done]. by eapply exec_saved.
Qed.
Record day_saved (guid n : Z) (w : World) : Prop := {
  dy_row : saved_money (tables w) guid = Some n;
  dy_trans : Forall lasting (trans w)
}.
(** The members of the guild are who and what they were. *)
Definition same_people (this : Z) (w w' : World) : Prop :=
  ∀ g, guilds w !! this = Some g → ∃ g', guilds w' !! this = Some g' ∧ m_members g' = m_members g.
#[local] Instance same_people_pre this : PreOrder (same_people this).
Proof.
  split; [intros w g Hg; by exists g|]. intros w w1 w2 H1 H2 g Hg. destruct (H1 g Hg) as (g1 & Hg1 & <-). by apply H2.
Qed.

Section day.
Context `{GE : GuildEnv}.

(** Both, for what happens around the counter itself. *)
Definition around (this guid n : Z) (w w' : World) : Prop :=
  same_people this w w' ∧ (day_saved guid n w → day_saved guid n w').
#[local] Instance around_pre this guid n : PreOrder (around this guid n).
Proof. split; [intros w; split; [reflexivity|done]|]. intros w1 w2 w3 [A B] [C D]. split; [by etransitivity|auto]. Qed.
Lemma around_modify this guid n f :
  (∀ w, guilds (f w) = guilds w) → (∀ w, day_saved guid n w → day_saved guid n (f w)) → keeps (around this guid n) (modify f).
Proof. intros Hg Hd w a w' [_ ->]%modify_Ok. split; [intros g E; exists g; by rewrite Hg|apply Hd]. Qed.
Lemma around_upd_guild this guid n a f : (∀ g, m_members (f g) = m_members g) → keeps (around this guid n) (upd_guild a f).
Proof.
  intros Hf w u w' H. grun. split; [|intros []; by split]. intros g' Hg'. cbn. destruct (decide (this = a)) as [->|].
  - rewrite lookup_insert_eq. eexists. split; [done|]. rewrite Hf. congruence.
  - rewrite lookup_insert_ne by done. by exists g'.
Qed.
Lemma around_Append this guid n s : lasting s → keeps (around this guid n) (Append s).
Proof. intros Hs. apply around_modify; [done|]. intros w [A B]. split; [done|]. apply Forall_app. split; [done|by apply Forall_singleton]. Qed.
Lemma around_commit this guid n : keeps (around this guid n) CommitTransaction.
Proof. apply around_modify; [done|]. intros w [A B]. split; [by apply transaction_saved|constructor]. Qed.
Ltac around_leaf := idtac; match goal with
  | |- keeps _ CommitTransaction => apply around_commit
  | |- keeps _ (Append _) => apply around_Append; first [discriminate | intros ->; rewrite !elem_of_cons, elem_of_nil in *; naive_solver]
  | |- keeps _ (upd_guild _ _) => apply around_upd_guild; done
  | |- keeps _ (modify _) => apply around_modify; [done|by intros ? []]
  | |- keeps _ ?k => let rec head t := lazymatch t with ?f _ => head f | _ => t end in let h := head k in progress unfold h
  end.
Ltac around_tac := repeat keeps_step around_leaf.
Lemma around_ModifyMoney this guid n a b : keeps (around this guid n) (ModifyMoney a b).
Proof. around_tac. Qed.
Lemma around_gold this guid n a : keeps (around this guid n) (SaveGoldToDB a).
Proof. around_tac. Qed.
Lemma around_rest this guid n session amount (repair : bool) :
  keeps (around this guid n) (_ ← ModifyBankMoney this amount false;
    _ ← LogBankEvent this (if repair then GUILD_BANK_LOG_REPAIR_MONEY else GUILD_BANK_LOG_WITHDRAW_MONEY) 0 session amount 0 0;
    _ ← CommitTransaction; _ ← BroadcastMoney this; mret true).
Proof. around_tac. Qed.

(** The counter itself. *)
Lemma counter_updated this session amount guid n w u w' g m :
  on_member this session (λ m, UpdateBankWithdrawValue m GUILD_BANK_MAX_TABS amount) w = Ok (u, w') →
  guilds w !! this = Some g → GetMember g session = Some m →
  (day_saved guid n w → day_saved guid n w') ∧
  ∃ g', guilds w' !! this = Some g' ∧ GetMember g' session = Some (UpdateBankWithdrawValue m GUILD_BANK_MAX_TABS amount).1.
Proof.
  intros H Hg Hm. unfold on_member, Appends in H. cbn [UpdateBankWithdrawValue for_each] in H. unfold Append in H. grun.
  simplify_eq. split.
  - intros [A B]. split; [done|]. cbn. apply Forall_app. split; [done|by apply Forall_singleton].
  - cbn. rewrite lookup_insert_eq. eexists. split; [done|]. unfold GetMember. cbn. by rewrite lookup_insert_eq.
Qed.

(** C39: Of the money that a member takes in a day only the first withdrawal is saved: when
    the table has a row for the day, a withdrawal adds to the counter of the member and
    leaves the amount of the row as it is, whatever it is. *)
Theorem second_withdrawal_not_saved this session amount repair w w' g m taken saved :
  guilds w !! this = Some g → GetMember g session = Some m →
  m_bankWithdraw m !! Z.to_nat GUILD_BANK_MAX_TABS = Some taken → saved_money (tables w) session = Some saved →
  HandleMemberWithdrawMoney this session amount repair w = Ok (true, w') →
  saved_money (tables w') session = Some saved ∧
  ∃ g' m', guilds w' !! this = Some g' ∧ GetMember g' session = Some m' ∧
           m_bankWithdraw m' !! Z.to_nat GUILD_BANK_MAX_TABS = Some (s32 (taken + amount `min` MAX_MONEY_AMOUNT)).
Proof.
  intros Hg Hm Ht Hn H. unfold HandleMemberWithdrawMoney in H. set (a := amount `min` MAX_MONEY_AMOUNT) in *. cbv zeta in H.
  apply bind_Ok in H as (g0 & w0 & E & H). grun. simplify_eq. case_match; [grun; done|]. rewrite Hm in H.
  apply bind_Ok in H as (left_ & w1 & E & H). apply lift_Ok in E as [_ ->]. case_match; [grun; done|].
  apply bind_Ok in H as ([] & w1 & E & H). apply modify_Ok in E as [_ ->]. set (wb := set_trans w []) in *.
  assert (day_saved session saved wb) as Hb by (by split).
  apply bind_Ok in H as (ok & w2 & E2 & H). destruct ok; cbn [negb] in H; [|grun; done].
  assert (around this session saved wb w2) as [Hp2 Hd2].
  { destruct repair; [exact (keeps_ret (around this session saved) true _ _ _ E2)|exact (around_ModifyMoney _ _ _ _ _ _ _ _ E2)]. }
  apply bind_Ok in H as (u3 & w3 & E3 & H).
  assert (around this session saved w2 w3) as [Hp3 Hd3].
  { destruct repair; [exact (keeps_skip (around this session saved) _ _ _ E3)|exact (around_gold _ _ _ _ _ _ _ E3)]. }
  apply bind_Ok in H as (u4 & w4 & E4 & H).
  destruct (Hp2 g Hg) as (g2 & Hg2 & Em2). destruct (Hp3 g2 Hg2) as (g3 & Hg3 & Em3).
  assert (GetMember g3 session = Some m) as Hm3 by (unfold GetMember in *; congruence).
  destruct (counter_updated this session a session saved w3 u4 w4 g3 m E4 Hg3 Hm3) as (Hd4 & g4 & Hg4 & Hm4).
  destruct (around_rest this session saved session a repair w4 true w' H) as [Hp5 Hd5].
  destruct (Hp5 g4 Hg4) as (g5 & Hg5 & Em5). split; [apply Hd5; auto|].
  exists g5, (UpdateBankWithdrawValue m GUILD_BANK_MAX_TABS a).1. split; [done|]. split; [unfold GetMember in *; congruence|].
  cbn. by rewrite list_lookup_alter_eq, Ht.
Qed.
End day.

(** dora may take 500 a day, and has taken 30. *)
Definition one_withdrawal : World := after (founding ++
  [Deposit 1 0 1000; SetRank 1 4 (Z.lor GR_RIGHT_WITHDRAW_GOLD GR_RIGHT_EMPTY) "Initiate" 500 (λ _, (0, 0)); Withdraw 4 0 30]).
Definition member_of (w : World) (guid : Z) : Member :=
  default (new_member 0 0 0) (GetMember (default empty_guild (the_guild w)) guid).
Definition two_withdrawals : World :=
  match HandleMemberWithdrawMoney 1 4 40 false one_withdrawal with Ok (_, w) => w | _ => one_withdrawal end.
Lemma second_withdrawal_not_saved_witness :
  saved_money (tables two_withdrawals) 4 = Some 30 ∧
  ∃ g' m', guilds two_withdrawals !! 1 = Some g' ∧ GetMember g' 4 = Some m' ∧
           m_bankWithdraw m' !! Z.to_nat GUILD_BANK_MAX_TABS = Some (s32 (30 + 40 `min` MAX_MONEY_AMOUNT)).
Proof.
  apply (second_withdrawal_not_saved 1 4 40 false one_withdrawal two_withdrawals (default empty_guild (the_guild one_withdrawal))
    (member_of one_withdrawal 4)); vm_compute; reflexivity.
Defined.

End GuildTheorems.
