(* ===== verification/Float64.v ===== *)
(** * IEEE-754 double precision ([double] of the code)

    As [Float32], with 53 bits of precision. A [float] is converted to a [double]
    exactly. *)
From Stdlib Require Import SpecFloat.
From S2P Require Import Prelude Float32.

Abbreviation f64 := spec_float.

Definition f64_prec : Z := 53.
Definition f64_emax : Z := 1024.

Definition f64_add : f64 → f64 → f64 := SFadd f64_prec f64_emax.
Definition f64_sub : f64 → f64 → f64 := SFsub f64_prec f64_emax.
Definition f64_mul : f64 → f64 → f64 := SFmul f64_prec f64_emax.
Definition f64_div : f64 → f64 → f64 := SFdiv f64_prec f64_emax.
Definition f64_ltb : f64 → f64 → bool := SFltb.
Definition f64_leb : f64 → f64 → bool := SFleb.
Definition f64_abs : f64 → f64 := SFabs.

(** [double(z)] for an integer [z]; the literal [n / d]. *)
Definition f64_of_Z (z : Z) : f64 := binary_normalize f64_prec f64_emax z 0 false.
Definition f64_lit (n d : Z) : f64 := f64_div (f64_of_Z n) (f64_of_Z d).
(** [double(x)] for a [float] and [float(x)] for a [double]. *)
Definition f64_of_f32 (x : f32) : f64 :=
  match x with S754_finite s m e => binary_round f64_prec f64_emax s m e | _ => x end.
Definition f32_of_f64 (x : f64) : f32 :=
  match x with S754_finite s m e => binary_round f32_prec f32_emax s m e | _ => x end.

Definition f64_zero : f64 := S754_zero false.
Definition f64_infinity : f64 := S754_infinity false.
Definition f64_neg_infinity : f64 := S754_infinity true.

(** [std::max] and [std::min] as the library defines them. *)
Definition f64_max (a b : f64) : f64 := if f64_ltb a b then b else a.
Definition f64_min (a b : f64) : f64 := if f64_ltb b a then b else a.

Example f64_tenth : f64_lit 1 10 = S754_finite false 7205759403792794 (-56).
Proof. reflexivity. Qed.
Example f64_from_float : f64_of_f32 (f32_lit 1 2) = f64_lit 1 2.
Proof. reflexivity. Qed.

(** Nothing is below minus infinity, and only NaN and minus infinity are not above it. *)
Lemma f64_ltb_neg_infinity x : f64_ltb x f64_neg_infinity = false.
Proof. by destruct x as [|[]| |]. Qed.
Lemma f64_neg_infinity_ltb x :
  f64_ltb f64_neg_infinity x = true ↔ x ≠ f64_neg_infinity ∧ x ≠ S754_nan.
Proof. destruct x as [|[]| |]; cbn; split; naive_solver. Qed.
Lemma f64_ltb_irrefl x : f64_ltb x x = false.
Proof.
  unfold f64_ltb, SFltb. destruct x as [[]|[]| |s m e]; try done. unfold SFcompare.
  rewrite Z.compare_refl. unfold Pcompare. fold (Pos.compare m m). rewrite Pos.compare_refl. by destruct s.
Qed.
Lemma f64_ltb_trans x y z : f64_ltb x y = true → f64_ltb y z = true → f64_ltb x z = true.
Proof.
  unfold f64_ltb, SFltb. destruct x as [[]|[]| |[] m1 e1], y as [[]|[]| |[] m2 e2], z as [[]|[]| |[] m3 e3]; try done;
    unfold SFcompare; change (Pcompare ?a ?b Eq) with (Pos.compare a b);
    destruct (Z.compare_spec e1 e2), (Z.compare_spec e2 e3), (Z.compare_spec e1 e3);
    try lia; try done; try (intros; done);
    destruct (Pos.compare_spec m1 m2), (Pos.compare_spec m2 m3), (Pos.compare_spec m1 m3); cbn; try done; lia.
Qed.
Lemma f64_ltb_below x y z : f64_ltb x z = true → f64_ltb y z = false → y ≠ S754_nan → f64_ltb x y = true.
Proof.
  intros Hxz Hyz Hy. revert Hxz Hyz Hy.
  unfold f64_ltb, SFltb. destruct x as [[]|[]| |[] m1 e1], y as [[]|[]| |[] m2 e2], z as [[]|[]| |[] m3 e3]; try done;
    unfold SFcompare; change (Pcompare ?a ?b Eq) with (Pos.compare a b);
    destruct (Z.compare_spec e1 e2), (Z.compare_spec e2 e3), (Z.compare_spec e1 e3);
    try lia; try done; try (intros; done);
    destruct (Pos.compare_spec m1 m2), (Pos.compare_spec m2 m3), (Pos.compare_spec m1 m3); cbn; try done; lia.
Qed.
