(* ===== verification/BgData.v ===== *)
(** * The state behind battlegrounds and their queues
    ([src/server/game/Battlegrounds/BattlegroundQueue.h], [Battleground.h],
    [BattlegroundMgr.h], [Matchmaking.hpp], [Entities/Player/Player.h])

    A queued group is an object at an address: the lists of a queue, the pools and the
    entries of the queued players hold the address. A battleground is found under its
    instance id. *)
From S2P Require Import Prelude StateMonad Multimap Float32 Float64.

Module BgData.

(** ** Constants *)

Definition ALLIANCE : Z := 469.
Definition HORDE : Z := 67.
Definition TEAM_ALLIANCE : Z := 0.
Definition TEAM_HORDE : Z := 1.
Definition BG_TEAMS_COUNT : Z := 2.

Definition BATTLEGROUND_TYPE_NONE : Z := 0.
Definition BATTLEGROUND_AV : Z := 1.
Definition BATTLEGROUND_WS : Z := 2.
Definition BATTLEGROUND_AB : Z := 3.
Definition BATTLEGROUND_NA : Z := 4.
Definition BATTLEGROUND_BE : Z := 5.
Definition BATTLEGROUND_AA : Z := 6.
Definition BATTLEGROUND_EY : Z := 7.
Definition BATTLEGROUND_RL : Z := 8.
Definition BATTLEGROUND_SA : Z := 9.
Definition BATTLEGROUND_DS : Z := 10.
Definition BATTLEGROUND_RV : Z := 11.
Definition BATTLEGROUND_IC : Z := 30.
Definition BATTLEGROUND_RB : Z := 32.

Definition BATTLEGROUND_QUEUE_NONE : Z := 0.
Definition BATTLEGROUND_QUEUE_AV : Z := 1.
Definition BATTLEGROUND_QUEUE_WS : Z := 2.
Definition BATTLEGROUND_QUEUE_AB : Z := 3.
Definition BATTLEGROUND_QUEUE_EY : Z := 4.
Definition BATTLEGROUND_QUEUE_SA : Z := 5.
Definition BATTLEGROUND_QUEUE_IC : Z := 6.
Definition BATTLEGROUND_QUEUE_RB : Z := 7.
Definition BATTLEGROUND_QUEUE_2v2 : Z := 8.
Definition BATTLEGROUND_QUEUE_3v3 : Z := 9.
Definition BATTLEGROUND_QUEUE_5v5 : Z := 10.
Definition BATTLEGROUND_QUEUE_SOLO_ARENA : Z := 12.

Definition ARENA_TYPE_2v2 : Z := 2.
Definition ARENA_TYPE_3v3 : Z := 3.
Definition ARENA_TYPE_5v5 : Z := 5.

Definition MAX_BATTLEGROUND_BRACKETS : Z := 16.
Definition BG_BRACKET_ID_LVL_80_SOLOQUEUE : Z := 14.

Definition BG_QUEUE_PREMADE_ALLIANCE : Z := 0.
Definition BG_QUEUE_PREMADE_HORDE : Z := 1.
Definition BG_QUEUE_NORMAL_ALLIANCE : Z := 2.
Definition BG_QUEUE_NORMAL_HORDE : Z := 3.
Definition BG_QUEUE_MIXED : Z := 4.
Definition BG_QUEUE_GROUP_TYPES_COUNT : Z := 5.

Definition STATUS_NONE : Z := 0.
Definition STATUS_WAIT_QUEUE : Z := 1.
Definition STATUS_WAIT_JOIN : Z := 2.
Definition STATUS_IN_PROGRESS : Z := 3.
Definition STATUS_WAIT_LEAVE : Z := 4.

Definition INVITATION_REMIND_TIME : Z := 20000.
Definition INVITE_ACCEPT_WAIT_TIME : Z := 60000.
Definition COUNT_OF_PLAYERS_TO_AVERAGE_WAIT_TIME : Z := 10.
Definition PLAYER_MAX_BATTLEGROUND_QUEUES : nat := 2.

(** ** One value for each team *)

Definition teams (A : Type) : Type := A * A.
Definition of_team {A} (p : teams A) (team : Z) : A := if team =? TEAM_ALLIANCE then p.1 else p.2.
Definition on_team {A} (p : teams A) (team : Z) (f : A → A) : teams A :=
  if team =? TEAM_ALLIANCE then (f p.1, p.2) else (p.1, f p.2).
Definition both {A} (x : A) : teams A := (x, x).
(** Battleground::GetTeamIndexByTeamId *)
Definition GetTeamIndexByTeamId (Team : Z) : Z := if Team =? ALLIANCE then TEAM_ALLIANCE else TEAM_HORDE.

(** ** Queued players and groups *)

Record PlayerQueueInfo := mkPlayerInfo {
  LastOnlineTime : Z;
  Rating : f64;
  AvgItemLevel : f32;
  IsHeal : bool;
  GroupInfo : Z                         (* the address of the group *)
}.
Definition set_LastOnlineTime (r : PlayerQueueInfo) (x : Z) : PlayerQueueInfo := mkPlayerInfo
  x (Rating r) (AvgItemLevel r) (IsHeal r) (GroupInfo r).
Definition set_Rating (r : PlayerQueueInfo) (x : f64) : PlayerQueueInfo := mkPlayerInfo
  (LastOnlineTime r) x (AvgItemLevel r) (IsHeal r) (GroupInfo r).
Definition set_AvgItemLevel (r : PlayerQueueInfo) (x : f32) : PlayerQueueInfo := mkPlayerInfo
  (LastOnlineTime r) (Rating r) x (IsHeal r) (GroupInfo r).
Definition set_IsHeal (r : PlayerQueueInfo) (x : bool) : PlayerQueueInfo := mkPlayerInfo
  (LastOnlineTime r) (Rating r) (AvgItemLevel r) x (GroupInfo r).
Definition set_GroupInfo (r : PlayerQueueInfo) (x : Z) : PlayerQueueInfo := mkPlayerInfo
  (LastOnlineTime r) (Rating r) (AvgItemLevel r) (IsHeal r) x.

Record GroupQueueInfo := mkGroupInfo {
  Players : gset Z;                     (* each with a pointer to its entry in m_QueuedPlayers *)
  Team : Z;
  BgTypeId : Z;
  IsRated : bool;
  ArenaType : Z;
  ArenaTeamId : Z;
  JoinTime : Z;
  RemoveInviteTime : Z;
  IsInvitedToBGInstanceGUID : Z;
  ArenaTeamRating : Z;
  ArenaMatchmakerRating : Z;
  OpponentsTeamRating : Z;
  OpponentsMatchmakerRating : Z;
  AllowCrossfaction : bool
}.
Definition set_Players (r : GroupQueueInfo) (x : gset Z) : GroupQueueInfo := mkGroupInfo
  x (Team r) (BgTypeId r) (IsRated r) (ArenaType r) (ArenaTeamId r) (JoinTime r) (RemoveInviteTime
    r) (IsInvitedToBGInstanceGUID r) (ArenaTeamRating r) (ArenaMatchmakerRating r)
    (OpponentsTeamRating r) (OpponentsMatchmakerRating r) (AllowCrossfaction r).
Definition set_Team (r : GroupQueueInfo) (x : Z) : GroupQueueInfo := mkGroupInfo
  (Players r) x (BgTypeId r) (IsRated r) (ArenaType r) (ArenaTeamId r) (JoinTime r)
    (RemoveInviteTime r) (IsInvitedToBGInstanceGUID r) (ArenaTeamRating r) (ArenaMatchmakerRating r)
    (OpponentsTeamRating r) (OpponentsMatchmakerRating r) (AllowCrossfaction r).
Definition set_BgTypeId (r : GroupQueueInfo) (x : Z) : GroupQueueInfo := mkGroupInfo
  (Players r) (Team r) x (IsRated r) (ArenaType r) (ArenaTeamId r) (JoinTime r) (RemoveInviteTime r)
    (IsInvitedToBGInstanceGUID r) (ArenaTeamRating r) (ArenaMatchmakerRating r) (OpponentsTeamRating
    r) (OpponentsMatchmakerRating r) (AllowCrossfaction r).
Definition set_IsRated (r : GroupQueueInfo) (x : bool) : GroupQueueInfo := mkGroupInfo
  (Players r) (Team r) (BgTypeId r) x (ArenaType r) (ArenaTeamId r) (JoinTime r) (RemoveInviteTime
    r) (IsInvitedToBGInstanceGUID r) (ArenaTeamRating r) (ArenaMatchmakerRating r)
    (OpponentsTeamRating r) (OpponentsMatchmakerRating r) (AllowCrossfaction r).
Definition set_ArenaType (r : GroupQueueInfo) (x : Z) : GroupQueueInfo := mkGroupInfo
  (Players r) (Team r) (BgTypeId r) (IsRated r) x (ArenaTeamId r) (JoinTime r) (RemoveInviteTime r)
    (IsInvitedToBGInstanceGUID r) (ArenaTeamRating r) (ArenaMatchmakerRating r) (OpponentsTeamRating
    r) (OpponentsMatchmakerRating r) (AllowCrossfaction r).
Definition set_ArenaTeamId (r : GroupQueueInfo) (x : Z) : GroupQueueInfo := mkGroupInfo
  (Players r) (Team r) (BgTypeId r) (IsRated r) (ArenaType r) x (JoinTime r) (RemoveInviteTime r)
    (IsInvitedToBGInstanceGUID r) (ArenaTeamRating r) (ArenaMatchmakerRating r) (OpponentsTeamRating
    r) (OpponentsMatchmakerRating r) (AllowCrossfaction r).
Definition set_JoinTime (r : GroupQueueInfo) (x : Z) : GroupQueueInfo := mkGroupInfo
  (Players r) (Team r) (BgTypeId r) (IsRated r) (ArenaType r) (ArenaTeamId r) x (RemoveInviteTime r)
    (IsInvitedToBGInstanceGUID r) (ArenaTeamRating r) (ArenaMatchmakerRating r) (OpponentsTeamRating
    r) (OpponentsMatchmakerRating r) (AllowCrossfaction r).
Definition set_RemoveInviteTime (r : GroupQueueInfo) (x : Z) : GroupQueueInfo := mkGroupInfo
  (Players r) (Team r) (BgTypeId r) (IsRated r) (ArenaType r) (ArenaTeamId r) (JoinTime r) x
    (IsInvitedToBGInstanceGUID r) (ArenaTeamRating r) (ArenaMatchmakerRating r) (OpponentsTeamRating
    r) (OpponentsMatchmakerRating r) (AllowCrossfaction r).
Definition set_IsInvitedToBGInstanceGUID (r : GroupQueueInfo) (x : Z) : GroupQueueInfo := mkGroupInfo
  (Players r) (Team r) (BgTypeId r) (IsRated r) (ArenaType r) (ArenaTeamId r) (JoinTime r)
    (RemoveInviteTime r) x (ArenaTeamRating r) (ArenaMatchmakerRating r) (OpponentsTeamRating r)
    (OpponentsMatchmakerRating r) (AllowCrossfaction r).
Definition set_ArenaTeamRating (r : GroupQueueInfo) (x : Z) : GroupQueueInfo := mkGroupInfo
  (Players r) (Team r) (BgTypeId r) (IsRated r) (ArenaType r) (ArenaTeamId r) (JoinTime r)
    (RemoveInviteTime r) (IsInvitedToBGInstanceGUID r) x (ArenaMatchmakerRating r)
    (OpponentsTeamRating r) (OpponentsMatchmakerRating r) (AllowCrossfaction r).
Definition set_ArenaMatchmakerRating (r : GroupQueueInfo) (x : Z) : GroupQueueInfo := mkGroupInfo
  (Players r) (Team r) (BgTypeId r) (IsRated r) (ArenaType r) (ArenaTeamId r) (JoinTime r)
    (RemoveInviteTime r) (IsInvitedToBGInstanceGUID r) (ArenaTeamRating r) x (OpponentsTeamRating r)
    (OpponentsMatchmakerRating r) (AllowCrossfaction r).
Definition set_OpponentsTeamRating (r : GroupQueueInfo) (x : Z) : GroupQueueInfo := mkGroupInfo
  (Players r) (Team r) (BgTypeId r) (IsRated r) (ArenaType r) (ArenaTeamId r) (JoinTime r)
    (RemoveInviteTime r) (IsInvitedToBGInstanceGUID r) (ArenaTeamRating r) (ArenaMatchmakerRating r)
    x (OpponentsMatchmakerRating r) (AllowCrossfaction r).
Definition set_OpponentsMatchmakerRating (r : GroupQueueInfo) (x : Z) : GroupQueueInfo := mkGroupInfo
  (Players r) (Team r) (BgTypeId r) (IsRated r) (ArenaType r) (ArenaTeamId r) (JoinTime r)
    (RemoveInviteTime r) (IsInvitedToBGInstanceGUID r) (ArenaTeamRating r) (ArenaMatchmakerRating r)
    (OpponentsTeamRating r) x (AllowCrossfaction r).
Definition set_AllowCrossfaction (r : GroupQueueInfo) (x : bool) : GroupQueueInfo := mkGroupInfo
  (Players r) (Team r) (BgTypeId r) (IsRated r) (ArenaType r) (ArenaTeamId r) (JoinTime r)
    (RemoveInviteTime r) (IsInvitedToBGInstanceGUID r) (ArenaTeamRating r) (ArenaMatchmakerRating r)
    (OpponentsTeamRating r) (OpponentsMatchmakerRating r) x.

(** The players in the order of the map. *)
Definition in_order (s : gset Z) : list Z := merge_sort Z.le (elements s).
(** [Players.size()] *)
Definition players_size (g : GroupQueueInfo) : Z := Z.of_nat (size (Players g)).
(** Has the group an invitation? *)
Definition invited (g : GroupQueueInfo) : bool := negb (IsInvitedToBGInstanceGUID g =? 0).

Record SelectionPool := mkPool {
  SelectedGroups : list Z;
  PlayerCount : Z
}.
Definition set_SelectedGroups (r : SelectionPool) (x : list Z) : SelectionPool := mkPool
  x (PlayerCount r).
Definition set_PlayerCount (r : SelectionPool) (x : Z) : SelectionPool := mkPool
  (SelectedGroups r) x.

Record WaitTimes := mkWait {
  m_WaitTimes : list Z;                 (* the last ten *)
  m_WaitTimeLastPlayer : Z;
  m_SumOfWaitTimes : Z
}.
Definition set_m_WaitTimes (r : WaitTimes) (x : list Z) : WaitTimes := mkWait
  x (m_WaitTimeLastPlayer r) (m_SumOfWaitTimes r).
Definition set_m_WaitTimeLastPlayer (r : WaitTimes) (x : Z) : WaitTimes := mkWait
  (m_WaitTimes r) x (m_SumOfWaitTimes r).
Definition set_m_SumOfWaitTimes (r : WaitTimes) (x : Z) : WaitTimes := mkWait
  (m_WaitTimes r) (m_WaitTimeLastPlayer r) x.
Definition no_waits : WaitTimes := mkWait (replicate (Z.to_nat COUNT_OF_PLAYERS_TO_AVERAGE_WAIT_TIME) 0) 0 0.

(** BGQueueInviteEvent and BGQueueRemoveEvent *)
Inductive QueueEvent :=
| BGQueueInviteEvent (m_PlayerGuid m_BgInstanceGUID m_BgTypeId m_ArenaType m_RemoveTime : Z)
| BGQueueRemoveEvent (m_PlayerGuid m_BgInstanceGUID m_BgTypeId m_BgQueueTypeId m_RemoveTime : Z).

Record BattlegroundQueue := mkQueue {
  m_QueuedPlayers : gmap Z PlayerQueueInfo;
  m_QueuedGroups : gmap (Z * Z) (list Z); (* by bracket and group type *)
  m_SelectionPools : teams SelectionPool;
  m_WaitTime : gmap (Z * Z) WaitTimes;  (* by team index and bracket *)
  m_time : Z;
  m_events : list (Z * QueueEvent)      (* sorted by time *)
}.
Definition set_m_QueuedPlayers (r : BattlegroundQueue) (x : gmap Z PlayerQueueInfo) : BattlegroundQueue := mkQueue
  x (m_QueuedGroups r) (m_SelectionPools r) (m_WaitTime r) (m_time r) (m_events r).
Definition set_m_QueuedGroups (r : BattlegroundQueue) (x : gmap (Z * Z) (list Z)) : BattlegroundQueue := mkQueue
  (m_QueuedPlayers r) x (m_SelectionPools r) (m_WaitTime r) (m_time r) (m_events r).
Definition set_m_SelectionPools (r : BattlegroundQueue) (x : teams SelectionPool) : BattlegroundQueue := mkQueue
  (m_QueuedPlayers r) (m_QueuedGroups r) x (m_WaitTime r) (m_time r) (m_events r).
Definition set_m_WaitTime (r : BattlegroundQueue) (x : gmap (Z * Z) WaitTimes) : BattlegroundQueue := mkQueue
  (m_QueuedPlayers r) (m_QueuedGroups r) (m_SelectionPools r) x (m_time r) (m_events r).
Definition set_m_time (r : BattlegroundQueue) (x : Z) : BattlegroundQueue := mkQueue
  (m_QueuedPlayers r) (m_QueuedGroups r) (m_SelectionPools r) (m_WaitTime r) x (m_events r).
Definition set_m_events (r : BattlegroundQueue) (x : list (Z * QueueEvent)) : BattlegroundQueue := mkQueue
  (m_QueuedPlayers r) (m_QueuedGroups r) (m_SelectionPools r) (m_WaitTime r) (m_time r) x.
Definition no_pools : teams SelectionPool := both (mkPool [] 0).
Definition empty_queue : BattlegroundQueue := mkQueue ∅ ∅ no_pools ∅ 0 [].

(** ** The data of the matchmaking of a battleground *)

Record PlayerData := mkData {
  pd_rating : f64;
  crossfactionPlayer : bool;
  isHeal : bool;
  avgItemLevel : f32;
  premadeSize : Z
}.
Definition set_pd_rating (r : PlayerData) (x : f64) : PlayerData := mkData
  x (crossfactionPlayer r) (isHeal r) (avgItemLevel r) (premadeSize r).
Definition set_crossfactionPlayer (r : PlayerData) (x : bool) : PlayerData := mkData
  (pd_rating r) x (isHeal r) (avgItemLevel r) (premadeSize r).
Definition set_isHeal (r : PlayerData) (x : bool) : PlayerData := mkData
  (pd_rating r) (crossfactionPlayer r) x (avgItemLevel r) (premadeSize r).
Definition set_avgItemLevel (r : PlayerData) (x : f32) : PlayerData := mkData
  (pd_rating r) (crossfactionPlayer r) (isHeal r) x (premadeSize r).
Definition set_premadeSize (r : PlayerData) (x : Z) : PlayerData := mkData
  (pd_rating r) (crossfactionPlayer r) (isHeal r) (avgItemLevel r) x.

(** Matchmaking::BattlegroundMatchmakingData without its last answer *)
Record MatchmakingData := mkMM {
  mm_maxPlayers : Z;
  maxPlayersPerTeam : Z;
  timestamp : Z;
  playerData : teams (gmap Z PlayerData);
  totalPremadeSize : teams Z;
  totalRating : teams f64;
  totalItemLevel : teams f32;
  totalHealerCount : teams Z;
  totalCrossfactionCount : Z
}.
Definition set_mm_maxPlayers (r : MatchmakingData) (x : Z) : MatchmakingData := mkMM
  x (maxPlayersPerTeam r) (timestamp r) (playerData r) (totalPremadeSize r) (totalRating r)
    (totalItemLevel r) (totalHealerCount r) (totalCrossfactionCount r).
Definition set_maxPlayersPerTeam (r : MatchmakingData) (x : Z) : MatchmakingData := mkMM
  (mm_maxPlayers r) x (timestamp r) (playerData r) (totalPremadeSize r) (totalRating r)
    (totalItemLevel r) (totalHealerCount r) (totalCrossfactionCount r).
Definition set_timestamp (r : MatchmakingData) (x : Z) : MatchmakingData := mkMM
  (mm_maxPlayers r) (maxPlayersPerTeam r) x (playerData r) (totalPremadeSize r) (totalRating r)
    (totalItemLevel r) (totalHealerCount r) (totalCrossfactionCount r).
Definition set_playerData (r : MatchmakingData) (x : teams (gmap Z PlayerData)) : MatchmakingData := mkMM
  (mm_maxPlayers r) (maxPlayersPerTeam r) (timestamp r) x (totalPremadeSize r) (totalRating r)
    (totalItemLevel r) (totalHealerCount r) (totalCrossfactionCount r).
Definition set_totalPremadeSize (r : MatchmakingData) (x : teams Z) : MatchmakingData := mkMM
  (mm_maxPlayers r) (maxPlayersPerTeam r) (timestamp r) (playerData r) x (totalRating r)
    (totalItemLevel r) (totalHealerCount r) (totalCrossfactionCount r).
Definition set_totalRating (r : MatchmakingData) (x : teams f64) : MatchmakingData := mkMM
  (mm_maxPlayers r) (maxPlayersPerTeam r) (timestamp r) (playerData r) (totalPremadeSize r) x
    (totalItemLevel r) (totalHealerCount r) (totalCrossfactionCount r).
Definition set_totalItemLevel (r : MatchmakingData) (x : teams f32) : MatchmakingData := mkMM
  (mm_maxPlayers r) (maxPlayersPerTeam r) (timestamp r) (playerData r) (totalPremadeSize r)
    (totalRating r) x (totalHealerCount r) (totalCrossfactionCount r).
Definition set_totalHealerCount (r : MatchmakingData) (x : teams Z) : MatchmakingData := mkMM
  (mm_maxPlayers r) (maxPlayersPerTeam r) (timestamp r) (playerData r) (totalPremadeSize r)
    (totalRating r) (totalItemLevel r) x (totalCrossfactionCount r).
Definition set_totalCrossfactionCount (r : MatchmakingData) (x : Z) : MatchmakingData := mkMM
  (mm_maxPlayers r) (maxPlayersPerTeam r) (timestamp r) (playerData r) (totalPremadeSize r)
    (totalRating r) (totalItemLevel r) (totalHealerCount r) x.

Record Battleground := mkBg {
  m_TypeID : Z;
  m_RandomTypeID : Z;
  m_InstanceID : Z;
  m_BracketId : Z;
  m_Status : Z;
  m_ArenaType : Z;
  m_IsArena : bool;
  m_IsRated : bool;
  m_InvitedAlliance : Z;
  m_InvitedHorde : Z;
  m_PlayersCount : teams Z;
  m_Players : gmap Z Z;                 (* the team of each participant *)
  m_MaxPlayers : Z;
  m_MinPlayers : Z;
  m_MaxPlayersPerTeam : Z;
  m_MinPlayersPerTeam : Z;
  m_LevelMax : Z;
  m_MapId : Z;
  m_InBGFreeSlotQueue : bool;
  m_ArenaTeamIds : teams Z;
  m_ArenaTeamMMR : teams Z;
  ratedArenaData : teams (gset Z);      (* whose ratings are kept *)
  mmData : MatchmakingData
}.
Definition set_m_TypeID (r : Battleground) (x : Z) : Battleground := mkBg
  x (m_RandomTypeID r) (m_InstanceID r) (m_BracketId r) (m_Status r) (m_ArenaType r) (m_IsArena r)
    (m_IsRated r) (m_InvitedAlliance r) (m_InvitedHorde r) (m_PlayersCount r) (m_Players r)
    (m_MaxPlayers r) (m_MinPlayers r) (m_MaxPlayersPerTeam r) (m_MinPlayersPerTeam r) (m_LevelMax r)
    (m_MapId r) (m_InBGFreeSlotQueue r) (m_ArenaTeamIds r) (m_ArenaTeamMMR r) (ratedArenaData r)
    (mmData r).
Definition set_m_RandomTypeID (r : Battleground) (x : Z) : Battleground := mkBg
  (m_TypeID r) x (m_InstanceID r) (m_BracketId r) (m_Status r) (m_ArenaType r) (m_IsArena r)
    (m_IsRated r) (m_InvitedAlliance r) (m_InvitedHorde r) (m_PlayersCount r) (m_Players r)
    (m_MaxPlayers r) (m_MinPlayers r) (m_MaxPlayersPerTeam r) (m_MinPlayersPerTeam r) (m_LevelMax r)
    (m_MapId r) (m_InBGFreeSlotQueue r) (m_ArenaTeamIds r) (m_ArenaTeamMMR r) (ratedArenaData r)
    (mmData r).
Definition set_m_InstanceID (r : Battleground) (x : Z) : Battleground := mkBg
  (m_TypeID r) (m_RandomTypeID r) x (m_BracketId r) (m_Status r) (m_ArenaType r) (m_IsArena r)
    (m_IsRated r) (m_InvitedAlliance r) (m_InvitedHorde r) (m_PlayersCount r) (m_Players r)
    (m_MaxPlayers r) (m_MinPlayers r) (m_MaxPlayersPerTeam r) (m_MinPlayersPerTeam r) (m_LevelMax r)
    (m_MapId r) (m_InBGFreeSlotQueue r) (m_ArenaTeamIds r) (m_ArenaTeamMMR r) (ratedArenaData r)
    (mmData r).
Definition set_m_BracketId (r : Battleground) (x : Z) : Battleground := mkBg
  (m_TypeID r) (m_RandomTypeID r) (m_InstanceID r) x (m_Status r) (m_ArenaType r) (m_IsArena r)
    (m_IsRated r) (m_InvitedAlliance r) (m_InvitedHorde r) (m_PlayersCount r) (m_Players r)
    (m_MaxPlayers r) (m_MinPlayers r) (m_MaxPlayersPerTeam r) (m_MinPlayersPerTeam r) (m_LevelMax r)
    (m_MapId r) (m_InBGFreeSlotQueue r) (m_ArenaTeamIds r) (m_ArenaTeamMMR r) (ratedArenaData r)
    (mmData r).
Definition set_m_Status (r : Battleground) (x : Z) : Battleground := mkBg
  (m_TypeID r) (m_RandomTypeID r) (m_InstanceID r) (m_BracketId r) x (m_ArenaType r) (m_IsArena r)
    (m_IsRated r) (m_InvitedAlliance r) (m_InvitedHorde r) (m_PlayersCount r) (m_Players r)
    (m_MaxPlayers r) (m_MinPlayers r) (m_MaxPlayersPerTeam r) (m_MinPlayersPerTeam r) (m_LevelMax r)
    (m_MapId r) (m_InBGFreeSlotQueue r) (m_ArenaTeamIds r) (m_ArenaTeamMMR r) (ratedArenaData r)
    (mmData r).
Definition set_m_ArenaType (r : Battleground) (x : Z) : Battleground := mkBg
  (m_TypeID r) (m_RandomTypeID r) (m_InstanceID r) (m_BracketId r) (m_Status r) x (m_IsArena r)
    (m_IsRated r) (m_InvitedAlliance r) (m_InvitedHorde r) (m_PlayersCount r) (m_Players r)
    (m_MaxPlayers r) (m_MinPlayers r) (m_MaxPlayersPerTeam r) (m_MinPlayersPerTeam r) (m_LevelMax r)
    (m_MapId r) (m_InBGFreeSlotQueue r) (m_ArenaTeamIds r) (m_ArenaTeamMMR r) (ratedArenaData r)
    (mmData r).
Definition set_m_IsArena (r : Battleground) (x : bool) : Battleground := mkBg
  (m_TypeID r) (m_RandomTypeID r) (m_InstanceID r) (m_BracketId r) (m_Status r) (m_ArenaType r) x
    (m_IsRated r) (m_InvitedAlliance r) (m_InvitedHorde r) (m_PlayersCount r) (m_Players r)
    (m_MaxPlayers r) (m_MinPlayers r) (m_MaxPlayersPerTeam r) (m_MinPlayersPerTeam r) (m_LevelMax r)
    (m_MapId r) (m_InBGFreeSlotQueue r) (m_ArenaTeamIds r) (m_ArenaTeamMMR r) (ratedArenaData r)
    (mmData r).
Definition set_m_IsRated (r : Battleground) (x : bool) : Battleground := mkBg
  (m_TypeID r) (m_RandomTypeID r) (m_InstanceID r) (m_BracketId r) (m_Status r) (m_ArenaType r)
    (m_IsArena r) x (m_InvitedAlliance r) (m_InvitedHorde r) (m_PlayersCount r) (m_Players r)
    (m_MaxPlayers r) (m_MinPlayers r) (m_MaxPlayersPerTeam r) (m_MinPlayersPerTeam r) (m_LevelMax r)
    (m_MapId r) (m_InBGFreeSlotQueue r) (m_ArenaTeamIds r) (m_ArenaTeamMMR r) (ratedArenaData r)
    (mmData r).
Definition set_m_InvitedAlliance (r : Battleground) (x : Z) : Battleground := mkBg
  (m_TypeID r) (m_RandomTypeID r) (m_InstanceID r) (m_BracketId r) (m_Status r) (m_ArenaType r)
    (m_IsArena r) (m_IsRated r) x (m_InvitedHorde r) (m_PlayersCount r) (m_Players r) (m_MaxPlayers
    r) (m_MinPlayers r) (m_MaxPlayersPerTeam r) (m_MinPlayersPerTeam r) (m_LevelMax r) (m_MapId r)
    (m_InBGFreeSlotQueue r) (m_ArenaTeamIds r) (m_ArenaTeamMMR r) (ratedArenaData r) (mmData r).
Definition set_m_InvitedHorde (r : Battleground) (x : Z) : Battleground := mkBg
  (m_TypeID r) (m_RandomTypeID r) (m_InstanceID r) (m_BracketId r) (m_Status r) (m_ArenaType r)
    (m_IsArena r) (m_IsRated r) (m_InvitedAlliance r) x (m_PlayersCount r) (m_Players r)
    (m_MaxPlayers r) (m_MinPlayers r) (m_MaxPlayersPerTeam r) (m_MinPlayersPerTeam r) (m_LevelMax r)
    (m_MapId r) (m_InBGFreeSlotQueue r) (m_ArenaTeamIds r) (m_ArenaTeamMMR r) (ratedArenaData r)
    (mmData r).
Definition set_m_PlayersCount (r : Battleground) (x : teams Z) : Battleground := mkBg
  (m_TypeID r) (m_RandomTypeID r) (m_InstanceID r) (m_BracketId r) (m_Status r) (m_ArenaType r)
    (m_IsArena r) (m_IsRated r) (m_InvitedAlliance r) (m_InvitedHorde r) x (m_Players r)
    (m_MaxPlayers r) (m_MinPlayers r) (m_MaxPlayersPerTeam r) (m_MinPlayersPerTeam r) (m_LevelMax r)
    (m_MapId r) (m_InBGFreeSlotQueue r) (m_ArenaTeamIds r) (m_ArenaTeamMMR r) (ratedArenaData r)
    (mmData r).
Definition set_m_Players (r : Battleground) (x : gmap Z Z) : Battleground := mkBg
  (m_TypeID r) (m_RandomTypeID r) (m_InstanceID r) (m_BracketId r) (m_Status r) (m_ArenaType r)
    (m_IsArena r) (m_IsRated r) (m_InvitedAlliance r) (m_InvitedHorde r) (m_PlayersCount r) x
    (m_MaxPlayers r) (m_MinPlayers r) (m_MaxPlayersPerTeam r) (m_MinPlayersPerTeam r) (m_LevelMax r)
    (m_MapId r) (m_InBGFreeSlotQueue r) (m_ArenaTeamIds r) (m_ArenaTeamMMR r) (ratedArenaData r)
    (mmData r).
Definition set_m_MaxPlayers (r : Battleground) (x : Z) : Battleground := mkBg
  (m_TypeID r) (m_RandomTypeID r) (m_InstanceID r) (m_BracketId r) (m_Status r) (m_ArenaType r)
    (m_IsArena r) (m_IsRated r) (m_InvitedAlliance r) (m_InvitedHorde r) (m_PlayersCount r)
    (m_Players r) x (m_MinPlayers r) (m_MaxPlayersPerTeam r) (m_MinPlayersPerTeam r) (m_LevelMax r)
    (m_MapId r) (m_InBGFreeSlotQueue r) (m_ArenaTeamIds r) (m_ArenaTeamMMR r) (ratedArenaData r)
    (mmData r).
Definition set_m_MinPlayers (r : Battleground) (x : Z) : Battleground := mkBg
  (m_TypeID r) (m_RandomTypeID r) (m_InstanceID r) (m_BracketId r) (m_Status r) (m_ArenaType r)
    (m_IsArena r) (m_IsRated r) (m_InvitedAlliance r) (m_InvitedHorde r) (m_PlayersCount r)
    (m_Players r) (m_MaxPlayers r) x (m_MaxPlayersPerTeam r) (m_MinPlayersPerTeam r) (m_LevelMax r)
    (m_MapId r) (m_InBGFreeSlotQueue r) (m_ArenaTeamIds r) (m_ArenaTeamMMR r) (ratedArenaData r)
    (mmData r).
Definition set_m_MaxPlayersPerTeam (r : Battleground) (x : Z) : Battleground := mkBg
  (m_TypeID r) (m_RandomTypeID r) (m_InstanceID r) (m_BracketId r) (m_Status r) (m_ArenaType r)
    (m_IsArena r) (m_IsRated r) (m_InvitedAlliance r) (m_InvitedHorde r) (m_PlayersCount r)
    (m_Players r) (m_MaxPlayers r) (m_MinPlayers r) x (m_MinPlayersPerTeam r) (m_LevelMax r)
    (m_MapId r) (m_InBGFreeSlotQueue r) (m_ArenaTeamIds r) (m_ArenaTeamMMR r) (ratedArenaData r)
    (mmData r).
Definition set_m_MinPlayersPerTeam (r : Battleground) (x : Z) : Battleground := mkBg
  (m_TypeID r) (m_RandomTypeID r) (m_InstanceID r) (m_BracketId r) (m_Status r) (m_ArenaType r)
    (m_IsArena r) (m_IsRated r) (m_InvitedAlliance r) (m_InvitedHorde r) (m_PlayersCount r)
    (m_Players r) (m_MaxPlayers r) (m_MinPlayers r) (m_MaxPlayersPerTeam r) x (m_LevelMax r)
    (m_MapId r) (m_InBGFreeSlotQueue r) (m_ArenaTeamIds r) (m_ArenaTeamMMR r) (ratedArenaData r)
    (mmData r).
Definition set_m_LevelMax (r : Battleground) (x : Z) : Battleground := mkBg
  (m_TypeID r) (m_RandomTypeID r) (m_InstanceID r) (m_BracketId r) (m_Status r) (m_ArenaType r)
    (m_IsArena r) (m_IsRated r) (m_InvitedAlliance r) (m_InvitedHorde r) (m_PlayersCount r)
    (m_Players r) (m_MaxPlayers r) (m_MinPlayers r) (m_MaxPlayersPerTeam r) (m_MinPlayersPerTeam r)
    x (m_MapId r) (m_InBGFreeSlotQueue r) (m_ArenaTeamIds r) (m_ArenaTeamMMR r) (ratedArenaData r)
    (mmData r).
Definition set_m_MapId (r : Battleground) (x : Z) : Battleground := mkBg
  (m_TypeID r) (m_RandomTypeID r) (m_InstanceID r) (m_BracketId r) (m_Status r) (m_ArenaType r)
    (m_IsArena r) (m_IsRated r) (m_InvitedAlliance r) (m_InvitedHorde r) (m_PlayersCount r)
    (m_Players r) (m_MaxPlayers r) (m_MinPlayers r) (m_MaxPlayersPerTeam r) (m_MinPlayersPerTeam r)
    (m_LevelMax r) x (m_InBGFreeSlotQueue r) (m_ArenaTeamIds r) (m_ArenaTeamMMR r) (ratedArenaData
    r) (mmData r).
Definition set_m_InBGFreeSlotQueue (r : Battleground) (x : bool) : Battleground := mkBg
  (m_TypeID r) (m_RandomTypeID r) (m_InstanceID r) (m_BracketId r) (m_Status r) (m_ArenaType r)
    (m_IsArena r) (m_IsRated r) (m_InvitedAlliance r) (m_InvitedHorde r) (m_PlayersCount r)
    (m_Players r) (m_MaxPlayers r) (m_MinPlayers r) (m_MaxPlayersPerTeam r) (m_MinPlayersPerTeam r)
    (m_LevelMax r) (m_MapId r) x (m_ArenaTeamIds r) (m_ArenaTeamMMR r) (ratedArenaData r) (mmData
    r).
Definition set_m_ArenaTeamIds (r : Battleground) (x : teams Z) : Battleground := mkBg
  (m_TypeID r) (m_RandomTypeID r) (m_InstanceID r) (m_BracketId r) (m_Status r) (m_ArenaType r)
    (m_IsArena r) (m_IsRated r) (m_InvitedAlliance r) (m_InvitedHorde r) (m_PlayersCount r)
    (m_Players r) (m_MaxPlayers r) (m_MinPlayers r) (m_MaxPlayersPerTeam r) (m_MinPlayersPerTeam r)
    (m_LevelMax r) (m_MapId r) (m_InBGFreeSlotQueue r) x (m_ArenaTeamMMR r) (ratedArenaData r)
    (mmData r).
Definition set_m_ArenaTeamMMR (r : Battleground) (x : teams Z) : Battleground := mkBg
  (m_TypeID r) (m_RandomTypeID r) (m_InstanceID r) (m_BracketId r) (m_Status r) (m_ArenaType r)
    (m_IsArena r) (m_IsRated r) (m_InvitedAlliance r) (m_InvitedHorde r) (m_PlayersCount r)
    (m_Players r) (m_MaxPlayers r) (m_MinPlayers r) (m_MaxPlayersPerTeam r) (m_MinPlayersPerTeam r)
    (m_LevelMax r) (m_MapId r) (m_InBGFreeSlotQueue r) (m_ArenaTeamIds r) x (ratedArenaData r)
    (mmData r).
Definition set_ratedArenaData (r : Battleground) (x : teams (gset Z)) : Battleground := mkBg
  (m_TypeID r) (m_RandomTypeID r) (m_InstanceID r) (m_BracketId r) (m_Status r) (m_ArenaType r)
    (m_IsArena r) (m_IsRated r) (m_InvitedAlliance r) (m_InvitedHorde r) (m_PlayersCount r)
    (m_Players r) (m_MaxPlayers r) (m_MinPlayers r) (m_MaxPlayersPerTeam r) (m_MinPlayersPerTeam r)
    (m_LevelMax r) (m_MapId r) (m_InBGFreeSlotQueue r) (m_ArenaTeamIds r) (m_ArenaTeamMMR r) x
    (mmData r).
Definition set_mmData (r : Battleground) (x : MatchmakingData) : Battleground := mkBg
  (m_TypeID r) (m_RandomTypeID r) (m_InstanceID r) (m_BracketId r) (m_Status r) (m_ArenaType r)
    (m_IsArena r) (m_IsRated r) (m_InvitedAlliance r) (m_InvitedHorde r) (m_PlayersCount r)
    (m_Players r) (m_MaxPlayers r) (m_MinPlayers r) (m_MaxPlayersPerTeam r) (m_MinPlayersPerTeam r)
    (m_LevelMax r) (m_MapId r) (m_InBGFreeSlotQueue r) (m_ArenaTeamIds r) (m_ArenaTeamMMR r)
    (ratedArenaData r) x.

(** What the queues see of a player group. *)
Record BgGroup := mkBgGroup {
  GetLeaderGUID : Z;
  members : list Z;                     (* in the order of the references *)
  GetMembersCount : Z;
  isLFGGroup : bool
}.
Definition set_GetLeaderGUID (r : BgGroup) (x : Z) : BgGroup := mkBgGroup
  x (members r) (GetMembersCount r) (isLFGGroup r).
Definition set_members (r : BgGroup) (x : list Z) : BgGroup := mkBgGroup
  (GetLeaderGUID r) x (GetMembersCount r) (isLFGGroup r).
Definition set_GetMembersCount (r : BgGroup) (x : Z) : BgGroup := mkBgGroup
  (GetLeaderGUID r) (members r) x (isLFGGroup r).
Definition set_isLFGGroup (r : BgGroup) (x : bool) : BgGroup := mkBgGroup
  (GetLeaderGUID r) (members r) (GetMembersCount r) x.

Record Player := mkPlayer {
  m_team : Z;
  getLevel : Z;
  IsHealer : bool;
  GetPvPItemLevel : f32;
  skill_rating : f32;                   (* pvpData.GetRating().rating *)
  arena_rating : f32;                   (* pvpData.GetArenaSkillValues().rating *)
  GetArenaRating : Z;
  CROSSFACTION_DISABLED : bool;
  GetArenaTeamId : Z → Z;
  GetGroup : option BgGroup;
  CanJoinToBattleground : Z → bool;     (* no deserter debuff, by type *)
  frozen : bool;                        (* aura 9454 *)
  isUsingLfg : bool;
  PlayerLogout : bool;
  IsInWorld : bool;
  IsBeingTeleportedFar : bool;
  bgInstanceID : Z;
  bgTypeID : Z;
  bgTeam : Z;
  queue_ids : list (Z * Z)              (* m_bgBattlegroundQueueID: queue type, instance invited to *)
}.
Definition set_m_team (r : Player) (x : Z) : Player := mkPlayer
  x (getLevel r) (IsHealer r) (GetPvPItemLevel r) (skill_rating r) (arena_rating r) (GetArenaRating
    r) (CROSSFACTION_DISABLED r) (GetArenaTeamId r) (GetGroup r) (CanJoinToBattleground r) (frozen
    r) (isUsingLfg r) (PlayerLogout r) (IsInWorld r) (IsBeingTeleportedFar r) (bgInstanceID r)
    (bgTypeID r) (bgTeam r) (queue_ids r).
Definition set_getLevel (r : Player) (x : Z) : Player := mkPlayer
  (m_team r) x (IsHealer r) (GetPvPItemLevel r) (skill_rating r) (arena_rating r) (GetArenaRating r)
    (CROSSFACTION_DISABLED r) (GetArenaTeamId r) (GetGroup r) (CanJoinToBattleground r) (frozen r)
    (isUsingLfg r) (PlayerLogout r) (IsInWorld r) (IsBeingTeleportedFar r) (bgInstanceID r)
    (bgTypeID r) (bgTeam r) (queue_ids r).
Definition set_IsHealer (r : Player) (x : bool) : Player := mkPlayer
  (m_team r) (getLevel r) x (GetPvPItemLevel r) (skill_rating r) (arena_rating r) (GetArenaRating r)
    (CROSSFACTION_DISABLED r) (GetArenaTeamId r) (GetGroup r) (CanJoinToBattleground r) (frozen r)
    (isUsingLfg r) (PlayerLogout r) (IsInWorld r) (IsBeingTeleportedFar r) (bgInstanceID r)
    (bgTypeID r) (bgTeam r) (queue_ids r).
Definition set_GetPvPItemLevel (r : Player) (x : f32) : Player := mkPlayer
  (m_team r) (getLevel r) (IsHealer r) x (skill_rating r) (arena_rating r) (GetArenaRating r)
    (CROSSFACTION_DISABLED r) (GetArenaTeamId r) (GetGroup r) (CanJoinToBattleground r) (frozen r)
    (isUsingLfg r) (PlayerLogout r) (IsInWorld r) (IsBeingTeleportedFar r) (bgInstanceID r)
    (bgTypeID r) (bgTeam r) (queue_ids r).
Definition set_skill_rating (r : Player) (x : f32) : Player := mkPlayer
  (m_team r) (getLevel r) (IsHealer r) (GetPvPItemLevel r) x (arena_rating r) (GetArenaRating r)
    (CROSSFACTION_DISABLED r) (GetArenaTeamId r) (GetGroup r) (CanJoinToBattleground r) (frozen r)
    (isUsingLfg r) (PlayerLogout r) (IsInWorld r) (IsBeingTeleportedFar r) (bgInstanceID r)
    (bgTypeID r) (bgTeam r) (queue_ids r).
Definition set_arena_rating (r : Player) (x : f32) : Player := mkPlayer
  (m_team r) (getLevel r) (IsHealer r) (GetPvPItemLevel r) (skill_rating r) x (GetArenaRating r)
    (CROSSFACTION_DISABLED r) (GetArenaTeamId r) (GetGroup r) (CanJoinToBattleground r) (frozen r)
    (isUsingLfg r) (PlayerLogout r) (IsInWorld r) (IsBeingTeleportedFar r) (bgInstanceID r)
    (bgTypeID r) (bgTeam r) (queue_ids r).
Definition set_GetArenaRating (r : Player) (x : Z) : Player := mkPlayer
  (m_team r) (getLevel r) (IsHealer r) (GetPvPItemLevel r) (skill_rating r) (arena_rating r) x
    (CROSSFACTION_DISABLED r) (GetArenaTeamId r) (GetGroup r) (CanJoinToBattleground r) (frozen r)
    (isUsingLfg r) (PlayerLogout r) (IsInWorld r) (IsBeingTeleportedFar r) (bgInstanceID r)
    (bgTypeID r) (bgTeam r) (queue_ids r).
Definition set_CROSSFACTION_DISABLED (r : Player) (x : bool) : Player := mkPlayer
  (m_team r) (getLevel r) (IsHealer r) (GetPvPItemLevel r) (skill_rating r) (arena_rating r)
    (GetArenaRating r) x (GetArenaTeamId r) (GetGroup r) (CanJoinToBattleground r) (frozen r)
    (isUsingLfg r) (PlayerLogout r) (IsInWorld r) (IsBeingTeleportedFar r) (bgInstanceID r)
    (bgTypeID r) (bgTeam r) (queue_ids r).
Definition set_GetArenaTeamId (r : Player) (x : Z → Z) : Player := mkPlayer
  (m_team r) (getLevel r) (IsHealer r) (GetPvPItemLevel r) (skill_rating r) (arena_rating r)
    (GetArenaRating r) (CROSSFACTION_DISABLED r) x (GetGroup r) (CanJoinToBattleground r) (frozen r)
    (isUsingLfg r) (PlayerLogout r) (IsInWorld r) (IsBeingTeleportedFar r) (bgInstanceID r)
    (bgTypeID r) (bgTeam r) (queue_ids r).
Definition set_GetGroup (r : Player) (x : option BgGroup) : Player := mkPlayer
  (m_team r) (getLevel r) (IsHealer r) (GetPvPItemLevel r) (skill_rating r) (arena_rating r)
    (GetArenaRating r) (CROSSFACTION_DISABLED r) (GetArenaTeamId r) x (CanJoinToBattleground r)
    (frozen r) (isUsingLfg r) (PlayerLogout r) (IsInWorld r) (IsBeingTeleportedFar r) (bgInstanceID
    r) (bgTypeID r) (bgTeam r) (queue_ids r).
Definition set_CanJoinToBattleground (r : Player) (x : Z → bool) : Player := mkPlayer
  (m_team r) (getLevel r) (IsHealer r) (GetPvPItemLevel r) (skill_rating r) (arena_rating r)
    (GetArenaRating r) (CROSSFACTION_DISABLED r) (GetArenaTeamId r) (GetGroup r) x (frozen r)
    (isUsingLfg r) (PlayerLogout r) (IsInWorld r) (IsBeingTeleportedFar r) (bgInstanceID r)
    (bgTypeID r) (bgTeam r) (queue_ids r).
Definition set_frozen (r : Player) (x : bool) : Player := mkPlayer
  (m_team r) (getLevel r) (IsHealer r) (GetPvPItemLevel r) (skill_rating r) (arena_rating r)
    (GetArenaRating r) (CROSSFACTION_DISABLED r) (GetArenaTeamId r) (GetGroup r)
    (CanJoinToBattleground r) x (isUsingLfg r) (PlayerLogout r) (IsInWorld r) (IsBeingTeleportedFar
    r) (bgInstanceID r) (bgTypeID r) (bgTeam r) (queue_ids r).
Definition set_isUsingLfg (r : Player) (x : bool) : Player := mkPlayer
  (m_team r) (getLevel r) (IsHealer r) (GetPvPItemLevel r) (skill_rating r) (arena_rating r)
    (GetArenaRating r) (CROSSFACTION_DISABLED r) (GetArenaTeamId r) (GetGroup r)
    (CanJoinToBattleground r) (frozen r) x (PlayerLogout r) (IsInWorld r) (IsBeingTeleportedFar r)
    (bgInstanceID r) (bgTypeID r) (bgTeam r) (queue_ids r).
Definition set_PlayerLogout (r : Player) (x : bool) : Player := mkPlayer
  (m_team r) (getLevel r) (IsHealer r) (GetPvPItemLevel r) (skill_rating r) (arena_rating r)
    (GetArenaRating r) (CROSSFACTION_DISABLED r) (GetArenaTeamId r) (GetGroup r)
    (CanJoinToBattleground r) (frozen r) (isUsingLfg r) x (IsInWorld r) (IsBeingTeleportedFar r)
    (bgInstanceID r) (bgTypeID r) (bgTeam r) (queue_ids r).
Definition set_IsInWorld (r : Player) (x : bool) : Player := mkPlayer
  (m_team r) (getLevel r) (IsHealer r) (GetPvPItemLevel r) (skill_rating r) (arena_rating r)
    (GetArenaRating r) (CROSSFACTION_DISABLED r) (GetArenaTeamId r) (GetGroup r)
    (CanJoinToBattleground r) (frozen r) (isUsingLfg r) (PlayerLogout r) x (IsBeingTeleportedFar r)
    (bgInstanceID r) (bgTypeID r) (bgTeam r) (queue_ids r).
Definition set_IsBeingTeleportedFar (r : Player) (x : bool) : Player := mkPlayer
  (m_team r) (getLevel r) (IsHealer r) (GetPvPItemLevel r) (skill_rating r) (arena_rating r)
    (GetArenaRating r) (CROSSFACTION_DISABLED r) (GetArenaTeamId r) (GetGroup r)
    (CanJoinToBattleground r) (frozen r) (isUsingLfg r) (PlayerLogout r) (IsInWorld r) x
    (bgInstanceID r) (bgTypeID r) (bgTeam r) (queue_ids r).
Definition set_bgInstanceID (r : Player) (x : Z) : Player := mkPlayer
  (m_team r) (getLevel r) (IsHealer r) (GetPvPItemLevel r) (skill_rating r) (arena_rating r)
    (GetArenaRating r) (CROSSFACTION_DISABLED r) (GetArenaTeamId r) (GetGroup r)
    (CanJoinToBattleground r) (frozen r) (isUsingLfg r) (PlayerLogout r) (IsInWorld r)
    (IsBeingTeleportedFar r) x (bgTypeID r) (bgTeam r) (queue_ids r).
Definition set_bgTypeID (r : Player) (x : Z) : Player := mkPlayer
  (m_team r) (getLevel r) (IsHealer r) (GetPvPItemLevel r) (skill_rating r) (arena_rating r)
    (GetArenaRating r) (CROSSFACTION_DISABLED r) (GetArenaTeamId r) (GetGroup r)
    (CanJoinToBattleground r) (frozen r) (isUsingLfg r) (PlayerLogout r) (IsInWorld r)
    (IsBeingTeleportedFar r) (bgInstanceID r) x (bgTeam r) (queue_ids r).
Definition set_bgTeam (r : Player) (x : Z) : Player := mkPlayer
  (m_team r) (getLevel r) (IsHealer r) (GetPvPItemLevel r) (skill_rating r) (arena_rating r)
    (GetArenaRating r) (CROSSFACTION_DISABLED r) (GetArenaTeamId r) (GetGroup r)
    (CanJoinToBattleground r) (frozen r) (isUsingLfg r) (PlayerLogout r) (IsInWorld r)
    (IsBeingTeleportedFar r) (bgInstanceID r) (bgTypeID r) x (queue_ids r).
Definition set_queue_ids (r : Player) (x : list (Z * Z)) : Player := mkPlayer
  (m_team r) (getLevel r) (IsHealer r) (GetPvPItemLevel r) (skill_rating r) (arena_rating r)
    (GetArenaRating r) (CROSSFACTION_DISABLED r) (GetArenaTeamId r) (GetGroup r)
    (CanJoinToBattleground r) (frozen r) (isUsingLfg r) (PlayerLogout r) (IsInWorld r)
    (IsBeingTeleportedFar r) (bgInstanceID r) (bgTypeID r) (bgTeam r) x.

(** ** Packets *)
Inductive Packet :=
| SMSG_BATTLEFIELD_STATUS (queueSlot statusId time1 time2 arenaType arenaFaction : Z)
| SMSG_GROUP_JOINED_BATTLEGROUND (result : Z)
| SMSG_ARENA_ERROR (arenatype : Z).

Record World := mkWorld {
  groups : gmap Z GroupQueueInfo;       (* the objects, by address *)
  next_address : Z;
  queues : gmap Z BattlegroundQueue;    (* m_BattlegroundQueues *)
  battlegrounds : gmap Z Battleground;  (* the objects, by instance id *)
  stores : gmap Z (gset Z);             (* m_Battlegrounds of each type: instance ids *)
  templates : gmap Z Battleground;      (* by type *)
  BGFreeSlotQueue : gmap Z (list Z);    (* instance ids *)
  m_QueueUpdateScheduler : list Z;
  m_NextRatedArenaUpdate : Z;
  players : gmap Z Player;              (* the connected ones *)
  GameTimeMS : Z;
  getMSTime : Z;
  next_instance : Z;                    (* MapManager::GenerateInstanceId *)
  random : list Z;                      (* what GetRandomBG will draw *)
  recentOpponents : gmap (Z * Z) Z;
  recentAllies : gmap (Z * Z) Z;
  lost : list (Z * Z * Z);              (* ArenaTeam::MemberLost: team, player, rating of the opponents *)
  sent : list (Z * Packet)
}.
Definition set_groups (r : World) (x : gmap Z GroupQueueInfo) : World := mkWorld
  x (next_address r) (queues r) (battlegrounds r) (stores r) (templates r) (BGFreeSlotQueue r)
    (m_QueueUpdateScheduler r) (m_NextRatedArenaUpdate r) (players r) (GameTimeMS r) (getMSTime r)
    (next_instance r) (random r) (recentOpponents r) (recentAllies r) (lost r) (sent r).
Definition set_next_address (r : World) (x : Z) : World := mkWorld
  (groups r) x (queues r) (battlegrounds r) (stores r) (templates r) (BGFreeSlotQueue r)
    (m_QueueUpdateScheduler r) (m_NextRatedArenaUpdate r) (players r) (GameTimeMS r) (getMSTime r)
    (next_instance r) (random r) (recentOpponents r) (recentAllies r) (lost r) (sent r).
Definition set_queues (r : World) (x : gmap Z BattlegroundQueue) : World := mkWorld
  (groups r) (next_address r) x (battlegrounds r) (stores r) (templates r) (BGFreeSlotQueue r)
    (m_QueueUpdateScheduler r) (m_NextRatedArenaUpdate r) (players r) (GameTimeMS r) (getMSTime r)
    (next_instance r) (random r) (recentOpponents r) (recentAllies r) (lost r) (sent r).
Definition set_battlegrounds (r : World) (x : gmap Z Battleground) : World := mkWorld
  (groups r) (next_address r) (queues r) x (stores r) (templates r) (BGFreeSlotQueue r)
    (m_QueueUpdateScheduler r) (m_NextRatedArenaUpdate r) (players r) (GameTimeMS r) (getMSTime r)
    (next_instance r) (random r) (recentOpponents r) (recentAllies r) (lost r) (sent r).
Definition set_stores (r : World) (x : gmap Z (gset Z)) : World := mkWorld
  (groups r) (next_address r) (queues r) (battlegrounds r) x (templates r) (BGFreeSlotQueue r)
    (m_QueueUpdateScheduler r) (m_NextRatedArenaUpdate r) (players r) (GameTimeMS r) (getMSTime r)
    (next_instance r) (random r) (recentOpponents r) (recentAllies r) (lost r) (sent r).
Definition set_templates (r : World) (x : gmap Z Battleground) : World := mkWorld
  (groups r) (next_address r) (queues r) (battlegrounds r) (stores r) x (BGFreeSlotQueue r)
    (m_QueueUpdateScheduler r) (m_NextRatedArenaUpdate r) (players r) (GameTimeMS r) (getMSTime r)
    (next_instance r) (random r) (recentOpponents r) (recentAllies r) (lost r) (sent r).
Definition set_BGFreeSlotQueue (r : World) (x : gmap Z (list Z)) : World := mkWorld
  (groups r) (next_address r) (queues r) (battlegrounds r) (stores r) (templates r) x
    (m_QueueUpdateScheduler r) (m_NextRatedArenaUpdate r) (players r) (GameTimeMS r) (getMSTime r)
    (next_instance r) (random r) (recentOpponents r) (recentAllies r) (lost r) (sent r).
Definition set_m_QueueUpdateScheduler (r : World) (x : list Z) : World := mkWorld
  (groups r) (next_address r) (queues r) (battlegrounds r) (stores r) (templates r) (BGFreeSlotQueue
    r) x (m_NextRatedArenaUpdate r) (players r) (GameTimeMS r) (getMSTime r) (next_instance r)
    (random r) (recentOpponents r) (recentAllies r) (lost r) (sent r).
Definition set_m_NextRatedArenaUpdate (r : World) (x : Z) : World := mkWorld
  (groups r) (next_address r) (queues r) (battlegrounds r) (stores r) (templates r) (BGFreeSlotQueue
    r) (m_QueueUpdateScheduler r) x (players r) (GameTimeMS r) (getMSTime r) (next_instance r)
    (random r) (recentOpponents r) (recentAllies r) (lost r) (sent r).
Definition set_players (r : World) (x : gmap Z Player) : World := mkWorld
  (groups r) (next_address r) (queues r) (battlegrounds r) (stores r) (templates r) (BGFreeSlotQueue
    r) (m_QueueUpdateScheduler r) (m_NextRatedArenaUpdate r) x (GameTimeMS r) (getMSTime r)
    (next_instance r) (random r) (recentOpponents r) (recentAllies r) (lost r) (sent r).
Definition set_GameTimeMS (r : World) (x : Z) : World := mkWorld
  (groups r) (next_address r) (queues r) (battlegrounds r) (stores r) (templates r) (BGFreeSlotQueue
    r) (m_QueueUpdateScheduler r) (m_NextRatedArenaUpdate r) (players r) x (getMSTime r)
    (next_instance r) (random r) (recentOpponents r) (recentAllies r) (lost r) (sent r).
Definition set_getMSTime (r : World) (x : Z) : World := mkWorld
  (groups r) (next_address r) (queues r) (battlegrounds r) (stores r) (templates r) (BGFreeSlotQueue
    r) (m_QueueUpdateScheduler r) (m_NextRatedArenaUpdate r) (players r) (GameTimeMS r) x
    (next_instance r) (random r) (recentOpponents r) (recentAllies r) (lost r) (sent r).
Definition set_next_instance (r : World) (x : Z) : World := mkWorld
  (groups r) (next_address r) (queues r) (battlegrounds r) (stores r) (templates r) (BGFreeSlotQueue
    r) (m_QueueUpdateScheduler r) (m_NextRatedArenaUpdate r) (players r) (GameTimeMS r) (getMSTime
    r) x (random r) (recentOpponents r) (recentAllies r) (lost r) (sent r).
Definition set_random (r : World) (x : list Z) : World := mkWorld
  (groups r) (next_address r) (queues r) (battlegrounds r) (stores r) (templates r) (BGFreeSlotQueue
    r) (m_QueueUpdateScheduler r) (m_NextRatedArenaUpdate r) (players r) (GameTimeMS r) (getMSTime
    r) (next_instance r) x (recentOpponents r) (recentAllies r) (lost r) (sent r).
Definition set_recentOpponents (r : World) (x : gmap (Z * Z) Z) : World := mkWorld
  (groups r) (next_address r) (queues r) (battlegrounds r) (stores r) (templates r) (BGFreeSlotQueue
    r) (m_QueueUpdateScheduler r) (m_NextRatedArenaUpdate r) (players r) (GameTimeMS r) (getMSTime
    r) (next_instance r) (random r) x (recentAllies r) (lost r) (sent r).
Definition set_recentAllies (r : World) (x : gmap (Z * Z) Z) : World := mkWorld
  (groups r) (next_address r) (queues r) (battlegrounds r) (stores r) (templates r) (BGFreeSlotQueue
    r) (m_QueueUpdateScheduler r) (m_NextRatedArenaUpdate r) (players r) (GameTimeMS r) (getMSTime
    r) (next_instance r) (random r) (recentOpponents r) x (lost r) (sent r).
Definition set_lost (r : World) (x : list (Z * Z * Z)) : World := mkWorld
  (groups r) (next_address r) (queues r) (battlegrounds r) (stores r) (templates r) (BGFreeSlotQueue
    r) (m_QueueUpdateScheduler r) (m_NextRatedArenaUpdate r) (players r) (GameTimeMS r) (getMSTime
    r) (next_instance r) (random r) (recentOpponents r) (recentAllies r) x (sent r).
Definition set_sent (r : World) (x : list (Z * Packet)) : World := mkWorld
  (groups r) (next_address r) (queues r) (battlegrounds r) (stores r) (templates r) (BGFreeSlotQueue
    r) (m_QueueUpdateScheduler r) (m_NextRatedArenaUpdate r) (players r) (GameTimeMS r) (getMSTime
    r) (next_instance r) (random r) (recentOpponents r) (recentAllies r) (lost r) x.

Abbreviation BW := (ST World).

(** ** What is not modelled *)
Class BgEnv := {
  BATTLEGROUND_CROSSFACTION_ENABLED : bool;
  CONFIG_ARENA_SOLOQUEUE_ENABLED : bool;
  CONFIG_BATTLEGROUND_INVITATION_TYPE : Z;
  CONFIG_BATTLEGROUND_PREMADE_GROUP_WAIT_FOR_MATCH : Z;
  CONFIG_ARENA_RATED_UPDATE_TIMER : Z;
  CONFIG_ARENA_MMR_COMPOSITE_TYPE : Z;
  CONFIG_ARENA_MAX_RATING_DIFFERENCE : Z → Z;    (* _2V2, _3V3, _5V5, by the size *)
  CONFIG_ARENA_RATING_DISCARD_TIMER : Z → Z;
  CONFIG_ARENA_WIDENING_TIMER : Z → Z;
  CONFIG_ARENA_WIDENING_DELTA : Z → Z;
  CONFIG_BG_MATCHMAKING_PLAYER_COUNT : f32;
  CONFIG_BG_MATCHMAKING_PLAYER_DIFF : f32;
  CONFIG_BG_MATCHMAKING_HEALER_DIFF : f32;
  CONFIG_BG_MATCHMAKING_MAX_SKILL : f32;
  CONFIG_BG_MATCHMAKING_SKILL : f32;
  CONFIG_BG_MATCHMAKING_MAX_ITEMLVL : f32;
  CONFIG_BG_MATCHMAKING_ITEMLVL : f32;
  CONFIG_BG_MATCHMAKING_FACTION : f32;
  CONFIG_BG_MATCHMAKING_PREMADE : f32;
  CONFIG_BG_MATCHMAKING_MAX_WAIT : f32;
  CONFIG_BG_MATCHMAKING_WAIT : f32;
  CONFIG_ARENA_MATCHMAKING_MAX_PREMADE_DIFF : f32;
  CONFIG_ARENA_MATCHMAKING_PLAYER_COUNT_WEIGHT : f32;
  CONFIG_ARENA_MATCHMAKING_SKILL_RANGE_TIME : f32;
  CONFIG_ARENA_MATCHMAKING_SKILL_RANGE_MIN : f32;
  CONFIG_ARENA_MATCHMAKING_SKILL_RANGE_MAX : f32;
  CONFIG_ARENA_MATCHMAKING_SKILL_RANGE_WEIGHT : f32;
  CONFIG_ARENA_MATCHMAKING_SKILL_DIFF_TIME : f32;
  CONFIG_ARENA_MATCHMAKING_SKILL_DIFF_MIN : f32;
  CONFIG_ARENA_MATCHMAKING_SKILL_DIFF_MAX : f32;
  CONFIG_ARENA_MATCHMAKING_SKILL_DIFF_WEIGHT : f32;
  CONFIG_ARENA_MATCHMAKING_PREMADE_WEIGHT : f32;
  CONFIG_ARENA_MATCHMAKING_RECENT_OPPONENT_TIME : f32;
  CONFIG_ARENA_MATCHMAKING_RECENT_OPPONENT_PENALTY : f32;
  CONFIG_ARENA_MATCHMAKING_2V2_TIME : f32;
  CONFIG_ARENA_MATCHMAKING_3V3_TIME : f32;
  isTesting : bool;
  isArenaTesting : bool;
  pow : f64 → f64 → f64;                         (* the C library *)
  (* PvPDifficulty.dbc: bracket by map and level; does map and bracket exist; BattlemasterList.dbc *)
  GetBattlegroundBracketByLevel : Z → Z → option Z;
  GetBattlegroundBracketById : Z → Z → bool;
  maxGroupSize : Z → option Z;
  IsDisabledFor : Z → bool;                      (* DISABLE_TYPE_BATTLEGROUND *)
  event_107 : bool;                              (* the hours of rated arenas *)
  ArenaTeam_rating : Z → option Z;               (* GetArenaTeamById, GetRating *)
  ArenaTeam_mmr : Z → option BgGroup → Z → Z;    (* GetAverageMMR 0, GetMaxMMR 1, GetMinMMR 2 *)
}.

(** ** Access *)
Section access.
Context `{BE : BgEnv}.

Definition group_at (a : Z) : BW GroupQueueInfo := w ← get; lift (deref (groups w !! a) Ok).
Definition upd_group (a : Z) (f : GroupQueueInfo → GroupQueueInfo) : BW unit :=
  g ← group_at a; modify (λ w, set_groups w (<[a := f g]> (groups w))).
Definition queue_of (w : World) (q : Z) : BattlegroundQueue := default empty_queue (queues w !! q).
Definition queue_at (q : Z) : BW BattlegroundQueue := w ← get; mret (queue_of w q).
Definition upd_queue (q : Z) (f : BattlegroundQueue → BattlegroundQueue) : BW unit :=
  modify (λ w, set_queues w (<[q := f (queue_of w q)]> (queues w))).
Definition bg_at (id : Z) : BW Battleground := w ← get; lift (deref (battlegrounds w !! id) Ok).
Definition upd_bg (id : Z) (f : Battleground → Battleground) : BW unit :=
  b ← bg_at id; modify (λ w, set_battlegrounds w (<[id := f b]> (battlegrounds w))).
Definition player_at (guid : Z) : BW Player := w ← get; lift (deref (players w !! guid) Ok).
Definition upd_player (guid : Z) (f : Player → Player) : BW unit :=
  p ← player_at guid; modify (λ w, set_players w (<[guid := f p]> (players w))).
Definition send (guid : Z) (pkt : Packet) : BW unit := modify (λ w, set_sent w (sent w ++ [(guid, pkt)])).

(** The list of groups of a bracket and type, and a change of it. *)
Definition queued (Q : BattlegroundQueue) (bracket type : Z) : list Z := default [] (m_QueuedGroups Q !! (bracket, type)).
Definition on_queued (Q : BattlegroundQueue) (bracket type : Z) (f : list Z → list Z) : BattlegroundQueue :=
  set_m_QueuedGroups Q (<[(bracket, type) := f (queued Q bracket type)]> (m_QueuedGroups Q)).
End access.

End BgData.
