(* ===== verification/BgMatchmaking.v ===== *)
(** * The search for a proposal
    ([src/server/game/Battlegrounds/Matchmaking.{hpp,cpp}], [MatchmakingArena.cpp])

    A proposal assigns the groups of a list to the alliance (0), the horde (1) or to stay
    in the queue (2); -1 is not yet assigned. Its quality is a [double]. The search
    assigns two to four groups at a time, keeping the best. *)
From S2P Require Import Prelude StateMonad Multimap Float32 Float64 BgData.

Module BgMatchmaking.
Export BgData.

(** ** What the search reads of a group *)
Record GroupView := mkView {
  v_group : Z;                              (* its address *)
  v_Team : Z;
  v_JoinTime : Z;
  v_AllowCrossfaction : bool;
  v_players : list (Z * PlayerQueueInfo)    (* in the order of the map *)
}.
Definition v_size (g : GroupView) : Z := Z.of_nat (length (v_players g)).

(** [GroupQueueInfo::CanJoinBGTeam] *)
Definition CanJoinBGTeam (g : GroupView) (joinTeam : Z) : bool :=
  if joinTeam =? TEAM_ALLIANCE then (v_Team g =? ALLIANCE) || v_AllowCrossfaction g
  else if joinTeam =? TEAM_HORDE then (v_Team g =? HORDE) || v_AllowCrossfaction g
  else false.

(** std::list::sort by QueueTimeComparator: stable *)
Definition sort_by_join (l : list GroupView) : list GroupView :=
  (foldl (λ s g, mm_insert (v_JoinTime g) g s) [] l).*2.

Record Proposal := mkProposal {
  assigment : list Z;
  quality : f64;
  unassignedCounter : Z
}.

Definition PERFORMANCE_GROUPS_PER_ITERATION : Z := 25.

(** ** The search *)
Section search.
Context (baseQueue : list GroupView) (CanJoin : GroupView → Z → bool).
(** [CalculateProposalQuality] as a function of the assignment. *)
Context (Quality : list Z → f64).

Definition new_Proposal : Proposal :=
  let n := Z.min (Z.of_nat (length baseQueue)) PERFORMANCE_GROUPS_PER_ITERATION in
  mkProposal (replicate (Z.to_nat n) (-1)) f64_neg_infinity n.

Definition UpdateSearchRange (p : Proposal) : Proposal :=
  let increasedSize := Z.min (Z.of_nat (length baseQueue) - Z.of_nat (length (assigment p)))
                             (PERFORMANCE_GROUPS_PER_ITERATION - unassignedCounter p) in
  mkProposal (resize (Z.to_nat (Z.of_nat (length (assigment p)) + increasedSize)) (-1) (assigment p))
    (quality p) (unassignedCounter p + increasedSize).

(** The teams tried for a group. *)
Definition teams_of (g : GroupView) : list Z :=
  filter (λ team, (team <? BG_TEAMS_COUNT) && negb (CanJoin g team) = false) [0; 1; 2].

(** The slots of the proposal with their groups. *)
Definition slots (p : Proposal) : list (nat * GroupView) := imap pair (take (length (assigment p)) baseQueue).

(** [FindProposal(current, depth + 1, itr, index)] *)
Fixpoint FindProposal_at (depth : nat) (current : Proposal) (index : nat) : Proposal :=
  let unassigned := unassignedCounter current - 1 in
  let try (slot : nat) (best : Proposal) (team : Z) : Proposal :=
    let assigned := <[slot := team]> (assigment current) in
    let candidate :=
      match depth with
      | O => mkProposal assigned (Quality assigned) unassigned
      | S depth =>
        if unassigned =? 0 then mkProposal assigned (Quality assigned) unassigned
        else FindProposal_at depth (mkProposal assigned (quality current) unassigned) slot
      end in
    if f64_ltb (quality best) (quality candidate) then candidate else best in
  foldl (λ best slot,
      if 0 <=? default 0 (assigment current !! slot.1) then best
      else foldl (try slot.1) best (teams_of slot.2))
    new_Proposal (drop index (slots current)).

Definition search_depth (unassigned : Z) : nat :=
  if unassigned <=? 6 then 4 else if unassigned <=? 12 then 3 else 2.

(** The loop of FindProposal: does not return when no assignment is better than none. *)
Fixpoint find_loop (fuel : nat) (current best : Proposal) : outcome Proposal :=
  if unassignedCounter current <=? 0 then Ok best
  else match fuel with
  | O => OutOfFuel
  | S fuel =>
    let current := FindProposal_at (pred (search_depth (unassignedCounter current))) current 0 in
    let best := if f64_ltb (quality best) (quality current) then current else best in
    find_loop fuel (UpdateSearchRange current) best
  end.

(** One round for every slot that can be assigned. *)
Definition find_fuel : nat := S (length baseQueue).

(** [first] is the quality of the empty assignment, found before the clock is read. *)
Definition FindProposal_from (first : list Z → f64) : outcome Proposal :=
  let current := new_Proposal in
  let current := mkProposal (assigment current) (first (assigment current)) (unassignedCounter current) in
  find_loop find_fuel current current.
End search.

(** The array of flags has no place for groups that stay in the queue (2). *)
Definition HasPlayersAssignedToBothTeams (p : Proposal) : outcome bool :=
  if existsb (Z.leb BG_TEAMS_COUNT) (assigment p) then Undefined
  else Ok (existsb (Z.eqb TEAM_ALLIANCE) (assigment p) && existsb (Z.eqb TEAM_HORDE) (assigment p)).

(** ** The data of a battleground *)

Definition new_matchmaking (maxPlayers : Z) : MatchmakingData :=
  mkMM maxPlayers (maxPlayers / 2) 0 (both ∅) (both 0) (both f64_zero) (both f32_zero) (both 0) 0.
(** SetConfig *)
Definition SetConfig (d : MatchmakingData) (max : Z) : outcome MatchmakingData :=
  assert_ (max `mod` 2 =? 0) (Ok (set_maxPlayersPerTeam (set_mm_maxPlayers d max) (max / 2))).

Definition AddPlayerData (d : MatchmakingData) (guid : Z) (p : Player) (g : GroupQueueInfo) : MatchmakingData :=
  let team := if Team g =? HORDE then TEAM_HORDE else TEAM_ALLIANCE in
  let cross := negb (Team g =? m_team p) in
  let size := u32 (players_size g) in
  mkMM (mm_maxPlayers d) (maxPlayersPerTeam d) (timestamp d)
    (on_team (playerData d) team <[guid := mkData (f64_of_f32 (skill_rating p)) cross (IsHealer p) (GetPvPItemLevel p) size]>)
    (on_team (totalPremadeSize d) team (λ n, u32 (n + size)))
    (on_team (totalRating d) team (λ r, f64_add r (f64_of_f32 (skill_rating p))))
    (on_team (totalItemLevel d) team (λ r, f32_add r (GetPvPItemLevel p)))
    (on_team (totalHealerCount d) team (λ n, if IsHealer p then u32 (n + 1) else n))
    (if cross then u32 (totalCrossfactionCount d + 1) else totalCrossfactionCount d).

Definition RemovePlayerDataFrom (d : MatchmakingData) (guid team : Z) : MatchmakingData :=
  match of_team (playerData d) team !! guid with
  | None => d
  | Some x =>
    mkMM (mm_maxPlayers d) (maxPlayersPerTeam d) (timestamp d)
      (on_team (playerData d) team (delete guid))
      (on_team (totalPremadeSize d) team (λ n, u32 (n - premadeSize x)))
      (on_team (totalRating d) team (λ r, f64_sub r (pd_rating x)))
      (on_team (totalItemLevel d) team (λ r, f32_sub r (avgItemLevel x)))
      (on_team (totalHealerCount d) team (λ n, if isHeal x then u32 (n - 1) else n))
      (if crossfactionPlayer x then u32 (totalCrossfactionCount d - 1) else totalCrossfactionCount d)
  end.
Definition RemovePlayerData (d : MatchmakingData) (guid : Z) : MatchmakingData :=
  RemovePlayerDataFrom (RemovePlayerDataFrom d guid TEAM_ALLIANCE) guid TEAM_HORDE.

(** ** The quality of a proposal *)
Section quality.
Context `{BE : BgEnv}.

Definition one : f64 := f64_of_Z 1.
Definition a_tenth : f64 := f64_lit 1 10.
(** [quality *= std::pow(x, weight)] *)
Definition weigh (quality x : f64) (weight : f32) : f64 := f64_mul quality (pow x (f64_of_f32 weight)).

(** What is summed up over the groups of a proposal. *)
Record Sums := mkSums {
  playerCount : teams Z;
  healerCount : teams Z;
  rating : teams f64;
  itemLevel : teams f64;
  premade_Size : teams f64;
  factionChangeCount : Z;
  wait : f64
}.

Definition TEAM_IDS (team : Z) : Z := if team =? TEAM_ALLIANCE then ALLIANCE else HORDE.
Definition is_team (team : Z) : bool := (0 <=? team) && (team <? BG_TEAMS_COUNT).

Definition start_sums (d : MatchmakingData) : Sums :=
  mkSums (Z.of_nat (size (playerData d).1), Z.of_nat (size (playerData d).2)) (totalHealerCount d) (totalRating d)
    (f64_of_f32 (totalItemLevel d).1, f64_of_f32 (totalItemLevel d).2)
    (f64_of_Z (totalPremadeSize d).1, f64_of_Z (totalPremadeSize d).2)
    (totalCrossfactionCount d) f64_zero.

(** Healers, ratings and item levels of one more player. *)
Definition add_player (team : Z) (s : Sums) (x : Z * PlayerQueueInfo) : Sums :=
  mkSums (playerCount s) (on_team (healerCount s) team (λ n, if IsHeal x.2 then u32 (n + 1) else n))
    (on_team (rating s) team (λ r, f64_add r (Rating x.2)))
    (on_team (itemLevel s) team (λ l, f64_add l (f64_of_f32 (AvgItemLevel x.2))))
    (premade_Size s) (factionChangeCount s) (wait s).
(** The group itself: its size, and the square of it. *)
Definition add_size (team : Z) (g : GroupView) (change : Z) (s : Sums) : Sums :=
  mkSums (on_team (playerCount s) team (λ n, n + v_size g)) (healerCount s) (rating s) (itemLevel s)
    (on_team (premade_Size s) team (λ x, f64_add x (f64_of_Z (v_size g * v_size g))))
    (u32 (factionChangeCount s + change)) (wait s).
Definition add_wait (t : f64) (s : Sums) : Sums :=
  mkSums (playerCount s) (healerCount s) (rating s) (itemLevel s) (premade_Size s) (factionChangeCount s) (f64_add (wait s) t).

Definition add_group (d : MatchmakingData) (s : Sums) (x : GroupView * Z) : Sums :=
  let '(g, team) := x in
  if is_team team then
    foldl (add_player team)
      (add_size team g (if negb (v_Team g =? TEAM_IDS team) then v_size g else 0) s) (v_players g)
  else add_wait (f64_of_Z (u64 (u32 (timestamp d - v_JoinTime g) * v_size g))) s.

Definition average (count : Z) (x : f64) : f64 := if count =? 0 then x else f64_div x (f64_of_Z count).
Definition averages (counts : teams Z) (x : teams f64) : teams f64 := (average counts.1 x.1, average counts.2 x.2).
(** [1.0 - difference / (1.0 + std::max(1.0, players))] *)
Definition evenness (difference : f64) (players : Z) : f64 :=
  f64_sub one (f64_div difference (f64_add one (f64_max one (f64_of_Z players)))).
(** [std::max(0.1, 1 - std::abs(a - b) / range)] *)
Definition closeness (x : teams f64) (range : f32) : f64 :=
  f64_max a_tenth (f64_sub one (f64_div (f64_abs (f64_sub x.1 x.2)) (f64_of_f32 range))).
Definition premade_balance (x : teams f64) (maxPlayers : Z) : f64 :=
  f64_sub one (f64_div (f64_abs (f64_sub x.1 x.2)) (f64_of_Z (u32 (maxPlayers / 2 - 1)))).
(** [1.0 - std::min(0.1, wait / MAX_WAIT)] *)
Definition patience (w : f64) : f64 :=
  f64_sub one (f64_min a_tenth (f64_div w (f64_of_f32 CONFIG_BG_MATCHMAKING_MAX_WAIT))).

(** BattlegroundMatchmakingData::CalculateProposalQuality: what who plays makes of it, and
    how long the others wait. *)
Definition all_sums (d : MatchmakingData) (baseQueue : list GroupView) (assigned : list Z) : Sums :=
  foldl (add_group d) (start_sums d) (zip baseQueue assigned).
Definition freeSlots (d : MatchmakingData) (s : Sums) : teams Z :=
  (maxPlayersPerTeam d - (playerCount s).1, maxPlayersPerTeam d - (playerCount s).2).
Definition match_quality (d : MatchmakingData) (s : Sums) : f64 :=
  let n := playerCount s in let free := freeSlots d s in
  let q := weigh one (f64_div (f64_of_Z (n.1 + n.2)) (f64_of_Z (mm_maxPlayers d))) CONFIG_BG_MATCHMAKING_PLAYER_COUNT in
  let q := weigh q (evenness (f64_of_Z (Z.abs (free.1 - free.2))) (n.1 + n.2)) CONFIG_BG_MATCHMAKING_PLAYER_DIFF in
  if isTesting then q else
  let h := healerCount s in
  let q := weigh q (evenness (f64_abs (f64_sub (f64_of_Z h.1) (f64_of_Z h.2))) (n.1 + n.2)) CONFIG_BG_MATCHMAKING_HEALER_DIFF in
  let q := weigh q (closeness (averages n (rating s)) CONFIG_BG_MATCHMAKING_MAX_SKILL) CONFIG_BG_MATCHMAKING_SKILL in
  let q := weigh q (closeness (averages n (itemLevel s)) CONFIG_BG_MATCHMAKING_MAX_ITEMLVL) CONFIG_BG_MATCHMAKING_ITEMLVL in
  let q := weigh q (f64_sub one (f64_div (f64_of_Z (factionChangeCount s)) (f64_of_Z (mm_maxPlayers d)))) CONFIG_BG_MATCHMAKING_FACTION in
  weigh q (premade_balance (averages n (premade_Size s)) (mm_maxPlayers d)) CONFIG_BG_MATCHMAKING_PREMADE.
Definition CalculateProposalQuality (d : MatchmakingData) (baseQueue : list GroupView) (assigned : list Z) : f64 :=
  let s := all_sums d baseQueue assigned in
  if ((freeSlots d s).1 <? 0) || ((freeSlots d s).2 <? 0) then f64_neg_infinity
  else if isTesting then match_quality d s
  else weigh (match_quality d s) (patience (wait s)) CONFIG_BG_MATCHMAKING_WAIT.

(** BattlegroundMatchmakingData::FindProposal: the list is sorted, the best proposal and
    the time are kept. *)
Definition FindProposal (d : MatchmakingData) (now : Z) (queuedGroups : list GroupView) : outcome (list GroupView * Proposal) :=
  let base := sort_by_join queuedGroups in
  let! best := FindProposal_from base CanJoinBGTeam (CalculateProposalQuality (set_timestamp d now) base)
                 (CalculateProposalQuality d base) in
  Ok (base, best).
End quality.

(** ** Arenas of single players *)
Section arena.
Context `{BE : BgEnv} (SIZE : Z).

Record ArenaSums := mkArenaSums {
  a_sums : Sums;
  minRating : f64;
  maxRating : f64;
  teamIds : teams Z;
  a_wait : Z;
  playerGuids : teams (list Z)
}.
Definition start_arena : ArenaSums :=
  mkArenaSums (mkSums (both 0) (both 0) (both f64_zero) (both f64_zero) (both f64_zero) 0 f64_zero)
    f64_infinity f64_neg_infinity (both 0) 0 (both []).

(** A full team has no place for another guid. *)
Definition arena_player (team : Z) (s : option ArenaSums) (x : Z * PlayerQueueInfo) : option ArenaSums :=
  s ← s;
  if SIZE <=? Z.of_nat (length (of_team (playerGuids s) team)) then None
  else Some (mkArenaSums (add_player team (a_sums s) x)
         (if f64_ltb (Rating x.2) (minRating s) then Rating x.2 else minRating s)
         (if f64_ltb (maxRating s) (Rating x.2) then Rating x.2 else maxRating s)
         (teamIds s) (a_wait s) (on_team (playerGuids s) team (λ l, l ++ [x.1]))).
(** Mixed teams are not allowed. *)
Definition arena_group (timestamp : Z) (s : option ArenaSums) (x : GroupView * Z) : option ArenaSums :=
  s ← s;
  let '(g, team) := x in
  if is_team team then
    let ids := on_team (teamIds s) team (λ i, if i =? 0 then v_Team g else i) in
    if negb (of_team ids team =? v_Team g) then None
    else foldl (arena_player team)
      (Some (mkArenaSums (add_size team g 0 (a_sums s)) (minRating s) (maxRating s) ids
         (u32 (a_wait s + u64 (u32 (timestamp - v_JoinTime g) * v_size g))) (playerGuids s))) (v_players g)
  else Some s.

Definition f32_one : f32 := f32_of_Z 1.
(** The guids of a team: the array is filled up with empty ones. *)
Definition guid_array (l : list Z) : list Z := l ++ replicate (Z.to_nat SIZE - length l) 0.
Definition CalculateRecentOpponentPenalty (w : World) (guids : teams (list Z)) (timestamp : Z) : f64 :=
  let guids := (guid_array guids.1, guid_array guids.2) in
  foldl (λ result team,
    foldl (λ result player,
      foldl (λ result team2,
        foldl (λ result player2,
          match (if team =? team2 then recentAllies w else recentOpponents w) !! (player, player2) with
          | None => result
          | Some t =>
            let pct := f32_div (f32_of_Z (u32 (timestamp - t))) CONFIG_ARENA_MATCHMAKING_RECENT_OPPONENT_TIME in
            if f32_ltb pct f32_one then
              f64_min (f64_of_f32 (f32_add (f32_mul (f32_sub f32_one pct)
                CONFIG_ARENA_MATCHMAKING_RECENT_OPPONENT_PENALTY) pct)) result
            else result
          end) result (of_team guids team2)) result [0; 1]) result (of_team guids team)) one [0; 1].

(** A range that widens with the waiting time. *)
Definition widening (wait : Z) (time lo hi : f32) : f64 :=
  let x := f64_min one (f64_div (f64_of_Z wait) (f64_of_f32 time)) in
  f64_add (f64_mul (f64_sub one x) (f64_of_f32 lo)) (f64_mul x (f64_of_f32 hi)).

(** ArenaMatchmakingData::CalculateProposalQuality *)
Definition ArenaProposalQuality (w : World) (timestamp : Z) (strict : bool) (baseQueue : list GroupView)
    (assigned : list Z) : f64 :=
  match foldl (arena_group timestamp) (Some start_arena) (zip baseQueue assigned) with
  | None => f64_neg_infinity
  | Some a =>
    let s := a_sums a in let n := playerCount s in let h := healerCount s in
    let wait := a_wait a / 1000 in
    let free := (SIZE - n.1, SIZE - n.2) in
    let rate := averages n (rating s) in let prem := averages n (premade_Size s) in
    if (free.1 <? 0) || (free.2 <? 0) then f64_neg_infinity
    else if strict && ((0 <? free.1) || (0 <? free.2)) then f64_neg_infinity
    else if f64_leb (f64_of_f32 CONFIG_ARENA_MATCHMAKING_MAX_PREMADE_DIFF) (f64_abs (f64_sub prem.1 prem.2))
    then f64_neg_infinity
    else if (negb (h.1 =? h.2) || (SIZE / 2 <? h.1)) && f64_ltb prem.1 (f64_of_Z SIZE) then f64_neg_infinity
    else
      let players := f64_add (f64_lit 1 4)
        (f64_div (f64_mul (f64_lit 3 4) (f64_of_Z (n.1 + n.2))) (f64_of_Z (SIZE * BG_TEAMS_COUNT))) in
      let q := weigh one players CONFIG_ARENA_MATCHMAKING_PLAYER_COUNT_WEIGHT in
      let maxSkillRange := widening wait CONFIG_ARENA_MATCHMAKING_SKILL_RANGE_TIME
        CONFIG_ARENA_MATCHMAKING_SKILL_RANGE_MIN CONFIG_ARENA_MATCHMAKING_SKILL_RANGE_MAX in
      let skillRange := f64_min one (f64_max f64_zero
        (f64_sub one (f64_div (f64_sub (maxRating a) (minRating a)) maxSkillRange))) in
      let q := weigh q skillRange CONFIG_ARENA_MATCHMAKING_SKILL_RANGE_WEIGHT in
      let maxSkillDiff := widening wait CONFIG_ARENA_MATCHMAKING_SKILL_DIFF_TIME
        CONFIG_ARENA_MATCHMAKING_SKILL_DIFF_MIN CONFIG_ARENA_MATCHMAKING_SKILL_DIFF_MAX in
      let balance := f64_max f64_zero (f64_sub one (f64_div (f64_abs (f64_sub rate.1 rate.2)) maxSkillDiff)) in
      let q := weigh q balance CONFIG_ARENA_MATCHMAKING_SKILL_DIFF_WEIGHT in
      let q := weigh q (premade_balance prem (SIZE * BG_TEAMS_COUNT)) CONFIG_ARENA_MATCHMAKING_PREMADE_WEIGHT in
      let q := f64_mul q (CalculateRecentOpponentPenalty w (playerGuids a) timestamp) in
      let grow q time := f64_mul q (f64_of_f32 (f32_min f32_one (f32_div (f32_of_Z wait) time))) in
      let q := if strict && (SIZE =? ARENA_TYPE_2v2) then grow q CONFIG_ARENA_MATCHMAKING_2V2_TIME else q in
      if strict && (SIZE =? ARENA_TYPE_3v3) then grow q CONFIG_ARENA_MATCHMAKING_3V3_TIME else q
  end.

(** ArenaMatchmakingData::FindProposal: the same search, every team is tried; the result is
    judged strictly. The time is not yet set when the empty assignment is judged, which
    does not look at it. *)
Definition ArenaFindProposal (w : World) (queuedGroups : list GroupView) : outcome (list GroupView * Proposal) :=
  let base := sort_by_join queuedGroups in
  let now := getMSTime w in
  let! best := FindProposal_from base (λ _ _, true) (ArenaProposalQuality w now false base)
                 (ArenaProposalQuality w 0 false base) in
  Ok (base, mkProposal (assigment best) (ArenaProposalQuality w now true base (assigment best)) (unassignedCounter best)).
End arena.

End BgMatchmaking.
