(* ===== verification/BgSearch.v ===== *)
(** * What the search for a proposal answers

    For any quality: the answer assigns groups only to teams they can join, its quality is
    that of its assignment and above minus infinity (unless nothing was found), and the
    search returns when leaving groups out keeps a quality a number. *)
From S2P Require Import Prelude StateMonad Multimap Float32 Float64 BgData BgMatchmaking.

Module BgSearch.
Export BgMatchmaking.

(** A number above minus infinity. *)
Definition good (x : f64) : Prop := f64_ltb f64_neg_infinity x = true.
#[export] Instance good_dec x : Decision (good x).
Proof. unfold good. apply _. Defined.
Lemma good_above x y : f64_ltb x y = true → good y.
Proof. intros H. apply f64_neg_infinity_ltb. split; intros ->; [by rewrite f64_ltb_neg_infinity in H|by destruct x as [|[]| |]]. Qed.

(** Not yet assigned slots. *)
Definition open_slots (l : list Z) : Z := Z.of_nat (length (filter (λ t, t = -1) l)).
Lemma open_slots_app l k : open_slots (l ++ k) = open_slots l + open_slots k.
Proof. unfold open_slots. rewrite filter_app, length_app. lia. Qed.
Lemma open_slots_replicate n : open_slots (replicate n (-1)) = Z.of_nat n.
Proof. unfold open_slots. rewrite filter_id; [by rewrite length_replicate|]. apply Forall_replicate. done. Qed.
Lemma open_slots_insert l i t : l !! i = Some (-1) → 0 ≤ t → open_slots (<[i := t]> l) = open_slots l - 1.
Proof.
  intros Hl Ht. rewrite (insert_take_drop l i t) by (by eapply lookup_lt_Some).
  rewrite <- (take_drop_middle l i _ Hl) at 3. rewrite !open_slots_app. unfold open_slots.
  rewrite filter_cons_False by lia. rewrite filter_cons_True by done. cbn [length]. lia.
Qed.

(** Who plays, and on which side. *)
Definition team_at (l : list Z) (i : nat) : option Z := t ← l !! i; if is_team t then Some t else None.
Definition same_players (l l' : list Z) : Prop := ∀ i, team_at l i = team_at l' i.
#[export] Instance same_players_equiv : Equivalence same_players.
Proof. split; repeat intro; unfold same_players in *; congruence. Qed.
Lemma same_players_leave l i : l !! i = Some (-1) → same_players l (<[i := 2]> l).
Proof.
  intros Hl j. unfold team_at. destruct (decide (i = j)) as [<-|Hj]; [|by rewrite list_lookup_insert_ne].
  rewrite list_lookup_insert_eq by (by eapply lookup_lt_Some). by rewrite Hl.
Qed.
Lemma same_players_extend l n : same_players l (l ++ replicate n (-1)).
Proof.
  intros i. unfold team_at. destruct (decide (i < length l)%nat); [by rewrite lookup_app_l|].
  rewrite lookup_app_r, lookup_ge_None_2 by lia. cbn. destruct (replicate n (-1) !! _) eqn:E; [|done].
  by apply lookup_replicate in E as [-> _].
Qed.

Section search.
Context (base : list GroupView) (CanJoin : GroupView → Z → bool) (Quality : list Z → f64).
Notation FindProposal_at := (FindProposal_at base CanJoin Quality).
Notation fresh := (new_Proposal base).

(** Every slot is open, or assigned to a team its group was tried for. *)
Definition allowed (l : list Z) : Prop :=
  ∀ i t, l !! i = Some t → t = -1 ∨ ∃ g, base !! i = Some g ∧ t ∈ teams_of CanJoin g.
Record sound (p : Proposal) : Prop := {
  sound_allowed : allowed (assigment p);
  sound_length : (length (assigment p) ≤ length base)%nat;
  sound_open : unassignedCounter p = open_slots (assigment p);
  sound_range : unassignedCounter p ≤ PERFORMANCE_GROUPS_PER_ITERATION }.
(** The proposal found from [current]. *)
Record found (current p : Proposal) : Prop := {
  found_sound : sound p;
  found_quality : quality p = Quality (assigment p);
  found_good : good (quality p);
  found_length : length (assigment p) = length (assigment current);
  found_less : unassignedCounter p < unassignedCounter current }.

Lemma teams_of_range g t : t ∈ teams_of CanJoin g → 0 ≤ t ≤ 2.
Proof. intros [_ Ht]%list_elem_of_filter. rewrite !elem_of_cons, elem_of_nil in Ht. lia. Qed.
Lemma stay_tried g : 2 ∈ teams_of CanJoin g.
Proof. apply list_elem_of_filter. split; [done|set_solver]. Qed.

Lemma sound_assign p slot g t q :
  sound p → assigment p !! slot = Some (-1) → base !! slot = Some g → t ∈ teams_of CanJoin g →
  sound (mkProposal (<[slot := t]> (assigment p)) q (unassignedCounter p - 1)).
Proof.
  intros [Ha Hl Ho Hr] Hs Hg Ht. split; cbn.
  - intros i x. destruct (decide (slot = i)) as [<-|Hi]; [|rewrite list_lookup_insert_ne by done; apply Ha].
    rewrite list_lookup_insert_eq by (by eapply lookup_lt_Some). intros [= <-]. right. by exists g.
  - by rewrite length_insert.
  - rewrite open_slots_insert; [lia|done|]. apply teams_of_range in Ht. lia.
  - lia.
Qed.

(** The slots with their groups. *)
Lemma slots_elem p index s g :
  sound p → (s, g) ∈ drop index (slots base p) → base !! s = Some g ∧ (index ≤ s)%nat ∧ is_Some (assigment p !! s).
Proof.
  intros Hp [k Hk]%list_elem_of_lookup. rewrite lookup_drop in Hk. unfold slots in Hk.
  rewrite list_lookup_imap in Hk. apply fmap_Some in Hk as (g' & Hg & Hx). injection Hx as -> ->.
  apply lookup_take_Some in Hg as [Hg Hl]. split; [done|]. split; [lia|]. by apply lookup_lt_is_Some.
Qed.
Lemma open_slot p s : sound p → is_Some (assigment p !! s) → (0 <=? default 0 (assigment p !! s)) = false → assigment p !! s = Some (-1).
Proof.
  intros Hp [t Ht]. rewrite Ht. cbn. intros ?. b2p. destruct (sound_allowed p Hp s t Ht) as [->|(g & _ & Hg)]; [done|].
  apply teams_of_range in Hg. lia.
Qed.

(** ** One round is the best of its candidates *)
Definition better (best candidate : Proposal) : Proposal :=
  if f64_ltb (quality best) (quality candidate) then candidate else best.
Definition attempt (depth : nat) (current : Proposal) (slot : nat) (team : Z) : Proposal :=
  let unassigned := unassignedCounter current - 1 in
  let assigned := <[slot := team]> (assigment current) in
  match depth with
  | O => mkProposal assigned (Quality assigned) unassigned
  | S depth =>
    if unassigned =? 0 then mkProposal assigned (Quality assigned) unassigned
    else FindProposal_at depth (mkProposal assigned (quality current) unassigned) slot
  end.
Definition attempts (depth : nat) (current : Proposal) (index : nat) : list Proposal :=
  drop index (slots base current) ≫= λ x,
    if 0 <=? default 0 (assigment current !! x.1) then []
    else attempt depth current x.1 <$> teams_of CanJoin x.2.
Lemma FindProposal_best depth current index :
  FindProposal_at depth current index = foldl better fresh (attempts depth current index).
Proof.
  unfold attempts. destruct depth; cbn [BgMatchmaking.FindProposal_at]; generalize fresh;
    (induction (drop index _) as [|x l IH]; intros b; [done|]); cbn [foldl mbind list_bind];
    rewrite foldl_app, IH; f_equal; (destruct (0 <=? _); [done|]); revert b;
    (induction (teams_of CanJoin x.2) as [|t k IHk]; intros b; [done|apply IHk]).
Qed.

Lemma candidate_inv c depth current index :
  sound current → c ∈ attempts depth current index →
  ∃ slot g team, c = attempt depth current slot team ∧ assigment current !! slot = Some (-1) ∧
    base !! slot = Some g ∧ team ∈ teams_of CanJoin g.
Proof.
  intros Hs (x & Hc & Hx)%list_elem_of_bind. destruct x as [s g].
  apply (slots_elem _ _ _ _ Hs) in Hx as (Hg & _ & Hx). cbn in *. case_match eqn:E; [by apply not_elem_of_nil in Hc|].
  apply list_elem_of_fmap in Hc as (t & -> & Ht). exists s, g, t. eauto using open_slot.
Qed.

(** The best of some proposals. *)
Lemma best_of_member l b : foldl better b l = b ∨ (foldl better b l ∈ l ∧ good (quality (foldl better b l))).
Proof.
  revert b. induction l as [|c l IH]; intros b; [by left|]. cbn. destruct (IH (better b c)) as [->|[H Hg]]; [|set_solver].
  unfold better. destruct (f64_ltb _ _) eqn:E; [|by left]. right. split; [set_solver|]. by eapply good_above.
Qed.
Lemma best_of_above l b x : f64_ltb (quality b) x = false → f64_ltb (quality (foldl better b l)) x = false.
Proof.
  revert b. induction l as [|c l IH]; intros b Hb; [done|]. cbn. apply IH. unfold better.
  destruct (f64_ltb (quality b) (quality c)) eqn:E; [|done]. destruct (f64_ltb (quality c) x) eqn:E'; [|done].
  by rewrite (f64_ltb_trans _ _ _ E E') in Hb.
Qed.
Lemma best_of_max l b c : c ∈ l → f64_ltb (quality (foldl better b l)) (quality c) = false.
Proof.
  revert b. induction l as [|d l IH]; intros b Hc; [by apply not_elem_of_nil in Hc|].
  apply elem_of_cons in Hc as [<-|Hc]; [|by apply IH]. cbn. apply best_of_above. unfold better.
  destruct (f64_ltb (quality b) (quality c)) eqn:E; [apply f64_ltb_irrefl|done].
Qed.

(** ** What one round answers *)
Lemma fresh_not_good : ¬ good (quality fresh).
Proof. done. Qed.
Lemma sound_fresh : sound fresh.
Proof.
  assert (∀ i t, assigment fresh !! i = Some t → t = -1) as Hf by (intros i t [-> _]%lookup_replicate; done).
  split; cbn -[Z.min]; [intros i t Ht; left; eauto|rewrite length_replicate; lia| |lia].
  rewrite open_slots_replicate. unfold PERFORMANCE_GROUPS_PER_ITERATION. lia.
Qed.
(** Rounds assign groups that were open, and nothing else. *)
Lemma round_found depth current index :
  sound current → FindProposal_at depth current index = fresh ∨ found current (FindProposal_at depth current index).
Proof.
  revert current index. induction depth as [|depth IH]; intros current index Hs; rewrite FindProposal_best;
    (edestruct best_of_member as [->|[Hm Hg]]; [by left|right]);
    remember (foldl better _ _) as r; clear Heqr;
    apply candidate_inv in Hm as (s & g & t & -> & Ho & Hb & Ht); try done; unfold attempt in *.
  - split; cbn; [by apply sound_assign with g|done|done|by rewrite length_insert|lia].
  - case_bool; [split; cbn; [by apply sound_assign with g|done|done|by rewrite length_insert|lia]|].
    edestruct (IH _ s (sound_assign current s g t (quality current) Hs Ho Hb Ht)) as [E'|[H1 H2 H3 H4 H5]];
      [by rewrite E' in Hg|]. cbn in *. rewrite length_insert in H4. split; auto; lia.
Qed.

(** ** Progress *)
Lemma slots_elem_2 p index s g :
  base !! s = Some g → (s < length (assigment p))%nat → (index ≤ s)%nat → (s, g) ∈ drop index (slots base p).
Proof.
  intros Hg Hs Hi. apply list_elem_of_lookup. exists (s - index)%nat. rewrite lookup_drop.
  replace (index + (s - index))%nat with s by lia. unfold slots. rewrite list_lookup_imap.
  rewrite lookup_take_lt by done. by rewrite Hg.
Qed.
Definition from (index : nat) (p : Proposal) : Prop := ∀ i, assigment p !! i = Some (-1) → (index ≤ i)%nat.
(** The first open slot. *)
Lemma first_open p index :
  sound p → 0 < unassignedCounter p → from index p →
  ∃ s g, assigment p !! s = Some (-1) ∧ base !! s = Some g ∧ (index ≤ s)%nat ∧ from s p.
Proof.
  intros Hs Hu Hf. destruct (list_find (λ t, t = -1) (assigment p)) as [[s t]|] eqn:E.
  - apply list_find_Some in E as (Ho & -> & Hb). destruct (lookup_lt_is_Some_2 base s) as [g Hg].
    { pose proof (lookup_lt_Some _ _ _ Ho). pose proof (sound_length _ Hs). lia. }
    exists s, g. split_and!; auto. intros i Hi. destruct (decide (s ≤ i)%nat); [done|].
    exfalso. by apply (Hb i (-1)); [|lia|].
  - apply list_find_None in E. rewrite (sound_open _ Hs) in Hu. unfold open_slots in Hu.
    rewrite filter_none in Hu by done. done.
Qed.
Lemma from_assign p s t q u : from s p → t ≠ -1 → from s (mkProposal (<[s := t]> (assigment p)) q u).
Proof.
  intros Hf Ht i. cbn. destruct (decide (s = i)) as [<-|Hi]; [lia|]. rewrite list_lookup_insert_ne by done. apply Hf.
Qed.
Lemma first_candidate depth p index s g t :
  sound p → base !! s = Some g → assigment p !! s = Some (-1) → (index ≤ s)%nat → t ∈ teams_of CanJoin g →
  attempt depth p s t ∈ attempts depth p index.
Proof.
  intros Hs Hg Ho Hi Ht. apply list_elem_of_bind. exists (s, g). split; cbn.
  - rewrite Ho. cbn. by apply list_elem_of_fmap_2.
  - apply slots_elem_2; [done|by eapply lookup_lt_Some|done].
Qed.
Lemma round_max depth current index c :
  c ∈ attempts depth current index → f64_ltb (quality (FindProposal_at depth current index)) (quality c) = false.
Proof. rewrite FindProposal_best. apply best_of_max. Qed.
Lemma round_good depth current index c :
  sound current → c ∈ attempts depth current index → good (quality c) → found current (FindProposal_at depth current index).
Proof.
  intros Hs Hc Hg. destruct (round_found depth current index Hs) as [E|]; [exfalso|done].
  apply round_max in Hc. rewrite E in Hc. unfold good in Hg. cbn in *. congruence.
Qed.
(** Leaving the first open groups out is one of them. *)
Lemma round_progress depth current index :
  sound current → 0 < unassignedCounter current → from index current →
  (∀ l, same_players (assigment current) l → good (Quality l)) →
  found current (FindProposal_at depth current index).
Proof.
  revert current index. induction depth as [|depth IH]; intros current index Hs Hu Hf Hq;
    destruct (first_open current index) as (s & g & Ho & Hg & Hi & Hf'); try done;
    pose proof (same_players_leave _ _ Ho) as Hl;
    (apply (round_good _ _ _ _ Hs (first_candidate _ current index s g 2 Hs Hg Ho Hi (stay_tried g))));
    unfold attempt; [by apply Hq|].
  case_bool; [by apply Hq|]. b2p. apply found_good with (mkProposal (<[s:=2]> (assigment current)) (quality current) (unassignedCounter current - 1)).
  apply IH; cbn; [by apply sound_assign with g; auto using stay_tried|lia|by apply from_assign|].
  intros l H. apply Hq. by etransitivity.
Qed.

(** ** A round that can assign all groups tries every assignment *)
(** [l] decides what [p] left open, as it is allowed. *)
Definition completes (p : Proposal) (l : list Z) : Prop :=
  length l = length (assigment p) ∧
  ∀ i t, assigment p !! i = Some t →
    if decide (t = -1) then ∃ g t', base !! i = Some g ∧ l !! i = Some t' ∧ t' ∈ teams_of CanJoin g else l !! i = Some t.
Lemma completes_assign p s t q u l :
  completes p l → assigment p !! s = Some (-1) → l !! s = Some t → t ≠ -1 → completes (mkProposal (<[s := t]> (assigment p)) q u) l.
Proof.
  intros [Hl Hc] Ho Ht Hn. split; cbn; [by rewrite length_insert|]. intros i x.
  destruct (decide (s = i)) as [<-|Hi]; [|rewrite list_lookup_insert_ne by done; apply Hc].
  rewrite list_lookup_insert_eq by (by eapply lookup_lt_Some). intros [= <-]. by rewrite decide_False.
Qed.
Lemma completes_full p l : completes p l → sound p → unassignedCounter p = 0 → assigment p = l.
Proof.
  intros [Hl Hc] Hs Hu. apply list_eq_same_length with (length l); [done..|]. intros i x y _ Hx Hy.
  specialize (Hc i x Hx). case_decide as Hd; [|congruence]. subst x.
  pose proof (sound_open _ Hs) as Ho. rewrite Hu, <- (take_drop_middle _ _ _ Hx), open_slots_app in Ho.
  unfold open_slots in Ho. rewrite filter_cons_True in Ho by done. cbn [length] in Ho. lia.
Qed.
Lemma round_exhaustive depth current index l :
  sound current → 0 < unassignedCounter current ≤ Z.of_nat depth + 1 → from index current → completes current l →
  f64_ltb (quality (FindProposal_at depth current index)) (Quality l) = false.
Proof.
  revert current index. induction depth as [|depth IH]; intros current index Hs Hu Hf Hc;
    destruct (first_open current index) as (s & g & Ho & Hg & Hi & Hf'); try (done || lia);
    destruct (proj2 Hc s (-1) Ho) as (g' & t & Hg' & Ht & Hj); simplify_eq;
    pose proof (teams_of_range _ _ Hj) as Hr;
    pose proof (sound_assign current s g t (quality current) Hs Ho Hg Hj) as Hs';
    pose proof (completes_assign current s t (quality current) (unassignedCounter current - 1) l Hc Ho Ht ltac:(lia)) as Hc';
    match goal with |- context [FindProposal_at ?d current index] =>
      pose proof (round_max d current index _ (first_candidate d current index s g t Hs Hg Ho Hi Hj)) as Hm
    end; unfold attempt in Hm.
  - by rewrite <- (completes_full _ _ Hc' Hs' ltac:(cbn; lia)).
  - case_bool; b2p; [by rewrite <- (completes_full _ _ Hc' Hs' ltac:(cbn; lia))|].
    destruct (f64_ltb _ (Quality l)) eqn:E'; [|done]. exfalso. eapply not_true_iff_false; [exact Hm|].
    eapply f64_ltb_below; [exact E'| |].
    + apply IH; cbn in *; [done|lia|apply from_assign; [done|lia]|done].
    + intros Hn. destruct (round_found depth _ s Hs') as [Hx|Hx]; [by rewrite Hx in Hn|].
      pose proof (found_good _ _ Hx) as Hy. by rewrite Hn in Hy.
Qed.

(** ** The rounds *)
Lemma sound_UpdateSearchRange p : sound p → sound (UpdateSearchRange base p).
Proof.
  intros [Ha Hl Ho Hr]. unfold UpdateSearchRange. set (k := Z.min _ _).
  assert (0 ≤ k) by (unfold k, PERFORMANCE_GROUPS_PER_ITERATION in *; lia).
  split; cbn [assigment unassignedCounter]; rewrite ?resize_ge by lia.
  - intros i t [Hi|[_ Hi]]%lookup_app_Some; [by apply Ha|]. left. by apply lookup_replicate in Hi as [-> _].
  - rewrite length_app, length_replicate. unfold k. lia.
  - rewrite open_slots_app, open_slots_replicate. lia.
  - unfold k, PERFORMANCE_GROUPS_PER_ITERATION in *. lia.
Qed.
Notation round current := (FindProposal_at (pred (search_depth (unassignedCounter current))) current 0).
Lemma sound_round current : sound current → sound (round current).
Proof.
  intros Hs. destruct (round_found (pred (search_depth (unassignedCounter current))) current 0 Hs) as [->|[]];
    [apply sound_fresh|done].
Qed.

(** The best is only replaced by what a round found, and never by something worse. *)
Lemma find_loop_best (P : Proposal → Prop) fuel current best p :
  (∀ cur r q, found cur r → P q → f64_ltb (quality q) (quality r) = true → P r) →
  sound current → P best → find_loop base CanJoin Quality fuel current best = Ok p → P p.
Proof.
  intros HP. revert current best. induction fuel as [|fuel IH]; intros current best Hs Hb; cbn [find_loop];
    (case_match; [by intros [= <-]|]); [done|].
  apply IH; [by apply sound_UpdateSearchRange, sound_round|].
  destruct (f64_ltb _ _) eqn:E; [|done].
  destruct (round_found (pred (search_depth (unassignedCounter current))) current 0 Hs) as [Hx|Hx].
  - rewrite Hx in E. cbn in E. by rewrite f64_ltb_neg_infinity in E.
  - by eapply HP.
Qed.

(** Leaving one more group out never makes the quality minus infinity or NaN: every round
    assigns a group, and there is fuel for one round for each. *)
Lemma find_loop_returns fuel current best :
  (∀ l l', same_players l l' → good (Quality l) → good (Quality l')) →
  sound current → good (Quality (assigment current)) →
  unassignedCounter current + Z.of_nat (length base) - Z.of_nat (length (assigment current)) ≤ Z.of_nat fuel →
  ∃ p, find_loop base CanJoin Quality fuel current best = Ok p.
Proof.
  intros HQ. revert current best. induction fuel as [|fuel IH]; intros current best Hs Hg Hm; cbn [find_loop];
    pose proof (sound_length _ Hs); (case_match eqn:E; [eauto|]); b2p; [lia|].
  assert (found current (round current)) as Hf.
  { apply round_progress; [done|lia|intros ? _; lia|]. intros l Hl. by eapply HQ. }
  pose proof (found_sound _ _ Hf) as Hs'. pose proof (sound_length _ Hs'). pose proof (sound_range _ Hs').
  apply IH; [by apply sound_UpdateSearchRange| |].
  - unfold UpdateSearchRange. cbn [assigment]. rewrite resize_ge by (unfold PERFORMANCE_GROUPS_PER_ITERATION in *; lia).
    eapply HQ; [apply same_players_extend|]. rewrite <- (found_quality _ _ Hf). apply (found_good _ _ Hf).
  - unfold UpdateSearchRange. cbn [assigment unassignedCounter].
    rewrite length_resize. pose proof (found_less _ _ Hf). pose proof (found_length _ _ Hf). lia.
Qed.

(** When no assignment is above minus infinity, every round ends where it began. *)
Lemma find_loop_stuck fuel current best :
  (∀ l, ¬ good (Quality l)) → base ≠ [] → sound current → 0 < unassignedCounter current →
  find_loop base CanJoin Quality fuel current best = OutOfFuel.
Proof.
  intros HQ Hb. revert current best. induction fuel as [|fuel IH]; intros current best Hs Hu; cbn [find_loop];
    rewrite (proj2 (Z.leb_gt _ _)) by done; [done|].
  destruct (round_found (pred (search_depth (unassignedCounter current))) current 0 Hs) as [->|Hf].
  - apply IH; [by apply sound_UpdateSearchRange, sound_fresh|]. destruct base; [done|]. cbn.
    rewrite length_replicate. unfold PERFORMANCE_GROUPS_PER_ITERATION. lia.
  - exfalso. eapply HQ. rewrite <- (found_quality _ _ Hf). apply (found_good _ _ Hf).
Qed.

(** ** The search *)
Notation answer_of first := (FindProposal_from base CanJoin Quality first).
Notation nobody := (assigment fresh).

Definition answers (first : list Z → f64) (p : Proposal) : Prop :=
  (assigment p = nobody ∧ quality p = first nobody) ∨
  (sound p ∧ quality p = Quality (assigment p) ∧ good (quality p) ∧ f64_ltb (first nobody) (quality p) = true).
Lemma answer_inv first p : answer_of first = Ok p → answers first p.
Proof.
  intros H. eapply (find_loop_best (answers first)); [| | |exact H].
  - intros cur r q [Hr Hq Hg _ _]. intros [[_ Hf]|(_ & _ & _ & Hf)] Hlt; right; split_and!; try done.
    + by rewrite <- Hf.
    + by eapply f64_ltb_trans.
  - destruct sound_fresh. by split.
  - by left.
Qed.
Lemma answer_above first p x : answer_of first = Ok p → f64_ltb (first nobody) x = false → f64_ltb (quality p) x = false.
Proof.
  intros H Hx. eapply (find_loop_best (λ p, f64_ltb (quality p) x = false)); [| | |exact H]; [|destruct sound_fresh; by split|exact Hx].
  intros cur r q _ Hq Hlt. destruct (f64_ltb (quality r) x) eqn:E; [|done]. by rewrite (f64_ltb_trans _ _ _ Hlt E) in Hq.
Qed.
Lemma answer_exists first :
  (∀ l l', same_players l l' → good (Quality l) → good (Quality l')) → good (Quality nobody) → ∃ p, answer_of first = Ok p.
Proof.
  intros HQ Hg. apply find_loop_returns; [done| |done|].
  - destruct sound_fresh. by split.
  - cbn. rewrite length_replicate. unfold find_fuel. lia.
Qed.
Lemma completes_new l :
  (length base ≤ 25)%nat → length l = length base →
  (∀ i g, base !! i = Some g → ∃ team, l !! i = Some team ∧ team ∈ teams_of CanJoin g) → completes fresh l.
Proof.
  intros Hn Hl Hc. assert (assigment fresh = replicate (length base) (-1)) as Ha.
  { cbn. f_equal. unfold PERFORMANCE_GROUPS_PER_ITERATION. lia. }
  split; rewrite Ha; [by rewrite length_replicate|]. intros i t [-> Hi]%lookup_replicate. rewrite decide_True by done.
  destruct (lookup_lt_is_Some_2 base i Hi) as [g Hg]. destruct (Hc i g Hg) as (t & ? & ?). eauto.
Qed.
(** Up to four groups: no assignment of all of them is better. *)
Lemma answer_exhaustive first p l :
  (0 < length base ≤ 4)%nat → answer_of first = Ok p → completes fresh l → f64_ltb (quality p) (Quality l) = false.
Proof.
  intros Hn H Hc. unfold FindProposal_from, find_fuel in H. cbn [find_loop] in H.
  set (start := mkProposal _ _ _) in H.
  assert (sound start) as Hs by (destruct sound_fresh; by split).
  assert (0 < unassignedCounter start ≤ 4) by (cbn; unfold PERFORMANCE_GROUPS_PER_ITERATION; lia).
  rewrite (proj2 (Z.leb_gt _ _)) in H by lia.
  assert (f64_ltb (quality (round start)) (Quality l) = false) as Hr.
  { assert (search_depth (unassignedCounter start) = 4%nat) as -> by (unfold search_depth; rewrite (proj2 (Z.leb_le _ _)); [done|lia]).
    apply round_exhaustive; [done|cbn [pred]; lia|intros ? _; lia|exact Hc]. }
  eapply (find_loop_best (λ p, f64_ltb (quality p) (Quality l) = false)); [| | |exact H].
  - intros cur r q _ Hq Hlt. destruct (f64_ltb (quality r) _) eqn:E; [|done]. by rewrite (f64_ltb_trans _ _ _ Hlt E) in Hq.
  - by apply sound_UpdateSearchRange, sound_round.
  - cbn beta. destruct (f64_ltb (quality start) (quality (round start))) eqn:E; [done|].
    destruct (f64_ltb (quality start) (Quality l)) eqn:E'; [|done].
    rewrite <- E. symmetry. apply (f64_ltb_below _ _ _ E' Hr). intros Hnan.
    destruct (round_found (pred (search_depth (unassignedCounter start))) start 0 Hs) as [Hx|Hx];
      [by rewrite Hx in Hnan|]. pose proof (found_good _ _ Hx) as Hg. by rewrite Hnan in Hg.
Qed.
End search.
End BgSearch.
