(* ===== verification/BgQuality.v ===== *)
(** * What a good quality says

    A proposal that is not refused fits into the battleground; and its quality depends,
    but for the waiting time of the others, only on who plays on which side. *)
From S2P Require Import Prelude StateMonad Multimap Float32 Float64 BgData BgMatchmaking BgSearch.

Module BgQuality.
Export BgSearch.

Section quality.
Context `{BE : BgEnv}.

(** The players that join a team. *)
Fixpoint joining (team : Z) (l : list (GroupView * Z)) : Z :=
  match l with
  | [] => 0
  | (g, t) :: l => (if t =? team then v_size g else 0) + joining team l
  end.

Lemma playerCount_players team l s : playerCount (foldl (add_player team) s l) = playerCount s.
Proof. revert s. induction l as [|x l IH]; intros s; [done|]. cbn. by rewrite IH. Qed.
Lemma playerCount_sums d l s team :
  is_team team = true → of_team (playerCount (foldl (add_group d) s l)) team = of_team (playerCount s) team + joining team l.
Proof.
  intros Ht. revert s. induction l as [|[g t] l IH]; intros s; cbn [foldl joining]; [lia|]. rewrite IH.
  unfold add_group. destruct (is_team t) eqn:E.
  - rewrite playerCount_players. cbn [playerCount add_size]. unfold is_team, on_team, of_team, BG_TEAMS_COUNT, TEAM_ALLIANCE in *. b2p.
    destruct (Z.eqb_spec t team), (Z.eqb_spec team 0), (Z.eqb_spec t 0); cbn; lia.
  - cbn [playerCount add_wait]. destruct (Z.eqb_spec t team) as [->|]; [congruence|lia].
Qed.

(** A team never gets more players than it has slots. *)
Lemma quality_fits d base assigned team :
  good (CalculateProposalQuality d base assigned) → is_team team = true →
  Z.of_nat (size (of_team (playerData d) team)) + joining team (zip base assigned) ≤ maxPlayersPerTeam d.
Proof.
  intros Hg Ht. unfold CalculateProposalQuality in Hg. destruct (_ || _) eqn:E in Hg; [done|]. b2p.
  unfold freeSlots in *. cbn [fst snd] in *.
  pose proof (playerCount_sums d (zip base assigned) (start_sums d) team Ht) as Hp. unfold all_sums in *.
  unfold is_team, of_team, BG_TEAMS_COUNT, TEAM_ALLIANCE in *. b2p.
  destruct (Z.eqb_spec team 0); cbn in Hp; lia.
Qed.

(** ** Who plays decides *)

(** A fold that passes over those who do not play. *)
Lemma foldl_same_players {St} (f : St → GroupView * Z → St) (R : relation St) `{!Equivalence R} base l l' s s' :
  (∀ s s' g t, R s s' → is_team t = true → R (f s (g, t)) (f s' (g, t))) →
  (∀ s g t, is_team t = false → R (f s (g, t)) s) →
  same_players l l' → R s s' → R (foldl f s (zip base l)) (foldl f s' (zip base l')).
Proof.
  intros Hf Hskip. revert l l' s s'. induction base as [|g base IH]; intros l l' s s' Hl Hs; [done|].
  assert (∀ s l, foldl f s (zip (g :: base) l) =
    foldl f (match l with [] => s | t :: _ => f s (g, t) end) (zip base (tail l))) as Hz by (intros ? [|]; [by destruct base|done]).
  rewrite !Hz. apply IH.
  - intros i. specialize (Hl (S i)). by destruct l, l'.
  - specialize (Hl O). unfold team_at in Hl. destruct l as [|t l], l' as [|t' l']; cbn in Hl; [done| | |].
    + case_bool; [done|]. by rewrite Hskip.
    + case_bool; [done|]. by rewrite Hskip.
    + destruct (is_team t) eqn:E, (is_team t') eqn:E'; try done; [injection Hl as ->; by apply Hf|]. by rewrite !Hskip.
Qed.

(** Sums that differ in the waiting time at most. *)
Definition without_wait (s : Sums) : Sums :=
  mkSums (playerCount s) (healerCount s) (rating s) (itemLevel s) (premade_Size s) (factionChangeCount s) f64_zero.
Definition same_match (s s' : Sums) : Prop := without_wait s = without_wait s'.
#[local] Instance same_match_equiv : Equivalence same_match.
Proof. split; repeat intro; unfold same_match in *; congruence. Qed.
Lemma without_wait_players team l s : without_wait (foldl (add_player team) s l) = foldl (add_player team) (without_wait s) l.
Proof. revert s. induction l as [|x l IH]; intros s; [done|]. cbn. by rewrite IH. Qed.
Lemma sums_same d base l l' : same_players l l' → same_match (all_sums d base l) (all_sums d base l').
Proof.
  intros Hl. unfold all_sums. apply foldl_same_players; [apply _| | |done|reflexivity].
  - intros s s' g t Hs Ht. unfold same_match, add_group in *. rewrite Ht, !without_wait_players. f_equal.
    change (add_size t g (if negb (v_Team g =? TEAM_IDS t) then v_size g else 0) (without_wait s) =
            add_size t g (if negb (v_Team g =? TEAM_IDS t) then v_size g else 0) (without_wait s')). by rewrite Hs.
  - intros s g t Ht. unfold same_match, add_group. by rewrite Ht.
Qed.
Lemma match_same d s s' : same_match s s' → match_quality d s = match_quality d s' ∧ freeSlots d s = freeSlots d s'.
Proof.
  intros H. change (match_quality d s) with (match_quality d (without_wait s)). change (freeSlots d s) with (freeSlots d (without_wait s)).
  by rewrite H.
Qed.
(** When the factor for the waiting time does not decide whether the quality is a number. *)
Lemma quality_same d base l l' :
  (∀ l, let s := all_sums d base l in
        good (weigh (match_quality d s) (patience (wait s)) CONFIG_BG_MATCHMAKING_WAIT) ↔ good (match_quality d s)) →
  same_players l l' → good (CalculateProposalQuality d base l) → good (CalculateProposalQuality d base l').
Proof.
  intros Hw Hl. unfold CalculateProposalQuality. destruct (match_same d _ _ (sums_same d base _ _ Hl)) as [Hq Hf].
  rewrite Hf. destruct (_ || _); [done|]. destruct isTesting; [by rewrite Hq|].
  rewrite (Hw l), (Hw l'). by rewrite Hq.
Qed.

(** In arenas the waiting time of those who play counts. *)
Lemma arena_quality_same (SIZE : Z) w now strict base l l' :
  same_players l l' → ArenaProposalQuality SIZE w now strict base l = ArenaProposalQuality SIZE w now strict base l'.
Proof.
  intros Hl. unfold ArenaProposalQuality.
  rewrite (foldl_same_players (arena_group SIZE now) (=) base l l' _ (Some (start_arena)) ); [done| | |done|done].
  - by intros s s' g t -> _.
  - intros [s|] g t Ht; [|done]. cbn. by rewrite Ht.
Qed.
Lemma nobody_plays base : same_players [] (assigment (new_Proposal base)).
Proof.
  intros i. unfold team_at. cbn. destruct (replicate _ _ !! i) eqn:E; [|done]. by apply lookup_replicate in E as [-> _].
Qed.
End quality.
End BgQuality.
