(* ===== verification/BgObjects.v ===== *)
(** * Battlegrounds, their stores and the queue slots of a player
    ([src/server/game/Battlegrounds/Battleground.{h,cpp}], [BattlegroundMgr.cpp],
    [Entities/Player/Player.cpp])

    The counters of a battleground and what they leave free, the stores it is found in,
    and the two slots in which a player remembers the queues it is in. *)
From S2P Require Import Prelude StateMonad Multimap Float32 Float64 BgData BgMatchmaking.

Module BgObjects.
Export BgMatchmaking.

Section objects.
Context `{BE : BgEnv}.

(** ** A battleground *)

Definition GetInvitedCount (b : Battleground) (team : Z) : Z :=
  if team =? ALLIANCE then m_InvitedAlliance b else m_InvitedHorde b.
Definition IncreaseInvitedCount (b : Battleground) (team : Z) : Battleground :=
  if team =? ALLIANCE then set_m_InvitedAlliance b (u32 (m_InvitedAlliance b + 1))
  else set_m_InvitedHorde b (u32 (m_InvitedHorde b + 1)).
Definition DecreaseInvitedCount (b : Battleground) (team : Z) : Battleground :=
  if team =? ALLIANCE then set_m_InvitedAlliance b (u32 (m_InvitedAlliance b - 1))
  else set_m_InvitedHorde b (u32 (m_InvitedHorde b - 1)).
Definition GetPlayersCountByTeam (b : Battleground) (team : Z) : Z := of_team (m_PlayersCount b) (GetTeamIndexByTeamId team).
Definition UpdatePlayersCountByTeam (b : Battleground) (team : Z) (remove : bool) : Battleground :=
  set_m_PlayersCount b (on_team (m_PlayersCount b) (GetTeamIndexByTeamId team) (λ n, u32 (if remove then n - 1 else n + 1))).
Definition isBattleground (b : Battleground) : bool := negb (m_IsArena b).
Definition HasFreeSlots (b : Battleground) : bool := Z.of_nat (size (m_Players b)) <? m_MaxPlayers b.
Definition SetArenaTeamIdForTeam (b : Battleground) (team id : Z) : Battleground :=
  set_m_ArenaTeamIds b (on_team (m_ArenaTeamIds b) (GetTeamIndexByTeamId team) (λ _, id)).
Definition SetArenaMatchmakerRating (b : Battleground) (team mmr : Z) : Battleground :=
  set_m_ArenaTeamMMR b (on_team (m_ArenaTeamMMR b) (GetTeamIndexByTeamId team) (λ _, mmr)).
(** Of the ratings that AddArenaMMRData keeps only whose they are is modelled. *)
Definition AddArenaMMRData (b : Battleground) (guid team : Z) : Battleground :=
  set_ratedArenaData b (on_team (ratedArenaData b) (GetTeamIndexByTeamId team) (λ s, {[guid]} ∪ s)).

Definition GetFreeSlotsForTeam (b : Battleground) (team : Z) : Z :=
  let mine := GetInvitedCount b team in
  let room := if mine <? m_MaxPlayersPerTeam b then m_MaxPlayersPerTeam b - mine else 0 in
  if m_Status b =? STATUS_WAIT_JOIN then room
  else if m_Status b =? STATUS_IN_PROGRESS then
    let other := if team =? ALLIANCE then HORDE else ALLIANCE in
    let otherTeam := GetInvitedCount b other in
    let otherIn := GetPlayersCountByTeam b other in
    let diff := if otherTeam =? mine then 1 else if mine <? otherTeam then otherTeam - mine else 0 in
    let mineIn := GetPlayersCountByTeam b team in
    let diff3 := if otherIn =? mineIn then 1
                 else if mineIn <? otherIn then otherIn - mineIn
                 else if mine <=? m_MinPlayersPerTeam b then m_MinPlayersPerTeam b - mine + 1 else 0 in
    Z.min (Z.min diff room) diff3
  else 0.

(** ** BattlegroundMgr: where battlegrounds are found *)

Definition store_of (w : World) (type : Z) : gset Z := default ∅ (stores w !! type).
Definition GetBattlegroundTemplate (w : World) (type : Z) : option Battleground := templates w !! type.
(** The stores are searched in the order of the types when no type is given. *)
Definition GetBattleground (w : World) (id type : Z) : option Battleground :=
  if id =? 0 then None
  else if type =? BATTLEGROUND_TYPE_NONE
  then if existsb (λ x, bool_decide (id ∈ x.2)) (items (stores w)) then battlegrounds w !! id else None
  else if decide (id ∈ store_of w type) then battlegrounds w !! id else None.

Definition free_slot_queue (w : World) (type : Z) : list Z := default [] (BGFreeSlotQueue w !! type).
(** The first of equal elements is taken out. *)
Fixpoint remove_first (x : Z) (l : list Z) : list Z :=
  match l with [] => [] | y :: l => if x =? y then l else y :: remove_first x l end.
Definition AddToBGFreeSlotQueue (id : Z) : BW unit :=
  b ← bg_at id;
  if negb (m_InBGFreeSlotQueue b) && isBattleground b then
    _ ← modify (λ w, set_BGFreeSlotQueue w (<[m_TypeID b := id :: free_slot_queue w (m_TypeID b)]> (BGFreeSlotQueue w)));
    upd_bg id (λ b, set_m_InBGFreeSlotQueue b true)
  else skip.
Definition RemoveFromBGFreeSlotQueue (id : Z) : BW unit :=
  b ← bg_at id;
  if m_InBGFreeSlotQueue b then
    _ ← modify (λ w, set_BGFreeSlotQueue w
          (<[m_TypeID b := remove_first id (free_slot_queue w (m_TypeID b))]> (BGFreeSlotQueue w)));
    upd_bg id (λ b, set_m_InBGFreeSlotQueue b false)
  else skip.
Definition StartBattleground (id : Z) : BW unit :=
  _ ← AddToBGFreeSlotQueue id;
  b ← bg_at id;
  modify (λ w, set_stores w (<[m_TypeID b := {[id]} ∪ store_of w (m_TypeID b)]> (stores w))).

Definition BGQueueTypeId (w : World) (bgTypeId arenaType : Z) (soloQueuePlayer : Z) : Z :=
  if bgTypeId =? BATTLEGROUND_AB then BATTLEGROUND_QUEUE_AB
  else if bgTypeId =? BATTLEGROUND_AV then BATTLEGROUND_QUEUE_AV
  else if bgTypeId =? BATTLEGROUND_EY then BATTLEGROUND_QUEUE_EY
  else if bgTypeId =? BATTLEGROUND_IC then BATTLEGROUND_QUEUE_IC
  else if bgTypeId =? BATTLEGROUND_RB then BATTLEGROUND_QUEUE_RB
  else if bgTypeId =? BATTLEGROUND_SA then BATTLEGROUND_QUEUE_SA
  else if bgTypeId =? BATTLEGROUND_WS then BATTLEGROUND_QUEUE_WS
  else if existsb (Z.eqb bgTypeId) [BATTLEGROUND_AA; BATTLEGROUND_BE; BATTLEGROUND_DS; BATTLEGROUND_NA; BATTLEGROUND_RL; BATTLEGROUND_RV]
  then
    if arenaType =? ARENA_TYPE_2v2 then BATTLEGROUND_QUEUE_2v2
    else if arenaType =? ARENA_TYPE_3v3 then
      if negb (soloQueuePlayer =? 0) && CONFIG_ARENA_SOLOQUEUE_ENABLED &&
         bool_decide (m_QueuedPlayers (queue_of w BATTLEGROUND_QUEUE_3v3) !! soloQueuePlayer = None)
      then BATTLEGROUND_QUEUE_SOLO_ARENA
      else BATTLEGROUND_QUEUE_3v3
    else if arenaType =? ARENA_TYPE_5v5 then BATTLEGROUND_QUEUE_5v5
    else BATTLEGROUND_QUEUE_NONE
  else BATTLEGROUND_QUEUE_NONE.
Definition BGArenaType (queue : Z) : Z :=
  if queue =? BATTLEGROUND_QUEUE_2v2 then ARENA_TYPE_2v2
  else if queue =? BATTLEGROUND_QUEUE_3v3 then ARENA_TYPE_3v3
  else if queue =? BATTLEGROUND_QUEUE_5v5 then ARENA_TYPE_5v5 else 0.

Definition GetMaxRatingDifference (arenaType : Z) : Z :=
  if existsb (Z.eqb arenaType) [ARENA_TYPE_2v2; ARENA_TYPE_3v3; ARENA_TYPE_5v5]
  then CONFIG_ARENA_MAX_RATING_DIFFERENCE arenaType else 1.
Definition GetRatingDiscardTimer (arenaType : Z) : Z :=
  if existsb (Z.eqb arenaType) [ARENA_TYPE_2v2; ARENA_TYPE_3v3; ARENA_TYPE_5v5]
  then CONFIG_ARENA_RATING_DISCARD_TIMER arenaType else 1.
Definition GetRatingWideningTimer (arenaType : Z) : Z :=
  if existsb (Z.eqb arenaType) [ARENA_TYPE_2v2; ARENA_TYPE_3v3; ARENA_TYPE_5v5]
  then CONFIG_ARENA_WIDENING_TIMER arenaType else 1.
Definition GetRatingWideningDelta (arenaType : Z) : Z :=
  if existsb (Z.eqb arenaType) [ARENA_TYPE_2v2; ARENA_TYPE_3v3; ARENA_TYPE_5v5]
  then CONFIG_ARENA_WIDENING_DELTA arenaType else 1.

(** ScheduleQueueUpdate: what is asked for twice is kept once. *)
Definition scheduleId (arenaMatchmakerRating arenaType bgQueueTypeId bgTypeId bracket_id : Z) : Z :=
  Z.lor (Z.shiftl arenaMatchmakerRating 32) (Z.lor (Z.lor (Z.lor (Z.shiftl arenaType 24) (Z.shiftl bgQueueTypeId 16)) (Z.shiftl bgTypeId 8)) bracket_id).
Definition ScheduleQueueUpdate (arenaMatchmakerRating arenaType bgQueueTypeId bgTypeId bracket_id : Z) : BW unit :=
  let id := scheduleId arenaMatchmakerRating arenaType bgQueueTypeId bgTypeId bracket_id in
  modify (λ w, if existsb (Z.eqb id) (m_QueueUpdateScheduler w) then w
               else set_m_QueueUpdateScheduler w (m_QueueUpdateScheduler w ++ [id])).

(** CreateNewBattleground: a copy of the template of the type, or of the type that was drawn
    for a random battleground or arena. *)
Definition max_per_team (arenaType : Z) : Z :=
  if existsb (Z.eqb arenaType) [ARENA_TYPE_2v2; ARENA_TYPE_3v3; ARENA_TYPE_5v5] then arenaType else 0.
Definition CreateNewBattleground (originalBgTypeId bracket arenaType : Z) (isRated : bool) : BW (option Z) :=
  w ← get;
  let is_random := (originalBgTypeId =? BATTLEGROUND_RB) || (originalBgTypeId =? BATTLEGROUND_AA) in
  let bgTypeId := if is_random then default BATTLEGROUND_TYPE_NONE (head (random w)) else originalBgTypeId in
  _ ← when is_random (modify (λ w, set_random w (tail (random w))));
  match GetBattlegroundTemplate w bgTypeId with
  | None => mret None
  | Some t =>
    if negb (existsb (Z.eqb bgTypeId) [BATTLEGROUND_AV; BATTLEGROUND_WS; BATTLEGROUND_AB; BATTLEGROUND_NA; BATTLEGROUND_BE;
         BATTLEGROUND_EY; BATTLEGROUND_RL; BATTLEGROUND_SA; BATTLEGROUND_DS; BATTLEGROUND_RV; BATTLEGROUND_IC;
         BATTLEGROUND_RB; BATTLEGROUND_AA])
    then mret None
    else
      let id := next_instance w in
      _ ← modify (λ w, set_next_instance w (id + 1));
      let b := mkBg originalBgTypeId bgTypeId id bracket STATUS_WAIT_JOIN arenaType (m_IsArena t) isRated 0 0
        (m_PlayersCount t) ∅ (m_MaxPlayers t) (m_MinPlayers t) (m_MaxPlayersPerTeam t) (m_MinPlayersPerTeam t) (m_LevelMax t)
        (m_MapId t) false (m_ArenaTeamIds t) (m_ArenaTeamMMR t) (ratedArenaData t) (mmData t) in
      b ← (if m_IsArena b then
             d ← lift (SetConfig (mmData b) (max_per_team arenaType * 2));
             mret (set_m_MaxPlayers (set_m_MaxPlayersPerTeam (set_mmData b d) (max_per_team arenaType)) (max_per_team arenaType * 2))
           else mret b);
      _ ← modify (λ w, set_battlegrounds w (<[id := b]> (battlegrounds w)));
      mret (Some id)
  end.

(** ** The queue slots of a player *)

Definition InBattlegroundQueue (p : Player) : bool := existsb (λ x, negb (x.1 =? BATTLEGROUND_QUEUE_NONE)) (queue_ids p).
Fixpoint slot_index (ids : list (Z * Z)) (queue : Z) : nat :=
  match ids with [] => O | x :: ids => if x.1 =? queue then O else S (slot_index ids queue) end.
(** The number of slots when there is none. *)
Definition GetBattlegroundQueueIndex (p : Player) (queue : Z) : nat := slot_index (queue_ids p) queue.
Definition InBattlegroundQueueForBattlegroundQueueType (p : Player) (queue : Z) : bool :=
  (GetBattlegroundQueueIndex p queue <? length (queue_ids p))%nat.
Definition IsInvitedForBattlegroundQueueType (p : Player) (queue : Z) : bool :=
  match queue_ids p !! GetBattlegroundQueueIndex p queue with Some x => negb (x.2 =? 0) | None => false end.
Fixpoint add_slot (ids : list (Z * Z)) (val : Z) : list (Z * Z) :=
  match ids with
  | [] => []
  | x :: ids => if (x.1 =? BATTLEGROUND_QUEUE_NONE) || (x.1 =? val) then (val, 0) :: ids else x :: add_slot ids val
  end.
Definition AddBattlegroundQueueId (p : Player) (val : Z) : Player := set_queue_ids p (add_slot (queue_ids p) val).
Definition HasFreeBattlegroundQueueId (p : Player) : bool := existsb (λ x, x.1 =? BATTLEGROUND_QUEUE_NONE) (queue_ids p).
Fixpoint remove_slot (ids : list (Z * Z)) (val : Z) : list (Z * Z) :=
  match ids with
  | [] => []
  | x :: ids => if x.1 =? val then (BATTLEGROUND_QUEUE_NONE, 0) :: ids else x :: remove_slot ids val
  end.
Definition RemoveBattlegroundQueueId (p : Player) (val : Z) : Player := set_queue_ids p (remove_slot (queue_ids p) val).
Definition SetInviteForBattlegroundQueueType (p : Player) (queue instanceId : Z) : Player :=
  set_queue_ids p ((λ x, if x.1 =? queue then (x.1, instanceId) else x) <$> queue_ids p).
(** A player with a 3v3 slot who is not in that queue is in the queue of single players. *)
Definition GetBattlegroundQueueTypeId (w : World) (guid : Z) (p : Player) (index : nat) : Z :=
  let id := default BATTLEGROUND_QUEUE_NONE (fst <$> queue_ids p !! index) in
  if CONFIG_ARENA_SOLOQUEUE_ENABLED && (id =? BATTLEGROUND_QUEUE_3v3) &&
     bool_decide (m_QueuedPlayers (queue_of w BATTLEGROUND_QUEUE_3v3) !! guid = None)
  then BATTLEGROUND_QUEUE_SOLO_ARENA else id.
Definition GetPlayerBattleground (w : World) (p : Player) : option Battleground :=
  if bgInstanceID p =? 0 then None else GetBattleground w (bgInstanceID p) (bgTypeID p).
Definition InBattleground (p : Player) : bool := negb (bgInstanceID p =? 0).
Definition GetTeam (w : World) (p : Player) : Z :=
  if negb (bgTeam p =? 0) && bool_decide (GetPlayerBattleground w p ≠ None) then bgTeam p else m_team p.

End objects.
End BgObjects.
