(* ===== verification/BgQueue.v ===== *)
(** * The queue of a battleground
    ([src/server/game/Battlegrounds/BattlegroundQueue.{h,cpp}], [StartProposal] of
    [Cfbg/Cfbg.cpp])

    Joining, leaving, invitations and their expiry, and the selection of groups for a
    match. A queue is named by its type [q]. *)
From S2P Require Import Prelude StateMonad Multimap Timers Float32 Float64 BgData BgMatchmaking BgObjects.

Module BgQueue.
Export BgObjects.

Section queue.
Context `{BE : BgEnv}.

(** ** Selection pools *)

Definition Init : SelectionPool := mkPool [] 0.
(** A dead address is found by [alive] before the pools look at it. *)
Definition no_group : GroupQueueInfo := mkGroupInfo ∅ 0 0 false 0 0 0 0 0 0 0 0 0 false.
Definition group_of (w : World) (a : Z) : GroupQueueInfo := default no_group (groups w !! a).
Definition alive (l : list Z) : BW unit :=
  w ← get; lift (if forallb (λ a, bool_decide (is_Some (groups w !! a))) l then Ok tt else BadPtr).

Section pool.
Context (w : World).
Definition size_of (a : Z) : Z := players_size (group_of w a).

Definition PoolAddGroup (p : SelectionPool) (a desiredCount : Z) : SelectionPool * bool :=
  if negb (invited (group_of w a)) && (PlayerCount p + size_of a <=? desiredCount)
  then (mkPool (SelectedGroups p ++ [a]) (u32 (PlayerCount p + size_of a)), true)
  else (p, PlayerCount p <? desiredCount).

(** The last group whose size differs by at most one, or the last of the largest before
    there is one. *)
Fixpoint group_to_kick (size : Z) (l : list Z) (i : nat) (best : nat * Z) (found : bool) : nat :=
  match l with
  | [] => best.1
  | a :: l =>
    if Z.abs (s32 (size_of a - size)) <=? 1 then group_to_kick size l (S i) (i, size_of a) true
    else if negb found && (best.2 <=? size_of a) then group_to_kick size l (S i) (i, size_of a) found
    else group_to_kick size l (S i) best found
  end.
Definition KickGroup (p : SelectionPool) (size : Z) : SelectionPool * bool :=
  if PlayerCount p =? 0 then (p, true)
  else
    let i := group_to_kick size (SelectedGroups p) 0 (O, default 0 (size_of <$> head (SelectedGroups p))) false in
    let n := default 0 (size_of <$> SelectedGroups p !! i) in
    (mkPool (delete i (SelectedGroups p)) (u32 (PlayerCount p - n)), negb (n <=? size + 1)).

(** The groups after the iterator are offered until one does not fit. *)
Fixpoint offer (p : SelectionPool) (rest : list Z) (desired : Z) : SelectionPool * list Z :=
  match rest with
  | [] => (p, [])
  | a :: rest' =>
    let '(p', ok) := PoolAddGroup p a desired in
    if ok then offer p' rest' desired else (p', rest)
  end.

(** The loop of FillPlayersToBG that evens out the teams: pool and rest of the list of each. *)
Fixpoint even_out (fuel : nat) (aliFree hordeFree : Z) (ali horde : SelectionPool * list Z)
    : outcome ((SelectionPool * list Z) * (SelectionPool * list Z)) :=
  let diffAli := aliFree - s32 (PlayerCount ali.1) in
  let diffHorde := hordeFree - s32 (PlayerCount horde.1) in
  if negb ((1 <? Z.abs (diffAli - diffHorde)) && ((0 <? PlayerCount horde.1) || (0 <? PlayerCount ali.1)))
  then Ok (ali, horde)
  else match fuel with
  | O => OutOfFuel
  | S fuel =>
    if diffAli <? diffHorde then
      let '(p, more) := KickGroup ali.1 (diffHorde - diffAli) in
      let ali := if more then offer p ali.2 (if diffHorde <=? aliFree then aliFree - diffHorde else 0) else (p, ali.2) in
      if PlayerCount ali.1 =? 0 then
        if aliFree <=? diffHorde + 1 then Ok (ali, horde)
        else even_out fuel aliFree hordeFree ali ((KickGroup horde.1 (diffHorde - diffAli)).1, horde.2)
      else even_out fuel aliFree hordeFree ali horde
    else
      let '(p, more) := KickGroup horde.1 (diffAli - diffHorde) in
      let horde := if more then offer p horde.2 (if diffAli <=? hordeFree then hordeFree - diffAli else 0) else (p, horde.2) in
      if PlayerCount horde.1 =? 0 then
        if hordeFree <=? diffAli + 1 then Ok (ali, horde)
        else even_out fuel aliFree hordeFree ((KickGroup ali.1 (diffAli - diffHorde)).1, ali.2) horde
      else even_out fuel aliFree hordeFree ali horde
  end.
(** Every round kicks a group or moves on in a list. *)
Definition even_fuel (ali horde : SelectionPool * list Z) : nat :=
  S (length (SelectedGroups ali.1) + 2 * length ali.2 + length (SelectedGroups horde.1) + 2 * length horde.2).

(** Groups without an invitation are offered; the loop ends at the first that is refused. *)
Fixpoint offer_free (p : SelectionPool) (rest : list Z) (desired : Z) : SelectionPool :=
  match rest with
  | [] => p
  | a :: rest =>
    if invited (group_of w a) then offer_free p rest desired
    else let '(p', ok) := PoolAddGroup p a desired in if ok then offer_free p' rest desired else p'
  end.
(** ... or, in CheckNormalMatch, when there are enough players; the rest of the list. *)
Fixpoint offer_until (p : SelectionPool) (rest : list Z) (desired enough : Z) : SelectionPool * list Z :=
  match rest with
  | [] => (p, [])
  | a :: rest' =>
    if invited (group_of w a) then offer_until p rest' desired enough
    else let '(p', _) := PoolAddGroup p a desired in
         if enough <=? PlayerCount p' then (p', rest) else offer_until p' rest' desired enough
  end.
End pool.

Definition pool_of (Q : BattlegroundQueue) (team : Z) : SelectionPool := of_team (m_SelectionPools Q) team.
Definition set_pools (q : Z) (pools : teams SelectionPool) : BW unit := upd_queue q (λ Q, set_m_SelectionPools Q pools).
(** Everything that a selection looks at. *)
Definition looked_at (Q : BattlegroundQueue) (bracket : Z) : list Z :=
  queued Q bracket 0 ++ queued Q bracket 1 ++ queued Q bracket 2 ++ queued Q bracket 3.

(** ** Selecting groups *)

Definition FillPlayersToBG (q id bracket : Z) : BW unit :=
  b ← bg_at id; w ← get; Q ← queue_at q;
  _ ← alive (looked_at Q bracket);
  let hordeFree := s32 (GetFreeSlotsForTeam b HORDE) in
  let aliFree := s32 (GetFreeSlotsForTeam b ALLIANCE) in
  let ali := offer w (pool_of Q TEAM_ALLIANCE) (queued Q bracket BG_QUEUE_NORMAL_ALLIANCE) (u32 aliFree) in
  let horde := offer w (pool_of Q TEAM_HORDE) (queued Q bracket BG_QUEUE_NORMAL_HORDE) (u32 hordeFree) in
  if CONFIG_BATTLEGROUND_INVITATION_TYPE =? 0 then set_pools q (ali.1, horde.1)
  else '(ali, horde) ← lift (even_out w (even_fuel ali horde) aliFree hordeFree ali horde);
       set_pools q (ali.1, horde.1).

(** A premade group that waited too long, or shrank, goes to the front of the normal queue. *)
Definition premade_to_normal (q bracket MinPlayersPerTeam time_before team : Z) : BW unit :=
  Q ← queue_at q; w ← get;
  match queued Q bracket (BG_QUEUE_PREMADE_ALLIANCE + team) with
  | [] => skip
  | a :: _ =>
    let g := group_of w a in
    if negb (invited g) && ((JoinTime g <? time_before) || (players_size g <? MinPlayersPerTeam)) then
      upd_queue q (λ Q, on_queued (on_queued Q bracket (BG_QUEUE_NORMAL_ALLIANCE + team) (cons a))
                          bracket (BG_QUEUE_PREMADE_ALLIANCE + team) tail)
    else skip
  end.
Definition CheckPremadeMatch (q bracket MinPlayersPerTeam MaxPlayersPerTeam : Z) : BW bool :=
  Q ← queue_at q; w ← get;
  _ ← alive (looked_at Q bracket);
  let free l := find (λ a, negb (invited (group_of w a))) l in
  match free (queued Q bracket BG_QUEUE_PREMADE_ALLIANCE), free (queued Q bracket BG_QUEUE_PREMADE_HORDE) with
  | Some a, Some h =>
    let ali := (PoolAddGroup w (pool_of Q TEAM_ALLIANCE) a MaxPlayersPerTeam).1 in
    let horde := (PoolAddGroup w (pool_of Q TEAM_HORDE) h MaxPlayersPerTeam).1 in
    let maxPlayers := Z.min (PlayerCount ali) (PlayerCount horde) in
    _ ← set_pools q (offer_free w ali (queued Q bracket BG_QUEUE_NORMAL_ALLIANCE) maxPlayers,
                     offer_free w horde (queued Q bracket BG_QUEUE_NORMAL_HORDE) maxPlayers);
    mret true
  | _, _ =>
    let time_before := u32 (GameTimeMS w - CONFIG_BATTLEGROUND_PREMADE_GROUP_WAIT_FOR_MATCH) in
    _ ← premade_to_normal q bracket MinPlayersPerTeam time_before TEAM_ALLIANCE;
    _ ← premade_to_normal q bracket MinPlayersPerTeam time_before TEAM_HORDE;
    mret false
  end.

Definition CheckNormalMatch (q : Z) (template : Battleground) (bracket minPlayers maxPlayers : Z) : BW bool :=
  Q ← queue_at q; w ← get;
  _ ← alive (looked_at Q bracket);
  let ali := offer_until w (pool_of Q TEAM_ALLIANCE) (queued Q bracket BG_QUEUE_NORMAL_ALLIANCE) maxPlayers minPlayers in
  let horde := offer_until w (pool_of Q TEAM_HORDE) (queued Q bracket BG_QUEUE_NORMAL_HORDE) maxPlayers minPlayers in
  let enough := (minPlayers <=? PlayerCount horde.1) && (minPlayers <=? PlayerCount ali.1) in
  let more := negb (CONFIG_BATTLEGROUND_INVITATION_TYPE =? 0) && enough in
  (* past the end of the list when the other team was enough without this one *)
  pools ← (if more then
             if PlayerCount horde.1 <? PlayerCount ali.1
             then lift (match horde.2 with [] => Undefined | _ :: rest => Ok (ali.1, offer_free w horde.1 rest (PlayerCount ali.1)) end)
             else lift (match ali.2 with [] => Undefined | _ :: rest => Ok (offer_free w ali.1 rest (PlayerCount horde.1), horde.1) end)
           else mret (ali.1, horde.1));
  _ ← set_pools q pools;
  if more && (2 <? Z.abs (s32 (PlayerCount pools.2 - PlayerCount pools.1))) then mret false
  else if isTesting && isBattleground template && ((0 <? PlayerCount pools.1) || (0 <? PlayerCount pools.2)) then mret true
  else mret ((minPlayers <=? PlayerCount pools.1) && (minPlayers <=? PlayerCount pools.2)).

(** What follows the last selected group in its list. *)
Fixpoint after (a : Z) (l : list Z) : option (list Z) :=
  match l with [] => None | x :: l => if a =? x then Some l else after a l end.
Definition move_to_other (q bracket teamIndex otherTeam otherTeamId last a : Z) : BW unit :=
  _ ← upd_group a (λ g, set_Team g otherTeamId);
  upd_queue q (λ Q,
    let Q := on_queued Q bracket (BG_QUEUE_NORMAL_ALLIANCE + otherTeam) (cons a) in
    on_queued Q bracket (BG_QUEUE_NORMAL_ALLIANCE + teamIndex)
      (λ l, match after last l with
            | None => l
            | Some rest => take (length l - length rest) l ++ remove_first a rest
            end)).
Definition CheckSkirmishForSameFaction (q bracket minPlayersPerTeam : Z) : BW bool :=
  Q ← queue_at q; w ← get;
  let n t := PlayerCount (pool_of Q t) in
  if (n TEAM_ALLIANCE <? minPlayersPerTeam) && (n TEAM_HORDE <? minPlayersPerTeam) then mret false
  else
    let horde := n TEAM_HORDE =? minPlayersPerTeam in
    let '(teamIndex, otherTeam, otherTeamId) :=
      if horde then (TEAM_HORDE, TEAM_ALLIANCE, ALLIANCE) else (TEAM_ALLIANCE, TEAM_HORDE, HORDE) in
    let this := pool_of Q teamIndex in
    _ ← set_pools q (on_team (m_SelectionPools Q) otherTeam (λ _, Init));
    ginfo ← lift (match list.last (SelectedGroups this) with Some a => Ok a | None => Undefined end);
    match after ginfo (queued Q bracket (BG_QUEUE_NORMAL_ALLIANCE + teamIndex)) with
    | None => mret false
    | Some rest =>
      _ ← alive rest;
      let other := offer_free w Init rest minPlayersPerTeam in
      _ ← set_pools q (on_team (m_SelectionPools Q) otherTeam (λ _, other));
      if negb (PlayerCount other =? minPlayersPerTeam) then mret false
      else
        _ ← for_each (SelectedGroups other) (move_to_other q bracket teamIndex otherTeam otherTeamId ginfo);
        mret true
    end.

(** ** Waiting times *)

Definition wait_team (g : GroupQueueInfo) : Z :=
  if ArenaType g =? 0 then (if Team g =? HORDE then TEAM_HORDE else TEAM_ALLIANCE)
  else if IsRated g then TEAM_HORDE else TEAM_ALLIANCE.
Definition waits_of (Q : BattlegroundQueue) (team bracket : Z) : WaitTimes := default no_waits (m_WaitTime Q !! (team, bracket)).
Definition add_wait_time (x : WaitTimes) (timeInQueue : Z) : WaitTimes :=
  let i := Z.to_nat (m_WaitTimeLastPlayer x) in
  let old := default 0 (m_WaitTimes x !! i) in
  mkWait (<[i := timeInQueue]> (m_WaitTimes x))
    ((m_WaitTimeLastPlayer x + 1) `mod` COUNT_OF_PLAYERS_TO_AVERAGE_WAIT_TIME)
    (u32 (u32 (m_SumOfWaitTimes x - old) + timeInQueue)).
Definition PlayerInvitedToBGUpdateAverageWaitTime (q bracket : Z) (g : GroupQueueInfo) : BW unit :=
  w ← get;
  upd_queue q (λ Q, set_m_WaitTime Q
    (<[(wait_team g, bracket) :=
         add_wait_time (waits_of Q (wait_team g) bracket) (Timer.getMSTimeDiff (JoinTime g) (GameTimeMS w))]> (m_WaitTime Q))).
(** Not known before there are ten. *)
Definition GetAverageQueueWaitTime (Q : BattlegroundQueue) (g : GroupQueueInfo) (bracket : Z) : Z :=
  let x := waits_of Q (wait_team g) bracket in
  if default 0 (m_WaitTimes x !! 9%nat) =? 0 then 0 else m_SumOfWaitTimes x / COUNT_OF_PLAYERS_TO_AVERAGE_WAIT_TIME.

(** ** Joining *)

Definition player_info (p : Player) (isRated : bool) (now a : Z) : PlayerQueueInfo :=
  mkPlayerInfo now (f64_of_f32 (if isRated then arena_rating p else skill_rating p)) (GetPvPItemLevel p) (IsHealer p) a.
Definition queue_index (team ArenaType : Z) (isRated isPremade isSoloQueue : bool) : Z :=
  if (ArenaType =? 0) || isSoloQueue then BG_QUEUE_MIXED
  else (if negb isRated && negb isPremade then BG_TEAMS_COUNT else 0) + (if team =? HORDE then 1 else 0).
(** The members are those of the group, or the leader alone; the address of the new group. *)
Definition AddGroup (q leader : Z) (grp : option BgGroup) (BgTypeId bracketId ArenaType : Z) (isRated isPremade : bool)
    (ArenaRating MatchmakerRating arenateamid : Z) (isSoloQueue : bool) : BW Z :=
  w ← get; p ← player_at leader;
  let a := next_address w in
  let team := GetTeam w p in
  let who := match grp with Some g => members g | None => [leader] end in
  let cross := BATTLEGROUND_CROSSFACTION_ENABLED && negb (CROSSFACTION_DISABLED p) in
  _ ← modify (λ w, set_next_address (set_groups w (<[a :=
        mkGroupInfo ∅ team BgTypeId isRated ArenaType arenateamid (GameTimeMS w) 0 0 ArenaRating MatchmakerRating 0 0 cross]> (groups w))) (a + 1));
  _ ← for_each who (λ guid,
        p ← player_at guid;
        _ ← upd_queue q (λ Q, set_m_QueuedPlayers Q (<[guid := player_info p isRated (GameTimeMS w) a]> (m_QueuedPlayers Q)));
        upd_group a (λ g, set_Players g ({[guid]} ∪ Players g)));
  _ ← upd_queue q (λ Q, on_queued Q bracketId (queue_index team ArenaType isRated isPremade isSoloQueue) (λ l, l ++ [a]));
  mret a.

(** ** Leaving *)

(** The bracket and type of the list a group is in: the highest bracket, and in it the last
    type. *)
Definition brackets_down : list Z := reverse (seqZ 0 MAX_BATTLEGROUND_BRACKETS).
Definition types_in (Q : BattlegroundQueue) (bracket a : Z) : option Z :=
  list.last (filter (λ t, existsb (Z.eqb a) (queued Q bracket t) = true) (seqZ 0 BG_QUEUE_GROUP_TYPES_COUNT)).
Fixpoint locate_in (Q : BattlegroundQueue) (a : Z) (brackets : list Z) : option (Z * Z) :=
  match brackets with
  | [] => None
  | b :: brackets => match types_in Q b a with Some t => Some (b, t) | None => locate_in Q a brackets end
  end.
Definition locate (Q : BattlegroundQueue) (a : Z) : option (Z * Z) := locate_in Q a brackets_down.

(** The battleground the group was invited to forgets the player. *)
Definition uncount (guid : Z) (g : GroupQueueInfo) : BW unit :=
  w ← get;
  match GetBattleground w (IsInvitedToBGInstanceGUID g) (BgTypeId g) with
  | Some b => upd_bg (m_InstanceID b) (λ b, set_mmData (DecreaseInvitedCount b (Team g)) (RemovePlayerData (mmData b) guid))
  | None => skip
  end.
(** Whoever leaves after the invitation to a rated match has lost it. *)
Definition member_lost (guid : Z) (g : GroupQueueInfo) : BW unit :=
  match ArenaTeam_rating (ArenaTeamId g) with
  | Some _ => modify (λ w, set_lost w (lost w ++ [(ArenaTeamId g, guid, OpponentsMatchmakerRating g)]))
  | None => skip
  end.
(** The next member of a rated team that is not invited yet is told to leave. *)
Definition send_away (next : Z) (g : GroupQueueInfo) : BW unit :=
  w ← get;
  match players w !! next with
  | None => skip
  | Some p =>
    let queue := BGQueueTypeId w (BgTypeId g) (ArenaType g) 0 in
    _ ← upd_player next (λ p, RemoveBattlegroundQueueId p queue);
    send next (SMSG_BATTLEFIELD_STATUS (Z.of_nat (GetBattlegroundQueueIndex p queue)) STATUS_NONE 0 0 0 0)
  end.
(** One player less; the next one that has to leave too. *)
Definition remove_one (q guid : Z) (decreaseInvitedCount : bool) : BW (option Z) :=
  Q ← queue_at q;
  match m_QueuedPlayers Q !! guid with
  | None => mret None
  | Some info =>
    let a := GroupInfo info in
    g ← group_at a;
    match locate Q a with
    | None => mret None
    | Some (bracket, index) =>
      _ ← upd_group a (λ g, set_Players g (Players g ∖ {[guid]}));
      _ ← when (decreaseInvitedCount && invited g) (uncount guid g);
      _ ← upd_queue q (λ Q, set_m_QueuedPlayers Q (delete guid (m_QueuedPlayers Q)));
      _ ← when (invited g && IsRated g && decreaseInvitedCount) (member_lost guid g);
      g ← group_at a;
      if bool_decide (Players g = ∅) then
        _ ← upd_queue q (λ Q, on_queued Q bracket index (remove_first a));
        _ ← modify (λ w, set_groups w (delete a (groups w)));
        mret None
      else if negb (invited g) && IsRated g then
        match in_order (Players g) with
        | [] => mret None
        | next :: _ => _ ← send_away next g; mret (Some next)
        end
      else mret None
    end
  end.
Fixpoint remove_all (fuel : nat) (q guid : Z) (decreaseInvitedCount : bool) : BW unit :=
  next ← remove_one q guid decreaseInvitedCount;
  match next with
  | None => skip
  | Some next => match fuel with O => lift OutOfFuel | S fuel => remove_all fuel q next decreaseInvitedCount end
  end.
(** Every call takes a player out of the queue. *)
Definition RemovePlayer (q guid : Z) (decreaseInvitedCount : bool) : BW unit :=
  Q ← queue_at q; remove_all (size (m_QueuedPlayers Q)) q guid decreaseInvitedCount.

Definition IsPlayerInvited (w : World) (q pl_guid bgInstanceGuid removeTime : Z) : outcome bool :=
  match m_QueuedPlayers (queue_of w q) !! pl_guid with
  | None => Ok false
  | Some info => deref (groups w !! GroupInfo info) (λ g,
      Ok ((IsInvitedToBGInstanceGUID g =? bgInstanceGuid) && (RemoveInviteTime g =? removeTime)))
  end.
Definition GetPlayerGroupInfoData (w : World) (q guid : Z) : outcome (option GroupQueueInfo) :=
  match m_QueuedPlayers (queue_of w q) !! guid with
  | None => Ok None
  | Some info => deref (groups w !! GroupInfo info) (λ g, Ok (Some g))
  end.

(** ** Invitations *)

Definition AddEvent (q offset : Z) (e : QueueEvent) : BW unit :=
  upd_queue q (λ Q, set_m_events Q (mm_insert (u64 (m_time Q + offset)) e (m_events Q))).
Definition invite_player (q a id bgQueueTypeId side guid : Z) : BW unit :=
  w ← get; g ← group_at a; b ← bg_at id;
  match players w !! guid with
  | None => skip
  | Some p =>
    if PlayerLogout p || (negb (IsInWorld p) && negb (IsBeingTeleportedFar p)) then skip
    else
      _ ← PlayerInvitedToBGUpdateAverageWaitTime q (m_BracketId b) g;
      _ ← upd_bg id (λ b, AddArenaMMRData (set_mmData (IncreaseInvitedCount b (Team g)) (AddPlayerData (mmData b) guid p g)) guid side);
      _ ← upd_player guid (λ p, SetInviteForBattlegroundQueueType p bgQueueTypeId (IsInvitedToBGInstanceGUID g));
      _ ← AddEvent q INVITATION_REMIND_TIME
            (BGQueueInviteEvent guid (IsInvitedToBGInstanceGUID g) (m_TypeID b) (ArenaType g) (RemoveInviteTime g));
      _ ← AddEvent q INVITE_ACCEPT_WAIT_TIME
            (BGQueueRemoveEvent guid (IsInvitedToBGInstanceGUID g) (m_TypeID b) bgQueueTypeId (RemoveInviteTime g));
      send guid (SMSG_BATTLEFIELD_STATUS (Z.of_nat (GetBattlegroundQueueIndex p bgQueueTypeId)) STATUS_WAIT_JOIN
                   INVITE_ACCEPT_WAIT_TIME 0 (ArenaType g) 0)
  end.
Definition InviteGroupToBG (q a id side : Z) : BW bool :=
  _ ← when (negb (side =? 0)) (upd_group a (λ g, set_Team g side));
  g ← group_at a;
  if invited g then mret false
  else
    b ← bg_at id; w ← get;
    let bgQueueTypeId := BGQueueTypeId w (m_TypeID b) (m_ArenaType b) 0 in
    _ ← when (m_IsArena b && m_IsRated b) (upd_bg id (λ b, SetArenaTeamIdForTeam b (Team g) (ArenaTeamId g)));
    _ ← upd_group a (λ g, set_RemoveInviteTime (set_IsInvitedToBGInstanceGUID g id) (u32 (GameTimeMS w + INVITE_ACCEPT_WAIT_TIME)));
    _ ← for_each (in_order (Players g)) (invite_player q a id bgQueueTypeId side);
    mret true.

(** Every group of a proposal with a team is invited. *)
Definition StartProposal (q id : Z) (base : list GroupView) (p : Proposal) : BW unit :=
  for_each (zip base (assigment p)) (λ x,
    if x.2 =? TEAM_ALLIANCE then _ ← InviteGroupToBG q (v_group x.1) id ALLIANCE; skip
    else if x.2 =? TEAM_HORDE then _ ← InviteGroupToBG q (v_group x.1) id HORDE; skip
    else skip).

(** What the search reads: the groups and the entries of their players, which have to be
    there. *)
Definition view_group (w : World) (q a : Z) : outcome GroupView :=
  deref (groups w !! a) (λ g,
    let! members := foldr (λ guid acc, let! acc := acc in
      deref (m_QueuedPlayers (queue_of w q) !! guid) (λ i, Ok ((guid, i) :: acc))) (Ok []) (in_order (Players g)) in
    Ok (mkView a (Team g) (JoinTime g) (AllowCrossfaction g) members)).
Fixpoint view_groups (w : World) (q : Z) (l : list Z) : outcome (list GroupView) :=
  match l with
  | [] => Ok []
  | a :: l => let! g := view_group w q a in let! l := view_groups w q l in Ok (g :: l)
  end.

End queue.
End BgQueue.
