(* ===== verification/BgUpdate.v ===== *)
(** * Matches are made
    ([src/server/game/Battlegrounds/BattlegroundQueue.cpp], [Matchmaking.cpp],
    [MatchmakingArena.cpp], [BattlegroundMgr.cpp])

    The update of a queue: running battlegrounds are filled, new ones are made; the events
    of the invitations; and the part of BattlegroundMgr::Update that drives the queues. *)
From S2P Require Import Prelude StateMonad Multimap Timers Float32 Float64 BgData BgMatchmaking BgObjects BgQueue.

Module BgUpdate.
Export BgQueue.

Section update.
Context `{BE : BgEnv}.

(** ** Arenas and the older battleground queues *)

Definition invite_pool (q id : Z) (l : list Z) : BW unit :=
  for_each l (λ a, g ← group_at a; _ ← InviteGroupToBG q a id (Team g); skip).
Definition invite_pools (q id : Z) : BW unit :=
  Q ← queue_at q;
  _ ← invite_pool q id (SelectedGroups (pool_of Q TEAM_ALLIANCE));
  Q ← queue_at q;
  invite_pool q id (SelectedGroups (pool_of Q TEAM_HORDE)).
(** Is the battleground running, of the type and bracket, and not rated? *)
Definition fillable (b : Battleground) (bgTypeId bracket_id : Z) : bool :=
  negb (m_IsRated b) && (m_TypeID b =? bgTypeId) && (m_BracketId b =? bracket_id) &&
  (STATUS_WAIT_QUEUE <? m_Status b) && (m_Status b <? STATUS_WAIT_LEAVE).
Definition fill_one (q bgTypeId bracket_id id : Z) : BW unit :=
  b ← bg_at id;
  if fillable b bgTypeId bracket_id then
    _ ← set_pools q no_pools;
    _ ← FillPlayersToBG q id bracket_id;
    _ ← invite_pools q id;
    b ← bg_at id;
    when (negb (HasFreeSlots b)) (RemoveFromBGFreeSlotQueue id)
  else skip.
Definition queue_empty (Q : BattlegroundQueue) (bracket : Z) : bool :=
  forallb (λ t, bool_decide (queued Q bracket t = [])) (seqZ 0 BG_QUEUE_GROUP_TYPES_COUNT).

(** ** Rated arenas *)

(** The rating to look for: that of the team that just joined, or of the one that waits
    longest; nothing to do when there is none. *)
Definition rating_to_match (w : World) (Q : BattlegroundQueue) (bracket_id arenaRating : Z) : option Z :=
  if negb (arenaRating =? 0) then Some arenaRating
  else
    match head (queued Q bracket_id BG_QUEUE_PREMADE_ALLIANCE), head (queued Q bracket_id BG_QUEUE_PREMADE_HORDE) with
    | Some a, Some h =>
      Some (if JoinTime (group_of w a) <? JoinTime (group_of w h)
            then ArenaMatchmakerRating (group_of w a) else ArenaMatchmakerRating (group_of w h))
    | Some a, None => Some (ArenaMatchmakerRating (group_of w a))
    | None, Some h => Some (ArenaMatchmakerRating (group_of w h))
    | None, None => None
    end.
(** Is the team free, and its rating close enough, or its wait long enough? *)
Definition teamPredicate (w : World) (arenaType arenaRating a : Z) : bool :=
  let g := group_of w a in
  let currentTime := s32 (GameTimeMS w) in
  let discardTime := s32 (currentTime - s32 (GetRatingDiscardTimer arenaType)) in
  let wideningTimer := GetRatingWideningTimer arenaType in
  let wideningDelta := GetRatingWideningDelta arenaType in
  let isRatingWidening := (0 <? wideningTimer) && (0 <? wideningDelta) in
  let joinTime := s32 (JoinTime g) in
  if invited g then false
  else if negb isRatingWidening && (joinTime <? discardTime) then true
  else
    let delta := u32 (GetMaxRatingDifference arenaType +
      (if isRatingWidening then u32 (u32 (s32 (currentTime - joinTime)) / wideningTimer * wideningDelta) else 0)) in
    (ArenaMatchmakerRating g <=? u32 (arenaRating + delta)) && (arenaRating <=? u32 (ArenaMatchmakerRating g + delta)).
(** The two teams, each with the list it was found in. *)
Definition find_teams (w : World) (Q : BattlegroundQueue) (bracket_id : Z) (ok : Z → bool) : option ((Z * Z) * (Z * Z)) :=
  let list_of t := queued Q bracket_id t in
  match find ok (list_of BG_QUEUE_PREMADE_ALLIANCE), find ok (list_of BG_QUEUE_PREMADE_HORDE) with
  | Some a, Some h => Some ((BG_QUEUE_PREMADE_ALLIANCE, a), (BG_QUEUE_PREMADE_HORDE, h))
  | Some a, None =>
    b ← find ok (default [] (after a (list_of BG_QUEUE_PREMADE_ALLIANCE)));
    Some ((BG_QUEUE_PREMADE_ALLIANCE, a), (BG_QUEUE_PREMADE_ALLIANCE, b))
  | None, Some a =>
    b ← find ok (default [] (after a (list_of BG_QUEUE_PREMADE_HORDE)));
    Some ((BG_QUEUE_PREMADE_HORDE, a), (BG_QUEUE_PREMADE_HORDE, b))
  | None, None => None
  end.
(** A team that plays for the other side changes the list; it is erased from the list it
    is expected in. *)
Definition change_side (q bracket_id : Z) (x : Z * Z) (side to : Z) : BW unit :=
  g ← group_at x.2;
  if Team g =? side then skip
  else
    let from := 1 - to in
    if negb (x.1 =? from) then lift Undefined
    else upd_queue q (λ Q, on_queued (on_queued Q bracket_id to (cons x.2)) bracket_id from (remove_first x.2)).
Definition start_rated (q bgTypeId bracket_id arenaType : Z) (ali horde : Z * Z) : BW unit :=
  id ← CreateNewBattleground bgTypeId bracket_id arenaType true;
  match id with
  | None => skip
  | Some id =>
    a ← group_at ali.2; h ← group_at horde.2;
    _ ← upd_group ali.2 (λ g, set_OpponentsMatchmakerRating (set_OpponentsTeamRating g (ArenaTeamRating h)) (ArenaMatchmakerRating h));
    _ ← upd_group horde.2 (λ g, set_OpponentsMatchmakerRating (set_OpponentsTeamRating g (ArenaTeamRating a)) (ArenaMatchmakerRating a));
    _ ← change_side q bracket_id ali ALLIANCE BG_QUEUE_PREMADE_ALLIANCE;
    _ ← change_side q bracket_id horde HORDE BG_QUEUE_PREMADE_HORDE;
    _ ← upd_bg id (λ b, SetArenaMatchmakerRating (SetArenaMatchmakerRating b ALLIANCE (ArenaMatchmakerRating a)) HORDE (ArenaMatchmakerRating h));
    _ ← InviteGroupToBG q ali.2 id ALLIANCE;
    _ ← InviteGroupToBG q horde.2 id HORDE;
    StartBattleground id
  end.
Definition update_rated (q bgTypeId bracket_id arenaType arenaRating : Z) : BW unit :=
  w ← get; Q ← queue_at q;
  _ ← alive (looked_at Q bracket_id);
  match rating_to_match w Q bracket_id arenaRating with
  | None => skip
  | Some arenaRating =>
    match find_teams w Q bracket_id (teamPredicate w arenaType arenaRating) with
    | None => skip
    | Some (ali, horde) => start_rated q bgTypeId bracket_id arenaType ali horde
    end
  end.

(** A new match for the groups in the pools. *)
Definition start_pools (q bgTypeId bracket_id arenaType : Z) : BW bool :=
  id ← CreateNewBattleground bgTypeId bracket_id arenaType false;
  match id with
  | None => mret false
  | Some id => _ ← invite_pools q id; _ ← StartBattleground id; mret true
  end.
Definition update_unrated (q bgTypeId bracket_id arenaType : Z) (template : Battleground) (minPlayers maxPlayers : Z) : BW unit :=
  ok ← CheckNormalMatch q template bracket_id minPlayers maxPlayers;
  ok ← (if ok : bool then mret true
        else if m_IsArena template then CheckSkirmishForSameFaction q bracket_id minPlayers else mret false);
  if ok : bool then _ ← start_pools q bgTypeId bracket_id arenaType; skip else skip.

Definition BattlegroundQueueUpdate (q bgTypeId bracket_id arenaType : Z) (isRated : bool) (arenaRating : Z) : BW unit :=
  Q ← queue_at q; w ← get;
  if queue_empty Q bracket_id then skip
  else
    _ ← for_each (free_slot_queue w bgTypeId) (fill_one q bgTypeId bracket_id);
    match GetBattlegroundTemplate w bgTypeId with
    | None => skip
    | Some t =>
      if negb (GetBattlegroundBracketById (m_MapId t) bracket_id) then skip
      else
        let max := if m_IsArena t then arenaType else m_MaxPlayersPerTeam t in
        let min := if m_IsArena t then (if isArenaTesting then 1 else arenaType)
                   else if isTesting then 1 else m_MinPlayersPerTeam t in
        if negb (m_IsArena t || isRated) then lift AssertFail
        else
          _ ← set_pools q no_pools;
          go ← (if isBattleground t then
                  premade ← CheckPremadeMatch q bracket_id min max;
                  if premade : bool then
                    ok ← start_pools q bgTypeId bracket_id 0;
                    _ ← when ok (set_pools q no_pools); mret ok
                  else mret true
                else mret true);
          if negb go then skip
          else if negb isRated then update_unrated q bgTypeId bracket_id arenaType t min max
          else when (m_IsArena t) (update_rated q bgTypeId bracket_id arenaType arenaRating)
    end.

(** ** Battlegrounds *)

Definition waiting_for (w : World) (bgTypeId a : Z) : bool := negb (invited (group_of w a)) && (BgTypeId (group_of w a) =? bgTypeId).
(** The groups of the mixed list that wait for the type. *)
Definition candidates (q bgTypeId bracket_id : Z) : BW (list GroupView) :=
  w ← get; Q ← queue_at q;
  _ ← alive (queued Q bracket_id BG_QUEUE_MIXED);
  lift (view_groups w q (filter (λ a, waiting_for w bgTypeId a = true) (queued Q bracket_id BG_QUEUE_MIXED))).
Definition propose (q id : Z) (groups : list GroupView) : BW unit :=
  b ← bg_at id; w ← get;
  '(base, best) ← lift (FindProposal (mmData b) (getMSTime w) groups);
  _ ← upd_bg id (λ b, set_mmData b (set_timestamp (mmData b) (getMSTime w)));
  StartProposal q id base best.
Definition refill (q bgTypeId bracket_id id : Z) : BW unit :=
  b ← bg_at id;
  if fillable b bgTypeId bracket_id then
    groups ← candidates q bgTypeId bracket_id;
    _ ← propose q id groups;
    b ← bg_at id;
    when (negb (HasFreeSlots b)) (RemoveFromBGFreeSlotQueue id)
  else skip.
(** Players waiting for the type: all, and those that could play on each side. *)
Definition count_waiting (w : World) (l : list Z) (bgTypeId : Z) : Z * teams Z :=
  foldl (λ acc a,
    let '(n, t) := acc in
    if waiting_for w bgTypeId a then
      let size := size_of w a in
      let mine := if Team (group_of w a) =? ALLIANCE then TEAM_ALLIANCE else TEAM_HORDE in
      let t := on_team t mine (λ k, u32 (k + size)) in
      (u32 (n + size), if BATTLEGROUND_CROSSFACTION_ENABLED then on_team t (1 - mine) (λ k, u32 (k + size)) else t)
    else acc) (0, both 0) l.
Definition BattlegroundMatchmaking (q bgTypeId bracket_id : Z) : BW bool :=
  w ← get;
  _ ← for_each (free_slot_queue w bgTypeId) (refill q bgTypeId bracket_id);
  w ← get;
  match GetBattlegroundTemplate w bgTypeId with
  | None => mret false
  | Some t =>
    if negb (GetBattlegroundBracketById (m_MapId t) bracket_id) then mret false
    else
      Q ← queue_at q;
      _ ← alive (queued Q bracket_id BG_QUEUE_MIXED);
      let '(n, per) := count_waiting w (queued Q bracket_id BG_QUEUE_MIXED) bgTypeId in
      let minPerTeam := if isTesting then 0 else m_MinPlayersPerTeam t in
      let minPlayers := if isTesting then 1 else m_MinPlayers t in
      if (n <? minPlayers) || (per.1 <? minPerTeam) || (per.2 <? minPerTeam) then mret false
      else
        id ← CreateNewBattleground bgTypeId bracket_id 0 false;
        match id with
        | None => mret false
        | Some id =>
          groups ← candidates q bgTypeId bracket_id;
          _ ← propose q id groups;
          _ ← StartBattleground id;
          mret true
        end
  end.

(** ** Arenas of single players *)

(** Everybody in a group whose number is below 2, whether it plays (0, 1) or was not
    assigned (-1). *)
Definition StoreRecentOpponents (base : list GroupView) (p : Proposal) (w : World) : World :=
  let groups := imap (λ i x, (i, x)) (zip base (assigment p)) in
  foldl (λ w '(i, (g, team)),
    if BG_TEAMS_COUNT <=? team then w
    else foldl (λ w player,
      foldl (λ w '(j, (g', team')),
        if bool_decide (i = j) || (BG_TEAMS_COUNT <=? team') then w
        else foldl (λ w other,
          if team' =? team then set_recentAllies w (<[(player, other) := getMSTime w]> (recentAllies w))
          else set_recentOpponents w (<[(player, other) := getMSTime w]> (recentOpponents w))) w (v_players g').*1)
        w groups) w (v_players g).*1) w groups.
Definition ArenaMatchmaking (q bracket_id : Z) : BW unit :=
  w ← get;
  match GetBattlegroundTemplate w BATTLEGROUND_AA with
  | None => skip
  | Some t =>
    if negb (GetBattlegroundBracketById (m_MapId t) bracket_id) then skip
    else
      Q ← queue_at q;
      _ ← alive (queued Q bracket_id BG_QUEUE_MIXED);
      groups ← lift (view_groups w q
        (filter (λ a, invited (group_of w a) = false) (queued Q bracket_id BG_QUEUE_MIXED)));
      match groups with
      | [] => skip
      | _ =>
        '(base, best) ← lift (ArenaFindProposal ARENA_TYPE_3v3 w groups);
        good ← lift (if f64_ltb (f64_lit 1 2) (quality best) then Ok true
                     else if isArenaTesting then HasPlayersAssignedToBothTeams best else Ok false);
        if negb good then skip
        else
          id ← CreateNewBattleground BATTLEGROUND_AA bracket_id ARENA_TYPE_3v3 true;
          match id with
          | None => skip
          | Some id =>
            _ ← StartProposal q id base best;
            _ ← modify (StoreRecentOpponents base best);
            StartBattleground id
          end
      end
  end.

(** ** The events of invitations *)

Definition Execute (e : QueueEvent) : BW unit :=
  w ← get;
  match e with
  | BGQueueInviteEvent guid id type arena removeTime =>
    match players w !! guid, GetBattleground w id type with
    | Some p, Some b =>
      let queue := BGQueueTypeId w (m_TypeID b) (m_ArenaType b) 0 in
      if InBattlegroundQueueForBattlegroundQueueType p queue then
        yes ← lift (IsPlayerInvited w queue guid id removeTime);
        when yes (send guid (SMSG_BATTLEFIELD_STATUS (Z.of_nat (GetBattlegroundQueueIndex p queue)) STATUS_WAIT_JOIN
          (INVITE_ACCEPT_WAIT_TIME - INVITATION_REMIND_TIME) 0 arena 0))
      else skip
    | _, _ => skip
    end
  | BGQueueRemoveEvent guid id type queue removeTime =>
    match players w !! guid with
    | None => skip
    | Some p =>
      if InBattlegroundQueueForBattlegroundQueueType p queue then
        yes ← lift (IsPlayerInvited w queue guid id removeTime);
        if yes : bool then
          _ ← upd_player guid (λ p, RemoveBattlegroundQueueId p queue);
          _ ← RemovePlayer queue guid true;
          _ ← match GetBattleground w id type with
              | Some b => when (isBattleground b && negb (m_Status b =? STATUS_WAIT_LEAVE))
                            (ScheduleQueueUpdate 0 0 queue type (m_BracketId b))
              | None => skip
              end;
          send guid (SMSG_BATTLEFIELD_STATUS (Z.of_nat (GetBattlegroundQueueIndex p queue)) STATUS_NONE 0 0 0 0)
        else skip
      else skip
    end
  end.
(** The due events, each taken out before it runs; none of them adds another. *)
Fixpoint run_events (q now : Z) (events : list (Z * QueueEvent)) : BW unit :=
  match events with
  | [] => skip
  | (time, e) :: events =>
    if time <=? now then
      _ ← upd_queue q (λ Q, set_m_events Q events);
      _ ← Execute e;
      run_events q now events
    else skip
  end.
Definition UpdateEvents (q diff : Z) : BW unit :=
  _ ← upd_queue q (λ Q, set_m_time Q (u64 (m_time Q + diff)));
  Q ← queue_at q;
  run_events q (m_time Q) (m_events Q).

(** ** BattlegroundMgr::Update, the queues *)

Definition is_bg_type (type : Z) : bool :=
  existsb (Z.eqb type) [BATTLEGROUND_RB; BATTLEGROUND_AV; BATTLEGROUND_WS; BATTLEGROUND_AB; BATTLEGROUND_EY; BATTLEGROUND_SA; BATTLEGROUND_IC].
Definition run_scheduled (id : Z) : BW unit :=
  let mmr := Z.shiftr id 32 in
  let arenaType := Z.land (Z.shiftr id 24) 255 in
  let queue := Z.land (Z.shiftr id 16) 255 in
  let type := Z.land (Z.shiftr id 8) 255 in
  let bracket := Z.land id 255 in
  if type =? BATTLEGROUND_AA then BattlegroundQueueUpdate queue type bracket arenaType (0 <? mmr) mmr
  else if is_bg_type type then _ ← BattlegroundMatchmaking queue type bracket; skip
  else skip.
(** The index is a uint8: with more than 255 entries the loop does not end. *)
Definition run_all_scheduled (l : list Z) : BW unit :=
  if 255 <? Z.of_nat (length l) then lift OutOfFuel else for_each l run_scheduled.
Definition force_update : BW unit :=
  _ ← ArenaMatchmaking BATTLEGROUND_QUEUE_SOLO_ARENA BG_BRACKET_ID_LVL_80_SOLOQUEUE;
  for_each [BATTLEGROUND_QUEUE_2v2; BATTLEGROUND_QUEUE_3v3; BATTLEGROUND_QUEUE_5v5] (λ q,
    for_each (seqZ 0 MAX_BATTLEGROUND_BRACKETS) (λ bracket,
      BattlegroundQueueUpdate q BATTLEGROUND_AA bracket (BGArenaType q) true 0)).
Definition UpdateQueues (diff : Z) : BW unit :=
  _ ← for_each (seqZ 0 13) (λ q, UpdateEvents q diff);
  w ← get;
  _ ← modify (λ w, set_m_QueueUpdateScheduler w []);
  _ ← run_all_scheduled (m_QueueUpdateScheduler w);
  w ← get;
  if m_NextRatedArenaUpdate w <? diff
  then _ ← force_update; modify (λ w, set_m_NextRatedArenaUpdate w CONFIG_ARENA_RATED_UPDATE_TIMER)
  else modify (λ w, set_m_NextRatedArenaUpdate w (m_NextRatedArenaUpdate w - diff)).

End update.
End BgUpdate.
