(* ===== verification/BgHandlers.v ===== *)
(** * Requests about battlegrounds
    ([src/server/game/Handlers/BattleGroundHandler.cpp], [Groups/Group.cpp],
    [Battlegrounds/MatchmakingArena.cpp], [Battlegrounds/Battleground.cpp],
    [Server/WorldSession.cpp])

    Joining as a player or a group, accepting and declining an invitation, entering and
    leaving a battleground, log-out, and the histories of all of these. *)
From S2P Require Import Prelude StateMonad Multimap Timers Float32 Float64 BgData BgMatchmaking BgObjects BgQueue BgUpdate.

Module BgHandlers.
Export BgUpdate.

Definition ERR_GROUP_JOIN_BATTLEGROUND_FAIL : Z := 0.
Definition ERR_BATTLEGROUND_NONE : Z := -1.
Definition ERR_GROUP_JOIN_BATTLEGROUND_DESERTERS : Z := -2.
Definition ERR_ARENA_TEAM_PARTY_SIZE : Z := -3.
Definition ERR_BATTLEGROUND_TOO_MANY_QUEUES : Z := -4.
Definition ERR_BATTLEGROUND_JOIN_RANGE_INDEX : Z := -10.
Definition ERR_BATTLEGROUND_JOIN_TIMED_OUT : Z := -11.
Definition ERR_BATTLEGROUND_JOIN_FAILED : Z := -12.
Definition ERR_LFG_CANT_USE_BATTLEGROUND : Z := -13.
Definition ERR_IN_RANDOM_BG : Z := -14.
Definition ERR_IN_NON_RANDOM_BG : Z := -15.

Section handlers.
Context `{BE : BgEnv}.

(** ** Joining as a group *)

(** The checks of one member; positive: none failed. *)
Definition member_error (w : World) (b : Battleground) (queue bracket team arenaTeamId : Z) (isRated : bool) (arenaSlot guid : Z) : option Z :=
  match players w !! guid with
  | None => Some ERR_BATTLEGROUND_JOIN_FAILED
  | Some p =>
    if negb (GetTeam w p =? team) then Some ERR_BATTLEGROUND_JOIN_TIMED_OUT
    else if negb (bool_decide (GetBattlegroundBracketByLevel (m_MapId b) (getLevel p) = Some bracket)) then Some ERR_BATTLEGROUND_JOIN_RANGE_INDEX
    else if isRated && negb (GetArenaTeamId p arenaSlot =? arenaTeamId) then Some ERR_BATTLEGROUND_JOIN_FAILED
    else if InBattlegroundQueueForBattlegroundQueueType p queue then Some ERR_BATTLEGROUND_JOIN_FAILED
    else if InBattlegroundQueueForBattlegroundQueueType p (BGQueueTypeId w BATTLEGROUND_RB 0 0) then Some ERR_IN_RANDOM_BG
    else if (m_TypeID b =? BATTLEGROUND_RB) && InBattlegroundQueue p then Some ERR_IN_NON_RANDOM_BG
    else if negb (m_TypeID b =? BATTLEGROUND_AA) && negb (CanJoinToBattleground p (m_TypeID b)) then Some ERR_GROUP_JOIN_BATTLEGROUND_DESERTERS
    else if negb (HasFreeBattlegroundQueueId p) then Some ERR_BATTLEGROUND_TOO_MANY_QUEUES
    else if isUsingLfg p then Some ERR_LFG_CANT_USE_BATTLEGROUND
    else if frozen p then Some ERR_BATTLEGROUND_JOIN_FAILED
    else None
  end.
Fixpoint first_error (errors : list (option Z)) : option Z :=
  match errors with [] => None | Some e :: _ => Some e | None :: errors => first_error errors end.
Definition CanJoinBattlegroundQueue (w : World) (grp : BgGroup) (b : Battleground) (queue MinPlayerCount : Z) (isRated : bool) (arenaSlot : Z) : outcome Z :=
  if isLFGGroup grp then Ok ERR_LFG_CANT_USE_BATTLEGROUND
  else match maxGroupSize (m_TypeID b) with
  | None => Ok ERR_GROUP_JOIN_BATTLEGROUND_FAIL
  | Some max =>
    if max <? GetMembersCount grp then Ok ERR_BATTLEGROUND_NONE
    else match head (members grp) with
    | None => BadPtr
    | Some first =>
      match players w !! first with
      | None => Ok ERR_BATTLEGROUND_JOIN_FAILED
      | Some reference =>
        match GetBattlegroundBracketByLevel (m_MapId b) (getLevel reference) with
        | None => Ok ERR_BATTLEGROUND_JOIN_FAILED
        | Some bracket =>
          match first_error (member_error w b queue bracket (GetTeam w reference) (GetArenaTeamId reference arenaSlot) isRated arenaSlot <$> members grp) with
          | Some e => Ok e
          | None =>
            if m_IsArena b && negb (Z.of_nat (length (members grp)) =? MinPlayerCount) then Ok ERR_ARENA_TEAM_PARTY_SIZE
            else Ok (m_TypeID b)
          end
        end
      end
    end
  end.

(** A player takes a slot for the queue and is told that he waits. *)
Definition take_slot (guid queue avgTime arenaType : Z) : BW unit :=
  p ← player_at guid;
  let p' := AddBattlegroundQueueId p queue in
  _ ← upd_player guid (λ _, p');
  send guid (SMSG_BATTLEFIELD_STATUS (Z.of_nat (GetBattlegroundQueueIndex p' queue)) STATUS_WAIT_QUEUE avgTime 0 arenaType 0).
Definition join_answer (guid err queue avgTime arenaType : Z) : BW unit :=
  w ← get;
  match players w !! guid with
  | None => skip
  | Some _ =>
    if err <=? 0 then send guid (SMSG_GROUP_JOINED_BATTLEGROUND err)
    else _ ← take_slot guid queue avgTime arenaType; send guid (SMSG_GROUP_JOINED_BATTLEGROUND err)
  end.
(** The average waiting time that is shown to whoever joins. *)
Definition average_wait (q a bracket : Z) : BW Z :=
  Q ← queue_at q; g ← group_at a; mret (GetAverageQueueWaitTime Q g bracket).

(** [instance]: the battleground of the client's instance id, if there is one. *)
Definition HandleBattlemasterJoinOpcode (s bgTypeId : Z) (instance : option Z) (joinAsGroup : bool) : BW unit :=
  w ← get; p ← player_at s;
  if negb (bool_decide (is_Some (maxGroupSize bgTypeId))) || IsDisabledFor bgTypeId then skip
  else if InBattleground p then skip
  else
    let queue := BGQueueTypeId w bgTypeId 0 0 in
    let queueRandom := BGQueueTypeId w BATTLEGROUND_RB 0 0 in
    let bg := match instance with
              | Some id => match GetBattleground w id bgTypeId with Some b => Some b | None => GetBattlegroundTemplate w bgTypeId end
              | None => GetBattlegroundTemplate w bgTypeId
              end in
    match bg with
    | None => skip
    | Some b =>
      match GetBattlegroundBracketByLevel (m_MapId b) (getLevel p) with
      | None => skip
      | Some bracket =>
        let update := ScheduleQueueUpdate 0 0 queue bgTypeId bracket in
        if negb joinAsGroup then
          if negb (CanJoinToBattleground p (m_TypeID b)) then send s (SMSG_GROUP_JOINED_BATTLEGROUND ERR_GROUP_JOIN_BATTLEGROUND_DESERTERS)
          else if InBattlegroundQueueForBattlegroundQueueType p queueRandom then send s (SMSG_GROUP_JOINED_BATTLEGROUND ERR_IN_RANDOM_BG)
          else if InBattlegroundQueue p && (bgTypeId =? BATTLEGROUND_RB) then send s (SMSG_GROUP_JOINED_BATTLEGROUND ERR_IN_NON_RANDOM_BG)
          else if InBattlegroundQueueForBattlegroundQueueType p queue then skip
          else if negb (HasFreeBattlegroundQueueId p) then send s (SMSG_GROUP_JOINED_BATTLEGROUND ERR_BATTLEGROUND_TOO_MANY_QUEUES)
          else if frozen p then skip
          else
            a ← AddGroup queue s None bgTypeId bracket 0 false false 0 0 0 false;
            avgTime ← average_wait queue a bracket;
            _ ← take_slot s queue avgTime 0;
            update
        else
          match GetGroup p with
          | None => skip
          | Some grp =>
            if negb (GetLeaderGUID grp =? s) then skip
            else
              err ← lift (CanJoinBattlegroundQueue w grp b queue 0 false 0);
              let isPremade := m_MinPlayersPerTeam b <=? GetMembersCount grp in
              avgTime ← (if 0 <? err then
                           a ← AddGroup queue s (Some grp) bgTypeId bracket 0 false isPremade 0 0 0 false;
                           average_wait queue a bracket
                         else mret 0);
              _ ← for_each (members grp) (λ m, join_answer m err queue avgTime 0);
              update
          end
      end
    end.

(** ** Joining arenas *)

Definition arena_of_slot (arenaslot : Z) : option Z :=
  if arenaslot =? 0 then Some ARENA_TYPE_2v2
  else if arenaslot =? 1 then Some ARENA_TYPE_3v3
  else if arenaslot =? 2 then Some ARENA_TYPE_5v5 else None.
(** Rating of the team, and of its members in the group; the composite type is unsigned, so
    the minimum is never asked for. *)
Definition team_ratings (ateamId : Z) (grp : option BgGroup) : option (Z * Z) :=
  r ← ArenaTeam_rating ateamId;
  let mmr := ArenaTeam_mmr ateamId grp (if CONFIG_ARENA_MMR_COMPOSITE_TYPE =? 0 then 0 else 1) in
  Some (if r <=? 0 then 1 else r, mmr).
Definition SetTemplateRated (isRated : bool) : BW unit :=
  modify (λ w, set_templates w (alter (λ t, set_m_IsRated t isRated) BATTLEGROUND_AA (templates w))).

(** [near]: is the player close to a battlemaster? *)
Definition HandleBattlemasterJoinArena (s : Z) (near : bool) (arenaslot : Z) (asGroup isRated : bool) : BW unit :=
  w ← get; p ← player_at s;
  if InBattleground p || negb near || (isRated && negb event_107) then skip
  else match arena_of_slot arenaslot, GetBattlegroundTemplate w BATTLEGROUND_AA with
  | Some arenatype, Some b =>
    if IsDisabledFor BATTLEGROUND_AA then skip
    else
      let queue := BGQueueTypeId w (m_TypeID b) arenatype 0 in
      match GetBattlegroundBracketByLevel (m_MapId b) (getLevel p) with
      | None => skip
      | Some bracket =>
        let refused :=
          if negb asGroup then InBattlegroundQueueForBattlegroundQueueType p queue || negb (HasFreeBattlegroundQueueId p)
          else match GetGroup p with None => true | Some grp => negb (GetLeaderGUID grp =? s) end in
        if refused then skip
        else
          let grp := if asGroup then GetGroup p else None in
          err ← lift (match grp with
                      | Some grp => CanJoinBattlegroundQueue w grp b queue arenatype isRated arenaslot
                      | None => Ok ERR_GROUP_JOIN_BATTLEGROUND_FAIL
                      end);
          let ateamId := if isRated then GetArenaTeamId p arenaslot else 0 in
          match (if isRated then team_ratings ateamId grp else Some (0, 0)) with
          | None => send s (SMSG_ARENA_ERROR arenatype)
          | Some (arenaRating, matchmakerRating) =>
            _ ← match grp with
                | Some grp =>
                  avgTime ← (if 0 <? err then
                               _ ← SetTemplateRated isRated;
                               a ← AddGroup queue s (Some grp) (m_TypeID b) bracket arenatype isRated false arenaRating matchmakerRating ateamId false;
                               average_wait queue a bracket
                             else mret 0);
                  for_each (members grp) (λ m, join_answer m err queue avgTime arenatype)
                | None =>
                  a ← AddGroup queue s None (m_TypeID b) bracket arenatype isRated false arenaRating matchmakerRating ateamId false;
                  avgTime ← average_wait queue a bracket;
                  take_slot s queue avgTime arenatype
                end;
            ScheduleQueueUpdate matchmakerRating arenatype queue (m_TypeID b) bracket
          end
      end
  | _, _ => skip
  end.

(** Player::JoinArenaSoloQueue: the queue of single players; the slot is that of 3v3. *)
Definition JoinArenaSoloQueue (s : Z) (rated : bool) : BW unit :=
  w ← get; p ← player_at s;
  if negb CONFIG_ARENA_SOLOQUEUE_ENABLED then skip
  else match GetBattlegroundTemplate w BATTLEGROUND_AA with
  | None => skip
  | Some b =>
    if IsDisabledFor BATTLEGROUND_AA || (rated && negb event_107) then skip
    else match GetBattlegroundBracketByLevel (m_MapId b) (getLevel p) with
    | None => skip
    | Some bracket =>
      _ ← SetTemplateRated rated;
      if bool_decide (GetGroup p ≠ None) || InBattlegroundQueueForBattlegroundQueueType p BATTLEGROUND_QUEUE_3v3 ||
         negb (HasFreeBattlegroundQueueId p)
      then skip
      else
        a ← AddGroup BATTLEGROUND_QUEUE_SOLO_ARENA s None BATTLEGROUND_AA bracket ARENA_TYPE_3v3 rated false
              (GetArenaRating p) (u32 (trunc_Z (arena_rating p))) 0 true;
        avgTime ← average_wait BATTLEGROUND_QUEUE_SOLO_ARENA a bracket;
        take_slot s BATTLEGROUND_QUEUE_3v3 avgTime ARENA_TYPE_3v3
    end
  end.

(** ** Entering and leaving *)

Definition GetPlayerTeam (b : Battleground) (guid : Z) : Z := default 0 (m_Players b !! guid).
(** [here]: is the player on the map of the battleground? *)
Definition leave_player (id guid : Z) (SendPacket : bool) (b : Battleground) : BW unit :=
  w ← get;
  let queue := BGQueueTypeId w (m_TypeID b) (m_ArenaType b) 0 in
  p ← player_at guid;
  _ ← when SendPacket (send guid (SMSG_BATTLEFIELD_STATUS (Z.of_nat (GetBattlegroundQueueIndex p queue)) STATUS_NONE 0 0 0 0));
  upd_player guid (λ p, RemoveBattlegroundQueueId p queue).
(** A rated match that is left while it runs is lost. *)
Definition leave_rated (here : bool) (guid team : Z) (b : Battleground) : BW unit :=
  if m_IsRated b && (m_Status b =? STATUS_IN_PROGRESS) then
    let mine := of_team (m_ArenaTeamIds b) (GetTeamIndexByTeamId team) in
    let other := if team =? ALLIANCE then HORDE else ALLIANCE in
    let theirs := of_team (m_ArenaTeamIds b) (GetTeamIndexByTeamId other) in
    if bool_decide (is_Some (ArenaTeam_rating mine) ∧ is_Some (ArenaTeam_rating theirs)) && (negb here || negb (mine =? theirs))
    then modify (λ w, set_lost w (lost w ++ [(mine, guid, of_team (m_ArenaTeamMMR b) (GetTeamIndexByTeamId other))]))
    else skip
  else skip.
Definition RemovePlayerAtLeave (id guid : Z) (here SendPacket : bool) : BW unit :=
  b ← bg_at id; w ← get;
  let team := GetPlayerTeam b guid in
  _ ← (if bool_decide (is_Some (m_Players b !! guid)) then
         _ ← upd_bg id (λ b, set_m_Players (UpdatePlayersCountByTeam b team true) (delete guid (m_Players b)));
         p ← (if here then p ← player_at guid; mret (Some p) else mret None);
         let team := if (team =? 0) && here then match p with Some p => GetTeam w p | None => team end else team in
         _ ← when (negb here || m_IsArena b) (leave_rated here guid team b);
         _ ← when here (leave_player id guid SendPacket b);
         _ ← upd_bg id (λ b, set_mmData (DecreaseInvitedCount b team) (RemovePlayerData (mmData b) guid));
         when (isBattleground b && (m_Status b <? STATUS_WAIT_LEAVE))
           (_ ← AddToBGFreeSlotQueue id;
            ScheduleQueueUpdate 0 0 (BGQueueTypeId w (m_TypeID b) (m_ArenaType b) 0) (m_TypeID b) (m_BracketId b))
       else skip);
  when here (upd_player guid (λ p, set_bgTeam (set_bgTypeID (set_bgInstanceID p 0) BATTLEGROUND_TYPE_NONE) 0)).

(** Battleground::AddPlayer, when an invited player arrives. *)
Definition AddPlayer (s : Z) : BW unit :=
  w ← get; p ← player_at s;
  match GetPlayerBattleground w p with
  | Some b =>
    if existsb (λ x, x.2 =? bgInstanceID p) (queue_ids p) then
      let team := GetTeam w p in
      upd_bg (bgInstanceID p) (λ b, UpdatePlayersCountByTeam (set_m_Players b (<[s := team]> (m_Players b))) team false)
    else skip
  | None => skip
  end.

Definition accept_invitation (s bgTypeId q slot : Z) (g : GroupQueueInfo) (b : Battleground) : BW unit :=
  p ← player_at s;
  if frozen p || negb (IsInvitedForBattlegroundQueueType p slot) then skip
  else
    _ ← send s (SMSG_BATTLEFIELD_STATUS (Z.of_nat (GetBattlegroundQueueIndex p slot)) STATUS_IN_PROGRESS 0 0 (m_ArenaType b) (Team g));
    _ ← RemovePlayer q s false;
    w ← get; p ← player_at s;
    _ ← match GetPlayerBattleground w p with
        | Some _ => RemovePlayerAtLeave (bgInstanceID p) s true true
        | None => skip
        end;
    upd_player s (λ p, set_bgTeam (set_bgTypeID (set_bgInstanceID p (m_InstanceID b)) bgTypeId) (Team g)).
(** The arena team whose member has lost is looked up by the side of the player. *)
Definition decline_invitation (s bgTypeId q slot bracket : Z) (g : GroupQueueInfo) (b : Battleground) : BW unit :=
  if m_IsArena b && (STATUS_WAIT_QUEUE <? m_Status b) then skip
  else
    p ← player_at s;
    _ ← when (IsRated g && invited g)
          match ArenaTeam_rating (Team g) with
          | Some _ => modify (λ w, set_lost w (lost w ++ [(Team g, s, OpponentsMatchmakerRating g)]))
          | None => skip
          end;
    _ ← upd_player s (λ p, RemoveBattlegroundQueueId p slot);
    _ ← RemovePlayer q s true;
    _ ← when (ArenaType g =? 0) (ScheduleQueueUpdate (ArenaMatchmakerRating g) (ArenaType g) slot bgTypeId bracket);
    send s (SMSG_BATTLEFIELD_STATUS (Z.of_nat (GetBattlegroundQueueIndex p slot)) STATUS_NONE 0 0 0 0).
Definition HandleBattleFieldPortOpcode (s type bgTypeId action : Z) : BW unit :=
  w ← get; p ← player_at s;
  if negb (bool_decide (is_Some (maxGroupSize bgTypeId))) || negb (InBattlegroundQueue p) then skip
  else
    let q := BGQueueTypeId w bgTypeId type s in
    g ← lift (GetPlayerGroupInfoData w q s);
    match g with
    | None => skip
    | Some g =>
      if negb (invited g) && (action =? 1) then skip
      else
        match (match GetBattleground w (IsInvitedToBGInstanceGUID g) bgTypeId with
               | Some b => Some b
               | None => if negb (action =? 0) then None else GetBattlegroundTemplate w bgTypeId
               end) with
        | None => skip
        | Some b =>
          match GetBattlegroundBracketByLevel (m_MapId b) (getLevel p) with
          | None => skip
          | Some bracket =>
            let check := (action =? 1) && (ArenaType g =? 0) in
            let deserter := check && negb (CanJoinToBattleground p (m_TypeID b)) in
            _ ← when deserter (send s (SMSG_GROUP_JOINED_BATTLEGROUND ERR_GROUP_JOIN_BATTLEGROUND_DESERTERS));
            let action := if deserter || (check && (m_LevelMax b <? getLevel p)) then 0 else action in
            let slot := if q =? BATTLEGROUND_QUEUE_SOLO_ARENA then BATTLEGROUND_QUEUE_3v3 else q in
            if negb (action =? 0) then accept_invitation s bgTypeId q slot g b
            else decline_invitation s bgTypeId q slot bracket g b
          end
        end
    end.

(** The queues at log-out; the dungeon finder does the same when a group is made. *)
Definition leave_queue (s : Z) (i : nat) : BW unit :=
  w ← get; p ← player_at s;
  let queue := GetBattlegroundQueueTypeId w s p i in
  if queue =? BATTLEGROUND_QUEUE_NONE then skip
  else _ ← upd_player s (λ p, RemoveBattlegroundQueueId p queue); RemovePlayer queue s true.
Definition leave_queues (s : Z) : BW unit := for_each (seq 0 PLAYER_MAX_BATTLEGROUND_QUEUES) (leave_queue s).
Definition LogoutPlayer (s : Z) : BW unit :=
  _ ← leave_queues s; modify (λ w, set_players w (delete s (players w))).

(** A battleground that is over: it is taken out of the store and destroyed. *)
Definition delete_battleground (id : Z) : BW unit :=
  b ← bg_at id;
  _ ← modify (λ w, set_stores w (<[m_TypeID b := store_of w (m_TypeID b) ∖ {[id]}]> (stores w)));
  _ ← RemoveFromBGFreeSlotQueue id;
  modify (λ w, set_battlegrounds w (delete id (battlegrounds w))).

(** ** Histories *)
Inductive request :=
| Join (s bgTypeId : Z) (instance : option Z) (asGroup : bool)
| JoinArena (s : Z) (near : bool) (arenaslot : Z) (asGroup isRated : bool)
| JoinSolo (s : Z) (rated : bool)
| Port (s type bgTypeId action : Z)
| Arrive (s : Z)
| Leave (id guid : Z) (here : bool)
| FoundDungeon (s : Z)
| Logout (s : Z)
| Login (s : Z) (p : Player)
| Status (id status : Z)
| Over (id : Z)
| Tick (gameTime msTime : Z)
| Draw (types : list Z)
| Update (diff : Z).
Definition run (r : request) : BW unit :=
  match r with
  | Join s type instance asGroup => HandleBattlemasterJoinOpcode s type instance asGroup
  | JoinArena s near slot asGroup isRated => HandleBattlemasterJoinArena s near slot asGroup isRated
  | JoinSolo s rated => JoinArenaSoloQueue s rated
  | Port s type bg action => HandleBattleFieldPortOpcode s type bg action
  | Arrive s => AddPlayer s
  | Leave id guid here => RemovePlayerAtLeave id guid here true
  | FoundDungeon s => leave_queues s
  | Logout s => LogoutPlayer s
  | Login s p => modify (λ w, set_players w (<[s := set_queue_ids p (replicate PLAYER_MAX_BATTLEGROUND_QUEUES (BATTLEGROUND_QUEUE_NONE, 0))]> (players w)))
  | Status id status => upd_bg id (λ b, set_m_Status b status)
  | Over id => delete_battleground id
  | Tick gameTime msTime => modify (λ w, set_getMSTime (set_GameTimeMS w gameTime) msTime)
  | Draw types => modify (λ w, set_random w types)
  | Update diff => UpdateQueues diff
  end.
Definition run_all (rs : list request) : BW unit := for_each rs run.
End handlers.
End BgHandlers.
