(* ===== verification/BgCapacity.v ===== *)
(** * Battlegrounds are never overfilled

    Outside of arenas, the players that were invited to a side of a battleground never
    outnumber its slots: whatever arrives, a proposal that is started fits. *)
From S2P Require Import Prelude StateMonad Multimap Timers Float32 Float64 BgData BgMatchmaking BgSearch BgQuality BgObjects BgQueue BgUpdate BgHandlers.

Module BgCapacity.
Export BgHandlers BgQuality.

Create HintDb bgcap discriminated.

Section capacity.
Context `{BE : BgEnv}.

(** The invited players of a side, and its slots. *)
Definition invited_players (b : Battleground) (team : Z) : Z := Z.of_nat (size (of_team (playerData (mmData b)) team)).
Definition room (b : Battleground) : Z := maxPlayersPerTeam (mmData b).
Definition fits (b : Battleground) : Prop := ∀ team, is_team team = true → invited_players b team ≤ room b.
(** Battlegrounds of [A] are arenas; the others fit; the copies of a template begin empty. *)
Record Inv (A : Z → Prop) (w : World) : Prop := {
  inv_arena : ∀ id b, battlegrounds w !! id = Some b → A id → m_TypeID b = BATTLEGROUND_AA;
  inv_fits : ∀ id b, battlegrounds w !! id = Some b → m_TypeID b ≠ BATTLEGROUND_AA → fits b;
  inv_templates : ∀ type t, templates w !! type = Some t → playerData (mmData t) = both ∅ ∧ 0 ≤ room t }.

(** ** The smallest steps *)
Notation calm A k := (keeps (kept (Inv A)) k).

Lemma modify_calm A f :
  (∀ w, battlegrounds (f w) = battlegrounds w ∧ templates (f w) = templates w) → calm A (modify f).
Proof. intros Hf w _ w' [_ ->]%modify_Ok [H1 H2 H3]. destruct (Hf w) as [Eb Et]. split; rewrite ?Eb, ?Et; done. Qed.
Lemma upd_queue_calm A q f : calm A (upd_queue q f).
Proof. by apply modify_calm. Qed.
Lemma send_calm A guid pkt : calm A (send guid pkt).
Proof. by apply modify_calm. Qed.
Lemma read_calm A {T} (f : World → outcome T) : calm A (w ← get; lift (f w)).
Proof. intros w a w' H. run_inv. done. Qed.
Lemma upd_group_calm A a f : calm A (upd_group a f).
Proof. apply keeps_bind; [apply _|apply read_calm|intros ?]. by apply modify_calm. Qed.
Lemma upd_player_calm A guid f : calm A (upd_player guid f).
Proof. apply keeps_bind; [apply _|apply read_calm|intros ?]. by apply modify_calm. Qed.
Lemma queue_at_calm A q : calm A (queue_at q).
Proof. apply keeps_bind; [apply _|apply keeps_get, _|intros ?; apply keeps_ret, _]. Qed.

(** A change of a battleground that adds no player, or one of an arena. *)
Definition adds_nobody (f : Battleground → Battleground) : Prop :=
  ∀ b, m_TypeID (f b) = m_TypeID b ∧ room (f b) = room b ∧ ∀ team, is_team team = true → invited_players (f b) team ≤ invited_players b team.
Lemma set_bg_inv (A : Z → Prop) w id b b' :
  battlegrounds w !! id = Some b → m_TypeID b' = m_TypeID b → (m_TypeID b ≠ BATTLEGROUND_AA → fits b') →
  Inv A w → Inv A (set_battlegrounds w (<[id := b']> (battlegrounds w))).
Proof.
  intros Hb Ht Hf [H1 H2 H3]. split; cbn; [| |done]; intros i x;
    (destruct (decide (id = i)) as [<-|Hi]; [rewrite lookup_insert_eq; intros [= <-]|rewrite lookup_insert_ne by done]); eauto.
  - rewrite Ht. eauto.
  - rewrite Ht. done.
Qed.
Lemma bg_at_Ok id w b w' : bg_at id w = Ok (b, w') → w' = w ∧ battlegrounds w !! id = Some b.
Proof. unfold bg_at. intros H. run_inv. destruct (battlegrounds w !! id); [|done]. by simplify_eq/=. Qed.
Lemma upd_bg_Ok id f w u w' :
  upd_bg id f w = Ok (u, w') →
  ∃ b, battlegrounds w !! id = Some b ∧ w' = set_battlegrounds w (<[id := f b]> (battlegrounds w)).
Proof. intros H. unfold upd_bg in H. run_inv. apply bg_at_Ok in E as [-> E]. eauto. Qed.
Lemma upd_bg_calm A id f : adds_nobody f → calm A (upd_bg id f).
Proof.
  intros Hf w _ w' (b & Hb & ->)%upd_bg_Ok Hi. destruct (Hf b) as (Ht & Hr & Hp). eapply set_bg_inv; [done|done| |done].
  intros Hn team Hteam. rewrite Hr. etransitivity; [by apply Hp|]. by eapply inv_fits.
Qed.
Lemma upd_arena_calm (A : Z → Prop) id f : A id → (∀ b, m_TypeID (f b) = m_TypeID b) → calm A (upd_bg id f).
Proof.
  intros HA Hf w _ w' (b & Hb & ->)%upd_bg_Ok Hi. eapply set_bg_inv; [done|done| |done].
  intros Hn. by destruct Hn; eapply inv_arena.
Qed.
Lemma bg_at_calm A id : calm A (bg_at id).
Proof. apply read_calm. Qed.

(** ** Operations that add no player *)
#[local] Ltac adds_tac :=
  let b := fresh in intros b; split_and!; [done..|]; intros; reflexivity.
#[local] Ltac calm_leaf :=
  idtac; first
    [ match goal with
      | |- calm _ (upd_queue _ _) => apply upd_queue_calm
      | |- calm _ (send _ _) => apply send_calm
      | |- calm _ (upd_group _ _) => apply upd_group_calm
      | |- calm _ (group_at _) => apply read_calm
      | |- calm _ (upd_player _ _) => apply upd_player_calm
      | |- calm _ (player_at _) => apply read_calm
      | |- calm _ (bg_at _) => apply read_calm
      | |- calm _ (queue_at _) => apply queue_at_calm
      | |- calm _ (alive _) => apply read_calm
      | |- calm _ (modify _) => by apply modify_calm
      | |- calm _ (upd_bg _ _) => apply upd_bg_calm; by adds_tac
      end
    | solve [eauto with bgcap] ].
#[local] Ltac calm := repeat keeps_step calm_leaf.

Lemma AddToBGFreeSlotQueue_calm A id : calm A (AddToBGFreeSlotQueue id).
Proof. unfold AddToBGFreeSlotQueue. calm. Qed.
Lemma RemoveFromBGFreeSlotQueue_calm A id : calm A (RemoveFromBGFreeSlotQueue id).
Proof. unfold RemoveFromBGFreeSlotQueue. calm. Qed.
Hint Resolve AddToBGFreeSlotQueue_calm RemoveFromBGFreeSlotQueue_calm : bgcap.
Lemma StartBattleground_calm A id : calm A (StartBattleground id).
Proof. unfold StartBattleground. calm. Qed.
Lemma ScheduleQueueUpdate_calm A a b c d e : calm A (ScheduleQueueUpdate a b c d e).
Proof. apply modify_calm. intros w. by case_match. Qed.
Hint Resolve StartBattleground_calm ScheduleQueueUpdate_calm : bgcap.

Lemma size_RemovePlayerDataFrom d guid t team :
  (size (of_team (playerData (RemovePlayerDataFrom d guid t)) team) ≤ size (of_team (playerData d) team))%nat ∧
  maxPlayersPerTeam (RemovePlayerDataFrom d guid t) = maxPlayersPerTeam d.
Proof.
  unfold RemovePlayerDataFrom. case_match; [|done]. split; [|done]. cbn. unfold of_team, on_team.
  destruct (t =? TEAM_ALLIANCE), (team =? TEAM_ALLIANCE); cbn; try done; rewrite map_size_delete; (match goal with |- context [match ?x with Some _ => _ | None => _ end] => destruct x end; [apply Nat.le_pred_l|done]).
Qed.
Lemma RemovePlayerData_adds_nobody guid team (f : Battleground → Battleground) :
  (∀ b, mmData (f b) = mmData b ∧ m_TypeID (f b) = m_TypeID b) →
  adds_nobody (λ b, set_mmData (DecreaseInvitedCount (f b) team) (RemovePlayerData (mmData b) guid)).
Proof.
  intros Hf b. destruct (Hf b) as [Hd Ht]. unfold RemovePlayerData, room, invited_players. cbn.
  split_and!.
  - rewrite <- Ht. unfold DecreaseInvitedCount. by case_bool.
  - by rewrite !(proj2 (size_RemovePlayerDataFrom _ _ _ TEAM_ALLIANCE)).
  - intros t _. pose proof (size_RemovePlayerDataFrom (RemovePlayerDataFrom (mmData b) guid TEAM_ALLIANCE) guid TEAM_HORDE t).
    pose proof (size_RemovePlayerDataFrom (mmData b) guid TEAM_ALLIANCE t). lia.
Qed.
Lemma uncount_calm A guid g : calm A (uncount guid g).
Proof. unfold uncount. calm. apply upd_bg_calm. by apply (RemovePlayerData_adds_nobody _ _ (λ b, b)). Qed.
Lemma member_lost_calm A guid g : calm A (member_lost guid g).
Proof. unfold member_lost. calm. Qed.
Lemma send_away_calm A guid g : calm A (send_away guid g).
Proof. unfold send_away. calm. Qed.
Hint Resolve uncount_calm member_lost_calm send_away_calm : bgcap.
Lemma remove_one_calm A q guid d : calm A (remove_one q guid d).
Proof. unfold remove_one. calm. Qed.
Hint Resolve remove_one_calm : bgcap.
Lemma remove_all_calm A fuel q guid d : calm A (remove_all fuel q guid d).
Proof. revert guid. induction fuel; intros guid; cbn [remove_all]; calm; done. Qed.
Hint Resolve remove_all_calm : bgcap.
Lemma RemovePlayer_calm A q guid d : calm A (RemovePlayer q guid d).
Proof. unfold RemovePlayer. calm. Qed.
Hint Resolve RemovePlayer_calm : bgcap.

(** ** Joining, leaving and the events *)
Lemma AddGroup_calm A q s grp a b c d e f g h i : calm A (AddGroup q s grp a b c d e f g h i).
Proof. unfold AddGroup. calm. Qed.
Lemma Execute_calm A e : calm A (Execute e).
Proof. unfold Execute. calm. Qed.
Hint Resolve AddGroup_calm Execute_calm : bgcap.
Lemma run_events_calm A q now l : calm A (run_events q now l).
Proof. induction l as [|[t e] l IH]; cbn [run_events]; calm. Qed.
Hint Resolve run_events_calm : bgcap.
Lemma UpdateEvents_calm A q diff : calm A (UpdateEvents q diff).
Proof. unfold UpdateEvents. calm. Qed.
Hint Resolve UpdateEvents_calm : bgcap.

(** ** The lists and pools of the older queues *)
Lemma set_pools_calm A q p : calm A (set_pools q p).
Proof. unfold set_pools. calm. Qed.
Hint Resolve set_pools_calm : bgcap.
Lemma FillPlayersToBG_calm A q id br : calm A (FillPlayersToBG q id br).
Proof. unfold FillPlayersToBG. calm. Qed.
Lemma premade_to_normal_calm A q a b c d : calm A (premade_to_normal q a b c d).
Proof. unfold premade_to_normal. calm. Qed.
Hint Resolve FillPlayersToBG_calm premade_to_normal_calm : bgcap.
Lemma CheckPremadeMatch_calm A q a b c : calm A (CheckPremadeMatch q a b c).
Proof. unfold CheckPremadeMatch. calm. Qed.
Lemma CheckNormalMatch_calm A q t a b c : calm A (CheckNormalMatch q t a b c).
Proof. unfold CheckNormalMatch. calm. Qed.
Lemma move_to_other_calm A q a b c d e f : calm A (move_to_other q a b c d e f).
Proof. unfold move_to_other. calm. Qed.
Hint Resolve CheckPremadeMatch_calm CheckNormalMatch_calm move_to_other_calm : bgcap.
Lemma CheckSkirmish_calm A q a b : calm A (CheckSkirmishForSameFaction q a b).
Proof. unfold CheckSkirmishForSameFaction. calm. Qed.
Lemma change_side_calm A q a b c d : calm A (change_side q a b c d).
Proof. unfold change_side. calm. Qed.
Hint Resolve CheckSkirmish_calm change_side_calm : bgcap.

(** ** Invitations to arenas *)
Lemma wait_time_calm A q br g : calm A (PlayerInvitedToBGUpdateAverageWaitTime q br g).
Proof. unfold PlayerInvitedToBGUpdateAverageWaitTime. calm. Qed.
Hint Resolve wait_time_calm : bgcap.
Lemma IncreaseInvitedCount_type b t : m_TypeID (IncreaseInvitedCount b t) = m_TypeID b.
Proof. unfold IncreaseInvitedCount. by case_bool. Qed.
Lemma invite_player_calm (A : Z → Prop) q a id qt side guid : A id → calm A (invite_player q a id qt side guid).
Proof.
  intros HA. unfold invite_player, AddEvent. calm. apply upd_arena_calm; [done|]. intros b.
  change (m_TypeID (IncreaseInvitedCount b (Team a1)) = m_TypeID b). apply IncreaseInvitedCount_type.
Qed.
Hint Resolve invite_player_calm : bgcap.
Lemma InviteGroupToBG_calm (A : Z → Prop) q a id side : A id → calm A (InviteGroupToBG q a id side).
Proof. intros HA. unfold InviteGroupToBG. calm. Qed.
Hint Resolve InviteGroupToBG_calm : bgcap.
Lemma invite_pools_calm (A : Z → Prop) q id : A id → calm A (invite_pools q id).
Proof. intros HA. unfold invite_pools, invite_pool. calm. Qed.
Lemma StartProposal_arena_calm (A : Z → Prop) q id base p : A id → calm A (StartProposal q id base p).
Proof. intros HA. unfold StartProposal. calm. Qed.
Hint Resolve invite_pools_calm StartProposal_arena_calm : bgcap.

(** ** Arenas *)
Definition none : Z → Prop := λ _, False.
Lemma inv_weaken (A : Z → Prop) w : Inv A w → Inv none w.
Proof. intros [_ H2 H3]. split; [by intros ? ? ? []|done|done]. Qed.

Lemma bg_at_bind_calm {B} id (k : Battleground → BW B) :
  (∀ b, m_TypeID b = BATTLEGROUND_AA → calm (eq id) (k b)) → (∀ b, m_TypeID b ≠ BATTLEGROUND_AA → calm none (k b)) →
  calm none (bg_at id ≫= k).
Proof.
  intros Ha Hn w a w' H Hi. apply bind_Ok in H as (b & w1 & [-> Hb]%bg_at_Ok & H).
  destruct (decide (m_TypeID b = BATTLEGROUND_AA)) as [E|E]; [|by eapply Hn].
  apply inv_weaken with (eq id). eapply Ha; [done|exact H|]. destruct Hi as [H1 H2 H3]. split; [|done|done].
  intros i b' Hb' <-. by simplify_eq.
Qed.
Lemma max_per_team_nonneg x : 0 ≤ max_per_team x.
Proof.
  unfold max_per_team. destruct (existsb _ _) eqn:E; [|done]. cbn in E. rewrite !orb_true_iff, !Z.eqb_eq in E.
  destruct E as [->|[->|[->|]]]; done.
Qed.
(** What is created: nothing, or a copy of a template. *)
Lemma create_Ok type br at' r w o w' :
  CreateNewBattleground type br at' r w = Ok (o, w') →
  templates w' = templates w ∧
  ((o = None ∧ battlegrounds w' = battlegrounds w) ∨
   ∃ id b ty t, o = Some id ∧ battlegrounds w' = <[id := b]> (battlegrounds w) ∧ m_TypeID b = type ∧
     templates w !! ty = Some t ∧ playerData (mmData b) = playerData (mmData t) ∧ (0 ≤ room t → 0 ≤ room b)).
Proof.
  intros H. unfold CreateNewBattleground in H. run_inv. rename m0 into w1.
  assert (battlegrounds w1 = battlegrounds w ∧ templates w1 = templates w) as [Eb Et].
  { revert E0. unfold when. destruct (_ || _); intros; by run_inv. }
  rewrite <- Eb, <- Et. clear E0. unfold GetBattlegroundTemplate in H. rewrite <- Et in H. clear Eb Et.
  destruct (templates w1 !! _) as [t|] eqn:Ht; [|run_inv; eauto].
  case_bool; [run_inv; eauto|]. apply bind_Ok in H as ([] & w2 & [_ ->]%modify_Ok & H).
  apply bind_Ok in H as (b & w3 & Eb & H). run_inv. cbn [battlegrounds templates set_battlegrounds].
  assert (m_TypeID b = type ∧ playerData (mmData b) = playerData (mmData t) ∧ (0 ≤ room t → 0 ≤ room b) ∧
          battlegrounds w3 = battlegrounds w1 ∧ templates w3 = templates w1) as (? & ? & ? & -> & ->);
    [clear Ht|split; [done|]; right; eexists _, b, _, t; by split_and!].
  revert Eb. cbn [m_IsArena]. destruct (m_IsArena t); intros Eb; run_inv; [|done].
  unfold SetConfig, assert_ in *. destruct (_ =? 0) in *; [|done]. simplify_eq. split_and!; try done.
  intros _. unfold room. cbn. apply Z.div_pos; [|lia]. pose proof (max_per_team_nonneg at'). lia.
Qed.

Lemma create_partial type br at' r :
  partial (Inv none) (CreateNewBattleground type br at' r) (λ o, Inv (λ i, type = BATTLEGROUND_AA ∧ o = Some i)).
Proof.
  intros w o w' [Ht [[-> Hb]|(id & b & ty & t & -> & Hb & Hty & Hl & Hd & Hr)]]%create_Ok [H1 H2 H3];
    (split; rewrite ?Ht, ?Hb; [| |done]); [by intros ? ? ? []|done| |]; intros i x;
    (destruct (decide (id = i)) as [<-|Hi]; [rewrite lookup_insert_eq; intros [= <-]|rewrite lookup_insert_ne by done]); eauto.
  - by intros [-> _].
  - intros ? [_ [= ->]]. done.
  - intros _ team _. destruct (H3 _ _ Hl) as [He H0]. unfold invited_players. rewrite Hd, He.
    unfold of_team, both. case_bool; cbn; rewrite map_size_empty; auto.
Qed.
Lemma create_bind_calm {B} br at' r (k : option Z → BW B) :
  calm none (k None) → (∀ id, calm (eq id) (k (Some id))) →
  calm none (CreateNewBattleground BATTLEGROUND_AA br at' r ≫= k).
Proof.
  intros Hn Hs w a w' H Hi. apply bind_Ok in H as (o & w1 & Hc & H).
  apply (create_partial _ _ _ _ _ _ _ Hc) in Hi as Hc'. destruct o as [id|].
  - apply inv_weaken with (eq id). eapply Hs; [exact H|]. destruct Hc' as [H1 H2 H3]. split; [|done|done].
    intros i b Hb <-. eapply H1; [exact Hb|done].
  - eapply Hn; [exact H|]. by apply inv_weaken in Hc'.
Qed.

Lemma fill_one_calm q br id : calm none (fill_one q BATTLEGROUND_AA br id).
Proof.
  unfold fill_one. apply bg_at_bind_calm; intros b Hb; [by calm|]. unfold fillable.
  rewrite (proj2 (Z.eqb_neq _ _)) by done. rewrite andb_false_r. cbn. apply keeps_skip, _.
Qed.
Lemma start_rated_calm q br at' x y : calm none (start_rated q BATTLEGROUND_AA br at' x y).
Proof. apply create_bind_calm; [apply keeps_skip, _|]. intros id. cbv beta iota. calm. Qed.
Lemma start_pools_calm q br at' : calm none (start_pools q BATTLEGROUND_AA br at').
Proof. apply create_bind_calm; [apply keeps_ret, _|]. intros id. cbv beta iota. calm. Qed.
Hint Resolve fill_one_calm start_rated_calm start_pools_calm : bgcap.
Lemma update_rated_calm q br at' r : calm none (update_rated q BATTLEGROUND_AA br at' r).
Proof. unfold update_rated. calm. Qed.
Lemma update_unrated_calm q br at' t a b : calm none (update_unrated q BATTLEGROUND_AA br at' t a b).
Proof. unfold update_unrated. calm. Qed.
Hint Resolve update_rated_calm update_unrated_calm : bgcap.
Lemma QueueUpdate_calm q br at' r mmr : calm none (BattlegroundQueueUpdate q BATTLEGROUND_AA br at' r mmr).
Proof. unfold BattlegroundQueueUpdate. calm. Qed.
Hint Resolve QueueUpdate_calm : bgcap.

(** ** A proposal is started *)

(** The side index of a player of a side. *)
Definition side_index (side : Z) : Z := if side =? HORDE then TEAM_HORDE else TEAM_ALLIANCE.
Definition sized (w : World) (g : GroupView) : Prop := ∀ gi, groups w !! v_group g = Some gi → players_size gi = v_size g.
(** There is room on side [t] for [n] players of the group that is invited, and for the
    groups that follow. *)
Record Slack (id t n : Z) (rest : list (GroupView * Z)) (w : World) : Prop := {
  slack_inv : Inv none w;
  slack_room : ∀ b, battlegrounds w !! id = Some b → m_TypeID b ≠ BATTLEGROUND_AA → ∀ team, is_team team = true →
    invited_players b team + (if t =? team then n else 0) + joining team rest ≤ room b;
  slack_sized : ∀ g t', (g, t') ∈ rest → sized w g }.
(** The group that is invited plays for the side. *)
Definition sided (a side : Z) (w : World) : Prop := ∀ gi, groups w !! a = Some gi → Team gi = side.
Definition Busy (id a side n : Z) (rest : list (GroupView * Z)) (w : World) : Prop :=
  Slack id (side_index side) n rest w ∧ sided a side w.
Notation busy id a side n rest k := (keeps (kept (Busy id a side n rest)) k).

Lemma slack_le id t n n' rest w : n' ≤ n → Slack id t n rest w → Slack id t n' rest w.
Proof.
  intros Hn [H1 H2 H3]. split; [done| |done]. intros b Hb Ht team Hteam. specialize (H2 b Hb Ht team Hteam).
  destruct (t =? team); lia.
Qed.
Lemma busy_same id a side n rest w w' :
  battlegrounds w' = battlegrounds w → templates w' = templates w → groups w' = groups w →
  Busy id a side n rest w → Busy id a side n rest w'.
Proof.
  intros Eb Et Eg [[[H1 H2 H3] H4 H5] Hs]. split; [split; [split|..]|]; unfold sized, sided in *; rewrite ?Eb, ?Et, ?Eg; done.
Qed.
Lemma modify_busy id a side n rest f :
  (∀ w, battlegrounds (f w) = battlegrounds w ∧ templates (f w) = templates w ∧ groups (f w) = groups w) →
  busy id a side n rest (modify f).
Proof. intros Hf w _ w' [_ ->]%modify_Ok. destruct (Hf w) as (? & ? & ?). intros ?. by apply (busy_same _ _ _ _ _ w). Qed.
Lemma bg_group_at_Ok a w g w' : group_at a w = Ok (g, w') → w' = w ∧ groups w !! a = Some g.
Proof. unfold group_at. intros H. run_inv. destruct (groups w !! a); [|done]. by simplify_eq/=. Qed.
Lemma bg_upd_group_Ok a f w u w' :
  upd_group a f w = Ok (u, w') → ∃ g, groups w !! a = Some g ∧ w' = set_groups w (<[a := f g]> (groups w)).
Proof. intros H. unfold upd_group in H. run_inv. apply bg_group_at_Ok in E as [-> E]. eauto. Qed.
Lemma sized_insert w a g f v :
  groups w !! a = Some g → Players (f g) = Players g → sized w v → sized (set_groups w (<[a := f g]> (groups w))) v.
Proof.
  intros Hg Hp Hs gi. cbn. destruct (decide (a = v_group v)) as [->|]; [|rewrite lookup_insert_ne by done; apply Hs].
  rewrite lookup_insert_eq. intros [= <-]. unfold players_size. rewrite Hp. by apply Hs.
Qed.
Lemma upd_group_slack id t n rest a f :
  (∀ g, Players (f g) = Players g) → keeps (kept (Slack id t n rest)) (upd_group a f).
Proof.
  intros Hf w _ w' (g & Hg & ->)%bg_upd_group_Ok [H1 H2 H3]. split; [by destruct H1|done|].
  intros v t' Hv. apply sized_insert; eauto.
Qed.
Lemma upd_group_busy id a side n rest f :
  (∀ g, Players (f g) = Players g ∧ Team (f g) = Team g) → busy id a side n rest (upd_group a f).
Proof.
  intros Hf w u w' H [Hs Ht]. split; [eapply upd_group_slack; [|exact H|done]; intros; apply Hf|].
  apply bg_upd_group_Ok in H as (g & Hg & ->). intros gi. cbn. rewrite lookup_insert_eq. intros [= <-].
  rewrite (proj2 (Hf g)). by apply Ht.
Qed.
Lemma upd_bg_slack id t n rest f : adds_nobody f → keeps (kept (Slack id t n rest)) (upd_bg id f).
Proof.
  intros Hf w u w' H [H1 H2 H3]. pose proof (upd_bg_calm _ id f Hf _ _ _ H H1) as H1'.
  apply upd_bg_Ok in H as (b & Hb & ->). split; [done| |done]. cbn. rewrite lookup_insert_eq. intros b' [= <-] Ht team Hteam.
  destruct (Hf b) as (Ef & Er & Ep). rewrite Er. specialize (Ep team Hteam). rewrite Ef in Ht. specialize (H2 b Hb Ht team Hteam). lia.
Qed.
Lemma upd_bg_busy id a side n rest f : adds_nobody f → busy id a side n rest (upd_bg id f).
Proof.
  intros Hf w u w' H [Hs Ht]. split; [by eapply upd_bg_slack|]. by apply upd_bg_Ok in H as (b & Hb & ->).
Qed.
(** A player takes one of the places. *)
Lemma size_AddPlayerData d guid p g team :
  Z.of_nat (size (of_team (playerData (AddPlayerData d guid p g)) team)) ≤
  Z.of_nat (size (of_team (playerData d) team)) + (if side_index (Team g) =? team then 1 else 0) ∨ is_team team = false.
Proof.
  destruct (is_team team) eqn:E; [left|by right]. unfold is_team, BG_TEAMS_COUNT in E. b2p.
  unfold AddPlayerData, side_index. assert (team = 0 ∨ team = 1) as [-> | ->] by lia; destruct (Team g =? HORDE); cbn; try lia;
    rewrite map_size_insert;
    (match goal with |- context [match ?x with Some _ => _ | None => _ end] => destruct x end); cbn; lia.
Qed.
Lemma joining_nonneg team l : 0 ≤ joining team l.
Proof. induction l as [|[g t] l IH]; cbn; [lia|]. unfold v_size. case_bool; lia. Qed.
Lemma add_player_busy id a side n rest guid p gi w u w' :
  upd_bg id (λ b, AddArenaMMRData (set_mmData (IncreaseInvitedCount b (Team gi)) (AddPlayerData (mmData b) guid p gi)) guid side) w = Ok (u, w') →
  Busy id a side n rest w → Team gi = side → 1 ≤ n → Busy id a side (n - 1) rest w'.
Proof.
  intros (b & Hb & ->)%upd_bg_Ok [[H1 H2 H3] Hs] <- Hn1.
  set (b' := AddArenaMMRData _ _ _).
  assert (m_TypeID b' = m_TypeID b) as Et by apply IncreaseInvitedCount_type.
  assert (m_TypeID b ≠ BATTLEGROUND_AA → ∀ team, is_team team = true →
    invited_players b' team + (if side_index (Team gi) =? team then n - 1 else 0) + joining team rest ≤ room b') as Hr.
  { intros Hn team Hteam. specialize (H2 b Hb Hn team Hteam).
    destruct (size_AddPlayerData (mmData b) guid p gi team) as [Hz|]; [|congruence].
    unfold invited_players, room in *. subst b'. cbn in *. destruct (side_index (Team gi) =? team); lia. }
  split; [split|].
  - eapply set_bg_inv; [done|done| |done]. intros Hn team Hteam. specialize (Hr Hn team Hteam).
    pose proof (joining_nonneg team rest). destruct (side_index (Team gi) =? team); lia.
  - cbn. rewrite lookup_insert_eq. intros x [= <-]. by rewrite Et.
  - done.
  - done.
Qed.

(** The members of a group are invited one after the other. *)
Lemma upd_player_busy id a side n rest guid f : busy id a side n rest (upd_player guid f).
Proof.
  intros w u w' H Hb. unfold upd_player, player_at in H. run_inv. by apply (busy_same _ _ _ _ _ w).
Qed.
#[local] Ltac busy_leaf :=
  idtac; match goal with
  | |- keeps _ (upd_queue _ _) => by apply modify_busy
  | |- keeps _ (send _ _) => by apply modify_busy
  | |- keeps _ (upd_player _ _) => apply upd_player_busy
  | |- keeps _ (upd_group _ _) => by apply upd_group_busy
  | |- keeps _ (upd_bg _ _) => apply upd_bg_busy; by adds_tac
  end.
#[local] Ltac busy := repeat keeps_step busy_leaf.
Lemma invite_player_busy id a side n rest q qt guid w u w' :
  invite_player q a id qt side guid w = Ok (u, w') → Busy id a side n rest w → 1 ≤ n → Busy id a side (n - 1) rest w'.
Proof.
  intros H Hb Hn. assert (Busy id a side (n - 1) rest w) as Hskip by (destruct Hb; split; [eapply slack_le; [|done]; lia|done]).
  unfold invite_player in H. run_inv. apply bg_group_at_Ok in E0 as [-> Hg]. apply bg_at_Ok in E1 as [-> Hbg].
  destruct (players w !! guid) as [p|]; [|by run_inv]. case_bool; [by run_inv|].
  apply bind_Ok in H as ([] & w1 & Hw & H). apply bind_Ok in H as ([] & w2 & Ha & H).
  assert (∀ n br gi, busy id a side n rest (PlayerInvitedToBGUpdateAverageWaitTime q br gi)) as Hwait
    by (intros; unfold PlayerInvitedToBGUpdateAverageWaitTime; busy).
  pose proof (Hwait _ _ _ _ _ _ Hw Hb) as Hb1.
  apply (add_player_busy _ _ _ _ _ _ _ _ _ _ _ Ha) in Hb1; [|by apply Hb|done]. revert Hb1.
  match type of H with ?k w2 = _ => assert (busy id a side (n - 1) rest k) as K by (unfold AddEvent; busy) end.
  exact (K _ _ _ H).
Qed.
Lemma in_order_length s : length (in_order s) = size s.
Proof. unfold in_order. by rewrite merge_sort_Permutation. Qed.
Lemma invite_group q v t id side rest w u w' :
  InviteGroupToBG q (v_group v) id side w = Ok (u, w') → side ≠ 0 → is_team (side_index side) = true → t = side_index side →
  Slack id t 0 ((v, t) :: rest) w → Slack id t 0 rest w'.
Proof.
  intros H H0 Hteam -> Hs. unfold InviteGroupToBG in H. rewrite (proj2 (Z.eqb_neq _ _)) in H by done. cbn [negb] in H.
  apply bind_Ok in H as ([] & w1 & Hu & H). apply bind_Ok in H as (g & w2 & [-> Hg]%bg_group_at_Ok & H).
  assert (Busy id (v_group v) side (v_size v) rest w1 ∧ players_size g = v_size v) as [Hb Hsize].
  { unfold when in Hu. pose proof (upd_group_slack _ _ _ _ _ (λ g, set_Team g side) (λ _, eq_refl) _ _ _ Hu Hs) as [S1 S2 S3].
    split; [split; [split|]|].
    - done.
    - intros b Hb Hn team Ht. specialize (S2 b Hb Hn team Ht). cbn [joining] in S2. case_match; lia.
    - intros g' t' Hin. eapply S3. by right.
    - apply bg_upd_group_Ok in Hu as (g0 & Hg0 & ->). intros gi. cbn. rewrite lookup_insert_eq. by intros [= <-].
    - eapply S3; [by left|done]. }
  case_bool; [run_inv; destruct Hb as [Hb _]; eapply slack_le, Hb; unfold v_size; lia|].
  apply bind_Ok in H as (b & w2 & [-> Hbg]%bg_at_Ok & H).
  match type of H with ?k w1 = _ => assert (partial (Busy id (v_group v) side (v_size v) rest) k (λ _, Slack id (side_index side) 0 rest)) as K end.
  { apply partial_step; [apply keeps_get, _|]. intros w3.
    apply partial_step; [busy|]. intros _. apply partial_step; [busy|]. intros _.
    apply (partial_bind _ _ _ (λ _, Slack id (side_index side) 0 rest)); [|intros ?; by apply partial_ret].
    assert (v_size v = Z.of_nat (length (in_order (Players g)))) as -> by (rewrite in_order_length; symmetry; exact Hsize).
    eapply partial_weaken.
    - apply (partial_for_each _ _ (λ l, Busy id (v_group v) side (Z.of_nat (length l)) rest)). intros guid l x ? y Hi HI.
      apply (invite_player_busy _ _ _ _ _ _ _ _ _ _ _ Hi) in HI; [|cbn [length]; lia].
      replace (Z.of_nat (length l)) with (Z.of_nat (length (guid :: l)) - 1) by (cbn [length]; lia). done.
    - done.
    - by intros _ x [Hx _]. }
  exact (K _ _ _ H Hb).
Qed.

(** The whole proposal. *)
Definition Budget (id : Z) (rest : list (GroupView * Z)) (w : World) : Prop := Slack id 0 0 rest w.
Lemma slack_index id t t' rest w : Slack id t 0 rest w → Slack id t' 0 rest w.
Proof.
  intros [H1 H2 H3]. split; [done| |done]. intros b Hb Hn team Ht. specialize (H2 b Hb Hn team Ht).
  revert H2. by destruct (t =? team), (t' =? team).
Qed.
Lemma budget_skip id v t rest w : Budget id ((v, t) :: rest) w → Budget id rest w.
Proof.
  intros [H1 H2 H3]. split; [done| |].
  - intros b Hb Hn team Ht. specialize (H2 b Hb Hn team Ht). cbn [joining] in H2. unfold v_size in H2.
    revert H2. destruct (0 =? team), (t =? team); lia.
  - intros g t' Hg. eapply H3. by right.
Qed.
Lemma StartProposal_partial q id base p :
  partial (Budget id (zip base (assigment p))) (StartProposal q id base p) (λ _, Inv none).
Proof.
  eapply (partial_weaken _ _ _ (λ _, Budget id [])); [|done|intros _ w [Hw _ _]; exact Hw].
  apply (partial_for_each _ _ (Budget id)). intros [v t] rest w u w' H Hb. cbn [fst snd] in H.
  destruct (Z.eqb_spec t TEAM_ALLIANCE) as [->|]; [|destruct (Z.eqb_spec t TEAM_HORDE) as [->|]].
  - apply bind_Ok in H as (? & ? & H & [= _ <-]). by apply (invite_group _ _ _ _ _ _ _ _ _ H).
  - apply bind_Ok in H as (? & ? & H & [= _ <-]). eapply slack_index, (invite_group _ _ 1 _ _ _ _ _ _ H); [done..|]. by eapply slack_index.
  - run_inv. by eapply budget_skip.
Qed.

Lemma sort_by_join_Permutation l : sort_by_join l ≡ₚ l.
Proof.
  assert (∀ s, foldl (λ s g, mm_insert (v_JoinTime g) g s) s l ≡ₚ s ++ ((λ g, (v_JoinTime g, g)) <$> l)) as H.
  { induction l as [|g l IH]; intros s; cbn; [by rewrite app_nil_r|]. rewrite IH, mm_insert_Permutation.
    apply Permutation_middle. }
  unfold sort_by_join. rewrite H. cbn. rewrite <- list_fmap_compose. by rewrite list_fmap_id.
Qed.
Lemma sort_by_join_sorted l : StronglySorted Z.le (v_JoinTime <$> sort_by_join l).
Proof.
  assert (∀ s, mm_sorted s ∧ Forall (λ x, x.1 = v_JoinTime x.2) s →
    let r := foldl (λ s g, mm_insert (v_JoinTime g) g s) s l in mm_sorted r ∧ Forall (λ x, x.1 = v_JoinTime x.2) r) as H.
  { induction l as [|g l IH]; intros s Hs; [done|]. cbn. apply IH. destruct Hs.
    split; [by apply mm_insert_sorted|by apply mm_insert_Forall]. }
  destruct (H []) as [Hs Hf]; [split; constructor|]. unfold sort_by_join. revert Hs Hf. cbn zeta.
  generalize (foldl (λ s g, mm_insert (v_JoinTime g) g s) [] l). intros r Hs Hf.
  induction Hs as [|x r Hr IH Hx]; [constructor|]. inversion Hf as [|? ? Hx1 Hf']; subst. cbn. constructor; [by apply IH|].
  rewrite <- list_fmap_compose. rewrite Forall_fmap. rewrite Forall_forall in *. intros y Hy.
  cbn. rewrite <- Hx1, <- (Hf' y Hy). by apply Hx.
Qed.
Lemma joining_nobody team base base' : is_team team = true → joining team (zip base (assigment (new_Proposal base'))) = 0.
Proof.
  intros Ht. cbn [assigment new_Proposal]. generalize (Z.to_nat (Z.min (Z.of_nat (length base')) PERFORMANCE_GROUPS_PER_ITERATION)).
  induction base as [|g base IH]; intros [|n]; [done..|]. cbn [replicate zip_with joining].
  change (zip_with pair base (replicate n (-1))) with (zip base (replicate n (-1))). rewrite IH.
  unfold is_team in Ht. b2p. destruct (Z.eqb_spec (-1) team); lia.
Qed.
(** The search proposes what fits. *)
Lemma proposal_fits d now groups base best team :
  FindProposal d now groups = Ok (base, best) → is_team team = true → Z.of_nat (size (of_team (playerData d) team)) ≤ maxPlayersPerTeam d →
  Z.of_nat (size (of_team (playerData d) team)) + joining team (zip base (assigment best)) ≤ maxPlayersPerTeam d.
Proof.
  unfold FindProposal. intros H Ht Hd. destruct (FindProposal_from _ _ _ _) as [p| | | |] eqn:E; try done. simplify_eq/=.
  destruct (answer_inv _ _ _ _ _ E) as [[Ha _]|(_ & Hq & Hg & _)].
  - rewrite Ha, joining_nobody by done. lia.
  - rewrite Hq in Hg. by apply (quality_fits (set_timestamp d now)).
Qed.
Lemma propose_partial q id groups :
  partial (λ w, Inv none w ∧ ∀ v, v ∈ groups → sized w v) (propose q id groups) (λ _, Inv none).
Proof.
  intros w u w' H [Hi Hv]. unfold propose in H. apply bind_Ok in H as (b & w1 & [-> Hb]%bg_at_Ok & H).
  apply bind_Ok in H as (w1 & w2 & [= <- <-] & H). apply bind_Ok in H as ([base best] & w2 & [Hf ->]%lift_Ok & H).
  apply bind_Ok in H as ([] & w2 & Hu & H). eapply StartProposal_partial; [exact H|].
  eapply (upd_bg_slack id 0 0 (zip base (assigment best))); [|exact Hu|]; [by adds_tac|]. split; [done| |].
  - intros b' Hb' Hn team Ht. simplify_eq. pose proof (proposal_fits _ _ _ _ _ team Hf Ht (inv_fits _ _ Hi _ _ Hb Hn team Ht)).
    unfold invited_players, room. destruct (0 =? team); lia.
  - intros g t Hg%elem_of_zip_l. apply Hv. unfold FindProposal in Hf.
    destruct (FindProposal_from _ _ _ _); try done. simplify_eq/=. by rewrite sort_by_join_Permutation in Hg.
Qed.

(** ** Battlegrounds *)
Lemma view_group_sized w q a v : view_group w q a = Ok v → sized w v.
Proof.
  unfold view_group. intros H gi. destruct (groups w !! a) as [g|] eqn:Eg; [|done]. cbn [deref] in H.
  assert (∀ l ms, foldr (λ guid acc, let! acc := acc in
      deref (m_QueuedPlayers (queue_of w q) !! guid) (λ i, Ok ((guid, i) :: acc))) (Ok []) l = Ok ms → length ms = length l) as Hl.
  { induction l as [|x l IH]; cbn; intros ms; [by intros [= <-]|]. unfold obind at 1.
    destruct (foldr _ _ l) as [k| | | |] eqn:E; try done. destruct (_ !! x); [|done]. intros [= <-]. cbn. by rewrite (IH k). }
  destruct (foldr _ _ _) as [ms| | | |] eqn:E; try done. apply Hl in E. injection H as <-. cbn. rewrite Eg. intros [= <-].
  unfold players_size, v_size. cbn. by rewrite E, in_order_length.
Qed.
Lemma view_groups_sized w q l gs : view_groups w q l = Ok gs → ∀ v, v ∈ gs → sized w v.
Proof.
  revert gs. induction l as [|a l IH]; intros gs; cbn [view_groups]; [by intros [= <-] v ?%elem_of_nil|].
  destruct (view_group w q a) as [g| | | |] eqn:E; try done. cbn [obind].
  destruct (view_groups w q l) as [k| | | |]; try done. intros [= <-] v [->|Hv]%elem_of_cons; [by eapply view_group_sized|].
  by eapply IH.
Qed.
Lemma candidates_partial q type br :
  partial (Inv none) (candidates q type br) (λ gs w, Inv none w ∧ ∀ v, v ∈ gs → sized w v).
Proof.
  intros w gs w' H Hi. unfold candidates, queue_at, alive in H. run_inv. split; [done|]. by eapply view_groups_sized.
Qed.
Lemma candidates_propose q type br id : calm none (gs ← candidates q type br; propose q id gs).
Proof. eapply partial_bind; [apply candidates_partial|]. intros gs. apply propose_partial. Qed.
Lemma bind_assoc_calm {X Y} A (m : BW X) (f : X → BW unit) (k : BW Y) :
  calm A (m ≫= f) → calm A k → calm A (x ← m; _ ← f x; k).
Proof.
  intros Hm Hk w y w' H Hi. apply bind_Ok in H as (x & w1 & E1 & H). apply bind_Ok in H as ([] & w2 & E2 & H).
  eapply Hk; [exact H|]. eapply Hm; [|exact Hi]. rewrite (bind_run _ _ _ _ _ E1). exact E2.
Qed.
Lemma refill_calm q type br id : calm none (refill q type br id).
Proof.
  unfold refill. apply keeps_bind; [apply _|apply bg_at_calm|]. intros b. case_bool; [|apply keeps_skip, _].
  apply bind_assoc_calm; [apply candidates_propose|]. calm.
Qed.
Hint Resolve refill_calm : bgcap.
Lemma create_weak type br at' r : calm none (CreateNewBattleground type br at' r).
Proof. intros w o w' H Hi. eapply inv_weaken, create_partial; [exact H|done]. Qed.
Hint Resolve create_weak : bgcap.
Lemma BattlegroundMatchmaking_calm q type br : calm none (BattlegroundMatchmaking q type br).
Proof.
  unfold BattlegroundMatchmaking.
  repeat first [apply bind_assoc_calm; [apply candidates_propose|]|keeps_step calm_leaf].
Qed.
Lemma StoreRecentOpponents_same base p w :
  battlegrounds (StoreRecentOpponents base p w) = battlegrounds w ∧ templates (StoreRecentOpponents base p w) = templates w.
Proof.
  unfold StoreRecentOpponents. apply foldl_inv; [done|]. intros w1 [i [g t]] H1. case_bool; [done|].
  apply foldl_inv; [done|]. intros w2 x H2. apply foldl_inv; [done|]. intros w3 [j [g' t']] H3. case_bool; [done|].
  apply foldl_inv; [done|]. intros w4 y H4. by case_bool.
Qed.
Lemma store_calm A base p : calm A (modify (StoreRecentOpponents base p)).
Proof. apply modify_calm, StoreRecentOpponents_same. Qed.
Hint Resolve store_calm : bgcap.
Lemma ArenaMatchmaking_calm q br : calm none (ArenaMatchmaking q br).
Proof.
  unfold ArenaMatchmaking.
  repeat first [apply create_bind_calm; [apply keeps_skip, _|intros id; cbv beta iota; by calm]|keeps_step calm_leaf].
Qed.
Hint Resolve BattlegroundMatchmaking_calm ArenaMatchmaking_calm : bgcap.
Lemma run_scheduled_calm id : calm none (run_scheduled id).
Proof. unfold run_scheduled. calm. b2p. rewrite Heqb. apply QueueUpdate_calm. Qed.
Hint Resolve run_scheduled_calm : bgcap.
Lemma force_update_calm : calm none force_update.
Proof. unfold force_update. calm. Qed.
Hint Resolve force_update_calm : bgcap.
Lemma UpdateQueues_calm diff : calm none (UpdateQueues diff).
Proof. unfold UpdateQueues, run_all_scheduled. calm. Qed.

(** ** Requests *)
Lemma take_slot_calm A a b c d : calm A (take_slot a b c d).
Proof. unfold take_slot. calm. Qed.
Hint Resolve take_slot_calm : bgcap.
Lemma join_answer_calm A a b c d e : calm A (join_answer a b c d e).
Proof. unfold join_answer. calm. Qed.
Lemma average_wait_calm A a b c : calm A (average_wait a b c).
Proof. unfold average_wait. calm. Qed.
Lemma SetTemplateRated_calm A r : calm A (SetTemplateRated r).
Proof.
  intros w _ w' [_ ->]%modify_Ok [H1 H2 H3]. split; [done..|]. cbn. intros type t. rewrite lookup_alter_Some.
  intros [(_ & t' & Ht & ->)|[_ Ht]]; eauto. exact (H3 _ _ Ht).
Qed.
Hint Resolve join_answer_calm average_wait_calm SetTemplateRated_calm : bgcap.
Lemma Join_calm A a b c d : calm A (HandleBattlemasterJoinOpcode a b c d).
Proof. unfold HandleBattlemasterJoinOpcode. calm. Qed.
Lemma JoinArena_calm A a b c d e : calm A (HandleBattlemasterJoinArena a b c d e).
Proof. unfold HandleBattlemasterJoinArena. calm. Qed.
Lemma JoinSolo_calm A a b : calm A (JoinArenaSoloQueue a b).
Proof. unfold JoinArenaSoloQueue. calm. Qed.
Lemma leave_player_calm A a b c d : calm A (leave_player a b c d).
Proof. unfold leave_player. calm. Qed.
Lemma leave_rated_calm A a b c d : calm A (leave_rated a b c d).
Proof. unfold leave_rated. calm. Qed.
Hint Resolve leave_player_calm leave_rated_calm : bgcap.
Lemma RemovePlayerAtLeave_calm A a b c d : calm A (RemovePlayerAtLeave a b c d).
Proof. unfold RemovePlayerAtLeave. calm. apply upd_bg_calm. by apply (RemovePlayerData_adds_nobody _ _ (λ b, b)). Qed.
Hint Resolve RemovePlayerAtLeave_calm : bgcap.
Lemma AddPlayer_calm A s : calm A (AddPlayer s).
Proof. unfold AddPlayer. calm. Qed.
Lemma accept_calm A a b c d e f : calm A (accept_invitation a b c d e f).
Proof. unfold accept_invitation. calm. Qed.
Lemma decline_calm A a b c d e f g : calm A (decline_invitation a b c d e f g).
Proof. unfold decline_invitation. calm. Qed.
Hint Resolve accept_calm decline_calm : bgcap.
Lemma Port_calm A a b c d : calm A (HandleBattleFieldPortOpcode a b c d).
Proof. unfold HandleBattleFieldPortOpcode. calm. Qed.
Lemma leave_queue_calm A s i : calm A (leave_queue s i).
Proof. unfold leave_queue. calm. Qed.
Hint Resolve leave_queue_calm : bgcap.
Lemma leave_queues_calm A s : calm A (leave_queues s).
Proof. unfold leave_queues. calm. Qed.
Hint Resolve leave_queues_calm : bgcap.
Lemma delete_battleground_calm A id : calm A (delete_battleground id).
Proof.
  unfold delete_battleground. calm. intros w _ w' [_ ->]%modify_Ok [H1 H2 H3].
  split; cbn; [| |done]; intros i b [_ Hb]%lookup_delete_Some; eauto.
Qed.
Hint Resolve Join_calm JoinArena_calm JoinSolo_calm AddPlayer_calm Port_calm delete_battleground_calm UpdateQueues_calm : bgcap.
Lemma run_calm r : calm none (run r).
Proof. destruct r; unfold run, LogoutPlayer; calm. Qed.
Lemma run_all_calm rs : calm none (run_all rs).
Proof. apply keeps_for_each; [apply _|]. intros r _. apply run_calm. Qed.

End capacity.
End BgCapacity.
