(* ===== verification/BgSchedule.v ===== *)
(** * Waiting times, updates that are asked for, and the teams of a rated match

    The parts of the queues that have a short contract: the ring of waiting times is the
    list of the last ten; what ScheduleQueueUpdate packs is what the update unpacks; two
    teams are found exactly when there are two; and leaving a queue comes to an end. *)
From S2P Require Import Prelude StateMonad Multimap Timers Float32 Float64 BgData BgMatchmaking BgObjects BgQueue BgUpdate.

Module BgSchedule.
Export BgUpdate.

(** ** The ring of waiting times *)
Definition sum (l : list Z) : Z := foldr Z.add 0 l.
#[export] Instance sum_perm : Proper ((≡ₚ) ==> eq) sum.
Proof. intros l k H. unfold sum. induction H; cbn; lia. Qed.
Lemma sum_app l k : sum (l ++ k) = sum l + sum k.
Proof. unfold sum. induction l; cbn in *; lia. Qed.

(** The ring from its oldest entry to its youngest. *)
Definition unroll (x : WaitTimes) : list Z :=
  drop (Z.to_nat (m_WaitTimeLastPlayer x)) (m_WaitTimes x) ++ take (Z.to_nat (m_WaitTimeLastPlayer x)) (m_WaitTimes x).
Record ring (x : WaitTimes) : Prop := {
  ring_length : length (m_WaitTimes x) = 10%nat;
  ring_index : 0 ≤ m_WaitTimeLastPlayer x < 10;
  ring_sum : m_SumOfWaitTimes x = u32 (sum (m_WaitTimes x)) }.

Lemma unroll_Permutation x : unroll x ≡ₚ m_WaitTimes x.
Proof. unfold unroll. by rewrite Permutation_app_comm, take_drop. Qed.
Lemma ring_no_waits : ring no_waits.
Proof. by split. Qed.
Lemma add_wait_time_ring x t : ring x → ring (add_wait_time x t) ∧ unroll (add_wait_time x t) = tail (unroll x) ++ [t].
Proof.
  intros [Hl Hi Hs]. destruct (lookup_lt_is_Some_2 (m_WaitTimes x) (Z.to_nat (m_WaitTimeLastPlayer x))) as [o Ho]; [lia|].
  remember (Z.to_nat (m_WaitTimeLastPlayer x)) as i eqn:Ei. pose proof (take_drop_middle _ _ _ Ho) as Hw.
  set (A := take i (m_WaitTimes x)) in *. set (B := drop (S i) (m_WaitTimes x)) in *.
  assert (length A = i) as HA by (unfold A; rewrite length_take; lia).
  assert (<[i := t]> (m_WaitTimes x) = A ++ t :: B) as Hw' by (apply insert_take_drop; lia).
  assert (unroll x = o :: B ++ A) as ->.
  { unfold unroll. rewrite <- Ei. fold A. by rewrite (drop_S _ _ _ Ho). }
  unfold add_wait_time. rewrite <- Ei, Ho. cbn [default from_option]. rewrite Hw'. split.
  - split; cbn [m_WaitTimes m_WaitTimeLastPlayer m_SumOfWaitTimes].
    + rewrite <- Hw', length_insert. done.
    + apply Z.mod_pos_bound. done.
    + rewrite Hs, <- Hw, !sum_app. cbn. rewrite wrap_sub_l, wrap_add_l. f_equal. lia.
  - unfold unroll. cbn [m_WaitTimes m_WaitTimeLastPlayer]. cbn [tail].
    destruct (decide (i = 9)%nat) as [->|].
    + replace ((m_WaitTimeLastPlayer x + 1) `mod` COUNT_OF_PLAYERS_TO_AVERAGE_WAIT_TIME) with 0.
      2: { replace (m_WaitTimeLastPlayer x) with 9 by lia. done. }
      assert (B = []) as -> by (apply nil_length_inv; unfold B; rewrite length_drop; lia). cbn [Z.to_nat]. by rewrite drop_0, take_0, app_nil_r.
    + rewrite Z.mod_small by (unfold COUNT_OF_PLAYERS_TO_AVERAGE_WAIT_TIME; lia).
      replace (Z.to_nat (m_WaitTimeLastPlayer x + 1)) with (length (A ++ [t])) by (rewrite length_app; cbn; lia).
      rewrite (cons_middle t A B), app_assoc, drop_app_length, take_app_length. by rewrite app_assoc.
Qed.

Definition last_ten (ts : list Z) : list Z := drop (length ts) (replicate 10 0 ++ ts).
Lemma waits_last_ten ts : ring (foldl add_wait_time no_waits ts) ∧ unroll (foldl add_wait_time no_waits ts) = last_ten ts.
Proof.
  induction ts as [|t ts IH] using rev_ind; [by split; [apply ring_no_waits|]|]. rewrite foldl_app. cbn.
  destruct IH as [Hr Hu]. destruct (add_wait_time_ring _ t Hr) as [Hr' Hu']. split; [done|]. rewrite Hu', Hu.
  unfold last_ten. rewrite length_app. cbn [length]. rewrite app_assoc, (drop_app_le (_ ++ ts) [t]) by (rewrite length_app, length_replicate; lia).
  f_equal. change (tail ?l) with (drop 1 l). by rewrite drop_drop.
Qed.
(** In the last place is the wait that completed the last ten of them; none before there
    are ten. *)
Definition completing (ts : list Z) : Z := if (length ts <? 10)%nat then 0 else default 0 (ts !! (10 * (length ts `div` 10) - 1)%nat).
Lemma waits_tenth ts : m_WaitTimes (foldl add_wait_time no_waits ts) !! 9%nat = Some (completing ts) ∧
  m_WaitTimeLastPlayer (foldl add_wait_time no_waits ts) = Z.of_nat (length ts `mod` 10).
Proof.
  induction ts as [|t ts [H9 Hi]] using rev_ind; [done|]. pose proof (waits_last_ten ts) as [[Hl _ _] _]. rewrite foldl_app. cbn [foldl].
  set (x := foldl _ _ _) in *. unfold add_wait_time. cbn [m_WaitTimes m_WaitTimeLastPlayer]. rewrite Hi, Nat2Z.id.
  pose proof (Nat.div_mod_eq (length ts) 10) as Hd. pose proof (Nat.mod_upper_bound (length ts) 10 ltac:(lia)) as Hm.
  set (n := (length ts `div` 10)%nat) in *. set (k := (length ts `mod` 10)%nat) in *. unfold completing. rewrite length_app. cbn [length].
  assert (length ts + 1 = 10 * (if decide (k = 9) then S n else n) + (if decide (k = 9) then 0 else S k))%nat as E by (case_decide; lia).
  assert ((length ts + 1) `div` 10 = (if decide (k = 9) then S n else n) ∧ (length ts + 1) `mod` 10 = (if decide (k = 9) then 0 else S k))%nat as [-> ->].
  { split; symmetry; [eapply Nat.div_unique with (r := if decide (k = 9)%nat then 0%nat else S k)|eapply Nat.mod_unique with (q := if decide (k = 9)%nat then S n else n)];
      [case_decide; lia|exact E|case_decide; lia|exact E]. }
  unfold COUNT_OF_PLAYERS_TO_AVERAGE_WAIT_TIME. destruct (decide (k = 9)%nat) as [Ek|Ek].
  - rewrite Ek, list_lookup_insert_eq by lia. rewrite (proj2 (Nat.ltb_ge _ _)) by lia. split; [|done]. f_equal.
    replace (10 * S n - 1)%nat with (length ts) by lia. by rewrite lookup_app_r, Nat.sub_diag.
  - rewrite list_lookup_insert_ne, H9 by lia. split; [|rewrite Z.mod_small; lia]. unfold completing. fold n.
    destruct (Nat.ltb_spec (length ts) 10), (Nat.ltb_spec (length ts + 1) 10); try done; try lia. f_equal. by rewrite lookup_app_l by lia.
Qed.

(** ** Updates that are asked for *)
Lemma shiftr_low a b k : 0 ≤ k → 0 ≤ b < 2 ^ k → Z.shiftr (a * 2 ^ k + b) k = a.
Proof. intros Hk Hb. rewrite Z.shiftr_div_pow2 by done. rewrite Z.div_add_l by lia. rewrite Z.div_small; lia. Qed.
Lemma land_255 a b : in_u8 b → Z.land (a * 2 ^ 8 + b) 255 = b.
Proof.
  intros Hb. change 255 with (Z.ones 8). rewrite Z.land_ones by done. rewrite Z.add_comm, Z_mod_plus_full. by apply Z.mod_small.
Qed.
Lemma scheduleId_sum mmr a q t b : in_u8 a → in_u8 q → in_u8 t → in_u8 b →
  scheduleId mmr a q t b = mmr * 2 ^ 32 + (a * 2 ^ 24 + (q * 2 ^ 16 + (t * 2 ^ 8 + b))).
Proof.
  unfold in_u. intros Ha Hq Ht Hb. unfold scheduleId. rewrite <- !Z.lor_assoc.
  rewrite (lor_shiftl t b 8), (lor_shiftl q _ 16), (lor_shiftl a _ 24), (lor_shiftl mmr _ 32) by lia. done.
Qed.
Lemma scheduleId_fields mmr a q t b :
  in_u32 mmr → in_u8 a → in_u8 q → in_u8 t → in_u8 b →
  let id := scheduleId mmr a q t b in
  in_u64 id ∧ Z.shiftr id 32 = mmr ∧ Z.land (Z.shiftr id 24) 255 = a ∧ Z.land (Z.shiftr id 16) 255 = q ∧
  Z.land (Z.shiftr id 8) 255 = t ∧ Z.land id 255 = b.
Proof.
  intros Hm Ha Hq Ht Hb id. subst id. rewrite scheduleId_sum by done. unfold in_u in *. split; [lia|].
  split; [apply shiftr_low; lia|].
  replace (mmr * 2 ^ 32 + (a * 2 ^ 24 + (q * 2 ^ 16 + (t * 2 ^ 8 + b)))) with
    ((mmr * 2 ^ 8 + a) * 2 ^ 24 + (q * 2 ^ 16 + (t * 2 ^ 8 + b))) at 1 by lia.
  rewrite shiftr_low by lia. split; [by apply land_255|].
  replace (mmr * 2 ^ 32 + (a * 2 ^ 24 + (q * 2 ^ 16 + (t * 2 ^ 8 + b)))) with
    (((mmr * 2 ^ 8 + a) * 2 ^ 8 + q) * 2 ^ 16 + (t * 2 ^ 8 + b)) at 1 by lia.
  rewrite shiftr_low by lia. split; [by apply land_255|].
  replace (mmr * 2 ^ 32 + (a * 2 ^ 24 + (q * 2 ^ 16 + (t * 2 ^ 8 + b)))) with
    ((((mmr * 2 ^ 8 + a) * 2 ^ 8 + q) * 2 ^ 8 + t) * 2 ^ 8 + b) by lia.
  rewrite shiftr_low by lia. split; by apply land_255.
Qed.

(** ** The teams of a rated match *)
(** The first two of those that are free, one of each side if there are. *)
Definition two_teams (ali horde : list Z) : option ((Z * Z) * (Z * Z)) :=
  match ali, horde with
  | a :: _, h :: _ => Some ((BG_QUEUE_PREMADE_ALLIANCE, a), (BG_QUEUE_PREMADE_HORDE, h))
  | a :: b :: _, [] => Some ((BG_QUEUE_PREMADE_ALLIANCE, a), (BG_QUEUE_PREMADE_ALLIANCE, b))
  | [], a :: b :: _ => Some ((BG_QUEUE_PREMADE_HORDE, a), (BG_QUEUE_PREMADE_HORDE, b))
  | _, _ => None
  end.
Definition those (ok : Z → bool) (l : list Z) : list Z := filter (λ a, ok a = true) l.

Lemma find_those ok l : find ok l = head (those ok l).
Proof.
  unfold those. induction l as [|a l IH]; [done|]. cbn [find].
  destruct (ok a) eqn:E; [by rewrite filter_cons_True|]. rewrite filter_cons_False by congruence. exact IH.
Qed.
Lemma after_those ok a l : find ok l = Some a → those ok (default [] (after a l)) = tail (those ok l).
Proof.
  unfold those. induction l as [|b l IH]; [done|]. cbn [find after]. destruct (ok b) eqn:E.
  - intros [= <-]. by rewrite Z.eqb_refl, filter_cons_True.
  - intros Ha. rewrite (filter_cons_False _ b) by congruence. destruct (Z.eqb_spec a b) as [->|]; [|by apply IH]. apply find_some in Ha as [_ Ha]. congruence.
Qed.

(** ** Leaving a queue *)
Section leaving.
Context `{BE : BgEnv}.

Definition ends {A} (k : BW A) : Prop := ∀ w, k w ≠ OutOfFuel.
Lemma ends_bind {A B} (k : BW A) (f : A → BW B) : ends k → (∀ a, ends (f a)) → ends (k ≫= f).
Proof. intros Hk Hf w. unfold mbind, ST_bind. specialize (Hk w). destruct (k w) as [[a w']| | | |]; try done. apply Hf. Qed.
Lemma ends_deref {A B} (o : option A) (k : A → outcome B) : (∀ a, k a ≠ OutOfFuel) → ends (lift (deref o k)).
Proof. intros Hk w. destruct o as [a|]; [|done]. specialize (Hk a). unfold lift. cbn. by destruct (k a). Qed.
#[local] Ltac ends_tac :=
  repeat first
    [ apply ends_bind; [|intros ?]
    | match goal with
      | |- ends (group_at _) => unfold group_at
      | |- ends (player_at _) => unfold player_at
      | |- ends (bg_at _) => unfold bg_at
      | |- ends (queue_at _) => unfold queue_at
      | |- ends (upd_group _ _) => unfold upd_group
      | |- ends (upd_player _ _) => unfold upd_player
      | |- ends (upd_bg _ _) => unfold upd_bg
      | |- ends (lift (deref _ _)) => by apply ends_deref
      | |- ends (when ?b _) => unfold when; destruct b
      | |- ends (match ?x with _ => _ end) => destruct x
      end
    | by intros ? ].
Lemma remove_one_ends q guid d : ends (remove_one q guid d).
Proof. unfold remove_one, uncount, member_lost, send_away. ends_tac. Qed.

Definition same_queues (w w' : World) : Prop := queues w' = queues w.
#[local] Instance same_queues_pre : PreOrder same_queues.
Proof. split; unfold same_queues; [done|]. intros ??? -> ->. done. Qed.
Lemma same_queues_leave guid g d : keeps same_queues (when d (uncount guid g)) ∧ keeps same_queues (when d (member_lost guid g)).
Proof.
  unfold uncount, member_lost, upd_bg, bg_at. split;
    repeat keeps_step ltac:(idtac; match goal with |- keeps _ (modify _) => by intros ? ? ? [_ ->]%modify_Ok end).
Qed.
Lemma upd_group_queues a f : keeps same_queues (upd_group a f).
Proof. intros w u w' H. unfold upd_group, group_at in H. run_inv. done. Qed.
Lemma send_away_queues next g : keeps same_queues (send_away next g).
Proof.
  unfold send_away, upd_player, player_at, send.
  repeat keeps_step ltac:(idtac; match goal with |- keeps _ (modify _) => by intros ? ? ? [_ ->]%modify_Ok end).
Qed.
Lemma queue_of_upd w q f : queue_of (set_queues w (<[q := f (queue_of w q)]> (queues w))) q = f (queue_of w q).
Proof. unfold queue_of at 1. cbn. by rewrite lookup_insert_eq. Qed.
(** Whoever is told to leave next is one of fewer players. *)
Lemma remove_one_less q guid d w next w' :
  remove_one q guid d w = Ok (Some next, w') →
  (size (m_QueuedPlayers (queue_of w' q)) < size (m_QueuedPlayers (queue_of w q)))%nat.
Proof.
  intros H. unfold remove_one in H. apply bind_Ok in H as (Q & w1 & HQ & H). unfold queue_at in HQ. run_inv.
  destruct (m_QueuedPlayers _ !! guid) as [info|] eqn:Hg; [|by run_inv].
  apply bind_Ok in H as (g & w1 & Hgr & H). unfold group_at in Hgr. run_inv.
  destruct (locate _ _) as [[br ix]|]; [|by run_inv].
  apply bind_Ok in H as ([] & w1 & Hu & H). apply upd_group_queues in Hu.
  apply bind_Ok in H as ([] & w2 & Hw & H). apply same_queues_leave in Hw.
  apply bind_Ok in H as ([] & w3 & [_ ->]%modify_Ok & H).
  apply bind_Ok in H as ([] & w4 & Hl & H). apply same_queues_leave in Hl.
  apply bind_Ok in H as (g' & w5 & Hgr & H). unfold group_at in Hgr. run_inv.
  assert (queue_of w4 q = set_m_QueuedPlayers (queue_of w q) (delete guid (m_QueuedPlayers (queue_of w q)))) as Hq.
  { assert (queue_of w2 q = queue_of w q) as <- by (unfold queue_of; by rewrite Hw, Hu).
    rewrite <- (queue_of_upd w2 q (λ Q, set_m_QueuedPlayers Q (delete guid (m_QueuedPlayers Q)))). unfold queue_of at 1 2.
    by rewrite Hl. }
  assert (size (m_QueuedPlayers (queue_of w4 q)) < size (m_QueuedPlayers (queue_of w q)))%nat as Hs.
  { rewrite Hq. cbn. rewrite map_size_delete, Hg. pose proof (map_size_ne_0_lookup_2 (m_QueuedPlayers (queue_of w q)) guid).
    assert (size (m_QueuedPlayers (queue_of w q)) ≠ O) by (apply map_size_ne_0_lookup_2 with guid; by rewrite Hg). lia. }
  case_bool; [by run_inv|]. case_bool; [|by run_inv]. destruct (in_order _) as [|x l]; [by run_inv|].
  apply bind_Ok in H as ([] & w6 & Ha & H). run_inv. apply send_away_queues in Ha. unfold queue_of in *. by rewrite Ha.
Qed.
Lemma remove_all_returns fuel q guid d w :
  (size (m_QueuedPlayers (queue_of w q)) ≤ fuel)%nat → remove_all fuel q guid d w ≠ OutOfFuel.
Proof.
  revert guid w. induction fuel as [|fuel IH]; intros guid w Hs; cbn [remove_all]; unfold mbind, ST_bind;
    pose proof (remove_one_ends q guid d w); destruct (remove_one q guid d w) as [[[next|] w']| | | |] eqn:E; try done;
    apply remove_one_less in E; [lia|]. apply IH. lia.
Qed.
End leaving.

End BgSchedule.
