(* ===== verification/BgDemo.v ===== *)
(** * A server with a battleground and arenas

    A configuration, templates and characters on which the theorems about battlegrounds
    are applied. *)
From S2P Require Import Prelude StateMonad Multimap Timers Float32 Float64 BgData BgMatchmaking BgObjects BgQueue BgUpdate BgHandlers.

Module BgDemo.
Export BgHandlers.

(** Powers with weights 1, 2 and 3 (and 1 for all others). *)
Definition demo_pow (x y : f64) : f64 :=
  if f32_eqb y (f64_of_Z 2) then f64_mul x x else if f32_eqb y (f64_of_Z 3) then f64_mul x (f64_mul x x) else x.

(** The configuration, but for one of the limits. *)
Definition env_with (MaxPremadeDiff : f32) : BgEnv := {|
  BATTLEGROUND_CROSSFACTION_ENABLED := true;
  CONFIG_ARENA_SOLOQUEUE_ENABLED := true;
  CONFIG_BATTLEGROUND_INVITATION_TYPE := 0;
  CONFIG_BATTLEGROUND_PREMADE_GROUP_WAIT_FOR_MATCH := 1800000;
  CONFIG_ARENA_RATED_UPDATE_TIMER := 5000;
  CONFIG_ARENA_MMR_COMPOSITE_TYPE := 0;
  CONFIG_ARENA_MAX_RATING_DIFFERENCE := λ _, 150;
  CONFIG_ARENA_RATING_DISCARD_TIMER := λ _, 600000;
  CONFIG_ARENA_WIDENING_TIMER := λ _, 0;
  CONFIG_ARENA_WIDENING_DELTA := λ _, 0;
  CONFIG_BG_MATCHMAKING_PLAYER_COUNT := f32_of_Z 2;
  CONFIG_BG_MATCHMAKING_PLAYER_DIFF := f32_of_Z 3;
  CONFIG_BG_MATCHMAKING_HEALER_DIFF := f32_lit 1 10;
  CONFIG_BG_MATCHMAKING_MAX_SKILL := f32_of_Z 500;
  CONFIG_BG_MATCHMAKING_SKILL := f32_of_Z 1;
  CONFIG_BG_MATCHMAKING_MAX_ITEMLVL := f32_of_Z 80;
  CONFIG_BG_MATCHMAKING_ITEMLVL := f32_lit 1 10;
  CONFIG_BG_MATCHMAKING_FACTION := f32_lit 1 2;
  CONFIG_BG_MATCHMAKING_PREMADE := f32_of_Z 1;
  CONFIG_BG_MATCHMAKING_MAX_WAIT := f32_of_Z 36000;
  CONFIG_BG_MATCHMAKING_WAIT := f32_of_Z 1;
  CONFIG_ARENA_MATCHMAKING_MAX_PREMADE_DIFF := MaxPremadeDiff;
  CONFIG_ARENA_MATCHMAKING_PLAYER_COUNT_WEIGHT := f32_of_Z 2;
  CONFIG_ARENA_MATCHMAKING_SKILL_RANGE_TIME := f32_of_Z 900;
  CONFIG_ARENA_MATCHMAKING_SKILL_RANGE_MIN := f32_of_Z 400;
  CONFIG_ARENA_MATCHMAKING_SKILL_RANGE_MAX := f32_of_Z 1000;
  CONFIG_ARENA_MATCHMAKING_SKILL_RANGE_WEIGHT := f32_lit 1 2;
  CONFIG_ARENA_MATCHMAKING_SKILL_DIFF_TIME := f32_of_Z 900;
  CONFIG_ARENA_MATCHMAKING_SKILL_DIFF_MIN := f32_of_Z 100;
  CONFIG_ARENA_MATCHMAKING_SKILL_DIFF_MAX := f32_of_Z 500;
  CONFIG_ARENA_MATCHMAKING_SKILL_DIFF_WEIGHT := f32_lit 1 2;
  CONFIG_ARENA_MATCHMAKING_PREMADE_WEIGHT := f32_lit 1 2;
  CONFIG_ARENA_MATCHMAKING_RECENT_OPPONENT_TIME := f32_of_Z 900;
  CONFIG_ARENA_MATCHMAKING_RECENT_OPPONENT_PENALTY := f32_lit 3 4;
  CONFIG_ARENA_MATCHMAKING_2V2_TIME := f32_of_Z 360;
  CONFIG_ARENA_MATCHMAKING_3V3_TIME := f32_of_Z 120;
  isTesting := false;
  isArenaTesting := false;
  pow := demo_pow;
  GetBattlegroundBracketByLevel := λ map level, if 80 <=? level then Some 14 else Some (level / 10);
  GetBattlegroundBracketById := λ _ _, true;
  maxGroupSize := λ type, if existsb (Z.eqb type) [BATTLEGROUND_WS; BATTLEGROUND_AA; BATTLEGROUND_RB] then Some 10 else None;
  IsDisabledFor := λ _, false;
  event_107 := true;
  ArenaTeam_rating := λ id, if (id =? 21) || (id =? 22) then Some 1500 else None;
  ArenaTeam_mmr := λ id grp _, match grp with Some _ => 1500 | None => 0 end
|}.

#[export] Instance demo_bg_env : BgEnv := env_with (f32_of_Z 1).
(** The configuration with which no match of single players is good enough. *)
Definition hanging_env : BgEnv := env_with (f32_of_Z 0).

(** Two players a side in Warsong Gulch, to keep the histories short. *)
Definition template (type map : Z) (arena : bool) : Battleground :=
  mkBg type type 0 0 STATUS_WAIT_QUEUE 0 arena false 0 0 (0, 0) ∅ 4 2 2 1 80 map false (0, 0) (0, 0) (∅, ∅) (new_matchmaking 4).
Definition character (team arenateam : Z) (grp : option BgGroup) : Player :=
  mkPlayer team 80 false (f32_of_Z 200) (f32_of_Z 1500) (f32_of_Z 1500) 1500 false
    (λ slot, if slot =? 0 then arenateam else 0) grp (λ _, true) false false false true false 0 0 0
    (replicate PLAYER_MAX_BATTLEGROUND_QUEUES (BATTLEGROUND_QUEUE_NONE, 0)).
Definition pair_of (a b : Z) : option BgGroup := Some (mkBgGroup a [a; b] 2 false).

Definition demo_world : World :=
  mkWorld ∅ 1000 ∅ ∅ ∅
    {[BATTLEGROUND_WS := template BATTLEGROUND_WS 489 false; BATTLEGROUND_AA := template BATTLEGROUND_AA 0 true;
      BATTLEGROUND_NA := template BATTLEGROUND_NA 559 true]}
    ∅ [] 5000
    {[1 := character ALLIANCE 21 (pair_of 1 2); 2 := character ALLIANCE 21 (pair_of 1 2);
      3 := character HORDE 22 (pair_of 3 4); 4 := character HORDE 22 (pair_of 3 4);
      5 := character HORDE 0 None; 6 := character ALLIANCE 0 None; 7 := character HORDE 0 None;
      8 := character ALLIANCE 0 None; 9 := character HORDE 0 None; 10 := character ALLIANCE 0 None]}
    100000 100000 1 [BATTLEGROUND_NA; BATTLEGROUND_NA] ∅ ∅ [] [].

Definition after_all (rs : list request) : World := match run_all rs demo_world with Ok (_, w) => w | _ => demo_world end.
Definition answered (rs : list request) : bool := match run_all rs demo_world with Ok _ => true | _ => false end.
Lemma bg_after_run rs : answered rs = true → run_all rs demo_world = Ok (tt, after_all rs).
Proof. unfold answered, after_all. by destruct (run_all rs demo_world) as [[[] w]| | | |]. Qed.

(** Waiting groups of one player, and what the searches answer. *)
Definition single (a team JoinTime rating : Z) : GroupView :=
  mkView a team JoinTime true [(a, mkPlayerInfo 0 (f64_of_Z rating) (f32_of_Z 200) false a)].
Definition four : list GroupView := [single 4 HORDE 40 1500; single 1 ALLIANCE 10 1500; single 3 HORDE 30 1400; single 2 ALLIANCE 20 1600].
Definition proposal_of (groups : list GroupView) : list GroupView * Proposal :=
  match FindProposal (new_matchmaking 4) 100 groups with Ok x => x | _ => ([], new_Proposal []) end.
Lemma proposal_of_four : FindProposal (new_matchmaking 4) 100 four = Ok ((proposal_of four).1, (proposal_of four).2).
Proof. vm_compute. reflexivity. Qed.

(** A battleground that fills up; arenas of single players; players that join a rated arena
    alone. *)
Definition gulch : list request :=
  [Join 1 BATTLEGROUND_WS None true; Join 3 BATTLEGROUND_WS None true; Join 5 BATTLEGROUND_WS None false; Update 100].
Definition solo : list request :=
  [Draw [BATTLEGROUND_NA]; JoinSolo 5 true; JoinSolo 6 true; JoinSolo 7 true; JoinSolo 8 true; JoinSolo 9 true; JoinSolo 10 true;
   Tick 200000 200000; Update 6000].
Definition alone : list request :=
  [Draw [BATTLEGROUND_NA]; JoinArena 1 true 0 false true; JoinArena 3 true 0 false true; Update 6000].

End BgDemo.
