(* ===== verification/BgTheorems.v ===== *)
(** * Theorems about battlegrounds and their queues

    The properties of the battleground component, each with a witness on the server of
    [BgDemo]. *)
From S2P Require Import Prelude StateMonad Multimap Timers Float32 Float64 BgData BgMatchmaking BgSearch BgQuality BgObjects BgQueue BgUpdate BgHandlers.
From S2P Require Import BgCapacity BgSchedule BgDemo.

Module BgTheorems.
Export BgCapacity BgSchedule BgDemo.

(** Up to two teams on each side. *)
#[local] Ltac two_cases ok la lh :=
  destruct (those ok la) as [|? [|? ?]], (those ok lh) as [|? [|? ?]]; try done; cbn in *; by simplify_eq.

Section theorems.
Context `{BE : BgEnv}.

(** C6: Battlegrounds are never overfilled: whatever players request and whenever the
    queues are updated, outside of arenas the players that were invited to a side of a
    battleground (and have not left it) are at most its slots. *)
Theorem never_overfilled rs w w' id b team :
  battlegrounds w = ∅ →
  (∀ type t, templates w !! type = Some t → playerData (mmData t) = both ∅ ∧ 0 ≤ maxPlayersPerTeam (mmData t)) →
  run_all rs w = Ok (tt, w') →
  battlegrounds w' !! id = Some b → m_TypeID b ≠ BATTLEGROUND_AA → is_team team = true →
  Z.of_nat (size (of_team (playerData (mmData b)) team)) ≤ maxPlayersPerTeam (mmData b).
Proof.
  intros Hb Ht H Hid Hn Hteam. eapply (inv_fits none w'); [|done..]. eapply run_all_calm; [exact H|].
  split; [by rewrite Hb|by rewrite Hb|done].
Qed.

(** C12: What BattlegroundMatchmakingData::FindProposal answers: the groups by the time they
    joined; either nobody is assigned, or the proposal is better than that, every assigned
    group can join its team, and with the players that are inside no team gets more than
    its slots. *)
Theorem FindProposal_answer d now groups base p :
  FindProposal d now groups = Ok (base, p) →
  base ≡ₚ groups ∧ StronglySorted Z.le (v_JoinTime <$> base) ∧
  (assigment p = replicate (length (assigment p)) (-1) ∨
   f64_ltb (CalculateProposalQuality d base (assigment (new_Proposal base))) (quality p) = true ∧
   (∀ i team, assigment p !! i = Some team → is_team team = true → ∃ g, base !! i = Some g ∧ CanJoinBGTeam g team = true) ∧
   (∀ team, is_team team = true →
     Z.of_nat (size (of_team (playerData d) team)) + joining team (zip base (assigment p)) ≤ maxPlayersPerTeam d)).
Proof.
  unfold FindProposal. intros H. destruct (FindProposal_from _ _ _ _) as [q| | | |] eqn:E; try done. simplify_eq/=.
  split; [apply sort_by_join_Permutation|]. split; [apply sort_by_join_sorted|].
  destruct (answer_inv _ _ _ _ _ E) as [[Ha _]|(Hs & Hq & Hg & Hlt)].
  - left. rewrite Ha. cbn. by rewrite length_replicate.
  - right. split; [done|]. split; [|intros team Ht; rewrite Hq in Hg; by apply (quality_fits (set_timestamp d now))].
    intros i team Hi Ht. destruct (sound_allowed _ _ _ Hs i team Hi) as [->|(g & Hb & Hj)]; [done|].
    exists g. split; [done|]. apply list_elem_of_filter in Hj as [Hj _]. unfold is_team in Ht. b2p.
    rewrite (proj2 (Z.ltb_lt team _)) in Hj by done. cbn in Hj. by b2p.
Qed.

(** C18: With at most four groups in the queue the search is exhaustive: no assignment of
    them all, to teams they can join or to wait, has a better quality than the answer. *)
Theorem FindProposal_optimal d now groups base p l :
  (0 < length groups ≤ 4)%nat → FindProposal d now groups = Ok (base, p) → length l = length base →
  (∀ i g, base !! i = Some g → ∃ team, l !! i = Some team ∧ team ∈ teams_of CanJoinBGTeam g) →
  f64_ltb (quality p) (CalculateProposalQuality (set_timestamp d now) base l) = false.
Proof.
  unfold FindProposal. intros Hn H Hl Hc. destruct (FindProposal_from _ _ _ _) as [q| | | |] eqn:E; try done. simplify_eq/=.
  assert (length (sort_by_join groups) = length groups) as Hlen by (by rewrite sort_by_join_Permutation).
  eapply answer_exhaustive; [|exact E|apply completes_new; [|done..]]; lia.
Qed.

(** C24: The search for an arena of single players comes to an end, for whatever groups,
    when the configuration gives the match that nobody plays a quality that is a number. *)
Theorem ArenaFindProposal_returns SIZE w groups :
  f64_ltb f64_neg_infinity (ArenaProposalQuality SIZE w (getMSTime w) false [] []) = true →
  ∃ base p, ArenaFindProposal SIZE w groups = Ok (base, p).
Proof.
  intros Hg. unfold ArenaFindProposal.
  destruct (answer_exists (sort_by_join groups) (λ _ _, true) (ArenaProposalQuality SIZE w (getMSTime w) false (sort_by_join groups))
    (ArenaProposalQuality SIZE w 0 false (sort_by_join groups))) as [p ->]; [| |cbn; eauto].
  - intros l l' Hl. by rewrite (arena_quality_same _ _ _ _ _ l l').
  - rewrite <- (arena_quality_same _ _ _ _ _ [] _) by apply nobody_plays.
    unfold good, ArenaProposalQuality in *. rewrite zip_with_nil_r. exact Hg.
Qed.

(** The search for battlegrounds comes to an end when the empty battleground has a
    quality that is a number and the factor for the waiting time never decides whether a
    quality is one. *)
Theorem FindProposal_returns d now groups :
  (∀ l, let s := all_sums (set_timestamp d now) (sort_by_join groups) l in
        f64_ltb f64_neg_infinity (weigh (match_quality (set_timestamp d now) s) (patience (wait s)) CONFIG_BG_MATCHMAKING_WAIT) = true ↔
        f64_ltb f64_neg_infinity (match_quality (set_timestamp d now) s) = true) →
  f64_ltb f64_neg_infinity (CalculateProposalQuality (set_timestamp d now) (sort_by_join groups) []) = true →
  ∃ base p, FindProposal d now groups = Ok (base, p).
Proof.
  intros Hw Hg. unfold FindProposal.
  destruct (answer_exists (sort_by_join groups) CanJoinBGTeam (CalculateProposalQuality (set_timestamp d now) (sort_by_join groups))
    (CalculateProposalQuality d (sort_by_join groups))) as [p ->]; [| |cbn; eauto].
  - intros l l' Hl. by apply quality_same.
  - eapply quality_same; [done|apply nobody_plays|exact Hg].
Qed.

(** C40: But when no assignment has a quality above minus infinity (as with a
    [ArenaMatchmaking.MaxPremadeDiff] of 0), the search never ends, however long it
    runs: the server hangs. *)
Theorem search_hangs (base : list GroupView) CanJoin Quality fuel :
  base ≠ [] → (∀ l, f64_ltb f64_neg_infinity (Quality l) = false) →
  find_loop base CanJoin Quality fuel (new_Proposal base) (new_Proposal base) = OutOfFuel.
Proof.
  intros Hb HQ. apply find_loop_stuck; [|done|apply sound_fresh|].
  - intros l Hl. unfold good in Hl. by rewrite HQ in Hl.
  - destruct base; [done|]. cbn. unfold PERFORMANCE_GROUPS_PER_ITERATION. lia.
Qed.

(** Removing a player from a queue, and with a rated team that is not invited yet all of
    its members, comes to an end in every state: every step takes somebody out. *)
Theorem RemovePlayer_returns q guid decreaseInvitedCount w :
  RemovePlayer q guid decreaseInvitedCount w ≠ OutOfFuel.
Proof. unfold RemovePlayer, queue_at, mbind, ST_bind. cbn. by apply remove_all_returns. Qed.

(** C28: The ring of waiting times is what it stands for: after any invitations the average
    shown is that of the last ten waiting times; but none is shown before there are ten,
    nor as long as the wait that completed the last ten of them was 0. *)
Theorem average_of_last_ten Q g bracket ts :
  waits_of Q (wait_team g) bracket = foldl add_wait_time no_waits ts →
  GetAverageQueueWaitTime Q g bracket =
    if (length ts <? 10)%nat || (default 0 (ts !! (10 * (length ts `div` 10) - 1)%nat) =? 0) then 0
    else u32 (sum (drop (length ts - 10) ts)) / 10.
Proof.
  intros Hw. unfold GetAverageQueueWaitTime. rewrite Hw. destruct (waits_last_ten ts) as [[Hl Hi Hs] Hu].
  destruct (waits_tenth ts) as [-> _]. cbn [default from_option]. unfold completing. destruct (Nat.ltb_spec (length ts) 10); [done|].
  cbn [orb]. unfold id. case_bool; [done|]. assert (last_ten ts = drop (length ts - 10) ts) as Ht.
  { unfold last_ten. rewrite drop_app_ge by (rewrite length_replicate; lia). by rewrite length_replicate. }
  by rewrite Hs, <- unroll_Permutation, Hu, Ht.
Qed.

(** C31: The two teams of a rated match are found as they should be: the first that is free
    and close enough on each side; both of one side when there is none on the other; and
    nothing when there are not two. *)
Theorem find_teams_correct w Q bracket ok :
  find_teams w Q bracket ok =
  two_teams (those ok (queued Q bracket BG_QUEUE_PREMADE_ALLIANCE)) (those ok (queued Q bracket BG_QUEUE_PREMADE_HORDE)).
Proof.
  unfold find_teams. set (la := queued Q bracket BG_QUEUE_PREMADE_ALLIANCE). set (lh := queued Q bracket BG_QUEUE_PREMADE_HORDE).
  destruct (find ok la) as [a|] eqn:Ea; destruct (find ok lh) as [h|] eqn:Eh.
  - rewrite find_those in Ea, Eh. two_cases ok la lh.
  - rewrite find_those, (after_those _ _ _ Ea). rewrite find_those in Ea, Eh. two_cases ok la lh.
  - rewrite find_those, (after_those _ _ _ Eh). rewrite find_those in Ea, Eh. two_cases ok la lh.
  - rewrite find_those in Ea, Eh. two_cases ok la lh.
Qed.

(** An update that was asked for is the update that is done: the five numbers are read
    back from the 64 bits they are packed into. *)
Theorem schedule_roundtrip mmr arenaType queue type bracket :
  in_u32 mmr → in_u8 arenaType → in_u8 queue → in_u8 type → in_u8 bracket →
  let id := scheduleId mmr arenaType queue type bracket in
  in_u64 id ∧
  run_scheduled id = (if type =? BATTLEGROUND_AA then BattlegroundQueueUpdate queue type bracket arenaType (0 <? mmr) mmr
                      else if is_bg_type type then _ ← BattlegroundMatchmaking queue type bracket; skip else skip).
Proof.
  intros Hm Ha Hq Ht Hb id. destruct (scheduleId_fields mmr arenaType queue type bracket) as (E & H1 & H2 & H3 & H4 & H5); [done..|].
  split; [exact E|]. unfold run_scheduled, id. by rewrite H1, H2, H3, H4, H5.
Qed.

(** Invitations to the arenas of single players never expire: the event that should
    withdraw one is made for the queue of 3v3 teams, and changes nothing when it runs
    because the player is not in that queue. *)
Theorem solo_invitation_never_expires w guid id type removeTime :
  m_QueuedPlayers (queue_of w BATTLEGROUND_QUEUE_3v3) !! guid = None →
  let queue := BGQueueTypeId w BATTLEGROUND_AA ARENA_TYPE_3v3 0 in
  queue = BATTLEGROUND_QUEUE_3v3 ∧ Execute (BGQueueRemoveEvent guid id type queue removeTime) w = Ok (tt, w).
Proof.
  intros H queue. split; [done|]. subst queue. unfold Execute, mbind, ST_bind. cbn [get obind].
  destruct (players w !! guid) as [p|]; [|done]. case_bool; [|done].
  unfold IsPlayerInvited, lift. change (BGQueueTypeId w BATTLEGROUND_AA ARENA_TYPE_3v3 0) with BATTLEGROUND_QUEUE_3v3. by rewrite H.
Qed.
End theorems.

(** A rated arena needs no team: two players that join the queue of 2v2 alone, each for
    the team it belongs to, are matched, and play a rated match of one against one. *)
Theorem rated_arena_alone :
  answered alone = true ∧
  ∃ b g h, battlegrounds (after_all alone) !! 1 = Some b ∧ m_IsRated b = true ∧ m_ArenaTeamIds b = (21, 22) ∧
    (m_InvitedAlliance b, m_InvitedHorde b) = (1, 1) ∧
    groups (after_all alone) !! 1000 = Some g ∧ Players g = {[1]} ∧ groups (after_all alone) !! 1001 = Some h ∧ Players h = {[3]}.
Proof. split; [vm_compute; reflexivity|]. do 3 eexists. split_and!; vm_compute; reflexivity. Qed.

(** ** Witnesses *)

Lemma demo_templates type t :
  templates demo_world !! type = Some t → playerData (mmData t) = both ∅ ∧ 0 ≤ maxPlayersPerTeam (mmData t).
Proof.
  unfold demo_world. cbn [templates]. intros Ht.
  repeat (apply lookup_insert_Some in Ht as [[_ <-]|[_ Ht]]; [done|]). by apply lookup_singleton_Some in Ht as [_ <-].
Qed.
Lemma never_overfilled_witness : ∃ b, battlegrounds (after_all gulch) !! 1 = Some b ∧
  Z.of_nat (size (of_team (playerData (mmData b)) TEAM_ALLIANCE)) ≤ maxPlayersPerTeam (mmData b).
Proof.
  eexists. split; [vm_compute; reflexivity|].
  apply (never_overfilled gulch demo_world (after_all gulch) 1); [done|exact demo_templates| | | |done].
  - apply bg_after_run. vm_compute. reflexivity.
  - vm_compute. reflexivity.
  - vm_compute. discriminate.
Defined.

Lemma FindProposal_answer_witness : (proposal_of four).1 ≡ₚ four ∧ assigment (proposal_of four).2 = [0; 0; 1; 1].
Proof.
  split; [|vm_compute; reflexivity]. apply (FindProposal_answer _ _ _ _ _ proposal_of_four).
Defined.
Lemma FindProposal_optimal_witness :
  f64_ltb (quality (proposal_of four).2) (CalculateProposalQuality (set_timestamp (new_matchmaking 4) 100) (proposal_of four).1 [0; 1; 1; 0]) = false.
Proof.
  apply (FindProposal_optimal _ _ four); [cbn; lia|exact proposal_of_four|done|].
  intros i g Hg. assert (i < 4)%nat as Hi by (apply lookup_lt_Some in Hg; exact Hg).
  destruct i as [|[|[|[|]]]]; [..|lia]; vm_compute in Hg; injection Hg as <-; eexists; (split; [reflexivity|]);
    apply list_elem_of_In; vm_compute; tauto.
Defined.
Lemma ArenaFindProposal_returns_witness : ∃ base p, ArenaFindProposal 3 demo_world four = Ok (base, p).
Proof. apply ArenaFindProposal_returns. vm_compute. reflexivity. Defined.

Lemma no_team t : t ≠ 0 → t ≠ 1 → is_team t = false.
Proof. unfold is_team, BG_TEAMS_COUNT. intros. destruct (Z.leb_spec 0 t), (Z.ltb_spec t 2); try done. lia. Qed.
(** With one group there are three assignments. *)
Ltac one_group l :=
  destruct l as [|t l]; [vm_compute; tauto || reflexivity|];
  destruct (decide (t = 0)) as [->|]; [destruct l; vm_compute; tauto || reflexivity|];
  destruct (decide (t = 1)) as [->|]; [destruct l; vm_compute; tauto || reflexivity|].
Lemma FindProposal_returns_witness : ∃ base p, FindProposal (new_matchmaking 4) 100 [single 1 ALLIANCE 10 1500] = Ok (base, p).
Proof.
  apply FindProposal_returns; [|vm_compute; reflexivity]. intros l. one_group l.
  unfold all_sums. destruct l; cbn; rewrite (no_team t) by done; vm_compute; tauto.
Defined.
Lemma search_hangs_witness :
  find_loop [single 1 ALLIANCE 10 1500] (λ _ _, true) (ArenaProposalQuality (BE := hanging_env) 3 demo_world 100 false [single 1 ALLIANCE 10 1500])
    1000 (new_Proposal [single 1 ALLIANCE 10 1500]) (new_Proposal [single 1 ALLIANCE 10 1500]) = OutOfFuel.
Proof.
  apply search_hangs; [done|]. intros l. one_group l.
  unfold ArenaProposalQuality. destruct l; cbn [zip_with foldl]; unfold arena_group at 1; cbn [mbind option_bind];
    rewrite (no_team t) by done; vm_compute; reflexivity.
Defined.

(** Twelve waits; and nine of a minute and none: nothing is shown. *)
Lemma average_of_last_ten_witness :
  GetAverageQueueWaitTime (set_m_WaitTime empty_queue {[(0, 14) := foldl add_wait_time no_waits (seqZ 1 12)]}) no_group 14 = 75 / 10 ∧
  GetAverageQueueWaitTime (set_m_WaitTime empty_queue {[(0, 14) := foldl add_wait_time no_waits (replicate 9 60000 ++ [0])]}) no_group 14 = 0.
Proof.
  split; [apply (average_of_last_ten _ _ _ (seqZ 1 12))|apply (average_of_last_ten _ _ _ (replicate 9 60000 ++ [0]))]; vm_compute; reflexivity.
Defined.
Lemma schedule_roundtrip_witness : in_u64 (scheduleId 1500 3 9 6 14).
Proof. apply schedule_roundtrip; done. Defined.
Lemma solo_invitation_never_expires_witness :
  answered solo = true ∧ Execute (BGQueueRemoveEvent 5 1 BATTLEGROUND_AA BATTLEGROUND_QUEUE_3v3 260000) (after_all solo) = Ok (tt, after_all solo).
Proof.
  split; [vm_compute; reflexivity|]. apply (solo_invitation_never_expires (after_all solo) 5 1 BATTLEGROUND_AA 260000). vm_compute. reflexivity.
Defined.

End BgTheorems.
