(* ===== verification/MoveOffers.v ===== *)
(** * Where everything is after a step

    What [take], [put] and [recount] do to the look-ups by position, to the amounts and to
    the places that are offered for other items. *)
From S2P Require Import Prelude StateMonad Items Inventory Storage MoveData MoveOps MoveCalm MoveInvariant MoveSteps.

Module MoveOffers.
Export MoveSteps.

(** Nothing of the kind and number of any item has changed. *)
Definition same_goods (w w' : Mover) : Prop :=
  ∀ q, GetTemplate (mem (pl w') q) = GetTemplate (mem (pl w) q) ∧ GetCount (mem (pl w') q) = GetCount (mem (pl w) q)
       ∧ bag_num_slots (mem (pl w') q) = bag_num_slots (mem (pl w) q).

Lemma total_perm {A} (f : A → Z) l l' : l ≡ₚ l' → total f l = total f l'.
Proof. induction 1; unfold total in *; cbn in *; lia. Qed.
Lemma total_same {A} (f g : A → Z) l : (∀ x, x ∈ l → f x = g x) → total f l = total g l.
Proof.
  induction l as [|a l IH]; intros H; [done|]. unfold total in *. cbn. rewrite (H a) by set_solver. rewrite IH; [done|].
  intros x Hx. apply H. set_solver.
Qed.

Lemma units_same w w' e q : same_goods w w' → units w' e q = units w e q.
Proof. intros H. destruct (H q) as (H1 & H2 & _). unfold units, GetEntry. by rewrite H1, H2. Qed.
Lemma amount_same e L L' w w' : same_goods w w' → held L' w' ≡ₚ held L w → amount e L' w' = amount e L w.
Proof.
  intros H Eh. unfold amount. rewrite (total_perm _ _ _ Eh). apply total_same. intros q _. by apply units_same.
Qed.
Lemma same_goods_IsBag w w' q : same_goods w w' → IsBag (mem (pl w') q) = IsBag (mem (pl w) q).
Proof. intros H. destruct (H q) as (E & _). unfold IsBag. by rewrite E. Qed.
#[export] Instance same_goods_pre : PreOrder same_goods.
Proof.
  split; [by intros ??|]. intros w1 w2 w3 H1 H2 q. destruct (H1 q) as (?&?&?), (H2 q) as (?&?&?). split_and!; congruence.
Qed.
Lemma calm_same_goods w w' : calm w w' → same_goods w w'.
Proof. intros H q. destruct (cm_mem _ _ H q). by split_and!. Qed.

Section places.
Context `{IE : ItemEnv}.

(** ** After taking out *)

Lemma unlink_goods bag slot p w : same_goods w (unlink bag slot p w).
Proof.
  intros q. unfold unlink. destruct (bag =? _); [done|]. destruct (GetBagByPos (pl w) bag) as [b|]; [|done].
  by rewrite bag_put_template, bag_put_count, bag_put_size, mem_box.
Qed.
Lemma reslot_goods p s w : same_goods w (reitem p (λ it, set_m_slot it s) w).
Proof. intros q. rewrite mem_reitem. by destruct (Z.eqb_spec q p) as [->|]. Qed.
Lemma take_goods bag slot p w : same_goods w (take bag slot p w).
Proof. etransitivity; [apply unlink_goods|apply reslot_goods]. Qed.

Section take.
Variables (L : list ptr) (w : Mover) (bag slot : Z) (p : ptr).
Hypothesis HI : Inv L w.
Hypothesis Hp : GetItemByPos (pl w) bag slot = Some p.
Notation w' := (take bag slot p w).

Lemma take_own s : m_items (pl w') !! s = if decide (bag = INVENTORY_SLOT_BAG_0 ∧ s = slot) then None else m_items (pl w) !! s.
Proof.
  unfold take, unlink. cbn. destruct (Z.eqb_spec bag INVENTORY_SLOT_BAG_0) as [->|Hne].
  - rewrite own_put_lookup. destruct (decide (s = slot)) as [->|]; [by rewrite decide_True|by rewrite decide_False by (by intros [_ ?])].
  - rewrite decide_False by (by intros [? _]). destruct (GetBagByPos (pl w) bag); [|done]. cbn. by rewrite pl_box.
Qed.
Lemma take_bag_at bag' :
  GetBagByPos (pl w') bag' = if decide (bag = INVENTORY_SLOT_BAG_0 ∧ bag' = slot) then None else GetBagByPos (pl w) bag'.
Proof.
  unfold GetBagByPos, ToBag. rewrite take_own. destruct (bag_slot bag'); [|by destruct (decide _)].
  destruct (decide _); [done|]. destruct (m_items (pl w) !! bag') as [q|]; [|done].
  by rewrite (same_goods_IsBag _ _ q (take_goods bag slot p w)).
Qed.
Lemma take_contents q j :
  m_bagslot (mem (pl w') q) !! j =
  if decide (bag ≠ INVENTORY_SLOT_BAG_0 ∧ GetBagByPos (pl w) bag = Some q ∧ j = slot) then None else m_bagslot (mem (pl w) q) !! j.
Proof.
  assert (m_bagslot (mem (pl w') q) = m_bagslot (mem (pl (unlink bag slot p w)) q)) as ->.
  { unfold take. rewrite mem_reitem. by destruct (Z.eqb_spec q p) as [->|]. }
  unfold unlink. destruct (Z.eqb_spec bag INVENTORY_SLOT_BAG_0) as [->|Hne].
  { by rewrite decide_False by (by intros [? _]). }
  destruct (GetBagByPos (pl w) bag) as [b|]; [|by rewrite decide_False by (by intros (_ & ? & _))].
  rewrite bag_put_lookup, mem_box. destruct (decide (q = b ∧ j = slot)) as [[-> ->]|Hn]; [by rewrite decide_True|].
  rewrite decide_False; [done|]. intros (_ & [= ->] & ->). by apply Hn.
Qed.
Lemma take_size q : bag_num_slots (mem (pl w') q) = bag_num_slots (mem (pl w) q).
Proof. apply (take_goods bag slot p w q). Qed.

Lemma take_item_at bag' slot' :
  GetItemByPos (pl w') bag' slot' =
  if decide (bag' = bag ∧ slot' = slot) then None
  else if decide (bag = INVENTORY_SLOT_BAG_0 ∧ bag' = slot) then None else GetItemByPos (pl w) bag' slot'.
Proof.
  unfold GetItemByPos. rewrite take_bag_at, take_own. unfold Bag_GetItemByPos, GetBagSize.
  destruct (Z.eqb_spec bag' INVENTORY_SLOT_BAG_0) as [->|Hne]; cbn [andb].
  - destruct (own_slot slot') eqn:Hos.
    + destruct (decide (bag = INVENTORY_SLOT_BAG_0 ∧ slot' = slot)) as [[-> ->]|Hn]; [by rewrite decide_True|].
      rewrite decide_False by (by intros [<- ->]; apply Hn). rewrite decide_False; [done|].
      intros [-> E]. apply (position_own L) in Hp as [Hs _]; [|done]. by rewrite <- E in Hs.
    + by repeat (destruct (decide _)).
  - destruct (decide (bag = INVENTORY_SLOT_BAG_0 ∧ bag' = slot)) as [[-> ->]|Hn].
    { rewrite decide_False by (by intros [? _]). done. }
    destruct (GetBagByPos (pl w) bag') as [b|] eqn:Hb; [|by destruct (decide _)].
    rewrite take_size, take_contents. destruct (decide (bag' = bag ∧ slot' = slot)) as [[-> ->]|Hn2].
    + rewrite Hb, decide_True by done. by destruct (_ <? _).
    + rewrite decide_False; [done|]. intros (Hne' & Hb' & ->). apply Hn2. split; [|done].
      apply (bag_at L) in Hb as (_ & _ & Hb & _), Hb' as (_ & _ & Hb' & _); [|done..]. by eapply own_inj.
Qed.

Lemma take_held : held (p :: L) w' ≡ₚ held L w.
Proof.
  assert (∀ q, inside w' q = inside (unlink bag slot p w) q) as Ei.
  { intros q. unfold inside, take. rewrite mem_reitem. by destruct (Z.eqb_spec q p) as [->|]. }
  assert (held (p :: L) w' = held (p :: L) (unlink bag slot p w)) as ->.
  { unfold held. apply list_bind_ext; [|done]. intros q. unfold tree. by rewrite Ei. }
  unfold unlink. destruct (Z.eqb_spec bag INVENTORY_SLOT_BAG_0) as [->|Hne].
  - apply (position_own L) in Hp as [_ Hs]; [|done]. unfold held. by rewrite <- (roots_own_take L w slot p Hs).
  - apply (position_bag L) in Hp as (b & Hb & Hin & _); [|done..]. rewrite Hb.
    pose proof (bag_is_root _ _ _ _ HI Hb) as Hr. pose proof (iv_inside _ _ HI _ _ _ Hr Hin) as (_ & _ & _ & H4).
    assert (p ≠ b) as Hpb by (by eapply bag_not_inside).
    assert (bag_put b slot None (box p None w) = box p None (bag_put b slot None w)) as ->.
    { unfold box. change (states (bag_put b slot None w)) with (states w). by destruct (states w !! p). }
    assert (∀ w0, held (p :: L) (box p None w0) = held (p :: L) w0) as -> by (intros w0; unfold box; by destruct (states w0 !! p)).
    rewrite held_cons by (by rewrite bag_put_inside). symmetry. apply held_bag_take; [|done..]. by apply nodup_roots.
Qed.
Lemma take_amount e : amount e (p :: L) w' = amount e L w.
Proof. apply amount_same; [apply take_goods|apply take_held]. Qed.
End take.
(** ** After putting in *)

Lemma roots_box L p c w : roots L (box p c w) = roots L w.
Proof. unfold roots, own_ptrs. rewrite pl_box. unfold box. by destruct (states w !! p). Qed.
Lemma put_goods bag slot p w : same_goods w (put bag slot p w).
Proof.
  assert (same_goods w (box p (into w bag) (reitem p (λ it, set_m_slot it slot) w))) as H.
  { intros q. rewrite mem_box. apply reslot_goods. }
  unfold put. destruct (into w bag) as [b|]; [|exact H]. intros q.
  rewrite bag_put_template, bag_put_count, bag_put_size. apply H.
Qed.

Lemma position_inj L w bag slot bag' slot' p :
  Inv L w → GetItemByPos (pl w) bag slot = Some p → GetItemByPos (pl w) bag' slot' = Some p → bag = bag' ∧ slot = slot'.
Proof.
  intros H Hp Hp'. destruct (decide (bag = INVENTORY_SLOT_BAG_0)) as [->|Hne], (decide (bag' = INVENTORY_SLOT_BAG_0)) as [->|Hne'].
  - apply (position_own L) in Hp as [_ Hp], Hp' as [_ Hp']; [|done..]. split; [done|]. by eapply own_inj.
  - exfalso. apply (position_own L) in Hp as [_ Hp]; [|done]. apply (position_bag L) in Hp' as (b & Hb & Hp' & _); [|done..].
    eapply (root_not_inside L w b p H); [by eapply own_root|by eapply bag_is_root|]. apply elem_of_inside. eauto.
  - exfalso. apply (position_own L) in Hp' as [_ Hp']; [|done]. apply (position_bag L) in Hp as (b & Hb & Hp & _); [|done..].
    eapply (root_not_inside L w b p H); [by eapply own_root|by eapply bag_is_root|]. apply elem_of_inside. eauto.
  - apply (position_bag L) in Hp as (b & Hb & Hp & _), Hp' as (b' & Hb' & Hp' & _); [|done..].
    assert (b = b') as <-.
    { eapply (inside_one L w b b' p H); [by eapply bag_is_root..| |]; apply elem_of_inside; eauto. }
    pose proof (bag_is_root _ _ _ _ H Hb) as Hr.
    destruct (iv_inside _ _ H _ _ _ Hr Hp) as (_ & <- & _), (iv_inside _ _ H _ _ _ Hr Hp') as (_ & <- & _). split; [|done].
    apply (bag_at L) in Hb as (_ & _ & Hb & _), Hb' as (_ & _ & Hb' & _); [|done..]. by eapply own_inj.
Qed.
Lemma loose_nowhere p L w bag slot : Inv (p :: L) w → GetItemByPos (pl w) bag slot ≠ Some p.
Proof.
  intros H Hp. destruct (decide (bag = INVENTORY_SLOT_BAG_0)) as [->|Hne].
  - apply (position_own (p :: L)) in Hp as [_ Hp]; [|done]. eapply loose_not_own; [exact H|]. apply elem_of_own. eauto.
  - apply (position_bag (p :: L)) in Hp as (b & Hb & Hp & _); [|done..].
    eapply (root_not_inside (p :: L) w b p H); [apply loose_root; set_solver|by eapply bag_is_root|]. apply elem_of_inside. eauto.
Qed.
Lemma loose_not_bag p L w bag : Inv (p :: L) w → GetBagByPos (pl w) bag ≠ Some p.
Proof.
  intros H (_ & _ & Hb & _)%(bag_at (p :: L)); [|done]. eapply loose_not_own; [exact H|]. apply elem_of_own. eauto.
Qed.
Lemma free_into p L w bag slot :
  Inv (p :: L) w → free_place (pl w) p bag slot → (into w bag = None ↔ bag = INVENTORY_SLOT_BAG_0).
Proof.
  intros H. unfold into. intros [(-> & _)|(Hne & _ & b & Hb & _)]; [done|]. rewrite (proj2 (Z.eqb_neq _ _) Hne), Hb. by split.
Qed.

Section put.
Variables (L : list ptr) (w : Mover) (bag slot : Z) (p : ptr).
Hypothesis HI : Inv (p :: L) w.
Hypothesis Hf : free_place (pl w) p bag slot.
Hypothesis Hnone : GetItemByPos (pl w) bag slot = None.
Notation w' := (put bag slot p w).

Lemma put_own_lookup s :
  m_items (pl w') !! s = if decide (bag = INVENTORY_SLOT_BAG_0 ∧ s = slot) then Some p else m_items (pl w) !! s.
Proof.
  unfold put. pose proof (free_into _ _ _ _ _ HI Hf) as Hn. destruct (into w bag) as [b|].
  - rewrite decide_False by (by intros [?%Hn _]). cbn. by rewrite pl_box.
  - rewrite own_put_lookup, pl_box. cbn. destruct (decide (s = slot)) as [->|].
    + rewrite decide_True; [done|]. split; [|done]. by apply Hn.
    + by rewrite decide_False by (by intros [_ ?]).
Qed.
Lemma put_bag_at bag' : bag ≠ INVENTORY_SLOT_BAG_0 ∨ bag' ≠ slot → GetBagByPos (pl w') bag' = GetBagByPos (pl w) bag'.
Proof.
  intros Hb. unfold GetBagByPos, ToBag. rewrite put_own_lookup. rewrite decide_False by (intros [? ?]; tauto).
  destruct (bag_slot bag'); [|done]. destruct (m_items (pl w) !! bag') as [q|]; [|done].
  by rewrite (same_goods_IsBag _ _ q (put_goods bag slot p w)).
Qed.
Lemma put_contents q j :
  m_bagslot (mem (pl w') q) !! j =
  if decide (into w bag = Some q ∧ j = slot) then Some p else m_bagslot (mem (pl w) q) !! j.
Proof.
  assert (m_bagslot (mem (pl (box p (into w bag) (reitem p (λ it, set_m_slot it slot) w))) q) = m_bagslot (mem (pl w) q)) as E.
  { rewrite mem_box, mem_reitem. by destruct (Z.eqb_spec q p) as [->|]. }
  rewrite <- E. unfold put. destruct (into w bag) as [b|]; [|by rewrite decide_False by (by intros [? _])].
  rewrite bag_put_lookup. destruct (decide (q = b ∧ j = slot)) as [[-> ->]|Hn]; [by rewrite decide_True|].
  rewrite decide_False; [done|]. intros [[= ->] ->]. by apply Hn.
Qed.
Lemma put_size q : bag_num_slots (mem (pl w') q) = bag_num_slots (mem (pl w) q).
Proof. apply (put_goods bag slot p w q). Qed.
Lemma put_item_at bag' slot' :
  bag' ≠ bag ∨ slot' ≠ slot → bag ≠ INVENTORY_SLOT_BAG_0 ∨ bag' ≠ slot →
  GetItemByPos (pl w') bag' slot' = GetItemByPos (pl w) bag' slot'.
Proof.
  intros Hne Hb. unfold GetItemByPos. rewrite put_bag_at, put_own_lookup by done. unfold Bag_GetItemByPos, GetBagSize.
  destruct (Z.eqb_spec bag' INVENTORY_SLOT_BAG_0) as [->|Hne0]; cbn [andb].
  - destruct (own_slot slot'); [|done]. rewrite decide_False; [done|]. intros [-> ->]. tauto.
  - destruct (GetBagByPos (pl w) bag') as [b|] eqn:Hb'; [|done]. rewrite put_size, put_contents. rewrite decide_False; [done|].
    intros [Hi ->]. unfold into in Hi. destruct (Z.eqb_spec bag INVENTORY_SLOT_BAG_0) as [|_]; [done|].
    apply (bag_at (p :: L)) in Hi as (_ & _ & Hi & _), Hb' as (_ & _ & Hb' & _); [|done..].
    destruct Hne as [Hne|?]; [|done]. apply Hne. by eapply own_inj.
Qed.
Lemma put_there : GetItemByPos (pl w') bag slot = Some p.
Proof.
  unfold GetItemByPos. rewrite put_own_lookup. destruct Hf as [(-> & Hos & _)|(Hne & _ & b & Hb & Hbp & Hs)].
  - cbn [andb]. rewrite Hos. cbn. by rewrite decide_True.
  - rewrite (proj2 (Z.eqb_neq _ _) Hne). cbn [andb]. rewrite put_bag_at, Hb by (by left). unfold Bag_GetItemByPos, GetBagSize.
    rewrite put_size, put_contents, (proj2 (Z.ltb_lt _ _) (proj2 Hs)). rewrite decide_True; [done|]. split; [|done].
    unfold into. by rewrite (proj2 (Z.eqb_neq _ _) Hne).
Qed.
Lemma put_held : held L w' ≡ₚ held (p :: L) w.
Proof.
  assert (∀ w0 c q, inside (box p c (reitem p (λ it, set_m_slot it slot) w0)) q = inside w0 q) as Ei.
  { intros w0 c q. unfold inside. rewrite mem_box, mem_reitem. by destruct (Z.eqb_spec q p) as [->|]. }
  set (w1 := box p (into w bag) (reitem p (λ it, set_m_slot it slot) w)).
  assert (∀ L0, held L0 w1 = held L0 w) as Eh.
  { intros L0. unfold held. assert (roots L0 w1 = roots L0 w) as ->.
    { unfold w1. by rewrite roots_box. }
    apply list_bind_ext; [|done]. intros q. unfold tree, w1. by rewrite Ei. }
  assert (m_items (pl w1) = m_items (pl w)) as Em by (unfold w1; by rewrite pl_box).
  unfold put. fold w1. pose proof (free_into _ _ _ _ _ HI Hf) as Hn. destruct (into w bag) as [b|] eqn:Eb.
  - destruct (into_bag _ _ _ _ _ _ HI Hf Eb) as (Hb & Hbp & _ & Hin). rewrite <- Eh.
    rewrite held_cons by (unfold w1; rewrite Ei; by apply inside_nil).
    assert (NoDup (roots (p :: L) w)) as Hnd by (by apply nodup_roots).
    assert (roots (p :: L) w ≡ₚ p :: roots L w) as Er. { unfold roots. cbn. symmetry. apply Permutation_middle. }
    assert (roots L w1 = roots L w) as Er1.
    { unfold w1. by rewrite roots_box. }
    rewrite Er in Hnd, Hb. apply NoDup_cons in Hnd as [_ Hnd]. apply held_bag_put; rewrite ?Er1; [done|set_solver|].
    assert (m_bagslot (mem (pl w1) b) = m_bagslot (mem (pl w) b)) as ->.
    { unfold w1. rewrite mem_box, mem_reitem. by rewrite (proj2 (Z.eqb_neq _ _) Hbp). }
    unfold into in Eb. destruct (Z.eqb_spec bag INVENTORY_SLOT_BAG_0) as [|Hne]; [done|].
    destruct Hf as [(-> & _)|(_ & _ & b' & Hb' & _ & Hs)]; [done|]. rewrite Eb in Hb'. injection Hb' as <-.
    unfold GetItemByPos in Hnone. rewrite (proj2 (Z.eqb_neq _ _) Hne), Eb in Hnone. cbn in Hnone.
    unfold Bag_GetItemByPos, GetBagSize in Hnone. by rewrite (proj2 (Z.ltb_lt _ _) (proj2 Hs)) in Hnone.
  - rewrite <- Eh. unfold held. rewrite (roots_own_put L w1 slot p); [done|]. rewrite Em.
    assert (bag = INVENTORY_SLOT_BAG_0) as Hbag by (by apply Hn). subst bag.
    destruct Hf as [(_ & Hos & _)|(? & _)]; [|done]. unfold GetItemByPos in Hnone. by rewrite Hos in Hnone.
Qed.
Lemma put_amount e : amount e L w' = amount e (p :: L) w.
Proof. apply amount_same; [apply put_goods|apply put_held]. Qed.
End put.
End places.

(** [cnt] of the item can go to [pos]: a free place, or a stack with room; its own place
    counts as free. *)
Record offers (pl : Player) (p : ptr) (pc : ItemPosCount) : Prop := {
  of_cnt : 1 ≤ cnt pc ≤ GetMaxStackSize (GetTemplate (mem pl p));
  of_place : free_place pl p (pos_bag (pos pc)) (pos_slot (pos pc));
  of_room q : item_in_way pl (pos_bag (pos pc)) (pos_slot (pos pc)) (Some p) = Some q →
              GetEntry (mem pl q) = GetEntry (mem pl p) ∧
              GetCount (mem pl q) + cnt pc ≤ GetMaxStackSize (GetTemplate (mem pl p))
}.
(** Different places. *)
Definition apart (pc pc' : ItemPosCount) : Prop :=
  pos_bag (pos pc) ≠ pos_bag (pos pc') ∨ pos_slot (pos pc) ≠ pos_slot (pos pc').

Local Ltac parts := split_and!; try done; try lia.

Section offers.
Context `{IE : ItemEnv}.

Lemma in_way_loose p L w bag slot : Inv (p :: L) w → item_in_way (pl w) bag slot (Some p) = GetItemByPos (pl w) bag slot.
Proof.
  intros H. unfold item_in_way. rewrite bool_decide_eq_false_2; [done|]. by eapply loose_nowhere.
Qed.

Lemma in_way_Some pl bag slot p q : item_in_way pl bag slot (Some p) = Some q ↔ GetItemByPos pl bag slot = Some q ∧ q ≠ p.
Proof.
  unfold item_in_way. destruct (decide (GetItemByPos pl bag slot = Some p)) as [E|E].
  - rewrite bool_decide_eq_true_2, E by done. split; [done|]. intros [[= ->] ?]. done.
  - rewrite bool_decide_eq_false_2 by done. split; [intros H; split; [done|congruence]|by intros []].
Qed.
(** A state with the same places, the same goods, offers the same. *)
Lemma free_place_same w w' p bag slot :
  (∀ b, GetBagByPos (pl w) b = GetBagByPos (pl w') b) → (m_bagslot (mem (pl w) p) = ∅ ↔ m_bagslot (mem (pl w') p) = ∅) →
  same_goods w w' → free_place (pl w) p bag slot → free_place (pl w') p bag slot.
Proof.
  intros Hb Hi Hg [(-> & H1 & H2 & H3 & H4)|(H1 & H2 & b & H3 & H4 & H5)].
  - left. rewrite (same_goods_IsBag _ _ p Hg). destruct (Hg p) as (-> & _). rewrite <- Hi. parts.
  - right. split; [done|]. split; [by apply Hi|]. exists b. rewrite <- Hb. destruct (Hg b) as (_ & _ & ->). parts.
Qed.
Lemma free_place_calm w w' p bag slot : calm w w' → free_place (pl w) p bag slot → free_place (pl w') p bag slot.
Proof.
  intros H. apply free_place_same; [|by rewrite (si_bag _ _ (cm_mem _ _ H p))|by apply calm_same_goods].
  intros b. symmetry. by apply calm_bag_at.
Qed.
Lemma offers_same w w' p pc :
  (∀ b, GetBagByPos (pl w) b = GetBagByPos (pl w') b) → (m_bagslot (mem (pl w) p) = ∅ ↔ m_bagslot (mem (pl w') p) = ∅) →
  GetItemByPos (pl w') (pos_bag (pos pc)) (pos_slot (pos pc)) = GetItemByPos (pl w) (pos_bag (pos pc)) (pos_slot (pos pc)) →
  same_goods w w' → offers (pl w) p pc → offers (pl w') p pc.
Proof.
  intros Hb Hi Hp Hg [H1 H2 H3]. pose proof (Hg p) as (Et & _). split.
  - by rewrite Et.
  - by eapply free_place_same.
  - intros q. unfold item_in_way, GetEntry. rewrite Hp, Et. intros Hq. destruct (Hg q) as (Et' & Ec & _). rewrite Et', Ec. by apply H3.
Qed.
Lemma offers_calm w w' p pc : calm w w' → offers (pl w) p pc → offers (pl w') p pc.
Proof.
  intros H. apply offers_same; [|by rewrite (si_bag _ _ (cm_mem _ _ H p))|by apply calm_item_at|by apply calm_same_goods].
  intros b. symmetry. by apply calm_bag_at.
Qed.

(** *** Taking an item out *)

Section take.
Variables (L : list ptr) (w : Mover) (bag slot : Z) (p : ptr).
Hypothesis HI : Inv L w.
Hypothesis Hp : GetItemByPos (pl w) bag slot = Some p.

Lemma take_inside_nil q : m_bagslot (mem (pl w) q) = ∅ → m_bagslot (mem (pl (take bag slot p w)) q) = ∅.
Proof. intros H. apply map_empty. intros j. rewrite take_contents by done. rewrite H. by destruct (decide _). Qed.
(** The item's own contents stay. *)
Lemma take_inside_self : m_bagslot (mem (pl (take bag slot p w)) p) = m_bagslot (mem (pl w) p).
Proof.
  apply map_eq. intros j. rewrite take_contents by done. rewrite decide_False; [done|]. intros (Hne & Hb & _).
  apply (position_bag L) in Hp as (b & Hb' & Hin & _); [|done..]. rewrite Hb in Hb'. injection Hb' as <-.
  by eapply bag_not_inside in Hin.
Qed.
Lemma free_place_take p' bag' slot' :
  (∀ b, GetBagByPos (pl w) bag' = Some b → b ≠ p) →
  free_place (pl w) p' bag' slot' → free_place (pl (take bag slot p w)) p' bag' slot'.
Proof.
  intros Hne [(-> & H1 & H2 & H3 & H4)|(H1 & H2 & b & H3 & H4 & H5)].
  - left. rewrite (same_goods_IsBag _ _ p' (take_goods bag slot p w)). destruct (take_goods bag slot p w p') as (-> & _).
    parts. intros Hx. apply H4. intros E. by apply Hx, take_inside_nil.
  - right. split; [done|]. split; [by apply take_inside_nil|]. exists b. rewrite take_bag_at, take_size by done.
    rewrite decide_False; [parts|]. intros [-> ->]. apply (Hne b H3).
    apply (bag_at L) in H3 as (_ & _ & H3 & _); [|done]. apply (position_own L) in Hp as [_ Hp']; [|done]. congruence.
Qed.
(** Offers hold when an item is out that is not the bag of the place; for the item itself
    in particular. *)
Lemma offers_take_other p' pc :
  (∀ b, GetBagByPos (pl w) (pos_bag (pos pc)) = Some b → b ≠ p) → offers (pl w) p' pc → offers (pl (take bag slot p w)) p' pc.
Proof.
  intros Hb [H1 H2 H3]. destruct (take_goods bag slot p w p') as (Et & _). split.
  - by rewrite Et.
  - by apply free_place_take.
  - intros q Hq. destruct (take_goods bag slot p w q) as (Et' & Ec & _). unfold GetEntry. rewrite Et, Et', Ec. apply H3.
    apply in_way_Some in Hq as [Hq Hqp]. apply in_way_Some. split; [|done]. rewrite (take_item_at L) in Hq by done.
    destruct (decide (_ ∧ _)); [done|]. by destruct (decide _).
Qed.
Lemma offers_take pc : offers (pl w) p pc → offers (pl (take bag slot p w)) p pc.
Proof.
  intros H. apply offers_take_other; [|done]. intros b Hb. destruct (of_place _ _ _ H) as [(E & _)|(_ & _ & b' & Hb' & Hn & _)]; [|congruence].
  by rewrite E in Hb.
Qed.
End take.

(** *** Putting another item in *)

Section put.
Variables (L : list ptr) (w : Mover) (a p : ptr) (bag slot : Z).
Hypothesis HI : Inv (a :: p :: L) w.
Hypothesis Hf : free_place (pl w) a bag slot.
Hypothesis Hnone : GetItemByPos (pl w) bag slot = None.

Lemma loose_apart : a ≠ p.
Proof.
  intros ->. pose proof (nodup_roots _ _ HI) as Hn. unfold roots in Hn. apply NoDup_app in Hn as (_ & _ & Hn).
  cbn in Hn. apply NoDup_cons in Hn as [Hn _]. set_solver.
Qed.
Lemma second_loose : Inv (p :: a :: L) w.
Proof. eapply Inv_perm; [|exact HI]. apply Permutation_swap. Qed.
Lemma put_inside_other : m_bagslot (mem (pl (put bag slot a w)) p) = m_bagslot (mem (pl w) p).
Proof.
  apply map_eq. intros j. rewrite put_contents. rewrite decide_False; [done|]. intros [Hi _]. unfold into in Hi.
  destruct (bag =? _); [done|]. by eapply loose_not_bag in Hi; [|exact second_loose].
Qed.
Lemma put_no_bag bag' b : GetBagByPos (pl w) bag' = Some b → bag ≠ INVENTORY_SLOT_BAG_0 ∨ bag' ≠ slot.
Proof.
  intros Hb. destruct (decide (bag = INVENTORY_SLOT_BAG_0)) as [->|]; [right|by left]. intros ->.
  apply (bag_at (a :: p :: L)) in Hb as (_ & Hos & Hb & _); [|done]. unfold GetItemByPos in Hnone. rewrite Hos in Hnone. cbn in Hnone. congruence.
Qed.
Lemma free_place_put bag' slot' : free_place (pl w) p bag' slot' → free_place (pl (put bag slot a w)) p bag' slot'.
Proof.
  intros [(-> & H1 & H2 & H3 & H4)|(H1 & H2 & b & H3 & H4 & H5)].
  - left. rewrite (same_goods_IsBag _ _ p (put_goods bag slot a w)). destruct (put_goods bag slot a w p) as (-> & _).
    rewrite put_inside_other. parts.
  - right. rewrite put_inside_other. split; [done|]. split; [done|]. exists b. rewrite put_size.
    rewrite (put_bag_at (p :: L) w bag slot a HI Hf); [parts|by eapply put_no_bag].
Qed.
Lemma offers_put pc :
  pos_bag (pos pc) ≠ bag ∨ pos_slot (pos pc) ≠ slot → offers (pl w) p pc → offers (pl (put bag slot a w)) p pc.
Proof.
  intros Hne [H1 H2 H3]. destruct (put_goods bag slot a w p) as (Et & _). split; [by rewrite Et|by apply free_place_put|].
  intros q Hq. destruct (put_goods bag slot a w q) as (Et' & Ec & _). unfold GetEntry. rewrite Et, Et', Ec. apply H3.
  unfold item_in_way in *. rewrite (put_item_at (p :: L)) in Hq; try done.
  destruct H2 as [(-> & _ & Hs & _)|(_ & _ & b & Hb & _)]; [|by eapply put_no_bag].
  destruct (decide (bag = INVENTORY_SLOT_BAG_0)) as [->|]; [right|by left]. intros <-.
  destruct Hf as [(_ & _ & Hs' & _)|(? & _)]; [|done]. unfold INVENTORY_SLOT_BAG_0, PLAYER_SLOT_END in *. lia.
Qed.
End put.

(** *** Another number in a stack *)

Definition recount (q : ptr) (n : Z) : Mover → Mover := reitem q (λ it, set_GetCount it n).

Section recount.
Variables (L : list ptr) (w : Mover) (q : ptr) (n : Z).
Notation w' := (recount q n w).

Lemma recount_kind x : GetTemplate (mem (pl w') x) = GetTemplate (mem (pl w) x).
Proof. unfold recount. rewrite mem_reitem. by destruct (Z.eqb_spec x q) as [->|]. Qed.
Lemma recount_count x : GetCount (mem (pl w') x) = if x =? q then n else GetCount (mem (pl w) x).
Proof. unfold recount. rewrite mem_reitem. by destruct (Z.eqb_spec x q) as [->|]. Qed.
Lemma recount_size x : bag_num_slots (mem (pl w') x) = bag_num_slots (mem (pl w) x).
Proof. unfold recount. rewrite mem_reitem. by destruct (Z.eqb_spec x q) as [->|]. Qed.
Lemma recount_contents x : m_bagslot (mem (pl w') x) = m_bagslot (mem (pl w) x).
Proof. unfold recount. rewrite mem_reitem. by destruct (Z.eqb_spec x q) as [->|]. Qed.
Lemma recount_bag_at bag : GetBagByPos (pl w') bag = GetBagByPos (pl w) bag.
Proof.
  unfold GetBagByPos, ToBag, IsBag. change (m_items (pl w')) with (m_items (pl w)). destruct (bag_slot bag); [|done].
  destruct (m_items (pl w) !! bag); [|done]. by rewrite recount_kind.
Qed.
Lemma recount_item_at bag slot : GetItemByPos (pl w') bag slot = GetItemByPos (pl w) bag slot.
Proof.
  unfold GetItemByPos. rewrite recount_bag_at. change (m_items (pl w')) with (m_items (pl w)).
  destruct (_ && _); [done|]. destruct (GetBagByPos (pl w) bag); [|done]. unfold Bag_GetItemByPos, GetBagSize.
  by rewrite recount_size, recount_contents.
Qed.
Lemma recount_held : held L w' = held L w.
Proof. apply reitem_held. by split. Qed.
Lemma Inv_recount : Inv L w → 1 ≤ n ≤ GetMaxStackSize (GetTemplate (mem (pl w) q)) → Inv L w'.
Proof. intros H Hn. apply Inv_reitem; [by split|done|done|by left]. Qed.
Lemma recount_amount e :
  Inv L w → q ∈ held L w →
  amount e L w' = amount e L w + (if GetEntry (mem (pl w) q) =? e then n - GetCount (mem (pl w) q) else 0).
Proof.
  intros H Hq. unfold amount. rewrite recount_held. pose proof (iv_nodup _ _ H) as Hn. apply elem_of_Permutation in Hq as (R & E).
  rewrite E in Hn. apply NoDup_cons in Hn as [Hn _]. rewrite (total_perm _ _ _ E), (total_perm (units w e) _ _ E).
  assert (total (units w' e) R = total (units w e) R) as ER.
  { apply total_same. intros x Hx. unfold units, GetEntry. rewrite recount_kind, recount_count.
    destruct (Z.eqb_spec x q) as [->|]; [by destruct Hn|done]. }
  unfold total in *. cbn. rewrite ER. unfold units, GetEntry. rewrite recount_kind, recount_count, Z.eqb_refl.
  destruct (ItemId _ =? e); lia.
Qed.
Lemma free_place_recount p bag slot : free_place (pl w) p bag slot → free_place (pl w') p bag slot.
Proof.
  unfold free_place, IsBag. rewrite recount_kind, recount_contents, recount_bag_at.
  intros [H|(H1 & H2 & b & H3 & H4 & H5)]; [by left|right]. split_and!; [done|done|]. exists b. rewrite recount_size. parts.
Qed.
Lemma offers_recount p pc :
  item_in_way (pl w) (pos_bag (pos pc)) (pos_slot (pos pc)) (Some p) ≠ Some q → offers (pl w) p pc → offers (pl w') p pc.
Proof.
  intros Hne [H1 H2 H3]. split; [by rewrite recount_kind|by apply free_place_recount|].
  intros x. unfold item_in_way, GetEntry in *. rewrite recount_item_at, !recount_kind, recount_count. intros Hx.
  destruct (Z.eqb_spec x q) as [->|]; [done|]. by apply H3.
Qed.
End recount.
Lemma calm_recount w w' q n : calm w w' → calm (recount q n w) (recount q n w').
Proof. intros H. apply calm_reitem; [done|]. by destruct (cm_mem _ _ H q). Qed.

(** *** A new item *)

Section create.
Variables (L : list ptr) (w : Mover) (it : Item) (st : ItemState).
Hypothesis HI : Inv L w.
Notation new := (next_address w).
Notation w' := (create it st w).

Lemma own_not_new s : m_items (pl w) !! s ≠ Some new.
Proof. intros Hs. eapply (fresh_held L w HI new); [|done]. by eapply root_held, own_root. Qed.
Lemma create_bag_at bag : GetBagByPos (pl w') bag = GetBagByPos (pl w) bag.
Proof.
  unfold GetBagByPos, ToBag. change (m_items (pl w')) with (m_items (pl w)). destruct (bag_slot bag); [|done].
  destruct (m_items (pl w) !! bag) as [b|] eqn:E; [|done]. rewrite create_mem; [done|]. intros ->. by eapply own_not_new.
Qed.
Lemma create_item_at bag slot : GetItemByPos (pl w') bag slot = GetItemByPos (pl w) bag slot.
Proof.
  unfold GetItemByPos. rewrite create_bag_at. change (m_items (pl w')) with (m_items (pl w)). destruct (_ && _); [done|].
  destruct (GetBagByPos (pl w) bag) as [b|] eqn:E; [|done]. rewrite create_mem; [done|]. intros ->.
  apply (bag_at L) in E as (_ & _ & E & _); [|done]. by eapply own_not_new.
Qed.
Lemma item_at_not_new bag slot q : GetItemByPos (pl w) bag slot = Some q → q ≠ new.
Proof. intros Hq. eapply fresh_held; [exact HI|]. by eapply position_held. Qed.
Lemma create_amount e :
  m_bagslot it = ∅ → amount e (new :: L) w' = amount e L w + (if GetEntry it =? e then GetCount it else 0).
Proof.
  intros Hb. unfold amount. rewrite (total_perm (units w' e) _ _ (held_cons L w' new (create_inside_new w it st Hb))).
  rewrite (create_held L w it st HI Hb). unfold total. cbn. fold (total (units w' e) (held L w)).
  assert (total (units w' e) (held L w) = total (units w e) (held L w)) as E.
  { apply total_same. intros x Hx. unfold units. rewrite create_mem; [done|]. by eapply fresh_held. }
  unfold total in *. rewrite E. unfold units. rewrite create_mem_new by done. lia.
Qed.
Lemma offers_create p pc : p ≠ new → offers (pl w) p pc → offers (pl w') p pc.
Proof.
  intros Hp [H1 H2 H3]. split; [by rewrite create_mem| |].
  - unfold free_place in *. rewrite create_mem, create_bag_at by done. destruct H2 as [?|(A & B & b & C & D & E)]; [by left|right].
    split_and!; [done|done|]. exists b. rewrite create_mem; [parts|]. intros ->. apply (bag_at L) in C as (_ & _ & C & _); [|done].
    by eapply own_not_new.
  - intros q. unfold item_in_way. rewrite create_item_at. intros Hq. rewrite !create_mem; [by apply H3|done|].
    case_bool; [done|]. by eapply item_at_not_new.
Qed.
(** What is offered to an item is offered to its clone. *)
Lemma offers_clone p pc :
  (∀ bag slot, GetItemByPos (pl w) bag slot ≠ Some p) → GetTemplate it = GetTemplate (mem (pl w) p) → m_bagslot it = ∅ →
  offers (pl w) p pc → offers (pl w') new pc.
Proof.
  intros Hl Ht Hb [H1 H2 H3]. split; rewrite ?create_mem_new.
  - by rewrite Ht.
  - unfold free_place in *. rewrite create_mem_new, create_bag_at, Hb. unfold IsBag in *. rewrite Ht.
    destruct H2 as [(A & B & C & D & E)|(A & B & b & C & D & E)]; [by left|right].
    split_and!; [done|done|]. exists b. assert (b ≠ new) as Hbn.
    { intros ->. apply (bag_at L) in C as (_ & _ & C & _); [|done]. by eapply own_not_new. }
    rewrite create_mem by done. parts.
  - intros q [Hq _]%in_way_Some. rewrite create_item_at in Hq. rewrite create_mem by (by eapply item_at_not_new).
    unfold GetEntry. rewrite Ht. apply H3. apply in_way_Some. split; [done|]. intros ->. by eapply Hl.
Qed.
End create.
End offers.
End MoveOffers.
