(* ===== verification/MoveWear.v ===== *)
(** * Storing, wearing and taking out: the operations of the inventory

    What _StoreItem and StoreItem, EquipItem and RemoveItem come to, and the state changes
    that delete an item. *)
From S2P Require Import Prelude StateMonad Items Inventory Storage MoveData MoveOps MoveCalm MoveInvariant MoveSteps MoveOffers.

Module MoveWear.
Export MoveOffers.

(** What the item templates of the world database must be like: found under their own
    entry, stack sizes in range, and bags do not stack. *)
Record templates_ok `{IE : ItemEnv} : Prop := {
  tk_id e t : item_templates !! e = Some t → ItemId t = e;
  tk_stack e t : item_templates !! e = Some t → in_s32 (Stackable t);
  tk_max e t : item_templates !! e = Some t → in_s32 (MaxCount t);
  tk_bag e t : item_templates !! e = Some t → InventoryType t = INVTYPE_BAG → GetMaxStackSize t = 1
}.

(** ** Items that go *)

(** Nothing but the state of an item and what is in it has changed. *)
Record gone (p : ptr) (w w' : Mover) : Prop := {
  gn_pl : pl w' = pl w;
  gn_address : next_address w' = next_address w;
  gn_guid : next_guid w' = next_guid w;
  gn_mailed : mailed w' = mailed w;
  gn_buyback : m_currentBuybackSlot w' = m_currentBuybackSlot w;
  gn_states q : q ∉ tree w p → states w' !! q = states w !! q
}.
(** Calm steps, and then the item is gone. *)
Definition goes (p : ptr) (w w' : Mover) : Prop := ∃ w1, calm w w1 ∧ gone p w1 w'.

Section store.
Context `{IE : ItemEnv} `{ME : MoveEnv}.

Lemma goes_Inv L w w' p : goes p w w' → Inv (p :: L) w → Inv L w'.
Proof. intros (w1 & Hc & []) H. apply (calm_Inv _ _ _ Hc) in H. by eapply Inv_gone. Qed.
Lemma gone_same_goods w w' p : gone p w w' → same_goods w w'.
Proof. intros [E _ _ _ _ _] q. by rewrite E. Qed.
Lemma goes_same_goods w w' p : goes p w w' → same_goods w w'.
Proof.
  intros (w1 & Hc & Hg). etransitivity; [by apply calm_same_goods|by eapply gone_same_goods].
Qed.
Lemma goes_item_at w w' p bag slot : goes p w w' → GetItemByPos (pl w') bag slot = GetItemByPos (pl w) bag slot.
Proof. intros (w1 & Hc & []). rewrite gn_pl0. by apply calm_item_at. Qed.
Lemma goes_offers w w' p p' pc : goes p w w' → offers (pl w) p' pc → offers (pl w') p' pc.
Proof. intros (w1 & Hc & []) H. rewrite gn_pl0. by eapply offers_calm. Qed.
Lemma goes_held L w w' p : goes p w w' → held L w' = held L w.
Proof.
  intros (w1 & Hc & []). rewrite (calm_held L w w1 Hc). unfold held, roots, own_ptrs. rewrite gn_pl0, gn_mailed0.
  apply list_bind_ext; [|done]. intros q. unfold tree, inside. by rewrite gn_pl0.
Qed.
Lemma goes_amount e L w w' p : inside w p = [] → goes p w w' → amount e L w' = amount e (p :: L) w - units w e p.
Proof.
  intros Hi H. assert (amount e L w' = amount e L w) as ->.
  { apply amount_same; [by eapply goes_same_goods|]. by rewrite (goes_held L w w' p). }
  unfold amount. rewrite (total_perm _ _ _ (held_cons L w p Hi)). unfold total. cbn. lia.
Qed.
Lemma goes_calm w0 w w' p : calm w0 w → goes p w w' → goes p w0 w'.
Proof. intros H (w1 & Hc & Hg). exists w1. split; [by transitivity w|done]. Qed.

(** *** delete *)

Lemma wp_delete_leaf fuel c w :
  live w c → m_bagslot (mem (pl w) c) = ∅ → wp (delete_object (S fuel) c) (λ _ w', w' = set_states w (delete c (states w))) w.
Proof.
  intros Hl Hb. cbn [delete_object]. apply wp_item_at; [done|]. apply wp_bind, wp_modify. rewrite Hb.
  by destruct (IsBag _).
Qed.
Lemma gone_delete p w : gone p w (set_states w (delete p (states w))).
Proof. split; try done. intros q Hq. cbn. rewrite lookup_delete_ne; [done|]. intros ->. apply Hq. unfold tree. set_solver. Qed.

(** The contents of a deleted bag, one after the other. *)
Lemma wp_delete_contents fuel w w1 p l :
  gone p w w1 → (∀ c, c ∈ l → c ∈ tree w p ∧ live w1 c ∧ m_bagslot (mem (pl w) c) = ∅) → NoDup l →
  wp (for_each l (delete_object (S fuel))) (λ _, gone p w) w1.
Proof.
  intros Hg Hl Hn. eapply wp_mono.
  - apply (wp_for_each l _ (λ rest w', gone p w w' ∧ NoDup rest ∧ (∀ c, c ∈ rest → c ∈ tree w p ∧ live w' c ∧ m_bagslot (mem (pl w) c) = ∅))).
    + intros c rest w2 (Hg2 & [Hc Hn2]%NoDup_cons & Hl2). destruct (Hl2 c) as (H1 & H2 & H3); [set_solver|].
      pose proof (gn_pl _ _ _ Hg2) as Ep.
      eapply wp_mono; [by apply wp_delete_leaf; [|rewrite Ep]|]. cbn. intros _ w3 ->. split; [|split; [done|]].
      * destruct Hg2. split; try done. intros q Hq. cbn. rewrite lookup_delete_ne; [auto|]. by intros ->.
      * intros x Hx. destruct (Hl2 x) as (X1 & (s & X2 & X3) & X4); [set_solver|]. split; [done|]. split; [|done].
        exists s. cbn. rewrite lookup_delete_ne; [done|]. by intros ->.
    + done.
  - cbn. by intros _ w2 (? & _).
Qed.

Lemma wp_delete_root L w p : Inv L w → p ∈ roots L w → wp (delete_item p) (λ _, gone p w) w.
Proof.
  intros H Hr. pose proof (held_mine _ _ _ H (root_held _ _ _ Hr)) as [Hl _]. unfold delete_item. apply wp_get. cbn [delete_object].
  apply wp_item_at; [done|]. apply wp_bind, wp_modify. destruct Hl as (s & Hs & Hu).
  destruct (size (states w)) as [|n] eqn:En.
  { apply map_size_empty_inv in En. rewrite En in Hs. done. }
  destruct (IsBag _) eqn:Eb; [|apply wp_skip, gone_delete].
  assert (NoDup (inside w p)) as Hn.
  { pose proof (iv_nodup _ _ H) as Hn. destruct (held_split _ _ _ Hr) as (R & _ & E). rewrite E in Hn.
    apply NoDup_app in Hn as (Hn & _). by apply NoDup_cons in Hn as [_ Hn]. }
  apply wp_delete_contents; [apply gone_delete| |exact Hn]. intros c Hc. apply elem_of_inside in Hc as Hc'.
  destruct Hc' as (j & Hj). split; [unfold tree; set_solver|].
  destruct (iv_inside _ _ H _ _ _ Hr Hj) as (_ & _ & _ & Hi). split; [|by apply inside_nil].
  assert (c ∈ held L w) as Hh by (by eapply inside_held). pose proof (held_mine _ _ _ H Hh) as [(t & Ht & Hut) _].
  exists t. cbn. rewrite lookup_delete_ne; [done|]. intros <-. by eapply (root_not_inside _ w p p H).
Qed.
Lemma wp_delete_item L w p : Inv (p :: L) w → wp (delete_item p) (λ _, gone p w) w.
Proof. intros H. apply (wp_delete_root (p :: L)); [done|]. apply loose_root. set_solver. Qed.

(** *** SetState(ITEM_REMOVED) *)

Lemma gone_write p s w : gone p w (write_state p s w).
Proof. split; try done. intros q Hq. cbn. rewrite lookup_insert_ne; [done|]. intros ->. apply Hq. unfold tree. set_solver. Qed.
Lemma wp_state_any {B} p s (f : ItemState → MW B) Q w : states w !! p = Some s → wp (f s) Q w → wp (state_at p ≫= f) Q w.
Proof. intros Hs H. apply wp_bind. unfold wp at 1. by rewrite (state_at_Ok _ _ _ Hs). Qed.
Lemma wp_item_any {B} p (f : Item → MW B) Q w :
  is_Some (states w !! p) → wp (f (mem (pl w) p)) Q w → wp (item_at p ≫= f) Q w.
Proof. intros (s & Hs) H. apply wp_bind. unfold item_at. eapply wp_state_any; [exact Hs|]. exact H. Qed.
Lemma gone_AddToUpdateQueueOf p w w1 :
  is_Some (states w1 !! p) → gone p w w1 → wp (AddToUpdateQueueOf p true) (λ _, gone p w) w1.
Proof.
  intros Hs Hg. pose proof Hs as (s & Es). unfold AddToUpdateQueueOf. eapply wp_state_any; [exact Es|].
  destruct (negb _); [done|]. cbn [negb]. apply wp_item_any; [done|]. apply wp_get. destruct (negb _); [done|].
  destruct (m_itemUpdateQueueBlocked w1); [done|]. apply wp_bind, wp_modify.
  unfold upd_state. eapply wp_state_any; [exact Es|]. apply wp_modify. destruct Hg. split; try done.
  intros q Hq. cbn. rewrite lookup_insert_ne; [auto|]. intros ->. apply Hq. unfold tree. set_solver.
Qed.

Lemma wp_SetState_removed_root L w w0 p :
  Inv L w → p ∈ roots L w → calm w0 w → wp (SetState p ITEM_REMOVED true) (λ _, goes p w0) w.
Proof.
  intros H Hr Hc0. pose proof (held_mine _ _ _ H (root_held _ _ _ Hr)) as Hm. pose proof Hm as [(s & Hs & Hu) _].
  unfold SetState. eapply wp_state_any; [exact Hs|]. destruct (bool_decide (uState s = ITEM_NEW ∧ _)) eqn:E.
  - apply wp_item_at; [apply Hm|]. cbn [when]. apply wp_use with (Q := λ _, calm w).
    + assert (calm w w) as Hc by done. still Hc. unfold DeleteRefundReference. apply wp_modify. by transitivity w'.
    + intros _ w1 Hc. eapply wp_mono; [eapply (wp_delete_root L); [by eapply calm_Inv|by rewrite <- (calm_roots L _ _ Hc)]|]. cbn. intros _ w2 Hg.
      exists w1. split; [by transitivity w|done].
  - rewrite (bool_decide_eq_false_2 (ITEM_REMOVED = ITEM_UNCHANGED)) by done. cbn [negb].
    apply bool_decide_eq_false in E. rewrite (bool_decide_eq_false_2 (uState s = ITEM_NEW)) by (intros ?; by apply E).
    cbn [negb when]. apply wp_bind. unfold upd_state. eapply wp_state_any; [exact Hs|]. apply wp_modify.
    eapply wp_mono; [apply (gone_AddToUpdateQueueOf p w)|].
    + cbn. rewrite lookup_insert_eq. eauto.
    + apply gone_write.
    + cbn. intros _ w2 Hg. by exists w.
Qed.

Lemma wp_SetState_removed L w w0 p :
  Inv (p :: L) w → calm w0 w → wp (SetState p ITEM_REMOVED true) (λ _, goes p w0) w.
Proof. intros H. apply (wp_SetState_removed_root (p :: L)); [done|]. apply loose_root. set_solver. Qed.

(** Away into another stack. *)
Lemma wp_merged_away L w p : Inv (p :: L) w → wp (merged_away p) (λ _, goes p w) w.
Proof.
  intros H. pose proof (loose_mine _ _ _ H) as Hm. unfold merged_away. apply wp_touch; [apply Hm|].
  assert (calm w w) as Hc by done. still Hc. still Hc. apply wp_get.
  apply wp_upd_item; [by eapply calm_live, Hm|].
  assert (calm w (reitem p (λ it, set_owner it (player_guid (pl w'0))) w'0)) as Hc1.
  { transitivity w'0; [done|]. apply calm_same. split; try done. cbn. rewrite <- (cm_me _ _ Hc).
    rewrite <- (si_owner _ _ (cm_mem _ _ Hc p)). apply Hm. }
  clear Hc. still Hc1. still Hc1. still Hc1. eapply wp_SetState_removed; [|exact Hc1]. by eapply calm_Inv.
Qed.

(** ** Items that come *)

Record fresh_item (w : Mover) (it : Item) (st : ItemState) : Prop := {
  fi_guid : guid it = next_guid w;
  fi_owner : owner it = player_guid (pl w);
  fi_template : item_templates !! GetEntry it = Some (GetTemplate it);
  fi_count : 1 ≤ GetCount it ≤ GetMaxStackSize (GetTemplate it);
  fi_size : bag_num_slots it = if IsBag it then ContainerSlots (GetTemplate it) else 0;
  fi_max : bag_num_slots it ≤ MAX_BAG_SIZE;
  fi_bag : m_bagslot it = ∅;
  fi_state : uState st = ITEM_NEW
}.
Lemma fresh_Inv L w it st : Inv L w → fresh_item w it st → Inv (next_address w :: L) (create it st w).
Proof. intros H []. apply Inv_create; try done. by rewrite fi_state0. Qed.
Lemma fresh_mine L w it st : Inv L w → fresh_item w it st → mine (create it st w) (next_address w).
Proof. intros H Hf. eapply loose_mine. by apply fresh_Inv. Qed.

Section templates.
Context (HT : templates_ok).

Lemma template_stack w p : sound_item w p → in_s32 (Stackable (GetTemplate (mem (pl w) p))).
Proof. intros H. eapply (tk_stack HT), so_template, H. Qed.
Lemma stack_range w p : sound_item w p → 1 ≤ GetMaxStackSize (GetTemplate (mem (pl w) p)) < 2 ^ 31.
Proof. intros H. by apply GetMaxStackSize_range, template_stack. Qed.

(** The item that CreateItem makes. *)
Definition made (w : Mover) (proto : ItemTemplate) (count : Z) : Item :=
  new_item proto (next_guid w) (Z.min count (GetMaxStackSize proto)) (player_guid (pl w)).
Lemma made_fresh w e proto count :
  item_templates !! e = Some proto → 1 ≤ count → (InventoryType proto = INVTYPE_BAG → ContainerSlots proto ≤ MAX_BAG_SIZE) →
  fresh_item w (made w proto count) (new_state proto (player_guid (pl w)) (now w)).
Proof.
  intros Ht Hc Hb. pose proof (tk_id HT _ _ Ht) as He. pose proof (GetMaxStackSize_range proto (tk_stack HT _ _ Ht)).
  split; try done; unfold GetEntry, IsBag; cbn; try lia.
  - by rewrite He.
  - destruct (Z.eqb_spec (InventoryType proto) INVTYPE_BAG) as [E|]; [by apply Hb|]. unfold MAX_BAG_SIZE. lia.
Qed.

Lemma wp_CreateItem w e proto count :
  item_templates !! e = Some proto → 1 ≤ count → (InventoryType proto = INVTYPE_BAG → ContainerSlots proto ≤ MAX_BAG_SIZE) →
  wp (CreateItem e count)
     (λ o w', o = Some (next_address w) ∧ w' = create (made w proto count) (new_state proto (player_guid (pl w)) (now w)) w) w.
Proof.
  intros Ht Hc Hb. unfold CreateItem. rewrite (proj2 (Z.ltb_ge _ _) Hc), Ht. apply wp_get. apply wp_bind, wp_modify.
  assert ((InventoryType proto =? INVTYPE_BAG) && (MAX_BAG_SIZE <? ContainerSlots proto) = false) as ->.
  { apply andb_false_iff. destruct (Z.eqb_spec (InventoryType proto) INVTYPE_BAG) as [E|]; [right|by left].
    apply Z.ltb_ge. auto. }
  apply wp_bind, wp_modify, wp_bind, wp_modify, wp_ret. split; [done|]. unfold create, made. do 2 f_equal.
  destruct (Z.ltb_spec (GetMaxStackSize proto) count); lia.
Qed.

(** Of a held item. *)
Lemma bag_fits L w p :
  Inv L w → sound_item w p → InventoryType (GetTemplate (mem (pl w) p)) = INVTYPE_BAG →
  ContainerSlots (GetTemplate (mem (pl w) p)) ≤ MAX_BAG_SIZE.
Proof.
  intros H Hs Hb. pose proof (mo_size _ (iv_mem _ _ H) p) as Hm. unfold GetBagSize in Hm. rewrite (so_size _ _ Hs) in Hm.
  unfold IsBag in Hm. by rewrite Hb in Hm.
Qed.
Lemma wp_CloneItem L w p count :
  Inv L w → p ∈ held L w → 1 ≤ count ≤ GetMaxStackSize (GetTemplate (mem (pl w) p)) →
  wp (CloneItem p count)
     (λ o w', o = Some (next_address w) ∧ ∃ it st, fresh_item w it st ∧ GetTemplate it = GetTemplate (mem (pl w) p) ∧
                GetCount it = count ∧ calm (create it st w) w') w.
Proof.
  intros H Hp Hc. pose proof (iv_item _ _ H p Hp) as Hs. pose proof (so_mine _ _ Hs) as [Hl Ho].
  set (proto := GetTemplate (mem (pl w) p)) in *. unfold CloneItem. apply wp_item_at; [done|]. apply wp_state_at; [done|]. intros s Es Hu.
  eapply wp_use; [apply (wp_CreateItem w _ proto); [apply (so_template _ _ Hs)|lia|by eapply bag_fits]|].
  cbn. intros o w1 [-> ->].
  assert (fresh_item w (made w proto count) (new_state proto (player_guid (pl w)) (now w))) as Hf.
  { eapply made_fresh; [apply (so_template _ _ Hs)|lia|by eapply bag_fits]. }
  pose proof (fresh_mine L w _ _ H Hf) as Hm.
  set (w1 := create (made w proto count) (new_state proto (player_guid (pl w)) (now w)) w) in *.
  assert (calm w1 w1) as Hc1 by done.
  eapply wp_still; [apply quiet_upd_item; by split|exact Hm|exact Hc1|]. clear Hc1. intros _ w2 Hc1.
  eapply wp_still; [apply quiet_upd_state; by split|exact Hm|exact Hc1|]. clear Hc1. intros _ w3 Hc1.
  still Hc1. apply wp_ret. split; [done|].
  exists (made w proto count), (new_state proto (player_guid (pl w)) (now w)). split_and!; try done. cbn. lia.
Qed.
End templates.

(** ** Steps of an operation

    From loose items [L] to [L'], with [K] loose throughout; the amounts change by
    [delta], and only the places of [pcs] are taken. *)
Record step_ok (K L L' : list ptr) (delta : Z → Z) (pcs : ItemPosCountVec) (w w' : Mover) : Prop := {
  sk_inv : Inv L' w';
  sk_amount e : amount e L' w' = amount e L w + delta e;
  sk_stay bag slot q : GetItemByPos (pl w) bag slot = Some q → GetItemByPos (pl w') bag slot = Some q;
  sk_address : next_address w ≤ next_address w';
  sk_kind q : q < next_address w → GetTemplate (mem (pl w') q) = GetTemplate (mem (pl w) q);
  sk_count p : p ∈ K → GetCount (mem (pl w') p) = GetCount (mem (pl w) p);
  sk_offers p pc : p ∈ K → Forall (apart pc) pcs → offers (pl w) p pc → offers (pl w') p pc
}.

Lemma step_trans K L L1 L2 d1 d2 pcs1 pcs2 w w1 w2 :
  step_ok K L L1 d1 pcs1 w w1 → step_ok K L1 L2 d2 pcs2 w1 w2 → step_ok K L L2 (λ e, d1 e + d2 e) (pcs1 ++ pcs2) w w2.
Proof.
  intros [A B C D E F G] [A' B' C' D' E' F' G']. split; try done; auto.
  - intros e. rewrite B', B. lia.
  - lia.
  - intros q Hq. rewrite E' by lia. auto.
  - intros p Hp. rewrite F'; auto.
  - intros p pc Hp [H1 H2]%Forall_app. auto.
Qed.
Lemma step_weaken K L L' d d' pcs pcs' w w' :
  step_ok K L L' d pcs w w' → (∀ e, d e = d' e) → (∀ pc, Forall (apart pc) pcs' → Forall (apart pc) pcs) → step_ok K L L' d' pcs' w w'.
Proof. intros [] Hd Hp. split; try done; auto. intros e. by rewrite <- Hd. Qed.
Lemma step_calm K L w w' : Inv L w → calm w w' → step_ok K L L (λ _, 0) [] w w'.
Proof.
  intros H Hc. split.
  - by eapply calm_Inv.
  - intros e. rewrite <- (calm_amount e L w w' Hc). lia.
  - intros bag slot q. by rewrite (calm_item_at w w').
  - by rewrite (cm_address _ _ Hc).
  - intros q _. by rewrite (si_template _ _ (cm_mem _ _ Hc q)).
  - intros p _. by rewrite (si_count _ _ (cm_mem _ _ Hc p)).
  - intros p pc _ _. by apply offers_calm.
Qed.
Lemma step_fewer K K' L L' d pcs w w' : K' ⊆ K → step_ok K L L' d pcs w w' → step_ok K' L L' d pcs w w'.
Proof. intros HK []. split; auto. Qed.
(** Up to calm steps at the end. *)
Lemma step_then_calm K L L' d pcs w w1 w' : step_ok K L L' d pcs w w1 → calm w1 w' → step_ok K L L' d pcs w w'.
Proof.
  intros H Hc. eapply step_weaken; [eapply step_trans; [exact H|eapply step_calm; [apply H|exact Hc]]| |].
  - intros e. cbn. lia.
  - intros pc. by rewrite app_nil_r.
Qed.

Lemma Inv_pick a L w p : p ∈ L → Inv (a :: L) w → ∃ L', L ≡ₚ p :: L' ∧ Inv (a :: p :: L') w.
Proof. intros (L' & E)%elem_of_Permutation H. exists L'. split; [done|]. eapply Inv_perm; [|exact H]. by rewrite E. Qed.

Lemma step_put L w a pc :
  Inv (a :: L) w → free_place (pl w) a (pos_bag (pos pc)) (pos_slot (pos pc)) →
  GetItemByPos (pl w) (pos_bag (pos pc)) (pos_slot (pos pc)) = None →
  step_ok L (a :: L) L (λ _, 0) [pc] w (put (pos_bag (pos pc)) (pos_slot (pos pc)) a w).
Proof.
  intros H Hf Hn. split.
  - by apply Inv_put.
  - intros e. rewrite (put_amount L) by done. lia.
  - intros bag slot q Hq. rewrite (put_item_at L); try done.
    + destruct (decide (bag = pos_bag (pos pc))) as [->|]; [|by left]. right. intros ->. congruence.
    + destruct (decide (pos_bag (pos pc) = INVENTORY_SLOT_BAG_0)) as [E|]; [right|by left]. intros ->.
      rewrite E in *. destruct Hf as [(_ & Hos & Hs & _)|(? & _)]; [|done]. unfold GetItemByPos in Hn. rewrite Hos in Hn. cbn in Hn.
      unfold GetItemByPos in Hq. rewrite (proj2 (Z.eqb_neq _ _)) in Hq by (unfold INVENTORY_SLOT_BAG_0, PLAYER_SLOT_END in *; lia).
      cbn in Hq. unfold GetBagByPos in Hq. rewrite Hn in Hq. by destruct (bag_slot _).
  - unfold put. destruct (into w _); unfold box; by destruct (states _ !! _).
  - intros q _. apply put_goods.
  - intros p _. apply put_goods.
  - intros p pc' Hp Hap Ho. destruct (Inv_pick _ _ _ _ Hp H) as (L' & _ & H'). eapply offers_put; try done.
    apply Forall_cons in Hap as [Hap _]. unfold apart in Hap. tauto.
Qed.
Lemma step_recount K L w q n pc :
  Inv L w → K ⊆ L → GetItemByPos (pl w) (pos_bag (pos pc)) (pos_slot (pos pc)) = Some q →
  1 ≤ n ≤ GetMaxStackSize (GetTemplate (mem (pl w) q)) →
  step_ok K L L (λ e, if GetEntry (mem (pl w) q) =? e then n - GetCount (mem (pl w) q) else 0) [pc] w (recount q n w).
Proof.
  intros H HK Hq Hn. assert (∀ p, p ∈ K → p ≠ q) as Hne.
  { intros p Hp ->. apply HK in Hp. apply elem_of_Permutation in Hp as (L' & E). eapply (loose_nowhere q L'); [by eapply Inv_perm|exact Hq]. }
  split; try done.
  - by apply Inv_recount.
  - intros e. apply recount_amount; [done|]. by eapply position_held.
  - intros bag slot x. by rewrite recount_item_at.
  - intros x _. apply recount_kind.
  - intros p Hp. rewrite recount_count. by rewrite (proj2 (Z.eqb_neq _ _) (Hne p Hp)).
  - intros p pc' Hp Hap. apply offers_recount. intros [Hq' _]%in_way_Some. apply Forall_cons in Hap as [Hap _].
    destruct (position_inj _ _ _ _ _ _ _ H Hq Hq') as [E1 E2]. destruct Hap as [Hap|Hap]; congruence.
Qed.
(** A loose stack. *)
Lemma step_recount_loose L w p n :
  Inv (p :: L) w → 1 ≤ n ≤ GetMaxStackSize (GetTemplate (mem (pl w) p)) →
  step_ok L (p :: L) (p :: L) (λ e, if GetEntry (mem (pl w) p) =? e then n - GetCount (mem (pl w) p) else 0) [] w (recount p n w).
Proof.
  intros H Hn. assert (∀ x, x ∈ L → x ≠ p) as Hne.
  { intros x Hx ->. pose proof (nodup_roots _ _ H) as Hnd. unfold roots in Hnd. apply NoDup_app in Hnd as (_ & _ & Hnd).
    cbn in Hnd. apply NoDup_cons in Hnd as [Hnd _]. set_solver. }
  split; try done.
  - by apply Inv_recount.
  - intros e. apply recount_amount; [done|]. apply root_held, loose_root. set_solver.
  - intros bag slot x. by rewrite recount_item_at.
  - intros x _. apply recount_kind.
  - intros x Hx. rewrite recount_count. by rewrite (proj2 (Z.eqb_neq _ _) (Hne x Hx)).
  - intros x pc Hx _. apply offers_recount. intros [Hp _]%in_way_Some. by eapply loose_nowhere.
Qed.
Lemma step_goes L w w' p :
  Inv (p :: L) w → inside w p = [] → goes p w w' → step_ok L (p :: L) L (λ e, - units w e p) [] w w'.
Proof.
  intros H Hi Hg. pose proof (goes_same_goods _ _ _ Hg) as Hsg. split.
  - by eapply goes_Inv.
  - intros e. rewrite (goes_amount e L w w' p) by done. lia.
  - intros bag slot q. by rewrite (goes_item_at _ _ _ _ _ Hg).
  - destruct Hg as (w1 & Hc & []). rewrite gn_address0, (cm_address _ _ Hc). lia.
  - intros q _. apply Hsg.
  - intros q _. apply Hsg.
  - intros q pc _ _. by eapply goes_offers.
Qed.
Lemma step_create K L w it st :
  Inv L w → K ⊆ L → fresh_item w it st →
  step_ok K L (next_address w :: L) (λ e, if GetEntry it =? e then GetCount it else 0) [] w (create it st w).
Proof.
  intros H HK Hf. assert (∀ p, p ∈ K → p ≠ next_address w) as Hne.
  { intros p Hp. eapply fresh_held; [exact H|]. apply root_held, loose_root. by apply HK. }
  split.
  - by apply fresh_Inv.
  - intros e. apply (create_amount L); [done|apply Hf].
  - intros bag slot q. by rewrite (create_item_at L).
  - cbn. lia.
  - intros q Hq. rewrite create_mem; [done|]. intros ->. lia.
  - intros p Hp. rewrite create_mem; auto.
  - intros p pc Hp _. apply (offers_create L); auto.
Qed.

(** ** _StoreItem *)

Definition unit_delta (w : Mover) (p : ptr) (n e : Z) : Z := if GetEntry (mem (pl w) p) =? e then n else 0.

Section store_at.
Context (HT : templates_ok).

Lemma empty_unless_bag L w p : Inv L w → p ∈ roots L w → IsBag (mem (pl w) p) = false → m_bagslot (mem (pl w) p) = ∅.
Proof.
  intros H Hp Hb. apply map_empty. intros j. destruct (m_bagslot (mem (pl w) p) !! j) as [q|] eqn:E; [|done]. exfalso.
  destruct (iv_inside _ _ H _ _ _ Hp E) as (Hj & _). rewrite (so_size _ _ (iv_item _ _ H p (root_held _ _ _ Hp))), Hb in Hj. lia.
Qed.
(** What can be stacked with something is no bag. *)
Lemma stack_empty L w p : Inv (p :: L) w → 1 < GetMaxStackSize (GetTemplate (mem (pl w) p)) → inside w p = [].
Proof.
  intros H Hn. apply inside_nil. eapply empty_unless_bag; [exact H|apply loose_root; set_solver|].
  unfold IsBag. apply Z.eqb_neq. intros E. pose proof (tk_bag HT _ _ (so_template _ _ (loose_sound _ _ _ H)) E). lia.
Qed.

Lemma SetCount_recount p n w : in_u32 n → live w p → wp (SetCount p n) (λ _ w', w' = recount p n w) w.
Proof.
  intros Hn Hl. unfold SetCount. apply wp_last, wp_upd_item; [done|]. apply wp_ret. unfold recount. by rewrite wrap_small.
Qed.

(** Into a stack. *)
Lemma wp_store_stack {B} K L w p q pc (f : unit → MW B) Q :
  Inv L w → K ⊆ L → offers (pl w) p pc → sound_item w p → q ≠ p →
  GetItemByPos (pl w) (pos_bag (pos pc)) (pos_slot (pos pc)) = Some q →
  (∀ w', step_ok K L L (unit_delta w p (cnt pc)) [pc] w w' → wp (f tt) Q w') →
  wp (_ ← when (binds_at (mem (pl w) q) (pos pc)) (SetBinding q true);
      _ ← SetCount q (GetCount (mem (pl w) q) + cnt pc); f tt) Q w.
Proof.
  intros H HK [Ho1 Ho2 Ho3] Hsp Hqp Hq HQ. assert (q ∈ held L w) as Hin by (by eapply position_held).
  pose proof (iv_item _ _ H q Hin) as Hsq. destruct (Ho3 q) as [HE HC]; [by apply in_way_Some|].
  assert (GetTemplate (mem (pl w) q) = GetTemplate (mem (pl w) p)) as Ht.
  { pose proof (so_template _ _ Hsp) as H1. pose proof (so_template _ _ Hsq) as H2. rewrite HE in H2. congruence. }
  pose proof (stack_range HT _ _ Hsp). pose proof (so_count _ _ Hsq).
  eapply wp_use; [apply (quiet_wp q); [apply quiet_when; auto with stillness|apply Hsq]|].
  intros ? w1 Hc. eapply wp_use.
  - apply SetCount_recount; [unfold in_u; lia|]. by eapply calm_live, (so_mine _ _ Hsq).
  - cbn. intros _ w2 ->. apply HQ. eapply step_then_calm; [|by apply calm_recount, Hc].
    eapply step_weaken; [apply step_recount; [done|done|exact Hq|rewrite Ht; lia]| |done].
    intros e. cbn. unfold unit_delta. rewrite HE. destruct (_ =? e); lia.
Qed.

Lemma wp_store_clone L w p pc :
  Inv (p :: L) w → offers (pl w) p pc →
  wp (StoreItem_at (pos pc) p (cnt pc) true) (λ _ w', step_ok (p :: L) (p :: L) (p :: L) (unit_delta w p (cnt pc)) [pc] w w') w.
Proof.
  intros H Ho. pose proof (loose_sound _ _ _ H) as Hs. pose proof (loose_mine _ _ _ H) as Hm.
  unfold StoreItem_at. apply wp_touch; [apply Hm|]. apply wp_get. unfold GetItemByPos16.
  destruct (GetItemByPos (pl w) (pos_bag (pos pc)) (pos_slot (pos pc))) as [q|] eqn:Eq.
  - assert (q ≠ p) as Hqp by (intros ->; by eapply loose_nowhere).
    assert (mine w q) as Hmq by (by eapply position_mine). apply wp_item_at; [apply Hmq|].
    cbn [negb when]. eapply (wp_store_stack (p :: L) (p :: L) w p q pc (λ _, _ ← skip; _ ← AddEnchantmentDurations q;
      _ ← SetState q ITEM_CHANGED true; mret (Some q))); try done. intros w1 H1. apply wp_bind, wp_skip.
    assert (mine w1 q) as Hm1 by (eapply position_mine; [apply H1|by apply (sk_stay _ _ _ _ _ _ _ H1)]).
    assert (calm w1 w1) as Hc by done. still Hc. still Hc. apply wp_ret. by eapply step_then_calm.
  - eapply wp_use; [apply (wp_CloneItem HT (p :: L)); [done|apply root_held, loose_root; set_solver|apply Ho]|].
    cbn. intros o w1 (-> & it & st & Hf & Ht & Hn & Hc).
    pose proof (step_create (p :: L) (p :: L) w it st H ltac:(done) Hf) as H1. apply (step_then_calm _ _ _ _ _ _ _ _ H1) in Hc as H2.
    set (new := next_address w) in *.
    assert (offers (pl w1) new pc) as Hon.
    { eapply offers_calm; [exact Hc|]. eapply (offers_clone (p :: L)); try done; [|apply Hf]. intros bag slot. by eapply loose_nowhere. }
    eapply wp_use; [apply (wp_place_item (p :: L)); [apply H2|apply Hon]|]. cbn. intros _ w2 Hc2.
    apply wp_ret. eapply step_then_calm; [|exact Hc2].
    eapply step_weaken; [eapply step_trans; [exact H2|apply step_put; [apply H2|apply Hon|]]| |].
    + rewrite (calm_item_at _ _ _ _ Hc). by rewrite (create_item_at (p :: L)).
    + intros e. cbn. unfold unit_delta, GetEntry. rewrite Ht, Hn. lia.
    + intros pc'. by cbn.
Qed.

Lemma wp_store_last L w p pc :
  Inv (p :: L) w → offers (pl w) p pc →
  wp (StoreItem_at (pos pc) p (cnt pc) false)
     (λ o w', step_ok L (p :: L) L (unit_delta w p (cnt pc - GetCount (mem (pl w) p))) [pc] w w' ∧
              (∃ r, o = Some r ∧ GetItemByPos (pl w') (pos_bag (pos pc)) (pos_slot (pos pc)) = Some r) ∧
              (GetItemByPos (pl w) (pos_bag (pos pc)) (pos_slot (pos pc)) = None → o = Some p)) w.
Proof.
  intros H Ho. pose proof (loose_sound _ _ _ H) as Hs. pose proof (loose_mine _ _ _ H) as Hm.
  pose proof (stack_range HT _ _ Hs) as Hmax. pose proof (so_count _ _ Hs) as Hcp. pose proof (of_cnt _ _ _ Ho) as Hcnt.
  unfold StoreItem_at. apply wp_touch; [apply Hm|]. apply wp_get. unfold GetItemByPos16.
  destruct (GetItemByPos (pl w) (pos_bag (pos pc)) (pos_slot (pos pc))) as [q|] eqn:Eq.
  - assert (q ≠ p) as Hqp by (intros ->; by eapply loose_nowhere).
    assert (mine w q) as Hmq by (by eapply position_mine). apply wp_item_at; [apply Hmq|]. cbn [negb when].
    assert (1 < GetMaxStackSize (GetTemplate (mem (pl w) p))) as Hst.
    { destruct (of_room _ _ _ Ho q) as [_ HC]; [by apply in_way_Some|].
      pose proof (so_count _ _ (iv_item _ _ H q ltac:(by eapply position_held))). lia. }
    eapply (wp_store_stack (p :: L) (p :: L) w p q pc (λ _, _ ← merged_away p; _ ← AddEnchantmentDurations q;
      _ ← SetState q ITEM_CHANGED true; mret (Some q))); try done. intros w1 H1.
    eapply wp_use; [apply (wp_merged_away L); apply H1|]. cbn. intros _ w2 Hg.
    pose proof (so_address _ _ Hs) as Ha. pose proof (sk_kind _ _ _ _ _ _ _ H1 p Ha) as Ht.
    assert (step_ok L (p :: L) L (unit_delta w p (cnt pc - GetCount (mem (pl w) p))) [pc] w w2) as H2.
    { apply (step_fewer _ L) in H1 as H1'; [|set_solver]. eapply step_weaken; [eapply step_trans; [exact H1'|apply step_goes; [apply H1|..]]| |].
      - eapply (stack_empty L); [apply H1|by rewrite Ht].
      - exact Hg.
      - intros e. cbn. unfold unit_delta, units, GetEntry. rewrite Ht, (sk_count _ _ _ _ _ _ _ H1 p) by set_solver.
        destruct (_ =? e); lia.
      - intros pc'. by rewrite app_nil_r. }
    assert (GetItemByPos (pl w2) (pos_bag (pos pc)) (pos_slot (pos pc)) = Some q) as Hq2 by (by apply (sk_stay _ _ _ _ _ _ _ H2)).
    assert (mine w2 q) as Hm2 by (eapply position_mine; [apply H2|exact Hq2]).
    assert (calm w2 w2) as Hc by done. still Hc. still Hc. apply wp_ret. split_and!; [by eapply step_then_calm| |done].
    exists q. split; [done|]. by rewrite (calm_item_at _ _ _ _ Hc).
  - apply wp_bind. apply wp_bind. eapply wp_mono; [apply SetCount_recount; [unfold in_u; lia|apply Hm]|]. cbn. intros _ w1 ->.
    apply wp_ret. pose proof (step_recount_loose L w p (cnt pc) H Hcnt) as H1.
    assert (free_place (pl (recount p (cnt pc) w)) p (pos_bag (pos pc)) (pos_slot (pos pc))) as Hf by (apply free_place_recount, Ho).
    assert (GetItemByPos (pl (recount p (cnt pc) w)) (pos_bag (pos pc)) (pos_slot (pos pc)) = None) as Hn by (by rewrite recount_item_at).
    eapply wp_use; [apply (wp_place_item L); [apply H1|exact Hf]|]. cbn. intros _ w2 Hc2.
    apply wp_ret. split_and!; [| |done].
    + eapply step_then_calm; [|exact Hc2].
      eapply step_weaken; [eapply step_trans; [exact H1|apply step_put; [apply H1|exact Hf|exact Hn]]| |done].
      intros e. cbn. unfold unit_delta. lia.
    + exists p. split; [done|]. rewrite (calm_item_at _ _ _ _ Hc2). eapply (put_there L); [apply H1|exact Hf|exact Hn].
Qed.
End store_at.
End store.

(** An answer of CanStoreItem or CanBankItem that StoreItem can follow. *)
Record sound_dest (pl : Player) (p : ptr) (dest : ItemPosCountVec) : Prop := {
  sd_offers : Forall (offers pl p) dest;
  sd_nodup : NoDup (map pos dest);
  sd_pos : Forall (λ pc, in_u16 (pos pc)) dest;
  sd_stored : Forall (λ pc, pos_bag (pos pc) = INVENTORY_SLOT_BAG_0 → INVENTORY_SLOT_ITEM_START ≤ pos_slot (pos pc)) dest
}.

Lemma pos_split x : in_u16 x → x = 256 * pos_bag x + pos_slot x.
Proof.
  intros Hx. unfold in_u in Hx. unfold pos_bag, pos_slot. rewrite Z.shiftr_div_pow2 by lia. change 255 with (Z.ones 8).
  rewrite Z.land_ones by lia. rewrite !wrap_small by (unfold in_u; zlia). zlia.
Qed.
Lemma apart_pos pc pc' : in_u16 (pos pc) → in_u16 (pos pc') → pos pc ≠ pos pc' → apart pc pc'.
Proof.
  intros H H' Hne. unfold apart. destruct (decide (pos_bag (pos pc) = pos_bag (pos pc'))) as [E|]; [right|by left].
  intros E'. apply Hne. rewrite (pos_split _ H), (pos_split _ H'). congruence.
Qed.

Section wear.
Context `{IE : ItemEnv} `{ME : MoveEnv}.
Context (HT : templates_ok).

Lemma wp_StoreItem L dest p : ∀ w,
  Inv (p :: L) w → dest ≠ [] → sound_dest (pl w) p dest →
  wp (StoreItem dest p)
     (λ o w', step_ok L (p :: L) L (unit_delta w p (total cnt dest - GetCount (mem (pl w) p))) dest w w' ∧
              ∃ r, o = Some r ∧ r ∈ held L w') w.
Proof.
  induction dest as [|pc dest IH]; [done|]. intros w H _ [Ho Hn Hp Hst]. apply Forall_cons in Ho as [Ho Hos], Hp as [Hp Hps], Hst as [_ Hst].
  destruct dest as [|pc' dest].
  - cbn [StoreItem]. eapply wp_mono; [by apply (wp_store_last HT L)|]. cbn beta. intros o w' (H1 & (r & -> & Hr) & _). split.
    + eapply step_weaken; [exact H1| |done]. intros e. f_equal. unfold total. cbn. lia.
    + exists r. split; [done|]. eapply position_held; [apply H1|exact Hr].
  - cbn [StoreItem]. eapply wp_use; [by apply (wp_store_clone HT L)|]. cbn beta. intros _ w1 H1.
    cbn [map] in Hn. apply NoDup_cons in Hn as [Hn1 Hn2].
    assert (∀ x, x ∈ pc' :: dest → apart x pc) as Hap.
    { intros x Hx. apply apart_pos; [|done|].
      - rewrite Forall_forall in Hps. by apply Hps.
      - intros E. apply Hn1. rewrite <- E. exact (list_elem_of_fmap_2 pos (pc' :: dest) x Hx). }
    eapply wp_mono; [apply IH; [apply H1|done|split; [|done..]]|].
    + rewrite Forall_forall in Hos |- *. intros x Hx. apply (sk_offers _ _ _ _ _ _ _ H1); [set_solver| |by apply Hos].
      apply Forall_singleton. by apply Hap.
    + cbn beta. intros o w' (H2 & Hr). split; [|done]. apply (step_fewer _ L) in H1 as H1'; [|set_solver].
      eapply step_weaken; [eapply step_trans; [exact H1'|exact H2]| |done].
      intros e. unfold unit_delta, GetEntry. rewrite (sk_kind _ _ _ _ _ _ _ H1 p), (sk_count _ _ _ _ _ _ _ H1 p); [|set_solver|].
      * unfold total. cbn. destruct (_ =? e); lia.
      * apply (so_address _ _ (loose_sound _ _ _ H)).
Qed.

(** ** EquipItem *)

Lemma place_pack slot : in_u8 slot → pos_bag (pack INVENTORY_SLOT_BAG_0 slot) = INVENTORY_SLOT_BAG_0 ∧ pos_slot (pack INVENTORY_SLOT_BAG_0 slot) = slot.
Proof. intros H. by apply pack_unpack. Qed.

Lemma wp_VisualizeItem L w p slot :
  Inv (p :: L) w → free_place (pl w) p INVENTORY_SLOT_BAG_0 slot →
  wp (VisualizeItem slot p) (λ _, calm (put INVENTORY_SLOT_BAG_0 slot p w)) w.
Proof.
  intros H Hf. pose proof (loose_mine _ _ _ H) as Hm. unfold VisualizeItem. apply wp_item_at; [apply Hm|].
  assert (calm w w) as Hc by done. still Hc. apply wp_get. unfold put_own. apply wp_bind, wp_modify.
  assert (live w' p) as Hl by (by eapply calm_live, Hm). apply wp_upd_state; [done|]. intros s Es Hu.
  apply wp_upd_item; [by apply live_write|].
  eapply (wp_end p _ _ (put INVENTORY_SLOT_BAG_0 slot p w)); [auto with stillness|by apply mine_put| |by intros _ w2].
  transitivity (put INVENTORY_SLOT_BAG_0 slot p w'); [by apply calm_put|]. unfold put, into. cbn [Z.eqb].
  apply calm_own_steps; [by eapply calm_mine|done|done].
Qed.

(** Nothing but the item comes to its place. *)
Lemma wp_EquipItem_put L w p slot :
  Inv (p :: L) w → in_u8 slot → free_place (pl w) p INVENTORY_SLOT_BAG_0 slot →
  GetItemByPos (pl w) INVENTORY_SLOT_BAG_0 slot = None →
  wp (EquipItem (pack INVENTORY_SLOT_BAG_0 slot) p) (λ o w', o = Some p ∧ calm (put INVENTORY_SLOT_BAG_0 slot p w) w') w.
Proof.
  intros H Hu Hf Hn. pose proof (loose_mine _ _ _ H) as Hm. unfold EquipItem, GetItemByPos16.
  destruct (place_pack slot Hu) as [E1 E2]. rewrite E1, E2.
  assert (calm w w) as Hc by done. still Hc. still Hc. apply wp_get. rewrite (calm_item_at _ _ _ _ Hc), Hn.
  eapply wp_use; [eapply (wp_VisualizeItem L); [by eapply calm_Inv|by eapply free_place_calm]|]. cbn beta. intros _ w1 Hc1.
  assert (calm (put INVENTORY_SLOT_BAG_0 slot p w) w1) as Hc2 by (etransitivity; [by apply calm_put|exact Hc1]).
  eapply (wp_still p _ _ _ (put INVENTORY_SLOT_BAG_0 slot p w)); [|by apply mine_put|exact Hc2|].
  { apply quiet_when, quiet_bind; [apply quietly_tell|]. intros _. auto with stillness. }
  intros _ w2 Hc3. apply wp_ret. by split.
Qed.
Lemma put_step L w p slot n :
  Inv (p :: L) w → in_u8 slot → free_place (pl w) p INVENTORY_SLOT_BAG_0 slot →
  GetItemByPos (pl w) INVENTORY_SLOT_BAG_0 slot = None →
  step_ok L (p :: L) L (λ _, 0) [mkPos (pack INVENTORY_SLOT_BAG_0 slot) n] w (put INVENTORY_SLOT_BAG_0 slot p w).
Proof.
  intros H Hu Hf Hn. destruct (place_pack slot Hu) as [E1 E2].
  pose proof (step_put L w p (mkPos (pack INVENTORY_SLOT_BAG_0 slot) n) H) as HS. cbn [pos] in HS. rewrite E1, E2 in HS. by apply HS.
Qed.
Lemma wp_EquipItem L w p slot :
  Inv (p :: L) w → in_u8 slot → free_place (pl w) p INVENTORY_SLOT_BAG_0 slot →
  GetItemByPos (pl w) INVENTORY_SLOT_BAG_0 slot = None →
  wp (EquipItem (pack INVENTORY_SLOT_BAG_0 slot) p)
     (λ o w', step_ok L (p :: L) L (λ _, 0) [mkPos (pack INVENTORY_SLOT_BAG_0 slot) (GetCount (mem (pl w) p))] w w' ∧ o = Some p ∧
              GetItemByPos (pl w') INVENTORY_SLOT_BAG_0 slot = Some p) w.
Proof.
  intros H Hu Hf Hn. eapply wp_mono; [by apply (wp_EquipItem_put L)|]. cbn beta. intros o w' [-> Hc]. split_and!; [|done|].
  - eapply step_then_calm; [|exact Hc]. by apply put_step.
  - rewrite (calm_item_at _ _ _ _ Hc). by apply (put_there L).
Qed.
(** The whole stack to one free place. *)
Lemma wp_StoreItem_put L w p position :
  Inv (p :: L) w → free_place (pl w) p (pos_bag position) (pos_slot position) →
  GetItemByPos (pl w) (pos_bag position) (pos_slot position) = None →
  wp (StoreItem [mkPos position (GetCount (mem (pl w) p))] p)
     (λ o w', o = Some p ∧ calm (put (pos_bag position) (pos_slot position) p w) w') w.
Proof.
  intros H Hf Hn. pose proof (loose_mine _ _ _ H) as Hm. pose proof (loose_sound _ _ _ H) as Hs.
  pose proof (stack_range HT _ _ Hs) as Hmax. pose proof (so_count _ _ Hs) as Hcp.
  cbn [StoreItem]. unfold StoreItem_at. apply wp_touch; [apply Hm|]. apply wp_get. unfold GetItemByPos16. cbn [pos cnt]. rewrite Hn.
  apply wp_bind, wp_bind. eapply wp_mono; [apply SetCount_recount; [unfold in_u; cbn; lia|apply Hm]|]. cbn. intros _ w1 ->.
  apply wp_ret. assert (calm w (recount p (GetCount (mem (pl w) p)) w)) as Hc by (apply calm_same; by split).
  eapply wp_use; [apply (wp_place_item L); [by eapply calm_Inv|by eapply free_place_calm]|]. cbn. intros _ w2 Hc2.
  apply wp_ret. split; [done|]. etransitivity; [by apply calm_put|exact Hc2].
Qed.

(** ** RemoveItem *)

Record taken (L : list ptr) (bag slot : Z) (p : ptr) (w w' : Mover) : Prop := {
  tn_calm : calm (take bag slot p w) w';
  tn_inv : Inv (p :: L) w';
  tn_amount e : amount e (p :: L) w' = amount e L w
}.
Lemma wp_take L w bag slot p :
  Inv L w → GetItemByPos (pl w) bag slot = Some p → wp (RemoveItem bag slot) (λ _, taken L bag slot p w) w.
Proof.
  intros H Hp. eapply wp_mono; [by eapply wp_RemoveItem|]. cbn beta. intros _ w' Hc. split; [done| |].
  - eapply calm_Inv; [exact Hc|]. by apply Inv_take.
  - intros e. rewrite <- (calm_amount e _ _ _ Hc). by apply take_amount.
Qed.
Section taken.
Variables (L : list ptr) (w w' : Mover) (bag slot : Z) (p : ptr).
Hypothesis H : Inv L w.
Hypothesis Hp : GetItemByPos (pl w) bag slot = Some p.
Hypothesis Ht : taken L bag slot p w w'.

Lemma taken_goods : same_goods w w'.
Proof. etransitivity; [apply take_goods|by apply calm_same_goods, Ht]. Qed.
Lemma taken_inside q : m_bagslot (mem (pl w') q) = m_bagslot (mem (pl (take bag slot p w)) q).
Proof. symmetry. apply (si_bag _ _ (cm_mem _ _ (tn_calm _ _ _ _ _ _ Ht) q)). Qed.
Lemma taken_item_at bag' slot' :
  GetItemByPos (pl w') bag' slot' =
  if decide (bag' = bag ∧ slot' = slot) then None
  else if decide (bag = INVENTORY_SLOT_BAG_0 ∧ bag' = slot) then None else GetItemByPos (pl w) bag' slot'.
Proof. rewrite (calm_item_at _ _ _ _ (tn_calm _ _ _ _ _ _ Ht)). by apply (take_item_at L). Qed.
Lemma taken_offers pc : offers (pl w) p pc → offers (pl w') p pc.
Proof. intros Ho. eapply offers_calm; [apply Ht|]. by apply (offers_take L). Qed.
Lemma taken_dest dest : sound_dest (pl w) p dest → sound_dest (pl w') p dest.
Proof. intros [Ho ? ? ?]. split; [|done..]. eapply Forall_impl; [exact Ho|]. intros pc. apply taken_offers. Qed.
Lemma taken_free p' bag' slot' :
  (∀ b, GetBagByPos (pl w) bag' = Some b → b ≠ p) → free_place (pl w) p' bag' slot' → free_place (pl w') p' bag' slot'.
Proof. intros Hn Hf. eapply free_place_calm; [apply Ht|]. by apply (free_place_take L). Qed.
Lemma taken_count : GetCount (mem (pl w') p) = GetCount (mem (pl w) p).
Proof. apply taken_goods. Qed.
Lemma taken_entry q : GetEntry (mem (pl w') q) = GetEntry (mem (pl w) q).
Proof. unfold GetEntry. destruct (taken_goods q) as (-> & _). done. Qed.
Lemma taken_address : next_address w' = next_address w.
Proof.
  rewrite <- (cm_address _ _ (tn_calm _ _ _ _ _ _ Ht)). unfold take, unlink. destruct (bag =? _); [done|].
  destruct (GetBagByPos (pl w) bag); [|done]. unfold box. by destruct (states w !! p).
Qed.
End taken.
End wear.
End MoveWear.
