(* ===== verification/MoveSearch.v ===== *)
(** * What the searches for a place offer

    Every place that CanStoreItem and CanBankItem propose can be followed by StoreItem,
    whether the search succeeds or gives up half way, and a success places the stack
    once. *)
From S2P Require Import Prelude StateMonad Items Inventory Storage MoveData MoveOps MoveCalm MoveInvariant MoveSteps MoveOffers MoveWear.

Module MoveSearch.
Export MoveWear.

(** Arithmetic with the numbers of the slots. *)
Ltac slots :=
  unfold own_slot, bag_slot, between, in_u, NULL_SLOT, NULL_BAG, INVENTORY_SLOT_BAG_0, EQUIPMENT_SLOT_END, INVENTORY_SLOT_BAG_START, INVENTORY_SLOT_BAG_END,
    INVENTORY_SLOT_ITEM_START, INVENTORY_SLOT_ITEM_END, BANK_SLOT_ITEM_START, BANK_SLOT_ITEM_END, BANK_SLOT_BAG_START,
    BANK_SLOT_BAG_END, BUYBACK_SLOT_START, BUYBACK_SLOT_END, KEYRING_SLOT_START, KEYRING_SLOT_END, CURRENCYTOKEN_SLOT_START,
    CURRENCYTOKEN_SLOT_END, PLAYER_SLOT_END in *; lia.

(** ** A search for the item [p] *)
Section search.
Context `{IE : ItemEnv}.
Variables (pl : Player) (p : ptr).
Let t := GetTemplate (mem pl p).
Hypothesis Hmem : mem_ok pl.
Hypothesis Hstack : in_s32 (Stackable t).
Hypothesis Hempty : IsNotEmptyBag (mem pl p) = false → m_bagslot (mem pl p) = ∅.
Hypothesis Hsize : ∀ bag b, GetBagByPos pl bag = Some b → bag_num_slots (mem pl b) = ContainerSlots (GetTemplate (mem pl b)).

(** [n] in all, [count] of them still without a place. *)
Record offering (n : Z) (dest : ItemPosCountVec) (count : Z) : Prop := {
  og_sound : sound_dest pl p dest;
  og_count : 0 ≤ count < 2 ^ 32;
  og_total : total cnt dest + count = n
}.
(** What one attempt does with them. *)
Definition attempt_ok (n : Z) (r : InventoryResult * ItemPosCountVec * Z) : Prop :=
  offering n r.1.2 r.2 ∧ (r.1.1 ≠ EQUIP_ERR_OK → 0 < r.2).
(** What the search does; [nsim] were refused before. *)
Definition flow_offers (n nsim : Z) (f : flow) : Prop :=
  match f with
  | Return v =>
    sound_dest pl p (v_dest v) ∧ (v_res v = EQUIP_ERR_OK → nsim = 0 ∧ total cnt (v_dest v) = n) ∧
    (v_res v ≠ EQUIP_ERR_OK → nsim = 0 → total cnt (v_dest v) < n)
  | Go dest count => offering n dest count ∧ 0 < count
  end.
Definition offering_step (n nsim : Z) (step : ItemPosCountVec → Z → flow) : Prop :=
  ∀ dest count, offering n dest count → 0 < count → flow_offers n nsim (step dest count).

Lemma pack_u16 bag slot : in_u16 (pack bag slot).
Proof. unfold pack. apply wrap_range. lia. Qed.

Lemma offering_place n bag slot need dest count :
  in_u8 bag → in_u8 slot → offering n dest count → 0 < count → 1 ≤ need →
  (bag = INVENTORY_SLOT_BAG_0 → INVENTORY_SLOT_ITEM_START ≤ slot) →
  (∀ k, 1 ≤ k ≤ need → k ≤ count → offers pl p (mkPos (pack bag slot) k)) →
  let '(b, dest', count') := place bag slot need dest count in offering n dest' count' ∧ (b = false → 0 < count').
Proof.
  intros Hb Hs [Hd Hc Ht] Hpos Hn Hst Hfit. unfold place. set (k := if count <? need then count else need).
  assert (1 ≤ k ≤ need ∧ k ≤ count) as [Hk Hk'] by (unfold k; case_bool; b2p; lia).
  destruct (isContainedIn _ dest) eqn:E; [by split|]. split; [|done].
  rewrite wrap_small by (unfold in_u; lia). split; [|lia|rewrite total_app; cbn; lia].
  destruct Hd as [Ho Hnd Hp Hst']. split.
  - apply Forall_app. split; [done|]. apply Forall_singleton. auto.
  - rewrite map_app. apply NoDup_app. split_and!; [done| |apply NoDup_singleton].
    intros x Hx Hin. apply list_elem_of_singleton in Hin. cbn in Hin. subst x.
    apply (isContainedIn_spec (mkPos (pack bag slot) k)) in Hx. congruence.
  - apply Forall_app. split; [done|]. apply Forall_singleton, pack_u16.
  - apply Forall_app. split; [done|]. apply Forall_singleton. cbn. by destruct (pack_unpack bag slot Hb Hs) as [-> ->].
Qed.

Lemma stack_bounds : 1 ≤ GetMaxStackSize t < 2 ^ 31.
Proof. by apply GetMaxStackSize_range. Qed.

(** A slot, free or with a stack that is not full. *)
Lemma offers_slot bag slot k :
  in_u8 bag → in_u8 slot → 1 ≤ k → free_place pl p bag slot →
  match item_in_way pl bag slot (Some p) with
  | None => k ≤ GetMaxStackSize t
  | Some q => CanBeMergedPartlyWith (mem pl q) t = EQUIP_ERR_OK ∧ k ≤ u32 (GetMaxStackSize t - GetCount (mem pl q))
  end → offers pl p (mkPos (pack bag slot) k).
Proof.
  intros Hb Hs Hk Hf H. destruct (pack_unpack bag slot Hb Hs) as [E1 E2]. pose proof stack_bounds.
  assert (∀ q, CanBeMergedPartlyWith (mem pl q) t = EQUIP_ERR_OK →
               GetEntry (mem pl q) = GetEntry (mem pl p) ∧ GetCount (mem pl q) < GetMaxStackSize t ∧
               u32 (GetMaxStackSize t - GetCount (mem pl q)) = GetMaxStackSize t - GetCount (mem pl q)) as Hq.
  { intros q (HE & HC & _)%CanBeMergedPartlyWith_ok. pose proof (mo_count _ Hmem q). split_and!; [done|done|].
    apply wrap_small. unfold in_u. lia. }
  split; cbn; rewrite ?E1, ?E2; [|done|].
  - destruct (item_in_way pl bag slot (Some p)) as [q|]; [|fold t; lia].
    destruct H as [H1 H2]. destruct (Hq q H1) as (_ & HC & EW). rewrite EW in H2. pose proof (mo_count _ Hmem q). fold t. lia.
  - intros q Eq. rewrite Eq in H. destruct H as [H1 H2]. destruct (Hq q H1) as (HE & HC & EW). rewrite EW in H2. split; [done|fold t; lia].
Qed.

(** The slot is taken up. *)
Lemma offering_slot n bag slot (swap : bool) dest count :
  in_u8 bag → in_u8 slot → offering n dest count → 0 < count → (bag = INVENTORY_SLOT_BAG_0 → INVENTORY_SLOT_ITEM_START ≤ slot) →
  free_place pl p bag slot →
  match item_in_way pl bag slot (Some p) with
  | None => True
  | Some q => CanBeMergedPartlyWith (mem pl q) t = EQUIP_ERR_OK
  end →
  let need := match item_in_way pl bag slot (Some p) with
              | None => GetMaxStackSize t
              | Some q => u32 (GetMaxStackSize t - GetCount (mem pl q)) end in
  let '(b, dest', count') := place bag slot need dest count in offering n dest' count' ∧ (b = false → 0 < count').
Proof.
  intros Hb Hs Ho Hc Hst Hf Hw need. pose proof stack_bounds. pose proof (offers_slot bag slot) as HF. apply offering_place; [done..| |done|].
  - subst need. destruct (item_in_way pl bag slot (Some p)) as [q|]; [|lia].
    apply CanBeMergedPartlyWith_ok in Hw as (_ & HC & _). pose proof (mo_count _ Hmem q). rewrite wrap_small by (unfold in_u; lia). lia.
  - intros k Hk _. apply HF; [done..|lia|done|]. subst need. destruct (item_in_way pl bag slot (Some p)); [|lia]. split; [done|lia].
Qed.

Lemma offering_scan n bag slots skip merge dest count :
  in_u8 bag → Forall (λ j, in_u8 j ∧ (bag = INVENTORY_SLOT_BAG_0 → INVENTORY_SLOT_ITEM_START ≤ j) ∧ free_place pl p bag j) slots → offering n dest count → 0 < count →
  let '(dest', count') := scan_slots pl bag slots skip merge t (Some p) dest count in offering n dest' count'.
Proof.
  intros Hb Hs. revert dest count. induction Hs as [|j slots (Hj & Hst & Hf) Hs IH]; intros dest count Ho Hc; [done|]. cbn [scan_slots].
  case_bool; [by apply IH|]. rewrite (wrap_small 8 j) by done.
  pose proof (offering_slot n bag j false dest count Hb Hj Ho Hc Hst Hf) as HS. cbv zeta in HS.
  case_bool; [by apply IH|].
  destruct (item_in_way pl bag j (Some p)) as [q|].
  - destruct (is_ok (CanBeMergedPartlyWith (mem pl q) t)) eqn:EM; cbn [negb]; [|by apply IH]. apply is_ok_true in EM. specialize (HS EM).
    destruct (place _ _ _ _ _) as [[b d] c]. destruct HS as [H1 H2]. destruct (b && (c =? 0)) eqn:Eb; [done|]. apply IH; [done|].
    destruct b; [|auto]. cbn in Eb. apply Z.eqb_neq in Eb. pose proof (og_count _ _ _ H1). lia.
  - specialize (HS I). cbn [negb]. destruct (place _ _ _ _ _) as [[b d] c]. destruct HS as [H1 H2].
    destruct (b && (c =? 0)) eqn:Eb; [done|]. apply IH; [done|].
    destruct b; [|auto]. cbn in Eb. apply Z.eqb_neq in Eb. pose proof (og_count _ _ _ H1). lia.
Qed.

(** *** The places of a range of slots, of a bag *)

Definition plain_slot (j : Z) : Prop := in_u8 j ∧ own_slot j = true ∧ bag_slot j = false ∧ INVENTORY_SLOT_ITEM_START ≤ j < PLAYER_SLOT_END.
Lemma plain_free j : plain_slot j → m_bagslot (mem pl p) = ∅ → free_place pl p INVENTORY_SLOT_BAG_0 j.
Proof.
  intros (Hu & Ho & Hb & Hj) He. left. unfold in_u in Hu. split_and!; [done|done|lia|apply Hj|by rewrite Hb|done].
Qed.
Lemma bag_free bag b j :
  GetBagByPos pl bag = Some b → b ≠ p → m_bagslot (mem pl p) = ∅ → 0 ≤ j < bag_num_slots (mem pl b) → free_place pl p bag j.
Proof.
  intros Hb Hne He Hj. right. split; [|by eauto]. intros ->. by apply GetBagByPos_spec in Hb as (? & _).
Qed.

Lemma attempt_InBag n bag dest count merge ns skip_bag skip_slot :
  offering n dest count → 0 < count →
  attempt_ok n (CanStoreItem_InBag pl bag dest t count merge ns (Some p) skip_bag skip_slot).
Proof.
  intros Ho Hc. unfold CanStoreItem_InBag. case_bool; [done|]. destruct (GetBagByPos pl bag) as [b|] eqn:Hb; [|done].
  case_decide as Hne; [done|]. cbn [src_not_empty_bag]. destruct (IsNotEmptyBag (mem pl p)) eqn:Ee; [done|].
  repeat (case_bool; [done|]).
  pose proof (offering_scan n bag (bag_slots (mem pl b)) (λ j, j =? skip_slot) merge dest count) as HS.
  destruct (scan_slots _ _ _ _ _ _ _ _) as [d c]. split; [|done]. apply HS; [by eapply GetBagByPos_u8| |done|done].
  apply Forall_forall. intros j Hj%elem_of_seqZ. pose proof (mo_size _ Hmem b). unfold MAX_BAG_SIZE, GetBagSize in *.
  split; [unfold in_u; lia|]. split; [intros ->; by apply GetBagByPos_spec in Hb as (? & _)|]. eapply bag_free; [done|congruence|auto|lia].
Qed.
Lemma attempt_InInventorySlots n a b dest count merge skip_bag skip_slot :
  Forall plain_slot (range a b) → offering n dest count → 0 < count →
  attempt_ok n (CanStoreItem_InInventorySlots pl a b dest t count merge (Some p) skip_bag skip_slot).
Proof.
  intros Hr Ho Hc. unfold CanStoreItem_InInventorySlots. cbn [src_not_empty_bag]. destruct (IsNotEmptyBag (mem pl p)) eqn:Ee; [done|].
  pose proof (offering_scan n INVENTORY_SLOT_BAG_0 (range a b) (λ j, (INVENTORY_SLOT_BAG_0 =? skip_bag) && (j =? skip_slot)) merge dest count) as HS.
  destruct (scan_slots _ _ _ _ _ _ _ _) as [d c]. split; [|done]. apply HS; [by unfold in_u| |done|done].
  eapply Forall_impl; [exact Hr|]. intros j Hj. split; [apply Hj|]. split; [intros _; apply Hj|]. by apply plain_free; auto.
Qed.

(** *** The slot that was asked for *)

Record may_ask (bag slot : Z) : Prop := {
  ak_bag : in_u8 bag;
  ak_slot : in_u8 slot;
  ak_own : bag = INVENTORY_SLOT_BAG_0 → own_slot slot = true ∧ INVENTORY_SLOT_ITEM_START ≤ slot < PLAYER_SLOT_END ∧ (bag_slot slot = true → IsBag (mem pl p) = true);
  ak_other : GetBagByPos pl bag ≠ Some p
}.

Lemma own_bag_pos slot : in_u8 slot → IsBagPos (pack INVENTORY_SLOT_BAG_0 slot) = bag_slot slot.
Proof. intros H. unfold IsBagPos. destruct (pack_unpack INVENTORY_SLOT_BAG_0 slot) as [-> ->]; [by unfold in_u|done|]. done. Qed.
Lemma other_bag_pos bag slot : in_u8 bag → in_u8 slot → bag ≠ INVENTORY_SLOT_BAG_0 → IsBagPos (pack bag slot) = false.
Proof.
  intros Hb H Hne. unfold IsBagPos. destruct (pack_unpack bag slot Hb H) as [-> ->]. by rewrite (proj2 (Z.eqb_neq _ _) Hne).
Qed.
Lemma asked_free bag slot :
  may_ask bag slot → src_not_empty_bag pl (Some p) && negb (IsBagPos (pack bag slot)) = false →
  (bag ≠ INVENTORY_SLOT_BAG_0 → ∃ b, GetBagByPos pl bag = Some b ∧ slot < bag_num_slots (mem pl b)) →
  free_place pl p bag slot.
Proof.
  intros [Hb Hs Ho Hne] He Hin. cbn in He. unfold in_u in Hs. destruct (decide (bag = INVENTORY_SLOT_BAG_0)) as [->|Hne'].
  - left. destruct (Ho eq_refl) as (H1 & H2 & H3). split_and!; [done|done|lia|apply H2|done|]. intros Hc. left.
    rewrite own_bag_pos in He by (unfold in_u; lia). destruct (IsNotEmptyBag (mem pl p)); [by destruct (bag_slot slot)|]. by destruct Hc; auto.
  - destruct (Hin Hne') as (b & Hb' & Hj). rewrite other_bag_pos in He by (done || unfold in_u; lia).
    eapply bag_free; [done| | |lia].
    + congruence.
    + apply Hempty. by destruct (IsNotEmptyBag (mem pl p)).
Qed.
Lemma asked_checked bag slot :
  may_ask bag slot → specific_slot_check pl bag slot t = EQUIP_ERR_OK →
  bag ≠ INVENTORY_SLOT_BAG_0 → ∃ b, GetBagByPos pl bag = Some b ∧ slot < bag_num_slots (mem pl b).
Proof.
  intros _ Hc Hne. unfold specific_slot_check in Hc. rewrite (proj2 (Z.eqb_neq _ _) Hne) in Hc.
  destruct (GetBagByPos pl bag) as [b|] eqn:Hb; [|done]. exists b. split; [done|]. rewrite (Hsize _ _ Hb).
  destruct (ContainerSlots _ <=? slot) eqn:E; [done|]. b2p. lia.
Qed.
Lemma asked_taken bag slot q :
  GetItemByPos pl bag slot = Some q →
  bag ≠ INVENTORY_SLOT_BAG_0 → ∃ b, GetBagByPos pl bag = Some b ∧ slot < bag_num_slots (mem pl b).
Proof.
  intros Hq Hne. unfold GetItemByPos in Hq. rewrite (proj2 (Z.eqb_neq _ _) Hne) in Hq. cbn in Hq.
  destruct (GetBagByPos pl bag) as [b|] eqn:Hb; [|done]. exists b. split; [done|]. unfold Bag_GetItemByPos, GetBagSize in Hq.
  case_bool; [|done]. b2p. lia.
Qed.

Lemma attempt_InSpecificSlot n bag slot dest count :
  may_ask bag slot → offering n dest count → 0 < count →
  attempt_ok n (CanStoreItem_InSpecificSlot pl bag slot dest t count false (Some p)).
Proof.
  intros Ha Ho Hc. unfold CanStoreItem_InSpecificSlot. destruct (src_not_empty_bag pl (Some p) && _) eqn:Ee; [done|].
  pose proof (offering_slot n bag slot false dest count (ak_bag _ _ Ha) (ak_slot _ _ Ha) Ho Hc (λ E, proj1 (proj1 (proj2 (ak_own _ _ Ha E))))) as HS. cbv zeta in HS.
  destruct (item_in_way pl bag slot (Some p)) as [q|] eqn:Ew.
  - destruct (CanBeMergedPartlyWith (mem pl q) t) eqn:EM; cbn [negb is_ok]; try done.
    destruct (place _ _ _ _ _) as [[b d] c]. split; [|done]. apply HS; [|done]. apply asked_free; [done..|].
    eapply asked_taken. apply in_way_Some in Ew. apply Ew.
  - destruct (is_ok (specific_slot_check pl bag slot t)) eqn:EC; cbn [negb]; [|split; [done|]; by intros _].
    apply is_ok_true in EC. destruct (place _ _ _ _ _) as [[b d] c]. split; [|done]. apply HS; [|done].
    apply asked_free; [done..|]. by apply asked_checked.
Qed.
(** In exchange for what is there. *)
Lemma specific_swap bag slot count res dest c :
  may_ask bag slot → 0 < count ≤ GetMaxStackSize t →
  CanStoreItem_InSpecificSlot pl bag slot [] t count true (Some p) = (res, dest, c) →
  if is_ok res
  then dest = [mkPos (pack bag slot) count] ∧ c = 0 ∧ free_place pl p bag slot ∧
       (m_bagslot (mem pl p) = ∅ ∨ IsBagPos (pack bag slot) = true)
  else dest = [] ∧ c = count.
Proof.
  intros Ha Hc. unfold CanStoreItem_InSpecificSlot. destruct (src_not_empty_bag pl (Some p) && _) eqn:Ee; [by intros [= <- <- <-]|].
  assert (∀ o : option ptr, (match o, true with
      | Some q, false => (CanBeMergedPartlyWith (mem pl q) t, u32 (GetMaxStackSize t - GetCount (mem pl q)))
      | _, _ => (specific_slot_check pl bag slot t, GetMaxStackSize t) end)
      = (specific_slot_check pl bag slot t, GetMaxStackSize t)) as -> by (by intros []).
  destruct (is_ok (specific_slot_check pl bag slot t)) eqn:EC; cbn [negb].
  - unfold place. cbn [isContainedIn existsb app]. intros [= <- <- <-]. cbn. apply is_ok_true in EC.
    assert ((if count <? GetMaxStackSize t then count else GetMaxStackSize t) = count) as -> by (case_bool; b2p; lia).
    split_and!; [done|by rewrite Z.sub_diag| |].
    + apply asked_free; [done..|]. by apply asked_checked.
    + cbn in Ee. destruct (IsBagPos _); [by right|left]. apply Hempty. by destruct (IsNotEmptyBag (mem pl p)).
  - intros [= <- <- <-]. by rewrite EC.
Qed.

(** *** The blocks of the search *)
Section steps.
Variables (n nsim : Z).

Lemma flow_settle r : attempt_ok n r → flow_offers n nsim (settle nsim r).
Proof.
  destruct r as [[res dest] count]. intros [[H1 H2 H3] H4]. cbn in *. unfold settle.
  destruct (is_ok res) eqn:Er; cbn [negb].
  - apply is_ok_true in Er as ->. destruct (count =? 0) eqn:Ec; b2p.
    + destruct (nsim =? 0) eqn:En; b2p; cbn; (split; [done|]); split; intros ?; try done; intros; lia.
    + cbn. split; [done|lia].
  - apply is_ok_false in Er. cbn. split_and!; [done|done|]. specialize (H4 Er). lia.
Qed.
Lemma flow_settle_bag r : attempt_ok n r → flow_offers n nsim (settle_bag nsim r).
Proof.
  intros H. unfold settle_bag. destruct (is_ok r.1.1) eqn:Er; cbn [negb]; [by apply flow_settle|].
  apply is_ok_false in Er. destruct H as [H1 H2]. split; auto.
Qed.
Lemma flow_bind f k : flow_offers n nsim f → offering_step n nsim k → flow_offers n nsim (fbind f k).
Proof. destruct f; cbn; [done|]. intros [H1 H2] Hk. by apply Hk. Qed.
Lemma flow_go : offering_step n nsim Go.
Proof. by intros dest count. Qed.
Lemma flow_try_bags bags attempt :
  (∀ i dest count, offering n dest count → 0 < count → attempt_ok n (attempt i dest count)) →
  offering_step n nsim (try_bags bags attempt nsim).
Proof.
  intros Ha. induction bags as [|i bags IH]; intros dest count Ho Hc; [done|]. cbn [try_bags].
  apply flow_bind; [|done]. by apply flow_settle_bag, Ha.
Qed.
Lemma flow_in_bags bag slot a b merge ns : offering_step n nsim (in_bags pl bag slot t (Some p) nsim a b merge ns).
Proof. apply flow_try_bags. intros i dest count Ho Hc. by apply attempt_InBag. Qed.
Lemma flow_in_slots bag slot a b merge :
  Forall plain_slot (range a b) → offering_step n nsim (in_slots pl bag slot t (Some p) nsim a b merge).
Proof. intros Hr dest count Ho Hc. by apply flow_settle, attempt_InInventorySlots. Qed.
Lemma flow_in_this_bag bag slot merge : offering_step n nsim (in_this_bag pl bag slot t (Some p) nsim merge).
Proof. intros dest count Ho Hc. unfold in_this_bag. apply flow_settle. case_bool; by apply attempt_InBag. Qed.
End steps.

Lemma plain_range a b :
  INVENTORY_SLOT_ITEM_START ≤ a → b ≤ PLAYER_SLOT_END → (∀ j, a ≤ j < b → own_slot j = true ∧ bag_slot j = false) → Forall plain_slot (range a b).
Proof.
  intros Ha Hb H. apply Forall_forall. intros j Hj%elem_of_seqZ. unfold plain_slot, PLAYER_SLOT_END, INVENTORY_SLOT_ITEM_START, in_u in *.
  destruct (H j); [lia|]. split; [lia|]. split; [done|]. split; [done|lia].
Qed.

(** ** The searches *)

Lemma plain_keys : Forall plain_slot (range KEYRING_SLOT_START CURRENCYTOKEN_SLOT_END).
Proof. apply plain_range; [done|done|]. unfold GetMaxKeyringSize. intros j Hj. split; slots. Qed.
Lemma plain_keyring : Forall plain_slot (range KEYRING_SLOT_START (KEYRING_SLOT_START + GetMaxKeyringSize)).
Proof. apply plain_range; [done|done|]. unfold GetMaxKeyringSize. intros j Hj. split; slots. Qed.
Lemma plain_tokens : Forall plain_slot (range CURRENCYTOKEN_SLOT_START CURRENCYTOKEN_SLOT_END).
Proof. apply plain_range; [done|done|]. unfold GetMaxKeyringSize. intros j Hj. split; slots. Qed.
Lemma plain_pack : Forall plain_slot (range INVENTORY_SLOT_ITEM_START INVENTORY_SLOT_ITEM_END).
Proof. apply plain_range; [done|done|]. unfold GetMaxKeyringSize. intros j Hj. split; slots. Qed.
Lemma plain_bank : Forall plain_slot (range BANK_SLOT_ITEM_START BANK_SLOT_ITEM_END).
Proof. apply plain_range; [done|done|]. unfold GetMaxKeyringSize. intros j Hj. split; slots. Qed.

Ltac blocks :=
  repeat match goal with
  | |- offering_step _ _ (λ _ _, _) => intros ? ? ? ?
  | |- flow_offers _ _ (fbind _ _) => apply flow_bind
  | |- flow_offers _ _ (if ?b then _ else _) => destruct b
  | |- flow_offers _ _ (Go _ _) => by apply flow_go
  | |- flow_offers _ _ (in_bags _ _ _ _ _ _ _ _ _ _ _ _) => by apply flow_in_bags
  | |- flow_offers _ _ (in_slots _ _ _ _ _ _ _ _ _ _ _) => apply flow_in_slots; [|done..]
  | |- flow_offers _ _ (in_this_bag _ _ _ _ _ _ _ _ _) => by apply flow_in_this_bag
  | |- offering_step _ _ (in_bags _ _ _ _ _ _ _ _ _ _) => by apply flow_in_bags
  | |- offering_step _ _ (in_slots _ _ _ _ _ _ _ _ _) => apply flow_in_slots
  | |- offering_step _ _ (in_this_bag _ _ _ _ _ _ _) => by apply flow_in_this_bag
  | |- Forall plain_slot _ => first [exact plain_keys | exact plain_keyring | exact plain_tokens | exact plain_pack | exact plain_bank]
  end.

(** No slot, or one that may be asked for; an exchange is another matter. *)
Definition asked (bag slot : Z) (swap : bool) : Prop :=
  bag = NULL_BAG ∨ slot = NULL_SLOT ∨ (swap = false ∧ may_ask bag slot).

Lemma asked_slot bag slot swap n nsim :
  asked bag slot swap → offering_step n nsim (store_specific_slot pl bag slot t (Some p) swap nsim).
Proof.
  intros Ha dest count Ho Hc. unfold store_specific_slot. destruct (negb _ && negb _) eqn:E; [|by apply flow_go].
  destruct Ha as [->|[->|[-> Ha]]]; [done|by rewrite andb_false_r in E|]. by apply flow_settle, attempt_InSpecificSlot.
Qed.
Lemma flow_store_search bag slot swap n nsim :
  asked bag slot swap → offering_step n nsim (store_search pl bag slot t (Some p) swap nsim).
Proof.
  intros Ha dest count Ho Hc. unfold store_search. apply flow_bind; [by apply asked_slot|]. clear dest count Ho Hc.
  intros dest count Ho Hc. apply flow_bind.
  { unfold store_specific_bag, store_bag_merge, store_bag_free. blocks. }
  clear dest count Ho Hc. intros dest count Ho Hc. apply flow_bind; [unfold store_merge; blocks|].
  clear dest count Ho Hc. intros dest count Ho Hc. apply flow_bind; [unfold store_special; blocks|].
  clear dest count Ho Hc. intros dest count Ho Hc. unfold store_free. case_bool; [|blocks].
  destruct Ho as [H1 H2 H3]. cbn [flow_offers v_dest v_res]. split; [done|]. split; [done|]. intros; lia.
Qed.

Lemma flow_bank_search bag slot swap not_loading n :
  asked bag slot swap → offering_step n 0 (bank_search pl bag slot p swap not_loading).
Proof.
  intros Ha dest count Ho Hc. unfold bank_search. fold t. apply flow_bind.
  { pose proof (asked_slot bag slot swap n 0 Ha dest count Ho Hc) as H. unfold store_specific_slot in H.
    unfold bank_specific_slot. fold t. case_bool; [|done]. cbv zeta. case_bool; [|done].
    destruct Ho as [H1 H2 H3]. apply negb_true_iff, is_ok_false in E0.
    cbn [flow_offers v_dest v_res]. split; [done|]. split; [done|]. intros; lia. }
  clear dest count Ho Hc. intros dest count Ho Hc. apply flow_bind.
  { unfold bank_specific_bag. fold t. case_bool; [|by apply flow_go].
    change (IsNotEmptyBag (mem pl p)) with (src_not_empty_bag pl (Some p)). case_bool; [|blocks].
    destruct Ho as [H1 H2 H3]. cbn [flow_offers v_dest v_res]. split; [done|]. split; [done|]. intros; lia. }
  clear dest count Ho Hc. intros dest count Ho Hc. apply flow_bind; [unfold bank_merge; fold t; blocks|].
  clear dest count Ho Hc. intros dest count Ho Hc. unfold bank_free. fold t. blocks.
Qed.

(** A search only succeeds when nothing was refused before. *)
Definition honest (nsim : Z) (f : flow) : Prop := match f with Return v => v_res v = EQUIP_ERR_OK → nsim = 0 | Go _ _ => True end.
Lemma honest_bind nsim f k : honest nsim f → (∀ d c, honest nsim (k d c)) → honest nsim (fbind f k).
Proof. destruct f; cbn; auto. Qed.
Lemma honest_settle nsim r : honest nsim (settle nsim r).
Proof.
  destruct r as [[res dest] count]. unfold settle. destruct (is_ok res) eqn:Er; cbn [negb].
  - case_bool; [|done]. case_bool; b2p; cbn; [done|discriminate].
  - apply is_ok_false in Er. by cbn.
Qed.
Lemma honest_try_bags nsim bags attempt d c : honest nsim (try_bags bags attempt nsim d c).
Proof.
  revert d c. induction bags as [|i bags IH]; intros d c; [done|]. cbn [try_bags]. apply honest_bind; [|auto].
  unfold settle_bag. case_bool; [done|]. apply honest_settle.
Qed.
Lemma honest_store_search bag slot swap nsim d c : honest nsim (store_search pl bag slot t (Some p) swap nsim d c).
Proof.
  unfold store_search, store_specific_slot, store_specific_bag, store_bag_merge, store_bag_free, store_merge, store_special, store_free.
  repeat match goal with
  | |- honest _ (fbind _ _) => apply honest_bind
  | |- ∀ _ _, honest _ _ => intros ? ?
  | |- honest _ (if ?b then _ else _) => destruct b
  | |- honest _ (Go _ _) => exact I
  | |- honest _ (in_bags _ _ _ _ _ _ _ _ _ _ _ _) => apply honest_try_bags
  | |- honest _ _ => apply honest_settle
  | |- honest _ (Return _) => by cbn
  end.
Qed.

(** The amount refused because of what the player has already. *)
Definition refused : Z := default 0 (CanTakeMoreSimilarItems pl (GetEntry (mem pl p)) (GetCount (mem pl p)) (Some p)).1.2.

Lemma refused_range : 1 ≤ GetCount (mem pl p) < 2 ^ 32 → 0 ≤ refused < 2 ^ 32.
Proof.
  intros Hc. unfold refused, CanTakeMoreSimilarItems.
  repeat first [case_bool | case_match]; cbn; first [lia | apply wrap_range; lia].
Qed.

Section answer.
Variables (bag slot : Z) (d0 : ItemPosCountVec) (swap : bool).
Hypothesis Ht : item_templates !! GetEntry (mem pl p) = Some t.
Hypothesis Hc : 1 ≤ GetCount (mem pl p) ≤ GetMaxStackSize t.
Let count := GetCount (mem pl p).

(** An answer to the question where the item can go, when [d0] is spoken for. *)
Definition answers (res : InventoryResult) (dest : ItemPosCountVec) : Prop :=
  sound_dest pl p dest ∧ (res = EQUIP_ERR_OK → refused = 0 ∧ total cnt dest = total cnt d0 + count) ∧
  (res ≠ EQUIP_ERR_OK → refused = 0 → total cnt dest < total cnt d0 + count).

Lemma answers_error res : res ≠ EQUIP_ERR_OK → sound_dest pl p d0 → answers res d0.
Proof. intros Hr H. split; [done|]. split; [done|]. unfold count. intros; lia. Qed.
Lemma offering_all : sound_dest pl p d0 → offering (total cnt d0 + count) d0 count.
Proof. intros H. split; [done| |done]. unfold count. pose proof stack_bounds. lia. Qed.

Lemma CanStoreItem_answers :
  asked bag slot swap → sound_dest pl p d0 →
  answers (v_res (CanStoreItem pl bag slot d0 (Some p) swap)) (v_dest (CanStoreItem pl bag slot d0 (Some p) swap)).
Proof.
  intros Ha H0. unfold CanStoreItem, CanStoreItem_entry. rewrite Ht. do 2 (case_bool; [by apply answers_error|]).
  pose proof stack_bounds as Hb. fold count.
  assert (refused = default 0 (CanTakeMoreSimilarItems pl (GetEntry (mem pl p)) count (Some p)).1.2) as Er by done.
  destruct (CanTakeMoreSimilarItems pl _ count (Some p)) as [[res written] cat]. cbn in Er. cbv zeta. rewrite <- Er. clear Er written cat.
  destruct (negb (is_ok res) && (count =? refused)) eqn:E1.
  { apply answers_error; [|done]. apply andb_true_iff in E1 as [E1 _]. by apply negb_true_iff, is_ok_false in E1. }
  set (c := if negb (is_ok res) then _ else _).
  assert (0 ≤ c < 2 ^ 32 ∧ (refused = 0 → c = count)) as [Hc' Hr'].
  { unfold c. destruct (negb (is_ok res)); [|split; [unfold count; lia|done]]. split; [apply wrap_range; lia|].
    intros ->. rewrite Z.sub_0_r. apply wrap_small. unfold in_u, count. lia. }
  assert (0 < c) as Hpos.
  { destruct (decide (refused = 0)) as [Ez|Ez]; [rewrite (Hr' Ez); unfold count; lia|]. unfold c in *. destruct (negb (is_ok res)) eqn:E2; [|unfold count; lia].
    cbn in E1. b2p. destruct (decide (u32 (count - refused) = 0)) as [Ew|]; [|lia]. exfalso.
    pose proof (refused_range ltac:(lia)). unfold wrap in Ew. apply Z.mod_divide in Ew as [k Hk]; [|lia].
    unfold count in *. nia. }
  pose proof (flow_store_search bag slot swap (total cnt d0 + c) refused Ha d0 c) as HF.
  destruct (store_search _ _ _ _ _ _ _ _) as [v|d c'].
  - destruct HF as (F1 & F2 & F3); [by split|done|]. split; [done|]. split.
    + intros Eo. destruct (F2 Eo) as [F4 F5]. by rewrite F5, Hr'.
    + intros Eo Hz. rewrite <- (Hr' Hz). by apply F3.
  - destruct HF as [[F1 F2 F3] F4]; [by split|done|]. split; [done|]. split; [done|]. cbn [v_dest]. intros _ Hz. rewrite (Hr' Hz) in F3. lia.
Qed.

Lemma CanTakeMore_ok : (CanTakeMoreSimilarItems pl (GetEntry (mem pl p)) count (Some p)).1.1 = EQUIP_ERR_OK → refused = 0.
Proof.
  unfold refused. fold count. unfold CanTakeMoreSimilarItems. repeat first [case_bool | case_match]; done.
Qed.

Lemma CanBankItem_answers not_loading :
  asked bag slot swap → sound_dest pl p d0 →
  answers (CanBankItem pl bag slot d0 (Some p) swap not_loading).1 (CanBankItem pl bag slot d0 (Some p) swap not_loading).2.
Proof.
  intros Ha H0. unfold CanBankItem. do 3 (case_bool; [by apply answers_error|]). fold count.
  pose proof CanTakeMore_ok as HW.
  destruct (CanTakeMoreSimilarItems pl _ count (Some p)) as [[res written] cat].
  destruct (negb (is_ok res)) eqn:Er.
  { apply answers_error; [|done]. by apply negb_true_iff, is_ok_false in Er. }
  apply negb_false_iff, is_ok_true in Er. specialize (HW Er).
  pose proof (flow_bank_search bag slot swap not_loading (total cnt d0 + count) Ha d0 count) as HF.
  destruct (bank_search _ _ _ _ _ _ _) as [v|d c'].
  - destruct HF as (F1 & F2 & F3); [by apply offering_all|unfold count; lia|]. split; [done|]. split; [|auto].
    intros Eo. by destruct (F2 Eo).
  - destruct HF as [[F1 F2 F3] F4]; [by apply offering_all|unfold count; lia|]. split; [done|]. split; [done|]. cbn [fst snd]. intros; lia.
Qed.

(** *** In exchange for what is there *)

Definition exchanged (res : InventoryResult) (dest : ItemPosCountVec) : Prop :=
  (res = EQUIP_ERR_OK →
   refused = 0 ∧ dest = [mkPos (pack bag slot) count] ∧ free_place pl p bag slot ∧
   (m_bagslot (mem pl p) = ∅ ∨ IsBagPos (pack bag slot) = true)) ∧
  (res ≠ EQUIP_ERR_OK → refused = 0 → dest = []).
Hypothesis Ha : may_ask bag slot.
Hypothesis Hbag : bag ≠ NULL_BAG.
Hypothesis Hslot : slot ≠ NULL_SLOT.

Lemma CanStoreItem_exchanged :
  exchanged (v_res (CanStoreItem pl bag slot [] (Some p) true)) (v_dest (CanStoreItem pl bag slot [] (Some p) true)).
Proof.
  unfold CanStoreItem, CanStoreItem_entry. rewrite Ht. do 2 (case_bool; [by split|]). fold count.
  assert (refused = default 0 (CanTakeMoreSimilarItems pl (GetEntry (mem pl p)) count (Some p)).1.2) as Er by done.
  destruct (CanTakeMoreSimilarItems pl _ count (Some p)) as [[res written] cat]. cbn in Er. cbv zeta. rewrite <- Er. clear Er written cat.
  destruct (negb (is_ok res) && (count =? refused)) eqn:E1.
  { split; [|done]. cbn [v_res]. intros ->. discriminate E1. }
  set (c := if negb (is_ok res) then _ else _). pose proof stack_bounds as Hb.
  assert (refused = 0 → c = count) as Hr.
  { intros Ez. unfold c. rewrite Ez, Z.sub_0_r. destruct (negb _); [|done]. apply wrap_small. unfold in_u, count. lia. }
  pose proof (honest_store_search bag slot true refused [] c) as Hh. destruct (decide (refused = 0)) as [Ez|Ez].
  - rewrite (Hr Ez), Ez. unfold store_search, store_specific_slot. rewrite (proj2 (Z.eqb_neq _ _) Hbag), (proj2 (Z.eqb_neq _ _) Hslot). cbn [negb andb].
    destruct (CanStoreItem_InSpecificSlot pl bag slot [] t count true (Some p)) as [[r d] c'] eqn:ES.
    apply specific_swap in ES; [|done|unfold count; lia]. unfold settle. destruct (is_ok r) eqn:Eo; cbn [negb].
    + destruct ES as (-> & -> & Hf). by split.
    + destruct ES as (-> & ->). apply is_ok_false in Eo. by split.
  - destruct (store_search _ _ _ _ _ _ _ _) as [v|d c'].
    + split; [|done]. intros Eo. by apply Hh in Eo.
    + by split.
Qed.
Lemma CanBankItem_exchanged not_loading :
  exchanged (CanBankItem pl bag slot [] (Some p) true not_loading).1 (CanBankItem pl bag slot [] (Some p) true not_loading).2.
Proof.
  unfold CanBankItem. do 3 (case_bool; [by split|]). fold count. pose proof CanTakeMore_ok as HW.
  destruct (CanTakeMoreSimilarItems pl _ count (Some p)) as [[res written] cat].
  destruct (negb (is_ok res)) eqn:Er.
  { apply negb_true_iff, is_ok_false in Er. by split. }
  apply negb_false_iff, is_ok_true in Er. specialize (HW Er). unfold bank_search, bank_specific_slot.
  rewrite (proj2 (Z.eqb_neq _ _) Hbag), (proj2 (Z.eqb_neq _ _) Hslot). cbn [negb andb]. fold t. cbv zeta.
  case_bool. { apply negb_true_iff, is_ok_false in E2. by split. }
  destruct (CanStoreItem_InSpecificSlot pl bag slot [] t count true (Some p)) as [[r d] c'] eqn:ES.
  pose proof stack_bounds. apply specific_swap in ES; [|done|unfold count; lia]. unfold settle. destruct (is_ok r) eqn:Eo; cbn [negb].
  - destruct ES as (-> & -> & Hf). by split.
  - destruct ES as (-> & ->). apply is_ok_false in Eo. by split.
Qed.
End answer.
End search.

(** ** For what the player has *)
Section player.
Context `{IE : ItemEnv}.
Context (HT : templates_ok).
Variables (L : list ptr) (w : Mover) (p : ptr).
Hypothesis HI : Inv L w.
Hypothesis Hp : p ∈ held L w.

Lemma held_stackable : in_s32 (Stackable (GetTemplate (mem (pl w) p))).
Proof. apply (tk_stack HT _ _ (so_template _ _ (iv_item _ _ HI p Hp))). Qed.
Lemma held_contents : IsNotEmptyBag (mem (pl w) p) = false → m_bagslot (mem (pl w) p) = ∅.
Proof.
  intros He. apply elem_of_held in Hp as (r & Hr & [->|Hin]).
  - apply map_empty. intros j. destruct (m_bagslot (mem (pl w) r) !! j) as [x|] eqn:Ej; [|done]. exfalso.
    destruct (iv_inside _ _ HI _ _ _ Hr Ej) as (Hj & _). pose proof (so_size _ _ (iv_item _ _ HI r (root_held _ _ _ Hr))) as Hs.
    unfold IsNotEmptyBag in He. destruct (IsBag (mem (pl w) r)); [|lia]. cbn in He. apply negb_false_iff in He.
    unfold Bag_IsEmpty in He. rewrite forallb_forall in He. specialize (He j). rewrite bool_decide_eq_true, Ej in He.
    enough (Some x = None) by done. apply He, list_elem_of_In, elem_of_seqZ. unfold GetBagSize. lia.
  - apply elem_of_inside in Hin as (j & Hj). destruct (iv_inside _ _ HI _ _ _ Hr Hj) as (_ & _ & _ & Hi). by apply inside_nil.
Qed.
Lemma bag_sizes bag b : GetBagByPos (pl w) bag = Some b → bag_num_slots (mem (pl w) b) = ContainerSlots (GetTemplate (mem (pl w) b)).
Proof.
  intros Hb. apply (bag_is_root L) in Hb as Hr; [|done]. rewrite (so_size _ _ (iv_item _ _ HI b (root_held _ _ _ Hr))).
  apply GetBagByPos_spec in Hb as (_ & _ & ->). done.
Qed.

Let Hs := iv_item _ _ HI p Hp.
Local Ltac facts := first [exact (iv_mem _ _ HI) | exact held_stackable | exact held_contents | exact bag_sizes | exact (so_template _ _ Hs) | exact (so_count _ _ Hs)].
Lemma store_answers bag slot d0 swap :
  asked (pl w) p bag slot swap → sound_dest (pl w) p d0 →
  answers (pl w) p d0 (v_res (CanStoreItem (pl w) bag slot d0 (Some p) swap)) (v_dest (CanStoreItem (pl w) bag slot d0 (Some p) swap)).
Proof.
  intros; apply CanStoreItem_answers; first [assumption | facts].
Qed.
Lemma bank_answers bag slot d0 swap not_loading :
  asked (pl w) p bag slot swap → sound_dest (pl w) p d0 →
  answers (pl w) p d0 (CanBankItem (pl w) bag slot d0 (Some p) swap not_loading).1 (CanBankItem (pl w) bag slot d0 (Some p) swap not_loading).2.
Proof.
  intros; apply CanBankItem_answers; first [assumption | facts].
Qed.
Lemma store_exchanged bag slot :
  may_ask (pl w) p bag slot → bag ≠ NULL_BAG → slot ≠ NULL_SLOT →
  exchanged (pl w) p bag slot (v_res (CanStoreItem (pl w) bag slot [] (Some p) true)) (v_dest (CanStoreItem (pl w) bag slot [] (Some p) true)).
Proof. intros; apply CanStoreItem_exchanged; first [assumption | facts]. Qed.
Lemma bank_exchanged bag slot not_loading :
  may_ask (pl w) p bag slot → bag ≠ NULL_BAG → slot ≠ NULL_SLOT →
  exchanged (pl w) p bag slot (CanBankItem (pl w) bag slot [] (Some p) true not_loading).1 (CanBankItem (pl w) bag slot [] (Some p) true not_loading).2.
Proof. intros; apply CanBankItem_exchanged; first [assumption | facts]. Qed.
End player.
End MoveSearch.
