(* ===== verification/MovePlans.v ===== *)
(** * What the answers about a place come to when they are followed

    CanEquipItem, the plans of SwapItem and SplitItem, and following them. *)
From S2P Require Import Prelude StateMonad Items Inventory Storage MoveData MoveOps MoveEquip MoveSwap MoveCalm MoveInvariant MoveSteps MoveOffers MoveWear MoveSearch.

Module MovePlans.
Export MoveSwap MoveSearch.

Section plans.
Context `{IE : ItemEnv} `{ME : MoveEnv}.
Context (HT : templates_ok).

(** ** CanEquipItem *)

(** Where something can be worn; a second quiver, by mistake, in the backpack. *)
Definition wearable (w : Mover) (p : ptr) (s : Z) : Prop :=
  (0 ≤ s < EQUIPMENT_SLOT_END ∧ IsBag (mem (pl w) p) = false) ∨
  (INVENTORY_SLOT_BAG_START ≤ s < INVENTORY_SLOT_BAG_END ∧ IsBag (mem (pl w) p) = true) ∨
  (38 ≤ s < 42 ∧ IsBag (mem (pl w) p) = true ∧ Class_ (GetTemplate (mem (pl w) p)) = ITEM_CLASS_QUIVER).
Definition wearable_slots (w : Mover) (p : ptr) (r : InventoryResult * list Z) : Prop :=
  r.1 = EQUIP_ERR_OK → Forall (λ s, s = NULL_SLOT ∨ wearable w p s) r.2.

Lemma wearable_bags w p : IsBag (mem (pl w) p) = true → Forall (λ s, s = NULL_SLOT ∨ wearable w p s) (map (λ i, INVENTORY_SLOT_BAG_START + i) [0; 1; 2; 3]).
Proof.
  intros Hb. apply Forall_forall. intros s Hs. right. right. left. split; [|done].
  apply list_elem_of_fmap in Hs as (i & -> & Hi). rewrite !elem_of_cons, elem_of_nil in Hi. slots.
Qed.
Lemma wearable_quivers w p preferred :
  IsBag (mem (pl w) p) = true → Class_ (GetTemplate (mem (pl w) p)) = ITEM_CLASS_QUIVER →
  wearable_slots w p (CanEquipQuiver w p preferred (map (λ i, INVENTORY_SLOT_BAG_START + i) [0; 1; 2; 3])).
Proof.
  intros Hb Hq. unfold CanEquipQuiver. destruct (find _ _) as [i|] eqn:Ef; [|intros _; by apply wearable_bags].
  apply find_some in Ef as [Hi _]. apply list_elem_of_In, elem_of_seqZ in Hi.
  case_bool; [intros _; by apply wearable_bags|]. intros _. cbn. pose proof (wearable_bags w p Hb) as HF.
  cbn in HF. apply Forall_cons in HF as [_ HF]. constructor; [|exact HF]. right. right. right. split; [|by split].
  rewrite wrap_small by slots. slots.
Qed.
Lemma wearable_one w p a : IsBag (mem (pl w) p) = false → 0 ≤ a < EQUIPMENT_SLOT_END → wearable_slots w p (EQUIP_ERR_OK, four [a]).
Proof. intros Hb Ha _. cbn. rewrite !Forall_cons, Forall_nil. split_and!; try done; [right|by left..]. left. by split. Qed.
Lemma wearable_two w p a b :
  IsBag (mem (pl w) p) = false → 0 ≤ a < EQUIPMENT_SLOT_END → 0 ≤ b < EQUIPMENT_SLOT_END → wearable_slots w p (EQUIP_ERR_OK, four [a; b]).
Proof.
  intros Hb Ha Hc _. cbn. rewrite !Forall_cons, Forall_nil. split_and!; try done; [right|right|by left..]; left; by split.
Qed.

Local Ltac no_bag :=
  unfold IsBag; apply Z.eqb_neq;
  repeat match goal with H : _ || _ = true |- _ => apply orb_true_iff in H as [H|H] end; b2p;
  match goal with H : InventoryType _ = _ |- _ => rewrite H end.
Lemma equip_slots_wearable w p preferred swap not_loading : wearable_slots w p (equip_slots w p preferred swap not_loading).
Proof.
  unfold equip_slots. cbv zeta.
  repeat first [case_bool|destruct (relic_class _)]; try done;
    try (first [apply wearable_one | apply wearable_two]; [by no_bag|split; [cbv; congruence|done]..]).
  - b2p. apply wearable_quivers; [|done]. unfold IsBag. by apply Z.eqb_eq.
  - b2p. intros _. apply wearable_bags. unfold IsBag. by apply Z.eqb_eq.
Qed.

Lemma wearable_free L w p s : Inv L w → p ∈ held L w → wearable w p s → in_u8 s ∧ s ≠ NULL_SLOT ∧ free_place (pl w) p INVENTORY_SLOT_BAG_0 s.
Proof.
  intros H Hp Hs. split; [destruct Hs as [[]|[[]|[]]]; slots|]. split; [destruct Hs as [[]|[[]|[]]]; slots|].
  left. split; [done|]. split; [destruct Hs as [[]|[[]|[]]]; slots|]. split; [destruct Hs as [[]|[[]|[]]]; slots|].
  destruct Hs as [[Hs Hb]|[[Hs Hb]|(Hs & _ & Hq)]].
  - split; [slots|]. intros []. apply (held_contents L); [done..|]. unfold IsNotEmptyBag. by rewrite Hb.
  - split; [done|]. left. slots.
  - split; [slots|]. right. split; [slots|done].
Qed.

Lemma unless_error {A} b x (a : A) k d :
  (if b && negb (is_ok x) then (x, a) else k) = (EQUIP_ERR_OK, d) → k = (EQUIP_ERR_OK, d).
Proof. destruct b; cbn; [|done]. destruct (is_ok x) eqn:E; [done|]. apply is_ok_false in E. by intros [= ? ?]. Qed.
Lemma CanFindEquipSlot_ok w p preferred swap not_loading slot :
  in_u8 preferred → CanFindEquipSlot w p preferred swap not_loading = (EQUIP_ERR_OK, slot) →
  wearable w p slot ∧ (preferred ≠ NULL_SLOT → slot = preferred).
Proof.
  intros Hu. unfold CanFindEquipSlot. pose proof (equip_slots_wearable w p preferred swap not_loading) as HW.
  destruct (equip_slots w p preferred swap not_loading) as [res slots]. intros E. pose proof E as Eo.
  destruct (is_ok res) eqn:Er; cbn [negb] in E; [|apply is_ok_false in Er; by injection E as ? ?].
  apply is_ok_true in Er. unfold wearable_slots in HW. cbn in HW. specialize (HW Er). rewrite Forall_forall in HW. clear Eo.
  assert (∀ s, s ∈ slots → negb (s =? NULL_SLOT) = true → wearable w p s) as HF.
  { intros s Hs Hn. apply negb_true_iff, Z.eqb_neq in Hn. by destruct (HW s Hs). }
  destruct (preferred =? NULL_SLOT) eqn:Ep; cbn [negb] in E.
  - destruct (find _ slots) as [s|] eqn:Ef.
    { injection E as <-. apply find_some in Ef as [Hs Hc]. apply andb_true_iff in Hc as [Hc _]. apply Z.eqb_eq in Ep.
      split; [|done]. apply HF; [by apply list_elem_of_In|done]. }
    destruct (find (λ slot, negb (slot =? NULL_SLOT) && swap) slots) as [s|] eqn:Ef'; [|done].
    injection E as <-. apply find_some in Ef' as [Hs Hc]. apply andb_true_iff in Hc as [Hc _]. apply Z.eqb_eq in Ep.
    split; [|done]. apply HF; [by apply list_elem_of_In|done].
  - destruct (_ && existsb _ slots) eqn:Ee; [|done]. injection E as <-. apply andb_true_iff in Ee as [_ Ee].
    apply existsb_exists in Ee as (s & Hs & Es). apply Z.eqb_eq in Es as <-. rewrite wrap_small by done.
    split; [|done]. apply HF; [by apply list_elem_of_In|]. by rewrite Ep.
Qed.

Lemma CanEquipItem_ok L w p preferred swap not_loading dest :
  Inv L w → p ∈ held L w → in_u8 preferred → CanEquipItem w preferred p swap not_loading = (EQUIP_ERR_OK, dest) →
  ∃ slot, dest = pack INVENTORY_SLOT_BAG_0 slot ∧ wearable w p slot ∧ (preferred ≠ NULL_SLOT → slot = preferred) ∧
          (swap = false → GetItemByPos (pl w) INVENTORY_SLOT_BAG_0 slot = None).
Proof.
  intros H Hp Hu. unfold CanEquipItem. cbv zeta. destruct (CanTakeMoreSimilarItems _ _ _ _) as [[more ?] ?].
  do 2 (case_bool; [done|]). intros E1. apply (unless_error true) in E1.
  destruct (IsCharmed (pl w)); [done|]. apply (unless_error true) in E1. destruct (outgrown w _); [done|].
  apply unless_error in E1. destruct (CanFindEquipSlot w p preferred swap not_loading) as [res slot] eqn:Ef.
  destruct (is_ok res) eqn:Er; cbn [negb] in E1; [|apply is_ok_false in Er; by injection E1 as ? ?].
  apply is_ok_true in Er as ->. apply (unless_error true) in E1. apply CanFindEquipSlot_ok in Ef as [H1 H2]; [|done].
  destruct (negb swap && _) eqn:En; [done|]. injection E1 as <-. exists slot. split_and!; [done..|]. intros ->. cbn in En.
  apply bool_decide_eq_false in En. apply eq_None_not_Some. exact En.
Qed.

(** ** Following an answer *)

Definition followable (w : Mover) (p : ptr) (r : route) : Prop :=
  match r with
  | Stored dest | Banked dest => sound_dest (pl w) p dest ∧ dest ≠ []
  | Worn x => ∃ slot, x = pack INVENTORY_SLOT_BAG_0 slot ∧ in_u8 slot ∧ free_place (pl w) p INVENTORY_SLOT_BAG_0 slot ∧
                      GetItemByPos (pl w) INVENTORY_SLOT_BAG_0 slot = None
  | Nowhere => False
  end.
(** The amount that arrives, and where. *)
Definition routed (w : Mover) (p : ptr) (r : route) : Z :=
  match r with Stored dest | Banked dest => total cnt dest | Worn _ | Nowhere => GetCount (mem (pl w) p) end.
Definition places (w : Mover) (p : ptr) (r : route) : ItemPosCountVec :=
  match r with Stored dest | Banked dest => dest | Worn x => [mkPos x (GetCount (mem (pl w) p))] | Nowhere => [] end.

Lemma wp_follow L w p r :
  Inv (p :: L) w → followable w p r →
  wp (follow r p) (λ _ w', step_ok L (p :: L) L (unit_delta w p (routed w p r - GetCount (mem (pl w) p))) (places w p r) w w') w.
Proof.
  intros H Hr. destruct r as [dest|dest|x|]; cbn [follow routed places]; [| | |done].
  - destruct Hr. eapply wp_use; [by apply (wp_StoreItem HT L)|]. cbn beta. intros o w' (? & _). by apply wp_skip.
  - destruct Hr. unfold BankItem. eapply wp_use; [by apply (wp_StoreItem HT L)|]. cbn beta. intros o w' (? & _). by apply wp_skip.
  - destruct Hr as (slot & -> & Hu & Hf & Hn). eapply wp_use; [by apply (wp_EquipItem L)|]. cbn beta. intros o w' (Hs & _). apply wp_skip.
    eapply step_weaken; [exact Hs| |done]. intros e. unfold unit_delta. rewrite Z.sub_diag. by destruct (_ =? e).
Qed.

Lemma pack_pos x : in_u16 x → pack (pos_bag x) (pos_slot x) = x.
Proof.
  intros Hx. assert (in_u8 (pos_bag x) ∧ in_u8 (pos_slot x)) as [Hb Hs] by (split; apply wrap_range; lia).
  rewrite (pos_split (pack _ _)) by apply pack_u16. destruct (pack_unpack _ _ Hb Hs) as [-> ->]. by rewrite <- pos_split.
Qed.
Lemma pos_bag_u8 x : in_u8 (pos_bag x).
Proof. apply wrap_range. lia. Qed.
Lemma pos_slot_u8 x : in_u8 (pos_slot x).
Proof. apply wrap_range. lia. Qed.

Lemma sound_nil pl p : sound_dest pl p [].
Proof. split; constructor. Qed.
Lemma position_range w bag slot q : mem_ok (pl w) → in_u8 slot → GetItemByPos (pl w) bag slot = Some q → slot ≠ NULL_SLOT ∧ bag ≠ NULL_BAG.
Proof.
  intros Hm Hu Hq. unfold GetItemByPos in Hq. destruct (_ && own_slot slot) eqn:E.
  - split; [intros ->|intros ->]; slots.
  - destruct (GetBagByPos (pl w) bag) as [b|] eqn:Hb; [|done]. pose proof (mo_size _ Hm b) as Hs.
    unfold Bag_GetItemByPos in Hq. destruct (slot <? _) eqn:El; [|done]. apply GetBagByPos_spec in Hb as (Hb & _).
    unfold MAX_BAG_SIZE in Hs. split; intros ->; slots.
Qed.
Lemma answers_follow L w p res dest :
  Inv L w → p ∈ held L w → answers (pl w) p [] res dest → res = EQUIP_ERR_OK →
  sound_dest (pl w) p dest ∧ dest ≠ [] ∧ total cnt dest = GetCount (mem (pl w) p).
Proof.
  intros H Hp (H1 & H2 & _) E. destruct (H2 E) as [_ H3]. cbn [total foldr] in H3. pose proof (so_count _ _ (iv_item _ _ H p Hp)).
  split; [done|]. split; [|lia]. intros ->. cbn in H3. lia.
Qed.

(** *** Where SwapItem and SplitItem can put something *)

Lemma ask_inventory w p position :
  IsInventoryPos16 position = true → GetBagByPos (pl w) (pos_bag position) ≠ Some p →
  pos_slot position = NULL_SLOT ∨ may_ask (pl w) p (pos_bag position) (pos_slot position).
Proof.
  intros Hi Hb. pose proof (pos_bag_u8 position). pose proof (pos_slot_u8 position).
  destruct (decide (pos_slot position = NULL_SLOT)) as [|Hn]; [by left|right]. split; [done|done| |done].
  intros E. unfold IsInventoryPos16, IsInventoryPos in Hi. rewrite E in Hi. split; [slots|]. split; slots.
Qed.
Lemma ask_bank w p position :
  IsBankPos16 position = true → GetBagByPos (pl w) (pos_bag position) ≠ Some p →
  may_ask (pl w) p (pos_bag position) (pos_slot position) ∨
  (pos_bag position = INVENTORY_SLOT_BAG_0 ∧ between BANK_SLOT_BAG_START (pos_slot position) BANK_SLOT_BAG_END = true ∧ IsBag (mem (pl w) p) = false).
Proof.
  intros Hi Hb. pose proof (pos_bag_u8 position). pose proof (pos_slot_u8 position).
  unfold IsBankPos16, IsBankPos in Hi.
  destruct (decide (pos_bag position = INVENTORY_SLOT_BAG_0 ∧ between BANK_SLOT_BAG_START (pos_slot position) BANK_SLOT_BAG_END = true)) as [[E E']|Hn].
  - destruct (IsBag (mem (pl w) p)) eqn:Eb; [left|by right]. split; [done|done| |done]. intros _. split; [slots|]. split; [slots|done].
  - left. split; [done|done| |done]. intros E. destruct (between BANK_SLOT_BAG_START _ _) eqn:E'; [by destruct Hn|].
    rewrite E in Hi. split_and!; slots.
Qed.
(** A bank slot for bags is for bags. *)
Lemma bank_no_bag pl p bag slot d0 swap not_loading :
  bag = INVENTORY_SLOT_BAG_0 → between BANK_SLOT_BAG_START slot BANK_SLOT_BAG_END = true → IsBag (mem pl p) = false →
  (CanBankItem pl bag slot d0 (Some p) swap not_loading).1 ≠ EQUIP_ERR_OK ∧
  (CanBankItem pl bag slot d0 (Some p) swap not_loading).2 = d0.
Proof.
  intros -> Hs Hb. unfold CanBankItem. do 3 (case_bool; [done|]). destruct (CanTakeMoreSimilarItems _ _ _ _) as [[res ?] ?].
  case_bool; [by apply negb_true_iff, is_ok_false in E2|].
  unfold bank_search, bank_specific_slot. rewrite Hs, Hb. cbn [negb]. destruct (negb (slot =? NULL_SLOT)) eqn:En; [done|].
  apply negb_false_iff, Z.eqb_eq in En. rewrite En in Hs. done.
Qed.

(** To a place that is free, or onto a stack. *)
Lemma plan_ok L w p position r :
  Inv L w → p ∈ held L w → GetBagByPos (pl w) (pos_bag position) ≠ Some p → plan w position p false = (EQUIP_ERR_OK, r) →
  r = Nowhere ∨ (followable w p r ∧ routed w p r = GetCount (mem (pl w) p)).
Proof.
  intros H Hp Hb. unfold plan. destruct (IsInventoryPos16 position) eqn:Ei; [|destruct (IsBankPos16 position) eqn:Ek; [|destruct (IsEquipmentPos16 position) eqn:Ee]].
  - intros [= Hv <-]. right. destruct (answers_follow L w p _ _ H Hp (store_answers HT L w p H Hp _ _ [] false
      ltac:(right; destruct (ask_inventory w p position Ei Hb); [by left|by right; split]) (sound_nil _ _)) Hv) as (H1 & H2 & H3). by split.
  - destruct (CanBankItem _ _ _ _ _ _ _) as [res dest] eqn:Ec. intros [= -> <-]. right.
    destruct (ask_bank w p position Ek Hb) as [Ha|(E1 & E2 & E3)].
    + pose proof (bank_answers HT L w p H Hp (pos_bag position) (pos_slot position) [] false true
        ltac:(right; right; by split) (sound_nil _ _)) as HA. rewrite Ec in HA.
      destruct (answers_follow L w p _ _ H Hp HA eq_refl) as (H1 & H2 & H3). by split.
    + exfalso. destruct (bank_no_bag (pl w) p _ _ [] false true E1 E2 E3) as [H1 _]. by rewrite Ec in H1.
  - destruct (CanEquipItem _ _ _ _ _) as [res dest] eqn:Ec. intros [= -> <-]. right.
    destruct (CanEquipItem_ok L w p _ _ _ _ H Hp (pos_slot_u8 _) Ec) as (slot & -> & Hw & _ & Hn).
    destruct (wearable_free L w p slot H Hp Hw) as (Hu & _ & Hf). split; [|done]. exists slot. split_and!; [done|done|done|by apply Hn].
  - intros [= <-]. by left.
Qed.

(** To one place, as a whole: one that is free, or in exchange for what is there. *)
Record straight (w : Mover) (p : ptr) (position : Z) (r : route) : Prop := {
  st_free : free_place (pl w) p (pos_bag position) (pos_slot position);
  st_bag : m_bagslot (mem (pl w) p) = ∅ ∨ IsBagPos position = true;
  st_route : match r with
             | Stored dest | Banked dest => dest = [mkPos position (GetCount (mem (pl w) p))]
             | Worn x => x = position ∧ pos_bag position = INVENTORY_SLOT_BAG_0
             | Nowhere => False
             end
}.
(** Nothing in the way is as good as an exchange. *)
Lemma specific_nothing_there pl bag slot dest t count swap pItem :
  (swap = false → item_in_way pl bag slot pItem = None) →
  CanStoreItem_InSpecificSlot pl bag slot dest t count swap pItem = CanStoreItem_InSpecificSlot pl bag slot dest t count true pItem.
Proof.
  destruct swap; [done|]. intros H. unfold CanStoreItem_InSpecificSlot. by rewrite (H eq_refl).
Qed.
Lemma store_nothing_there L w p bag slot swap :
  Inv L w → p ∈ held L w → (swap = false → item_in_way (pl w) bag slot (Some p) = None) →
  CanStoreItem (pl w) bag slot [] (Some p) swap = CanStoreItem (pl w) bag slot [] (Some p) true.
Proof.
  intros H Hp Hw. unfold CanStoreItem, CanStoreItem_entry. rewrite (so_template _ _ (iv_item _ _ H p Hp)).
  unfold store_search, store_specific_slot. destruct (CanTakeMoreSimilarItems _ _ _ _) as [[??]?]. cbv zeta.
  by rewrite (specific_nothing_there (pl w) bag slot [] _ _ swap).
Qed.
Lemma bank_nothing_there w p bag slot swap not_loading :
  (swap = false → item_in_way (pl w) bag slot (Some p) = None) →
  CanBankItem (pl w) bag slot [] (Some p) swap not_loading = CanBankItem (pl w) bag slot [] (Some p) true not_loading.
Proof.
  intros Hw. unfold CanBankItem, bank_search, bank_specific_slot. by rewrite (specific_nothing_there (pl w) bag slot [] _ _ swap).
Qed.

Lemma plan_straight L w p position swap r :
  Inv L w → p ∈ held L w → in_u16 position → pos_slot position ≠ NULL_SLOT → pos_bag position ≠ NULL_BAG →
  (swap = false → item_in_way (pl w) (pos_bag position) (pos_slot position) (Some p) = None) →
  GetBagByPos (pl w) (pos_bag position) ≠ Some p → plan w position p swap = (EQUIP_ERR_OK, r) →
  r = Nowhere ∨ straight w p position r.
Proof.
  intros H Hp Hu Hns Hnb Hw Hb. unfold plan.
  destruct (IsInventoryPos16 position) eqn:Ei; [|destruct (IsBankPos16 position) eqn:Ek; [|destruct (IsEquipmentPos16 position) eqn:Ee]].
  - rewrite (store_nothing_there L) by done. intros [= Hv <-]. right. destruct (ask_inventory w p position Ei Hb) as [|Ha]; [done|].
    destruct (store_exchanged HT L w p H Hp _ _ Ha Hnb Hns) as [HE _]. destruct (HE Hv) as (_ & Hd & Hf & Hc). rewrite pack_pos in * by done.
    split; [done|done|exact Hd].
  - rewrite bank_nothing_there by done. destruct (CanBankItem _ _ _ _ _ _ _) as [res dest] eqn:Ec. intros [= -> <-]. right.
    destruct (ask_bank w p position Ek Hb) as [Ha|(E1 & E2 & E3)].
    + destruct (bank_exchanged HT L w p H Hp _ _ true Ha Hnb Hns) as [HE _]. rewrite Ec in HE. destruct (HE eq_refl) as (_ & Hd & Hf & Hc).
      rewrite pack_pos in * by done. split; [done|done|exact Hd].
    + exfalso. destruct (bank_no_bag (pl w) p _ _ [] true true E1 E2 E3) as [H1 _]. by rewrite Ec in H1.
  - destruct (CanEquipItem _ _ _ _ _) as [res dest] eqn:Ec. intros [= -> <-]. right.
    assert (pos_bag position = INVENTORY_SLOT_BAG_0) as Eb by (unfold IsEquipmentPos16, IsEquipmentPos in Ee; slots).
    destruct (CanEquipItem_ok L w p _ _ _ _ H Hp (pos_slot_u8 _) Ec) as (slot & -> & Hwr & Hs & _). rewrite (Hs Hns) in *.
    destruct (wearable_free L w p _ H Hp Hwr) as (_ & _ & Hf). rewrite <- Eb, pack_pos in * by done. split; [done| |done].
    unfold IsEquipmentPos16, IsEquipmentPos in Ee. destruct Hwr as [[Hr Hbg]|[[Hr Hbg]|[Hr _]]].
    + left. apply (held_contents L); [done..|]. unfold IsNotEmptyBag. by rewrite Hbg.
    + right. unfold IsBagPos. rewrite Eb. slots.
    + exfalso. slots.
  - intros [= <-]. by left.
Qed.
(** Where something is, is some place. *)
Lemma plan_somewhere w position p q swap msg r :
  mem_ok (pl w) → (∀ s x, m_items (pl w) !! s = Some x → 0 ≤ s < PLAYER_SLOT_END) →
  GetItemByPos (pl w) (pos_bag position) (pos_slot position) = Some q → plan w position p swap = (msg, r) → r ≠ Nowhere.
Proof.
  intros Hm Hs Hq. unfold plan.
  destruct (IsInventoryPos16 position) eqn:Ei; [by intros [= _ <-]|destruct (IsBankPos16 position) eqn:Ek; [|destruct (IsEquipmentPos16 position) eqn:Ee]].
  - destruct (CanBankItem _ _ _ _ _ _ _). by intros [= _ <-].
  - destruct (CanEquipItem _ _ _ _ _). by intros [= _ <-].
  - exfalso. unfold IsInventoryPos16, IsInventoryPos, IsBankPos16, IsBankPos, IsEquipmentPos16, IsEquipmentPos in *.
    unfold GetItemByPos in Hq. destruct (_ && own_slot _) eqn:Eo.
    + apply andb_true_iff in Eo as [Eo Eo']. rewrite Eo in *. apply Hs in Hq. slots.
    + destruct (GetBagByPos (pl w) (pos_bag position)) as [b|] eqn:Hb; [|done]. apply GetBagByPos_spec in Hb as (Hb & _). slots.
Qed.

(** When it is free by then. *)
Lemma wp_follow_straight L w p position r :
  Inv (p :: L) w → straight w p position r → in_u16 position → GetItemByPos (pl w) (pos_bag position) (pos_slot position) = None →
  wp (follow r p) (λ _, calm (put (pos_bag position) (pos_slot position) p w)) w.
Proof.
  intros H [Hf _ Hr] Hu Hn. destruct r as [dest|dest|x|]; [subst dest|subst dest| |done]; cbn [follow].
  - eapply wp_use; [by apply (wp_StoreItem_put HT L)|]. cbn beta. intros o w' [_ Hc]. by apply wp_skip.
  - unfold BankItem. eapply wp_use; [by apply (wp_StoreItem_put HT L)|]. cbn beta. intros o w' [_ Hc]. by apply wp_skip.
  - destruct Hr as [-> Hb]. rewrite <- (pack_pos position) at 1 by done. rewrite Hb in *.
    eapply wp_use; [apply (wp_EquipItem_put L); [done|apply pos_slot_u8|done|done]|]. cbn beta. intros o w' [_ Hc]. by apply wp_skip.
Qed.

(** Onto what can be stacked with it. *)
Lemma store_merges w p q bag slot :
  bag ≠ NULL_BAG → slot ≠ NULL_SLOT → item_in_way (pl w) bag slot (Some p) = Some q →
  v_res (CanStoreItem (pl w) bag slot [] (Some p) false) = EQUIP_ERR_OK →
  ∃ t, item_templates !! GetEntry (mem (pl w) p) = Some t ∧ CanBeMergedPartlyWith (mem (pl w) q) t = EQUIP_ERR_OK.
Proof.
  intros Hb Hs Hw. unfold CanStoreItem, CanStoreItem_entry. destruct (item_templates !! _) as [t|] eqn:Et; [|done].
  do 2 (case_bool; [done|]). destruct (CanTakeMoreSimilarItems _ _ _ _) as [[res ?] ?]. cbv zeta.
  case_bool; [cbn [v_res]; intros ->; discriminate E1|]. intros Hv. exists t. split; [done|]. revert Hv.
  unfold store_search, store_specific_slot. rewrite (proj2 (Z.eqb_neq _ _) Hb), (proj2 (Z.eqb_neq _ _) Hs). cbn [negb andb].
  unfold CanStoreItem_InSpecificSlot. case_bool; [done|]. rewrite Hw.
  destruct (CanBeMergedPartlyWith (mem (pl w) q) t); try done.
Qed.
Lemma bank_merges w p q bag slot not_loading :
  bag ≠ NULL_BAG → slot ≠ NULL_SLOT → item_in_way (pl w) bag slot (Some p) = Some q →
  (CanBankItem (pl w) bag slot [] (Some p) false not_loading).1 = EQUIP_ERR_OK →
  CanBeMergedPartlyWith (mem (pl w) q) (GetTemplate (mem (pl w) p)) = EQUIP_ERR_OK.
Proof.
  intros Hb Hs Hw. unfold CanBankItem. do 3 (case_bool; [done|]). destruct (CanTakeMoreSimilarItems _ _ _ _) as [[res ?] ?].
  case_bool; [cbn [fst]; intros ->; discriminate E2|].
  unfold bank_search, bank_specific_slot. rewrite (proj2 (Z.eqb_neq _ _) Hb), (proj2 (Z.eqb_neq _ _) Hs). cbn [negb andb]. cbv zeta.
  case_bool; [cbn [fbind v_res fst]; intros E4; by rewrite E4 in E3|].
  unfold CanStoreItem_InSpecificSlot. case_bool; [done|]. rewrite Hw.
  destruct (CanBeMergedPartlyWith (mem (pl w) q) _); done.
Qed.
Lemma plan_merges L w p q position r :
  Inv L w → p ∈ held L w → pos_slot position ≠ NULL_SLOT → pos_bag position ≠ NULL_BAG →
  item_in_way (pl w) (pos_bag position) (pos_slot position) (Some p) = Some q →
  plan w position p false = (EQUIP_ERR_OK, r) → r ≠ Nowhere → GetEntry (mem (pl w) q) = GetEntry (mem (pl w) p) ∧ is_worn r = false.
Proof.
  intros H Hp Hns Hnb Hw. unfold plan. pose proof (so_template _ _ (iv_item _ _ H p Hp)) as Ht.
  destruct (IsInventoryPos16 position); [|destruct (IsBankPos16 position); [|destruct (IsEquipmentPos16 position) eqn:Ee]].
  - intros [= Hv <-] _. destruct (store_merges w p q _ _ Hnb Hns Hw Hv) as (t & Et & HM). split; [|done].
    rewrite Ht in Et. injection Et as <-. by apply CanBeMergedPartlyWith_ok in HM as [? _].
  - destruct (CanBankItem _ _ _ _ _ _ _) as [res dest] eqn:Ec. intros [= -> <-] _. split; [|done].
    pose proof (bank_merges w p q _ _ true Hnb Hns Hw) as HM. rewrite Ec in HM. by apply CanBeMergedPartlyWith_ok in HM as [? _].
  - destruct (CanEquipItem _ _ _ _ _) as [res dest] eqn:Ec. intros [= -> <-] _. exfalso.
    destruct (CanEquipItem_ok L w p _ _ _ _ H Hp (pos_slot_u8 _) Ec) as (slot & -> & _ & Hs & Hn). rewrite (Hs Hns) in Hn.
    apply in_way_Some in Hw as [Hw _]. unfold IsEquipmentPos16, IsEquipmentPos in Ee.
    replace (pos_bag position) with INVENTORY_SLOT_BAG_0 in Hw by slots. by rewrite Hn in Hw.
  - by intros [= <-].
Qed.
End plans.
End MovePlans.
