(* ===== verification/MoveKeep.v ===== *)
(** * Operations that keep what the player has

    Whole operations of the inventory: the inventory is in order after them, and the
    amounts are what they were, or less. *)
From S2P Require Import Prelude StateMonad Items Inventory Storage MoveData MoveOps MoveEquip MoveSwap MoveCalm MoveInvariant MoveSteps MoveOffers MoveWear MoveSearch MovePlans.

Module MoveKeep.
Export MovePlans.

(** [L] loose before, [L'] after. *)
Record kept `{IE : ItemEnv} (L : list ptr) (w : Mover) (L' : list ptr) (w' : Mover) : Prop := {
  kp_inv : Inv L' w';
  kp_amount e : amount e L' w' = amount e L w
}.
Record spent `{IE : ItemEnv} (L : list ptr) (w : Mover) (L' : list ptr) (w' : Mover) : Prop := {
  sp_inv : Inv L' w';
  sp_amount e : amount e L' w' ≤ amount e L w
}.

Section keep.
Context `{IE : ItemEnv} `{ME : MoveEnv}.

Lemma kept_refl L w : Inv L w → kept L w L w.
Proof. by split. Qed.
Lemma kept_then L w L1 w1 L2 w2 : kept L w L1 w1 → kept L1 w1 L2 w2 → kept L w L2 w2.
Proof. intros [A B] [A' B']. split; [done|]. intros e. by rewrite B', B. Qed.
Lemma kept_calm L w L1 w1 w2 : kept L w L1 w1 → calm w1 w2 → kept L w L1 w2.
Proof. intros [A B] Hc. split; [by eapply calm_Inv|]. intros e. by rewrite <- (calm_amount e _ _ _ Hc). Qed.
Lemma calm_kept L w0 w L1 w1 : calm w0 w → kept L w L1 w1 → kept L w0 L1 w1.
Proof. intros Hc [A B]. split; [done|]. intros e. by rewrite (calm_amount e _ _ _ Hc). Qed.
Lemma kept_taken L w bag slot p w' : taken L bag slot p w w' → kept L w (p :: L) w'.
Proof. intros []. by split. Qed.
Lemma kept_step K L L' d pcs w w' : step_ok K L L' d pcs w w' → (∀ e, d e = 0) → kept L w L' w'.
Proof. intros [A B _ _ _ _ _] Hd. split; [done|]. intros e. rewrite B, Hd. lia. Qed.

Lemma kept_spent L w L' w' : kept L w L' w' → spent L w L' w'.
Proof. intros [A B]. split; [done|]. intros e. by rewrite B. Qed.
Lemma spent_trans L w L1 w1 L2 w2 : spent L w L1 w1 → spent L1 w1 L2 w2 → spent L w L2 w2.
Proof. intros [A B] [A' B']. split; [done|]. intros e. etransitivity; [apply B'|apply B]. Qed.

Lemma total_all_nonneg {A} (f : A → Z) l : (∀ x, x ∈ l → 0 ≤ f x) → 0 ≤ total f l.
Proof.
  induction l as [|x l IH]; intros H; [done|]. unfold total in *. cbn. pose proof (H x ltac:(set_solver)).
  assert (0 ≤ foldr (λ x n, f x + n) 0 l) by (apply IH; set_solver). lia.
Qed.
Lemma units_nonneg L w e p : Inv L w → p ∈ held L w → 0 ≤ units w e p.
Proof. intros H Hp. unfold units. pose proof (so_count _ _ (iv_item _ _ H p Hp)). destruct (_ =? e); lia. Qed.

(** Gone with all that is in it. *)
Lemma spent_goes L w p w' : Inv (p :: L) w → goes p w w' → spent (p :: L) w L w'.
Proof.
  intros H Hg. split; [by eapply goes_Inv|]. intros e.
  assert (amount e L w' = amount e L w) as ->.
  { apply amount_same; [by eapply goes_same_goods|]. by rewrite (goes_held L w w' p). }
  unfold amount. rewrite (total_perm _ _ _ (held_cons_tree L w p)), total_app.
  enough (0 ≤ total (units w e) (tree w p)) by lia. apply total_all_nonneg. intros q Hq.
  apply (units_nonneg (p :: L)); [done|]. rewrite held_cons_tree. set_solver.
Qed.

(** Away by mail. *)
Lemma kept_mail L w p : Inv (p :: L) w → kept (p :: L) w L (set_mailed w (p :: mailed w)).
Proof.
  intros H. split; [by apply Inv_mail|]. intros e. apply amount_same; [done|].
  unfold held. assert (roots L (set_mailed w (p :: mailed w)) ≡ₚ roots (p :: L) w) as ->.
  { unfold roots. cbn. by rewrite (Permutation_middle L (mailed w) p). }
  done.
Qed.

Context (HT : templates_ok).

(** *** Taken out and put in *)

(** Two steps, and what comes after them. *)
Lemma wp_then {A B C} (k : MW A) (g : A → MW B) (f : B → MW C) Q Q' w :
  wp (k ≫= g) Q w → (∀ b w', Q b w' → wp (f b) Q' w') → wp (k ≫= λ a, g a ≫= f) Q' w.
Proof.
  intros H HQ. unfold wp, mbind, ST_bind in *. destruct (k w) as [[a w1]| | | |]; try done.
  cbn in *. destruct (g a w1) as [[b w2]| | | |]; try done. by apply HQ.
Qed.

Lemma followable_taken L w bag slot p w' r :
  Inv L w → GetItemByPos (pl w) bag slot = Some p → taken L bag slot p w w' →
  followable w p r → followable w' p r ∧ routed w' p r = routed w p r.
Proof.
  intros H Hp Ht Hr. split.
  - destruct r as [dest|dest|x|]; cbn in *; [| | |done].
    + destruct Hr. split; [|done]. by eapply taken_dest.
    + destruct Hr. split; [|done]. by eapply taken_dest.
    + destruct Hr as (s & -> & Hu & Hf & Hn). exists s. split_and!; [done|done| |].
      * eapply taken_free; [exact H|exact Hp|exact Ht| |exact Hf]. intros b Hb. by apply GetBagByPos_spec in Hb as (? & _).
      * erewrite taken_item_at by done. case_decide; [done|]. by case_decide.
  - destruct r; cbn; [done|done|by eapply taken_count..].
Qed.
Lemma sound_dest_calm w w' p dest : calm w w' → sound_dest (pl w) p dest → sound_dest (pl w') p dest.
Proof. intros Hc [Ho ? ? ?]. split; [|done..]. eapply Forall_impl; [exact Ho|]. intros pc. by apply offers_calm. Qed.
Lemma followable_calm w w' p r : calm w w' → followable w p r → followable w' p r ∧ routed w' p r = routed w p r.
Proof.
  intros Hc Hr. split.
  - destruct r as [dest|dest|x|]; cbn in *; [| | |done].
    + destruct Hr. split; [|done]. by eapply sound_dest_calm.
    + destruct Hr. split; [|done]. by eapply sound_dest_calm.
    + destruct Hr as (s & -> & Hu & Hf & Hn). exists s. split_and!; [done|done|by eapply free_place_calm|].
      by rewrite (calm_item_at _ _ _ _ Hc).
  - destruct r; cbn; [done|done|symmetry; apply (cm_mem _ _ Hc)..].
Qed.

(** The others stay where they are. *)
Definition others_stay (p : ptr) (w w' : Mover) : Prop :=
  ∀ bag' slot' q, GetItemByPos (pl w) bag' slot' = Some q → q ≠ p → GetBagByPos (pl w) bag' ≠ Some p →
  GetItemByPos (pl w') bag' slot' = Some q.
Lemma taken_others L w bag slot p w' :
  Inv L w → GetItemByPos (pl w) bag slot = Some p → taken L bag slot p w w' → others_stay p w w'.
Proof.
  intros H Hp Ht bag' slot' q Hq Hne Hb. rewrite (taken_item_at L w w' bag slot p H Hp Ht). rewrite decide_False, decide_False; [done| |].
  - intros [-> ->]. apply Hb. destruct (decide (slot = INVENTORY_SLOT_BAG_0)) as [->|Hs].
    + apply (position_own L) in Hp as [Ho _]; [|done]. discriminate Ho.
    + apply (position_bag L) in Hq as (b & Hx & _); [|done..]. apply GetBagByPos_spec in Hx as Hx'. destruct Hx' as (_ & Hx' & _). congruence.
  - intros [-> ->]. congruence.
Qed.
Lemma wp_move L w bag slot p r :
  Inv L w → GetItemByPos (pl w) bag slot = Some p → followable w p r → routed w p r = GetCount (mem (pl w) p) →
  wp (_ ← RemoveItem bag slot; follow r p) (λ _ w', kept L w L w' ∧ others_stay p w w') w.
Proof.
  intros H Hp Hr Hn. eapply wp_use; [by eapply wp_take|]. cbn beta. intros _ w1 Ht.
  destruct (followable_taken L w bag slot p w1 r H Hp Ht Hr) as [Hr1 En].
  eapply wp_mono; [apply (wp_follow HT L); [apply Ht|exact Hr1]|]. cbn beta. intros _ w2 Hs.
  split.
  - eapply kept_then; [by eapply kept_taken|]. eapply kept_step; [exact Hs|]. intros e.
    rewrite En, Hn, (taken_count L w w1 bag slot p Ht), Z.sub_diag. unfold unit_delta. by destruct (_ =? e).
  - intros bag' slot' q Hq Hne Hb. apply (sk_stay _ _ _ _ _ _ _ Hs). by apply (taken_others L w bag slot p w1 H Hp Ht).
Qed.

(** To one place. *)
Lemma straight_taken L w bag slot a p w' position r :
  Inv L w → GetItemByPos (pl w) bag slot = Some a → taken L bag slot a w w' →
  (∀ b, GetBagByPos (pl w) (pos_bag position) = Some b → b ≠ a) →
  (m_bagslot (mem (pl w) p) = ∅ → m_bagslot (mem (pl w') p) = ∅) →
  straight w p position r → straight w' p position r.
Proof.
  intros H Ha Ht Hb He [A B C]. split.
  - by eapply taken_free.
  - destruct B; auto.
  - destruct (taken_goods _ _ _ _ _ _ Ht p) as (_ & Ec & _). by rewrite Ec.
Qed.
Lemma taken_empty L w bag slot p w' q :
  Inv L w → GetItemByPos (pl w) bag slot = Some p → taken L bag slot p w w' →
  m_bagslot (mem (pl w) q) = ∅ → m_bagslot (mem (pl w') q) = ∅.
Proof. intros H Hp Ht He. rewrite (taken_inside L w w' bag slot p Ht). by eapply take_inside_nil. Qed.
Lemma wp_relocate L w bag slot p position r :
  Inv L w → GetItemByPos (pl w) bag slot = Some p → straight w p position r → in_u16 position →
  GetItemByPos (pl w) (pos_bag position) (pos_slot position) = None → GetBagByPos (pl w) (pos_bag position) ≠ Some p →
  wp (_ ← RemoveItem bag slot; follow r p)
     (λ _ w', kept L w L w' ∧ GetItemByPos (pl w') (pos_bag position) (pos_slot position) = Some p) w.
Proof.
  intros H Hp Hs Hu Hn Hb. eapply wp_use; [by eapply wp_take|]. cbn beta. intros _ w1 Ht.
  assert (straight w1 p position r) as Hs1.
  { eapply straight_taken; [exact H|exact Hp|exact Ht|congruence|by eapply taken_empty|exact Hs]. }
  assert (GetItemByPos (pl w1) (pos_bag position) (pos_slot position) = None) as Hn1.
  { erewrite taken_item_at by done. case_decide; [done|]. by case_decide. }
  pose proof (tn_inv _ _ _ _ _ _ Ht) as H1.
  eapply wp_mono; [by apply (wp_follow_straight HT L)|]. cbn beta. intros _ w2 Hc. split.
  - eapply kept_then; [by eapply kept_taken|]. eapply kept_calm; [|exact Hc]. split.
    + apply Inv_put; [done|apply Hs1|done].
    + intros e. apply (put_amount L); [done|apply Hs1|done].
  - rewrite (calm_item_at _ _ _ _ Hc). apply (put_there L); [done|apply Hs1|done].
Qed.

(** *** A bag with what is in it *)

(** It is stored at one place. *)
Lemma whole_bag L w p dest :
  Inv (p :: L) w → sound_dest (pl w) p dest → total cnt dest = GetCount (mem (pl w) p) → m_bagslot (mem (pl w) p) ≠ ∅ →
  ∃ x, dest = [mkPos x (GetCount (mem (pl w) p))] ∧ free_place (pl w) p (pos_bag x) (pos_slot x) ∧
       GetItemByPos (pl w) (pos_bag x) (pos_slot x) = None.
Proof.
  intros H [Ho _ _ _] Ht Hb. pose proof (loose_sound _ _ _ H) as Hs. pose proof (so_count _ _ Hs) as Hc.
  assert (p ∈ held (p :: L) w) as Hin by (apply root_held, loose_root; set_solver).
  assert (GetMaxStackSize (GetTemplate (mem (pl w) p)) = 1) as Hm.
  { apply (tk_bag HT _ _ (so_template _ _ Hs)). destruct (IsBag (mem (pl w) p)) eqn:Eb; [by apply Z.eqb_eq|].
    destruct Hb. apply (held_contents (p :: L)); [done..|]. unfold IsNotEmptyBag. by rewrite Eb. }
  destruct dest as [|[x n] dest]; [cbn in Ht; lia|]. inversion Ho as [|? ? [Hn Hf Hr] Ho']; subst. cbn [cnt pos] in *.
  assert (dest = []) as ->.
  { destruct dest as [|pc dest]; [done|]. exfalso. inversion Ho' as [|? ? [Hn' _ _] Ho2]; subst. cbn in Ht.
    enough (0 ≤ total cnt dest) by (unfold total in *; lia). apply total_all_nonneg. intros pc' Hpc.
    rewrite Forall_forall in Ho2. destruct (Ho2 pc' Hpc). lia. }
  exists x. cbn in Ht. split; [do 2 f_equal; lia|]. split; [done|].
  destruct (GetItemByPos (pl w) (pos_bag x) (pos_slot x)) as [q|] eqn:Hq; [|done]. exfalso.
  assert (q ≠ p) as Hqp by (intros ->; by eapply loose_nowhere).
  destruct (Hr q) as [_ Hrm]; [by apply in_way_Some|]. pose proof (so_count _ _ (iv_item _ _ H q (position_held _ _ _ _ _ H Hq))). lia.
Qed.
Lemma wp_store_contents L w p dest :
  Inv (p :: L) w → sound_dest (pl w) p dest → total cnt dest = GetCount (mem (pl w) p) →
  wp (StoreItem dest p)
     (λ o w', ∀ j q, m_bagslot (mem (pl w) p) !! j = Some q → o = Some p ∧ m_bagslot (mem (pl w') p) !! j = Some q) w.
Proof.
  intros H Hd Ht. destruct (decide (m_bagslot (mem (pl w) p) = ∅)) as [E|Hne].
  - destruct dest as [|pc dest]; [pose proof (so_count _ _ (loose_sound _ _ _ H)); cbn in Ht; lia|].
    eapply wp_mono; [by apply (wp_StoreItem HT L)|]. cbn beta. intros o w' _ j q Hj. by rewrite E, lookup_empty in Hj.
  - destruct (whole_bag L w p dest H Hd Ht Hne) as (x & -> & Hf & Hn).
    eapply wp_mono; [by apply (wp_StoreItem_put HT L)|]. cbn beta. intros o w' [-> Hc] j q Hj. split; [done|].
    rewrite <- (si_bag _ _ (cm_mem _ _ Hc p)). rewrite put_contents. rewrite decide_False; [done|].
    intros [Hi _]. unfold into in Hi. destruct (_ =? _); [done|]. by eapply loose_not_bag in Hi.
Qed.
Lemma wp_follow_contents L w p r :
  Inv (p :: L) w → followable w p r → routed w p r = GetCount (mem (pl w) p) →
  wp (follow r p) (λ _ w', ∀ j q, m_bagslot (mem (pl w) p) !! j = Some q → m_bagslot (mem (pl w') p) !! j = Some q) w.
Proof.
  intros H Hr Hn. destruct r as [dest|dest|x|]; cbn [follow routed] in *; [| | |done].
  - eapply wp_use; [apply (wp_store_contents L); [done|apply Hr|done]|]. cbn beta. intros o w' Hc. apply wp_skip. intros j q Hj. by apply (Hc j q Hj).
  - eapply wp_use; [apply (wp_store_contents L); [done|apply Hr|done]|]. cbn beta. intros o w' Hc. apply wp_skip. intros j q Hj. by apply (Hc j q Hj).
  - destruct Hr as (s & -> & Hu & Hf & Hnone). eapply wp_use; [by apply (wp_EquipItem_put L)|]. cbn beta. intros o w' [_ Hc]. apply wp_skip.
    intros j q Hj. rewrite <- (si_bag _ _ (cm_mem _ _ Hc p)). rewrite put_contents. rewrite decide_False; [done|]. by intros [Hi _].
Qed.

(** *** The off hand *)

Lemma wp_MoveItemFromInventory L w bag slot p :
  Inv L w → GetItemByPos (pl w) bag slot = Some p → wp (MoveItemFromInventory bag slot) (λ _, kept L w (p :: L)) w.
Proof.
  intros H Hp. pose proof (position_mine _ _ _ _ _ H Hp) as Hm. unfold MoveItemFromInventory. apply wp_get. rewrite Hp.
  apply wp_item_at; [apply Hm|]. assert (calm w w) as Hc by done. still Hc.
  eapply wp_use; [eapply (wp_take L); [by eapply calm_Inv|by rewrite (calm_item_at _ _ _ _ Hc)]|]. cbn beta. intros _ w1 Ht.
  pose proof (loose_mine _ _ _ (tn_inv _ _ _ _ _ _ Ht)) as Hm1. assert (calm w1 w1) as Hc1 by done. still Hc1.
  eapply (wp_end p _ _ w1); [auto with stillness|exact Hm1|exact Hc1|]. intros _ w2 Hc2.
  eapply calm_kept; [exact Hc|]. eapply kept_calm; [by eapply kept_taken|exact Hc2].
Qed.
Lemma wp_SaveToDB L w p : Inv (p :: L) w → wp (SaveToDB p) (λ _, calm w) w.
Proof.
  intros H. pose proof (loose_mine _ _ _ H) as Hm. unfold SaveToDB. apply wp_state_at; [apply Hm|]. intros s _ Hs.
  rewrite bool_decide_eq_false_2 by done. apply (quiet_wp p); [auto with stillness|exact Hm].
Qed.
Lemma wp_AutoUnequipOffhandIfNeed L w force : Inv L w → wp (AutoUnequipOffhandIfNeed force) (λ _, kept L w L) w.
Proof.
  intros H. unfold AutoUnequipOffhandIfNeed. apply wp_get. unfold own_item.
  destruct (GetItemByPos (pl w) INVENTORY_SLOT_BAG_0 EQUIPMENT_SLOT_OFFHAND) as [p|] eqn:Hp; [|apply wp_skip; by apply kept_refl].
  pose proof (position_mine _ _ _ _ _ H Hp) as Hm. apply wp_item_at; [apply Hm|]. cbv zeta.
  case_bool; [apply wp_skip; by apply kept_refl|]. pose proof (position_held _ _ _ _ _ H Hp) as Hin.
  pose proof (store_answers HT L w p H Hin NULL_BAG NULL_SLOT [] false ltac:(by left) (sound_nil _ _)) as HA.
  set (v := CanStoreItem _ _ _ _ _ _) in *. destruct (is_ok (v_res v)) eqn:Ev.
  - apply is_ok_true in Ev. destruct (answers_follow L w p _ _ H Hin HA Ev) as (H1 & H2 & H3).
    eapply wp_mono; [apply (wp_move L w _ _ p (Stored (v_dest v))); [done|done|by split|done]|]. by intros _ w' [? _].
  - eapply wp_use; [by apply (wp_MoveItemFromInventory L)|]. cbn beta. intros _ w1 [H1 H2].
    eapply wp_use; [by apply (wp_SaveToDB L)|]. cbn beta. intros _ w2 Hc.
    pose proof (loose_mine _ _ _ H1) as Hm1. clear Hm. still Hc.
    apply wp_modify. eapply kept_then; [by split|]. eapply calm_kept; [exact Hc|]. apply kept_mail. by eapply calm_Inv.
Qed.

(** *** Destroying *)

Record destroyed (L : list ptr) (bag slot : Z) (w w' : Mover) : Prop := {
  ds_spent : spent L w L w';
  ds_own s : (bag = INVENTORY_SLOT_BAG_0 → s ≠ slot) → m_items (pl w') !! s = m_items (pl w) !! s
}.
Lemma destroyed_nothing L w bag slot : Inv L w → destroyed L bag slot w w.
Proof. intros H. split; [|done]. by apply kept_spent, kept_refl. Qed.
Lemma calm_destroyed L w0 w bag slot w' : calm w0 w → destroyed L bag slot w w' → destroyed L bag slot w0 w'.
Proof.
  intros Hc [[A B] C]. split; [split; [done|]|].
  - intros e. by rewrite (calm_amount e _ _ _ Hc).
  - intros s Hs. rewrite C by done. by rewrite (cm_items _ _ Hc).
Qed.
Lemma taken_destroyed L w bag slot p w1 w' :
  Inv L w → GetItemByPos (pl w) bag slot = Some p → calm (take bag slot p w) w1 → goes p w1 w' → destroyed L bag slot w w'.
Proof.
  intros H Hp Hc Hg. pose proof (Inv_take L w bag slot p H Hp) as Ht. pose proof (calm_Inv _ _ _ Hc Ht) as H1. split.
  - eapply spent_trans; [|by apply spent_goes]. split; [done|]. intros e. rewrite <- (calm_amount e _ _ _ Hc).
    by rewrite (take_amount L).
  - intros s Hs. destruct Hg as (w2 & Hc2 & [Ep _ _ _ _ _]). rewrite Ep, <- (cm_items _ _ Hc2), <- (cm_items _ _ Hc).
    rewrite take_own by done. rewrite decide_False; [done|]. intros [? ?]. by apply Hs.
Qed.

(** The item itself, what was in it apart. *)
Lemma wp_destroy_rest L w0 w bag slot p :
  Inv L w0 → GetItemByPos (pl w0) bag slot = Some p → calm w0 w →
  wp (_ ← RemoveEnchantmentDurations p;
      _ ← RemoveItemDurations p;
      _ ← SetNotRefundable p true;
      _ ← ClearSoulboundTradeable p;
      _ ← RemoveTradeableItem p;
      it ← item_at p;
      _ ← tell (ItemRemovedQuestCheck (GetEntry it) (GetCount it));
      _ ← (if bag =? INVENTORY_SLOT_BAG_0 then
             _ ← when (slot <? INVENTORY_SLOT_BAG_END) (tell (ApplyItemMods p slot false));
             put_own slot None
           else
             w ← get;
             match GetBagByPos (pl w) bag with Some pBag => Bag_RemoveItem pBag slot | None => skip end);
      _ ← upd_state p (λ s, set_contained s 0);
      _ ← upd_item p (λ it, set_m_slot it NULL_SLOT);
      SetState p ITEM_REMOVED true) (λ _, destroyed L bag slot w0) w.
Proof.
  intros H Hp Hc. pose proof (position_mine _ _ _ _ _ H Hp) as Hm.
  still Hc. still Hc. still Hc. still Hc. still Hc. apply wp_item_at; [by eapply calm_live, Hm|]. still Hc.
  eapply wp_use; [eapply (wp_unlink L); [done..| |exact Hc]|].
  { apply quiet_when, quietly_tell. }
  cbn beta. intros _ w1 Hw1. eapply wp_unplace; [exact Hm|exact Hw1|]. intros w2 Hc2.
  eapply wp_mono; [eapply (wp_SetState_removed L w2 w2); [|done]|].
  - eapply calm_Inv; [exact Hc2|]. by apply Inv_take.
  - cbn beta. intros _ w3 Hg. by eapply taken_destroyed.
Qed.
Lemma wp_destroy_leaf fuel L w bag slot :
  Inv L w → (∀ p, GetItemByPos (pl w) bag slot = Some p → IsNotEmptyBag (mem (pl w) p) = false) →
  wp (DestroyItem_at fuel bag slot) (λ _, destroyed L bag slot w) w.
Proof.
  intros H He. destruct fuel; cbn [DestroyItem_at]; apply wp_get;
    (destruct (GetItemByPos (pl w) bag slot) as [p|] eqn:Hp; [|apply wp_skip; by apply destroyed_nothing]);
    (apply wp_item_at; [eapply position_mine; [exact H|exact Hp]|]); rewrite (He p eq_refl); apply wp_bind, wp_skip; by apply wp_destroy_rest.
Qed.
(** What is in a bag is no bag with something in it. *)
Lemma inner_leaf L w bag slot p :
  Inv L w → bag ≠ INVENTORY_SLOT_BAG_0 → GetItemByPos (pl w) bag slot = Some p → IsNotEmptyBag (mem (pl w) p) = false.
Proof.
  intros H Hb Hp. apply (position_bag L) in Hp as (b & Hbag & Hin & _); [|done..].
  destruct (iv_inside _ _ H _ _ _ (bag_is_root _ _ _ _ H Hbag) Hin) as (_ & _ & _ & Hi). apply inside_nil in Hi.
  unfold IsNotEmptyBag, Bag_IsEmpty. rewrite Hi. apply andb_false_iff. right. apply negb_false_iff, forallb_forall. intros j _. done.
Qed.
Lemma wp_DestroyItem L w bag slot : Inv L w → wp (DestroyItem bag slot) (λ _, destroyed L bag slot w) w.
Proof.
  intros H. destruct (GetItemByPos (pl w) bag slot) as [p|] eqn:Hp; [|apply wp_destroy_leaf; [done|congruence]].
  destruct (IsNotEmptyBag (mem (pl w) p)) eqn:Ee; [|apply wp_destroy_leaf; [done|congruence]].
  destruct (decide (bag = INVENTORY_SLOT_BAG_0)) as [->|Hne]; [|by rewrite (inner_leaf L w bag slot p) in Ee].
  unfold DestroyItem. cbn [DestroyItem_at]. apply wp_get. rewrite Hp. apply wp_item_at; [eapply position_mine; [exact H|exact Hp]|].
  rewrite Ee. destruct (position_own L w slot p H Hp) as [Hos Hit].
  assert (slot ≠ INVENTORY_SLOT_BAG_0) as Hs by (destruct (iv_own _ _ H _ _ Hit) as [? _]; slots).
  eapply wp_use; [eapply (wp_loop _ _ (λ w', spent L w L w' ∧ m_items (pl w') = m_items (pl w)))|].
  - intros i w1 _ [[H1 Ha] Hi]. eapply wp_mono; [apply (wp_destroy_leaf 1 L); [done|]|].
    + intros q Hq. by eapply inner_leaf.
    + cbn beta. intros _ w2 [Hsp Hown]. split; [by eapply spent_trans|]. rewrite <- Hi. apply map_eq. intros s. by apply Hown.
  - split; [|done]. by apply kept_spent, kept_refl.
  - cbn beta. intros _ w1 [Hsp Hi]. eapply wp_mono; [apply (wp_destroy_rest L w1 w1 _ _ p)|]; [apply Hsp| |done|].
    + unfold GetItemByPos. rewrite Hos. cbn. by rewrite Hi.
    + cbn beta. intros _ w2 [Hsp2 Hown]. split; [by eapply spent_trans|]. intros s Hss. rewrite Hown by done. by rewrite Hi.
Qed.
End keep.
End MoveKeep.
