(* ===== verification/MoveRequests.v ===== *)
(** * Requests of the client keep what the player has

    Moving, exchanging and splitting: whatever the client asks for, the inventory is in
    order afterwards and the amounts are the same. *)
From S2P Require Import Prelude StateMonad Items Inventory Storage MoveData MoveOps MoveEquip MoveSwap MoveHandlers MoveCalm MoveInvariant MoveSteps MoveOffers MoveWear MoveSearch MovePlans MoveKeep.

Module MoveRequests.
Export MoveHandlers MoveKeep.

(** ** Loot that is not open stays closed

    No request opens any. *)
Definition loot_closed (w w' : Mover) : Prop := GetLootGUID w = 0 → GetLootGUID w' = 0.
#[export] Instance loot_closed_pre : PreOrder loot_closed.
Proof. split; unfold loot_closed; [by intros ?|intros ? ? ?; auto]. Qed.
Notation shut := (StateMonad.keeps loot_closed).
Lemma shut_modify f : (∀ w, GetLootGUID (f w) = GetLootGUID w ∨ GetLootGUID (f w) = 0) → shut (modify f).
Proof. intros H w a w' [_ ->]%modify_Ok E. destruct (H w) as [->| ->]; done. Qed.
Create HintDb loot discriminated.
(** Through the code, and into what it calls. *)
Ltac unfold_head t := lazymatch t with ?f _ => unfold_head f | _ => unfold t end.
Ltac shut_leaf := idtac; match goal with
  | |- StateMonad.keeps _ (modify _) => apply shut_modify; intros ?; repeat case_match; first [left; reflexivity|right; reflexivity]
  | |- StateMonad.keeps _ _ => solve [auto with loot nocore]
  | |- StateMonad.keeps _ ?k => progress unfold_head k
  end.
Ltac shut_tac := repeat keeps_step shut_leaf.

Section loot.
Context `{IE : ItemEnv} `{ME : MoveEnv}.

Lemma shut_delete_object fuel p : shut (delete_object fuel p).
Proof. revert p. induction fuel as [|fuel IH]; intros p; cbn [delete_object]; [apply keeps_lift, _|]. repeat keeps_step ltac:(idtac; first [apply IH|shut_leaf]). Qed.
#[local] Hint Resolve shut_delete_object : loot.
Lemma shut_upd_item p f : shut (upd_item p f).
Proof. shut_tac. Qed.
Lemma shut_upd_state p f : shut (upd_state p f).
Proof. shut_tac. Qed.
#[local] Hint Resolve shut_upd_item shut_upd_state : loot.
Lemma shut_SetState p st b : shut (SetState p st b).
Proof. shut_tac. Qed.
#[local] Hint Resolve shut_SetState : loot.
Lemma shut_SetItemRandomProperties p r : shut (SetItemRandomProperties p r).
Proof. shut_tac. Qed.
Lemma shut_CreateItem e n : shut (CreateItem e n).
Proof. shut_tac. Qed.
Lemma shut_SetNotRefundable p b : shut (SetNotRefundable p b).
Proof. shut_tac. Qed.
Lemma shut_AddEnchantmentDurations p : shut (AddEnchantmentDurations p).
Proof. shut_tac. Qed.
Lemma shut_RemoveEnchantmentDurations p : shut (RemoveEnchantmentDurations p).
Proof. shut_tac. Qed.
#[local] Hint Resolve shut_SetItemRandomProperties shut_CreateItem shut_SetNotRefundable shut_AddEnchantmentDurations shut_RemoveEnchantmentDurations : loot.
Lemma shut_CloneItem p n : shut (CloneItem p n).
Proof. shut_tac. Qed.
Lemma shut_merged_away p : shut (merged_away p).
Proof. shut_tac. Qed.
Lemma shut_place_item p x : shut (place_item p x).
Proof. shut_tac. Qed.
#[local] Hint Resolve shut_CloneItem shut_merged_away shut_place_item : loot.
Lemma shut_StoreItem dest p : shut (StoreItem dest p).
Proof.
  revert p. induction dest as [|pc dest IH]; intros p; cbn [StoreItem]; [apply keeps_ret, _|].
  repeat keeps_step ltac:(idtac; first [apply IH|shut_leaf]).
Qed.
Lemma shut_EquipItem x p : shut (EquipItem x p).
Proof. shut_tac. Qed.
Lemma shut_RemoveItem bag slot : shut (RemoveItem bag slot).
Proof. shut_tac. Qed.
Lemma shut_DestroyItem_at fuel bag slot : shut (DestroyItem_at fuel bag slot).
Proof.
  revert bag slot. induction fuel as [|fuel IH]; intros bag slot; cbn [DestroyItem_at]; repeat keeps_step ltac:(idtac; first [apply IH|shut_leaf]).
Qed.
#[local] Hint Resolve shut_StoreItem shut_EquipItem shut_RemoveItem shut_DestroyItem_at : loot.
Lemma shut_DestroyItemCount_of p n : shut (DestroyItemCount_of p n).
Proof. shut_tac. Qed.
Lemma shut_exchange empty full l n : shut (exchange empty full l n).
Proof. revert n. induction l as [|i l IH]; intros n; cbn [exchange]; repeat keeps_step ltac:(idtac; first [apply IH|shut_leaf]). Qed.
Lemma shut_AutoUnequipOffhandIfNeed b : shut (AutoUnequipOffhandIfNeed b).
Proof. shut_tac. Qed.
Lemma shut_follow r p : shut (follow r p).
Proof. shut_tac. Qed.
Lemma shut_AddItemToBuyBackSlot p : shut (AddItemToBuyBackSlot p).
Proof. shut_tac. Qed.
#[local] Hint Resolve shut_DestroyItemCount_of shut_exchange shut_AutoUnequipOffhandIfNeed shut_follow shut_AddItemToBuyBackSlot : loot.
Lemma shut_SwapItem src dst : shut (SwapItem src dst).
Proof. shut_tac. Qed.
#[local] Hint Resolve shut_SwapItem : loot.
Lemma shut_run r : shut (run r).
Proof. shut_tac. Qed.
Lemma wp_shut {A} (k : MW A) Q w : shut k → wp k Q w → wp k (λ a w', Q a w' ∧ loot_closed w w') w.
Proof.
  intros Hk. unfold wp. destruct (k w) as [[a w']| | | |] eqn:E; try done. intros HQ. split; [done|]. exact (Hk w a w' E).
Qed.
End loot.
#[export] Hint Resolve shut_RemoveItem shut_StoreItem shut_EquipItem shut_exchange shut_follow shut_AutoUnequipOffhandIfNeed : loot.

Section requests.
Context `{IE : ItemEnv} `{ME : MoveEnv}.
Context (HT : templates_ok).

(** ** Items know where they are *)

Lemma wp_GetBagSlot {B} L w bag slot p (f : Z → MW B) Q :
  Inv L w → GetItemByPos (pl w) bag slot = Some p → wp (f bag) Q w → wp (GetBagSlot p ≫= f) Q w.
Proof.
  intros H Hp HQ. apply wp_bind. unfold GetBagSlot. apply wp_state_at; [eapply position_mine; [exact H|exact Hp]|].
  intros s Hs _. destruct (decide (bag = INVENTORY_SLOT_BAG_0)) as [->|Hne].
  - apply (position_own L) in Hp as [Ho Hp]; [|done]. destruct (iv_own _ _ H _ _ Hp) as [_ Hi]. destruct (Hi Ho) as (_ & Hc & _).
    unfold container_of in Hc. rewrite Hs in Hc. cbn in Hc. rewrite Hc. by apply wp_ret.
  - apply (position_bag L) in Hp as (b & Hb & Hin & _); [|done..]. pose proof (bag_is_root _ _ _ _ H Hb) as Hr.
    destruct (iv_inside _ _ H _ _ _ Hr Hin) as (_ & _ & Hc & _). unfold container_of in Hc. rewrite Hs in Hc. cbn in Hc. rewrite Hc.
    apply wp_item_at; [eapply held_mine; [exact H|by apply root_held]|]. apply wp_ret.
    apply (bag_at L) in Hb as (_ & Ho & Hb & _); [|done]. destruct (iv_own _ _ H _ _ Hb) as [_ Hi]. by destruct (Hi Ho) as [-> _].
Qed.
Lemma position_slot L w bag slot p : Inv L w → GetItemByPos (pl w) bag slot = Some p → m_slot (mem (pl w) p) = slot.
Proof.
  intros H Hp. destruct (decide (bag = INVENTORY_SLOT_BAG_0)) as [->|Hne].
  - apply (position_own L) in Hp as [Ho Hp]; [|done]. destruct (iv_own _ _ H _ _ Hp) as [_ Hi]. by destruct (Hi Ho).
  - apply (position_bag L) in Hp as (b & Hb & Hin & _); [|done..].
    by destruct (iv_inside _ _ H _ _ _ (bag_is_root _ _ _ _ H Hb) Hin) as (_ & ? & _).
Qed.
Lemma wp_GetPos {B} L w bag slot p (f : Z → MW B) Q :
  Inv L w → GetItemByPos (pl w) bag slot = Some p → wp (f (pack bag slot)) Q w → wp (GetPos p ≫= f) Q w.
Proof.
  intros H Hp HQ. apply wp_bind. unfold GetPos. eapply (wp_GetBagSlot L); [exact H|exact Hp|].
  apply wp_item_at; [eapply position_mine; [exact H|exact Hp]|]. apply wp_ret. by rewrite (position_slot L w bag slot p).
Qed.
Lemma position_u8 L w bag slot p : Inv L w → GetItemByPos (pl w) bag slot = Some p → in_u8 bag ∧ in_u8 slot.
Proof.
  intros H Hp. destruct (decide (bag = INVENTORY_SLOT_BAG_0)) as [->|Hne].
  - apply (position_own L) in Hp as [Ho Hp]; [|done]. destruct (iv_own _ _ H _ _ Hp) as [Hs _]. split; slots.
  - apply (position_bag L) in Hp as (b & Hb & Hin & _); [|done..]. split; [by eapply GetBagByPos_u8|].
    destruct (iv_inside _ _ H _ _ _ (bag_is_root _ _ _ _ H Hb) Hin) as (Hj & _). pose proof (mo_size _ (iv_mem _ _ H) b) as Hs.
    unfold GetBagSize, MAX_BAG_SIZE in Hs. slots.
Qed.
(** What GetItemByGuid finds is somewhere. *)
Lemma first_guid_in pl g l p : first_guid pl g l = Some p → Some p ∈ l ∧ guid (mem pl p) = g.
Proof.
  induction l as [|[q|] l IH]; cbn; [done| |].
  - case_bool; [intros [= ->]; b2p; split; [set_solver|done]|]. intros [? ?]%IH. split; [set_solver|done].
  - intros [? ?]%IH. split; [set_solver|done].
Qed.
Lemma GetItemByGuid_somewhere pl g p : mem_ok pl → GetItemByGuid pl g = Some p → ∃ bag slot, GetItemByPos pl bag slot = Some p.
Proof.
  intros Hm [Hin _]%first_guid_in. rewrite !elem_of_app in Hin.
  assert (∀ a b, Some p ∈ own pl a b → ∃ bag slot, GetItemByPos pl bag slot = Some p) as Ho.
  { intros a b (i & E & _)%list_elem_of_fmap. eauto. }
  assert (∀ a b, Some p ∈ bag_contents pl a b → ∃ bag slot, GetItemByPos pl bag slot = Some p) as Hb.
  { intros a b (l & Hl & Hp)%list_elem_of_In%in_concat. apply in_map_iff in Hl as (i & <- & _). apply list_elem_of_In in Hp.
    destruct (GetBagByPos pl i) as [x|] eqn:Hx; [|by apply not_elem_of_nil in Hp].
    apply list_elem_of_fmap in Hp as (j & E & _). exists i, (u8 j). unfold GetItemByPos.
    apply GetBagByPos_spec in Hx as Hx'. destruct Hx' as (Hs & _). destruct (i =? INVENTORY_SLOT_BAG_0) eqn:Ei; [slots|]. cbn. by rewrite Hx. }
  destruct Hin as [Hin|[Hin|[Hin|[Hin|Hin]]]]; eauto.
Qed.

(** ** Spending *)

(** What comes after an item has moved changes nothing of that. *)
Lemma wp_kept_last L w0 w (k : MW unit) :
  kept L w0 L w → (Inv L w → wp k (λ _, kept L w L) w) → wp k (λ _, kept L w0 L) w.
Proof. intros Hk H. eapply wp_mono; [apply H, Hk|]. cbn beta. intros _ w'. by apply kept_then. Qed.
Lemma wp_kept_calm L w p (k : MW unit) : Inv L w → mine w p → quiet p k → wp k (λ _, kept L w L) w.
Proof. intros H Hm Hk. eapply wp_mono; [by apply (quiet_wp p)|]. cbn beta. intros _ w' Hc. eapply kept_calm; [by apply kept_refl|done]. Qed.
Lemma wp_kept_tell L w e : Inv L w → wp (tell e) (λ _, kept L w L) w.
Proof.
  intros H. apply wp_modify. eapply kept_calm; [by apply kept_refl|]. by split.
Qed.
Lemma wp_kept_refuse L w msg : Inv L w → wp (refuse msg) (λ _, kept L w L) w.
Proof. apply wp_kept_tell. Qed.

Lemma wp_spent {A} (k : MW A) L w : wp k (λ _, kept L w L) w → wp k (λ _, spent L w L) w.
Proof. intros H. eapply wp_mono; [exact H|]. cbn beta. intros _ w'. apply kept_spent. Qed.
Lemma spent_refl L w : Inv L w → spent L w L w.
Proof. intros H. by apply kept_spent, kept_refl. Qed.
Lemma wp_spent_refuse L w msg : Inv L w → wp (refuse msg) (λ _, spent L w L) w.
Proof. intros H. by apply wp_spent, wp_kept_refuse. Qed.
Lemma wp_spent_tell L w e : Inv L w → wp (tell e) (λ _, spent L w L) w.
Proof. intros H. by apply wp_spent, wp_kept_tell. Qed.
Lemma wp_spent_last L w0 w L1 (k : MW unit) :
  spent L w0 L1 w → (Inv L1 w → wp k (λ _, spent L1 w L1) w) → wp k (λ _, spent L w0 L1) w.
Proof. intros Hk H. eapply wp_mono; [apply H, Hk|]. cbn beta. intros _ w'. by apply spent_trans. Qed.

(** *** Fewer of a stack *)

Lemma spent_recount L w p n :
  Inv L w → p ∈ held L w → 1 ≤ n ≤ GetCount (mem (pl w) p) → spent L w L (recount p n w).
Proof.
  intros H Hp Hn. pose proof (so_count _ _ (iv_item _ _ H p Hp)). split.
  - apply Inv_recount; [done|lia].
  - intros e. rewrite (recount_amount L) by done. destruct (_ =? e); lia.
Qed.
Lemma wp_DestroyItemCount_of L w bag slot p count :
  Inv L w → GetItemByPos (pl w) bag slot = Some p → 0 ≤ count → wp (DestroyItemCount_of p count) (λ _, spent L w L) w.
Proof.
  intros H Hp Hc. pose proof (position_mine _ _ _ _ _ H Hp) as Hm. pose proof (position_held _ _ _ _ _ H Hp) as Hin.
  pose proof (iv_item _ _ H p Hin) as Hs. pose proof (stack_range HT _ _ Hs) as Hst. pose proof (so_count _ _ Hs) as Hcp.
  unfold DestroyItemCount_of. apply wp_item_at; [apply Hm|]. apply wp_get. case_bool; [apply wp_ret; by apply spent_refl|]. case_bool.
  - eapply (wp_GetBagSlot L); [exact H|exact Hp|]. rewrite (position_slot L w bag slot p) by done.
    eapply wp_use; [by apply (wp_DestroyItem L)|]. cbn beta. intros _ w1 Hd. apply wp_ret, Hd.
  - b2p. assert (calm w w) as Hcalm by done. still Hcalm.
    eapply wp_use; [apply SetCount_recount; [unfold in_u; lia|by eapply calm_live, Hm]|]. cbn beta. intros _ w1 ->.
    set (w1 := recount p _ w'). assert (calm (recount p (GetCount (mem (pl w) p) - count) w) w1) as Hc1 by (by apply calm_recount).
    assert (Inv L (recount p (GetCount (mem (pl w) p) - count) w)) as H1 by (apply Inv_recount; [done|lia]).
    assert (mine (recount p (GetCount (mem (pl w) p) - count) w) p) as Hm1 by (eapply held_mine; [exact H1|by rewrite recount_held]).
    eapply wp_still; [|exact Hm1|exact Hc1|]; [auto with stillness|]. intros _ w2 Hc2. apply wp_ret.
    destruct (spent_recount L w p (GetCount (mem (pl w) p) - count) H Hin ltac:(lia)) as [A B].
    split; [by eapply calm_Inv|]. intros e. by rewrite <- (calm_amount e _ _ _ Hc2).
Qed.
(** What is open is closed: nothing is made, and with nothing open nothing changes. *)
Lemma wp_DoLootRelease L w g : Inv L w → wp (DoLootRelease g) (λ _, spent L w L) w.
Proof.
  intros H. unfold DoLootRelease. apply wp_bind, wp_modify, wp_bind, wp_modify, wp_get.
  set (w1 := set_effects _ _). assert (calm w w1) as Hc by done. pose proof (calm_Inv _ _ _ Hc H) as H1.
  assert (kept L w L w1) as Hk by (eapply kept_calm; [by apply kept_refl|done]).
  destruct (GetItemByGuid (pl w1) g) as [p|] eqn:Hg; [|by apply wp_skip, kept_spent].
  destruct (GetItemByGuid_somewhere _ _ _ (iv_mem _ _ H1) Hg) as (bag & slot & Hp).
  pose proof (position_mine _ _ _ _ _ H1 Hp) as Hm. apply wp_item_at; [apply Hm|]. apply wp_state_at; [apply Hm|]. intros s _ _. cbv zeta.
  pose proof (so_count _ _ (iv_item _ _ H1 p (position_held _ _ _ _ _ H1 Hp))) as Hcp. case_bool.
  - assert (calm w1 w1) as Hc1 by done. eapply (wp_still p); [quieten|exact Hm|exact Hc1|]. clear Hc1. intros _ w2 Hc1.
    eapply (wp_still p); [quieten|exact Hm|exact Hc1|]. clear Hc1. intros _ w3 Hc1.
    eapply wp_use; [eapply (wp_DestroyItemCount_of L); [by eapply calm_Inv|by rewrite (calm_item_at _ _ _ _ Hc1)|case_bool; lia]|].
    cbn beta. intros _ w4 Hs. apply wp_skip. eapply spent_trans; [|exact Hs]. apply kept_spent. by eapply kept_calm.
  - apply wp_when; [|intros _; by apply kept_spent]. intros _. eapply (wp_GetBagSlot L); [exact H1|exact Hp|].
    rewrite (position_slot L w1 bag slot p) by done. eapply wp_mono; [by apply (wp_DestroyItem L)|]. cbn beta. intros _ w2 Hd.
    eapply spent_trans; [by apply kept_spent|apply Hd].
Qed.

(** ** SwapItem *)

Lemma not_into_itself L w src position p :
  Inv L w → GetItemByPos16 (pl w) src = Some p → IsBagPos src && (pos_slot src =? position) = false →
  GetBagByPos (pl w) position ≠ Some p.
Proof.
  intros H Hp Hc Hb. apply GetBagByPos_spec in Hb as (Hs & Hb & _).
  destruct (position_inj L w _ _ _ _ p H Hp Hb) as [E1 E2]. unfold IsBagPos in Hc. rewrite E1, E2, Z.eqb_refl in Hc.
  slots.
Qed.

Lemma wp_move_item L w src dst p :
  Inv L w → in_u16 dst → GetItemByPos16 (pl w) src = Some p → GetItemByPos16 (pl w) dst = None →
  pos_slot dst ≠ NULL_SLOT → pos_bag dst ≠ NULL_BAG → GetBagByPos (pl w) (pos_bag dst) ≠ Some p →
  wp (move_item src dst p) (λ _, kept L w L) w.
Proof.
  intros H Hu Hp Hn Hns Hnb Hb. pose proof (position_held _ _ _ _ _ H Hp) as Hin. unfold move_item. apply wp_get.
  destruct (plan w dst p false) as [msg r] eqn:Er.
  destruct (goes_nowhere r) eqn:Eg; [apply wp_skip; by apply kept_refl|].
  destruct (is_ok msg) eqn:Em; cbn [negb]; [|by apply wp_kept_refuse]. apply is_ok_true in Em as ->.
  destruct (plan_straight HT L w p dst false r H Hin Hu Hns Hnb) as [->|Hs]; [|done|done|done|].
  { intros _. unfold item_in_way. unfold GetItemByPos16 in Hn. rewrite Hn. by case_bool. }
  eapply wp_then; [by apply (wp_relocate HT L w _ _ p dst r)|]. cbn beta. intros _ w1 [Hk Hd].
  apply (wp_kept_last L w w1); [done|]. intros H1. pose proof (position_mine _ _ _ _ _ H1 Hd) as Hm.
  destruct r as [dest|dest|x|]; [| | |done].
  - apply wp_when; [|intros _; by apply kept_refl]. intros _. apply wp_item_at; [apply Hm|]. by apply wp_kept_tell.
  - apply wp_item_at; [apply Hm|]. by apply wp_kept_tell.
  - by apply (wp_AutoUnequipOffhandIfNeed HT).
Qed.

Lemma wp_merge_items L w src dst r p q :
  Inv L w → GetItemByPos16 (pl w) src = Some p → GetItemByPos16 (pl w) dst = Some q → q ≠ p →
  GetBagByPos (pl w) (pos_bag dst) ≠ Some p → plan w dst p false = (EQUIP_ERR_OK, r) → r ≠ Nowhere →
  wp (merge_items src r p q) (λ _, kept L w L) w.
Proof.
  intros H Hp Hq Hne Hb Hr Hnw. pose proof (position_held _ _ _ _ _ H Hp) as Hin. pose proof (position_held _ _ _ _ _ H Hq) as Hinq.
  destruct (position_range w _ _ q (iv_mem _ _ H) (pos_slot_u8 dst) Hq) as [Hns Hnb].
  destruct (plan_merges L w p q dst r H Hin Hns Hnb) as [HE Hw]; [by apply in_way_Some|done|done|].
  destruct (plan_ok HT L w p dst r H Hin Hb Hr) as [|[Hf Hrt]]; [done|].
  unfold merge_items. apply wp_item_at; [by eapply position_mine|]. apply wp_item_at; [by eapply position_mine|].
  pose proof (iv_item _ _ H p Hin) as Hsp. pose proof (iv_item _ _ H q Hinq) as Hsq.
  assert (GetTemplate (mem (pl w) q) = GetTemplate (mem (pl w) p)) as Et.
  { pose proof (so_template _ _ Hsp) as H1. pose proof (so_template _ _ Hsq) as H2. rewrite HE in H2. congruence. }
  pose proof (stack_range HT _ _ Hsp) as Hst. pose proof (so_count _ _ Hsp) as Hcp. pose proof (so_count _ _ Hsq) as Hcq. rewrite Et in Hcq.
  set (stack := GetMaxStackSize (GetTemplate (mem (pl w) p))) in *. cbv zeta.
  eapply (wp_use _ _ (λ _ w', kept L w L w' ∧ mine w' q)).
  - case_bool.
    + rewrite Hw. eapply wp_then; [by apply (wp_move HT L w _ _ p r)|]. cbn beta. intros _ w1 [Hk Ho]. apply wp_skip.
      split; [done|]. eapply position_mine; [apply Hk|]. by apply (Ho _ _ _ Hq).
    + b2p. rewrite wrap_small in E by (unfold in_u; lia).
      eapply wp_use; [apply SetCount_recount; [unfold in_u; lia|apply Hsp]|]. cbn beta. intros _ w1 ->.
      set (w1 := recount p _ w). assert (live w1 q) as Hl by (apply live_reitem, Hsq).
      eapply wp_use; [apply SetCount_recount; [unfold in_u; lia|exact Hl]|]. cbn beta. intros _ w2 ->. set (w2 := recount q stack w1).
      assert (Inv L w1) as H1 by (apply Inv_recount; [done|fold stack; lia]).
      assert (kept L w L w2) as Hk.
      { split.
        - apply Inv_recount; [done|]. unfold w1. rewrite recount_kind, Et. fold stack. lia.
        - intros e. unfold w2. rewrite (recount_amount L) by (done || by (unfold w1; rewrite (recount_held L))).
          unfold w1. rewrite (recount_amount L) by done. unfold GetEntry in *. rewrite recount_kind, recount_count.
          rewrite (proj2 (Z.eqb_neq q p)) by done. rewrite Et. destruct (_ =? e); lia. }
      assert (mine w2 p ∧ mine w2 q) as [Hmp Hmq].
      { split; (eapply held_mine; [apply Hk|]); unfold w2, w1; by rewrite !(recount_held L). }
      assert (calm w2 w2) as Hc by done. eapply (wp_still p); [auto with stillness|exact Hmp|exact Hc|]. clear Hc. intros _ w3 Hc.
      eapply (wp_end q); [auto with stillness|exact Hmq|exact Hc|]. clear Hc. intros _ w4 Hc.
      split; [by eapply kept_calm|by eapply calm_mine].
  - cbn beta. intros _ w1 [Hk Hm]. apply (wp_kept_last L w w1); [done|]. intros H1. apply (wp_kept_calm L w1 q); [done|done|auto with stillness].
Qed.

(** *** An exchange *)
Section exchange.
Variables (L : list ptr) (w : Mover) (src dst : Z) (p q : ptr) (there back : route).
Hypothesis H : Inv L w.
Hypothesis Hus : in_u16 src.
Hypothesis Hud : in_u16 dst.
Hypothesis Hp : GetItemByPos (pl w) (pos_bag src) (pos_slot src) = Some p.
Hypothesis Hq : GetItemByPos (pl w) (pos_bag dst) (pos_slot dst) = Some q.
Hypothesis Hne : q ≠ p.
Hypothesis Hbp : GetBagByPos (pl w) (pos_bag dst) ≠ Some p.
Hypothesis Hbq : GetBagByPos (pl w) (pos_bag src) ≠ Some q.
Hypothesis Hthere : straight w p dst there.
Hypothesis Hback : straight w q src back.

Lemma not_in_own_bag bag slot x : GetItemByPos (pl w) bag slot = Some x → GetBagByPos (pl w) bag ≠ Some x.
Proof.
  intros Hx Hb. destruct (decide (bag = INVENTORY_SLOT_BAG_0)) as [->|Hn]; [by apply GetBagByPos_spec in Hb as (? & _)|].
  apply (position_bag L) in Hx as (b & Hb' & Hin & _); [|done..]. rewrite Hb in Hb'. injection Hb' as <-.
  by eapply (bag_not_inside L) in Hin.
Qed.
Lemma places_differ : pos_bag src ≠ pos_bag dst ∨ pos_slot src ≠ pos_slot dst.
Proof.
  destruct (decide (pos_bag src = pos_bag dst)) as [E1|]; [right|by left]. intros E2. congruence.
Qed.
(** A place is not inside what is at the other. *)
Lemma not_inside_other bag slot bag' slot' x y :
  GetItemByPos (pl w) bag slot = Some x → GetItemByPos (pl w) bag' slot' = Some y → GetBagByPos (pl w) bag' ≠ Some x →
  bag ≠ INVENTORY_SLOT_BAG_0 ∨ bag' ≠ slot.
Proof.
  intros Hx Hy Hb. destruct (decide (bag = INVENTORY_SLOT_BAG_0)) as [->|]; [right|by left]. intros ->.
  destruct (decide (slot = INVENTORY_SLOT_BAG_0)) as [->|Hs].
  - apply (position_own L) in Hx as [Ho _]; [|done]. discriminate Ho.
  - apply (position_bag L) in Hy as (b & Hbb & _); [|done..]. apply GetBagByPos_spec in Hbb as Hb'. destruct Hb' as (_ & Hb' & _). congruence.
Qed.

(** Both out: both places are free. *)
Record both_out (w2 : Mover) : Prop := {
  bo_inv : Inv (p :: q :: L) w2;
  bo_amount e : amount e (p :: q :: L) w2 = amount e L w;
  bo_there : straight w2 p dst there;
  bo_back : straight w2 q src back;
  bo_src : GetItemByPos (pl w2) (pos_bag src) (pos_slot src) = None;
  bo_dst : GetItemByPos (pl w2) (pos_bag dst) (pos_slot dst) = None;
  bo_goods : same_goods w w2
}.
Lemma wp_both_out : wp (_ ← RemoveItem (pos_bag dst) (pos_slot dst); RemoveItem (pos_bag src) (pos_slot src)) (λ _, both_out) w.
Proof.
  eapply wp_use; [by eapply wp_take|]. cbn beta. intros _ w1 Ht1. pose proof (tn_inv _ _ _ _ _ _ Ht1) as H1.
  assert (GetItemByPos (pl w1) (pos_bag src) (pos_slot src) = Some p) as Hp1 by (by apply (taken_others L w _ _ q w1 H Hq Ht1)).
  eapply wp_mono; [by eapply wp_take|]. cbn beta. intros _ w2 Ht2.
  pose proof (not_in_own_bag _ _ _ Hp) as Hpp. pose proof (not_in_own_bag _ _ _ Hq) as Hqq.
  assert (∀ bag, GetBagByPos (pl w) bag ≠ Some p → GetBagByPos (pl w1) bag ≠ Some p) as Hbag.
  { intros bag Hb Hb1. apply Hb. pose proof (tn_calm _ _ _ _ _ _ Ht1) as Hc. rewrite (calm_bag_at _ _ _ Hc), (take_bag_at _ _ _ q) in Hb1 by done.
    by case_decide. }
  split.
  - exact (tn_inv _ _ _ _ _ _ Ht2).
  - intros e. rewrite (tn_amount _ _ _ _ _ _ Ht2). exact (tn_amount _ _ _ _ _ _ Ht1 e).
  - eapply straight_taken; [exact H1|exact Hp1|exact Ht2| |by eapply (taken_empty (q :: L))|].
    { intros b Hb ->. exact (Hbag _ Hbp Hb). }
    eapply straight_taken; [exact H|exact Hq|exact Ht1|congruence|by eapply taken_empty|exact Hthere].
  - eapply straight_taken; [exact H1|exact Hp1|exact Ht2| |by eapply (taken_empty (q :: L))|].
    { intros b Hb ->. exact (Hbag _ Hpp Hb). }
    eapply straight_taken; [exact H|exact Hq|exact Ht1|congruence|by eapply taken_empty|exact Hback].
  - rewrite (taken_item_at _ _ _ _ _ _ H1 Hp1 Ht2). by rewrite decide_True by done.
  - rewrite (taken_item_at _ _ _ _ _ _ H1 Hp1 Ht2). case_decide; [done|]. case_decide; [done|].
    rewrite (taken_item_at _ _ _ _ _ _ H Hq Ht1). by rewrite decide_True by done.
  - etransitivity; [exact (taken_goods _ _ _ _ _ _ Ht1)|exact (taken_goods _ _ _ _ _ _ Ht2)].
Qed.
Lemma wp_both_in w2 : both_out w2 → wp (_ ← follow there p; follow back q) (λ _ w', kept L w L w' ∧ same_goods w w') w2.
Proof.
  intros [H2 Ha [Hf Hc Hr] [Hf' Hc' Hr'] Hs Hd Hg].
  eapply wp_use; [by eapply (wp_follow_straight HT (q :: L))|]. cbn beta. intros _ w3 Hc3.
  assert (Inv (q :: L) w3) as H3 by (eapply calm_Inv; [exact Hc3|]; by apply Inv_put).
  assert (GetItemByPos (pl w3) (pos_bag src) (pos_slot src) = None) as Hs3.
  { rewrite (calm_item_at _ _ _ _ Hc3), (put_item_at (q :: L)); [done..|apply places_differ|]. by eapply not_inside_other. }
  assert (m_bagslot (mem (pl w3) q) = m_bagslot (mem (pl w2) q)) as Em.
  { rewrite <- (si_bag _ _ (cm_mem _ _ Hc3 q)). by eapply put_inside_other. }
  assert (straight w3 q src back) as Hb3.
  { split.
    - eapply free_place_calm; [exact Hc3|]. by eapply free_place_put.
    - by rewrite Em.
    - rewrite <- (si_count _ _ (cm_mem _ _ Hc3 q)). by destruct (put_goods (pos_bag dst) (pos_slot dst) p w2 q) as (_ & -> & _). }
  eapply wp_mono; [by eapply (wp_follow_straight HT L)|]. cbn beta. intros _ w4 Hc4.
  split.
  2:{ etransitivity; [exact Hg|]. etransitivity; [apply put_goods|]. etransitivity; [by apply calm_same_goods|].
      etransitivity; [apply put_goods|]. by apply calm_same_goods. }
  eapply kept_calm; [|exact Hc4]. split.
  - apply Inv_put; [done|apply Hb3|done].
  - intros e. rewrite (put_amount L) by (done || apply Hb3). rewrite <- (calm_amount e _ _ _ Hc3), (put_amount (q :: L)) by done. apply Ha.
Qed.
End exchange.

Lemma checked_plan_ok w position p r : checked_plan w position p = (EQUIP_ERR_OK, r) → plan w position p true = (EQUIP_ERR_OK, r).
Proof.
  unfold checked_plan. destruct (plan w position p true) as [msg r']. destruct r' as [dest|dest|x|]; try by intros [= -> <-].
  destruct (is_ok msg) eqn:Em; [|by intros [= -> <-]]. apply is_ok_true in Em as ->. by intros [= _ <-].
Qed.
Lemma checked_straight L w p q position r :
  Inv L w → p ∈ held L w → in_u16 position → GetItemByPos (pl w) (pos_bag position) (pos_slot position) = Some q →
  GetBagByPos (pl w) (pos_bag position) ≠ Some p → checked_plan w position p = (EQUIP_ERR_OK, r) → straight w p position r.
Proof.
  intros H Hp Hu Hq Hb Hr%checked_plan_ok. destruct (position_range w _ _ q (iv_mem _ _ H) (pos_slot_u8 position) Hq) as [Hns Hnb].
  destruct (plan_straight HT L w p position true r H Hp Hu Hns Hnb) as [->|]; try done. exfalso.
  eapply plan_somewhere; [apply H| |exact Hq|exact Hr|done]. intros s x Hx. by destruct (iv_own _ _ H _ _ Hx).
Qed.

(** The bag that is to be emptied is empty: one with something in it does not get here. *)
Lemma exchange_nothing w src dst p q there back empty full :
  straight w p dst there → straight w q src back → bag_exchange w src dst p q = Some (empty, full) →
  m_bagslot (mem (pl w) full) = ∅ ∧ (full = p ∨ full = q).
Proof.
  intros [_ Hp _] [_ Hq _]. unfold bag_exchange. case_bool; [done|]. case_bool.
  - intros [= <- <-]. b2p. destruct Hq as [?|Hq]; [by split; [|right]|congruence].
  - case_bool; [|done]. intros [= <- <-]. b2p. destruct Hp as [?|Hp]; [by split; [|left]|congruence].
Qed.
Lemma wp_exchange_nothing w empty full l n :
  live w full → m_bagslot (mem (pl w) full) = ∅ → wp (exchange empty full l n) (λ _ w', w' = w) w.
Proof.
  intros Hl He. induction l as [|i l IH]; [done|]. cbn [exchange]. apply wp_item_at; [done|].
  unfold Bag_GetItemByPos. rewrite He, lookup_empty. by destruct (_ <? _).
Qed.

(** What is worn as a bag is a bag. *)
Lemma bag_pos_bag L w position p :
  Inv L w → GetItemByPos (pl w) (pos_bag position) (pos_slot position) = Some p → IsBagPos position = true → IsBag (mem (pl w) p) = true.
Proof.
  intros H Hp Hb. unfold IsBagPos in Hb. assert (pos_bag position = INVENTORY_SLOT_BAG_0) as E by slots. rewrite E in Hp.
  apply (position_own L) in Hp as [Ho Hp]; [|done]. destruct (iv_own _ _ H _ _ Hp) as [_ Hi]. apply (Hi Ho). slots.
Qed.
Lemma wp_release_loot L w src dst p q :
  Inv L w → (IsBagPos src = true → IsBag (mem (pl w) p) = true) → (IsBagPos dst = true → IsBag (mem (pl w) q) = true) →
  wp (release_loot src dst p q) (λ _ w', spent L w L w' ∧ (GetLootGUID w = 0 → w' = w)) w.
Proof.
  intros H Hp Hq. unfold release_loot. apply wp_get, wp_when; [|intros _; split; [by apply spent_refl|done]]. intros E. b2p. cbv zeta.
  assert ((IsBagPos src && negb (IsBag (mem (pl w) p))) || (negb (IsBagPos src && loot_inside w p) && IsBagPos dst && negb (IsBag (mem (pl w) q))) = false) as ->.
  { destruct (IsBagPos src), (IsBagPos dst); rewrite ?Hp, ?Hq by done; cbn; rewrite ?andb_false_r; done. }
  apply wp_when; [|intros _; split; [by apply spent_refl|done]]. intros _. eapply wp_mono; [by apply (wp_DoLootRelease L)|].
  cbn beta. by intros _ w'.
Qed.

(** Nothing is made; nothing is lost either, with no loot of an item open. *)
Record kept_but_loot (L : list ptr) (w w' : Mover) : Prop := {
  kl_spent : spent L w L w';
  kl_kept : GetLootGUID w = 0 → kept L w L w'
}.
Lemma wp_kept_but_loot L w (k : MW unit) : wp k (λ _, kept L w L) w → wp k (λ _, kept_but_loot L w) w.
Proof. intros H. eapply wp_mono; [exact H|]. cbn beta. intros _ w' Hk. split; [by apply kept_spent|done]. Qed.
Lemma wp_kept_but_loot_skip L w : Inv L w → wp skip (λ _, kept_but_loot L w) w.
Proof. intros H. by apply wp_kept_but_loot, wp_skip, kept_refl. Qed.
Lemma wp_kept_but_loot_refuse L w msg : Inv L w → wp (refuse msg) (λ _, kept_but_loot L w) w.
Proof. intros H. by apply wp_kept_but_loot, wp_kept_refuse. Qed.

Lemma wp_swap_items L w src dst p q :
  Inv L w → in_u16 src → in_u16 dst → GetItemByPos16 (pl w) src = Some p → GetItemByPos16 (pl w) dst = Some q → q ≠ p →
  GetBagByPos (pl w) (pos_bag dst) ≠ Some p → GetBagByPos (pl w) (pos_bag src) ≠ Some q →
  wp (swap_items src dst p q) (λ _, kept_but_loot L w) w.
Proof.
  intros H Hus Hud Hp Hq Hne Hbp Hbq. pose proof (position_held _ _ _ _ _ H Hp) as Hin. pose proof (position_held _ _ _ _ _ H Hq) as Hinq.
  unfold swap_items. apply wp_get. destruct (checked_plan w dst p) as [msg there] eqn:E1.
  destruct (is_ok msg) eqn:Em; cbn [negb]; [|by apply wp_kept_but_loot_refuse]. apply is_ok_true in Em as ->.
  destruct (checked_plan w src q) as [msg back] eqn:E2.
  destruct (is_ok msg) eqn:Em; cbn [negb]; [|by apply wp_kept_but_loot_refuse]. apply is_ok_true in Em as ->. cbv zeta.
  assert (straight w p dst there) as Ht by (by eapply checked_straight). assert (straight w q src back) as Hk by (by eapply checked_straight).
  case_bool; [by apply wp_kept_but_loot_refuse|].
  eapply (wp_use _ _ (λ _ w', w' = w)).
  { destruct (bag_exchange w src dst p q) as [[empty full]|] eqn:Ex; [|by apply wp_skip].
    destruct (exchange_nothing _ _ _ _ _ _ _ _ _ Ht Hk Ex) as [He Hf]. apply wp_exchange_nothing; [|done].
    destruct Hf as [->| ->]; by eapply held_mine. }
  cbn beta. intros _ w1 ->.
  eapply (wp_then _ _ _ (λ _ w', both_out L w src dst p q there back w' ∧ loot_closed w w')).
  { apply wp_shut; [shut_tac|]. by apply (wp_both_out L w src dst p q there back). }
  cbn beta. intros _ w2 [Hb Hl2]. eapply (wp_then _ _ _ (λ _ w', (kept L w L w' ∧ same_goods w w') ∧ loot_closed w2 w')).
  { apply wp_shut; [shut_tac|]. by eapply (wp_both_in L w src dst p q there back). }
  cbn beta. intros _ w3 [[Hk3 Hsg] Hl3]. eapply wp_use; [apply (wp_release_loot L); [apply Hk3|..]|].
  { intros Hb1. rewrite (same_goods_IsBag _ _ p Hsg). by eapply bag_pos_bag. }
  { intros Hb1. rewrite (same_goods_IsBag _ _ q Hsg). by eapply bag_pos_bag. }
  cbn beta. intros _ w4 [Hs Hz]. eapply wp_mono; [apply (wp_AutoUnequipOffhandIfNeed HT L), Hs|]. cbn beta. intros _ w5 Hk5. split.
  - eapply spent_trans; [by apply kept_spent|]. eapply spent_trans; [exact Hs|by apply kept_spent].
  - intros E0. rewrite Hz in Hk5 by auto. by eapply kept_then.
Qed.

(** An explicit place. *)
Definition explicit (position : Z) : Prop := in_u16 position ∧ pos_slot position ≠ NULL_SLOT ∧ pos_bag position ≠ NULL_BAG.

Lemma wp_SwapItem L w src dst :
  Inv L w → in_u16 src → explicit dst → src ≠ dst → wp (SwapItem src dst) (λ _, kept_but_loot L w) w.
Proof.
  intros H Hus (Hud & Hns & Hnb) Hne. unfold SwapItem. apply wp_get.
  destruct (GetItemByPos16 (pl w) src) as [p|] eqn:Hp; [|by apply wp_kept_but_loot_skip].
  apply wp_touch; [by eapply position_mine|]. cbv zeta.
  case_bool; [by apply wp_kept_but_loot_refuse|]. case_bool; [by apply wp_kept_but_loot_refuse|].
  destruct (IsBagPos src && _) eqn:Eb1; [by apply wp_kept_but_loot_refuse|]. destruct (IsBagPos dst && _) eqn:Eb2; [by apply wp_kept_but_loot_refuse|].
  pose proof (not_into_itself L w src _ p H Hp Eb1) as Hbp.
  destruct (GetItemByPos16 (pl w) dst) as [q|] eqn:Hq; [|by apply wp_kept_but_loot, wp_move_item].
  apply wp_touch; [by eapply position_mine|].
  case_bool; [by apply wp_kept_but_loot_refuse|]. rewrite Z.eqb_sym in Eb2. pose proof (not_into_itself L w dst _ q H Hq Eb2) as Hbq.
  assert (q ≠ p) as Hqp.
  { intros ->. destruct (position_inj L w _ _ _ _ p H Hp Hq) as [Ea Eb]. apply Hne. rewrite <- (pack_pos src), <- (pack_pos dst) by done. congruence. }
  destruct (plan w dst p false) as [msg r] eqn:Er. cbv zeta. case_bool; [by apply wp_kept_but_loot_skip|]. case_bool; [|by apply wp_swap_items].
  apply andb_true_iff in E3 as [Eboth Em]. apply is_ok_true in Em as ->. rewrite Eboth in E2. cbn in E2.
  apply wp_kept_but_loot. eapply wp_merge_items; try done. by intros ->.
Qed.

(** The places that the client may name. *)
Lemma valid_explicit w bag slot : mem_ok (pl w) → in_u8 bag → in_u8 slot → IsValidPos (pl w) bag slot true = true → explicit (pack bag slot).
Proof.
  intros Hm Hb Hs Hv. split; [apply pack_u16|]. destruct (pack_unpack bag slot Hb Hs) as [-> ->]. unfold IsValidPos in Hv.
  cbn [negb] in Hv. rewrite !andb_false_r in Hv. destruct (Z.eqb_spec bag INVENTORY_SLOT_BAG_0) as [->|Hn].
  - split; [|done]. intros ->. by vm_compute in Hv.
  - destruct (GetBagByPos (pl w) bag) as [b|] eqn:Hbb; [|done]. pose proof (mo_size _ Hm b) as Hsz. unfold MAX_BAG_SIZE in Hsz.
    split; [intros ->; slots|]. intros ->. by apply GetBagByPos_spec in Hbb as (? & _).
Qed.
Lemma wp_HandleSwapItem L w dstbag dstslot srcbag srcslot :
  Inv L w → in_u8 dstbag → in_u8 dstslot → in_u8 srcbag → in_u8 srcslot →
  wp (HandleSwapItem dstbag dstslot srcbag srcslot) (λ _, kept_but_loot L w) w.
Proof.
  intros H Hdb Hds Hsb Hss. unfold HandleSwapItem. apply wp_get. cbv zeta. case_bool; [by apply wp_kept_but_loot_skip|].
  case_bool; [by apply wp_kept_but_loot_refuse|]. case_bool; [by apply wp_kept_but_loot_refuse|].
  case_bool; [by apply wp_kept_but_loot_skip|]. case_bool; [by apply wp_kept_but_loot_skip|].
  b2p. apply wp_SwapItem; [done|apply pack_u16| |done]. eapply valid_explicit; [apply H|done..].
Qed.
Lemma wp_HandleAutoEquipItemSlotOpcode L w itemguid dstslot :
  Inv L w → in_u8 dstslot → wp (HandleAutoEquipItemSlotOpcode itemguid dstslot) (λ _, kept_but_loot L w) w.
Proof.
  intros H Hu. unfold HandleAutoEquipItemSlotOpcode. case_bool; [by apply wp_kept_but_loot_skip|]. apply wp_get. cbv zeta.
  destruct (GetItemByGuid (pl w) itemguid) as [p|] eqn:Hg; [|by apply wp_kept_but_loot_skip].
  destruct (GetItemByGuid_somewhere _ _ _ (iv_mem _ _ H) Hg) as (bag & slot & Hp).
  eapply (wp_GetPos L); [exact H|exact Hp|]. case_bool; [by apply wp_kept_but_loot_skip|]. b2p.
  apply wp_SwapItem; [done|apply pack_u16| |done]. split; [apply pack_u16|].
  destruct (pack_unpack INVENTORY_SLOT_BAG_0 dstslot) as [-> ->]; [by unfold in_u|done|]. apply negb_false_iff in E. unfold IsEquipmentPos in E.
  split; slots.
Qed.
End requests.
End MoveRequests.
