(* ===== verification/MoveTrade.v ===== *)
(** * Splitting, banking, destroying, selling and buying back

    The requests that store elsewhere keep what the player has; those that destroy or sell
    leave at most that. *)
From S2P Require Import Prelude StateMonad Items Inventory Storage MoveData MoveOps MoveEquip MoveSwap MoveHandlers MoveCalm MoveInvariant MoveSteps MoveOffers MoveWear MoveSearch MovePlans MoveKeep MoveRequests.

Module MoveTrade.
Export MoveRequests.

Section stock.
Context `{IE : ItemEnv} `{ME : MoveEnv}.
Context (HT : templates_ok).

(** ** Storing elsewhere *)

Lemma taken_then_calm L bag slot p w w1 w2 : taken L bag slot p w w1 → calm w1 w2 → taken L bag slot p w w2.
Proof.
  intros [A B C] Hc. split; [by transitivity w1|by eapply calm_Inv|]. intros e. rewrite <- C. symmetry. by apply calm_amount.
Qed.
Lemma wp_taken_follow L w bag slot p w1 r :
  Inv L w → GetItemByPos (pl w) bag slot = Some p → taken L bag slot p w w1 →
  followable w p r → routed w p r = GetCount (mem (pl w) p) → wp (follow r p) (λ _, kept L w L) w1.
Proof.
  intros H Hp Ht Hr Hn. destruct (followable_taken L w bag slot p w1 r H Hp Ht Hr) as [Hr1 En].
  eapply wp_mono; [apply (wp_follow HT L); [apply Ht|exact Hr1]|]. cbn beta. intros _ w2 Hs.
  eapply kept_then; [by eapply kept_taken|]. eapply kept_step; [exact Hs|]. intros e.
  rewrite En, Hn, (taken_count L w w1 bag slot p Ht), Z.sub_diag. unfold unit_delta. by destruct (_ =? e).
Qed.

Lemma wp_HandleAutoStoreBagItemOpcode L w srcbag srcslot dstbag :
  Inv L w → wp (HandleAutoStoreBagItemOpcode srcbag srcslot dstbag) (λ _, kept L w L) w.
Proof.
  intros H. unfold HandleAutoStoreBagItemOpcode. apply wp_get.
  destruct (GetItemByPos (pl w) srcbag srcslot) as [p|] eqn:Hp; [|apply wp_skip; by apply kept_refl].
  pose proof (position_held _ _ _ _ _ H Hp) as Hin. case_bool; [by apply wp_kept_refuse|].
  eapply (wp_GetPos L); [exact H|exact Hp|]. cbv zeta. case_bool; [by apply wp_kept_refuse|].
  pose proof (store_answers HT L w p H Hin dstbag NULL_SLOT [] false ltac:(right; by left) (sound_nil _ _)) as HA.
  set (v := CanStoreItem _ _ _ _ _ _) in *. destruct (is_ok (v_res v)) eqn:Ev; cbn [negb]; [|by apply wp_kept_refuse].
  apply is_ok_true in Ev. destruct (answers_follow L w p _ _ H Hin HA Ev) as (H1 & H2 & H3). case_bool; [by apply wp_kept_refuse|].
  eapply wp_mono; [eapply (wp_move HT L w _ _ p (Stored (v_dest v))) in Hp as HW; [|exact H|by split|exact H3]; exact HW|]. intros _ w' [Hk _]; exact Hk.
Qed.
Lemma wp_HandleAutoBankItemOpcode L w srcbag srcslot :
  Inv L w → wp (HandleAutoBankItemOpcode srcbag srcslot) (λ _, kept L w L) w.
Proof.
  intros H. unfold HandleAutoBankItemOpcode. apply wp_get. case_bool; [apply wp_skip; by apply kept_refl|].
  destruct (GetItemByPos (pl w) srcbag srcslot) as [p|] eqn:Hp; [|apply wp_skip; by apply kept_refl].
  pose proof (position_held _ _ _ _ _ H Hp) as Hin.
  pose proof (bank_answers HT L w p H Hin NULL_BAG NULL_SLOT [] false true ltac:(by left) (sound_nil _ _)) as HA.
  destruct (CanBankItem _ _ _ _ _ _ _) as [msg dest]. destruct (is_ok msg) eqn:Ev; cbn [negb]; [|by apply wp_kept_refuse].
  apply is_ok_true in Ev as ->. destruct (answers_follow L w p _ _ H Hin HA eq_refl) as (H1 & H2 & H3).
  eapply (wp_GetPos L); [exact H|exact Hp|]. case_bool; [by apply wp_kept_refuse|].
  eapply wp_use; [by eapply wp_take|]. cbn beta. intros _ w1 Ht. pose proof (loose_mine _ _ _ (tn_inv _ _ _ _ _ _ Ht)) as Hm.
  apply wp_item_at; [apply Hm|]. assert (calm w1 w1) as Hc by done. still Hc.
  apply (wp_taken_follow L w srcbag srcslot p _ (Banked dest)); [done|done| |by split|done]. by eapply taken_then_calm.
Qed.
Lemma wp_HandleAutoStoreBankItemOpcode L w srcbag srcslot :
  Inv L w → wp (HandleAutoStoreBankItemOpcode srcbag srcslot) (λ _, kept L w L) w.
Proof.
  intros H. unfold HandleAutoStoreBankItemOpcode. apply wp_get. case_bool; [apply wp_skip; by apply kept_refl|].
  destruct (GetItemByPos (pl w) srcbag srcslot) as [p|] eqn:Hp; [|apply wp_skip; by apply kept_refl].
  pose proof (position_held _ _ _ _ _ H Hp) as Hin. case_bool.
  - pose proof (store_answers HT L w p H Hin NULL_BAG NULL_SLOT [] false ltac:(by left) (sound_nil _ _)) as HA.
    set (v := CanStoreItem _ _ _ _ _ _) in *. cbv zeta. destruct (is_ok (v_res v)) eqn:Ev; cbn [negb]; [|by apply wp_kept_refuse].
    apply is_ok_true in Ev. destruct (answers_follow L w p _ _ H Hin HA Ev) as (H1 & H2 & H3).
    eapply wp_use; [by eapply wp_take|]. cbn beta. intros _ w1 Ht.
    eapply wp_use; [apply (wp_StoreItem HT L); [apply Ht|done|by eapply taken_dest]|]. cbn beta. intros o w2 (Hs & q & -> & Hq).
    assert (kept L w L w2) as Hk.
    { eapply kept_then; [by eapply kept_taken|]. eapply kept_step; [exact Hs|]. intros e.
      rewrite (taken_count L w w1 srcbag srcslot p Ht), H3, Z.sub_diag. unfold unit_delta. by destruct (_ =? e). }
    eapply wp_kept_last; [exact Hk|]. intros H4. apply wp_item_at; [eapply held_mine; [exact H4|exact Hq]|]. by apply wp_kept_tell.
  - pose proof (bank_answers HT L w p H Hin NULL_BAG NULL_SLOT [] false true ltac:(by left) (sound_nil _ _)) as HA.
    destruct (CanBankItem _ _ _ _ _ _ _) as [msg dest]. destruct (is_ok msg) eqn:Ev; cbn [negb]; [|by apply wp_kept_refuse].
    apply is_ok_true in Ev as ->. destruct (answers_follow L w p _ _ H Hin HA eq_refl) as (H1 & H2 & H3).
    eapply wp_mono; [eapply (wp_move HT L w _ _ p (Banked dest)) in Hp as HW; [|exact H|by split|exact H3]; exact HW|]. intros _ w' [Hk _]; exact Hk.
Qed.

(** ** Splitting *)

(** Nobody holds the item any more; the others are what they were. *)
Lemma Inv_drop L w p : Inv (p :: L) w → Inv L w.
Proof. intros H. by eapply (Inv_gone L w w p). Qed.
Lemma amount_drop e L w p : inside w p = [] → amount e (p :: L) w = units w e p + amount e L w.
Proof. intros Hi. unfold amount. by rewrite (total_perm _ _ _ (held_cons L w p Hi)). Qed.

(** The new stack, and what is left of the old. *)
Record split_off (L : list ptr) (p new count : Z) (w w2 : Mover) : Prop := {
  so_kept : kept L w (new :: L) w2;
  so_other : new ≠ p;
  so_empty : inside w2 new = [];
  so_same : GetTemplate (mem (pl w2) new) = GetTemplate (mem (pl w2) p);
  so_kind : GetTemplate (mem (pl w2) p) = GetTemplate (mem (pl w) p);
  so_new : GetCount (mem (pl w2) new) = count;
  so_old : GetCount (mem (pl w2) p) = GetCount (mem (pl w) p) - count;
  so_there : p ∈ held L w2
}.
Lemma split_made L w p count w1 :
  Inv L w → p ∈ held L w → 1 ≤ count < GetCount (mem (pl w) p) →
  (∃ it st, fresh_item w it st ∧ GetTemplate it = GetTemplate (mem (pl w) p) ∧ GetCount it = count ∧ calm (create it st w) w1) →
  Inv (next_address w :: L) w1 ∧ kept L w L w1 ∧
  split_off L p (next_address w) count w (recount p (GetCount (mem (pl w) p) - count) w1).
Proof.
  intros H Hp Hc (it & st & Hf & Ht & Hn & Hcalm). set (new := next_address w).
  pose proof (iv_item _ _ H p Hp) as Hs. pose proof (stack_range HT _ _ Hs) as Hst. pose proof (so_count _ _ Hs) as Hcp.
  assert (p ≠ new) as Hne by (intros E; pose proof (so_address _ _ Hs) as Ha; rewrite E in Ha; unfold new in Ha; lia).
  assert (Inv (new :: L) w1) as H1 by (eapply calm_Inv; [exact Hcalm|by apply fresh_Inv]).
  assert (GetTemplate (mem (pl w1) p) = GetTemplate (mem (pl w) p)) as Etp.
  { rewrite <- (si_template _ _ (cm_mem _ _ Hcalm p)). by rewrite create_mem. }
  assert (GetCount (mem (pl w1) p) = GetCount (mem (pl w) p)) as Ecp.
  { rewrite <- (si_count _ _ (cm_mem _ _ Hcalm p)). by rewrite create_mem. }
  assert (GetTemplate (mem (pl w1) new) = GetTemplate it) as Etn.
  { rewrite <- (si_template _ _ (cm_mem _ _ Hcalm new)). by rewrite create_mem_new. }
  assert (GetCount (mem (pl w1) new) = GetCount it) as Ecn.
  { rewrite <- (si_count _ _ (cm_mem _ _ Hcalm new)). by rewrite create_mem_new. }
  assert (inside w1 new = []) as Ein.
  { rewrite <- (calm_inside _ _ _ Hcalm). apply create_inside_new. apply Hf. }
  assert (∀ e, amount e (new :: L) w1 = amount e L w + (if GetEntry it =? e then GetCount it else 0)) as Ha.
  { intros e. rewrite <- (calm_amount e _ _ _ Hcalm). apply (create_amount L); [done|apply Hf]. }
  assert (∀ e, amount e L w1 = amount e L w) as Hal.
  { intros e. pose proof (amount_drop e L w1 new Ein) as Hd. rewrite Ha in Hd. unfold units, GetEntry in *. rewrite Etn, Ecn in Hd. lia. }
  assert (p ∈ held (new :: L) w1) as Hp1.
  { rewrite held_cons by done. apply elem_of_cons. right. rewrite <- (calm_held L _ _ Hcalm). rewrite (create_held L w it st H); [done|apply Hf]. }
  split; [done|]. split; [split; [by eapply Inv_drop|done]|]. split.
  - split.
    + apply Inv_recount; [done|]. rewrite Etp. lia.
    + intros e. rewrite (recount_amount (new :: L)) by done. rewrite Ha. unfold GetEntry. rewrite Etp, Ecp, Ht, Hn. destruct (_ =? e); lia.
  - done.
  - unfold inside. rewrite recount_contents. exact Ein.
  - by rewrite !recount_kind, Etn, Etp.
  - by rewrite recount_kind.
  - rewrite recount_count, (proj2 (Z.eqb_neq _ _)) by done. by rewrite Ecn.
  - by rewrite recount_count, Z.eqb_refl.
  - rewrite recount_held. rewrite held_cons in Hp1 by done. by apply elem_of_cons in Hp1 as [?|?].
Qed.
(** Put together again. *)
Lemma split_back L w p new count w2 w3 :
  Inv L w → p ∈ held L w → split_off L p new count w w2 → goes new w2 w3 → kept L w L (recount p (GetCount (mem (pl w) p)) w3).
Proof.
  intros H Hp [[H2 Ha] Hne Hi Ht Hk Hn Ho Hth] Hg. pose proof (goes_same_goods _ _ _ Hg p) as (Et & Ec & _).
  pose proof (iv_item _ _ H p Hp) as Hs. pose proof (so_count _ _ Hs) as Hcp.
  assert (Inv L w3) as H3 by (by eapply goes_Inv).
  assert (p ∈ held L w3) as Hp3 by (by rewrite (goes_held L w2 w3 new)).
  split.
  - apply Inv_recount; [done|]. by rewrite Et, Hk.
  - intros e. rewrite (recount_amount L) by done. rewrite (goes_amount e L w2 w3 new) by done. rewrite Ha. unfold units, GetEntry.
    rewrite Et, Ec, Ho, Ht, Hn. destruct (_ =? e); lia.
Qed.

Lemma wp_SplitItem L w src dst count :
  Inv L w → 1 ≤ count → wp (SplitItem src dst count) (λ _, kept L w L) w.
Proof.
  intros H Hc. unfold SplitItem. apply wp_get.
  destruct (GetItemByPos16 (pl w) src) as [p|] eqn:Hp; [|by apply wp_kept_refuse].
  pose proof (position_held _ _ _ _ _ H Hp) as Hin. pose proof (iv_item _ _ H p Hin) as Hs.
  pose proof (stack_range HT _ _ Hs) as Hst. pose proof (so_count _ _ Hs) as Hcp.
  apply wp_item_at; [apply Hs|]. case_bool; [by apply wp_kept_refuse|]. case_bool; [by apply wp_kept_refuse|].
  case_bool; [by apply wp_kept_refuse|]. case_bool; [apply wp_skip; by apply kept_refl|]. b2p.
  eapply wp_use; [apply (wp_CloneItem HT L); [done|done|lia]|]. cbn beta. intros o w1 [-> Hmade].
  destruct (split_made L w p count w1 H Hin ltac:(lia) Hmade) as (H1 & Hk1 & Hsp). set (new := next_address w) in *.
  case_bool; [by apply wp_skip|].
  assert (GetCount (mem (pl w1) p) = GetCount (mem (pl w) p) ∧ live w1 p) as [Ec1 Hl1].
  { split; [|eapply held_mine; [apply Hk1|]].
    - destruct Hmade as (it & st & Hf & _ & _ & Hcalm). rewrite <- (si_count _ _ (cm_mem _ _ Hcalm p)). rewrite create_mem; [done|].
      intros Ep. pose proof (so_address _ _ Hs) as Ha. rewrite Ep in Ha. lia.
    - pose proof (so_there _ _ _ _ _ _ Hsp) as Hth. by rewrite recount_held in Hth. }
  eapply wp_use; [apply SetCount_recount; [unfold in_u; lia|exact Hl1]|]. cbn beta. intros _ w2 ->.
  set (w2 := recount p _ w1) in *. pose proof (kp_inv _ _ _ _ (so_kept _ _ _ _ _ _ Hsp)) as H2.
  assert (new ∈ held (new :: L) w2) as Hn2 by (apply root_held, loose_root, elem_of_cons; by left).
  assert (mine w2 p) as Hm2 by (eapply held_mine; [by eapply Inv_drop|apply Hsp]).
  apply wp_get. destruct (plan w2 dst new false) as [msg r] eqn:Er. destruct (is_ok msg) eqn:Em; cbn [negb].
  - apply is_ok_true in Em as ->.
    destruct (plan_ok HT (new :: L) w2 new dst r H2 Hn2) as [->|[Hf Hr]]; [by eapply loose_not_bag|done| |].
    { exfalso. unfold plan in Er. destruct (IsInventoryPos16 dst); [done|]. destruct (IsBankPos16 dst).
      { by destruct (CanBankItem _ _ _ _ _ _ _). } destruct (IsEquipmentPos16 dst); [|done]. by destruct (CanEquipItem _ _ _ _ _). }
    assert (calm w2 w2) as Hcalm by done. still Hcalm.
    destruct (followable_calm _ _ new r Hcalm Hf) as [Hf' Er']. pose proof (calm_Inv _ _ _ Hcalm H2) as H3.
    eapply wp_use; [by apply (wp_follow HT L)|]. cbn beta. intros _ w3 Hst3.
    apply (wp_kept_last L w w3).
    + eapply kept_then; [eapply kept_calm; [apply Hsp|exact Hcalm]|]. eapply kept_step; [exact Hst3|]. intros e.
      rewrite Er', Hr, (si_count _ _ (cm_mem _ _ Hcalm new)), Z.sub_diag. unfold unit_delta. by destruct (_ =? e).
    + intros H4. apply wp_when; [|intros _; by apply kept_refl]. intros _. by apply (wp_AutoUnequipOffhandIfNeed HT).
  - eapply wp_use; [by apply (wp_delete_item L)|]. cbn beta. intros _ w3 Hg.
    assert (goes new w2 w3) as Hgo by (exists w2; by split).
    assert (live w3 p) as Hl3.
    { eapply (held_mine L); [by eapply goes_Inv|]. rewrite (goes_held L w2 w3 new) by done. apply Hsp. }
    eapply wp_use; [apply SetCount_recount; [unfold in_u; lia|exact Hl3]|]. cbn beta. intros _ w4 ->.
    apply (wp_kept_last L w (recount p (GetCount (mem (pl w) p) - count + count) w3)); [|intros H4; by apply wp_kept_refuse].
    rewrite Z.sub_add. by eapply split_back.
Qed.
Lemma wp_HandleSplitItemOpcode L w srcbag srcslot dstbag dstslot count :
  Inv L w → 0 ≤ count → wp (HandleSplitItemOpcode srcbag srcslot dstbag dstslot count) (λ _, kept L w L) w.
Proof.
  intros H Hc. unfold HandleSplitItemOpcode. apply wp_get. cbv zeta. case_bool; [apply wp_skip; by apply kept_refl|].
  case_bool; [apply wp_skip; by apply kept_refl|]. case_bool; [by apply wp_kept_refuse|]. case_bool; [by apply wp_kept_refuse|].
  b2p. apply wp_SplitItem; [done|lia].
Qed.
End stock.

Section trade.
Context `{IE : ItemEnv} `{ME : MoveEnv}.
Context (HT : templates_ok).

Lemma wp_HandleDestroyItemOpcode L w bag slot count :
  Inv L w → 0 ≤ count → wp (HandleDestroyItemOpcode bag slot count) (λ _, spent L w L) w.
Proof.
  intros H Hc. unfold HandleDestroyItemOpcode. apply wp_get. cbv zeta. case_bool; [by apply wp_spent_refuse|].
  destruct (GetItemByPos (pl w) bag slot) as [p|] eqn:Hp; [|by apply wp_spent_refuse].
  apply wp_item_at; [by eapply position_mine|]. case_bool; [by apply wp_spent_refuse|]. case_bool.
  - eapply wp_mono; [by apply (wp_DestroyItem L)|]. cbn beta. intros _ w' Hd. apply Hd.
  - eapply wp_use; [by eapply wp_DestroyItemCount_of|]. cbn beta. intros _ w' Hd. by apply wp_skip.
Qed.

(** *** The buyback slots *)

(** Nothing but the books: prices, times and the slot that is next. *)
Record accounted (w w' : Mover) : Prop := {
  ac_pl : pl w' = pl w;
  ac_states : states w' = states w;
  ac_address : next_address w' = next_address w;
  ac_guid : next_guid w' = next_guid w;
  ac_mailed : mailed w' = mailed w;
  ac_slot : BUYBACK_SLOT_START ≤ m_currentBuybackSlot w' < BUYBACK_SLOT_END
}.
Lemma accounted_kept L w w' : Inv L w → accounted w w' → kept L w L w'.
Proof.
  intros H [A B C D E F]. pose proof (Inv_current L w _ F H) as H1.
  assert (calm (set_m_currentBuybackSlot w (m_currentBuybackSlot w')) w') as Hc.
  { split; rewrite ?A, ?B, ?C, ?D, ?E; done. }
  split; [by eapply calm_Inv|]. intros e. rewrite <- (calm_amount e _ _ _ Hc). by apply amount_same.
Qed.

Lemma own_take_kept L w s x : Inv L w → m_items (pl w) !! s = Some x → kept L w (x :: L) (own_put s None w).
Proof.
  intros H Hx. split; [by apply Inv_own_take|]. intros e. apply amount_same; [done|].
  unfold held. rewrite <- (roots_own_take L w s x Hx). done.
Qed.
Lemma own_put_kept L w s x :
  Inv (x :: L) w → m_items (pl w) !! s = None → in_slot w s x → kept (x :: L) w L (own_put s (Some x) w).
Proof.
  intros H Hn Hs. split; [by apply Inv_own_put|]. intros e. apply amount_same; [done|].
  unfold held. rewrite <- (roots_own_put L w s x Hn). done.
Qed.
Lemma goes_own_put x s w w1 : goes x w w1 → goes x (own_put s None w) (own_put s None w1).
Proof.
  intros (wc & Hc & [A B C D E F]). exists (own_put s None wc). split; [by apply calm_own_put|].
  split; try done. unfold own_put. by rewrite A.
Qed.

(** What goes is missing. *)
Lemma goes_lost e L w p w' : Inv (p :: L) w → goes p w w' → amount e L w' + units w e p ≤ amount e (p :: L) w.
Proof.
  intros H Hg. assert (amount e L w' = amount e L w) as ->.
  { apply amount_same; [by eapply goes_same_goods|]. by rewrite (goes_held L w w' p). }
  unfold amount. rewrite (total_perm _ _ _ (held_cons_tree L w p)), total_app.
  assert (0 ≤ total (units w e) (inside w p)).
  { apply total_all_nonneg. intros q Hq. apply (units_nonneg (p :: L)); [done|]. rewrite held_cons_tree. set_solver. }
  unfold tree. unfold total in *. cbn. lia.
Qed.

(** [o] at the slot, and what was there is gone. *)
Record replaced (L : list ptr) (slot : Z) (o : option ptr) (w : Mover) (L' : list ptr) (w' : Mover) : Prop := {
  rp_spent : spent L w L' w';
  rp_lost x e : own_ptr w slot = Some x → amount e L' w' + units w e x ≤ amount e L w;
  rp_items s : m_items (pl w') !! s = if decide (s = slot) then o else m_items (pl w) !! s
}.

Section slot.
Variables (L : list ptr) (w : Mover) (slot : Z).
Hypothesis H : Inv L w.
Hypothesis Hslot : BUYBACK_SLOT_START ≤ slot < BUYBACK_SLOT_END.

Lemma buyback_between : between BUYBACK_SLOT_START slot BUYBACK_SLOT_END = true.
Proof. slots. Qed.
(** The end of RemoveItemFromBuyBackSlot. *)
Lemma wp_books w1 :
  m_currentBuybackSlot w1 = m_currentBuybackSlot w →
  wp (_ ← put_own slot None;
      let eslot := slot - BUYBACK_SLOT_START in
      _ ← modify (λ w, set_buyback_timestamp (set_buyback_price w (<[eslot := 0]> (buyback_price w)))
                         (<[eslot := 0]> (buyback_timestamp w)));
      w ← get;
      when (bool_decide (is_Some (own_ptr w (m_currentBuybackSlot w)))) (modify (λ w, set_m_currentBuybackSlot w slot)))
     (λ _, accounted (own_put slot None w1)) w1.
Proof.
  intros E. pose proof (iv_buyback _ _ H) as Hb. unfold put_own. apply wp_bind, wp_modify. cbv zeta. apply wp_bind, wp_modify, wp_get, wp_when.
  - intros _. apply wp_modify. by split.
  - intros _. split; try done. cbn. by rewrite E.
Qed.
Lemma wp_RemoveItemFromBuyBackSlot_keep x :
  own_ptr w slot = Some x → wp (RemoveItemFromBuyBackSlot slot false) (λ _, accounted (own_put slot None w)) w.
Proof.
  intros Hx. unfold RemoveItemFromBuyBackSlot. rewrite buyback_between. cbn [negb]. apply wp_get. rewrite Hx.
  eapply wp_use; [apply wp_touch; [|by apply wp_skip with (Q := λ _ w', w' = w)]|].
  - eapply held_mine; [exact H|]. eapply root_held, own_root, Hx.
  - cbn beta. intros _ w1 ->. by apply wp_books.
Qed.
Lemma wp_RemoveItemFromBuyBackSlot_clear :
  wp (RemoveItemFromBuyBackSlot slot true) (λ _, replaced L slot None w L) w.
Proof.
  unfold RemoveItemFromBuyBackSlot. rewrite buyback_between. cbn [negb]. apply wp_get.
  destruct (own_ptr w slot) as [x|] eqn:Hx.
  - pose proof Hx as Hx'. unfold own_ptr in Hx'. assert (x ∈ roots L w) as Hr by (by eapply own_root).
    eapply wp_use; [apply wp_touch; [eapply held_mine; [exact H|by apply root_held]|]; cbn [when]; by apply (wp_SetState_removed_root L w w)|].
    cbn beta. intros _ w1 Hg. pose proof (own_take_kept L w slot x H Hx') as Hk. pose proof (goes_own_put x slot w w1 Hg) as Hg'.
    eapply wp_mono; [apply wp_books|]. { destruct Hg as (wc & Hc & Hgn). rewrite (gn_buyback _ _ _ Hgn). symmetry. apply Hc. }
    cbn beta. intros _ w2 Ha.
    assert (kept L (own_put slot None w1) L w2) as Hk2 by (apply accounted_kept; [eapply goes_Inv; [exact Hg'|apply Hk]|done]). split.
    + eapply spent_trans; [by apply kept_spent|]. eapply spent_trans; [apply spent_goes; [apply Hk|exact Hg']|by apply kept_spent].
    + intros x' e E. rewrite Hx in E. injection E as <-. rewrite (kp_amount _ _ _ _ Hk2), <- (kp_amount _ _ _ _ Hk).
      pose proof (goes_lost e L _ x _ (kp_inv _ _ _ _ Hk) Hg') as Hl. exact Hl.
    + intros s. rewrite (ac_pl _ _ Ha), own_put_lookup. destruct Hg as (wc & Hc & Hgn). by rewrite (gn_pl _ _ _ Hgn), <- (cm_items _ _ Hc).
  - apply wp_bind, wp_skip. eapply wp_mono; [by apply wp_books|]. cbn beta. intros _ w2 Ha. unfold own_ptr in Hx.
    assert (calm w (own_put slot None w)) as Hc.
    { split; try done. cbn. apply map_eq. intros s. destruct (decide (s = slot)) as [->|Hs].
      - by rewrite lookup_partial_alter_eq.
      - by rewrite lookup_partial_alter_ne. }
    split.
    + apply kept_spent. eapply calm_kept; [exact Hc|]. apply accounted_kept; [|done]. by eapply calm_Inv.
    + unfold own_ptr. by rewrite Hx.
    + intros s. by rewrite (ac_pl _ _ Ha), own_put_lookup.
Qed.
End slot.

Lemma oldest_slot_range w l time slot :
  (∀ i, i ∈ l → BUYBACK_SLOT_START ≤ i < BUYBACK_SLOT_END) → BUYBACK_SLOT_START ≤ slot < BUYBACK_SLOT_END →
  BUYBACK_SLOT_START ≤ oldest_slot w l time slot < BUYBACK_SLOT_END.
Proof.
  revert time slot. induction l as [|i l IH]; intros time slot Hl Hs; [done|]. cbn [oldest_slot]. case_bool; [done|]. cbv zeta.
  case_bool; apply IH; try done; try (apply Hl; set_solver); intros j Hj; apply Hl; set_solver.
Qed.
Lemma buyback_slot_range L w : Inv L w → BUYBACK_SLOT_START ≤ buyback_slot w < BUYBACK_SLOT_END.
Proof.
  intros H. unfold buyback_slot. case_bool; [|apply H]. apply oldest_slot_range; [|slots].
  intros i Hi%elem_of_seqZ. slots.
Qed.
Lemma wp_AddItemToBuyBackSlot_replaces L w p :
  Inv (p :: L) w → wp (AddItemToBuyBackSlot p) (λ _, replaced (p :: L) (buyback_slot w) (Some p) w L) w.
Proof.
  intros H. unfold AddItemToBuyBackSlot. apply wp_get. cbv zeta. pose proof (buyback_slot_range _ _ H) as Hs. set (slot := buyback_slot w) in *.
  eapply wp_use; [by apply (wp_RemoveItemFromBuyBackSlot_clear (p :: L))|]. cbn beta. intros _ w1 [Hsp Hl Hi]. pose proof (sp_inv _ _ _ _ Hsp) as H1.
  apply wp_item_at; [by eapply loose_mine|]. unfold put_own. apply wp_bind, wp_modify, wp_bind, wp_modify, wp_modify. set (w2 := if _ <? _ then _ else _).
  assert (kept (p :: L) w1 L (own_put slot (Some p) w1)) as Hk.
  { apply own_put_kept; [done|by rewrite Hi, decide_True|]. split; [slots|]. intros Ho. exfalso. slots. }
  assert (accounted (own_put slot (Some p) w1) w2) as Hac.
  { pose proof (iv_buyback _ _ H1) as Hb. unfold w2. case_bool; split; try done. b2p. cbn in *. slots. }
  assert (kept (p :: L) w1 L w2) as Hk2 by (eapply kept_then; [exact Hk|]; apply accounted_kept; [apply Hk|done]). split.
  - eapply spent_trans; [done|by apply kept_spent].
  - intros x e Hx. rewrite (kp_amount _ _ _ _ Hk2). by apply Hl.
  - intros s. rewrite (ac_pl _ _ Hac), own_put_lookup, Hi. by case_decide.
Qed.
Lemma wp_AddItemToBuyBackSlot L w p : Inv (p :: L) w → wp (AddItemToBuyBackSlot p) (λ _, spent (p :: L) w L) w.
Proof. intros H. eapply wp_mono; [by apply (wp_AddItemToBuyBackSlot_replaces L)|]. cbn beta. intros _ w' Hr. apply Hr. Qed.

Lemma wp_ModifyMoney_calm w amount : wp (ModifyMoney amount) (λ _, calm w) w.
Proof.
  unfold ModifyMoney. apply wp_get. case_bool; [|case_bool]; apply wp_modify; by split.
Qed.
Lemma wp_ModifyMoney L w amount : Inv L w → wp (ModifyMoney amount) (λ _, kept L w L) w.
Proof.
  intros H. eapply wp_mono; [apply wp_ModifyMoney_calm|]. cbn beta. intros _ w' Hc. eapply kept_calm; [by apply kept_refl|done].
Qed.

Lemma wp_sell L w bag slot p count :
  Inv L w → GetItemByPos (pl w) bag slot = Some p → 1 ≤ count → wp (sell p count) (λ _, spent L w L) w.
Proof.
  intros H Hp Hc. pose proof (position_mine _ _ _ _ _ H Hp) as Hm. pose proof (position_held _ _ _ _ _ H Hp) as Hin.
  pose proof (iv_item _ _ H p Hin) as Hs. pose proof (stack_range HT _ _ Hs) as Hst. pose proof (so_count _ _ Hs) as Hcp.
  unfold sell. apply wp_item_at; [apply Hm|]. cbv zeta. case_bool; [apply wp_skip; by apply spent_refl|].
  case_bool; [|by apply wp_spent_tell].
  eapply wp_use with (Q := λ _, spent L w L); [|cbn beta; intros o w1 Hk; apply wp_when; [|by intros]; intros _;
    eapply wp_spent_last; [exact Hk|]; intros H1; by apply wp_spent, wp_ModifyMoney].
  case_bool.
  - b2p. eapply wp_use; [apply (wp_CloneItem HT L); [done|done|lia]|]. cbn beta. intros o w1 [-> Hmade].
    destruct (split_made HT L w p count w1 H Hin ltac:(lia) Hmade) as (H1 & Hk1 & Hsp). set (new := next_address w) in *.
    assert (live w1 p) as Hl1.
    { eapply held_mine; [apply Hk1|]. pose proof (so_there _ _ _ _ _ _ Hsp) as Hth. by rewrite recount_held in Hth. }
    eapply wp_use; [apply SetCount_recount; [unfold in_u; lia|exact Hl1]|]. cbn beta. intros _ w2 ->.
    set (w2 := recount p _ w1) in *. pose proof (kp_inv _ _ _ _ (so_kept _ _ _ _ _ _ Hsp)) as H2.
    assert (mine w2 p) as Hm2 by (eapply held_mine; [by eapply Inv_drop|apply Hsp]).
    assert (calm w2 w2) as Hcalm by done. clear Hm. still Hcalm. still Hcalm.
    eapply wp_use; [eapply (wp_AddItemToBuyBackSlot L); by eapply calm_Inv|]. cbn beta. intros _ w3 Hk. apply wp_ret.
    eapply spent_trans; [|exact Hk]. apply kept_spent. eapply kept_calm; [apply Hsp|exact Hcalm].
  - assert (calm w w) as Hcalm by done. still Hcalm.
    pose proof (calm_Inv _ _ _ Hcalm H) as H1. assert (GetItemByPos (pl w') bag slot = Some p) as Hp1 by (by rewrite (calm_item_at _ _ _ _ Hcalm)).
    eapply (wp_GetBagSlot L); [exact H1|exact Hp1|]. rewrite (position_slot L w bag slot p H Hp).
    eapply wp_use; [by eapply wp_take|]. cbn beta. intros _ w2 Ht.
    pose proof (loose_mine _ _ _ (tn_inv _ _ _ _ _ _ Ht)) as Hm2. assert (calm w2 w2) as Hc2 by done. still Hc2.
    eapply wp_use; [eapply (wp_AddItemToBuyBackSlot L); eapply calm_Inv; [exact Hc2|apply Ht]|]. cbn beta. intros _ w3 Hk. apply wp_ret.
    eapply spent_trans; [|exact Hk]. apply kept_spent. eapply calm_kept; [exact Hcalm|]. eapply kept_calm; [|exact Hc2]. by eapply kept_taken.
Qed.
(** All of a stack. *)
Lemma wp_sell_all L w bag slot p :
  Inv L w → GetItemByPos (pl w) bag slot = Some p → 0 < SellPrice (GetTemplate (mem (pl w) p)) →
  wp (sell p (GetCount (mem (pl w) p)))
     (λ _ w', ∃ w1 w2, taken L bag slot p w w1 ∧ replaced (p :: L) (buyback_slot w1) (Some p) w1 L w2 ∧ calm w2 w') w.
Proof.
  intros H Hp Hpr. pose proof (position_mine _ _ _ _ _ H Hp) as Hm. pose proof (position_held _ _ _ _ _ H Hp) as Hin.
  pose proof (so_count _ _ (iv_item _ _ H p Hin)) as Hcp. unfold sell. apply wp_item_at; [apply Hm|]. cbv zeta.
  rewrite (proj2 (Z.ltb_ge _ _)) by lia. rewrite (proj2 (Z.ltb_lt _ _) Hpr), Z.ltb_irrefl.
  eapply wp_use with (Q := λ _ w2, ∃ w1, taken L bag slot p w w1 ∧ replaced (p :: L) (buyback_slot w1) (Some p) w1 L w2).
  - assert (calm w w) as Hcalm by done. still Hcalm. pose proof (calm_Inv _ _ _ Hcalm H) as H1.
    assert (GetItemByPos (pl w') bag slot = Some p) as Hp1 by (by rewrite (calm_item_at _ _ _ _ Hcalm)).
    eapply (wp_GetBagSlot L); [exact H1|exact Hp1|]. rewrite (position_slot L w bag slot p H Hp).
    eapply wp_use; [by eapply wp_take|]. cbn beta. intros _ w2 Ht.
    pose proof (loose_mine _ _ _ (tn_inv _ _ _ _ _ _ Ht)) as Hm2. assert (calm w2 w2) as Hc2 by done. still Hc2.
    eapply wp_use; [eapply (wp_AddItemToBuyBackSlot_replaces L); eapply calm_Inv; [exact Hc2|apply Ht]|]. cbn beta. intros _ w3 Hk. apply wp_ret.
    exists w'0. split; [|exact Hk]. eapply taken_then_calm; [|exact Hc2]. destruct Ht as [A B C]. split.
    + etransitivity; [by apply calm_take|exact A].
    + exact B.
    + intros e. rewrite C. symmetry. by apply calm_amount.
  - cbn beta. intros o w2 (w1 & Ht & Hr). apply wp_when; [|intros _; by exists w1, w2]. intros _.
    eapply wp_mono; [apply wp_ModifyMoney_calm|]. cbn beta. intros _ w' Hc. by exists w1, w2.
Qed.
Lemma wp_HandleSellItemOpcode L w itemguid count : Inv L w → 0 ≤ count → wp (HandleSellItemOpcode itemguid count) (λ _, spent L w L) w.
Proof.
  intros H Hc. unfold HandleSellItemOpcode. apply wp_get. case_bool; [apply wp_skip; by apply spent_refl|].
  case_bool; [by apply wp_spent_tell|]. destruct (GetItemByGuid (pl w) itemguid) as [p|] eqn:Hg; [|by apply wp_spent_tell].
  destruct (GetItemByGuid_somewhere HT (pl w) itemguid p (iv_mem _ _ H) Hg) as (bag & slot & Hp). pose proof (position_mine _ _ _ _ _ H Hp) as [Hl _].
  apply wp_item_at; [done|]. apply wp_state_at; [done|]. intros s _ _. repeat (case_bool; [by apply wp_spent_tell|]).
  case_bool; [apply wp_skip; by apply spent_refl|]. pose proof (so_count _ _ (iv_item _ _ H p (position_held _ _ _ _ _ H Hp))) as Hcp.
  case_bool; [eapply wp_sell; [done|exact Hp|lia]|]. case_bool; [by apply wp_spent_tell|]. b2p. eapply wp_sell; [done|exact Hp|lia].
Qed.

(** What the player can use is elsewhere than the buyback slots. *)
Lemma buyback_bag_at w slot o bag :
  BUYBACK_SLOT_START ≤ slot < BUYBACK_SLOT_END → GetBagByPos (pl (own_put slot o w)) bag = GetBagByPos (pl w) bag.
Proof.
  intros Hs. unfold GetBagByPos. destruct (bag_slot bag) eqn:Eb; [|done]. rewrite own_put_lookup. rewrite decide_False; [done|].
  intros ->. clear HT. slots.
Qed.
Lemma buyback_item_at w slot o bag j :
  BUYBACK_SLOT_START ≤ slot < BUYBACK_SLOT_END → GetItemByPos (pl (own_put slot o w)) bag j = GetItemByPos (pl w) bag j.
Proof.
  intros Hs. unfold GetItemByPos. rewrite buyback_bag_at by done. destruct (_ && own_slot j) eqn:E; [|done].
  rewrite own_put_lookup, decide_False; [done|]. intros ->. clear HT. slots.
Qed.
Lemma buyback_dest w slot o p dest :
  BUYBACK_SLOT_START ≤ slot < BUYBACK_SLOT_END → sound_dest (pl w) p dest → sound_dest (pl (own_put slot o w)) p dest.
Proof.
  intros Hs [Ho ? ? ?]. split; [|done..]. eapply Forall_impl; [exact Ho|]. intros pc. apply offers_same; [|done| |done].
  - intros b. symmetry. by apply buyback_bag_at.
  - by apply buyback_item_at.
Qed.

Lemma wp_HandleBuybackItem L w slot : Inv L w → wp (HandleBuybackItem slot) (λ _, kept L w L) w.
Proof.
  intros H. unfold HandleBuybackItem. apply wp_get. case_bool; [by apply wp_kept_tell|].
  unfold GetItemFromBuyBackSlot. destruct (between BUYBACK_SLOT_START slot BUYBACK_SLOT_END) eqn:Eb; [|by apply wp_kept_tell].
  assert (BUYBACK_SLOT_START ≤ slot < BUYBACK_SLOT_END) as Hs by slots.
  destruct (own_ptr w slot) as [p|] eqn:Hp; [|by apply wp_kept_tell].
  pose proof (root_held _ _ _ (own_root L w slot p Hp)) as Hin. apply wp_touch; [by eapply held_mine|]. cbv zeta.
  case_bool; [by apply wp_kept_tell|].
  pose proof (store_answers HT L w p H Hin NULL_BAG NULL_SLOT [] false ltac:(by left) (sound_nil _ _)) as HA.
  set (v := CanStoreItem _ _ _ _ _ _) in *. destruct (is_ok (v_res v)) eqn:Ev; cbn [negb]; [|by apply wp_kept_refuse].
  apply is_ok_true in Ev. destruct (answers_follow L w p _ _ H Hin HA Ev) as (H1 & H2 & H3).
  eapply wp_use; [apply wp_ModifyMoney_calm|]. cbn beta. intros _ w1 Hc1.
  pose proof (calm_Inv _ _ _ Hc1 H) as Hi1. assert (own_ptr w1 slot = Some p) as Hp1 by (unfold own_ptr; by rewrite <- (cm_items _ _ Hc1)).
  eapply wp_use; [by eapply (wp_RemoveItemFromBuyBackSlot_keep L)|]. cbn beta. intros _ w2 Hac.
  pose proof (own_take_kept L w1 slot p Hi1 Hp1) as Hk. pose proof (accounted_kept _ _ _ (kp_inv _ _ _ _ Hk) Hac) as Hk2.
  pose proof (kp_inv _ _ _ _ Hk2) as Hi2.
  assert (sound_dest (pl w2) p (v_dest v)) as Hd2.
  { rewrite (ac_pl _ _ Hac). by apply buyback_dest, (sound_dest_calm w w1). }
  assert (GetCount (mem (pl w2) p) = GetCount (mem (pl w) p)) as Ec.
  { rewrite (ac_pl _ _ Hac). symmetry. apply (cm_mem _ _ Hc1). }
  pose proof (loose_mine _ _ _ Hi2) as Hm2. apply wp_item_at; [apply Hm2|]. assert (calm w2 w2) as Hc2 by done. still Hc2.
  eapply wp_use; [apply (wp_StoreItem HT L); [by eapply calm_Inv|done|by eapply sound_dest_calm]|]. cbn beta. intros o w4 (Hst & _). apply wp_skip.
  eapply calm_kept; [exact Hc1|]. eapply kept_then; [exact Hk|]. eapply kept_then; [eapply kept_calm; [exact Hk2|exact Hc2]|].
  eapply kept_step; [exact Hst|]. intros e. rewrite <- (si_count _ _ (cm_mem _ _ Hc2 p)), H3, Ec, Z.sub_diag. unfold unit_delta. by destruct (_ =? e).
Qed.
End trade.
End MoveTrade.
