(* ===== verification/MoveAgain.v ===== *)
(** * Searching again

    HandleAutoEquipItemOpcode asks CanStoreItem up to three times where a worn item can go
    and passes what the attempts before have written to [dest] on. A search of the whole
    inventory that failed has used up every place, so that the next one places nothing
    and fails as well: nothing is stored twice. *)
From S2P Require Import Prelude StateMonad Items Inventory Storage MoveData MoveOps MoveEquip MoveSwap MoveHandlers MoveCalm MoveInvariant MoveSteps MoveOffers MoveWear MoveSearch MovePlans MoveKeep MoveRequests.

Module MoveAgain.
Export MoveRequests.

Section again.
Context `{IE : ItemEnv}.
Variables (pl : Player) (p : ptr) (t : ItemTemplate).
Hypothesis Hmem : mem_ok pl.

(** A slot that a scan takes up. *)
Definition open_slot (merge : bool) (bag j : Z) : bool :=
  match item_in_way pl bag j (Some p) with
  | Some q => merge && is_ok (CanBeMergedPartlyWith (mem pl q) t)
  | None => negb merge
  end.
Definition used_up (merge : bool) (bag : Z) (slots : list Z) (dest : ItemPosCountVec) : Prop :=
  ∀ j, j ∈ slots → open_slot merge bag j = true → pack bag j ∈ map pos dest.
Definition grown (dest dest' : ItemPosCountVec) : Prop := ∀ x, x ∈ map pos dest → x ∈ map pos dest'.
Lemma used_up_grown merge bag slots dest dest' : used_up merge bag slots dest → grown dest dest' → used_up merge bag slots dest'.
Proof. intros H Hg j Hj Ho. by apply Hg, H. Qed.

Lemma scan_nothing bag slots skip merge dest count :
  Forall in_u8 slots → used_up merge bag slots dest → scan_slots pl bag slots skip merge t (Some p) dest count = (dest, count).
Proof.
  intros Hs. revert dest count. induction Hs as [|j slots Hj Hs IH]; intros dest count Hu; [done|]. cbn [scan_slots].
  assert (used_up merge bag slots dest) as Hu' by (intros k Hk; apply Hu; set_solver).
  case_bool; [by apply IH|]. rewrite (wrap_small 8 j) by done.
  assert (open_slot merge bag j = true → ∀ need, place bag j need dest count = (false, dest, count)) as Hp.
  { intros Ho need. unfold place. rewrite (proj2 (isContainedIn_spec _ _)); [done|]. cbn. apply Hu; [set_solver|done]. }
  unfold open_slot in Hp. destruct (item_in_way pl bag j (Some p)) as [q|]; cbn [negb].
  - rewrite bool_decide_eq_true_2 by done. destruct merge; cbn [Bool.eqb negb andb] in *; [|by apply IH].
    destruct (is_ok _); cbn [negb]; [|by apply IH]. rewrite Hp by done. cbn. by apply IH.
  - rewrite bool_decide_eq_false_2 by (by intros [? ?]). destruct merge; cbn [Bool.eqb negb] in *; [by apply IH|].
    rewrite Hp by done. cbn. by apply IH.
Qed.
Lemma scan_uses_up bag slots skip merge dest count :
  Forall in_u8 slots → (∀ j, j ∈ slots → skip j = false) →
  let '(dest', count') := scan_slots pl bag slots skip merge t (Some p) dest count in
  grown dest dest' ∧ (count' ≠ 0 → used_up merge bag slots dest').
Proof.
  intros Hs Hk. pose proof (scan_grows pl bag slots skip merge t (Some p) dest count) as Hg.
  enough (let '(dest', count') := scan_slots pl bag slots skip merge t (Some p) dest count in count' ≠ 0 → used_up merge bag slots dest') as H.
  { destruct (scan_slots _ _ _ _ _ _ _ _). by split. }
  clear Hg. revert dest count. induction Hs as [|j slots Hj Hs IH]; intros dest count; cbn [scan_slots].
  { intros _ j Hj. by apply not_elem_of_nil in Hj. }
  assert (∀ dest count, (open_slot merge bag j = true → pack bag j ∈ map pos dest) →
    let '(dest', count') := scan_slots pl bag slots skip merge t (Some p) dest count in count' ≠ 0 → used_up merge bag (j :: slots) dest') as Hc.
  { intros d c Hin. pose proof (IH ltac:(intros; apply Hk; set_solver) d c) as H1. pose proof (scan_grows pl bag slots skip merge t (Some p) d c) as H2.
    destruct (scan_slots _ _ _ _ _ _ _ _) as [d' c']. intros Hne k [->|Hkk]%elem_of_cons Ho; [auto|]. by apply H1. }
  rewrite Hk by set_solver. rewrite (wrap_small 8 j) by done.
  assert (∀ need, let '(_, d, _) := place bag j need dest count in pack bag j ∈ map pos d) as Hp.
  { intros need. pose proof (place_grows bag j need dest count) as HG. destruct (place _ _ _ _ _) as [[b d] c]. apply HG. }
  unfold open_slot in Hc. destruct (item_in_way pl bag j (Some p)) as [q|].
  - rewrite bool_decide_eq_true_2 by done. destruct merge; cbn [Bool.eqb negb andb] in *; [|by apply Hc].
    destruct (is_ok _); cbn [negb]; [|by apply Hc]. specialize (Hp (u32 (GetMaxStackSize t - GetCount (mem pl q)))).
    destruct (place _ _ _ _ _) as [[b d] c]. destruct (b && (c =? 0)) eqn:E; [b2p; lia|]. by apply Hc.
  - rewrite bool_decide_eq_false_2 by (by intros [? ?]). destruct merge; cbn [Bool.eqb negb] in *; [by apply Hc|].
    specialize (Hp (GetMaxStackSize t)). destruct (place _ _ _ _ _) as [[b d] c]. destruct (b && (c =? 0)) eqn:E; [b2p; lia|]. by apply Hc.
Qed.

(** *** One attempt *)

(** The bags of a kind, specialized or not. *)
Definition bag_used (merge ns : bool) (i : Z) (dest : ItemPosCountVec) : Prop :=
  ∀ b, GetBagByPos pl i = Some b → b ≠ p → Bool.eqb ns (is_plain_container (GetTemplate (mem pl b))) = true →
  ItemCanGoIntoBag t (GetTemplate (mem pl b)) = true → used_up merge i (bag_slots (mem pl b)) dest.
Lemma bag_used_grown merge ns i dest dest' : bag_used merge ns i dest → grown dest dest' → bag_used merge ns i dest'.
Proof. intros H Hg b Hb Hn Hk Hc. by eapply used_up_grown; [apply H|]. Qed.

Hypothesis Hsrc : src_not_empty_bag pl (Some p) = false.

Lemma bag_slots_u8 b : Forall in_u8 (bag_slots (mem pl b)) ∧ ∀ j, j ∈ bag_slots (mem pl b) → (j =? NULL_SLOT) = false.
Proof.
  pose proof (mo_size _ Hmem b). unfold MAX_BAG_SIZE in *. split.
  - apply Forall_forall. intros j Hj%elem_of_seqZ. unfold in_u. lia.
  - intros j Hj%elem_of_seqZ. unfold NULL_SLOT. lia.
Qed.
Lemma InBag_uses i dest count merge ns skip_bag res d1 c1 :
  i ≠ skip_bag → CanStoreItem_InBag pl i dest t count merge ns (Some p) skip_bag NULL_SLOT = (res, d1, c1) →
  if is_ok res
  then grown dest d1 ∧ (c1 ≠ 0 → bag_used merge ns i d1) ∧ bag_used merge (negb ns) i dest
  else d1 = dest ∧ c1 = count ∧ bag_used merge ns i dest.
Proof.
  intros Hi. unfold CanStoreItem_InBag. rewrite (proj2 (Z.eqb_neq _ _) Hi). destruct (GetBagByPos pl i) as [b|] eqn:Hb.
  2:{ intros [= <- <- <-]. cbn. split_and!; [done|done|]. intros b Hb'. congruence. }
  assert (∀ P : Prop, bag_used merge ns i dest ∨ P → (P → bag_used merge ns i dest) → bag_used merge ns i dest) as Hor by tauto.
  case_bool.
  { intros [= <- <- <-]. cbn. split_and!; [done|done|]. intros x Hx Hn. rewrite Hb in Hx. injection Hx as <-. apply bool_decide_eq_true in E. congruence. }
  rewrite Hsrc. case_bool.
  { intros [= <- <- <-]. cbn. split_and!; [done|done|]. intros x Hx Hn Hk. rewrite Hb in Hx. injection Hx as <-. by rewrite Hk in E0. }
  case_bool.
  { intros [= <- <- <-]. cbn. split_and!; [done|done|]. intros x Hx Hn Hk Hc. rewrite Hb in Hx. injection Hx as <-. by rewrite Hc in E1. }
  pose proof (bag_slots_u8 b) as [Hu Hs]. pose proof (scan_uses_up i (bag_slots (mem pl b)) (λ j, j =? NULL_SLOT) merge dest count Hu Hs) as HS.
  destruct (scan_slots _ _ _ _ _ _ _ _) as [d c]. intros [= <- <- <-]. cbn. destruct HS as [H1 H2]. split_and!; [done| |].
  - intros Hne x Hx Hn Hk Hc. rewrite Hb in Hx. injection Hx as <-. by apply H2.
  - intros x Hx Hn Hk Hc. rewrite Hb in Hx. injection Hx as <-. b2p. apply negb_false_iff in E0. by destruct ns, (is_plain_container _).
Qed.
Lemma InBag_again i dest count merge ns :
  bag_used merge ns i dest →
  ∃ res, CanStoreItem_InBag pl i dest t count merge ns (Some p) NULL_BAG NULL_SLOT = (res, dest, count).
Proof.
  intros Hu. unfold CanStoreItem_InBag. case_bool; [eauto|]. destruct (GetBagByPos pl i) as [b|] eqn:Hb; [|eauto].
  case_bool; [eauto|]. rewrite Hsrc. case_bool; [eauto|]. case_bool; [eauto|].
  rewrite scan_nothing; [eauto|apply bag_slots_u8|]. apply Hu; [done| | |].
  - apply bool_decide_eq_false in E0. congruence.
  - by apply negb_false_iff in E1.
  - by apply negb_false_iff in E2.
Qed.

(** *** The steps of a search *)
Section steps.
Variables (bag n : Z).

Definition idle (step : ItemPosCountVec → Z → flow) (dest : ItemPosCountVec) : Prop := ∀ count, count ≠ 0 → step dest count = Go dest count.
Lemma idle_bind f k dest : idle f dest → idle k dest → idle (λ d c, fbind (f d c) k) dest.
Proof. intros Hf Hk c Hc. rewrite Hf by done. cbn. by apply Hk. Qed.

Lemma settle_on dest count : count ≠ 0 → settle n (EQUIP_ERR_OK, dest, count) = Go dest count.
Proof. intros H. unfold settle. cbn. by rewrite (proj2 (Z.eqb_neq _ _) H). Qed.

Lemma slots_u8 a b : 0 ≤ a → b ≤ PLAYER_SLOT_END → Forall in_u8 (range a b) ∧ ∀ s j, j ∈ range a b → (INVENTORY_SLOT_BAG_0 =? s) && (j =? NULL_SLOT) = false.
Proof.
  unfold PLAYER_SLOT_END. intros Ha Hb. split; [apply range_u8; lia|]. intros s j Hj%elem_of_seqZ. apply andb_false_iff. right. unfold NULL_SLOT. lia.
Qed.
Lemma in_slots_uses a b merge d c d1 c1 :
  0 ≤ a → b ≤ PLAYER_SLOT_END → in_slots pl bag NULL_SLOT t (Some p) n a b merge d c = Go d1 c1 →
  grown d d1 ∧ used_up merge INVENTORY_SLOT_BAG_0 (range a b) d1.
Proof.
  intros Ha Hb. unfold in_slots, CanStoreItem_InInventorySlots. rewrite Hsrc. destruct (slots_u8 a b Ha Hb) as [Hu Hs].
  pose proof (scan_uses_up INVENTORY_SLOT_BAG_0 (range a b) _ merge d c Hu (Hs bag)) as HS.
  destruct (scan_slots _ _ _ _ _ _ _ _) as [d2 c2]. intros [[= -> ->] Hne]%settle_Go. destruct HS. auto.
Qed.
Lemma in_slots_idle a b merge dest :
  0 ≤ a → b ≤ PLAYER_SLOT_END → used_up merge INVENTORY_SLOT_BAG_0 (range a b) dest → idle (in_slots pl NULL_BAG NULL_SLOT t (Some p) n a b merge) dest.
Proof.
  intros Ha Hb Hu c Hc. unfold in_slots, CanStoreItem_InInventorySlots. rewrite Hsrc, scan_nothing; [by apply settle_on| |done].
  by apply slots_u8.
Qed.

Lemma in_bags_uses a b merge ns d c d1 c1 :
  in_bags pl bag NULL_SLOT t (Some p) n a b merge ns d c = Go d1 c1 →
  grown d d1 ∧ ∀ i, i ∈ range a b → i ≠ bag → bag_used merge ns i d1.
Proof.
  unfold in_bags. revert d c. induction (range a b) as [|i l IH]; intros d c; cbn [try_bags].
  { intros [= <- <-]. split; [by intros x|]. intros i Hi. by apply not_elem_of_nil in Hi. }
  intros (d2 & c2 & E1 & E2)%fbind_Go. destruct (IH _ _ E2) as [Hg Hl].
  assert (grown d d2 ∧ (i ≠ bag → bag_used merge ns i d2)) as [Hg2 Hi].
  { destruct (decide (i = bag)) as [->|Hne].
    - unfold CanStoreItem_InBag in E1. rewrite Z.eqb_refl in E1. cbn in E1. injection E1 as <- <-. by split; [intros x|].
    - destruct (CanStoreItem_InBag pl i d t c merge ns (Some p) bag NULL_SLOT) as [[res d3] c3] eqn:ER.
      apply InBag_uses in ER; [|done]. unfold settle_bag in E1. cbn [fst snd] in E1. destruct (is_ok res); cbn [negb] in E1.
      + apply settle_Go in E1 as [[= -> -> ->] Hc]. destruct ER as (? & ? & _). auto.
      + destruct ER as (-> & -> & ?). injection E1 as <- <-. by split; [intros x|]. }
  split; [intros x Hx; by apply Hg, Hg2|]. intros j [->|Hj]%elem_of_cons Hne; [|by apply Hl].
  eapply bag_used_grown; [by apply Hi|done].
Qed.
Lemma in_bags_idle a b merge ns dest :
  (∀ i, i ∈ range a b → bag_used merge ns i dest) → idle (in_bags pl NULL_BAG NULL_SLOT t (Some p) n a b merge ns) dest.
Proof.
  unfold in_bags. intros Hl c Hc. induction (range a b) as [|i l IH]; cbn [try_bags]; [done|].
  destruct (InBag_again i dest c merge ns) as [res ->]; [apply Hl; set_solver|]. unfold settle_bag. cbn [fst snd].
  destruct (is_ok res) eqn:Er; cbn [negb fbind]; [|apply IH; intros; apply Hl; set_solver].
  apply is_ok_true in Er as ->. rewrite settle_on by done. cbn [fbind]. apply IH. intros. apply Hl. set_solver.
Qed.
Lemma in_this_bag_uses merge d c d1 c1 :
  bag ≠ NULL_BAG → in_this_bag pl bag NULL_SLOT t (Some p) n merge d c = Go d1 c1 → grown d d1 ∧ ∀ ns, bag_used merge ns bag d1.
Proof.
  intros Hb. unfold in_this_bag. intros [E Hc]%settle_Go.
  destruct (CanStoreItem_InBag pl bag d t c merge false (Some p) NULL_BAG NULL_SLOT) as [[res d2] c2] eqn:E1.
  apply InBag_uses in E1; [|done]. cbn [fst snd] in E. destruct (is_ok res); cbn [negb] in E.
  - injection E as -> -> ->. destruct E1 as (H1 & H2 & H3). split; [done|]. intros [|]; [|auto]. by eapply bag_used_grown.
  - destruct (CanStoreItem_InBag pl bag d t c merge true (Some p) NULL_BAG NULL_SLOT) as [[res' d3] c3] eqn:E2.
    apply InBag_uses in E2; [|done]. injection E as -> -> ->. cbn in E2. destruct E2 as (H1 & H2 & H3).
    split; [done|]. intros [|]; [auto|]. by eapply bag_used_grown.
Qed.
End steps.

(** The bag of the place is searched on its own. *)
Definition seen (bag : Z) (merge : bool) (a b : Z) (dest : ItemPosCountVec) : Prop := bag ∈ range a b → ∀ ns, bag_used merge ns bag dest.
Lemma seen_all bag merge ns a b dest :
  seen bag merge a b dest → (∀ i, i ∈ range a b → i ≠ bag → bag_used merge ns i dest) → ∀ i, i ∈ range a b → bag_used merge ns i dest.
Proof. intros Hs Hi i Hr. destruct (decide (i = bag)) as [->|]; [by apply Hs|by apply Hi]. Qed.
Lemma seen_grown bag m a b d d' : grown d d' → seen bag m a b d → seen bag m a b d'.
Proof. intros Hg Hs Hr ns. eapply bag_used_grown; [by apply Hs|done]. Qed.

Ltac backwards :=
  repeat match goal with
  | H : fbind _ _ = Go _ _ |- _ => apply fbind_Go in H as (? & ? & ? & H); cbv beta in H
  | H : Go _ _ = Go _ _ |- _ => injection H as <- <-
  | H : (if ?b then _ else _) = Go _ _ |- _ => destruct b eqn:?
  | H : in_slots _ _ _ _ _ _ _ _ _ _ _ = Go _ _ |- _ => apply in_slots_uses in H as [? ?]; [|done|done]
  | H : in_bags _ _ _ _ _ _ _ _ _ _ _ _ = Go _ _ |- _ => apply in_bags_uses in H as [? ?]
  | H : in_this_bag _ _ _ _ _ _ _ _ _ = Go _ _ |- _ => apply in_this_bag_uses in H as [? ?]; [|by b2p]
  | H : Return _ = Go _ _ |- _ => discriminate H
  end.
Ltac chain := let x := fresh in let Hx := fresh in intros x Hx; unfold grown in *; eauto 12 using in_or_app.

Ltac used := eapply used_up_grown; [eassumption|chain].
Ltac bags_used := eapply seen_all; [eassumption|]; let i := fresh in let Hi := fresh in let Hn := fresh in intros i Hi Hn; eapply bag_used_grown; [eauto|chain].
Ltac still_idle :=
  repeat match goal with
  | |- idle (λ _ _, fbind _ _) _ => apply idle_bind
  | |- idle Go _ => done
  | |- idle (λ _ _, Go _ _) _ => done
  | |- idle (λ _ _, if ?b then _ else _) _ => destruct b
  | |- idle (in_slots _ _ _ _ _ _ _ _ _) _ => apply in_slots_idle; [done|done|used]
  | |- idle (λ d c, in_slots _ _ _ _ _ _ _ _ _ d c) _ => apply in_slots_idle; [done|done|used]
  | |- idle (in_bags _ _ _ _ _ _ _ _ _ _) _ => apply in_bags_idle; bags_used
  | |- idle (λ d c, in_bags _ _ _ _ _ _ _ _ _ _ d c) _ => apply in_bags_idle; bags_used
  end.

(** *** The searches *)
Section searches.
Variables (bag n : Z) (swap : bool).

Lemma specific_bag_seen d c d1 c1 :
  store_specific_bag pl bag NULL_SLOT t (Some p) n d c = Go d1 c1 →
  grown d d1 ∧ seen bag false INVENTORY_SLOT_BAG_START INVENTORY_SLOT_BAG_END d1 ∧
  (negb (Stackable t =? 1) = true → seen bag true INVENTORY_SLOT_BAG_START INVENTORY_SLOT_BAG_END d1).
Proof.
  intros H. unfold store_specific_bag in H. destruct (negb (bag =? NULL_BAG)) eqn:Eb.
  2:{ injection H as <- <-. apply negb_false_iff, Z.eqb_eq in Eb. split; [by intros x|]. unfold seen. rewrite Eb. by split; [intros Hr%elem_of_seqZ|intros _ Hr%elem_of_seqZ]. }
  unfold store_bag_merge, store_bag_free in H. destruct (bag =? INVENTORY_SLOT_BAG_0) eqn:E0.
  { apply Z.eqb_eq in E0. split; [backwards; chain|]. unfold seen. rewrite E0. by split; [intros Hr%elem_of_seqZ|intros _ Hr%elem_of_seqZ]. }
  backwards; (split; [chain|]); split; try done.
  - intros _ ns. auto.
  - intros _ _ ns. by eapply bag_used_grown.
  - intros _ ns. auto.
Qed.

Lemma store_merge_grows d c d1 c1 : store_merge pl bag NULL_SLOT t (Some p) n d c = Go d1 c1 → grown d d1.
Proof. intros H. unfold store_merge in H. destruct (negb (Stackable t =? 1)), (has_family t); backwards; chain. Qed.
Lemma store_special_grows d c d1 c1 : store_special pl bag NULL_SLOT t (Some p) n d c = Go d1 c1 → grown d d1.
Proof. intros H. unfold store_special in H. destruct (has_family t), (is_key t), (IsCurrencyToken t); backwards; chain. Qed.
Lemma store_merge_again d c d1 c1 dest :
  store_merge pl bag NULL_SLOT t (Some p) n d c = Go d1 c1 → grown d1 dest →
  (negb (Stackable t =? 1) = true → seen bag true INVENTORY_SLOT_BAG_START INVENTORY_SLOT_BAG_END dest) →
  idle (store_merge pl NULL_BAG NULL_SLOT t (Some p) n) dest.
Proof.
  intros H Hg Hs. unfold store_merge in *. destruct (negb (Stackable t =? 1)); [|done].
  specialize (Hs eq_refl). destruct (has_family t); backwards; still_idle.
Qed.
Lemma store_special_again d c d1 c1 dest :
  store_special pl bag NULL_SLOT t (Some p) n d c = Go d1 c1 → grown d1 dest → seen bag false INVENTORY_SLOT_BAG_START INVENTORY_SLOT_BAG_END dest →
  idle (store_special pl NULL_BAG NULL_SLOT t (Some p) n) dest.
Proof.
  intros H Hg Hs. unfold store_special in *. destruct (has_family t); [|done].
  destruct (is_key t); [|destruct (IsCurrencyToken t)]; backwards; still_idle.
Qed.
Lemma store_free_again d c d1 c1 :
  store_free pl bag NULL_SLOT t (Some p) n d c = Go d1 c1 →
  grown d d1 ∧ (seen bag false INVENTORY_SLOT_BAG_START INVENTORY_SLOT_BAG_END d1 → idle (store_free pl NULL_BAG NULL_SLOT t (Some p) n) d1).
Proof.
  intros H. unfold store_free in *. rewrite Hsrc in *. backwards. split; [chain|]. intros Hs. still_idle.
Qed.

Lemma store_again d c d1 c1 :
  store_search pl bag NULL_SLOT t (Some p) swap n d c = Go d1 c1 →
  idle (store_search pl NULL_BAG NULL_SLOT t (Some p) swap n) d1.
Proof.
  intros H. unfold store_search, store_specific_slot in H. rewrite andb_false_r in H. cbn [fbind] in H.
  apply fbind_Go in H as (d2 & c2 & E1 & H). apply specific_bag_seen in E1 as (_ & S1 & S2).
  apply fbind_Go in H as (d3 & c3 & E2 & H). apply fbind_Go in H as (d4 & c4 & E3 & H).
  pose proof (store_merge_grows _ _ _ _ E2) as G2. pose proof (store_special_grows _ _ _ _ E3) as G3.
  apply store_free_again in H as [G4 Hf].
  assert (grown d3 d1) as G31 by chain. assert (grown d2 d1) as G21 by chain.
  apply (seen_grown _ _ _ _ _ _ G21) in S1 as S1'.
  unfold store_search, store_specific_slot, store_specific_bag. rewrite Z.eqb_refl. cbn [negb andb].
  intros c' Hc'. cbn [fbind]. rewrite (store_merge_again _ _ _ _ d1 E2 G31); [|intros Est; eapply seen_grown; [exact G21|by apply S2]|done]. cbn [fbind].
  rewrite (store_special_again _ _ _ _ d1 E3 G4) by done. cbn [fbind]. by apply Hf.
Qed.

End searches.

Section bank.
Hypothesis Et : t = GetTemplate (mem pl p).
Variables (bag : Z) (swap not_loading : bool).
Lemma bank_specific_seen d c d1 c1 :
  bank_specific_bag pl bag NULL_SLOT p d c = Go d1 c1 →
  seen bag false BANK_SLOT_BAG_START BANK_SLOT_BAG_END d1 ∧
  (negb (Stackable t =? 1) = true → seen bag true BANK_SLOT_BAG_START BANK_SLOT_BAG_END d1).
Proof.
  intros H. unfold bank_specific_bag in H. rewrite <- Et in H. destruct (negb (bag =? NULL_BAG)) eqn:Eb.
  2:{ injection H as <- <-. apply negb_false_iff, Z.eqb_eq in Eb. unfold seen. rewrite Eb. by split; [intros Hr%elem_of_seqZ|intros _ Hr%elem_of_seqZ]. }
  change (IsNotEmptyBag (mem pl p)) with (src_not_empty_bag pl (Some p)) in H. rewrite Hsrc in H. cbv zeta in H.
  destruct (bag =? INVENTORY_SLOT_BAG_0) eqn:E0.
  { apply Z.eqb_eq in E0. unfold seen. rewrite E0. by split; [intros Hr%elem_of_seqZ|intros _ Hr%elem_of_seqZ]. }
  backwards; split; try done.
  - intros _ ns. auto.
  - intros _ _ ns. by eapply bag_used_grown.
  - intros _ ns. auto.
Qed.
Lemma bank_merge_grows d c d1 c1 : bank_merge pl bag NULL_SLOT p d c = Go d1 c1 → grown d d1.
Proof.
  intros H. unfold bank_merge in H. rewrite <- Et in H. destruct (negb (Stackable t =? 1)), (has_family t); backwards; chain.
Qed.
Lemma bank_merge_again d c d1 c1 dest :
  bank_merge pl bag NULL_SLOT p d c = Go d1 c1 → grown d1 dest →
  (negb (Stackable t =? 1) = true → seen bag true BANK_SLOT_BAG_START BANK_SLOT_BAG_END dest) →
  idle (bank_merge pl NULL_BAG NULL_SLOT p) dest.
Proof.
  intros H Hg Hs. unfold bank_merge in *. rewrite <- Et in *. destruct (negb (Stackable t =? 1)); [|done].
  specialize (Hs eq_refl). destruct (has_family t); backwards; still_idle.
Qed.
Lemma bank_free_again d c d1 c1 :
  bank_free pl bag NULL_SLOT p d c = Go d1 c1 →
  grown d d1 ∧ (seen bag false BANK_SLOT_BAG_START BANK_SLOT_BAG_END d1 → idle (bank_free pl NULL_BAG NULL_SLOT p) d1).
Proof.
  intros H. unfold bank_free in *. rewrite <- Et in *. destruct (has_family t); backwards; (split; [chain|]); intros Hs; still_idle.
Qed.
Lemma bank_again d c d1 c1 :
  bank_search pl bag NULL_SLOT p swap not_loading d c = Go d1 c1 → idle (bank_search pl NULL_BAG NULL_SLOT p swap not_loading) d1.
Proof.
  intros H. unfold bank_search, bank_specific_slot in H. rewrite andb_false_r in H. cbn [fbind] in H.
  apply fbind_Go in H as (d2 & c2 & E1 & H). apply bank_specific_seen in E1 as (S1 & S2).
  apply fbind_Go in H as (d3 & c3 & E2 & H). pose proof (bank_merge_grows _ _ _ _ E2) as G2.
  apply bank_free_again in H as [G3 Hf]. assert (grown d2 d1) as G21 by chain.
  apply (seen_grown _ _ _ _ _ _ G21) in S1 as S1'.
  unfold bank_search, bank_specific_slot, bank_specific_bag. rewrite Z.eqb_refl. cbn [negb andb].
  intros c' Hc'. cbn [fbind]. rewrite (bank_merge_again _ _ _ _ d1 E2 G3); [|intros Est; eapply seen_grown; [exact G21|by apply S2]|done].
  cbn [fbind]. by apply Hf.
Qed.
End bank.

(** *** How a search ends

    With nothing refused, a search that names no slot finds all the places or goes on to
    the end, but for a bag that does not take the item: that fails before anything is
    placed. *)
Section ends.
Variables (bag : Z).

Definition finishes (f : flow) : Prop := match f with Return v => v_res v = EQUIP_ERR_OK | Go _ _ => True end.
Definition all_or_none (d : ItemPosCountVec) (f : flow) : Prop :=
  match f with Return v => v_res v = EQUIP_ERR_OK ∨ v_dest v = d | Go _ _ => True end.
Lemma finishes_bind f k : finishes f → (∀ d c, finishes (k d c)) → finishes (fbind f k).
Proof. destruct f as [v|d c]; [by intros H _|]. intros _ H. apply H. Qed.
Lemma all_or_none_bind d f k : all_or_none d f → (∀ d' c, f = Go d' c → finishes (k d' c)) → all_or_none d (fbind f k).
Proof. destruct f as [v|d1 c]; [by intros H _|]. intros _ H. specialize (H d1 c eq_refl). cbn. unfold all_or_none. destruct (k d1 c); [by left|done]. Qed.
Lemma finishes_settle d c : finishes (settle 0 (EQUIP_ERR_OK, d, c)).
Proof. unfold settle. cbn. by destruct (c =? 0). Qed.

Lemma in_slots_finishes a b merge d c : finishes (in_slots pl bag NULL_SLOT t (Some p) 0 a b merge d c).
Proof.
  unfold in_slots, CanStoreItem_InInventorySlots. rewrite Hsrc. destruct (scan_slots _ _ _ _ _ _ _ _). apply finishes_settle.
Qed.
Lemma in_bags_finishes a b merge ns d c : finishes (in_bags pl bag NULL_SLOT t (Some p) 0 a b merge ns d c).
Proof.
  unfold in_bags. revert d c. induction (range a b) as [|i l IH]; intros d c; cbn [try_bags]; [done|]. apply finishes_bind; [|by intros].
  destruct (CanStoreItem_InBag _ _ _ _ _ _ _ _ _ _) as [[res d'] c']. unfold settle_bag. cbn.
  destruct (is_ok res) eqn:E; [|done]. apply is_ok_true in E as ->. apply finishes_settle.
Qed.

(** Whether a bag takes the item, wherever in it. *)
Definition takes (i : Z) (ns : bool) : bool :=
  match GetBagByPos pl i with
  | None => false
  | Some b => negb (bool_decide (Some b = Some p)) && Bool.eqb ns (is_plain_container (GetTemplate (mem pl b))) && ItemCanGoIntoBag t (GetTemplate (mem pl b))
  end.
Lemma InBag_takes i d c merge ns :
  i ≠ NULL_BAG →
  ∃ d' c' res, CanStoreItem_InBag pl i d t c merge ns (Some p) NULL_BAG NULL_SLOT = (res, d', c') ∧ is_ok res = takes i ns ∧ (is_ok res = false → d' = d).
Proof.
  intros Hi. unfold CanStoreItem_InBag, takes. rewrite (proj2 (Z.eqb_neq _ _) Hi), Hsrc. destruct (GetBagByPos pl i) as [b|]; [|by eexists _, _, _].
  case_bool; [by eexists _, _, _|]. destruct (Bool.eqb _ _); cbn [negb andb]; [|by eexists _, _, _].
  destruct (ItemCanGoIntoBag _ _); cbn [negb andb]; [|by eexists _, _, _].
  destruct (scan_slots _ _ _ _ _ _ _ _) as [d' c']. by eexists _, _, _.
Qed.
Lemma in_this_bag_ends merge d c :
  bag ≠ NULL_BAG →
  all_or_none d (in_this_bag pl bag NULL_SLOT t (Some p) 0 merge d c) ∧
  (takes bag false || takes bag true = true → finishes (in_this_bag pl bag NULL_SLOT t (Some p) 0 merge d c)) ∧
  (takes bag false || takes bag true = false → ∀ d' c', in_this_bag pl bag NULL_SLOT t (Some p) 0 merge d c ≠ Go d' c').
Proof.
  intros Hb. unfold in_this_bag.
  destruct (InBag_takes bag d c merge false Hb) as (d1 & c1 & r1 & -> & E1 & F1). destruct (InBag_takes bag d c merge true Hb) as (d2 & c2 & r2 & -> & E2 & F2).
  cbn [fst snd]. rewrite <- E1, <- E2. destruct (is_ok r1) eqn:O1; cbn [negb orb].
  - apply is_ok_true in O1 as ->. pose proof (finishes_settle d1 c1). split_and!; [|done|done]. unfold all_or_none. destruct (settle _ _); [by left|done].
  - destruct (is_ok r2) eqn:O2.
    + apply is_ok_true in O2 as ->. pose proof (finishes_settle d2 c2). split_and!; [|done|done]. unfold all_or_none. destruct (settle _ _); [by left|done].
    + rewrite (F2 eq_refl). unfold settle. rewrite O2. cbn. split_and!; [by right|done|done].
Qed.
End ends.

Lemma store_ends bag swap d c : all_or_none d (store_search pl bag NULL_SLOT t (Some p) swap 0 d c).
Proof.
  unfold store_search, store_specific_slot. rewrite andb_false_r. cbn [fbind]. apply all_or_none_bind.
  - unfold store_specific_bag. destruct (Z.eqb_spec bag NULL_BAG) as [|Hn]; [done|]. cbn [negb]. unfold store_bag_merge, store_bag_free.
    assert (∀ f, finishes f → all_or_none d f) as HF by (intros [v|? ?]; [by left|done]).
    destruct (bag =? INVENTORY_SLOT_BAG_0).
    + apply HF. repeat first [apply in_slots_finishes|apply finishes_bind|intros ? ?|case_bool|done].
    + destruct (in_this_bag_ends bag true d c Hn) as (H1 & _ & H3). destruct (negb (Stackable t =? 1)).
      * apply all_or_none_bind; [done|]. intros d' c' E. apply in_this_bag_ends; [done|].
        destruct (takes bag false || takes bag true); [done|]. by destruct (H3 eq_refl d' c').
      * cbn [fbind]. by apply in_this_bag_ends.
  - intros d' c' _. unfold store_merge, store_special, store_free. rewrite Hsrc.
    repeat first [apply in_slots_finishes|apply in_bags_finishes|apply finishes_bind|intros ? ?|case_bool|done].
Qed.
Lemma bank_ends bag swap not_loading d c : t = GetTemplate (mem pl p) → all_or_none d (bank_search pl bag NULL_SLOT p swap not_loading d c).
Proof.
  intros Et. unfold bank_search, bank_specific_slot. rewrite andb_false_r. cbn [fbind]. apply all_or_none_bind.
  - unfold bank_specific_bag. rewrite <- Et. destruct (Z.eqb_spec bag NULL_BAG) as [|Hn]; [done|]. cbn [negb].
    change (IsNotEmptyBag (mem pl p)) with (src_not_empty_bag pl (Some p)). rewrite Hsrc. cbv zeta.
    assert (∀ f, finishes f → all_or_none d f) as HF by (intros [v|? ?]; [by left|done]).
    destruct (bag =? INVENTORY_SLOT_BAG_0).
    + apply HF. repeat first [apply in_slots_finishes|apply finishes_bind|intros ? ?|case_bool|done].
    + destruct (in_this_bag_ends bag true d c Hn) as (H1 & _ & H3). destruct (negb (Stackable t =? 1)).
      * apply all_or_none_bind; [done|]. intros d' c' E. apply in_this_bag_ends; [done|].
        destruct (takes bag false || takes bag true); [done|]. by destruct (H3 eq_refl d' c').
      * cbn [fbind]. by apply in_this_bag_ends.
  - intros d' c' _. unfold bank_merge, bank_free. rewrite <- Et.
    repeat first [apply in_slots_finishes|apply in_bags_finishes|apply finishes_bind|intros ? ?|case_bool|done].
Qed.

(** *** A second attempt, and a third *)

Lemma store_refused bag slot d swap :
  item_templates !! GetEntry (mem pl p) = Some (GetTemplate (mem pl p)) → v_res (CanStoreItem pl bag slot d (Some p) swap) = EQUIP_ERR_OK → refused pl p = 0.
Proof.
  intros Ht. unfold CanStoreItem, CanStoreItem_entry, refused. rewrite Ht. do 2 (case_bool; [done|]).
  destruct (CanTakeMoreSimilarItems pl _ _ (Some p)) as [[res written] cat]. cbv zeta. cbn [fst snd].
  destruct (negb (is_ok res) && _) eqn:E1; [cbn [v_res]; intros ->; discriminate E1|].
  match goal with |- context [store_search ?a1 ?a2 ?a3 ?a4 ?a5 ?a6 ?a7 ?a8 ?a9] => pose proof (honest_store_search a1 p a2 a3 a6 a7 a8 a9) as Hh; destruct (store_search a1 a2 a3 a4 a5 a6 a7 a8 a9) end; [exact Hh|done].
Qed.
Lemma store_retry bag swap d :
  t = GetTemplate (mem pl p) → item_templates !! GetEntry (mem pl p) = Some t → refused pl p = 0 → 1 ≤ GetCount (mem pl p) < 2 ^ 32 →
  let v := CanStoreItem pl bag NULL_SLOT d (Some p) swap in
  v_res v ≠ EQUIP_ERR_OK → v_dest v = d ∨ v_res (CanStoreItem pl NULL_BAG NULL_SLOT (v_dest v) (Some p) swap) ≠ EQUIP_ERR_OK.
Proof.
  intros Et Ht Hr Hc. cbv zeta. unfold CanStoreItem, CanStoreItem_entry, refused in *. rewrite Ht. do 2 (case_bool; [by left|]).
  destruct (CanTakeMoreSimilarItems pl _ _ (Some p)) as [[res written] cat]. cbn [fst snd] in Hr. cbv zeta. rewrite Hr.
  destruct (negb (is_ok res) && _) eqn:E1; [by left|].
  set (c := if negb (is_ok res) then _ else _).
  assert (c ≠ 0) as Hc0 by (unfold c; rewrite Z.sub_0_r, wrap_small by (unfold in_u; lia); destruct (negb _); lia).
  pose proof (store_ends bag swap d c) as HE. pose proof (store_again bag 0 swap d c) as HA.
  destruct (store_search pl bag NULL_SLOT t (Some p) swap 0 d c) as [v|d1 c1].
  - intros Hn. left. by destruct HE.
  - intros _. right. cbn [v_dest]. by rewrite (HA _ _ eq_refl).
Qed.
Lemma bank_refused bag slot d swap not_loading :
  item_templates !! GetEntry (mem pl p) = Some (GetTemplate (mem pl p)) → (CanBankItem pl bag slot d (Some p) swap not_loading).1 = EQUIP_ERR_OK → refused pl p = 0.
Proof.
  intros Ht. unfold CanBankItem. do 3 (case_bool; [done|]). pose proof (CanTakeMore_ok pl p Ht) as HT.
  destruct (CanTakeMoreSimilarItems pl _ _ (Some p)) as [[res written] cat]. case_bool; [cbn [fst]; intros ->; discriminate E2|].
  intros _. apply HT. apply negb_false_iff in E2. by apply is_ok_true.
Qed.
Lemma bank_retry bag swap not_loading d :
  t = GetTemplate (mem pl p) → 1 ≤ GetCount (mem pl p) →
  let r := CanBankItem pl bag NULL_SLOT d (Some p) swap not_loading in
  r.1 ≠ EQUIP_ERR_OK → r.2 = d ∨ (CanBankItem pl NULL_BAG NULL_SLOT r.2 (Some p) swap not_loading).1 ≠ EQUIP_ERR_OK.
Proof.
  intros Et Hc. cbv zeta. unfold CanBankItem. do 3 (case_bool; [by left|]).
  destruct (CanTakeMoreSimilarItems pl _ _ (Some p)) as [[res written] cat]. case_bool; [by left|].
  pose proof (bank_ends bag swap not_loading d (GetCount (mem pl p)) Et) as HE. pose proof (bank_again Et bag swap not_loading d (GetCount (mem pl p))) as HA.
  destruct (bank_search pl bag NULL_SLOT p swap not_loading d _) as [v|d1 c1].
  - intros Hn. left. by destruct HE.
  - intros _. right. cbn [fst snd]. rewrite (HA _ _ eq_refl) by lia. done.
Qed.
End again.

(** ** A place for what was worn *)
Section equip.
Context `{IE : ItemEnv} `{ME : MoveEnv}.
Context (HT : templates_ok).

Lemma empty_no_obstacle pl p : m_bagslot (mem pl p) = ∅ → src_not_empty_bag pl (Some p) = false.
Proof.
  intros E. cbn. unfold IsNotEmptyBag, Bag_IsEmpty. rewrite E. destruct (IsBag _); [|done]. cbn. apply negb_false_iff, forallb_forall.
  intros j _. by rewrite lookup_empty.
Qed.

(** The whole stack has one place in exchange, or places that are free. *)
Definition placed (w : Mover) (q : ptr) (position : Z) (r : route) : Prop :=
  straight w q position r ∨ (is_worn r = false ∧ followable w q r ∧ routed w q r = GetCount (mem (pl w) q)).

Section place_for.
Variables (L : list ptr) (w : Mover) (q : ptr) (position : Z).
Hypothesis H : Inv L w.
Hypothesis Hq : q ∈ held L w.
Hypothesis Hu : in_u16 position.
Hypothesis He : m_bagslot (mem (pl w) q) = ∅.
Hypothesis Hns : pos_slot position ≠ NULL_SLOT.
Hypothesis Hnb : pos_bag position ≠ NULL_BAG.
Hypothesis Hb : GetBagByPos (pl w) (pos_bag position) ≠ Some q.

Lemma plan_placed r : plan w position q true = (EQUIP_ERR_OK, r) → r ≠ Nowhere → placed w q position r.
Proof. intros Hr Hn. left. by destruct (plan_straight HT L w q position true r H Hq Hu Hns Hnb ltac:(done) Hb Hr). Qed.
Lemma place_for_inventory r :
  IsInventoryPos16 position = true → place_for w position q = (EQUIP_ERR_OK, r) → placed w q position r.
Proof.
  intros Ei. pose proof (empty_no_obstacle _ _ He) as Hsrc. pose proof (so_template _ _ (iv_item _ _ H q Hq)) as Ht.
  pose proof (so_count _ _ (iv_item _ _ H q Hq)) as Hc. pose proof (stack_range HT _ _ (iv_item _ _ H q Hq)) as Hmax.
  unfold place_for. rewrite Ei. cbv zeta. set (v1 := CanStoreItem (pl w) (pos_bag position) (pos_slot position) [] (Some q) true).
  destruct (is_ok (v_res v1)) eqn:E1.
  { rewrite ?E1. intros [= Hv <-]. apply plan_placed; [|done]. unfold plan. rewrite Ei. fold v1. by rewrite Hv. }
  set (v2 := CanStoreItem (pl w) (pos_bag position) NULL_SLOT (v_dest v1) (Some q) true).
  set (v3 := CanStoreItem (pl w) NULL_BAG NULL_SLOT (v_dest v2) (Some q) true).
  intros Ev. assert (refused (pl w) q = 0) as Hr.
  { destruct (is_ok (v_res v2)) eqn:E2; injection Ev as Hv _; by eapply store_refused. }
  assert (v_dest v1 = []) as Ed.
  { destruct (ask_inventory w q position Ei Hb) as [|Ha]; [done|].
    apply (store_exchanged HT L w q H Hq _ _ Ha Hnb Hns); [by apply is_ok_false|done]. }
  assert (∀ bag slot, bag = NULL_BAG ∨ slot = NULL_SLOT →
            v_res (CanStoreItem (pl w) bag slot [] (Some q) true) = EQUIP_ERR_OK → placed w q position (Stored (v_dest (CanStoreItem (pl w) bag slot [] (Some q) true)))) as HP.
  { intros bag slot Hbs Hok. right. split; [done|].
    destruct (answers_follow L w q _ _ H Hq (store_answers HT L w q H Hq bag slot [] true ltac:(destruct Hbs; [by left|by right; left]) (sound_nil _ _)) Hok) as (? & ? & ?).
    by split. }
  unfold v3, v2 in *. clear v2 v3. rewrite Ed in Ev.
  pose proof (store_retry (pl w) q _ (iv_mem _ _ H) Hsrc (pos_bag position) true [] eq_refl Ht Hr ltac:(lia)) as HA. cbv zeta in HA.
  set (v2 := CanStoreItem (pl w) (pos_bag position) NULL_SLOT [] (Some q) true) in *.
  destruct (is_ok (v_res v2)) eqn:E2; injection Ev as Hv <-; [by apply HP; [right|]|].
  apply is_ok_false in E2. destruct (HA E2) as [E|E]; [|done]. rewrite E in *. by apply HP; [left|].
Qed.
Lemma place_for_bank r :
  IsInventoryPos16 position = false → IsBankPos16 position = true → place_for w position q = (EQUIP_ERR_OK, r) → placed w q position r.
Proof.
  intros Ei Ek. pose proof (empty_no_obstacle _ _ He) as Hsrc. pose proof (so_template _ _ (iv_item _ _ H q Hq)) as Ht.
  pose proof (so_count _ _ (iv_item _ _ H q Hq)) as Hc. pose proof (stack_range HT _ _ (iv_item _ _ H q Hq)) as Hmax.
  unfold place_for. rewrite Ei, Ek. cbv zeta. destruct (CanBankItem (pl w) (pos_bag position) (pos_slot position) [] (Some q) true true) as [r1 d1] eqn:EB.
  cbn [fst snd]. destruct (is_ok r1) eqn:E1.
  { cbn [fst snd]. rewrite E1. intros [= -> <-]. apply plan_placed; [|done]. unfold plan. by rewrite Ei, Ek, EB. }
  set (r2 := CanBankItem (pl w) (pos_bag position) NULL_SLOT d1 (Some q) true true).
  set (r3 := CanBankItem (pl w) NULL_BAG NULL_SLOT r2.2 (Some q) true true).
  intros Ev. assert (refused (pl w) q = 0) as Hr.
  { destruct (is_ok r2.1) eqn:E2; injection Ev as Hv _; by eapply bank_refused. }
  assert (d1 = []) as Ed.
  { apply is_ok_false in E1. destruct (ask_bank w q position Ek Hb) as [Ha|(E2 & E3 & E4)].
    - destruct (bank_exchanged HT L w q H Hq _ _ true Ha Hnb Hns) as [_ HE]. rewrite EB in HE. by apply HE.
    - destruct (bank_no_bag (pl w) q _ _ [] true true E2 E3 E4) as [_ HE]. by rewrite EB in HE. }
  assert (∀ bag slot, bag = NULL_BAG ∨ slot = NULL_SLOT →
            (CanBankItem (pl w) bag slot [] (Some q) true true).1 = EQUIP_ERR_OK → placed w q position (Banked (CanBankItem (pl w) bag slot [] (Some q) true true).2)) as HP.
  { intros bag slot Hbs Hok. right. split; [done|].
    destruct (answers_follow L w q _ _ H Hq (bank_answers HT L w q H Hq bag slot [] true true ltac:(destruct Hbs; [by left|by right; left]) (sound_nil _ _)) Hok) as (? & ? & ?).
    by split. }
  unfold r3, r2 in *. clear r2 r3. rewrite Ed in Ev.
  pose proof (bank_retry (pl w) q _ (iv_mem _ _ H) Hsrc (pos_bag position) true true [] eq_refl ltac:(lia)) as HA. cbv zeta in HA.
  set (r2 := CanBankItem (pl w) (pos_bag position) NULL_SLOT [] (Some q) true true) in *.
  destruct (is_ok r2.1) eqn:E2; injection Ev as Hv <-; [by apply HP; [right|]|].
  apply is_ok_false in E2. destruct (HA E2) as [E|E]; [|done]. rewrite E in *. by apply HP; [left|].
Qed.
Lemma place_for_placed x r :
  GetItemByPos (pl w) (pos_bag position) (pos_slot position) = Some x → place_for w position q = (EQUIP_ERR_OK, r) → placed w q position r.
Proof.
  intros Hx. destruct (IsInventoryPos16 position) eqn:Ei; [by apply place_for_inventory|].
  destruct (IsBankPos16 position) eqn:Ek; [by apply place_for_bank|]. unfold place_for. rewrite Ei, Ek.
  destruct (IsEquipmentPos16 position) eqn:Ee.
  - destruct (CanEquipItem w (pos_slot position) q true true) as [msg dest] eqn:Ec. destruct (is_ok msg) eqn:Em.
    + apply is_ok_true in Em as ->. intros [= _ <-]. apply plan_placed; [|done]. unfold plan. by rewrite Ei, Ek, Ee, Ec.
    + intros [= -> _]. done.
  - intros _. exfalso. eapply (plan_somewhere w position q x true EQUIP_ERR_OK Nowhere); [apply H| |exact Hx| |done].
    + intros s y Hy. by destruct (iv_own _ _ H _ _ Hy).
    + unfold plan. by rewrite Ei, Ek, Ee.
Qed.
End place_for.

(** ** HandleAutoEquipItemOpcode *)

Lemma wp_worn {B} x p (k : MW B) Q w : wp (follow (Worn x) p ≫= λ _, k) Q w → wp (EquipItem x p ≫= λ _, k) Q w.
Proof. cbn [follow]. unfold wp, mbind, ST_bind. by destruct (EquipItem x p w) as [[o w1]| | | |]. Qed.

Lemma wp_move_worn {A B} x p (k : MW A) (f : MW B) Q w :
  wp (_ ← k; _ ← follow (Worn x) p; f) Q w → wp (_ ← k; _ ← EquipItem x p; f) Q w.
Proof. cbn [follow]. unfold wp, mbind, ST_bind. destruct (k w) as [[a w1]| | | |]; try done. cbn. by destruct (EquipItem x p w1) as [[o w2]| | | |]. Qed.
(** Four steps, and what comes after them. *)
Lemma wp_afterwards {A B C D E} (k1 : MW A) (k2 : MW B) (k3 : MW C) (k4 : MW D) (f : MW E) Q Q' w :
  wp (_ ← k1; _ ← k2; _ ← k3; k4) Q w → (∀ d w', Q d w' → wp f Q' w') → wp (_ ← k1; _ ← k2; _ ← k3; _ ← k4; f) Q' w.
Proof.
  intros H HQ. unfold wp, mbind, ST_bind in *. destruct (k1 w) as [[a w1]| | | |]; try done. cbn in *.
  destruct (k2 w1) as [[b w2]| | | |]; try done. cbn in *. destruct (k3 w2) as [[c w3]| | | |]; try done. cbn in *.
  destruct (k4 w3) as [[d w4]| | | |]; try done. by apply HQ in H.
Qed.

(** Another item than [q] goes out, and in. *)
Lemma stored_taken_other L w bag slot a w' q r :
  Inv L w → GetItemByPos (pl w) bag slot = Some a → taken L bag slot a w w' → IsBag (mem (pl w) a) = false → is_worn r = false →
  followable w q r → followable w' q r.
Proof.
  intros H Ha Ht Hna Hr. assert (∀ dest, sound_dest (pl w) q dest → sound_dest (pl w') q dest) as HS.
  { intros dest [Ho ? ? ?]. split; [|done..]. eapply Forall_impl; [exact Ho|]. intros pc Hpc. eapply offers_calm; [apply Ht|].
    apply (offers_take_other L); [done..| |done]. intros b Hb ->. apply GetBagByPos_spec in Hb as (_ & _ & Hb). congruence. }
  destruct r as [dest|dest|x|]; cbn; [| |done..]; intros []; split; auto.
Qed.
Lemma stored_put_other L w a p slot r :
  Inv (a :: p :: L) w → free_place (pl w) a INVENTORY_SLOT_BAG_0 slot → GetItemByPos (pl w) INVENTORY_SLOT_BAG_0 slot = None →
  slot < EQUIPMENT_SLOT_END → is_worn r = false → followable w p r → followable (put INVENTORY_SLOT_BAG_0 slot a w) p r.
Proof.
  intros H Hf Hn Hs Hr. assert (∀ dest, sound_dest (pl w) p dest → sound_dest (pl (put INVENTORY_SLOT_BAG_0 slot a w)) p dest) as HS.
  { intros dest [Ho ? ? Hst]. split; [|done..]. rewrite Forall_forall in *. intros pc Hpc. apply (offers_put L); [done..| |by apply Ho].
    destruct (decide (pos_bag (pos pc) = INVENTORY_SLOT_BAG_0)) as [E|]; [right|by left]. specialize (Hst pc Hpc E). slots. }
  destruct r as [dest|dest|x|]; cbn; [| |done..]; intros []; split; auto.
Qed.
Section exchange.
Variables (L : list ptr) (w : Mover) (bag slot s : Z) (p q : ptr).
Hypothesis H : Inv L w.
Hypothesis Hp : GetItemByPos (pl w) bag slot = Some p.
Hypothesis Hq : GetItemByPos (pl w) INVENTORY_SLOT_BAG_0 s = Some q.
Hypothesis Hne : q ≠ p.
Hypothesis Hs : 0 ≤ s < EQUIPMENT_SLOT_END.
Hypothesis Hb : IsBag (mem (pl w) p) = false.
Hypothesis Hf : free_place (pl w) p INVENTORY_SLOT_BAG_0 s.

Lemma worn_no_bag b : GetBagByPos (pl w) b ≠ Some q.
Proof.
  intros (Ho & Hx & _)%GetBagByPos_spec. destruct (position_inj L w _ _ _ _ q H Hq Hx) as [_ <-]. slots.
Qed.
Lemma worn_empty : m_bagslot (mem (pl w) q) = ∅.
Proof.
  pose proof Hq as Hx. apply (position_own L) in Hx as [Ho Hx]; [|done]. destruct (iv_own _ _ H _ _ Hx) as [_ Hi].
  destruct (Hi Ho) as (_ & _ & _ & He). apply inside_nil. destruct (decide (inside w q = [])) as [|Hn]; [done|].
  destruct (He Hn) as [?|[? _]]; slots.
Qed.
Lemma wp_wear_for_places back :
  is_worn back = false → followable w q back → routed w q back = GetCount (mem (pl w) q) →
  wp (_ ← RemoveItem INVENTORY_SLOT_BAG_0 s; _ ← RemoveItem bag slot; _ ← EquipItem (pack INVENTORY_SLOT_BAG_0 s) p; follow back q)
     (λ _, kept L w L) w.
Proof.
  intros Hw Hr Hn. eapply wp_use; [by eapply wp_take|]. cbn beta. intros _ w1 Ht1. pose proof (tn_inv _ _ _ _ _ _ Ht1) as H1.
  assert (GetItemByPos (pl w1) bag slot = Some p) as Hp1 by (apply (taken_others L w _ _ q w1 H Hq Ht1); [done|done|apply worn_no_bag]).
  destruct (followable_taken L w _ _ q w1 back H Hq Ht1 Hr) as [Hr1 En1].
  assert (IsBag (mem (pl w1) p) = false) as Hb1 by (by rewrite (same_goods_IsBag _ _ p (taken_goods _ _ _ _ _ _ Ht1))).
  eapply wp_use; [by eapply wp_take|]. cbn beta. intros _ w2 Ht2. pose proof (tn_inv _ _ _ _ _ _ Ht2) as H2.
  pose proof (stored_taken_other _ _ _ _ _ _ _ _ H1 Hp1 Ht2 Hb1 Hw Hr1) as Hr2.
  assert (∀ b, GetBagByPos (pl w) INVENTORY_SLOT_BAG_0 = Some b → b ≠ q) as N1 by (by intros b (? & _)%GetBagByPos_spec).
  assert (∀ b, GetBagByPos (pl w1) INVENTORY_SLOT_BAG_0 = Some b → b ≠ p) as N2 by (by intros b (? & _)%GetBagByPos_spec).
  assert (free_place (pl w2) p INVENTORY_SLOT_BAG_0 s) as Hf2.
  { eapply taken_free; [exact H1|exact Hp1|exact Ht2|exact N2|]. eapply taken_free; [exact H|exact Hq|exact Ht1|exact N1|exact Hf]. }
  assert (GetItemByPos (pl w2) INVENTORY_SLOT_BAG_0 s = None) as Hn2.
  { rewrite (taken_item_at _ _ _ _ _ _ H1 Hp1 Ht2). case_decide; [done|]. case_decide; [done|].
    rewrite (taken_item_at _ _ _ _ _ _ H Hq Ht1). by rewrite decide_True by done. }
  eapply wp_use; [apply (wp_EquipItem_put (q :: L)); [done|slots|done|done]|]. cbn beta. intros _ w3 [_ Hc].
  pose proof (stored_put_other L w2 p q s back H2 Hf2 Hn2 (proj2 Hs) Hw Hr2) as Hr3. destruct (followable_calm _ _ _ _ Hc Hr3) as [Hr4 _].
  assert (kept L w (q :: L) w3) as Hk.
  { eapply kept_then; [by eapply kept_taken|]. eapply kept_then; [by eapply kept_taken|]. eapply kept_calm; [|exact Hc]. split.
    - by apply Inv_put.
    - intros e. by apply (put_amount (q :: L)). }
  eapply wp_mono; [apply (wp_follow HT L); [apply Hk|done]|]. cbn beta. intros _ w4 Hst.
  eapply kept_then; [exact Hk|]. eapply kept_step; [exact Hst|]. intros e. unfold unit_delta.
  assert (routed w3 q back = GetCount (mem (pl w3) q)) as ->; [|rewrite Z.sub_diag; by destruct (_ =? e)].
  transitivity (routed w q back); [by destruct back|]. rewrite Hn. symmetry.
  destruct (calm_same_goods _ _ Hc q) as (_ & -> & _). destruct (put_goods INVENTORY_SLOT_BAG_0 s p w2 q) as (_ & -> & _).
  destruct (taken_goods _ _ _ _ _ _ Ht2 q) as (_ & -> & _). by destruct (taken_goods _ _ _ _ _ _ Ht1 q) as (_ & -> & _).
Qed.
End exchange.
(** What was worn goes to the place of the other, or to places that are free. *)
Lemma wp_wear_instead L w src s p q back :
  Inv L w → in_u16 src → GetItemByPos (pl w) (pos_bag src) (pos_slot src) = Some p → GetItemByPos (pl w) INVENTORY_SLOT_BAG_0 s = Some q →
  q ≠ p → 0 ≤ s < EQUIPMENT_SLOT_END → IsBag (mem (pl w) p) = false → place_for w src q = (EQUIP_ERR_OK, back) →
  wp (_ ← RemoveItem INVENTORY_SLOT_BAG_0 s; _ ← RemoveItem (pos_bag src) (pos_slot src); _ ← EquipItem (pack INVENTORY_SLOT_BAG_0 s) p; follow back q)
     (λ _, kept L w L) w.
Proof.
  intros H Hu Hp Hq Hne Hs Hb Hr. pose proof (worn_no_bag L w s q H Hq Hs) as Hnq. pose proof (worn_empty L w s q H Hq Hs) as He.
  pose proof (position_held _ _ _ _ _ H Hp) as Hin. pose proof (position_held _ _ _ _ _ H Hq) as Hinq.
  assert (free_place (pl w) p INVENTORY_SLOT_BAG_0 s) as Hf by (eapply (wearable_free L); [done..|]; left; by split).
  destruct (position_range w _ _ p (iv_mem _ _ H) (pos_slot_u8 _) Hp) as [Hns Hnb].
  destruct (place_for_placed L w q src H Hinq Hu He Hns Hnb (Hnq _) p back Hp Hr) as [Hst|(H1 & H2 & H3)]; [|by eapply wp_wear_for_places].
  destruct (pack_unpack INVENTORY_SLOT_BAG_0 s) as [E1 E2]; [by unfold in_u|slots|]. set (dst := pack INVENTORY_SLOT_BAG_0 s) in *.
  assert (straight w p dst (Worn dst)) as Ht.
  { split; rewrite ?E1, ?E2; [done| |done]. left. apply (held_contents L); [done..|]. unfold IsNotEmptyBag. by rewrite Hb. }
  assert (GetItemByPos (pl w) (pos_bag dst) (pos_slot dst) = Some q) as Hq' by (by rewrite E1, E2).
  assert (GetBagByPos (pl w) (pos_bag dst) ≠ Some p) as Hbp by (rewrite E1; by intros (? & _)%GetBagByPos_spec).
  assert (in_u16 dst) as Hud by apply pack_u16. rewrite <- E1, <- E2 at 1. eapply wp_then; [by apply (wp_both_out L w src dst p q (Worn dst) back)|]. cbn beta. intros _ w2 Hbo.
  apply wp_worn. eapply wp_mono; [by eapply (wp_both_in HT L w src dst p q (Worn dst) back)|]. by intros _ w3 [? _].
Qed.
Lemma wp_HandleAutoEquipItemOpcode L w srcbag srcslot :
  Inv L w → in_u8 srcbag → in_u8 srcslot → wp (HandleAutoEquipItemOpcode srcbag srcslot) (λ _, kept L w L) w.
Proof.
  intros H Hsb Hss. unfold HandleAutoEquipItemOpcode. apply wp_get.
  destruct (GetItemByPos (pl w) srcbag srcslot) as [p|] eqn:Hp; [|apply wp_skip; by apply kept_refl].
  pose proof (position_held _ _ _ _ _ H Hp) as Hin. apply wp_item_at; [by eapply held_mine|].
  destruct (CanEquipItem w NULL_SLOT p (negb (IsBag (mem (pl w) p))) true) as [msg dest] eqn:Ec.
  destruct (is_ok msg) eqn:Em; cbn [negb]; [|by apply wp_kept_refuse]. apply is_ok_true in Em as ->.
  assert (in_u8 NULL_SLOT) as Hnu by slots.
  apply (CanEquipItem_ok L) in Ec as (s & -> & Hw & _ & Hn); [|done..].
  destruct (wearable_free L w p s H Hin Hw) as (Hu & _ & Hf). eapply (wp_GetPos L); [exact H|exact Hp|].
  case_bool; [apply wp_skip; by apply kept_refl|]. b2p. unfold GetItemByPos16.
  destruct (place_pack s Hu) as [E1 E2]. rewrite E1, E2.
  destruct (GetItemByPos (pl w) INVENTORY_SLOT_BAG_0 s) as [q|] eqn:Hq.
  - assert (IsBag (mem (pl w) p) = false) as Hb by (destruct (IsBag _); [by specialize (Hn eq_refl)|done]).
    assert (0 ≤ s < EQUIPMENT_SLOT_END) as Hs by (destruct Hw as [[? _]|[[_ ?]|(_ & ? & _)]]; congruence).
    assert (q ≠ p) as Hqp.
    { intros ->. destruct (position_inj L w _ _ _ _ p H Hp Hq) as [-> ->]. done. }
    eapply (wp_GetBagSlot L); [exact H|exact Hq|]. apply wp_item_at; [eapply position_mine; [exact H|exact Hq]|].
    rewrite (position_slot L w _ _ q H Hq). cbv zeta. case_bool; [by apply wp_kept_refuse|].
    destruct (place_for w _ q) as [msg back] eqn:Er. destruct (is_ok msg) eqn:Em; cbn [negb]; [|by apply wp_kept_refuse].
    apply is_ok_true in Em as ->. destruct (pack_unpack srcbag srcslot Hsb Hss) as [B1 B2].
    pose proof (wp_wear_instead L w (pack srcbag srcslot) s p q back H (pack_u16 _ _)) as HW. rewrite B1, B2 in HW.
    specialize (HW Hp Hq Hqp Hs Hb Er).
    eapply wp_afterwards; [exact HW|]. cbn beta. intros _ w1 Hk. eapply wp_kept_last; [exact Hk|]. intros H1. by apply (wp_AutoUnequipOffhandIfNeed HT).
  - apply wp_move_worn. eapply wp_then.
    + apply (wp_move HT L w _ _ p (Worn (pack INVENTORY_SLOT_BAG_0 s))); [done|done| |done]. by exists s.
    + cbn beta. intros _ w1 [Hk _]. eapply wp_kept_last; [exact Hk|]. intros H1. by apply (wp_AutoUnequipOffhandIfNeed HT).
Qed.
End equip.
End MoveAgain.
