(* ===== verification/MoveTheorems.v ===== *)
(** * What the requests that move items promise

    The theorems on the inventory in motion, and the small worlds they are applied to. *)
From S2P Require Import Prelude StateMonad Items Inventory Storage MoveData MoveOps MoveEquip MoveSwap MoveHandlers MoveCalm MoveInvariant MoveSteps MoveOffers MoveWear MoveSearch MovePlans MoveKeep MoveRequests MoveTrade MoveAgain.

Module MoveTheorems.
Export MoveTrade MoveAgain.

(** Those that neither destroy nor sell. *)
Definition moves (r : request) : bool := match r with Destroy _ _ _ | Sell _ _ => false | _ => true end.

(** ** A small world *)

Definition quiver : ItemTemplate := demo_template 6 ITEM_CLASS_QUIVER 2 INVTYPE_BAG 0 1 12 0 0.
Definition priced (t : ItemTemplate) (price : Z) : ItemTemplate := mkTemplate
  (ItemId t) (Class_ t) (SubClass t) (Quality t) (tFlags t) (Flags2 t) (InventoryType t) (AllowableClass t) (AllowableRace t)
  (RequiredLevel t) (RequiredSkill t) (RequiredSkillRank t) (RequiredSpell t) (RequiredReputationFaction t) (RequiredReputationRank t)
  (MaxCount t) (Stackable t) (ContainerSlots t) (SpellId0 t) (SpellId1 t) (BagFamily t) (TotemCategory t) (Socket0_Color t)
  (GemProperties t) (ItemLimitCategory t) (HolidayId t) (Bonding t) price (FlagsCu t) (ScalingStatDistribution t) (MaxDurability t)
  (Duration t).
Definition linen : ItemTemplate := priced cloth 3.
Definition wares : gmap Z ItemTemplate := {[ 1 := linen; 2 := sword; 3 := satchel; 6 := quiver ]}.
#[local] Instance move_items : ItemEnv := {|
  item_templates := wares; sItemLimitCategoryStore := ∅; sSpellItemEnchantmentStore := ∅; sTotemCategoryStore := ∅ |}.
#[local] Instance move_stores : MoveEnv := {|
  sScalingStatDistributionStore := ∅; sItemRandomPropertiesStore := ∅; sItemRandomSuffixStore := ∅;
  GenerateEnchSuffixFactor := λ _, 0; weapon_switch_cooldown := λ _, None |}.

Definition good_template (e : Z) (t : ItemTemplate) : Prop :=
  ItemId t = e ∧ in_s32 (Stackable t) ∧ in_s32 (MaxCount t) ∧ (InventoryType t = INVTYPE_BAG → GetMaxStackSize t = 1).
Lemma wares_ok : templates_ok.
Proof.
  assert (map_Forall good_template wares) as H.
  { unfold wares. repeat (apply map_Forall_insert_2; [by repeat split|]). apply map_Forall_empty. }
  split; intros e t Ht; by apply (H e t Ht).
Qed.

(** A player's item: owned, known to the database or not yet. *)
Definition move_item (g : Z) (t : ItemTemplate) (count slot slots : Z) (contents : gmap Z ptr) : Item :=
  set_m_slot (demo_item g t count false slots contents) slot.
Definition at_rest (container : option ptr) : ItemState := {|
  m_container := container; contained := 0; uState := ITEM_UNCHANGED; uQueuePos := -1; refundable := false; wrapped := false;
  item_duration := 0; enchantment_durations := ∅; GetItemRandomPropertyId := 0; GetItemSuffixFactor := 0; played_time := 0;
  m_lastPlayedTimeUpdate := 0; isLooted := true |}.
Definition demo_mover (slots : gmap Z ptr) (items : gmap ptr Item) (sts : gmap ptr ItemState) (buyback : Z) : Mover := {|
  pl := demo_player slots items false; states := sts; next_address := 100; next_guid := 100;
  m_itemUpdateQueue := []; m_itemUpdateQueueBlocked := false; m_itemDuration := []; m_enchantDuration := [];
  m_itemSoulboundTradeable := []; m_refundableItems := ∅; buyback_price := ∅; buyback_timestamp := ∅;
  m_currentBuybackSlot := buyback; GetMoney := 0; m_weaponChangeTimer := 0; mailed := []; now := 1000; m_logintime := 0;
  GetTotalPlayedTime := 0; CanDualWield := false; CanTitanGrip := false; stunned := false; IsNonMeleeSpellCast := false;
  InArena := false; traded := ∅; GetLootGUID := 0; CanUseBank := true; at_vendor := true; effects := [] |}.

(** A satchel in the first bag slot with eight linen in it, twelve linen in the backpack, a
    sword in the hand and another in the backpack. *)
Definition packed : Mover :=
  demo_mover {[ 15 := 33; 19 := 30; 23 := 31; 24 := 34 ]}
    {[ 30 := move_item 30 satchel 1 19 16 {[ 2 := 32 ]}; 31 := move_item 31 linen 12 23 0 ∅; 32 := move_item 32 linen 8 2 0 ∅;
       33 := move_item 33 sword 1 15 0 ∅; 34 := move_item 34 sword 1 24 0 ∅ ]}
    {[ 30 := at_rest None; 31 := at_rest None; 32 := at_rest (Some 30); 33 := at_rest None; 34 := at_rest None ]}
    BUYBACK_SLOT_START.

(** Divided, moved, put on, put in the bag, put on again, thrown away. *)
Definition afternoon : list request :=
  [Split 255 23 255 25 5; Swap 255 26 255 25; AutoEquipSlot 34 15; AutoStoreBag 255 23 19; AutoBank 19 0; Destroy 255 24 0].
Definition after (rs : list request) : Mover := match run_all rs packed with Ok (_, w) => w | _ => packed end.

(** A quiver is worn, another is in the backpack. *)
Definition archer : Mover :=
  demo_mover {[ 19 := 30; 24 := 34 ]} {[ 30 := move_item 30 quiver 1 19 12 ∅; 34 := move_item 34 quiver 1 24 12 ∅ ]}
    {[ 30 := at_rest None; 34 := at_rest None ]} BUYBACK_SLOT_START.
(** Twelve are sold, of two of them the player thinks better, and sells one again. *)
Definition busy : list request :=
  replicate 9 (Sell 31 1) ++ replicate 3 (Sell 32 1) ++ [Buyback 80; Buyback 76; Sell 31 1].
Lemma demo_mover_mem_ok slots items sts buyback :
  map_Forall (λ _ it, 0 ≤ GetCount it ∧ GetBagSize it ≤ MAX_BAG_SIZE) items → mem_ok (pl (demo_mover slots items sts buyback)).
Proof.
  intros H. split.
  - apply (demo_mem (λ it, 0 ≤ GetCount it)); [done|]. intros q it Hq. by apply (H q it Hq).
  - apply (demo_mem (λ it, GetBagSize it ≤ MAX_BAG_SIZE)); [done|]. intros q it Hq. by apply (H q it Hq).
Qed.
(** An item of [packed], checked field by field. *)
Ltac item_sound := split; [split; [eexists; split; [vm_compute; reflexivity|done]|vm_compute; reflexivity]|by vm_compute|by vm_compute|vm_compute; reflexivity|split; by vm_compute|vm_compute; reflexivity].
Lemma packed_items p : p ∈ held [] packed → sound_item packed p.
Proof.
  assert (held [] packed = [31; 33; 30; 32; 34]) as -> by (vm_compute; reflexivity).
  rewrite !elem_of_cons, elem_of_nil. intros [->|[->|[->|[->|[->|[]]]]]]; item_sound.
Qed.
Lemma packed_in_order : in_order packed.
Proof.
  split.
  - apply (bool_decide_eq_true_1 _). vm_compute. reflexivity.
  - apply packed_items.
  - assert (held [] packed = [31; 33; 30; 32; 34]) as -> by (vm_compute; reflexivity).
    intros p q. rewrite !elem_of_cons, !elem_of_nil. intros [->|[->|[->|[->|[->|[]]]]]] [->|[->|[->|[->|[->|[]]]]]] E; by vm_compute in E.
  - assert (map_Forall (λ s p, in_slot packed s p) (m_items (pl packed))) as H.
    { unfold in_slot. apply (bool_decide_eq_true_1 _). vm_compute. reflexivity. }
    intros s p. apply H.
  - assert (Forall (λ b, map_Forall (λ j p, in_bag_slot packed b j p) (m_bagslot (mem (pl packed) b))) (roots [] packed)) as H.
    { unfold in_bag_slot. apply (bool_decide_eq_true_1 _). vm_compute. reflexivity. }
    intros b j p Hb. rewrite Forall_forall in H. by apply H.
  - apply demo_mover_mem_ok. apply (bool_decide_eq_true_1 _). vm_compute. reflexivity.
  - by vm_compute.
Qed.
(** ** Requests *)
Section requests.
Context `{IE : ItemEnv} `{ME : MoveEnv}.
Context (HT : templates_ok).

Lemma byte_range x : in_u8 (u8 x).
Proof. apply wrap_range. lia. Qed.
Lemma word_nonneg x : 0 ≤ u32 x.
Proof. apply wrap_range. lia. Qed.
Lemma byte_nonneg x : 0 ≤ u8 x.
Proof. apply wrap_range. lia. Qed.
Local Hint Resolve byte_range word_nonneg byte_nonneg : core.

Lemma wp_request_moves w r : moves r = true → in_order w → wp (run r) (λ _, kept_but_loot [] w) w.
Proof.
  intros Hm H. destruct r; try discriminate Hm; cbn [run].
  - by apply wp_kept_but_loot, (wp_HandleSplitItemOpcode HT).
  - by apply (wp_HandleSwapItem HT).
  - by apply wp_kept_but_loot, (wp_HandleAutoEquipItemOpcode HT).
  - by apply (wp_HandleAutoEquipItemSlotOpcode HT).
  - by apply wp_kept_but_loot, (wp_HandleAutoStoreBagItemOpcode HT).
  - by apply wp_kept_but_loot, (wp_HandleAutoBankItemOpcode HT).
  - by apply wp_kept_but_loot, (wp_HandleAutoStoreBankItemOpcode HT).
  - by apply wp_kept_but_loot, (wp_HandleBuybackItem HT).
Qed.
Lemma wp_request w r : in_order w → wp (run r) (λ _, spent [] w []) w.
Proof.
  intros H. destruct (moves r) eqn:E.
  - eapply wp_mono; [by apply wp_request_moves|]. cbn beta. intros _ w1 Hk. apply Hk.
  - destruct r; try discriminate E; cbn [run].
    + by apply (wp_HandleDestroyItemOpcode HT).
    + by apply (wp_HandleSellItemOpcode HT).
Qed.
Lemma wp_run_all rs w : in_order w → wp (run_all rs) (λ _, spent [] w []) w.
Proof.
  revert w. induction rs as [|r rs IH]; intros w H; [by apply wp_skip, spent_refl|].
  unfold run_all. cbn [for_each]. eapply wp_use; [by apply wp_request|]. cbn beta. intros _ w1 H1.
  eapply wp_mono; [apply IH, H1|]. cbn beta. intros _ w2. by apply spent_trans.
Qed.
(** With no loot open. *)
Lemma wp_run_all_moves rs w :
  forallb moves rs = true → GetLootGUID w = 0 → in_order w → wp (run_all rs) (λ _, kept [] w []) w.
Proof.
  revert w. induction rs as [|r rs IH]; intros w Hm Hg H; [by apply wp_skip, kept_refl|]. cbn in Hm. apply andb_true_iff in Hm as [Hr Hm].
  unfold run_all. cbn [for_each]. eapply wp_use; [apply wp_shut; [apply shut_run|by apply wp_request_moves]|]. cbn beta. intros _ w1 [H1 Hl].
  eapply wp_mono; [apply IH; [done|by apply Hl|apply H1]|]. cbn beta. intros _ w2. apply kept_then. by apply H1.
Qed.
End requests.

(** ** The properties *)
Section properties.
Context `{IE : ItemEnv} `{ME : MoveEnv}.

(** C1: whatever the client asks for, in any order, the inventory is in order afterwards:
    every item is in one place that knows of it, with a number that its stack can have and
    an owner, a template and a state of its own; and on the way no pointer to a deleted item
    is used, no assertion fails and the bags within bags that are destroyed come to an end.
    Left open is what happens when more than 2^15 entries are in the update queue, whose
    positions have 16 bits. *)
Theorem requests_in_order rs w :
  templates_ok → in_order w →
  match run_all rs w with Ok (_, w') => in_order w' | Undefined => True | _ => False end.
Proof.
  intros HT H. pose proof (wp_run_all HT rs w H) as HW. unfold wp in HW. destruct (run_all rs w) as [[? w']| | | |]; try done.
  apply HW.
Qed.

(** C7: no history of requests gives the player more of any item than there was, with what
    can be bought back and what is on its way by mail counted; and one without sales and
    destroyed items leaves exactly what there was, if the player has no loot open: to move
    a bag closes the loot of an item in it, and what was opened, prospected or milled is
    destroyed then. *)
Theorem nothing_is_made rs w w' e :
  templates_ok → in_order w → run_all rs w = Ok (tt, w') →
  amount e [] w' ≤ amount e [] w ∧ (forallb moves rs = true → GetLootGUID w = 0 → amount e [] w' = amount e [] w).
Proof.
  intros HT H E. split.
  - pose proof (wp_run_all HT rs w H) as HW. unfold wp in HW. rewrite E in HW. exact (sp_amount _ _ _ _ HW e).
  - intros Hm Hg. pose proof (wp_run_all_moves HT rs w Hm Hg H) as HW. unfold wp in HW. rewrite E in HW. exact (kp_amount _ _ _ _ HW e).
Qed.

Lemma GetPos_place w bag slot p : in_order w → GetItemByPos (pl w) bag slot = Some p → GetPos p w = Ok (pack bag slot, w).
Proof.
  intros H Hp. pose proof (wp_GetPos [] w bag slot p mret (λ x w', x = pack bag slot ∧ w' = w) H Hp ltac:(by apply wp_ret)) as HW.
  unfold wp, mbind, ST_bind in HW. destruct (GetPos p w) as [[x w']| | | |] eqn:E; cbn in HW; try done; [by destruct HW as [-> ->]|].
  exfalso. revert E. unfold GetPos, GetBagSlot, item_at, state_at, mbind, ST_bind, get, lift. cbn.
  destruct (states w !! p) as [s|] eqn:Es; [|done]. cbn. destruct (m_container s) as [b|]; cbn; [destruct (states w !! b); [|done]|]; cbn; by rewrite Es.
Qed.
(** C19: in every state that requests lead to, an item that is found at a position knows that
    position, is found at no other, belongs to the player, and its number is one to the
    size of its stack. *)
Theorem items_know_their_place rs w w' bag slot p :
  templates_ok → in_order w → run_all rs w = Ok (tt, w') → GetItemByPos (pl w') bag slot = Some p →
  GetPos p w' = Ok (pack bag slot, w') ∧
  (∀ bag' slot', GetItemByPos (pl w') bag' slot' = Some p → bag' = bag ∧ slot' = slot) ∧
  owner (mem (pl w') p) = player_guid (pl w') ∧ 1 ≤ GetCount (mem (pl w') p) ≤ GetMaxStackSize (GetTemplate (mem (pl w') p)).
Proof.
  intros HT H E Hp. assert (in_order w') as H'.
  { pose proof (wp_run_all HT rs w H) as HW. unfold wp in HW. rewrite E in HW. exact (sp_inv _ _ _ _ HW). }
  split_and!.
  - by apply GetPos_place.
  - intros bag' slot' Hp'. by apply (position_inj [] w' _ _ _ _ p H').
  - by destruct (position_mine _ _ _ _ _ H' Hp).
  - apply (so_count _ _ (iv_item _ _ H' p (position_held _ _ _ _ _ H' Hp))).
  - apply (so_count _ _ (iv_item _ _ H' p (position_held _ _ _ _ _ H' Hp))).
Qed.

Lemma equip_slots_quiver w p preferred swap not_loading :
  InventoryType (GetTemplate (mem (pl w) p)) = INVTYPE_BAG → Class_ (GetTemplate (mem (pl w) p)) = ITEM_CLASS_QUIVER →
  equip_slots w p preferred swap not_loading = CanEquipQuiver w p (u8 preferred) (map (λ i, INVENTORY_SLOT_BAG_START + i) [0; 1; 2; 3]).
Proof.
  intros Et Ec. unfold equip_slots. rewrite Et, Ec.
  repeat match goal with |- context [INVTYPE_BAG =? ?k] => let b := eval vm_compute in (INVTYPE_BAG =? k) in change (INVTYPE_BAG =? k) with b; cbv iota end.
  done.
Qed.
(** C35: where a quiver can be worn that is the second: the slot of the first is counted from
    the first bag slot although it is counted from there already, so that the quiver is put
    on in the last slot of the backpack or in one of the first three of the bank, if there
    is room at that number. *)
Theorem second_quiver_out_of_place w p i not_loading :
  InventoryType (GetTemplate (mem (pl w) p)) = INVTYPE_BAG → Class_ (GetTemplate (mem (pl w) p)) = ITEM_CLASS_QUIVER →
  find (worn_quiver w p) (range INVENTORY_SLOT_BAG_START INVENTORY_SLOT_BAG_END) = Some i →
  own_item w (INVENTORY_SLOT_BAG_START + i) = None →
  CanFindEquipSlot w p NULL_SLOT false not_loading = (EQUIP_ERR_OK, INVENTORY_SLOT_BAG_START + i) ∧
  INVENTORY_SLOT_ITEM_END - 1 ≤ INVENTORY_SLOT_BAG_START + i < BANK_SLOT_ITEM_START + 3.
Proof.
  intros Et Ec Ef Hn. pose proof Ef as Hi. apply find_some in Hi as [Hi _]. apply list_elem_of_In, elem_of_seqZ in Hi.
  split; [|slots]. unfold CanFindEquipSlot. rewrite equip_slots_quiver by done. unfold CanEquipQuiver. rewrite Ef.
  change (between INVENTORY_SLOT_BAG_START (u8 NULL_SLOT) INVENTORY_SLOT_BAG_END) with false. rewrite andb_false_r. cbn.
  rewrite wrap_small by slots. rewrite (proj2 (Z.eqb_neq _ _)) by slots. by rewrite Hn.
Qed.

Lemma oldest_slot_taken w l time slot : is_Some (own_ptr w slot) → is_Some (own_ptr w (oldest_slot w l time slot)).
Proof.
  revert time slot. induction l as [|i l IH]; intros time slot Hs; [done|]. cbn [oldest_slot]. case_bool; [done|]. cbv zeta.
  apply bool_decide_eq_false in E. case_bool; apply IH; [by apply not_eq_None_Some|done].
Qed.
Lemma taken_own_ptr w bag slot p w1 s :
  in_order w → GetItemByPos (pl w) bag slot = Some p → taken [] bag slot p w w1 → BUYBACK_SLOT_START ≤ s < BUYBACK_SLOT_END →
  own_ptr w1 s = own_ptr w s.
Proof.
  intros H Hp Ht Hs. unfold own_ptr. rewrite <- (cm_items _ _ (tn_calm _ _ _ _ _ _ Ht)), take_own by exact Hp. rewrite decide_False; [done|].
  intros [-> ->]. apply (position_own []) in Hp as [Ho _]; [|done]. slots.
Qed.
(** C36: when the next of the slots for buying back is taken and the first too, a sale
    destroys an item that could be bought back, however many of the slots are free: the
    item that is sold takes its place, and the free slots stay free. *)
Theorem sale_destroys_while_a_slot_is_free w bag slot p :
  templates_ok → in_order w → GetItemByPos (pl w) bag slot = Some p → 0 < SellPrice (GetTemplate (mem (pl w) p)) →
  is_Some (own_ptr w (m_currentBuybackSlot w)) → is_Some (own_ptr w BUYBACK_SLOT_START) →
  match sell p (GetCount (mem (pl w) p)) w with
  | Ok (_, w') =>
    in_order w' ∧ ∃ s y,
      BUYBACK_SLOT_START ≤ s < BUYBACK_SLOT_END ∧ own_ptr w s = Some y ∧ own_ptr w' s = Some p ∧
      (∀ e, amount e [] w' + units w e y ≤ amount e [] w) ∧
      (∀ s', BUYBACK_SLOT_START ≤ s' < BUYBACK_SLOT_END → s' ≠ s → own_ptr w' s' = own_ptr w s')
  | Undefined => True
  | _ => False
  end.
Proof.
  intros HT H Hp Hpr Hcur Hfirst. pose proof (wp_sell_all HT [] w bag slot p H Hp Hpr) as HW. unfold wp in HW.
  destruct (sell p _ w) as [[? w']| | | |]; try done. destruct HW as (w1 & w2 & Ht & [Hsp Hl Hi] & Hc).
  split; [eapply calm_Inv; [exact Hc|apply Hsp]|]. set (s := buyback_slot w1) in *.
  assert (m_currentBuybackSlot w1 = m_currentBuybackSlot w) as Ecur.
  { rewrite <- (cm_buyback _ _ (tn_calm _ _ _ _ _ _ Ht)). unfold take, unlink. cbn. case_bool; [done|].
    destruct (GetBagByPos (pl w) bag); [|done]. unfold box. by destruct (states w !! p). }
  assert (BUYBACK_SLOT_START ≤ s < BUYBACK_SLOT_END) as Hs by (apply (buyback_slot_range HT [p]), Ht).
  assert (is_Some (own_ptr w1 s)) as [y Hy].
  { unfold s, buyback_slot. rewrite Ecur. case_bool.
    - apply oldest_slot_taken. by rewrite (taken_own_ptr w bag slot p w1) by (done || slots).
    - rewrite (taken_own_ptr w bag slot p w1); [done..|]. apply H. }
  assert (∀ s', own_ptr w' s' = if decide (s' = s) then Some p else own_ptr w1 s') as Ei.
  { intros s'. unfold own_ptr. rewrite <- (cm_items _ _ Hc). apply Hi. }
  exists s, y. split; [done|]. rewrite <- (taken_own_ptr w bag slot p w1 s) by done. split; [done|].
  split; [rewrite Ei; by rewrite decide_True|]. split.
  - intros e. rewrite <- (tn_amount _ _ _ _ _ _ Ht e), <- (calm_amount e _ _ _ Hc). specialize (Hl y e Hy).
    enough (units w1 e y = units w e y) by lia. destruct (taken_goods _ _ _ _ _ _ Ht y) as (E1 & E2 & _). unfold units, GetEntry. by rewrite E1, E2.
  - intros s' Hs' Hne. rewrite Ei, decide_False by done. by eapply taken_own_ptr.
Qed.
End properties.

(** ** Applied *)

Lemma requests_in_order_witness :
  match run_all afternoon packed with Ok (_, w') => in_order w' | Undefined => True | _ => False end.
Proof. apply (requests_in_order afternoon packed wares_ok packed_in_order). Defined.
Lemma nothing_is_made_witness :
  amount 1 [] (after afternoon) ≤ amount 1 [] packed ∧
  (forallb moves afternoon = true → GetLootGUID packed = 0 → amount 1 [] (after afternoon) = amount 1 [] packed).
Proof. apply (nothing_is_made afternoon packed (after afternoon) 1 wares_ok packed_in_order). vm_compute. reflexivity. Defined.
Lemma items_know_their_place_witness :
  GetPos 100 (after afternoon) = Ok (pack 255 26, after afternoon) ∧
  (∀ bag' slot', GetItemByPos (pl (after afternoon)) bag' slot' = Some 100 → bag' = 255 ∧ slot' = 26) ∧
  owner (mem (pl (after afternoon)) 100) = player_guid (pl (after afternoon)) ∧
  1 ≤ GetCount (mem (pl (after afternoon)) 100) ≤ GetMaxStackSize (GetTemplate (mem (pl (after afternoon)) 100)).
Proof.
  apply (items_know_their_place afternoon packed (after afternoon) 255 26 100 wares_ok packed_in_order); vm_compute; reflexivity.
Defined.

Lemma second_quiver_out_of_place_witness :
  (CanFindEquipSlot archer 34 NULL_SLOT false true = (EQUIP_ERR_OK, 38) ∧ 38 ≤ 38 < 42) ∧
  match run (AutoEquip 255 24) archer with
  | Ok (_, w') => GetItemByPos (pl w') 255 38 = Some 34 ∧ effects w' = [ApplyItemMods 34 38 true]
  | _ => False
  end.
Proof.
  split; [|by vm_compute]. apply (second_quiver_out_of_place archer 34 19 true); vm_compute; reflexivity.
Defined.

(** After [busy] two of the slots are free and the next is not. *)
Definition sold_out : Mover := match run_all busy packed with Ok (_, w) => w | _ => packed end.
Lemma busy_runs : run_all busy packed = Ok (tt, sold_out).
Proof. vm_compute. reflexivity. Qed.
Lemma sold_out_in_order : in_order sold_out.
Proof. exact (sp_inv _ _ _ _ (wp_run _ _ _ _ _ (wp_run_all wares_ok busy packed packed_in_order) busy_runs)). Qed.
Lemma sale_destroys_while_a_slot_is_free_witness :
  own_ptr sold_out 76 = None ∧
  match sell 31 (GetCount (mem (pl sold_out) 31)) sold_out with
  | Ok (_, w') =>
    in_order w' ∧ ∃ s y,
      BUYBACK_SLOT_START ≤ s < BUYBACK_SLOT_END ∧ own_ptr sold_out s = Some y ∧ own_ptr w' s = Some 31 ∧
      (∀ e, amount e [] w' + units sold_out e y ≤ amount e [] sold_out) ∧
      (∀ s', BUYBACK_SLOT_START ≤ s' < BUYBACK_SLOT_END → s' ≠ s → own_ptr w' s' = own_ptr sold_out s')
  | Undefined => True
  | _ => False
  end.
Proof.
  split; [vm_compute; reflexivity|].
  apply (sale_destroys_while_a_slot_is_free sold_out 255 23 31 wares_ok sold_out_in_order);
    [vm_compute; reflexivity|vm_compute; reflexivity|eexists; vm_compute; reflexivity|eexists; vm_compute; reflexivity].
Defined.

End MoveTheorems.
